(* ===== verification/_CoqProject ===== *)
-Q . S2P
Prelude.v
Status.v
LockTable.v
Naming.v
Instance.v
ImonState.v
ImonExample.v
ImonPlacement.v
ImonActions.v
ImonRestart.v
ImonOrchestrate.v
ImonEvents.v
ImonLogic.v
ImonAffinity.v
ImonElection.v
ImonSafety.v
ImonGuards.v
ImonRequests.v
ImonResources.v
Omon.v
Discover.v
Nmon.v
NmonLogic.v
NmonSafety.v
NmonCluster.v
ClusterData.v
Daemondata.v
Replication.v
DataCluster.v
Calendar.v
Convert.v
Schedule.v
ScheduleParse.v
ScheduleNext.v
ScheduleTest.v
ScheduleDrift.v
ScheduleExamples.v
Key.v
SchedTable.v
SchedQueue.v
SchedHeap.v
Scheduler.v
SchedulerExample.v
SchedulerLogic.v
SchedulerInvariant.v
SchedulerLive.v
HbCtrl.v
HbCtrlLogic.v
HbCtrlSafety.v
HbCtrlExample.v
HbMain.v
HbMainLogic.v
HbMainSafety.v
Rbac.v
RbacPolicy.v
RbacConfig.v
Ini.v
IniBytes.v
IniRead.v
IniLocal.v
IniDoc.v
IniLines.v
IniEncode.v
IniQuote.v
IniExact.v
IniShape.v
IniLoad.v
IniEdit.v
IniWrite.v
IniSource.v
IniSafety.v
Pubsub.v
PubsubKeys.v
PubsubLogic.v
PubsubRoutes.v
PubsubStages.v
PubsubSafety.v
