(* ===== verification/Prelude.v ===== *)
(** * om3: a verification development of the OpenSVC agent

    om3 keeps services running on the nodes of a cluster.  Each node runs a
    daemon; the daemons exchange their data, and no node commands the others: a
    node decides what to do for each object from what it sees.  This library
    models the parts of the agent that take these decisions, and the data they
    take them on, as Rocq functions, and proves what makes them correct.

    ** The program and its parts

    - The states of a resource, of an instance and of an object, and how they
      aggregate: src/core/status, provisioned, topology, placement.  Modelled
      in [Status] (modules [status], [provisioned], [topology], [placement]).
    - The names of the objects and their texts: src/core/naming,
      src/util/hostname.  Modelled in [Naming].
    - The data of the monitors, of the statuses and of the configurations:
      src/core/instance, node, object, resource, resourceid.  Modelled in
      [Instance], with the fields the monitors read.
    - The cluster locks one node grants for all: src/daemon/locktable.
      Modelled whole in [LockTable].
    - The instance monitor, src/daemon/imon: one per object and node, it serves
      the requests (start, stop, move, provision, resize, purge, ...), starts
      and restarts on its own, and elects the node to start on.  It is a
      [Manager] struct changed by the messages it handles, one at a time.
      - [ImonState]: the struct, the effects, the environment, the monad of the
        methods and its logic (main.go);
      - [ImonPlacement]: affinities, placement policies, candidates, leaders
        (affinity.go, main_cmd.go);
      - [ImonActions]: publication, commands, flag files, refreshes, waits, the
        end of an orchestration (main.go, crm_actions.go, non_crm_action.go,
        event_refresh.go, outdated.go, wait_syncs.go, wait_destination.go,
        orchestration.go, main_cmd.go);
      - [ImonRestart]: stops, restarts of resources, monitor actions
        (orchestration_stopped.go, orchestration_resource_restart.go);
      - [ImonOrchestrate]: one orchestration per global expect, and the pass
        [orchestrate] that picks one (orchestration_*.go,
        orchestrate_deleted.go, converge_global_expect.go);
      - [ImonEvents]: requests, monitors and nodes of the peers, convergence,
        fencing, flags missed while away (main_cmd.go,
        converge_global_expect.go, stonith.go).
    - The object monitor, src/daemon/omon: one per object, it aggregates the
      statuses of the instances into the object status the instance monitors
      decide on, and starts the local one.  Modelled whole in [Omon] (main.go,
      placement.go), each handler as a function to [option Manager].
    - The loop of src/daemon/discover that starts the object monitors.  Modelled
      in [Discover] (omon.go), with the system it forms with them: the store
      instance.ConfigData, the changes made and not yet published, the queue of
      each subscription and the running monitors, moved by a step relation.
    - The node monitor, src/daemon/nmon: one per node, it freezes, drains and
      shuts the node, counts the live nodes and the votes of the arbitrators
      when a peer is lost, elects the speaker that grants the locks, and holds
      a node that starts until it has the data of its peers.  Modelled in
      [Nmon]: the struct, every handler, the loop [run] (main.go, main_cmd.go,
      arbitrator.go, speaker.go, orchestration_*.go, crm_actions.go).
    - The data of the cluster, src/daemon/msgbus: the data set of each node and
      [ApplyMessage].  Modelled in [ClusterData].
    - Its replication, src/daemon/daemondata: generations, pings, patches and
      full messages, the runs of the peers.  Modelled in [Daemondata] as the
      functions on the state of the goroutine that runs [data.run].
    - The expressions of the scheduled actions, src/util/schedule: the parser,
      TestWithLast and Next.  Modelled whole in [Schedule], on the calendar of
      the [time] package ([Calendar]) and the conversions of src/util/converters
      it uses ([Convert]).
    - The keys of the configuration and their operations, src/util/key,
      src/core/keyop: [Key].
    - The entries of the schedules, their tables, events and paces,
      src/core/schedule, with src/core/resourcereqs and the replication source of
      src/core/instance: [SchedTable].
    - The scheduler, src/daemon/scheduler: it plans the entries of the node and
      of its instances, follows what they require, takes the jobs due and runs
      what events ask for.  [SchedQueue] is its queue, on the Go heap (queue.go);
      [Scheduler] its triggers, its commands and its loop (trigger.go, jobs.go,
      main.go).  It reads the instance monitors, the node monitor and the object
      statuses of the components above; the state of a round is the [T] struct.
    - The controller of the heartbeats, src/daemon/hb/hbctrl: it says which nodes
      are alive from the streams that beat.  Modelled in [HbCtrl] (main.go,
      peer_watcher.go) with the watchers of the streams, the beats delivered to
      them and time, moved by the actions of a system.
    - The manager of the heartbeats, src/daemon/hb: it keeps the transmitters and
      the receivers running as configured.  Modelled in [HbMain] (main.go).
    - The access control of the API: the roles and the grants of src/daemon/rbac,
      the checks of the handlers and the grants of the tokens, in [Rbac]; the policy
      of the keywords, src/core/keyoprbac, in [RbacPolicy]; the writes of the
      configurations, src/daemon/daemonapi/lib_rbac.go and src/core/rootless, in
      [RbacConfig], over any configuration.
    - The configuration files, src/util/ini: the reader, the sections and the keys,
      the writer.  Modelled in [Ini] (ini.go, parse.go, file.go, write.go), on lists of
      bytes.
    - The bus the components publish their messages on, src/util/pubsub: its index,
      its goroutine and its buffer, the goroutines and the queues of the
      subscriptions.  Modelled in [Pubsub] (main.go) as the actions of a system.

    A Go function is a definition of the same name; a closure or a loop body
    proved apart has a name of its own.  Structs are records, enumerations are
    inductive types (or the integer they are when the code does arithmetic on
    it), maps are finite maps.  An [int] counter is an integer, a
    [time.Duration] saturates at 64 bits where the code subtracts dates, the
    generation of the lock table wraps at 64 bits.

    A method of the instance monitor is a function from a manager to a result
    and a manager, or to [None], a Go panic; nil dereferences are written out.
    Its effects are the events of a trace, and what it reads from outside is an
    answer of an arbitrary environment that sees the trace: the theorems hold
    for every clock, every outcome of a command, every map iteration order.

    ** What the theorems show

    - [ImonSafety]: a pass of [orchestrate] never panics once the object status
      is known (and does before, in one case); it takes only the actions its
      request, or its resource monitor, calls for; it keeps the request, and
      ends it only when every node is done.
    - [ImonGuards]: what holds when the daemon makes an instance ready, and when
      it starts one, on its own.
    - [ImonElection]: the nodes whose views agree elect no more instances than
      wanted, exactly as many when they can, and none under two policies.
    - [ImonRequests]: one answer per request, none lost to a later one, and all
      the nodes end up with the most recent request, when no two have one date.
    - [ImonResources]: restarts spend a bounded budget; a resize advances in
      lockstep over the nodes.
    - [ImonAffinity]: the worklist of the hard affinities computes reachability.
    - [Omon]: the published object status is a function of the set of instance
      statuses and monitors, whatever the map iteration orders, and warns of an
      excess of instances; the worker never panics on what its publishers
      send, supervises at most one instance monitor, and survives a change of
      all the nodes of an object.
    - [Discover]: over every interleaving, an object has at most one monitor,
      none is left without one, and the caches of the monitors converge to the
      store.
    - [NmonSafety]: every orchestration accepted by the node monitor ends or is
      pending; its state is published between two messages; a node in its rejoin
      state acts on nothing.  [NmonLogic] is the relation of the handlers that
      touch neither.
    - [NmonCluster]: of the two partitions of a cluster one gives up, with the
      exception the code leaves; one speaker per view; a freeze ends.
    - [Replication], [DataCluster]: nodes that replicate their data over a
      network that loses, delays, reorders and duplicates messages, with
      restarts of any of them: a replica is always the data of its owner at the
      generation it is said to be, nothing panics, and a node asked for its data
      sends it and brings its peer up to date.  Two data sets are compared with
      an equivalence that forgets what each node writes of its own.
    - [LockTable]: mutual exclusion over every interleaving of the methods, as long
      as a rebuild is given all the live locks; the bounds of leases and waits, the
      safety of a rebuild.
    - [ScheduleParse], [ScheduleTest], [ScheduleNext], [ScheduleDrift]: what the
      parser yields is well formed; TestWithLast is its specification by covering
      elements; Next is the least time TestWithLast allows, where it is, and
      returns.  [ScheduleExamples] evaluates the cases of the tests of the code,
      and those where the code departs from its comments.
    - [SchedHeap]: the queue of the scheduler implements a map of planned
      entries, taken in the order they are due.
    - [SchedulerLogic], [SchedulerInvariant], [SchedulerLive]: a run starts only
      when nothing blocks or holds it and below the maximum of the node; the
      jobs and the triggers are those of the configuration in every reachable
      state; a tick loses no job that has a next time, the loop wakes up in time, and the runs of
      events are paced.  [SchedulerExample] is a node these are instantiated on.
    - [HbCtrlSafety], on [HbCtrlLogic]: in every interleaving of the drivers, the
      controller, the watchers and time, the controller counts the streams that
      beat and says a node alive when one does and stale once all are silent, as
      long as the streams are stopped settled.  [HbCtrlExample] shows what happens
      when they are not: on demand restarts, and a panic.
    - [HbMainSafety], on [HbMainLogic]: one transmitter and one receiver per
      heartbeat, whatever starts fail, and those of the configuration.
    - [Rbac], [RbacPolicy], [RbacConfig]: a token, and on the node that checks it a user
      an administrator writes, get nothing their author does not hold, when this one has
      no grant of root on a namespace; a keyword only root may write
      stays as it is on every node under the writes of the others; the other values
      are checked on one node, and [configExample] shows what passes on its peers.
    - [IniSafety]: a document loaded or created, then changed, is read back as it was
      changed; a document nobody changed is written as it was read; the values that
      can always be written.  The elements of the document start at the first column,
      the names are plain, the comments are shorter than the lookahead of the writer,
      the text does not end with a backslash; the examples at its end show what happens
      otherwise.  [IniBytes] to [IniLocal] are about the reader on bytes, [IniDoc] and
      [IniLines] about its loop, [IniEncode] and [IniQuote] about the form a value is
      written in, [IniExact] and [IniShape] about what a text is read as, [IniLoad] and
      [IniEdit] keep the invariant of the documents, [IniWrite] and [IniSource] conclude.
    - [PubsubSafety]: over every interleaving, a subscription is sent what its filters ask
      for, in the order of the publications, the buffered ones included, and its queues
      lose nothing; the queues are bounded and counted.  [PubsubKeys] is about the keys of
      the filters, [PubsubLogic] reads the steps off the actions, [PubsubRoutes] is the
      invariant of the index, [PubsubStages] the one of a subscription.  The examples show
      what happens with deleted filters, subscriptions not started, stopped ones.
    - [Key]: keys and their texts, and a text that panics.
    - [Status], [Naming], [Instance]: algebra of the aggregations, round trips
      of the texts, and the names that collide.

    [ImonLogic] carries the proofs about the monitor: a type class of the
    invariants that survive the elementary steps, and one lemma per method that
    keeps them all.  [ImonExample] is a two-node cluster the theorems are
    instantiated on.

    ** Bounds and fuel

    Recursion is structural everywhere but in the affinity worklist, whose fuel
    is two more than the number of affinities any configuration names; the
    theorem on it shows that fuel enough for the loop to empty.  The padding
    and the blocks of md5 are cut with the length of the message as fuel.  The
    readers of durations, of json and of requirements consume a character at each
    round, and have the length of the text.  The drifts of Next in a day have one
    round per range of the exclusions and of the expression, which [ScheduleDrift]
    shows enough; the heap operations the length of the queue, which [SchedHeap]
    shows enough; the easing of an interval 64 rounds ([SchedulerLive.ease_fuel]).  The
    loops of the reader of the configuration files read a line at each round, and have
    the length of the text; [IniRead] and [IniDoc] show it enough.

    ** What is not modelled

    Log messages, goroutines (a command runs to its end in the step that starts
    it; what a goroutine posts later is an event of the trace), the dispatch
    loop and the subscriptions of the monitor, the handlers of instance status
    and configuration, resource files and volumes, and the other daemons and
    commands: the I/O of the heartbeat drivers, API, drivers, configuration engine,
    command line.  A run of the scheduler is listed until an event ends it; its command,
    its messages and its logs are not.  The dates are those of a location with no
    offset and no transitions.  The components that receive messages are not linked to
    [Pubsub]: they are taken to receive those of a subscription in the order of their
    publication, which [PubsubSafety] shows of the bus.  Next in line: the rest of
    the instance monitor's handlers, the status bus, the publishers of statuses
    and configurations (istat, icfg), the operations of core/xconfig.

    ** This file

    The reading of the Go constructs the components share (record update,
    [time.Time], [sort.SliceStable], membership of a value in a variadic list),
    the tactics of the development, its hint database [om3], and the generic
    list lemmas used by more than one component. *)

From stdpp Require Export base option list gmap strings sorting.
From Stdlib Require Export ZArith.
From stdpp Require Import prelude.

#[export] Set Default Goal Selector "!".

Create HintDb om3.

(** ** Record update

    [r <| f := v |>] is the record [r] with its field [f] replaced by [v], the
    reading of a Go assignment [r.f = v].  A record declares one [eta]
    instance, its eta expansion, and one [Upd] instance per updated field. *)

Class Eta (R : Type) := eta : R -> R.

Class Upd {R E : Type} (p : R -> E) := upd : (E -> E) -> R -> R.

Arguments upd {R E} p {_} _ _.

Ltac derive_upd inst :=
  match goal with
  | |- @Upd ?R ?E ?p =>
      let e := eval cbv delta [inst] in inst in
      let t := eval pattern p in e in
      match t with
      | ?F _ => let s := eval cbv beta in (fun (f : E -> E) => F (fun r => f (p r))) in exact s
      end
  end.

Notation "r <| p := v |>" := (upd p (fun _ => v) r)
  (at level 1, left associativity, p at level 10, v at level 200,
   format "r  <| p  :=  v |>").
Notation "r <| p ::= f |>" := (upd p f r)
  (at level 1, left associativity, p at level 10, f at level 200,
   format "r  <| p  ::=  f |>").

(** ** Membership in a variadic list

    Go methods such as [status.T.Is(l ...)] compare the receiver with each
    element of a list in turn; [one_of] is that loop. *)

Fixpoint one_of {A} `{EqDecision A} (x : A) (l : list A) : bool :=
  match l with
  | [] => false
  | s :: l' => if decide (x = s) then true else one_of x l'
  end.

Lemma one_of_spec {A} `{EqDecision A} (x : A) l : one_of x l = true <-> x ∈ l.
Proof.
  induction l as [|s l IH]; simpl; [set_solver|].
  case_decide; set_solver.
Qed.

Lemma one_of_false {A} `{EqDecision A} (x : A) l : one_of x l = false <-> x ∉ l.
Proof. rewrite <- one_of_spec. destruct (one_of x l); naive_solver. Qed.

(** ** Time

    A [time.Time] is the number of nanoseconds since the zero time of the Go
    [time] package, which is therefore [0].  A [time.Duration] is a signed 64-bit
    number of nanoseconds; [time.Time.Sub] saturates at its bounds. *)

Module time.

Definition Time := Z.
Definition Duration := Z.

Definition zero : Time := 0%Z.

Definition IsZero (t : Time) : bool := Z.eqb t zero.
Definition After (t u : Time) : bool := Z.ltb u t.
Definition Before (t u : Time) : bool := Z.ltb t u.

Definition minDuration : Duration := (- 2 ^ 63)%Z.
Definition maxDuration : Duration := (2 ^ 63 - 1)%Z.

Definition Sub (t u : Time) : Duration :=
  Z.max minDuration (Z.min maxDuration (t - u))%Z.

Definition Add (t : Time) (d : Duration) : Time := (t + d)%Z.

Definition Second : Duration := 1000000000%Z.
Definition Minute : Duration := (60 * Second)%Z.
Definition Hour : Duration := (60 * Minute)%Z.

Lemma After_spec t u : After t u = true <-> (u < t)%Z.
Proof. apply Z.ltb_lt. Qed.

Lemma After_false t u : After t u = false <-> (t <= u)%Z.
Proof. apply Z.ltb_ge. Qed.

Lemma Before_spec t u : Before t u = true <-> (t < u)%Z.
Proof. apply Z.ltb_lt. Qed.

Lemma Before_false t u : Before t u = false <-> (u <= t)%Z.
Proof. apply Z.ltb_ge. Qed.

Lemma IsZero_spec t : IsZero t = true <-> t = zero.
Proof. apply Z.eqb_eq. Qed.

(** Saturation does not change the sign of a difference. *)
Lemma Sub_pos t u : (0 < Sub t u <-> u < t)%Z.
Proof. unfold Sub, minDuration, maxDuration. lia. Qed.

End time.

(** Turns the boolean tests of the code into the propositions they decide. *)
Ltac reflect :=
  repeat match goal with
  | H : _ && _ = true |- _ => apply andb_true_iff in H as [? ?]
  | H : _ || _ = false |- _ => apply orb_false_iff in H as [? ?]
  | H : negb _ = true |- _ => apply negb_true_iff in H
  | H : negb _ = false |- _ => apply negb_false_iff in H
  | H : time.After _ _ = true |- _ => apply time.After_spec in H
  | H : time.After _ _ = false |- _ => apply time.After_false in H
  | H : time.Before _ _ = true |- _ => apply time.Before_spec in H
  | H : time.Before _ _ = false |- _ => apply time.Before_false in H
  | H : time.IsZero _ = true |- _ => apply time.IsZero_spec in H
  | H : one_of _ _ = true |- _ => apply one_of_spec in H
  | H : one_of _ _ = false |- _ => apply one_of_false in H
  | H : bool_decide _ = true |- _ => apply bool_decide_eq_true in H
  | H : bool_decide _ = false |- _ => apply bool_decide_eq_false in H
  | H : Z.eqb _ _ = true |- _ => apply Z.eqb_eq in H
  | H : Z.eqb _ _ = false |- _ => apply Z.eqb_neq in H
  | H : Z.ltb _ _ = true |- _ => apply Z.ltb_lt in H
  | H : Z.ltb _ _ = false |- _ => apply Z.ltb_ge in H
  | H : Z.leb _ _ = true |- _ => apply Z.leb_le in H
  | H : Z.leb _ _ = false |- _ => apply Z.leb_gt in H
  end.

(** Case analysis on the innermost test of the goal. *)
Ltac split_test :=
  match goal with
  | |- context [match ?x with _ => _ end] =>
      lazymatch x with
      | context [match _ with _ => _ end] => fail
      | _ => destruct x eqn:?
      end
  end.

(** ** [sort.SliceStable]

    A stable sort with respect to a strict order [less].  Its result is
    determined by the order, so any stable algorithm models the library's. *)

Section stable_sort.
Context {A : Type} (less : A -> A -> bool).

Fixpoint stable_insert (x : A) (l : list A) : list A :=
  match l with
  | [] => [x]
  | y :: l' => if less y x then y :: stable_insert x l' else x :: y :: l'
  end.

Fixpoint stable_sort (l : list A) : list A :=
  match l with
  | [] => []
  | x :: l' => stable_insert x (stable_sort l')
  end.

Lemma stable_insert_perm x l : stable_insert x l ≡ₚ x :: l.
Proof.
  induction l as [|y l IH]; simpl; [done|].
  destruct (less y x); [|done]. rewrite IH. apply Permutation_swap.
Qed.

Lemma stable_sort_perm l : stable_sort l ≡ₚ l.
Proof.
  induction l as [|x l IH]; simpl; [done|].
  by rewrite stable_insert_perm, IH.
Qed.

(** No element is strictly after one that follows it. *)
Definition ordered (l : list A) : Prop :=
  StronglySorted (fun x y => less y x = false) l.

Hypothesis less_trans : forall x y z, less y x = false -> less z y = false -> less z x = false.
Hypothesis less_asym : forall x y, less x y = true -> less y x = false.

Lemma stable_insert_ordered x l : ordered l -> ordered (stable_insert x l).
Proof.
  unfold ordered. induction 1 as [|y l Hs IH Hall]; simpl; [repeat constructor|].
  destruct (less y x) eqn:Hyx.
  - constructor; [done|]. rewrite stable_insert_perm. constructor; [|done].
    by apply less_asym.
  - constructor; [by constructor|]. constructor; [done|].
    eapply Forall_impl; [exact Hall|]. intros z Hz. by eapply less_trans.
Qed.

Lemma stable_sort_ordered l : ordered (stable_sort l).
Proof.
  induction l as [|x l IH]; simpl; [constructor|]. by apply stable_insert_ordered.
Qed.

End stable_sort.

(** ** Folds of a commutative monoid over a Go map

    The iteration order of a Go map is not specified.  A loop over a map that
    folds a commutative and associative operation yields one result. *)

Lemma foldl_permutation {A B} (f : B -> A -> B) (P : A -> Prop) (Q : B -> Prop) :
  (forall b x, Q b -> P x -> Q (f b x)) ->
  (forall b x y, Q b -> P x -> P y -> f (f b x) y = f (f b y) x) ->
  forall l1 l2, l1 ≡ₚ l2 -> Forall P l1 -> forall b, Q b -> foldl f b l1 = foldl f b l2.
Proof.
  intros HQ Hc l1 l2 Hp. induction Hp as [|x l1 l2 Hp IH|x y l|l1 l2 l3 H1 IH1 H2 IH2];
    intros HP b Hb; simpl; [done| | |].
  - inversion HP; subst. apply IH; auto.
  - inversion HP as [|?? ? HP']; subst. inversion HP'; subst.
    by rewrite Hc.
  - rewrite IH1; [|done..]. apply IH2; [|done]. by rewrite <- H1.
Qed.

(** ** Go [map] literals, [switch] and [strings.Join] *)

(** Lookup in a map literal. *)
Fixpoint assoc {K V} (eqb : K -> K -> bool) (k : K) (l : list (K * V)) : option V :=
  match l with
  | [] => None
  | (k', v) :: l' => if eqb k k' then Some v else assoc eqb k l'
  end.

(** A [switch] on an integer with constant cases; [d] is its default. *)
Fixpoint switch {V} (x : Z) (cases : list (Z * V)) (d : V) : V :=
  match cases with
  | [] => d
  | (c, v) :: cases' => if Z.eqb x c then v else switch x cases' d
  end.

Fixpoint Join (l : list string) (sep : string) : string :=
  match l with
  | [] => ""
  | [s] => s
  | s :: l' => String.append s (String.append sep (Join l' sep))
  end.

(** ** Properties of the values of an enumeration, by computation *)

Section enumeration.
Context {A : Type} (values : list A).

Lemma enum1 (P : A -> Prop) :
  Forall (fun x => P x) values -> forall x, x ∈ values -> P x.
Proof. by rewrite Forall_forall. Qed.

Lemma enum2 (P : A -> A -> Prop) :
  Forall (fun x => Forall (fun y => P x y) values) values ->
  forall x y, x ∈ values -> y ∈ values -> P x y.
Proof. intros Hl x y Hx. revert y. apply enum1. by apply (enum1 _ Hl). Qed.

Lemma enum3 (P : A -> A -> A -> Prop) :
  Forall (fun x => Forall (fun y => Forall (fun z => P x y z) values) values) values ->
  forall x y z, x ∈ values -> y ∈ values -> z ∈ values -> P x y z.
Proof. intros Hl x y z Hx. revert y z. apply enum2. by apply (enum1 _ Hl). Qed.

End enumeration.

(** Closes the enumeration a lemma above asks for by evaluating its decision. *)
Ltac by_enumeration lem :=
  apply lem; cbv beta; apply (bool_decide_unpack _); vm_compute; exact I.

(** Case analysis on every comparison of a string with a literal. *)
Ltac split_string_tests :=
  repeat match goal with
  | |- context [String.eqb ?s ?c] => destruct (String.eqb_spec s c) as [->|?]; simpl
  end.
