(* ===== verification/Status.v ===== *)
(** * Status values: core/status, core/provisioned, core/topology, core/placement

    The enumerations every component of the agent exchanges, their text
    encodings, and the two merge operations ([status.T.Add] and
    [provisioned.T.And]) that aggregate the states of the resources of an
    instance and of the instances of an object. *)

From S2P Require Import Prelude.

(** ** core/status/status.go *)

Module status.

(** [status.T] is a Go [int]; the named values are distinct bits. *)
Definition T := Z.

#[global] Instance T_eq_dec : EqDecision T := Z.eq_dec.

Definition Undef : T := 0%Z.
Definition NotApplicable : T := 1%Z.
Definition Up : T := 2%Z.
Definition Down : T := 4%Z.
Definition Warn : T := 8%Z.
Definition StandbyUp : T := 16%Z.
Definition StandbyDown : T := 32%Z.
Definition StandbyUpWithUp : T := 64%Z.
Definition StandbyUpWithDown : T := 128%Z.

Definition values : list T :=
  [Undef; NotApplicable; Up; Down; Warn; StandbyUp; StandbyDown;
   StandbyUpWithUp; StandbyUpWithDown].

Definition toString : list (T * string) :=
  [(Up, "up"); (Down, "down"); (Warn, "warn"); (NotApplicable, "n/a");
   (Undef, "undef"); (StandbyUp, "stdby up"); (StandbyDown, "stdby down");
   (StandbyUpWithUp, "up"); (StandbyUpWithDown, "stdby up")]%string.

Definition toID : list (string * T) :=
  [("up", Up); ("down", Down); ("warn", Warn); ("n/a", NotApplicable);
   ("undef", Undef); ("stdby up", StandbyUp); ("stdby down", StandbyDown)]%string.

(** A lookup in a map that misses returns the zero value. *)
Definition String (t : T) : string := default ""%string (assoc Z.eqb t toString).

Definition Is (t : T) (l : list T) : bool := one_of t l.

Definition MarshalText (t : T) : string := String t.

Definition UnmarshalText (s : string) : T :=
  default Undef (assoc String.eqb s toID).

(** The Go method mutates its receiver; here it returns the new value. *)
Definition Add (t o : T) : T :=
  if Z.eqb o Undef then t
  else if Z.eqb t Undef then o
  else if Z.eqb o NotApplicable then t
  else if Z.eqb t NotApplicable then o
  else
    switch (Z.lor t o)
      [ (Z.lor Up Up, Up);
        (Z.lor Up Down, Warn);
        (Z.lor Up Warn, Warn);
        (Z.lor Up StandbyUp, StandbyUpWithUp);
        (Z.lor Up StandbyDown, Warn);
        (Z.lor Up StandbyUpWithUp, StandbyUpWithUp);
        (Z.lor Up StandbyUpWithDown, Warn);
        (Z.lor Down Down, Down);
        (Z.lor Down Warn, Warn);
        (Z.lor Down StandbyUp, StandbyUpWithDown);
        (Z.lor Down StandbyDown, StandbyDown);
        (Z.lor Down StandbyUpWithUp, Warn);
        (Z.lor Down StandbyUpWithDown, StandbyUpWithDown);
        (Z.lor Warn Warn, Warn);
        (Z.lor Warn StandbyUp, Warn);
        (Z.lor Warn StandbyDown, Warn);
        (Z.lor Warn StandbyUpWithUp, Warn);
        (Z.lor Warn StandbyUpWithDown, Warn);
        (Z.lor StandbyUp StandbyUp, StandbyUp);
        (Z.lor StandbyUp StandbyDown, Warn);
        (Z.lor StandbyUp StandbyUpWithUp, StandbyUpWithUp);
        (Z.lor StandbyUp StandbyUpWithDown, StandbyUpWithDown);
        (Z.lor StandbyDown StandbyDown, StandbyDown);
        (Z.lor StandbyDown StandbyUpWithUp, Warn);
        (Z.lor StandbyDown StandbyUpWithDown, Warn);
        (Z.lor StandbyUpWithUp StandbyUpWithDown, Warn);
        (Z.lor StandbyUpWithUp StandbyUpWithUp, StandbyUpWithUp);
        (Z.lor StandbyUpWithDown StandbyUpWithDown, StandbyUpWithDown) ]
      t.

(** The merge of a sequence of states into an initial one. *)
Definition AddAll (t : T) (l : list T) : T := foldl Add t l.

(** *** The list type [status.L] *)

Definition Has (l : list T) (s : T) : bool := existsb (fun e => Z.eqb e s) l.

Definition LString (l : list T) : string := Join (map String l) ",".

(** *** Laws of [Add] on the named values *)

Definition valid (t : T) : Prop := t ∈ values.

#[export] Instance valid_dec t : Decision (valid t).
Proof. unfold valid. apply _. Defined.

Lemma Add_valid t o : valid t -> valid o -> valid (Add t o).
Proof. by_enumeration (enum2 values (fun t o => valid (Add t o))). Qed.

Lemma Add_comm t o : valid t -> valid o -> Add t o = Add o t.
Proof. by_enumeration (enum2 values (fun t o => Add t o = Add o t)). Qed.

Lemma Add_assoc t o u :
  valid t -> valid o -> valid u -> Add (Add t o) u = Add t (Add o u).
Proof. by_enumeration (enum3 values (fun t o u => Add (Add t o) u = Add t (Add o u))). Qed.

Lemma Add_idemp t : valid t -> Add t t = t.
Proof. by_enumeration (enum1 values (fun t => Add t t = t)). Qed.

Lemma Add_Undef_l o : Add Undef o = o.
Proof. unfold Add. simpl. destruct (Z.eqb_spec o Undef); [|done]. by subst. Qed.

Lemma Add_Undef_r t : Add t Undef = t.
Proof. done. Qed.

#[export] Hint Resolve Add_valid : om3.

(** The merge of resource states is a commutative, associative and
    idempotent operation with [Undef] as unit that stays within the named
    states: the aggregate of a set of states is well defined. *)
Theorem Add_semilattice :
  (forall t o, valid t -> valid o -> valid (Add t o) /\ Add t o = Add o t) /\
  (forall t o u, valid t -> valid o -> valid u -> Add (Add t o) u = Add t (Add o u)) /\
  (forall t, valid t -> Add t t = t /\ Add Undef t = t /\ Add t Undef = t).
Proof.
  split_and!; intros.
  - auto using Add_valid, Add_comm.
  - by apply Add_assoc.
  - split_and!; auto using Add_idemp, Add_Undef_l, Add_Undef_r.
Qed.

(** The aggregate state computed by a loop over a Go map, whose iteration
    order is not specified, does not depend on that order. *)
Theorem AddAll_order_independent t l1 l2 :
  valid t -> Forall valid l1 -> l1 ≡ₚ l2 -> AddAll t l1 = AddAll t l2.
Proof.
  intros Ht Hl Hp.
  apply (foldl_permutation Add valid valid); [auto with om3| |done|done|done].
  intros b x y Hb Hx Hy. rewrite !Add_assoc, (Add_comm x y); auto.
Qed.

Lemma AddAll_order_independent_witness :
  AddAll Undef [Up; StandbyUp; Down] = AddAll Undef [Down; StandbyUp; Up].
Proof.
  apply AddAll_order_independent.
  - vm_compute. set_solver.
  - repeat constructor; vm_compute; set_solver.
  - apply (Permutation_rev [Up; StandbyUp; Down]).
Defined.

End status.

(** ** core/provisioned/provisioned.go *)

Module provisioned.

(** [PTrue] and [PFalse] are [provisioned.True] and [provisioned.False], names
    Rocq reserves. *)
Inductive T := Undef | PTrue | PFalse | Mixed | NotApplicable.

#[global] Instance T_eq_dec : EqDecision T.
Proof. solve_decision. Defined.

Definition values : list T := [Undef; PTrue; PFalse; Mixed; NotApplicable].

Lemma values_all t : t ∈ values.
Proof. destruct t; set_solver. Qed.

Definition String (t : T) : string :=
  match t with
  | Undef => "undef"
  | PTrue => "true"
  | PFalse => "false"
  | Mixed => "mixed"
  | NotApplicable => "n/a"
  end.

Definition sToID : list (string * T) :=
  [("undef", Undef); ("true", PTrue); ("false", PFalse); ("mixed", Mixed);
   ("n/a", NotApplicable)]%string.

(** An error is [inl] of its message. *)
Definition NewFromString (s : string) : string + T :=
  match assoc String.eqb s sToID with
  | Some t => inr t
  | None => inl ("invalid provisioned string: " +:+ s)%string
  end.

Definition FromBool (v : bool) : T := if v then PTrue else PFalse.

Definition IsNoneOf (t : T) (states : list T) : bool := negb (one_of t states).

Definition IsOneOf (t : T) (states : list T) : bool := one_of t states.

Definition FlagString (t : T) : string :=
  match t with
  | PTrue => "."
  | PFalse => "P"
  | Mixed => "p"
  | NotApplicable => "/"
  | Undef => "?"
  end.

Definition UnmarshalText (s : string) : T :=
  match assoc String.eqb s sToID with
  | None => Undef
  | Some v => v
  end.

Definition And (t o : T) : T :=
  match t with
  | Undef | NotApplicable => o
  | _ =>
      match o with
      | Undef | NotApplicable => t
      | _ => if decide (t = o) then o else Mixed
      end
  end.

(** [Add] stores [And] in its receiver. *)
Definition Add (t o : T) : T := And t o.

Definition AndAll (t : T) (l : list T) : T := foldl And t l.

(** A state that says whether something is provisioned. *)
Definition says (t : T) : bool := one_of t [PTrue; PFalse; Mixed].

Lemma And_assoc t o u : And (And t o) u = And t (And o u).
Proof. by destruct t, o, u. Qed.

Lemma And_comm_says t o : says t = true \/ says o = true -> And t o = And o t.
Proof. destruct t, o; simpl; intros [|]; done. Qed.

Lemma And_says t o : says (And t o) = says t || says o.
Proof. by destruct t, o. Qed.

(** What a set of states says, told by membership only. *)
Definition verdict (l : list T) : T :=
  if one_of Mixed l || (one_of PTrue l && one_of PFalse l) then Mixed
  else if one_of PTrue l then PTrue
  else if one_of PFalse l then PFalse
  else Undef.

Lemma AndAll_app_says t l :
  says t = true -> AndAll t l = verdict (t :: l).
Proof.
  unfold AndAll. revert t. induction l as [|x l IH]; intros t Ht.
  - destruct t; done.
  - simpl. rewrite IH; [|rewrite And_says, Ht; done].
    unfold verdict. simpl.
    destruct t, x; try done; simpl in *;
      destruct (one_of Mixed l), (one_of PTrue l), (one_of PFalse l); done.
Qed.

Lemma AndAll_verdict t l :
  existsb says (t :: l) = true -> AndAll t l = verdict (t :: l).
Proof.
  unfold AndAll. revert t. induction l as [|x l IH]; intros t H.
  - simpl in H. rewrite orb_false_r in H. by apply (AndAll_app_says t []).
  - simpl in *. rewrite IH.
    + unfold verdict. simpl.
      destruct t, x; try done; simpl in *;
        destruct (one_of Mixed l), (one_of PTrue l), (one_of PFalse l); done.
    + simpl. rewrite And_says. by rewrite <- orb_assoc.
Qed.

(** As soon as one of the states says whether something is provisioned, the
    aggregate of a list of states is what the set of states says: mixed when
    both true and false, or mixed, are in it, and the state they agree on
    otherwise.  The order of the list does not matter. *)
Theorem AndAll_says l :
  existsb says l = true -> AndAll Undef l = verdict l.
Proof.
  intros H. rewrite AndAll_verdict.
  - unfold verdict. simpl. done.
  - simpl. done.
Qed.

Lemma AndAll_says_witness :
  AndAll Undef [NotApplicable; PTrue; Undef; PFalse] = Mixed.
Proof. apply (AndAll_says [NotApplicable; PTrue; Undef; PFalse]). reflexivity. Defined.

(** With no state that says, the aggregate is the last state of the list:
    [n/a] or [undef] depending on the order of the iteration, which a Go map
    does not specify. *)
Theorem AndAll_silent l t :
  existsb says (l ++ [t]) = false -> AndAll Undef (l ++ [t]) = t.
Proof.
  unfold AndAll. rewrite foldl_app. simpl.
  rewrite existsb_app. intros [Hl _]%orb_false_iff.
  assert (forall b, says b = false -> says (foldl And b l) = false) as Hs.
  { induction l as [|x l IH]; intros b Hb; simpl in *; [done|].
    apply orb_false_iff in Hl as [Hx Hl]. apply IH; [done|].
    by rewrite And_says, Hb, Hx. }
  specialize (Hs Undef eq_refl). by destruct (foldl And Undef l).
Qed.

Lemma AndAll_silent_witness :
  AndAll Undef [NotApplicable; Undef] = Undef /\ AndAll Undef [Undef; NotApplicable] = NotApplicable.
Proof.
  split.
  - by apply (AndAll_silent [NotApplicable] Undef).
  - by apply (AndAll_silent [Undef] NotApplicable).
Defined.

End provisioned.

(** ** core/topology/topology.go *)

Module topology.

Inductive T := Invalid | Failover | Flex.

#[global] Instance T_eq_dec : EqDecision T.
Proof. solve_decision. Defined.

Definition String (t : T) : string :=
  match t with
  | Invalid => "invalid"
  | Failover => "failover"
  | Flex => "flex"
  end.

Definition toID : list (string * T) := [("failover", Failover); ("flex", Flex)]%string.

Definition New (s : string) : T :=
  match assoc String.eqb s toID with
  | Some t => t
  | None => Invalid
  end.

Definition UnmarshalText (s : string) : T := New s.

End topology.

(** ** core/placement/placement.go *)

Module placement.

Inductive Policy :=
| Invalid | None | NodesOrder | LastStart | LoadAvg | Shift | Spread | Score.

#[global] Instance Policy_eq_dec : EqDecision Policy.
Proof. solve_decision. Defined.

Inductive State := Undef | NotApplicable | Optimal | NonOptimal.

#[global] Instance State_eq_dec : EqDecision State.
Proof. solve_decision. Defined.

Definition policyToString (p : Policy) : string :=
  match p with
  | Invalid => ""
  | None => "none"
  | NodesOrder => "nodes order"
  | LastStart => "last start"
  | LoadAvg => "load avg"
  | Shift => "shift"
  | Spread => "spread"
  | Score => "score"
  end.

Definition policyToID : list (string * Policy) :=
  [("", Invalid); ("none", None); ("nodes order", NodesOrder);
   ("last start", LastStart); ("load avg", LoadAvg); ("shift", Shift);
   ("spread", Spread); ("score", Score)]%string.

Definition stateToString (s : State) : string :=
  match s with
  | Undef => "undef"
  | NotApplicable => "n/a"
  | Optimal => "optimal"
  | NonOptimal => "non-optimal"
  end.

Definition stateToID : list (string * State) :=
  [("", Undef); ("undef", Undef); ("n/a", NotApplicable); ("optimal", Optimal);
   ("non-optimal", NonOptimal)]%string.

Definition NewPolicy (s : string) : Policy := default Invalid (assoc String.eqb s policyToID).

Definition UnmarshalPolicy (s : string) : Policy := default Invalid (assoc String.eqb s policyToID).

Definition UnmarshalState (s : string) : State := default Undef (assoc String.eqb s stateToID).

End placement.

(** ** Text round trips *)

(** Every enumeration value decodes from the text it encodes to, but for the
    two composite states of [status], which the text format folds into [up] and
    [stdby up]; a text that names no value decodes to the value meaning
    "not known". *)
Theorem text_roundtrip :
  (forall t, status.valid t ->
     status.UnmarshalText (status.MarshalText t) =
       if decide (t = status.StandbyUpWithUp) then status.Up
       else if decide (t = status.StandbyUpWithDown) then status.StandbyUp else t) /\
  (forall t, provisioned.UnmarshalText (provisioned.String t) = t) /\
  (forall t, topology.UnmarshalText (topology.String t) = t) /\
  (forall t, placement.UnmarshalPolicy (placement.policyToString t) = t) /\
  (forall t, placement.UnmarshalState (placement.stateToString t) = t) /\
  (forall t s, status.UnmarshalText s = t -> t = status.Undef \/ status.String t = s) /\
  (forall t s, provisioned.UnmarshalText s = t -> t = provisioned.Undef \/ provisioned.String t = s).
Proof.
  split_and!.
  - by_enumeration (enum1 status.values (fun t => status.UnmarshalText (status.MarshalText t) =
       if decide (t = status.StandbyUpWithUp) then status.Up
       else if decide (t = status.StandbyUpWithDown) then status.StandbyUp else t)).
  - by intros [].
  - by intros [].
  - by intros [].
  - by intros [].
  - intros t s <-. unfold status.UnmarshalText, status.toID. simpl.
    split_string_tests; by auto.
  - intros t s <-. unfold provisioned.UnmarshalText, provisioned.sToID. simpl.
    split_string_tests; by auto.
Qed.
