(* ===== verification/LockTable.v ===== *)
(** * Cluster locks: daemon/locktable

    The table the node speaking for the cluster grants the cluster locks from,
    and the record every node keeps of the locks its clients hold.  The state of
    [locktable.Table] is the record [Table]; each exported method is a function
    of the table, of the time [now] it reads, and, for [Acquire], of the fresh
    lock id [uuid.NewString] returns.  The mutex makes each method atomic but
    for [Acquire], which releases it while it waits: one pass through its loop is
    the atomic [acquireIter].

    [Sys] adds to a table the ghost history of what it granted and of what was
    released, and [step] interleaves the methods in any order.  The theorems show
    that a lock has at most one holder at a time, across the changes of the node
    speaking for the cluster too. *)

From S2P Require Import Prelude.

Module locktable.

Record Lock := mkLock {
  Name : string;
  ID : string;
  Node : string;
  Holder : string;
  AcquiredAt : time.Time;
  ExpiresAt : time.Time
}.

#[export] Instance Lock_eq_dec : EqDecision Lock.
Proof. solve_decision. Defined.

Record Request := mkRequest {
  ReqName : string;
  ReqNode : string;
  ReqHolder : string;
  ReqLease : time.Duration;
  ReqWait : time.Duration
}.

(** [changed] stands for the identity of the channel the waiting requests
    select on: [wake] closes it and replaces it by a new one. *)
Record Table := mkTable {
  locks : gmap string Lock;
  rebuilt : bool;
  generation : Z;
  former : gmap string Lock;
  released : gmap string time.Time;
  changed : nat
}.

#[export] Instance eta_Table : Eta Table := fun r =>
  mkTable (locks r) (rebuilt r) (generation r) (former r) (released r) (changed r).
#[export] Instance upd_locks : Upd locks. Proof. derive_upd eta_Table. Defined.
#[export] Instance upd_rebuilt : Upd rebuilt. Proof. derive_upd eta_Table. Defined.
#[export] Instance upd_generation : Upd generation. Proof. derive_upd eta_Table. Defined.
#[export] Instance upd_former : Upd former. Proof. derive_upd eta_Table. Defined.
#[export] Instance upd_released : Upd released. Proof. derive_upd eta_Table. Defined.
#[export] Instance upd_changed : Upd changed. Proof. derive_upd eta_Table. Defined.

(** The record of the locks held by the clients of a node. *)
Definition Held := gmap string Lock.

Inductive Error :=
| ErrNoName
| ErrNotRebuilt
| ErrHeld (l : Lock).

Definition DefaultLease : time.Duration := (30 * time.Second)%Z.
Definition MaxLease : time.Duration := (10 * time.Minute)%Z.

Definition NewTable : Table := mkTable ∅ false 0 ∅ ∅ 0.

Definition NewHeld : Held := ∅.

Definition Lease (d : time.Duration) : time.Duration :=
  if Z.leb d 0 then DefaultLease
  else if Z.ltb MaxLease d then MaxLease
  else d.

Definition IsRebuilt (t : Table) : bool := rebuilt t.

Definition Generation (t : Table) : Z := generation t.

(** An unsigned 64-bit increment. *)
Definition uint64_incr (n : Z) : Z := ((n + 1) mod 2 ^ 64)%Z.

Definition wake (t : Table) : Table := t <| changed ::= S |>.

Definition pruneReleased (now : time.Time) (t : Table) : Table :=
  t <| released ::= filter (fun '(_, until) => time.After until now = true) |>.

(** The body of the loop of [Rebuild]: the locks kept and the conflicts. *)
Definition rebuildLock (now : time.Time) (rel : gmap string time.Time)
    (acc : gmap string Lock * list Lock) (lock : Lock) : gmap string Lock * list Lock :=
  let '(kept_locks, conflicts) := acc in
  if negb (time.After (ExpiresAt lock) now) then (kept_locks, conflicts)
  else match rel !! ID lock with
  | Some _ => (kept_locks, conflicts)
  | None =>
      match kept_locks !! Name lock with
      | Some kept =>
          if decide (ID kept = ID lock) then (<[Name lock := lock]> kept_locks, conflicts)
          else if time.After (ExpiresAt lock) (ExpiresAt kept)
          then (<[Name lock := lock]> kept_locks, conflicts ++ [kept])
          else (kept_locks, conflicts ++ [lock])
      | None => (<[Name lock := lock]> kept_locks, conflicts)
      end
  end.

(** [None] when the table was dropped since [gen]. *)
Definition Rebuild (now : time.Time) (gen : Z) (ls : list Lock) (t : Table)
    : option (list Lock) * Table :=
  if negb (Z.eqb gen (generation t)) then (None, t)
  else
    let t := pruneReleased now t in
    let '(kept_locks, conflicts) := foldl (rebuildLock now (released t)) (∅, []) ls in
    (Some conflicts, t <| locks := kept_locks |> <| rebuilt := true |>).

Definition Drop (t : Table) : Table :=
  wake (t <| former := locks t ∪ former t |>
          <| locks := ∅ |>
          <| rebuilt := false |>
          <| generation ::= uint64_incr |>).

(** What one pass through the loop of [Acquire] ends on: the lock granted, an
    error, or a wait of at most the given duration on a channel. *)
Inductive acquired :=
| Granted_ (l : Lock)
| Failed (e : Error)
| Waiting (timeout : time.Duration) (ch : nat).

Definition acquireIter (id : string) (now deadline : time.Time) (req : Request) (t : Table)
    : acquired * Table :=
  if negb (rebuilt t) then (Failed ErrNotRebuilt, t)
  else
    let grant :=
      let lock := mkLock (ReqName req) id (ReqNode req) (ReqHolder req) now
                    (time.Add now (Lease (ReqLease req))) in
      (Granted_ lock, t <| locks ::= <[ReqName req := lock]> |>) in
    match locks t !! ReqName req with
    | None => grant
    | Some held =>
        if negb (time.After (ExpiresAt held) now) then grant
        else
          let remaining := time.Sub deadline now in
          if Z.leb remaining 0 then (Failed (ErrHeld held), t)
          else
            let timeout := time.Sub (ExpiresAt held) now in
            let timeout := if Z.ltb remaining timeout then remaining else timeout in
            (Waiting timeout (changed t), t)
    end.

(** [Acquire] up to its first wait. *)
Definition Acquire (id : string) (now : time.Time) (req : Request) (t : Table)
    : acquired * Table :=
  if String.eqb (ReqName req) "" then (Failed ErrNoName, t)
  else acquireIter id now (time.Add now (ReqWait req)) req t.

Definition deleteID (name id : string) (m : gmap string Lock) : gmap string Lock :=
  match m !! name with
  | Some l => if decide (ID l = id) then delete name m else m
  | None => m
  end.

Definition Release (now : time.Time) (name id : string) (t : Table) : option Lock * Table :=
  let held := locks t !! name in
  let t := t <| former ::= deleteID name id |> in
  match held with
  | None => (None, t)
  | Some held =>
      if negb (bool_decide (ID held = id)) then (None, t)
      else
        (Some held,
         wake (t <| released ::= <[id := time.Add now MaxLease]> |>
                 <| locks ::= delete name |>))
  end.

(** [list] returns the locks whose lease has not ended, sorted by name, and
    forgets the others in the map it is given. *)
Definition list_ (m : gmap string Lock) (now : time.Time) : list Lock * gmap string Lock :=
  let live := filter (fun '(_, l) => time.After (ExpiresAt l) now = true) m in
  (stable_sort (fun a b => String.ltb (Name a) (Name b)) (map snd (map_to_list live)), live).

Definition List (now : time.Time) (t : Table) : list Lock * Table :=
  let '(l, m) := list_ (locks t) now in (l, t <| locks := m |>).

(** The map holds, under its name, a lock of the same id. *)
Definition hasID (m : gmap string Lock) (lock : Lock) : bool :=
  match m !! Name lock with
  | Some l => bool_decide (ID l = ID lock)
  | None => false
  end.

Definition Granted (now : time.Time) (t : Table) : list Lock * Table :=
  let '(l, f) := list_ (former t) now in
  let '(l', m) := list_ (locks t) now in
  (l ++ filter (fun lock => hasID f lock = false) l', t <| former := f |> <| locks := m |>).

Definition Forget (now : time.Time) (name id : string) (t : Table) : Table :=
  let t := pruneReleased now t in
  let t := t <| released ::= <[id := time.Add now MaxLease]> |> in
  let t := t <| former ::= deleteID name id |> in
  match locks t !! name with
  | Some lock => if decide (ID lock = id) then wake (t <| locks ::= delete name |>) else t
  | None => t
  end.

(** *** The record of the locks held *)

Definition Held_Add (lock : Lock) (h : Held) : Held := <[Name lock := lock]> h.

Definition Held_Remove (name id : string) (h : Held) : Held := deleteID name id h.

Definition Held_List (now : time.Time) (h : Held) : list Lock * Held := list_ h now.

(** *** Functional behaviour of the methods *)

Lemma Lease_bounds d : (0 < Lease d <= MaxLease)%Z.
Proof.
  unfold Lease, DefaultLease, MaxLease, time.Minute, time.Second.
  destruct (Z.leb_spec d 0); [lia|]. destruct (Z.ltb_spec (10 * (60 * 1000000000)) d); lia.
Qed.

Lemma deleteID_lookup m name id n :
  deleteID name id m !! n =
    match m !! n with
    | Some l => if decide (n = name /\ ID l = id) then None else Some l
    | None => None
    end.
Proof.
  unfold deleteID. destruct (decide (n = name)) as [->|Hn].
  - destruct (m !! name) as [l|] eqn:E; [|by rewrite E].
    destruct (decide (ID l = id)) as [<-|Hid].
    + rewrite decide_True by done. apply lookup_delete_eq.
    + rewrite decide_False by tauto. done.
  - assert ((match m !! n with Some l => if decide (n = name /\ ID l = id) then None else Some l
             | None => None end) = m !! n) as ->.
    { destruct (m !! n); [|done]. by rewrite decide_False by tauto. }
    destruct (m !! name); [|done]. case_decide; [|done]. by apply lookup_delete_ne.
Qed.

Lemma list_lookup m now n :
  (list_ m now).2 !! n = l ← m !! n; guard (time.After (ExpiresAt l) now = true);; Some l.
Proof.
  unfold list_. simpl. rewrite map_lookup_filter.
  by destruct (m !! n); simpl.
Qed.

Lemma elem_of_list_ m now l :
  l ∈ (list_ m now).1 <-> exists n, m !! n = Some l /\ (now < ExpiresAt l)%Z.
Proof.
  unfold list_. simpl. rewrite stable_sort_perm.
  rewrite list_elem_of_fmap. split.
  - intros ([n l'] & -> & Hin). apply elem_of_map_to_list, map_lookup_filter_Some in Hin as [? ?].
    reflect. eauto.
  - intros (n & Hn & Hexp). exists (n, l). split; [done|].
    apply elem_of_map_to_list, map_lookup_filter_Some. split; [done|].
    by apply time.After_spec.
Qed.

(** Two locks of the list given to [Rebuild] that are neither expired nor known
    released are one lock when their name is the same, as long as no conflict is
    reported. *)
Definition counted (now : time.Time) (rel : gmap string time.Time) (l : Lock) : Prop :=
  (now < ExpiresAt l)%Z /\ rel !! ID l = None.

Lemma rebuildLock_conflicts now rel acc l :
  exists cs, (rebuildLock now rel acc l).2 = acc.2 ++ cs.
Proof.
  destruct acc as [m c]. unfold rebuildLock. simpl.
  repeat split_test; simpl; first [exists []; by rewrite app_nil_r | by eexists].
Qed.

Lemma rebuild_conflicts now rel ls acc :
  exists cs, (foldl (rebuildLock now rel) acc ls).2 = acc.2 ++ cs.
Proof.
  revert acc. induction ls as [|l ls IH]; intros acc; simpl.
  - exists []. by rewrite app_nil_r.
  - destruct (IH (rebuildLock now rel acc l)) as [cs Hcs].
    destruct (rebuildLock_conflicts now rel acc l) as [cs' Hcs'].
    exists (cs' ++ cs). by rewrite Hcs, Hcs', app_assoc.
Qed.

#[local] Arguments rebuildLock : simpl never.

(** A pass over the list keeps, under its name, the id of each lock counted,
    until a conflict is reported. *)
Lemma rebuild_keeps now rel ls m n k :
  m !! n = Some k ->
  (foldl (rebuildLock now rel) (m, []) ls).2 = [] ->
  exists k', (foldl (rebuildLock now rel) (m, []) ls).1 !! n = Some k' /\ ID k' = ID k /\
             (k' = k \/ k' ∈ ls).
Proof.
  revert m k. induction ls as [|l ls IH]; intros m k Hm Hc; simpl in *; [eauto|].
  destruct (rebuildLock now rel (m, []) l) as [m' c'] eqn:E in Hc |- *.
  destruct (rebuild_conflicts now rel ls (m', c')) as [cs Hcs].
  rewrite Hcs in Hc. simpl in Hc. destruct c'; [|done].
  assert (exists k1, m' !! n = Some k1 /\ ID k1 = ID k /\ (k1 = k \/ k1 = l)) as (k1 & Hk1 & HID & Hor).
  { unfold rebuildLock in E. repeat case_match; simplify_eq; eauto;
      try (by destruct (app_cons_not_nil [] [] l)).
    - destruct (decide (n = Name l)) as [->|?]; simplify_map_eq; eauto.
    - destruct (decide (n = Name l)) as [->|?]; simplify_map_eq; eauto. }
  destruct (IH m' k1 Hk1) as (k' & ? & ? & Hor').
  { rewrite Hcs. by simpl in *; rewrite Hc. }
  exists k'. split; [done|]. split; [congruence|].
  destruct Hor' as [->|?]; [destruct Hor as [->| ->]|]; auto; right; set_solver.
Qed.

Lemma rebuild_counted now rel ls m l :
  l ∈ ls -> counted now rel l ->
  (foldl (rebuildLock now rel) (m, []) ls).2 = [] ->
  exists k, (foldl (rebuildLock now rel) (m, []) ls).1 !! Name l = Some k /\ ID k = ID l /\ k ∈ ls.
Proof.
  revert m. induction ls as [|x ls IH]; intros m Hin Hcount Hc; [set_solver|].
  simpl in *. destruct (rebuildLock now rel (m, []) x) as [m' c'] eqn:E in Hc |- *.
  destruct (rebuild_conflicts now rel ls (m', c')) as [cs Hcs].
  rewrite Hcs in Hc. simpl in Hc. destruct c'; [|done]. simpl in *. subst cs.
  apply elem_of_cons in Hin as [->|Hin].
  - destruct Hcount as [Hexp Hrel].
    assert (m' !! Name x = Some x) as Hx.
    { unfold rebuildLock in E. rewrite Hrel in E.
      rewrite (proj2 (time.After_spec (ExpiresAt x) now) Hexp) in E. simpl in E.
      repeat case_match; simplify_eq; by simplify_map_eq. }
    destruct (rebuild_keeps now rel ls m' (Name x) x Hx Hcs) as (k & ? & ? & Hor).
    exists k. destruct Hor as [->|?]; split_and!; auto; set_solver.
  - destruct (IH m' Hin Hcount Hcs) as (k & ? & ? & ?). exists k. split_and!; auto. set_solver.
Qed.

(** *** The interleavings of the methods, with the ghost history

    [hist] holds every lock granted, [gone] the ids said released.  A rebuild is
    given the locks the nodes report: each was granted, and every lock still
    alive is reported, by the node of its holder or the node that granted it.
    Requests are not part of the state: a pass of any request may run at any
    time, so every interleaving of waiting requests is one of these sequences. *)
Record Sys := mkSys {
  tbl : Table;
  clock : time.Time;
  hist : list Lock;
  gone : gset string
}.

(** A lock granted whose lease has not ended and that was not released. *)
Definition alive (s : Sys) (l : Lock) : Prop :=
  l ∈ hist s /\ (clock s < ExpiresAt l)%Z /\ ID l ∉ gone s.

Definition granted_hist (r : acquired) (h : list Lock) : list Lock :=
  match r with Granted_ l => l :: h | _ => h end.

(** The locks a rebuild is given are all the live ones, as they were granted. *)
Definition complete (s : Sys) (ls : list Lock) : Prop :=
  (forall l, l ∈ ls -> l ∈ hist s) /\ (forall l, alive s l -> l ∈ ls).

Section interleavings.

(** The locks the node gathers to rebuild its table: its own, and what the nodes it
    asks answer. *)
Variable gathers : Sys -> list Lock -> Prop.

Inductive step : Sys -> Sys -> Prop :=
| step_tick s d :
    (0 <= d)%Z ->
    step s (mkSys (tbl s) (clock s + d)%Z (hist s) (gone s))
| step_acquire s id deadline req r t' :
    id ∉ map ID (hist s) -> id ∉ gone s ->
    acquireIter id (clock s) deadline req (tbl s) = (r, t') ->
    step s (mkSys t' (clock s) (granted_hist r (hist s)) (gone s))
| step_release s name id t' l :
    Release (clock s) name id (tbl s) = (Some l, t') ->
    step s (mkSys t' (clock s) (hist s) ({[id]} ∪ gone s))
| step_release_none s name id t' :
    Release (clock s) name id (tbl s) = (None, t') ->
    step s (mkSys t' (clock s) (hist s) (gone s))
| step_forget s name id :
    step s (mkSys (Forget (clock s) name id (tbl s)) (clock s) (hist s) ({[id]} ∪ gone s))
| step_drop s :
    step s (mkSys (Drop (tbl s)) (clock s) (hist s) (gone s))
| step_list s :
    step s (mkSys (List (clock s) (tbl s)).2 (clock s) (hist s) (gone s))
| step_granted s :
    step s (mkSys (Granted (clock s) (tbl s)).2 (clock s) (hist s) (gone s))
| step_rebuild s gen ls t' :
    gathers s ls -> Rebuild (clock s) gen ls (tbl s) = (Some [], t') ->
    step s (mkSys t' (clock s) (hist s) (gone s))
| step_rebuild_none s gen ls t' :
    Rebuild (clock s) gen ls (tbl s) = (None, t') ->
    step s (mkSys t' (clock s) (hist s) (gone s)).

Definition init (now : time.Time) : Sys := mkSys NewTable now [] ∅.

Definition reachable (s : Sys) : Prop := exists now, rtc step (init now) s.

End interleavings.

Record Inv (s : Sys) : Prop := {
  inv_ids : NoDup (map ID (hist s));
  inv_released : forall id, is_Some (released (tbl s) !! id) -> id ∈ gone s;
  inv_alive : rebuilt (tbl s) = true ->
    forall l, alive s l -> locks (tbl s) !! Name l = Some l;
  inv_one : forall l1 l2, alive s l1 -> alive s l2 -> Name l1 = Name l2 -> l1 = l2
}.

Lemma hist_id_inj s l1 l2 :
  NoDup (map ID (hist s)) -> l1 ∈ hist s -> l2 ∈ hist s -> ID l1 = ID l2 -> l1 = l2.
Proof.
  intros Hnd H1 H2 Heq.
  apply list_elem_of_lookup in H1 as [i Hi], H2 as [j Hj].
  assert (i = j) as ->; [|congruence].
  eapply NoDup_lookup; [exact Hnd| |]; rewrite list_lookup_fmap;
    [by rewrite Hi|by rewrite Hj; simpl; rewrite Heq].
Qed.

(** A step that grants nothing and only ends locks keeps the invariant, as long
    as the table keeps those that remain. *)
Lemma Inv_shrink s s' :
  Inv s -> hist s' = hist s -> (forall l, alive s' l -> alive s l) ->
  (forall id, is_Some (released (tbl s') !! id) -> id ∈ gone s') ->
  (rebuilt (tbl s') = true -> forall l, alive s' l -> locks (tbl s') !! Name l = Some l) ->
  Inv s'.
Proof.
  intros [Hids Hrel Hal Hone] Hh Hsub Hrel' Hal'. split; [by rewrite Hh|done|done|].
  intros l1 l2 H1 H2. apply Hone; auto.
Qed.

Lemma Inv_init now : Inv (init now).
Proof.
  split; simpl; [constructor| |done|].
  - intros id [x Hx]. by rewrite lookup_empty in Hx.
  - intros l1 l2 [Hin _]. simpl in Hin. set_solver.
Qed.

(** What a granting pass found: no lock of that name alive. *)
Lemma acquireIter_granted s id deadline req l t' :
  Inv s -> acquireIter id (clock s) deadline req (tbl s) = (Granted_ l, t') ->
  Name l = ReqName req /\ ID l = id /\ (clock s < ExpiresAt l <= clock s + MaxLease)%Z /\
  rebuilt (tbl s) = true /\ rebuilt t' = true /\ released t' = released (tbl s) /\
  locks t' = <[Name l := l]> (locks (tbl s)) /\
  forall l', alive s l' -> Name l' ≠ Name l.
Proof.
  intros [_ _ Hal _]. unfold acquireIter.
  pose proof (Lease_bounds (ReqLease req)) as HL.
  destruct (rebuilt (tbl s)) eqn:Hr; [|done]. simpl.
  destruct (locks (tbl s) !! ReqName req) as [held|] eqn:E.
  - destruct (time.After (ExpiresAt held) (clock s)) eqn:Ha; simpl.
    { repeat case_match; done. }
    intros [= <- <-]. simpl. unfold time.Add. split_and!; try done; try lia.
    intros l' Hl' Hn. specialize (Hal eq_refl l' Hl'). simpl in Hn.
    rewrite Hn, E in Hal. simplify_eq. destruct Hl' as (_ & ? & _). reflect. lia.
  - intros [= <- <-]. simpl. unfold time.Add. split_and!; try done; try lia.
    intros l' Hl' Hn. specialize (Hal eq_refl l' Hl'). simpl in Hn. by rewrite Hn, E in Hal.
Qed.

Lemma Inv_acquire s id deadline req r t' :
  Inv s -> id ∉ map ID (hist s) ->
  acquireIter id (clock s) deadline req (tbl s) = (r, t') ->
  Inv (mkSys t' (clock s) (granted_hist r (hist s)) (gone s)).
Proof.
  intros HI Hid E. destruct r as [l|e|timeout ch].
  - destruct (acquireIter_granted s id deadline req l t' HI E)
      as (HN & HID & Hexp & Hr & Hr' & Hrel & Hlocks & Hno).
    destruct HI as [Hids Hreleased Hal Hone].
    assert (forall l', alive (mkSys t' (clock s) (l :: hist s) (gone s)) l' ->
              l' = l \/ alive s l') as Hsplit.
    { intros l' (Hin & ? & ?). simpl in *. apply elem_of_cons in Hin as [->|?]; [by left|].
      right. by split_and!. }
    split; simpl.
    + apply NoDup_cons. by rewrite HID.
    + intros i. rewrite Hrel. apply Hreleased.
    + intros _ l' [->|Hl']%Hsplit; rewrite Hlocks; [apply lookup_insert_eq|].
      rewrite lookup_insert_ne by (symmetry; by apply Hno). by apply Hal.
    + intros l1 l2 [->|H1]%Hsplit [->|H2]%Hsplit HN'; [done| | |by apply Hone].
      * by destruct (Hno l2 H2).
      * by destruct (Hno l1 H1).
  - assert (t' = tbl s) as ->.
    { unfold acquireIter in E. repeat case_match; congruence. }
    by destruct s.
  - assert (t' = tbl s) as ->.
    { unfold acquireIter in E. repeat case_match; congruence. }
    by destruct s.
Qed.

Lemma Release_inv now name id t r t' :
  Release now name id t = (r, t') ->
  rebuilt t' = rebuilt t /\
  match r with
  | None => locks t' = locks t /\ released t' = released t
  | Some l => locks t !! name = Some l /\ ID l = id /\ locks t' = delete name (locks t) /\
      released t' = <[id := time.Add now MaxLease]> (released t)
  end.
Proof.
  unfold Release. destruct (locks t !! name) as [held|]; [|by intros [= <- <-]].
  case_bool_decide; simpl; intros [= <- <-]; by split_and!.
Qed.

Lemma Forget_inv now name id t :
  rebuilt (Forget now name id t) = rebuilt t /\
  locks (Forget now name id t) = deleteID name id (locks t) /\
  (forall i, is_Some (released (Forget now name id t) !! i) -> i = id \/ is_Some (released t !! i)).
Proof.
  assert (forall i (x : time.Time), is_Some (<[id:=x]> (filter (fun '(_, until) =>
      time.After until now = true) (released t)) !! i) -> i = id \/ is_Some (released t !! i)) as Hrel.
  { intros i x. destruct (decide (i = id)) as [->|?]; [by left|].
    rewrite lookup_insert_ne by done. intros [y Hy]. right.
    apply map_lookup_filter_Some in Hy as [? _]. eauto. }
  unfold Forget, deleteID, pruneReleased. cbn.
  destruct (locks t !! name) as [l|]; [case_decide; cbn|cbn]; split_and!; eauto.
Qed.

Lemma Rebuild_inv now gen ls t cs t' :
  Rebuild now gen ls t = (Some cs, t') ->
  gen = generation t /\ rebuilt t' = true /\
  released t' = released (pruneReleased now t) /\
  foldl (rebuildLock now (released t')) (∅, []) ls = (locks t', cs).
Proof.
  unfold Rebuild. destruct (Z.eqb_spec gen (generation t)); [|done]. simpl.
  destruct (foldl _ _ _) as [m c] eqn:E. intros [= <- <-]. by cbn in *.
Qed.

Lemma Inv_rebuild s gen ls t' :
  Inv s -> Rebuild (clock s) gen ls (tbl s) = (Some [], t') ->
  (forall l, l ∈ ls -> l ∈ hist s) -> (forall l, alive s l -> l ∈ ls) ->
  Inv (mkSys t' (clock s) (hist s) (gone s)).
Proof.
  intros HI (_ & Hr & Hrel & Hfold)%Rebuild_inv Hsound Hcomplete.
  assert (forall i, is_Some (released t' !! i) -> i ∈ gone s) as Hgone.
  { intros i [x Hx]. rewrite Hrel in Hx. apply map_lookup_filter_Some in Hx as [Hx _].
    apply (inv_released _ HI). eauto. }
  apply (Inv_shrink s); [done|done|by intros l|done|].
  simpl. intros _ l Hl.
  assert (counted (clock s) (released t') l) as Hcount.
  { destruct Hl as (_ & ? & Hng). split; [done|].
    destruct (released t' !! ID l) eqn:E; [|done]. destruct Hng. apply Hgone. by rewrite E. }
  destruct (rebuild_counted _ _ ls ∅ l (Hcomplete l Hl) Hcount) as (k & Hk & Hid & Hin);
    [by rewrite Hfold|].
  rewrite Hfold in Hk. simpl in Hk. rewrite Hk. f_equal.
  apply (hist_id_inj s); [apply HI|by apply Hsound|by destruct Hl|done].
Qed.

(** Pruning the expired locks keeps those alive. *)
Lemma list_keeps_alive s l :
  alive s l -> locks (tbl s) !! Name l = Some l ->
  (list_ (locks (tbl s)) (clock s)).2 !! Name l = Some l.
Proof.
  intros (_ & Hexp & _) Hl. rewrite list_lookup, Hl. simpl.
  by rewrite (proj2 (time.After_spec _ _) Hexp).
Qed.

Lemma deleteID_keeps_alive s name id l :
  alive (mkSys (tbl s) (clock s) (hist s) ({[id]} ∪ gone s)) l ->
  locks (tbl s) !! Name l = Some l -> deleteID name id (locks (tbl s)) !! Name l = Some l.
Proof.
  intros (_ & _ & Hng) Hl. simpl in Hng. rewrite deleteID_lookup, Hl.
  rewrite decide_False; [done|]. intros [_ ?]. set_solver.
Qed.

Section complete_rebuilds.

Variable gathers : Sys -> list Lock -> Prop.
Hypothesis gathers_complete : forall s ls, gathers s ls -> complete s ls.

Lemma Inv_step s s' : Inv s -> step gathers s s' -> Inv s'.
Proof.
  intros HI Hstep. destruct Hstep as [s d Hd|s id dl req r t' Hid _ E|s name id t' l E|s name id t' E
    |s name id|s|s|s|s gen ls t' Hg E|s gen ls t' E]; cbn in *.
  - apply (Inv_shrink s); [done|done| |apply HI|].
    + intros l (? & ? & ?). simpl in *. split_and!; auto. lia.
    + intros Hr l (? & ? & ?). simpl in *. apply (inv_alive _ HI Hr). split_and!; auto. lia.
  - by eapply Inv_acquire.
  - apply Release_inv in E as (Hr & Hl & <- & Hlocks & Hrel).
    apply (Inv_shrink s); [done|done| | |]; simpl.
    + intros x (? & ? & ?). simpl in *. split_and!; auto. set_solver.
    + intros i [x Hx]. rewrite Hrel in Hx. destruct (decide (i = ID l)) as [->|?]; [set_solver|].
      simplify_map_eq. pose proof (inv_released _ HI i). set_solver.
    + intros Hr' x Hx. rewrite Hr in Hr'.
      assert (alive s x) as Hx'. { destruct Hx as (? & ? & ?). simpl in *. split_and!; auto. set_solver. }
      pose proof (inv_alive _ HI Hr' x Hx') as Hlx. rewrite Hlocks.
      rewrite lookup_delete_ne; [done|]. intros ->. simplify_eq. destruct Hx as (_ & _ & ?).
      simpl in *. set_solver.
  - apply Release_inv in E as (Hr & Hlocks & Hrel).
    apply (Inv_shrink s); [done|done|by intros l| |]; simpl; rewrite ?Hrel, ?Hr, ?Hlocks; apply HI.
  - destruct (Forget_inv (clock s) name id (tbl s)) as (Hr & Hlocks & Hrel).
    apply (Inv_shrink s); [done|done| | |]; simpl.
    + intros x (? & ? & ?). simpl in *. split_and!; auto. set_solver.
    + intros i Hi. apply Hrel in Hi as [->|Hi]; [set_solver|]. pose proof (inv_released _ HI i Hi). set_solver.
    + rewrite Hr, Hlocks. intros Hr' x Hx. apply (deleteID_keeps_alive s); [done|].
      apply (inv_alive _ HI Hr'). destruct Hx as (? & ? & ?). simpl in *. split_and!; auto. set_solver.
  - apply (Inv_shrink s); [done|done|by intros l|apply HI|done].
  - apply (Inv_shrink s); [done|done|by intros l|apply HI|].
    intros Hr l Hl. apply (list_keeps_alive s); [done|]. by apply (inv_alive _ HI).
  - apply (Inv_shrink s); [done|done|by intros l|apply HI|].
    intros Hr l Hl. apply (list_keeps_alive s); [done|]. by apply (inv_alive _ HI).
  - apply gathers_complete in Hg as [Hs Hc]. by eapply Inv_rebuild.
  - unfold Rebuild in E. destruct (_ =? _)%Z; simpl in E; [by destruct (foldl _ _ _)|]. injection E as <-. by destruct s.
Qed.

Lemma Inv_reachable s : reachable gathers s -> Inv s.
Proof.
  intros [now Hs]. revert s Hs. apply rtc_ind_r; [apply Inv_init|].
  intros s1 s2 _ Hstep HI. by eapply Inv_step.
Qed.

End complete_rebuilds.

#[local] Open Scope Z_scope.
#[local] Open Scope string_scope.

(** A run used by the witnesses: the table is rebuilt from no lock, a client
    takes the lock "l" for the default lease, and time passes. *)
Definition req_l (holder : string) : Request := mkRequest "l" "n1" holder 0 0.

Definition lock_a : Lock := mkLock "l" "a" "n1" "h1" 5 (5 + DefaultLease).

Definition sys_a : Sys :=
  mkSys (mkTable {["l" := lock_a]} true 0 ∅ ∅ 0) (5 + time.Second) [lock_a] ∅.

Lemma sys_a_reachable : reachable complete sys_a.
Proof.
  exists 5%Z.
  eapply rtc_l; [eapply (step_rebuild _ _ 0 []); [|reflexivity]|].
  { split; [set_solver|]. intros l (Hin & _). simpl in Hin. set_solver. }
  eapply rtc_l; [eapply (step_acquire _ _ "a" 5 (req_l "h1")); [set_solver|set_solver|reflexivity]|].
  eapply rtc_l; [eapply (step_tick _ _ time.Second); done|].
  apply rtc_refl.
Qed.

(** C6: In every interleaving of acquires, releases, forgets, drops, lists and rebuilds where
    each rebuild that succeeds reports no conflict and is given all the live locks, as they
    were granted, two locks of one name that are neither expired nor released are the same
    lock. The second condition is on the nodes asked at a rebuild, which lib_cluster_lock.go
    may skip: without it a lock is granted twice (incomplete_rebuild_grants_twice). *)
Theorem mutual_exclusion gathers s l1 l2 :
  (forall s' ls, gathers s' ls -> complete s' ls) ->
  reachable gathers s -> alive s l1 -> alive s l2 -> Name l1 = Name l2 -> l1 = l2.
Proof. intros Hg Hs. apply (inv_one _ (Inv_reachable gathers Hg _ Hs)). Qed.

Lemma mutual_exclusion_witness :
  reachable complete sys_a /\ alive sys_a lock_a /\ lock_a = lock_a.
Proof.
  assert (alive sys_a lock_a) as Ha.
  { split_and!; [apply elem_of_cons; by left|vm_compute; done|set_solver]. }
  split; [exact sys_a_reachable|]. split; [exact Ha|].
  apply (mutual_exclusion complete sys_a); [by intros|exact sys_a_reachable|exact Ha|exact Ha|reflexivity].
Defined.

(** Without that assumption the exclusion fails: the lock is granted, the table dropped and
    rebuilt from no lock, as it is when the node of the holder is skipped, and the lock is
    granted again. *)
Lemma incomplete_rebuild_grants_twice :
  exists s l1 l2, reachable (fun _ ls => ls = []) s /\ alive s l1 /\ alive s l2 /\ Name l1 = Name l2 /\ l1 <> l2.
Proof.
  pose (lock_b := mkLock "l" "b" "n1" "h2" 5 (5 + DefaultLease)).
  eexists _, lock_a, lock_b. split; [exists 5%Z|].
  { eapply rtc_l; [eapply (step_rebuild _ _ 0 []); reflexivity|].
    eapply rtc_l; [eapply (step_acquire _ _ "a" 5 (req_l "h1")); [set_solver|set_solver|reflexivity]|].
    eapply rtc_l; [apply step_drop|]. eapply rtc_l; [eapply (step_rebuild _ _ 1 []); reflexivity|].
    eapply rtc_l; [eapply (step_acquire _ _ "b" 5 (req_l "h2")); [|set_solver|reflexivity]|apply rtc_refl].
    simpl. intros [H|H]%elem_of_cons; [done|by apply elem_of_nil in H]. }
  unfold alive. cbn. split_and!; try done. 1: apply list_elem_of_further, list_elem_of_here. all: set_solver.
Qed.

(** A grant is safe and bounded.  A pass of [Acquire] that grants a lock in a
    reachable state does so on a rebuilt table, with no lock of that name alive,
    and for a lease that ends in the future and at most [MaxLease] later; the lock
    granted is alive. *)
Theorem acquire_grants_free_lock gathers s id deadline req l t' :
  (forall s' ls, gathers s' ls -> complete s' ls) -> reachable gathers s -> id ∉ gone s ->
  acquireIter id (clock s) deadline req (tbl s) = (Granted_ l, t') ->
  Name l = ReqName req /\
  (clock s < ExpiresAt l <= clock s + MaxLease)%Z /\
  rebuilt (tbl s) = true /\
  (forall l', alive s l' -> Name l' ≠ Name l) /\
  alive (mkSys t' (clock s) (l :: hist s) (gone s)) l.
Proof.
  intros Hc Hs Hg E. pose proof (Inv_reachable gathers Hc _ Hs) as HI.
  destruct (acquireIter_granted _ _ _ _ _ _ HI E) as (? & ? & ? & ? & ? & ? & ? & ?).
  split_and!; try done; [tauto|tauto|]. split_and!; simpl; [set_solver|tauto|congruence].
Qed.

Lemma acquire_grants_free_lock_witness :
  exists l t', acquireIter "b" (clock sys_a) 9 (mkRequest "m" "n1" "h2" 0 0) (tbl sys_a) = (Granted_ l, t') /\
    (clock sys_a < ExpiresAt l <= clock sys_a + MaxLease)%Z.
Proof.
  eexists _, _. split; [reflexivity|].
  eapply (acquire_grants_free_lock complete sys_a "b" 9 (mkRequest "m" "n1" "h2" 0 0));
    [by intros|exact sys_a_reachable|set_solver|reflexivity].
Defined.

(** A waiting request is answered by its deadline.  A pass that waits does so
    for a positive time that ends no later than the deadline of the request and
    than the lease of the lock it waits for; a pass run at the deadline or later
    never waits. *)
Theorem acquire_wait_bounded id now deadline req t :
  (deadline - now <= time.maxDuration)%Z ->
  match (acquireIter id now deadline req t).1 with
  | Waiting timeout ch =>
      (0 < timeout)%Z /\ (now + timeout <= deadline)%Z /\ ch = changed t /\
      exists held, locks t !! ReqName req = Some held /\ (now + timeout <= ExpiresAt held)%Z
  | Failed (ErrHeld held) => (deadline <= now)%Z /\ locks t !! ReqName req = Some held
  | Failed ErrNotRebuilt => rebuilt t = false
  | Failed ErrNoName => False
  | Granted_ l => Name l = ReqName req /\ ID l = id
  end.
Proof.
  intros Hd. unfold acquireIter.
  destruct (rebuilt t); [|done]. simpl.
  destruct (locks t !! ReqName req) as [held|] eqn:E; [|done].
  destruct (time.After (ExpiresAt held) now) eqn:Ha; [|done]. reflect.
  pose proof (time.Sub_pos deadline now) as Hp.
  pose proof (time.Sub_pos (ExpiresAt held) now) as Hp'.
  assert (time.Sub deadline now <= deadline - now \/ deadline <= now)%Z as Hle.
  { unfold time.Sub, time.minDuration, time.maxDuration. lia. }
  assert (time.Sub (ExpiresAt held) now <= ExpiresAt held - now)%Z as Hle'.
  { unfold time.Sub, time.minDuration, time.maxDuration. lia. }
  cbn -[time.Sub]. destruct (Z.leb_spec (time.Sub deadline now) 0); cbn -[time.Sub]; [split; [lia|done]|].
  destruct (Z.ltb_spec (time.Sub deadline now) (time.Sub (ExpiresAt held) now));
    split_and!; try done; try lia; exists held; split; try done; lia.
Qed.

Lemma acquire_wait_bounded_witness :
  exists timeout ch,
    (acquireIter "b" 7 (7 + time.Minute) (req_l "h2") (tbl sys_a)).1 = Waiting timeout ch /\
    (0 < timeout)%Z.
Proof.
  eexists _, _. split; [reflexivity|].
  pose proof (acquire_wait_bounded "b" 7 (7 + time.Minute) (req_l "h2") (tbl sys_a)) as H.
  apply H. vm_compute. discriminate.
Defined.

(** A release frees the lock at once.  It succeeds exactly when the table
    holds the lock under that id; it then wakes the waiting requests, keeps the id
    from the rebuilds to come, and the next pass of a request for the lock grants
    it.  A release that fails changes nothing a grant depends on. *)
Theorem release_then_acquire now name id t :
  rebuilt t = true ->
  let '(r, t') := Release now name id t in
  (is_Some r <-> exists l, locks t !! name = Some l /\ ID l = id) /\
  match r with
  | Some l => changed t' = S (changed t) /\ is_Some (released t' !! id) /\
      forall id' now' deadline req, ReqName req = name ->
        exists l', (acquireIter id' now' deadline req t').1 = Granted_ l'
  | None => locks t' = locks t /\ changed t' = changed t /\ released t' = released t
  end.
Proof.
  intros Hr. unfold Release.
  destruct (locks t !! name) as [held|] eqn:E.
  - case_bool_decide as Hid; simpl.
    + split; [split; [eauto|by eexists]|]. split_and!; [done| |].
      * rewrite lookup_insert_eq. by eexists.
      * intros id' now' deadline req <-. unfold acquireIter. cbn. rewrite Hr. cbn.
        rewrite lookup_delete_eq. by eexists.
    + split; [|done]. split; [by intros []|]. intros (l & [= <-] & ?). done.
  - simpl. split; [|done]. split; [by intros []|]. by intros (l & ? & _).
Qed.

Lemma release_then_acquire_witness :
  rebuilt (tbl sys_a) = true /\ (Release 8 "l" "a" (tbl sys_a)).1 = Some lock_a.
Proof.
  split; [reflexivity|].
  pose proof (release_then_acquire 8 "l" "a" (tbl sys_a) eq_refl) as H.
  destruct (Release 8 "l" "a" (tbl sys_a)) as [r t'] eqn:E. vm_compute in E.
  by injection E as <- _.
Defined.

(** A rebuild that raced with a drop is refused.  The generation read before
    the nodes are asked differs after any number of drops below 2^64, so the
    table, its grants and its generation are left as they were. *)
Theorem rebuild_after_drop_refused now t ls (n : nat) :
  (0 <= generation t < 2 ^ 64)%Z -> (0 < Z.of_nat n < 2 ^ 64)%Z ->
  let t' := Nat.iter n Drop t in
  Rebuild now (generation t) ls t' = (None, t').
Proof.
  intros Hg Hn t'. unfold Rebuild.
  assert (forall k, generation (Nat.iter k Drop t) = ((generation t + Z.of_nat k) mod 2 ^ 64)%Z) as Hgen.
  { induction k as [|k IH].
    - simpl. rewrite Z.add_0_r. symmetry. by apply Z.mod_small.
    - change (generation (Drop (Nat.iter k Drop t)) = ((generation t + Z.of_nat (S k)) mod 2 ^ 64)%Z).
      cbn [Drop wake]. cbn -[Nat.iter Z.pow Z.of_nat]. rewrite IH. unfold uint64_incr.
      rewrite Zplus_mod_idemp_l. f_equal. lia. }
  destruct (Z.eqb_spec (generation t) (generation t')) as [Heq|]; [|done]. exfalso.
  unfold t' in Heq. rewrite Hgen in Heq.
  destruct (Z_lt_ge_dec (generation t + Z.of_nat n) (2 ^ 64)).
  - rewrite Z.mod_small in Heq; lia.
  - assert ((generation t + Z.of_nat n) mod 2 ^ 64 = generation t + Z.of_nat n - 2 ^ 64)%Z as Hm.
    { symmetry. apply (Z.mod_unique_pos _ _ 1); lia. }
    lia.
Qed.

Lemma rebuild_after_drop_refused_witness :
  Rebuild 9 (generation NewTable) [lock_a] (Nat.iter 2 Drop NewTable) = (None, Nat.iter 2 Drop NewTable).
Proof. apply rebuild_after_drop_refused; simpl; lia. Defined.

End locktable.
