(* ===== verification/Naming.v ===== *)
(** * Object names: core/naming, util/hostname

    [naming.Path], its text form and the parser of that form, the kinds, the
    relations between objects, and the validation of host and object names.
    An error of the code is [None]: no caller looks at its text. *)

From S2P Require Import Prelude.
From Stdlib Require Import Ascii.

Open Scope string_scope.

(** ** The functions of package [strings] the parser uses *)

Module strings.

Fixpoint Split (s : string) (sep : ascii) : list string :=
  match s with
  | EmptyString => [""]
  | String c s' =>
      if Ascii.eqb c sep then "" :: Split s' sep
      else match Split s' sep with
           | [] => [String c ""]
           | w :: l => String c w :: l
           end
  end.

(** [strings.SplitN(s, sep, 2)]. *)
Fixpoint SplitN2 (s : string) (sep : ascii) : list string :=
  match s with
  | EmptyString => [""]
  | String c s' =>
      if Ascii.eqb c sep then [""; s']
      else match SplitN2 s' sep with
           | [] => [String c ""]
           | w :: l => String c w :: l
           end
  end.

Fixpoint ContainsChar (s : string) (c : ascii) : bool :=
  match s with
  | EmptyString => false
  | String a s' => Ascii.eqb a c || ContainsChar s' c
  end.

Fixpoint TrimLeft (s cutset : string) : string :=
  match s with
  | EmptyString => ""
  | String a s' => if ContainsChar cutset a then TrimLeft s' cutset else s
  end.

Fixpoint rev_append (s acc : string) : string :=
  match s with
  | EmptyString => acc
  | String a s' => rev_append s' (String a acc)
  end.

Definition Reverse (s : string) : string := rev_append s "".

Definition TrimRight (s cutset : string) : string := Reverse (TrimLeft (Reverse s) cutset).

Definition Trim (s cutset : string) : string := TrimRight (TrimLeft s cutset) cutset.

Definition lower (c : ascii) : ascii :=
  let n := N_of_ascii c in
  if ((65 <=? n) && (n <=? 90))%N then ascii_of_N (n + 32) else c.

Fixpoint ToLower (s : string) : string :=
  match s with
  | EmptyString => ""
  | String a s' => String (lower a) (ToLower s')
  end.

Fixpoint all_chars (p : ascii -> bool) (s : string) : bool :=
  match s with
  | EmptyString => true
  | String a s' => p a && all_chars p s'
  end.

(** *** What trimming and splitting do *)

Lemma rev_append_all p s acc : all_chars p (rev_append s acc) = all_chars p s && all_chars p acc.
Proof.
  revert acc. induction s as [|a s IH]; intros acc; simpl; [done|].
  rewrite IH. simpl. by destruct (p a), (all_chars p s), (all_chars p acc).
Qed.

Lemma Reverse_all p s : all_chars p (Reverse s) = all_chars p s.
Proof. unfold Reverse. rewrite rev_append_all. apply andb_true_r. Qed.

Lemma rev_append_empty s acc : rev_append s acc = "" <-> s = "" /\ acc = "".
Proof.
  revert acc. induction s as [|a s IH]; intros acc; simpl; [naive_solver|].
  rewrite IH. naive_solver.
Qed.

Lemma TrimLeft_empty s cutset : TrimLeft s cutset = "" <-> all_chars (ContainsChar cutset) s = true.
Proof.
  induction s as [|a s IH]; simpl; [done|].
  destruct (ContainsChar cutset a); simpl; [apply IH|done].
Qed.

Lemma TrimLeft_all p s cutset :
  all_chars p s = true -> all_chars p (TrimLeft s cutset) = true.
Proof.
  induction s as [|a s IH]; simpl; [done|]. intros H.
  destruct (ContainsChar cutset a); simpl; [|done].
  apply IH. by apply andb_true_iff in H as [_ ?].
Qed.

Lemma TrimLeft_all_inv p s cutset :
  all_chars (fun c => p c || ContainsChar cutset c) (TrimLeft s cutset) = true ->
  all_chars (fun c => p c || ContainsChar cutset c) s = true.
Proof.
  induction s as [|a s IH]; simpl; [done|].
  destruct (ContainsChar cutset a) eqn:E; simpl; [|by rewrite E].
  intros H. by rewrite orb_true_r, IH.
Qed.

Lemma all_chars_ext p q s :
  (forall c, p c = q c) -> all_chars p s = all_chars q s.
Proof. intros H. induction s as [|a s IH]; simpl; [done|]. by rewrite H, IH. Qed.

Lemma all_chars_impl (p q : ascii -> bool) s :
  (forall c, p c = true -> q c = true) -> all_chars p s = true -> all_chars q s = true.
Proof.
  intros H. induction s as [|a s IH]; simpl; [done|].
  rewrite !andb_true_iff. naive_solver.
Qed.

(** Trimming both ends leaves nothing exactly when every character is cut. *)
Lemma Trim_empty s cutset : Trim s cutset = "" <-> all_chars (ContainsChar cutset) s = true.
Proof.
  unfold Trim, TrimRight, Reverse. rewrite rev_append_empty, TrimLeft_empty, rev_append_all.
  rewrite andb_true_r. split.
  - intros [H _]. pose proof (TrimLeft_all_inv (fun _ => false) s cutset) as L.
    simpl in L. by apply L.
  - intros H. split; [|done]. by apply TrimLeft_all.
Qed.

Lemma Split_nosep s sep : all_chars (fun c => negb (Ascii.eqb c sep)) s = true -> Split s sep = [s].
Proof.
  induction s as [|a s IH]; simpl; [done|]. intros [Ha Hs]%andb_true_iff.
  apply negb_true_iff in Ha. by rewrite Ha, IH.
Qed.

Lemma Split_app s1 s2 sep :
  all_chars (fun c => negb (Ascii.eqb c sep)) s1 = true ->
  Split (s1 ++ String sep s2) sep = s1 :: Split s2 sep.
Proof.
  induction s1 as [|a s1 IH]; simpl.
  - by rewrite Ascii.eqb_refl.
  - intros [Ha Hs]%andb_true_iff. apply negb_true_iff in Ha. by rewrite Ha, IH.
Qed.

End strings.

(** ** util/hostname *)

Module hostname.

Definition alnums := "abcdefghijklmnopqrstuvwxyzABCDEFGHIJKLMNOPQRSTUVWXYZ0123456789".

(** [s[0:1]] and [s[1:]] of a non empty string. *)
Definition head (s : string) : string :=
  match s with EmptyString => "" | String a _ => String a "" end.
Definition tail (s : string) : string :=
  match s with EmptyString => "" | String _ s' => s' end.

Definition IsValid (s : string) : bool :=
  let n := String.length s in
  if (n <? 1)%nat then false
  else if (63 <? n)%nat then false
  else if negb (String.eqb (strings.Trim (head s) alnums) "") then false
  else if negb (String.eqb (strings.Trim (tail s) (alnums ++ ".-")) "") then false
  else true.

Definition is_alnum (c : ascii) : bool := strings.ContainsChar alnums c.
Definition is_name_char (c : ascii) : bool := strings.ContainsChar (alnums ++ ".-") c.

Lemma alnum_name_char c : is_alnum c = true -> is_name_char c = true.
Proof.
  unfold is_alnum, is_name_char. generalize alnums. intros s.
  induction s as [|a s IH]; simpl; [done|].
  rewrite !orb_true_iff. naive_solver.
Qed.

(** A valid name has 1 to 63 characters, letters, digits, dots and dashes, the
    first one a letter or a digit. *)
Lemma IsValid_spec s :
  IsValid s = true <->
  (1 <= String.length s <= 63)%nat /\
  strings.all_chars is_alnum (head s) = true /\ strings.all_chars is_name_char (tail s) = true.
Proof.
  unfold IsValid. change is_alnum with (strings.ContainsChar alnums).
  change is_name_char with (strings.ContainsChar (alnums ++ ".-")).
  rewrite <- !strings.Trim_empty.
  destruct (Nat.ltb_spec (String.length s) 1); [naive_solver lia|].
  destruct (Nat.ltb_spec 63 (String.length s)); [naive_solver lia|].
  destruct (String.eqb_spec (strings.Trim (head s) alnums) ""); simpl; [|naive_solver].
  destruct (String.eqb_spec (strings.Trim (tail s) (alnums ++ ".-")) ""); simpl; naive_solver lia.
Qed.

Lemma IsValid_chars s : IsValid s = true -> strings.all_chars is_name_char s = true.
Proof.
  rewrite IsValid_spec. intros (_ & Hh & Ht). destruct s as [|a s]; [done|].
  simpl in *. rewrite andb_true_r in Hh. by rewrite (alnum_name_char a Hh).
Qed.

End hostname.

(** ** [strconv.Atoi]: an optional sign and digits, in the range of [int] *)

Module strconv.

Definition digit (c : ascii) : option Z :=
  let n := Z.of_N (N_of_ascii c) in
  if ((48 <=? n) && (n <=? 57))%Z then Some (n - 48)%Z else None.

Fixpoint digits (acc : Z) (s : string) : option Z :=
  match s with
  | EmptyString => Some acc
  | String c s' =>
      match digit c with
      | None => None
      | Some d => digits (acc * 10 + d)%Z s'
      end
  end.

Definition in_range (z : Z) : option Z :=
  if ((- 2 ^ 63 <=? z) && (z <=? 2 ^ 63 - 1))%Z then Some z else None.

Definition Atoi (s : string) : option Z :=
  match s with
  | EmptyString => None
  | String "-" "" | String "+" "" => None
  | String "-" s' => match digits 0 s' with Some z => in_range (- z)%Z | None => None end
  | String "+" s' => match digits 0 s' with Some z => in_range z | None => None end
  | _ => match digits 0 s with Some z => in_range z | None => None end
  end.

End strconv.

(** ** core/naming *)

Module naming.

Definition Kind := string.

Definition KindInvalid : Kind := "".
Definition KindSvc : Kind := "svc".
Definition KindVol : Kind := "vol".
Definition KindCfg : Kind := "cfg".
Definition KindSec : Kind := "sec".
Definition KindUsr : Kind := "usr".
Definition KindCcfg : Kind := "ccfg".
Definition KindNscfg : Kind := "nscfg".

Definition KindStrings : list string :=
  [KindSvc; KindVol; KindCfg; KindSec; KindUsr; KindCcfg; KindNscfg].

Definition ParseKind (s : string) : Kind := if one_of s KindStrings then s else KindInvalid.

(** A [Kinds] is a set of kinds. *)
Definition Kinds := list Kind.

Definition NewKinds (kinds : list Kind) : Kinds :=
  filter (fun k => k <> KindInvalid) kinds.

Definition Kinds_Has (t : Kinds) (kind : Kind) : bool :=
  if String.eqb kind KindInvalid then true
  else match t with
       | [] => true
       | _ => one_of kind t
       end.

Record Path := mkPath { Name : string; Namespace : string; Kind_ : Kind }.

#[global] Instance Path_eq_dec : EqDecision Path.
Proof. solve_decision. Defined.

Definition path_tuple (p : Path) : string * string * string := (Name p, Namespace p, Kind_ p).
Definition path_of_tuple (x : string * string * string) : Path :=
  match x with (n, ns, k) => mkPath n ns k end.

#[global] Instance Path_countable : Countable Path.
Proof. apply (inj_countable' path_tuple path_of_tuple). by intros []. Defined.

Definition Separator := "/".
Definition sep : ascii := "/"%char.
Definition NsRoot := "root".

Definition forbiddenNames : list string := KindStrings ++ ["node"].

Definition IsZero (t : Path) : bool :=
  String.eqb (Name t) "" && String.eqb (Namespace t) "" && String.eqb (Kind_ t) KindInvalid.

Definition NewPathFromStrings (namespace kind name : string) : option Path :=
  if negb (String.eqb name (strings.ToLower name)) then None
  else if negb (String.eqb namespace (strings.ToLower namespace)) then None
  else
    let kind := if String.eqb kind "" then "svc" else kind in
    let namespace := if String.eqb namespace "" then NsRoot else namespace in
    let k := ParseKind kind in
    if String.eqb k KindInvalid then None
    else
      let name := if String.eqb k KindNscfg then "namespace" else name in
      if String.eqb k KindSvc && String.eqb namespace NsRoot && String.eqb name "namespace" then None
      else if String.eqb name "" then None
      else if negb (hostname.IsValid (strings.TrimLeft name "0123456789.")) then None
      else if negb (hostname.IsValid namespace) then None
      else if one_of name forbiddenNames then None
      else Some (mkPath name namespace k).

Definition NewPath (namespace : string) (kind : Kind) (name : string) : option Path :=
  NewPathFromStrings namespace kind name.

Definition ScalerSliceIndex (t : Path) : Z :=
  match strings.SplitN2 (Name t) "." with
  | [i; _] => match strconv.Atoi i with None => -1 | Some i => i end
  | _ => -1
  end%Z.

Definition FQN (t : Path) : string :=
  if String.eqb (Kind_ t) KindInvalid then ""
  else
    (if String.eqb (Namespace t) "" then NsRoot ++ Separator else Namespace t ++ Separator)
    ++ Kind_ t ++ Separator ++ Name t.

Definition Path_String (t : Path) : string :=
  if String.eqb (Kind_ t) KindInvalid then ""
  else if String.eqb (Kind_ t) KindNscfg then
    if String.eqb (Namespace t) NsRoot then Separator else Namespace t ++ Separator
  else
    let s := if negb (String.eqb (Namespace t) "") && negb (String.eqb (Namespace t) NsRoot)
             then Namespace t ++ Separator else "" in
    let s := if (negb (String.eqb (Kind_ t) KindSvc) && negb (String.eqb (Kind_ t) KindCcfg))
                || negb (String.eqb s "")
             then s ++ Kind_ t ++ Separator else s in
    s ++ Name t.

Definition splitPath (s : string) : string * string * string :=
  match strings.Split s sep with
  | [a; b; c] => (a, b, c)
  | [a; b] => if String.eqb b "" then (a, "nscfg", "namespace") else (NsRoot, a, b)
  | [a] => if String.eqb a "cluster" then (NsRoot, "ccfg", a) else (NsRoot, "svc", a)
  | _ => ("", "", "")
  end.

Definition ParsePath (s : string) : option Path :=
  let '(namespace, kind, name) := splitPath s in NewPathFromStrings namespace kind name.

Definition ParsePathRel (s ns : string) : option Path :=
  let '(namespace, kind, name) := splitPath s in
  NewPathFromStrings (if String.eqb namespace "." then ns else namespace) kind name.

Definition ParsePathOf (s ns : string) : option Path :=
  let s := if strings.ContainsChar s sep then s
           else "." ++ Separator ++ "svc" ++ Separator ++ s in
  ParsePathRel s ns.

(** *** Relations: an object path, or path@node *)

Definition Relation := string.

Definition Relation_Node (t : Relation) : string :=
  if strings.ContainsChar t "@" then
    match strings.SplitN2 t "@" with [_; n] => n | _ => "" end
  else "".

Definition Relation_Path (t : Relation) : option Path :=
  ParsePath (if strings.ContainsChar t "@" then
               match strings.SplitN2 t "@" with p :: _ => p | _ => "" end
             else t).

(** *** Well formed paths and the text round trip *)

(** A path the allocator returns. *)
Definition wf (p : Path) : Prop :=
  exists ns k n, NewPathFromStrings ns k n = Some p.

(** The two collisions of the text form in the root namespace: a ccfg that is
    not the cluster reads as a svc, and a svc named cluster as the ccfg. *)
Definition ambiguous (p : Path) : bool :=
  String.eqb (Namespace p) NsRoot &&
  ((String.eqb (Kind_ p) KindCcfg && negb (String.eqb (Name p) "cluster")) ||
   (String.eqb (Kind_ p) KindSvc && String.eqb (Name p) "cluster")).

Definition nosep (s : string) : bool := strings.all_chars (fun c => negb (Ascii.eqb c sep)) s.

Lemma name_char_nosep c : hostname.is_name_char c = true -> negb (Ascii.eqb c sep) = true.
Proof.
  intros H. destruct (Ascii.eqb_spec c sep) as [->|]; [|done]. by vm_compute in H.
Qed.

Lemma valid_nosep s : hostname.IsValid s = true -> nosep s = true.
Proof.
  intros H%hostname.IsValid_chars. revert H. apply strings.all_chars_impl, name_char_nosep.
Qed.

(** The validated part of a name is the name less its slice number. *)
Lemma slice_name_nosep s :
  hostname.IsValid (strings.TrimLeft s "0123456789.") = true -> nosep s = true.
Proof.
  intros H%valid_nosep. unfold nosep in *.
  assert (E : forall c, negb (Ascii.eqb c sep) =
     negb (Ascii.eqb c sep) || strings.ContainsChar "0123456789." c).
  { intros c. destruct (Ascii.eqb_spec c sep) as [->|]; [|done]. by vm_compute. }
  rewrite (strings.all_chars_ext _ _ _ E). rewrite (strings.all_chars_ext _ _ _ E) in H.
  by apply (strings.TrimLeft_all_inv (fun c => negb (Ascii.eqb c sep))).
Qed.

(** What the allocator guarantees of the path it returns. *)
Record valid_path (p : Path) : Prop := {
  vp_kind : Kind_ p ∈ KindStrings;
  vp_ns : hostname.IsValid (Namespace p) = true;
  vp_ns_lower : String.eqb (Namespace p) (strings.ToLower (Namespace p)) = true;
  vp_name : hostname.IsValid (strings.TrimLeft (Name p) "0123456789.") = true;
  vp_name_lower : String.eqb (Name p) (strings.ToLower (Name p)) = true;
  vp_name_nonempty : String.eqb (Name p) "" = false;
  vp_reserved : one_of (Name p) forbiddenNames = false;
  vp_nscfg : Kind_ p = KindNscfg -> Name p = "namespace";
  vp_svc : String.eqb (Kind_ p) KindSvc && String.eqb (Namespace p) NsRoot
           && String.eqb (Name p) "namespace" = false }.

Lemma ParseKind_spec s : ParseKind s <> KindInvalid -> ParseKind s = s /\ s ∈ KindStrings.
Proof.
  unfold ParseKind. destruct (one_of s KindStrings) eqn:E; [|done].
  intros _. split; [done|]. by apply one_of_spec.
Qed.

Lemma ParseKind_kind s : s ∈ KindStrings -> ParseKind s = s.
Proof. intros H%one_of_spec. unfold ParseKind. by rewrite H. Qed.

Lemma NewPath_valid ns k n p : NewPathFromStrings ns k n = Some p -> valid_path p.
Proof.
  unfold NewPathFromStrings.
  destruct (String.eqb_spec n (strings.ToLower n)) as [Hn|]; [cbn [negb]|done].
  destruct (String.eqb_spec ns (strings.ToLower ns)) as [Hns|]; [cbn [negb]|done].
  set (k' := if String.eqb k "" then "svc" else k).
  set (ns' := if String.eqb ns "" then NsRoot else ns).
  destruct (String.eqb_spec (ParseKind k') KindInvalid) as [|Hk]; [done|].
  apply ParseKind_spec in Hk as [Hk Hin].
  set (n' := if String.eqb (ParseKind k') KindNscfg then "namespace" else n).
  destruct (String.eqb (ParseKind k') KindSvc && _ && _) eqn:Hs; [done|].
  destruct (String.eqb n' "") eqn:H0; [done|].
  destruct (hostname.IsValid (strings.TrimLeft _ _)) eqn:Hvn; [cbn [negb]|done].
  destruct (hostname.IsValid ns') eqn:Hvs; [cbn [negb]|done].
  destruct (one_of n' forbiddenNames) eqn:Hr; [done|]. intros [= <-].
  assert (Hn' : String.eqb n' (strings.ToLower n') = true).
  { unfold n'. destruct (String.eqb (ParseKind k') KindNscfg); [done|].
    by apply String.eqb_eq. }
  assert (Hns' : String.eqb ns' (strings.ToLower ns') = true).
  { unfold ns'. destruct (String.eqb ns ""); [done|]. by apply String.eqb_eq. }
  split; cbn [Kind_ Namespace Name]; try done.
  - by rewrite Hk.
  - intros E. unfold n'. rewrite E. done.
Qed.

Lemma valid_NewPath p : valid_path p -> NewPathFromStrings (Namespace p) (Kind_ p) (Name p) = Some p.
Proof.
  intros [Hk Hns Hnsl Hn Hnl Hne Hr Hnc Hsvc]. unfold NewPathFromStrings.
  rewrite Hnl, Hnsl. cbn [negb].
  assert (Hk0 : String.eqb (Kind_ p) "" = false).
  { apply String.eqb_neq. intros E. rewrite E in Hk. vm_compute in Hk. set_solver. }
  assert (Hns0 : String.eqb (Namespace p) "" = false).
  { apply String.eqb_neq. intros E. rewrite E in Hns. done. }
  rewrite Hk0, Hns0, ParseKind_kind by done. unfold KindInvalid. rewrite Hk0.
  assert (En : (if String.eqb (Kind_ p) KindNscfg then "namespace" else Name p) = Name p).
  { destruct (String.eqb_spec (Kind_ p) KindNscfg); [|done]. by rewrite Hnc. }
  rewrite En, Hsvc, Hne, Hn, Hns, Hr. by destruct p.
Qed.

Lemma string_app_assoc (a b c : string) : a ++ (b ++ c) = (a ++ b) ++ c.
Proof. induction a as [|x a IH]; [done|]. exact (f_equal (String x) IH). Qed.

Lemma wf_valid p : wf p -> valid_path p.
Proof. intros (ns & k & n & H). by eapply NewPath_valid. Qed.

(** Splitting the text of a path gives back its three parts. *)
Lemma splitPath_String p :
  valid_path p -> ambiguous p = false ->
  splitPath (Path_String p) = (Namespace p, Kind_ p, Name p) \/
  (Kind_ p = KindNscfg /\ Namespace p = NsRoot /\ splitPath (Path_String p) = ("", KindNscfg, Name p)).
Proof.
  intros [Hk Hns _ Hn _ Hne _ Hnc _] Ha.
  apply valid_nosep in Hns as Hns'. apply slice_name_nosep in Hn as Hn'.
  assert (Hns0 : String.eqb (Namespace p) "" = false).
  { apply String.eqb_neq. intros E. rewrite E in Hns. done. }
  destruct p as [n ns k]; simpl in *. unfold Path_String, splitPath, ambiguous in *. simpl in *.
  destruct (String.eqb_spec k KindInvalid) as [->|_].
  { vm_compute in Hk. set_solver. }
  rewrite Hns0. simpl.
  destruct (String.eqb_spec k KindNscfg) as [->|Hk'].
  { specialize (Hnc eq_refl). subst n.
    destruct (String.eqb_spec ns NsRoot) as [->|]; [by right|left].
    change Separator with (String sep ""). by rewrite strings.Split_app. }
  left. destruct (String.eqb_spec ns NsRoot) as [->|Hr]; simpl.
  - destruct (String.eqb_spec k KindSvc) as [->|Hk2]; simpl in *.
    { change (EmptyString ++ n) with n. rewrite strings.Split_nosep by done. by rewrite Ha. }
    destruct (String.eqb_spec k KindCcfg) as [->|Hk3]; simpl in *.
    { change (EmptyString ++ n) with n. rewrite strings.Split_nosep by done. apply orb_false_iff in Ha as [Ha _].
      apply negb_false_iff in Ha. rewrite Ha. apply String.eqb_eq in Ha. by subst. }
    assert (Hnk : nosep k = true).
    { revert Hk. clear. revert k. by_enumeration (enum1 KindStrings (fun k => nosep k = true)). }
    replace (("" ++ k ++ Separator) ++ n)%string with (k ++ String sep n)%string.
    2:{ change (EmptyString ++ k ++ Separator) with (k ++ Separator). by rewrite <- string_app_assoc. }
    rewrite strings.Split_app, strings.Split_nosep by done. by rewrite Hne.
  - assert (Hnk : nosep k = true).
    { revert Hk. clear. revert k. by_enumeration (enum1 KindStrings (fun k => nosep k = true)). }
    assert (E : String.eqb (ns ++ Separator) "" = false) by (by destruct ns).
    rewrite E. simpl. rewrite orb_true_r.
    replace (((ns ++ Separator) ++ k ++ Separator) ++ n)%string
      with (ns ++ String sep (k ++ String sep n))%string.
    2:{ by rewrite <- !string_app_assoc. }
    by rewrite strings.Split_app, strings.Split_app, strings.Split_nosep.
Qed.

(** The text of a path parses back to the path, for every path the
    allocator returns but the two ambiguous ones of the root namespace. *)
Theorem path_roundtrip p : wf p -> ambiguous p = false -> ParsePath (Path_String p) = Some p.
Proof.
  intros Hv%wf_valid Ha. unfold ParsePath.
  destruct (splitPath_String p Hv Ha) as [->|(Hk & Hns & ->)].
  - by apply valid_NewPath.
  - rewrite <- (valid_NewPath p Hv). destruct p as [n ns k]. simpl in *. by subst.
Qed.

Lemma path_roundtrip_witness :
  ParsePath "ns1/vol/1.data" = Some (mkPath "1.data" "ns1" "vol") /\
  ParsePath (Path_String (mkPath "1.data" "ns1" "vol")) = Some (mkPath "1.data" "ns1" "vol").
Proof.
  split; [reflexivity|]. apply path_roundtrip; [|reflexivity].
  exists "ns1", "vol", "1.data". reflexivity.
Defined.

(** The svc named cluster of the root namespace is a path the allocator
    accepts, and its text is the text of the cluster configuration object: a
    client handed the text addresses another object. *)
Theorem path_collision :
  let svc := mkPath "cluster" NsRoot KindSvc in
  NewPath NsRoot KindSvc "cluster" = Some svc /\
  ParsePath (Path_String svc) = Some (mkPath "cluster" NsRoot KindCcfg) /\
  (forall p q, wf p -> wf q -> ambiguous p = false -> ambiguous q = false ->
     Path_String p = Path_String q -> p = q).
Proof.
  split_and!; [reflexivity..|]. intros p q Hp Hq Ha Hb E.
  pose proof (splitPath_String p (wf_valid p Hp) Ha) as Sp.
  pose proof (splitPath_String q (wf_valid q Hq) Hb) as Sq. rewrite E in Sp.
  destruct p as [n ns k], q as [n' ns' k']; simpl in *.
  destruct Sp as [Sp|(-> & -> & Sp)], Sq as [Sq|(-> & -> & Sq)]; rewrite Sq in Sp;
    simplify_eq; try done.
  - by apply wf_valid in Hp as [].
  - by apply wf_valid in Hq as [].
Qed.

End naming.
