(* ===== verification/Instance.v ===== *)
(** * The data the daemon exchanges: core/instance, core/node, core/object,
    core/resource

    The structs of the instance, node and object states, as the monitors read
    and publish them, with the enumerations they are made of.  A Go struct is a
    [Record] whose projections have the names of the fields; two structs of one
    package with a field of the same name have it prefixed by the struct name.
    A [map] is a [gmap], a pointer an [option], a [uuid.UUID] an integer, the
    nil one being [0].  The fields no modelled code reads are left out. *)

From S2P Require Import Prelude Status Naming.
From Stdlib Require Import Ascii.

Open Scope string_scope.

(** ** Enumerations

    A Go enumeration is an inductive type; [id] is the [iota] value of a
    constructor.  Equality is decided on it. *)

Section enumerations.
Context {A : Type} (id : A -> N) (values : list A).

Fixpoint find_id (n : N) (l : list A) : option A :=
  match l with
  | [] => None
  | x :: l' => if N.eqb (id x) n then Some x else find_id n l'
  end.

Hypothesis find_values : forall x, find_id (id x) values = Some x.

Lemma id_inj x y : id x = id y -> x = y.
Proof.
  intros H. pose proof (find_values x) as Hx. rewrite H, find_values in Hx. by injection Hx.
Qed.

Lemma values_complete x : x ∈ values.
Proof.
  specialize (find_values x). revert find_values. induction values as [|y l IH]; simpl; [done|].
  destruct (N.eqb (id y) (id x)); [|set_solver]. intros [= ->]. set_solver.
Qed.

Definition eq_decision_by_id : EqDecision A :=
  fun x y => match N.eq_dec (id x) (id y) with
             | left H => left (id_inj x y H)
             | right H => right (fun E => H (f_equal id E))
             end.

End enumerations.

(** [strings.HasSuffix]. *)
Definition HasSuffix (s suffix : string) : bool :=
  let n := String.length s in
  let k := String.length suffix in
  (k <=? n)%nat && String.eqb (String.substring (n - k) k s) suffix.

(** ** core/resource *)

Module resource.

Record StartBlocker := mkStartBlocker { Reason : string; Resync : bool; BlockerPath : string }.

Record Status := mkStatus {
  Status_ : status.T;
  Type_ : string;
  IsEncap : bool;
  IsStopped : bool;
  IsDisabled : bool;
  IsOptional : bool;
  DependsOnPeers : bool;
  StartBlocker_ : option StartBlocker;
  Info : gmap string string }.

(** [prev.Resources[rid]] of a missing key is the zero struct. *)
Definition zero : Status := mkStatus status.Undef "" false false false false false None ∅.

Record RunningInfo := mkRunningInfo { RID : string }.

End resource.

(** ** core/resourceid: the group of a resource id *)

Module resourceid.

Definition isNameChar (c : ascii) : bool :=
  let n := N_of_ascii c in
  ((97 <=? n) && (n <=? 122))%N || ((65 <=? n) && (n <=? 90))%N || ((48 <=? n) && (n <=? 57))%N
  || strings.ContainsChar "_-.#*?[]!" c.

Definition CheckName (s : string) : bool := strings.all_chars isNameChar s.

Definition Parse (s : string) : option string :=
  if one_of s [""; "env"; "data"; "labels"; "DEFAULT"] then None
  else if String.prefix "subset#" s then None
  else if negb (CheckName s) then None
  else Some s.

(** The driver group as its name. *)
Definition DriverGroup (t : string) : string :=
  match strings.Split t "#" with g :: _ => g | [] => "" end.

End resourceid.

(** ** core/instance *)

Module instance.

Inductive MonitorState :=
| MonitorStateInit
| MonitorStateIdle
| MonitorStateBootSuccess
| MonitorStateBootFailed
| MonitorStateBootProgress
| MonitorStateShutdownProgress
| MonitorStateShutdownFailure
| MonitorStateShutdownSuccess
| MonitorStateStartProgress
| MonitorStateStartFailure
| MonitorStateStartSuccess
| MonitorStateStopProgress
| MonitorStateStopFailure
| MonitorStateStopSuccess
| MonitorStateFreezeProgress
| MonitorStateFreezeFailure
| MonitorStateFreezeSuccess
| MonitorStateUnfreezeProgress
| MonitorStateUnfreezeFailure
| MonitorStateUnfreezeSuccess
| MonitorStateProvisionProgress
| MonitorStateProvisionFailure
| MonitorStateProvisionSuccess
| MonitorStateUnprovisionProgress
| MonitorStateUnprovisionFailure
| MonitorStateUnprovisionSuccess
| MonitorStateDeleteProgress
| MonitorStateDeleteFailure
| MonitorStateDeleteSuccess
| MonitorStateResizeProgress
| MonitorStateResizeFailure
| MonitorStateResizeSuccess
| MonitorStateResizeStage0
| MonitorStateResizeStage1
| MonitorStateResizeStage2
| MonitorStateCapProgress
| MonitorStateCapFailure
| MonitorStateCapSuccess
| MonitorStatePrepareProgress
| MonitorStatePrepareFailure
| MonitorStateWaitChildren
| MonitorStateWaitParents
| MonitorStateWaitPriors
| MonitorStateWaitLeader
| MonitorStateWaitNonLeader
| MonitorStateWaitSyncs
| MonitorStateWaitDestination
| MonitorStateWaitDestinationFailure
| MonitorStateRunning
| MonitorStateSyncing
| MonitorStatePurgeFailed
| MonitorStateReady
| MonitorStateRestarted
| MonitorStatePreflightProgress
| MonitorStatePreflightSuccess
| MonitorStateUnknown.

Definition MonitorState_id (s : MonitorState) : N :=
  match s with
  | MonitorStateInit => 0
  | MonitorStateIdle => 1
  | MonitorStateBootSuccess => 2
  | MonitorStateBootFailed => 3
  | MonitorStateBootProgress => 4
  | MonitorStateShutdownProgress => 5
  | MonitorStateShutdownFailure => 6
  | MonitorStateShutdownSuccess => 7
  | MonitorStateStartProgress => 8
  | MonitorStateStartFailure => 9
  | MonitorStateStartSuccess => 10
  | MonitorStateStopProgress => 11
  | MonitorStateStopFailure => 12
  | MonitorStateStopSuccess => 13
  | MonitorStateFreezeProgress => 14
  | MonitorStateFreezeFailure => 15
  | MonitorStateFreezeSuccess => 16
  | MonitorStateUnfreezeProgress => 17
  | MonitorStateUnfreezeFailure => 18
  | MonitorStateUnfreezeSuccess => 19
  | MonitorStateProvisionProgress => 20
  | MonitorStateProvisionFailure => 21
  | MonitorStateProvisionSuccess => 22
  | MonitorStateUnprovisionProgress => 23
  | MonitorStateUnprovisionFailure => 24
  | MonitorStateUnprovisionSuccess => 25
  | MonitorStateDeleteProgress => 26
  | MonitorStateDeleteFailure => 27
  | MonitorStateDeleteSuccess => 28
  | MonitorStateResizeProgress => 29
  | MonitorStateResizeFailure => 30
  | MonitorStateResizeSuccess => 31
  | MonitorStateResizeStage0 => 32
  | MonitorStateResizeStage1 => 33
  | MonitorStateResizeStage2 => 34
  | MonitorStateCapProgress => 35
  | MonitorStateCapFailure => 36
  | MonitorStateCapSuccess => 37
  | MonitorStatePrepareProgress => 38
  | MonitorStatePrepareFailure => 39
  | MonitorStateWaitChildren => 40
  | MonitorStateWaitParents => 41
  | MonitorStateWaitPriors => 42
  | MonitorStateWaitLeader => 43
  | MonitorStateWaitNonLeader => 44
  | MonitorStateWaitSyncs => 45
  | MonitorStateWaitDestination => 46
  | MonitorStateWaitDestinationFailure => 47
  | MonitorStateRunning => 48
  | MonitorStateSyncing => 49
  | MonitorStatePurgeFailed => 50
  | MonitorStateReady => 51
  | MonitorStateRestarted => 52
  | MonitorStatePreflightProgress => 53
  | MonitorStatePreflightSuccess => 54
  | MonitorStateUnknown => 55
  end.

Definition MonitorState_values : list MonitorState :=
    [MonitorStateInit; MonitorStateIdle; MonitorStateBootSuccess; MonitorStateBootFailed;
   MonitorStateBootProgress; MonitorStateShutdownProgress; MonitorStateShutdownFailure;
   MonitorStateShutdownSuccess; MonitorStateStartProgress; MonitorStateStartFailure;
   MonitorStateStartSuccess; MonitorStateStopProgress; MonitorStateStopFailure;
   MonitorStateStopSuccess; MonitorStateFreezeProgress; MonitorStateFreezeFailure;
   MonitorStateFreezeSuccess; MonitorStateUnfreezeProgress; MonitorStateUnfreezeFailure;
   MonitorStateUnfreezeSuccess; MonitorStateProvisionProgress; MonitorStateProvisionFailure;
   MonitorStateProvisionSuccess; MonitorStateUnprovisionProgress;
   MonitorStateUnprovisionFailure; MonitorStateUnprovisionSuccess; MonitorStateDeleteProgress;
   MonitorStateDeleteFailure; MonitorStateDeleteSuccess; MonitorStateResizeProgress;
   MonitorStateResizeFailure; MonitorStateResizeSuccess; MonitorStateResizeStage0;
   MonitorStateResizeStage1; MonitorStateResizeStage2; MonitorStateCapProgress;
   MonitorStateCapFailure; MonitorStateCapSuccess; MonitorStatePrepareProgress;
   MonitorStatePrepareFailure; MonitorStateWaitChildren; MonitorStateWaitParents;
   MonitorStateWaitPriors; MonitorStateWaitLeader; MonitorStateWaitNonLeader;
   MonitorStateWaitSyncs; MonitorStateWaitDestination; MonitorStateWaitDestinationFailure;
   MonitorStateRunning; MonitorStateSyncing; MonitorStatePurgeFailed; MonitorStateReady;
   MonitorStateRestarted; MonitorStatePreflightProgress; MonitorStatePreflightSuccess;
   MonitorStateUnknown].

Definition MonitorStateToString : list (MonitorState * string) :=
  [(MonitorStateInit, "init"); (MonitorStateIdle, "idle");
   (MonitorStateBootProgress, "booting"); (MonitorStateBootSuccess, "booted");
   (MonitorStateBootFailed, "boot failed"); (MonitorStateShutdownProgress, "shutting");
   (MonitorStateShutdownFailure, "shutdown failed"); (MonitorStateShutdownSuccess, "shutdown");
   (MonitorStateStartProgress, "starting"); (MonitorStateStartFailure, "start failed");
   (MonitorStateStartSuccess, "started"); (MonitorStateStopProgress, "stopping");
   (MonitorStateStopFailure, "stop failed"); (MonitorStateStopSuccess, "stopped");
   (MonitorStateFreezeProgress, "freezing"); (MonitorStateFreezeFailure, "freeze failed");
   (MonitorStateFreezeSuccess, "frozen"); (MonitorStateUnfreezeProgress, "unfreezing");
   (MonitorStateUnfreezeFailure, "unfreeze failed"); (MonitorStateUnfreezeSuccess, "unfrozen");
   (MonitorStateProvisionProgress, "provisioning");
   (MonitorStateProvisionFailure, "provision failed");
   (MonitorStateProvisionSuccess, "provisioned");
   (MonitorStateUnprovisionProgress, "unprovisioning");
   (MonitorStateUnprovisionFailure, "unprovision failed");
   (MonitorStateUnprovisionSuccess, "unprovisioned"); (MonitorStateDeleteProgress, "deleting");
   (MonitorStateDeleteFailure, "delete failed"); (MonitorStateDeleteSuccess, "deleted");
   (MonitorStateResizeProgress, "resizing"); (MonitorStateResizeFailure, "resize failed");
   (MonitorStateResizeSuccess, "resized"); (MonitorStateResizeStage0, "resized:0");
   (MonitorStateResizeStage1, "resized:1"); (MonitorStateResizeStage2, "resized:2");
   (MonitorStateCapProgress, "capping"); (MonitorStateCapFailure, "cap failed");
   (MonitorStateCapSuccess, "capped"); (MonitorStatePrepareProgress, "preparing");
   (MonitorStatePrepareFailure, "prepare failed"); (MonitorStateWaitChildren, "wait children");
   (MonitorStateWaitParents, "wait parents"); (MonitorStateWaitLeader, "wait leader");
   (MonitorStateWaitNonLeader, "wait non-leader"); (MonitorStateWaitPriors, "wait priors");
   (MonitorStateWaitSyncs, "wait syncs"); (MonitorStateWaitDestination, "wait destination");
   (MonitorStateWaitDestinationFailure, "wait destination failed");
   (MonitorStateRunning, "running"); (MonitorStateSyncing, "syncing");
   (MonitorStatePurgeFailed, "purge failed"); (MonitorStateReady, "ready");
   (MonitorStateRestarted, "restarted"); (MonitorStatePreflightProgress, "preflighting");
   (MonitorStatePreflightSuccess, "preflighted"); (MonitorStateUnknown, "unknown")].

#[global] Instance MonitorState_eq_dec : EqDecision MonitorState.
Proof. refine (eq_decision_by_id MonitorState_id MonitorState_values _). by intros []. Defined.

Lemma MonitorState_all (s : MonitorState) : s ∈ MonitorState_values.
Proof. apply (values_complete MonitorState_id). by intros []. Qed.

Inductive MonitorGlobalExpect :=
| MonitorGlobalExpectInit
| MonitorGlobalExpectAborted
| MonitorGlobalExpectDeleted
| MonitorGlobalExpectFrozen
| MonitorGlobalExpectNone
| MonitorGlobalExpectPlaced
| MonitorGlobalExpectPlacedAt
| MonitorGlobalExpectProvisioned
| MonitorGlobalExpectPurged
| MonitorGlobalExpectResized
| MonitorGlobalExpectRestarted
| MonitorGlobalExpectStarted
| MonitorGlobalExpectStopped
| MonitorGlobalExpectUnfrozen
| MonitorGlobalExpectUnprovisioned
| MonitorGlobalExpectCapped
| MonitorGlobalExpectUnknown.

Definition MonitorGlobalExpect_id (s : MonitorGlobalExpect) : N :=
  match s with
  | MonitorGlobalExpectInit => 0
  | MonitorGlobalExpectAborted => 1
  | MonitorGlobalExpectDeleted => 2
  | MonitorGlobalExpectFrozen => 3
  | MonitorGlobalExpectNone => 4
  | MonitorGlobalExpectPlaced => 5
  | MonitorGlobalExpectPlacedAt => 6
  | MonitorGlobalExpectProvisioned => 7
  | MonitorGlobalExpectPurged => 8
  | MonitorGlobalExpectResized => 9
  | MonitorGlobalExpectRestarted => 10
  | MonitorGlobalExpectStarted => 11
  | MonitorGlobalExpectStopped => 12
  | MonitorGlobalExpectUnfrozen => 13
  | MonitorGlobalExpectUnprovisioned => 14
  | MonitorGlobalExpectCapped => 15
  | MonitorGlobalExpectUnknown => 16
  end.

Definition MonitorGlobalExpect_values : list MonitorGlobalExpect :=
    [MonitorGlobalExpectInit; MonitorGlobalExpectAborted; MonitorGlobalExpectDeleted;
   MonitorGlobalExpectFrozen; MonitorGlobalExpectNone; MonitorGlobalExpectPlaced;
   MonitorGlobalExpectPlacedAt; MonitorGlobalExpectProvisioned; MonitorGlobalExpectPurged;
   MonitorGlobalExpectResized; MonitorGlobalExpectRestarted; MonitorGlobalExpectStarted;
   MonitorGlobalExpectStopped; MonitorGlobalExpectUnfrozen; MonitorGlobalExpectUnprovisioned;
   MonitorGlobalExpectCapped; MonitorGlobalExpectUnknown].

Definition MonitorGlobalExpectStrings : list (MonitorGlobalExpect * string) :=
  [(MonitorGlobalExpectAborted, "aborted"); (MonitorGlobalExpectCapped, "capped");
   (MonitorGlobalExpectDeleted, "deleted"); (MonitorGlobalExpectInit, "init");
   (MonitorGlobalExpectFrozen, "frozen"); (MonitorGlobalExpectNone, "none");
   (MonitorGlobalExpectPlaced, "placed"); (MonitorGlobalExpectPlacedAt, "placed@");
   (MonitorGlobalExpectProvisioned, "provisioned"); (MonitorGlobalExpectPurged, "purged");
   (MonitorGlobalExpectResized, "resized"); (MonitorGlobalExpectRestarted, "restarted");
   (MonitorGlobalExpectStarted, "started"); (MonitorGlobalExpectStopped, "stopped");
   (MonitorGlobalExpectUnfrozen, "unfrozen");
   (MonitorGlobalExpectUnprovisioned, "unprovisioned");
   (MonitorGlobalExpectUnknown, "unknown")].

#[global] Instance MonitorGlobalExpect_eq_dec : EqDecision MonitorGlobalExpect.
Proof. refine (eq_decision_by_id MonitorGlobalExpect_id MonitorGlobalExpect_values _). by intros []. Defined.

Lemma MonitorGlobalExpect_all (s : MonitorGlobalExpect) : s ∈ MonitorGlobalExpect_values.
Proof. apply (values_complete MonitorGlobalExpect_id). by intros []. Qed.

Inductive MonitorLocalExpect :=
| MonitorLocalExpectInit
| MonitorLocalExpectNone
| MonitorLocalExpectStarted
| MonitorLocalExpectShutdown
| MonitorLocalExpectEvicted
| MonitorLocalExpectUnknown.

Definition MonitorLocalExpect_id (s : MonitorLocalExpect) : N :=
  match s with
  | MonitorLocalExpectInit => 0
  | MonitorLocalExpectNone => 1
  | MonitorLocalExpectStarted => 2
  | MonitorLocalExpectShutdown => 3
  | MonitorLocalExpectEvicted => 4
  | MonitorLocalExpectUnknown => 5
  end.

Definition MonitorLocalExpect_values : list MonitorLocalExpect :=
    [MonitorLocalExpectInit; MonitorLocalExpectNone; MonitorLocalExpectStarted;
   MonitorLocalExpectShutdown; MonitorLocalExpectEvicted; MonitorLocalExpectUnknown].

Definition monitorLocalExpectToString : list (MonitorLocalExpect * string) :=
  [(MonitorLocalExpectEvicted, "evicted"); (MonitorLocalExpectStarted, "started");
   (MonitorLocalExpectShutdown, "shutdown"); (MonitorLocalExpectNone, "none");
   (MonitorLocalExpectInit, "init"); (MonitorLocalExpectUnknown, "unknown")].

#[global] Instance MonitorLocalExpect_eq_dec : EqDecision MonitorLocalExpect.
Proof. refine (eq_decision_by_id MonitorLocalExpect_id MonitorLocalExpect_values _). by intros []. Defined.

Lemma MonitorLocalExpect_all (s : MonitorLocalExpect) : s ∈ MonitorLocalExpect_values.
Proof. apply (values_complete MonitorLocalExpect_id). by intros []. Qed.

Definition MonitorState_String (t : MonitorState) : string :=
  default "" (assoc (fun a b => bool_decide (a = b)) t MonitorStateToString).

(** The tables are inverted at initialization; a text naming no value decodes to
    the unknown value. *)
Definition MonitorState_UnmarshalText (s : string) : MonitorState :=
  match list_find (fun x => snd x = s) MonitorStateToString with
  | Some (_, (v, _)) => v
  | None => MonitorStateUnknown
  end.

Definition MonitorGlobalExpect_String (t : MonitorGlobalExpect) : string :=
  default "" (assoc (fun a b => bool_decide (a = b)) t MonitorGlobalExpectStrings).

Definition MonitorGlobalExpect_UnmarshalText (s : string) : MonitorGlobalExpect :=
  match list_find (fun x => snd x = s) MonitorGlobalExpectStrings with
  | Some (_, (v, _)) => v
  | None => MonitorGlobalExpectUnknown
  end.

Definition MonitorLocalExpect_String (t : MonitorLocalExpect) : string :=
  default "" (assoc (fun a b => bool_decide (a = b)) t monitorLocalExpectToString).

Definition MonitorLocalExpect_UnmarshalText (s : string) : MonitorLocalExpect :=
  match list_find (fun x => snd x = s) monitorLocalExpectToString with
  | Some (_, (v, _)) => v
  | None => MonitorLocalExpectUnknown
  end.

Definition IsOneOf (t : MonitorState) (states : list MonitorState) : bool := one_of t states.

Definition IsDoing (t : MonitorState) : bool := HasSuffix (MonitorState_String t) "ing".

Definition MonitorStatesFailure : list MonitorState :=
  [MonitorStateCapFailure; MonitorStateDeleteFailure; MonitorStatePrepareFailure;
   MonitorStateWaitDestinationFailure; MonitorStateFreezeFailure; MonitorStateProvisionFailure;
   MonitorStatePurgeFailed; MonitorStateResizeFailure; MonitorStateShutdownFailure;
   MonitorStateStartFailure; MonitorStateStopFailure; MonitorStateUnfreezeFailure;
   MonitorStateUnprovisionFailure].

Definition MaxResizeStages : Z := 3.

Definition ResizeStage (t : MonitorState) : option Z :=
  match t with
  | MonitorStateResizeStage0 => Some 0
  | MonitorStateResizeStage1 => Some 1
  | MonitorStateResizeStage2 => Some 2
  | _ => None
  end%Z.

Definition NewMonitorStateResizeStage (stage : Z) : option MonitorState :=
  if Z.eqb stage 0 then Some MonitorStateResizeStage0
  else if Z.eqb stage 1 then Some MonitorStateResizeStage1
  else if Z.eqb stage 2 then Some MonitorStateResizeStage2
  else None.

(** *** The monitor of an instance *)

Record MonitorGlobalExpectOptionsPlacedAt := mkPlacedAt {
  Destination : list string;
  Live : bool;
  PlacedAt_InterruptSyncs : bool }.

(** [GlobalExpectOptions any]: the struct types it holds, or nil. *)
Inductive Options :=
| NoOptions
| OptionsRestarted (Force : bool)
| OptionsStopped (InterruptSyncs : bool)
| OptionsProvisioned (Adopt : bool)
| OptionsResized (ConfigUpdatedAt : time.Time)
| OptionsCapped (ConfigUpdatedAt : time.Time)
| OptionsPlacedAt (options : MonitorGlobalExpectOptionsPlacedAt).

Record ResourceMonitorRestart := mkRestart { Remaining : Z; LastAt : time.Time }.

Record ResourceMonitor := mkResourceMonitor { Restart_ : option ResourceMonitorRestart }.

(** The method dereferences [m.Restart]: [None] is its panic on a nil pointer. *)
Definition DecRestartRemaining (m : ResourceMonitor) : option ResourceMonitor :=
  match Restart_ m with
  | None => None
  | Some r =>
      Some (mkResourceMonitor (Some (
        if (0 <? Remaining r)%Z then mkRestart (Remaining r - 1) (LastAt r) else r)))
  end.

Record Monitor := mkMonitor {
  GlobalExpect : MonitorGlobalExpect;
  GlobalExpectUpdatedAt : time.Time;
  GlobalExpectOptions : Options;
  IsLeader : bool;
  IsHALeader : bool;
  LocalExpect : MonitorLocalExpect;
  LocalExpectUpdatedAt : time.Time;
  OrchestrationID : Z;
  OrchestrationIsDone : bool;
  SessionID : Z;
  State : MonitorState;
  StateUpdatedAt : time.Time;
  MonitorActionExecutedAt : time.Time;
  Monitor_Resources : gmap string ResourceMonitor;
  Monitor_UpdatedAt : time.Time;
  Parents : gmap string status.T;
  Children : gmap string status.T }.

#[export] Instance eta_Monitor : Eta Monitor := fun r =>
  mkMonitor (GlobalExpect r) (GlobalExpectUpdatedAt r) (GlobalExpectOptions r) (IsLeader r)
    (IsHALeader r) (LocalExpect r) (LocalExpectUpdatedAt r) (OrchestrationID r)
    (OrchestrationIsDone r) (SessionID r) (State r) (StateUpdatedAt r)
    (MonitorActionExecutedAt r) (Monitor_Resources r) (Monitor_UpdatedAt r) (Parents r)
    (Children r).
#[export] Instance upd_Monitor_GlobalExpect : Upd GlobalExpect.
Proof. derive_upd eta_Monitor. Defined.
#[export] Instance upd_Monitor_GlobalExpectUpdatedAt : Upd GlobalExpectUpdatedAt.
Proof. derive_upd eta_Monitor. Defined.
#[export] Instance upd_Monitor_GlobalExpectOptions : Upd GlobalExpectOptions.
Proof. derive_upd eta_Monitor. Defined.
#[export] Instance upd_Monitor_IsLeader : Upd IsLeader.
Proof. derive_upd eta_Monitor. Defined.
#[export] Instance upd_Monitor_IsHALeader : Upd IsHALeader.
Proof. derive_upd eta_Monitor. Defined.
#[export] Instance upd_Monitor_LocalExpect : Upd LocalExpect.
Proof. derive_upd eta_Monitor. Defined.
#[export] Instance upd_Monitor_LocalExpectUpdatedAt : Upd LocalExpectUpdatedAt.
Proof. derive_upd eta_Monitor. Defined.
#[export] Instance upd_Monitor_OrchestrationID : Upd OrchestrationID.
Proof. derive_upd eta_Monitor. Defined.
#[export] Instance upd_Monitor_OrchestrationIsDone : Upd OrchestrationIsDone.
Proof. derive_upd eta_Monitor. Defined.
#[export] Instance upd_Monitor_SessionID : Upd SessionID.
Proof. derive_upd eta_Monitor. Defined.
#[export] Instance upd_Monitor_State : Upd State.
Proof. derive_upd eta_Monitor. Defined.
#[export] Instance upd_Monitor_StateUpdatedAt : Upd StateUpdatedAt.
Proof. derive_upd eta_Monitor. Defined.
#[export] Instance upd_Monitor_MonitorActionExecutedAt : Upd MonitorActionExecutedAt.
Proof. derive_upd eta_Monitor. Defined.
#[export] Instance upd_Monitor_Monitor_Resources : Upd Monitor_Resources.
Proof. derive_upd eta_Monitor. Defined.
#[export] Instance upd_Monitor_Monitor_UpdatedAt : Upd Monitor_UpdatedAt.
Proof. derive_upd eta_Monitor. Defined.
#[export] Instance upd_Monitor_Parents : Upd Parents.
Proof. derive_upd eta_Monitor. Defined.
#[export] Instance upd_Monitor_Children : Upd Children.
Proof. derive_upd eta_Monitor. Defined.

(** The zero struct, read from a map that misses. *)
Definition zero_Monitor : Monitor :=
  (mkMonitor MonitorGlobalExpectInit 0 NoOptions false false MonitorLocalExpectInit 0 0 false 0
    MonitorStateInit 0 0 ∅ 0 ∅ ∅)%Z.

Record MonitorUpdate := mkMonitorUpdate {
  Update_GlobalExpect : option MonitorGlobalExpect;
  Update_GlobalExpectOptions : Options;
  Update_LocalExpect : option MonitorLocalExpect;
  Update_State : option MonitorState;
  CandidateOrchestrationID : Z }.

(** *** The status of an instance *)

(** The scope of a freeze, as [freeze.Scope]. *)
Definition ScopeObject : string := "object".
Definition ScopeInstance : string := "instance".

(** [Encap] keeps, of the status of an encapsulated instance, its resources. *)
Record Status := mkStatus {
  Avail : status.T;
  Encap : gmap string (gmap string resource.Status);
  FrozenAt : time.Time;
  LastStartedAt : time.Time;
  Optional : status.T;
  Overall : status.T;
  Provisioned : provisioned.T;
  Resources : gmap string resource.Status;
  Running : list resource.RunningInfo;
  StoppedAt : time.Time;
  FrozenScope : string;
  UpdatedAt : time.Time;
  ConfigCsum : string;
  OutdatedAt : time.Time }.

#[export] Instance eta_Status : Eta Status := fun r =>
  mkStatus (Avail r) (Encap r) (FrozenAt r) (LastStartedAt r) (Optional r) (Overall r)
    (Provisioned r) (Resources r) (Running r) (StoppedAt r) (FrozenScope r) (UpdatedAt r)
    (ConfigCsum r) (OutdatedAt r).
#[export] Instance upd_Status_Avail : Upd Avail.
Proof. derive_upd eta_Status. Defined.
#[export] Instance upd_Status_FrozenAt : Upd FrozenAt.
Proof. derive_upd eta_Status. Defined.
#[export] Instance upd_Status_StoppedAt : Upd StoppedAt.
Proof. derive_upd eta_Status. Defined.
#[export] Instance upd_Status_FrozenScope : Upd FrozenScope.
Proof. derive_upd eta_Status. Defined.
#[export] Instance upd_Status_UpdatedAt : Upd UpdatedAt.
Proof. derive_upd eta_Status. Defined.
#[export] Instance upd_Status_Provisioned : Upd Provisioned.
Proof. derive_upd eta_Status. Defined.
#[export] Instance upd_Status_Resources : Upd Resources.
Proof. derive_upd eta_Status. Defined.

Definition zero_Status : Status :=
  (mkStatus status.Undef ∅ 0 0 status.Undef status.Undef provisioned.Undef ∅ [] 0 "" 0 "" 0)%Z.

Definition IsFrozen (t : Status) : bool := negb (time.IsZero (FrozenAt t)).
Definition IsUnfrozen (t : Status) : bool := time.IsZero (FrozenAt t).
Definition IsStopped (t : Status) : bool := negb (time.IsZero (StoppedAt t)).

Definition string_less (a b : string) : bool := String.ltb a b.

Definition StoppedResources (t : Status) : list string :=
  stable_sort string_less
    (map fst (filter (fun kv => resource.IsStopped (snd kv) = true) (map_to_list (Resources t)))).

(** *** The configuration of an instance *)

Record FlexConfig := mkFlexConfig { Flex_Max : Z; Flex_Min : Z; Flex_Target : Z }.

Record ResourceConfig := mkResourceConfig {
  IsDisabled : bool;
  IsMonitored : bool;
  IsStandby : bool;
  Restart : Z;
  RestartDelay : option time.Duration }.

Definition MonitorAction := string.
Definition MonitorActionNone : MonitorAction := "none".
Definition MonitorActionCrash : MonitorAction := "crash".
Definition MonitorActionFreezeStop : MonitorAction := "freezestop".
Definition MonitorActionReboot : MonitorAction := "reboot".
Definition MonitorActionSwitch : MonitorAction := "switch".

Record ActorConfig := mkActorConfig {
  Config_Children : list naming.Relation;
  MonitorActions : list MonitorAction;
  PreMonitorAction : string;
  Orchestrate : string;
  Config_Parents : list naming.Relation;
  PlacementPolicy : placement.Policy;
  Config_Resources : gmap string ResourceConfig;
  Stonith : bool;
  Topology : topology.T;
  Flex : option FlexConfig;
  Config_IsDisabled : bool;
  WaitSyncsTimeout : time.Duration;
  HardAffinity : list naming.Path;
  HardAntiAffinity : list naming.Path;
  SoftAffinity : list naming.Path;
  SoftAntiAffinity : list naming.Path;
  StartTimeout : time.Duration }.

Record VolConfig := mkVolConfig { Pool : string; Size : Z }.

Record Config := mkConfig {
  Checksum : string;
  Priority : Z;
  Scope : list string;
  Config_UpdatedAt : time.Time;
  ActorConfig_ : option ActorConfig;
  VolConfig_ : option VolConfig }.

Definition zero_Config : Config := (mkConfig "" 0 [] 0 None None)%Z.

(** *** Properties of the enumerations *)

(** The states in which an action runs on the instance. *)
Definition doing_states : list MonitorState :=
  [MonitorStateBootProgress; MonitorStateShutdownProgress; MonitorStateStartProgress;
   MonitorStateStopProgress; MonitorStateFreezeProgress; MonitorStateUnfreezeProgress;
   MonitorStateProvisionProgress; MonitorStateUnprovisionProgress; MonitorStateDeleteProgress;
   MonitorStateResizeProgress; MonitorStateCapProgress; MonitorStatePrepareProgress;
   MonitorStateRunning; MonitorStateSyncing; MonitorStatePreflightProgress].

Lemma IsDoing_spec s : IsDoing s = bool_decide (s ∈ doing_states).
Proof. by destruct s. Qed.

(** Whether an action runs, which the code reads from the suffix of the text
    of the state, is told exactly by the progress states, running and syncing:
    no text of another state ends with the suffix.  No failure state is one of
    them. *)
Theorem IsDoing_states s :
  (IsDoing s = true <-> s ∈ doing_states) /\
  (s ∈ MonitorStatesFailure -> IsDoing s = false).
Proof.
  rewrite IsDoing_spec, bool_decide_eq_true. split; [done|].
  revert s. by_enumeration (enum1 MonitorStatesFailure
    (fun s => bool_decide (s ∈ doing_states) = false)).
Qed.

(** The values of the three enumerations of an instance monitor decode from
    the text a peer receives them as; a text this agent does not know decodes to
    the unknown value, never to another one. *)
Theorem monitor_text_roundtrip :
  (forall s, MonitorState_UnmarshalText (MonitorState_String s) = s) /\
  (forall s, MonitorGlobalExpect_UnmarshalText (MonitorGlobalExpect_String s) = s) /\
  (forall s, MonitorLocalExpect_UnmarshalText (MonitorLocalExpect_String s) = s) /\
  (forall txt s, MonitorState_UnmarshalText txt = s ->
     s = MonitorStateUnknown \/ MonitorState_String s = txt) /\
  (forall txt s, MonitorGlobalExpect_UnmarshalText txt = s ->
     s = MonitorGlobalExpectUnknown \/ MonitorGlobalExpect_String s = txt).
Proof.
  split_and!; [by intros []|by intros []|by intros []| |].
  - intros txt s. unfold MonitorState_UnmarshalText.
    destruct (list_find _ _) as [[i [v w]]|] eqn:E; [|by left]. intros <-. right.
    apply list_find_Some in E as (E & Hw & _). simpl in Hw. subst.
    apply list_elem_of_lookup_2 in E.
    assert (H : Forall (fun x => MonitorState_String (fst x) = snd x) MonitorStateToString).
    { repeat constructor. }
    by apply (proj1 (Forall_forall _ _) H (v, txt)).
  - intros txt s. unfold MonitorGlobalExpect_UnmarshalText.
    destruct (list_find _ _) as [[i [v w]]|] eqn:E; [|by left]. intros <-. right.
    apply list_find_Some in E as (E & Hw & _). simpl in Hw. subst.
    apply list_elem_of_lookup_2 in E.
    assert (H : Forall (fun x => MonitorGlobalExpect_String (fst x) = snd x)
                  MonitorGlobalExpectStrings).
    { repeat constructor. }
    by apply (proj1 (Forall_forall _ _) H (v, txt)).
Qed.

(** The states between the stages of a resize name each stage under the
    maximum once, and no other. *)
Theorem resize_stage_roundtrip stage s :
  (ResizeStage s = Some stage <-> NewMonitorStateResizeStage stage = Some s) /\
  (is_Some (NewMonitorStateResizeStage stage) <-> (0 <= stage < MaxResizeStages)%Z).
Proof.
  unfold NewMonitorStateResizeStage, MaxResizeStages, is_Some. split.
  - split.
    + destruct s; simpl; intros [= <-]; done.
    + repeat case_match; intros [= <-]; simpl; f_equal; reflect; lia.
  - repeat case_match; reflect; naive_solver lia.
Qed.

End instance.

(** ** core/node *)

Module node.

Inductive MonitorState :=
| MonitorStateInit
| MonitorStateIdle
| MonitorStateRejoin
| MonitorStateMaintenance
| MonitorStateUpgrade
| MonitorStateFreezeProgress
| MonitorStateFreezeFailure
| MonitorStateFreezeSuccess
| MonitorStateUnfreezeProgress
| MonitorStateUnfreezeFailure
| MonitorStateUnfreezeSuccess
| MonitorStateDrainProgress
| MonitorStateDrainFailure
| MonitorStateDrainSuccess
| MonitorStateShutdownProgress
| MonitorStateShutdownFailure
| MonitorStateShutdownSuccess
| MonitorStateUnknown.

Definition MonitorState_id (s : MonitorState) : N :=
  match s with
  | MonitorStateInit => 0
  | MonitorStateIdle => 1
  | MonitorStateRejoin => 2
  | MonitorStateMaintenance => 3
  | MonitorStateUpgrade => 4
  | MonitorStateFreezeProgress => 5
  | MonitorStateFreezeFailure => 6
  | MonitorStateFreezeSuccess => 7
  | MonitorStateUnfreezeProgress => 8
  | MonitorStateUnfreezeFailure => 9
  | MonitorStateUnfreezeSuccess => 10
  | MonitorStateDrainProgress => 11
  | MonitorStateDrainFailure => 12
  | MonitorStateDrainSuccess => 13
  | MonitorStateShutdownProgress => 14
  | MonitorStateShutdownFailure => 15
  | MonitorStateShutdownSuccess => 16
  | MonitorStateUnknown => 17
  end.

Definition MonitorState_values : list MonitorState :=
    [MonitorStateInit; MonitorStateIdle; MonitorStateRejoin; MonitorStateMaintenance;
   MonitorStateUpgrade; MonitorStateFreezeProgress; MonitorStateFreezeFailure;
   MonitorStateFreezeSuccess; MonitorStateUnfreezeProgress; MonitorStateUnfreezeFailure;
   MonitorStateUnfreezeSuccess; MonitorStateDrainProgress; MonitorStateDrainFailure;
   MonitorStateDrainSuccess; MonitorStateShutdownProgress; MonitorStateShutdownFailure;
   MonitorStateShutdownSuccess; MonitorStateUnknown].

Definition MonitorStateStrings : list (MonitorState * string) :=
  [(MonitorStateInit, "init"); (MonitorStateIdle, "idle");
   (MonitorStateMaintenance, "maintenance"); (MonitorStateRejoin, "rejoin");
   (MonitorStateUpgrade, "upgrade"); (MonitorStateFreezeProgress, "freezing");
   (MonitorStateFreezeFailure, "freeze failed"); (MonitorStateFreezeSuccess, "frozen");
   (MonitorStateUnfreezeProgress, "unfreezing");
   (MonitorStateUnfreezeFailure, "unfreeze failed"); (MonitorStateUnfreezeSuccess, "unfrozen");
   (MonitorStateDrainProgress, "draining"); (MonitorStateDrainFailure, "drain failed");
   (MonitorStateDrainSuccess, "drained"); (MonitorStateShutdownProgress, "shutting");
   (MonitorStateShutdownFailure, "shutdown failed"); (MonitorStateShutdownSuccess, "shutdown");
   (MonitorStateUnknown, "unknown")].

#[global] Instance MonitorState_eq_dec : EqDecision MonitorState.
Proof. refine (eq_decision_by_id MonitorState_id MonitorState_values _). by intros []. Defined.

Inductive MonitorGlobalExpect :=
| MonitorGlobalExpectInit
| MonitorGlobalExpectAborted
| MonitorGlobalExpectFrozen
| MonitorGlobalExpectNone
| MonitorGlobalExpectUnfrozen
| MonitorGlobalExpectUnknown.

Definition MonitorGlobalExpect_id (s : MonitorGlobalExpect) : N :=
  match s with
  | MonitorGlobalExpectInit => 0
  | MonitorGlobalExpectAborted => 1
  | MonitorGlobalExpectFrozen => 2
  | MonitorGlobalExpectNone => 3
  | MonitorGlobalExpectUnfrozen => 4
  | MonitorGlobalExpectUnknown => 5
  end.

Definition MonitorGlobalExpect_values : list MonitorGlobalExpect :=
    [MonitorGlobalExpectInit; MonitorGlobalExpectAborted; MonitorGlobalExpectFrozen;
   MonitorGlobalExpectNone; MonitorGlobalExpectUnfrozen; MonitorGlobalExpectUnknown].

Definition MonitorGlobalExpectStrings : list (MonitorGlobalExpect * string) :=
  [(MonitorGlobalExpectAborted, "aborted"); (MonitorGlobalExpectFrozen, "frozen");
   (MonitorGlobalExpectNone, "none"); (MonitorGlobalExpectUnfrozen, "unfrozen");
   (MonitorGlobalExpectInit, "init"); (MonitorGlobalExpectUnknown, "unknown")].

#[global] Instance MonitorGlobalExpect_eq_dec : EqDecision MonitorGlobalExpect.
Proof. refine (eq_decision_by_id MonitorGlobalExpect_id MonitorGlobalExpect_values _). by intros []. Defined.

Inductive MonitorLocalExpect :=
| MonitorLocalExpectInit
| MonitorLocalExpectDrained
| MonitorLocalExpectNone
| MonitorLocalExpectUnknown.

#[global] Instance MonitorLocalExpect_eq_dec : EqDecision MonitorLocalExpect.
Proof. solve_decision. Defined.

Definition MonitorLocalExpectStrings : list (MonitorLocalExpect * string) :=
  [(MonitorLocalExpectInit, "init"); (MonitorLocalExpectDrained, "drained");
   (MonitorLocalExpectNone, "none"); (MonitorLocalExpectUnknown, "unknown")].

(** The lookup of an enumeration value in the map of its texts. *)
Definition text_of {A} `{EqDecision A} (v : A) (l : list (A * string)) : string :=
  default "" (snd <$> (List.find (fun x => bool_decide (fst x = v)) l)).

Definition MonitorState_String (t : MonitorState) : string := text_of t MonitorStateStrings.
Definition MonitorGlobalExpect_String (t : MonitorGlobalExpect) : string :=
  text_of t MonitorGlobalExpectStrings.
Definition MonitorLocalExpect_String (t : MonitorLocalExpect) : string :=
  text_of t MonitorLocalExpectStrings.

Record Monitor := mkMonitor {
  GlobalExpect : MonitorGlobalExpect;
  LocalExpect : MonitorLocalExpect;
  State : MonitorState;
  GlobalExpectUpdatedAt : time.Time;
  LocalExpectUpdatedAt : time.Time;
  StateUpdatedAt : time.Time;
  Monitor_UpdatedAt : time.Time;
  OrchestrationID : Z;
  IsPreserved : bool }.

#[global] Instance eta_Monitor : Eta Monitor := fun r =>
  mkMonitor (GlobalExpect r) (LocalExpect r) (State r) (GlobalExpectUpdatedAt r)
    (LocalExpectUpdatedAt r) (StateUpdatedAt r) (Monitor_UpdatedAt r) (OrchestrationID r) (IsPreserved r).
#[global] Instance upd_node_Monitor_GlobalExpect : Upd GlobalExpect.
Proof. derive_upd eta_Monitor. Defined.
#[global] Instance upd_node_Monitor_LocalExpect : Upd LocalExpect.
Proof. derive_upd eta_Monitor. Defined.
#[global] Instance upd_node_Monitor_State : Upd State.
Proof. derive_upd eta_Monitor. Defined.
#[global] Instance upd_node_Monitor_GlobalExpectUpdatedAt : Upd GlobalExpectUpdatedAt.
Proof. derive_upd eta_Monitor. Defined.
#[global] Instance upd_node_Monitor_LocalExpectUpdatedAt : Upd LocalExpectUpdatedAt.
Proof. derive_upd eta_Monitor. Defined.
#[global] Instance upd_node_Monitor_StateUpdatedAt : Upd StateUpdatedAt.
Proof. derive_upd eta_Monitor. Defined.
#[global] Instance upd_node_Monitor_Monitor_UpdatedAt : Upd Monitor_UpdatedAt.
Proof. derive_upd eta_Monitor. Defined.
#[global] Instance upd_node_Monitor_OrchestrationID : Upd OrchestrationID.
Proof. derive_upd eta_Monitor. Defined.

#[global] Instance upd_node_Monitor_IsPreserved : Upd IsPreserved.
Proof. derive_upd eta_Monitor. Defined.

Definition zero_Monitor : Monitor :=
  (mkMonitor MonitorGlobalExpectInit MonitorLocalExpectInit MonitorStateInit 0 0 0 0 0 false)%Z.

Record MonitorUpdate := mkMonitorUpdate {
  Update_State : option MonitorState;
  Update_LocalExpect : option MonitorLocalExpect;
  Update_GlobalExpect : option MonitorGlobalExpect;
  CandidateOrchestrationID : Z }.

Definition IsDoing (t : MonitorState) : bool := HasSuffix (MonitorState_String t) "ing".

Definition IsOneOf (t : MonitorState) (states : list MonitorState) : bool := one_of t states.

Definition MonitorStatesFailure : list MonitorState :=
  [MonitorStateDrainFailure; MonitorStateFreezeFailure; MonitorStateShutdownFailure;
   MonitorStateUnfreezeFailure].

Definition MonitorStateUnrankable : list MonitorState :=
  [MonitorStateInit; MonitorStateRejoin; MonitorStateMaintenance; MonitorStateUpgrade;
   MonitorStateShutdownSuccess; MonitorStateShutdownFailure; MonitorStateShutdownProgress;
   MonitorStateUnknown].

Definition IsRankable (t : MonitorState) : bool := negb (one_of t MonitorStateUnrankable).

Record ArbitratorStatus := mkArbitratorStatus {
  URL : string;
  Arbitrator_Status : status.T;
  Weight : Z }.

#[global] Instance ArbitratorStatus_eq_dec : EqDecision ArbitratorStatus.
Proof. solve_decision. Defined.

Definition ScopeCluster : string := "cluster".
Definition ScopeNode : string := "node".

(** [node.Gen]: the generation of the data of each node. *)
Definition Gen := gmap string N.

Record Status := mkStatus {
  Arbitrators : gmap string ArbitratorStatus;
  FrozenAt : time.Time;
  Status_Gen : Gen;
  IsLeader : bool;
  IsOverloaded : bool;
  LeftAt : time.Time;
  RejoinedAt : time.Time;
  FrozenScope : string }.

#[global] Instance eta_node_Status : Eta Status := fun r =>
  mkStatus (Arbitrators r) (FrozenAt r) (Status_Gen r) (IsLeader r) (IsOverloaded r) (LeftAt r)
    (RejoinedAt r) (FrozenScope r).
#[global] Instance upd_node_Status_Arbitrators : Upd Arbitrators.
Proof. derive_upd eta_node_Status. Defined.
#[global] Instance upd_node_Status_FrozenAt : Upd FrozenAt.
Proof. derive_upd eta_node_Status. Defined.
#[global] Instance upd_node_Status_Status_Gen : Upd Status_Gen.
Proof. derive_upd eta_node_Status. Defined.
#[global] Instance upd_node_Status_IsLeader : Upd IsLeader.
Proof. derive_upd eta_node_Status. Defined.
#[global] Instance upd_node_Status_IsOverloaded : Upd IsOverloaded.
Proof. derive_upd eta_node_Status. Defined.
#[global] Instance upd_node_Status_LeftAt : Upd LeftAt.
Proof. derive_upd eta_node_Status. Defined.
#[global] Instance upd_node_Status_RejoinedAt : Upd RejoinedAt.
Proof. derive_upd eta_node_Status. Defined.
#[global] Instance upd_node_Status_FrozenScope : Upd FrozenScope.
Proof. derive_upd eta_node_Status. Defined.

Definition zero_Status : Status := mkStatus ∅ 0%Z ∅ false false 0%Z 0%Z "".

Definition IsFrozen (t : Status) : bool := negb (time.IsZero (FrozenAt t)).
Definition IsUnfrozen (t : Status) : bool := time.IsZero (FrozenAt t).

Record Stats := mkStats {
  Score : Z;
  MemAvailPct : Z;
  SwapAvailPct : Z }.

#[global] Instance Stats_eq_dec : EqDecision Stats.
Proof. solve_decision. Defined.
#[global] Instance node_Status_eq_dec : EqDecision Status.
Proof. solve_decision. Defined.

End node.

(** ** core/object: the aggregated status of an object *)

Module object.

Record FlexStatus := mkFlexStatus { Target : Z; Min : Z; Max : Z }.

Record ActorStatus := mkActorStatus {
  Avail : status.T;
  Frozen : string;
  Orchestrate : string;
  Overall : status.T;
  PlacementPolicy : placement.Policy;
  PlacementState : placement.State;
  Provisioned : provisioned.T;
  Topology : topology.T;
  UpInstancesCount : Z;
  Flex : option FlexStatus }.

Record VolStatus := mkVolStatus { Pool : string; Size : Z }.

Record Status := mkStatus {
  Priority : Z;
  Scope : list string;
  UpdatedAt : time.Time;
  ActorStatus_ : option ActorStatus;
  VolStatus_ : option VolStatus }.

#[global] Instance eta_ActorStatus : Eta ActorStatus := fun r =>
  mkActorStatus (Avail r) (Frozen r) (Orchestrate r) (Overall r) (PlacementPolicy r)
    (PlacementState r) (Provisioned r) (Topology r) (UpInstancesCount r) (Flex r).
#[global] Instance upd_ActorStatus_Avail : Upd Avail.
Proof. derive_upd eta_ActorStatus. Defined.
#[global] Instance upd_ActorStatus_Frozen : Upd Frozen.
Proof. derive_upd eta_ActorStatus. Defined.
#[global] Instance upd_ActorStatus_Orchestrate : Upd Orchestrate.
Proof. derive_upd eta_ActorStatus. Defined.
#[global] Instance upd_ActorStatus_Overall : Upd Overall.
Proof. derive_upd eta_ActorStatus. Defined.
#[global] Instance upd_ActorStatus_PlacementPolicy : Upd PlacementPolicy.
Proof. derive_upd eta_ActorStatus. Defined.
#[global] Instance upd_ActorStatus_PlacementState : Upd PlacementState.
Proof. derive_upd eta_ActorStatus. Defined.
#[global] Instance upd_ActorStatus_Provisioned : Upd Provisioned.
Proof. derive_upd eta_ActorStatus. Defined.
#[global] Instance upd_ActorStatus_Topology : Upd Topology.
Proof. derive_upd eta_ActorStatus. Defined.
#[global] Instance upd_ActorStatus_UpInstancesCount : Upd UpInstancesCount.
Proof. derive_upd eta_ActorStatus. Defined.
#[global] Instance upd_ActorStatus_Flex : Upd Flex.
Proof. derive_upd eta_ActorStatus. Defined.

#[global] Instance eta_Status : Eta Status := fun r =>
  mkStatus (Priority r) (Scope r) (UpdatedAt r) (ActorStatus_ r) (VolStatus_ r).
#[global] Instance upd_Status_Priority : Upd Priority.
Proof. derive_upd eta_Status. Defined.
#[global] Instance upd_Status_Scope : Upd Scope.
Proof. derive_upd eta_Status. Defined.
#[global] Instance upd_Status_UpdatedAt : Upd UpdatedAt.
Proof. derive_upd eta_Status. Defined.
#[global] Instance upd_Status_ActorStatus_ : Upd ActorStatus_.
Proof. derive_upd eta_Status. Defined.
#[global] Instance upd_Status_VolStatus_ : Upd VolStatus_.
Proof. derive_upd eta_Status. Defined.

Definition zero_Status : Status := (mkStatus 0 [] 0 None None)%Z.

Definition ExpectedInstances (s : option ActorStatus) : Z :=
  match s with
  | None => 0
  | Some s => match Flex s with Some f => Target f | None => 1 end
  end%Z.

Definition AllowedInstances (s : option ActorStatus) : Z :=
  match s with
  | None => 0
  | Some s =>
      match Topology s with
      | topology.Failover => 1
      | topology.Flex => match Flex s with Some f => Max f | None => 0 end
      | topology.Invalid => 0
      end
  end%Z.

(** On a nil receiver, [AllowedInstances] is [0] and the function returns. *)
Definition ExcessInstances (s : option ActorStatus) : Z :=
  let allowed := AllowedInstances s in
  match s with
  | None => 0
  | Some a =>
      if (allowed <=? 0)%Z || (UpInstancesCount a <=? allowed)%Z then 0
      else UpInstancesCount a - allowed
  end%Z.

End object.

(** ** daemon/msgbus *)

(** [msgbus.ObjectOrchestrationEnd], less the node and path of the monitor. *)
Record OrchestrationEnd := mkOrchestrationEnd {
  End_ID : Z;
  End_GlobalExpect : instance.MonitorGlobalExpect;
  End_GlobalExpectUpdatedAt : time.Time;
  Aborted : bool;
  Failed : bool;
  End_Error : string }.

#[export] Instance eta_OrchestrationEnd : Eta OrchestrationEnd := fun r =>
  mkOrchestrationEnd (End_ID r) (End_GlobalExpect r) (End_GlobalExpectUpdatedAt r) (Aborted r)
    (Failed r) (End_Error r).
#[export] Instance upd_Aborted : Upd Aborted.
Proof. derive_upd eta_OrchestrationEnd. Defined.
#[export] Instance upd_Failed : Upd Failed.
Proof. derive_upd eta_OrchestrationEnd. Defined.
#[export] Instance upd_End_Error : Upd End_Error.
Proof. derive_upd eta_OrchestrationEnd. Defined.
