(* ===== verification/ImonState.v ===== *)
(** * daemon/imon: the state of an instance monitor and the monad of its methods

    The [Manager] struct of daemon/imon/main.go, the effects its methods have
    on the rest of the system, and the small program logic the proofs about
    these methods use.

    A method of [*Manager] is a value of [M A]: from a manager, a result and the
    manager it leaves, or a panic.  What a method does outside of the manager
    is an [Event] of its [trace], newest first: a command executed, a message
    published, a flag file written, a timer armed, a goroutine started.  What
    it reads outside of the manager (the clock, the exit status of a command,
    the modification time of a file, the data the other monitors publish, the
    iteration order of a map) is an answer of an [Env], a function of the trace
    at the time of the question, so that two reads separated by an effect may
    differ.  Log messages are left out. *)

From S2P Require Import Prelude Status Naming Instance.

Open Scope string_scope.
Import instance.

(** ** Effects *)

(** The messages the monitor publishes. *)
Inductive Msg :=
| InstanceMonitorUpdated (value : Monitor)
| InstanceMonitorAction (rid : string) (action : MonitorAction)
| InstanceConfigDeleting
| InstanceStoppedFileUpdated (at_ : time.Time)
| InstanceStoppedFileRemoved
| InstanceFrozenFileUpdated (at_ : time.Time) (scope : string)
| InstanceFrozenFileRemoved
| InstanceStatusPost (value : Status)
| SetInstanceMonitorRefused (value : MonitorUpdate)
| ObjectOrchestrationAccepted (id : Z) (expect : MonitorGlobalExpect) (updatedAt : time.Time)
| ObjectOrchestrationRefused (id : Z) (expect : option MonitorGlobalExpect)
| ObjectOrchestrationEnd (end_ : OrchestrationEnd).

Inductive Timer := DelayTimer | OutdatedTimer | EventRefreshTimer | WaitSyncsTimer | WaitDestinationTimer.

Inductive Event :=
| Exec (orchestrationID : Z) (title : string) (args : list string)
  (** fork the command, with its Exec and ExecSuccess or ExecFailed messages *)
| PreMonitorCommand (cmd : string)
| Crash
| Reboot
| SetStoppedFlag
| UnsetStoppedFlag
| SetFrozenFlag
| UnsetFrozenFlag
| StonithAt (peer : string) (at_ : time.Time)
  (** nodeStonithAtMap[peer] = at *)
| Pub (m : Msg)
| AfterAction (state newState : MonitorState)
  (** go t.orchestrateAfterAction(state, newState) *)
| AfterReady
  (** the goroutine that posts (ready, ready) when the pending context expires *)
| ResetTimer (timer : Timer) (d : time.Duration)
| StopTimer (timer : Timer)
| ScheduleRestart (rids : list string) (standby : bool) (d : time.Duration)
| CancelRestart.

Definition Trace := list Event.

(** ** The environment *)

Class Env := {
  Now : Trace -> time.Time;
  ctxDone : Trace -> bool;                          (** t.ctx.Done() *)
  pendingCanceled : Trace -> bool;                  (** pendingCtx, canceled before its deadline *)
  execOk : Trace -> bool;                           (** the last command succeeded *)
  execCode : Trace -> Z;                            (** its exit code *)
  configModTime : Trace -> time.Time;               (** file.ModTime(ConfigFile()) *)
  configExists : Trace -> bool;                     (** file.Exists(ConfigFile()) *)
  flagOk : Trace -> bool;                           (** the last flag file operation *)
  stoppedFlagAt : Trace -> time.Time;               (** flagfile.At(StoppedFile()) *)
  frozenFlagAt : Trace -> time.Time;                (** freeze.Frozen(FrozenFile()) *)
  frozenFlagScope : Trace -> string;                (** freeze.ScopeOf *)
  frozenFlagExists : Trace -> bool;                 (** file.Exists(VarDir()/frozen) *)
  nodeStonithAt : Trace -> string -> option time.Time;
  StatusData : Trace -> gmap naming.Path (gmap string Status);   (** instance.StatusData *)
  ConfigData : Trace -> gmap naming.Path (gmap string Config);   (** instance.ConfigData *)
  MonitorData : Trace -> gmap naming.Path (gmap string Monitor); (** instance.MonitorData *)
  nodeselector_Expand : string -> option (list string);
  rangeOrder : Trace -> list string -> list string; (** the order of a range over a map *)
  rangeOrder_perm : forall tr l, rangeOrder tr l ≡ₚ l }.

(** ** The manager *)

(** The restart schedule of the standby, or regular, resources: whether its
    timer is armed, and the resources to restart. *)
Record orchestrationResource := mkOrchestrationResource {
  scheduler : bool;
  scheduled : gset string }.

#[export] Instance eta_orchestrationResource : Eta orchestrationResource := fun r =>
  mkOrchestrationResource (scheduler r) (scheduled r).
#[export] Instance upd_scheduler : Upd scheduler.
Proof. derive_upd eta_orchestrationResource. Defined.
#[export] Instance upd_scheduled : Upd scheduled.
Proof. derive_upd eta_orchestrationResource. Defined.

(** [pending] is the deadline of the pending context, [None] when pendingCancel
    is nil; the code sets and clears both together.  [statusQueued] and
    [needStatusQ] are the status runner's. *)
Record Manager := mkManager {
  state : Monitor;
  previousState : Monitor;
  path : naming.Path;
  localhost : string;
  pending : option time.Time;
  instConfig : Config;
  instStatus : gmap string Status;
  instMonitor : gmap string Monitor;
  nodeMonitor : gmap string node.Monitor;
  nodeStats : gmap string node.Stats;
  nodeStatus : gmap string node.Status;
  readyDuration : time.Duration;
  delayDuration : time.Duration;
  scopeNodes : list string;
  objStatus : object.Status;
  change : bool;
  outdatedRefreshedAt : time.Time;
  eventRefreshScheduled : bool;
  eventRefreshDeferred : bool;
  leaderWaited : string * Z;
  waitSyncsSince : time.Time;
  stopRefusedForSyncs : bool;
  waitDestinationSince : time.Time;
  statusQueued : bool;
  needStatusQ : option Z;
  peerDrop : string;
  peerDropAt : time.Time;
  priors : list string;
  orchestrationPending : option OrchestrationEnd;
  orchestrationAborted : option OrchestrationEnd;
  idleAfterOrchestration : bool;
  endWithDeletion : bool;
  delayOrchestrateEnabled : bool;
  delayPreUpdateEnabled : bool;
  delayUpdateEnabled : bool;
  delayTimerEnabled : bool;
  initialMonitorAction : MonitorAction;
  standbyResourceOrchestrate : orchestrationResource;
  regularResourceOrchestrate : orchestrationResource;
  isPeerFrozenMerged : bool;
  isPeerStoppedMerged : bool;
  isBootStartPending : bool;
  bootStartWaitSince : time.Time;
  affinitySubscribed : gset naming.Path;
  affinityAvail : gmap string status.T;
  trace : Trace }.

#[export] Instance eta_Manager : Eta Manager := fun r =>
  mkManager (state r) (previousState r) (path r) (localhost r) (pending r) (instConfig r)
    (instStatus r) (instMonitor r) (nodeMonitor r) (nodeStats r) (nodeStatus r)
    (readyDuration r) (delayDuration r) (scopeNodes r) (objStatus r) (change r)
    (outdatedRefreshedAt r) (eventRefreshScheduled r) (eventRefreshDeferred r)
    (leaderWaited r) (waitSyncsSince r) (stopRefusedForSyncs r) (waitDestinationSince r)
    (statusQueued r) (needStatusQ r) (peerDrop r) (peerDropAt r) (priors r)
    (orchestrationPending r) (orchestrationAborted r) (idleAfterOrchestration r)
    (endWithDeletion r) (delayOrchestrateEnabled r) (delayPreUpdateEnabled r)
    (delayUpdateEnabled r) (delayTimerEnabled r) (initialMonitorAction r)
    (standbyResourceOrchestrate r) (regularResourceOrchestrate r) (isPeerFrozenMerged r)
    (isPeerStoppedMerged r) (isBootStartPending r) (bootStartWaitSince r)
    (affinitySubscribed r) (affinityAvail r) (trace r).
#[export] Instance upd_state : Upd state.
Proof. derive_upd eta_Manager. Defined.
#[export] Instance upd_previousState : Upd previousState.
Proof. derive_upd eta_Manager. Defined.
#[export] Instance upd_pending : Upd pending.
Proof. derive_upd eta_Manager. Defined.
#[export] Instance upd_instConfig : Upd instConfig.
Proof. derive_upd eta_Manager. Defined.
#[export] Instance upd_instStatus : Upd instStatus.
Proof. derive_upd eta_Manager. Defined.
#[export] Instance upd_instMonitor : Upd instMonitor.
Proof. derive_upd eta_Manager. Defined.
#[export] Instance upd_nodeMonitor : Upd nodeMonitor.
Proof. derive_upd eta_Manager. Defined.
#[export] Instance upd_nodeStats : Upd nodeStats.
Proof. derive_upd eta_Manager. Defined.
#[export] Instance upd_nodeStatus : Upd nodeStatus.
Proof. derive_upd eta_Manager. Defined.
#[export] Instance upd_readyDuration : Upd readyDuration.
Proof. derive_upd eta_Manager. Defined.
#[export] Instance upd_scopeNodes : Upd scopeNodes.
Proof. derive_upd eta_Manager. Defined.
#[export] Instance upd_objStatus : Upd objStatus.
Proof. derive_upd eta_Manager. Defined.
#[export] Instance upd_change : Upd change.
Proof. derive_upd eta_Manager. Defined.
#[export] Instance upd_outdatedRefreshedAt : Upd outdatedRefreshedAt.
Proof. derive_upd eta_Manager. Defined.
#[export] Instance upd_eventRefreshScheduled : Upd eventRefreshScheduled.
Proof. derive_upd eta_Manager. Defined.
#[export] Instance upd_eventRefreshDeferred : Upd eventRefreshDeferred.
Proof. derive_upd eta_Manager. Defined.
#[export] Instance upd_leaderWaited : Upd leaderWaited.
Proof. derive_upd eta_Manager. Defined.
#[export] Instance upd_waitSyncsSince : Upd waitSyncsSince.
Proof. derive_upd eta_Manager. Defined.
#[export] Instance upd_stopRefusedForSyncs : Upd stopRefusedForSyncs.
Proof. derive_upd eta_Manager. Defined.
#[export] Instance upd_waitDestinationSince : Upd waitDestinationSince.
Proof. derive_upd eta_Manager. Defined.
#[export] Instance upd_statusQueued : Upd statusQueued.
Proof. derive_upd eta_Manager. Defined.
#[export] Instance upd_needStatusQ : Upd needStatusQ.
Proof. derive_upd eta_Manager. Defined.
#[export] Instance upd_peerDrop : Upd peerDrop.
Proof. derive_upd eta_Manager. Defined.
#[export] Instance upd_peerDropAt : Upd peerDropAt.
Proof. derive_upd eta_Manager. Defined.
#[export] Instance upd_priors : Upd priors.
Proof. derive_upd eta_Manager. Defined.
#[export] Instance upd_orchestrationPending : Upd orchestrationPending.
Proof. derive_upd eta_Manager. Defined.
#[export] Instance upd_orchestrationAborted : Upd orchestrationAborted.
Proof. derive_upd eta_Manager. Defined.
#[export] Instance upd_idleAfterOrchestration : Upd idleAfterOrchestration.
Proof. derive_upd eta_Manager. Defined.
#[export] Instance upd_endWithDeletion : Upd endWithDeletion.
Proof. derive_upd eta_Manager. Defined.
#[export] Instance upd_delayOrchestrateEnabled : Upd delayOrchestrateEnabled.
Proof. derive_upd eta_Manager. Defined.
#[export] Instance upd_delayPreUpdateEnabled : Upd delayPreUpdateEnabled.
Proof. derive_upd eta_Manager. Defined.
#[export] Instance upd_delayUpdateEnabled : Upd delayUpdateEnabled.
Proof. derive_upd eta_Manager. Defined.
#[export] Instance upd_delayTimerEnabled : Upd delayTimerEnabled.
Proof. derive_upd eta_Manager. Defined.
#[export] Instance upd_initialMonitorAction : Upd initialMonitorAction.
Proof. derive_upd eta_Manager. Defined.
#[export] Instance upd_standbyResourceOrchestrate : Upd standbyResourceOrchestrate.
Proof. derive_upd eta_Manager. Defined.
#[export] Instance upd_regularResourceOrchestrate : Upd regularResourceOrchestrate.
Proof. derive_upd eta_Manager. Defined.
#[export] Instance upd_isPeerFrozenMerged : Upd isPeerFrozenMerged.
Proof. derive_upd eta_Manager. Defined.
#[export] Instance upd_isPeerStoppedMerged : Upd isPeerStoppedMerged.
Proof. derive_upd eta_Manager. Defined.
#[export] Instance upd_isBootStartPending : Upd isBootStartPending.
Proof. derive_upd eta_Manager. Defined.
#[export] Instance upd_bootStartWaitSince : Upd bootStartWaitSince.
Proof. derive_upd eta_Manager. Defined.
#[export] Instance upd_affinitySubscribed : Upd affinitySubscribed.
Proof. derive_upd eta_Manager. Defined.
#[export] Instance upd_affinityAvail : Upd affinityAvail.
Proof. derive_upd eta_Manager. Defined.
#[export] Instance upd_trace : Upd trace.
Proof. derive_upd eta_Manager. Defined.

(** ** The monad *)

Definition M (A : Type) := Manager -> option (A * Manager).

Definition ret {A} (a : A) : M A := fun t => Some (a, t).
Definition bind {A B} (m : M A) (k : A -> M B) : M B := fun t =>
  match m t with
  | Some (a, t') => k a t'
  | None => None
  end.

Declare Scope imon_scope.
Delimit Scope imon_scope with imon.
Notation "x ← y ; z" := (bind y (fun x => z))
  (at level 20, y at level 100, z at level 200, only parsing) : imon_scope.
Notation "y ;; z" := (bind y (fun _ => z))
  (at level 100, z at level 200, only parsing, right associativity) : imon_scope.
Open Scope imon_scope.

(** The manager a method leaves, the one it started from when it panics. *)
Definition after {A} (m : M A) (t : Manager) : Manager :=
  match m t with
  | Some (_, t') => t'
  | None => t
  end.

(** A Go panic: a nil dereference, or an explicit one. *)
Definition panic {A} : M A := fun _ => None.

Definition get : M Manager := fun t => Some (t, t).
Definition gets {A} (f : Manager -> A) : M A := fun t => Some (f t, t).
Definition modify (f : Manager -> Manager) : M unit := fun t => Some (tt, f t).
Definition skip : M unit := ret tt.
Definition when (b : bool) (m : M unit) : M unit := if b then m else skip.

(** The effect [e] happens. *)
Definition emit (e : Event) : M unit := modify (fun t => t <| trace ::= cons e |>).

(** [for _, x := range l { body }], with no early exit of the loop. *)
Fixpoint for_each {A} (l : list A) (body : A -> M unit) : M unit :=
  match l with
  | [] => skip
  | x :: l' => body x;; for_each l' body
  end.

(** A change of [t.state], and [t.change = true]. *)
Definition set (f : Monitor -> Monitor) : M unit := modify (fun t => t <| state ::= f |>).
Definition changed : M unit := modify (fun t => t <| change := true |>).

(** [t.objStatus.<field of the embedded *ActorStatus>]: a nil dereference when
    the object has no actor status. *)
Definition actor : M object.ActorStatus := fun t =>
  match object.ActorStatus_ (objStatus t) with
  | Some a => Some (a, t)
  | None => None
  end.

(** [t.objStatus.Flex.Target]. *)
Definition flexTarget (a : object.ActorStatus) : M Z :=
  match object.Flex a with
  | Some f => ret (object.Target f)
  | None => panic
  end.

(** The fields of [t.instConfig.ActorConfig], embedded too. *)
Definition actorConfig : M ActorConfig := fun t =>
  match ActorConfig_ (instConfig t) with
  | Some a => Some (a, t)
  | None => None
  end.

(** ** A program logic

    [wp pn m Q t]: run from [t], [m] ends with a result and a manager that
    satisfy [Q]; [pn] says what a panic is worth, [True] for partial and [False]
    for total correctness.  [keeps pn I m P] is the triple of an invariant: from
    a manager where [I] holds, [m] leaves one where it holds, with a result
    that satisfies [P]. *)

Definition wp {A} (pn : Prop) (m : M A) (Q : A -> Manager -> Prop) (t : Manager) : Prop :=
  match m t with
  | Some (a, t') => Q a t'
  | None => pn
  end.

Definition keeps {A} (pn : Prop) (I : Manager -> Prop) (m : M A) (P : A -> Prop) : Prop :=
  forall t, I t -> wp pn m (fun a t' => I t' /\ P a) t.

Definition any {A} (_ : A) : Prop := True.

Section logic.
Context {pn : Prop}.

Lemma wp_ret {A} (a : A) (Q : A -> Manager -> Prop) t : Q a t -> wp pn (ret a) Q t.
Proof. done. Qed.

Lemma wp_bind {A B} (m : M A) (k : A -> M B) Q t :
  wp pn m (fun a t' => wp pn (k a) Q t') t -> wp pn (bind m k) Q t.
Proof. unfold wp, bind. by destruct (m t) as [[]|]. Qed.

Lemma wp_mono {A} (m : M A) (Q Q' : A -> Manager -> Prop) t :
  wp pn m Q t -> (forall a t', Q a t' -> Q' a t') -> wp pn m Q' t.
Proof. unfold wp. destruct (m t) as [[]|]; auto. Qed.

Lemma wp_get Q t : Q t t -> wp pn get Q t.
Proof. done. Qed.

Lemma wp_gets {A} (f : Manager -> A) (Q : A -> Manager -> Prop) t : Q (f t) t -> wp pn (gets f) Q t.
Proof. done. Qed.

Lemma wp_modify f (Q : unit -> Manager -> Prop) t : Q tt (f t) -> wp pn (modify f) Q t.
Proof. done. Qed.

Lemma wp_result {A} (m : M A) (Q : A -> Manager -> Prop) t a t' :
  wp pn m Q t -> m t = Some (a, t') -> Q a t'.
Proof. unfold wp. intros H E. by rewrite E in H. Qed.

Context (I : Manager -> Prop).

Lemma keeps_ret {A} (a : A) (P : A -> Prop) : P a -> keeps pn I (ret a) P.
Proof. intros HP t Ht. by split. Qed.

Lemma keeps_bind {A B} (m : M A) (k : A -> M B) P Q :
  keeps pn I m P -> (forall a, P a -> keeps pn I (k a) Q) -> keeps pn I (bind m k) Q.
Proof.
  intros Hm Hk t Ht. apply wp_bind. eapply wp_mono; [by apply Hm|].
  intros a t' [Ht' Ha]. by apply Hk.
Qed.

Lemma keeps_mono {A} (m : M A) (P Q : A -> Prop) :
  keeps pn I m P -> (forall a, P a -> Q a) -> keeps pn I m Q.
Proof. intros Hm HPQ t Ht. eapply wp_mono; [by apply Hm|]. naive_solver. Qed.

Lemma keeps_get : keeps pn I get I.
Proof. by intros t Ht. Qed.

Lemma keeps_gets {A} (f : Manager -> A) (P : A -> Prop) :
  (forall t, I t -> P (f t)) -> keeps pn I (gets f) P.
Proof. intros Hf t Ht. split; [done|]. by apply Hf. Qed.

Lemma keeps_modify f : (forall t, I t -> I (f t)) -> keeps pn I (modify f) any.
Proof. intros Hf t Ht. split; [|done]. by apply Hf. Qed.

Lemma keeps_skip : keeps pn I skip any.
Proof. by apply keeps_ret. Qed.

Lemma keeps_when b m : keeps pn I m any -> keeps pn I (when b m) any.
Proof. intros Hm. destruct b; [done|apply keeps_skip]. Qed.

Lemma keeps_for_each {A} (l : list A) body :
  (forall x, x ∈ l -> keeps pn I (body x) any) -> keeps pn I (for_each l body) any.
Proof.
  induction l as [|x l IH]; intros Hb; simpl; [apply keeps_skip|].
  eapply keeps_bind; [apply Hb; set_solver|]. intros _ _. apply IH. set_solver.
Qed.

End logic.

(** Partial correctness ignores panics. *)
Lemma keeps_panic (I : Manager -> Prop) {A} P : keeps True I (@panic A) P.
Proof. by intros t Ht. Qed.

Lemma wp_weaken {A} (pn : Prop) (m : M A) Q t : wp False m Q t -> wp pn m Q t.
Proof. unfold wp. destruct (m t) as [[]|]; [done|]. by intros []. Qed.

(** ** Running a method, step by step *)

Lemma bind_Some {A B} (m : M A) (k : A -> M B) t r :
  bind m k t = Some r <-> exists a t', m t = Some (a, t') /\ k a t' = Some r.
Proof. unfold bind. destruct (m t) as [[a t']|]; naive_solver. Qed.

Lemma bind_assoc {A B C} (m : M A) (k : A -> M B) (k' : B -> M C) t :
  bind (bind m k) k' t = bind m (fun a => bind (k a) k') t.
Proof. unfold bind. by destruct (m t) as [[a t']|]. Qed.

Lemma keeps_run {A} pn I (m : M A) P t a t' :
  keeps pn I m P -> I t -> m t = Some (a, t') -> I t' /\ P a.
Proof. intros Hm Ht E. exact (wp_result _ _ _ _ _ (Hm t Ht) E). Qed.

Lemma actor_run t a t' : actor t = Some (a, t') -> t' = t /\ object.ActorStatus_ (objStatus t) = Some a.
Proof. unfold actor. by destruct (object.ActorStatus_ (objStatus t)); intros [= -> ->]. Qed.

(** One step of a run [H : m t = Some r]: the reads and the elementary changes
    are computed, a test is a case analysis, and a call is an equation. *)
Ltac run_step H :=
  cbn beta iota zeta delta [negb] in H;
  lazymatch type of H with
  | bind get ?k ?t = ?r => change (k t t = r) in H
  | bind (gets ?f) ?k ?t = ?r => change (k (f t) t = r) in H
  | bind (modify ?f) ?k ?t = ?r => change (k tt (f t) = r) in H
  | bind (set ?f) ?k ?t = ?r => change (k tt (t <| state ::= f |>) = r) in H
  | bind changed ?k ?t = ?r => change (k tt (t <| change := true |>) = r) in H
  | bind (emit ?e) ?k ?t = ?r => change (k tt (t <| trace ::= cons e |>) = r) in H
  | bind (ret ?a) ?k ?t = ?r => change (k a t = r) in H
  | bind actor _ _ = _ =>
      let a := fresh "a" in let t := fresh "t" in let E := fresh "E" in
      apply bind_Some in H as (a & t & E & H); apply actor_run in E as [-> E]
  | bind skip ?k ?t = ?r => change (k tt t = r) in H
  | bind (bind _ _) _ _ = _ => rewrite bind_assoc in H
  | bind (if ?b then _ else _) _ _ = _ => destruct b eqn:?
  | bind (when ?b _) _ _ = _ => destruct b eqn:?; unfold when in H
  | bind (match ?x with _ => _ end) _ _ = _ => destruct x eqn:?
  | bind _ _ _ = _ =>
      let a := fresh "a" in let t := fresh "t" in let E := fresh "E" in
      apply bind_Some in H as (a & t & E & H);
      lazymatch type of a with unit => destruct a | _ => idtac end
  | (if ?b then _ else _) _ = _ => destruct b eqn:?
  | when ?b _ _ = _ => destruct b eqn:?; unfold when in H
  | (match ?x with _ => _ end) _ = _ => destruct x eqn:?
  | ret _ _ = Some _ => first [injection H as ? ? ? | injection H as ? ? | injection H as ?]; try subst
  | skip _ = Some _ => first [injection H as ? ? ? | injection H as ? ? | injection H as ?]; try subst
  | panic _ = Some _ => discriminate H
  end; try (cbv beta in H).

Ltac run H := repeat run_step H.
