(* ===== verification/ImonExample.v ===== *)
(** * daemon/imon: an example cluster

    Two nodes, n1 and n2, that run the failover service svc1, and an
    environment where the clock ticks one second per effect and every command
    succeeds.  The theorems about the monitor are instantiated on it. *)

From S2P Require Import Prelude Status Naming Instance ImonState.

Open Scope string_scope.
Import instance.

Module example.

Definition tick (tr : Trace) : time.Time := (time.Hour + Z.of_nat (length tr) * time.Second)%Z.

#[global] Instance cluster : Env := {|
  Now := tick;
  ctxDone := fun _ => false;
  pendingCanceled := fun _ => false;
  execOk := fun _ => true;
  execCode := fun _ => 0%Z;
  configModTime := fun _ => time.Second;
  configExists := fun _ => true;
  flagOk := fun _ => true;
  stoppedFlagAt := tick;
  frozenFlagAt := tick;
  frozenFlagScope := fun _ => ScopeInstance;
  frozenFlagExists := fun _ => true;
  nodeStonithAt := fun _ _ => None;
  StatusData := fun _ => ∅;
  ConfigData := fun _ => ∅;
  MonitorData := fun _ => ∅;
  nodeselector_Expand := fun s => Some [s];
  rangeOrder := fun _ l => l;
  rangeOrder_perm := fun _ l => Permutation_refl l |}.

Definition svc1 : naming.Path := naming.mkPath "svc1" "root" naming.KindSvc.

Definition app : ResourceConfig := mkResourceConfig false true false 2 None.

Definition actorConfig (topo : topology.T) : ActorConfig :=
  mkActorConfig [] [MonitorActionSwitch] "" "ha" [] placement.NodesOrder {["app#1" := app]} true topo
    None false 0%Z [] [] [] [] 0%Z.

Definition config (topo : topology.T) : Config :=
  mkConfig "csum" 50%Z ["n1"; "n2"] time.Second (Some (actorConfig topo)) None.

(** The status of an instance in the state [avail]. *)
Definition status_of (avail : status.T) : Status :=
  mkStatus avail ∅ 0%Z 0%Z status.NotApplicable avail provisioned.PTrue
    {["app#1" := resource.mkStatus avail "app" false false false false false None ∅]} [] 0%Z "" time.Minute "csum" 0%Z.

Definition idle : Monitor :=
  zero_Monitor <| GlobalExpect := MonitorGlobalExpectNone |> <| LocalExpect := MonitorLocalExpectNone |>
    <| State := MonitorStateIdle |>
    <| Monitor_Resources := {["app#1" := mkResourceMonitor (Some (mkRestart 2 0%Z))]} |>.

Definition rankable : node.Monitor :=
  node.mkMonitor node.MonitorGlobalExpectNone node.MonitorLocalExpectNone node.MonitorStateIdle
    0%Z 0%Z 0%Z 0%Z 0%Z false.

Definition actor (topo : topology.T) (avail : status.T) (up : Z) : object.ActorStatus :=
  object.mkActorStatus avail "unfrozen" "ha" avail placement.NodesOrder placement.Optimal provisioned.PTrue
    topo up (Some (object.mkFlexStatus 1 1 2)).

(** The monitor of [here], [peer] being the other node. *)
Definition monitor (here peer : string) (topo : topology.T) (avail peerAvail : status.T)
    (obj : object.ActorStatus) : Manager :=
  mkManager idle idle svc1 here None (config topo)
    {[here := status_of avail; peer := status_of peerAvail]}
    {[peer := idle]}
    {[here := rankable; peer := rankable]}
    ∅
    {[here := node.zero_Status; peer := node.zero_Status]}
    (5 * time.Second)%Z time.Second ["n1"; "n2"]
    (object.mkStatus 50%Z ["n1"; "n2"] time.Minute (Some obj) None)
    false 0%Z false false ("", 0%Z) 0%Z false 0%Z false None "" 0%Z [] None None false false false false
    false false MonitorActionSwitch (mkOrchestrationResource false ∅) (mkOrchestrationResource false ∅)
    true true false 0%Z ∅ ∅ [].

(** The failover service is down on both nodes. *)
Definition down : object.ActorStatus := actor topology.Failover status.Down 0.
Definition m1 : Manager := monitor "n1" "n2" topology.Failover status.Down status.Down down.
Definition m2 : Manager := monitor "n2" "n1" topology.Failover status.Down status.Down down.

End example.
