(* ===== verification/ImonPlacement.v ===== *)
(** * daemon/imon: who may run the object

    The affinities (affinity.go), the placement policies and the election of
    the instances to start (main_cmd.go).  A function of the code that only
    reads the manager is a function of it; one that dereferences the object
    status, nil until the first object status is received, is a value of [M]. *)

From S2P Require Import Prelude Status Naming Instance ImonState.
From Stdlib Require Import Ascii.

Open Scope string_scope.
Import instance.
Open Scope imon_scope.

(** ** crypto/md5 *)

Module md5.

Definition K : list Z :=
  [3614090360; 3905402710; 606105819; 3250441966; 4118548399; 1200080426; 2821735955; 4249261313;
   1770035416; 2336552879; 4294925233; 2304563134; 1804603682; 4254626195; 2792965006; 1236535329;
   4129170786; 3225465664; 643717713; 3921069994; 3593408605; 38016083; 3634488961; 3889429448;
   568446438; 3275163606; 4107603335; 1163531501; 2850285829; 4243563512; 1735328473; 2368359562;
   4294588738; 2272392833; 1839030562; 4259657740; 2763975236; 1272893353; 4139469664; 3200236656;
   681279174; 3936430074; 3572445317; 76029189; 3654602809; 3873151461; 530742520; 3299628645;
   4096336452; 1126891415; 2878612391; 4237533241; 1700485571; 2399980690; 4293915773; 2240044497;
   1873313359; 4264355552; 2734768916; 1309151649; 4149444226; 3174756917; 718787259; 3951481745]%Z.

Definition shifts (i : nat) : Z :=
  match (i / 16)%nat, (i mod 4)%nat with
  | O, O => 7 | O, 1%nat => 12 | O, 2%nat => 17 | O, _ => 22
  | 1%nat, O => 5 | 1%nat, 1%nat => 9 | 1%nat, 2%nat => 14 | 1%nat, _ => 20
  | 2%nat, O => 4 | 2%nat, 1%nat => 11 | 2%nat, 2%nat => 16 | 2%nat, _ => 23
  | _, O => 6 | _, 1%nat => 10 | _, 2%nat => 15 | _, _ => 21
  end%Z.

Definition w32 (x : Z) : Z := (x mod 2 ^ 32)%Z.
Definition not32 (x : Z) : Z := Z.lxor x (2 ^ 32 - 1).
Definition rotl (x n : Z) : Z := w32 (Z.lor (Z.shiftl x n) (Z.shiftr x (32 - n))).

Definition round (m : list Z) (s : Z * Z * Z * Z) (i : nat) : Z * Z * Z * Z :=
  let '(a, b, c, d) := s in
  let '(f, g) :=
    match (i / 16)%nat with
    | O => (Z.lor (Z.land b c) (Z.land (not32 b) d), i)
    | 1%nat => (Z.lor (Z.land d b) (Z.land (not32 d) c), ((5 * i + 1) mod 16)%nat)
    | 2%nat => (Z.lxor b (Z.lxor c d), ((3 * i + 5) mod 16)%nat)
    | _ => (Z.lxor c (Z.lor b (not32 d)), ((7 * i) mod 16)%nat)
    end in
  let f := w32 (f + a + default 0%Z (K !! i) + default 0%Z (m !! g)) in
  (d, w32 (b + rotl f (shifts i)), b, c).

Fixpoint word_le (l : list Z) : Z :=
  match l with
  | [] => 0
  | b :: l' => (b + 256 * word_le l')%Z
  end.

Fixpoint bytes_le (n : nat) (x : Z) : list Z :=
  match n with
  | O => []
  | S n' => (x mod 256)%Z :: bytes_le n' (x / 256)%Z
  end.

Fixpoint chunks (n fuel : nat) (l : list Z) : list (list Z) :=
  match fuel, l with
  | _, [] | O, _ => []
  | S fuel', _ => take n l :: chunks n fuel' (drop n l)
  end.

Definition block (s : Z * Z * Z * Z) (l : list Z) : Z * Z * Z * Z :=
  let m := map word_le (chunks 4 (length l) l) in
  let '(a, b, c, d) := s in
  let '(a', b', c', d') := foldl (round m) s (seq 0 64) in
  (w32 (a + a'), w32 (b + b'), w32 (c + c'), w32 (d + d')).

Definition pad (l : list Z) : list Z :=
  let n := length l in
  (l ++ [128%Z] ++ replicate ((119 - n mod 64) mod 64) 0%Z ++ bytes_le 8 (8 * Z.of_nat n))%list.

Fixpoint bytes (s : string) : list Z :=
  match s with
  | EmptyString => []
  | String c s' => Z.of_N (N_of_ascii c) :: bytes s'
  end.

(** [md5.Sum([]byte(s))]. *)
Definition Sum (s : string) : list Z :=
  let l := pad (bytes s) in
  let '(a, b, c, d) :=
    foldl block (1732584193, 4023233417, 2562383102, 271733878)%Z (chunks 64 (length l) l) in
  (bytes_le 4 a ++ bytes_le 4 b ++ bytes_le 4 c ++ bytes_le 4 d)%list.

(** The digests of the first test strings of RFC 1321. *)
Example Sum_empty :
  Sum "" = [212; 29; 140; 217; 143; 0; 178; 4; 233; 128; 9; 152; 236; 248; 66; 126]%Z.
Proof. vm_compute. reflexivity. Qed.

Example Sum_abc :
  Sum "abc" = [144; 1; 80; 152; 60; 210; 79; 176; 214; 150; 63; 125; 40; 225; 127; 114]%Z.
Proof. vm_compute. reflexivity. Qed.

(** [bytes.Compare(a, b) < 0]. *)
Fixpoint less (a b : list Z) : bool :=
  match a, b with
  | _, [] => false
  | [], _ => true
  | x :: a', y :: b' => (x <? y)%Z || ((x =? y)%Z && less a' b')
  end.

End md5.

(** ** Reading the manager *)

(** [t.instStatus[t.localhost]], the zero struct when it misses. *)
Definition instStatusOf (t : Manager) (node : string) : Status := default zero_Status (instStatus t !! node).
Definition localStatus (t : Manager) : Status := instStatusOf t (localhost t).
Definition nodeStatusOf (t : Manager) (n : string) : node.Status :=
  default node.zero_Status (nodeStatus t !! n).
Definition nodeMonitorOf (t : Manager) (n : string) : node.Monitor :=
  default node.zero_Monitor (nodeMonitor t !! n).

(** [t.instMonitor[node]], the zero struct when it misses. *)
Definition instMonitorOf (t : Manager) (node : string) : Monitor :=
  default zero_Monitor (instMonitor t !! node).

Definition isStopped (t : Manager) : bool := IsStopped (localStatus t).

Definition GetInstanceMonitor (t : Manager) (node : string) : option Monitor :=
  if String.eqb (localhost t) node then Some (state t) else instMonitor t !! node.

(** [slices.Contains]. *)
Definition Contains (l : list string) (x : string) : bool := one_of x l.

Section placement.
Context {env : Env}.

(** ** affinity.go *)

Definition isRunning (avail : status.T) : bool :=
  status.Is avail [status.Up; status.Warn; status.StandbyUpWithUp].

(** [instance.StatusData.GetByPath] and [GetByPathAndNode]. *)
Definition statusByPath (t : Manager) (p : naming.Path) : gmap string Status :=
  default ∅ (StatusData (trace t) !! p).
Definition configByPath (t : Manager) (p : naming.Path) : gmap string Config :=
  default ∅ (ConfigData (trace t) !! p).

Definition affineAvail (t : Manager) (p : naming.Path) (node : string) : status.T :=
  match statusByPath t p !! node with
  | Some st => Avail st
  | None => status.Undef
  end.

(** The keys of a map in the order a range visits them. *)
Definition range {A} (t : Manager) (m : gmap string A) : list string :=
  rangeOrder (trace t) (map fst (map_to_list m)).

(** The actor configuration of [p]: the local one first, then the first one a
    range over the nodes finds. *)
Definition actor_of (c : option Config) : option (Config * ActorConfig) :=
  match c with
  | Some cfg => match ActorConfig_ cfg with Some a => Some (cfg, a) | None => None end
  | None => None
  end.

Fixpoint first_actor (m : gmap string Config) (l : list string) : option (Config * ActorConfig) :=
  match l with
  | [] => None
  | n :: l' => match actor_of (m !! n) with Some c => Some c | None => first_actor m l' end
  end.

Definition affinityConfig (t : Manager) (p : naming.Path) : option (Config * ActorConfig) :=
  if decide (p = path t) then actor_of (Some (instConfig t))
  else
    let m := configByPath t p in
    match actor_of (m !! localhost t) with
    | Some c => Some c
    | None => first_actor m (range t m)
    end.

(** The objects a hard affinity leads to in one step. *)
Definition hardAffinityNext (t : Manager) (p : naming.Path) : list naming.Path :=
  match affinityConfig t p with
  | Some (_, cfg) => HardAffinity cfg
  | None => []
  end.

(** The worklist loop of hardAffinityReach: [seen] in the order of discovery. *)
Definition visit (st : list naming.Path * list naming.Path) (next : naming.Path) :
    list naming.Path * list naming.Path :=
  let '(seen, todo) := st in
  if decide (next ∈ seen) then st else ((seen ++ [next])%list, (todo ++ [next])%list).

Fixpoint reachLoop (t : Manager) (fuel : nat) (seen todo : list naming.Path) : list naming.Path :=
  match fuel, todo with
  | O, _ | _, [] => seen
  | S fuel', cur :: todo' =>
      let '(seen', todo'') := foldl visit (seen, todo') (hardAffinityNext t cur) in
      reachLoop t fuel' seen' todo''
  end.

(** Every path a configuration names as a hard affinity: a bound of what the
    loop can discover. *)
Definition affinityUniverse (t : Manager) : list naming.Path :=
  (match ActorConfig_ (instConfig t) with Some a => HardAffinity a | None => [] end ++
   concat (map (fun kv => concat (map (fun kc => match ActorConfig_ (snd kc) with
                                                 | Some a => HardAffinity a | None => [] end)
                                      (map_to_list (snd kv))))
               (map_to_list (ConfigData (trace t)))))%list.

Definition hardAffinityReach (t : Manager) (p : naming.Path) : list naming.Path :=
  reachLoop t (S (S (length (affinityUniverse t)))) [p] [p].

(** [slices.SortFunc] by priority, then by the text of the path. *)
Definition priorityOf (t : Manager) (p : naming.Path) : Z :=
  match affinityConfig t p with
  | Some (cfg, _) => Priority cfg
  | None => 0
  end.

Definition cycle_less (t : Manager) (a b : naming.Path) : bool :=
  (priorityOf t a <? priorityOf t b)%Z ||
  ((priorityOf t a =? priorityOf t b)%Z && String.ltb (naming.Path_String a) (naming.Path_String b)).

Definition hardAffinityCycle (t : Manager) (p : naming.Path) : list naming.Path :=
  if negb (one_of (path t) (hardAffinityReach t p)) then []
  else
    let members := List.filter (fun member =>
        bool_decide (member = path t) || one_of (path t) (hardAffinityReach t member))
      (hardAffinityReach t (path t)) in
    if existsb (fun member => existsb (fun kv => isRunning (Avail (snd kv)))
                                      (map_to_list (statusByPath t member))) members
    then []
    else stable_sort (cycle_less t) members.

(** A violation: the object of a hard affinity cycle the object waits for to
    start first, if that is what refuses the start. *)
Record affinityViolation := mkViolation { follows : option naming.Path }.

Definition hardAffinityViolation (t : Manager) (node : string) (p : naming.Path) : list affinityViolation :=
  if status.Is (affineAvail t p node) [status.Up; status.StandbyUpWithUp; status.NotApplicable]
  then []
  else match hardAffinityCycle t p with
       | [] => [mkViolation None]
       | first :: _ => if decide (first = path t) then [] else [mkViolation (Some first)]
       end.

Definition hardAntiAffinityViolation (t : Manager) (node : string) (p : naming.Path) : list affinityViolation :=
  match statusByPath t p !! node with
  | None => []
  | Some _ =>
      if status.Is (affineAvail t p node)
           [status.Down; status.StandbyUp; status.StandbyDown; status.NotApplicable]
      then [] else [mkViolation None]
  end.

Definition affinityViolations (t : Manager) (node : string) : list affinityViolation :=
  match ActorConfig_ (instConfig t) with
  | None => []
  | Some cfg =>
      (concat (map (hardAffinityViolation t node) (HardAffinity cfg)) ++
       concat (map (hardAntiAffinityViolation t node) (HardAntiAffinity cfg)))%list
  end.

(** len(t.hardAffinityViolations(node)) == 0. *)
Definition isHardAffinitySatisfied (t : Manager) (node : string) : bool :=
  match affinityViolations t node with [] => true | _ => false end.

(** hardAffinityRefusal: whether no node can start the object, and the objects a
    start that can waits for.  [refused] is whether the reason is not empty. *)
Fixpoint refusalLoop (t : Manager) (nodes : list string) (refused : bool)
    (fl : list naming.Path) : bool * list naming.Path :=
  match nodes with
  | [] => (refused, [])
  | n :: nodes' =>
      match affinityViolations t n with
      | [] => (false, [])
      | violations =>
          let fl' := foldl (fun acc v => match follows v with
                                         | Some p => if decide (p ∈ acc) then acc else (acc ++ [p])%list
                                         | None => acc
                                         end) fl violations in
          if forallb (fun v => match follows v with Some _ => true | None => false end) violations
          then (false, fl')
          else refusalLoop t nodes' true fl'
      end
  end.

Definition hardAffinityRefusal (t : Manager) (nodes : list string) : bool * list naming.Path :=
  refusalLoop t nodes false [].

Definition softAffinityScore (t : Manager) (node : string) : Z :=
  match ActorConfig_ (instConfig t) with
  | None => 0
  | Some cfg =>
      let count l := Z.of_nat (length (List.filter (fun p => isRunning (affineAvail t p node)) l)) in
      (count (SoftAffinity cfg) - count (SoftAntiAffinity cfg))%Z
  end.

Definition sortBySoftAffinity (t : Manager) (candidates : list string) : list string :=
  match ActorConfig_ (instConfig t) with
  | None => candidates
  | Some cfg =>
      if Nat.eqb (length (SoftAffinity cfg) + length (SoftAntiAffinity cfg)) 0 then candidates
      else stable_sort (fun a b => (softAffinityScore t b <? softAffinityScore t a)%Z) candidates
  end.

(** ** The placement policies of main_cmd.go *)

Definition sortWithNodesOrderPolicy (t : Manager) (candidates : list string) : list string :=
  List.filter (Contains candidates) (scopeNodes t).

Definition spreadOrder (p : naming.Path) (candidates : list string) : list string :=
  stable_sort (fun a b => md5.less (md5.Sum (naming.Path_String p ++ a))
                                   (md5.Sum (naming.Path_String p ++ b))) candidates.

Definition sortWithSpreadPolicy (t : Manager) (candidates : list string) : list string :=
  spreadOrder (path t) candidates.

Definition scoreOf (t : Manager) (n : string) : Z :=
  match nodeStats t !! n with Some stats => node.Score stats | None => 0 end.

Definition sortWithScorePolicy (t : Manager) (candidates : list string) : list string :=
  stable_sort (fun a b => (scoreOf t b <? scoreOf t a)%Z) candidates.

Definition lastStartOf (t : Manager) (n : string) : time.Time :=
  match instStatus t !! n with Some st => LastStartedAt st | None => time.zero end.

Definition sortWithLastStartPolicy (t : Manager) (candidates : list string) : list string :=
  stable_sort (fun a b => time.After (lastStartOf t a) (lastStartOf t b)) candidates.

Definition shiftOrder (ordered : list string) (index : Z) : list string :=
  let n := length ordered in
  if Nat.eqb n 0 || (index <=? 0)%Z then ordered
  else
    let i := Z.to_nat (index mod Z.of_nat n) in
    (drop i ordered ++ take i ordered)%list.

Definition sortWithShiftPolicy (t : Manager) (candidates : list string) : list string :=
  shiftOrder (sortWithNodesOrderPolicy t candidates) (naming.ScalerSliceIndex (path t)).

Definition sortByPolicy (t : Manager) (policy : placement.Policy) (candidates : list string) : list string :=
  match policy with
  | placement.NodesOrder => sortWithNodesOrderPolicy t candidates
  | placement.Spread => sortWithSpreadPolicy t candidates
  | placement.Score => sortWithScorePolicy t candidates
  | placement.Shift => sortWithShiftPolicy t candidates
  | placement.LastStart => sortWithLastStartPolicy t candidates
  | _ => []
  end.

Definition sortCandidates (candidates : list string) : M (list string) :=
  a ← actor;
  gets (fun t => sortByPolicy t (object.PlacementPolicy a) candidates).

(** ** Candidates and leaders *)

(** A pair (value, ok) of the code is an option. *)
Definition IsInstanceStatusNotApplicable (t : Manager) (node : string) : option bool :=
  match instStatus t !! node with
  | None => None
  | Some st => Some (bool_decide (Avail st = status.NotApplicable))
  end.

Definition IsInstanceStartFailed (t : Manager) (node : string) : option bool :=
  match GetInstanceMonitor t node with
  | None => None
  | Some mon => Some (bool_decide (State mon = MonitorStateStartFailure))
  end.

Definition IsNodeMonitorStatusRankable (t : Manager) (n : string) : option bool :=
  match nodeMonitor t !! n with
  | None => None
  | Some mon => Some (node.IsRankable (node.State mon))
  end.

Definition isPeerNodeThawing (t : Manager) (nodename : string) : bool :=
  if String.eqb nodename (localhost t) then false
  else match nodeMonitor t !! nodename with
       | None => false
       | Some mon =>
           bool_decide (node.GlobalExpect mon = node.MonitorGlobalExpectUnfrozen) &&
           negb (bool_decide (node.State mon = node.MonitorStateUnfreezeFailure))
       end.

(** The body of the loop of isStartCandidateLeader: whether [node] is a
    candidate. *)
Definition isStartCandidate (t : Manager) (isDaemonDecision : bool) (n : string) : bool :=
  match IsInstanceStatusNotApplicable t n with
  | None | Some true => false
  | Some false =>
      match nodeStatus t !! n, instStatus t !! n with
      | Some nodeStat, Some st =>
          if isDaemonDecision &&
             ((node.IsFrozen nodeStat && negb (isPeerNodeThawing t n)) || IsFrozen st)
          then false
          else if isDaemonDecision &&
             (IsStopped st || negb (Nat.eqb (length (StoppedResources st)) 0))
          then false
          else if provisioned.IsOneOf (Provisioned st) [provisioned.Mixed; provisioned.PFalse]
          then false
          else match IsInstanceStartFailed t n with
               | None | Some true => false
               | Some false =>
                   match IsNodeMonitorStatusRankable t n with
                   | None | Some false => false
                   | Some true => isHardAffinitySatisfied t n
                   end
               end
      | _, _ => false
      end
  end.

Definition startCandidates (t : Manager) (isDaemonDecision : bool) : list string :=
  List.filter (isStartCandidate t isDaemonDecision) (scopeNodes t).

(** [stringslice.Index], [None] for -1. *)
Fixpoint Index (s : string) (l : list string) : option nat :=
  match l with
  | [] => None
  | e :: l' => if String.eqb e s then Some O else S <$> Index s l'
  end.

Definition maxLeaders (a : object.ActorStatus) : M Z :=
  if decide (object.Topology a = topology.Flex) then flexTarget a else ret 1%Z.

(** i >= 0 and i < maxLeaders. *)
Definition isAmongFirst (localhost : string) (candidates : list string) (max : Z) : bool :=
  match Index localhost candidates with
  | None => false
  | Some i => (Z.of_nat i <? max)%Z
  end.

Definition isStartCandidateLeader (isDaemonDecision : bool) : M bool :=
  t ← get;
  sorted ← sortCandidates (startCandidates t isDaemonDecision);
  a ← actor;
  max ← maxLeaders a;
  ret (isAmongFirst (localhost t) (sortBySoftAffinity t sorted) max).

Definition newIsHALeader : M bool := isStartCandidateLeader true.

Definition isLeaderCandidate (t : Manager) (n : string) : bool :=
  match IsInstanceStatusNotApplicable t n, IsInstanceStartFailed t n with
  | Some false, Some false => true
  | _, _ => false
  end.

Definition newIsLeader : M bool :=
  t ← get;
  sorted ← sortCandidates (List.filter (isLeaderCandidate t) (scopeNodes t));
  a ← actor;
  max ← maxLeaders a;
  ret (isAmongFirst (localhost t) sorted max).

Definition updateIsLeader : M unit :=
  t ← get;
  match object.ActorStatus_ (objStatus t) with
  | None => skip
  | Some _ =>
      isLeader ← newIsLeader;
      when (negb (Bool.eqb isLeader (IsLeader (state t))))
        (changed;; set (fun s => s <| IsLeader := isLeader |>));;
      isHALeader ← newIsHALeader;
      when (negb (Bool.eqb isHALeader (IsHALeader (state t))))
        (changed;; set (fun s => s <| IsHALeader := isHALeader |>))
  end.

(** ** Destinations of a switch *)

Definition provisionedInstances (t : Manager) (accept : Status -> bool) : list string :=
  List.filter (fun n => match instStatus t !! n with
                   | None => false
                   | Some st =>
                       provisioned.IsOneOf (Provisioned st)
                         [provisioned.PTrue; provisioned.NotApplicable] && accept st
                   end) (scopeNodes t).

Definition accept_all (_ : Status) : bool := true.

(** nextPlacedAtCandidates: [None] is the error of the node selector. *)
Definition nextPlacedAtCandidates (t : Manager) (want : list string) : option string :=
  match nodeselector_Expand (Join want " ") with
  | None => None
  | Some nodes =>
      let provisionedNodes := provisionedInstances t accept_all in
      Some (Join (List.filter (fun n => match instStatus t !! n with
                                   | None => false
                                   | Some _ => Contains provisionedNodes n
                                               && isHardAffinitySatisfied t n
                                   end) nodes) ",")
  end.

Definition nextPlacedAtCandidate : M string :=
  a ← actor;
  if decide (object.Topology a = topology.Flex) then ret ""
  else
    t ← get;
    sorted ← sortCandidates (scopeNodes t);
    let candidates := sortBySoftAffinity t sorted in
    let provisionedNodes := provisionedInstances t (fun st =>
      status.Is (Avail st) [status.Down; status.StandbyDown; status.StandbyUp]) in
    ret (default "" (head (List.filter (fun c => Contains provisionedNodes c
                                             && isHardAffinitySatisfied t c) candidates))).

(** ** Whether the object runs all it should *)

Definition isObjectStarted (topo : topology.T) (avail : status.T) (upInstancesCount flexTarget : Z) : bool :=
  match topo with
  | topology.Flex => (flexTarget <=? upInstancesCount)%Z
  | topology.Failover => bool_decide (avail = status.Up)
  | topology.Invalid => false
  end.

Definition isStartedActor (a : object.ActorStatus) : bool :=
  isObjectStarted (object.Topology a) (object.Avail a) (object.UpInstancesCount a)
    match object.Flex a with Some f => object.Target f | None => 0 end.

Definition isStarted : M bool := a ← actor; ret (isStartedActor a).

Definition hasInstanceMonitorAndStatusOnPeers (t : Manager) : bool :=
  forallb (fun peer =>
    if String.eqb peer (localhost t) then true
    else match nodeStatus t !! peer with
         | None => true
         | Some _ =>
             match instMonitor t !! peer, instStatus t !! peer with
             | Some mon, Some st =>
                 negb (bool_decide (State mon = MonitorStateInit)) &&
                 negb (time.IsZero (UpdatedAt st))
             | _, _ => false
             end
         end) (Scope (instConfig t)).

Definition isFailoverWarn (a : object.ActorStatus) : bool :=
  bool_decide (object.Topology a = topology.Failover) && bool_decide (object.Avail a = status.Warn).

Definition isHAOrchestrateable : M bool :=
  a ← actor;
  if isFailoverWarn a then ret false
  else if provisioned.IsOneOf (object.Provisioned a) [provisioned.Mixed; provisioned.PFalse]
  then ret false
  else gets hasInstanceMonitorAndStatusOnPeers.

Definition isRequestedStartable : M bool :=
  a ← actor;
  t ← get;
  if isFailoverWarn a then ret false
  else if bool_decide (object.Provisioned a = provisioned.PFalse) then ret false
  else if bool_decide (object.Provisioned a = provisioned.Mixed) &&
          Nat.eqb (length (provisionedInstances t accept_all)) 0 then ret false
  else if negb (hasInstanceMonitorAndStatusOnPeers t) then ret false
  else if isStartedActor a then ret false
  else ret (negb (fst (hardAffinityRefusal t (provisionedInstances t accept_all)))).

Definition isStartable : M bool :=
  ok ← isHAOrchestrateable;
  if negb ok then ret false else b ← isStarted; ret (negb b).

End placement.
