(* ===== verification/ImonActions.v ===== *)
(** * daemon/imon: the steps the orchestrations are made of

    Publication of the monitor (main.go), the end of an orchestration
    (orchestration.go), the commands (crm_actions.go), the flag files
    (non_crm_action.go), the status refreshes (event_refresh.go, outdated.go),
    and the waits before a stop or a start (orchestration.go, wait_syncs.go,
    wait_destination.go).

    An action of type [func() error] is a value of [M bool], [true] when it
    returns no error. *)

From S2P Require Import Prelude Status Naming Instance ImonState ImonPlacement.

Open Scope string_scope.
Import instance.
Open Scope imon_scope.

Section actions.
Context {env : Env}.

Definition now : M time.Time := gets (fun t => Now (trace t)).
Definition isDone : M bool := gets (fun t => ctxDone (trace t)).

(** [time.Since(x)]. *)
Definition Since (x : time.Time) : M time.Duration := n ← now; ret (time.Sub n x).

(** ** Status refreshes: event_refresh.go, outdated.go, crm_actions.go *)

Definition eventRefreshDelay : time.Duration := time.Second.
Definition eventRefreshInterval : time.Duration := (5 * time.Second)%Z.

Definition eventRefreshDelayAfter (now last : time.Time) : time.Duration :=
  let due := time.Add now eventRefreshDelay in
  let floor := time.Add last eventRefreshInterval in
  time.Sub (if time.Before due floor then floor else due) now.

Definition scheduleEventRefresh : M unit :=
  t ← get;
  if eventRefreshScheduled t then skip
  else
    n ← now;
    let delay := eventRefreshDelayAfter n (UpdatedAt (localStatus t)) in
    modify (fun t => t <| eventRefreshScheduled := true |>);;
    emit (ResetTimer EventRefreshTimer delay).

Definition canRefreshOnEvent (t : Manager) : bool :=
  negb (IsDoing (State (state t))) &&
  forallb (fun kv => negb (IsDoing (State (snd kv)))) (map_to_list (instMonitor t)).

Definition replayDeferredEventRefresh : M unit :=
  t ← get;
  if negb (eventRefreshDeferred t) || negb (canRefreshOnEvent t) then skip
  else
    modify (fun t => t <| eventRefreshDeferred := false |>);;
    scheduleEventRefresh.

Definition statelessStatus (updatedAt : time.Time) : Status :=
  (mkStatus status.NotApplicable ∅ 0 0 status.NotApplicable status.NotApplicable
    provisioned.NotApplicable ∅ [] 0 "" updatedAt "" 0)%Z.

Definition pubStatelessInstanceStatus : M unit :=
  n ← now; emit (Pub (InstanceStatusPost (statelessStatus n))).

(** The send on needStatusQ, a channel of one slot, is skipped when it is full. *)
Definition requestStatusRefresh (prio : Z) : M unit :=
  t ← get;
  match ActorConfig_ (instConfig t) with
  | None => pubStatelessInstanceStatus
  | Some _ =>
      if IsOneOf (State (state t)) [MonitorStateDeleteProgress; MonitorStateDeleteSuccess] then skip
      else
        done ← isDone;
        if done then skip
        else match needStatusQ t with
             | Some _ => skip
             | None => modify (fun t => t <| needStatusQ := Some prio |> <| statusQueued := true |>)
             end
  end.

Definition onEventRefreshTimer : M unit :=
  modify (fun t => t <| eventRefreshScheduled := false |>);;
  t ← get;
  if negb (canRefreshOnEvent t) then modify (fun t => t <| eventRefreshDeferred := true |>)
  else
    modify (fun t => t <| eventRefreshDeferred := false |>);;
    requestStatusRefresh (Priority (instConfig t)).

Definition outdatedMargin : time.Duration := time.Second.
Definition outdatedRefreshFloor : time.Duration := (30 * time.Second)%Z.

Definition outdatedRefreshDelay (at_ last now : time.Time) : time.Duration :=
  let due := time.Add at_ outdatedMargin in
  let floor := time.Add last outdatedRefreshFloor in
  let due := if time.Before due floor then floor else due in
  let d := time.Sub due now in
  if (0 <? d)%Z then d else 0%Z.

Definition armOutdatedTimer (at_ : time.Time) : M unit :=
  emit (StopTimer OutdatedTimer);;
  if time.IsZero at_ then skip
  else
    t ← get; n ← now;
    emit (ResetTimer OutdatedTimer (outdatedRefreshDelay at_ (outdatedRefreshedAt t) n)).

Definition onOutdatedTimer : M unit :=
  t ← get;
  if negb (bool_decide (State (state t) = MonitorStateIdle)) then skip
  else
    n ← now;
    modify (fun t => t <| outdatedRefreshedAt := n |>);;
    requestStatusRefresh (Priority (instConfig t)).

(** ** Local expect: orchestration_resource_restart.go *)

Definition setLocalExpect (localExpect : MonitorLocalExpect) : M bool :=
  t ← get;
  if decide (LocalExpect (state t) = localExpect) then ret false
  else changed;; set (fun s => s <| LocalExpect := localExpect |>);; ret true.

Definition disableMonitor : M bool := setLocalExpect MonitorLocalExpectNone.

Definition enableMonitor : M bool :=
  set (fun s => s <| MonitorActionExecutedAt := time.zero |>);;
  setLocalExpect MonitorLocalExpectStarted.

(** ** Publication: main.go *)

Definition update : M unit :=
  done ← isDone;
  if done then skip
  else
    n ← now;
    set (fun s => s <| Monitor_UpdatedAt := n |>);;
    t ← get;
    emit (Pub (InstanceMonitorUpdated (state t))).

Definition updateIfChange : M unit :=
  replayDeferredEventRefresh;;
  done ← isDone;
  if done then skip
  else
    t ← get;
    when (Z.eqb (OrchestrationID (state t)) 0 &&
          bool_decide (State (state t) = MonitorStateIdle) &&
          negb (bool_decide (LocalExpect (state t) = MonitorLocalExpectStarted)) &&
          status.Is (Avail (localStatus t)) [status.Up] &&
          time.After (UpdatedAt (localStatus t)) (LocalExpectUpdatedAt (state t)))
      (enableMonitor;; skip);;
    t ← get;
    if negb (change t) then skip
    else
      modify (fun t => t <| change := false |>);;
      n ← now;
      let previousVal := previousState t in
      let newVal := state t in
      when (negb (bool_decide (LocalExpect newVal = LocalExpect previousVal)))
        (set (fun s => s <| LocalExpectUpdatedAt := n |>));;
      when (negb (bool_decide (State newVal = State previousVal)))
        (set (fun s => s <| StateUpdatedAt := n |>));;
      modify (fun t => t <| previousState := state t |>);;
      update.

Definition transitionTo (newState : MonitorState) : M unit :=
  changed;;
  set (fun s => s <| State := newState |>);;
  updateIfChange.

Definition createPendingWithDuration (duration : time.Duration) : M unit :=
  n ← now; modify (fun t => t <| pending := Some (time.Add n duration) |>).

Definition clearPending : M unit := modify (fun t => t <| pending := None |>).

(** Go ranges over t.instMonitor here, in any order, for the first match. *)
Definition hasOtherNodeActing (t : Manager) : bool :=
  existsb (fun kv => negb (String.eqb (fst kv) (localhost t)) && IsDoing (State (snd kv)))
    (map_to_list (instMonitor t)).

(** ** All the instance monitors: main_cmd.go *)

(** AllInstanceMonitors panics when the local node is a key of t.instMonitor. *)
Definition AllInstanceMonitors : M (gmap string Monitor) :=
  t ← get;
  match instMonitor t !! localhost t with
  | Some _ => panic
  | None => ret (<[localhost t := state t]> (instMonitor t))
  end.

Definition isAllState (states : list MonitorState) : M bool :=
  m ← AllInstanceMonitors;
  ret (forallb (fun kv => IsOneOf (State (snd kv)) states) (map_to_list m)).

(** isAnyPeerState, as whether it names a node. *)
Definition isAnyPeerState (states : list MonitorState) : M bool :=
  m ← AllInstanceMonitors;
  t ← get;
  ret (existsb (fun kv => negb (String.eqb (fst kv) (localhost t)) && IsOneOf (State (snd kv)) states)
          (map_to_list m)).

Definition isDoneOrIdle (mon : Monitor) : bool :=
  OrchestrationIsDone mon || Z.eqb (OrchestrationID mon) 0.

Definition orchestrationIsDoneOnAll : M bool :=
  m ← AllInstanceMonitors;
  ret (forallb (fun kv => isDoneOrIdle (snd kv)) (map_to_list m)).

Definition orchestrationIsDoneOnPeers : M bool :=
  m ← AllInstanceMonitors;
  t ← get;
  ret (forallb (fun kv => String.eqb (fst kv) (localhost t) || isDoneOrIdle (snd kv)) (map_to_list m)).

(** ** Accepting and ending an orchestration: orchestration.go, main_cmd.go *)

Definition done : M unit :=
  t ← get;
  when (negb (Z.eqb (OrchestrationID (state t)) 0) && negb (OrchestrationIsDone (state t)))
    (changed;; set (fun s => s <| OrchestrationIsDone := true |>)).

Definition doneAndIdle : M unit :=
  done;;
  t ← get;
  when (negb (bool_decide (State (state t) = MonitorStateIdle)))
    (changed;; set (fun s => s <| State := MonitorStateIdle |>)).

Definition publishOrchestrationEnded : M unit :=
  t ← get;
  match orchestrationPending t with
  | None => skip
  | Some e =>
      emit (Pub (ObjectOrchestrationEnd e));;
      modify (fun t => t <| orchestrationPending := None |>)
  end.

Definition publishOrchestrationAborted : M unit :=
  t ← get;
  match orchestrationAborted t with
  | None => skip
  | Some e =>
      emit (Pub (ObjectOrchestrationEnd e));;
      modify (fun t => t <| orchestrationAborted := None |>)
  end.

Definition savePendingOrchestration : M unit :=
  t ← get;
  match orchestrationPending t with
  | None => skip
  | Some e =>
      publishOrchestrationAborted;;
      modify (fun t => t <| orchestrationAborted := Some (e <| Aborted := true |>) |>
                         <| orchestrationPending := None |>)
  end.

Definition publishOrchestrationAccepted : M unit :=
  t ← get;
  emit (Pub (ObjectOrchestrationAccepted (OrchestrationID (state t)) (GlobalExpect (state t))
               (GlobalExpectUpdatedAt (state t)))).

Definition setNextPendingOrchestration : M unit :=
  modify (fun t => t <| orchestrationPending := Some (mkOrchestrationEnd (OrchestrationID (state t))
    (GlobalExpect (state t)) (GlobalExpectUpdatedAt (state t)) false false "") |>).

Definition abortPendingNotEndedByDeletion : M unit :=
  t ← get;
  match orchestrationPending t with
  | None => skip
  | Some e =>
      if endWithDeletion t then skip
      else match End_GlobalExpect e with
           | MonitorGlobalExpectDeleted | MonitorGlobalExpectPurged => skip
           | _ => modify (fun t => t <| orchestrationPending := Some (e <| Aborted := true |>) |>)
           end
  end.

Definition verdictFailures (m : gmap string Monitor) (scope : list string) : list string :=
  omap (fun n => match m !! n with
                 | Some mon => if IsOneOf (State mon) MonitorStatesFailure
                               then Some (MonitorState_String (State mon) ++ " on " ++ n) else None
                 | None => None
                 end) scope.

(** The map is built again for each node of the scope: the panic of
    AllInstanceMonitors needs a node in it. *)
Definition setOrchestrationVerdict : M unit :=
  t ← get;
  match orchestrationPending t with
  | None => skip
  | Some e =>
      match scopeNodes t with
      | [] => skip
      | _ =>
          m ← AllInstanceMonitors;
          match verdictFailures m (scopeNodes t) with
          | [] => skip
          | failures =>
              modify (fun t => t <| orchestrationPending :=
                Some (e <| Failed := true |> <| End_Error := Join failures ", " |>) |>)
          end
      end
  end.

Definition clearStateSpokenToPeers : M unit :=
  t ← get;
  match State (state t) with
  | MonitorStateResizeSuccess | MonitorStatePreflightSuccess =>
      set (fun s => s <| State := MonitorStateIdle |>)
  | _ => skip
  end.

Definition resumeIdleAfterOrchestration : M unit :=
  t ← get;
  if negb (idleAfterOrchestration t) then skip
  else
    modify (fun t => t <| idleAfterOrchestration := false |>);;
    if negb (bool_decide (Avail (localStatus t) = status.Up)) then skip
    else
      changed;;
      set (fun s => s <| State := MonitorStateIdle |>);;
      enableMonitor;;
      updateIfChange.

(** publishOrchestrationEnded is deferred: it runs last. *)
Definition endOrchestration : M unit :=
  changed;;
  setOrchestrationVerdict;;
  t ← get;
  let endWithDeletion := endWithDeletion t in
  clearStateSpokenToPeers;;
  set (fun s => s <| GlobalExpect := MonitorGlobalExpectNone |>
                  <| GlobalExpectOptions := NoOptions |>
                  <| OrchestrationIsDone := false |>
                  <| OrchestrationID := 0%Z |>);;
  clearPending;;
  updateIfChange;;
  resumeIdleAfterOrchestration;;
  when (negb endWithDeletion) publishOrchestrationEnded.

(** ** Commands: crm_actions.go *)

Definition crmDefaultAction (orchestration : Z) (title : string) (args : list string) : M (Z * bool) :=
  emit (Exec orchestration title args);;
  gets (fun t => (execCode (trace t), execOk (trace t))).

Definition crmAction (title : string) (args : list string) : M bool :=
  t ← get;
  r ← crmDefaultAction (OrchestrationID (state t)) title args;
  ret (snd r).

Definition crmMaintenanceAction (title : string) (args : list string) : M bool :=
  r ← crmDefaultAction 0 title args;
  ret (snd r).

(** The command line of an action of the instance. *)
Definition instanceArgs (t : Manager) (args : list string) : list string :=
  naming.Path_String (path t) :: "instance" :: args.

Definition crmInstance (title : string) (args : list string) : M bool :=
  t ← get; crmAction title (instanceArgs t args).

Definition crmPGUpdate : M bool := crmInstance "pg update" ["pg"; "update"].
Definition crmBoot : M bool := crmInstance "boot" ["boot"].
Definition crmFreeze : M bool := crmInstance "freeze" ["freeze"].
Definition crmUnfreeze : M bool := crmInstance "unfreeze" ["unfreeze"].
Definition crmShutdown : M bool := crmInstance "shutdown" ["shutdown"].
Definition crmStart : M bool := crmInstance "start" ["start"].
Definition crmStartStandby : M bool := crmInstance "start" ["startstandby"].
Definition crmProvisionNonLeader : M bool := crmInstance "provision non leader" ["provision"].
Definition crmProvisionPreflight : M bool := crmInstance "provision preflight" ["provision"; "--preflight"].
Definition crmUnprovisionNonLeader : M bool := crmInstance "unprovision non leader" ["unprovision"].
Definition crmUnprovisionLeader : M bool := crmInstance "unprovision leader" ["unprovision"; "--leader"].
Definition crmStonith (nodename : string) : M bool := crmAction "stonith" ["node"; "stonith"; "--node"; nodename].

Definition crmDelete : M bool :=
  emit (Pub InstanceConfigDeleting);; crmInstance "delete" ["delete"].

Definition provisionedOptionsAdopt (t : Manager) : bool :=
  match GlobalExpectOptions (state t) with OptionsProvisioned adopt => adopt | _ => false end.

Definition crmProvisionLeader : M bool :=
  t ← get;
  crmInstance "provision leader"
    (["provision"; "--leader"] ++ if provisionedOptionsAdopt t then ["--adopt"] else [])%list.

Definition interruptSyncsAsked (t : Manager) : bool :=
  match GlobalExpectOptions (state t) with
  | OptionsStopped b => b
  | OptionsPlacedAt o => PlacedAt_InterruptSyncs o
  | _ => false
  end.

Definition stopArgs (t : Manager) (extra : list string) : list string :=
  (instanceArgs t ("stop" :: extra) ++ if interruptSyncsAsked t then ["--interrupt-syncs"] else [])%list.

Definition crmStopWith (extra : list string) : M bool := t ← get; crmAction "stop" (stopArgs t extra).
Definition crmStop : M bool := crmStopWith [].
Definition crmStopMoveTo (dst : string) : M bool := crmStopWith ["--move-to"; dst].
Definition crmStopSyncTo (dst : list string) : M bool := crmStopWith ["--sync-to"; Join dst ","].

Definition crmResourceStart (rids : list string) : M bool :=
  t ← get; crmMaintenanceAction "start" (instanceArgs t ["start"; "--rid"; Join rids ","]).
Definition crmResourceStartStandby (rids : list string) : M bool :=
  t ← get; crmMaintenanceAction "start" (instanceArgs t ["startstandby"; "--rid"; Join rids ","]).

Definition isResizeLeader (t : Manager) : bool := status.Is (Avail (localStatus t)) [status.Up].

(** The exit code and whether the command failed: the code that says there is no
    such stage is an answer, not a failure. *)
Definition crmResizeStage (stage : string) : M (Z * bool) :=
  t ← get;
  crmDefaultAction (OrchestrationID (state t)) ("resize stage " ++ stage)
    (instanceArgs t (["resize"; "--stage"; stage]
       ++ if isResizeLeader t then [] else ["--skip-head-stage"]))%list.

Fixpoint crmPrepare (paths : list string) : M bool :=
  match paths with
  | [] => ret true
  | p :: paths' =>
      ok ← crmAction "prepare" [p; "instance"; "startstandby"];
      if ok then crmPrepare paths' else ret false
  end.

(** ** Running an action: main_cmd.go

    runner.Run runs its callback and returns when it is over. *)

Definition orchestrateAfterAction (state newState : MonitorState) : M unit :=
  emit (AfterAction state newState).

Definition doAction (action : M bool) (newState successState errorState : MonitorState) : M unit :=
  transitionTo newState;;
  ok ← action;
  orchestrateAfterAction newState (if ok then successState else errorState).

Definition queueAction := doAction.

Definition doTransitionAction (action : M bool) (newState successState errorState : MonitorState) : M unit :=
  transitionTo newState;;
  ok ← action;
  transitionTo (if ok then successState else errorState).

(** ** Flag files: non_crm_action.go *)

Definition setLocalStatus (f : Status -> Status) : M unit :=
  modify (fun t => t <| instStatus ::= alter f (localhost t) |>).

Definition setStopped : M bool :=
  emit SetStoppedFlag;;
  t ← get;
  if negb (flagOk (trace t)) then ret false
  else
    let stopped := stoppedFlagAt (trace t) in
    if time.IsZero stopped then ret false
    else
      setLocalStatus (fun s => s <| StoppedAt := stopped |>);;
      emit (Pub (InstanceStoppedFileUpdated stopped));;
      ret true.

Definition unsetStopped : M bool :=
  t ← get;
  if time.IsZero (stoppedFlagAt (trace t)) then ret true
  else
    emit UnsetStoppedFlag;;
    t ← get;
    if negb (flagOk (trace t)) then ret false
    else
      setLocalStatus (fun s => s <| StoppedAt := time.zero |>);;
      emit (Pub InstanceStoppedFileRemoved);;
      ret true.

Definition freeze : M bool :=
  emit SetFrozenFlag;;
  t ← get;
  if negb (flagOk (trace t)) then ret false
  else
    let frozen := frozenFlagAt (trace t) in
    let scope := frozenFlagScope (trace t) in
    setLocalStatus (fun s => s <| FrozenAt := frozen |> <| FrozenScope := scope |>);;
    if time.IsZero frozen then ret false
    else emit (Pub (InstanceFrozenFileUpdated frozen scope));; ret true.

Definition unfreeze : M bool :=
  t ← get;
  ok ← (if negb (frozenFlagExists (trace t)) then ret true
        else emit UnsetFrozenFlag;; gets (fun t => flagOk (trace t)));
  if negb ok then ret false
  else
    setLocalStatus (fun s => s <| FrozenAt := time.zero |> <| FrozenScope := "" |>);;
    emit (Pub InstanceFrozenFileRemoved);;
    ret true.

Definition clearStoppedFlagOnRequest : M unit :=
  t ← get;
  match GlobalExpect (state t) with
  | MonitorGlobalExpectStarted | MonitorGlobalExpectRestarted
  | MonitorGlobalExpectPlaced | MonitorGlobalExpectPlacedAt =>
      when (isStopped t) (unsetStopped;; skip)
  | _ => skip
  end.

Definition isLocalStatusCurrent (t : Manager) : bool :=
  let csum := ConfigCsum (localStatus t) in
  String.eqb csum "" || String.eqb (Checksum (instConfig t)) "" || String.eqb csum (Checksum (instConfig t)).
(** ** Waits on the relations: orchestration.go *)

(** The loop over the parents: an invalid path ends it with false, whatever was
    found before. *)
Fixpoint parentsWaitingChildren (t : Manager) (relations : list string) (found : bool) : bool :=
  match relations with
  | [] => found
  | r :: relations' =>
      match naming.ParsePath r with
      | None => false
      | Some p =>
          parentsWaitingChildren t relations'
            (found || existsb (fun kv => bool_decide (State (snd kv) = MonitorStateWaitChildren))
                        (map_to_list (default ∅ (MonitorData (trace t) !! p))))
      end
  end.

Definition isAnyParentWaitingChilren (t : Manager) : bool :=
  parentsWaitingChildren t (range t (Parents (state t))) false.

Definition isParentMissing (avail : status.T) : bool :=
  negb (status.Is avail [status.Up; status.Undef]).

Definition setWaitParents : M bool :=
  t ← get;
  if existsb (fun kv => isParentMissing (snd kv)) (map_to_list (Parents (state t))) then
    when (negb (bool_decide (State (state t) = MonitorStateWaitParents)))
      (set (fun s => s <| State := MonitorStateWaitParents |>);; changed);;
    ret true
  else
    when (bool_decide (State (state t) = MonitorStateWaitParents))
      (set (fun s => s <| State := MonitorStateIdle |>);; changed);;
    ret false.

Definition isChildActive (avail : status.T) : bool :=
  negb (status.Is avail [status.Down; status.StandbyDown; status.StandbyUp; status.Undef;
                         status.NotApplicable]).

Definition setWaitChildren : M bool :=
  t ← get;
  if existsb (fun kv => isChildActive (snd kv)) (map_to_list (Children (state t))) then
    when (negb (bool_decide (State (state t) = MonitorStateWaitChildren)))
      (set (fun s => s <| State := MonitorStateWaitChildren |>);; changed);;
    ret true
  else
    when (bool_decide (State (state t) = MonitorStateWaitChildren))
      (set (fun s => s <| State := MonitorStateIdle |>);; changed);;
    ret false.

Definition orchestratePlacedAtSetWaitParents : M bool :=
  t ← get;
  if isAnyParentWaitingChilren t then ret true else setWaitParents.

(** ** The wait for the running syncs: wait_syncs.go *)

Definition defaultWaitSyncsTimeout : time.Duration := (10 * time.Minute)%Z.

Definition waitSyncsTimeout (t : Manager) : time.Duration :=
  match ActorConfig_ (instConfig t) with
  | Some a => if (0 <? WaitSyncsTimeout a)%Z then WaitSyncsTimeout a else defaultWaitSyncsTimeout
  | None => defaultWaitSyncsTimeout
  end.

Definition isSync (rid : string) : bool :=
  match resourceid.Parse rid with
  | Some id => String.eqb (resourceid.DriverGroup id) "sync"
  | None => false
  end.

Definition runningSyncs (t : Manager) : list string :=
  List.filter isSync (map resource.RID (Running (localStatus t))).

Definition leaveWaitSyncs : M unit :=
  t ← get;
  when (bool_decide (State (state t) = MonitorStateWaitSyncs))
    (modify (fun t => t <| waitSyncsSince := time.zero |>);;
     emit (StopTimer WaitSyncsTimer);;
     transitionTo MonitorStateIdle).

Definition setWaitSyncs : M bool :=
  t ← get;
  if interruptSyncsAsked t then leaveWaitSyncs;; ret false
  else match runningSyncs t with
  | [] => leaveWaitSyncs;; ret false
  | _ =>
      if negb (bool_decide (State (state t) = MonitorStateWaitSyncs)) then
        n ← now;
        modify (fun t => t <| waitSyncsSince := n |>);;
        emit (ResetTimer WaitSyncsTimer (waitSyncsTimeout t));;
        transitionTo MonitorStateWaitSyncs;;
        ret true
      else
        d ← Since (waitSyncsSince t);
        if (waitSyncsTimeout t <? d)%Z then
          modify (fun t => t <| waitSyncsSince := time.zero |> <| stopRefusedForSyncs := true |>);;
          transitionTo MonitorStateStopFailure;;
          ret true
        else ret true
  end.

Definition resumeMonitorIfStopRefused : M unit :=
  t ← get;
  if negb (stopRefusedForSyncs t) then skip
  else
    modify (fun t => t <| stopRefusedForSyncs := false |>);;
    when (status.Is (Avail (localStatus t)) [status.Up; status.Warn]) (enableMonitor;; skip).

(** ** The wait for the destination of a switch: wait_destination.go *)

Definition defaultWaitDestinationTimeout : time.Duration := time.Hour.

Definition waitDestinationTimeout (t : Manager) : time.Duration :=
  match ActorConfig_ (instConfig t) with
  | Some a => if (0 <? StartTimeout a)%Z then StartTimeout a else defaultWaitDestinationTimeout
  | None => defaultWaitDestinationTimeout
  end.

(** The blockers of the instance of a node, sorted by resource id. *)
Definition startBlockers (t : Manager) (nodename : string) : list (string * resource.StartBlocker) :=
  stable_sort (fun a b => String.ltb (fst a) (fst b))
    (omap (fun kv => match resource.StartBlocker_ (snd kv) with
                     | Some b => Some (fst kv, b)
                     | None => None
                     end) (map_to_list (Resources (instStatusOf t nodename)))).

Definition blockerReasons (t : Manager) (nodenames : list string) : list string :=
  concat (map (fun n => map (fun kb => n ++ " " ++ fst kb ++ ": " ++ resource.Reason (snd kb))
                          (startBlockers t n)) nodenames).

Definition isUpToDateElsewhere (t : Manager) (rid : string) (dst : list string) : bool :=
  existsb (fun kv => negb (Contains dst (fst kv)) &&
    match Resources (snd kv) !! rid with
    | None => false
    | Some rstat =>
        match resource.StartBlocker_ rstat with
        | Some _ => false
        | None => status.Is (resource.Status_ rstat) [status.Up; status.StandbyUp]
        end
    end) (map_to_list (instStatus t)).

(** The blockers themselves rather than the messages made of them. *)
Definition unliftableBlockers (t : Manager) (dst : list string) : list (string * resource.StartBlocker) :=
  concat (map (fun n => List.filter (fun kb => negb (resource.Resync (snd kb))
                                       || negb (isUpToDateElsewhere t (fst kb) dst))
                          (startBlockers t n)) dst).

Definition getPlacedAtDestination (t : Manager) : option (list string) :=
  match GlobalExpectOptions (state t) with
  | OptionsPlacedAt o => Some (Destination o)
  | _ => None
  end.

Definition getPlacedAtLive (t : Manager) : bool :=
  match GlobalExpectOptions (state t) with OptionsPlacedAt o => Live o | _ => false end.

Definition failWaitDestination : M unit :=
  modify (fun t => t <| waitDestinationSince := time.zero |>);;
  emit (StopTimer WaitDestinationTimer);;
  transitionTo MonitorStateWaitDestinationFailure;;
  modify (fun t => t <| idleAfterOrchestration := true |>);;
  done;;
  clearPending.

(** A destination that failed to prepare, or that publishes no status. *)
Definition isDestinationLost (t : Manager) (nodename : string) : bool :=
  bool_decide (State (instMonitorOf t nodename) = MonitorStatePrepareFailure) ||
  match instStatus t !! nodename with None => true | Some _ => false end.

Definition setWaitDestination : M bool :=
  t ← get;
  match getPlacedAtDestination t with
  | None | Some [] => ret false
  | Some dst =>
      if existsb (isDestinationLost t) dst then failWaitDestination;; ret true
      else match blockerReasons t dst with
      | [] =>
          when (bool_decide (State (state t) = MonitorStateWaitDestination))
            (modify (fun t => t <| waitDestinationSince := time.zero |>);;
             emit (StopTimer WaitDestinationTimer);;
             transitionTo MonitorStateIdle);;
          ret false
      | _ =>
          match unliftableBlockers t dst with
          | _ :: _ => failWaitDestination;; ret true
          | [] =>
              if negb (bool_decide (State (state t) = MonitorStateWaitDestination)) then
                n ← now;
                modify (fun t => t <| waitDestinationSince := n |>);;
                emit (ResetTimer WaitDestinationTimer (waitDestinationTimeout t));;
                transitionTo MonitorStateWaitDestination;;
                ret true
              else
                d ← Since (waitDestinationSince t);
                if (waitDestinationTimeout t <? d)%Z then failWaitDestination;; ret true
                else ret true
          end
      end
  end.

Definition resyncBlockerPaths (t : Manager) : list string :=
  foldl (fun l kb =>
    if negb (resource.Resync (snd kb)) then l
    else
      let p := if String.eqb (resource.BlockerPath (snd kb)) "" then naming.Path_String (path t)
               else resource.BlockerPath (snd kb) in
      if Contains l p then l else (l ++ [p])%list) [] (startBlockers t (localhost t)).

(** ** Delayed orchestration and update: main_cmd.go *)

Definition enableDelayTimer : M unit :=
  t ← get;
  if delayTimerEnabled t then skip
  else
    emit (ResetTimer DelayTimer (delayDuration t));;
    modify (fun t => t <| delayTimerEnabled := true |>).

Definition onChange : M unit :=
  enableDelayTimer;;
  updateIsLeader;;
  modify (fun t => t <| delayOrchestrateEnabled := true |> <| delayUpdateEnabled := true |>).

Definition updateOrchestrateUpdate : M unit :=
  enableDelayTimer;;
  modify (fun t => t <| delayPreUpdateEnabled := true |> <| delayOrchestrateEnabled := true |>
                     <| delayUpdateEnabled := true |>).

Definition onStatusDone : M unit := updateOrchestrateUpdate.

Definition onWaitSyncsTimer : M unit :=
  t ← get;
  if negb (bool_decide (State (state t) = MonitorStateWaitSyncs)) then skip else onChange.

Definition onWaitDestinationTimer : M unit :=
  t ← get;
  if negb (bool_decide (State (state t) = MonitorStateWaitDestination)) then skip else onChange.

End actions.
