(* ===== verification/ImonRestart.v ===== *)
(** * daemon/imon: stops and resource restarts

    The stop of an instance (orchestration_stopped.go) and the restart of its
    resources, with the monitor action that follows when the restarts are used
    up (orchestration_resource_restart.go). *)

From S2P Require Import Prelude Status Naming Instance ImonState ImonPlacement ImonActions.

Open Scope string_scope.
Import instance.
Open Scope imon_scope.

Section restart.
Context {env : Env}.

(** ** orchestration_stopped.go *)

Definition stopDuration : time.Duration := (10 * time.Second)%Z.

Definition isLocalStopped (t : Manager) : bool :=
  status.Is (Avail (localStatus t))
    [status.NotApplicable; status.Undef; status.Down; status.StandbyUp; status.StandbyDown].

Definition stoppedClearIfReached : M bool :=
  t ← get;
  if isLocalStopped t then
    when (negb (OrchestrationIsDone (state t)))
      (doneAndIdle;; disableMonitor;; clearPending);;
    ret true
  else ret false.

Definition doStop : M unit :=
  reached ← stoppedClearIfReached;
  if reached then skip else
  waits ← setWaitChildren;
  if waits then skip else
  waits ← setWaitSyncs;
  if waits then skip else
  createPendingWithDuration stopDuration;;
  disableMonitor;;
  queueAction crmStop MonitorStateStopProgress MonitorStateStopSuccess MonitorStateStopFailure.

Definition doFreezeStop : M unit :=
  t ← get;
  if IsUnfrozen (localStatus t) then
    doTransitionAction freeze MonitorStateFreezeProgress MonitorStateFreezeSuccess
      MonitorStateFreezeFailure
  else doStop.

Definition doStopOnPurpose : M unit :=
  t ← get;
  ok ← (if isStopped t then ret true else setStopped);
  if negb ok then skip else doStop.

(** stoppedFromReady and stoppedFromFailed. *)
Definition stoppedFromFailed : M unit :=
  changed;;
  set (fun s => s <| State := MonitorStateIdle |>);;
  stoppedClearIfReached;; skip.

Definition stoppedFromReady : M unit := clearPending;; stoppedFromFailed.

Definition stopOnPurpose : M unit :=
  t ← get;
  match State (state t) with
  | MonitorStateIdle => doStopOnPurpose
  | MonitorStateFreezeSuccess => doStopOnPurpose
  | MonitorStateReady => stoppedFromReady
  | MonitorStateFreezeProgress => skip
  | MonitorStateRunning => skip
  | MonitorStateStopSuccess => transitionTo MonitorStateIdle
  | MonitorStateStopProgress => skip
  | MonitorStateStopFailure => done
  | MonitorStateStartFailure => stoppedFromFailed
  | MonitorStateWaitChildren => setWaitChildren;; skip
  | MonitorStateWaitSyncs =>
      waits ← setWaitSyncs;
      if negb waits then doStopOnPurpose else skip
  | _ => skip
  end.

Definition orchestrateStopped : M unit := stopOnPurpose.

Definition stop : M unit :=
  t ← get;
  match State (state t) with
  | MonitorStateIdle => doStop
  | MonitorStateReady => stoppedFromReady
  | MonitorStateStopSuccess => transitionTo MonitorStateIdle
  | MonitorStateStartFailure => stoppedFromFailed
  | MonitorStateWaitSyncs =>
      waits ← setWaitSyncs;
      if negb waits then doStop else skip
  | _ => skip
  end.

(** ** Restart schedules: orchestration_resource_restart.go *)

Definition orOf (t : Manager) (standby : bool) : orchestrationResource :=
  if standby then standbyResourceOrchestrate t else regularResourceOrchestrate t.

Definition setOr (standby : bool) (f : orchestrationResource -> orchestrationResource) : M unit :=
  modify (fun t => if standby then t <| standbyResourceOrchestrate ::= f |>
                   else t <| regularResourceOrchestrate ::= f |>).

Definition cancelSchedule (standby : bool) : M unit :=
  t ← get;
  when (scheduler (orOf t standby))
    (emit CancelRestart;; setOr standby (fun o => o <| scheduler := false |>)).

Definition cancelResourceOrchestrateSchedules : M unit :=
  cancelSchedule true;; cancelSchedule false.

Definition dropScheduled (standby : bool) (rid : string) : M bool :=
  t ← get;
  if decide (rid ∈ scheduled (orOf t standby)) then
    setOr standby (fun o => o <| scheduled ::= fun s => s ∖ {[rid]} |>);;
    t ← get;
    when (bool_decide (scheduled (orOf t standby) = ∅)) (cancelSchedule standby);;
    ret true
  else ret false.

Definition dropAllScheduled (standby : bool) : M bool :=
  cancelSchedule standby;;
  t ← get;
  if decide (scheduled (orOf t standby) = ∅) then ret false
  else setOr standby (fun o => o <| scheduled := ∅ |>);; ret true.

Definition alreadyScheduled (t : Manager) (standby : bool) (rid : string) : bool :=
  bool_decide (rid ∈ scheduled (orOf t standby)).

Definition monitorActionCalled (t : Manager) : bool :=
  negb (time.IsZero (MonitorActionExecutedAt (state t))).

Definition isValidMonitorAction (action : MonitorAction) : bool :=
  one_of action [MonitorActionCrash; MonitorActionFreezeStop; MonitorActionNone;
                 MonitorActionReboot; MonitorActionSwitch].

(** (action, ok): [None] stands for ok = false. *)
Definition getValidMonitorAction (stage : nat) : M (option MonitorAction) :=
  cfg ← actorConfig;
  ret (match MonitorActions cfg !! stage with
       | None => None
       | Some action => if isValidMonitorAction action then Some action else None
       end).

Definition doPreMonitorAction : M unit :=
  cfg ← actorConfig;
  when (negb (String.eqb (PreMonitorAction cfg) "")) (emit (PreMonitorCommand (PreMonitorAction cfg))).

Definition doMonitorAction (rid : string) (action : MonitorAction) : M unit :=
  n ← now;
  set (fun s => s <| MonitorActionExecutedAt := n |>);;
  if negb (isValidMonitorAction action) then skip
  else
    doPreMonitorAction;;
    emit (Pub (InstanceMonitorAction rid action));;
    if String.eqb action MonitorActionCrash then emit Crash
    else if String.eqb action MonitorActionFreezeStop then doFreezeStop;; doStop
    else if String.eqb action MonitorActionReboot then emit Reboot
    else if String.eqb action MonitorActionSwitch then
      createPendingWithDuration stopDuration;;
      disableMonitor;;
      queueAction crmStop MonitorStateStopProgress MonitorStateStartFailure MonitorStateStopFailure
    else skip.

(** The restart count of a resource, absent when its restart is not
    configured. *)
Definition restartOf (t : Manager) (rid : string) : option ResourceMonitorRestart :=
  match Monitor_Resources (state t) !! rid with
  | Some rmon => Restart_ rmon
  | None => None
  end.

Definition setResource (rid : string) (r : ResourceMonitorRestart) : M unit :=
  set (fun s => s <| Monitor_Resources ::= <[rid := mkResourceMonitor (Some r)]> |>).

Definition resetRemaining (rid : string) (rcfg : ResourceConfig) : M unit :=
  t ← get;
  match restartOf t rid with
  | None => skip
  | Some r =>
      when (negb (Z.eqb (Remaining r) (Restart rcfg)))
        (set (fun s => s <| MonitorActionExecutedAt := time.zero |>);;
         setResource rid (mkRestart (Restart rcfg) (LastAt r));;
         changed)
  end.

Definition isRestStatus (s : status.T) : bool :=
  status.Is s [status.NotApplicable; status.Undef; status.Up; status.StandbyUp].

(** (needRestart, needMonitorAction).  The error of the code is for a nil
    [rcfg], which the callers check first. *)
Definition orchestrateResourcePlan (rid : string) (rcfg : ResourceConfig) (rStatus : resource.Status)
    (started : bool) : M (bool * bool) :=
  let standby := IsStandby rcfg in
  let dropAndReset :=
    dropped ← dropScheduled standby rid;
    when dropped changed;;
    resetRemaining rid rcfg;;
    ret (false, false) in
  t ← get;
  if IsDisabled rcfg then dropAndReset
  else if resource.IsStopped rStatus then dropAndReset
  else if isRestStatus (resource.Status_ rStatus) then dropAndReset
  else if alreadyScheduled t standby rid then ret (false, false)
  else if monitorActionCalled t then ret (false, false)
  else if standby || started then
    match restartOf t rid with
    | None => ret (false, IsMonitored rcfg)
    | Some r =>
        if Z.eqb (Remaining r) 0 && IsMonitored rcfg then ret (false, true)
        else if (0 <? Remaining r)%Z then ret (true, false)
        else ret (false, false)
    end
  else
    dropped ← dropScheduled standby rid;
    when dropped changed;;
    ret (false, false).

(** One resource of the loops of orchestrateResourceRestart; [todo] holds the
    resources to restart, standby and regular. *)
Definition planResource (started : bool) (todo : gset string * gset string)
    (rid : string) (rstat : resource.Status) : M (gset string * gset string) :=
  cfg ← actorConfig;
  match Config_Resources cfg !! rid with
  | None => ret todo
  | Some rcfg =>
      plan ← orchestrateResourcePlan rid rcfg rstat started;
      if snd plan then
        setLocalExpect MonitorLocalExpectEvicted;;
        t ← get;
        doMonitorAction rid (initialMonitorAction t);;
        cancelResourceOrchestrateSchedules;;
        ret todo
      else if fst plan then
        ret (if IsStandby rcfg then (fst todo ∪ {[rid]}, snd todo) else (fst todo, snd todo ∪ {[rid]}))
      else ret todo
  end.

Fixpoint planResources (started : bool) (encap : bool) (m : gmap string resource.Status)
    (rids : list string) (todo : gset string * gset string) : M (gset string * gset string) :=
  match rids with
  | [] => ret todo
  | rid :: rids' =>
      match m !! rid with
      | None => planResources started encap m rids' todo
      | Some rstat =>
          todo' ← (if negb encap && resource.IsEncap rstat then ret todo
                   else planResource started todo rid rstat);
          planResources started encap m rids' todo'
      end
  end.

(** The resources of the encapsulated instances whose container is up. *)
Fixpoint planEncaps (started : bool) (m : gmap string (gmap string resource.Status))
    (encaps : list string) (todo : gset string * gset string) : M (gset string * gset string) :=
  match encaps with
  | [] => ret todo
  | encapRID :: encaps' =>
      t ← get;
      let skipped := match Resources (localStatus t) !! encapRID with
                     | Some rStatus => negb (status.Is (resource.Status_ rStatus) [status.Up; status.StandbyUp])
                     | None => false
                     end in
      let rs := default ∅ (m !! encapRID) in
      todo' ← (if skipped then ret todo else planResources started true rs (range t rs) todo);
      planEncaps started m encaps' todo'
  end.

(** The restart delay of the resources to restart, the longest of them. *)
Fixpoint getRidsAndDelay (cfg : ActorConfig) (t : Manager) (n : time.Time) (todo : list string)
    (rids : list string) (maxDelay : time.Duration) : option (list string * time.Duration) :=
  match todo with
  | [] => Some (rids, maxDelay)
  | rid :: todo' =>
      match Config_Resources cfg !! rid, Monitor_Resources (state t) !! rid with
      | Some rcfg, Some rmon =>
          match RestartDelay rcfg, Restart_ rmon with
          | None, _ => getRidsAndDelay cfg t n todo' (rids ++ [rid])%list maxDelay
          | Some _, None => None
          | Some d, Some r =>
              let notBefore := time.Add (LastAt r) d in
              let delay := time.Sub notBefore n in
              getRidsAndDelay cfg t n todo' (rids ++ [rid])%list
                (if time.Before n notBefore && (maxDelay <? delay)%Z then delay else maxDelay)
          end
      | _, _ => getRidsAndDelay cfg t n todo' rids maxDelay
      end
  end.

Definition scheduleResource (standby : bool) (rid : string) : M unit :=
  t ← get;
  match Monitor_Resources (state t) !! rid with
  | None => skip
  | Some rmon =>
      match DecRestartRemaining rmon with
      | None => panic
      | Some rmon' =>
          set (fun s => s <| Monitor_Resources ::= <[rid := rmon']> |>);;
          changed;;
          setOr standby (fun o => o <| scheduled ::= fun s => s ∪ {[rid]} |>)
      end
  end.

Definition resourceRestartSchedule (todo : gset string) (standby : bool) : M unit :=
  cfg ← actorConfig;
  t ← get;
  n ← now;
  match getRidsAndDelay cfg t n (rangeOrder (trace t) (elements todo)) [] 0%Z with
  | None => panic
  | Some ([], _) => skip
  | Some (rids, delay) =>
      setOr standby (fun o => o <| scheduler := true |>);;
      emit (ScheduleRestart rids standby delay);;
      for_each rids (scheduleResource standby)
  end.

(** [""] is [None]. *)
Definition failoverRunsOnPeer : M bool :=
  a ← actor;
  t ← get;
  if negb (bool_decide (object.Topology a = topology.Failover)) then ret false
  else if status.Is (Avail (localStatus t)) [status.Up] then ret false
  else ret (existsb (fun kv => negb (String.eqb (fst kv) (localhost t)) &&
                               status.Is (Avail (snd kv)) [status.Up]) (map_to_list (instStatus t))).

Definition resourceOrchestrableKinds : naming.Kinds := naming.NewKinds [naming.KindSvc; naming.KindVol].

(** The part of orchestrateResourceRestart that plans and schedules, past its
    guards. *)
Definition planRestarts : M unit :=
  t ← get;
  when (bool_decide (LocalExpect (state t) = MonitorLocalExpectStarted))
    (onPeer ← failoverRunsOnPeer;
     when onPeer
       (disableMonitor;;
        dropped ← dropAllScheduled false;
        when dropped changed));;
  t ← get;
  let started := bool_decide (LocalExpect (state t) = MonitorLocalExpectStarted) in
  let rs := Resources (localStatus t) in
  todo ← planResources started false rs (range t rs) (∅, ∅);
  t ← get;
  let encap := Encap (localStatus t) in
  todo ← planEncaps started encap (range t encap) todo;
  when (negb (bool_decide (fst todo = ∅))) (resourceRestartSchedule (fst todo) true);;
  when (negb (bool_decide (snd todo = ∅))) (resourceRestartSchedule (snd todo) false).

Definition orchestrateResourceRestart : M unit :=
  t ← get;
  if negb (naming.Kinds_Has resourceOrchestrableKinds (naming.Kind_ (path t))) then skip
  else match instStatus t !! localhost t with
  | None => cancelResourceOrchestrateSchedules
  | Some _ =>
  if node.IsFrozen (nodeStatusOf t (localhost t)) then cancelResourceOrchestrateSchedules
  else if negb (bool_decide (node.State (nodeMonitorOf t (localhost t)) = node.MonitorStateIdle))
  then cancelResourceOrchestrateSchedules
  else
    when (bool_decide (LocalExpect (state t) = MonitorLocalExpectEvicted) &&
          bool_decide (State (state t) = MonitorStateStopFailure))
      (action ← getValidMonitorAction 1;
       disableMonitor;;
       match action with
       | Some action => doMonitorAction "" action
       | None => skip
       end);;
    t ← get;
    if IsFrozen (localStatus t) then cancelResourceOrchestrateSchedules
    else if provisioned.IsOneOf (Provisioned (localStatus t))
              [provisioned.PFalse; provisioned.Mixed; provisioned.Undef]
    then cancelResourceOrchestrateSchedules
    else match State (state t) with
         | MonitorStateIdle | MonitorStateStartFailure | MonitorStateStopFailure => planRestarts
         | _ => skip
         end
  end.

(** resourceRestart: the resources still scheduled are restarted. *)
Fixpoint restartCandidates (standby : bool) (n : time.Time) (resourceRids rids : list string) :
    M (list string) :=
  match resourceRids with
  | [] => ret rids
  | rid :: resourceRids' =>
      t ← get;
      match Monitor_Resources (state t) !! rid with
      | None => restartCandidates standby n resourceRids' rids
      | Some rmon =>
          if negb (alreadyScheduled t standby rid) then restartCandidates standby n resourceRids' rids
          else match Restart_ rmon with
               | None => panic
               | Some r =>
                   setResource rid (mkRestart (Remaining r) n);;
                   changed;;
                   setOr standby (fun o => o <| scheduled ::= fun s => s ∖ {[rid]} |>);;
                   restartCandidates standby n resourceRids' (rids ++ [rid])%list
               end
      end
  end.

Definition resourceRestart (resourceRids : list string) (standby : bool) : M unit :=
  n ← now;
  rids ← restartCandidates standby n resourceRids [];
  match rids with
  | [] => skip
  | _ =>
      doTransitionAction (if standby then crmResourceStartStandby rids else crmResourceStart rids)
        MonitorStateStartProgress MonitorStateIdle MonitorStateStartFailure
  end.

Definition initResourceMonitor : M unit :=
  t ← get;
  match ActorConfig_ (instConfig t) with
  | None => skip
  | Some cfg =>
      cancelResourceOrchestrateSchedules;;
      setOr false (fun o => o <| scheduled := ∅ |>);;
      setOr true (fun o => o <| scheduled := ∅ |>);;
      action ← getValidMonitorAction 0;
      modify (fun t => t <| initialMonitorAction := default MonitorActionNone action |>);;
      set (fun s => s <| Monitor_Resources :=
        omap (fun rcfg => if (0 <? Restart rcfg)%Z
                          then Some (mkResourceMonitor (Some (mkRestart (Restart rcfg) time.zero)))
                          else None) (Config_Resources cfg) |>);;
      changed
  end.

End restart.
