(* ===== verification/ImonOrchestrate.v ===== *)
(** * daemon/imon: the orchestrations

    One section per global expect (orchestration_*.go, orchestrate_deleted.go),
    the orchestration the daemon makes on its own when none is asked
    (orchestration_ha.go), and [orchestrate] (orchestration.go), which picks
    the one to run. *)

From S2P Require Import Prelude Status Naming Instance ImonState ImonPlacement ImonActions ImonRestart.
From stdpp Require Import pretty.

Open Scope string_scope.
Import instance.
Open Scope imon_scope.

Section orchestrate.
Context {env : Env}.

(** ** orchestration_started.go *)

Definition isLocalStarted (t : Manager) : bool :=
  status.Is (Avail (localStatus t)) [status.NotApplicable; status.Up].

Definition startedClearIfReached : M bool :=
  t ← get;
  if isLocalStarted t then
    when (negb (OrchestrationIsDone (state t))) doneAndIdle;;
    enableMonitor;;
    clearPending;;
    ret true
  else
    started ← isStarted;
    if started then
      when (negb (OrchestrationIsDone (state t))) doneAndIdle;;
      clearPending;;
      ret true
    else ret false.

Definition isStartLeader : M bool :=
  t ← get;
  if bool_decide (GlobalExpect (state t) = MonitorGlobalExpectStarted) then
    isStartCandidateLeader false
  else
    a ← actor;
    if String.eqb (object.Orchestrate a) "start" then
      ret (IsLeader (state t) && isHardAffinitySatisfied t (localhost t))
    else ret (IsHALeader (state t)).

(** A peer of a failover object is starting, or ready to. *)
Definition isPeerStarting : M bool :=
  a ← actor;
  if negb (bool_decide (object.Topology a = topology.Flex)) then
    isAnyPeerState [MonitorStateStartProgress; MonitorStateReady]
  else ret false.

Definition startedFromUnfrozen : M unit :=
  reached ← startedClearIfReached;
  if reached then skip else
  leader ← isStartLeader;
  if negb leader then skip else
  t ← get;
  if hasOtherNodeActing t then skip else
  if provisioned.IsOneOf (Provisioned (localStatus t)) [provisioned.PFalse; provisioned.Undef]
  then skip else
  peer ← isPeerStarting;
  if peer then skip else
  transitionTo MonitorStateReady;;
  t ← get;
  createPendingWithDuration (readyDuration t);;
  emit AfterReady.

Definition startedFromIdle : M unit :=
  t ← get;
  if bool_decide (GlobalExpect (state t) = MonitorGlobalExpectNone) &&
     (IsFrozen (localStatus t) || isStopped t ||
      negb (Nat.eqb (length (StoppedResources (localStatus t))) 0))
  then skip
  else startedFromUnfrozen.

Definition cancelReadyState : M bool :=
  t ← get;
  match pending t with
  | None => transitionTo MonitorStateIdle;; ret true
  | Some _ =>
      reached ← startedClearIfReached;
      if reached then ret true else
      leader ← isStartLeader;
      if negb leader then transitionTo MonitorStateIdle;; clearPending;; ret true else
      peer ← isPeerStarting;
      if peer then transitionTo MonitorStateIdle;; clearPending;; ret true else
      ret false
  end.

Definition unsetStonith : M unit :=
  modify (fun t => t <| peerDrop := "" |> <| peerDropAt := time.zero |>).

(** The stonith closure of startedFromReady. *)
Definition stonith : M bool :=
  t ← get;
  if String.eqb (peerDrop t) "" then ret true
  else if negb (bool_decide (GlobalExpect (state t) = MonitorGlobalExpectNone)) then ret true
  else
    let fenced := match nodeStonithAt (trace t) (peerDrop t) with
                  | Some at_ => negb (time.Before at_ (peerDropAt t))
                  | None => false
                  end in
    if fenced then unsetStonith;; ret true
    else
      emit (StonithAt (peerDrop t) (peerDropAt t));;
      ok ← crmStonith (peerDrop t);
      unsetStonith;;
      ret ok.

Definition stonithAndStart : M bool := stonith;; crmStart.

(** The select on the pending context: canceled with its parent, or expired. *)
Definition startedFromReady : M unit :=
  isCanceled ← cancelReadyState;
  if isCanceled then skip else
  waits ← setWaitParents;
  if waits then skip else
  t ← get;
  match pending t with
  | None => panic
  | Some deadline =>
      canceled ← gets (fun t => pendingCanceled (trace t));
      n ← now;
      if canceled then transitionTo MonitorStateIdle;; clearPending
      else if (deadline <=? n)%Z then
        queueAction stonithAndStart MonitorStateStartProgress MonitorStateStartSuccess
          MonitorStateStartFailure;;
        clearPending
      else skip
  end.

Definition startedFromAny : M unit :=
  t ← get;
  match pending t with
  | None => startedClearIfReached;; skip
  | Some _ => skip
  end.

Definition startedFromStartFailed : M unit :=
  started ← isStarted;
  if started then doneAndIdle
  else
    t ← get;
    if OrchestrationIsDone (state t) then skip
    else
      all ← isAllState [MonitorStateStartFailure];
      when all done.

Definition orchestrateStarted : M unit :=
  started ← isStarted;
  if started then startedClearIfReached;; skip
  else
    t ← get;
    match State (state t) with
    | MonitorStateIdle => startedFromIdle
    | MonitorStateUnfreezeSuccess => startedFromUnfrozen
    | MonitorStateReady => startedFromReady
    | MonitorStateStartSuccess => startedClearIfReached;; skip
    | MonitorStateStartFailure => startedFromStartFailed
    | MonitorStateStartProgress => startedFromAny
    | MonitorStateStopProgress => startedFromAny
    | MonitorStateWaitParents => setWaitParents;; skip
    | _ => skip
    end.

(** ** orchestration_frozen.go and orchestration_unfrozen.go *)

Definition frozenClearIfReached : M bool :=
  t ← get;
  if IsFrozen (localStatus t) then doneAndIdle;; clearPending;; ret true else ret false.

Definition frozenFromIdle : M unit :=
  reached ← frozenClearIfReached;
  if reached then skip
  else doTransitionAction freeze MonitorStateFreezeProgress MonitorStateIdle MonitorStateFreezeFailure.

Definition orchestrateFrozen : M unit :=
  t ← get;
  match State (state t) with
  | MonitorStateIdle | MonitorStateStartFailure | MonitorStateStopFailure | MonitorStatePurgeFailed
  | MonitorStateProvisionFailure | MonitorStateUnprovisionFailure | MonitorStateReady => frozenFromIdle
  | _ => skip
  end.

Definition unfrozenClearIfReached : M bool :=
  t ← get;
  if IsUnfrozen (localStatus t) then doneAndIdle;; clearPending;; ret true else ret false.

Definition UnfrozenFromIdle : M unit :=
  reached ← unfrozenClearIfReached;
  if reached then skip
  else doTransitionAction unfreeze MonitorStateUnfreezeProgress MonitorStateIdle
         MonitorStateUnfreezeFailure.

Definition orchestrateUnfrozen : M unit :=
  t ← get;
  match State (state t) with
  | MonitorStateIdle | MonitorStateStartFailure | MonitorStateStartSuccess | MonitorStateStopFailure
  | MonitorStateStopSuccess | MonitorStatePurgeFailed | MonitorStateProvisionFailure
  | MonitorStateProvisionSuccess | MonitorStateUnprovisionFailure | MonitorStateUnprovisionSuccess
  | MonitorStateReady => UnfrozenFromIdle
  | _ => skip
  end.

(** ** orchestration_placed.go and orchestration_placed_at.go *)

Definition skipPlacedStop : M unit :=
  changed;; set (fun s => s <| State := MonitorStateStopSuccess |>);; clearPending.

Definition skipPlacedStart : M unit :=
  changed;; set (fun s => s <| State := MonitorStateStartSuccess |>);; clearPending.

Definition donePlacedStop : M unit := doneAndIdle;; clearPending.

Definition doPlacedStart : M unit :=
  queueAction crmStart MonitorStateStartProgress MonitorStateStartSuccess MonitorStateStartFailure.

Definition placedStart : M unit :=
  waits ← orchestratePlacedAtSetWaitParents;
  if waits then skip else
  t ← get;
  if status.Is (Avail (localStatus t)) [status.Down; status.StandbyDown; status.StandbyUp]
  then doPlacedStart
  else if status.Is (Avail (localStatus t)) [status.Up; status.Warn] then skipPlacedStart
  else skip.

Definition doPlacedStop : M unit :=
  waits ← setWaitDestination;
  if waits then skip else
  waits ← setWaitSyncs;
  if waits then skip else
  createPendingWithDuration stopDuration;;
  disableMonitor;;
  t ← get;
  let queueStop action := queueAction action MonitorStateStopProgress MonitorStateStopSuccess
                            MonitorStateStopFailure in
  match getPlacedAtDestination t with
  | Some [dst] => queueStop (if getPlacedAtLive t then crmStopMoveTo dst else crmStopSyncTo [dst])
  | Some (_ :: _ as dst) =>
      if getPlacedAtLive t then transitionTo MonitorStateStopFailure else queueStop (crmStopSyncTo dst)
  | _ => if getPlacedAtLive t then transitionTo MonitorStateStopFailure else queueStop crmStop
  end.

Definition placedStop : M unit :=
  waits ← setWaitChildren;
  if waits then skip else
  t ← get;
  if status.Is (Avail (localStatus t)) [status.Down; status.StandbyDown; status.StandbyUp]
  then skipPlacedStop
  else if status.Is (Avail (localStatus t)) [status.Up; status.Warn] then doPlacedStop
  else skip.

Definition orchestratePlacedStopFromStopFailure : M unit :=
  t ← get;
  if status.Is (Avail (localStatus t)) [status.Down; status.StandbyDown] then skipPlacedStop
  else if bool_decide (Avail (localStatus t) = status.Up) then
    modify (fun t => t <| stopRefusedForSyncs := false |> <| idleAfterOrchestration := true |>);;
    done;;
    clearPending
  else
    resumeMonitorIfStopRefused;;
    done;;
    clearPending.

Definition orchestratePlacedFromStartFailed : M unit :=
  a ← actor;
  if bool_decide (object.Avail a = status.Up) then startedClearIfReached;; skip
  else done;; clearPending.

Definition isUpOnPeers (t : Manager) : bool :=
  existsb (fun kv => negb (String.eqb (fst kv) (localhost t)) &&
                     status.Is (Avail (snd kv)) [status.Up; status.Warn]) (map_to_list (instStatus t)).

Definition placedStartAfterMove : M unit :=
  waits ← orchestratePlacedAtSetWaitParents;
  if waits then skip else
  t ← get;
  if status.Is (Avail (localStatus t)) [status.Up] then skipPlacedStart else doPlacedStart.

Definition orchestrateFailoverPlacedStartFromIdle : M unit :=
  t ← get;
  if bool_decide (Avail (localStatus t) = status.Up) then transitionTo MonitorStateStartSuccess
  else match resyncBlockerPaths t with
       | [] => transitionTo MonitorStateStopSuccess
       | paths =>
           queueAction (crmPrepare paths) MonitorStatePrepareProgress MonitorStateStopSuccess
             MonitorStatePrepareFailure
       end.

Definition orchestrateFailoverPlacedStartFromStopped : M unit :=
  t ← get;
  match resyncBlockerPaths t with [] => skip | _ => scheduleEventRefresh end;;
  a ← actor;
  if status.Is (object.Avail a) [status.NotApplicable; status.Undef] then startedClearIfReached;; skip
  else if bool_decide (object.Avail a = status.Down) then placedStart
  else if status.Is (object.Avail a) [status.Warn; status.Up; status.StandbyUp] then
    peersDone ← orchestrationIsDoneOnPeers;
    if negb peersDone then skip else
    t ← get;
    if negb (isUpOnPeers t) then placedStartAfterMove else
    transitionTo MonitorStateIdle;;
    done;;
    clearPending
  else skip.

Definition orchestrateFailoverPlacedStart : M unit :=
  t ← get;
  match State (state t) with
  | MonitorStateIdle | MonitorStateUnfreezeSuccess => orchestrateFailoverPlacedStartFromIdle
  | MonitorStateStartSuccess => startedClearIfReached;; skip
  | MonitorStateStopSuccess => orchestrateFailoverPlacedStartFromStopped
  | MonitorStateStartFailure => orchestratePlacedFromStartFailed
  | MonitorStatePrepareFailure => done
  | MonitorStateWaitParents => orchestratePlacedAtSetWaitParents;; skip
  | _ => skip
  end.

Definition orchestrateFlexPlacedStart : M unit :=
  t ← get;
  match State (state t) with
  | MonitorStateIdle | MonitorStateUnfreezeSuccess => placedStart
  | MonitorStateStartSuccess => startedClearIfReached;; skip
  | MonitorStateStopSuccess => transitionTo MonitorStateIdle
  | MonitorStateStartFailure => orchestratePlacedFromStartFailed
  | MonitorStateWaitParents => orchestratePlacedAtSetWaitParents;; skip
  | _ => skip
  end.

(** orchestrateFailoverPlacedStop and orchestrateFlexPlacedStop have the same
    body. *)
Definition orchestrateFailoverPlacedStop : M unit :=
  t ← get;
  match State (state t) with
  | MonitorStateIdle | MonitorStateUnfreezeSuccess => placedStop
  | MonitorStateStartSuccess => when (isLocalStarted t) (transitionTo MonitorStateIdle)
  | MonitorStateStopFailure => orchestratePlacedStopFromStopFailure
  | MonitorStateStopSuccess => donePlacedStop
  | MonitorStateReady => transitionTo MonitorStateIdle
  | MonitorStateStartFailure => orchestratePlacedFromStartFailed
  | MonitorStateWaitChildren => setWaitChildren;; skip
  | MonitorStateWaitSyncs =>
      waits ← setWaitSyncs;
      if negb waits then placedStop else skip
  | MonitorStateWaitDestination => placedStop
  | _ => skip
  end.

Definition orchestrateFlexPlacedStop : M unit := orchestrateFailoverPlacedStop.

Definition orchestratePlacedStart : M unit :=
  a ← actor;
  match object.Topology a with
  | topology.Failover => orchestrateFailoverPlacedStart
  | topology.Flex => orchestrateFlexPlacedStart
  | topology.Invalid => skip
  end.

Definition orchestratePlacedStop : M unit :=
  disableMonitor;;
  a ← actor;
  match object.Topology a with
  | topology.Failover => orchestrateFailoverPlacedStop
  | topology.Flex => orchestrateFlexPlacedStop
  | topology.Invalid => skip
  end.

Definition orchestratePlaced : M unit :=
  leader ← isStartCandidateLeader false;
  if leader then orchestratePlacedStart else orchestratePlacedStop.

Definition orchestratePlacedAt : M unit :=
  t ← get;
  match getPlacedAtDestination t with
  | None => skip
  | Some dstNodes =>
      if Contains dstNodes (localhost t) then orchestratePlacedStart else orchestratePlacedStop
  end.
(** ** orchestration_provisioned.go *)

Definition provisionedFailureStates : list MonitorState :=
  [MonitorStateProvisionFailure; MonitorStateStartFailure].

(** The peers, in the order of a range, then the local node. *)
Definition leaders (t : Manager) : list string :=
  (List.filter (fun n => IsLeader (instMonitorOf t n)) (range t (instMonitor t)) ++
   if IsLeader (state t) then [localhost t] else [])%list.

Definition runningInstances (t : Manager) : list string :=
  List.filter (fun n => status.Is (Avail (instStatusOf t n)) [status.Up; status.Warn])
    (range t (instStatus t)).

(** sort.Strings, and the first. *)
Definition firstOf (l : list string) : string := default "" (head (stable_sort string_less l)).

Definition provisioningLeader : M string :=
  a ← actor;
  t ← get;
  match runningInstances t with
  | [] => ret (firstOf (leaders t))
  | running =>
      if bool_decide (object.Topology a = topology.Flex) then ret (firstOf (leaders t))
      else ret (firstOf running)
  end.

Definition isProvisioningLeader : M bool :=
  a ← actor;
  t ← get;
  if bool_decide (object.Topology a = topology.Flex) then ret (IsLeader (state t))
  else leader ← provisioningLeader; ret (String.eqb leader (localhost t)).

Definition waitedLeader (t : Manager) : string :=
  if negb (Z.eqb (snd (leaderWaited t)) (OrchestrationID (state t))) then ""
  else fst (leaderWaited t).

Definition isProvisionedOrNA (st : Status) : bool :=
  provisioned.IsOneOf (Provisioned st) [provisioned.PTrue; provisioned.NotApplicable].

Definition isOtherWaited (t : Manager) (leader : string) : bool :=
  let waited := waitedLeader t in
  negb (String.eqb waited "" || String.eqb waited leader || String.eqb waited (localhost t)).

Definition hasLeaderProvisioned : M bool :=
  leader ← provisioningLeader;
  t ← get;
  if match instStatus t !! leader with Some st => isProvisionedOrNA st | None => false end
  then ret true
  else if negb (isOtherWaited t leader) then ret false
  else match instMonitor t !! waitedLeader t with
       | None => ret false
       | Some mon =>
           if negb (OrchestrationIsDone mon) ||
              negb (Z.eqb (OrchestrationID mon) (OrchestrationID (state t))) then ret false
           else ret (isProvisionedOrNA (instStatusOf t (waitedLeader t)))
       end.

Definition hasLeaderProvisionedFailed : M bool :=
  leader ← provisioningLeader;
  t ← get;
  if IsOneOf (State (instMonitorOf t leader)) provisionedFailureStates then ret true
  else if negb (isOtherWaited t leader) then ret false
  else ret (match instMonitor t !! waitedLeader t with
            | None => false
            | Some mon => Z.eqb (OrchestrationID mon) (OrchestrationID (state t)) &&
                          IsOneOf (State mon) provisionedFailureStates
            end).

(** The reached closure of provisionedClearIfReached. *)
Definition provisionedReached (succeed : bool) : M bool :=
  t ← get;
  when (succeed && isStopped t) (unsetStopped;; skip);;
  (if succeed then doneAndIdle else done);;
  t ← get;
  when (succeed && isLocalStarted t) (enableMonitor;; skip);;
  updateIfChange;;
  ret true.

(** The success conditions of provisionedClearIfReached. *)
Definition provisionedSucceeds : M bool :=
  a ← actor;
  t ← get;
  if negb (isStartedActor a) && negb (status.Is (object.Avail a) [status.NotApplicable]) then ret false
  else if negb (isLocalStatusCurrent t) then ret false
  else if bool_decide (Provisioned (localStatus t) = provisioned.PTrue) then provisionedReached true
  else if bool_decide (Avail (localStatus t) = status.NotApplicable) then provisionedReached true
  else if bool_decide (Provisioned (localStatus t) = provisioned.NotApplicable) then
    leader ← isProvisioningLeader;
    if leader && status.Is (Avail (localStatus t)) [status.Up] then provisionedReached true
    else if negb leader && status.Is (Avail (localStatus t))
              [status.Down; status.StandbyUp; status.StandbyUpWithDown; status.StandbyUpWithUp]
    then provisionedReached true
    else ret false
  else ret false.

Definition provisionedClearIfReached : M bool :=
  t ← get;
  if IsOneOf (State (state t)) [MonitorStateStartFailure] && isLocalStarted t then provisionedSucceeds
  else
    all ← isAllState provisionedFailureStates;
    if all then provisionedReached false else
    leaderFailed ← hasLeaderProvisionedFailed;
    if leaderFailed then provisionedReached false else
    if IsOneOf (State (state t)) provisionedFailureStates then provisionedReached false
    else provisionedSucceeds.

Definition arePeersPreflighted (t : Manager) : bool :=
  forallb (fun kv =>
    String.eqb (fst kv) (localhost t) ||
    (OrchestrationIsDone (snd kv) && Z.eqb (OrchestrationID (snd kv)) (OrchestrationID (state t))) ||
    IsOneOf (State (snd kv))
      [MonitorStatePreflightSuccess; MonitorStateWaitLeader; MonitorStateStartProgress;
       MonitorStateStartSuccess; MonitorStateProvisionProgress; MonitorStateProvisionSuccess])
    (map_to_list (instMonitor t)).

Definition provisionedFromChecked : M unit :=
  t ← get;
  if negb (isLocalStatusCurrent t) then skip
  else
    leader ← isProvisioningLeader;
    if leader then
      if isProvisionedOrNA (localStatus t) then
        queueAction crmStart MonitorStateStartProgress MonitorStateStartSuccess MonitorStateStartFailure
      else
        queueAction crmProvisionLeader MonitorStateProvisionProgress MonitorStateProvisionSuccess
          MonitorStateProvisionFailure
    else
      waited ← provisioningLeader;
      modify (fun t => t <| leaderWaited := (waited, OrchestrationID (state t)) |>);;
      transitionTo MonitorStateWaitLeader.

Definition provisionedFromIdle : M unit :=
  waits ← setWaitParents;
  if waits then skip else
  t ← get;
  if negb (provisionedOptionsAdopt t) then
    queueAction crmProvisionPreflight MonitorStatePreflightProgress MonitorStatePreflightSuccess
      MonitorStateProvisionFailure
  else
    reached ← provisionedClearIfReached;
    if reached then skip else provisionedFromChecked.

Definition provisionedFromPreflighted : M unit :=
  reached ← provisionedClearIfReached;
  if reached then skip else
  t ← get;
  if existsb (fun kv => negb (String.eqb (fst kv) (localhost t)) &&
                        bool_decide (State (snd kv) = MonitorStateProvisionFailure))
       (map_to_list (instMonitor t))
  then transitionTo MonitorStateProvisionFailure
  else
    leader ← isProvisioningLeader;
    if leader && negb (arePeersPreflighted t) then skip else provisionedFromChecked.

Definition provisionedFromWaitLeader : M unit :=
  reached ← provisionedClearIfReached;
  if reached then transitionTo MonitorStateIdle else
  provisioned ← hasLeaderProvisioned;
  t ← get;
  if negb provisioned || negb (isLocalStatusCurrent t) then skip
  else if isProvisionedOrNA (localStatus t) then
    queueAction crmStartStandby MonitorStateStartProgress MonitorStateStartSuccess MonitorStateStartFailure
  else
    queueAction crmProvisionNonLeader MonitorStateProvisionProgress MonitorStateProvisionSuccess
      MonitorStateProvisionFailure.

Definition provisionedFromProvisioned : M unit :=
  t ← get;
  if IsFrozen (localStatus t) then
    doTransitionAction unfreeze MonitorStateUnfreezeProgress MonitorStateUnfreezeSuccess
      MonitorStateUnfreezeFailure
  else doneAndIdle.

Definition orchestrateProvisioned : M unit :=
  t ← get;
  match State (state t) with
  | MonitorStateIdle | MonitorStateStopFailure | MonitorStateUnfreezeSuccess
  | MonitorStateUnprovisionFailure => provisionedFromIdle
  | MonitorStateStartSuccess => provisionedFromProvisioned
  | MonitorStateProvisionSuccess => provisionedFromProvisioned
  | MonitorStatePreflightSuccess => provisionedFromPreflighted
  | MonitorStateWaitLeader => provisionedFromWaitLeader
  | MonitorStateProvisionFailure => provisionedClearIfReached;; skip
  | MonitorStateStartFailure => provisionedClearIfReached;; skip
  | MonitorStateWaitParents => setWaitParents;; skip
  | _ => skip
  end.

(** ** orchestration_unprovisioned.go *)

Definition isUnprovisionLeader : M bool := isProvisioningLeader.

Definition isUnprovisionLeaderNode (node : string) : M bool :=
  a ← actor;
  t ← get;
  if bool_decide (object.Topology a = topology.Flex) then
    ret (if String.eqb node (localhost t) then IsLeader (state t) else IsLeader (instMonitorOf t node))
  else leader ← provisioningLeader; ret (String.eqb node leader).

(** A loop over nodes, true at the first one that is no unprovision leader and
    satisfies [p]. *)
Fixpoint anyNonLeader (p : string -> bool) (nodes : list string) : M bool :=
  match nodes with
  | [] => ret false
  | n :: nodes' =>
      leader ← isUnprovisionLeaderNode n;
      if leader then anyNonLeader p nodes'
      else if p n then ret true
      else anyNonLeader p nodes'
  end.

Definition hasNonLeaderWithState (states : list MonitorState) : M bool :=
  t ← get;
  anyNonLeader (fun n => IsOneOf (State (instMonitorOf t n)) states) (range t (instMonitor t)).

Definition hasNonLeaderProvisioned : M bool :=
  t ← get;
  anyNonLeader (fun n => provisioned.IsOneOf (Provisioned (instStatusOf t n))
                           [provisioned.PTrue; provisioned.Mixed]) (range t (instStatus t)).

Definition unprovisionedReached (toIdle : bool) : M bool :=
  (if toIdle then doneAndIdle else done);;
  disableMonitor;;
  updateIfChange;;
  ret true.

Definition unprovisionedClearIfReached : M bool :=
  t ← get;
  if negb (isLocalStatusCurrent t) then ret false
  else if provisioned.IsOneOf (Provisioned (localStatus t)) [provisioned.PFalse; provisioned.NotApplicable]
  then unprovisionedReached true
  else if bool_decide (Avail (localStatus t) = status.NotApplicable) then unprovisionedReached true
  else
    all ← isAllState [MonitorStateUnprovisionFailure];
    if all then unprovisionedReached false else ret false.

Definition unprovisionedFromUnprovisionFailed : M unit :=
  reached ← unprovisionedClearIfReached;
  if reached then skip else
  t ← get;
  if OrchestrationIsDone (state t) then skip else done.

Definition queueUnprovision (action : M bool) (failure : MonitorState) : M unit :=
  queueAction action MonitorStateUnprovisionProgress MonitorStateUnprovisionSuccess failure.

Definition UnprovisionedFromIdle : M unit :=
  reached ← unprovisionedClearIfReached;
  if reached then skip else
  waits ← setWaitChildren;
  if waits then skip else
  t ← get;
  if negb (isLocalStatusCurrent t) then skip else
  leader ← isUnprovisionLeader;
  if leader then
    others ← hasNonLeaderProvisioned;
    if others then transitionTo MonitorStateWaitNonLeader
    else queueUnprovision crmUnprovisionLeader MonitorStateUnprovisionFailure
  else queueUnprovision crmUnprovisionNonLeader MonitorStateUnprovisionFailure.

Definition UnprovisionedFromWaitNonLeader : M unit :=
  reached ← unprovisionedClearIfReached;
  if reached then transitionTo MonitorStateIdle else
  leader ← isUnprovisionLeader;
  if negb leader then transitionTo MonitorStateIdle else
  failed ← hasNonLeaderWithState [MonitorStateUnprovisionFailure];
  if failed then transitionTo MonitorStateUnprovisionFailure else
  others ← hasNonLeaderProvisioned;
  t ← get;
  if others || negb (isLocalStatusCurrent t) then skip
  else queueUnprovision crmUnprovisionLeader MonitorStateUnprovisionFailure.

Definition orchestrateUnprovisioned : M unit :=
  disableMonitor;;
  t ← get;
  match State (state t) with
  | MonitorStateIdle | MonitorStateProvisionFailure | MonitorStateStartFailure => UnprovisionedFromIdle
  | MonitorStateWaitNonLeader => UnprovisionedFromWaitNonLeader
  | MonitorStateWaitChildren => setWaitChildren;; skip
  | MonitorStateUnprovisionSuccess => unprovisionedClearIfReached;; skip
  | MonitorStateUnprovisionFailure => unprovisionedFromUnprovisionFailed
  | _ => skip
  end.

(** ** orchestration_purged.go and orchestrate_deleted.go *)

Definition kindWithImmediatePurge : naming.Kinds := naming.NewKinds [naming.KindSvc; naming.KindVol].

Definition queueDelete (failure : MonitorState) : M unit :=
  queueAction crmDelete MonitorStateDeleteProgress MonitorStateDeleteSuccess failure.

Definition purgedFromWaitNonLeader : M unit :=
  leader ← isUnprovisionLeader;
  if negb leader then transitionTo MonitorStateIdle else
  others ← hasNonLeaderProvisioned;
  if others then skip else queueUnprovision crmUnprovisionLeader MonitorStatePurgeFailed.

Definition purgedFromIdleProvisioned : M unit :=
  leader ← isUnprovisionLeader;
  if leader then transitionTo MonitorStateWaitNonLeader;; purgedFromWaitNonLeader
  else queueUnprovision crmUnprovisionNonLeader MonitorStatePurgeFailed.

Definition purgedFromIdle : M unit :=
  t ← get;
  if negb (naming.Kinds_Has kindWithImmediatePurge (naming.Kind_ (path t)))
  then transitionTo MonitorStateUnprovisionSuccess
  else
    waits ← setWaitChildren;
    if waits then skip else
    t ← get;
    if negb (isLocalStatusCurrent t) then skip
    else if provisioned.IsOneOf (Provisioned (localStatus t))
              [provisioned.PTrue; provisioned.Mixed; provisioned.NotApplicable]
    then purgedFromIdleProvisioned
    else orchestrateAfterAction MonitorStateIdle MonitorStateUnprovisionSuccess.

Definition purgedFromDeleted : M unit :=
  modify (fun t => t <| endWithDeletion := true |>);; doneAndIdle.

Definition orchestratePurged : M unit :=
  t ← get;
  match State (state t) with
  | MonitorStateDeleteSuccess => purgedFromDeleted
  | MonitorStateIdle => purgedFromIdle
  | MonitorStateStopFailure => done
  | MonitorStateUnprovisionSuccess => queueDelete MonitorStatePurgeFailed
  | MonitorStateWaitNonLeader => purgedFromWaitNonLeader
  | MonitorStatePurgeFailed => done
  | MonitorStateWaitChildren => setWaitChildren;; skip
  | _ => skip
  end.

(** deletedFromIdle and deletedFromWaitChildren. *)
Definition deletedFromIdle : M unit :=
  waits ← setWaitChildren;
  if waits then skip else queueDelete MonitorStateDeleteFailure.

Definition orchestrateDeleted : M unit :=
  t ← get;
  match State (state t) with
  | MonitorStateIdle | MonitorStateBootFailed | MonitorStateFreezeFailure | MonitorStateProvisionFailure
  | MonitorStateStartFailure | MonitorStateStopFailure | MonitorStateUnfreezeFailure
  | MonitorStateUnprovisionFailure => deletedFromIdle
  | MonitorStateWaitChildren => deletedFromIdle
  | _ => skip
  end.

(** ** orchestration_resized.go *)

Definition ExitCodeResizeNoSuchStage : Z := 5.

(** strconv.Itoa of a stage number. *)
Definition Itoa (stage : Z) : string := pretty stage.

Definition hasConfigOf (t : Manager) (configUpdatedAt : time.Time) : bool :=
  if time.IsZero configUpdatedAt then true
  else
    let mtime := configModTime (trace t) in
    negb (time.IsZero mtime || time.Before mtime configUpdatedAt).

Definition hasResizeConfig (t : Manager) : bool :=
  match GlobalExpectOptions (state t) with OptionsResized at_ => hasConfigOf t at_ | _ => true end.

Definition hasAnyInstanceUp (t : Manager) : bool :=
  existsb (fun kv => status.Is (Avail (snd kv)) [status.Up]) (map_to_list (instStatus t)).

Definition hasReachedStage (stage : Z) (s : MonitorState) : bool :=
  match ResizeStage s with
  | Some peerStage => (stage <=? peerStage)%Z
  | None => IsOneOf s [MonitorStateResizeSuccess]
  end.

Definition hasAllPeersReachedStage (t : Manager) (stage : Z) : bool :=
  forallb (fun kv => hasReachedStage stage (State (snd kv))) (map_to_list (instMonitor t)).

Definition hasAnyPeerResizeFailed (t : Manager) : bool :=
  existsb (fun kv => IsOneOf (State (snd kv)) [MonitorStateResizeFailure]) (map_to_list (instMonitor t)).

Definition queueResizeStage (stage : Z) : M unit :=
  match NewMonitorStateResizeStage stage with
  | None => transitionTo MonitorStateResizeFailure
  | Some staged =>
      transitionTo MonitorStateResizeProgress;;
      r ← crmResizeStage (Itoa stage);
      let next := if negb (snd r) then MonitorStateResizeFailure
                  else if Z.eqb (fst r) ExitCodeResizeNoSuchStage then MonitorStateResizeSuccess
                  else staged in
      orchestrateAfterAction MonitorStateResizeProgress next
  end.

Definition resizedFromIdle : M unit :=
  t ← get;
  if negb (hasResizeConfig t) then skip
  else if provisioned.IsOneOf (Provisioned (localStatus t)) [provisioned.PFalse]
  then transitionTo MonitorStateResizeSuccess
  else if negb (hasAnyInstanceUp t) then transitionTo MonitorStateResizeFailure
  else queueResizeStage 0.

Definition resizedFromStage (stage : Z) : M unit :=
  t ← get;
  if hasAnyPeerResizeFailed t then transitionTo MonitorStateResizeFailure
  else if negb (hasAllPeersReachedStage t stage) then skip
  else queueResizeStage (stage + 1).

Definition resizedEnd : M unit :=
  t ← get;
  if OrchestrationIsDone (state t) then skip else done;; updateIfChange.

Definition orchestrateResized : M unit :=
  t ← get;
  match ResizeStage (State (state t)) with
  | Some stage => resizedFromStage stage
  | None =>
      match State (state t) with
      | MonitorStateIdle => resizedFromIdle
      | MonitorStateResizeSuccess => resizedEnd
      | MonitorStateResizeFailure => resizedEnd
      | _ => skip
      end
  end.

(** ** orchestration_capped.go *)

Definition hasCapConfig (t : Manager) : bool :=
  match GlobalExpectOptions (state t) with OptionsCapped at_ => hasConfigOf t at_ | _ => true end.

Definition hasCapTarget (t : Manager) : bool :=
  status.Is (Avail (localStatus t)) [status.Up; status.Warn; status.StandbyUp; status.StandbyUpWithUp].

Definition cappedFromIdle : M unit :=
  t ← get;
  if negb (hasCapConfig t) then skip
  else if negb (hasCapTarget t) then transitionTo MonitorStateCapSuccess
  else doAction crmPGUpdate MonitorStateCapProgress MonitorStateCapSuccess MonitorStateCapFailure.

Definition cappedEnd (succeed : bool) : M unit :=
  t ← get;
  if OrchestrationIsDone (state t) then skip
  else (if succeed then doneAndIdle else done);; updateIfChange.

Definition orchestrateCapped : M unit :=
  t ← get;
  match State (state t) with
  | MonitorStateIdle => cappedFromIdle
  | MonitorStateCapSuccess => cappedEnd true
  | MonitorStateCapFailure => cappedEnd false
  | _ => skip
  end.

(** ** orchestration_restarted.go *)

(** The candidates before the local node. *)
Fixpoint before (localhost : string) (candidates : list string) : list string :=
  match candidates with
  | [] => []
  | c :: candidates' => if String.eqb localhost c then [] else c :: before localhost candidates'
  end.

Definition getPriors : M (list string) :=
  t ← get;
  sorted ← sortCandidates (scopeNodes t);
  ret (before (localhost t) sorted).

Definition restartedOptionsForce (t : Manager) : bool :=
  match GlobalExpectOptions (state t) with OptionsRestarted force => force | _ => false end.

Definition restartPrepare : M unit :=
  l ← getPriors;
  modify (fun t => t <| priors := l |>);;
  set (fun s => s <| State := match l with [] => MonitorStateReady | _ => MonitorStateWaitPriors end |>);;
  changed.

Definition orchestrateRestartedOnIdle : M unit :=
  t ← get;
  match instStatus t !! localhost t with
  | None => restartPrepare
  | Some st =>
      if status.Is (Avail st) [status.Warn; status.Up] then restartPrepare
      else if status.Is (Avail st) [status.StandbyUp] then
        if negb (restartedOptionsForce t) then done else restartPrepare
      else done
  end.

Definition orchestrateRestartedOnReady : M unit :=
  t ← get;
  match instStatus t !! localhost t with
  | None => skip
  | Some st =>
      if status.Is (Avail st) [status.Warn; status.Up; status.StandbyUp] then
        enableMonitor;;
        createPendingWithDuration stopDuration;;
        if restartedOptionsForce t then
          queueAction crmShutdown MonitorStateShutdownProgress MonitorStateShutdownSuccess
            MonitorStateShutdownFailure
        else
          queueAction crmStop MonitorStateStopProgress MonitorStateStopSuccess MonitorStateStopFailure
      else doneAndIdle
  end.

(** The range is over the priors as they were when it began. *)
Fixpoint waitPriors (nodes : list string) : M bool :=
  match nodes with
  | [] => ret true
  | n :: nodes' =>
      t ← get;
      match instMonitor t !! n with
      | None =>
          modify (fun t => t <| priors ::= List.filter (fun x => negb (String.eqb x n)) |>);;
          waitPriors nodes'
      | Some mon =>
          if bool_decide (State mon = MonitorStateRestarted) || OrchestrationIsDone mon
          then waitPriors nodes' else ret false
      end
  end.

Definition orchestrateRestartedOnWaitPriors : M unit :=
  t ← get;
  ready ← waitPriors (priors t);
  when ready
    (set (fun s => s <| State := MonitorStateReady |>);;
     changed;;
     modify (fun t => t <| priors := [] |>)).

Definition isRestartedOrEnded (mon : Monitor) : bool :=
  OrchestrationIsDone mon ||
  IsOneOf (State mon) [MonitorStateRestarted; MonitorStateStartFailure; MonitorStateStopFailure].

Definition orchestrateRestartedOnRestarted : M unit :=
  t ← get;
  if negb (forallb (fun kv => isRestartedOrEnded (snd kv)) (map_to_list (instMonitor t))) then skip
  else enableMonitor;; doneAndIdle;; clearPending.

Definition orchestrateRestarted : M unit :=
  t ← get;
  match State (state t) with
  | MonitorStateIdle => orchestrateRestartedOnIdle
  | MonitorStateWaitPriors => orchestrateRestartedOnWaitPriors
  | MonitorStateReady => orchestrateRestartedOnReady
  | MonitorStateShutdownSuccess =>
      doTransitionAction crmStartStandby MonitorStateStartProgress MonitorStateRestarted
        MonitorStateStartFailure
  | MonitorStateStopSuccess =>
      doTransitionAction crmStart MonitorStateStartProgress MonitorStateRestarted MonitorStateStartFailure
  | MonitorStateRestarted => orchestrateRestartedOnRestarted
  | _ => skip
  end.

(** ** orchestration_ha.go *)

Definition objectAvail (t : Manager) : status.T :=
  match object.ActorStatus_ (objStatus t) with Some a => object.Avail a | None => status.Undef end.

Definition noPeerGlobalExpect (t : Manager) : bool :=
  forallb (fun kv => bool_decide (GlobalExpect (snd kv) = MonitorGlobalExpectNone))
    (map_to_list (instMonitor t)).

Definition clearStartFailed : M unit :=
  t ← get;
  if negb (bool_decide (State (state t) = MonitorStateStartFailure)) then skip else
  a ← actor;
  if negb (bool_decide (object.Avail a = status.Up)) then skip
  else if negb (noPeerGlobalExpect t) then skip
  else
    short ← (if bool_decide (object.Topology a = topology.Flex) then
               target ← flexTarget a;
               ret ((0 <? target)%Z && (object.UpInstancesCount a <? target)%Z)
             else ret false);
    if short then skip else transitionTo MonitorStateIdle.

(** The log message of the transition reads the avail of the object. *)
Definition clearBootFailed : M unit :=
  t ← get;
  if negb (bool_decide (State (state t) = MonitorStateBootFailed)) then skip
  else if negb (status.Is (Avail (localStatus t)) [status.Down; status.StandbyDown; status.NotApplicable])
  then skip
  else if negb (noPeerGlobalExpect t) then skip
  else a ← actor; transitionTo MonitorStateIdle.

(** stoppedFlagLoweredBy, as whether it names a reason. *)
Definition stoppedFlagLoweredBy (s : MonitorState) (local : Status) (isObjectStarted : bool) : bool :=
  if IsDoing s then false
  else if negb (time.After (UpdatedAt local) (StoppedAt local)) then false
  else if status.Is (Avail local) [status.Up] then true
  else isObjectStarted.

Definition clearStoppedFlagWhenUp : M unit :=
  t ← get;
  if negb (isStopped t) then skip
  else
    let started := match object.ActorStatus_ (objStatus t) with
                   | Some a => isStartedActor a
                   | None => false
                   end in
    when (stoppedFlagLoweredBy (State (state t)) (localStatus t) started) (unsetStopped;; skip).

(** The end of orchestrateHAStart, past its switch on the state. *)
Definition startIfStartable : M unit :=
  startable ← isStartable;
  t ← get;
  if negb startable then
    match pending t with
    | Some _ => when (bool_decide (State (state t) = MonitorStateReady))
                  (clearPending;; transitionTo MonitorStateIdle)
    | None => skip
    end
  else if isLocalStarted t then skip
  else if status.Is (Avail (localStatus t)) [status.Warn] then skip
  else orchestrateStarted.

Definition orchestrateHAStart : M unit :=
  t ← get;
  match State (state t) with
  | MonitorStateReady => cancelReadyState;; startIfStartable
  | MonitorStateStartSuccess =>
      when (isLocalStarted t) (enableMonitor;; transitionTo MonitorStateIdle)
  | MonitorStateStopSuccess => disableMonitor;; transitionTo MonitorStateIdle
  | _ => startIfStartable
  end.

Definition orchestrateHAStop : M unit :=
  a ← actor;
  t ← get;
  if negb (bool_decide (object.Topology a = topology.Flex)) then skip
  else if node.IsFrozen (nodeStatusOf t (localhost t)) then skip
  else
    target ← flexTarget a;
    if (object.UpInstancesCount a <=? target)%Z then skip
    else if IsHALeader (state t) then skip
    else
      ok ← isHAOrchestrateable;
      if negb ok then skip
      else if negb (bool_decide (object.Avail a = status.Up)) then skip
      else stop.

Definition bootStartWaitMax : time.Duration := (5 * time.Minute)%Z.

(** bootStartBusyPeer, as whether it names a peer. *)
Definition bootStartBusyPeer (t : Manager) : bool :=
  existsb (fun kv => negb (String.eqb (fst kv) (localhost t)) &&
     (IsDoing (State (snd kv)) || bool_decide (State (snd kv) = MonitorStateReady)))
    (map_to_list (instMonitor t)).

Definition closeBootStart : M unit :=
  modify (fun t => t <| isBootStartPending := false |> <| bootStartWaitSince := time.zero |>).

(** bootStartNoopReason reads the object status for the log message of the
    decision; of its effects, only the panic of a nil status is one. *)
Definition bootStartNoopReason : M unit :=
  t ← get;
  if IsFrozen (localStatus t) || isStopped t ||
     negb (Nat.eqb (length (StoppedResources (localStatus t))) 0) ||
     negb (IsLeader (state t)) || negb (isHardAffinitySatisfied t (localhost t)) ||
     provisioned.IsOneOf (Provisioned (localStatus t)) [provisioned.PFalse; provisioned.Undef] ||
     status.Is (Avail (localStatus t)) [status.Warn]
  then skip
  else isHAOrchestrateable;; skip.

(** The wait of the boot start decision, bounded. *)
Definition bootStartWait : M unit :=
  t ← get;
  if time.IsZero (bootStartWaitSince t) then
    n ← now; modify (fun t => t <| bootStartWaitSince := n |>)
  else
    d ← Since (bootStartWaitSince t);
    when (bootStartWaitMax <? d)%Z closeBootStart.

Definition bootStartFromIdle : M unit :=
  t ← get;
  if negb (hasInstanceMonitorAndStatusOnPeers t) then skip
  else if bootStartBusyPeer t then bootStartWait
  else
    a ← actor;
    if String.eqb (object.Orchestrate a) "start" && IsLeader (state t) &&
       negb (isHardAffinitySatisfied t (localhost t))
    then bootStartWait
    else
      d ← Since (bootStartWaitSince t);
      if negb (time.IsZero (bootStartWaitSince t)) && (bootStartWaitMax <? d)%Z then closeBootStart
      else
        orchestrateHAStart;;
        t ← get;
        if negb (bool_decide (State (state t) = MonitorStateIdle)) then skip
        else
          started ← isStarted;
          if started then closeBootStart else bootStartNoopReason;; closeBootStart.

Definition orchestrateBootStart : M unit :=
  t ← get;
  if negb (isBootStartPending t) then skip
  else if node.IsFrozen (nodeStatusOf t (localhost t)) then closeBootStart
  else match State (state t) with
       | MonitorStateIdle => bootStartFromIdle
       | MonitorStateReady | MonitorStateStartProgress | MonitorStateStartSuccess
       | MonitorStateStopSuccess => orchestrateHAStart
       | MonitorStateStartFailure => closeBootStart
       | _ => closeBootStart
       end.

Definition orchestrateNone : M unit :=
  clearStartFailed;;
  clearBootFailed;;
  clearStoppedFlagWhenUp;;
  t ← get;
  match object.ActorStatus_ (objStatus t) with
  | None => skip
  | Some a =>
      if String.eqb (object.Orchestrate a) "ha" then orchestrateHAStart;; orchestrateHAStop
      else if String.eqb (object.Orchestrate a) "start" then orchestrateBootStart
      else skip
  end.

(** ** orchestration_local_expect_shutdown.go *)

Definition isLocalShutdown (t : Manager) : bool :=
  status.Is (Avail (localStatus t)) [status.Down; status.StandbyDown].

Definition doShutdown : M unit :=
  t ← get;
  if isLocalShutdown t then transitionTo MonitorStateShutdownSuccess else
  waits ← setWaitChildren;
  if waits then skip else
  queueAction crmShutdown MonitorStateShutdownProgress MonitorStateShutdownSuccess
    MonitorStateShutdownFailure.

Definition orchestrateLocalExpectShutdown : M unit :=
  t ← get;
  match State (state t) with
  | MonitorStateIdle => doShutdown
  | MonitorStateWaitChildren => setWaitChildren;; skip
  | _ => skip
  end.

(** ** converge_global_expect.go *)

Definition missingMonitors (t : Manager) : list string :=
  List.filter (fun n => negb (String.eqb n (localhost t)) &&
                        match instMonitor t !! n with Some _ => false | None => true end) (scopeNodes t).

(** The file of the configuration is more recent than the one the monitor has. *)
Definition isConfigStale (t : Manager) : bool :=
  let m := configModTime (trace t) in
  time.IsZero m || time.After m (Config_UpdatedAt (instConfig t)).

Definition isConvergedGlobalExpect : M bool :=
  t ← get;
  match instMonitor t !! localhost t with
  | Some _ => panic
  | None =>
  if existsb (fun kv => time.After (GlobalExpectUpdatedAt (state t)) (GlobalExpectUpdatedAt (snd kv)))
       (map_to_list (instMonitor t))
  then ret false
  else
    let waits := match GlobalExpect (state t) with
                 | MonitorGlobalExpectPurged | MonitorGlobalExpectDeleted => false
                 | _ => existsb (fun n => match nodeMonitor t !! n with Some _ => true | None => false end)
                          (missingMonitors t)
                 end in
    if waits then ret false
    else match GlobalExpect (state t) with
         | MonitorGlobalExpectNone | MonitorGlobalExpectInit => ret true
         | _ =>
             if (time.Sub (GlobalExpectUpdatedAt (state t)) (Config_UpdatedAt (instConfig t)) <? time.Second)%Z
             then ret (negb (isConfigStale t))
             else ret true
         end
  end.

(** ** orchestration.go *)

Definition orchestrateAborted : M unit :=
  publishOrchestrationAborted;;
  changed;;
  set (fun s => s <| GlobalExpectOptions := NoOptions |> <| OrchestrationIsDone := true |>);;
  updateIfChange.

Definition orchestrateGlobalExpect (g : MonitorGlobalExpect) : M unit :=
  match g with
  | MonitorGlobalExpectCapped => orchestrateCapped
  | MonitorGlobalExpectDeleted => orchestrateDeleted
  | MonitorGlobalExpectNone => orchestrateNone
  | MonitorGlobalExpectFrozen => orchestrateFrozen
  | MonitorGlobalExpectProvisioned => orchestrateProvisioned
  | MonitorGlobalExpectPlaced => orchestratePlaced
  | MonitorGlobalExpectPlacedAt => orchestratePlacedAt
  | MonitorGlobalExpectPurged => orchestratePurged
  | MonitorGlobalExpectResized => orchestrateResized
  | MonitorGlobalExpectRestarted => orchestrateRestarted
  | MonitorGlobalExpectStarted => orchestrateStarted
  | MonitorGlobalExpectStopped => orchestrateStopped
  | MonitorGlobalExpectUnfrozen => orchestrateUnfrozen
  | MonitorGlobalExpectUnprovisioned => orchestrateUnprovisioned
  | _ => skip
  end.

(** The tail of orchestrate, on an idle node with no status evaluation queued. *)
Definition orchestrateIdleNode : M unit :=
  clearStoppedFlagOnRequest;;
  orchestrateResourceRestart;;
  done ← isDone;
  if done then skip else
  t ← get;
  orchestrateGlobalExpect (GlobalExpect (state t));;
  updateIfChange.

Definition orchestrate : M unit :=
  done ← isDone;
  if done then skip else
  t ← get;
  match instStatus t !! localhost t, nodeStatus t !! localhost t with
  | Some _, Some _ =>
      converged ← isConvergedGlobalExpect;
      if negb converged then skip else
      when (bool_decide (GlobalExpect (state t) = MonitorGlobalExpectAborted)) orchestrateAborted;;
      t ← get;
      if negb (Z.eqb (OrchestrationID (state t)) 0) && OrchestrationIsDone (state t) &&
         negb (statusQueued t)
      then
        all ← orchestrationIsDoneOnAll;
        when all endOrchestration
      else
        done ← isDone;
        if done then skip else
        match node.State (nodeMonitorOf t (localhost t)) with
        | node.MonitorStateIdle =>
            if statusQueued t then skip else orchestrateIdleNode
        | node.MonitorStateShutdownProgress =>
            when (bool_decide (LocalExpect (state t) = MonitorLocalExpectShutdown))
              orchestrateLocalExpectShutdown
        | _ => skip
        end
  | _, _ => skip
  end.

(** ** The callers of orchestrate: main_cmd.go *)

Definition needOrchestrate (s newState : MonitorState) : M unit :=
  if bool_decide (s = MonitorStateInit) then skip else
  done ← isDone;
  if done then skip else
  t ← get;
  when (bool_decide (State (state t) = s))
    (changed;; set (fun m => m <| State := newState |>);; updateIfChange);;
  done ← isDone;
  if done then skip else orchestrate.

Definition onDelayTimer : M unit :=
  modify (fun t => t <| delayTimerEnabled := false |>);;
  t ← get;
  when (delayPreUpdateEnabled t)
    (modify (fun t => t <| delayPreUpdateEnabled := false |>);; updateIfChange);;
  t ← get;
  when (delayOrchestrateEnabled t)
    (modify (fun t => t <| delayOrchestrateEnabled := false |>);; orchestrate);;
  t ← get;
  when (delayUpdateEnabled t)
    (modify (fun t => t <| delayUpdateEnabled := false |>);; updateIfChange).

Definition onNodeConfigUpdated (readyPeriod : time.Duration) : M unit :=
  modify (fun t => t <| readyDuration := readyPeriod |>);;
  orchestrate;;
  updateIfChange.

End orchestrate.
