(* ===== verification/ImonEvents.v ===== *)
(** * daemon/imon: the handlers of the events and commands

    The requests (SetInstanceMonitor, ProgressInstanceMonitor), the changes of
    the peers (monitors, nodes, relations), the convergence of the global
    expect, the flags adopted after a blackout, the fencing of a lost peer
    (main_cmd.go, converge_global_expect.go, stonith.go). *)

From S2P Require Import Prelude Status Naming Instance ImonState ImonPlacement ImonActions ImonRestart.
From S2P Require Import ImonOrchestrate.

Open Scope string_scope.
Import instance.
Open Scope imon_scope.

Section events.
Context {env : Env}.

(** ** converge_global_expect.go *)

(** The global expects a peer may hand over. *)
Definition isAdoptable (mon : Monitor) : bool :=
  match GlobalExpect mon with
  | MonitorGlobalExpectInit | MonitorGlobalExpectUnknown => false
  | _ => true
  end.

(** The loop: the first node, in the order of the range, with the most recent
    global expect. *)
Definition mostRecentStep (m : gmap string Monitor) (best : option string * time.Time) (n : string) :
    option string * time.Time :=
  match m !! n with
  | None => best
  | Some mon =>
      if isAdoptable mon && time.Before (snd best) (GlobalExpectUpdatedAt mon)
      then (Some n, GlobalExpectUpdatedAt mon) else best
  end.

Definition mostRecent (m : gmap string Monitor) (nodes : list string) : option string * time.Time :=
  foldl (mostRecentStep m) (None, time.zero) nodes.

Definition convergeGlobalExpectFromRemote : M unit :=
  t ← get;
  match mostRecent (instMonitor t) (range t (instMonitor t)) with
  | (None, _) => skip
  | (Some n, updated) =>
      if time.IsZero updated then skip
      else if time.After updated (GlobalExpectUpdatedAt (state t)) then
        let mon := instMonitorOf t n in
        changed;;
        set (fun s => s <| GlobalExpect := GlobalExpect mon |>
                        <| GlobalExpectUpdatedAt := GlobalExpectUpdatedAt mon |>
                        <| GlobalExpectOptions := GlobalExpectOptions mon |>
                        <| OrchestrationID := OrchestrationID mon |>
                        <| State := MonitorStateIdle |>
                        <| OrchestrationIsDone := false |>);;
        when (bool_decide (GlobalExpect mon = MonitorGlobalExpectAborted)) savePendingOrchestration
      else skip
  end.

(** ** The monitors of the peers *)

Definition onRemoteInstanceMonitorUpdated (remote : string) (instMon : Monitor) : M unit :=
  modify (fun t => t <| instMonitor ::= <[remote := instMon]> |>);;
  convergeGlobalExpectFromRemote;;
  updateOrchestrateUpdate;;
  replayDeferredEventRefresh.

Definition onInstanceMonitorUpdated (n : string) (value : Monitor) : M unit :=
  t ← get;
  if String.eqb n (localhost t) then skip else onRemoteInstanceMonitorUpdated n value.

Definition onInstanceMonitorDeletedFromNode (n : string) : M unit :=
  t ← get;
  if String.eqb n (localhost t) then skip
  else
    modify (fun t => t <| instMonitor ::= delete n |>);;
    convergeGlobalExpectFromRemote;;
    updateOrchestrateUpdate;;
    replayDeferredEventRefresh.

(** ** The nodes *)

Definition onNodeMonitorUpdated (n : string) (value : node.Monitor) : M unit :=
  modify (fun t => t <| nodeMonitor ::= <[n := value]> |>);; onChange.

Definition onNodeStatusUpdated (n : string) (value : node.Status) : M unit :=
  modify (fun t => t <| nodeStatus ::= <[n := value]> |>);; onChange.

Definition onNodeStatsUpdated (n : string) (value : node.Stats) : M unit :=
  modify (fun t => t <| nodeStats ::= <[n := value]> |>);;
  t ← get;
  match object.ActorStatus_ (objStatus t) with
  | Some a => when (bool_decide (object.PlacementPolicy a = placement.Score)) onChange
  | None => skip
  end.

Definition onForgetPeer (n : string) : M unit :=
  modify (fun t => t <| nodeMonitor ::= delete n |> <| nodeStats ::= delete n |>
                     <| nodeStatus ::= delete n |>);;
  onChange.

(** ** stonith.go *)

Definition setStonith (peer : string) (at_ : time.Time) : M unit :=
  t ← get;
  if String.eqb peer "" || time.IsZero at_ then skip
  else match ActorConfig_ (instConfig t) with
       | None => skip
       | Some cfg =>
           if negb (Stonith cfg) then skip
           else if negb (bool_decide (Topology cfg = topology.Failover)) then skip
           else match instStatus t !! peer with
                | None => skip
                | Some st =>
                    if negb (bool_decide (Avail st = status.Up)) then skip
                    else modify (fun t => t <| peerDrop := peer |> <| peerDropAt := at_ |>)
                end
       end.

Definition clearStonith (avail : status.T) : M unit :=
  t ← get;
  if String.eqb (peerDrop t) "" && time.IsZero (peerDropAt t) then skip
  else if negb (bool_decide (avail = status.Up)) then skip
  else unsetStonith.

Definition onMyInstanceStatusDeleted (n : string) (peerDropAt : time.Time) : M unit :=
  t ← get;
  match instStatus t !! n with
  | None => skip
  | Some _ =>
      setStonith n peerDropAt;;
      modify (fun t => t <| instStatus ::= delete n |>)
  end.

(** ** Flags raised on a peer while the daemon was down: main_cmd.go *)

(** objectFreezeMissed, as the first peer a range finds. *)
Definition isFreezeMissed (st : Status) (leftAt rejoinedAt : time.Time) : bool :=
  String.eqb (FrozenScope st) ScopeObject &&
  time.After (FrozenAt st) leftAt && time.Before (FrozenAt st) rejoinedAt.

Definition objectFreezeMissed (m : gmap string Status) (localhost : string) (leftAt rejoinedAt : time.Time) : bool :=
  existsb (fun kv => negb (String.eqb (fst kv) localhost) && isFreezeMissed (snd kv) leftAt rejoinedAt)
    (map_to_list m).

Definition peerFrozenMerged : M unit := modify (fun t => t <| isPeerFrozenMerged := true |>).
Definition peerStoppedMerged : M unit := modify (fun t => t <| isPeerStoppedMerged := true |>).

Definition mergeGrace : time.Duration := (2 * time.Minute)%Z.

Definition mergePeerFrozen : M unit :=
  t ← get;
  if isPeerFrozenMerged t then skip
  else match ActorConfig_ (instConfig t) with
  | None => peerFrozenMerged
  | Some cfg =>
      let rejoinedAt := node.RejoinedAt (nodeStatusOf t (localhost t)) in
      let leftAt := node.LeftAt (nodeStatusOf t (localhost t)) in
      if negb (String.eqb (Orchestrate cfg) "ha") then peerFrozenMerged
      else if Nat.ltb (length (scopeNodes t)) 2 then peerFrozenMerged
      else if bool_decide (GlobalExpect (state t) = MonitorGlobalExpectUnfrozen) then peerFrozenMerged
      else if time.IsZero rejoinedAt then skip
      else match instStatus t !! localhost t with
      | None => skip
      | Some st =>
          if negb (time.IsZero (FrozenAt st)) then peerFrozenMerged
          else if objectFreezeMissed (instStatus t) (localhost t) leftAt rejoinedAt then
            peerFrozenMerged;; crmFreeze;; skip
          else if Nat.eqb (size (instStatus t)) (length (scopeNodes t)) then peerFrozenMerged
          else
            n ← now;
            when (time.After n (time.Add rejoinedAt mergeGrace)) peerFrozenMerged
      end
  end.

Definition isStopMissed (st : Status) (leftAt rejoinedAt : time.Time) : bool :=
  time.After (StoppedAt st) leftAt && time.Before (StoppedAt st) rejoinedAt.

Definition isWantedUp (g : MonitorGlobalExpect) : bool :=
  match g with
  | MonitorGlobalExpectStarted | MonitorGlobalExpectRestarted | MonitorGlobalExpectPlaced
  | MonitorGlobalExpectPlacedAt => true
  | _ => false
  end.

Definition mergePeerStopped : M unit :=
  t ← get;
  if isPeerStoppedMerged t then skip
  else match ActorConfig_ (instConfig t) with
  | None => peerStoppedMerged
  | Some cfg =>
      let rejoinedAt := node.RejoinedAt (nodeStatusOf t (localhost t)) in
      let leftAt := node.LeftAt (nodeStatusOf t (localhost t)) in
      if negb (one_of (Orchestrate cfg) ["ha"; "start"]) then peerStoppedMerged
      else if Nat.ltb (length (scopeNodes t)) 2 then peerStoppedMerged
      else if isWantedUp (GlobalExpect (state t)) then peerStoppedMerged
      else if status.Is (objectAvail t) [status.Up] then peerStoppedMerged
      else if time.IsZero rejoinedAt then skip
      else match instStatus t !! localhost t with
      | None => skip
      | Some _ =>
          if isStopped t then peerStoppedMerged
          else if existsb (fun kv => negb (String.eqb (fst kv) (localhost t)) &&
                                     isStopMissed (snd kv) leftAt rejoinedAt) (map_to_list (instStatus t))
          then peerStoppedMerged;; setStopped;; skip
          else if Nat.eqb (size (instStatus t)) (length (scopeNodes t)) then peerStoppedMerged
          else
            n ← now;
            when (time.After n (time.Add rejoinedAt mergeGrace)) peerStoppedMerged
      end
  end.

Definition onNodeRejoin : M unit := mergePeerFrozen;; mergePeerStopped.

(** ** The relations: parents and children *)

(** An update of the cached avail status of a relation, in the parents and in
    the children. *)
Definition relate (relation : string) (f : option status.T -> option status.T) : M unit :=
  set (fun s => s <| Children ::= partial_alter f relation |> <| Parents ::= partial_alter f relation |>).

Definition onRelationObjectStatusDeleted (p : naming.Path) : M unit :=
  t ← get;
  if decide (p = path t) then skip
  else
    let r := naming.Path_String p in
    let stale (v : option status.T) := match v with Some v => negb (bool_decide (v = status.Undef)) | None => false end in
    when (stale (Children (state t) !! r) || stale (Parents (state t) !! r))
      (relate r (fun v => match v with Some _ => Some status.Undef | None => None end);;
       changed;; onChange).

Definition onRelationObjectStatusUpdated (p : naming.Path) (avail : status.T) : M unit :=
  t ← get;
  if decide (p = path t) then skip
  else
    let r := naming.Path_String p in
    let stale (v : option status.T) := match v with Some v => negb (bool_decide (v = avail)) | None => false end in
    when (stale (Children (state t) !! r) || stale (Parents (state t) !! r))
      (relate r (fun v => match v with Some _ => Some avail | None => None end);;
       changed;; onChange).

(** ** Requests: onProgressInstanceMonitor *)

Definition onProgressInstanceMonitor (newState : MonitorState) (sessionID : Z) (isPartial : bool) : M unit :=
  t ← get;
  if bool_decide (State (state t) = newState) then skip
  else
    changed;;
    set (fun s => s <| State := newState |>
                    <| SessionID := if bool_decide (newState = MonitorStateIdle) then 0%Z else sessionID |>);;
    match newState with
    | MonitorStateStopProgress | MonitorStateUnprovisionProgress | MonitorStateShutdownProgress =>
        when (bool_decide (LocalExpect (state t) = MonitorLocalExpectStarted) && negb isPartial)
          (disableMonitor;; skip)
    | _ => skip
    end;;
    onChange;;
    updateIfChange.

(** ** Requests: onSetInstanceMonitor

    A closure of the handler returns whether it accepts: [false] is its error. *)

Definition doState (value : MonitorUpdate) : M bool :=
  match Update_State value with
  | None => ret true
  | Some s =>
      if bool_decide (assoc (fun a b => bool_decide (a = b)) s MonitorStateToString = None) then ret false
      else if bool_decide (s = MonitorStateInit) then ret false
      else
        t ← get;
        when (negb (bool_decide (State (state t) = s)))
          (changed;; set (fun m => m <| State := s |>));;
        ret true
  end.

Definition globalExpectRefused (value : MonitorUpdate) : M bool :=
  emit (Pub (SetInstanceMonitorRefused value));; ret false.

(** The options of a switch with its destination chosen: [None] is a refusal. *)
Definition placedAtOptions (value : MonitorUpdate) : M (option Options) :=
  t ← get;
  let options := match Update_GlobalExpectOptions value with
                 | OptionsPlacedAt o => o
                 | _ => mkPlacedAt [] false false
                 end in
  let withDestination d := OptionsPlacedAt (mkPlacedAt d (Live options) (PlacedAt_InterruptSyncs options)) in
  let checkBlockers d := match unliftableBlockers t d with
                         | [] => Some (withDestination d)
                         | _ => None
                         end in
  match Destination options with
  | [] =>
      dst ← nextPlacedAtCandidate;
      ret (if String.eqb dst "" then None else checkBlockers [dst])
  | want =>
      if Live options && Nat.ltb 1 (length want) then ret None
      else ret (match nextPlacedAtCandidates t want with
                | None => None
                | Some can => if String.eqb can "" then None else checkBlockers [can]
                end)
  end.

(** A peer holds a more recent global expect, another than the requested one. *)
Definition hasMoreRecentExpect (t : Manager) (g : MonitorGlobalExpect) : bool :=
  existsb (fun kv =>
    negb (one_of (GlobalExpect (snd kv)) [g; MonitorGlobalExpectInit; MonitorGlobalExpectNone]) &&
    time.After (GlobalExpectUpdatedAt (snd kv)) (GlobalExpectUpdatedAt (state t)))
    (map_to_list (instMonitor t)).

(** The checks of the request, by global expect; the options to set when it is
    accepted. *)
Definition checkGlobalExpect (value : MonitorUpdate) (g : MonitorGlobalExpect) : M (option Options) :=
  match g with
  | MonitorGlobalExpectPlacedAt => placedAtOptions value
  | MonitorGlobalExpectStarted =>
      ok ← isRequestedStartable;
      ret (if ok then Some (Update_GlobalExpectOptions value) else None)
  | MonitorGlobalExpectPlaced =>
      t ← get;
      ret (if fst (hardAffinityRefusal t (provisionedInstances t accept_all)) then None
           else Some (Update_GlobalExpectOptions value))
  | _ => ret (Some (Update_GlobalExpectOptions value))
  end.

Definition doGlobalExpect (value : MonitorUpdate) : M bool :=
  match Update_GlobalExpect value with
  | None => ret true
  | Some g =>
      if bool_decide (assoc (fun a b => bool_decide (a = b)) g MonitorGlobalExpectStrings = None)
      then globalExpectRefused value
      else
        t ← get;
        if negb (Z.eqb (OrchestrationID (state t)) 0) && negb (bool_decide (g = MonitorGlobalExpectAborted))
        then ret false
        else
          accepted ← checkGlobalExpect value g;
          match accepted with
          | None => globalExpectRefused value
          | Some options =>
              if hasMoreRecentExpect t g then globalExpectRefused value
              else
                when (negb (bool_decide (g = GlobalExpect (state t))))
                  (when (bool_decide (g = MonitorGlobalExpectAborted)) savePendingOrchestration;;
                   changed;;
                   n ← now;
                   set (fun s => s <| GlobalExpect := g |>
                                   <| GlobalExpectOptions := options |>
                                   <| GlobalExpectUpdatedAt := n |>
                                   <| State := MonitorStateIdle |>
                                   <| OrchestrationIsDone := false |>));;
                ret true
          end
  end.

Definition doLocalExpect (value : MonitorUpdate) : M bool :=
  match Update_LocalExpect value with
  | None => ret true
  | Some target =>
      match target with
      | MonitorLocalExpectNone | MonitorLocalExpectEvicted | MonitorLocalExpectStarted
      | MonitorLocalExpectShutdown =>
          t ← get;
          when (negb (bool_decide (LocalExpect (state t) = target)))
            (setLocalExpect target;; changed);;
          ret true
      | _ => ret false
      end
  end.

Definition refuse (value : MonitorUpdate) : M unit :=
  emit (Pub (ObjectOrchestrationRefused (CandidateOrchestrationID value) (Update_GlobalExpect value))).

(** The new orchestration takes over the pending one. *)
Definition acceptOrchestration (value : MonitorUpdate) : M unit :=
  set (fun s => s <| OrchestrationID := CandidateOrchestrationID value |>);;
  t ← get;
  when (endWithDeletion t)
    (modify (fun t => t <| endWithDeletion := false |>);; publishOrchestrationEnded);;
  savePendingOrchestration;;
  publishOrchestrationAccepted;;
  setNextPendingOrchestration.

Definition onSetInstanceMonitor (value : MonitorUpdate) : M unit :=
  okState ← doState value;
  okGlobal ← doGlobalExpect value;
  okLocal ← doLocalExpect value;
  t ← get;
  (if negb (okState && okGlobal && okLocal) then refuse value
   else if negb (change t) then refuse value
   else when (negb (Z.eqb (CandidateOrchestrationID value) 0) &&
              negb (Z.eqb (OrchestrationID (state t)) (CandidateOrchestrationID value)))
          (acceptOrchestration value));;
  t ← get;
  when (change t) onChange.

End events.
