(* ===== verification/ImonLogic.v ===== *)
(** * daemon/imon: what the methods preserve

    The methods of the monitor are long, and most properties of them are
    invariants.  [Closed pn I L] is the interface between an invariant [I] and
    the methods: [I] survives the elementary steps (a field of the manager that
    is not an input, a field of the published monitor that is not the request,
    an effect that is not an action, or is one of [L]).  Each method is proved
    once, against the interface, to keep every invariant that implements it,
    given the actions it takes.  [pn] is [False] for the invariants strong
    enough to exclude the panics. *)

From S2P Require Import Prelude Status Naming Instance ImonState ImonPlacement ImonActions ImonRestart.
From S2P Require Import ImonOrchestrate.

Open Scope string_scope.
Import instance.
Open Scope imon_scope.

(** ** Actions: what an event does to the instance, or to the node *)

Inductive Act :=
| AStart | AStartStandby | AStop | AShutdown | AProvision | APreflight | AUnprovision | ADelete
| AFreeze | AUnfreeze | ASetStopped | AUnsetStopped | AResize | ACap | AFence | ACrash | AReboot
| APreMonitor | AOther.

#[global] Instance Act_eq_dec : EqDecision Act.
Proof. solve_decision. Defined.

(** The action of a command line. *)
Definition act_of_args (args : list string) : Act :=
  match args with
  | a :: b :: rest =>
      if String.eqb b "instance" then
        match rest with
        | v :: opts =>
            if String.eqb v "start" then AStart
            else if String.eqb v "startstandby" then AStartStandby
            else if String.eqb v "stop" then AStop
            else if String.eqb v "shutdown" then AShutdown
            else if String.eqb v "provision" then
              if one_of "--preflight" opts then APreflight else AProvision
            else if String.eqb v "unprovision" then AUnprovision
            else if String.eqb v "delete" then ADelete
            else if String.eqb v "freeze" then AFreeze
            else if String.eqb v "unfreeze" then AUnfreeze
            else if String.eqb v "resize" then AResize
            else if String.eqb v "pg" then ACap
            else AOther
        | [] => AOther
        end
      else if String.eqb a "node" && String.eqb b "stonith" then AFence
      else AOther
  | _ => AOther
  end.

(** [None] for the events that act on nothing: publications, timers, posts. *)
Definition act_of (e : Event) : option Act :=
  match e with
  | Exec _ _ args => Some (act_of_args args)
  | PreMonitorCommand _ => Some APreMonitor
  | Crash => Some ACrash
  | Reboot => Some AReboot
  | SetStoppedFlag => Some ASetStopped
  | UnsetStoppedFlag => Some AUnsetStopped
  | SetFrozenFlag => Some AFreeze
  | UnsetFrozenFlag => Some AUnfreeze
  | _ => None
  end.

Definition may (L : list Act) (a : Act) : Prop := one_of a L = true.

Definition allowed (L : list Act) (e : Event) : Prop :=
  match act_of e with
  | None => True
  | Some a => may L a
  end.

(** ** The elementary steps *)

(** The restart counts of the resources are there. *)
Definition restarts_ok (m : gmap string ResourceMonitor) : Prop :=
  map_Forall (fun _ r => is_Some (Restart_ r)) m.

(** [s'] is [s] with the same request. *)
Record same_request (s s' : Monitor) : Prop := {
  sr_expect : GlobalExpect s' = GlobalExpect s;
  sr_expect_at : GlobalExpectUpdatedAt s' = GlobalExpectUpdatedAt s;
  sr_options : GlobalExpectOptions s' = GlobalExpectOptions s;
  sr_id : OrchestrationID s' = OrchestrationID s;
  sr_parents : Parents s' = Parents s;
  sr_children : Children s' = Children s;
  sr_restarts : restarts_ok (Monitor_Resources s) -> restarts_ok (Monitor_Resources s') }.

(** [t'] is [t] but for fields that are the monitor's own. *)
Record same_inputs (t t' : Manager) : Prop := {
  si_state : state t' = state t;
  si_path : path t' = path t;
  si_localhost : localhost t' = localhost t;
  si_config : instConfig t' = instConfig t;
  si_monitors : instMonitor t' = instMonitor t;
  si_nodeMonitor : nodeMonitor t' = nodeMonitor t;
  si_nodeStatus : nodeStatus t' = nodeStatus t;
  si_scope : scopeNodes t' = scopeNodes t;
  si_obj : objStatus t' = objStatus t;
  si_trace : trace t' = trace t }.

(** An object status whose flex bounds are there when it is flex. *)
Definition actor_ok (a : object.ActorStatus) : Prop :=
  object.Topology a = topology.Flex -> is_Some (object.Flex a).

Class Closed (pn : Prop) (I : Manager -> Prop) (L : list Act) := {
  cl_fields : forall t t', same_inputs t t' -> I t -> I t';
  cl_state : forall f t, (forall s, same_request s (f s)) -> I t -> I (t <| state ::= f |>);
  cl_emit : forall e t, allowed L e -> I t -> I (t <| trace ::= cons e |>);
  cl_panic : pn \/ forall t, I t ->
    (exists a, object.ActorStatus_ (objStatus t) = Some a /\ actor_ok a) /\
    is_Some (ActorConfig_ (instConfig t)) /\
    instMonitor t !! localhost t = None /\
    restarts_ok (Monitor_Resources (state t)) }.

(** Closes a [same_inputs], [same_request] or [allowed] side condition. *)
Ltac elementary :=
  match goal with
  | |- same_inputs _ _ => split; reflexivity
  | |- same_request _ _ =>
      split; try reflexivity; try (intros ?; assumption);
      intros ?; cbn; repeat apply map_Forall_insert_2; try assumption; eauto
  | |- allowed _ _ => first [exact I | assumption | vm_compute; reflexivity]
  end.

Create HintDb keeps.

Section closed.
Context {env : Env} {pn : Prop} {I : Manager -> Prop} {L : list Act} {C : Closed pn I L}.

Lemma keeps_modify_fields f : (forall t, same_inputs t (f t)) -> keeps pn I (modify f) any.
Proof. intros Hf. apply keeps_modify. intros t. by apply cl_fields. Qed.

Lemma keeps_set f : (forall s, same_request s (f s)) -> keeps pn I (set f) any.
Proof. intros Hf. apply keeps_modify. intros t. by apply cl_state. Qed.

Lemma keeps_emit e : allowed L e -> keeps pn I (emit e) any.
Proof. intros He. apply keeps_modify. intros t. by apply cl_emit. Qed.

(** In the partial reading a panic is allowed, and nothing is known of the
    object status. *)
Definition actor_known (a : object.ActorStatus) : Prop := pn \/ actor_ok a.

Lemma keeps_actor : keeps pn I actor actor_known.
Proof.
  intros t Ht. unfold actor, wp, actor_known. destruct cl_panic as [Hp|Hp].
  - destruct (object.ActorStatus_ (objStatus t)); by auto.
  - destruct (Hp t Ht) as ((a & -> & Ha) & _). by auto.
Qed.

Lemma keeps_flexTarget a :
  actor_known a -> object.Topology a = topology.Flex -> keeps pn I (flexTarget a) any.
Proof.
  intros [Hp|Ha] Ht; unfold flexTarget.
  - destruct (object.Flex a); [by apply keeps_ret|]. by intros t _.
  - destruct (Ha Ht) as [f ->]. by apply keeps_ret.
Qed.

Lemma keeps_actorConfig : keeps pn I actorConfig any.
Proof.
  intros t Ht. unfold actorConfig, wp. destruct cl_panic as [Hp|Hp].
  - by destruct (ActorConfig_ (instConfig t)).
  - by destruct (Hp t Ht) as (_ & [c ->] & _).
Qed.

Lemma keeps_AllInstanceMonitors : keeps pn I AllInstanceMonitors any.
Proof.
  intros t Ht. unfold AllInstanceMonitors, wp, bind, get. destruct cl_panic as [Hp|Hp].
  - by destruct (instMonitor t !! localhost t).
  - by destruct (Hp t Ht) as (_ & _ & -> & _).
Qed.

Lemma keeps_ite {A} (b : bool) (m1 m2 : M A) :
  keeps pn I m1 any -> keeps pn I m2 any -> keeps pn I (if b then m1 else m2) any.
Proof. by destruct b. Qed.

(** A panic on a missing restart count. *)
Lemma keeps_missing_restart {A} t rid r (P : A -> Prop) :
  I t -> Monitor_Resources (state t) !! rid = Some r -> Restart_ r = None ->
  keeps pn I (@panic A) P.
Proof.
  intros Ht Hr Hn t0 _. destruct cl_panic as [Hp|Hp]; [done|].
  destruct (Hp t Ht) as (_ & _ & _ & Hok). destruct (Hok rid r Hr) as [? ?]. congruence.
Qed.

#[local] Hint Resolve keeps_actor keeps_actorConfig keeps_AllInstanceMonitors keeps_ite : keeps.

(** One step of the symbolic traversal of a method. *)
Ltac keeps_step :=
  lazymatch goal with
  | |- keeps _ _ (bind _ _) _ => eapply keeps_bind; [|intros ? ?]
  | |- keeps _ _ get _ => apply keeps_get
  | |- keeps _ _ actor _ => solve [eauto with keeps nocore]
  | |- keeps _ _ ?m ?P =>
      try (is_evar P; lazymatch type of P with ?A -> Prop => unify P (@any A) end);
      lazymatch m with
      | ret _ => apply keeps_ret; exact Logic.I
      | skip => apply keeps_skip
      | when _ _ => apply keeps_when
      | gets _ => apply keeps_gets; intros; exact Logic.I
      | (if ?b then _ else _) => destruct b eqn:?
      | match ?x with _ => _ end => destruct x eqn:?
      | (let x := _ in _) => cbv zeta
      | modify _ => apply keeps_modify_fields; intros; elementary
      | set _ => apply keeps_set; intros; elementary
      | emit _ => apply keeps_emit; elementary
      | _ => solve [eauto with keeps nocore]
      end
  end.


Ltac keeps_tac := cbv beta zeta; repeat (keeps_step; cbv beta zeta).

(** *** Placement *)

Lemma keeps_isStarted : keeps pn I isStarted any.
Proof. unfold isStarted. keeps_tac. Qed.

Lemma keeps_sortCandidates l : keeps pn I (sortCandidates l) any.
Proof. unfold sortCandidates. keeps_tac. Qed.

Lemma keeps_maxLeaders a : actor_known a -> keeps pn I (maxLeaders a) any.
Proof.
  intros Ha. unfold maxLeaders. case_decide; [by apply keeps_flexTarget|by apply keeps_ret].
Qed.

#[local] Hint Resolve keeps_isStarted keeps_sortCandidates keeps_maxLeaders : keeps.

Lemma keeps_isStartCandidateLeader b : keeps pn I (isStartCandidateLeader b) any.
Proof. unfold isStartCandidateLeader. keeps_tac. Qed.

Lemma keeps_newIsLeader : keeps pn I newIsLeader any.
Proof. unfold newIsLeader. keeps_tac. Qed.

#[local] Hint Resolve keeps_isStartCandidateLeader keeps_newIsLeader : keeps.

Lemma keeps_updateIsLeader : keeps pn I updateIsLeader any.
Proof. unfold updateIsLeader, newIsHALeader, changed. keeps_tac. Qed.

Lemma keeps_isHAOrchestrateable : keeps pn I isHAOrchestrateable any.
Proof. unfold isHAOrchestrateable. keeps_tac. Qed.

#[local] Hint Resolve keeps_updateIsLeader keeps_isHAOrchestrateable : keeps.

Lemma keeps_isStartable : keeps pn I isStartable any.
Proof. unfold isStartable. keeps_tac. Qed.

#[local] Hint Resolve keeps_isStartable : keeps.

(** *** Publication *)

Lemma keeps_Since x : keeps pn I (Since x) any.
Proof. unfold Since, now. keeps_tac. Qed.

Lemma keeps_scheduleEventRefresh : keeps pn I scheduleEventRefresh any.
Proof. unfold scheduleEventRefresh, now. keeps_tac. Qed.

#[local] Hint Resolve keeps_Since keeps_scheduleEventRefresh : keeps.

Lemma keeps_replayDeferredEventRefresh : keeps pn I replayDeferredEventRefresh any.
Proof. unfold replayDeferredEventRefresh. keeps_tac. Qed.

Lemma keeps_setLocalExpect e : keeps pn I (setLocalExpect e) any.
Proof. unfold setLocalExpect, changed. keeps_tac. Qed.

#[local] Hint Resolve keeps_replayDeferredEventRefresh keeps_setLocalExpect : keeps.

Lemma keeps_disableMonitor : keeps pn I disableMonitor any.
Proof. unfold disableMonitor. keeps_tac. Qed.

Lemma keeps_enableMonitor : keeps pn I enableMonitor any.
Proof. unfold enableMonitor. keeps_tac. Qed.

Lemma keeps_update : keeps pn I update any.
Proof. unfold update, isDone, now. keeps_tac. Qed.

#[local] Hint Resolve keeps_disableMonitor keeps_enableMonitor keeps_update : keeps.

Lemma keeps_updateIfChange : keeps pn I updateIfChange any.
Proof. unfold updateIfChange, isDone, now. keeps_tac. Qed.

#[local] Hint Resolve keeps_updateIfChange : keeps.

Lemma keeps_transitionTo s : keeps pn I (transitionTo s) any.
Proof. unfold transitionTo, changed. keeps_tac. Qed.

Lemma keeps_createPendingWithDuration d : keeps pn I (createPendingWithDuration d) any.
Proof. unfold createPendingWithDuration, now. keeps_tac. Qed.

Lemma keeps_clearPending : keeps pn I clearPending any.
Proof. unfold clearPending. keeps_tac. Qed.

Lemma keeps_isAllState l : keeps pn I (isAllState l) any.
Proof. unfold isAllState. keeps_tac. Qed.

Lemma keeps_isAnyPeerState l : keeps pn I (isAnyPeerState l) any.
Proof. unfold isAnyPeerState. keeps_tac. Qed.

Lemma keeps_orchestrationIsDoneOnAll : keeps pn I orchestrationIsDoneOnAll any.
Proof. unfold orchestrationIsDoneOnAll. keeps_tac. Qed.

Lemma keeps_orchestrationIsDoneOnPeers : keeps pn I orchestrationIsDoneOnPeers any.
Proof. unfold orchestrationIsDoneOnPeers. keeps_tac. Qed.

Lemma keeps_done : keeps pn I done any.
Proof. unfold done, changed. keeps_tac. Qed.

#[local] Hint Resolve keeps_transitionTo keeps_createPendingWithDuration keeps_clearPending
  keeps_isAllState keeps_isAnyPeerState keeps_orchestrationIsDoneOnAll
  keeps_orchestrationIsDoneOnPeers keeps_done : keeps.

Lemma keeps_doneAndIdle : keeps pn I doneAndIdle any.
Proof. unfold doneAndIdle, changed. keeps_tac. Qed.

Lemma keeps_publishOrchestrationEnded : keeps pn I publishOrchestrationEnded any.
Proof. unfold publishOrchestrationEnded. keeps_tac. Qed.

Lemma keeps_publishOrchestrationAborted : keeps pn I publishOrchestrationAborted any.
Proof. unfold publishOrchestrationAborted. keeps_tac. Qed.

Lemma keeps_setOrchestrationVerdict : keeps pn I setOrchestrationVerdict any.
Proof. unfold setOrchestrationVerdict. keeps_tac. Qed.

#[local] Hint Resolve keeps_doneAndIdle keeps_publishOrchestrationEnded
  keeps_publishOrchestrationAborted keeps_setOrchestrationVerdict : keeps.

Lemma keeps_clearStateSpokenToPeers : keeps pn I clearStateSpokenToPeers any.
Proof. unfold clearStateSpokenToPeers. keeps_tac. Qed.

Lemma keeps_resumeIdleAfterOrchestration : keeps pn I resumeIdleAfterOrchestration any.
Proof. unfold resumeIdleAfterOrchestration, changed. keeps_tac. Qed.

#[local] Hint Resolve keeps_clearStateSpokenToPeers keeps_resumeIdleAfterOrchestration : keeps.

(** *** Commands and flags *)

Lemma keeps_crmDefaultAction o title args :
  may L (act_of_args args) -> keeps pn I (crmDefaultAction o title args) any.
Proof. intros. unfold crmDefaultAction. keeps_tac. Qed.

#[local] Hint Resolve keeps_crmDefaultAction : keeps.

Lemma keeps_crmAction title args : may L (act_of_args args) -> keeps pn I (crmAction title args) any.
Proof. intros. unfold crmAction. keeps_tac. Qed.

Lemma keeps_crmMaintenanceAction title args :
  may L (act_of_args args) -> keeps pn I (crmMaintenanceAction title args) any.
Proof. intros. unfold crmMaintenanceAction. keeps_tac. Qed.

#[local] Hint Resolve keeps_crmAction keeps_crmMaintenanceAction : keeps.

(** The command lines of the instance actions are classified by their verb. *)
Lemma keeps_crmInstance title args a :
  (forall p, act_of_args (p :: "instance" :: args) = a) -> may L a ->
  keeps pn I (crmInstance title args) any.
Proof.
  intros Ha Hm. unfold crmInstance, instanceArgs. keeps_tac. apply keeps_crmAction. by rewrite Ha.
Qed.

Ltac command a := intros; apply (keeps_crmInstance _ _ a); [intros; reflexivity|assumption].

Lemma keeps_crmPGUpdate : may L ACap -> keeps pn I crmPGUpdate any.
Proof. unfold crmPGUpdate. command ACap. Qed.

Lemma keeps_crmFreeze : may L AFreeze -> keeps pn I crmFreeze any.
Proof. unfold crmFreeze. command AFreeze. Qed.

Lemma keeps_crmUnfreeze : may L AUnfreeze -> keeps pn I crmUnfreeze any.
Proof. unfold crmUnfreeze. command AUnfreeze. Qed.

Lemma keeps_crmShutdown : may L AShutdown -> keeps pn I crmShutdown any.
Proof. unfold crmShutdown. command AShutdown. Qed.

Lemma keeps_crmStart : may L AStart -> keeps pn I crmStart any.
Proof. unfold crmStart. command AStart. Qed.

Lemma keeps_crmStartStandby : may L AStartStandby -> keeps pn I crmStartStandby any.
Proof. unfold crmStartStandby. command AStartStandby. Qed.

Lemma keeps_crmProvisionNonLeader : may L AProvision -> keeps pn I crmProvisionNonLeader any.
Proof. unfold crmProvisionNonLeader. command AProvision. Qed.

Lemma keeps_crmProvisionPreflight : may L APreflight -> keeps pn I crmProvisionPreflight any.
Proof. unfold crmProvisionPreflight. command APreflight. Qed.

Lemma keeps_crmUnprovisionNonLeader : may L AUnprovision -> keeps pn I crmUnprovisionNonLeader any.
Proof. unfold crmUnprovisionNonLeader. command AUnprovision. Qed.

Lemma keeps_crmUnprovisionLeader : may L AUnprovision -> keeps pn I crmUnprovisionLeader any.
Proof. unfold crmUnprovisionLeader. command AUnprovision. Qed.

Lemma keeps_crmProvisionLeader : may L AProvision -> keeps pn I crmProvisionLeader any.
Proof.
  intros. unfold crmProvisionLeader. keeps_tac.
  destruct (provisionedOptionsAdopt _); command AProvision.
Qed.

Lemma keeps_crmDelete : may L ADelete -> keeps pn I crmDelete any.
Proof. intros. unfold crmDelete. keeps_tac; command ADelete. Qed.

Lemma keeps_crmStonith n : may L AFence -> keeps pn I (crmStonith n) any.
Proof. intros. unfold crmStonith. by apply keeps_crmAction. Qed.

Lemma keeps_crmStopWith extra : may L AStop -> keeps pn I (crmStopWith extra) any.
Proof. intros. unfold crmStopWith, stopArgs, instanceArgs. keeps_tac; by apply keeps_crmAction. Qed.

Lemma keeps_crmResourceStart rids : may L AStart -> keeps pn I (crmResourceStart rids) any.
Proof. intros. unfold crmResourceStart. keeps_tac; by apply keeps_crmMaintenanceAction. Qed.

Lemma keeps_crmResourceStartStandby rids :
  may L AStartStandby -> keeps pn I (crmResourceStartStandby rids) any.
Proof. intros. unfold crmResourceStartStandby. keeps_tac; by apply keeps_crmMaintenanceAction. Qed.

Lemma keeps_crmResizeStage stage : may L AResize -> keeps pn I (crmResizeStage stage) any.
Proof. intros. unfold crmResizeStage. keeps_tac; by apply keeps_crmDefaultAction. Qed.

Lemma keeps_crmPrepare paths : may L AStartStandby -> keeps pn I (crmPrepare paths) any.
Proof.
  intros Hm. induction paths as [|p paths IH]; simpl; [by apply keeps_ret|].
  eapply keeps_bind; [by apply keeps_crmAction|]. intros ok _. destruct ok; [done|by apply keeps_ret].
Qed.

#[local] Hint Resolve keeps_crmPGUpdate keeps_crmFreeze keeps_crmUnfreeze keeps_crmShutdown
  keeps_crmStart keeps_crmStartStandby keeps_crmProvisionNonLeader keeps_crmProvisionPreflight
  keeps_crmUnprovisionNonLeader keeps_crmUnprovisionLeader keeps_crmProvisionLeader
  keeps_crmDelete keeps_crmStonith keeps_crmStopWith keeps_crmResourceStart
  keeps_crmResourceStartStandby keeps_crmResizeStage keeps_crmPrepare : keeps.

Lemma keeps_crmStop : may L AStop -> keeps pn I crmStop any.
Proof. unfold crmStop. eauto with keeps nocore. Qed.

Lemma keeps_crmStopMoveTo dst : may L AStop -> keeps pn I (crmStopMoveTo dst) any.
Proof. unfold crmStopMoveTo. eauto with keeps nocore. Qed.

Lemma keeps_crmStopSyncTo dst : may L AStop -> keeps pn I (crmStopSyncTo dst) any.
Proof. unfold crmStopSyncTo. eauto with keeps nocore. Qed.

#[local] Hint Resolve keeps_crmStop keeps_crmStopMoveTo keeps_crmStopSyncTo : keeps.

Lemma keeps_setStopped : may L ASetStopped -> keeps pn I setStopped any.
Proof. intros. unfold setStopped, setLocalStatus. keeps_tac. Qed.

Lemma keeps_unsetStopped : may L AUnsetStopped -> keeps pn I unsetStopped any.
Proof. intros. unfold unsetStopped, setLocalStatus. keeps_tac. Qed.

Lemma keeps_freeze : may L AFreeze -> keeps pn I freeze any.
Proof. intros. unfold freeze, setLocalStatus. keeps_tac. Qed.

Lemma keeps_unfreeze : may L AUnfreeze -> keeps pn I unfreeze any.
Proof. intros. unfold unfreeze, setLocalStatus. keeps_tac. Qed.

#[local] Hint Resolve keeps_setStopped keeps_unsetStopped keeps_freeze keeps_unfreeze : keeps.

Lemma keeps_doAction action s1 s2 s3 :
  keeps pn I action any -> keeps pn I (doAction action s1 s2 s3) any.
Proof. intros. unfold doAction, orchestrateAfterAction. keeps_tac. Qed.

Lemma keeps_queueAction action s1 s2 s3 :
  keeps pn I action any -> keeps pn I (queueAction action s1 s2 s3) any.
Proof. apply keeps_doAction. Qed.

Lemma keeps_doTransitionAction action s1 s2 s3 :
  keeps pn I action any -> keeps pn I (doTransitionAction action s1 s2 s3) any.
Proof. intros. unfold doTransitionAction. keeps_tac. Qed.

#[local] Hint Resolve keeps_doAction keeps_queueAction keeps_doTransitionAction : keeps.

(** *** Waits *)

Lemma keeps_clearStoppedFlagOnRequest : may L AUnsetStopped -> keeps pn I clearStoppedFlagOnRequest any.
Proof. intros. unfold clearStoppedFlagOnRequest. keeps_tac. Qed.

Lemma keeps_setWaitParents : keeps pn I setWaitParents any.
Proof. unfold setWaitParents, changed. keeps_tac. Qed.

Lemma keeps_setWaitChildren : keeps pn I setWaitChildren any.
Proof. unfold setWaitChildren, changed. keeps_tac. Qed.

Lemma keeps_leaveWaitSyncs : keeps pn I leaveWaitSyncs any.
Proof. unfold leaveWaitSyncs. keeps_tac. Qed.

Lemma keeps_resumeMonitorIfStopRefused : keeps pn I resumeMonitorIfStopRefused any.
Proof. unfold resumeMonitorIfStopRefused. keeps_tac. Qed.

Lemma keeps_failWaitDestination : keeps pn I failWaitDestination any.
Proof. unfold failWaitDestination. keeps_tac. Qed.

#[local] Hint Resolve keeps_clearStoppedFlagOnRequest keeps_setWaitParents keeps_setWaitChildren
  keeps_leaveWaitSyncs keeps_resumeMonitorIfStopRefused keeps_failWaitDestination : keeps.

Lemma keeps_orchestratePlacedAtSetWaitParents : keeps pn I orchestratePlacedAtSetWaitParents any.
Proof. unfold orchestratePlacedAtSetWaitParents. keeps_tac. Qed.

Lemma keeps_setWaitSyncs : keeps pn I setWaitSyncs any.
Proof. unfold setWaitSyncs, now. keeps_tac. Qed.

Lemma keeps_setWaitDestination : keeps pn I setWaitDestination any.
Proof. unfold setWaitDestination, now. keeps_tac. Qed.

#[local] Hint Resolve keeps_orchestratePlacedAtSetWaitParents keeps_setWaitSyncs
  keeps_setWaitDestination : keeps.

(** *** Stops *)

Lemma keeps_stoppedClearIfReached : keeps pn I stoppedClearIfReached any.
Proof. unfold stoppedClearIfReached. keeps_tac. Qed.

#[local] Hint Resolve keeps_stoppedClearIfReached : keeps.

Lemma keeps_doStop : may L AStop -> keeps pn I doStop any.
Proof. intros. unfold doStop. keeps_tac. Qed.

#[local] Hint Resolve keeps_doStop : keeps.

Lemma keeps_doFreezeStop : may L AStop -> may L AFreeze -> keeps pn I doFreezeStop any.
Proof. intros. unfold doFreezeStop. keeps_tac. Qed.

Lemma keeps_doStopOnPurpose : may L AStop -> may L ASetStopped -> keeps pn I doStopOnPurpose any.
Proof. intros. unfold doStopOnPurpose. keeps_tac. Qed.

Lemma keeps_stoppedFromFailed : keeps pn I stoppedFromFailed any.
Proof. unfold stoppedFromFailed, changed. keeps_tac. Qed.

#[local] Hint Resolve keeps_doFreezeStop keeps_doStopOnPurpose keeps_stoppedFromFailed : keeps.

Lemma keeps_stoppedFromReady : keeps pn I stoppedFromReady any.
Proof. unfold stoppedFromReady. keeps_tac. Qed.

#[local] Hint Resolve keeps_stoppedFromReady : keeps.

Lemma keeps_stopOnPurpose : may L AStop -> may L ASetStopped -> keeps pn I stopOnPurpose any.
Proof. intros. unfold stopOnPurpose. keeps_tac. Qed.

Lemma keeps_stop : may L AStop -> keeps pn I stop any.
Proof. intros. unfold stop. keeps_tac. Qed.

#[local] Hint Resolve keeps_stopOnPurpose keeps_stop : keeps.

(** *** Resource restarts *)

Lemma keeps_setOr standby f : keeps pn I (setOr standby f) any.
Proof. unfold setOr. apply keeps_modify_fields. intros t. destruct standby; elementary. Qed.

#[local] Hint Resolve keeps_setOr : keeps.

Lemma keeps_cancelSchedule standby : keeps pn I (cancelSchedule standby) any.
Proof. unfold cancelSchedule. keeps_tac. Qed.

Lemma keeps_getValidMonitorAction n : keeps pn I (getValidMonitorAction n) any.
Proof. unfold getValidMonitorAction. keeps_tac. Qed.

Lemma keeps_doPreMonitorAction : may L APreMonitor -> keeps pn I doPreMonitorAction any.
Proof. intros. unfold doPreMonitorAction. keeps_tac. Qed.

Lemma keeps_setResource rid r : keeps pn I (setResource rid r) any.
Proof. unfold setResource. keeps_tac. Qed.

#[local] Hint Resolve keeps_cancelSchedule keeps_getValidMonitorAction keeps_doPreMonitorAction
  keeps_setResource : keeps.

Lemma keeps_cancelResourceOrchestrateSchedules : keeps pn I cancelResourceOrchestrateSchedules any.
Proof. unfold cancelResourceOrchestrateSchedules. keeps_tac. Qed.

Lemma keeps_dropScheduled standby rid : keeps pn I (dropScheduled standby rid) any.
Proof. unfold dropScheduled. keeps_tac. Qed.

Lemma keeps_dropAllScheduled standby : keeps pn I (dropAllScheduled standby) any.
Proof. unfold dropAllScheduled. keeps_tac. Qed.

Lemma keeps_resetRemaining rid rcfg : keeps pn I (resetRemaining rid rcfg) any.
Proof. unfold resetRemaining, changed. keeps_tac. Qed.

Lemma keeps_failoverRunsOnPeer : keeps pn I failoverRunsOnPeer any.
Proof. unfold failoverRunsOnPeer. keeps_tac. Qed.

Lemma keeps_doMonitorAction rid action : may L AStop -> may L AFreeze -> may L ACrash -> may L AReboot -> may L APreMonitor -> keeps pn I (doMonitorAction rid action) any.
Proof. intros. unfold doMonitorAction, now. keeps_tac. Qed.

#[local] Hint Resolve keeps_cancelResourceOrchestrateSchedules keeps_dropScheduled
  keeps_dropAllScheduled keeps_resetRemaining keeps_failoverRunsOnPeer keeps_doMonitorAction :
  keeps.

Lemma keeps_orchestrateResourcePlan rid rcfg rstat started : keeps pn I (orchestrateResourcePlan rid rcfg rstat started) any.
Proof. unfold orchestrateResourcePlan, changed. keeps_tac. Qed.

#[local] Hint Resolve keeps_orchestrateResourcePlan : keeps.

Lemma keeps_planResource started todo rid rstat : may L AStop -> may L AFreeze -> may L ACrash -> may L AReboot -> may L APreMonitor -> keeps pn I (planResource started todo rid rstat) any.
Proof. intros. unfold planResource. keeps_tac. Qed.

#[local] Hint Resolve keeps_planResource : keeps.

Lemma keeps_planResources started encap m rids todo :
  may L AStop -> may L AFreeze -> may L ACrash -> may L AReboot -> may L APreMonitor ->
  keeps pn I (planResources started encap m rids todo) any.
Proof.
  intros. revert todo. induction rids as [|rid rids IH]; intros todo; simpl; [by apply keeps_ret|].
  keeps_tac.
Qed.

#[local] Hint Resolve keeps_planResources : keeps.

Lemma keeps_planEncaps started m encaps todo :
  may L AStop -> may L AFreeze -> may L ACrash -> may L AReboot -> may L APreMonitor ->
  keeps pn I (planEncaps started m encaps todo) any.
Proof.
  intros. revert todo. induction encaps as [|e encaps IH]; intros todo; simpl; [by apply keeps_ret|].
  keeps_tac.
Qed.

Lemma keeps_scheduleResource standby rid : keeps pn I (scheduleResource standby rid) any.
Proof.
  unfold scheduleResource, changed. eapply keeps_bind; [apply keeps_get|]. intros t Ht.
  destruct (Monitor_Resources (state t) !! rid) as [rmon|] eqn:Hr; [|apply keeps_skip].
  unfold DecRestartRemaining. destruct (Restart_ rmon) as [r|] eqn:Hn; [keeps_tac|].
  by eapply keeps_missing_restart.
Qed.

#[local] Hint Resolve keeps_planEncaps keeps_scheduleResource : keeps.

Lemma getRidsAndDelay_some cfg t n todo rids d :
  restarts_ok (Monitor_Resources (state t)) -> is_Some (getRidsAndDelay cfg t n todo rids d).
Proof.
  intros Hok. revert rids d. induction todo as [|rid todo IH]; intros rids d; simpl; [done|].
  destruct (Config_Resources cfg !! rid) as [rcfg|]; [|done].
  destruct (Monitor_Resources (state t) !! rid) as [rmon|] eqn:Hr; [|done].
  destruct (Hok rid rmon Hr) as [r ->]. by destruct (RestartDelay rcfg).
Qed.

Lemma keeps_resourceRestartSchedule todo standby :
  keeps pn I (resourceRestartSchedule todo standby) any.
Proof.
  unfold resourceRestartSchedule, now. eapply keeps_bind; [apply keeps_actorConfig|]. intros cfg _.
  eapply keeps_bind; [apply keeps_get|]. intros t Ht.
  eapply keeps_bind; [by apply keeps_gets with (P := any)|]. intros n _.
  destruct (getRidsAndDelay _ _ _ _ _ _) as [[[|rid rids] d]|] eqn:E; [apply keeps_skip| |].
  - keeps_tac. apply keeps_for_each. eauto with keeps nocore.
  - intros t0 _. destruct cl_panic as [Hp|Hp]; [done|]. destruct (Hp t Ht) as (_ & _ & _ & Hok).
    destruct (getRidsAndDelay_some cfg t n (rangeOrder (trace t) (elements todo)) [] 0%Z Hok). congruence.
Qed.

#[local] Hint Resolve keeps_resourceRestartSchedule : keeps.

Lemma keeps_planRestarts : may L AStop -> may L AFreeze -> may L ACrash -> may L AReboot -> may L APreMonitor -> keeps pn I planRestarts any.
Proof. intros. unfold planRestarts, changed. keeps_tac. Qed.

#[local] Hint Resolve keeps_planRestarts : keeps.

Lemma keeps_orchestrateResourceRestart : may L AStop -> may L AFreeze -> may L ACrash -> may L AReboot -> may L APreMonitor -> keeps pn I orchestrateResourceRestart any.
Proof. intros. unfold orchestrateResourceRestart. keeps_tac. Qed.

#[local] Hint Resolve keeps_orchestrateResourceRestart : keeps.

Lemma keeps_restartCandidates standby n resourceRids rids :
  keeps pn I (restartCandidates standby n resourceRids rids) any.
Proof.
  revert rids. induction resourceRids as [|rid l IH]; intros rids; simpl; [by apply keeps_ret|].
  eapply keeps_bind; [apply keeps_get|]. intros t Ht.
  destruct (Monitor_Resources (state t) !! rid) as [rmon|] eqn:Hr; [|done].
  destruct (negb _); [done|]. unfold changed.
  destruct (Restart_ rmon) as [r|] eqn:Hn; [keeps_tac|]. by eapply keeps_missing_restart.
Qed.

#[local] Hint Resolve keeps_restartCandidates : keeps.

Lemma keeps_resourceRestart rids standby : may L AStart -> may L AStartStandby -> keeps pn I (resourceRestart rids standby) any.
Proof. intros. unfold resourceRestart, now. keeps_tac. Qed.

#[local] Hint Resolve keeps_resourceRestart : keeps.

(** *** Starts *)

Lemma keeps_startedClearIfReached : keeps pn I startedClearIfReached any.
Proof. unfold startedClearIfReached. keeps_tac. Qed.

Lemma keeps_isStartLeader : keeps pn I isStartLeader any.
Proof. unfold isStartLeader. keeps_tac. Qed.

Lemma keeps_isPeerStarting : keeps pn I isPeerStarting any.
Proof. unfold isPeerStarting. keeps_tac. Qed.

#[local] Hint Resolve keeps_startedClearIfReached keeps_isStartLeader keeps_isPeerStarting :
  keeps.

Lemma keeps_startedFromUnfrozen : keeps pn I startedFromUnfrozen any.
Proof. unfold startedFromUnfrozen. keeps_tac. Qed.

Lemma keeps_cancelReadyState : keeps pn I cancelReadyState any.
Proof. unfold cancelReadyState. keeps_tac. Qed.

Lemma keeps_unsetStonith : keeps pn I unsetStonith any.
Proof. unfold unsetStonith. keeps_tac. Qed.

#[local] Hint Resolve keeps_startedFromUnfrozen keeps_cancelReadyState keeps_unsetStonith :
  keeps.

Lemma keeps_startedFromIdle : keeps pn I startedFromIdle any.
Proof. unfold startedFromIdle. keeps_tac. Qed.

Lemma keeps_stonith : may L AFence -> keeps pn I stonith any.
Proof. intros. unfold stonith. keeps_tac. Qed.

#[local] Hint Resolve keeps_startedFromIdle keeps_stonith : keeps.

Lemma keeps_stonithAndStart : may L AStart -> may L AFence -> keeps pn I stonithAndStart any.
Proof. intros. unfold stonithAndStart. keeps_tac. Qed.

#[local] Hint Resolve keeps_stonithAndStart : keeps.

(** A method that changes nothing. *)
Definition reads {A} (m : M A) : Prop := forall t a t', m t = Some (a, t') -> t' = t.

Lemma reads_isPeerStarting : reads isPeerStarting.
Proof.
  unfold isPeerStarting, isAnyPeerState, AllInstanceMonitors, bind, actor, get, ret, panic.
  intros t a t' H. repeat (case_match; simplify_eq; try done).
Qed.

Lemma reads_isStartCandidateLeader b : reads (isStartCandidateLeader b).
Proof.
  unfold isStartCandidateLeader, sortCandidates, maxLeaders, flexTarget, bind, actor, get, gets, ret, panic.
  intros t a t' H. repeat (case_match; simplify_eq; try done).
Qed.

Lemma reads_isStartLeader : reads isStartLeader.
Proof.
  unfold isStartLeader, bind, get. intros t a t'. case_match; [apply reads_isStartCandidateLeader|].
  unfold actor, ret. repeat (case_match; simplify_eq; try done); naive_solver.
Qed.

Lemma startedClearIfReached_false t t' : startedClearIfReached t = Some (false, t') -> t' = t.
Proof.
  unfold startedClearIfReached, isStarted, actor, bind, get, ret.
  intros H. repeat (case_match; simplify_eq; try done).
Qed.

(** A ready state not cancelled still has its pending context. *)
Lemma cancelReadyState_pending t t' : cancelReadyState t = Some (false, t') -> t' = t /\ is_Some (pending t).
Proof.
  unfold cancelReadyState. unfold bind at 1, get at 1.
  destruct (pending t) as [d|] eqn:Hp.
  2:{ unfold bind, ret. intros H. by case_match; [case_match|]; simplify_eq. }
  intros H. split; [|done]. unfold bind at 1 in H.
  destruct (startedClearIfReached t) as [[[] t1]|] eqn:E1; [by simplify_eq| |done].
  apply startedClearIfReached_false in E1 as ->. unfold bind at 1 in H.
  destruct (isStartLeader t) as [[[] t2]|] eqn:E2; [| |done]; simpl in H;
    apply reads_isStartLeader in E2 as ->.
  2:{ unfold bind, ret in H. by repeat (case_match; simplify_eq). }
  unfold bind at 1 in H.
  destruct (isPeerStarting t) as [[[] t3]|] eqn:E3; [| |done]; simpl in H;
    apply reads_isPeerStarting in E3 as ->; [|unfold ret in H; by simplify_eq].
  unfold bind, ret in H. by repeat (case_match; simplify_eq).
Qed.

Lemma setWaitParents_pending t b t' : setWaitParents t = Some (b, t') -> pending t' = pending t.
Proof.
  unfold setWaitParents, bind, get, when, set, changed, modify, skip, ret.
  intros H. by repeat (case_match; simplify_eq).
Qed.

Lemma keeps_startedFromReady :
  may L AStart -> may L AFence -> keeps pn I startedFromReady any.
Proof.
  intros Hs Hf t Ht. unfold startedFromReady. apply wp_bind.
  pose proof (keeps_cancelReadyState t Ht) as Hc. unfold wp in *.
  destruct (cancelReadyState t) as [[[] t1]|] eqn:E1; [done| |done].
  apply cancelReadyState_pending in E1 as [-> [d Hd]].
  unfold bind at 1. pose proof (keeps_setWaitParents t Ht) as Hw. unfold wp in Hw.
  destruct (setWaitParents t) as [[[] t2]|] eqn:E2; [done| |done].
  apply setWaitParents_pending in E2. unfold bind at 1, get. rewrite E2, Hd.
  assert (keeps pn I (canceled ← gets (fun t => pendingCanceled (trace t)); n ← now;
    if canceled then transitionTo MonitorStateIdle;; clearPending
    else if (d <=? n)%Z then
      queueAction stonithAndStart MonitorStateStartProgress MonitorStateStartSuccess
        MonitorStateStartFailure;; clearPending
    else skip) any) as Hk by (unfold isDone, now; keeps_tac).
  by apply (Hk t2 (proj1 Hw)).
Qed.

#[local] Hint Resolve keeps_startedFromReady : keeps.

Lemma keeps_startedFromAny : keeps pn I startedFromAny any.
Proof. unfold startedFromAny. keeps_tac. Qed.

Lemma keeps_startedFromStartFailed : keeps pn I startedFromStartFailed any.
Proof. unfold startedFromStartFailed. keeps_tac. Qed.

#[local] Hint Resolve keeps_startedFromAny keeps_startedFromStartFailed : keeps.

Lemma keeps_orchestrateStarted : may L AStart -> may L AFence -> keeps pn I orchestrateStarted any.
Proof. intros. unfold orchestrateStarted. keeps_tac. Qed.

#[local] Hint Resolve keeps_orchestrateStarted : keeps.

(** *** Freezes *)

Lemma keeps_frozenClearIfReached : keeps pn I frozenClearIfReached any.
Proof. unfold frozenClearIfReached. keeps_tac. Qed.

Lemma keeps_unfrozenClearIfReached : keeps pn I unfrozenClearIfReached any.
Proof. unfold unfrozenClearIfReached. keeps_tac. Qed.

#[local] Hint Resolve keeps_frozenClearIfReached keeps_unfrozenClearIfReached : keeps.

Lemma keeps_frozenFromIdle : may L AFreeze -> keeps pn I frozenFromIdle any.
Proof. intros. unfold frozenFromIdle. keeps_tac. Qed.

Lemma keeps_UnfrozenFromIdle : may L AUnfreeze -> keeps pn I UnfrozenFromIdle any.
Proof. intros. unfold UnfrozenFromIdle. keeps_tac. Qed.

#[local] Hint Resolve keeps_frozenFromIdle keeps_UnfrozenFromIdle : keeps.

Lemma keeps_orchestrateFrozen : may L AFreeze -> keeps pn I orchestrateFrozen any.
Proof. intros. unfold orchestrateFrozen. keeps_tac. Qed.

Lemma keeps_orchestrateUnfrozen : may L AUnfreeze -> keeps pn I orchestrateUnfrozen any.
Proof. intros. unfold orchestrateUnfrozen. keeps_tac. Qed.

#[local] Hint Resolve keeps_orchestrateFrozen keeps_orchestrateUnfrozen : keeps.

(** *** Placements *)

Lemma keeps_skipPlacedStop : keeps pn I skipPlacedStop any.
Proof. unfold skipPlacedStop, changed. keeps_tac. Qed.

Lemma keeps_skipPlacedStart : keeps pn I skipPlacedStart any.
Proof. unfold skipPlacedStart, changed. keeps_tac. Qed.

Lemma keeps_donePlacedStop : keeps pn I donePlacedStop any.
Proof. unfold donePlacedStop. keeps_tac. Qed.

Lemma keeps_doPlacedStart : may L AStart -> keeps pn I doPlacedStart any.
Proof. intros. unfold doPlacedStart. keeps_tac. Qed.

Lemma keeps_doPlacedStop : may L AStop -> keeps pn I doPlacedStop any.
Proof. intros. unfold doPlacedStop. keeps_tac. Qed.

Lemma keeps_orchestratePlacedFromStartFailed : keeps pn I orchestratePlacedFromStartFailed any.
Proof. unfold orchestratePlacedFromStartFailed. keeps_tac. Qed.

#[local] Hint Resolve keeps_skipPlacedStop keeps_skipPlacedStart keeps_donePlacedStop
  keeps_doPlacedStart keeps_doPlacedStop keeps_orchestratePlacedFromStartFailed : keeps.

Lemma keeps_placedStart : may L AStart -> keeps pn I placedStart any.
Proof. intros. unfold placedStart. keeps_tac. Qed.

Lemma keeps_placedStop : may L AStop -> keeps pn I placedStop any.
Proof. intros. unfold placedStop. keeps_tac. Qed.

Lemma keeps_orchestratePlacedStopFromStopFailure : keeps pn I orchestratePlacedStopFromStopFailure any.
Proof. unfold orchestratePlacedStopFromStopFailure. keeps_tac. Qed.

Lemma keeps_placedStartAfterMove : may L AStart -> keeps pn I placedStartAfterMove any.
Proof. intros. unfold placedStartAfterMove. keeps_tac. Qed.

Lemma keeps_orchestrateFailoverPlacedStartFromIdle : may L AStartStandby -> keeps pn I orchestrateFailoverPlacedStartFromIdle any.
Proof. intros. unfold orchestrateFailoverPlacedStartFromIdle. keeps_tac. Qed.

#[local] Hint Resolve keeps_placedStart keeps_placedStop
  keeps_orchestratePlacedStopFromStopFailure keeps_placedStartAfterMove
  keeps_orchestrateFailoverPlacedStartFromIdle : keeps.

Lemma keeps_orchestrateFailoverPlacedStartFromStopped : may L AStart -> keeps pn I orchestrateFailoverPlacedStartFromStopped any.
Proof. intros. unfold orchestrateFailoverPlacedStartFromStopped. keeps_tac. Qed.

#[local] Hint Resolve keeps_orchestrateFailoverPlacedStartFromStopped : keeps.

Lemma keeps_orchestrateFailoverPlacedStart : may L AStart -> may L AStartStandby -> keeps pn I orchestrateFailoverPlacedStart any.
Proof. intros. unfold orchestrateFailoverPlacedStart. keeps_tac. Qed.

Lemma keeps_orchestrateFlexPlacedStart : may L AStart -> keeps pn I orchestrateFlexPlacedStart any.
Proof. intros. unfold orchestrateFlexPlacedStart. keeps_tac. Qed.

Lemma keeps_orchestrateFailoverPlacedStop : may L AStop -> keeps pn I orchestrateFailoverPlacedStop any.
Proof. intros. unfold orchestrateFailoverPlacedStop. keeps_tac. Qed.

#[local] Hint Resolve keeps_orchestrateFailoverPlacedStart keeps_orchestrateFlexPlacedStart
  keeps_orchestrateFailoverPlacedStop : keeps.

Lemma keeps_orchestratePlacedStart : may L AStart -> may L AStartStandby -> keeps pn I orchestratePlacedStart any.
Proof. intros. unfold orchestratePlacedStart. keeps_tac. Qed.

Lemma keeps_orchestratePlacedStop : may L AStop -> keeps pn I orchestratePlacedStop any.
Proof. intros. unfold orchestratePlacedStop, orchestrateFlexPlacedStop. keeps_tac. Qed.

#[local] Hint Resolve keeps_orchestratePlacedStart keeps_orchestratePlacedStop : keeps.

Lemma keeps_orchestratePlaced : may L AStart -> may L AStartStandby -> may L AStop -> keeps pn I orchestratePlaced any.
Proof. intros. unfold orchestratePlaced. keeps_tac. Qed.

Lemma keeps_orchestratePlacedAt : may L AStart -> may L AStartStandby -> may L AStop -> keeps pn I orchestratePlacedAt any.
Proof. intros. unfold orchestratePlacedAt. keeps_tac. Qed.

#[local] Hint Resolve keeps_orchestratePlaced keeps_orchestratePlacedAt : keeps.

(** *** Provisions *)

Lemma keeps_provisioningLeader : keeps pn I provisioningLeader any.
Proof. unfold provisioningLeader. keeps_tac. Qed.

Lemma keeps_provisionedReached b : may L AUnsetStopped -> keeps pn I (provisionedReached b) any.
Proof. intros. unfold provisionedReached. keeps_tac. Qed.

#[local] Hint Resolve keeps_provisioningLeader keeps_provisionedReached : keeps.

Lemma keeps_isProvisioningLeader : keeps pn I isProvisioningLeader any.
Proof. unfold isProvisioningLeader. keeps_tac. Qed.

Lemma keeps_hasLeaderProvisioned : keeps pn I hasLeaderProvisioned any.
Proof. unfold hasLeaderProvisioned. keeps_tac. Qed.

Lemma keeps_hasLeaderProvisionedFailed : keeps pn I hasLeaderProvisionedFailed any.
Proof. unfold hasLeaderProvisionedFailed. keeps_tac. Qed.

#[local] Hint Resolve keeps_isProvisioningLeader keeps_hasLeaderProvisioned
  keeps_hasLeaderProvisionedFailed : keeps.

Lemma keeps_provisionedSucceeds : may L AUnsetStopped -> keeps pn I provisionedSucceeds any.
Proof. intros. unfold provisionedSucceeds. keeps_tac. Qed.

Lemma keeps_provisionedFromChecked : may L AStart -> may L AProvision -> keeps pn I provisionedFromChecked any.
Proof. intros. unfold provisionedFromChecked. keeps_tac. Qed.

Lemma keeps_provisionedFromProvisioned : may L AUnfreeze -> keeps pn I provisionedFromProvisioned any.
Proof. intros. unfold provisionedFromProvisioned. keeps_tac. Qed.

#[local] Hint Resolve keeps_provisionedSucceeds keeps_provisionedFromChecked
  keeps_provisionedFromProvisioned : keeps.

Lemma keeps_provisionedClearIfReached : may L AUnsetStopped -> keeps pn I provisionedClearIfReached any.
Proof. intros. unfold provisionedClearIfReached. keeps_tac. Qed.

#[local] Hint Resolve keeps_provisionedClearIfReached : keeps.

Lemma keeps_provisionedFromIdle : may L AUnsetStopped -> may L AStart -> may L AProvision -> may L APreflight -> keeps pn I provisionedFromIdle any.
Proof. intros. unfold provisionedFromIdle. keeps_tac. Qed.

Lemma keeps_provisionedFromPreflighted : may L AUnsetStopped -> may L AStart -> may L AProvision -> keeps pn I provisionedFromPreflighted any.
Proof. intros. unfold provisionedFromPreflighted. keeps_tac. Qed.

Lemma keeps_provisionedFromWaitLeader : may L AUnsetStopped -> may L AStartStandby -> may L AProvision -> keeps pn I provisionedFromWaitLeader any.
Proof. intros. unfold provisionedFromWaitLeader. keeps_tac. Qed.

#[local] Hint Resolve keeps_provisionedFromIdle keeps_provisionedFromPreflighted
  keeps_provisionedFromWaitLeader : keeps.

Lemma keeps_orchestrateProvisioned : may L AUnsetStopped -> may L AStart -> may L AStartStandby -> may L AProvision -> may L APreflight -> may L AUnfreeze -> keeps pn I orchestrateProvisioned any.
Proof. intros. unfold orchestrateProvisioned. keeps_tac. Qed.

#[local] Hint Resolve keeps_orchestrateProvisioned : keeps.

(** *** Unprovisions, purges, deletes *)

Lemma keeps_isUnprovisionLeader : keeps pn I isUnprovisionLeader any.
Proof. unfold isUnprovisionLeader. keeps_tac. Qed.

Lemma keeps_isUnprovisionLeaderNode n : keeps pn I (isUnprovisionLeaderNode n) any.
Proof. unfold isUnprovisionLeaderNode. keeps_tac. Qed.

Lemma keeps_unprovisionedReached b : keeps pn I (unprovisionedReached b) any.
Proof. unfold unprovisionedReached. keeps_tac. Qed.

#[local] Hint Resolve keeps_isUnprovisionLeader keeps_isUnprovisionLeaderNode
  keeps_unprovisionedReached : keeps.

Lemma keeps_anyNonLeader p nodes : keeps pn I (anyNonLeader p nodes) any.
Proof. induction nodes as [|n nodes IH]; simpl; [by apply keeps_ret|]. keeps_tac. Qed.

#[local] Hint Resolve keeps_anyNonLeader : keeps.

Lemma keeps_hasNonLeaderWithState l : keeps pn I (hasNonLeaderWithState l) any.
Proof. unfold hasNonLeaderWithState. keeps_tac. Qed.

Lemma keeps_hasNonLeaderProvisioned : keeps pn I hasNonLeaderProvisioned any.
Proof. unfold hasNonLeaderProvisioned. keeps_tac. Qed.

Lemma keeps_unprovisionedClearIfReached : keeps pn I unprovisionedClearIfReached any.
Proof. unfold unprovisionedClearIfReached. keeps_tac. Qed.

#[local] Hint Resolve keeps_hasNonLeaderWithState keeps_hasNonLeaderProvisioned
  keeps_unprovisionedClearIfReached : keeps.

Lemma keeps_queueUnprovision action failure :
  keeps pn I action any -> keeps pn I (queueUnprovision action failure) any.
Proof. intros. unfold queueUnprovision. keeps_tac. Qed.

#[local] Hint Resolve keeps_queueUnprovision : keeps.

Lemma keeps_unprovisionedFromUnprovisionFailed : keeps pn I unprovisionedFromUnprovisionFailed any.
Proof. unfold unprovisionedFromUnprovisionFailed. keeps_tac. Qed.

Lemma keeps_UnprovisionedFromIdle : may L AUnprovision -> keeps pn I UnprovisionedFromIdle any.
Proof. intros. unfold UnprovisionedFromIdle. keeps_tac. Qed.

Lemma keeps_UnprovisionedFromWaitNonLeader : may L AUnprovision -> keeps pn I UnprovisionedFromWaitNonLeader any.
Proof. intros. unfold UnprovisionedFromWaitNonLeader. keeps_tac. Qed.

Lemma keeps_queueDelete s : may L ADelete -> keeps pn I (queueDelete s) any.
Proof. intros. unfold queueDelete. keeps_tac. Qed.

Lemma keeps_purgedFromWaitNonLeader : may L AUnprovision -> keeps pn I purgedFromWaitNonLeader any.
Proof. intros. unfold purgedFromWaitNonLeader. keeps_tac. Qed.

Lemma keeps_purgedFromDeleted : keeps pn I purgedFromDeleted any.
Proof. unfold purgedFromDeleted. keeps_tac. Qed.

#[local] Hint Resolve keeps_unprovisionedFromUnprovisionFailed keeps_UnprovisionedFromIdle
  keeps_UnprovisionedFromWaitNonLeader keeps_queueDelete keeps_purgedFromWaitNonLeader
  keeps_purgedFromDeleted : keeps.

Lemma keeps_orchestrateUnprovisioned : may L AUnprovision -> keeps pn I orchestrateUnprovisioned any.
Proof. intros. unfold orchestrateUnprovisioned. keeps_tac. Qed.

Lemma keeps_purgedFromIdleProvisioned : may L AUnprovision -> keeps pn I purgedFromIdleProvisioned any.
Proof. intros. unfold purgedFromIdleProvisioned. keeps_tac. Qed.

Lemma keeps_deletedFromIdle : may L ADelete -> keeps pn I deletedFromIdle any.
Proof. intros. unfold deletedFromIdle. keeps_tac. Qed.

#[local] Hint Resolve keeps_orchestrateUnprovisioned keeps_purgedFromIdleProvisioned
  keeps_deletedFromIdle : keeps.

Lemma keeps_purgedFromIdle : may L AUnprovision -> keeps pn I purgedFromIdle any.
Proof. intros. unfold purgedFromIdle, orchestrateAfterAction. keeps_tac. Qed.

Lemma keeps_orchestrateDeleted : may L ADelete -> keeps pn I orchestrateDeleted any.
Proof. intros. unfold orchestrateDeleted. keeps_tac. Qed.

#[local] Hint Resolve keeps_purgedFromIdle keeps_orchestrateDeleted : keeps.

Lemma keeps_orchestratePurged : may L AUnprovision -> may L ADelete -> keeps pn I orchestratePurged any.
Proof. intros. unfold orchestratePurged. keeps_tac. Qed.

#[local] Hint Resolve keeps_orchestratePurged : keeps.

(** *** Resizes and caps *)

Lemma keeps_queueResizeStage stage : may L AResize -> keeps pn I (queueResizeStage stage) any.
Proof. intros. unfold queueResizeStage, orchestrateAfterAction. keeps_tac. Qed.

Lemma keeps_resizedEnd : keeps pn I resizedEnd any.
Proof. unfold resizedEnd. keeps_tac. Qed.

Lemma keeps_cappedFromIdle : may L ACap -> keeps pn I cappedFromIdle any.
Proof. intros. unfold cappedFromIdle. keeps_tac. Qed.

Lemma keeps_cappedEnd b : keeps pn I (cappedEnd b) any.
Proof. unfold cappedEnd. keeps_tac. Qed.

#[local] Hint Resolve keeps_queueResizeStage keeps_resizedEnd keeps_cappedFromIdle
  keeps_cappedEnd : keeps.

Lemma keeps_resizedFromIdle : may L AResize -> keeps pn I resizedFromIdle any.
Proof. intros. unfold resizedFromIdle. keeps_tac. Qed.

Lemma keeps_resizedFromStage stage : may L AResize -> keeps pn I (resizedFromStage stage) any.
Proof. intros. unfold resizedFromStage. keeps_tac. Qed.

Lemma keeps_orchestrateCapped : may L ACap -> keeps pn I orchestrateCapped any.
Proof. intros. unfold orchestrateCapped. keeps_tac. Qed.

#[local] Hint Resolve keeps_resizedFromIdle keeps_resizedFromStage keeps_orchestrateCapped :
  keeps.

Lemma keeps_orchestrateResized : may L AResize -> keeps pn I orchestrateResized any.
Proof. intros. unfold orchestrateResized. keeps_tac. Qed.

#[local] Hint Resolve keeps_orchestrateResized : keeps.

(** *** Restarts of the instance *)

Lemma keeps_getPriors : keeps pn I getPriors any.
Proof. unfold getPriors. keeps_tac. Qed.

#[local] Hint Resolve keeps_getPriors : keeps.

Lemma keeps_restartPrepare : keeps pn I restartPrepare any.
Proof. unfold restartPrepare, changed. keeps_tac. Qed.

Lemma keeps_orchestrateRestartedOnReady : may L AStop -> may L AShutdown -> keeps pn I orchestrateRestartedOnReady any.
Proof. intros. unfold orchestrateRestartedOnReady. keeps_tac. Qed.

Lemma keeps_orchestrateRestartedOnRestarted : keeps pn I orchestrateRestartedOnRestarted any.
Proof. unfold orchestrateRestartedOnRestarted. keeps_tac. Qed.

#[local] Hint Resolve keeps_restartPrepare keeps_orchestrateRestartedOnReady
  keeps_orchestrateRestartedOnRestarted : keeps.

Lemma keeps_waitPriors nodes : keeps pn I (waitPriors nodes) any.
Proof. induction nodes as [|n nodes IH]; simpl; [by apply keeps_ret|]. keeps_tac. Qed.

#[local] Hint Resolve keeps_waitPriors : keeps.

Lemma keeps_orchestrateRestartedOnIdle : keeps pn I orchestrateRestartedOnIdle any.
Proof. unfold orchestrateRestartedOnIdle. keeps_tac. Qed.

Lemma keeps_orchestrateRestartedOnWaitPriors : keeps pn I orchestrateRestartedOnWaitPriors any.
Proof. unfold orchestrateRestartedOnWaitPriors, changed. keeps_tac. Qed.

#[local] Hint Resolve keeps_orchestrateRestartedOnIdle keeps_orchestrateRestartedOnWaitPriors :
  keeps.

Lemma keeps_orchestrateRestarted : may L AStop -> may L AShutdown -> may L AStart -> may L AStartStandby -> keeps pn I orchestrateRestarted any.
Proof. intros. unfold orchestrateRestarted. keeps_tac. Qed.

#[local] Hint Resolve keeps_orchestrateRestarted : keeps.

(** *** The daemon's own decisions *)

Lemma keeps_flexTarget_decided a :
  actor_known a -> bool_decide (object.Topology a = topology.Flex) = true ->
  keeps pn I (flexTarget a) any.
Proof. intros Ha Ht. apply keeps_flexTarget; [done|]. by apply bool_decide_eq_true in Ht. Qed.

Lemma keeps_flexTarget_negb a :
  actor_known a -> negb (bool_decide (object.Topology a = topology.Flex)) = false ->
  keeps pn I (flexTarget a) any.
Proof. intros Ha Ht%negb_false_iff. by apply keeps_flexTarget_decided. Qed.

#[local] Hint Resolve keeps_flexTarget_decided keeps_flexTarget_negb : keeps.

Lemma keeps_clearStartFailed : keeps pn I clearStartFailed any.
Proof. unfold clearStartFailed. keeps_tac. Qed.

Lemma keeps_clearBootFailed : keeps pn I clearBootFailed any.
Proof. unfold clearBootFailed. keeps_tac. Qed.

Lemma keeps_clearStoppedFlagWhenUp : may L AUnsetStopped -> keeps pn I clearStoppedFlagWhenUp any.
Proof. intros. unfold clearStoppedFlagWhenUp. keeps_tac. Qed.

Lemma keeps_orchestrateHAStart : may L AStart -> may L AFence -> keeps pn I orchestrateHAStart any.
Proof. intros. unfold orchestrateHAStart, startIfStartable. keeps_tac. Qed.

Lemma keeps_orchestrateHAStop : may L AStop -> keeps pn I orchestrateHAStop any.
Proof. intros. unfold orchestrateHAStop. keeps_tac. Qed.

Lemma keeps_closeBootStart : keeps pn I closeBootStart any.
Proof. unfold closeBootStart. keeps_tac. Qed.

Lemma keeps_bootStartNoopReason : keeps pn I bootStartNoopReason any.
Proof. unfold bootStartNoopReason. keeps_tac. Qed.

#[local] Hint Resolve keeps_clearStartFailed keeps_clearBootFailed keeps_clearStoppedFlagWhenUp
  keeps_orchestrateHAStart keeps_orchestrateHAStop keeps_closeBootStart
  keeps_bootStartNoopReason : keeps.

Lemma keeps_bootStartWait : keeps pn I bootStartWait any.
Proof. unfold bootStartWait, now. keeps_tac. Qed.

#[local] Hint Resolve keeps_bootStartWait : keeps.

Lemma keeps_bootStartFromIdle : may L AStart -> may L AFence -> keeps pn I bootStartFromIdle any.
Proof. intros. unfold bootStartFromIdle. keeps_tac. Qed.

#[local] Hint Resolve keeps_bootStartFromIdle : keeps.

Lemma keeps_orchestrateBootStart : may L AStart -> may L AFence -> keeps pn I orchestrateBootStart any.
Proof. intros. unfold orchestrateBootStart. keeps_tac. Qed.

#[local] Hint Resolve keeps_orchestrateBootStart : keeps.

Lemma keeps_orchestrateNone : may L AUnsetStopped -> may L AStart -> may L AFence -> may L AStop -> keeps pn I orchestrateNone any.
Proof. intros. unfold orchestrateNone. keeps_tac. Qed.

Lemma keeps_doShutdown : may L AShutdown -> keeps pn I doShutdown any.
Proof. intros. unfold doShutdown. keeps_tac. Qed.

#[local] Hint Resolve keeps_orchestrateNone keeps_doShutdown : keeps.

Lemma keeps_orchestrateLocalExpectShutdown : may L AShutdown -> keeps pn I orchestrateLocalExpectShutdown any.
Proof. intros. unfold orchestrateLocalExpectShutdown. keeps_tac. Qed.

#[local] Hint Resolve keeps_orchestrateLocalExpectShutdown : keeps.

Lemma keeps_isConvergedGlobalExpect : keeps pn I isConvergedGlobalExpect any.
Proof.
  intros t Ht. unfold isConvergedGlobalExpect. apply wp_bind, wp_get.
  destruct (instMonitor t !! localhost t) as [mon|] eqn:E.
  - destruct cl_panic as [Hp|Hp]; [done|]. destruct (Hp t Ht) as (_ & _ & Hn & _). congruence.
  - repeat case_match; by split.
Qed.

#[local] Hint Resolve keeps_isConvergedGlobalExpect : keeps.

(** *** The orchestrations, by global expect *)

End closed.

(** The actions an orchestration takes, by global expect. *)
Definition expect_acts (g : MonitorGlobalExpect) : list Act :=
  match g with
  | MonitorGlobalExpectCapped => [ACap]
  | MonitorGlobalExpectDeleted => [ADelete]
  | MonitorGlobalExpectNone => [AStart; AStop; AFence; AUnsetStopped]
  | MonitorGlobalExpectFrozen => [AFreeze]
  | MonitorGlobalExpectProvisioned =>
      [APreflight; AProvision; AStart; AStartStandby; AUnfreeze; AUnsetStopped]
  | MonitorGlobalExpectPlaced | MonitorGlobalExpectPlacedAt => [AStart; AStartStandby; AStop]
  | MonitorGlobalExpectPurged => [AUnprovision; ADelete]
  | MonitorGlobalExpectResized => [AResize]
  | MonitorGlobalExpectRestarted => [AStop; AShutdown; AStart; AStartStandby]
  | MonitorGlobalExpectStarted => [AStart; AFence]
  | MonitorGlobalExpectStopped => [AStop; ASetStopped]
  | MonitorGlobalExpectUnfrozen => [AUnfreeze]
  | MonitorGlobalExpectUnprovisioned => [AUnprovision]
  | _ => []
  end.

(** The actions of a resource monitor. *)
Definition monitor_acts : list Act := [AStop; AFreeze; ACrash; AReboot; APreMonitor].

Section expects.
Context {env : Env} {pn : Prop} {I : Manager -> Prop} {L : list Act} {C : Closed pn I L}.

Lemma keeps_orchestrateGlobalExpect g :
  Forall (may L) (expect_acts g) -> keeps pn I (orchestrateGlobalExpect g) any.
Proof.
  intros H.
  destruct g; simpl in H; rewrite ?Forall_cons in H; destruct_and?; simpl;
    first [apply keeps_skip
      | by apply keeps_orchestrateNone | by apply keeps_orchestrateProvisioned
      | by apply keeps_orchestratePlaced | by apply keeps_orchestratePlacedAt
      | by apply keeps_orchestratePurged | by apply keeps_orchestrateRestarted
      | by apply keeps_orchestrateStarted | by apply keeps_stopOnPurpose
      | by apply keeps_orchestrateCapped | by apply keeps_orchestrateDeleted
      | by apply keeps_orchestrateFrozen | by apply keeps_orchestrateUnfrozen
      | by apply keeps_orchestrateResized | by apply keeps_orchestrateUnprovisioned ].
Qed.

Lemma keeps_orchestrateResourceRestart' :
  Forall (may L) monitor_acts -> keeps pn I orchestrateResourceRestart any.
Proof.
  unfold monitor_acts. rewrite !Forall_cons. intros H. destruct_and?.
  by apply keeps_orchestrateResourceRestart.
Qed.

End expects.
