(* ===== verification/ImonAffinity.v ===== *)
(** * daemon/imon: the hard affinities

    An affinity declared by an object may lead to another object that declares
    affinities in turn, and back.  The worklist of hardAffinityReach computes
    the objects a chain of hard affinities leads to; the cycles it finds decide
    which of the objects of a cycle starts first. *)

From S2P Require Import Prelude Status Naming Instance ImonState ImonExample ImonPlacement.

Open Scope string_scope.
Import instance.

Lemma elem_of_concat_map {A B} (f : A -> list B) l x y :
  x ∈ l -> y ∈ f x -> y ∈ concat (map f l).
Proof.
  intros Hx Hy. apply list_elem_of_In, in_concat. exists (f x).
  split; [by apply in_map, list_elem_of_In|by apply list_elem_of_In].
Qed.

Section affinity.
Context {env : Env}.

(** ** The worklist *)

Lemma visit_fold l seen todo :
  exists new, foldl visit (seen, todo) l = ((seen ++ new)%list, (todo ++ new)%list) /\
    (forall x, x ∈ new -> x ∈ l) /\ (forall x, x ∈ l -> x ∈ (seen ++ new)%list) /\
    (NoDup seen -> NoDup (seen ++ new)).
Proof.
  revert seen todo. induction l as [|y l IH]; intros seen todo; cbn [foldl].
  { exists []. rewrite !app_nil_r. set_solver. }
  unfold visit at 2. case_decide as Hy.
  - destruct (IH seen todo) as (new & -> & H1 & H2 & H3). exists new. split_and!; [done|set_solver| |done].
    intros x [->|Hx]%elem_of_cons; [set_solver|by apply H2].
  - destruct (IH (seen ++ [y])%list (todo ++ [y])%list) as (new & -> & H1 & H2 & H3).
    exists (y :: new). rewrite <- !app_assoc. simpl. split_and!; [done|set_solver| |].
    + intros x Hx. specialize (H2 x). set_solver.
    + intros Hs. rewrite <- app_assoc in H3. apply H3, NoDup_app. split_and!; [done|set_solver|].
      apply NoDup_singleton.
Qed.

Definition leads (t : Manager) (x y : naming.Path) : Prop := y ∈ hardAffinityNext t x.

Record reach_inv (t : Manager) (p : naming.Path) (seen todo : list naming.Path) : Prop := {
  ri_start : p ∈ seen;
  ri_sound : forall x, x ∈ seen -> rtc (leads t) p x;
  ri_todo : forall x, x ∈ todo -> x ∈ seen;
  ri_closed : forall x y, x ∈ seen -> x ∉ todo -> leads t x y -> y ∈ seen;
  ri_nodup : NoDup seen }.

Lemma reach_inv_step t p seen cur todo seen' todo' :
  reach_inv t p seen (cur :: todo) ->
  foldl visit (seen, todo) (hardAffinityNext t cur) = (seen', todo') ->
  reach_inv t p seen' todo' /\
  exists new, seen' = (seen ++ new)%list /\ todo' = (todo ++ new)%list.
Proof.
  intros [Hp Hs Ht Hc Hn] E.
  destruct (visit_fold (hardAffinityNext t cur) seen todo) as (new & E' & H1 & H2 & H3).
  rewrite E' in E. injection E as <- <-. split; [|by eauto]. split.
  - set_solver.
  - intros x [Hx|Hx]%elem_of_app; [by apply Hs|].
    eapply rtc_r; [apply (Hs cur), Ht; set_solver|]. by apply H1.
  - intros x [Hx|Hx]%elem_of_app; [|set_solver]. apply elem_of_app. left. apply Ht. set_solver.
  - intros x y Hx Hxt Hy. destruct (decide (x = cur)) as [->|Hne]; [by apply H2|].
    assert (x ∈ seen) by set_solver. apply elem_of_app. left. apply (Hc x); [done|set_solver|done].
  - by apply H3.
Qed.

Lemma reach_inv_done t p seen q : reach_inv t p seen [] -> q ∈ seen <-> rtc (leads t) p q.
Proof.
  intros Hi. split; [apply Hi|]. intros Hr. pose proof (ri_start _ _ _ _ Hi) as Hp.
  destruct Hi as [_ _ _ Hc _]. clear - Hc Hr Hp.
  induction Hr as [x|x y z Hxy _ IH]; [done|]. apply IH, (Hc x); [done|set_solver|done].
Qed.

(** Seen objects are bounded, so the worklist empties. *)
Lemma reachLoop_spec t p N fuel seen todo :
  reach_inv t p seen todo ->
  (forall l, NoDup l -> p ∈ l -> (forall x, x ∈ l -> rtc (leads t) p x) -> (length l <= N)%nat) ->
  (length todo + (N - length seen) <= fuel)%nat ->
  forall q, q ∈ reachLoop t fuel seen todo <-> rtc (leads t) p q.
Proof.
  intros Hi Hbound. revert seen todo Hi. induction fuel as [|fuel IH]; intros seen todo Hi Hf.
  - destruct todo as [|cur todo]; [|simpl in Hf; lia]. simpl. intros q. by apply reach_inv_done.
  - destruct todo as [|cur todo]; simpl; [intros q; by apply reach_inv_done|].
    destruct (foldl visit (seen, todo) (hardAffinityNext t cur)) as [seen' todo'] eqn:E.
    apply (reach_inv_step t p) in E as (Hi' & new & -> & ->); [|done].
    apply IH; [done|]. assert (length (seen ++ new) <= N)%nat.
    { apply Hbound; [apply Hi'|apply Hi'|apply Hi']. }
    rewrite !length_app in *. simpl in Hf. lia.
Qed.

(** ** The bound *)

Lemma actor_of_Some c cfg a : actor_of c = Some (cfg, a) -> c = Some cfg /\ ActorConfig_ cfg = Some a.
Proof. unfold actor_of. intros. repeat case_match; by simplify_eq. Qed.

Lemma first_actor_Some m l cfg a :
  first_actor m l = Some (cfg, a) -> exists n, m !! n = Some cfg /\ ActorConfig_ cfg = Some a.
Proof.
  induction l as [|n l IH]; simpl; [done|]. destruct (actor_of (m !! n)) as [[cfg' a']|] eqn:E; [|done].
  intros [= -> ->]. exists n. by apply actor_of_Some.
Qed.

Lemma affinityConfig_Some t p cfg a :
  affinityConfig t p = Some (cfg, a) ->
  ActorConfig_ (instConfig t) = Some a \/
  exists m n, ConfigData (trace t) !! p = Some m /\ m !! n = Some cfg /\ ActorConfig_ cfg = Some a.
Proof.
  unfold affinityConfig. case_decide.
  - intros [[= <-] Ha]%actor_of_Some. by left.
  - unfold configByPath. intros Hc. right.
    destruct (ConfigData (trace t) !! p) as [m|] eqn:E; simpl in Hc.
    + exists m. destruct (actor_of (m !! localhost t)) as [[cfg' a']|] eqn:E'.
      * simplify_eq. exists (localhost t). by apply actor_of_Some in E' as [-> ->].
      * apply first_actor_Some in Hc as (n & ? & ?). by exists n.
    + rewrite lookup_empty in Hc. simpl in Hc. by apply first_actor_Some in Hc as (n & [=] & _).
Qed.

(** The universe of the affinities holds every object one step leads to. *)
Lemma leads_universe t x y : leads t x y -> y ∈ affinityUniverse t.
Proof.
  unfold leads, hardAffinityNext, affinityUniverse. destruct (affinityConfig t x) as [[cfg a]|] eqn:E; [|set_solver].
  intros Hy. apply elem_of_app. apply affinityConfig_Some in E as [->|(m & n & Hm & Hn & Ha)]; [by left|].
  right. eapply elem_of_concat_map; [by apply elem_of_map_to_list|]. simpl.
  eapply elem_of_concat_map; [by apply elem_of_map_to_list|]. simpl. by rewrite Ha.
Qed.

Lemma reach_bounded t p l :
  NoDup l -> p ∈ l -> (forall x, x ∈ l -> rtc (leads t) p x) ->
  (length l <= S (length (affinityUniverse t)))%nat.
Proof.
  intros Hn Hp Hl. change (length l <= length (p :: affinityUniverse t))%nat.
  apply submseteq_length, NoDup_submseteq; [done|]. intros x Hx. specialize (Hl x Hx).
  apply rtc_inv_r in Hl as [<-|(y & _ & Hy)]; [set_solver|]. apply leads_universe in Hy. set_solver.
Qed.

(** The worklist of hardAffinityReach ends with exactly the objects a chain
    of hard affinities leads to from the given one, itself included, cycles or
    not. *)
Theorem hardAffinityReach_spec t p q :
  q ∈ hardAffinityReach t p <-> rtc (leads t) p q.
Proof.
  unfold hardAffinityReach.
  apply (reachLoop_spec t p (S (length (affinityUniverse t)))).
  - split; [set_solver|..].
    + by intros x ->%list_elem_of_singleton.
    + done.
    + set_solver.
    + apply NoDup_singleton.
  - apply reach_bounded.
  - simpl. lia.
Qed.

End affinity.
