(* ===== verification/ImonElection.v ===== *)
(** * daemon/imon: the election of the instances to start

    Each node elects itself, or not, from its own view of the cluster: nobody
    hands the result over.  The theorems here take the monitors of the nodes of
    an object, and show how many of them elect themselves when their views
    agree. *)

From S2P Require Import Prelude Status Naming Instance ImonState ImonExample ImonPlacement.

Open Scope string_scope.
Import instance.
Open Scope imon_scope.

(** ** Lists of candidates *)

Lemma filter_app_list {A} (f : A -> bool) l1 l2 :
  List.filter f (l1 ++ l2) = (List.filter f l1 ++ List.filter f l2)%list.
Proof. apply List.filter_app. Qed.

Lemma elem_of_list_filter_bool {A} (f : A -> bool) l x :
  x ∈ List.filter f l <-> f x = true /\ x ∈ l.
Proof. rewrite !list_elem_of_In, List.filter_In. tauto. Qed.

Lemma NoDup_filter_bool {A} (f : A -> bool) l : NoDup l -> NoDup (List.filter f l).
Proof. rewrite !NoDup_ListNoDup. apply List.NoDup_filter. Qed.

Lemma Index_lookup s l i : Index s l = Some i -> l !! i = Some s.
Proof.
  revert i. induction l as [|e l IH]; intros i; simpl; [done|].
  destruct (String.eqb_spec e s) as [->|_]; [by intros [= <-]|].
  destruct (Index s l) as [j|]; simpl; [|done]. intros [= <-]. by apply IH.
Qed.

Lemma lookup_Index s l i : NoDup l -> l !! i = Some s -> Index s l = Some i.
Proof.
  intros Hl. revert i. induction Hl as [|e l He Hl IH]; intros i Hi; [done|].
  destruct i as [|i]; simpl in *.
  - injection Hi as ->. by rewrite String.eqb_refl.
  - destruct (String.eqb_spec e s) as [->|_].
    + apply list_elem_of_lookup_2 in Hi. done.
    + by rewrite (IH i).
Qed.

Lemma isAmongFirst_take s l max : isAmongFirst s l max = true -> s ∈ take (Z.to_nat max) l.
Proof.
  unfold isAmongFirst. destruct (Index s l) as [i|] eqn:E; [|done]. intros H. reflect.
  apply Index_lookup in E. apply list_elem_of_lookup. exists i.
  rewrite lookup_take_lt; [done|lia].
Qed.

Lemma take_isAmongFirst s l max :
  NoDup l -> s ∈ take (Z.to_nat max) l -> isAmongFirst s l max = true.
Proof.
  intros Hl [i Hi]%list_elem_of_lookup. apply lookup_take_Some in Hi as [Hi Hlt].
  unfold isAmongFirst. rewrite (lookup_Index s l i Hl Hi). apply Z.ltb_lt. lia.
Qed.

Lemma shiftOrder_perm l i : shiftOrder l i ≡ₚ l.
Proof.
  unfold shiftOrder. destruct (Nat.eqb _ _ || _); [done|].
  rewrite Permutation_app_comm. by rewrite take_drop.
Qed.

(** The filter of a list by membership in a filter of it. *)
Lemma filter_Contains_filter (f : string -> bool) l :
  List.filter (Contains (List.filter f l)) l = List.filter f l.
Proof.
  apply List.filter_ext_in. intros x Hx%list_elem_of_In. unfold Contains.
  destruct (f x) eqn:E.
  - apply one_of_spec, elem_of_list_filter_bool. done.
  - apply one_of_false. rewrite elem_of_list_filter_bool. intros [? _]. congruence.
Qed.

(** A policy that ranks the candidates, rather than dropping them all. *)
Definition ranks (policy : placement.Policy) : bool :=
  one_of policy [placement.NodesOrder; placement.Spread; placement.Score; placement.Shift;
                 placement.LastStart].

Section election.
Context {env : Env}.

Lemma sortByPolicy_perm t policy (f : string -> bool) :
  ranks policy = true ->
  sortByPolicy t policy (List.filter f (scopeNodes t)) ≡ₚ List.filter f (scopeNodes t).
Proof.
  intros Hr. unfold sortByPolicy, sortWithShiftPolicy, sortWithNodesOrderPolicy.
  destruct policy; try discriminate Hr.
  all: rewrite ?shiftOrder_perm, ?filter_Contains_filter; try done; apply stable_sort_perm.
Qed.

Lemma sortByPolicy_unranked t policy l : ranks policy = false -> sortByPolicy t policy l = [].
Proof. by destruct policy. Qed.

Lemma sortBySoftAffinity_perm t l : sortBySoftAffinity t l ≡ₚ l.
Proof.
  unfold sortBySoftAffinity. destruct (ActorConfig_ _); [|done].
  destruct (Nat.eqb _ _); [done|]. apply stable_sort_perm.
Qed.

(** ** Views *)

(** What the election reads of the manager, less the node it runs on. *)
Record same_view (t u : Manager) : Prop := {
  sv_path : path t = path u;
  sv_scope : scopeNodes t = scopeNodes u;
  sv_config : ActorConfig_ (instConfig t) = ActorConfig_ (instConfig u);
  sv_status : instStatus t = instStatus u;
  sv_monitors : forall n, GetInstanceMonitor t n = GetInstanceMonitor u n;
  sv_nodeStatus : nodeStatus t = nodeStatus u;
  sv_nodeMonitor : nodeMonitor t = nodeMonitor u;
  sv_nodeStats : nodeStats t = nodeStats u;
  sv_actor : object.ActorStatus_ (objStatus t) = object.ActorStatus_ (objStatus u);
  sv_hard : forall n, isHardAffinitySatisfied t n = isHardAffinitySatisfied u n;
  sv_soft : forall n, softAffinityScore t n = softAffinityScore u n }.

(** The node thaws, so its peers count it as a candidate while it does not. *)
Definition isThawing (t : Manager) (n : string) : bool :=
  match nodeMonitor t !! n with
  | None => false
  | Some mon => bool_decide (node.GlobalExpect mon = node.MonitorGlobalExpectUnfrozen) &&
                negb (bool_decide (node.State mon = node.MonitorStateUnfreezeFailure))
  end.

(** The decision of isStartCandidate, given whether the node is a thawing peer. *)
Definition isCandidateWith (t : Manager) (daemon thaws : bool) (n : string) : bool :=
  match IsInstanceStatusNotApplicable t n with
  | None | Some true => false
  | Some false =>
      match nodeStatus t !! n, instStatus t !! n with
      | Some nodeStat, Some st =>
          negb (daemon && ((node.IsFrozen nodeStat && negb thaws) || IsFrozen st)) &&
          negb (daemon && (IsStopped st || negb (Nat.eqb (length (StoppedResources st)) 0))) &&
          negb (provisioned.IsOneOf (Provisioned st) [provisioned.Mixed; provisioned.PFalse]) &&
          match IsInstanceStartFailed t n, IsNodeMonitorStatusRankable t n with
          | Some false, Some true => isHardAffinitySatisfied t n
          | _, _ => false
          end
      | _, _ => false
      end
  end.

Lemma isStartCandidate_with t daemon n :
  isStartCandidate t daemon n = isCandidateWith t daemon (isPeerNodeThawing t n) n.
Proof.
  unfold isStartCandidate, isCandidateWith. repeat case_match; simpl in *; congruence.
Qed.

Lemma isPeerNodeThawing_spec t n :
  isPeerNodeThawing t n = negb (String.eqb n (localhost t)) && isThawing t n.
Proof. unfold isPeerNodeThawing, isThawing. by destruct (String.eqb _ _). Qed.

Lemma isCandidateWith_mono t daemon thaws n :
  isCandidateWith t daemon false n = true -> isCandidateWith t daemon thaws n = true.
Proof.
  unfold isCandidateWith. destruct (IsInstanceStatusNotApplicable t n) as [[]|]; [done| |done].
  destruct (nodeStatus t !! n) as [st|]; [|done]. destruct (instStatus t !! n); [|done].
  destruct daemon, thaws, (node.IsFrozen st); done.
Qed.

(** The candidates as a node that thaws nothing sees them. *)
Definition candidates (t : Manager) (daemon : bool) : list string :=
  List.filter (fun n => isCandidateWith t daemon (isThawing t n) n) (scopeNodes t).

Lemma same_view_candidates t u daemon : same_view t u -> candidates t daemon = candidates u daemon.
Proof.
  intros [Hp Hs Hc Hi Hm Hns Hnm Hst Ha Hh Hsf]. unfold candidates. rewrite Hs.
  apply List.filter_ext. intros n.
  unfold isCandidateWith, isThawing, IsInstanceStatusNotApplicable, IsInstanceStartFailed,
    IsNodeMonitorStatusRankable. by rewrite Hi, Hns, Hm, Hnm, Hh.
Qed.

(** A node that counts itself sees the same candidates as the others. *)
Lemma startCandidates_local t daemon :
  localhost t ∈ startCandidates t daemon -> startCandidates t daemon = candidates t daemon.
Proof.
  intros [Hl _]%elem_of_list_filter_bool. unfold startCandidates, candidates.
  apply List.filter_ext. intros n. rewrite isStartCandidate_with in *.
  rewrite isPeerNodeThawing_spec in *. rewrite String.eqb_refl in Hl. simpl in Hl.
  destruct (String.eqb_spec n (localhost t)) as [->|_]; simpl; [|done].
  rewrite Hl. symmetry. by apply isCandidateWith_mono.
Qed.

(** ** Leaders *)

(** The number of instances to start. *)
Definition leadersMax (a : object.ActorStatus) : option Z :=
  if decide (object.Topology a = topology.Flex) then object.Target <$> object.Flex a else Some 1%Z.

Definition ranked (t : Manager) (policy : placement.Policy) (daemon : bool) : list string :=
  sortBySoftAffinity t (sortByPolicy t policy (candidates t daemon)).

Lemma stable_sort_ext {A} (f g : A -> A -> bool) l :
  (forall x y, f x y = g x y) -> stable_sort f l = stable_sort g l.
Proof.
  intros H. induction l as [|x l IH]; simpl; [done|]. rewrite IH.
  generalize (stable_sort g l) as k. induction k as [|y k IHk]; simpl; [done|].
  by rewrite H, IHk.
Qed.

Lemma same_view_ranked t u policy daemon :
  same_view t u -> ranked t policy daemon = ranked u policy daemon.
Proof.
  intros H. unfold ranked. rewrite (same_view_candidates t u daemon H).
  destruct H as [Hp Hs Hc Hi Hm Hns Hnm Hst Ha Hh Hsf].
  assert (Hpol : forall l, sortByPolicy t policy l = sortByPolicy u policy l).
  { intros l. unfold sortByPolicy, sortWithShiftPolicy, sortWithNodesOrderPolicy, sortWithSpreadPolicy,
      sortWithScorePolicy, sortWithLastStartPolicy, scoreOf, lastStartOf.
    by rewrite Hs, Hp, Hst, Hi. }
  rewrite Hpol. unfold sortBySoftAffinity. rewrite Hc.
  destruct (ActorConfig_ (instConfig u)) as [cfg|]; [|done]. destruct (Nat.eqb _ _); [done|].
  apply stable_sort_ext. intros x y. by rewrite !Hsf.
Qed.

Lemma sort_subset t policy (f : string -> bool) n :
  n ∈ sortBySoftAffinity t (sortByPolicy t policy (List.filter f (scopeNodes t))) ->
  n ∈ List.filter f (scopeNodes t).
Proof.
  rewrite sortBySoftAffinity_perm. destruct (ranks policy) eqn:Hr.
  - by rewrite sortByPolicy_perm.
  - rewrite sortByPolicy_unranked; [|done]. set_solver.
Qed.

(** What isStartCandidateLeader computes. *)
Lemma isStartCandidateLeader_spec t daemon a max :
  object.ActorStatus_ (objStatus t) = Some a -> leadersMax a = Some max ->
  isStartCandidateLeader daemon t =
    Some (isAmongFirst (localhost t)
            (sortBySoftAffinity t (sortByPolicy t (object.PlacementPolicy a)
                                     (startCandidates t daemon))) max, t).
Proof.
  intros Ha Hm. unfold isStartCandidateLeader, bind, get, sortCandidates, actor, gets. cbn.
  unfold actor, bind. rewrite Ha. cbn. rewrite Ha. unfold leadersMax in Hm. unfold maxLeaders.
  case_decide.
  - unfold flexTarget. destruct (object.Flex a); simplify_eq/=. done.
  - by simplify_eq.
Qed.

(** The nodes that elect themselves are among the first of the ranking. *)
Lemma isStartCandidateLeader_ranked t daemon a max :
  object.ActorStatus_ (objStatus t) = Some a -> leadersMax a = Some max ->
  isStartCandidateLeader daemon t = Some (true, t) ->
  localhost t ∈ take (Z.to_nat max) (ranked t (object.PlacementPolicy a) daemon).
Proof.
  intros Ha Hm. rewrite (isStartCandidateLeader_spec t daemon a max Ha Hm). intros [= H].
  apply isAmongFirst_take in H. unfold ranked. rewrite <- startCandidates_local; [done|].
  apply (sort_subset t (object.PlacementPolicy a)). apply elem_of_take in H as (i & Hi & _).
  by eapply list_elem_of_lookup_2.
Qed.
Definition elects (daemon : bool) (t : Manager) : bool :=
  match isStartCandidateLeader daemon t with
  | Some (b, _) => b
  | None => false
  end.

(** The monitors of the nodes of an object whose views agree. *)
Record agree (ms : list Manager) (a : object.ActorStatus) (max : Z) : Prop := {
  ag_nodes : NoDup (map localhost ms);
  ag_views : forall t u, t ∈ ms -> u ∈ ms -> same_view t u;
  ag_actor : forall t, t ∈ ms -> object.ActorStatus_ (objStatus t) = Some a;
  ag_max : leadersMax a = Some max }.

Lemma elects_ranked ms a max daemon t u :
  agree ms a max -> t ∈ ms -> u ∈ ms -> elects daemon u = true ->
  localhost u ∈ take (Z.to_nat max) (ranked t (object.PlacementPolicy a) daemon).
Proof.
  intros [Hn Hv Ha Hm] Ht Hu He. rewrite (same_view_ranked t u); [|by apply Hv].
  apply isStartCandidateLeader_ranked; [by apply Ha|done|]. unfold elects in He.
  rewrite (isStartCandidateLeader_spec u daemon a max) in *; [|by auto..]. congruence.
Qed.

Lemma NoDup_elected ms (f : Manager -> bool) :
  NoDup (map localhost ms) -> NoDup (map localhost (List.filter f ms)).
Proof.
  induction ms as [|t ms IH]; simpl; [done|]. intros [Ht Hms]%NoDup_cons.
  destruct (f t); simpl; [|by apply IH]. apply NoDup_cons. split; [|by apply IH].
  intros (u & Hu & [_ Hin]%elem_of_list_filter_bool)%list_elem_of_fmap.
  apply Ht, list_elem_of_fmap. eauto.
Qed.

(** C16: the nodes of an object decide each on its own whether to start it, and
    no more of them than the object runs instances do: one for a failover
    object, the flex target for a flex one, even while a peer node thaws,
    provided that their views of the cluster agree. *)
Theorem leaders_bounded daemon ms a max :
  agree ms a max -> (length (List.filter (elects daemon) ms) <= Z.to_nat max)%nat.
Proof.
  intros Hag. destruct ms as [|t ms0] eqn:E; [simpl; lia|]. rewrite <- E in *.
  assert (Ht : t ∈ ms) by (subst; set_solver).
  trans (length (take (Z.to_nat max) (ranked t (object.PlacementPolicy a) daemon)));
    [|rewrite length_take; lia].
  rewrite <- (length_map localhost). apply submseteq_length, NoDup_submseteq.
  - by apply NoDup_elected, Hag.
  - intros n (u & -> & [Hu Hin]%elem_of_list_filter_bool)%list_elem_of_fmap.
    by eapply elects_ranked.
Qed.

Lemma ranked_perm t policy daemon : ranks policy = true -> ranked t policy daemon ≡ₚ candidates t daemon.
Proof. intros Hr. unfold ranked, candidates. by rewrite sortBySoftAffinity_perm, sortByPolicy_perm. Qed.

(** A node that is not thawing, or not deciding on its own, counts itself as its
    peers do. *)
Lemma candidates_local t daemon :
  daemon && isThawing t (localhost t) = false ->
  startCandidates t daemon = candidates t daemon.
Proof.
  intros Hth. unfold startCandidates, candidates. apply List.filter_ext. intros n.
  rewrite isStartCandidate_with, isPeerNodeThawing_spec.
  destruct (String.eqb_spec n (localhost t)) as [->|_]; simpl; [|done].
  destruct (isThawing t (localhost t)); [|done].
  destruct daemon; [done|]. done.
Qed.

Lemma ranked_elects ms a max daemon t u :
  agree ms a max -> t ∈ ms -> u ∈ ms -> ranks (object.PlacementPolicy a) = true ->
  NoDup (scopeNodes t) -> daemon && isThawing u (localhost u) = false ->
  localhost u ∈ take (Z.to_nat max) (ranked t (object.PlacementPolicy a) daemon) ->
  elects daemon u = true.
Proof.
  intros [Hn Hv Ha Hm] Ht Hu Hr Hsc Hth. rewrite (same_view_ranked t u); [|by apply Hv].
  intros Hin. unfold elects. rewrite (isStartCandidateLeader_spec u daemon a max); [|by auto..].
  rewrite candidates_local; [|done]. apply take_isAmongFirst; [|done].
  fold (ranked u (object.PlacementPolicy a) daemon). rewrite ranked_perm; [|done].
  apply NoDup_filter_bool. by rewrite (sv_scope u t) by auto.
Qed.

(** When every candidate node runs its monitor, none of them thaws, and the
    placement policy ranks the nodes, exactly the wanted number of instances is
    elected, or all of the candidates when there are less. *)
Theorem leaders_exact daemon ms t a max :
  agree ms a max -> t ∈ ms -> ranks (object.PlacementPolicy a) = true -> NoDup (scopeNodes t) ->
  (forall u, u ∈ ms -> daemon && isThawing u (localhost u) = false) ->
  (forall n, n ∈ candidates t daemon -> n ∈ map localhost ms) ->
  length (List.filter (elects daemon) ms) = Nat.min (Z.to_nat max) (length (candidates t daemon)).
Proof.
  intros Hag Ht Hr Hsc Hth Hall.
  rewrite <- (Permutation_length (ranked_perm t _ daemon Hr)), <- length_take, <- (length_map localhost).
  assert (Hnd : NoDup (ranked t (object.PlacementPolicy a) daemon)).
  { rewrite ranked_perm; [|done]. by apply NoDup_filter_bool. }
  apply Permutation_length, NoDup_Permutation.
  - by apply NoDup_elected, Hag.
  - eapply sublist_NoDup; [done|apply sublist_take].
  - intros n. rewrite list_elem_of_fmap. setoid_rewrite elem_of_list_filter_bool. split.
    + intros (u & -> & Hu & Hin). by eapply elects_ranked.
    + intros Hin. assert (Hc : n ∈ candidates t daemon).
      { rewrite <- (ranked_perm t _ daemon Hr). apply elem_of_take in Hin as (i & Hi & _).
        by eapply list_elem_of_lookup_2. }
      apply Hall, list_elem_of_fmap in Hc as (u & -> & Hu). exists u. repeat split; [|done].
      by eapply (ranked_elects ms a max daemon t u); eauto.
Qed.

(** An object whose placement policy is load avg, or none, has no leader: no
    node of it elects itself, whether the start is asked or decided by the
    daemon, nor publishes itself as the leader. *)
Theorem unranked_never_elects daemon t a :
  object.ActorStatus_ (objStatus t) = Some a ->
  one_of (object.PlacementPolicy a) [placement.LoadAvg; placement.None] = true ->
  elects daemon t = false /\ newIsLeader t <> Some (true, t).
Proof.
  intros Ha Hp. assert (Hr : ranks (object.PlacementPolicy a) = false).
  { by destruct (object.PlacementPolicy a). }
  assert (Hs : forall l, sortByPolicy t (object.PlacementPolicy a) l = []).
  { intros l. by apply sortByPolicy_unranked. }
  assert (Hsoft : sortBySoftAffinity t [] = []).
  { apply Permutation_nil. symmetry. apply sortBySoftAffinity_perm. }
  unfold elects, isStartCandidateLeader, newIsLeader, sortCandidates, actor, bind, get, gets.
  cbn. unfold actor, bind, gets. rewrite Ha. cbn. rewrite Ha, !Hs, ?Hsoft.
  destruct (maxLeaders a t) as [[]|]; cbn; [|done]. by split.
Qed.

End election.

(** ** The example cluster *)

(** The two monitors of the example agree. *)
Lemma example_agree : agree [example.m1; example.m2] example.down 1.
Proof.
  assert (H : same_view example.m1 example.m2).
  { split; try (intros n; reflexivity); try (vm_compute; reflexivity).
    intros n. change ((if String.eqb "n1" n then Some example.idle else ({["n2" := example.idle]} : gmap string Monitor) !! n) =
      (if String.eqb "n2" n then Some example.idle else ({["n1" := example.idle]} : gmap string Monitor) !! n)).
    destruct (String.eqb_spec "n1" n) as [<-|H1]; [done|].
    destruct (String.eqb_spec "n2" n) as [<-|H2]; [done|].
    by rewrite !lookup_singleton_ne. }
  assert (Hr : forall t, same_view t t) by (split; done).
  assert (Hs : same_view example.m2 example.m1) by (destruct H; split; auto).
  split; [vm_compute; apply (bool_decide_unpack _); done| | |done].
  - intros t u Ht Hu. rewrite !elem_of_cons, elem_of_nil in Ht, Hu. naive_solver.
  - intros t Ht. rewrite !elem_of_cons, elem_of_nil in Ht. naive_solver.
Qed.

Lemma leaders_bounded_witness :
  (length (List.filter (elects true) [example.m1; example.m2]) <= 1)%nat.
Proof. apply (leaders_bounded true [example.m1; example.m2] example.down 1 example_agree). Defined.

Lemma leaders_exact_witness :
  length (List.filter (elects true) [example.m1; example.m2]) = 1%nat.
Proof.
  apply (leaders_exact true [example.m1; example.m2] example.m1 example.down 1 example_agree).
  - set_solver.
  - reflexivity.
  - apply (bool_decide_unpack _). vm_compute. done.
  - intros u Hu. rewrite !elem_of_cons, elem_of_nil in Hu. destruct Hu as [->|[->|[]]]; reflexivity.
  - intros n Hn. exact Hn.
Defined.

(** The service of the example, placed by load average. *)
Definition example_load_avg : object.ActorStatus :=
  object.mkActorStatus status.Down "unfrozen" "ha" status.Down placement.LoadAvg placement.Optimal
    provisioned.PTrue topology.Failover 0 None.

Lemma unranked_never_elects_witness :
  elects false (example.m1 <| objStatus := object.mkStatus 50%Z [] 0%Z (Some example_load_avg) None |>) = false.
Proof.
  apply (unranked_never_elects false
    (example.m1 <| objStatus := object.mkStatus 50%Z [] 0%Z (Some example_load_avg) None |>) example_load_avg);
    reflexivity.
Defined.
