(* ===== verification/ImonSafety.v ===== *)
(** * daemon/imon: safety of the orchestrations

    No panic on a manager that received its object status, the actions each
    orchestration takes, the stability of the request, and the guards of the
    starts the daemon decides on its own. *)

From S2P Require Import Prelude Status Naming Instance ImonState ImonExample ImonPlacement ImonActions.
From S2P Require Import ImonRestart ImonOrchestrate ImonLogic.

Open Scope string_scope.
Import instance.
Open Scope imon_scope.

(** ** Well formed managers *)

(** A monitor that received the status of its object, an actor: its
    configuration is an actor's, the bounds of a flex object are known, the
    monitors of the peers are the monitors of other nodes, and the restart
    counts are there. *)
Record wf (t : Manager) : Prop := {
  wf_actor : exists a, object.ActorStatus_ (objStatus t) = Some a /\ actor_ok a;
  wf_config : is_Some (ActorConfig_ (instConfig t));
  wf_peers : instMonitor t !! localhost t = None;
  wf_restarts : restarts_ok (Monitor_Resources (state t)) }.

Definition all_acts : list Act :=
  [AStart; AStartStandby; AStop; AShutdown; AProvision; APreflight; AUnprovision; ADelete; AFreeze;
   AUnfreeze; ASetStopped; AUnsetStopped; AResize; ACap; AFence; ACrash; AReboot; APreMonitor; AOther].

Lemma may_all a : may all_acts a.
Proof. by destruct a. Qed.

#[export] Instance Closed_wf : Closed False wf all_acts.
Proof.
  split.
  - intros t t' [Hs Hp Hl Hc Hm _ _ _ Ho _] [Ha Hcfg Hpe Hr]. split.
    + by rewrite Ho.
    + by rewrite Hc.
    + by rewrite Hm, Hl.
    + by rewrite Hs.
  - intros f t Hf [Ha Hcfg Hpe Hr]. split; [done..|]. cbn. by apply (Hf (state t)).
  - intros e t _ [Ha Hcfg Hpe Hr]. by split.
  - right. intros t [Ha Hcfg Hpe Hr]. done.
Qed.

(** ** What a run of a method emits *)

(** Since [t0], only events that act on nothing or as one of [L]. *)
Definition emits (t0 : Manager) (L : list Act) (t : Manager) : Prop :=
  exists l, trace t = (l ++ trace t0)%list /\ Forall (allowed L) l.

(** The same, the global expect being that of [t0]. *)
Definition emits_from (t0 : Manager) (L : list Act) (t : Manager) : Prop :=
  GlobalExpect (state t) = GlobalExpect (state t0) /\ emits t0 L t.

Lemma emits_refl t L : emits t L t.
Proof. by exists []. Qed.

Lemma emits_emit t0 L e t : allowed L e -> emits t0 L t -> emits t0 L (t <| trace ::= cons e |>).
Proof.
  intros He (l & Hl & Hall). exists (e :: l). cbn. rewrite Hl. split; [done|]. by constructor.
Qed.

#[export] Instance Closed_emits t0 L : Closed True (emits t0 L) L.
Proof.
  split; [|done| |by left].
  - intros t t' [_ _ _ _ _ _ _ _ _ Htr] (l & Hl & Hall). exists l. by rewrite Htr.
  - intros e t. apply emits_emit.
Qed.

#[export] Instance Closed_emits_from t0 L : Closed True (emits_from t0 L) L.
Proof.
  split; [| | |by left].
  - intros t t' Hs [Hg Hl]. split; [by rewrite (si_state _ _ Hs)|].
    by apply (cl_fields (L := L) t).
  - intros f t Hf [Hg Hl]. split; [|done]. cbn. by rewrite (sr_expect _ _ (Hf (state t))).
  - intros e t He [Hg Hl]. split; [done|]. by apply emits_emit.
Qed.

(** ** The request of the orchestration *)

Definition request_is (s0 : Monitor) (t : Manager) : Prop := same_request s0 (state t).

Lemma same_request_trans s1 s2 s3 : same_request s1 s2 -> same_request s2 s3 -> same_request s1 s3.
Proof. intros [] []. split; try congruence; auto. Qed.

Lemma same_request_refl s : same_request s s.
Proof. by split. Qed.

#[export] Instance Closed_request s0 L : Closed True (request_is s0) L.
Proof.
  split.
  - intros t t' [Hs] H. unfold request_is. by rewrite Hs.
  - intros f t Hf H. unfold request_is. cbn. by eapply same_request_trans.
  - intros e t _ H. done.
  - by left.
Qed.

Section safety.
Context {env : Env}.

(** ** The end of an orchestration *)

(** The two changes of the request a pass makes. *)
Definition endRequest (s : Monitor) : Monitor :=
  s <| GlobalExpect := MonitorGlobalExpectNone |> <| GlobalExpectOptions := NoOptions |>
    <| OrchestrationIsDone := false |> <| OrchestrationID := 0%Z |>.
Definition abortRequest (s : Monitor) : Monitor :=
  s <| GlobalExpectOptions := NoOptions |> <| OrchestrationIsDone := true |>.

Section any_request.
Context {pn : Prop} {I : Manager -> Prop} {L : list Act} {C : Closed pn I L}.

Lemma keeps_endOrchestration :
  (forall t, I t -> I (t <| state ::= endRequest |>)) -> keeps pn I endOrchestration any.
Proof.
  intros Hend. unfold endOrchestration, changed. cbv zeta.
  eapply keeps_bind; [by apply keeps_modify_fields|intros _ _].
  eapply keeps_bind; [apply keeps_setOrchestrationVerdict|intros _ _].
  eapply keeps_bind; [apply keeps_get|intros t Ht].
  eapply keeps_bind; [apply keeps_clearStateSpokenToPeers|intros _ _].
  eapply keeps_bind; [by apply keeps_modify|intros _ _].
  eapply keeps_bind; [apply keeps_clearPending|intros _ _].
  eapply keeps_bind; [apply keeps_updateIfChange|intros _ _].
  eapply keeps_bind; [apply keeps_resumeIdleAfterOrchestration|intros _ _].
  apply keeps_when, keeps_publishOrchestrationEnded.
Qed.

Lemma keeps_orchestrateAborted :
  (forall t, I t -> I (t <| state ::= abortRequest |>)) -> keeps pn I orchestrateAborted any.
Proof.
  intros Hab. unfold orchestrateAborted, changed.
  eapply keeps_bind; [apply keeps_publishOrchestrationAborted|intros _ _].
  eapply keeps_bind; [by apply keeps_modify_fields|intros _ _].
  eapply keeps_bind; [by apply keeps_modify|intros _ _].
  apply keeps_updateIfChange.
Qed.

End any_request.

(** The orchestration of an idle node keeps what every action keeps. *)
Lemma keeps_orchestrateIdleNode {pn I} {C : Closed pn I all_acts} : keeps pn I orchestrateIdleNode any.
Proof.
  unfold orchestrateIdleNode, isDone.
  eapply keeps_bind; [apply (keeps_clearStoppedFlagOnRequest (C := C)), may_all|intros _ _].
  eapply keeps_bind; [apply (keeps_orchestrateResourceRestart' (C := C)); by repeat constructor|intros _ _].
  eapply keeps_bind; [by apply keeps_gets with (P := any)|intros d _].
  destruct d; [apply keeps_skip|].
  eapply keeps_bind; [apply keeps_get|intros t _].
  eapply keeps_bind; [apply (keeps_orchestrateGlobalExpect (C := C))|intros _ _].
  - apply Forall_forall. intros a _. apply may_all.
  - apply keeps_updateIfChange.
Qed.

(** ** The cases of a pass of orchestrate *)

(** What the pass that leads from [t] to [t'] does, [t1] being the manager after
    the cleanup of an abort. *)
Inductive pass (t t1 t' : Manager) : Prop :=
| pass_waits : t' = t1 -> pass t t1 t'
| pass_ends :
    OrchestrationID (state t1) <> 0%Z -> OrchestrationIsDone (state t1) = true ->
    statusQueued t1 = false -> orchestrationIsDoneOnAll t1 = Some (true, t1) ->
    endOrchestration t1 = Some (tt, t') -> pass t t1 t'
| pass_idle :
    node.State (nodeMonitorOf t1 (localhost t1)) = node.MonitorStateIdle ->
    statusQueued t1 = false -> orchestrateIdleNode t1 = Some (tt, t') -> pass t t1 t'
| pass_shutdown :
    node.State (nodeMonitorOf t1 (localhost t1)) = node.MonitorStateShutdownProgress ->
    LocalExpect (state t1) = MonitorLocalExpectShutdown ->
    orchestrateLocalExpectShutdown t1 = Some (tt, t') -> pass t t1 t'.

Definition aborts (t : Manager) : bool := bool_decide (GlobalExpect (state t) = MonitorGlobalExpectAborted).

Lemma reads_isConvergedGlobalExpect : reads isConvergedGlobalExpect.
Proof. intros t a t' H. unfold isConvergedGlobalExpect in H. run H; by subst. Qed.

Lemma reads_orchestrationIsDoneOnAll : reads orchestrationIsDoneOnAll.
Proof. intros t a t' H. unfold orchestrationIsDoneOnAll, AllInstanceMonitors in H. run H; by subst. Qed.

Lemma orchestrate_pass t t' :
  orchestrate t = Some (tt, t') ->
  t' = t \/ exists t1, when (aborts t) orchestrateAborted t = Some (tt, t1) /\ pass t t1 t'.
Proof.
  unfold orchestrate, isDone. fold (aborts t). intros H.
  run_step H. run_step H; [run H; by left|]. run_step H.
  run_step H; [|run H; by left]. run_step H; [|run H; by left].
  run_step H. apply reads_isConvergedGlobalExpect in E as ->. run_step H; [run H; by left|].
  right. fold (aborts t) in H. apply bind_Some in H as ([] & t1 & Ha & H). exists t1. split; [done|].
  run_step H. run_step H.
  - run_step H. pose proof (reads_orchestrationIsDoneOnAll _ _ _ E) as ->. reflect.
    run_step H; [by eapply pass_ends|]. injection H as <-. by apply pass_waits.
  - run_step H. run_step H; [injection H as <-; by apply pass_waits|].
    destruct (node.State _) eqn:En in H; try (injection H as <-; by apply pass_waits).
    + destruct (statusQueued t1) eqn:Eq; [injection H as <-; by apply pass_waits|].
      by apply pass_idle.
    + destruct (bool_decide _) eqn:El in H; [|injection H as <-; by apply pass_waits]. reflect.
      by apply pass_shutdown.
Qed.

(** ** No panic *)

Lemma wf_any_state g t :
  (forall s, Monitor_Resources (g s) = Monitor_Resources s) -> wf t -> wf (t <| state ::= g |>).
Proof. intros Hg [Ha Hc Hp Hr]. split; [done..|]. cbn. by rewrite Hg. Qed.

Lemma wf_orchestrate : keeps False wf orchestrate any.
Proof.
  unfold orchestrate, isDone.
  eapply keeps_bind; [by apply keeps_gets with (P := any)|intros d _].
  destruct d; [apply keeps_skip|].
  eapply keeps_bind; [apply keeps_get|intros t Ht].
  destruct (instStatus t !! _); [|apply keeps_skip]. destruct (nodeStatus t !! _); [|apply keeps_skip].
  eapply keeps_bind; [apply keeps_isConvergedGlobalExpect|intros c _].
  destruct (negb c); [apply keeps_skip|].
  eapply keeps_bind; [apply keeps_when, (keeps_orchestrateAborted (L := all_acts)); by intros t' Ht'; apply wf_any_state|intros _ _].
  eapply keeps_bind; [apply keeps_get|intros t' Ht'].
  destruct (negb _ && _ && _).
  { eapply keeps_bind; [apply keeps_orchestrationIsDoneOnAll|intros all _].
    apply keeps_when, (keeps_endOrchestration (L := all_acts)). intros t'' Ht''. by apply wf_any_state. }
  eapply keeps_bind; [by apply keeps_gets with (P := any)|intros d _].
  destruct d; [apply keeps_skip|].
  destruct (node.State _); try apply keeps_skip.
  - destruct (statusQueued t'); [apply keeps_skip|apply keeps_orchestrateIdleNode].
  - apply keeps_when, (keeps_orchestrateLocalExpectShutdown (L := all_acts)), may_all.
Qed.

(** C3: on a monitor that received the status of its object, a pass of
    orchestrate returns, whatever the request, the state of the instance and of
    its peers and the outcome of the commands: no nil dereference and no
    explicit panic is reached, and the monitor stays one where the next pass
    returns too. *)
Theorem orchestrate_no_panic t :
  wf t -> exists t', orchestrate t = Some (tt, t') /\ wf t'.
Proof.
  intros Ht. pose proof (wf_orchestrate t Ht) as H. unfold wp in H.
  destruct (orchestrate t) as [[[] t']|]; [|done]. exists t'. naive_solver.
Qed.

(** An instance that failed to boot and is down, before any status of its object. *)
Record boot_failed_unknown (t : Manager) : Prop := {
  bf_object : object.ActorStatus_ (objStatus t) = None;
  bf_state : State (state t) = MonitorStateBootFailed;
  bf_avail : status.Is (Avail (localStatus t))
               [status.Down; status.StandbyDown; status.NotApplicable] = true;
  bf_peers : noPeerGlobalExpect t = true }.

(** Before the first status of the object is received, a pass on an instance
    that failed to boot and is down dereferences a nil pointer: the log message
    that announces the clearing of the boot failure reads the object avail. *)
Theorem nil_object_status_panics t : boot_failed_unknown t -> orchestrateNone t = None.
Proof.
  intros [Ha Hs Hl Hp].
  assert (H1 : clearStartFailed t = Some (tt, t)).
  { unfold clearStartFailed, bind, get. by rewrite Hs. }
  assert (H2 : clearBootFailed t = None).
  { unfold clearBootFailed, bind, get. rewrite Hs, Hl, Hp. simpl. unfold actor. by rewrite Ha. }
  unfold orchestrateNone, bind. by rewrite H1, H2.
Qed.

(** ** The actions of a pass *)

(** The requests that lower the stopped flag. *)
Definition request_acts (g : MonitorGlobalExpect) : list Act :=
  (match g with
   | MonitorGlobalExpectStarted | MonitorGlobalExpectRestarted | MonitorGlobalExpectPlaced
   | MonitorGlobalExpectPlacedAt => [AUnsetStopped]
   | _ => []
   end ++ expect_acts g)%list.

(** The actions of a pass, by the state of the node and the request. *)
Definition pass_acts (t : Manager) : list Act :=
  match node.State (nodeMonitorOf t (localhost t)) with
  | node.MonitorStateIdle => (request_acts (GlobalExpect (state t)) ++ monitor_acts)%list
  | node.MonitorStateShutdownProgress => [AShutdown]
  | _ => []
  end.

Lemma emits_clearStoppedFlagOnRequest t0 :
  keeps True (emits_from t0 (request_acts (GlobalExpect (state t0)) ++ monitor_acts))
    clearStoppedFlagOnRequest any.
Proof.
  intros t Ht. pose proof (proj1 Ht) as Hg. unfold clearStoppedFlagOnRequest. apply wp_bind, wp_get.
  assert (Hk : may (request_acts (GlobalExpect (state t)) ++ monitor_acts) AUnsetStopped ->
    keeps True (emits_from t0 (request_acts (GlobalExpect (state t)) ++ monitor_acts))
      (unsetStopped;; skip) any).
  { intros Hm. eapply keeps_bind; [|intros _ _; apply keeps_skip].
    by apply (keeps_unsetStopped (L := request_acts (GlobalExpect (state t)) ++ monitor_acts)). }
  rewrite <- Hg in Ht |- *.
  destruct (GlobalExpect (state t)) eqn:E; try by split.
  all: exact (keeps_when _ _ _ (Hk eq_refl) t Ht).
Qed.

Lemma may_app_l L L' a : may L a -> may (L ++ L') a.
Proof. unfold may. rewrite !one_of_spec. set_solver. Qed.

Lemma may_app_r L L' a : may L' a -> may (L ++ L') a.
Proof. unfold may. rewrite !one_of_spec. set_solver. Qed.

Lemma may_all_of L : Forall (may L) L.
Proof. apply Forall_forall. intros a Ha. by apply one_of_spec. Qed.

Lemma emits_orchestrateIdleNode t0 :
  keeps True (emits_from t0 (request_acts (GlobalExpect (state t0)) ++ monitor_acts))
    orchestrateIdleNode any.
Proof.
  unfold orchestrateIdleNode, isDone.
  eapply keeps_bind; [apply emits_clearStoppedFlagOnRequest|intros _ _].
  eapply keeps_bind; [eapply keeps_orchestrateResourceRestart'|intros _ _].
  { eapply Forall_impl; [apply may_all_of|]. intros a. apply may_app_r. }
  eapply keeps_bind; [by apply keeps_gets with (P := any)|intros d _].
  destruct d; [apply keeps_skip|].
  eapply keeps_bind; [apply keeps_get|intros t [Hg _]].
  eapply keeps_bind; [eapply keeps_orchestrateGlobalExpect|intros _ _; apply keeps_updateIfChange].
  rewrite Hg. eapply Forall_impl; [apply may_all_of|]. intros a Ha.
  by apply may_app_l, may_app_r.
Qed.

(** What an orchestration keeps of what it reads: neither an abort nor the end
    of the orchestration moves the state of the nodes. *)
Definition same_node (t0 t : Manager) : Prop :=
  nodeMonitor t = nodeMonitor t0 /\ localhost t = localhost t0.

Lemma Closed_same_node t0 : Closed True (same_node t0) all_acts.
Proof.
  split; [|done..|by left]. intros t t' [_ _ Hl _ _ Hn _ _ _ _] [? ?]. split; congruence.
Qed.

(** The effects of the cleanup of an abort. *)
Lemma abort_emits t t1 :
  when (aborts t) orchestrateAborted t = Some (tt, t1) ->
  emits_from t [] t1 /\ same_node t t1.
Proof.
  intros H. split.
  - eapply keeps_run in H as [H _]; [exact H| |split; [done|apply emits_refl]].
    apply keeps_when, keeps_orchestrateAborted. intros t2 [Hg He]. by split.
  - eapply keeps_run in H as [H _]; [exact H| |done].
    by apply keeps_when, (keeps_orchestrateAborted (C := Closed_same_node t)).
Qed.

Lemma emits_trans t0 t1 t L L' :
  emits t0 L t1 -> emits t1 L' t -> emits t0 (L ++ L') t.
Proof.
  intros (l & Hl & Hall) (l' & Hl' & Hall'). exists (l' ++ l)%list.
  rewrite Hl', Hl, app_assoc. split; [done|]. apply Forall_app. split.
  - eapply Forall_impl; [exact Hall'|]. intros e. unfold allowed. destruct (act_of e); [apply may_app_r|done].
  - eapply Forall_impl; [exact Hall|]. intros e. unfold allowed. destruct (act_of e); [apply may_app_l|done].
Qed.

(** C1: a pass of orchestrate acts only as the request it serves says (a stop
    request never starts, provisions or deletes, a freeze never stops, and so
    on), or as the monitor of the resources says, on an idle node; on a node
    that shuts down, it only shuts the instance down; and in any other state of
    the node it takes no action. *)
Theorem orchestrate_acts t t' :
  orchestrate t = Some (tt, t') -> emits t (pass_acts t) t'.
Proof.
  intros [->|(t1 & Hab & Hp)]%orchestrate_pass; [apply emits_refl|].
  destruct (abort_emits t t1 Hab) as [[Hg He] [Hn Hl]].
  change (pass_acts t) with ([] ++ pass_acts t)%list. eapply emits_trans; [exact He|].
  unfold pass_acts, nodeMonitorOf. rewrite <- Hg, <- Hn, <- Hl.
  change (default node.zero_Monitor (nodeMonitor t1 !! localhost t1)) with (nodeMonitorOf t1 (localhost t1)).
  destruct Hp as [->|_ _ _ _ Hend|Hi _ Hrun|Hs _ Hrun].
  - apply emits_refl.
  - eapply keeps_run in Hend as [Hend _]; [exact Hend| |apply emits_refl].
    apply keeps_endOrchestration. by intros ? ?.
  - rewrite Hi. pose proof (keeps_run _ _ _ _ _ _ _ (emits_orchestrateIdleNode t1)
      (conj eq_refl (emits_refl _ _)) Hrun) as [[_ He'] _]. exact He'.
  - rewrite Hs. eapply keeps_run in Hrun as [Hrun _]; [exact Hrun| |apply emits_refl].
    by apply keeps_orchestrateLocalExpectShutdown.
Qed.

(** ** The end of an orchestration *)

(** What identifies the request, and the monitors of the peers. *)
Record request_kept (t0 t : Manager) : Prop := {
  rk_expect : GlobalExpect (state t) = GlobalExpect (state t0);
  rk_expect_at : GlobalExpectUpdatedAt (state t) = GlobalExpectUpdatedAt (state t0);
  rk_id : OrchestrationID (state t) = OrchestrationID (state t0);
  rk_monitors : instMonitor t = instMonitor t0;
  rk_localhost : localhost t = localhost t0 }.

#[local] Instance Closed_request_kept t0 : Closed True (request_kept t0) all_acts.
Proof.
  split; [| | |by left].
  - intros t t' [Hs _ Hl _ Hm _ _ _ _ _] []. split; rewrite ?Hs, ?Hl, ?Hm; done.
  - intros f t Hf []. specialize (Hf (state t)). destruct Hf. split; cbn; congruence.
  - intros e t _ []. by split.
Qed.

(** The request is the cleared one, of the same date. *)
Definition request_ended (t0 t : Manager) : Prop :=
  GlobalExpect (state t) = MonitorGlobalExpectNone /\ OrchestrationID (state t) = 0%Z /\
  GlobalExpectOptions (state t) = NoOptions /\
  GlobalExpectUpdatedAt (state t) = GlobalExpectUpdatedAt (state t0).

#[local] Instance Closed_request_ended t0 : Closed True (request_ended t0) all_acts.
Proof.
  split; [| |done|by left].
  - intros t t' [Hs _ _ _ _ _ _ _ _ _]. unfold request_ended. by rewrite Hs.
  - intros f t Hf (? & ? & ? & ?). specialize (Hf (state t)). destruct Hf. unfold request_ended. cbn.
    repeat split; congruence.
Qed.

Lemma endOrchestration_ended t t' : endOrchestration t = Some (tt, t') -> request_ended t t'.
Proof.
  unfold endOrchestration. intros H.
  run_step H. apply bind_Some in H as ([] & t1 & E1 & H). run_step H.
  apply bind_Some in H as ([] & t2 & E2 & H). run_step H.
  assert (H2 : request_kept t t2).
  { eapply (keeps_run True _ _ any) in E2 as [E2 _]; [exact E2|by apply (keeps_clearStateSpokenToPeers)|].
    eapply (keeps_run True _ _ any) in E1 as [E1 _]; [exact E1|by apply (keeps_setOrchestrationVerdict)|].
    by split. }
  eapply (keeps_run True (request_ended t) _ any) in H as [H _]; [exact H| |].
  - eapply keeps_bind; [apply keeps_clearPending|intros _ _].
    eapply keeps_bind; [apply keeps_updateIfChange|intros _ _].
    eapply keeps_bind; [apply keeps_resumeIdleAfterOrchestration|intros _ _].
    apply keeps_when, keeps_publishOrchestrationEnded.
  - unfold request_ended. cbn. by rewrite (rk_expect_at _ _ H2).
Qed.

Lemma isDoneOnAll_peers t :
  orchestrationIsDoneOnAll t = Some (true, t) ->
  map_Forall (fun _ mon => isDoneOrIdle mon = true) (instMonitor t).
Proof.
  unfold orchestrationIsDoneOnAll, AllInstanceMonitors. intros H. run H; [done|].
  match goal with E : forallb _ _ = true |- _ => rename E into Hall end.
  intros n mon Hn. rewrite forallb_forall in Hall.
  apply (Hall (n, mon)), list_elem_of_In, elem_of_map_to_list. rewrite lookup_insert_ne; [done|].
  intros <-. congruence.
Qed.

(** C17: a pass of orchestrate keeps the request it serves, its global expect,
    its date and its orchestration id, but to end it; and it ends it only when
    it is done, or aborted, on the local node, and done on every peer that
    serves one. *)
Theorem orchestrate_request t t' :
  orchestrate t = Some (tt, t') ->
  request_kept t t' \/
  request_ended t t' /\ OrchestrationID (state t) <> 0%Z /\
  (OrchestrationIsDone (state t) = true \/ GlobalExpect (state t) = MonitorGlobalExpectAborted) /\
  map_Forall (fun _ mon => isDoneOrIdle mon = true) (instMonitor t).
Proof.
  intros [->|(t1 & Hab & Hp)]%orchestrate_pass; [by left; split|].
  assert (H1 : request_kept t t1).
  { eapply (keeps_run True _ _ any) in Hab as [Hab' _]; [exact Hab'| |by split].
    apply keeps_when, (keeps_orchestrateAborted). intros u []. by split. }
  destruct Hp as [->|Hid Hdone _ Hall Hend|_ _ Hrun|_ _ Hrun].
  - by left.
  - right. apply endOrchestration_ended in Hend. apply isDoneOnAll_peers in Hall. destruct H1 as [Hg Hat Hi Hm Hl].
    rewrite Hi in Hid. rewrite Hm in Hall. unfold request_ended in *. rewrite Hat in Hend.
    repeat split; try naive_solver. unfold aborts in Hab.
    destruct (bool_decide_reflect (GlobalExpect (state t) = MonitorGlobalExpectAborted)); [by right|].
    injection Hab as <-. by left.
  - left. eapply (keeps_run True _ _ any) in Hrun as [Hrun _]; [exact Hrun| |done].
    apply keeps_orchestrateIdleNode.
  - left. eapply (keeps_run True _ _ any) in Hrun as [Hrun _]; [exact Hrun| |done].
    apply keeps_orchestrateLocalExpectShutdown, may_all.
Qed.

End safety.

(** ** The example cluster *)

Lemma example_wf : wf example.m1.
Proof.
  split.
  - exists example.down. split; [done|]. by intros ?.
  - by eexists.
  - done.
  - change (restarts_ok {["app#1" := mkResourceMonitor (Some (mkRestart 2 0%Z))]}).
    apply map_Forall_singleton. by eexists.
Qed.

Lemma orchestrate_no_panic_witness : exists t', orchestrate example.m1 = Some (tt, t') /\ wf t'.
Proof. exact (orchestrate_no_panic example.m1 example_wf). Defined.

(** The monitor of a service that failed to boot, before any object status. *)
Definition example_boot_failed : Manager :=
  example.m1 <| objStatus := object.zero_Status |>
    <| state ::= fun s => s <| State := MonitorStateBootFailed |> |>.

Lemma nil_object_status_panics_witness :
  orchestrateNone example_boot_failed = None /\ orchestrate example_boot_failed = None.
Proof.
  split; [|vm_compute; reflexivity].
  apply (nil_object_status_panics example_boot_failed). split; vm_compute; reflexivity.
Defined.

(** The service is down: its first node gets ready to start it. *)
Lemma orchestrate_acts_witness :
  orchestrate example.m1 = Some (tt, after orchestrate example.m1) /\
  emits example.m1 (pass_acts example.m1) (after orchestrate example.m1).
Proof.
  assert (H : orchestrate example.m1 = Some (tt, after orchestrate example.m1)) by (vm_compute; reflexivity).
  split; [exact H|]. exact (orchestrate_acts example.m1 _ H).
Defined.

(** A stop that is done on both nodes ends. *)
Definition example_stopped : Manager :=
  example.m1 <| state ::= fun s => s <| GlobalExpect := MonitorGlobalExpectStopped |>
                                     <| OrchestrationID := 7%Z |> <| OrchestrationIsDone := true |> |>.

Lemma orchestrate_request_witness :
  let t' := after orchestrate example_stopped in
  OrchestrationID (state t') = 0%Z /\
  (request_kept example_stopped t' \/
   request_ended example_stopped t' /\ OrchestrationID (state example_stopped) <> 0%Z /\
   (OrchestrationIsDone (state example_stopped) = true \/
    GlobalExpect (state example_stopped) = MonitorGlobalExpectAborted) /\
   map_Forall (fun _ mon => isDoneOrIdle mon = true) (instMonitor example_stopped)).
Proof.
  split; [vm_compute; reflexivity|].
  apply (orchestrate_request example_stopped). vm_compute. reflexivity.
Defined.
