(* ===== verification/ImonGuards.v ===== *)
(** * daemon/imon: what holds when the daemon starts an instance on its own

    Without a request, the daemon starts an instance in two steps: it declares
    the instance ready, which the peers see, and starts it when the ready
    period is over.  The guards of the two steps. *)

From S2P Require Import Prelude Status Naming Instance ImonState ImonExample ImonPlacement ImonActions.
From S2P Require Import ImonRestart ImonOrchestrate ImonLogic ImonSafety.

Open Scope string_scope.
Import instance.
Open Scope imon_scope.

Section guards.
Context {env : Env}.

(** ** What a publication leaves alone *)

Record published (t t' : Manager) : Prop := {
  pb_state : State (state t') = State (state t);
  pb_done : OrchestrationIsDone (state t') = OrchestrationIsDone (state t);
  pb_pending : pending t' = pending t;
  pb_status : instStatus t' = instStatus t;
  pb_ready : readyDuration t' = readyDuration t }.

#[local] Instance published_preorder : PreOrder published.
Proof.
  split; [by split|]. intros t1 t2 t3 [] []. split; congruence.
Qed.

Lemma published_replay t t' : replayDeferredEventRefresh t = Some (tt, t') -> published t t'.
Proof.
  unfold replayDeferredEventRefresh, scheduleEventRefresh, now, emit. intros H. run H; try done.
  all: unfold modify in H; injection H as <-; by split.
Qed.

Lemma published_update t t' : update t = Some (tt, t') -> published t t'.
Proof.
  unfold update, isDone, now, set, emit. intros H. run H; try done.
  unfold modify in H. injection H as <-. by split.
Qed.

Lemma published_enableMonitor t b t' : enableMonitor t = Some (b, t') -> published t t'.
Proof. unfold enableMonitor, setLocalExpect, set, changed. intros H. run H; by split. Qed.

Lemma published_updateIfChange t t' : updateIfChange t = Some (tt, t') -> published t t'.
Proof.
  unfold updateIfChange, isDone, now. intros H.
  apply bind_Some in H as ([] & t1 & E1 & H). apply published_replay in E1. trans t1; [done|].
  run_step H. run_step H; [by run H|]. run_step H.
  apply bind_Some in H as ([] & t2 & E2 & H).
  assert (Hp : published t1 t2).
  { run E2; [by eapply published_enableMonitor|done]. }
  trans t2; [done|]. run_step H. run_step H; [by run H|]. run_step H. run_step H.
  run H; apply published_update in H; (etrans; [|exact H]); by split.
Qed.

Lemma transitionTo_state s t t' :
  transitionTo s t = Some (tt, t') ->
  State (state t') = s /\ pending t' = pending t /\ instStatus t' = instStatus t /\
  readyDuration t' = readyDuration t.
Proof.
  unfold transitionTo. intros H. run_step H. run_step H. apply published_updateIfChange in H as [].
  done.
Qed.

(** ** The start of a ready instance *)

(** What makes a ready instance start: its ready period is over, the object is
    not started, the local node is still the one to start it, no peer of a
    failover object is starting or ready, and no parent is missing. *)
Record start_guard (t : Manager) : Prop := {
  sg_state : State (state t) = MonitorStateReady;
  sg_period : exists d, pending t = Some d /\ (d <= Now (trace t))%Z;
  sg_local : isLocalStarted t = false;
  sg_object : isStarted t = Some (false, t);
  sg_leader : isStartLeader t = Some (true, t);
  sg_peers : isPeerStarting t = Some (false, t);
  sg_parents : existsb (fun kv => isParentMissing (snd kv)) (map_to_list (Parents (state t))) = false }.

Lemma startedClearIfReached_not t t' :
  startedClearIfReached t = Some (false, t') ->
  t' = t /\ isLocalStarted t = false /\ isStarted t = Some (false, t).
Proof.
  unfold startedClearIfReached. intros H. run_step H. run_step H.
  - repeat run_step H; discriminate.
  - unfold isStarted, actor, bind, ret in *. destruct (object.ActorStatus_ (objStatus t)); [|done].
    destruct (isStartedActor _); [|by simplify_eq].
    cbn in H. by repeat case_match; simplify_eq.
Qed.

Lemma cancelReadyState_not t t' :
  cancelReadyState t = Some (false, t') ->
  t' = t /\ is_Some (pending t) /\ isLocalStarted t = false /\ isStarted t = Some (false, t) /\
  isStartLeader t = Some (true, t) /\ isPeerStarting t = Some (false, t).
Proof.
  unfold cancelReadyState. intros H. run_step H. run_step H; [|run H; discriminate].
  run_step H. destruct a; [run H; discriminate|].
  apply startedClearIfReached_not in E as (-> & Hl & Ho).
  run_step H. pose proof (reads_isStartLeader _ _ _ E) as ->. destruct a; [|run H; discriminate].
  run_step H. pose proof (reads_isPeerStarting _ _ _ E0) as ->. destruct a; [run H; discriminate|].
  run H. repeat split; try done.

Qed.

(** A method that takes no action. *)
Lemma quiet_run {A} (m : M A) t a t' :
  (forall t0, keeps True (emits t0 []) m any) -> m t = Some (a, t') -> emits t [] t'.
Proof. intros Hm H. eapply keeps_run in H as [H _]; [exact H|apply Hm|apply emits_refl]. Qed.

Lemma emits_trans_quiet t0 t1 t : emits t0 [] t1 -> emits t1 [] t -> emits t0 [] t.
Proof. apply (emits_trans t0 t1 t [] []). Qed.

Lemma setWaitParents_not t t' :
  setWaitParents t = Some (false, t') ->
  existsb (fun kv => isParentMissing (snd kv)) (map_to_list (Parents (state t))) = false /\
  pending t' = pending t /\ trace t' = trace t.
Proof. unfold setWaitParents, changed, set. intros H. run H; by try discriminate. Qed.

Lemma startedFromReady_guard t t' :
  State (state t) = MonitorStateReady -> startedFromReady t = Some (tt, t') ->
  emits t [] t' \/ start_guard t.
Proof.
  unfold startedFromReady, isDone, now. intros Hs H.
  run_step H. run_step H.
  { left. injection H as <-. eapply quiet_run; [|exact E]. intros; apply keeps_cancelReadyState. }
  apply cancelReadyState_not in E as (-> & [d Hd] & Hl & Ho & Hlead & Hpeer).
  run_step H. run_step H.
  { left. injection H as <-. eapply quiet_run; [|exact E]. intros; apply keeps_setWaitParents. }
  assert (Hq : emits t [] t0) by (eapply quiet_run; [|exact E]; intros; apply keeps_setWaitParents).
  apply setWaitParents_not in E as (Hpar & Hp & Htr).
  run_step H. cbv beta in H. rewrite Hp, Hd in H. run_step H. run_step H. run_step H.
  - left. eapply emits_trans_quiet; [exact Hq|]. eapply quiet_run; [|exact H].
    intros t1. eapply keeps_bind; [apply keeps_transitionTo|intros _ _; apply keeps_clearPending].
  - run_step H; [|run H; by left]. right. reflect. rewrite Htr in *. by split; eauto.
Qed.

(** The orchestration of a start acts only on a ready instance. *)
Lemma orchestrateStarted_guard t t' :
  orchestrateStarted t = Some (tt, t') -> emits t [] t' \/ start_guard t.
Proof.
  unfold orchestrateStarted. intros H. run_step H.
  assert (t0 = t) as ->. { unfold isStarted, actor, bind, ret in E. by repeat case_match; simplify_eq. }
  run_step H.
  { left. eapply quiet_run; [|exact H].
    intros t0. eapply keeps_bind; [apply keeps_startedClearIfReached|intros _ _; apply keeps_skip]. }
  run_step H. cbv beta in H. destruct (State (state t)) eqn:Hs;
    try (left; injection H as <-; apply emits_refl); try by apply startedFromReady_guard.
  all: left; eapply quiet_run; [|exact H]; intros t0;
    first [apply keeps_startedFromIdle | apply keeps_startedFromUnfrozen | apply keeps_startedFromAny
          | apply keeps_startedFromStartFailed
          | eapply keeps_bind; [apply keeps_startedClearIfReached|intros _ _; apply keeps_skip]
          | eapply keeps_bind; [apply keeps_setWaitParents|intros _ _; apply keeps_skip]].
Qed.

(** A ready state that is cancelled has no pending context left. *)
Lemma cancelReadyState_true t t' : cancelReadyState t = Some (true, t') -> pending t' = None.
Proof.
  unfold cancelReadyState, clearPending. intros H. run_step H. run_step H.
  - run_step H. run_step H.
    + run H. unfold startedClearIfReached, clearPending in E. run E; done.
    + run H; done.
  - run_step H. apply transitionTo_state in E as (_ & Hp & _). run H. congruence.
Qed.

Lemma reads_isStartable : reads isStartable.
Proof.
  unfold isStartable, isHAOrchestrateable, isStarted, actor, bind, gets, ret, reads.
  intros t a t' H. repeat (case_match; simplify_eq; try done).
Qed.

Lemma startIfStartable_guard t t' :
  startIfStartable t = Some (tt, t') ->
  emits t [] t' \/ start_guard t /\ isStartable t = Some (true, t).
Proof.
  unfold startIfStartable. intros H. run_step H. pose proof (reads_isStartable _ _ _ E) as ->.
  run_step H. run_step H.
  - left. eapply quiet_run; [|exact H]. intros t0. destruct (pending t); [|apply keeps_skip].
    apply keeps_when. eapply keeps_bind; [apply keeps_clearPending|intros _ _; apply keeps_transitionTo].
  - reflect. subst a. do 2 (run_step H; [run H; left; apply emits_refl|]).
    apply orchestrateStarted_guard in H. naive_solver.
Qed.

(** C5: When it decides on its own, the daemon starts an instance, or fences a lost peer, only
    from the ready state once the ready period is over, when the object is startable and
    neither it nor the instance is started, while the node is still the elected one, no parent
    is missing and, for an object that is not flex, no peer is starting or ready. *)
Theorem ha_start_guard t t' :
  orchestrateHAStart t = Some (tt, t') ->
  emits t [] t' \/ start_guard t /\ isStartable t = Some (true, t).
Proof.
  unfold orchestrateHAStart. intros H. run_step H. cbv beta in H.
  destruct (State (state t)) eqn:Hs; try by apply startIfStartable_guard.
  - left. eapply quiet_run; [|exact H]. intros t0. apply keeps_when.
    eapply keeps_bind; [apply keeps_enableMonitor|intros _ _; apply keeps_transitionTo].
  - left. eapply quiet_run; [|exact H]. intros t0.
    eapply keeps_bind; [apply keeps_disableMonitor|intros _ _; apply keeps_transitionTo].
  - run_step H. destruct a.
    + apply startIfStartable_guard in H as [H|[[_ (d & Hd & _)] _]].
      * left. eapply emits_trans_quiet; [|exact H]. eapply quiet_run; [|exact E].
        intros; apply keeps_cancelReadyState.
      * apply cancelReadyState_true in E. congruence.
    + apply cancelReadyState_not in E as [-> _]. by apply startIfStartable_guard.
Qed.

(** ** The way to the ready state *)

(** What makes an idle instance ready: the node is the one to start it, no peer
    acts on it, it is provisioned, no peer of a failover object is starting or
    ready, and, when the daemon decides on its own, it is neither frozen nor
    stopped and no resource of it is. *)
Record ready_guard (t : Manager) : Prop := {
  rg_expect : GlobalExpect (state t) = MonitorGlobalExpectNone ->
    IsFrozen (localStatus t) = false /\ isStopped t = false /\ StoppedResources (localStatus t) = [];
  rg_local : isLocalStarted t = false;
  rg_object : isStarted t = Some (false, t);
  rg_leader : isStartLeader t = Some (true, t);
  rg_acting : hasOtherNodeActing t = false;
  rg_provisioned : provisioned.IsOneOf (Provisioned (localStatus t))
                     [provisioned.PFalse; provisioned.Undef] = false;
  rg_peers : isPeerStarting t = Some (false, t) }.

Lemma doneAndIdle_idle t t' : doneAndIdle t = Some (tt, t') -> State (state t') = MonitorStateIdle.
Proof.
  unfold doneAndIdle. intros H. run_step H. clear E. run_step H. run_step H.
  - run_step H. unfold set, modify in H. by injection H as <-.
  - run H. by reflect.
Qed.

Lemma startedClearIfReached_idle t t' b :
  State (state t) = MonitorStateIdle -> startedClearIfReached t = Some (b, t') ->
  State (state t') = MonitorStateIdle.
Proof.
  unfold startedClearIfReached, clearPending. intros Hs H. run_step H.
  assert (Hw : forall c u, when c doneAndIdle t = Some (tt, u) -> State (state u) = MonitorStateIdle).
  { intros c u Hu. run_step Hu; [by eapply doneAndIdle_idle|by run Hu]. }
  run_step H.
  - apply bind_Some in H as ([] & t1 & E1 & H). apply Hw in E1.
    run_step H. apply published_enableMonitor in E as []. run H. cbn. congruence.
  - run_step H. assert (t0 = t) as ->.
    { unfold isStarted in E. by run E. }
    run_step H; [|by run H]. apply bind_Some in H as ([] & t1 & E1 & H). apply Hw in E1. by run H.
Qed.

(** An idle instance becomes ready to start only when the node is elected to
    start it, the object is not started, no peer acts on the instance, the
    instance is provisioned, no peer of a failover object is starting or ready,
    and, when nobody asked for the start, neither the instance nor a resource of
    it is frozen or stopped; the ready period is then armed. *)
Theorem enter_ready_guard t t' :
  State (state t) = MonitorStateIdle -> startedFromIdle t = Some (tt, t') ->
  State (state t') = MonitorStateReady ->
  ready_guard t /\ exists n, pending t' = Some (time.Add n (readyDuration t)).
Proof.
  unfold startedFromIdle, startedFromUnfrozen, createPendingWithDuration, now, emit. intros Hs H Hr.
  run_step H. destruct (_ && _) eqn:Hneg in H; [run H; congruence|].
  run_step H. run_step H.
  { run H. pose proof (startedClearIfReached_idle _ _ _ Hs E). congruence. }
  apply startedClearIfReached_not in E as (-> & Hl & Ho).
  run_step H. pose proof (reads_isStartLeader _ _ _ E) as ->. run_step H; [run H; congruence|].
  run_step H. do 2 (run_step H; [run H; congruence|]).
  run_step H. pose proof (reads_isPeerStarting _ _ _ E0) as ->. run_step H; [run H; congruence|].
  run_step H. apply transitionTo_state in E1 as (_ & _ & _ & Hrd).
  repeat run_step H. unfold modify in H. injection H as <-. reflect. subst.
  split; [|cbn; rewrite Hrd; eauto]. split; try done.
  intros Hg. rewrite bool_decide_eq_true_2 in Hneg by done. simpl in Hneg. reflect.
  repeat split; try done. by apply nil_length_inv, Nat.eqb_eq.
Qed.

End guards.

(** ** The example cluster *)

(** n1 is the elected node, ready since more than the ready period. *)
Definition example_ready : Manager :=
  example.m1 <| state ::= fun s => s <| State := MonitorStateReady |> <| IsHALeader := true |> |>
    <| pending := Some time.Second |>.

Lemma ha_start_guard_witness :
  ~ emits example_ready [] (after orchestrateHAStart example_ready) /\
  (emits example_ready [] (after orchestrateHAStart example_ready) \/
   start_guard example_ready /\ isStartable example_ready = Some (true, example_ready)).
Proof.
  split.
  - intros (l & Hl & Hall). rewrite app_nil_r in Hl. subst l.
    assert (Hex : existsb (fun e => bool_decide (act_of e = Some AStart))
                    (trace (after orchestrateHAStart example_ready)) = true) by (vm_compute; reflexivity).
    apply existsb_exists in Hex as (e & He%list_elem_of_In & Ha). reflect.
    rewrite Forall_forall in Hall. specialize (Hall e He). unfold allowed in Hall. by rewrite Ha in Hall.
  - apply (ha_start_guard example_ready). vm_compute. reflexivity.
Defined.

Definition example_elected : Manager :=
  example.m1 <| state ::= fun s => s <| IsHALeader := true |> |>.

Lemma enter_ready_guard_witness :
  State (state (after startedFromIdle example_elected)) = MonitorStateReady /\
  ready_guard example_elected /\
  exists n, pending (after startedFromIdle example_elected) =
            Some (time.Add n (readyDuration example_elected)).
Proof.
  assert (H : startedFromIdle example_elected = Some (tt, after startedFromIdle example_elected))
    by (vm_compute; reflexivity).
  assert (Hr : State (state (after startedFromIdle example_elected)) = MonitorStateReady)
    by (vm_compute; reflexivity).
  split; [exact Hr|]. exact (enter_ready_guard example_elected _ eq_refl H Hr).
Defined.
