(* ===== verification/ImonRequests.v ===== *)
(** * daemon/imon: requests and their convergence

    A request reaches one node of the object, which answers it; the nodes hand
    the most recent request over to one another until they all serve it. *)

From S2P Require Import Prelude Status Naming Instance ImonState ImonExample ImonPlacement ImonActions.
From S2P Require Import ImonRestart ImonOrchestrate ImonEvents ImonLogic.

Open Scope string_scope.
Import instance.
Open Scope imon_scope.

(** ** The most recent request *)

Lemma mostRecent_spec m nodes :
  match mostRecent m nodes with
  | (None, d) => d = time.zero
  | (Some n, d) => (0 < d)%Z /\ exists mon, m !! n = Some mon /\ isAdoptable mon = true /\ GlobalExpectUpdatedAt mon = d
  end /\
  forall n mon, n ∈ nodes -> m !! n = Some mon -> isAdoptable mon = true ->
    (GlobalExpectUpdatedAt mon <= snd (mostRecent m nodes))%Z.
Proof.
  unfold mostRecent. induction nodes as [|n nodes [IHb IHm]] using rev_ind; [simpl; set_solver|].
  rewrite foldl_app. cbn [foldl].
  destruct (foldl (mostRecentStep m) (None, time.zero) nodes) as [b d]. simpl in IHm.
  unfold mostRecentStep. destruct (m !! n) as [mon|] eqn:Hn.
  2:{ split; [done|]. intros n' mon' Hin. set_solver. }
  destruct (isAdoptable mon && _) eqn:E; reflect; simpl in *.
  - split.
    + split; [|by eauto]. destruct b as [n0|]; [lia|]. by subst d.
    + intros n' mon' [Hin| ->%list_elem_of_singleton]%elem_of_app Hm' Ha; [|by simplify_eq].
      specialize (IHm n' mon' Hin Hm' Ha). lia.
  - split; [done|]. intros n' mon' [Hin| ->%list_elem_of_singleton]%elem_of_app Hm' Ha; [by eapply IHm|].
    simplify_eq. rewrite Ha in E. simpl in E. by reflect.
Qed.

Section requests.
Context {env : Env}.

Lemma elem_of_range {A} t (m : gmap string A) n : n ∈ range t m <-> is_Some (m !! n).
Proof.
  unfold range. rewrite rangeOrder_perm, list_elem_of_fmap. split.
  - intros ([n' x] & -> & H%elem_of_map_to_list). by eexists.
  - intros [x H]. exists (n, x). by rewrite elem_of_map_to_list.
Qed.

(** What a request is, for the node that serves it. *)
Definition request (s : Monitor) : MonitorGlobalExpect * time.Time * Options * Z :=
  (GlobalExpect s, GlobalExpectUpdatedAt s, GlobalExpectOptions s, OrchestrationID s).

Definition adopts (t t' : Manager) (mon : Monitor) : Prop :=
  (GlobalExpectUpdatedAt (state t) < GlobalExpectUpdatedAt mon)%Z /\
  request (state t') = request mon /\ State (state t') = MonitorStateIdle /\
  OrchestrationIsDone (state t') = false.

Lemma savePendingOrchestration_state t t' : savePendingOrchestration t = Some (tt, t') -> state t' = state t.
Proof.
  unfold savePendingOrchestration, publishOrchestrationAborted, emit. intros H. run H; try done.
  all: unfold modify in H; by injection H as <-.
Qed.

Lemma converge_cases t t' :
  convergeGlobalExpectFromRemote t = Some (tt, t') ->
  (t' = t \/ exists n mon, instMonitor t !! n = Some mon /\ isAdoptable mon = true /\ adopts t t' mon) /\
  map_Forall (fun _ mon => isAdoptable mon = true ->
    (GlobalExpectUpdatedAt mon <= Z.max 0 (GlobalExpectUpdatedAt (state t')))%Z) (instMonitor t).
Proof.
  unfold convergeGlobalExpectFromRemote. intros H. run_step H.
  pose proof (mostRecent_spec (instMonitor t) (range t (instMonitor t))) as [Hb Hmax].
  destruct (mostRecent _ _) as [b d]. simpl in Hmax.
  assert (Hall : forall x, (d <= x)%Z -> map_Forall (fun _ mon => isAdoptable mon = true ->
    (GlobalExpectUpdatedAt mon <= x)%Z) (instMonitor t)).
  { intros x Hx n mon Hn Ha. specialize (Hmax n mon). rewrite elem_of_range in Hmax.
    specialize (Hmax ltac:(by eexists) Hn Ha). lia. }
  destruct b as [n|]; [|run H; split; [by left|apply Hall; unfold time.zero; lia]].
  destruct Hb as (Hd & mon & Hn & Ha & <-).
  run_step H; [reflect; unfold time.zero in *; lia|].
  destruct (time.After _ _) eqn:Hlt in H; reflect.
  2:{ run H. split; [by left|]. apply Hall. lia. }
  assert (Hmon : instMonitorOf t n = mon) by (unfold instMonitorOf; by rewrite Hn).
  rewrite Hmon in H. run_step H. run_step H.
  assert (Hs : state t' = state (after (set (fun s => s <| GlobalExpect := GlobalExpect mon |>
                        <| GlobalExpectUpdatedAt := GlobalExpectUpdatedAt mon |>
                        <| GlobalExpectOptions := GlobalExpectOptions mon |>
                        <| OrchestrationID := OrchestrationID mon |>
                        <| State := MonitorStateIdle |>
                        <| OrchestrationIsDone := false |>)) t)).
  { run_step H; [by apply savePendingOrchestration_state in H|by run H]. }
  split.
  - right. exists n, mon. unfold adopts, request. rewrite Hs. by cbn.
  - rewrite Hs. apply Hall. cbn. lia.
Qed.

(** A node takes over the most recent request its peers publish, with its
    date, options and orchestration id, when it is more recent than its own, and
    restarts from the idle state to serve it; else it changes nothing.  Either
    way, no peer holds a more recent one afterwards. *)
Theorem converge_most_recent t t' :
  convergeGlobalExpectFromRemote t = Some (tt, t') ->
  (t' = t \/ exists n mon, instMonitor t !! n = Some mon /\ isAdoptable mon = true /\ adopts t t' mon) /\
  map_Forall (fun _ mon => isAdoptable mon = true ->
    (GlobalExpectUpdatedAt mon <= Z.max 0 (GlobalExpectUpdatedAt (state t')))%Z) (instMonitor t).
Proof. apply converge_cases. Qed.

(** The node [t] sees the monitors [S] of the cluster. *)
Definition sees (S : gmap string Monitor) (t : Manager) : Prop :=
  S !! localhost t = Some (state t) /\ instMonitor t = delete (localhost t) S.

(** The request a node ends up with is one of the cluster's, and none is more
    recent. *)
Lemma converge_max S t t' :
  sees S t -> convergeGlobalExpectFromRemote t = Some (tt, t') ->
  map_Forall (fun _ mon => isAdoptable mon = true /\ (0 <= GlobalExpectUpdatedAt mon)%Z) S ->
  (exists n mon, S !! n = Some mon /\ request (state t') = request mon) /\
  map_Forall (fun _ mon => (GlobalExpectUpdatedAt mon <= GlobalExpectUpdatedAt (state t'))%Z) S.
Proof.
  intros [Hl Hm] [Hc Hmax]%converge_cases Hok. rewrite Hm in *.
  assert (Hge : (GlobalExpectUpdatedAt (state t) <= GlobalExpectUpdatedAt (state t'))%Z).
  { destruct Hc as [->|(n & mon & _ & _ & Hlt & Hr & _)]; [done|]. unfold request in Hr. simplify_eq. lia. }
  destruct (Hok _ _ Hl) as [_ H0]. split.
  - destruct Hc as [->|(n & mon & Hn & _ & _ & Hr & _)]; [by exists (localhost t), (state t)|].
    apply lookup_delete_Some in Hn as [_ Hn]. by exists n, mon.
  - intros n mon Hn. destruct (decide (n = localhost t)) as [->|Hne]; [by simplify_eq|].
    specialize (Hmax n mon). rewrite lookup_delete_ne in Hmax by done.
    specialize (Hmax Hn (proj1 (Hok _ _ Hn))). lia.
Qed.

(** C22: Nodes that see the same monitors converge to the same request, which is the most
    recent one of the cluster, when every global expect is one a peer may take over, its date
    is not negative, and no two different requests have the same date. *)
Theorem converge_agreement S t u t' u' :
  sees S t -> sees S u ->
  map_Forall (fun _ mon => isAdoptable mon = true /\ (0 <= GlobalExpectUpdatedAt mon)%Z) S ->
  (forall n1 n2 s1 s2, S !! n1 = Some s1 -> S !! n2 = Some s2 ->
     GlobalExpectUpdatedAt s1 = GlobalExpectUpdatedAt s2 -> request s1 = request s2) ->
  convergeGlobalExpectFromRemote t = Some (tt, t') -> convergeGlobalExpectFromRemote u = Some (tt, u') ->
  request (state t') = request (state u') /\
  exists n s, S !! n = Some s /\ request (state t') = request s /\
    map_Forall (fun _ mon => (GlobalExpectUpdatedAt mon <= GlobalExpectUpdatedAt s)%Z) S.
Proof.
  intros Ht Hu Hok Hid Et Eu.
  destruct (converge_max S t t' Ht Et Hok) as [(n1 & s1 & H1 & R1) M1].
  destruct (converge_max S u u' Hu Eu Hok) as [(n2 & s2 & H2 & R2) M2].
  assert (GlobalExpectUpdatedAt (state t') = GlobalExpectUpdatedAt s1 /\ GlobalExpectUpdatedAt (state u') = GlobalExpectUpdatedAt s2) as [D1 D2].
  { unfold request in R1, R2. by injection R1; injection R2. }
  rewrite D1 in M1. rewrite D2 in M2. split; [|by exists n1, s1].
  rewrite R1, R2. apply (Hid n1 n2); [done..|]. specialize (M1 _ _ H2). specialize (M2 _ _ H1). simpl in *. lia.
Qed.

(** ** The answer to a request *)

Inductive Answer := Accepts (id : Z) (expect : MonitorGlobalExpect) | Refuses (id : Z).

Definition answer (e : Event) : option Answer :=
  match e with
  | Pub (ObjectOrchestrationAccepted id expect _) => Some (Accepts id expect)
  | Pub (ObjectOrchestrationRefused id _) => Some (Refuses id)
  | _ => None
  end.

Definition answers (t : Manager) : list Answer := omap answer (trace t).

Lemma answers_emit t e :
  answers (t <| trace ::= cons e |>) =
  match answer e with Some a => a :: answers t | None => answers t end.
Proof. unfold answers. cbn. by destruct (answer e). Qed.

(** A step that answers nothing and serves the same request. *)
Record unanswered (t t' : Manager) : Prop := {
  ua_answers : answers t' = answers t;
  ua_request : request (state t') = request (state t);
  ua_pending : orchestrationPending t' = orchestrationPending t }.

#[local] Instance unanswered_preorder : PreOrder unanswered.
Proof. split; [by split|]. intros t1 t2 t3 [] []. split; congruence. Qed.

Lemma unanswered_doState value t b t' : doState value t = Some (b, t') -> unanswered t t'.
Proof. unfold doState. intros H. run H; try done; by split. Qed.

Lemma unanswered_doLocalExpect value t b t' : doLocalExpect value t = Some (b, t') -> unanswered t t'.
Proof. unfold doLocalExpect, setLocalExpect. intros H. run H; try done; by split. Qed.

Lemma reads_newIsLeader : reads newIsLeader.
Proof.
  intros t a t' H. unfold newIsLeader, sortCandidates, maxLeaders, flexTarget in H. by run H.
Qed.

Lemma unanswered_updateIsLeader t t' : updateIsLeader t = Some (tt, t') -> unanswered t t'.
Proof.
  unfold updateIsLeader, newIsHALeader, changed, set. intros H. run_step H. run_step H; [|by run H].
  run_step H. pose proof (reads_newIsLeader _ _ _ E) as ->.
  apply bind_Some in H as ([] & t1 & E1 & H). trans t1.
  { run E1; [|done]. unfold modify in E1. by injection E1 as <-. }
  run_step H. pose proof (reads_isStartCandidateLeader _ _ _ _ E0) as ->.
  run H; [|done]. unfold modify in H. by injection H as <-.
Qed.

Lemma unanswered_onChange t t' : onChange t = Some (tt, t') -> unanswered t t'.
Proof.
  unfold onChange, enableDelayTimer, emit. intros H. apply bind_Some in H as ([] & t1 & E1 & H). trans t1.
  { run E1; [done|]. unfold modify in E1. by injection E1 as <-. }
  run_step H. apply unanswered_updateIsLeader in E. trans t0; [done|].
  unfold modify in H. by injection H as <-.
Qed.

Lemma reads_checkGlobalExpect value g : reads (checkGlobalExpect value g).
Proof.
  intros t a t' H. unfold checkGlobalExpect, placedAtOptions, nextPlacedAtCandidate, sortCandidates,
    isRequestedStartable in H. by run H.
Qed.

Lemma savePendingOrchestration_answers t t' :
  savePendingOrchestration t = Some (tt, t') -> answers t' = answers t.
Proof.
  unfold savePendingOrchestration, publishOrchestrationAborted, emit. intros H. run H; try done.
  all: unfold modify in H; by injection H as <-.
Qed.

(** The global expect of a request answers nothing by itself, and is not the
    orchestration. *)
Lemma doGlobalExpect_answers value t b t' :
  doGlobalExpect value t = Some (b, t') ->
  answers t' = answers t /\ OrchestrationID (state t') = OrchestrationID (state t).
Proof.
  unfold doGlobalExpect, globalExpectRefused, now. intros H. run_step H; [|by run H].
  run_step H; [by run H|]. run_step H. run_step H; [by run H|].
  run_step H. apply reads_checkGlobalExpect in E as ->.
  run_step H; [|by run H]. run_step H; [by run H|].
  apply bind_Some in H as ([] & t1 & E1 & H). run H. run_step E1; [|by run E1].
  apply bind_Some in E1 as ([] & t2 & E2 & E1).
  assert (Hs : answers t2 = answers t /\ state t2 = state t).
  { run E2; [|done]. split; [by apply savePendingOrchestration_answers|by apply savePendingOrchestration_state]. }
  destruct Hs as [Ha Hs]. run E1. unfold set, modify in E1. injection E1 as <-. cbn. by rewrite Hs.
Qed.

(** A request for another global expect, while one is served, changes nothing. *)
Lemma doGlobalExpect_busy value g t b t' :
  Update_GlobalExpect value = Some g -> g <> MonitorGlobalExpectAborted ->
  OrchestrationID (state t) <> 0%Z -> doGlobalExpect value t = Some (b, t') ->
  b = false /\ unanswered t t'.
Proof.
  intros Hg Hab Hid H. unfold doGlobalExpect, globalExpectRefused in H. rewrite Hg in H.
  run_step H; [run H; by split|]. run_step H. rewrite (proj2 (Z.eqb_neq _ _) Hid) in H.
  rewrite bool_decide_eq_false_2 in H by done. by run H.
Qed.

Lemma acceptOrchestration_spec value t t' :
  acceptOrchestration value t = Some (tt, t') ->
  answers t' = Accepts (CandidateOrchestrationID value) (GlobalExpect (state t)) :: answers t /\
  state t' = (state t) <| OrchestrationID := CandidateOrchestrationID value |> /\
  orchestrationPending t' = Some (mkOrchestrationEnd (CandidateOrchestrationID value) (GlobalExpect (state t))
    (GlobalExpectUpdatedAt (state t)) false false "").
Proof.
  unfold acceptOrchestration, publishOrchestrationEnded, publishOrchestrationAccepted,
    setNextPendingOrchestration, emit. intros H. run_step H. run_step H.
  apply bind_Some in H as ([] & t1 & E1 & H).
  assert (H1 : answers t1 = answers t /\ state t1 = (state t) <| OrchestrationID := CandidateOrchestrationID value |>).
  { run E1; try done. unfold modify in E1. by injection E1 as <-. }
  destruct H1 as [Ha1 Hs1]. run_step H.
  pose proof (savePendingOrchestration_answers _ _ E) as Ha2.
  apply savePendingOrchestration_state in E as Hs2.
  run H. unfold modify in H. injection H as <-.
  split_and!; [|cbn; by rewrite Hs2, Hs1|cbn; by rewrite Hs2, Hs1].
  etrans; [apply (answers_emit t0)|]. cbn [answer]. by rewrite Ha2, Ha1, Hs2, Hs1.
Qed.

(** The two answers. *)
Definition refused (value : MonitorUpdate) (t t' : Manager) : Prop :=
  answers t' = Refuses (CandidateOrchestrationID value) :: answers t /\
  OrchestrationID (state t') = OrchestrationID (state t).

Definition accepted (value : MonitorUpdate) (t t' : Manager) : Prop :=
  answers t' = Accepts (CandidateOrchestrationID value) (GlobalExpect (state t')) :: answers t /\
  OrchestrationID (state t') = CandidateOrchestrationID value /\
  orchestrationPending t' = Some (mkOrchestrationEnd (CandidateOrchestrationID value)
    (GlobalExpect (state t')) (GlobalExpectUpdatedAt (state t')) false false "").

Lemma unanswered_id t t' : unanswered t t' -> OrchestrationID (state t') = OrchestrationID (state t).
Proof. intros [_ Hr _]. unfold request in Hr. congruence. Qed.

(** The manager before the answer, and after. *)
Lemma onSetInstanceMonitor_answer value t t' :
  onSetInstanceMonitor value t = Some (tt, t') ->
  exists b1 b2 b3 t1 t2 t3 t4,
    doState value t = Some (b1, t1) /\ doGlobalExpect value t1 = Some (b2, t2) /\
    doLocalExpect value t2 = Some (b3, t3) /\ unanswered t4 t' /\
    ((if negb (b1 && b2 && b3) then refuse value
      else if negb (change t3) then refuse value
      else when (negb (Z.eqb (CandidateOrchestrationID value) 0) &&
                 negb (Z.eqb (OrchestrationID (state t3)) (CandidateOrchestrationID value)))
             (acceptOrchestration value)) t3) = Some (tt, t4).
Proof.
  unfold onSetInstanceMonitor. intros H.
  apply bind_Some in H as (b1 & t1 & E1 & H). apply bind_Some in H as (b2 & t2 & E2 & H).
  apply bind_Some in H as (b3 & t3 & E3 & H). run_step H.
  apply bind_Some in H as ([] & t4 & E4 & H). exists b1, b2, b3, t1, t2, t3, t4.
  repeat split_and!; try done. run H; [by apply unanswered_onChange|done].
Qed.

(** C23: A request with a new, non zero, orchestration id gets exactly one answer: it is
    refused, and the id of the orchestration in progress is the one there was, or accepted,
    and the monitor serves it under its id, with the end of it to publish. A refused request
    may leave its global expect set (finding, main_cmd.go:754). *)
Theorem request_answered value t t' :
  CandidateOrchestrationID value <> 0%Z ->
  OrchestrationID (state t) <> CandidateOrchestrationID value ->
  onSetInstanceMonitor value t = Some (tt, t') ->
  refused value t t' \/ accepted value t t'.
Proof.
  intros Hc Hne (b1 & b2 & b3 & t1 & t2 & t3 & t4 & E1 & E2 & E3 & [Ha Hr Hp] & E4)%onSetInstanceMonitor_answer.
  apply unanswered_doState in E1 as U1. pose proof (unanswered_id _ _ U1) as I1.
  apply doGlobalExpect_answers in E2 as [A2 I2].
  apply unanswered_doLocalExpect in E3 as U3. pose proof (unanswered_id _ _ U3) as I3.
  assert (A3 : answers t3 = answers t).
  { rewrite (ua_answers _ _ U3), A2. apply U1. }
  assert (Href : refuse value t3 = Some (tt, t4) -> refused value t t').
  { unfold refuse, emit, modify. intros [= <-]. split; [by rewrite Ha, <- A3|].
    unfold request in Hr. cbn in *. congruence. }
  run_step E4; [by left; apply Href|]. run_step E4; [by left; apply Href|].
  rewrite (proj2 (Z.eqb_neq _ _) Hc), (proj2 (Z.eqb_neq _ _)) in E4 by congruence. simpl in E4.
  right. apply acceptOrchestration_spec in E4 as (A4 & S4 & P4).
  unfold accepted. rewrite Ha, Hp, A4, A3, P4. unfold request in Hr. rewrite S4 in Hr. cbn in Hr.
  injection Hr as Hg Hd _ Hi. by rewrite Hg, Hd, Hi.
Qed.

(** While an orchestration is in progress, a request for another global
    expect, but an abort, is refused and the request in progress is kept as it
    is: its global expect, date, options, id and pending end. *)
Theorem busy_refuses value g t t' :
  Update_GlobalExpect value = Some g -> g <> MonitorGlobalExpectAborted ->
  OrchestrationID (state t) <> 0%Z -> onSetInstanceMonitor value t = Some (tt, t') ->
  refused value t t' /\ request (state t') = request (state t) /\
  orchestrationPending t' = orchestrationPending t.
Proof.
  intros Hg Hab Hid (b1 & b2 & b3 & t1 & t2 & t3 & t4 & E1 & E2 & E3 & U5 & E4)%onSetInstanceMonitor_answer.
  apply unanswered_doState in E1 as U1. pose proof (unanswered_id _ _ U1) as I1.
  eapply doGlobalExpect_busy in E2 as [-> U2]; [|done..|congruence].
  apply unanswered_doLocalExpect in E3 as U3. rewrite andb_false_r in E4. simpl in E4.
  unfold refuse, emit, modify in E4. injection E4 as <-.
  assert (U : unanswered t t3) by (trans t1; [done|]; by trans t2).
  destruct U as [Ua Ur Up], U5 as [Va Vr Vp]. split; [|split; cbn in *; congruence]. split.
  - by rewrite Va, <- Ua.
  - unfold request in *. cbn in *. congruence.
Qed.

End requests.

(** ** The example cluster *)

(** n1 just accepted a stop; n2 served nothing yet. *)
Definition example_stop : Monitor :=
  example.idle <| GlobalExpect := MonitorGlobalExpectStopped |> <| GlobalExpectUpdatedAt := time.Minute |>
    <| OrchestrationID := 7%Z |>.

Definition example_n1 : Manager := example.m1 <| state := example_stop |>.
Definition example_n2 : Manager := example.m2 <| instMonitor := {["n1" := example_stop]} |>.

Definition converged : Manager -> Manager := after convergeGlobalExpectFromRemote.

Lemma converge_most_recent_witness :
  GlobalExpect (state (converged example_n2)) = MonitorGlobalExpectStopped /\
  (converged example_n2 = example_n2 \/
   exists n mon, instMonitor example_n2 !! n = Some mon /\ isAdoptable mon = true /\
                 adopts example_n2 (converged example_n2) mon).
Proof.
  split; [vm_compute; reflexivity|].
  apply (converge_most_recent example_n2). vm_compute. reflexivity.
Defined.

Definition example_monitors : gmap string Monitor := {["n1" := example_stop; "n2" := example.idle]}.

Lemma example_monitors_lookup n s :
  example_monitors !! n = Some s -> s = example_stop \/ s = example.idle.
Proof.
  unfold example_monitors. intros [[_ <-]|[_ H]]%lookup_insert_Some; [by left|].
  apply lookup_singleton_Some in H as [_ <-]. by right.
Qed.

Lemma converge_agreement_witness :
  request (state (converged example_n1)) = request (state (converged example_n2)) /\
  exists n s, example_monitors !! n = Some s /\ request (state (converged example_n1)) = request s /\
    map_Forall (fun _ mon => (GlobalExpectUpdatedAt mon <= GlobalExpectUpdatedAt s)%Z) example_monitors.
Proof.
  apply (converge_agreement example_monitors example_n1 example_n2).
  - split; vm_compute; reflexivity.
  - split; vm_compute; reflexivity.
  - intros n s [->| ->]%example_monitors_lookup; by split; vm_compute.
  - intros n1 n2 s1 s2 [->| ->]%example_monitors_lookup [->| ->]%example_monitors_lookup; by vm_compute.
  - vm_compute. reflexivity.
  - vm_compute. reflexivity.
Defined.

(** A freeze asked to the idle n1, and to n1 while it stops. *)
Definition example_freeze : MonitorUpdate :=
  mkMonitorUpdate (Some MonitorGlobalExpectFrozen) NoOptions None None 9%Z.

Definition answered (t : Manager) : Manager := after (onSetInstanceMonitor example_freeze) t.

Lemma request_answered_witness :
  OrchestrationID (state (answered example.m1)) = 9%Z /\
  (refused example_freeze example.m1 (answered example.m1) \/
   accepted example_freeze example.m1 (answered example.m1)).
Proof.
  split; [vm_compute; reflexivity|].
  apply (request_answered example_freeze example.m1); [done..|]. vm_compute. reflexivity.
Defined.

Lemma busy_refuses_witness : refused example_freeze example_n1 (answered example_n1).
Proof.
  apply (busy_refuses example_freeze MonitorGlobalExpectFrozen example_n1); [done..|].
  vm_compute. reflexivity.
Defined.
