(* ===== verification/ImonResources.v ===== *)
(** * daemon/imon: the restarts of the resources and the stages of a resize *)

From S2P Require Import Prelude Status Naming Instance ImonState ImonExample ImonPlacement ImonActions.
From S2P Require Import ImonRestart ImonOrchestrate ImonLogic ImonSafety ImonGuards.

Open Scope string_scope.
Import instance.
Open Scope imon_scope.

Section resources.
Context {env : Env}.

(** ** The plan of a resource *)

(** A resource the daemon may act on: enabled, not stopped, in a state that is
    not at rest, with no restart under way, no monitor action taken, and to be
    kept up on this node. *)
Record to_recover (t : Manager) (rid : string) (rcfg : ResourceConfig) (rStatus : resource.Status)
    (started : bool) : Prop := {
  tr_enabled : IsDisabled rcfg = false;
  tr_stopped : resource.IsStopped rStatus = false;
  tr_status : isRestStatus (resource.Status_ rStatus) = false;
  tr_scheduled : alreadyScheduled t (IsStandby rcfg) rid = false;
  tr_action : monitorActionCalled t = false;
  tr_wanted : IsStandby rcfg || started = true }.

(** The plan of a resource is to restart it only while restarts are left to
    it, and to run the monitor action only when the resource is monitored and
    has none left, never both; in both cases the resource is down where it
    should be up, enabled, not stopped on purpose, with no restart scheduled and
    no monitor action taken yet, and the plan itself changes nothing. *)
Theorem restart_plan_sound rid rcfg rStatus started t restart action t' :
  orchestrateResourcePlan rid rcfg rStatus started t = Some ((restart, action), t') ->
  restart || action = true ->
  t' = t /\ to_recover t rid rcfg rStatus started /\
  (restart = true /\ action = false /\ (exists r, restartOf t rid = Some r /\ (0 < Remaining r)%Z) \/
   restart = false /\ action = true /\ IsMonitored rcfg = true /\
   (restartOf t rid = None \/ exists r, restartOf t rid = Some r /\ Remaining r = 0%Z)).
Proof.
  unfold orchestrateResourcePlan. intros H Hany. run_step H.
  do 3 (run_step H; [run H; discriminate|]).
  do 2 (run_step H; [run H; discriminate|]).
  run_step H; [|run H; discriminate].
  assert (Hg : to_recover t rid rcfg rStatus started) by done.
  run H; reflect; subst; try discriminate; split_and!; try done.
  all: naive_solver.
Qed.

(** ** The restart budget *)

(** The count of [rid], spent by one restart. *)
Definition spent (r : ResourceMonitorRestart) : ResourceMonitorRestart :=
  if (0 <? Remaining r)%Z then mkRestart (Remaining r - 1) (LastAt r) else r.

Lemma scheduled_setOr standby t f t' :
  setOr standby f t = Some (tt, t') -> orOf t' standby = f (orOf t standby) /\ state t' = state t.
Proof. unfold setOr, modify, orOf. intros [= <-]. by destruct standby. Qed.

Lemma scheduleResource_spec standby rid t t' :
  scheduleResource standby rid t = Some (tt, t') ->
  (forall rid', restartOf t' rid' = if decide (rid' = rid) then spent <$> restartOf t rid else restartOf t rid') /\
  (forall rid', rid' ∈ scheduled (orOf t standby) -> rid' ∈ scheduled (orOf t' standby)) /\
  (is_Some (restartOf t rid) -> rid ∈ scheduled (orOf t' standby)).
Proof.
  unfold scheduleResource. intros H. run_step H. run_step H.
  2:{ run H. unfold restartOf. rewrite Heqo. split_and!; [|done|by intros []].
      intros rid'. case_decide; [by subst; rewrite Heqo|done]. }
  run_step H; [|run H]. run_step H. run_step H.
  apply scheduled_setOr in H as [Ho Hs].
  assert (Hr0 : Restart_ r0 = spent <$> Restart_ r).
  { unfold DecRestartRemaining in Heqo0. destruct (Restart_ r); by simplify_eq. }
  split_and!.
  - intros rid'. unfold restartOf. rewrite Hs. cbn. case_decide as Hd.
    + subst. by rewrite lookup_insert_eq, Heqo.
    + by rewrite lookup_insert_ne.
  - intros rid' Hin. rewrite Ho. cbn. apply elem_of_union. by left; destruct standby.
  - intros _. rewrite Ho. cbn. set_solver.
Qed.

(** The loop over the resources to restart, each met once. *)
Lemma scheduleResources_spec standby rids t t' :
  NoDup rids -> for_each rids (scheduleResource standby) t = Some (tt, t') ->
  (forall rid, restartOf t' rid = if decide (rid ∈ rids) then spent <$> restartOf t rid else restartOf t rid) /\
  (forall rid, rid ∈ scheduled (orOf t standby) -> rid ∈ scheduled (orOf t' standby)) /\
  (forall rid, rid ∈ rids -> is_Some (restartOf t rid) -> rid ∈ scheduled (orOf t' standby)).
Proof.
  intros Hn. revert t. induction Hn as [|x rids Hx Hn IH]; intros t H; cbn [for_each] in H.
  { run H. split_and!; [|done|set_solver]. intros rid. case_decide; [set_solver|done]. }
  run_step H. apply scheduleResource_spec in E as (Hr & Hs & Hi). apply IH in H as (Hr' & Hs' & Hi'). split_and!.
  - intros rid. rewrite Hr', Hr. destruct (decide (rid = x)) as [->|Hne].
    + rewrite decide_False by done. by rewrite decide_True by set_solver.
    + destruct (decide (rid ∈ rids)); [by rewrite decide_True by set_solver|].
      by rewrite decide_False by set_solver.
  - auto.
  - intros rid [->|Hin]%elem_of_cons Hsome; [by apply Hs', Hi|]. apply Hi'; [done|].
    rewrite Hr. case_decide; [by subst|done].
Qed.

Lemma getRidsAndDelay_rids cfg t n todo rids d rids' d' :
  getRidsAndDelay cfg t n todo rids d = Some (rids', d') ->
  rids' = (rids ++ List.filter (fun rid => bool_decide (is_Some (Config_Resources cfg !! rid)) &&
                     bool_decide (is_Some (Monitor_Resources (state t) !! rid))) todo)%list.
Proof.
  revert rids d. induction todo as [|rid todo IH]; intros rids d; cbn [getRidsAndDelay List.filter].
  { intros [= -> _]. by rewrite app_nil_r. }
  destruct (Config_Resources cfg !! rid) as [rcfg|]; [|apply IH].
  destruct (Monitor_Resources (state t) !! rid) as [rmon|]; [|apply IH].
  destruct (RestartDelay rcfg), (Restart_ rmon); simpl; intros H.
  all: try done; apply IH in H; rewrite H, <- app_assoc; done.
Qed.

Lemma restartOf_Some t rid r :
  restartOf t rid = Some r -> is_Some (Monitor_Resources (state t) !! rid).
Proof. unfold restartOf. destruct (Monitor_Resources (state t) !! rid); by eauto. Qed.

(** Scheduling the restart of resources spends one restart of each of them
    that has any left, and of no other resource, and marks them as scheduled, so
    that the plan does not restart them again before the scheduled restart: a
    resource that stays down is restarted at most as many times as configured. *)
Theorem restart_spends_budget todo standby t t' cfg rid r :
  resourceRestartSchedule todo standby t = Some (tt, t') ->
  ActorConfig_ (instConfig t) = Some cfg -> restartOf t rid = Some r ->
  if decide (rid ∈ todo /\ is_Some (Config_Resources cfg !! rid))
  then restartOf t' rid = Some (spent r) /\ alreadyScheduled t' standby rid = true
  else restartOf t' rid = Some r.
Proof.
  unfold resourceRestartSchedule, now. intros H Hcfg Hr.
  apply bind_Some in H as (cfg' & t0 & E & H).
  assert (t0 = t /\ cfg' = cfg) as [-> ->].
  { unfold actorConfig in E. rewrite Hcfg in E. by simplify_eq. }
  run_step H. run_step H. run_step H; [|run H].
  destruct p as [rids d]. pose proof (getRidsAndDelay_rids _ _ _ _ _ _ _ _ Heqo) as Hrids. simpl in Hrids.
  assert (Hin : rid ∈ rids <-> rid ∈ todo /\ is_Some (Config_Resources cfg !! rid)).
  { rewrite Hrids. rewrite list_elem_of_In, List.filter_In, <- list_elem_of_In, rangeOrder_perm, elem_of_elements.
    rewrite andb_true_iff, !bool_decide_eq_true. pose proof (restartOf_Some _ _ _ Hr). tauto. }
  assert (Hnd : NoDup rids).
  { rewrite Hrids, NoDup_ListNoDup. apply List.NoDup_filter. rewrite <- NoDup_ListNoDup, rangeOrder_perm.
    apply NoDup_elements. }
  destruct rids as [|x rids'].
  { run H. rewrite decide_False; [done|]. rewrite <- Hin. set_solver. }
  run_step H. apply scheduled_setOr in E0 as [Ho Hs]. run_step H.
  apply scheduleResources_spec in H as (Hr' & _ & Hsch); [|done].
  assert (Hr0 : restartOf t0 <| trace ::= cons (ScheduleRestart (x :: rids') standby d) |> rid = Some r).
  { unfold restartOf in *. cbn. by rewrite Hs. }
  rewrite Hr', Hr0. case_decide as Hd1; case_decide as Hd2; try tauto. split; [done|].
  unfold alreadyScheduled. apply bool_decide_eq_true. apply Hsch; [done|]. rewrite Hr0. by eexists.
Qed.

(** ** The stages of a resize *)

(** When the node runs a stage of a resize: the first one with the configuration
    of the request on the node and an instance up somewhere, the others when
    every peer is past the stage before, or has no such stage, and none
    failed. *)
Inductive resize_guard (t : Manager) : Z -> Prop :=
| resize_first :
    State (state t) = MonitorStateIdle -> hasResizeConfig t = true -> hasAnyInstanceUp t = true ->
    Provisioned (localStatus t) <> provisioned.PFalse -> resize_guard t 0
| resize_next k :
    ResizeStage (State (state t)) = Some k ->
    map_Forall (fun _ mon => hasReachedStage k (State mon) = true /\
                             State mon <> MonitorStateResizeFailure) (instMonitor t) ->
    resize_guard t (k + 1).

Lemma hasAllPeers_map_Forall t k :
  hasAnyPeerResizeFailed t = false -> hasAllPeersReachedStage t k = true ->
  map_Forall (fun _ mon => hasReachedStage k (State mon) = true /\
                           State mon <> MonitorStateResizeFailure) (instMonitor t).
Proof.
  unfold hasAnyPeerResizeFailed, hasAllPeersReachedStage. rewrite forallb_forall. intros Hf Ha n mon Hn.
  assert (Hin : In (n, mon) (map_to_list (instMonitor t))) by by apply list_elem_of_In, elem_of_map_to_list.
  split; [apply (Ha _ Hin)|]. intros Hs.
  assert (Hex : existsb (fun kv => IsOneOf (State (snd kv)) [MonitorStateResizeFailure])
                  (map_to_list (instMonitor t)) = true).
  { apply existsb_exists. exists (n, mon). split; [done|]. simpl. by rewrite Hs. }
  congruence.
Qed.

(** A resize advances in lockstep: a node runs a stage only when every peer
    ended the stage before, none failed, and the node has the configuration the
    resize was asked with; else it takes no action. *)
Theorem resize_barrier t t' :
  orchestrateResized t = Some (tt, t') ->
  emits t [] t' \/ exists stage, resize_guard t stage /\ queueResizeStage stage t = Some (tt, t').
Proof.
  unfold orchestrateResized, resizedFromStage, resizedFromIdle. intros H. run_step H. run_step H.
  - run_step H. run_step H; [left; eapply quiet_run; [|exact H]; intros; apply keeps_transitionTo|].
    run_step H; [run H; left; apply emits_refl|]. reflect. right. eexists. split; [|exact H].
    constructor; [done|by apply hasAllPeers_map_Forall].
  - destruct (State (state t)) eqn:Hs; try (left; run H; apply emits_refl).
    all: try (left; eapply quiet_run; [|exact H]; intros; apply keeps_resizedEnd).
    run_step H. run_step H; [run H; left; apply emits_refl|].
    do 2 (run_step H; [left; eapply quiet_run; [|exact H]; intros; apply keeps_transitionTo|]). reflect.
    right. exists 0%Z. split; [|done]. constructor; try done. by destruct (Provisioned (localStatus t)).
Qed.

End resources.

(** ** The example cluster *)

Definition example_app_down : resource.Status :=
  resource.mkStatus status.Down "app" false false false false false None ∅.

Lemma restart_plan_sound_witness :
  exists r, restartOf example.m1 "app#1" = Some r /\ (0 < Remaining r)%Z.
Proof.
  destruct (restart_plan_sound "app#1" example.app example_app_down true example.m1 true false example.m1)
    as (_ & _ & [(_ & _ & H)|(? & _)]); [vm_compute; reflexivity|reflexivity|exact H|discriminate].
Defined.

Definition example_scheduled : Manager := after (resourceRestartSchedule {["app#1"]} false) example.m1.

Lemma restart_spends_budget_witness :
  restartOf example_scheduled "app#1" = Some (mkRestart 1 0%Z) /\
  alreadyScheduled example_scheduled false "app#1" = true.
Proof.
  assert (E : resourceRestartSchedule {["app#1"]} false example.m1 = Some (tt, example_scheduled)).
  { unfold example_scheduled, after.
    destruct (resourceRestartSchedule {["app#1"]} false example.m1) as [[[] t]|] eqn:E; [done|].
    vm_compute in E. discriminate E. }
  pose proof (restart_spends_budget {["app#1"]} false example.m1 example_scheduled
    (example.actorConfig topology.Failover) "app#1" (mkRestart 2 0%Z) E eq_refl eq_refl) as H.
  rewrite decide_True in H; [exact H|]. split; [set_solver|]. by exists example.app.
Defined.

(** n1 is up and did the first stage, as n2. *)
Definition example_resize : Manager :=
  (example.monitor "n1" "n2" topology.Failover status.Up status.Down
    (example.actor topology.Failover status.Up 1))
    <| state ::= fun s => s <| State := MonitorStateResizeStage0 |> |>
    <| instMonitor := {["n2" := example.idle <| State := MonitorStateResizeStage0 |>]} |>.

Lemma resize_barrier_witness :
  emits example_resize [] (after orchestrateResized example_resize) \/
  exists stage, resize_guard example_resize stage /\
    queueResizeStage stage example_resize = Some (tt, after orchestrateResized example_resize).
Proof. apply (resize_barrier example_resize). vm_compute. reflexivity. Defined.
