(* ===== verification/Omon.v ===== *)
(** * daemon/omon: the object monitor

    One [Manager] per object.  Its worker caches the status, monitor and
    configuration of the instances of the object, aggregates them into the
    [object.Status] it publishes, starts the instance monitor (imon) of the
    local instance when a local configuration appears, cancels it when the
    configuration is deleted, and returns when nothing of the object is left.

    The state is threaded explicitly: a method of [*Manager] is a function to
    [option Manager], [None] being a panic.  What the method does outside of
    the manager is an [Event] of [trace], newest first; what it reads there is
    an answer of [Env]. *)

From S2P Require Import Prelude Status Naming Instance.

Open Scope string_scope.
Import instance.

Module omon.

(** ** Messages and effects *)

(** What the subscription delivers: the messages of daemon/msgbus that
    [startSubscriptions] filters on the path of the object.  [AuditStart] and
    [AuditStop] only set up the logger. *)
Inductive Msg :=
| AuditStart
| AuditStop
| InstanceMonitorUpdated (Node : string) (Value : Monitor)
| InstanceMonitorDeleted (Node : string) (OrchestrationEnd : option OrchestrationEnd)
| InstanceStatusUpdated (Node : string) (Value : Status)
| InstanceStatusDeleted (Node : string)
| InstanceConfigFor (Scope : list string) (UpdatedAt : time.Time)
| InstanceConfigUpdated (Node : string) (Value : Config)
| InstanceConfigDeleted (Node : string).

(** The messages the object monitor publishes. *)
Inductive PubMsg :=
| ObjectStatusUpdated (Value : object.Status) (SrcEv : option Msg)
| ObjectStatusDeleted
| ObjectDeleted
| ObjectStatusDone
| ObjectOrchestrationEnd (end_ : OrchestrationEnd).

(** A [context.CancelFunc] is the number of the context it cancels. *)
Definition CancelFunc := nat.

Inductive Event :=
| SetStatusData (Value : object.Status)
  (** object.StatusData.Set *)
| UnsetStatusData
| Pub (m : PubMsg)
| StartImon (ctx : CancelFunc) (scopes : list string) (ok : bool)
  (** imonStarter.Start(ctx, path, scopes), [ok] when it returns no error *)
| Cancel (ctx : CancelFunc).

Definition Trace := list Event.

(** The loops of [updateStatus] over a map. *)
Inductive Loop := AvailLoop | ProvisionedLoop | FrozenLoop | PlacementLoop.

Class Env := {
  Now : Trace -> time.Time;
  imonStarter_Start : Trace -> bool;        (** no error *)
  rangeOrder : Trace -> Loop -> list string -> list string;
  rangeOrder_perm : forall tr lp l, rangeOrder tr lp l ≡ₚ l }.

(** The [Scope] and [UpdatedAt] of the last [msgbus.InstanceConfigFor]. *)
Record ConfigFor := mkConfigFor { For_Scope : list string; For_UpdatedAt : time.Time }.

Record Manager := mkManager {
  path : naming.Path;
  isActor : bool;
  status_ : object.Status;
  imonCancel : option CancelFunc;
  instStatus : gmap string Status;
  instMonitor : gmap string Monitor;
  instConfig : gmap string Config;
  instConfigFor : ConfigFor;
  srcEvent : option Msg;
  localhost : string;
  orchestrationEnd : option OrchestrationEnd;
  trace : Trace }.

#[global] Instance eta_ConfigFor : Eta ConfigFor := fun r =>
  mkConfigFor (For_Scope r) (For_UpdatedAt r).
#[global] Instance upd_For_Scope : Upd For_Scope.
Proof. derive_upd eta_ConfigFor. Defined.

#[global] Instance eta_Manager : Eta Manager := fun r =>
  mkManager (path r) (isActor r) (status_ r) (imonCancel r) (instStatus r) (instMonitor r)
    (instConfig r) (instConfigFor r) (srcEvent r) (localhost r) (orchestrationEnd r) (trace r).
#[global] Instance upd_status_ : Upd status_.
Proof. derive_upd eta_Manager. Defined.
#[global] Instance upd_imonCancel : Upd imonCancel.
Proof. derive_upd eta_Manager. Defined.
#[global] Instance upd_instStatus : Upd instStatus.
Proof. derive_upd eta_Manager. Defined.
#[global] Instance upd_instMonitor : Upd instMonitor.
Proof. derive_upd eta_Manager. Defined.
#[global] Instance upd_instConfig : Upd instConfig.
Proof. derive_upd eta_Manager. Defined.
#[global] Instance upd_instConfigFor : Upd instConfigFor.
Proof. derive_upd eta_Manager. Defined.
#[global] Instance upd_srcEvent : Upd srcEvent.
Proof. derive_upd eta_Manager. Defined.
#[global] Instance upd_orchestrationEnd : Upd orchestrationEnd.
Proof. derive_upd eta_Manager. Defined.
#[global] Instance upd_trace : Upd trace.
Proof. derive_upd eta_Manager. Defined.

Definition emit (e : Event) (t : Manager) : Manager := t <| trace ::= cons e |>.

(** ** placement.go *)

(** [for node, monitor := range monitors]; [state] is the variable of that
    name.  [nodes] are the keys of [monitors], in the order of the iteration. *)
Fixpoint placementLoop (nodes : list string) (monitors : gmap string Monitor)
    (statuses : gmap string Status) (state : placement.State) : placement.State :=
  match nodes with
  | [] => state
  | node :: nodes' =>
      let monitor := default zero_Monitor (monitors !! node) in
      match statuses !! node with
      | None => placement.NotApplicable
      | Some instStatus =>
          if IsLeader monitor &&
             negb (status.Is (Avail instStatus) [status.Up; status.NotApplicable])
          then placement.NonOptimal
          else if negb (IsLeader monitor) &&
                  negb (status.Is (Avail instStatus)
                          [status.Down; status.StandbyUp; status.StandbyDown; status.NotApplicable])
          then placement.NonOptimal
          else placementLoop nodes' monitors statuses placement.Optimal
      end
  end.

Definition placementState (kind : naming.Kind) (avail : status.T) (nodes : list string)
    (monitors : gmap string Monitor) (statuses : gmap string Status) : placement.State :=
  if negb (bool_decide (kind = naming.KindSvc)) then placement.NotApplicable
  else if status.Is avail [status.Down; status.NotApplicable; status.Undef; status.Warn]
  then placement.NotApplicable
  else placementLoop nodes monitors statuses placement.NotApplicable.

(** ** main.go: updateStatus *)

(** The length of the counter slices. *)
Definition counters : nat := 128.

(** [counts[s]++]: an index out of range is a panic. *)
Definition increment (s : status.T) (counts : list Z) : option (list Z) :=
  if (0 <=? s)%Z && (s <? Z.of_nat (length counts))%Z
  then Some (alter Z.succ (Z.to_nat s) counts)
  else None.

(** [states[s]], for one of the named states. *)
Definition count (states : list Z) (s : status.T) : Z := default 0%Z (states !! Z.to_nat s).

Definition aggregateStatusFailover (states : list Z) : status.T :=
  let n := count states status.Up in
  if (n =? 0)%Z then status.Down
  else if (n =? 1)%Z then status.Up
  else status.Warn.

Definition aggregateStatusFlex (flex : option object.FlexStatus) (states : list Z) : status.T :=
  let n := count states status.Up in
  if (n =? 0)%Z then status.Down
  else
    match flex with
    | None => status.Warn
    | Some f =>
        if (n <? object.Min f)%Z then status.Warn
        else if (object.Max f <? n)%Z then status.Warn
        else status.Up
    end.

Definition aggregateStatus (statuses : gmap string Status) (a : object.ActorStatus)
    (statusAvailCount states : list Z) : status.T :=
  let n := Z.of_nat (size statuses) in
  if (n =? 0)%Z then status.NotApplicable
  else if (n =? count statusAvailCount status.NotApplicable)%Z then status.NotApplicable
  else if (0 <? count states status.Warn)%Z then status.Warn
  else
    match object.Topology a with
    | topology.Failover => aggregateStatusFailover states
    | topology.Flex => aggregateStatusFlex (object.Flex a) states
    | topology.Invalid => status.Undef
    end.

(** The loop that fills the two counters. *)
Fixpoint countStatus (l : list Status) (counts : list Z * list Z) : option (list Z * list Z) :=
  match l with
  | [] => Some counts
  | s :: l' =>
      statusAvailCount ← increment (Avail s) counts.1;
      statusOverallCount ← increment (Overall s) counts.2;
      countStatus l' (statusAvailCount, statusOverallCount)
  end.

Section methods.
Context `{E : Env}.

(** The values of a map, in the order of an iteration over it. *)
Definition range {A} (t : Manager) (lp : Loop) (m : gmap string A) : list A :=
  omap (fun n => m !! n) (rangeOrder (trace t) lp (map_to_list m).*1).

Definition setActor (a : object.ActorStatus) (t : Manager) : Manager :=
  t <| status_ ::= fun s => s <| object.ActorStatus_ := Some a |> |>.

(** An assignment to fields of [t.status.ActorStatus]: a nil dereference when
    the object status has no actor status. *)
Definition withActor (f : object.ActorStatus -> option object.ActorStatus) (t : Manager) :
    option Manager :=
  a ← object.ActorStatus_ (status_ t);
  a' ← f a;
  Some (setActor a' t).

Definition updateAvailOverall (t : Manager) : option Manager :=
  let zeros := replicate counters 0%Z in
  counts ← countStatus (range t AvailLoop (instStatus t)) (zeros, zeros);
  withActor (fun a =>
    let a := a <| object.UpInstancesCount := count counts.1 status.Up |> in
    let a := a <| object.Avail := aggregateStatus (instStatus t) a counts.1 counts.1 |> in
    Some (a <| object.Overall := aggregateStatus (instStatus t) a counts.1 counts.2 |>)) t.

Definition updateProvisioned (t : Manager) : option Manager :=
  withActor (fun a => Some (a <| object.Provisioned :=
    provisioned.AndAll provisioned.Undef (map Provisioned (range t ProvisionedLoop (instStatus t))) |>)) t.

Definition updateFrozen (t : Manager) : option Manager :=
  let zeroFrozenAt := map (fun s => time.IsZero (FrozenAt s)) (range t FrozenLoop (instStatus t)) in
  let n := size (instStatus t) in
  let m (b : bool) := length (filter (fun x => x = b) zeroFrozenAt) in
  withActor (fun a => Some (a <| object.Frozen :=
    if (n =? 0)%nat then "n/a"
    else if (n =? m false)%nat then "frozen"
    else if (n =? m true)%nat then "unfrozen"
    else "mixed" |>)) t.

Definition updatePlacementState (t : Manager) : option Manager :=
  withActor (fun a => Some (a <| object.PlacementState :=
    placementState (naming.Kind_ (path t)) (object.Avail a)
      (rangeOrder (trace t) PlacementLoop (map_to_list (instMonitor t)).*1)
      (instMonitor t) (instStatus t) |>)) t.

(** The published values are deep copies: later changes of [t.status] do not
    reach them. *)
Definition update (t : Manager) : Manager :=
  let t := t <| status_ ::= fun s => s <| object.UpdatedAt := Now (trace t) |> |> in
  let value := status_ t in
  let t := emit (SetStatusData value) t in
  emit (Pub (ObjectStatusUpdated value (srcEvent t))) t.

Definition updateStatus (t : Manager) : option Manager :=
  t ← (if isActor t then
         t ← updateAvailOverall t;
         t ← updateProvisioned t;
         t ← updateFrozen t;
         updatePlacementState t
       else Some t);
  Some (update t).

(** ** main.go: the local instance monitor *)

(** The cancel function and whether there is an error. *)
Definition startInstanceMonitor (scopes : list string) (t : Manager) :
    option CancelFunc * bool * Manager :=
  if (length (object.Scope (status_ t)) =? 0)%nat then (None, true, t)
  else
    let ctx := length (trace t) in
    let ok := imonStarter_Start (trace t) in
    (Some ctx, negb ok, emit (StartImon ctx scopes ok) t).

(** [cancel()], or [t.imonCancel()]: the call of a nil function is a panic. *)
Definition callCancel (cancel : option CancelFunc) (t : Manager) : option Manager :=
  c ← cancel; Some (emit (Cancel c) t).

(** The call of [startInstanceMonitor] and what its two callers do of its
    results. *)
Definition tryStart (scopes : list string) (t : Manager) : option Manager :=
  let '(cancel, err, t) := startInstanceMonitor scopes t in
  if (err : bool) then callCancel cancel t
  else Some (t <| imonCancel := cancel |>).

(** ** main.go: Start *)

Definition newFlexStatus (f : FlexConfig) : object.FlexStatus :=
  object.mkFlexStatus (Flex_Target f) (Flex_Min f) (Flex_Max f).

Definition newVolStatus (v : VolConfig) : object.VolStatus :=
  object.mkVolStatus (Pool v) (Size v).

Definition newActorStatus (c : ActorConfig) : object.ActorStatus :=
  object.mkActorStatus status.Undef "" (Orchestrate c) status.Undef (PlacementPolicy c)
    placement.Undef provisioned.Undef (Topology c) 0%Z (newFlexStatus <$> Flex c).

Definition Start (p : naming.Path) (cfg : Config) (localhost : string) : Manager :=
  mkManager p (bool_decide (is_Some (ActorConfig_ cfg)))
    (object.mkStatus (Priority cfg) (Scope cfg) time.zero
       (newActorStatus <$> ActorConfig_ cfg) (newVolStatus <$> VolConfig_ cfg))
    None ∅ ∅ ∅ (mkConfigFor [] time.zero) None localhost None [].

(** ** main.go: the handlers of worker *)

Definition onInstanceMonitorUpdated (Node : string) (Value : Monitor) (t : Manager) :
    option Manager :=
  let t := t <| srcEvent := Some (InstanceMonitorUpdated Node Value) |> in
  let t := t <| instMonitor ::= <[Node := Value]> |> in
  updateStatus t.

Definition onInstanceMonitorDeleted (Node : string) (end_ : option OrchestrationEnd)
    (t : Manager) : option Manager :=
  let t := t <| srcEvent := Some (InstanceMonitorDeleted Node end_) |> in
  let t := t <| instMonitor ::= delete Node |> in
  t ← updateStatus t;
  Some (if bool_decide (Node = localhost t) then t <| orchestrationEnd := end_ |> else t).

Definition onInstanceStatusDeleted (Node : string) (t : Manager) : option Manager :=
  let t := t <| srcEvent := Some (InstanceStatusDeleted Node) |> in
  let t := t <| instStatus ::= delete Node |> in
  updateStatus t.

(** The configuration of an absent peer is the zero one, never updated. *)
Definition onInstanceConfigFor (scope : list string) (updatedAt : time.Time) (t : Manager) :
    option Manager :=
  if time.After updatedAt (For_UpdatedAt (instConfigFor t)) then
    let l := List.filter (fun peer =>
               time.Before (Config_UpdatedAt (default zero_Config (instConfig t !! peer))) updatedAt)
               scope in
    Some (t <| instConfigFor := mkConfigFor l updatedAt |>)
  else Some t.

Definition onInstanceStatusUpdated (Node : string) (Value : Status) (t : Manager) :
    option Manager :=
  let t := t <| srcEvent := Some (InstanceStatusUpdated Node Value) |> in
  let t := t <| instStatus ::= <[Node := Value]> |> in
  updateStatus t.

(** [slices.Delete] of the first occurrence of a node. *)
Fixpoint deleteFirst (n : string) (l : list string) : list string :=
  match l with
  | [] => []
  | x :: l' => if String.eqb x n then l' else x :: deleteFirst n l'
  end.

(** The awaited peer [Node] has published a configuration recent enough. *)
Definition dropAwaited (Node : string) (Value : Config) (t : Manager) : Manager :=
  if negb (time.Before (Config_UpdatedAt Value) (For_UpdatedAt (instConfigFor t)))
  then t <| instConfigFor ::= fun f => f <| For_Scope ::= deleteFirst Node |> |>
  else t.

(** The part of the object status that comes from the configuration. *)
Definition configure (Value : Config) (s : object.Status) : object.Status :=
  let s := s <| object.Priority := Priority Value |> in
  let s := s <| object.Scope := Scope Value |> in
  let s :=
    match ActorConfig_ Value with
    | Some c =>
        let a :=
          match object.ActorStatus_ s with
          | None => newActorStatus c
          | Some a =>
              a <| object.Orchestrate := Orchestrate c |>
                <| object.PlacementPolicy := PlacementPolicy c |>
                <| object.Topology := Topology c |>
          end in
        s <| object.ActorStatus_ := Some (a <| object.Flex := newFlexStatus <$> Flex c |>) |>
    | None => s <| object.ActorStatus_ := None |>
    end in
  s <| object.VolStatus_ := newVolStatus <$> VolConfig_ Value |>.

Definition onInstanceConfigUpdated (Node : string) (Value : Config) (t : Manager) :
    option Manager :=
  let t := dropAwaited Node Value t in
  let t := t <| status_ ::= configure Value |> in
  let t := t <| srcEvent := Some (InstanceConfigUpdated Node Value) |> in
  let t := t <| instConfig ::= <[Node := Value]> |> in
  t ← (if bool_decide (Node = localhost t) && bool_decide (imonCancel t = None)
          && (0 <? length (Scope Value))%nat
       then tryStart (Scope Value) t
       else Some t);
  updateStatus t.

Definition onInstanceConfigDeleted (Node : string) (t : Manager) : option Manager :=
  t ← (if bool_decide (Node = localhost t) && bool_decide (is_Some (imonCancel t))
       then
         t ← callCancel (imonCancel t) t;
         Some (t <| imonCancel := None |>)
       else Some t);
  let t := t <| instConfig ::= delete Node |> in
  let t := t <| srcEvent := Some (InstanceConfigDeleted Node) |> in
  updateStatus t.

Definition handle (m : Msg) (t : Manager) : option Manager :=
  match m with
  | AuditStart | AuditStop => Some t
  | InstanceMonitorUpdated n v => onInstanceMonitorUpdated n v t
  | InstanceMonitorDeleted n e => onInstanceMonitorDeleted n e t
  | InstanceStatusUpdated n v => onInstanceStatusUpdated n v t
  | InstanceStatusDeleted n => onInstanceStatusDeleted n t
  | InstanceConfigFor s u => onInstanceConfigFor s u t
  | InstanceConfigUpdated n v => onInstanceConfigUpdated n v t
  | InstanceConfigDeleted n => onInstanceConfigDeleted n t
  end.

(** ** main.go: worker *)

(** The initial cache: what instance.MonitorData, StatusData and ConfigData
    hold for the path. *)
Record Data := mkData {
  Data_Monitor : gmap string Monitor;
  Data_Status : gmap string Status;
  Data_Config : gmap string Config }.

Definition initCache (d : Data) (t : Manager) : Manager :=
  let t := t <| instMonitor ::= fun m => Data_Monitor d ∪ m |> in
  let t := t <| instStatus ::= fun m => Data_Status d ∪ m |> in
  let t := t <| instConfig ::= fun m => Data_Config d ∪ m |> in
  let local := default zero_Status (instStatus t !! localhost t) in
  if negb (time.IsZero (UpdatedAt local))
  then t <| srcEvent := Some (InstanceStatusUpdated (localhost t) local) |>
  else t.

(** The part of [worker] before its loop. *)
Definition init (d : Data) (t : Manager) : option Manager :=
  let t := initCache d t in
  t ← updateStatus t;
  match instConfig t !! localhost t with
  | Some localCfg =>
      if (0 <? length (Scope localCfg))%nat then tryStart (Scope localCfg) t else Some t
  | None => Some t
  end.

(** [len(t.instConfig)+len(t.instStatus)+len(t.instMonitor)+len(t.instConfigFor.Scope) == 0] *)
Definition nothingLeft (t : Manager) : bool :=
  (size (instConfig t) + size (instStatus t) + size (instMonitor t)
   + length (For_Scope (instConfigFor t)) =? 0)%nat.

(** The loop on the messages received before the context is done, with the
    messages it leaves in the queue. *)
Fixpoint loop (msgs : list Msg) (t : Manager) : option (list Msg * Manager) :=
  if nothingLeft t then Some (msgs, t)
  else
    let t := t <| srcEvent := None |> in
    match msgs with
    | [] => Some ([], t)
    | m :: msgs' => t ← handle m t; loop msgs' t
    end.

(** [t.delete()]. *)
Definition delete_ (t : Manager) : Manager :=
  let t := emit UnsetStatusData t in
  let t := emit (Pub ObjectStatusDeleted) t in
  let t := emit (Pub ObjectDeleted) t in
  let t := emit (Pub ObjectStatusDone) t in
  match orchestrationEnd t with
  | Some ev => emit (Pub (ObjectOrchestrationEnd ev)) t
  | None => t
  end.

(** The deferred function of [worker]. *)
Definition finish (t : Manager) : Manager :=
  let t :=
    match imonCancel t with
    | Some c => (emit (Cancel c) t) <| imonCancel := None |>
    | None => t
    end in
  delete_ t.

Definition worker (d : Data) (msgs : list Msg) (t : Manager) : option Manager :=
  t ← init d t;
  r ← loop msgs t;
  Some (finish r.2).

End methods.

(** ** The aggregation

    What the aggregate of the states of the instances is, told from the
    multiset of these states only. *)

Definition occurrences (s : status.T) (l : list status.T) : Z :=
  Z.of_nat (length (filter (fun x => x = s) l)).

Definition statuses (t : Manager) : list Status := (map_to_list (instStatus t)).*2.

(** The state of an object whose instances are in the states [l], and whose
    avail states are [avails]. *)
Definition verdict (topo : topology.T) (flex : option object.FlexStatus)
    (avails l : list status.T) : status.T :=
  if decide (Forall (fun s => s = status.NotApplicable) avails) then status.NotApplicable
  else if decide (status.Warn ∈ l) then status.Warn
  else
    let n := occurrences status.Up l in
    match topo, flex with
    | topology.Failover, _ =>
        if decide (n = 0)%Z then status.Down else if decide (n = 1)%Z then status.Up else status.Warn
    | topology.Flex, None => if decide (n = 0)%Z then status.Down else status.Warn
    | topology.Flex, Some f =>
        if decide (n = 0)%Z then status.Down
        else if decide (object.Min f <= n <= object.Max f)%Z then status.Up else status.Warn
    | topology.Invalid, _ => status.Undef
    end.

Definition frozenVerdict (frozen : list bool) : string :=
  if decide (frozen = []) then "n/a"
  else if forallb id frozen then "frozen"
  else if forallb negb frozen then "unfrozen"
  else "mixed".

(** Whether an instance runs as its rank in the placement wants. *)
Definition placed (m : Monitor) (s : Status) : Prop :=
  if IsLeader m then Avail s ∈ [status.Up; status.NotApplicable]
  else Avail s ∈ [status.Down; status.StandbyUp; status.StandbyDown; status.NotApplicable].

#[global] Instance placed_dec m s : Decision (placed m s).
Proof. unfold placed. destruct (IsLeader m); apply _. Defined.

Definition placementVerdict (kind : naming.Kind) (avail : status.T) (l : list (Monitor * Status)) :
    placement.State :=
  if decide (kind <> naming.KindSvc) then placement.NotApplicable
  else if decide (avail ∈ [status.Down; status.NotApplicable; status.Undef; status.Warn])
  then placement.NotApplicable
  else if decide (l = []) then placement.NotApplicable
  else if decide (Forall (fun ms => placed ms.1 ms.2) l) then placement.Optimal
  else placement.NonOptimal.

(** The monitored instances, each with its status. *)
Definition monitored (t : Manager) : list (Monitor * Status) :=
  omap (fun nm => s ← instStatus t !! nm.1; Some (nm.2, s)) (map_to_list (instMonitor t)).

(** The states the counters have a slot for. *)
Definition representable (s : Status) : Prop :=
  (0 <= Avail s < Z.of_nat counters)%Z /\ (0 <= Overall s < Z.of_nat counters)%Z.

#[global] Instance representable_dec s : Decision (representable s).
Proof. unfold representable. apply _. Defined.

(** *** The counters *)

Lemma increment_Some s c :
  (0 <= s < Z.of_nat (length c))%Z -> increment s c = Some (alter Z.succ (Z.to_nat s) c).
Proof.
  intros H. unfold increment.
  rewrite (proj2 (Z.leb_le _ _)), (proj2 (Z.ltb_lt _ _)) by lia. done.
Qed.

Lemma count_alter c (i s : status.T) :
  (0 <= i)%Z -> (0 <= s < Z.of_nat (length c))%Z ->
  count (alter Z.succ (Z.to_nat i) c) s = (count c s + if decide (i = s) then 1 else 0)%Z.
Proof.
  intros Hi Hs. unfold count. rewrite list_lookup_alter.
  destruct (lookup_lt_is_Some_2 c (Z.to_nat s)) as [x Hx]; [lia|].
  repeat case_decide; simplify_eq; rewrite ?Hx; simpl; lia.
Qed.

Lemma occurrences_cons s x l :
  occurrences s (x :: l) = ((if decide (x = s) then 1 else 0) + occurrences s l)%Z.
Proof. unfold occurrences. rewrite filter_cons. case_decide; simpl; lia. Qed.

Lemma occurrences_perm s l1 l2 : l1 ≡ₚ l2 -> occurrences s l1 = occurrences s l2.
Proof. intros H. unfold occurrences. by rewrite H. Qed.

Lemma occurrences_nonneg s l : (0 <= occurrences s l)%Z.
Proof. unfold occurrences. lia. Qed.

Lemma occurrences_pos s l : (0 < occurrences s l)%Z <-> s ∈ l.
Proof.
  induction l as [|x l IH]; [unfold occurrences; simpl; set_solver by lia|].
  rewrite occurrences_cons, elem_of_cons, <- IH. pose proof (occurrences_nonneg s l).
  case_decide; split; intros; try (destruct_or?; [congruence|]); auto with lia.
Qed.

Lemma occurrences_all s l :
  (Z.of_nat (length l) = occurrences s l)%Z <-> Forall (fun x => x = s) l.
Proof.
  induction l as [|x l IH]; [split; [constructor|done]|].
  rewrite occurrences_cons, Forall_cons, <- IH. cbn [length].
  assert (occurrences s l <= Z.of_nat (length l))%Z.
  { unfold occurrences. pose proof (length_filter (fun x => x = s) l). lia. }
  case_decide; split; [| | |by intros [??]]; intros; destruct_and?; try split; try done; lia.
Qed.

Lemma countStatus_spec l c1 c2 :
  Forall representable l -> length c1 = counters -> length c2 = counters ->
  exists d1 d2, countStatus l (c1, c2) = Some (d1, d2) /\
    forall s, (0 <= s < Z.of_nat counters)%Z ->
      count d1 s = (count c1 s + occurrences s (map Avail l))%Z /\
      count d2 s = (count c2 s + occurrences s (map Overall l))%Z.
Proof.
  revert c1 c2. induction l as [|x l IH]; intros c1 c2 Hl H1 H2.
  - exists c1, c2. split; [done|]. intros s _. unfold occurrences. simpl. lia.
  - apply Forall_cons in Hl as [[Ha Ho] Hl]. simpl.
    rewrite !increment_Some by (rewrite ?H1, ?H2; done). simpl.
    destruct (IH (alter Z.succ (Z.to_nat (Avail x)) c1) (alter Z.succ (Z.to_nat (Overall x)) c2))
      as (d1 & d2 & -> & Hd); [done|by rewrite length_alter..|].
    exists d1, d2. split; [done|]. intros s Hs. destruct (Hd s Hs) as [-> ->].
    rewrite !occurrences_cons, !count_alter by (rewrite ?H1, ?H2; lia). lia.
Qed.

Lemma count_zeros s : count (replicate counters 0%Z) s = 0%Z.
Proof.
  unfold count. destruct (replicate counters 0%Z !! Z.to_nat s) eqn:E; [|done].
  by apply lookup_replicate in E as [-> _].
Qed.

Lemma aggregateStatus_verdict (m : gmap string Status) a avails l c1 c2 :
  length avails = size m ->
  (forall s, (0 <= s < Z.of_nat counters)%Z -> count c1 s = occurrences s avails) ->
  (forall s, (0 <= s < Z.of_nat counters)%Z -> count c2 s = occurrences s l) ->
  aggregateStatus m a c1 c2 = verdict (object.Topology a) (object.Flex a) avails l.
Proof.
  intros Hn H1 H2. unfold aggregateStatus, verdict, aggregateStatusFailover, aggregateStatusFlex.
  rewrite !H1, !H2 by (vm_compute; intuition congruence). rewrite <- Hn.
  pose proof (occurrences_all status.NotApplicable avails).
  pose proof (occurrences_pos status.Warn l).
  pose proof (occurrences_nonneg status.Up l).
  assert (length avails = 0%nat -> Forall (fun x => x = status.NotApplicable) avails).
  { intros ->%nil_length_inv. constructor. }
  destruct (Z.eqb_spec (Z.of_nat (length avails)) 0); [rewrite decide_True by auto with lia; done|].
  destruct (Z.eqb_spec (Z.of_nat (length avails)) (occurrences status.NotApplicable avails));
    case_decide; try tauto.
  destruct (Z.ltb_spec 0 (occurrences status.Warn l)); case_decide as Hw; try tauto;
    [by apply occurrences_pos in Hw; lia|].
  destruct (object.Topology a), (object.Flex a); try done;
    repeat (case_decide || case_match); reflect; try done; lia.
Qed.

(** *** Iterations over a map *)

Section aggregation.
Context `{E : Env}.

Lemma lookup_keys {A} (m : gmap string A) (l : list (string * A)) :
  (forall kv, kv ∈ l -> m !! kv.1 = Some kv.2) -> omap (fun n => m !! n) l.*1 = l.*2.
Proof.
  induction l as [|[k v] l IH]; intros H; [done|].
  pose proof (H (k, v) ltac:(left)) as Hk. cbn in *. rewrite Hk. cbn. f_equal.
  apply IH. intros kv Hkv. apply H. by right.
Qed.

(** Whatever its order, an iteration visits each value once. *)
Lemma range_perm {A} t lp (m : gmap string A) : range t lp m ≡ₚ (map_to_list m).*2.
Proof.
  unfold range. rewrite rangeOrder_perm. rewrite lookup_keys; [done|].
  intros [k v] H. by apply elem_of_map_to_list.
Qed.

Lemma range_length {A} t lp (m : gmap string A) : length (range t lp m) = size m.
Proof. by rewrite range_perm, length_fmap, length_map_to_list. Qed.

(** A non-empty list whose values are told apart by a boolean. *)
Lemma bool_filter_all (l : list bool) (b : bool) :
  length l = length (filter (fun x => x = b) l) <-> forallb (Bool.eqb b) l = true.
Proof.
  rewrite forallb_forall. induction l as [|x l IH]; [done|].
  rewrite filter_cons. pose proof (length_filter (fun x => x = b) l).
  case_decide as Hx; cbn [length].
  - subst. split.
    + intros Hl y [<-|Hy]; [by destruct b|]. apply IH; [lia|done].
    + intros Hl. f_equal. apply IH. intros y Hy. apply Hl. by right.
  - split; [lia|]. intros Hl. destruct Hx. symmetry. apply Bool.eqb_prop, Hl. by left.
Qed.

Lemma forallb_perm {A} (f : A -> bool) l1 l2 : l1 ≡ₚ l2 -> forallb f l1 = forallb f l2.
Proof. induction 1; simpl; try congruence. by rewrite !andb_assoc, (andb_comm (f y)). Qed.

Lemma frozen_verdict (l l' : list bool) :
  l ≡ₚ l' ->
  (if (length l =? 0)%nat then "n/a"
   else if (length l =? length (filter (fun x => x = false) l))%nat then "frozen"
   else if (length l =? length (filter (fun x => x = true) l))%nat then "unfrozen"
   else "mixed") = frozenVerdict (map negb l').
Proof.
  intros Hp. unfold frozenVerdict.
  assert (length l = 0 <-> map negb l' = [])%nat as Hnil.
  { rewrite Hp. destruct l'; simpl; split; done. }
  assert (forall b, length l = length (filter (fun x => x = b) l) <->
                    forallb (Bool.eqb b) l' = true)%nat as Hf.
  { intros b. by rewrite bool_filter_all, (forallb_perm _ _ _ Hp). }
  assert (forallb id (map negb l') = forallb (Bool.eqb false) l') as ->.
  { clear. induction l' as [|[] l IH]; simpl; auto. }
  assert (forallb negb (map negb l') = forallb (Bool.eqb true) l') as ->.
  { clear. induction l' as [|[] l IH]; simpl; auto. }
  pose proof (Hf true) as Ht. pose proof (Hf false) as Hff.
  destruct (Nat.eqb_spec (length l) 0); [by rewrite decide_True by tauto|].
  rewrite decide_False by tauto.
  destruct (Nat.eqb_spec (length l) (length (filter (fun x => x = false) l))),
    (forallb (Bool.eqb false) l') eqn:?; try done; try (exfalso; intuition congruence).
  destruct (Nat.eqb_spec (length l) (length (filter (fun x => x = true) l))),
    (forallb (Bool.eqb true) l') eqn:?; try done; exfalso; intuition congruence.
Qed.

(** *** Placement *)

Lemma placementLoop_spec nodes monitors statuses st (l : list (Monitor * Status)) :
  map (fun n => m ← monitors !! n; s ← statuses !! n; Some (m, s)) nodes = map Some l ->
  placementLoop nodes monitors statuses st =
    if decide (l = []) then st
    else if decide (Forall (fun ms => placed ms.1 ms.2) l) then placement.Optimal
    else placement.NonOptimal.
Proof.
  revert st l. induction nodes as [|n nodes IH]; intros st [|[m s] l] Hl; try done.
  cbn [map] in Hl. injection Hl as Hn Hl.
  destruct (monitors !! n) as [m'|] eqn:Em; [|done].
  destruct (statuses !! n) as [s'|] eqn:Es; [|done].
  cbn in Hn. injection Hn as -> ->. cbn [placementLoop]. rewrite Em, Es.
  change (default zero_Monitor (Some m)) with m.
  rewrite (decide_False (P := (m, s) :: l = [])) by done.
  rewrite (IH _ l) by done.
  assert (placed m s <->
    (IsLeader m && negb (status.Is (Avail s) [status.Up; status.NotApplicable]) = false /\
     negb (IsLeader m) && negb (status.Is (Avail s)
       [status.Down; status.StandbyUp; status.StandbyDown; status.NotApplicable]) = false)) as Hp.
  { unfold placed, status.Is. destruct (IsLeader m); rewrite <- one_of_spec; cbn [andb negb];
      destruct (one_of _ _); cbn [negb]; intuition congruence. }
  destruct (decide (placed m s)) as [Hm|Hm].
  - destruct (proj1 Hp Hm) as [-> ->].
    rewrite (decide_ext (Forall _ ((m, s) :: l)) (Forall (fun ms => placed ms.1 ms.2) l))
      by (rewrite Forall_cons; simpl; tauto).
    case_decide; [subst; by rewrite decide_True by constructor|done].
  - rewrite (decide_False (P := Forall _ ((m, s) :: l))) by (rewrite Forall_cons; simpl; tauto).
    destruct (IsLeader m && _); [done|]. destruct (negb (IsLeader m) && _); [done|].
    destruct Hm. by apply Hp.
Qed.

Lemma map_omap {A B} (f : A -> option B) l :
  (forall x, x ∈ l -> is_Some (f x)) -> map f l = map Some (omap f l).
Proof.
  induction l as [|x l IH]; intros H; [done|].
  destruct (H x ltac:(left)) as [y Hy]. cbn. rewrite Hy. cbn. f_equal.
  apply IH. intros z Hz. apply H. by right.
Qed.

Lemma placementVerdict_perm kind avail l1 l2 :
  l1 ≡ₚ l2 -> placementVerdict kind avail l1 = placementVerdict kind avail l2.
Proof.
  intros H. unfold placementVerdict.
  rewrite (decide_ext (Forall _ l1) (Forall (fun ms => placed ms.1 ms.2) l2)) by (by rewrite H).
  rewrite (decide_ext (l1 = []) (l2 = [])); [done|].
  split; intros ->; [by apply Permutation_nil|by apply Permutation_nil_r in H].
Qed.

(** Every monitored instance has a status. *)
Definition statusKnown (t : Manager) : Prop :=
  forall n, is_Some (instMonitor t !! n) -> is_Some (instStatus t !! n).

Lemma statusKnown_dom t :
  (dom (instMonitor t) : gset string) ⊆ dom (instStatus t) -> statusKnown t.
Proof. intros H n Hn. apply elem_of_dom, H. by apply elem_of_dom. Qed.

Lemma placementState_spec t kind avail nodes :
  statusKnown t -> nodes ≡ₚ (map_to_list (instMonitor t)).*1 ->
  placementState kind avail nodes (instMonitor t) (instStatus t) =
    placementVerdict kind avail (monitored t).
Proof.
  intros Hk Hp.
  set (f n := m ← instMonitor t !! n; s ← instStatus t !! n; Some (m, s)).
  assert (omap f nodes ≡ₚ monitored t) as Hm.
  { rewrite Hp. clear Hp. unfold monitored. apply reflexive_eq.
    assert (forall nm, nm ∈ map_to_list (instMonitor t) -> instMonitor t !! nm.1 = Some nm.2) as Hl.
    { intros [n m] H. by apply elem_of_map_to_list. }
    induction (map_to_list (instMonitor t)) as [|[n m] l IH]; [done|].
    pose proof (Hl (n, m) ltac:(left)) as Hn. cbn in *. unfold f at 1. rewrite Hn. cbn.
    rewrite IH by (intros nm ?; apply Hl; by right). done. }
  assert (map f nodes = map Some (omap f nodes)) as Hf.
  { apply map_omap. intros n Hn. rewrite Hp in Hn. apply list_elem_of_fmap in Hn as ([n' m] & -> & Hn).
    apply elem_of_map_to_list in Hn. cbn. destruct (Hk n') as [s Hs]; [by rewrite Hn|].
    exists (m, s). unfold f. rewrite Hn, Hs. done. }
  rewrite <- (placementVerdict_perm _ _ _ _ Hm). unfold placementState, placementVerdict.
  rewrite (placementLoop_spec _ _ _ _ _ Hf).
  unfold status.Is. destruct (bool_decide (kind = naming.KindSvc)) eqn:Hs; reflect; cbn [negb];
    [rewrite (decide_False (P := kind <> _)) by tauto|by rewrite decide_True].
  destruct (one_of avail _) eqn:Ho; reflect; [by rewrite (decide_True (P := avail ∈ _))|by rewrite (decide_False (P := avail ∈ _))].
Qed.

(** *** updateStatus *)

(** [a'] is the actor status the manager [t] publishes, [a] the one it had. *)
Record aggregated (t : Manager) (a a' : object.ActorStatus) : Prop := {
  agg_up : object.UpInstancesCount a' = occurrences status.Up (map Avail (statuses t));
  agg_avail : object.Avail a' =
    verdict (object.Topology a) (object.Flex a) (map Avail (statuses t)) (map Avail (statuses t));
  agg_overall : object.Overall a' =
    verdict (object.Topology a) (object.Flex a) (map Avail (statuses t)) (map Overall (statuses t));
  agg_frozen : object.Frozen a' = frozenVerdict (map IsFrozen (statuses t));
  agg_provisioned : existsb provisioned.says (map Provisioned (statuses t)) = true ->
    object.Provisioned a' = provisioned.verdict (map Provisioned (statuses t));
  agg_placement : statusKnown t ->
    object.PlacementState a' =
      placementVerdict (naming.Kind_ (path t)) (object.Avail a') (monitored t);
  agg_topology : object.Topology a' = object.Topology a;
  agg_flex : object.Flex a' = object.Flex a }.

Lemma provisioned_perm l1 l2 :
  l1 ≡ₚ l2 -> existsb provisioned.says l2 = true ->
  provisioned.AndAll provisioned.Undef l1 = provisioned.verdict l2.
Proof.
  intros Hp Hs.
  assert (forall x, one_of x l1 = one_of x l2) as Ho.
  { intros x. apply eq_true_iff_eq. by rewrite !one_of_spec, Hp. }
  assert (existsb provisioned.says l1 = true) as Hs1.
  { apply existsb_exists in Hs as (x & Hx & Hs). apply existsb_exists. exists x. split; [|done].
    apply list_elem_of_In. rewrite Hp. by apply list_elem_of_In. }
  rewrite provisioned.AndAll_verdict by done. unfold provisioned.verdict. simpl. by rewrite !Ho.
Qed.

Lemma range_map {A B} (f : A -> B) t lp (m : gmap string A) :
  map f (range t lp m) ≡ₚ map f (map_to_list m).*2.
Proof. apply Permutation_map, range_perm. Qed.

Lemma verdict_perm topo flex a1 a2 l1 l2 :
  a1 ≡ₚ a2 -> l1 ≡ₚ l2 -> verdict topo flex a1 l1 = verdict topo flex a2 l2.
Proof.
  intros Ha Hl. unfold verdict. rewrite (occurrences_perm _ _ _ Hl).
  rewrite (decide_ext (Forall _ a1) (Forall (fun s => s = status.NotApplicable) a2)) by (by rewrite Ha).
  by rewrite (decide_ext (status.Warn ∈ l1) (status.Warn ∈ l2)) by (by rewrite Hl).
Qed.

Lemma updateStatus_Some t a :
  isActor t = true -> object.ActorStatus_ (status_ t) = Some a ->
  Forall representable (statuses t) ->
  exists a', updateStatus t = Some (update (setActor a' t)) /\ aggregated t a a'.
Proof.
  intros Hi Ha Hr. unfold updateStatus. rewrite Hi. unfold updateAvailOverall.
  pose proof (range_perm t AvailLoop (instStatus t)) as Hp.
  destruct (countStatus_spec (range t AvailLoop (instStatus t)) (replicate counters 0%Z)
    (replicate counters 0%Z)) as (c1 & c2 & -> & Hc); [by rewrite Hp|done..|].
  cbn [mbind option_bind fst snd].
  unfold withActor. rewrite Ha. cbn [mbind option_bind fst snd].
  unfold updateProvisioned, updateFrozen, updatePlacementState, withActor.
  cbn -[aggregateStatus placementState range].
  eexists. split; [reflexivity|].
  assert (forall s, (0 <= s < Z.of_nat counters)%Z ->
    count c1 s = occurrences s (map Avail (statuses t)) /\
    count c2 s = occurrences s (map Overall (statuses t))) as Hcs.
  { intros s Hs. destruct (Hc s Hs) as [-> ->]. rewrite !count_zeros.
    split; apply occurrences_perm, range_map. }
  assert (length (map Avail (statuses t)) = size (instStatus t)) as Hn.
  { unfold statuses. by rewrite length_map, length_fmap, length_map_to_list. }
  constructor; cbn -[aggregateStatus placementState range].
  - apply Hcs. vm_compute. intuition congruence.
  - by rewrite (aggregateStatus_verdict _ _ _ (map Avail (statuses t))) by (done || apply Hcs).
  - by rewrite (aggregateStatus_verdict _ _ (map Avail (statuses t)) (map Overall (statuses t)))
      by (done || apply Hcs).
  - rewrite <- (range_length t FrozenLoop).
    erewrite <- (length_map (fun s => time.IsZero (FrozenAt s))), frozen_verdict; [|apply range_map].
    unfold IsFrozen. by rewrite <- (map_map (fun s => time.IsZero (FrozenAt s)) negb).
  - intros Hs. apply provisioned_perm; [apply range_map|done].
  - intros Hk. apply placementState_spec; [done|apply rangeOrder_perm].
  - done.
  - done.
Qed.

(** A status received from a peer, or posted to the daemon, is decoded from its
    text: the counters have a slot for each decoded state.  They have none for
    [StandbyUpWithDown], a state no text decodes to. *)
Lemma decoded_representable s avail overall :
  Avail s = status.UnmarshalText avail -> Overall s = status.UnmarshalText overall ->
  representable s.
Proof.
  assert (forall txt, 0 <= status.UnmarshalText txt < Z.of_nat counters)%Z as H.
  { intros txt. unfold status.UnmarshalText, status.toID. cbn [assoc].
    repeat case_match; vm_compute; intuition congruence. }
  intros Ha Ho. split; [rewrite Ha|rewrite Ho]; apply H.
Qed.

Lemma setActor_idem a a' t : setActor a' (setActor a t) = setActor a' t.
Proof. done. Qed.

(** C39: For every map iteration order, updateStatus publishes and stores the object status
    specified from the set of instance statuses and monitors, when these are in the states
    their texts decode to: avail, overall, up count and frozen; provisioned as soon as an
    instance tells one; placement as soon as every monitored instance has a status. The caches
    are kept. *)
Theorem updateStatus_aggregates t a :
  isActor t = true -> object.ActorStatus_ (status_ t) = Some a ->
  Forall representable (statuses t) ->
  exists t' a',
    updateStatus t = Some t' /\ object.ActorStatus_ (status_ t') = Some a' /\
    aggregated t a a' /\
    trace t' = Pub (ObjectStatusUpdated (status_ t') (srcEvent t)) :: SetStatusData (status_ t') :: trace t /\
    instStatus t' = instStatus t /\ instMonitor t' = instMonitor t /\ instConfig t' = instConfig t.
Proof.
  intros Hi Ha Hr. destruct (updateStatus_Some t a Hi Ha Hr) as (a' & Hu & Hagg).
  exists (update (setActor a' t)), a'. by split_and!.
Qed.

(** What a verdict says of the instances. *)
Lemma verdict_up topo flex avails l :
  verdict topo flex avails l = status.Up ->
  (status.Warn ∉ l) /\ (0 < occurrences status.Up l)%Z /\
  (topo = topology.Failover -> occurrences status.Up l = 1%Z) /\
  (topo = topology.Flex -> exists f, flex = Some f /\
     (object.Min f <= occurrences status.Up l <= object.Max f)%Z).
Proof.
  unfold verdict. pose proof (occurrences_nonneg status.Up l). intros Hv.
  repeat (case_decide || case_match); try done; split_and!; try done; try lia; eauto.
Qed.

Lemma verdict_excess topo flex avails n :
  n = occurrences status.Up avails ->
  (topo = topology.Failover /\ (1 < n)%Z \/
   topo = topology.Flex /\ exists f, flex = Some f /\ (0 < object.Max f < n)%Z) ->
  verdict topo flex avails avails = status.Warn.
Proof.
  intros -> Hx. unfold verdict.
  assert (0 < occurrences status.Up avails)%Z as Hpos by (destruct Hx as [[_ ?]|(_ & f & _ & ?)]; lia).
  rewrite decide_False.
  - case_decide; [done|].
    destruct Hx as [[-> ?]|(-> & f & -> & ?)]; repeat case_decide; try done; lia.
  - rewrite Forall_forall. intros Hall. apply occurrences_pos in Hpos. by specialize (Hall _ Hpos).
Qed.

(** C25: an object with more instances up than its topology allows, the sign of a
    split brain, is never published as up: its avail state is [warn].  An
    object is published up only when no instance warns, exactly one instance is
    up for a failover topology, and the number of up instances is within the
    flex bounds, known to the monitor, for a flex one. *)
Theorem excess_is_warned t a :
  isActor t = true -> object.ActorStatus_ (status_ t) = Some a ->
  Forall representable (statuses t) ->
  exists t' a',
    updateStatus t = Some t' /\ object.ActorStatus_ (status_ t') = Some a' /\
    ((0 < object.ExcessInstances (Some a'))%Z -> object.Avail a' = status.Warn) /\
    (object.Avail a' = status.Up ->
       object.ExcessInstances (Some a') = 0%Z /\
       Forall (fun s => Avail s <> status.Warn) (statuses t) /\
       (object.Topology a' = topology.Failover -> object.UpInstancesCount a' = 1%Z) /\
       (object.Topology a' = topology.Flex -> exists f, object.Flex a' = Some f /\
          (object.Min f <= object.UpInstancesCount a' <= object.Max f)%Z)).
Proof.
  intros Hi Ha Hr. destruct (updateStatus_Some t a Hi Ha Hr) as (a' & Hu & Hagg).
  exists (update (setActor a' t)), a'. split_and!; [done|done|..].
  - unfold object.ExcessInstances, object.AllowedInstances. intros Hx.
    rewrite (agg_avail _ _ _ Hagg). apply (verdict_excess _ _ _ (object.UpInstancesCount a')).
    { apply (agg_up _ _ _ Hagg). }
    rewrite <- (agg_topology _ _ _ Hagg), <- (agg_flex _ _ _ Hagg).
    destruct (_ || _) eqn:Hor in Hx; [lia|]. apply orb_false_iff in Hor as [??]. reflect.
    destruct (object.Topology a'), (object.Flex a'); try lia; [by left..|right; eauto].
  - rewrite (agg_avail _ _ _ Hagg). intros (Hw & Hpos & Hfo & Hfl)%verdict_up.
    rewrite <- (agg_up _ _ _ Hagg), <- (agg_topology _ _ _ Hagg), <- (agg_flex _ _ _ Hagg) in *.
    split_and!; [|rewrite Forall_forall; intros s Hs Hws; apply Hw; rewrite <- Hws;
      by apply (list_elem_of_fmap_2 Avail)|done|done].
    unfold object.ExcessInstances, object.AllowedInstances.
    destruct (object.Topology a') eqn:Ht; [done|by rewrite Hfo|].
    destruct (Hfl eq_refl) as (f & -> & ?).
    destruct (_ || _) eqn:Hor; [done|]. apply orb_false_iff in Hor as [??]. reflect. lia.
Qed.

End aggregation.

(** ** The worker

    The states of the worker at the head of its loop. *)

Section reachability.
Context `{E : Env}.

Inductive reaches (d : Data) (t0 : Manager) : Manager -> Prop :=
| reaches_init t : init d t0 = Some t -> reaches d t0 t
| reaches_step m t t' :
    reaches d t0 t -> nothingLeft t = false -> handle m (t <| srcEvent := None |>) = Some t' ->
    reaches d t0 t'.

(** The instance monitors started and not canceled. *)
Fixpoint live (tr : Trace) : list CancelFunc :=
  match tr with
  | [] => []
  | StartImon c _ true :: tr' => c :: live tr'
  | Cancel c :: tr' => filter (fun x => x <> c) (live tr')
  | _ :: tr' => live tr'
  end.

(** At no time of the history were two of them live. *)
Fixpoint atMostOne (tr : Trace) : Prop :=
  (length (live tr) <= 1)%nat /\ match tr with [] => True | _ :: tr' => atMostOne tr' end.

(** The effects of the worker before it returns. *)
Definition quiet (e : Event) : Prop :=
  match e with
  | SetStatusData _ | Pub (ObjectStatusUpdated _ _) | StartImon _ _ _ | Cancel _ => True
  | _ => False
  end.

(** What an update of the status leaves alone. *)
Record frame (t t' : Manager) : Prop := {
  frame_path : path t' = path t;
  frame_cancel : imonCancel t' = imonCancel t;
  frame_config : instConfig t' = instConfig t;
  frame_status : instStatus t' = instStatus t;
  frame_monitor : instMonitor t' = instMonitor t;
  frame_for : instConfigFor t' = instConfigFor t;
  frame_localhost : localhost t' = localhost t;
  frame_actor : isActor t' = isActor t;
  frame_scope : object.Scope (status_ t') = object.Scope (status_ t);
  frame_some : is_Some (object.ActorStatus_ (status_ t)) -> is_Some (object.ActorStatus_ (status_ t'));
  frame_live : live (trace t') = live (trace t);
  frame_quiet : Forall quiet (trace t) -> Forall quiet (trace t');
  frame_history : atMostOne (trace t) -> atMostOne (trace t') }.

Lemma withActor_inv f t t' : withActor f t = Some t' -> exists a, t' = setActor a t.
Proof.
  unfold withActor. destruct (object.ActorStatus_ _); [|done]. cbn.
  destruct (f _); [|done]. intros [= <-]. eauto.
Qed.

Lemma updateStatus_inv t t' :
  updateStatus t = Some t' -> t' = update t \/ exists a, t' = update (setActor a t).
Proof.
  unfold updateStatus. destruct (isActor t); [|intros [= <-]; by left].
  unfold updateAvailOverall. destruct (countStatus _ _); [|done]. cbn [mbind option_bind].
  destruct (withActor _ t) as [t1|] eqn:H1; [|done]. cbn [mbind option_bind].
  unfold updateProvisioned. destruct (withActor _ t1) as [t2|] eqn:H2; [|done]. cbn [mbind option_bind].
  unfold updateFrozen. destruct (withActor _ t2) as [t3|] eqn:H3; [|done]. cbn [mbind option_bind].
  unfold updatePlacementState. destruct (withActor _ t3) as [t4|] eqn:H4; [|done]. cbn [mbind option_bind].
  intros [= <-]. right.
  apply withActor_inv in H1 as [? ->], H2 as [? ->], H3 as [? ->], H4 as [a ->]. by exists a.
Qed.

Lemma live_bound t : atMostOne t -> (length (live t) <= 1)%nat.
Proof. by destruct t; intros []. Qed.

Lemma update_frame t : frame t (update t).
Proof.
  constructor; try done.
  - intros H. cbn. by repeat constructor.
  - intros H. cbn. by pose proof (live_bound _ H).
Qed.

Lemma updateStatus_frame t t' : updateStatus t = Some t' -> frame t t'.
Proof.
  intros [->|[a ->]]%updateStatus_inv; [apply update_frame|].
  destruct (update_frame (setActor a t)). by constructor.
Qed.

(** *** The local instance monitor *)

(** The monitor the manager can cancel is the one that runs, and it runs for a
    cached local configuration. *)
Record supervised (t : Manager) : Prop := {
  sup_live : live (trace t) = option_list (imonCancel t);
  sup_history : atMostOne (trace t);
  sup_quiet : Forall quiet (trace t);
  sup_config : is_Some (imonCancel t) -> is_Some (instConfig t !! localhost t);
  sup_started : (forall tr, imonStarter_Start tr = true) ->
    forall c, instConfig t !! localhost t = Some c -> Scope c <> [] -> is_Some (imonCancel t) }.

Lemma supervised_frame t t' : frame t t' -> supervised t -> supervised t'.
Proof.
  intros [] []. constructor; [congruence|auto|auto|..]; rewrite ?frame_cancel0, ?frame_config0, ?frame_localhost0; done.
Qed.

Lemma tryStart_live scopes t t' :
  tryStart scopes t = Some t' -> imonCancel t = None -> live (trace t) = [] -> atMostOne (trace t) ->
  Forall quiet (trace t) ->
  live (trace t') = option_list (imonCancel t') /\ atMostOne (trace t') /\ Forall quiet (trace t') /\
  instConfig t' = instConfig t /\ localhost t' = localhost t /\
  ((forall tr, imonStarter_Start tr = true) -> is_Some (imonCancel t')).
Proof.
  unfold tryStart, startInstanceMonitor. intros Ht Hc Hl Hh Hq.
  destruct (length _ =? 0)%nat; [done|]. destruct (imonStarter_Start (trace t)) eqn:Ho; cbn in Ht.
  - injection Ht as <-. cbn. rewrite Hl. cbn. split_and!; auto. by constructor.
  - injection Ht as <-. cbn. rewrite Hl, Hc. cbn. split_and!; auto; [by repeat constructor|].
    intros Hs. by rewrite Hs in Ho.
Qed.

(** A change of the cached data the instance monitor does not depend on. *)
Lemma supervised_ext t t' :
  supervised t -> trace t' = trace t -> imonCancel t' = imonCancel t ->
  instConfig t' !! localhost t' = instConfig t !! localhost t -> supervised t'.
Proof. intros [] Ht Hc Hi. constructor; rewrite ?Ht, ?Hc, ?Hi; done. Qed.

Lemma onInstanceConfigUpdated_supervised n c t t' :
  onInstanceConfigUpdated n c t = Some t' -> supervised t -> supervised t'.
Proof.
  unfold onInstanceConfigUpdated. intros H Hs.
  set (u := (dropAwaited n c t) <| status_ ::= configure c |>
              <| srcEvent := Some (InstanceConfigUpdated n c) |> <| instConfig ::= <[n := c]> |>) in H.
  assert (trace u = trace t /\ imonCancel u = imonCancel t /\ localhost u = localhost t /\
          instConfig u = <[n := c]> (instConfig t)) as (Htr & Hic & Hlh & Hcf).
  { unfold u, dropAwaited. by destruct (negb _). }
  cbv zeta in H. fold u in H. clearbody u.
  destruct (_ && _) eqn:Hb in H.
  - apply andb_true_iff in Hb as [[Hn Hc]%andb_true_iff Hsc]. reflect.
    destruct (tryStart (Scope c) u) as [v|] eqn:Hv; [|done]. cbn in H.
    apply updateStatus_frame in H. apply (supervised_frame v); [done|].
    assert (is_Some (instConfig u !! localhost u)) as Hcu.
    { rewrite Hcf, Hn. rewrite lookup_insert_eq. by eexists. }
    destruct Hs as [Hls Hhs Hqs _ _].
    destruct (tryStart_live _ _ _ Hv) as (Hl & Hh & Hq & Hci & Hlo & Hst);
      [done|by rewrite Htr, Hls, <- Hic, Hc|by rewrite Htr..|].
    constructor; try done; rewrite ?Hci, ?Hlo; auto.
  - cbn in H. apply updateStatus_frame in H. apply (supervised_frame u); [done|].
    destruct Hs as [Hl Hh Hq Hcf' Hst].
    constructor; rewrite ?Htr, ?Hic, ?Hlh, ?Hcf; try done.
    + intros [x Hx]%Hcf'. destruct (decide (n = localhost t)) as [->|].
      * rewrite lookup_insert_eq. by eexists.
      * rewrite lookup_insert_ne by done. by eexists.
    + intros Hok c'. destruct (decide (n = localhost t)) as [->|].
      * rewrite lookup_insert_eq. intros [= <-] Hne. rewrite Hlh, Hic, bool_decide_true in Hb by done.
        destruct (imonCancel t); [by eexists|]. destruct (Scope c); done.
      * rewrite lookup_insert_ne by done. eauto.
Qed.

Lemma onInstanceConfigDeleted_supervised n t t' :
  onInstanceConfigDeleted n t = Some t' -> supervised t -> supervised t'.
Proof.
  unfold onInstanceConfigDeleted. intros H [Hl Hh Hq Hcf Hst].
  destruct (_ && _) eqn:Hb in H.
  - apply andb_true_iff in Hb as [Hn [c Hc]%bool_decide_eq_true]. reflect.
    unfold callCancel in H. rewrite Hc in *. cbn [mbind option_bind] in H.
    apply updateStatus_frame in H. eapply supervised_frame; [done|].
    constructor; cbn; rewrite ?Hl; cbn.
    + by rewrite decide_False by tauto.
    + rewrite decide_False by tauto. cbn. auto.
    + by constructor.
    + by intros [].
    + rewrite Hn, lookup_delete_eq. done.
  - cbn [mbind option_bind] in H. apply updateStatus_frame in H. eapply supervised_frame; [done|].
    destruct (decide (n = localhost t)) as [->|].
    + rewrite bool_decide_true in Hb by done. apply bool_decide_eq_false in Hb.
      constructor; cbn; try done. by rewrite lookup_delete_eq.
    + apply (supervised_ext t); [done..|]. cbn. by rewrite lookup_delete_ne.
Qed.

Lemma handle_supervised m t t' : handle m t = Some t' -> supervised t -> supervised t'.
Proof.
  intros H Hs.
  assert (forall u, updateStatus u = Some t' -> trace u = trace t -> imonCancel u = imonCancel t ->
    instConfig u = instConfig t -> localhost u = localhost t -> supervised t') as Hup.
  { intros u Hu ? ? Hi Hl. apply (supervised_frame u); [by apply updateStatus_frame|].
    apply (supervised_ext t); [done..|]. by rewrite Hi, Hl. }
  destruct m; cbn [handle] in H; try (by simplify_eq); try (by eapply Hup).
  - unfold onInstanceMonitorDeleted in H. destruct (updateStatus _) as [u|] eqn:Hu; [|done].
    cbn in H. apply updateStatus_frame in Hu.
    assert (supervised u) by (eapply supervised_frame; [done|]; by apply (supervised_ext t)).
    case_bool_decide; simplify_eq; [by apply (supervised_ext u)|done].
  - unfold onInstanceConfigFor in H. destruct (time.After _ _); simplify_eq; [by apply (supervised_ext t)|done].
  - by eapply onInstanceConfigUpdated_supervised.
  - by eapply onInstanceConfigDeleted_supervised.
Qed.

Lemma initCache_fields d t :
  trace (initCache d t) = trace t /\ imonCancel (initCache d t) = imonCancel t /\
  status_ (initCache d t) = status_ t /\ isActor (initCache d t) = isActor t /\
  localhost (initCache d t) = localhost t /\
  instConfig (initCache d t) = Data_Config d ∪ instConfig t /\
  instStatus (initCache d t) = Data_Status d ∪ instStatus t.
Proof. unfold initCache. by destruct (negb _). Qed.

Lemma init_supervised d p cfg h t : init d (Start p cfg h) = Some t -> supervised t.
Proof.
  unfold init. destruct (initCache_fields d (Start p cfg h)) as (Htr & Hic & _ & _ & Hlh & _).
  destruct (updateStatus _) as [u|] eqn:Hu; [|done]. cbn [mbind option_bind].
  apply updateStatus_frame in Hu. intros H.
  assert (live (trace u) = [] /\ atMostOne (trace u) /\ Forall quiet (trace u) /\
          imonCancel u = None) as (Hl & Hh & Hq & Hc).
  { destruct Hu. rewrite frame_live0, frame_cancel0, Htr, Hic. split_and!; try done.
    - apply frame_history0. rewrite Htr. cbn. auto.
    - apply frame_quiet0. by rewrite Htr. }
  destruct (instConfig u !! localhost u) as [c|] eqn:Hcf.
  - destruct (0 <? length (Scope c))%nat eqn:Hsc.
    + destruct (tryStart_live _ _ _ H) as (? & ? & ? & Hi & Ho & ?); [done..|].
      constructor; [done..|by rewrite Hi, Ho, Hcf|auto].
    + simplify_eq. constructor; rewrite ?Hl, ?Hc; try done. rewrite Hcf. intros _ c' [= <-] Hne.
      by destruct (Scope c).
  - simplify_eq. constructor; rewrite ?Hl, ?Hc; try done. by rewrite Hcf.
Qed.

Lemma reaches_supervised d p cfg h t : reaches d (Start p cfg h) t -> supervised t.
Proof.
  induction 1 as [t H|m t t' _ IH _ H]; [by eapply init_supervised|].
  eapply handle_supervised; [done|]. by apply (supervised_ext t).
Qed.

(** *** No panic *)

(** The manager of an object with resources has an actor status, and the
    cached statuses have their slots in the counters. *)
Record wf (t : Manager) : Prop := {
  wf_actor : isActor t = true -> is_Some (object.ActorStatus_ (status_ t));
  wf_status : map_Forall (fun _ => representable) (instStatus t) }.

(** What the publishers of the messages ensure: the states are decoded ones, and
    an object with resources keeps them. *)
Definition sound (actor : bool) (m : Msg) : Prop :=
  match m with
  | InstanceStatusUpdated _ v => representable v
  | InstanceConfigUpdated _ c => actor = true -> is_Some (ActorConfig_ c)
  | _ => True
  end.

Lemma updateStatus_total t :
  wf t -> exists t', updateStatus t = Some t' /\ wf t' /\ isActor t' = isActor t.
Proof.
  intros [Ha Hs].
  assert (exists t', updateStatus t = Some t') as [t' Hu].
  { destruct (isActor t) eqn:Hi; [|unfold updateStatus; rewrite Hi; by eexists].
    destruct Ha as [a Ha]; [done|].
    destruct (updateStatus_Some t a) as (a' & -> & _); [done|done| |by eexists].
    unfold statuses. rewrite Forall_fmap. apply Forall_forall. intros [n s] H.
    by apply elem_of_map_to_list, Hs in H. }
  exists t'. split; [done|]. apply updateStatus_frame in Hu as [].
  split; [|done]. constructor; [rewrite frame_actor0; auto|by rewrite frame_status0].
Qed.

Lemma tryStart_total scopes t :
  object.Scope (status_ t) <> [] -> wf t ->
  exists t', tryStart scopes t = Some t' /\ wf t' /\ isActor t' = isActor t.
Proof.
  intros Hne Hwf. unfold tryStart, startInstanceMonitor.
  destruct (object.Scope _); [done|]. cbn [length Nat.eqb].
  destruct (imonStarter_Start _); cbn; eexists; (split; [done|]); split; try done;
    by destruct Hwf.
Qed.

Lemma configure_actor c s : is_Some (object.ActorStatus_ (configure c s)) <-> is_Some (ActorConfig_ c).
Proof.
  unfold configure. destruct (ActorConfig_ c); cbn; [split; by eexists|done].
Qed.

Lemma handle_total m t :
  wf t -> sound (isActor t) m ->
  exists t', handle m t = Some t' /\ wf t' /\ isActor t' = isActor t.
Proof.
  intros [Ha Hs] Hm.
  assert (forall u, wf u -> isActor u = isActor t ->
    exists t', updateStatus u = Some t' /\ wf t' /\ isActor t' = isActor t) as Hup.
  { intros u Hu <-. by apply updateStatus_total. }
  destruct m as [| |n v|n e|n v|n|sc u|n c|n]; cbn [handle]; try (eexists; by split_and!).
  - by apply Hup; [constructor|].
  - unfold onInstanceMonitorDeleted.
    edestruct (Hup (t <| srcEvent := Some (InstanceMonitorDeleted n e) |>
      <| instMonitor ::= delete n |>)) as (t' & -> & [] & Hi); [by constructor|done|].
    cbn. eexists; split; [done|]. by case_bool_decide.
  - apply Hup; [|done]. constructor; [done|]. cbn. by apply map_Forall_insert_2.
  - apply Hup; [|done]. constructor; [done|]. cbn. by apply map_Forall_delete.
  - unfold onInstanceConfigFor. destruct (time.After _ _); eexists; split; done.
  - unfold onInstanceConfigUpdated. cbv zeta.
    set (u := (dropAwaited n c t) <| status_ ::= configure c |>
                <| srcEvent := Some (InstanceConfigUpdated n c) |> <| instConfig ::= <[n := c]> |>).
    assert (wf u /\ isActor u = isActor t /\ object.Scope (status_ u) = Scope c) as (Hu & Hi & Hsc).
    { unfold u, dropAwaited. destruct (negb _); cbn; split_and!; try done;
        try (unfold configure; by destruct (ActorConfig_ c));
        (constructor; [intros Hx; apply configure_actor, Hm, Hx|done]). }
    fold u. clearbody u. destruct (_ && _) eqn:Hb.
    + apply andb_true_iff in Hb as [_ Hl%Nat.ltb_lt].
      destruct (tryStart_total (Scope c) u) as (v & -> & Hv & Hvi); [rewrite Hsc; by destruct (Scope c); [cbn in Hl; lia|]|done|].
      cbn [mbind option_bind]. apply Hup; congruence.
    + cbn [mbind option_bind]. by apply Hup.
  - unfold onInstanceConfigDeleted. destruct (_ && _) eqn:Hb.
    + apply andb_true_iff in Hb as [_ [x Hx]%bool_decide_eq_true]. rewrite Hx. cbn [callCancel mbind option_bind].
      by apply Hup; [constructor|].
    + cbn [mbind option_bind]. by apply Hup; [constructor|].
Qed.

Lemma loop_total msgs t :
  wf t -> Forall (sound (isActor t)) msgs -> exists r, loop msgs t = Some r.
Proof.
  revert t. induction msgs as [|m msgs IH]; intros t Hwf Hm; cbn [loop].
  - destruct (nothingLeft t); by eexists.
  - destruct (nothingLeft t); [by eexists|]. apply Forall_cons in Hm as [Hm Hms].
    destruct (handle_total m (t <| srcEvent := None |>)) as (t' & -> & Hwf' & Hi); [by destruct Hwf|done|].
    cbn [mbind option_bind]. apply IH; [done|]. by rewrite Hi.
Qed.

(** What the worker of an object is started with: the configuration, and the
    caches the daemon holds. *)
Record started (cfg : Config) (d : Data) : Prop := {
  started_scope : Scope cfg <> [];
  started_status : map_Forall (fun _ => representable) (Data_Status d) }.

Lemma init_total d p cfg h :
  started cfg d -> exists t, init d (Start p cfg h) = Some t /\ wf t /\
    isActor t = bool_decide (is_Some (ActorConfig_ cfg)).
Proof.
  intros [Hs Hd]. unfold init. cbv zeta.
  destruct (initCache_fields d (Start p cfg h)) as (_ & _ & Hst & Hac & _ & _ & Hin).
  destruct (updateStatus_total (initCache d (Start p cfg h))) as (u & Hu & Hwf & Hi).
  { constructor.
    - rewrite Hac, Hst. cbn. intros [c ->]%bool_decide_eq_true. by eexists.
    - rewrite Hin. cbn. by rewrite map_union_empty. }
  rewrite Hu. cbn [mbind option_bind]. rewrite Hac in Hi. cbn in Hi.
  destruct (instConfig u !! localhost u) as [c|]; [|by exists u].
  destruct (0 <? length (Scope c))%nat; [|by exists u].
  rewrite <- Hi. apply tryStart_total; [|done].
  apply updateStatus_frame in Hu. rewrite (frame_scope _ _ Hu), Hst. done.
Qed.

(** *** The theorems *)

Lemma loop_reaches d t0 msgs t r :
  reaches d t0 t -> loop msgs t = Some r ->
  exists u, reaches d t0 u /\ (r.2 = u \/ r.2 = u <| srcEvent := None |>).
Proof.
  revert t. induction msgs as [|m msgs IH]; intros t Ht; cbn [loop].
  - destruct (nothingLeft t); intros [= <-]; eauto.
  - destruct (nothingLeft t) eqn:Hn; [intros [= <-]; eauto|].
    destruct (handle m _) as [u|] eqn:Hu; [|done]. cbn [mbind option_bind].
    apply IH. by eapply reaches_step.
Qed.

(** What [finish] adds to the history of a supervised worker. *)
Lemma finish_trace t :
  supervised t ->
  exists last tr,
    trace (finish t) = (last ++ Pub ObjectStatusDone :: Pub ObjectDeleted ::
                         Pub ObjectStatusDeleted :: UnsetStatusData :: tr)%list /\
    (last = match orchestrationEnd t with
            | Some ev => [Pub (ObjectOrchestrationEnd ev)] | None => [] end) /\
    Forall quiet tr /\ live tr = [] /\ atMostOne tr.
Proof.
  intros [Hl Hh Hq _ _]. unfold finish, delete_. destruct (imonCancel t) as [c|] eqn:Hc; cbn.
  - exists (match orchestrationEnd t with
            | Some ev => [Pub (ObjectOrchestrationEnd ev)] | None => [] end), (Cancel c :: trace t).
    assert (live (Cancel c :: trace t) = []) as Hlc.
    { cbn. rewrite Hl. cbn. by rewrite decide_False by tauto. }
    split_and!; [by destruct (orchestrationEnd t)|done|by constructor|done|].
    split; [rewrite Hlc; cbn; lia|done].
  - exists (match orchestrationEnd t with
            | Some ev => [Pub (ObjectOrchestrationEnd ev)] | None => [] end), (trace t).
    split_and!; [by destruct (orchestrationEnd t)|done..].
Qed.

(** For every configuration with a scope, every cache of decoded states and
    every sequence of messages, the worker of an object runs without a panic
    (a nil actor status, a nil cancel function, a counter out of range) until
    its context is done or nothing of the object is left.  When it returns, no
    instance monitor it started is live, no two were ever live at the same
    time, and the status has been dropped and the end of the object monitor
    published once, last but for the end of a pending orchestration. *)
Theorem worker_returns d p cfg h msgs :
  started cfg d -> Forall (sound (bool_decide (is_Some (ActorConfig_ cfg)))) msgs ->
  exists t last tr,
    worker d msgs (Start p cfg h) = Some t /\
    trace t = (last ++ Pub ObjectStatusDone :: Pub ObjectDeleted ::
                 Pub ObjectStatusDeleted :: UnsetStatusData :: tr)%list /\
    (last = [] \/ exists ev, last = [Pub (ObjectOrchestrationEnd ev)]) /\
    Forall quiet tr /\ live tr = [] /\ atMostOne tr.
Proof.
  intros Hs Hm. destruct (init_total d p cfg h Hs) as (t & Hi & Hwf & Ha).
  destruct (loop_total msgs t) as [r Hr]; [done|by rewrite Ha|].
  unfold worker. rewrite Hi. cbn [mbind option_bind]. rewrite Hr. cbn [mbind option_bind].
  destruct (loop_reaches d (Start p cfg h) msgs t r) as (u & Hu & Hru); [by constructor|done|].
  apply reaches_supervised in Hu.
  assert (supervised r.2) as Hsup.
  { destruct Hru as [-> | ->]; [done|]. by apply (supervised_ext u). }
  destruct (finish_trace _ Hsup) as (last & tr & Htr & Hlast & Hq).
  exists (finish r.2), last, tr. split_and!; try done; [|apply Hq..].
  rewrite Hlast. destruct (orchestrationEnd r.2); eauto.
Qed.

(** At every turn of its loop, the worker has at most one live instance
    monitor, the one it holds the cancel function of, and only while a local
    instance configuration is cached.  When the starter reports no error, one
    is live as soon as the cached local configuration has a scope. *)
Theorem imon_follows_config d p cfg h t :
  reaches d (Start p cfg h) t ->
  live (trace t) = option_list (imonCancel t) /\
  (live (trace t) <> [] -> is_Some (instConfig t !! localhost t)) /\
  ((forall tr, imonStarter_Start tr = true) ->
   forall c, instConfig t !! localhost t = Some c -> Scope c <> [] -> live (trace t) <> []).
Proof.
  intros [Hl _ _ Hc Hs]%reaches_supervised. rewrite Hl. split_and!; [done|..].
  - intros H. apply Hc. by destruct (imonCancel t).
  - intros Hok c Hcf Hne. by destruct (Hs Hok c Hcf Hne) as [x ->].
Qed.

(** *** The wait for the peers of a new scope *)

(** [peer] is awaited, with a configuration updated at [u] or later. *)
Definition awaits (peer : string) (u : time.Time) (t : Manager) : Prop :=
  peer ∈ For_Scope (instConfigFor t) /\ For_UpdatedAt (instConfigFor t) = u.

(** The messages that do not end the wait: all but a configuration of the peer
    recent enough, and a more recent change of scope. *)
Definition stillAwaits (peer : string) (u : time.Time) (m : Msg) : Prop :=
  match m with
  | InstanceConfigUpdated n c => n = peer -> (Config_UpdatedAt c < u)%Z
  | InstanceConfigFor _ u' => (u' <= u)%Z
  | _ => True
  end.

Lemma deleteFirst_other x n l : x <> n -> x ∈ l -> x ∈ deleteFirst n l.
Proof.
  intros Hx. induction l as [|y l IH]; [done|]. cbn. destruct (String.eqb_spec y n); set_solver.
Qed.

Lemma tryStart_for scopes t t' : tryStart scopes t = Some t' -> instConfigFor t' = instConfigFor t.
Proof.
  unfold tryStart, startInstanceMonitor. destruct (_ =? 0)%nat; [done|].
  destruct (imonStarter_Start _); cbn; by intros [= <-].
Qed.

Lemma dropAwaited_awaits peer u n c t :
  awaits peer u t -> (n = peer -> (Config_UpdatedAt c < u)%Z) -> awaits peer u (dropAwaited n c t).
Proof.
  intros [Hp Hu] Hc. unfold dropAwaited. rewrite Hu.
  destruct (time.Before _ _) eqn:Hb; [done|]. apply time.Before_false in Hb.
  split; [|done]. cbn. apply deleteFirst_other; [|done]. intros ->. specialize (Hc eq_refl). lia.
Qed.

Lemma handle_awaits peer u m t t' :
  handle m t = Some t' -> stillAwaits peer u m -> awaits peer u t -> awaits peer u t'.
Proof.
  intros H Hm Hw.
  assert (forall v, updateStatus v = Some t' -> instConfigFor v = instConfigFor t -> awaits peer u t') as Hup.
  { intros v Hv Hf. apply updateStatus_frame in Hv. unfold awaits. by rewrite (frame_for _ _ Hv), Hf. }
  destruct m as [| |n v|n e|n v|n|sc u'|n c|n]; cbn [handle] in H; try (by simplify_eq); try (by eapply Hup).
  - unfold onInstanceMonitorDeleted in H. destruct (updateStatus _) as [v|] eqn:Hv; [|done].
    apply updateStatus_frame in Hv. cbn in H.
    assert (awaits peer u v) by (unfold awaits; by rewrite (frame_for _ _ Hv)).
    case_bool_decide; by simplify_eq.
  - unfold onInstanceConfigFor in H. destruct (time.After _ _) eqn:Ha; [|by simplify_eq].
    apply time.After_spec in Ha. destruct Hw as [_ Hw]. cbn in Hm. lia.
  - unfold onInstanceConfigUpdated in H. cbv zeta in H.
    apply (dropAwaited_awaits _ _ _ _ _ Hw) in Hm.
    set (v := (dropAwaited n c t) <| status_ ::= configure c |>
                <| srcEvent := Some (InstanceConfigUpdated n c) |> <| instConfig ::= <[n := c]> |>) in H.
    assert (awaits peer u v) as Hv by done. clearbody v. clear Hup.
    assert (exists w, updateStatus w = Some t' /\ instConfigFor w = instConfigFor v) as (w & Hw' & Hf).
    { destruct (_ && _) in H; [|by exists v].
      destruct (tryStart _ _) as [w|] eqn:Hs; [|done]. exists w. split; [done|]. by eapply tryStart_for. }
    apply updateStatus_frame in Hw'. unfold awaits. by rewrite (frame_for _ _ Hw'), Hf.
  - unfold onInstanceConfigDeleted in H. destruct (_ && _) in H;
      cbn [mbind option_bind] in H; [|by eapply Hup].
    unfold callCancel in H. destruct (imonCancel t); [|done]. cbn [mbind option_bind] in H.
    by eapply Hup.
Qed.

Lemma awaits_left peer u t : awaits peer u t -> nothingLeft t = false.
Proof.
  intros [Hp _]. unfold nothingLeft. apply Nat.eqb_neq. destruct (For_Scope _); [set_solver|cbn; lia].
Qed.

Lemma loop_awaits peer u msgs t :
  wf t -> Forall (sound (isActor t)) msgs -> Forall (stillAwaits peer u) msgs -> awaits peer u t ->
  exists t', loop msgs t = Some ([], t') /\ awaits peer u t'.
Proof.
  revert t. induction msgs as [|m msgs IH]; intros t Hwf Hs Hm Hw; cbn [loop];
    rewrite (awaits_left _ _ _ Hw); [by eexists|].
  apply Forall_cons in Hs as [Hs Hss], Hm as [Hm Hms].
  destruct (handle_total m (t <| srcEvent := None |>)) as (t' & Ht & Hwf' & Hi); [by destruct Hwf|done|].
  rewrite Ht. cbn [mbind option_bind]. apply IH; [done|by rewrite Hi|done|].
  by eapply handle_awaits.
Qed.

(** When the scope of an object changes, its monitor survives the transitory
    period where no instance is left: from the moment it learns of the new scope
    it handles every message, and does not return on its own, until each peer of
    the new scope that has no recent configuration has published one, or the
    scope changes again. *)
Theorem worker_awaits_peers peer scope u msgs t :
  wf t -> nothingLeft t = false -> Forall (sound (isActor t)) msgs ->
  (For_UpdatedAt (instConfigFor t) < u)%Z -> peer ∈ scope ->
  (Config_UpdatedAt (default zero_Config (instConfig t !! peer)) < u)%Z ->
  Forall (stillAwaits peer u) msgs ->
  exists t', loop (InstanceConfigFor scope u :: msgs) t = Some ([], t') /\
    peer ∈ For_Scope (instConfigFor t') /\ nothingLeft t' = false.
Proof.
  intros Hwf Hn Hs Hu Hp Hc Hm. cbn [loop]. rewrite Hn. cbn [handle]. unfold onInstanceConfigFor.
  cbn [instConfigFor]. change (instConfigFor (t <| srcEvent := None |>)) with (instConfigFor t).
  rewrite (proj2 (time.After_spec _ _)) by done. cbn [mbind option_bind].
  set (t1 := _ <| instConfigFor := _ |>).
  destruct (loop_awaits peer u msgs t1) as (t' & -> & Hw); [by destruct Hwf|done|done| |].
  - split; [|done]. apply list_elem_of_In, filter_In. split; [by apply list_elem_of_In|].
    by apply time.Before_spec.
  - exists t'. split_and!; [done|apply Hw|by eapply awaits_left].
Qed.

End reachability.

(** ** An example object

    The failover service svc1 of the nodes n1 and n2, monitored on n1. *)

Module demo.

#[global] Instance cluster : Env := {|
  Now := fun tr => (time.Hour + Z.of_nat (length tr) * time.Second)%Z;
  imonStarter_Start := fun _ => true;
  rangeOrder := fun _ _ l => l;
  rangeOrder_perm := fun _ _ l => Permutation_refl l |}.

Definition svc1 : naming.Path := naming.mkPath "svc1" "root" naming.KindSvc.

Definition config : Config :=
  mkConfig "csum" 50%Z ["n1"; "n2"] time.Second
    (Some (mkActorConfig [] [] "" "ha" [] placement.NodesOrder ∅ false topology.Failover None false 0%Z
       [] [] [] [] 0%Z)) None.

Definition status_of (avail : status.T) : Status :=
  mkStatus avail ∅ 0%Z 0%Z status.NotApplicable avail provisioned.PTrue ∅ [] 0%Z "" time.Minute "csum" 0%Z.

Definition leader : Monitor := zero_Monitor <| IsLeader := true |>.

(** The daemon knows the configurations, and that the object is up on n1. *)
Definition data : Data :=
  mkData {["n1" := leader; "n2" := zero_Monitor]}
    {["n1" := status_of status.Up; "n2" := status_of status.Down]}
    {["n1" := config; "n2" := config]}.

Definition t0 : Manager := Start svc1 config "n1".

(** The manager when the worker enters its loop. *)
Definition t1 : Manager := default t0 (init data t0).

(** Both instances are up. *)
Definition split : Manager := t1 <| instStatus ::= <["n2" := status_of status.Up]> |>.

End demo.

Lemma updateStatus_aggregates_witness :
  exists t' a', updateStatus demo.t1 = Some t' /\ object.ActorStatus_ (status_ t') = Some a' /\
    object.Avail a' = status.Up /\ object.UpInstancesCount a' = 1%Z /\ object.Frozen a' = "unfrozen" /\
    object.PlacementState a' = placement.Optimal /\ object.Provisioned a' = provisioned.PTrue.
Proof.
  edestruct (updateStatus_aggregates demo.t1) as (t' & a' & Hu & Ha & [] & _);
    [vm_compute; reflexivity|vm_compute; reflexivity|vm_compute; repeat constructor; discriminate|].
  exists t', a'. split; [exact Hu|]. split; [exact Ha|].
  assert (object.Avail a' = status.Up) as Hup by (rewrite agg_avail0; vm_compute; reflexivity).
  rewrite agg_up0, agg_frozen0, agg_provisioned0, agg_placement0; [| |vm_compute; reflexivity].
  - rewrite Hup. vm_compute. repeat split.
  - apply statusKnown_dom, (bool_decide_unpack _). vm_compute. exact I.
Defined.

Lemma excess_is_warned_witness :
  exists t' a', updateStatus demo.split = Some t' /\ object.ActorStatus_ (status_ t') = Some a' /\
    object.ExcessInstances (Some a') = 1%Z /\ object.Avail a' = status.Warn.
Proof.
  edestruct (excess_is_warned demo.split) as (t' & a' & Hu & Ha & Hw & _);
    [vm_compute; reflexivity|vm_compute; reflexivity|vm_compute; repeat constructor; discriminate|].
  exists t', a'. split; [exact Hu|]. split; [exact Ha|].
  assert (object.ExcessInstances (Some a') = 1%Z) as Hx.
  { assert (object.ActorStatus_ (status_ (default demo.split (updateStatus demo.split))) = Some a') as H
      by (rewrite Hu; exact Ha).
    rewrite <- H. vm_compute. reflexivity. }
  split; [exact Hx|]. apply Hw. rewrite Hx. reflexivity.
Defined.

Lemma worker_returns_witness :
  exists t, worker demo.data [InstanceStatusUpdated "n2" (demo.status_of status.Up);
                              InstanceConfigDeleted "n1"] demo.t0 = Some t /\
    Pub ObjectStatusDone ∈ trace t.
Proof.
  destruct (worker_returns demo.data demo.svc1 demo.config "n1"
    [InstanceStatusUpdated "n2" (demo.status_of status.Up); InstanceConfigDeleted "n1"])
    as (t & last & tr & Hw & Ht & _).
  - split; [discriminate|]. apply (bool_decide_unpack _). vm_compute. exact I.
  - repeat constructor; vm_compute; intuition discriminate.
  - exists t. split; [exact Hw|]. rewrite Ht. apply elem_of_app. right. left.
Defined.

Lemma imon_follows_config_witness :
  imonCancel demo.t1 = Some 2%nat /\ live (trace demo.t1) <> [].
Proof.
  split; [vm_compute; reflexivity|].
  assert (init demo.data demo.t0 = Some demo.t1) as Hi by (vm_compute; reflexivity).
  destruct (imon_follows_config demo.data demo.svc1 demo.config "n1" demo.t1) as (_ & _ & H).
  - apply reaches_init. exact Hi.
  - apply (H (fun _ => eq_refl) demo.config); [vm_compute; reflexivity|discriminate].
Defined.

(** The object moves to n3, which is not up yet, and its instances are deleted. *)
Lemma worker_awaits_peers_witness :
  exists t', loop (InstanceConfigFor ["n3"] time.Minute ::
      [InstanceStatusDeleted "n1"; InstanceStatusDeleted "n2"; InstanceConfigDeleted "n1";
       InstanceConfigDeleted "n2"; InstanceMonitorDeleted "n1" None; InstanceMonitorDeleted "n2" None])
      demo.t1 = Some ([], t') /\ "n3" ∈ For_Scope (instConfigFor t') /\ nothingLeft t' = false.
Proof.
  apply (worker_awaits_peers "n3").
  - split; [intros _; vm_compute; eexists; reflexivity|].
    apply (bool_decide_unpack _). vm_compute. exact I.
  - vm_compute. reflexivity.
  - repeat constructor.
  - reflexivity.
  - left.
  - vm_compute. reflexivity.
  - repeat constructor.
Defined.

(** The placement state of an object one monitored instance of which has no
    status yet depends on the order of the iteration over the monitors: not
    applicable when that instance comes first, non-optimal when a misplaced one
    does. *)
Theorem placement_order_dependent n1 n2 monitors statuses m2 s2 :
  statuses !! n1 = None -> monitors !! n2 = Some m2 -> statuses !! n2 = Some s2 -> ~ placed m2 s2 ->
  placementState naming.KindSvc status.Up [n1; n2] monitors statuses = placement.NotApplicable /\
  placementState naming.KindSvc status.Up [n2; n1] monitors statuses = placement.NonOptimal.
Proof.
  intros H1 Hm Hs Hp. unfold placementState. rewrite bool_decide_true by done. cbn [negb].
  change (status.Is status.Up _) with false. cbn [placementLoop]. rewrite H1, Hs, Hm.
  split; [done|]. change (default zero_Monitor (Some m2)) with m2.
  unfold placed in Hp. destruct (IsLeader m2); cbn [andb negb].
  - destruct (status.Is _ _) eqn:Hi; [|done]. destruct Hp. by apply one_of_spec.
  - destruct (status.Is _ _) eqn:Hi; [|done]. destruct Hp. by apply one_of_spec.
Qed.

End omon.
