(* ===== verification/Discover.v ===== *)
(** * daemon/discover: the loop that starts the object monitors

    [discover.omon] keeps the set of the objects whose monitor (daemon/omon) is
    started.  It starts one when an instance configuration of an object is
    published, and, because the monitor may return while a configuration is
    being recreated, looks for configurations again when a monitor reports its
    end.

    The second part composes this loop with the monitors it starts, the store of
    the instance configurations they share, and the messages between them, as a
    step relation: the interleavings of the publishers, of the loop and of the
    monitors are the sequences of steps. *)

From S2P Require Import Prelude Status Naming Instance Omon.

Open Scope string_scope.
Import instance.

Module discover.

(** ** omon.go *)

(** The messages of the subscription. *)
Inductive Msg :=
| AuditStart
| AuditStop
| InstanceConfigUpdated (Path : naming.Path) (Node : string) (Value : Config)
| ObjectStatusDone (Path : naming.Path).

(** [omonStarted], whose values are all true, is the set of its keys.  The
    second component of a result is the argument of the call of omon.Start, when
    there is one; omon.Start returns no error. *)
Definition Started := gset naming.Path.

Definition startOmon (p : naming.Path) (instanceConfig : Config) (omonStarted : Started) :
    Started * option (naming.Path * Config) :=
  ({[p]} ∪ omonStarted, Some (p, instanceConfig)).

(** The loop over the configurations of an object, [nodes] being the order of
    the iteration. *)
Fixpoint lastestConfig (nodes : list string) (configs : gmap string Config)
    (last : option Config) : option Config :=
  match nodes with
  | [] => last
  | n :: nodes' =>
      match configs !! n with
      | None => lastestConfig nodes' configs last
      | Some iConfig =>
          let take := match last with
                      | None => true
                      | Some c => time.After (Config_UpdatedAt iConfig) (Config_UpdatedAt c)
                      end in
          lastestConfig nodes' configs (if take then Some iConfig else last)
      end
  end.

Definition onInstanceConfigUpdated (p : naming.Path) (Value : Config) (omonStarted : Started) :
    Started * option (naming.Path * Config) :=
  if bool_decide (p ∈ omonStarted) then (omonStarted, None)
  else startOmon p Value omonStarted.

(** [configs] is instance.ConfigData.GetByPath(p). *)
Definition onObjectStatusDone (nodes : list string) (configs : gmap string Config)
    (p : naming.Path) (omonStarted : Started) : Started * option (naming.Path * Config) :=
  let omonStarted := omonStarted ∖ {[p]} in
  match lastestConfig nodes configs None with
  | Some c => startOmon p c omonStarted
  | None => (omonStarted, None)
  end.

(** One turn of the loop. *)
Definition handle (nodes : list string) (configs : gmap string Config) (m : Msg)
    (omonStarted : Started) : Started * option (naming.Path * Config) :=
  match m with
  | AuditStart | AuditStop => (omonStarted, None)
  | InstanceConfigUpdated p _ v => onInstanceConfigUpdated p v omonStarted
  | ObjectStatusDone p => onObjectStatusDone nodes configs p omonStarted
  end.

(** The configuration a monitor is restarted with is one of the most recent. *)
Lemma lastestConfig_max nodes configs last c :
  lastestConfig nodes configs last = Some c ->
  (last = Some c \/ exists n, n ∈ nodes /\ configs !! n = Some c) /\
  (forall n c', n ∈ nodes -> configs !! n = Some c' -> (Config_UpdatedAt c' <= Config_UpdatedAt c)%Z) /\
  (forall c', last = Some c' -> (Config_UpdatedAt c' <= Config_UpdatedAt c)%Z).
Proof.
  revert last. induction nodes as [|n nodes IH]; intros last H; cbn in H.
  - subst. split_and!; [by left|set_solver|intros c' [= ->]; lia].
  - destruct (configs !! n) as [ic|] eqn:Hn.
    + apply IH in H as (Hin & Hmax & Hlast). split_and!.
      * destruct last as [c0|]; [destruct (time.After _ _)|]; cbn in Hin;
          destruct Hin as [Hin|(n' & ? & ?)]; simplify_eq; try (by left);
          right; eexists; (split; [|done]); set_solver.
      * intros n' c' [->|Hn']%elem_of_cons Hc'; [|by eapply Hmax]. simplify_eq.
        destruct last as [c0|]; [|by apply Hlast]. destruct (time.After _ _) eqn:Ha; [by apply Hlast|].
        apply time.After_false in Ha. specialize (Hlast c0 eq_refl). lia.
      * intros c' ->. destruct (time.After _ _) eqn:Ha; [|by apply Hlast].
        apply time.After_spec in Ha. specialize (Hlast ic eq_refl). lia.
    + apply IH in H as (Hin & Hmax & Hlast). split_and!; [| |done].
      * destruct Hin as [?|(n' & ? & ?)]; [by left|right; exists n'; set_solver].
      * intros n' c' [->|Hn']%elem_of_cons Hc'; [congruence|by eapply Hmax].
Qed.

Lemma lastestConfig_some nodes configs last :
  (exists n, n ∈ nodes /\ is_Some (configs !! n)) -> is_Some (lastestConfig nodes configs last).
Proof.
  assert (forall nodes c, is_Some (lastestConfig nodes configs (Some c))) as Hs.
  { clear. induction nodes as [|n nodes IH]; intros c; cbn; [by eexists|].
    destruct (configs !! n); [|done]. destruct (time.After _ _); done. }
  revert last. induction nodes as [|n nodes IH]; intros last (k & Hk & Hc); [set_solver|].
  cbn. apply elem_of_cons in Hk as [->|Hk].
  - destruct Hc as [c ->]. destruct last; [destruct (time.After _ _)|]; done.
  - destruct (configs !! n); apply IH; eauto.
Qed.

(** ** The loop, the monitors and the store of configurations *)

(** A change of instance.ConfigData, which its author publishes after it has
    made it: [None] is a deletion. *)
Record Change := mkChange {
  Change_Path : naming.Path;
  Change_Node : string;
  Change_Value : option Config }.

(** A running object monitor: its manager, the messages of its subscription it
    has not received yet, and whether its worker has read the store.  The
    subscription is started by omon.Start, before the worker. *)
Record Omon := mkOmon {
  manager : omon.Manager;
  queue : list omon.Msg;
  loaded : bool }.

Definition newOmon (h : string) (pc : naming.Path * Config) : Omon :=
  mkOmon (omon.Start pc.1 pc.2 h) [] false.

Record System := mkSystem {
  configData : naming.Path -> gmap string Config;
  unpublished : list Change;
  inbox : list Msg;
  omonStarted : Started;
  running : list Omon }.

Definition setConfig (ch : Change) (data : naming.Path -> gmap string Config) :
    naming.Path -> gmap string Config :=
  fun p => if decide (p = Change_Path ch) then
             partial_alter (fun _ => Change_Value ch) (Change_Node ch) (data p)
           else data p.

(** The message a change is published as. *)
Definition message (ch : Change) : omon.Msg :=
  match Change_Value ch with
  | Some c => omon.InstanceConfigUpdated (Change_Node ch) c
  | None => omon.InstanceConfigDeleted (Change_Node ch)
  end.

(** The subscription of [discover.omon] does not filter the deletions in. *)
Definition notice (ch : Change) : list Msg :=
  match Change_Value ch with
  | Some c => [InstanceConfigUpdated (Change_Path ch) (Change_Node ch) c]
  | None => []
  end.

(** A message for the monitors of the object [p]. *)
Definition deliver (p : naming.Path) (m : omon.Msg) (o : Omon) : Omon :=
  if decide (omon.path (manager o) = p) then mkOmon (manager o) (queue o ++ [m])%list (loaded o) else o.

(** What a message changes in a cache of configurations. *)
Definition configChange (m : omon.Msg) : option (string * option Config) :=
  match m with
  | omon.InstanceConfigUpdated n c => Some (n, Some c)
  | omon.InstanceConfigDeleted n => Some (n, None)
  | _ => None
  end.

Definition sameInstance (a b : Change) : Prop :=
  Change_Path a = Change_Path b /\ Change_Node a = Change_Node b.

Section system.
Context `{E : omon.Env} (localhost : string).

Inductive step : System -> System -> Prop :=
| step_change ch s :
    (** instance.ConfigData.Set or Unset, by icfg or daemondata *)
    step s (mkSystem (setConfig ch (configData s)) (unpublished s ++ [ch])%list (inbox s) (omonStarted s)
              (running s))
| step_publish ch l1 l2 s :
    (** the publication of a change, the ones of an instance being in order *)
    unpublished s = (l1 ++ ch :: l2)%list -> Forall (fun x => ~ sameInstance x ch) l1 ->
    step s (mkSystem (configData s) (l1 ++ l2)%list (inbox s ++ notice ch)%list (omonStarted s)
              (map (deliver (Change_Path ch) (message ch)) (running s)))
| step_other p m s :
    (** any other message for the monitors of an object *)
    configChange m = None ->
    step s (mkSystem (configData s) (unpublished s) (inbox s) (omonStarted s)
              (map (deliver p m) (running s)))
| step_discover m l nodes s :
    (** a turn of the loop of discover.omon *)
    inbox s = m :: l ->
    (forall p, m = ObjectStatusDone p -> nodes ≡ₚ (map_to_list (configData s p)).*1) ->
    let configs := match m with ObjectStatusDone p => configData s p | _ => ∅ end in
    let r := handle nodes configs m (omonStarted s) in
    step s (mkSystem (configData s) (unpublished s) l r.1
              (running s ++ match r.2 with Some pc => [newOmon localhost pc] | None => [] end)%list)
| step_load o t l1 l2 mons stats s :
    (** the worker of a monitor reads the store and enters its loop *)
    running s = (l1 ++ o :: l2)%list -> loaded o = false ->
    omon.init (omon.mkData mons stats (configData s (omon.path (manager o)))) (manager o) = Some t ->
    step s (mkSystem (configData s) (unpublished s) (inbox s) (omonStarted s)
              (l1 ++ mkOmon t (queue o) true :: l2)%list)
| step_omon o m q t l1 l2 s :
    (** a turn of the loop of a monitor *)
    running s = (l1 ++ o :: l2)%list -> loaded o = true -> omon.nothingLeft (manager o) = false ->
    queue o = m :: q -> omon.handle m ((manager o) <| omon.srcEvent := None |>) = Some t ->
    step s (mkSystem (configData s) (unpublished s) (inbox s) (omonStarted s)
              (l1 ++ mkOmon t q true :: l2)%list)
| step_return o l1 l2 s :
    (** the worker of a monitor returns: [omon.finish] publishes its end *)
    running s = (l1 ++ o :: l2)%list -> loaded o = true -> omon.nothingLeft (manager o) = true ->
    step s (mkSystem (configData s) (unpublished s)
              (inbox s ++ [ObjectStatusDone (omon.path (manager o))])%list (omonStarted s)
              (l1 ++ l2)%list).

(** The daemon starts with an empty store. *)
Definition empty : System := mkSystem (fun _ => ∅) [] [] ∅ [].

Inductive reachable : System -> Prop :=
| reachable_empty : reachable empty
| reachable_step s s' : reachable s -> step s s' -> reachable s'.

(** *** What a monitor does of its path and of its configurations *)

Lemma tryStart_frame scopes t t' :
  omon.tryStart scopes t = Some t' ->
  omon.path t' = omon.path t /\ omon.instConfig t' = omon.instConfig t.
Proof.
  unfold omon.tryStart, omon.startInstanceMonitor. destruct (_ =? 0)%nat; [done|].
  destruct (omon.imonStarter_Start _); cbn; by intros [= <-].
Qed.

Lemma omon_handle_config m t t' :
  omon.handle m t = Some t' ->
  omon.path t' = omon.path t /\
  omon.instConfig t' =
    match configChange m with
    | Some (n, v) => partial_alter (fun _ => v) n (omon.instConfig t)
    | None => omon.instConfig t
    end.
Proof.
  assert (forall u, omon.updateStatus u = Some t' -> omon.path t' = omon.path u /\
    omon.instConfig t' = omon.instConfig u) as Hup.
  { intros u [] %omon.updateStatus_frame. done. }
  destruct m as [| |n v|n e|n v|n|sc u|n c|n]; cbn [omon.handle configChange]; intros H;
    try (by simplify_eq); try (by apply Hup in H).
  - unfold omon.onInstanceMonitorDeleted in H. destruct (omon.updateStatus _) as [u|] eqn:Hu; [|done].
    apply omon.updateStatus_frame in Hu as []. cbn in H. case_bool_decide; by simplify_eq.
  - unfold omon.onInstanceConfigFor in H. destruct (time.After _ _); by simplify_eq.
  - unfold omon.onInstanceConfigUpdated in H. cbv zeta in H.
    set (u := _ <| omon.instConfig ::= <[n := c]> |>) in H.
    assert (omon.path u = omon.path t /\ omon.instConfig u = <[n := c]> (omon.instConfig t)) as [Hp Hc].
    { unfold u, omon.dropAwaited. by destruct (negb _). }
    clearbody u. destruct (_ && _) in H; cbn [mbind option_bind] in H.
    + destruct (omon.tryStart _ u) as [w|] eqn:Hw; [|done]. cbn [mbind option_bind] in H.
      apply tryStart_frame in Hw as [Hwp Hwc]. apply Hup in H as [-> ->]. rewrite Hwp, Hwc. done.
    + apply Hup in H as [-> ->]. done.
  - unfold omon.onInstanceConfigDeleted in H. destruct (_ && _) in H; cbn [mbind option_bind] in H;
      [|by apply Hup in H].
    unfold omon.callCancel in H. destruct (omon.imonCancel t); [|done]. cbn [mbind option_bind] in H.
    by apply Hup in H.
Qed.

Lemma omon_init_config d t t' :
  omon.init d t = Some t' ->
  omon.path t' = omon.path t /\ omon.instConfig t' = omon.Data_Config d ∪ omon.instConfig t.
Proof.
  unfold omon.init. cbv zeta.
  assert (omon.path (omon.initCache d t) = omon.path t) as Hp by (unfold omon.initCache; by destruct (negb _)).
  destruct (omon.initCache_fields d t) as (_ & _ & _ & _ & _ & Hc & _).
  destruct (omon.updateStatus _) as [u|] eqn:Hu; [|done]. cbn [mbind option_bind].
  apply omon.updateStatus_frame in Hu as [].
  assert (omon.path u = omon.path t /\
    omon.instConfig u = omon.Data_Config d ∪ omon.instConfig t) as [Hup Huc] by (split; congruence).
  destruct (omon.instConfig u !! _) as [c|]; [|by intros [= <-]].
  destruct (0 <? _)%nat; [|by intros [= <-]]. intros [-> ->]%tryStart_frame. done.
Qed.

(** *** One monitor per object *)

Definition runs (p : naming.Path) (l : list Omon) : nat :=
  length (filter (fun o => omon.path (manager o) = p) l).

Definition isDone (p : naming.Path) (m : Msg) : Prop := m = ObjectStatusDone p.

#[local] Instance isDone_dec p m : Decision (isDone p m).
Proof.
  unfold isDone. destruct m as [| | |q]; try (by right).
  destruct (decide (q = p)) as [->|]; [by left|right; congruence].
Defined.

Definition dones (p : naming.Path) (l : list Msg) : nat := length (filter (isDone p) l).

Definition counted (s : System) : Prop :=
  forall p, (runs p (running s) + dones p (inbox s))%nat = if decide (p ∈ omonStarted s) then 1%nat else 0%nat.

Lemma runs_app p l1 l2 : runs p (l1 ++ l2) = (runs p l1 + runs p l2)%nat.
Proof. unfold runs. by rewrite filter_app, length_app. Qed.

Lemma runs_cons p o l :
  runs p (o :: l) = ((if decide (omon.path (manager o) = p) then 1 else 0) + runs p l)%nat.
Proof. unfold runs. rewrite filter_cons. by case_decide. Qed.

Lemma dones_app p l1 l2 : dones p (l1 ++ l2) = (dones p l1 + dones p l2)%nat.
Proof. unfold dones. by rewrite filter_app, length_app. Qed.

Lemma dones_cons p m l : dones p (m :: l) = ((if decide (isDone p m) then 1 else 0) + dones p l)%nat.
Proof. unfold dones. rewrite filter_cons. by case_decide. Qed.

Lemma runs_deliver p q m l : runs p (map (deliver q m) l) = runs p l.
Proof.
  induction l as [|o l IH]; [done|]. cbn [map]. rewrite !runs_cons, IH. f_equal.
  unfold deliver. destruct (decide (omon.path (manager o) = q)); done.
Qed.

Lemma dones_notice p ch : dones p (notice ch) = 0%nat.
Proof. unfold notice. by destruct (Change_Value ch). Qed.

(** A turn of the loop of [discover.omon] keeps the account. *)
Lemma handle_counted nodes configs m l started run :
  (forall p, (runs p run + dones p (m :: l))%nat = if decide (p ∈ started) then 1%nat else 0%nat) ->
  let r := handle nodes configs m started in
  forall p, (runs p (run ++ match r.2 with Some pc => [newOmon localhost pc] | None => [] end)
             + dones p l)%nat = if decide (p ∈ r.1) then 1%nat else 0%nat.
Proof.
  intros H r p. specialize (H p). rewrite dones_cons in H. rewrite runs_app.
  destruct m as [| |q n c|q]; cbn [handle] in r.
  1, 2: rewrite decide_False in H by done; unfold r; cbn; lia.
  - rewrite decide_False in H by done. unfold r, onInstanceConfigUpdated, startOmon.
    case_bool_decide; cbn -[runs]; [change (runs p []) with 0%nat; lia|].
    rewrite runs_cons. cbn. destruct (decide (q = p)) as [->|].
    + rewrite decide_False in H by done. rewrite decide_True by set_solver. lia.
    + rewrite (decide_ext (p ∈ {[q]} ∪ started) (p ∈ started)) by set_solver. lia.
  - unfold r, onObjectStatusDone, startOmon.
    destruct (decide (q = p)) as [->|Hq].
    + rewrite (decide_True (P := isDone p _)) in H by done. case_decide; [|lia].
      destruct (lastestConfig _ _ _); cbn -[runs].
      * rewrite runs_cons. cbn. rewrite !decide_True by set_solver. lia.
      * change (runs p []) with 0%nat. rewrite decide_False by set_solver. lia.
    + rewrite (decide_False (P := isDone p _)) in H by (intros [=]; congruence).
      destruct (lastestConfig _ _ _); cbn -[runs].
      * rewrite runs_cons. cbn. rewrite (decide_False (P := q = p)) by done.
        rewrite (decide_ext (p ∈ _) (p ∈ started)) by set_solver. lia.
      * change (runs p []) with 0%nat.
        rewrite (decide_ext (p ∈ _) (p ∈ started)) by set_solver. lia.
Qed.

Lemma step_counted s s' : step s s' -> counted s -> counted s'.
Proof.
  intros Hst H. destruct Hst as [ch s|ch l1 l2 s _ _|q m s _|m l nodes s Hin _|o t l1 l2 mons stats s Hr _ Hi
    |o m q t l1 l2 s Hr _ _ _ Ht|o l1 l2 s Hr _ _]; unfold counted in *;
    cbn [running inbox omonStarted].
  - done.
  - intros p. rewrite runs_deliver, dones_app, dones_notice. specialize (H p). lia.
  - intros p. rewrite runs_deliver. apply H.
  - rewrite Hin in H. by apply handle_counted.
  - intros p. rewrite <- H, Hr, !runs_app, !runs_cons. cbn [manager].
    apply omon_init_config in Hi as [-> _]. done.
  - intros p. rewrite <- H, Hr, !runs_app, !runs_cons. cbn [manager].
    apply omon_handle_config in Ht as [-> _]. done.
  - intros p. rewrite <- H, Hr, !runs_app, runs_cons, dones_app, dones_cons. unfold isDone.
    rewrite (decide_ext (ObjectStatusDone _ = _) (omon.path (manager o) = p)) by (split; congruence).
    change (dones p []) with 0%nat. lia.
Qed.

(** *** No object without a monitor *)

(** A published configuration that [discover.omon] has not seen. *)
Definition pendingUpdate (p : naming.Path) (s : System) : Prop :=
  (exists ch, ch ∈ unpublished s /\ Change_Path ch = p /\ is_Some (Change_Value ch)) \/
  (exists n c, InstanceConfigUpdated p n c ∈ inbox s).

Definition known (s : System) : Prop :=
  forall p, configData s p <> ∅ -> p ∈ omonStarted s \/ pendingUpdate p s.

Lemma handle_known nodes m l s :
  inbox s = m :: l -> known s ->
  (forall p, m = ObjectStatusDone p -> nodes ≡ₚ (map_to_list (configData s p)).*1) ->
  let configs := match m with ObjectStatusDone p => configData s p | _ => ∅ end in
  let r := handle nodes configs m (omonStarted s) in
  forall p run, configData s p <> ∅ ->
    p ∈ r.1 \/ pendingUpdate p (mkSystem (configData s) (unpublished s) l r.1 run).
Proof.
  intros Hin Hk Hn configs r p run Hp.
  assert (pendingUpdate p s -> (exists n c, m = InstanceConfigUpdated p n c) \/
            pendingUpdate p (mkSystem (configData s) (unpublished s) l r.1 run)) as Hpend.
  { intros [Hu|(n & c & Hu)]; [by right; left|]. rewrite Hin in Hu.
    apply elem_of_cons in Hu as [<-|Hu]; [left; eauto|right; right; cbn; eauto]. }
  destruct m as [| |q n c|q]; cbn [handle] in r.
  1, 2: destruct (Hk p Hp) as [|[(? & ? & ?)|]%Hpend]; [by left|done|by right].
  - assert (q ∈ r.1 /\ omonStarted s ⊆ r.1) as [Hq Hsub].
    { unfold r, onInstanceConfigUpdated, startOmon. case_bool_decide; cbn; set_solver. }
    destruct (Hk p Hp) as [|[(n' & c' & [= -> _ _])|]%Hpend]; [left; set_solver|by left|by right].
  - destruct (decide (p = q)) as [->|Hq].
    + left. unfold r, onObjectStatusDone, startOmon.
      destruct (lastestConfig_some nodes configs None) as [c ->]; [|cbn; set_solver].
      apply map_choose in Hp as (n & c & Hc). exists n. split; [|by eexists].
      rewrite (Hn q eq_refl). apply list_elem_of_fmap. exists (n, c). split; [done|].
      by apply elem_of_map_to_list.
    + assert (p ∈ omonStarted s -> p ∈ r.1) as Hsub.
      { unfold r, onObjectStatusDone, startOmon. destruct (lastestConfig _ _ _); cbn; set_solver. }
      destruct (Hk p Hp) as [|[(? & ? & ?)|]%Hpend]; [left; auto|done|by right].
Qed.

Lemma step_known s s' : step s s' -> known s -> known s'.
Proof.
  intros Hst H. destruct Hst as [ch s|ch l1 l2 s Hu _|q m s _|m l nodes s Hin Hn|o t l1 l2 mons stats s _ _ _
    |o m q t l1 l2 s _ _ _ _ _|o l1 l2 s _ _ _]; intros p Hp; cbn in Hp |- *; try (by apply H).
  - unfold setConfig in Hp. case_decide as Hpath; cbn.
    + subst. destruct (Change_Value ch) as [c|] eqn:Hc.
      * right. left. exists ch. cbn. split; [set_solver|]. by rewrite Hc.
      * destruct (H (Change_Path ch)) as [?|[(x & ? & ?)|?]].
        -- intros He. apply Hp. rewrite He. apply map_eq. intros n. by rewrite lookup_partial_alter; case_decide.
        -- by left.
        -- right. left. exists x. cbn. set_solver.
        -- right. by right.
    + destruct (H p Hp) as [?|[(x & ? & ?)|?]]; [by left|right; left; exists x; cbn; set_solver|right; by right].
  - destruct (H p Hp) as [?|[(x & Hx & Hpx & Hv)|(n & c & Hx)]]; [by left| |].
    + right. rewrite Hu in Hx. unfold pendingUpdate. cbn.
      assert (x = ch \/ x ∈ (l1 ++ l2)%list) as [-> |?] by set_solver; [|left; eauto].
      right. destruct Hv as [c Hc]. unfold notice. rewrite Hc, Hpx.
      exists (Change_Node ch), c. set_solver.
    + right. right. exists n, c. cbn. set_solver.
  - by apply handle_known.
  - destruct (H p Hp) as [?|[?|(n & c & ?)]]; [by left|right; by left|].
    right. right. exists n, c. cbn. set_solver.
Qed.

(** *** The caches of the monitors *)

(** The last change of the configuration on the node [n]. *)
Fixpoint lastFor (n : string) (l : list (string * option Config)) : option (option Config) :=
  match l with
  | [] => None
  | (k, v) :: l' => lastFor n l' ∪ (if decide (k = n) then Some v else None)
  end.

Lemma option_union_assoc {A} (a b c : option A) : a ∪ (b ∪ c) = (a ∪ b) ∪ c.
Proof. by destruct a, b, c. Qed.

Lemma lastFor_app n l1 l2 : lastFor n (l1 ++ l2) = lastFor n l2 ∪ lastFor n l1.
Proof.
  induction l1 as [|[k v] l1 IH]; cbn; [by destruct (lastFor n l2)|].
  by rewrite IH, option_union_assoc.
Qed.

Definition changesOf (p : naming.Path) (l : list Change) : list (string * option Config) :=
  omap (fun ch => if decide (Change_Path ch = p) then Some (Change_Node ch, Change_Value ch) else None) l.

Lemma changesOf_app p l1 l2 : changesOf p (l1 ++ l2) = (changesOf p l1 ++ changesOf p l2)%list.
Proof. apply omap_app. Qed.

Lemma changesOf_cons p ch l :
  changesOf p (ch :: l) =
    ((if decide (Change_Path ch = p) then [(Change_Node ch, Change_Value ch)] else []) ++ changesOf p l)%list.
Proof. unfold changesOf. cbn. by case_decide. Qed.

Lemma changesOf_none p n l ch :
  Forall (fun x => ~ sameInstance x ch) l -> Change_Path ch = p -> Change_Node ch = n ->
  lastFor n (changesOf p l) = None.
Proof.
  intros H Hp Hn. induction H as [|x l Hx _ IH]; [done|].
  rewrite changesOf_cons, lastFor_app, IH. case_decide as Hxp; [|done]. cbn. rewrite decide_False; [done|].
  intros Hxn. apply Hx. split; congruence.
Qed.

(** The publication of a change does not change what is to be received. *)
Lemma lastFor_publish p n ch l1 l2 q :
  Forall (fun x => ~ sameInstance x ch) l1 ->
  lastFor n ((q ++ changesOf p [ch]) ++ changesOf p (l1 ++ l2)) =
  lastFor n (q ++ changesOf p (l1 ++ ch :: l2)).
Proof.
  intros H. change (ch :: l2) with ([ch] ++ l2)%list.
  rewrite !changesOf_app, !lastFor_app, !option_union_assoc. f_equal.
  destruct (lastFor n (changesOf p l2)) as [v|]; [by destruct (lastFor n (changesOf p l1)), (lastFor n (changesOf p [ch]))|].
  destruct (lastFor n (changesOf p [ch])) as [v|] eqn:Hch.
  - cbn in Hch. case_decide as Hp; [|done]. cbn in Hch. case_decide as Hn; [|done].
    by rewrite (changesOf_none p n l1 ch).
  - by destruct (lastFor n (changesOf p l1)).
Qed.

(** Once the monitor has received the changes sent to it and those not yet
    published, its cache is the store. *)
Definition follows (data : naming.Path -> gmap string Config) (pend : list Change) (o : Omon) : Prop :=
  let p := omon.path (manager o) in
  (loaded o = false -> omon.instConfig (manager o) = ∅) /\
  forall n,
    match lastFor n (omap configChange (queue o) ++ changesOf p pend) with
    | Some v => data p !! n = v
    | None => loaded o = true -> omon.instConfig (manager o) !! n = data p !! n
    end.

Definition coherent (s : System) : Prop :=
  (forall p n v, lastFor n (changesOf p (unpublished s)) = Some v -> configData s p !! n = v) /\
  Forall (follows (configData s) (unpublished s)) (running s).

Lemma setConfig_lookup ch data p n :
  setConfig ch data p !! n =
    match lastFor n (changesOf p [ch]) with Some v => v | None => data p !! n end.
Proof.
  unfold setConfig. cbn. destruct (decide (p = Change_Path ch)) as [->|Hp].
  - rewrite decide_True by done. cbn. rewrite lookup_partial_alter. by case_decide.
  - rewrite decide_False by congruence. done.
Qed.

Lemma follows_change ch data pend o :
  follows data pend o -> follows (setConfig ch data) (pend ++ [ch]) o.
Proof.
  intros [Hl H]. split; [done|]. intros n. specialize (H n).
  rewrite setConfig_lookup, changesOf_app, (app_assoc _ (changesOf _ pend)), lastFor_app.
  destruct (lastFor n (changesOf _ [ch])) as [v|]; cbn.
  - by destruct (lastFor n _).
  - by destruct (lastFor n _).
Qed.

Lemma configChange_message ch :
  configChange (message ch) = Some (Change_Node ch, Change_Value ch).
Proof. unfold message. by destruct (Change_Value ch). Qed.

Lemma follows_publish ch data l1 l2 o :
  Forall (fun x => ~ sameInstance x ch) l1 -> follows data (l1 ++ ch :: l2) o ->
  follows data (l1 ++ l2) (deliver (Change_Path ch) (message ch) o).
Proof.
  intros H1 [Hl H]. unfold deliver. case_decide as Hp; (split; [done|]); intros n; specialize (H n).
  - rewrite <- (lastFor_publish _ _ _ _ _ _ H1) in H. cbn [manager queue loaded].
    rewrite omap_app. cbn [omap list_omap]. rewrite configChange_message.
    cbn in H. by rewrite decide_True in H by done.
  - rewrite <- (lastFor_publish _ _ _ _ _ _ H1) in H. cbn in H.
    rewrite decide_False in H by congruence. by rewrite app_nil_r in H.
Qed.

Lemma follows_other data pend p m o :
  configChange m = None -> follows data pend o -> follows data pend (deliver p m o).
Proof.
  intros Hm [Hl H]. unfold deliver. case_decide; [|done]. split; [done|]. intros n. specialize (H n).
  cbn [manager queue loaded]. rewrite omap_app. cbn [omap list_omap]. by rewrite Hm, app_nil_r.
Qed.

Lemma follows_load data pend o t mons stats :
  follows data pend o -> loaded o = false ->
  omon.init (omon.mkData mons stats (data (omon.path (manager o)))) (manager o) = Some t ->
  follows data pend (mkOmon t (queue o) true).
Proof.
  intros [Hl H] Ho [Hp Hc]%omon_init_config. split; [done|]. intros n. specialize (H n).
  cbn [manager queue loaded]. rewrite Hp. rewrite Hc, Hl by done. cbn [omon.Data_Config].
  rewrite map_union_empty. by destruct (lastFor n _).
Qed.

Lemma follows_step data pend o m q t :
  follows data pend o -> loaded o = true -> queue o = m :: q ->
  omon.handle m ((manager o) <| omon.srcEvent := None |>) = Some t ->
  follows data pend (mkOmon t q true).
Proof.
  intros [_ H] Ho Hq [Hp Hc]%omon_handle_config. split; [done|]. intros n. specialize (H n).
  cbn [manager queue loaded]. rewrite Hp, Hc. rewrite Hq in H. cbn [omap list_omap] in H.
  change (omon.path ((manager o) <| omon.srcEvent := None |>)) with (omon.path (manager o)).
  change (omon.instConfig ((manager o) <| omon.srcEvent := None |>)) with (omon.instConfig (manager o)).
  destruct (configChange m) as [[k v]|]; [|destruct (lastFor n _); auto].
  change (((k, v) :: omap configChange q) ++ changesOf (omon.path (manager o)) pend)%list
    with ((k, v) :: (omap configChange q ++ changesOf (omon.path (manager o)) pend))%list in H.
  cbn [lastFor] in H. destruct (lastFor n _) as [w|]; [by destruct (decide (k = n))|].
  rewrite lookup_partial_alter. case_decide; [|auto]. done.
Qed.

Lemma Forall_middle {A} (P : A -> Prop) l1 x y l2 :
  Forall P (l1 ++ x :: l2) -> (P x -> P y) -> Forall P (l1 ++ y :: l2).
Proof. rewrite !Forall_app, !Forall_cons. tauto. Qed.

Lemma step_coherent s s' : step s s' -> coherent s -> coherent s'.
Proof.
  intros Hst [Hp Hr]. destruct Hst as [ch s|ch l1 l2 s Hu H1|q m s Hm|m l nodes s Hin Hn
    |o t l1 l2 mons stats s Ho Hl Hi|o m q t l1 l2 s Ho Hl _ Hq Ht|o l1 l2 s Ho _ _];
    split; cbn [configData unpublished running]; try done.
  - intros p n v. rewrite setConfig_lookup, changesOf_app, lastFor_app.
    destruct (lastFor n (changesOf p [ch])) as [w|].
    + destruct (lastFor n (changesOf p (unpublished s))); by intros [= <-].
    + destruct (lastFor n (changesOf p (unpublished s))) eqn:Hv; [|done]. intros [= <-]. by apply Hp.
  - eapply Forall_impl; [done|]. intros o. apply follows_change.
  - intros p n v Hv. apply Hp. rewrite Hu. rewrite changesOf_app, lastFor_app in *.
    rewrite changesOf_cons, lastFor_app.
    destruct (lastFor n (changesOf p l2)) as [w|]; [simplify_eq/=|].
    + by destruct (lastFor n _), (lastFor n _).
    + case_decide as Hpath; [|by destruct (lastFor n (changesOf p l1))]. cbn.
      case_decide as Hnode; [|by destruct (lastFor n (changesOf p l1))].
      by rewrite (changesOf_none p n l1 ch) in Hv.
  - rewrite Hu in Hr. apply Forall_map. eapply Forall_impl; [exact Hr|]. intros o. by apply follows_publish.
  - apply Forall_map. eapply Forall_impl; [exact Hr|]. intros o. by apply follows_other.
  - apply Forall_app. split; [done|]. destruct (snd r) as [[p c]|]; [|done].
    apply Forall_singleton. split; [done|]. intros n. cbn [queue newOmon omap list_omap app].
    destruct (lastFor n _) as [v|] eqn:Hv; [|done]. by apply Hp.
  - rewrite Ho in Hr. eapply Forall_middle; [done|]. intros Hf. by eapply follows_load.
  - rewrite Ho in Hr. eapply Forall_middle; [done|]. intros Hf. by eapply follows_step.
  - rewrite Ho in Hr. rewrite Forall_app, Forall_cons in Hr. apply Forall_app. tauto.
Qed.

Record invariant (s : System) : Prop := {
  inv_counted : counted s;
  inv_known : known s;
  inv_coherent : coherent s }.

Lemma reachable_invariant s : reachable s -> invariant s.
Proof.
  induction 1 as [|s s' _ [] Hst].
  - constructor; [|by intros p []|split; [done|constructor]].
    intros p. cbn. by rewrite decide_False by set_solver.
  - constructor; [by eapply step_counted|by eapply step_known|by eapply step_coherent].
Qed.

(** *** The theorems *)

(** In every interleaving of the publishers, of the loop of discover and of
    the object monitors, an object has at most one running monitor, and
    none while the end of its last one is still to be received. *)
Theorem one_omon_per_object s p :
  reachable s ->
  (runs p (running s) <= 1)%nat /\
  (ObjectStatusDone p ∈ inbox s -> runs p (running s) = 0%nat).
Proof.
  intros [Hc _ _]%reachable_invariant. specialize (Hc p). split; [case_decide; lia|].
  intros Hin. assert (0 < dones p (inbox s))%nat; [|case_decide; lia].
  unfold dones. destruct (filter (isDone p) (inbox s)) eqn:Hf; [|cbn; lia].
  exfalso. apply (not_elem_of_nil (ObjectStatusDone p)). rewrite <- Hf. by apply list_elem_of_filter.
Qed.

(** C24: no object is left without a monitor: once the changes of configuration
    are published and discover has handled its messages, an object with an
    instance configuration has exactly one running monitor, even when the
    configuration was recreated while a previous monitor was returning. *)
Theorem no_orphan_object s p :
  reachable s -> unpublished s = [] -> inbox s = [] -> configData s p <> ∅ ->
  runs p (running s) = 1%nat.
Proof.
  intros [Hc Hk _]%reachable_invariant Hu Hi Hp. specialize (Hc p). rewrite Hi in Hc.
  destruct (Hk p Hp) as [Hs|[(ch & Hch & _)|(n & c & Hm)]].
  - rewrite decide_True in Hc by done. cbn in Hc. lia.
  - rewrite Hu in Hch. by apply not_elem_of_nil in Hch.
  - rewrite Hi in Hm. by apply not_elem_of_nil in Hm.
Qed.

(** A monitor that has received its messages caches exactly the stored
    configurations of its object, whatever was changed and published between
    its subscription and the time it read the store. *)
Theorem cache_coherent s o :
  reachable s -> unpublished s = [] -> o ∈ running s -> loaded o = true -> queue o = [] ->
  omon.instConfig (manager o) = configData s (omon.path (manager o)).
Proof.
  intros [_ _ [_ Hr]]%reachable_invariant Hu Ho Hl Hq. rewrite Forall_forall in Hr.
  destruct (Hr o Ho) as [_ H]. apply map_eq. intros n. specialize (H n).
  rewrite Hq, Hu in H. by apply H.
Qed.

End system.

(** *** An execution

    The configuration of svc1 is set on n1, published and noticed, and the
    monitor started reads the store. *)

Definition demo_change : Change := mkChange omon.demo.svc1 "n1" (Some omon.demo.config).

Definition demo_set : System := mkSystem (setConfig demo_change (fun _ => ∅)) [demo_change] [] ∅ [].

Definition demo_published : System :=
  mkSystem (configData demo_set) [] [InstanceConfigUpdated omon.demo.svc1 "n1" omon.demo.config] ∅ [].

Definition demo_started : System :=
  mkSystem (configData demo_set) [] [] {[omon.demo.svc1]}
    [newOmon "n1" (omon.demo.svc1, omon.demo.config)].

Definition demo_manager : omon.Manager :=
  default omon.demo.t0
    (omon.init (omon.mkData ∅ ∅ (configData demo_set omon.demo.svc1)) omon.demo.t0).

Definition demo_omon : Omon := mkOmon demo_manager [] true.

Definition demo_loaded : System :=
  mkSystem (configData demo_set) [] [] {[omon.demo.svc1]} [demo_omon].

Lemma demo_reachable_started : reachable "n1" demo_started.
Proof.
  assert (reachable "n1" demo_set) as H1.
  { eapply reachable_step; [apply reachable_empty|]. apply (step_change "n1" demo_change empty). }
  assert (reachable "n1" demo_published) as H2.
  { eapply reachable_step; [exact H1|]. apply (step_publish "n1" demo_change [] [] demo_set); constructor. }
  eapply reachable_step; [exact H2|].
  refine (step_discover "n1" (InstanceConfigUpdated omon.demo.svc1 "n1" omon.demo.config) [] []
            demo_published eq_refl _).
  intros p H. discriminate H.
Defined.

Lemma demo_reachable_loaded : reachable "n1" demo_loaded.
Proof.
  eapply reachable_step; [apply demo_reachable_started|].
  apply (step_load "n1" (newOmon "n1" (omon.demo.svc1, omon.demo.config)) demo_manager [] [] ∅ ∅ demo_started);
    [reflexivity|reflexivity|vm_compute; reflexivity].
Defined.

Lemma one_omon_per_object_witness :
  runs omon.demo.svc1 (running demo_started) = 1%nat /\ (runs omon.demo.svc1 (running demo_started) <= 1)%nat.
Proof.
  split; [vm_compute; reflexivity|].
  apply (one_omon_per_object "n1" demo_started omon.demo.svc1 demo_reachable_started).
Defined.

Lemma no_orphan_object_witness : runs omon.demo.svc1 (running demo_loaded) = 1%nat.
Proof.
  apply (no_orphan_object "n1" demo_loaded omon.demo.svc1 demo_reachable_loaded); [reflexivity|reflexivity|].
  intros H. assert (configData demo_loaded omon.demo.svc1 !! "n1" = (∅ : gmap string Config) !! "n1") as Hn
    by (rewrite H; reflexivity). vm_compute in Hn. discriminate Hn.
Defined.

Lemma cache_coherent_witness :
  omon.instConfig (manager demo_omon) = configData demo_loaded (omon.path (manager demo_omon)).
Proof.
  exact (cache_coherent "n1" demo_loaded demo_omon demo_reachable_loaded eq_refl
           (list_elem_of_here demo_omon []) eq_refl eq_refl).
Defined.

End discover.
