(* ===== verification/Nmon.v ===== *)
(** * daemon/nmon: the node monitor

    One [Manager] per node.  It serves the requests on the node (freeze and
    unfreeze of the cluster, drain), agrees with its peers on the most recent
    one, holds the node in the rejoin state until it has the data of every
    peer, elects the speaker that grants the cluster locks, and decides what to
    do when the cluster is split.

    The state is threaded explicitly: a method of [*Manager] is a function
    [Manager -> Manager].  What the method does outside of the manager is an
    [Event] of [trace], newest first; what it reads there is an answer of
    [Env].  Log messages are left out, and so are the waits ([time.Sleep]). *)

From S2P Require Import Prelude Status Naming Instance.

Open Scope string_scope.
Import node.

Module nmon.

(** ** Data *)

(** The part of [node.Config] the monitor reads or compares. *)
Record Config := mkConfig {
  Env_ : string;
  Labels : gmap string string;
  MinAvailMemPct_ : Z;
  MinAvailSwapPct_ : Z;
  RejoinGracePeriod : time.Duration;
  SplitAction_ : string;
  PRKey : string }.

#[global] Instance Config_eq_dec : EqDecision Config.
Proof. solve_decision. Defined.

(** The part of [cluster.Config] the monitor reads. *)
Record ClusterConfig := mkClusterConfig { Nodes : list string; Quorum : bool }.

(** [nodesinfo.T]; the san paths are their texts. *)
Record NodeInfo := mkNodeInfo {
  Info_Env : string;
  Info_Labels : gmap string string;
  Info_Paths : list string;
  Lsnr_State : string;
  Lsnr_UpdatedAt : time.Time }.

Definition zero_NodeInfo : NodeInfo := mkNodeInfo "" ∅ [] "" 0%Z.

#[global] Instance eta_NodeInfo : Eta NodeInfo := fun r =>
  mkNodeInfo (Info_Env r) (Info_Labels r) (Info_Paths r) (Lsnr_State r) (Lsnr_UpdatedAt r).
#[global] Instance upd_Info_Env : Upd Info_Env.
Proof. derive_upd eta_NodeInfo. Defined.
#[global] Instance upd_Info_Labels : Upd Info_Labels.
Proof. derive_upd eta_NodeInfo. Defined.
#[global] Instance upd_Info_Paths : Upd Info_Paths.
Proof. derive_upd eta_NodeInfo. Defined.
#[global] Instance upd_Lsnr_State : Upd Lsnr_State.
Proof. derive_upd eta_NodeInfo. Defined.
#[global] Instance upd_Lsnr_UpdatedAt : Upd Lsnr_UpdatedAt.
Proof. derive_upd eta_NodeInfo. Defined.

(** The manager holds the arbitrators by name. *)
Record arbitratorConfig := mkArbitratorConfig {
  URI : string;
  Arbitrator_Weight : Z;
  Insecure : bool }.

(** An arbitrator section of the configuration: its [uri] and deprecated [name]
    keywords, [insecure] and [weight]. *)
Record ArbitratorSection := mkArbitratorSection {
  Section_uri : string;
  Section_name : string;
  Section_insecure : bool;
  Section_weight : Z }.

(** [msgbus.NodeOrchestrationEnd], less the node. *)
Record OrchestrationEnd := mkOrchestrationEnd {
  End_ID : Z;
  End_Expect : string;
  End_GlobalExpect : MonitorGlobalExpect;
  End_GlobalExpectUpdatedAt : time.Time;
  Aborted : bool;
  Failed : bool;
  End_Error : string }.

#[global] Instance eta_OrchestrationEnd : Eta OrchestrationEnd := fun r =>
  mkOrchestrationEnd (End_ID r) (End_Expect r) (End_GlobalExpect r) (End_GlobalExpectUpdatedAt r)
    (Aborted r) (Failed r) (End_Error r).
#[global] Instance upd_Aborted : Upd Aborted.
Proof. derive_upd eta_OrchestrationEnd. Defined.
#[global] Instance upd_Failed : Upd Failed.
Proof. derive_upd eta_OrchestrationEnd. Defined.
#[global] Instance upd_End_Error : Upd End_Error.
Proof. derive_upd eta_OrchestrationEnd. Defined.

Record cmdOrchestrate := mkCmdOrchestrate { cmd_state : MonitorState; cmd_newState : MonitorState }.

(** What a goroutine runs before it posts a [cmdOrchestrate]. *)
Inductive Action := FreezeAction | DrainAction | NoAction.

(** The result of [daemondata.GetHbMessageType] the monitor reads. *)
Record HbMessageType := mkHbMessageType {
  Hb_Type : string;
  Hb_Nodes : list string;
  Hb_JoinedNodes : list string }.

Inductive PubMsg :=
| NodeMonitorUpdated (v : Monitor)
| NodeMonitorDeleted
| NodeStatusUpdated (v : Status)
| NodeStatsUpdated (v : Stats)
| NodeConfigUpdated (v : Config)
| NodeLabelsUpdated (v : gmap string string)
| NodeLabelsCommited (n : string) (v : gmap string string)
| NodeOsPathsUpdated (v : list string)
| NodeStatusArbitratorsUpdated (v : gmap string ArbitratorStatus)
| ArbitratorError (name : string)
| NodeFrozen (frozen : bool) (at_ : time.Time)
| NodeRejoin (nodes : list string) (lastShutdownAt : time.Time) (isUpgrading : bool)
| NodeOrchestrationAccepted (id : Z) (expect : string) (ge : MonitorGlobalExpect) (at_ : time.Time)
| NodeOrchestrationEnd (e : OrchestrationEnd)
| NodeOrchestrationRefused (id : Z) (ge : option MonitorGlobalExpect)
| NodeSplitAction (action : string) (nodeVotes arbitratorVotes voting proVoters : Z)
| EnterOverloadPeriod
| LeaveOverloadPeriod
| JoinIgnored (candidate : string)
| JoinError (candidate : string)
| LeaveIgnored (candidate : string)
| LeaveError (candidate : string).

Inductive Event :=
| Pub (m : PubMsg)
| SetMonitorData (v : Monitor)
| UnsetMonitorData
| SetStatusData (v : Status)
| SetStatsData (v : Stats)
| SetConfigData (v : Config)
| SetOsPathsData (v : list string)
| Exec (orchestrationID : Z) (title : string) (env : list string) (args : list string)
  (** the command run to its end, with its Exec and ExecSuccess or ExecFailed *)
| Go (action : Action) (state success failure : MonitorState)
  (** the goroutine that runs [action], then posts (state, success) or, on an
      error, (state, failure) *)
| GoCheckArbitrators (gen : Z) (arbitrators : gmap string arbitratorConfig)
| CreateFrozenFile
| TouchLastShutdown
| SaveNodesInfo
| DropLockTable
| SplitActionCall (action : string)
| SetupNetworks (names : list string)
| AppendClusterNode (n : string)
| RemoveClusterNode (n : string)
  (** the key operations on cluster.nodes of the cluster configuration *)
| Reply (err : bool).

Definition Trace := list Event.

Class Env := {
  Now : Trace -> time.Time;
  execOk : Trace -> bool;                         (** the last command succeeded *)
  frozenFileAt : Trace -> time.Time;              (** file.ModTime(nodeFrozenFile()) *)
  frozenFileScope : Trace -> string;              (** nodeFrozenScope() *)
  openOk : Trace -> bool;                         (** os.OpenFile of the frozen file *)
  closeOk : Trace -> bool;                        (** its Close *)
  lastShutdownAt : Trace -> time.Time;            (** file.ModTime(LastShutdown) *)
  arbitratorAnswers : Trace -> string -> bool;    (** arbitratorCheck returns no error *)
  statusData : Trace -> gmap string Status;       (** node.StatusData *)
  monitorData : Trace -> gmap string Monitor;     (** node.MonitorData *)
  hbMessageType : Trace -> HbMessageType;         (** databus.GetHbMessageType() *)
  getStats : Trace -> Stats;
  statsKnown : Trace -> option Stats;             (** the stats of the local node, with a MemTotalMB *)
  sanPaths : Trace -> option (list string);       (** san.GetPaths *)
  osPathsData : Trace -> list string;             (** node.OsPathsData of the local node *)
  listenerData : Trace -> option (string * time.Time); (** daemonsubsystem.DataListener of the local node *)
  clusterNodes : Trace -> list string;            (** the cluster.nodes of the loaded configuration *)
  clusterNodesData : Trace -> list string;        (** cluster.ConfigData.Get().Nodes *)
  setKeyOk : Trace -> bool;                       (** the last key operation succeeded *)
  loadedNodesInfo : Trace -> option (gmap string NodeInfo); (** nodesinfo.Load() *)
  bootstrapOk : Trace -> bool;                    (** bootstrapConfig returns no error *)
  bootFreeze : Trace -> bool;                     (** first start since the boot, with the freeze flag
                                                      on the kernel command line *)
  loadedConfig : Trace -> option Config;          (** getNodeConfig, None on an error of NewNode *)
  arbitratorSections : Trace -> list (string * ArbitratorSection); (** config.SectionStrings and keywords *)
  rangeOrder : Trace -> list string -> list string;
  rangeOrder_perm : forall tr l, rangeOrder tr l ≡ₚ l }.

(** [rejoinTicker] is the period of the ticker, [None] when it is stopped;
    [upgradeEnv] says OPENSVC_AGENT_UPGRADE is set in the process environment;
    the values of [livePeers] are all true. *)
Record Manager := mkManager {
  nodeConfig : Config;
  state : Monitor;
  previousState : Monitor;
  rejoinTicker : option time.Duration;
  startedAt : time.Time;
  orchestrationPending : option OrchestrationEnd;
  pendingCancel : bool;
  frozen : bool;
  nodeMonitor : gmap string Monitor;
  clusterConfig : ClusterConfig;
  livePeers : gset string;
  arbitrators : gmap string arbitratorConfig;
  arbitratorChecking : bool;
  arbitratorRecheck : bool;
  arbitratorGen : Z;
  arbitratorFreshGen : Z;
  localhost : string;
  change : bool;
  cacheNodesInfo : gmap string NodeInfo;
  nodeStatus : Status;
  upgradeEnv : bool;
  trace : Trace }.

#[global] Instance eta_Manager : Eta Manager := fun r =>
  mkManager (nodeConfig r) (state r) (previousState r) (rejoinTicker r) (startedAt r)
    (orchestrationPending r) (pendingCancel r) (frozen r) (nodeMonitor r) (clusterConfig r)
    (livePeers r) (arbitrators r) (arbitratorChecking r) (arbitratorRecheck r) (arbitratorGen r)
    (arbitratorFreshGen r) (localhost r) (change r) (cacheNodesInfo r) (nodeStatus r)
    (upgradeEnv r) (trace r).
#[global] Instance upd_nodeConfig : Upd nodeConfig.
Proof. derive_upd eta_Manager. Defined.
#[global] Instance upd_state : Upd state.
Proof. derive_upd eta_Manager. Defined.
#[global] Instance upd_previousState : Upd previousState.
Proof. derive_upd eta_Manager. Defined.
#[global] Instance upd_rejoinTicker : Upd rejoinTicker.
Proof. derive_upd eta_Manager. Defined.
#[global] Instance upd_startedAt : Upd startedAt.
Proof. derive_upd eta_Manager. Defined.
#[global] Instance upd_orchestrationPending : Upd orchestrationPending.
Proof. derive_upd eta_Manager. Defined.
#[global] Instance upd_pendingCancel : Upd pendingCancel.
Proof. derive_upd eta_Manager. Defined.
#[global] Instance upd_frozen : Upd frozen.
Proof. derive_upd eta_Manager. Defined.
#[global] Instance upd_nodeMonitor : Upd nodeMonitor.
Proof. derive_upd eta_Manager. Defined.
#[global] Instance upd_clusterConfig : Upd clusterConfig.
Proof. derive_upd eta_Manager. Defined.
#[global] Instance upd_livePeers : Upd livePeers.
Proof. derive_upd eta_Manager. Defined.
#[global] Instance upd_arbitrators : Upd arbitrators.
Proof. derive_upd eta_Manager. Defined.
#[global] Instance upd_arbitratorChecking : Upd arbitratorChecking.
Proof. derive_upd eta_Manager. Defined.
#[global] Instance upd_arbitratorRecheck : Upd arbitratorRecheck.
Proof. derive_upd eta_Manager. Defined.
#[global] Instance upd_arbitratorGen : Upd arbitratorGen.
Proof. derive_upd eta_Manager. Defined.
#[global] Instance upd_arbitratorFreshGen : Upd arbitratorFreshGen.
Proof. derive_upd eta_Manager. Defined.
#[global] Instance upd_change : Upd change.
Proof. derive_upd eta_Manager. Defined.
#[global] Instance upd_cacheNodesInfo : Upd cacheNodesInfo.
Proof. derive_upd eta_Manager. Defined.
#[global] Instance upd_nodeStatus : Upd nodeStatus.
Proof. derive_upd eta_Manager. Defined.
#[global] Instance upd_upgradeEnv : Upd upgradeEnv.
Proof. derive_upd eta_Manager. Defined.
#[global] Instance upd_trace : Upd trace.
Proof. derive_upd eta_Manager. Defined.

Definition emit (e : Event) (t : Manager) : Manager := t <| trace ::= cons e |>.
Definition pub (m : PubMsg) (t : Manager) : Manager := emit (Pub m) t.

(** A change of [t.state]. *)
Definition set (f : Monitor -> Monitor) (t : Manager) : Manager := t <| state ::= f |>.

(** [NewManager]. *)
Definition NewManager (h : string) (cfg : Config) (upgrade : bool) : Manager :=
  let rejoin := zero_Monitor <| LocalExpect := MonitorLocalExpectNone |>
                  <| GlobalExpect := MonitorGlobalExpectNone |> <| State := MonitorStateRejoin |> in
  mkManager cfg rejoin rejoin None 0%Z None false false ∅ (mkClusterConfig [] false) {[h]} ∅ false false
    0%Z 0%Z h true {[h := zero_NodeInfo]} zero_Status upgrade [].

Section methods.
Context `{E : Env}.

(** ** main.go: publications *)

Definition update (t : Manager) : Manager :=
  let newValue := state t in
  let t := emit (SetMonitorData newValue) t in
  let t := pub (NodeMonitorUpdated newValue) t in
  t <| nodeMonitor ::= <[localhost t := state t]> |>.

Definition updateIfChange (t : Manager) : Manager :=
  if negb (change t) then t
  else
    let t := t <| change := false |> in
    let now := Now (trace t) in
    let t := set (fun s => s <| Monitor_UpdatedAt := now |>) t in
    let previousVal := previousState t in
    let newVal := state t in
    let t := if bool_decide (State newVal = State previousVal) then t
             else set (fun s => s <| StateUpdatedAt := now |>) t in
    let t := if bool_decide (LocalExpect newVal = LocalExpect previousVal) then t
             else set (fun s => s <| LocalExpectUpdatedAt := now |>) t in
    let t := t <| previousState := state t |> in
    update t.

Definition publishNodeStatus (t : Manager) : Manager :=
  let t := emit (SetStatusData (nodeStatus t)) t in
  pub (NodeStatusUpdated (nodeStatus t)) t.

Definition hasOtherNodeActing (t : Manager) : bool :=
  existsb (fun kv => negb (bool_decide (kv.1 = localhost t)) && IsDoing (State kv.2))
    (map_to_list (nodeMonitor t)).

Definition clearPending (t : Manager) : Manager := t <| pendingCancel := false |>.

(** ** speaker.go *)

Definition speakerNode (t : Manager) : string :=
  default "" (List.find (fun n => bool_decide (n ∈ livePeers t)) (Nodes (clusterConfig t))).

Definition isSpeakerNode (t : Manager) : bool := String.eqb (speakerNode t) (localhost t).

(** The flag says whether the value changed. *)
Definition updateSpeaker (t : Manager) : Manager * bool :=
  if negb (Bool.eqb (isSpeakerNode t) (IsLeader (nodeStatus t))) then
    let t := t <| nodeStatus ::= fun s => s <| IsLeader ::= negb |> |> in
    (emit DropLockTable t, true)
  else (t, false).

Definition updateSpeakerAndPublish (t : Manager) : Manager :=
  let '(t, changed) := updateSpeaker t in
  if (changed : bool) then publishNodeStatus t else t.

(** ** main.go: load *)

Definition isOverloaded (stats : Stats) (t : Manager) : bool :=
  ((0 <? MinAvailMemPct_ (nodeConfig t)) && (MemAvailPct stats <? MinAvailMemPct_ (nodeConfig t)))%Z
  || ((0 <? MinAvailSwapPct_ (nodeConfig t)) && (SwapAvailPct stats <? MinAvailSwapPct_ (nodeConfig t)))%Z.

Definition updateIsOverloaded (stats : Stats) (t : Manager) : Manager * bool :=
  let overloaded := isOverloaded stats t in
  if Bool.eqb overloaded (IsOverloaded (nodeStatus t)) then (t, false)
  else
    let t := t <| nodeStatus ::= fun s => s <| IsOverloaded := overloaded |> |> in
    (pub (if overloaded then EnterOverloadPeriod else LeaveOverloadPeriod) t, true).

Definition updateIsOverloadedAndPublish (stats : Stats) (t : Manager) : Manager :=
  let '(t, changed) := updateIsOverloaded stats t in
  if (changed : bool) then publishNodeStatus t else t.

Definition updateStats (t : Manager) : Manager :=
  let stats := getStats (trace t) in
  let t := emit (SetStatsData stats) t in
  let t := pub (NodeStatsUpdated stats) t in
  updateIsOverloadedAndPublish stats t.

(** ** main.go: the nodes info cache *)

Definition infoOf (n : string) (t : Manager) : NodeInfo := default zero_NodeInfo (cacheNodesInfo t !! n).

Definition saveNodesInfo (t : Manager) : Manager := emit SaveNodesInfo t.

Definition refreshSanPaths (t : Manager) : Manager :=
  match sanPaths (trace t) with
  | None => t
  | Some paths =>
      let t := t <| cacheNodesInfo ::=
                 <[localhost t := (infoOf (localhost t) t) <| Info_Paths := paths |>]> |> in
      pub (NodeOsPathsUpdated paths) t
  end.

(** On a stopped listener the code changes a copy of the cached entry only. *)
Definition onDaemonListenerUpdated (n lsnrState : string) (updatedAt : time.Time) (t : Manager) : Manager :=
  if String.eqb lsnrState "stopped" then t
  else
    let t := t <| cacheNodesInfo ::=
               <[n := (infoOf n t) <| Lsnr_State := lsnrState |> <| Lsnr_UpdatedAt := updatedAt |>]> |> in
    saveNodesInfo t.

(** The search for a duplicate prkey that follows only logs and republishes the
    issues of the configuration, left out of [Config]. *)
Definition onPeerNodeConfigUpdated (n env : string) (t : Manager) : Manager :=
  let t := t <| cacheNodesInfo ::= <[n := (infoOf n t) <| Info_Env := env |>]> |> in
  saveNodesInfo t.

Definition onPeerNodeOsPathsUpdated (n : string) (paths : list string) (t : Manager) : Manager :=
  let t := t <| cacheNodesInfo ::= <[n := (infoOf n t) <| Info_Paths := paths |>]> |> in
  saveNodesInfo t.

Definition onPeerNodeLabelsUpdated (n : string) (labels : gmap string string) (t : Manager) : Manager :=
  let changed := negb (bool_decide (Info_Labels (infoOf n t) = labels)) in
  let t := t <| cacheNodesInfo ::= <[n := (infoOf n t) <| Info_Labels := labels |>]> |> in
  let t := saveNodesInfo t in
  if changed then pub (NodeLabelsCommited n labels) t else t.

Definition onNodeStatusGenUpdates (gen : Gen) (t : Manager) : Manager :=
  t <| nodeStatus ::= fun s => s <| Status_Gen := gen |> |>.

(** ** main.go: configuration *)

Definition loadConfig (t : Manager) : option Manager :=
  cfg ← loadedConfig (trace t);
  let t := t <| nodeConfig := cfg |> in
  let info := (infoOf (localhost t) t) <| Info_Labels := Labels cfg |> <| Info_Env := Env_ cfg |> in
  let info := match listenerData (trace t) with
              | Some (s, at_) => info <| Lsnr_State := s |> <| Lsnr_UpdatedAt := at_ |>
              | None => info
              end in
  Some (t <| cacheNodesInfo ::= <[localhost t := info]> |>).

(** The pools are refreshed by a goroutine.  On an error, [None], the caller
    only logs it. *)
Definition loadConfigAndPublish (t : Manager) : option Manager :=
  let prevNodeConfig := nodeConfig t in
  t ← loadConfig t;
  let t := match statsKnown (trace t) with
           | Some stats => updateIsOverloadedAndPublish stats t
           | None => t
           end in
  let info := infoOf (localhost t) t in
  let labelsChanged := negb (bool_decide (Labels prevNodeConfig = Labels (nodeConfig t))) in
  let pathsChanged := negb (bool_decide (osPathsData (trace t) = Info_Paths info)) in
  let t := if pathsChanged then emit (SetOsPathsData (Info_Paths info)) t else t in
  let t := if labelsChanged || pathsChanged then saveNodesInfo t else t in
  let t := if bool_decide (prevNodeConfig = nodeConfig t) then t
           else let t := emit (SetConfigData (nodeConfig t)) t in
                pub (NodeConfigUpdated (nodeConfig t)) t in
  let t := if labelsChanged
           then let t := pub (NodeLabelsUpdated (Info_Labels info)) t in
                pub (NodeLabelsCommited (localhost t) (Info_Labels info)) t
           else t in
  let t := if pathsChanged then pub (NodeOsPathsUpdated (Info_Paths info)) t else t in
  Some (updateSpeakerAndPublish t).

(** ** main_cmd.go: transitions *)

Definition transitionTo (newState : MonitorState) (t : Manager) : Manager :=
  let t := t <| change := true |> in
  let t := set (fun s => s <| State := newState |>) t in
  updateIfChange t.

(** ** crm_actions.go *)

Definition crmActionWithEnv (title : string) (extraEnv args : list string) (t : Manager) : Manager * bool :=
  let t := emit (Exec (OrchestrationID (state t)) title extraEnv args) t in
  (t, execOk (trace t)).

Definition crmAction (title : string) (args : list string) : Manager -> Manager * bool :=
  crmActionWithEnv title [] args.

Definition crmDrain : Manager -> Manager * bool :=
  crmAction "drain" ["*/svc/*"; "instance"; "shutdown"].
Definition crmFreeze : Manager -> Manager * bool := crmAction "freeze" ["node"; "freeze"].
Definition crmFreezeCluster : Manager -> Manager * bool :=
  crmActionWithEnv "freeze" ["OSVC_FREEZE_SCOPE=" ++ ScopeCluster] ["node"; "freeze"].
Definition crmUnfreeze : Manager -> Manager * bool := crmAction "unfreeze" ["node"; "unfreeze"].

Definition doTransitionAction (action : Manager -> Manager * bool)
    (newState successState errorState : MonitorState) (t : Manager) : Manager :=
  let t := transitionTo newState t in
  let '(t, ok) := action t in
  if (ok : bool) then transitionTo successState t else transitionTo errorState t.

(** ** orchestration_id.go *)

Definition expect (t : Manager) : string :=
  if negb (one_of (GlobalExpect (state t)) [MonitorGlobalExpectNone; MonitorGlobalExpectInit])
  then MonitorGlobalExpect_String (GlobalExpect (state t))
  else if negb (one_of (LocalExpect (state t)) [MonitorLocalExpectNone; MonitorLocalExpectInit])
  then MonitorLocalExpect_String (LocalExpect (state t))
  else "".

Definition publishOrchestrationAccepted (t : Manager) : Manager :=
  pub (NodeOrchestrationAccepted (OrchestrationID (state t)) (expect t) (GlobalExpect (state t))
         (GlobalExpectUpdatedAt (state t))) t.

Definition setNextPendingOrchestration (t : Manager) : Manager :=
  t <| orchestrationPending :=
    Some (mkOrchestrationEnd (OrchestrationID (state t)) (expect t) (GlobalExpect (state t))
            (GlobalExpectUpdatedAt (state t)) false false "") |>.

Definition abortPendingOrchestration (t : Manager) : Manager :=
  match orchestrationPending t with
  | None => t
  | Some e =>
      let t := pub (NodeOrchestrationEnd (e <| Aborted := true |>)) t in
      t <| orchestrationPending := None |>
  end.

Definition publishOrchestrationEnded (t : Manager) : Manager :=
  match orchestrationPending t with
  | None => t
  | Some e =>
      let t := pub (NodeOrchestrationEnd e) t in
      t <| orchestrationPending := None |>
  end.

Definition publishOrchestrationRefused (id : Z) (ge : option MonitorGlobalExpect) (t : Manager) : Manager :=
  if (id =? 0)%Z then t else pub (NodeOrchestrationRefused id ge) t.

Definition adoptOrchestration (candidate : Z) (t : Manager) : Manager :=
  if (candidate =? 0)%Z || (OrchestrationID (state t) =? candidate)%Z then t
  else
    let t := abortPendingOrchestration t in
    let t := set (fun s => s <| OrchestrationID := candidate |>) t in
    let t := publishOrchestrationAccepted t in
    setNextPendingOrchestration t.

(** The deferred publication runs last. *)
Definition endOrchestration (t : Manager) : Manager :=
  let t :=
    if IsOneOf (State (state t)) MonitorStatesFailure
    then t <| orchestrationPending ::=
           fmap (fun e => e <| Failed := true |> <| End_Error := MonitorState_String (State (state t)) |>) |>
    else t in
  let t := set (fun s => s <| OrchestrationID := 0%Z |>) t in
  publishOrchestrationEnded t.

(** ** arbitrator.go *)

Definition setArbitratorConfig (t : Manager) : Manager :=
  let add (m : gmap string arbitratorConfig) (sec : string * ArbitratorSection) :=
    let '(s, kws) := sec in
    if negb (String.prefix "arbitrator#" s) then m
    else
      let name := String.substring 11 (String.length s - 11) s in
      let uri := if String.eqb (Section_uri kws) "" then Section_name kws else Section_uri kws in
      if String.eqb uri "" then m
      else <[name := mkArbitratorConfig uri (Section_weight kws) (Section_insecure kws)]> m in
  t <| arbitrators := foldl add ∅ (arbitratorSections (trace t)) |>.

(** The answers come in any order; a failed one is published. *)
Definition checkArbitrators (arbitrators : gmap string arbitratorConfig) (t : Manager) :
    Manager * gmap string ArbitratorStatus :=
  let answers := arbitratorAnswers (trace t) in
  let result := map_imap (fun name a =>
    Some (mkArbitratorStatus (URI a) (if answers name then status.Up else status.Down)
            (Arbitrator_Weight a))) arbitrators in
  let down := List.filter (fun name => negb (answers name))
                (rangeOrder (trace t) (map_to_list arbitrators).*1) in
  (foldl (fun t name => pub (ArbitratorError name) t) t down, result).

Definition getStatusArbitrators (t : Manager) : Manager * gmap string ArbitratorStatus :=
  checkArbitrators (arbitrators t) t.

Definition refreshArbitrators (t : Manager) : Manager :=
  if arbitratorChecking t then t <| arbitratorRecheck := true |>
  else
    let t := t <| arbitratorChecking := true |> in
    let t := t <| arbitratorGen ::= Z.succ |> in
    emit (GoCheckArbitrators (arbitratorGen t) (arbitrators t)) t.

Definition updateStatusArbitrator (m : gmap string ArbitratorStatus) (t : Manager) : Manager :=
  if bool_decide (m = Arbitrators (nodeStatus t)) then t
  else
    let t := t <| nodeStatus ::= fun s => s <| Arbitrators := m |> |> in
    let t := publishNodeStatus t in
    pub (NodeStatusArbitratorsUpdated m) t.

(** [c] is the generation and the result of a background check. *)
Definition onArbitratorsChecked (gen : Z) (result : gmap string ArbitratorStatus) (t : Manager) : Manager :=
  let t := t <| arbitratorChecking := false |> in
  if arbitratorRecheck t then
    let t := t <| arbitratorRecheck := false |> in
    refreshArbitrators t
  else if (gen <=? arbitratorFreshGen t)%Z then t
  else updateStatusArbitrator result t.

Definition sumZ (l : list Z) : Z := foldr Z.add 0%Z l.

Definition arbitratorTotal (t : Manager) : Z :=
  sumZ (map (fun kv => Arbitrator_Weight kv.2) (map_to_list (arbitrators t))).

(** The list of the votes has the name of an arbitrator as many times as its
    weight; the callers only count it. *)
Definition arbitratorVotes (t : Manager) : Manager * Z :=
  let '(t, m) := getStatusArbitrators t in
  let t := t <| arbitratorFreshGen := arbitratorGen t |> in
  let t := updateStatusArbitrator m t in
  (t, sumZ (map (fun kv => if Z.eqb (Arbitrator_Status kv.2) status.Up then Z.max 0 (Weight kv.2) else 0%Z)
              (map_to_list m))).

(** ** converge_global_expect.go *)

Definition alignEndedGlobalExpect (updated : time.Time) (t : Manager) : Manager :=
  if negb (one_of (GlobalExpect (state t)) [MonitorGlobalExpectNone; MonitorGlobalExpectInit]) then t
  else if negb (time.After updated (GlobalExpectUpdatedAt (state t))) then t
  else
    let t := t <| change := true |> in
    set (fun s => s <| GlobalExpectUpdatedAt := updated |>) t.

(** The variables of the loop: the node and date of the most recent pending
    expect, and the date of the most recent ended one. *)
Record recent := mkRecent {
  mostRecentNode : string;
  mostRecentUpdated : time.Time;
  mostRecentEndedUpdated : time.Time }.

Definition recentStep (m : gmap string Monitor) (r : recent) (nodename : string) : recent :=
  let data := default zero_Monitor (m !! nodename) in
  match GlobalExpect data with
  | MonitorGlobalExpectInit | MonitorGlobalExpectUnknown => r
  | MonitorGlobalExpectNone =>
      if time.Before (mostRecentEndedUpdated r) (GlobalExpectUpdatedAt data)
      then mkRecent (mostRecentNode r) (mostRecentUpdated r) (GlobalExpectUpdatedAt data)
      else r
  | _ =>
      if time.Before (mostRecentUpdated r) (GlobalExpectUpdatedAt data)
      then mkRecent nodename (GlobalExpectUpdatedAt data) (mostRecentEndedUpdated r)
      else r
  end.

Definition isStateFailed (t : Manager) : bool := HasSuffix (MonitorState_String (State (state t))) "failed".

Definition convergeGlobalExpectFromRemote (t : Manager) : Manager :=
  let nodes := rangeOrder (trace t) (map_to_list (nodeMonitor t)).*1 in
  let r := foldl (recentStep (nodeMonitor t)) (mkRecent "" time.zero time.zero) nodes in
  if time.IsZero (mostRecentUpdated r) then alignEndedGlobalExpect (mostRecentEndedUpdated r) t
  else if time.After (mostRecentUpdated r) (GlobalExpectUpdatedAt (state t)) then
    let peer := default zero_Monitor (nodeMonitor t !! mostRecentNode r) in
    let t := t <| change := true |> in
    let t := set (fun s => s <| GlobalExpect := GlobalExpect peer |>) t in
    let t := set (fun s => s <| GlobalExpectUpdatedAt := GlobalExpectUpdatedAt peer |>) t in
    let t := adoptOrchestration (OrchestrationID peer) t in
    if isStateFailed t then set (fun s => s <| State := MonitorStateIdle |>) t else t
  else t.

Definition isConvergedGlobalExpect (t : Manager) : bool :=
  forallb (fun kv => bool_decide (kv.1 = localhost t)
                     || negb (time.After (GlobalExpectUpdatedAt (state t)) (GlobalExpectUpdatedAt kv.2)))
    (map_to_list (nodeMonitor t)).

(** ** orchestration_frozen.go and orchestration_unfrozen.go *)

(** The flag is the result of [frozenClearIfReached]. *)
Definition frozenClearIfReached (t : Manager) : Manager * bool :=
  if negb (time.IsZero (FrozenAt (nodeStatus t))) then
    let t := t <| change := true |> in
    let t := set (fun s => s <| GlobalExpect := MonitorGlobalExpectNone |>) t in
    let t := clearPending t in
    (endOrchestration t, true)
  else (t, false).

Definition frozenFromIdle (t : Manager) : Manager :=
  let '(t, reached) := frozenClearIfReached t in
  if (reached : bool) then t
  else doTransitionAction crmFreezeCluster MonitorStateFreezeProgress MonitorStateFreezeSuccess
         MonitorStateFreezeFailure t.

Definition frozenFromFrozen (t : Manager) : Manager :=
  let '(t, reached) := frozenClearIfReached t in
  if (reached : bool) then
    let t := set (fun s => s <| State := MonitorStateIdle |>) t in
    t <| change := true |>
  else t.

Definition orchestrateFrozen (t : Manager) : Manager :=
  match State (state t) with
  | MonitorStateIdle => frozenFromIdle t
  | MonitorStateFreezeSuccess => frozenFromFrozen t
  | _ => t
  end.

Definition unfrozenClearIfReached (t : Manager) : Manager * bool :=
  if time.IsZero (FrozenAt (nodeStatus t)) then
    let t := t <| change := true |> in
    let t := set (fun s => s <| GlobalExpect := MonitorGlobalExpectNone |>) t in
    let t := clearPending t in
    (endOrchestration t, true)
  else (t, false).

Definition unfrozenFromIdle (t : Manager) : Manager :=
  let '(t, reached) := unfrozenClearIfReached t in
  if (reached : bool) then t
  else doTransitionAction crmUnfreeze MonitorStateUnfreezeProgress MonitorStateUnfreezeSuccess
         MonitorStateUnfreezeFailure t.

Definition unfrozenFromUnfreezeSuccess (t : Manager) : Manager :=
  let '(t, reached) := unfrozenClearIfReached t in
  if (reached : bool) then
    let t := set (fun s => s <| State := MonitorStateIdle |>) t in
    let t := t <| change := true |> in
    updateIfChange t
  else t.

Definition orchestrateUnfrozen (t : Manager) : Manager :=
  match State (state t) with
  | MonitorStateIdle => unfrozenFromIdle t
  | MonitorStateUnfreezeSuccess => unfrozenFromUnfreezeSuccess t
  | _ => t
  end.

(** ** orchestration_drained.go *)

(** Already frozen, the state advances without [t.change]. *)
Definition drainFromIdle (t : Manager) : Manager :=
  if negb (time.IsZero (FrozenAt (nodeStatus t))) then
    let t := set (fun s => s <| State := MonitorStateFreezeSuccess |>) t in
    emit (Go NoAction MonitorStateFreezeSuccess MonitorStateFreezeSuccess MonitorStateFreezeSuccess) t
  else
    let t := t <| change := true |> in
    let t := set (fun s => s <| State := MonitorStateFreezeProgress |>) t in
    let t := updateIfChange t in
    emit (Go FreezeAction MonitorStateFreezeProgress MonitorStateFreezeSuccess MonitorStateFreezeFailure) t.

Definition drainFromFrozen (t : Manager) : Manager :=
  let t := t <| change := true |> in
  let t := set (fun s => s <| State := MonitorStateDrainProgress |>) t in
  let t := updateIfChange t in
  emit (Go DrainAction MonitorStateDrainProgress MonitorStateDrainSuccess MonitorStateDrainFailure) t.

Definition orchestrateDrained (t : Manager) : Manager :=
  match State (state t) with
  | MonitorStateIdle => drainFromIdle t
  | MonitorStateFreezeSuccess => drainFromFrozen t
  | MonitorStateDrainSuccess =>
      let t := t <| change := true |> in
      let t := set (fun s => s <| State := MonitorStateIdle |>) t in
      let t := set (fun s => s <| LocalExpect := MonitorLocalExpectNone |>) t in
      endOrchestration t
  | MonitorStateDrainFailure =>
      let t := t <| change := true |> in
      let t := set (fun s => s <| LocalExpect := MonitorLocalExpectNone |>) t in
      endOrchestration t
  | _ => t
  end.

(** ** orchestration_aborted.go *)

Definition orchestrateAborted (t : Manager) : Manager :=
  let t := t <| change := true |> in
  let t := set (fun s => s <| GlobalExpect := MonitorGlobalExpectNone |>) t in
  let t := endOrchestration t in
  let t := match LocalExpect (state t) with
           | MonitorLocalExpectDrained => set (fun s => s <| LocalExpect := MonitorLocalExpectNone |>) t
           | _ => t
           end in
  updateIfChange t.

(** ** orchestration.go *)

Definition orchestrate (t : Manager) : Manager :=
  match State (state t) with
  | MonitorStateInit | MonitorStateRejoin => t
  | _ =>
      if negb (isConvergedGlobalExpect t) then t
      else
        let t := match LocalExpect (state t) with
                 | MonitorLocalExpectDrained => orchestrateDrained t
                 | _ => t
                 end in
        let t := match GlobalExpect (state t) with
                 | MonitorGlobalExpectAborted => orchestrateAborted t
                 | MonitorGlobalExpectFrozen => orchestrateFrozen t
                 | MonitorGlobalExpectUnfrozen => orchestrateUnfrozen t
                 | _ => t
                 end in
        updateIfChange t
  end.

(** ** main.go and main_cmd.go: joining the cluster *)

Definition missingNodes (nodes joinedNodes : list string) : list string :=
  List.filter (fun n => negb (one_of n joinedNodes)) nodes.

Definition publishNodeRejoin (nodes : list string) (leftAt : time.Time) (t : Manager) : Manager :=
  pub (NodeRejoin nodes leftAt (upgradeEnv t)) t.

(** [None] is the panic of [time.NewTicker] on a period that is not positive.
    The environment variable is unset before it is read. *)
Definition startRejoin (t : Manager) : option Manager :=
  let hb := hbMessageType (trace t) in
  if String.eqb (Hb_Type hb) "patch" && bool_decide (missingNodes (Hb_Nodes hb) (Hb_JoinedNodes hb) = []) then
    let leftAt := lastShutdownAt (trace t) in
    let t := t <| rejoinTicker := None |> in
    let now := Now (trace t) in
    let t := t <| nodeStatus ::= fun s => s <| LeftAt := leftAt |> <| RejoinedAt := now |> |> in
    let t := t <| upgradeEnv := false |> in
    let t := transitionTo MonitorStateIdle t in
    Some (publishNodeRejoin (Hb_Nodes hb) leftAt t)
  else
    let period := RejoinGracePeriod (nodeConfig t) in
    if (period <=? 0)%Z then None
    else
      let t := t <| rejoinTicker := Some period |> in
      Some (transitionTo MonitorStateRejoin t).

Definition touchLastShutdown (t : Manager) : Manager := emit TouchLastShutdown t.

Definition onLastShutdownFileTouchTicker (t : Manager) : Manager :=
  match State (state t) with
  | MonitorStateRejoin => t
  | _ => touchLastShutdown t
  end.

(** The results are [changed] and whether there is an error. *)
Definition nodeFreeze (t : Manager) : Manager * (bool * bool) :=
  if negb (time.IsZero (frozenFileAt (trace t))) then (t, (false, false))
  else if negb (openOk (trace t)) then (t, (false, true))
  else
    let t := emit CreateFrozenFile t in
    (t, (true, negb (closeOk (trace t)))).

Definition onRejoinGracePeriodExpire (t : Manager) : Manager :=
  let '(t, (changed, err)) := nodeFreeze t in
  if (changed : bool) && (err : bool) then t <| rejoinTicker := Some (2 * time.Second)%Z |>
  else
    let t := transitionTo MonitorStateIdle t in
    t <| rejoinTicker := None |>.

Definition checkRejoinTicker (t : Manager) : Manager :=
  match State (state t) with
  | MonitorStateRejoin =>
      let left := time.Sub (time.Add (startedAt t) (RejoinGracePeriod (nodeConfig t))) (Now (trace t)) in
      if (left <=? 0)%Z then t <| rejoinTicker := Some 100000000%Z |>
      else t <| rejoinTicker := Some left |>
  | _ => t
  end.

Definition onHeartbeatMessageTypeUpdated (to : string) (nodes joinedNodes : list string) (t : Manager) : Manager :=
  match State (state t) with
  | MonitorStateRejoin =>
      if negb (String.eqb to "patch") then t
      else if negb (bool_decide (missingNodes nodes joinedNodes = [])) then t
      else
        let t := t <| rejoinTicker := None |> in
        let leftAt := lastShutdownAt (trace t) in
        let t := publishNodeRejoin nodes leftAt t in
        let now := Now (trace t) in
        let t := t <| nodeStatus ::= fun s => s <| LeftAt := leftAt |> <| RejoinedAt := now |> |> in
        let t := t <| upgradeEnv := false |> in
        transitionTo MonitorStateIdle t
  | _ => t
  end.

(** Sorted by the code for its log. *)
Definition clusterFreezeMissedBy (peerStatus : gmap string Status) (lastShutdownAt : time.Time) : list string :=
  (List.filter (fun kv => String.eqb (FrozenScope kv.2) ScopeCluster
                          && time.After (FrozenAt kv.2) lastShutdownAt)
     (map_to_list peerStatus)).*1.

(** The status of the other nodes of the cluster configuration that have one. *)
Definition peerStatus (t : Manager) : gmap string Status :=
  filter (fun kv => kv.1 ∈ Nodes (clusterConfig t) /\ kv.1 <> localhost t) (statusData (trace t)).

Definition onNodeRejoin (nodes : list string) (lastShutdownAt : time.Time) (isUpgrading : bool)
    (t : Manager) : Manager :=
  if isUpgrading then t
  else if Nat.ltb (length nodes) 2 then t
  else if bool_decide (GlobalExpect (state t) = MonitorGlobalExpectUnfrozen) then t
  else match clusterFreezeMissedBy (peerStatus t) lastShutdownAt with
       | [] => t
       | _ => fst (nodeFreeze t)
       end.

Definition onJoinRequest (candidate : string) (t : Manager) : Manager :=
  if one_of candidate (clusterNodesData (trace t)) then pub (JoinIgnored candidate) t
  else
    let t := emit (AppendClusterNode candidate) t in
    if setKeyOk (trace t) then t else pub (JoinError candidate) t.

Definition onLeaveRequest (candidate : string) (t : Manager) : Manager :=
  if negb (one_of candidate (clusterNodesData (trace t))) then pub (LeaveIgnored candidate) t
  else
    let t := emit (RemoveClusterNode candidate) t in
    if setKeyOk (trace t) then t else pub (LeaveError candidate) t.

(** ** main_cmd.go: configuration changes *)

(** The names of the networks to set up, none for all of them. *)
Fixpoint networkNames (sectionsChanged names : list string) : list string :=
  match sectionsChanged with
  | [] => names
  | c :: rest =>
      if String.eqb c "cni" then []
      else
        let name := if String.prefix "network#" c then String.substring 8 (String.length c - 8) c else c in
        networkNames rest (names ++ [name])%list
  end.

(** The publication of the networks whose peers changed is left out. *)
Definition onNetworkChanged (sectionsChanged : list string) (t : Manager) : Manager :=
  emit (SetupNetworks (networkNames sectionsChanged [])) t.

Definition onClusterConfigUpdated (value : ClusterConfig) (networkChanged nodesAdded nodesRemoved : list string)
    (t : Manager) : Manager :=
  let t := t <| clusterConfig := value |> in
  let t := default t (loadConfigAndPublish t) in
  let t := setArbitratorConfig t in
  let t := refreshArbitrators t in
  let t := checkRejoinTicker t in
  match networkChanged, nodesAdded, nodesRemoved with
  | _ :: _, _, _ => onNetworkChanged networkChanged t
  | [], [], [] => t
  | [], _, _ => onNetworkChanged [] t
  end.

Definition onConfigFileUpdated (t : Manager) : Manager :=
  match loadConfigAndPublish t with
  | None => t
  | Some t => checkRejoinTicker t
  end.

(** ** main_cmd.go: a peer leaves *)

Definition splitActions : list string := ["crash"; "reboot"; "disabled"].

Definition nodesQuorum (t : Manager) : bool :=
  (Z.quot (Z.of_nat (length (Nodes (clusterConfig t)))) 2 <? Z.of_nat (size (livePeers t)))%Z.

(** The first part of [onForgetPeer]: the caches forget the peer. *)
Definition forgotten (n : string) (t : Manager) : Manager :=
  let t := t <| nodeMonitor ::= delete n |> in
  let t := t <| livePeers ::= fun s => s ∖ {[n]} |> in
  let t := t <| cacheNodesInfo ::= delete n |> in
  let t := saveNodesInfo t in
  updateSpeakerAndPublish t.

Definition onForgetPeer (n : string) (t : Manager) : Manager :=
  let t := forgotten n t in
  if nodesQuorum t then t
  else if negb (Quorum (clusterConfig t)) then t
  else if frozen t then t
  else
    let total := (Z.of_nat (length (Nodes (clusterConfig t))) + arbitratorTotal t)%Z in
    let '(t, arbitratorVotes) := arbitratorVotes t in
    let live := Z.of_nat (size (livePeers t)) in
    let votes := (live + arbitratorVotes)%Z in
    if (Z.quot total 2 <? votes)%Z then t
    else
      let action := SplitAction_ (nodeConfig t) in
      let t := pub (NodeSplitAction action live arbitratorVotes total votes) t in
      if one_of action splitActions then emit (SplitActionCall action) t else t.

(** ** main_cmd.go: the frozen file, the peers *)

Definition onNodeFrozenFileRemoved (t : Manager) : Manager :=
  let t := t <| frozen := false |> in
  let t := t <| nodeStatus ::= fun s => s <| FrozenAt := time.zero |> <| FrozenScope := "" |> |> in
  let t := pub (NodeFrozen (frozen t) time.zero) t in
  let t := publishNodeStatus t in
  orchestrate t.

Definition onNodeFrozenFileUpdated (at_ : time.Time) (t : Manager) : Manager :=
  let t := t <| frozen := true |> in
  let scope := frozenFileScope (trace t) in
  let t := t <| nodeStatus ::= fun s => s <| FrozenAt := at_ |> <| FrozenScope := scope |> |> in
  let t := pub (NodeFrozen (frozen t) at_) t in
  let t := publishNodeStatus t in
  orchestrate t.

Definition convergeAndOrchestrate (t : Manager) : Manager :=
  let t := convergeGlobalExpectFromRemote t in
  let t := updateIfChange t in
  let t := orchestrate t in
  updateIfChange t.

Definition onNodeMonitorDeleted (n : string) (t : Manager) : Manager :=
  let t := t <| nodeMonitor ::= delete n |> in
  convergeAndOrchestrate t.

Definition onPeerNodeMonitorUpdated (n : string) (value : Monitor) (t : Manager) : Manager :=
  let t := t <| nodeMonitor ::= <[n := value]> |> in
  let t := if bool_decide (n ∈ livePeers t) then t
           else let t := t <| livePeers ::= fun s => {[n]} ∪ s |> in
                updateSpeakerAndPublish t in
  convergeAndOrchestrate t.

Definition onOrchestrate (c : cmdOrchestrate) (t : Manager) : Manager :=
  let t := if bool_decide (State (state t) = cmd_state c) then transitionTo (cmd_newState c) t else t in
  orchestrate t.

Definition onArbitratorTicker (t : Manager) : Manager := refreshArbitrators t.

(** ** main_cmd.go: requests *)

Inductive RequestError :=
| ErrInvalidState | ErrSameState
| ErrInvalidLocalExpect | ErrSameLocalExpect
| ErrInvalidGlobalExpect.

Definition known {A} `{EqDecision A} (v : A) (l : list (A * string)) : bool := one_of v l.*1.

Definition resetFailedState (c : MonitorUpdate) (t : Manager) : Manager :=
  match Update_State c with
  | None => if isStateFailed t then set (fun s => s <| State := MonitorStateIdle |>) t else t
  | Some _ => t
  end.

Definition doState (c : MonitorUpdate) (t : Manager) : Manager * list RequestError :=
  match Update_State c with
  | None => (t, [])
  | Some v =>
      if negb (known v MonitorStateStrings) then (t, [ErrInvalidState])
      else if bool_decide (State (state t) = v) then (t, [ErrSameState])
      else
        let t := t <| change := true |> in
        (set (fun s => s <| State := v |>) t, [])
  end.

Definition doLocalExpect (c : MonitorUpdate) (t : Manager) : Manager * list RequestError :=
  match Update_LocalExpect c with
  | None => (t, [])
  | Some v =>
      if negb (known v MonitorLocalExpectStrings) then (t, [ErrInvalidLocalExpect])
      else if bool_decide (LocalExpect (state t) = v) then (t, [ErrSameLocalExpect])
      else
        let t := t <| change := true |> in
        let t := set (fun s => s <| LocalExpect := v |>) t in
        (resetFailedState c t, [])
  end.

(** An entry of the monitors that refuses the new global expect. *)
Definition refusesGlobalExpect (v : MonitorGlobalExpect) (data : Monitor) : bool :=
  bool_decide (GlobalExpect data = v) || negb (IsRankable (State data)) || IsDoing (State data).

Definition doGlobalExpect (c : MonitorUpdate) (t : Manager) : Manager * list RequestError :=
  match Update_GlobalExpect c with
  | None => (t, [])
  | Some v =>
      if negb (known v MonitorGlobalExpectStrings) then (t, [])
      else if negb (bool_decide (v = MonitorGlobalExpectAborted))
              && existsb (fun kv => refusesGlobalExpect v kv.2) (map_to_list (nodeMonitor t))
      then (t, [ErrInvalidGlobalExpect])
      else if bool_decide (v = GlobalExpect (state t)) then (t, [])
      else
        let t := t <| change := true |> in
        let t := set (fun s => s <| GlobalExpect := v |>) t in
        let now := Now (trace t) in
        let t := set (fun s => s <| GlobalExpectUpdatedAt := now |>) t in
        (resetFailedState c t, [])
  end.

(** [errors.Join] of the three is nil when none is an error. *)
Definition onSetNodeMonitor (c : MonitorUpdate) (t : Manager) : Manager :=
  let '(t, e1) := doState c t in
  let '(t, e2) := doLocalExpect c t in
  let '(t, e3) := doGlobalExpect c t in
  let err := negb (bool_decide (e1 ++ e2 ++ e3 = []))%list in
  let t := emit (Reply err) t in
  let t := if err then publishOrchestrationRefused (CandidateOrchestrationID c) (Update_GlobalExpect c) t
           else t in
  if change t then
    let t := adoptOrchestration (CandidateOrchestrationID c) t in
    let t := updateIfChange t in
    orchestrate t
  else if negb err then publishOrchestrationRefused (CandidateOrchestrationID c) (Update_GlobalExpect c) t
  else t.

(** ** main.go: the worker *)

(** [Start], up to the launch of the worker: the frozen file, the nodes info
    cache, the configuration, the freeze at boot, the arbitrators, the cluster
    configuration.  [None] is an error. *)
Definition Start (cluster : option ClusterConfig) (t : Manager) : option Manager :=
  let at_ := frozenFileAt (trace t) in
  let scope := frozenFileScope (trace t) in
  let t := t <| nodeStatus ::= fun s => s <| FrozenAt := at_ |> <| FrozenScope := scope |> |> in
  let t := t <| frozen := negb (time.IsZero (FrozenAt (nodeStatus t))) |> in
  let t := match loadedNodesInfo (trace t) with
           | Some data => t <| cacheNodesInfo := <[localhost t := infoOf (localhost t) t]> data |>
           | None => t
           end in
  _ ← guard (bootstrapOk (trace t) = true);
  t ← loadConfigAndPublish t;
  t ← (if bootFreeze (trace t) then
         let '(t, ok) := crmFreeze t in if (ok : bool) then Some t else None
       else Some t);
  let t := setArbitratorConfig t in
  let t := match cluster with
           | Some c => t <| clusterConfig := c |>
           | None => t
           end in
  Some (updateSpeakerAndPublish t).

(** What [worker] does before its loop; [None] is the panic of [startRejoin]. *)
Definition workerStart (t : Manager) : option Manager :=
  let t := t <| startedAt := Now (trace t) |> in
  let initialNodes := clusterNodes (trace t) in
  let t := foldl (fun t name =>
      t <| nodeMonitor ::= <[name := default zero_Monitor (monitorData (trace t) !! name)]> |>)
    t initialNodes in
  let t := updateStats t in
  let t := refreshSanPaths t in
  let t := updateIfChange t in
  let t := refreshArbitrators t in
  if Nat.ltb 1 (length initialNodes) then startRejoin t
  else
    let t := t <| rejoinTicker := None |> in
    Some (transitionTo MonitorStateIdle t).

(** The deferred calls of [worker]. *)
Definition workerEnd (t : Manager) : Manager :=
  let t := touchLastShutdown t in
  let t := emit UnsetMonitorData t in
  pub NodeMonitorDeleted t.

Inductive Msg :=
| ClusterConfigUpdated (value : ClusterConfig) (networkChanged nodesAdded nodesRemoved : list string)
| ConfigFileUpdated
| DaemonListenerUpdated (n lsnrState : string) (updatedAt : time.Time)
| ForgetPeer (n : string)
| JoinRequest (candidate : string)
| LeaveRequest (candidate : string)
| HeartbeatMessageTypeUpdated (to : string) (nodes joinedNodes : list string)
| PeerNodeConfigUpdated (n env : string)
| PeerNodeMonitorDeleted (n : string)
| PeerNodeMonitorUpdated (n : string) (value : Monitor)
| PeerNodeOsPathsUpdated (n : string) (paths : list string)
| NodeFrozenFileRemoved
| NodeFrozenFileUpdated (at_ : time.Time)
| PeerNodeLabelsUpdated (n : string) (labels : gmap string string)
| NodeStatusGenUpdates (gen : Gen)
| RejoinDone (nodes : list string) (lastShutdownAt : time.Time) (isUpgrading : bool)
  (** the NodeRejoin this node published *)
| SetNodeMonitor (value : MonitorUpdate)
| CmdOrchestrate (c : cmdOrchestrate)
| StatsTick
| ArbitratorTick
| ArbitratorsChecked (gen : Z) (result : gmap string ArbitratorStatus)
| RejoinTick
| LastShutdownTick.

(** The select of [worker]. *)
Definition handle (m : Msg) (t : Manager) : Manager :=
  match m with
  | ClusterConfigUpdated v nc na nr => onClusterConfigUpdated v nc na nr t
  | ConfigFileUpdated => onConfigFileUpdated t
  | DaemonListenerUpdated n s at_ => onDaemonListenerUpdated n s at_ t
  | ForgetPeer n => onForgetPeer n t
  | JoinRequest n => onJoinRequest n t
  | LeaveRequest n => onLeaveRequest n t
  | HeartbeatMessageTypeUpdated to nodes joined => onHeartbeatMessageTypeUpdated to nodes joined t
  | PeerNodeConfigUpdated n env => onPeerNodeConfigUpdated n env t
  | PeerNodeMonitorDeleted n => onNodeMonitorDeleted n t
  | PeerNodeMonitorUpdated n v => onPeerNodeMonitorUpdated n v t
  | PeerNodeOsPathsUpdated n paths => onPeerNodeOsPathsUpdated n paths t
  | NodeFrozenFileRemoved => onNodeFrozenFileRemoved t
  | NodeFrozenFileUpdated at_ => onNodeFrozenFileUpdated at_ t
  | PeerNodeLabelsUpdated n labels => onPeerNodeLabelsUpdated n labels t
  | NodeStatusGenUpdates gen => onNodeStatusGenUpdates gen t
  | RejoinDone nodes at_ up => onNodeRejoin nodes at_ up t
  | SetNodeMonitor v => onSetNodeMonitor v t
  | CmdOrchestrate c => onOrchestrate c t
  | StatsTick => updateStats t
  | ArbitratorTick => onArbitratorTicker t
  | ArbitratorsChecked gen result => onArbitratorsChecked gen result t
  | RejoinTick => onRejoinGracePeriodExpire t
  | LastShutdownTick => onLastShutdownFileTouchTicker t
  end.

(** The loop of [worker]: the messages in the order they are received. *)
Definition run (ms : list Msg) (t : Manager) : Manager := foldl (fun t m => handle m t) t ms.

End methods.

End nmon.
