(* ===== verification/NmonLogic.v ===== *)
(** * daemon/nmon: the logic of the node monitor

    What a method of the node monitor leaves alone.  [quiet t u] says that [u]
    differs from [t] by nothing that concerns the orchestrations: same state,
    same pending orchestration, and no publication about them.  Each method
    that only serves the other duties of the monitor (load, speaker,
    arbitrators, nodes info, configuration, split) has a lemma saying so, and
    the hint database [nmon] chains them.  The invariants of [NmonSafety] then
    have to be established for the other methods only. *)

From S2P Require Import Prelude Status Naming Instance Nmon.

Open Scope string_scope.
Import node nmon.

Create HintDb nmon.

Module nmonLogic.

(** The events that are not about an orchestration or the monitor state. *)
Definition neutral (e : Event) : bool :=
  match e with
  | SetMonitorData _ | UnsetMonitorData | Exec _ _ _ _ | Go _ _ _ _ | Reply _
  | Pub (NodeMonitorUpdated _) | Pub NodeMonitorDeleted | Pub (NodeRejoin _ _ _)
  | Pub (NodeOrchestrationAccepted _ _ _ _) | Pub (NodeOrchestrationEnd _)
  | Pub (NodeOrchestrationRefused _ _) => false
  | _ => true
  end.

Record quiet (t u : Manager) : Prop := {
  quiet_state : state u = state t;
  quiet_previousState : previousState u = previousState t;
  quiet_change : change u = change t;
  quiet_pending : orchestrationPending u = orchestrationPending t;
  quiet_localhost : localhost u = localhost t;
  quiet_trace : exists es, trace u = (es ++ trace t)%list /\ Forall (fun e => neutral e = true) es }.

#[global] Instance quiet_preorder : PreOrder quiet.
Proof.
  split.
  - intros t. split; try done. by exists [].
  - intros t u v [? ? ? ? ? (es & He & Hes)] [? ? ? ? ? (fs & Hf & Hfs)]. split; try congruence.
    exists (fs ++ es)%list. split; [by rewrite Hf, He, app_assoc|]. by apply Forall_app.
Qed.

Lemma quiet_same t u u' :
  quiet t u -> state u' = state u -> previousState u' = previousState u -> change u' = change u ->
  orchestrationPending u' = orchestrationPending u -> localhost u' = localhost u ->
  trace u' = trace u -> quiet t u'.
Proof.
  intros [? ? ? ? ? (es & He & Hes)] ? ? ? ? ? Htr. split; try congruence.
  exists es. by rewrite Htr.
Qed.

Lemma quiet_emit t u e : neutral e = true -> quiet t u -> quiet t (emit e u).
Proof.
  intros He Hq. transitivity u; [done|]. split; try done. exists [e]. split; [done|]. by constructor.
Qed.

Lemma quiet_pub t u m : neutral (Pub m) = true -> quiet t u -> quiet t (pub m u).
Proof. apply quiet_emit. Qed.

Lemma quiet_if (b : bool) t u v : quiet t u -> quiet t v -> quiet t (if b then u else v).
Proof. by destruct b. Qed.

Lemma quiet_foldl {A} (f : Manager -> A -> Manager) l t u :
  (forall u x, quiet t u -> quiet t (f u x)) -> quiet t u -> quiet t (foldl f u l).
Proof. intros Hf. revert u. induction l as [|x l IH]; simpl; auto. Qed.

#[export] Hint Resolve quiet_emit quiet_pub quiet_if quiet_foldl : nmon.
#[export] Hint Extern 0 (quiet ?t ?t) => reflexivity : nmon.
#[export] Hint Extern 2 (quiet ?t (upd _ _ ?u)) => apply (quiet_same t u); [|reflexivity..] : nmon.
#[export] Hint Extern 1 (neutral _ = true) => reflexivity : nmon.

(** Unfolds a method and follows its branches. *)
Ltac quiet_tac :=
  cbv zeta; repeat split_test; simplify_eq; cbn [fst snd]; eauto 20 with nmon.

Section quiet_methods.
Context `{E : Env}.
Implicit Types t u : Manager.

Lemma quiet_publishNodeStatus t u : quiet t u -> quiet t (publishNodeStatus u).
Proof. unfold publishNodeStatus. quiet_tac. Qed.
Lemma quiet_saveNodesInfo t u : quiet t u -> quiet t (saveNodesInfo u).
Proof. unfold saveNodesInfo. quiet_tac. Qed.
Lemma quiet_touchLastShutdown t u : quiet t u -> quiet t (touchLastShutdown u).
Proof. unfold touchLastShutdown. quiet_tac. Qed.
#[local] Hint Resolve quiet_publishNodeStatus quiet_saveNodesInfo quiet_touchLastShutdown : nmon.

Lemma quiet_updateSpeaker t u : quiet t u -> quiet t (updateSpeaker u).1.
Proof. unfold updateSpeaker. quiet_tac. Qed.
#[local] Hint Resolve quiet_updateSpeaker : nmon.

Lemma quiet_updateSpeakerAndPublish t u : quiet t u -> quiet t (updateSpeakerAndPublish u).
Proof.
  intros Hq%quiet_updateSpeaker. unfold updateSpeakerAndPublish.
  destruct (updateSpeaker u). quiet_tac.
Qed.

Lemma quiet_updateIsOverloadedAndPublish s t u :
  quiet t u -> quiet t (updateIsOverloadedAndPublish s u).
Proof. unfold updateIsOverloadedAndPublish, updateIsOverloaded. quiet_tac. Qed.
#[local] Hint Resolve quiet_updateSpeakerAndPublish quiet_updateIsOverloadedAndPublish : nmon.

Lemma quiet_updateStats t u : quiet t u -> quiet t (updateStats u).
Proof. unfold updateStats. quiet_tac. Qed.
Lemma quiet_refreshSanPaths t u : quiet t u -> quiet t (refreshSanPaths u).
Proof. unfold refreshSanPaths. quiet_tac. Qed.
Lemma quiet_updateStatusArbitrator m t u : quiet t u -> quiet t (updateStatusArbitrator m u).
Proof. unfold updateStatusArbitrator. quiet_tac. Qed.
Lemma quiet_refreshArbitrators t u : quiet t u -> quiet t (refreshArbitrators u).
Proof. unfold refreshArbitrators. quiet_tac. Qed.
Lemma quiet_setArbitratorConfig t u : quiet t u -> quiet t (setArbitratorConfig u).
Proof. unfold setArbitratorConfig. quiet_tac. Qed.
Lemma quiet_checkRejoinTicker t u : quiet t u -> quiet t (checkRejoinTicker u).
Proof. unfold checkRejoinTicker. quiet_tac. Qed.
#[local] Hint Resolve quiet_updateStats quiet_refreshSanPaths quiet_updateStatusArbitrator
  quiet_refreshArbitrators quiet_setArbitratorConfig quiet_checkRejoinTicker : nmon.

Lemma quiet_loadConfig t u v : quiet t u -> loadConfig u = Some v -> quiet t v.
Proof.
  unfold loadConfig. intros Hq. destruct (loadedConfig (trace u)); cbn [mbind option_bind]; [|done].
  intros [= <-]. quiet_tac.
Qed.

Lemma quiet_loadConfigAndPublish t u : quiet t u -> quiet t (default u (loadConfigAndPublish u)).
Proof.
  unfold loadConfigAndPublish. intros Hq. destruct (loadConfig u) as [v|] eqn:Hv; [|done].
  eapply quiet_loadConfig in Hv; [|exact Hq]. cbn [mbind option_bind default].
  quiet_tac.
Qed.

Lemma quiet_nodeFreeze t u : quiet t u -> quiet t (nodeFreeze u).1.
Proof. unfold nodeFreeze. quiet_tac. Qed.

Lemma quiet_arbitratorVotes t u : quiet t u -> quiet t (arbitratorVotes u).1.
Proof. unfold arbitratorVotes, getStatusArbitrators, checkArbitrators. cbn. quiet_tac. Qed.
#[local] Hint Resolve quiet_loadConfigAndPublish quiet_nodeFreeze quiet_arbitratorVotes : nmon.

Lemma quiet_onForgetPeer n t u : quiet t u -> quiet t (onForgetPeer n u).
Proof.
  intros. unfold onForgetPeer. cbv zeta.
  assert (quiet t (forgotten n u)) as Hv by (unfold forgotten; quiet_tac).
  set (w := forgotten n u) in *.
  repeat (apply quiet_if; [done|]).
  pose proof (quiet_arbitratorVotes t w Hv) as Hx. destruct (arbitratorVotes w) as [x votes]. quiet_tac.
Qed.

Lemma quiet_onClusterConfigUpdated v nc na nr t u :
  quiet t u -> quiet t (onClusterConfigUpdated v nc na nr u).
Proof.
  intros. unfold onClusterConfigUpdated, onNetworkChanged. cbv zeta.
  match goal with |- context [checkRejoinTicker ?v] => assert (quiet t (checkRejoinTicker v)) as Hv by quiet_tac;
    set (w := checkRejoinTicker v) in * end.
  quiet_tac.
Qed.

Lemma quiet_onConfigFileUpdated t u : quiet t u -> quiet t (onConfigFileUpdated u).
Proof.
  intros Hq%quiet_loadConfigAndPublish. unfold onConfigFileUpdated.
  destruct (loadConfigAndPublish u); simpl in Hq; quiet_tac.
Qed.

Lemma quiet_onNodeRejoin ns at_ up t u : quiet t u -> quiet t (onNodeRejoin ns at_ up u).
Proof. unfold onNodeRejoin. quiet_tac. Qed.

Lemma quiet_onArbitratorsChecked g r t u : quiet t u -> quiet t (onArbitratorsChecked g r u).
Proof. unfold onArbitratorsChecked. quiet_tac. Qed.

(** The messages whose handlers have no part in an orchestration. *)
Definition quietMsg (m : Msg) : bool :=
  match m with
  | HeartbeatMessageTypeUpdated _ _ _ | PeerNodeMonitorDeleted _ | PeerNodeMonitorUpdated _ _
  | NodeFrozenFileRemoved | NodeFrozenFileUpdated _ | SetNodeMonitor _ | CmdOrchestrate _
  | RejoinTick => false
  | _ => true
  end.

#[local] Hint Resolve quiet_onForgetPeer quiet_onClusterConfigUpdated quiet_onConfigFileUpdated
  quiet_onNodeRejoin quiet_onArbitratorsChecked : nmon.

Lemma quiet_handle m t : quietMsg m = true -> quiet t (handle m t).
Proof.
  destruct m; simpl; try done; intros _;
    unfold onDaemonListenerUpdated, onJoinRequest, onLeaveRequest, onPeerNodeConfigUpdated,
      onPeerNodeOsPathsUpdated, onPeerNodeLabelsUpdated, onNodeStatusGenUpdates, onArbitratorTicker,
      onLastShutdownFileTouchTicker; quiet_tac.
Qed.

End quiet_methods.

End nmonLogic.
