(* ===== verification/NmonSafety.v ===== *)
(** * daemon/nmon: what the node monitor guarantees

    The accounts of the orchestrations, the freshness of the published state,
    and the hold of the rejoin state, over every sequence of messages. *)

From S2P Require Import Prelude Status Naming Instance Nmon NmonLogic.

Open Scope string_scope.
Import node nmon nmonLogic.

Module nmonSafety.

(** ** The ledger of the orchestrations *)

(** An orchestration by its id, expect, global expect and date. *)
Definition Sig : Type := Z * string * MonitorGlobalExpect * time.Time.

Definition sigOf (e : OrchestrationEnd) : Sig :=
  (End_ID e, End_Expect e, End_GlobalExpect e, End_GlobalExpectUpdatedAt e).

Definition acceptedBy (e : Event) : option Sig :=
  match e with
  | Pub (NodeOrchestrationAccepted id ex ge at_) => Some (id, ex, ge, at_)
  | _ => None
  end.

Definition endedBy (e : Event) : option Sig :=
  match e with
  | Pub (NodeOrchestrationEnd e) => Some (sigOf e)
  | _ => None
  end.

(** The orchestrations accepted and ended, most recent first. *)
Definition accepted (t : Manager) : list Sig := omap acceptedBy (trace t).
Definition ended (t : Manager) : list Sig := omap endedBy (trace t).

(** The accounts balance: what was accepted is what ended, then what is
    pending, which is what the monitor state names. *)
Record ledger (t : Manager) : Prop := {
  ledger_balance : accepted t = (option_list (sigOf <$> orchestrationPending t) ++ ended t)%list;
  ledger_id : OrchestrationID (state t) = default 0%Z (End_ID <$> orchestrationPending t);
  ledger_named : forall e, orchestrationPending t = Some e -> End_ID e <> 0%Z }.

Lemma ledger_same t u :
  ledger t -> OrchestrationID (state u) = OrchestrationID (state t) ->
  orchestrationPending u = orchestrationPending t -> trace u = trace t -> ledger u.
Proof.
  intros [Hb Hi Hn] Hid Hp Htr. unfold accepted, ended in *.
  by split; unfold accepted, ended; rewrite ?Hid, ?Hp, ?Htr.
Qed.

Lemma ledger_emit t e : acceptedBy e = None -> endedBy e = None -> ledger t -> ledger (emit e t).
Proof.
  intros Ha He [Hb Hi Hn]. split; [|done..]. unfold accepted, ended, emit in *. cbn. by rewrite Ha, He.
Qed.

Lemma ledger_quiet t u : quiet t u -> ledger t -> ledger u.
Proof.
  intros [Hs _ _ Hp _ (es & Htr & Hes)] [Hb Hi Hn].
  assert (omap acceptedBy es = [] /\ omap endedBy es = []) as [Ha He].
  { clear -Hes. induction Hes as [|e es He Hes [IHa IHe]]; [done|]. cbn.
    destruct e as [[]| | | | | | | | | | | | | | | | | |]; try done. }
  unfold accepted, ended in *.
  by split; unfold accepted, ended; rewrite ?Hs, ?Hp, ?Htr, ?omap_app, ?Ha, ?He.
Qed.

(** [I (f t)] from [I t], for an assignment [f] the lemma [same] covers. *)
Ltac step_over t same :=
  match goal with
  | |- ?I _ => cut (I t); [generalize t; let x := fresh "x" in intros x ?; apply (same x); [done|reflexivity..]|]
  end.

Create HintDb ledger discriminated.
#[local] Hint Resolve ledger_emit : ledger.
#[local] Hint Extern 1 (ledger (pub _ _)) => apply ledger_emit; [reflexivity..|] : ledger.
#[local] Hint Extern 1 (ledger (emit _ _)) => apply ledger_emit; [reflexivity..|] : ledger.
#[local] Hint Extern 2 (ledger (upd _ _ ?t)) => step_over t ledger_same : ledger.
#[local] Hint Extern 2 (ledger (set _ ?t)) => step_over t ledger_same : ledger.

Ltac ledger_tac := cbv zeta; repeat split_test; simplify_eq; cbn [fst snd]; eauto 30 with ledger.

Section ledger_methods.
Context `{E : Env}.

Lemma ledger_updateIfChange t : ledger t -> ledger (updateIfChange t).
Proof. unfold updateIfChange, update. ledger_tac. Qed.
#[local] Hint Resolve ledger_updateIfChange : ledger.

Lemma ledger_transitionTo s t : ledger t -> ledger (transitionTo s t).
Proof. unfold transitionTo. ledger_tac. Qed.
#[local] Hint Resolve ledger_transitionTo : ledger.

Lemma ledger_abortPending t :
  accepted t = (option_list (sigOf <$> orchestrationPending t) ++ ended t)%list ->
  let u := abortPendingOrchestration t in
  accepted u = ended u /\ orchestrationPending u = None /\ state u = state t.
Proof. unfold abortPendingOrchestration. destruct (orchestrationPending t) as [e|] eqn:He; cbn; auto. Qed.

Lemma ledger_adoptOrchestration id t : ledger t -> ledger (adoptOrchestration id t).
Proof.
  intros Hl. unfold adoptOrchestration. destruct (_ || _) eqn:Hskip; [done|]. reflect.
  destruct (ledger_abortPending t (ledger_balance t Hl)) as (Hae & Hp & Hst).
  split; cbn; [|done|by intros e [= <-]].
  unfold accepted, ended in *. cbn. by rewrite Hae.
Qed.

Lemma ledger_endOrchestration t : ledger t -> ledger (endOrchestration t).
Proof.
  intros [Hb Hi Hn]. unfold endOrchestration, publishOrchestrationEnded.
  destruct (IsOneOf _ _); cbn; destruct (orchestrationPending t) as [e|] eqn:He; cbn;
    split; cbn; rewrite ?He; try done; unfold accepted, ended in *; cbn; done.
Qed.
#[local] Hint Resolve ledger_adoptOrchestration ledger_endOrchestration : ledger.

Lemma ledger_doTransitionAction (f : Manager -> Manager * bool) s1 s2 s3 t :
  (forall u, ledger u -> ledger (f u).1) -> ledger t -> ledger (doTransitionAction f s1 s2 s3 t).
Proof.
  intros Hf Hl. unfold doTransitionAction. cbv zeta.
  pose proof (Hf _ (ledger_transitionTo s1 t Hl)) as H1.
  destruct (f (transitionTo s1 t)) as [u []]; ledger_tac.
Qed.

Lemma ledger_frozenClearIfReached t : ledger t -> ledger (frozenClearIfReached t).1.
Proof. unfold frozenClearIfReached, clearPending. ledger_tac. Qed.

Lemma ledger_unfrozenClearIfReached t : ledger t -> ledger (unfrozenClearIfReached t).1.
Proof. unfold unfrozenClearIfReached, clearPending. ledger_tac. Qed.

Lemma ledger_crmActionWithEnv title env args t : ledger t -> ledger (crmActionWithEnv title env args t).1.
Proof. unfold crmActionWithEnv. ledger_tac. Qed.

Lemma ledger_orchestrateFrozen t : ledger t -> ledger (orchestrateFrozen t).
Proof.
  intros Hl. pose proof (ledger_frozenClearIfReached t Hl) as Hc.
  unfold orchestrateFrozen, frozenFromIdle, frozenFromFrozen.
  destruct (State (state t)), (frozenClearIfReached t) as [u []]; cbn [fst] in Hc; try done; [|ledger_tac].
  apply ledger_doTransitionAction; [|done]. intros. by apply ledger_crmActionWithEnv.
Qed.

Lemma ledger_orchestrateUnfrozen t : ledger t -> ledger (orchestrateUnfrozen t).
Proof.
  intros Hl. pose proof (ledger_unfrozenClearIfReached t Hl) as Hc.
  unfold orchestrateUnfrozen, unfrozenFromIdle, unfrozenFromUnfreezeSuccess.
  destruct (State (state t)), (unfrozenClearIfReached t) as [u []]; cbn [fst] in Hc; try done; [|ledger_tac].
  apply ledger_doTransitionAction; [|done]. intros. by apply ledger_crmActionWithEnv.
Qed.

Lemma ledger_orchestrateDrained t : ledger t -> ledger (orchestrateDrained t).
Proof. unfold orchestrateDrained, drainFromIdle, drainFromFrozen. ledger_tac. Qed.

Lemma ledger_orchestrateAborted t : ledger t -> ledger (orchestrateAborted t).
Proof. unfold orchestrateAborted. ledger_tac. Qed.
#[local] Hint Resolve ledger_orchestrateFrozen ledger_orchestrateUnfrozen ledger_orchestrateDrained
  ledger_orchestrateAborted : ledger.

Lemma ledger_orchestrate t : ledger t -> ledger (orchestrate t).
Proof.
  intros Hl. unfold orchestrate. destruct (State (state t)); try done;
    (destruct (isConvergedGlobalExpect t); [|done]); cbn [negb];
    (set (u := match LocalExpect (state t) with MonitorLocalExpectDrained => orchestrateDrained t | _ => t end);
     assert (ledger u) by (unfold u; ledger_tac); clearbody u; destruct (GlobalExpect (state u)); ledger_tac).
Qed.

Lemma ledger_converge t : ledger t -> ledger (convergeGlobalExpectFromRemote t).
Proof. intros Hl. unfold convergeGlobalExpectFromRemote, alignEndedGlobalExpect. ledger_tac. Qed.
#[local] Hint Resolve ledger_orchestrate ledger_converge : ledger.

Lemma ledger_convergeAndOrchestrate t : ledger t -> ledger (convergeAndOrchestrate t).
Proof. unfold convergeAndOrchestrate. ledger_tac. Qed.

Lemma ledger_publishNodeStatus t : ledger t -> ledger (publishNodeStatus t).
Proof. apply ledger_quiet, quiet_publishNodeStatus. reflexivity. Qed.

Lemma ledger_updateSpeakerAndPublish t : ledger t -> ledger (updateSpeakerAndPublish t).
Proof. apply ledger_quiet, quiet_updateSpeakerAndPublish. reflexivity. Qed.
#[local] Hint Resolve ledger_convergeAndOrchestrate ledger_publishNodeStatus
  ledger_updateSpeakerAndPublish : ledger.

Lemma ledger_publishOrchestrationRefused id ge t : ledger t -> ledger (publishOrchestrationRefused id ge t).
Proof. unfold publishOrchestrationRefused. ledger_tac. Qed.

Lemma ledger_resetFailedState c t : ledger t -> ledger (resetFailedState c t).
Proof. unfold resetFailedState. ledger_tac. Qed.
#[local] Hint Resolve ledger_publishOrchestrationRefused ledger_resetFailedState : ledger.

Lemma ledger_doState c t : ledger t -> ledger (doState c t).1.
Proof. unfold doState. ledger_tac. Qed.
Lemma ledger_doLocalExpect c t : ledger t -> ledger (doLocalExpect c t).1.
Proof. unfold doLocalExpect. ledger_tac. Qed.
Lemma ledger_doGlobalExpect c t : ledger t -> ledger (doGlobalExpect c t).1.
Proof. unfold doGlobalExpect. ledger_tac. Qed.

Lemma ledger_onSetNodeMonitor c t : ledger t -> ledger (onSetNodeMonitor c t).
Proof.
  intros Hl%(ledger_doState c). unfold onSetNodeMonitor.
  destruct (doState c t) as [t1 e1]. apply (ledger_doLocalExpect c) in Hl. cbn [fst] in Hl.
  destruct (doLocalExpect c t1) as [t2 e2]. apply (ledger_doGlobalExpect c) in Hl. cbn [fst] in Hl.
  destruct (doGlobalExpect c t2) as [t3 e3]. cbn [fst] in Hl. cbv zeta.
  set (err := negb _). clearbody err. destruct err; ledger_tac.
Qed.

Lemma ledger_onRejoinGracePeriodExpire t : ledger t -> ledger (onRejoinGracePeriodExpire t).
Proof.
  intros Hl. unfold onRejoinGracePeriodExpire.
  pose proof (ledger_quiet _ _ (quiet_nodeFreeze t t ltac:(reflexivity)) Hl) as Hf.
  destruct (nodeFreeze t) as [u [[] []]]; cbn [fst andb] in *; eauto 20 with ledger.
Qed.

Lemma ledger_handle m t : ledger t -> ledger (handle m t).
Proof.
  intros Hl. destruct (quietMsg m) eqn:Hm; [by eapply ledger_quiet; [apply quiet_handle|]|].
  destruct m; try done; cbn [handle].
  - unfold onHeartbeatMessageTypeUpdated, publishNodeRejoin. ledger_tac.
  - unfold onNodeMonitorDeleted. ledger_tac.
  - unfold onPeerNodeMonitorUpdated. ledger_tac.
  - unfold onNodeFrozenFileRemoved. ledger_tac.
  - unfold onNodeFrozenFileUpdated. ledger_tac.
  - by apply ledger_onSetNodeMonitor.
  - unfold onOrchestrate. ledger_tac.
  - by apply ledger_onRejoinGracePeriodExpire.
Qed.

Lemma ledger_run ms t : ledger t -> ledger (run ms t).
Proof. unfold run. revert t. induction ms; simpl; auto using ledger_handle. Qed.

Lemma ledger_NewManager h cfg up : ledger (NewManager h cfg up).
Proof. by split. Qed.

End ledger_methods.

(** ** The published state *)

Definition publishedBy (e : Event) : option Monitor :=
  match e with SetMonitorData v => Some v | _ => None end.

(** The node monitor in the cluster data. *)
Definition lastPublished (t : Manager) : option Monitor := head (omap publishedBy (trace t)).

(** Nothing waits for a publication: the data has the state, but for the step
    of a drain that finds the node frozen. *)
Definition published (t : Manager) : Prop :=
  change t = false /\ lastPublished t = Some (previousState t) /\
  (state t = previousState t \/ state t = (previousState t) <| State := MonitorStateFreezeSuccess |>).

Definition dirty (t : Manager) : Prop := change t = true.
Definition coherent (t : Manager) : Prop := dirty t \/ published t.

Lemma dirty_same t u : dirty t -> change u = change t -> dirty u.
Proof. unfold dirty. congruence. Qed.

Lemma published_same t u :
  published t -> change u = change t -> state u = state t -> previousState u = previousState t ->
  trace u = trace t -> published u.
Proof. unfold published, lastPublished. intros (? & ? & ?) -> -> -> ->. done. Qed.

Lemma published_emit e t : publishedBy e = None -> published t -> published (emit e t).
Proof. unfold published, lastPublished. intros He (? & ? & ?). cbn. by rewrite He. Qed.

Lemma published_quiet t u : quiet t u -> published t -> published u.
Proof.
  intros [Hs Hp Hc _ _ (es & Htr & Hes)] (? & Hl & ?).
  assert (omap publishedBy es = []) as He.
  { clear -Hes. induction Hes as [|e es He Hes IH]; [done|]. cbn. by destruct e. }
  unfold published, lastPublished in *. by rewrite Hs, Hp, Hc, Htr, omap_app, He.
Qed.

Lemma coherent_dirty t : dirty t -> coherent t.
Proof. by left. Qed.
Lemma coherent_published t : published t -> coherent t.
Proof. by right. Qed.

Lemma coherent_same t u :
  coherent t -> change u = change t -> state u = state t -> previousState u = previousState t ->
  trace u = trace t -> coherent u.
Proof. intros [Hd|Hp] ? ? ? ?; [left; by eapply dirty_same|right; by eapply published_same]. Qed.

Lemma coherent_emit e t : publishedBy e = None -> coherent t -> coherent (emit e t).
Proof. intros He [Hd|Hp]; [by left|right; by apply published_emit]. Qed.

Create HintDb published discriminated.
#[local] Hint Extern 1 (coherent (pub _ _)) => apply coherent_emit; [reflexivity|] : published.
#[local] Hint Extern 1 (coherent (emit _ _)) => apply coherent_emit; [reflexivity|] : published.
#[local] Hint Extern 1 (published (pub _ _)) => apply published_emit; [reflexivity|] : published.
#[local] Hint Extern 1 (published (emit _ _)) => apply published_emit; [reflexivity|] : published.
#[local] Hint Extern 1 (dirty (upd change _ _)) => reflexivity : published.
#[local] Hint Extern 2 (dirty (upd _ _ ?t)) => step_over t dirty_same : published.
#[local] Hint Extern 2 (dirty (set _ ?t)) => step_over t dirty_same : published.
#[local] Hint Extern 2 (dirty (pub _ ?t)) => step_over t dirty_same : published.
#[local] Hint Extern 2 (dirty (emit _ ?t)) => step_over t dirty_same : published.
#[local] Hint Extern 2 (coherent (upd _ _ ?t)) => step_over t coherent_same : published.
#[local] Hint Extern 2 (published (upd _ _ ?t)) => step_over t published_same : published.
#[local] Hint Resolve coherent_dirty coherent_published : published.

Ltac published_tac := cbv zeta; repeat split_test; simplify_eq; cbn [fst snd]; eauto 20 with published.

Section published_methods.
Context `{E : Env}.

Lemma published_settled t : coherent t -> published (updateIfChange t).
Proof.
  unfold updateIfChange. intros Hc. destruct (change t) eqn:Hch; cbn [negb].
  - unfold update. cbv zeta. repeat split_test; (split; [done|split; [done|by left]]).
  - destruct Hc as [Hd|]; [by unfold dirty in Hd; congruence|done].
Qed.
#[local] Hint Resolve published_settled : published.

Lemma published_transitionTo s t : published (transitionTo s t).
Proof. unfold transitionTo. published_tac. Qed.
#[local] Hint Resolve published_transitionTo : published.

Lemma dirty_abortPending t : dirty t -> dirty (abortPendingOrchestration t).
Proof. unfold abortPendingOrchestration. published_tac. Qed.
#[local] Hint Resolve dirty_abortPending : published.

Lemma dirty_adoptOrchestration id t : dirty t -> dirty (adoptOrchestration id t).
Proof.
  unfold adoptOrchestration, setNextPendingOrchestration, publishOrchestrationAccepted. published_tac.
Qed.

Lemma dirty_endOrchestration t : dirty t -> dirty (endOrchestration t).
Proof. unfold endOrchestration, publishOrchestrationEnded. published_tac. Qed.
#[local] Hint Resolve dirty_adoptOrchestration dirty_endOrchestration : published.

Lemma coherent_doTransitionAction f s1 s2 s3 t : coherent (doTransitionAction f s1 s2 s3 t).
Proof. unfold doTransitionAction. destruct (f _) as [u []]; published_tac. Qed.
#[local] Hint Resolve coherent_doTransitionAction : published.

Lemma dirty_frozenClearIfReached t :
  dirty (frozenClearIfReached t).1 \/ frozenClearIfReached t = (t, false).
Proof. unfold frozenClearIfReached, clearPending. destruct (negb _); [left|by right]. published_tac. Qed.

Lemma dirty_unfrozenClearIfReached t :
  dirty (unfrozenClearIfReached t).1 \/ unfrozenClearIfReached t = (t, false).
Proof. unfold unfrozenClearIfReached, clearPending. destruct (time.IsZero _); [left|by right]. published_tac. Qed.

Lemma coherent_orchestrateFrozen t : coherent t -> coherent (orchestrateFrozen t).
Proof.
  intros Hc. unfold orchestrateFrozen, frozenFromIdle, frozenFromFrozen.
  destruct (dirty_frozenClearIfReached t) as [Hd | Heq];
    [destruct (frozenClearIfReached t) as [u []]|rewrite Heq]; cbn [fst] in *;
    destruct (State (state t)); published_tac.
Qed.

Lemma coherent_orchestrateUnfrozen t : coherent t -> coherent (orchestrateUnfrozen t).
Proof.
  intros Hc. unfold orchestrateUnfrozen, unfrozenFromIdle, unfrozenFromUnfreezeSuccess.
  destruct (dirty_unfrozenClearIfReached t) as [Hd | Heq];
    [destruct (unfrozenClearIfReached t) as [u []]|rewrite Heq]; cbn [fst] in *;
    destruct (State (state t)); published_tac.
Qed.

Lemma coherent_frozenStep t :
  coherent t -> coherent (set (fun s => s <| State := MonitorStateFreezeSuccess |>) t).
Proof.
  intros [Hd | (Hc & Hl & Hs)]; [published_tac|right]. split; [done|split; [done|right]].
  by destruct Hs as [Hs | Hs]; cbn; rewrite Hs.
Qed.
#[local] Hint Resolve coherent_frozenStep : published.

Lemma coherent_orchestrateDrained t : coherent t -> coherent (orchestrateDrained t).
Proof. unfold orchestrateDrained, drainFromIdle, drainFromFrozen. published_tac. Qed.

Lemma coherent_orchestrateAborted t : coherent t -> coherent (orchestrateAborted t).
Proof. unfold orchestrateAborted. published_tac. Qed.
#[local] Hint Resolve coherent_orchestrateFrozen coherent_orchestrateUnfrozen coherent_orchestrateDrained
  coherent_orchestrateAborted : published.

Lemma published_orchestrate t : published t -> published (orchestrate t).
Proof.
  intros Hp. unfold orchestrate. destruct (State (state t)); try done;
    (destruct (isConvergedGlobalExpect t); [|done]); cbn [negb];
    (set (u := match LocalExpect (state t) with MonitorLocalExpectDrained => orchestrateDrained t | _ => t end);
     assert (coherent u) by (unfold u; published_tac); clearbody u; destruct (GlobalExpect (state u)); published_tac).
Qed.

Lemma coherent_converge t : coherent t -> coherent (convergeGlobalExpectFromRemote t).
Proof. intros Hl. unfold convergeGlobalExpectFromRemote, alignEndedGlobalExpect. published_tac. Qed.
#[local] Hint Resolve published_orchestrate coherent_converge : published.

Lemma published_convergeAndOrchestrate t : coherent t -> published (convergeAndOrchestrate t).
Proof. unfold convergeAndOrchestrate. published_tac. Qed.
#[local] Hint Resolve published_convergeAndOrchestrate : published.

Lemma coherent_quiet t u : quiet t u -> coherent t -> coherent u.
Proof.
  intros Hq [Hd|Hp]; [left|right; by eapply published_quiet]. unfold dirty. by rewrite (quiet_change _ _ Hq).
Qed.

Lemma published_publishNodeStatus t : published t -> published (publishNodeStatus t).
Proof. apply published_quiet, quiet_publishNodeStatus. reflexivity. Qed.

Lemma coherent_updateSpeakerAndPublish t : coherent t -> coherent (updateSpeakerAndPublish t).
Proof. apply coherent_quiet, quiet_updateSpeakerAndPublish. reflexivity. Qed.
#[local] Hint Resolve published_publishNodeStatus coherent_updateSpeakerAndPublish : published.

Lemma dirty_resetFailedState c t : dirty t -> dirty (resetFailedState c t).
Proof. unfold resetFailedState. published_tac. Qed.
#[local] Hint Resolve dirty_resetFailedState : published.

Lemma coherent_doState c t : coherent t -> coherent (doState c t).1.
Proof. unfold doState. published_tac. Qed.
Lemma coherent_doLocalExpect c t : coherent t -> coherent (doLocalExpect c t).1.
Proof. unfold doLocalExpect. published_tac. Qed.
Lemma coherent_doGlobalExpect c t : coherent t -> coherent (doGlobalExpect c t).1.
Proof. unfold doGlobalExpect. published_tac. Qed.

Lemma coherent_publishOrchestrationRefused id ge t :
  coherent t -> coherent (publishOrchestrationRefused id ge t).
Proof. unfold publishOrchestrationRefused. published_tac. Qed.
Lemma change_publishOrchestrationRefused id ge t :
  change (publishOrchestrationRefused id ge t) = change t.
Proof. unfold publishOrchestrationRefused. by destruct (_ =? _)%Z. Qed.

Lemma published_coherent t : coherent t -> change t = false -> published t.
Proof. intros [Hd|]; [unfold dirty in Hd; congruence|done]. Qed.

Lemma published_onSetNodeMonitor c t : coherent t -> published (onSetNodeMonitor c t).
Proof.
  intros Hl%(coherent_doState c). unfold onSetNodeMonitor.
  destruct (doState c t) as [t1 e1]. apply (coherent_doLocalExpect c) in Hl. cbn [fst] in Hl.
  destruct (doLocalExpect c t1) as [t2 e2]. apply (coherent_doGlobalExpect c) in Hl. cbn [fst] in Hl.
  destruct (doGlobalExpect c t2) as [t3 e3]. cbn [fst] in Hl. cbv zeta.
  set (err := negb _). clearbody err.
  set (t4 := if err then _ else _).
  assert (coherent t4) as H4.
  { unfold t4. destruct err; [apply coherent_publishOrchestrationRefused|]; published_tac. }
  clearbody t4. destruct (change t4) eqn:Hch.
  - assert (dirty t4) by done. published_tac.
  - apply published_coherent; [|by destruct err; cbn [negb]; rewrite ?change_publishOrchestrationRefused].
    destruct err; cbn [negb]; [done|by apply coherent_publishOrchestrationRefused].
Qed.

Lemma published_handle m t : published t -> published (handle m t).
Proof.
  intros Hl. destruct (quietMsg m) eqn:Hm; [by eapply published_quiet; [apply quiet_handle|]|].
  destruct m; try done; cbn [handle].
  - unfold onHeartbeatMessageTypeUpdated, publishNodeRejoin. published_tac.
  - unfold onNodeMonitorDeleted. published_tac.
  - unfold onPeerNodeMonitorUpdated. published_tac.
  - unfold onNodeFrozenFileRemoved. published_tac.
  - unfold onNodeFrozenFileUpdated. published_tac.
  - apply published_onSetNodeMonitor. by right.
  - unfold onOrchestrate. published_tac.
  - unfold onRejoinGracePeriodExpire.
    pose proof (published_quiet _ _ (quiet_nodeFreeze t t ltac:(reflexivity)) Hl) as Hf.
    destruct (nodeFreeze t) as [u [[] []]]; cbn [fst andb] in *; published_tac.
Qed.

Lemma published_run ms t : published t -> published (run ms t).
Proof. unfold run. revert t. induction ms; simpl; auto using published_handle. Qed.

End published_methods.

(** ** Reachable states *)

Section reachability.
Context `{E : Env}.

(** The manager after [Start] and the first steps of [worker], then after any
    sequence of messages. *)
Inductive reachable : Manager -> Prop :=
| reachable_start h cfg up cluster t u :
    Start cluster (NewManager h cfg up) = Some t -> workerStart t = Some u -> reachable u
| reachable_handle m t : reachable t -> reachable (handle m t).

Lemma Start_quiet cluster t u : Start cluster t = Some u ->
  exists v, quiet t v /\ (quiet v u \/ exists x e, (e = crmFreeze v) /\ e.1 = x /\ quiet x u).
Proof.
  unfold Start. cbv zeta.
  match goal with |- context [bootstrapOk (trace ?v)] => assert (quiet t v) as Hv; [|set (w := v) in *] end.
  { repeat split_test; eauto 10 with nmon. }
  clearbody w. case_guard; cbn [mbind option_bind]; [|done].
  pose proof (quiet_loadConfigAndPublish t w Hv) as Hc.
  destruct (loadConfigAndPublish w) as [x|]; cbn [mbind option_bind default] in *; [|done].
  assert (forall y z, Some (updateSpeakerAndPublish (match cluster with
            | Some c => (setArbitratorConfig y) <| clusterConfig := c |>
            | None => setArbitratorConfig y end)) = Some z -> quiet y z) as Hend.
  { intros y z [= <-]. apply quiet_updateSpeakerAndPublish.
    destruct cluster; [apply (quiet_same _ (setArbitratorConfig y)); [|reflexivity..]|];
      apply quiet_setArbitratorConfig; reflexivity. }
  exists x. split; [done|]. destruct (bootFreeze (trace x)).
  - destruct (crmFreeze x) as [y []] eqn:Hf; cbn [mbind option_bind] in *; [|done]. right.
    exists y, (y, true). eauto.
  - left. eauto.
Qed.

Lemma ledger_Start cluster t u : ledger t -> Start cluster t = Some u -> ledger u.
Proof.
  intros Hl (v & Hv & [Hu | (x & e & -> & <- & Hu)])%Start_quiet;
    eapply ledger_quiet; try exact Hu; [|apply ledger_crmActionWithEnv]; by eapply ledger_quiet.
Qed.

Lemma quiet_workerStart t :
  exists u, quiet t u /\
    workerStart t = (let v := refreshArbitrators (updateIfChange u) in
                     if Nat.ltb 1 (length (clusterNodes (trace t))) then startRejoin v
                     else Some (transitionTo MonitorStateIdle (v <| rejoinTicker := None |>))).
Proof.
  eexists. split; [|reflexivity].
  apply quiet_refreshSanPaths, quiet_updateStats, quiet_foldl; eauto with nmon.
Qed.

Lemma startRejoin_shape t u : startRejoin t = Some u ->
  exists v s, quiet t v /\ (u = transitionTo s v \/ exists ns at_, u = publishNodeRejoin ns at_ (transitionTo s v)).
Proof.
  unfold startRejoin. destruct (_ && _); cbv zeta; [|destruct (_ <=? _)%Z; [done|]]; intros [= <-].
  - eexists (_ <| upgradeEnv := false |>), _. split; [|right; by eexists _, _].
    apply (quiet_same _ t); done.
  - eexists (_ <| rejoinTicker := _ |>), _. split; [|by left]. apply (quiet_same _ t); done.
Qed.

Lemma published_workerStart t u : workerStart t = Some u -> published u.
Proof.
  destruct (quiet_workerStart t) as (v & _ & ->). cbv zeta. case_match.
  - intros (w & s & _ & [-> | (ns & at_ & ->)])%startRejoin_shape; [apply published_transitionTo|].
    apply published_emit; [done|apply published_transitionTo].
  - intros [= <-]. apply published_transitionTo.
Qed.

Lemma ledger_workerStart t u : ledger t -> workerStart t = Some u -> ledger u.
Proof.
  destruct (quiet_workerStart t) as (v & Hv & ->). intros Hl%(ledger_quiet _ _ Hv)%ledger_updateIfChange.
  eapply ledger_quiet in Hl; [|apply (quiet_refreshArbitrators _ _ (reflexivity _))].
  cbv zeta. case_match.
  - intros (w & s & Hw & Hu)%startRejoin_shape. apply (ledger_quiet _ _ Hw), (ledger_transitionTo s) in Hl.
    destruct Hu as [-> | (ns & at_ & ->)]; [done|]. by apply ledger_emit.
  - intros [= <-]. apply ledger_transitionTo. eapply ledger_same; [exact Hl|done..].
Qed.

(** C27: the accounts of the orchestrations of a node balance in every reachable
    state: those it published as accepted, in order, are those it published as
    ended, each once, then the pending one if any, which is the one its monitor
    state names. *)
Theorem orchestrations_accounted t :
  reachable t ->
  accepted t = (option_list (sigOf <$> orchestrationPending t) ++ ended t)%list /\
  OrchestrationID (state t) = default 0%Z (End_ID <$> orchestrationPending t).
Proof.
  intros Hr. enough (ledger t) as [? ? _] by done.
  induction Hr as [h cfg up cl t u HS HW|m t _ IH]; [|by apply ledger_handle].
  eapply ledger_workerStart, HW. eapply ledger_Start, HS. apply ledger_NewManager.
Qed.

(** Between two messages, no change of the monitor state waits for its
    publication: the cluster data has the state of the manager, but for the
    state of a drain that found the node frozen. *)
Theorem monitor_published t :
  reachable t ->
  change t = false /\
  exists v, lastPublished t = Some v /\
    (v = state t \/
     State (state t) = MonitorStateFreezeSuccess /\ state t = v <| State := MonitorStateFreezeSuccess |>).
Proof.
  intros Hr. enough (published t) as (? & Hl & Hs).
  { split; [done|]. eexists. split; [exact Hl|]. destruct Hs as [-> | Hs]; [by left|right]. by rewrite Hs. }
  induction Hr as [h cfg up cl t u HS HW|m t _ IH]; [|by apply published_handle].
  by eapply published_workerStart.
Qed.

End reachability.

(** ** The rejoin state *)

(** A command the daemon runs on the node. *)
Definition commands (e : Event) : bool :=
  match e with Exec _ _ _ _ | Go _ _ _ _ => true | _ => false end.

(** The state is held, and no command is run. *)
Record still (t u : Manager) : Prop := {
  still_state : State (state u) = State (state t);
  still_trace : exists es, trace u = (es ++ trace t)%list /\ Forall (fun e => commands e = false) es }.

#[global] Instance still_preorder : PreOrder still.
Proof.
  split.
  - intros t. split; [done|]. by exists [].
  - intros t u v [? (es & He & Hes)] [? (fs & Hf & Hfs)]. split; [congruence|].
    exists (fs ++ es)%list. split; [by rewrite Hf, He, app_assoc|]. by apply Forall_app.
Qed.

Lemma still_quiet t u v : quiet u v -> still t u -> still t v.
Proof.
  intros [Hs _ _ _ _ (es & Htr & Hes)] Ht. transitivity u; [done|]. split; [congruence|].
  exists es. split; [done|]. eapply Forall_impl; [exact Hes|]. by intros [].
Qed.

Lemma still_same t u v :
  still t u -> State (state v) = State (state u) -> trace v = trace u -> still t v.
Proof. intros [Hs (es & He & Hes)] ? Htr. split; [congruence|]. exists es. by rewrite Htr. Qed.

Lemma still_emit e t u : commands e = false -> still t u -> still t (emit e u).
Proof. intros. transitivity u; [done|]. split; [done|]. exists [e]. split; [done|]. by constructor. Qed.

Create HintDb still discriminated.
#[local] Hint Extern 0 (still ?t ?t) => reflexivity : still.
#[local] Hint Extern 1 (still _ (pub _ _)) => apply still_emit; [reflexivity|] : still.
#[local] Hint Extern 1 (still _ (emit _ _)) => apply still_emit; [reflexivity|] : still.
#[local] Hint Extern 2 (still ?t (upd _ _ ?u)) =>
  cut (still t u); [generalize u; let x := fresh in intros x ?; apply (still_same _ x); done|] : still.
#[local] Hint Extern 2 (still ?t (set _ ?u)) =>
  cut (still t u); [generalize u; let x := fresh in intros x ?; apply (still_same _ x); done|] : still.

Ltac still_tac := cbv zeta; repeat split_test; simplify_eq; cbn [fst snd]; eauto 20 with still.

Section rejoin.
Context `{E : Env}.

Lemma still_updateIfChange t u : still t u -> still t (updateIfChange u).
Proof. unfold updateIfChange, update. still_tac. Qed.

Lemma still_adoptOrchestration id t u : still t u -> still t (adoptOrchestration id u).
Proof.
  unfold adoptOrchestration, abortPendingOrchestration, publishOrchestrationAccepted,
    setNextPendingOrchestration. still_tac.
Qed.
#[local] Hint Resolve still_updateIfChange still_adoptOrchestration : still.

Lemma still_converge t u :
  isStateFailed u = false -> still t u -> still t (convergeGlobalExpectFromRemote u).
Proof.
  intros Hf Hs. unfold convergeGlobalExpectFromRemote, alignEndedGlobalExpect. cbv zeta.
  destruct (time.IsZero _); [still_tac|]. destruct (time.After _ _); [|done].
  match goal with |- context [adoptOrchestration ?id ?w] =>
    assert (still u (adoptOrchestration id w)) as Hw by still_tac; set (x := adoptOrchestration id w) in * end.
  clearbody x. unfold isStateFailed in *. rewrite (still_state _ _ Hw), Hf. by transitivity u.
Qed.

Lemma isStateFailed_rejoin t : State (state t) = MonitorStateRejoin -> isStateFailed t = false.
Proof. unfold isStateFailed. by intros ->. Qed.

Lemma orchestrate_rejoin t : State (state t) = MonitorStateRejoin -> orchestrate t = t.
Proof. unfold orchestrate. by intros ->. Qed.

Lemma still_convergeAndOrchestrate t u :
  State (state t) = MonitorStateRejoin -> still t u -> still t (convergeAndOrchestrate u).
Proof.
  intros Hr Hs. unfold convergeAndOrchestrate. cbv zeta.
  assert (still t (updateIfChange (convergeGlobalExpectFromRemote u))) as Hx.
  { apply still_updateIfChange, still_converge; [|done].
    apply isStateFailed_rejoin. by rewrite (still_state _ _ Hs). }
  rewrite orchestrate_rejoin; [by apply still_updateIfChange|]. by rewrite (still_state _ _ Hx).
Qed.
#[local] Hint Resolve still_convergeAndOrchestrate : still.

Lemma still_updateSpeakerAndPublish t u : still t u -> still t (updateSpeakerAndPublish u).
Proof. apply still_quiet, quiet_updateSpeakerAndPublish. reflexivity. Qed.
Lemma still_publishNodeStatus t u : still t u -> still t (publishNodeStatus u).
Proof. apply still_quiet, quiet_publishNodeStatus. reflexivity. Qed.
#[local] Hint Resolve still_updateSpeakerAndPublish still_publishNodeStatus : still.

Lemma still_orchestrate t u :
  State (state t) = MonitorStateRejoin -> still t u -> still t (orchestrate u).
Proof. intros Hr Hs. rewrite orchestrate_rejoin; [done|]. by rewrite (still_state _ _ Hs). Qed.
#[local] Hint Resolve still_orchestrate : still.

(** What lets a node out of its rejoin state. *)
Definition mayLeaveRejoin (m : Msg) (t : Manager) : Prop :=
  match m with
  | HeartbeatMessageTypeUpdated to nodes joinedNodes => to = "patch" /\ nodes ⊆ joinedNodes
  | RejoinTick => frozenFileAt (trace t) <> time.zero
                  \/ CreateFrozenFile ∈ trace (handle m t)
                  \/ openOk (trace t) = false
  | SetNodeMonitor c => is_Some (Update_State c)
  | CmdOrchestrate c => cmd_state c = MonitorStateRejoin
  | _ => False
  end.

Lemma missingNodes_nil nodes joined : missingNodes nodes joined = [] <-> nodes ⊆ joined.
Proof.
  unfold missingNodes. split.
  - intros Hm n Hn. destruct (one_of n joined) eqn:Ho; reflect; [done|].
    assert (n ∈ missingNodes nodes joined) as Hin.
    { apply list_elem_of_In, filter_In. rewrite <- list_elem_of_In. split; [done|].
      apply negb_true_iff. by apply one_of_false. }
    unfold missingNodes in Hin. rewrite Hm in Hin. by apply not_elem_of_nil in Hin.
  - intros Hsub. destruct (List.filter _ nodes) as [|x l] eqn:Hf; [done|].
    assert (In x (x :: l)) as Hx by (by left). rewrite <- Hf in Hx. apply filter_In in Hx as [Hx Ho].
    reflect. rewrite <- list_elem_of_In in Hx. by destruct Ho; apply Hsub.
Qed.

Lemma resetFailedState_rejoin c t : State (state t) = MonitorStateRejoin -> resetFailedState c t = t.
Proof. intros Hr. unfold resetFailedState. rewrite (isStateFailed_rejoin t Hr). by destruct (Update_State c). Qed.

Lemma still_doLocalExpect c t u :
  State (state t) = MonitorStateRejoin -> still t u -> still t (doLocalExpect c u).1.
Proof.
  intros Hr Hs. unfold doLocalExpect. destruct (Update_LocalExpect c); [cbv zeta|done].
  rewrite resetFailedState_rejoin by (cbn; by rewrite (still_state _ _ Hs)). still_tac.
Qed.

Lemma still_doGlobalExpect c t u :
  State (state t) = MonitorStateRejoin -> still t u -> still t (doGlobalExpect c u).1.
Proof.
  intros Hr Hs. unfold doGlobalExpect. destruct (Update_GlobalExpect c); [cbv zeta|done].
  rewrite resetFailedState_rejoin by (cbn; by rewrite (still_state _ _ Hs)). still_tac.
Qed.

Lemma still_onSetNodeMonitor c t :
  Update_State c = None -> State (state t) = MonitorStateRejoin -> still t (onSetNodeMonitor c t).
Proof.
  intros Hc Hr. unfold onSetNodeMonitor, doState. rewrite Hc.
  pose proof (still_doLocalExpect c t t Hr ltac:(reflexivity)) as Hs.
  destruct (doLocalExpect c t) as [t2 e2]. apply (still_doGlobalExpect c) in Hs; [|done]. cbn [fst] in Hs.
  destruct (doGlobalExpect c t2) as [t3 e3]. cbn [fst] in Hs. cbv zeta.
  set (err := negb _). clearbody err. unfold publishOrchestrationRefused. destruct err; still_tac.
Qed.

Lemma still_onRejoinTick t :
  still t (onRejoinGracePeriodExpire t) \/ mayLeaveRejoin RejoinTick t.
Proof.
  cbn [mayLeaveRejoin handle]. unfold onRejoinGracePeriodExpire, nodeFreeze.
  destruct (time.IsZero (frozenFileAt (trace t))) eqn:Hz; cbn [negb];
    [|right; left; intros Hx; rewrite Hx in Hz; done].
  destruct (openOk (trace t)); cbn [negb]; [|auto].
  destruct (closeOk _); cbn [negb andb]; [|left; still_tac].
  right; right; left. unfold transitionTo, updateIfChange, update. cbn.
  repeat split_test; cbn; repeat (apply list_elem_of_here || apply list_elem_of_further).
Qed.

Lemma still_heartbeat to nodes joined t :
  still t (onHeartbeatMessageTypeUpdated to nodes joined t)
  \/ to = "patch" /\ nodes ⊆ joined.
Proof.
  unfold onHeartbeatMessageTypeUpdated. destruct (State (state t)); try (by left; reflexivity).
  destruct (String.eqb_spec to "patch") as [->|]; cbn [negb]; [|by left; reflexivity].
  destruct (bool_decide _) eqn:Hm; cbn [negb]; [|by left; reflexivity]. reflect.
  right. split; [done|]. by apply missingNodes_nil.
Qed.

(** C28: a node in its rejoin state runs no command and stays there, until the
    heartbeat exchanges patches with every node of the cluster, or the grace
    period ends, with the node frozen if its frozen file can be created, or a
    request sets the state of the monitor. *)
Theorem rejoin_held m t :
  State (state t) = MonitorStateRejoin ->
  still t (handle m t) \/ mayLeaveRejoin m t.
Proof.
  intros Hr. destruct (quietMsg m) eqn:Hm; [left; by eapply still_quiet; [apply quiet_handle|reflexivity]|].
  destruct m as [| | | | | |to nodes joined| |n|n v| | |at_| | | |c|c| | | | |]; try done; cbn [handle].
  - apply still_heartbeat.
  - left. unfold onNodeMonitorDeleted. still_tac.
  - left. unfold onPeerNodeMonitorUpdated. still_tac.
  - left. unfold onNodeFrozenFileRemoved. still_tac.
  - left. unfold onNodeFrozenFileUpdated. still_tac.
  - destruct (Update_State c) eqn:Hc; [right; by eexists|left; by apply still_onSetNodeMonitor].
  - unfold onOrchestrate. destruct (bool_decide _) eqn:Hd; reflect; [right; cbn; congruence|].
    left. still_tac.
  - apply still_onRejoinTick.
Qed.

End rejoin.

End nmonSafety.
