(* ===== verification/NmonCluster.v ===== *)
(** * daemon/nmon: the node monitors of a cluster

    The quorum of a split cluster, the election of the speaker that grants the
    cluster locks, the answers to the requests, and the completion of a freeze
    of the cluster, with a cluster of three nodes the theorems are instantiated
    on. *)

From S2P Require Import Prelude Status Naming Instance Nmon NmonLogic NmonSafety.

Open Scope string_scope.
Import node nmon nmonLogic nmonSafety.

Module nmonCluster.

(** ** The quorum of a split cluster *)

(** The publication of a split, and the call of the split action. *)
Definition isSplit (e : Event) : bool :=
  match e with Pub (NodeSplitAction _ _ _ _ _) | SplitActionCall _ => true | _ => false end.

Definition splitEvents (t : Manager) : nat := length (List.filter isSplit (trace t)).

(** From [t] to [u] the node publishes the split, once, then calls its split action, once, if it
    is one of those the agent knows; it does neither before. *)
Definition gaveUp (t u : Manager) : Prop :=
  let action := SplitAction_ (nodeConfig t) in
  exists live votes voting pro l,
    trace u = ((if one_of action splitActions then [SplitActionCall action] else []) ++
               Pub (NodeSplitAction action live votes voting pro) :: l)%list /\
    length (List.filter isSplit l) = splitEvents t.

Section quorum.
Context `{E : Env}.

Definition voteOf (answers : string -> bool) (kv : string * arbitratorConfig) : Z :=
  if answers kv.1 then Z.max 0 (Arbitrator_Weight kv.2) else 0%Z.

(** The votes of the arbitrators that answer, and the quorum with them. *)
Definition votesFrom (t : Manager) : Z :=
  sumZ (map (voteOf (arbitratorAnswers (trace t))) (map_to_list (arbitrators t))).

Definition voteQuorum (t : Manager) : bool :=
  (Z.quot (Z.of_nat (length (Nodes (clusterConfig t))) + arbitratorTotal t) 2
     <? Z.of_nat (size (livePeers t)) + votesFrom t)%Z.

(** The node gives up: it publishes the split and calls its split action. *)
Definition givesUp (n : string) (t : Manager) : bool :=
  let u := forgotten n t in
  negb (nodesQuorum u) && Quorum (clusterConfig u) && negb (frozen u) && negb (voteQuorum u).

Lemma sumZ_perm l1 l2 : l1 ≡ₚ l2 -> sumZ l1 = sumZ l2.
Proof. unfold sumZ. induction 1; simpl; lia. Qed.

Lemma updateStatusArbitrator_fields m t :
  let u := updateStatusArbitrator m t in
  livePeers u = livePeers t /\ clusterConfig u = clusterConfig t /\ nodeConfig u = nodeConfig t /\
  splitEvents u = splitEvents t.
Proof. unfold updateStatusArbitrator, publishNodeStatus. by split_test. Qed.

Lemma foldl_ArbitratorError l t :
  let u := foldl (fun t name => pub (ArbitratorError name) t) t l in
  livePeers u = livePeers t /\ clusterConfig u = clusterConfig t /\ nodeConfig u = nodeConfig t /\
  splitEvents u = splitEvents t /\ arbitratorGen u = arbitratorGen t.
Proof.
  revert t. induction l as [|n l IH]; intros t; [done|]. cbn.
  by destruct (IH (pub (ArbitratorError n) t)) as (-> & -> & -> & -> & ->).
Qed.

Lemma votes_imap answers (m : gmap string arbitratorConfig) :
  sumZ (map (fun kv => if Z.eqb (Arbitrator_Status kv.2) status.Up then Z.max 0 (Weight kv.2) else 0%Z)
     (map_to_list (map_imap (fun name a =>
        Some (mkArbitratorStatus (URI a) (if answers name : bool then status.Up else status.Down)
                (Arbitrator_Weight a))) m))) =
  sumZ (map (voteOf answers) (map_to_list m)).
Proof.
  induction m as [|i x m Hi IH] using map_ind; [done|].
  erewrite map_imap_insert_Some by done.
  assert (forall {A} (f : string * A -> Z) (m : gmap string A) x, m !! i = None ->
    sumZ (map f (map_to_list (<[i:=x]> m))) = (f (i, x) + sumZ (map f (map_to_list m)))%Z) as Hins.
  { intros A f m' y Hm. exact (sumZ_perm _ _ (Permutation_map f (map_to_list_insert m' i y Hm))). }
  rewrite !Hins by (rewrite ?map_lookup_imap, ?Hi; done). rewrite IH. cbn.
  unfold voteOf at 2. cbn. by destruct (answers i).
Qed.

Lemma arbitratorVotes_spec t :
  let '(u, votes) := arbitratorVotes t in
  votes = votesFrom t /\ livePeers u = livePeers t /\ clusterConfig u = clusterConfig t /\
  nodeConfig u = nodeConfig t /\ splitEvents u = splitEvents t.
Proof.
  unfold arbitratorVotes, getStatusArbitrators, checkArbitrators. cbv zeta.
  match goal with |- context [foldl ?f ?t0 ?l] =>
    destruct (foldl_ArbitratorError l t0) as (H1 & H2 & H3 & H4 & _); set (v := foldl f t0 l) in * end.
  match goal with |- context [updateStatusArbitrator ?m ?w] =>
    destruct (updateStatusArbitrator_fields m w) as (-> & -> & -> & ->) end.
  split; [|done]. apply votes_imap.
Qed.

Lemma forgotten_fields n t :
  let u := forgotten n t in
  livePeers u = livePeers t ∖ {[n]} /\ clusterConfig u = clusterConfig t /\ nodeConfig u = nodeConfig t /\
  frozen u = frozen t /\ arbitrators u = arbitrators t /\ splitEvents u = splitEvents t.
Proof.
  unfold forgotten, updateSpeakerAndPublish, updateSpeaker.
  by destruct (negb _).
Qed.

Lemma onForgetPeer_split n t : givesUp n t = true -> gaveUp t (onForgetPeer n t).
Proof.
  unfold givesUp, gaveUp, onForgetPeer. cbv zeta.
  destruct (forgotten_fields n t) as (_ & _ & <- & _ & _ & <-).
  set (u := forgotten n t). clearbody u.
  destruct (nodesQuorum u); [done|]. destruct (Quorum (clusterConfig u)); [|done].
  destruct (frozen u); [done|]. cbn [negb andb].
  pose proof (arbitratorVotes_spec u) as Hv. destruct (arbitratorVotes u) as [v votes].
  destruct Hv as (-> & Hl & Hc & <- & <-). rewrite Hl. fold (voteQuorum u).
  destruct (voteQuorum u); [done|]. cbn [negb]. intros _. eexists _, _, _, _, (trace v). split; [|done].
  by destruct (one_of _ _).
Qed.

End quorum.

(** The live peers of two partitions of a cluster, and the answers of its
    arbitrators to each. *)
Record partition (Ea Eb : Env) (na nb : string) (ta tb : Manager) : Prop := {
  part_nodes : Nodes (clusterConfig tb) = Nodes (clusterConfig ta);
  part_arbitrators : arbitrators tb = arbitrators ta;
  part_weights : map_Forall (fun _ a => 0 <= Arbitrator_Weight a)%Z (arbitrators ta);
  part_quorum : Quorum (clusterConfig ta) = true /\ Quorum (clusterConfig tb) = true;
  part_unfrozen : frozen ta = false /\ frozen tb = false;
  part_members : livePeers ta ∖ {[na]} ∪ livePeers tb ∖ {[nb]} ⊆ list_to_set (Nodes (clusterConfig ta));
  part_disjoint : livePeers ta ∖ {[na]} ## livePeers tb ∖ {[nb]};
  part_answers : forall name,
    @arbitratorAnswers Ea (trace (forgotten na ta)) name = true ->
    @arbitratorAnswers Eb (trace (forgotten nb tb)) name = false }.

Lemma sumZ_votes (f g : string -> bool) l :
  Forall (fun kv => 0 <= Arbitrator_Weight kv.2)%Z l ->
  (forall n, f n = true -> g n = false) ->
  (sumZ (map (voteOf f) l) + sumZ (map (voteOf g) l) <= sumZ (map (fun kv => Arbitrator_Weight kv.2) l) /\
   0 <= sumZ (map (voteOf f) l) /\ 0 <= sumZ (map (voteOf g) l))%Z.
Proof.
  intros Hw Hfg. unfold sumZ. induction Hw as [|[n a] l Hx _ IH]; simpl; [lia|].
  unfold voteOf at 1 3 5 7. cbn in *. specialize (Hfg n).
  destruct (f n); [rewrite Hfg by done|]; destruct (g n); lia.
Qed.

Lemma size_members (X Y : gset string) (l : list string) :
  X ∪ Y ⊆ list_to_set l -> X ## Y -> (size X + size Y <= length l)%nat.
Proof.
  intros Hs Hd. rewrite <- size_union by done. etransitivity; [by apply subseteq_size|].
  clear. induction l as [|x l IH]; simpl; [done|].
  rewrite size_union_alt, size_singleton.
  pose proof (subseteq_size (list_to_set l ∖ {[x]} : gset string) (list_to_set l) ltac:(set_solver)). lia.
Qed.

(** C7: When a cluster whose quorum option is set is cut in two partitions that know the same
    nodes and the same arbitrators, with no negative weight, and no arbitrator answers both,
    of two unfrozen nodes, one of each, that lose a peer, one publishes the split once and
    then calls its split action once, when that is one the agent knows, unless the arbitrators
    hold two votes or more and one partition has the majority of the nodes. *)
Theorem quorum_exclusive Ea Eb na nb ta tb :
  partition Ea Eb na nb ta tb ->
  gaveUp ta (@onForgetPeer Ea na ta) \/ gaveUp tb (@onForgetPeer Eb nb tb) \/
  (2 <= arbitratorTotal ta)%Z /\
  (nodesQuorum (forgotten na ta) = true \/ nodesQuorum (forgotten nb tb) = true).
Proof.
  intros [Hn Ha Hw [Hqa Hqb] [Hfa Hfb] Hm Hd Hans].
  cut (@givesUp Ea na ta = true \/ @givesUp Eb nb tb = true \/ (2 <= arbitratorTotal ta)%Z /\
    (nodesQuorum (forgotten na ta) = true \/ nodesQuorum (forgotten nb tb) = true)).
  { intros [H|[H|H]]; [left|right; left|by right; right]; by apply onForgetPeer_split. }
  destruct (forgotten_fields na ta) as (La & Ca & _ & Fa & Aa & _).
  destruct (forgotten_fields nb tb) as (Lb & Cb & _ & Fb & Ab & _).
  unfold givesUp, nodesQuorum, voteQuorum, arbitratorTotal, votesFrom.
  rewrite La, Ca, Fa, Aa, Lb, Cb, Fb, Ab, Hn, Ha, Hqa, Hqb, Hfa, Hfb.
  pose proof (size_members _ _ _ Hm Hd) as Hsize.
  assert (Forall (fun kv => 0 <= Arbitrator_Weight kv.2)%Z (map_to_list (arbitrators ta))) as HF.
  { apply map_Forall_to_list in Hw. eapply Forall_impl; [exact Hw|]. by intros []. }
  destruct (sumZ_votes _ _ _ HF Hans) as (Hsum & H1 & H2).
  set (va := sumZ (map (voteOf (@arbitratorAnswers Ea _)) _)) in *.
  set (vb := sumZ (map (voteOf (@arbitratorAnswers Eb _)) _)) in *.
  set (W := sumZ (map (fun _ => _) _)) in *. clearbody va vb W.
  set (n := length _) in *. set (a := size (livePeers ta ∖ _)) in *. set (b := size (livePeers tb ∖ _)) in *.
  clearbody n a b.
  assert (Z.quot (Z.of_nat n) 2 = Z.of_nat n / 2)%Z as Hq1 by (apply Z.quot_div_nonneg; lia).
  assert (Z.quot (Z.of_nat n + W) 2 = (Z.of_nat n + W) / 2)%Z as Hq2 by (apply Z.quot_div_nonneg; lia).
  rewrite Hq1, Hq2. cbn [negb andb].
  pose proof (Z.div_mod (Z.of_nat n) 2 ltac:(done)). pose proof (Z.mod_pos_bound (Z.of_nat n) 2 ltac:(done)).
  pose proof (Z.div_mod (Z.of_nat n + W) 2 ltac:(done)).
  pose proof (Z.mod_pos_bound (Z.of_nat n + W) 2 ltac:(done)).
  destruct (Z.of_nat n / 2 <? Z.of_nat a)%Z eqn:E1, (Z.of_nat n / 2 <? Z.of_nat b)%Z eqn:E2,
    ((Z.of_nat n + W) / 2 <? Z.of_nat a + va)%Z eqn:E3, ((Z.of_nat n + W) / 2 <? Z.of_nat b + vb)%Z eqn:E4;
    reflect; cbn [negb andb]; lia.
Qed.

(** ** The speaker *)

Definition isDrop (e : Event) : bool := match e with DropLockTable => true | _ => false end.

(** How many times the lock table was dropped. *)
Definition drops (t : Manager) : nat := length (List.filter isDrop (trace t)).

(** The view the speaker is elected from, and the role, are the same. *)
Record seat (t u : Manager) : Prop := {
  seat_livePeers : livePeers u = livePeers t;
  seat_clusterConfig : clusterConfig u = clusterConfig t;
  seat_localhost : localhost u = localhost t;
  seat_IsLeader : IsLeader (nodeStatus u) = IsLeader (nodeStatus t);
  seat_drops : drops u = drops t }.

#[global] Instance seat_preorder : PreOrder seat.
Proof. split; [done|]. intros t u v [] []. split; congruence. Qed.

Lemma seat_same t u v :
  seat t u -> livePeers v = livePeers u -> clusterConfig v = clusterConfig u -> localhost v = localhost u ->
  IsLeader (nodeStatus v) = IsLeader (nodeStatus u) -> trace v = trace u -> seat t v.
Proof. intros [] ? ? ? ? Htr. split; try congruence. unfold drops in *. by rewrite Htr. Qed.

Lemma seat_emit e t u : isDrop e = false -> seat t u -> seat t (emit e u).
Proof. intros He Hs. transitivity u; [done|]. split; try done. unfold drops, emit. cbn. by rewrite He. Qed.

Create HintDb seat discriminated.
#[local] Hint Extern 0 (seat ?t ?t) => reflexivity : seat.
#[local] Hint Extern 1 (seat _ (pub _ _)) => apply seat_emit; [reflexivity|] : seat.
#[local] Hint Extern 1 (seat _ (emit _ _)) => apply seat_emit; [reflexivity|] : seat.
#[local] Hint Extern 2 (seat ?t (upd _ _ ?u)) =>
  cut (seat t u); [generalize u; let x := fresh in intros x ?; apply (seat_same _ x); done|] : seat.
#[local] Hint Extern 2 (seat ?t (set _ ?u)) =>
  cut (seat t u); [generalize u; let x := fresh in intros x ?; apply (seat_same _ x); done|] : seat.

Ltac seat_tac := cbv zeta; repeat split_test; simplify_eq; cbn [fst snd]; eauto 20 with seat.

Section seat_methods.
Context `{E : Env}.

Lemma seat_foldl {A} (f : Manager -> A -> Manager) l t u :
  (forall u x, seat t u -> seat t (f u x)) -> seat t u -> seat t (foldl f u l).
Proof. intros Hf. revert u. induction l as [|x l IH]; simpl; auto. Qed.

Lemma seat_publishNodeStatus t u : seat t u -> seat t (publishNodeStatus u).
Proof. unfold publishNodeStatus. seat_tac. Qed.
Lemma seat_saveNodesInfo t u : seat t u -> seat t (saveNodesInfo u).
Proof. unfold saveNodesInfo. seat_tac. Qed.
Lemma seat_updateIfChange t u : seat t u -> seat t (updateIfChange u).
Proof. unfold updateIfChange, update. seat_tac. Qed.
#[local] Hint Resolve seat_publishNodeStatus seat_saveNodesInfo seat_updateIfChange : seat.
Lemma seat_transitionTo s t u : seat t u -> seat t (transitionTo s u).
Proof. unfold transitionTo. seat_tac. Qed.
Lemma seat_abortPending t u : seat t u -> seat t (abortPendingOrchestration u).
Proof. unfold abortPendingOrchestration. seat_tac. Qed.
#[local] Hint Resolve seat_transitionTo seat_abortPending : seat.
Lemma seat_adoptOrchestration id t u : seat t u -> seat t (adoptOrchestration id u).
Proof. unfold adoptOrchestration, publishOrchestrationAccepted, setNextPendingOrchestration. seat_tac. Qed.
Lemma seat_endOrchestration t u : seat t u -> seat t (endOrchestration u).
Proof. unfold endOrchestration, publishOrchestrationEnded. seat_tac. Qed.
Lemma seat_publishOrchestrationRefused id ge t u : seat t u -> seat t (publishOrchestrationRefused id ge u).
Proof. unfold publishOrchestrationRefused. seat_tac. Qed.
Lemma seat_resetFailedState c t u : seat t u -> seat t (resetFailedState c u).
Proof. unfold resetFailedState. seat_tac. Qed.
#[local] Hint Resolve seat_adoptOrchestration seat_endOrchestration seat_publishOrchestrationRefused
  seat_resetFailedState : seat.

Lemma seat_crmAction title env args s1 s2 s3 t u :
  seat t u -> seat t (doTransitionAction (crmActionWithEnv title env args) s1 s2 s3 u).
Proof. unfold doTransitionAction, crmActionWithEnv. seat_tac. Qed.

Lemma seat_frozenClearIfReached t u : seat t u -> seat t (frozenClearIfReached u).1.
Proof. unfold frozenClearIfReached, clearPending. seat_tac. Qed.
Lemma seat_unfrozenClearIfReached t u : seat t u -> seat t (unfrozenClearIfReached u).1.
Proof. unfold unfrozenClearIfReached, clearPending. seat_tac. Qed.

Lemma seat_orchestrateFrozen t u : seat t u -> seat t (orchestrateFrozen u).
Proof.
  intros Hs. pose proof (seat_frozenClearIfReached t u Hs) as Hc.
  unfold orchestrateFrozen, frozenFromIdle, frozenFromFrozen.
  destruct (State (state u)), (frozenClearIfReached u) as [v []]; cbn [fst] in Hc; try done; [|seat_tac].
  by apply seat_crmAction.
Qed.

Lemma seat_orchestrateUnfrozen t u : seat t u -> seat t (orchestrateUnfrozen u).
Proof.
  intros Hs. pose proof (seat_unfrozenClearIfReached t u Hs) as Hc.
  unfold orchestrateUnfrozen, unfrozenFromIdle, unfrozenFromUnfreezeSuccess.
  destruct (State (state u)), (unfrozenClearIfReached u) as [v []]; cbn [fst] in Hc; try done; [|seat_tac].
  by apply seat_crmAction.
Qed.

Lemma seat_orchestrateDrained t u : seat t u -> seat t (orchestrateDrained u).
Proof. unfold orchestrateDrained, drainFromIdle, drainFromFrozen. seat_tac. Qed.
Lemma seat_orchestrateAborted t u : seat t u -> seat t (orchestrateAborted u).
Proof. unfold orchestrateAborted. seat_tac. Qed.
#[local] Hint Resolve seat_orchestrateFrozen seat_orchestrateUnfrozen seat_orchestrateDrained
  seat_orchestrateAborted : seat.

Lemma seat_orchestrate t u : seat t u -> seat t (orchestrate u).
Proof.
  intros Hl. unfold orchestrate. destruct (State (state u)); try done;
    (destruct (isConvergedGlobalExpect u); [|done]); cbn [negb];
    (set (v := match LocalExpect (state u) with MonitorLocalExpectDrained => orchestrateDrained u | _ => u end);
     assert (seat t v) by (unfold v; seat_tac); clearbody v; destruct (GlobalExpect (state v)); seat_tac).
Qed.

Lemma seat_converge t u : seat t u -> seat t (convergeGlobalExpectFromRemote u).
Proof. intros. unfold convergeGlobalExpectFromRemote, alignEndedGlobalExpect. seat_tac. Qed.
#[local] Hint Resolve seat_orchestrate seat_converge : seat.
Lemma seat_convergeAndOrchestrate t u : seat t u -> seat t (convergeAndOrchestrate u).
Proof. unfold convergeAndOrchestrate. seat_tac. Qed.

Lemma seat_onSetNodeMonitor c t u : seat t u -> seat t (onSetNodeMonitor c u).
Proof.
  intros Hs. unfold onSetNodeMonitor.
  assert (seat t (doState c u).1) as H1 by (unfold doState; seat_tac).
  destruct (doState c u) as [t1 e1]. cbn [fst] in H1.
  assert (seat t (doLocalExpect c t1).1) as H2 by (unfold doLocalExpect; seat_tac).
  destruct (doLocalExpect c t1) as [t2 e2]. cbn [fst] in H2.
  assert (seat t (doGlobalExpect c t2).1) as H3 by (unfold doGlobalExpect; seat_tac).
  destruct (doGlobalExpect c t2) as [t3 e3]. cbn [fst] in H3. cbv zeta.
  set (err := negb _). clearbody err. destruct err; seat_tac.
Qed.

Lemma seat_nodeFreeze t u : seat t u -> seat t (nodeFreeze u).1.
Proof. unfold nodeFreeze. seat_tac. Qed.
Lemma seat_updateIsOverloadedAndPublish s t u : seat t u -> seat t (updateIsOverloadedAndPublish s u).
Proof. unfold updateIsOverloadedAndPublish, updateIsOverloaded. seat_tac. Qed.
#[local] Hint Resolve seat_convergeAndOrchestrate seat_onSetNodeMonitor seat_nodeFreeze
  seat_updateIsOverloadedAndPublish : seat.
Lemma seat_updateStats t u : seat t u -> seat t (updateStats u).
Proof. unfold updateStats. seat_tac. Qed.
Lemma seat_refreshSanPaths t u : seat t u -> seat t (refreshSanPaths u).
Proof. unfold refreshSanPaths. seat_tac. Qed.
Lemma seat_updateStatusArbitrator m t u : seat t u -> seat t (updateStatusArbitrator m u).
Proof. unfold updateStatusArbitrator. seat_tac. Qed.
Lemma seat_refreshArbitrators t u : seat t u -> seat t (refreshArbitrators u).
Proof. unfold refreshArbitrators. seat_tac. Qed.
Lemma seat_checkRejoinTicker t u : seat t u -> seat t (checkRejoinTicker u).
Proof. unfold checkRejoinTicker. seat_tac. Qed.
Lemma seat_setArbitratorConfig t u : seat t u -> seat t (setArbitratorConfig u).
Proof. unfold setArbitratorConfig. seat_tac. Qed.
#[local] Hint Resolve seat_updateStats seat_refreshSanPaths seat_updateStatusArbitrator seat_refreshArbitrators
  seat_checkRejoinTicker seat_setArbitratorConfig seat_foldl : seat.
Lemma seat_arbitratorVotes t u : seat t u -> seat t (arbitratorVotes u).1.
Proof.
  unfold arbitratorVotes, getStatusArbitrators, checkArbitrators. cbv zeta. cbn [fst]. intros.
  apply seat_updateStatusArbitrator.
  match goal with |- context [foldl ?f ?t0 ?l] => assert (seat t (foldl f t0 l)) by seat_tac;
    set (v := foldl f t0 l) in *; clearbody v end.
  seat_tac.
Qed.
Lemma seat_onRejoinGracePeriodExpire t u : seat t u -> seat t (onRejoinGracePeriodExpire u).
Proof.
  intros Hs. unfold onRejoinGracePeriodExpire. pose proof (seat_nodeFreeze t u Hs) as Hf.
  destruct (nodeFreeze u) as [v [[] []]]; cbn [fst andb] in *; seat_tac.
Qed.

(** The role flips with each drop of the lock table. *)
Definition parity (t : Manager) : Prop := IsLeader (nodeStatus t) = Nat.odd (drops t).

Definition elected (t : Manager) : Prop := IsLeader (nodeStatus t) = isSpeakerNode t /\ parity t.

Lemma parity_seat t u : seat t u -> parity t -> parity u.
Proof. unfold parity. intros [_ _ _ -> ->]. done. Qed.

Lemma elected_seat t u : seat t u -> elected t -> elected u.
Proof.
  intros Hs [Hl Hp]. split; [|by eapply parity_seat]. destruct Hs as [H1 H2 H3 H4 _].
  unfold isSpeakerNode, speakerNode in *. by rewrite H1, H2, H3, H4.
Qed.

Lemma elected_updateSpeakerAndPublish t : parity t -> elected (updateSpeakerAndPublish t).
Proof.
  intros Hp. unfold updateSpeakerAndPublish, updateSpeaker.
  destruct (Bool.eqb (isSpeakerNode t) (IsLeader (nodeStatus t))) eqn:Heq; cbn [negb].
  - apply Bool.eqb_prop in Heq. by split.
  - apply Bool.eqb_false_iff in Heq. eapply elected_seat; [apply seat_publishNodeStatus; reflexivity|].
    split.
    + change (negb (IsLeader (nodeStatus t)) = isSpeakerNode t).
      destruct (isSpeakerNode t), (IsLeader (nodeStatus t)); done.
    + unfold parity, drops in *. cbn -[Nat.odd]. rewrite Nat.odd_succ, <- Nat.negb_odd. by f_equal.
Qed.

Lemma seat_loadConfig t u : loadConfig t = Some u -> seat t u.
Proof.
  unfold loadConfig. destruct (loadedConfig (trace t)); cbn [mbind option_bind]; [|done].
  intros [= <-]. seat_tac.
Qed.

Lemma elected_loadConfigAndPublish t u :
  parity t -> loadConfigAndPublish t = Some u -> elected u.
Proof.
  intros Hp. unfold loadConfigAndPublish.
  destruct (loadConfig t) as [v|] eqn:Hv; cbn [mbind option_bind]; [|done].
  apply seat_loadConfig in Hv. cbv zeta. intros [= <-]. apply elected_updateSpeakerAndPublish.
  revert Hp. apply parity_seat.
  set (w := match statsKnown (trace v) with Some _ => _ | None => _ end).
  assert (seat t w) by (unfold w; seat_tac). clearbody w. seat_tac.
Qed.

Hypothesis config_loads : forall tr, is_Some (loadedConfig tr).

Lemma loadConfigAndPublish_loads t : exists u, loadConfigAndPublish t = Some u.
Proof.
  unfold loadConfigAndPublish, loadConfig. destruct (config_loads (trace t)) as [c ->].
  cbn [mbind option_bind]. eauto.
Qed.

Lemma elected_onClusterConfigUpdated v nc na nr t :
  elected t -> elected (onClusterConfigUpdated v nc na nr t).
Proof.
  intros [_ Hp]. unfold onClusterConfigUpdated, onNetworkChanged. cbv zeta.
  destruct (loadConfigAndPublish_loads (t <| clusterConfig := v |>)) as [u Hu].
  assert (elected u) as He by (eapply elected_loadConfigAndPublish, Hu; exact Hp). rewrite Hu.
  change (default _ (Some u)) with u.
  revert He. apply elected_seat.
  match goal with |- context [checkRejoinTicker ?v] => assert (seat u (checkRejoinTicker v)) as Hv by seat_tac;
    set (w := checkRejoinTicker v) in *; clearbody w end.
  seat_tac.
Qed.

Lemma elected_onForgetPeer n t : elected t -> elected (onForgetPeer n t).
Proof.
  intros [_ Hp]. unfold onForgetPeer. cbv zeta.
  assert (elected (forgotten n t)) as Hu by (apply elected_updateSpeakerAndPublish; exact Hp).
  set (u := forgotten n t) in *. clearbody u.
  destruct (nodesQuorum u); [done|]. destruct (negb _); [done|]. destruct (frozen u); [done|].
  pose proof (seat_arbitratorVotes u u (reflexivity u)) as Hx. destruct (arbitratorVotes u) as [x votes].
  eapply elected_seat, Hu. cbn [fst] in Hx. seat_tac.
Qed.

Lemma elected_onPeerNodeMonitorUpdated n v t : elected t -> elected (onPeerNodeMonitorUpdated n v t).
Proof.
  intros He. unfold onPeerNodeMonitorUpdated. cbv zeta.
  eapply elected_seat; [apply seat_convergeAndOrchestrate; reflexivity|].
  destruct (bool_decide _); [done|]. apply elected_updateSpeakerAndPublish. apply He.
Qed.

Lemma elected_onConfigFileUpdated t : elected t -> elected (onConfigFileUpdated t).
Proof.
  intros [_ Hp]. unfold onConfigFileUpdated. destruct (loadConfigAndPublish_loads t) as [u Hu]. rewrite Hu.
  eapply elected_loadConfigAndPublish in Hu; [|done]. eapply elected_seat, Hu.
  apply seat_checkRejoinTicker. reflexivity.
Qed.

Lemma elected_handle m t : elected t -> elected (handle m t).
Proof.
  intros He.
  destruct m as [v nc na nr| |n s at_|n|n|n|to nodes joined|n env|n|n v|n paths| |at_|n labels|gen|nodes at_ up
    |c|c| | |g r| |]; cbn [handle].
  - by apply elected_onClusterConfigUpdated.
  - by apply elected_onConfigFileUpdated.
  - eapply elected_seat, He. unfold onDaemonListenerUpdated. seat_tac.
  - by apply elected_onForgetPeer.
  - eapply elected_seat, He. unfold onJoinRequest. seat_tac.
  - eapply elected_seat, He. unfold onLeaveRequest. seat_tac.
  - eapply elected_seat, He. unfold onHeartbeatMessageTypeUpdated, publishNodeRejoin. seat_tac.
  - eapply elected_seat, He. unfold onPeerNodeConfigUpdated. seat_tac.
  - eapply elected_seat, He. unfold onNodeMonitorDeleted. seat_tac.
  - by apply elected_onPeerNodeMonitorUpdated.
  - eapply elected_seat, He. unfold onPeerNodeOsPathsUpdated. seat_tac.
  - eapply elected_seat, He. unfold onNodeFrozenFileRemoved. seat_tac.
  - eapply elected_seat, He. unfold onNodeFrozenFileUpdated. seat_tac.
  - eapply elected_seat, He. unfold onPeerNodeLabelsUpdated. seat_tac.
  - eapply elected_seat, He. unfold onNodeStatusGenUpdates. seat_tac.
  - eapply elected_seat, He. unfold onNodeRejoin. seat_tac.
  - eapply elected_seat, He. seat_tac.
  - eapply elected_seat, He. unfold onOrchestrate. seat_tac.
  - eapply elected_seat, He. seat_tac.
  - eapply elected_seat, He. unfold onArbitratorTicker. seat_tac.
  - eapply elected_seat, He. unfold onArbitratorsChecked. seat_tac.
  - eapply elected_seat, He. by apply seat_onRejoinGracePeriodExpire.
  - eapply elected_seat, He. unfold onLastShutdownFileTouchTicker, touchLastShutdown. seat_tac.
Qed.

Lemma elected_Start cluster t u : parity t -> Start cluster t = Some u -> elected u.
Proof.
  intros Hp. unfold Start. cbv zeta.
  match goal with |- context [bootstrapOk (trace ?v)] => assert (seat t v) as Hv by seat_tac; set (w := v) in *; clearbody w end.
  apply (parity_seat _ _ Hv) in Hp. clear Hv. case_guard; cbn [mbind option_bind]; [|done].
  destruct (loadConfigAndPublish w) as [x|] eqn:Hx; cbn [mbind option_bind]; [|done].
  apply elected_loadConfigAndPublish in Hx as [_ Hx]; [|done].
  assert (parity (crmFreeze x).1) as Hf by exact Hx.
  destruct (bootFreeze (trace x)); [destruct (crmFreeze x) as [y []]|]; cbn [mbind option_bind fst] in *;
    try done; intros [= <-]; apply elected_updateSpeakerAndPublish; destruct cluster; done.
Qed.

Lemma elected_workerStart t u : elected t -> workerStart t = Some u -> elected u.
Proof.
  intros He Hu. eapply elected_seat, He. revert Hu. unfold workerStart. cbv zeta.
  match goal with |- context [refreshArbitrators ?v] => assert (seat t (refreshArbitrators v)) as Hv by seat_tac;
    set (w := refreshArbitrators v) in *; clearbody w end.
  unfold startRejoin, publishNodeRejoin. cbv zeta.
  destruct (Nat.ltb _ _); [destruct (_ && _); [|destruct (_ <=? _)%Z; [done|]]|];
    intros ?%(inj Some); subst u; seat_tac.
Qed.

Lemma elected_reachable t : reachable t -> elected t.
Proof.
  induction 1 as [h cfg up cl t u HS HW|m t _ IH]; [|by apply elected_handle].
  eapply elected_workerStart, HW. by eapply elected_Start, HS.
Qed.

End seat_methods.

(** C36: Two nodes that see the same live nodes in the same cluster, and whose loads of the
    configuration never fail, never both hold the role of speaker; the one that holds it is
    the one the view elects, and dropped its lock table an odd number of times, so at least
    once since it started. *)
Theorem speaker_unique Ea Eb a b :
  (forall tr, is_Some (@loadedConfig Ea tr)) -> (forall tr, is_Some (@loadedConfig Eb tr)) ->
  @reachable Ea a -> @reachable Eb b ->
  Nodes (clusterConfig a) = Nodes (clusterConfig b) -> livePeers a = livePeers b ->
  IsLeader (nodeStatus a) = true ->
  speakerNode a = localhost a /\ Nat.odd (drops a) = true /\
  (IsLeader (nodeStatus b) = true -> localhost a = localhost b).
Proof.
  intros Ha Hb Hra%(elected_reachable Ha) Hrb%(elected_reachable Hb) HN HL Hla.
  destruct Hra as [Hsa Hpa], Hrb as [Hsb _]. unfold parity in Hpa.
  rewrite Hla in Hsa, Hpa. symmetry in Hsa. apply String.eqb_eq in Hsa. split; [done|]. split; [done|].
  intros Hlb. rewrite Hlb in Hsb. symmetry in Hsb. apply String.eqb_eq in Hsb.
  rewrite <- Hsa, <- Hsb. unfold speakerNode. by rewrite HN, HL.
Qed.

(** ** A freeze of the cluster completes *)

Section freeze.
Context `{E : Env}.

(** Only the state of the monitor, and the dates of its publication, moved. *)
Record moved (s : MonitorState) (t u : Manager) : Prop := {
  moved_State : State (state u) = s;
  moved_GlobalExpect : GlobalExpect (state u) = GlobalExpect (state t);
  moved_LocalExpect : LocalExpect (state u) = LocalExpect (state t);
  moved_at : GlobalExpectUpdatedAt (state u) = GlobalExpectUpdatedAt (state t);
  moved_pending : orchestrationPending u = orchestrationPending t;
  moved_nodeStatus : nodeStatus u = nodeStatus t;
  moved_localhost : localhost u = localhost t;
  moved_change : change u = false;
  moved_peers : delete (localhost t) (nodeMonitor u) = delete (localhost t) (nodeMonitor t) }.

Lemma moved_transitionTo s t : moved s t (transitionTo s t).
Proof.
  unfold transitionTo, updateIfChange, update.
  repeat split_test; split; try done; cbn; by rewrite delete_insert_eq.
Qed.

Lemma moved_emit s e t u : moved s t u -> moved s t (emit e u).
Proof. intros []. by split. Qed.

Lemma moved_trans s1 s2 t u v : moved s1 t u -> moved s2 u v -> moved s2 t v.
Proof.
  intros [] []. split; congruence.
Qed.

Lemma isConverged_spec t :
  isConvergedGlobalExpect t = true <->
  map_Forall (fun _ m => GlobalExpectUpdatedAt (state t) <= GlobalExpectUpdatedAt m)%Z
    (delete (localhost t) (nodeMonitor t)).
Proof.
  unfold isConvergedGlobalExpect. rewrite forallb_forall. split.
  - intros H n m [Hn Hm]%lookup_delete_Some.
    specialize (H (n, m)). rewrite <- list_elem_of_In, elem_of_map_to_list in H. specialize (H Hm). cbn in H.
    rewrite bool_decide_false in H by congruence. cbn in H. by reflect.
  - intros H [n m] Hm%list_elem_of_In%elem_of_map_to_list. cbn. destruct (decide (n = localhost t)) as [->|Hn];
      [by rewrite bool_decide_true|].
    rewrite bool_decide_false by done. apply negb_true_iff, time.After_false.
    apply (H n m). by rewrite lookup_delete_ne by congruence.
Qed.

Lemma isConverged_moved s t u :
  moved s t u -> isConvergedGlobalExpect t = true -> isConvergedGlobalExpect u = true.
Proof. intros [_ _ _ Ha _ _ Hl _ Hp]. by rewrite !isConverged_spec, Ha, Hl, Hp. Qed.

(** Every node knows of the freeze, and this one is not frozen. *)
Record freezing (t : Manager) : Prop := {
  freezing_idle : State (state t) = MonitorStateIdle;
  freezing_expect : GlobalExpect (state t) = MonitorGlobalExpectFrozen;
  freezing_local : LocalExpect (state t) <> MonitorLocalExpectDrained;
  freezing_agreed : isConvergedGlobalExpect t = true;
  freezing_unfrozen : FrozenAt (nodeStatus t) = time.zero }.

Lemma moved_crm title env args t :
  (forall tr, execOk tr = true) ->
  moved MonitorStateFreezeSuccess t
    (doTransitionAction (crmActionWithEnv title env args) MonitorStateFreezeProgress
       MonitorStateFreezeSuccess MonitorStateFreezeFailure t).
Proof.
  intros Hok. unfold doTransitionAction, crmActionWithEnv. cbv zeta. rewrite Hok.
  eapply moved_trans; [|apply moved_transitionTo]. apply moved_emit, moved_transitionTo.
Qed.

Lemma updateIfChange_id t : change t = false -> updateIfChange t = t.
Proof. unfold updateIfChange. by intros ->. Qed.

Lemma orchestrate_freezing t :
  (forall tr, execOk tr = true) -> freezing t ->
  moved MonitorStateFreezeSuccess t (orchestrate t).
Proof.
  intros Hok [Hi He Hl Ha Hu]. unfold orchestrate. rewrite Hi, Ha. cbn [negb].
  assert (match LocalExpect (state t) with MonitorLocalExpectDrained => orchestrateDrained t | _ => t end = t)
    as -> by (by destruct (LocalExpect (state t))).
  rewrite He. unfold orchestrateFrozen. rewrite Hi. unfold frozenFromIdle, frozenClearIfReached. rewrite Hu.
  cbn [time.IsZero negb]. rewrite updateIfChange_id; [by apply moved_crm|].
  by apply moved_change with (s := MonitorStateFreezeSuccess) (t := t), moved_crm.
Qed.

(** The end of the orchestration, from a state that is not a failure. *)
Lemma endOrchestration_success t :
  IsOneOf (State (state t)) MonitorStatesFailure = false ->
  let u := endOrchestration t in
  state u = (state t) <| OrchestrationID := 0%Z |> /\ orchestrationPending u = None /\
  (forall e, orchestrationPending t = Some e -> Pub (NodeOrchestrationEnd e) ∈ trace u).
Proof.
  intros Hf. unfold endOrchestration. rewrite Hf. unfold publishOrchestrationEnded. cbn.
  destruct (orchestrationPending t) eqn:Hp; cbn; (split; [done|]); (split; [done|]); intros e' [= <-].
  apply list_elem_of_here.
Qed.

(** A publication keeps the expects, the id and what was published. *)
Lemma updateIfChange_fields t :
  let u := updateIfChange t in
  State (state u) = State (state t) /\ GlobalExpect (state u) = GlobalExpect (state t) /\
  OrchestrationID (state u) = OrchestrationID (state t) /\
  orchestrationPending u = orchestrationPending t /\ nodeStatus u = nodeStatus t /\
  (forall e, e ∈ trace t -> e ∈ trace u).
Proof.
  unfold updateIfChange, update. repeat split_test; cbn; repeat split; try done;
    intros; by repeat apply list_elem_of_further.
Qed.

Lemma orchestrate_frozen t :
  State (state t) = MonitorStateFreezeSuccess -> GlobalExpect (state t) = MonitorGlobalExpectFrozen ->
  LocalExpect (state t) <> MonitorLocalExpectDrained -> isConvergedGlobalExpect t = true ->
  FrozenAt (nodeStatus t) <> time.zero ->
  let u := orchestrate t in
  State (state u) = MonitorStateIdle /\ GlobalExpect (state u) = MonitorGlobalExpectNone /\
  OrchestrationID (state u) = 0%Z /\ orchestrationPending u = None /\
  (forall e, orchestrationPending t = Some e -> Pub (NodeOrchestrationEnd e) ∈ trace u).
Proof.
  intros Hs He Hl Ha Hz u. subst u. unfold orchestrate. rewrite Hs, Ha. cbn [negb].
  assert (match LocalExpect (state t) with MonitorLocalExpectDrained => orchestrateDrained t | _ => t end = t)
    as -> by (by destruct (LocalExpect (state t))).
  rewrite He. unfold orchestrateFrozen. rewrite Hs. unfold frozenFromFrozen, frozenClearIfReached.
  assert (time.IsZero (FrozenAt (nodeStatus t)) = false) as -> by (by apply Z.eqb_neq). cbn [negb]. cbv zeta.
  set (w := clearPending _).
  destruct (endOrchestration_success w) as (H1 & H2 & H3); [unfold w; cbn; by rewrite Hs|].
  set (x := endOrchestration w) in *. clearbody x.
  match goal with |- context [updateIfChange ?y] =>
    destruct (updateIfChange_fields y) as (-> & -> & -> & -> & _ & Hin) end.
  split; [done|]. split; [cbn; by rewrite H1|]. split; [cbn; by rewrite H1|]. split; [exact H2|].
  intros e Hp. apply Hin, H3, Hp.
Qed.

(** When every node knows of a freeze of the cluster, the freeze of a node
    completes in one step of its monitor and the notice of its frozen file: the
    monitor is idle again, expects nothing more, and has published the end of
    the orchestration, not failed. *)
Theorem freeze_completes t at_ :
  (forall tr, execOk tr = true) -> freezing t -> at_ <> time.zero ->
  let u := onNodeFrozenFileUpdated at_ (orchestrate t) in
  State (state u) = MonitorStateIdle /\ GlobalExpect (state u) = MonitorGlobalExpectNone /\
  OrchestrationID (state u) = 0%Z /\ orchestrationPending u = None /\
  (forall e, orchestrationPending t = Some e -> Pub (NodeOrchestrationEnd e) ∈ trace u).
Proof.
  intros Hok Hf Hz. pose proof (orchestrate_freezing t Hok Hf) as Hm.
  set (v := orchestrate t) in *. clearbody v. cbv zeta. unfold onNodeFrozenFileUpdated. cbv zeta.
  set (w := publishNodeStatus _). destruct Hf as [Hi He Hl Ha Hu].
  pose proof (isConverged_moved _ _ _ Hm Ha) as Hc. destruct Hm as [M1 M2 M3 M4 M5 M6 M7 M8 M9].
  rewrite <- M5. change (orchestrationPending v) with (orchestrationPending w).
  apply orchestrate_frozen; unfold w; cbn; [done|congruence..|exact Hc|done].
Qed.

End freeze.

(** ** A cluster *)

Module example.

Definition cfg : Config := mkConfig "PRD" ∅ 0%Z 0%Z (90 * time.Second)%Z "crash" "".

(** Commands succeed, files can be created, and the arbitrators that answer are
    given. *)
Definition env (nodes : list string) (answers : string -> bool) : Env := {|
  Now := fun tr => (1000 + Z.of_nat (length tr))%Z;
  execOk := fun _ => true;
  frozenFileAt := fun _ => time.zero;
  frozenFileScope := fun _ => ScopeCluster;
  openOk := fun _ => true;
  closeOk := fun _ => true;
  lastShutdownAt := fun _ => 500%Z;
  arbitratorAnswers := fun _ => answers;
  statusData := fun _ => ∅;
  monitorData := fun _ => ∅;
  hbMessageType := fun _ => mkHbMessageType "full" nodes [];
  getStats := fun _ => mkStats 100 80 80;
  statsKnown := fun _ => None;
  sanPaths := fun _ => Some [];
  osPathsData := fun _ => [];
  listenerData := fun _ => None;
  clusterNodes := fun _ => nodes;
  clusterNodesData := fun _ => nodes;
  setKeyOk := fun _ => true;
  loadedNodesInfo := fun _ => None;
  bootstrapOk := fun _ => true;
  bootFreeze := fun _ => false;
  loadedConfig := fun _ => Some cfg;
  arbitratorSections := fun _ => [("arbitrator#a1", mkArbitratorSection "https://a1" "" false 1%Z)];
  rangeOrder := fun _ l => l;
  rangeOrder_perm := fun _ _ => reflexivity _ |}.

Definition cluster (nodes : list string) : ClusterConfig := mkClusterConfig nodes true.

(** The manager of [h] when its worker enters its loop. *)
Definition starting (E : Env) (nodes : list string) (h : string) : option Manager :=
  t ← Start (Some (cluster nodes)) (NewManager h cfg false); workerStart t.

Definition started (E : Env) (nodes : list string) (h : string) : Manager :=
  default (NewManager h cfg false) (starting E nodes h).

Lemma started_reachable E nodes h :
  bool_decide (is_Some (starting E nodes h)) = true -> @reachable E (started E nodes h).
Proof.
  intros [t Ht]%bool_decide_eq_true. unfold started. rewrite Ht. unfold starting in Ht.
  destruct (Start _ _) eqn:HS; [|done]. by eapply reachable_start.
Qed.

Definition answered : string -> bool := fun _ => true.
Definition silent : string -> bool := fun _ => false.

Definition nodes3 : list string := ["n1"; "n2"; "n3"].
Definition E3 : Env := env nodes3 answered.

(** The monitor of a peer at rest, in agreement with a date. *)
Definition peerIdle (at_ : time.Time) (ge : MonitorGlobalExpect) : Monitor :=
  zero_Monitor <| State := MonitorStateIdle |> <| LocalExpect := MonitorLocalExpectNone |>
    <| GlobalExpect := ge |> <| GlobalExpectUpdatedAt := at_ |>.

(** The peers come up, the node joins, a freeze of the cluster is requested. *)
Definition joining : list Msg :=
  [PeerNodeMonitorUpdated "n2" (peerIdle 0%Z MonitorGlobalExpectNone);
   PeerNodeMonitorUpdated "n3" (peerIdle 0%Z MonitorGlobalExpectNone);
   HeartbeatMessageTypeUpdated "patch" nodes3 nodes3].

Definition frozenRequest : MonitorUpdate := mkMonitorUpdate None None (Some MonitorGlobalExpectFrozen) 7%Z.

Definition n1 : Manager := started E3 nodes3 "n1".
Definition n1_joined : Manager := @run E3 joining n1.
Definition n1_requested : Manager := @handle E3 (SetNodeMonitor frozenRequest) n1_joined.

Lemma reachable_run E t ms : @reachable E t -> @reachable E (@run E ms t).
Proof. unfold run. revert t. induction ms as [|m ms IH]; simpl; auto using reachable_handle. Qed.

Lemma n1_reachable : @reachable E3 n1.
Proof. apply started_reachable. vm_compute. reflexivity. Qed.

Lemma requested_reachable : @reachable E3 n1_requested.
Proof. apply reachable_handle, reachable_run, n1_reachable. Qed.

Lemma orchestrations_accounted_witness :
  (fun s => s.1.1.1) <$> accepted n1_requested = [7%Z] /\
  accepted n1_requested =
    (option_list (sigOf <$> orchestrationPending n1_requested) ++ ended n1_requested)%list.
Proof.
  split; [by vm_compute|]. apply (@orchestrations_accounted E3 n1_requested requested_reachable).
Defined.

Lemma monitor_published_witness :
  change n1_requested = false /\ GlobalExpect (state n1_requested) = MonitorGlobalExpectFrozen.
Proof.
  split; [|by vm_compute]. apply (@monitor_published E3 n1_requested requested_reachable).
Defined.

Lemma rejoin_held_witness :
  State (state n1) = MonitorStateRejoin /\
  (still n1 (@handle E3 (ForgetPeer "n2") n1) \/ @mayLeaveRejoin E3 (ForgetPeer "n2") n1).
Proof. split; [by vm_compute|]. apply (@rejoin_held E3). by vm_compute. Defined.

(** The peers adopt the request, then the frozen file of the node appears. *)
Definition n1_agreed : Manager :=
  (@convergeGlobalExpectFromRemote E3
     (n1_requested <| nodeMonitor ::=
        fun m => <["n2" := peerIdle 9000%Z MonitorGlobalExpectFrozen]>
                   (<["n3" := peerIdle 9000%Z MonitorGlobalExpectFrozen]> m) |>)).

Lemma freeze_completes_witness :
  State (state n1_agreed) = MonitorStateIdle /\
  GlobalExpect (state (@onNodeFrozenFileUpdated E3 20000%Z (@orchestrate E3 n1_agreed))) = MonitorGlobalExpectNone.
Proof.
  split; [by vm_compute|].
  apply (@freeze_completes E3 n1_agreed 20000%Z); [done| |done]. split; by vm_compute.
Defined.

Definition n1_speaks : Manager := @run E3 joining n1.
Definition n2_listens : Manager :=
  @run E3 [PeerNodeMonitorUpdated "n1" (peerIdle 0%Z MonitorGlobalExpectNone);
           PeerNodeMonitorUpdated "n3" (peerIdle 0%Z MonitorGlobalExpectNone)] (started E3 nodes3 "n2").

Lemma n2_reachable : @reachable E3 n2_listens.
Proof. apply reachable_run, started_reachable. vm_compute. reflexivity. Qed.

Lemma speaker_unique_witness :
  IsLeader (nodeStatus n1_speaks) = true /\ speakerNode n1_speaks = localhost n1_speaks.
Proof.
  split; [by vm_compute|].
  apply (speaker_unique E3 E3 n1_speaks n2_listens).
  - by eexists.
  - by eexists.
  - apply reachable_run, n1_reachable.
  - apply n2_reachable.
  - by vm_compute.
  - apply (bool_decide_unpack _). by vm_compute.
  - by vm_compute.
Defined.

(** Two nodes and an arbitrator that answers the first one only. *)
Definition live (l : list string) (weights : list (string * Z)) (t : Manager) : Manager :=
  t <| livePeers := list_to_set l |>
    <| arbitrators := list_to_map ((fun kv => (kv.1, mkArbitratorConfig "" kv.2 false)) <$> weights) |>.

Definition side (nodes l : list string) (weights : list (string * Z)) (h : string) : Manager :=
  live l weights (NewManager h cfg false) <| clusterConfig := cluster nodes |>.

Lemma quorum_exclusive_witness :
  let nodes2 := ["n1"; "n2"] in
  let ta := side nodes2 nodes2 [("a1", 1%Z)] "n1" in
  let tb := side nodes2 nodes2 [("a1", 1%Z)] "n2" in
  arbitratorTotal ta = 1%Z /\
  (gaveUp ta (@onForgetPeer (env nodes2 answered) "n2" ta) \/
   gaveUp tb (@onForgetPeer (env nodes2 silent) "n1" tb) \/
   (2 <= arbitratorTotal ta)%Z /\
   (nodesQuorum (forgotten "n2" ta) = true \/ nodesQuorum (forgotten "n1" tb) = true)).
Proof.
  cbv zeta. split; [by vm_compute|]. apply quorum_exclusive.
  split; try done; try by vm_compute.
  all: apply (bool_decide_unpack _); by vm_compute.
Defined.

(** The majority of the nodes is not compared to the votes of the
    arbitrators: in a cluster of three nodes and two arbitrators, the partition
    of two nodes and the one of a node and the arbitrators both go on. *)
Theorem quorum_kept_twice :
  let weights := [("a1", 1%Z); ("a2", 1%Z)] in
  let ta := side nodes3 nodes3 weights "n1" in
  let tb := @onForgetPeer (env nodes3 answered) "n1" (side nodes3 nodes3 weights "n3") in
  splitEvents (@onForgetPeer (env nodes3 silent) "n3" ta) = 0%nat /\
  splitEvents (@onForgetPeer (env nodes3 answered) "n2" tb) = 0%nat /\
  livePeers (@onForgetPeer (env nodes3 silent) "n3" ta) = {["n1"; "n2"]} /\
  livePeers (@onForgetPeer (env nodes3 answered) "n2" tb) = {["n3"]}.
Proof. cbv zeta. repeat split; apply (bool_decide_unpack _); by vm_compute. Qed.

End example.
End nmonCluster.
