(* ===== verification/ClusterData.v ===== *)
(** * daemon/msgbus: the cluster data

    The data set of each node, and [ApplyMessage], which a node runs both on
    the messages of its own daemons and on those its peers forward to it.

    The local clock is an argument of [ApplyMessage], as is [node.GenData].  A
    path stands for its text, the key of the instance maps; a nil map is an
    empty one.  The messages that carry no data of a node are [Signal]s. *)

From S2P Require Import Prelude Status Naming Instance Nmon.

Open Scope string_scope.

Module msgbus.

(** A daemon subsystem: its state and its content, as a text. *)
Record Subsystem := mkSubsystem {
  Sub_State : string;
  Sub_UpdatedAt : time.Time;
  Sub_Content : string }.

Definition zero_Subsystem : Subsystem := mkSubsystem "" time.zero "".

(** [daemonsubsystem.HeartbeatLastMessage]. *)
Record HeartbeatLastMessage := mkHeartbeatLastMessage {
  From : string;
  PatchLength : nat;
  LastMessage_Type : string }.

(** [daemonsubsystem.Heartbeat], its streams as a text. *)
Record Heartbeat := mkHeartbeat {
  Hb_UpdatedAt : time.Time;
  Streams : string;
  LastMessages : list HeartbeatLastMessage;
  LastMessage : HeartbeatLastMessage;
  Secret_Main : Z;
  Secret_Alternate : Z }.

Definition zero_Heartbeat : Heartbeat :=
  mkHeartbeat time.zero "" [] (mkHeartbeatLastMessage "" 0 "") 0%Z 0%Z.

Record Daemon := mkDaemon {
  Collector : Subsystem;
  Daemondata : Subsystem;
  Dns : Subsystem;
  Heartbeat_ : Heartbeat;
  Listener : Subsystem;
  RunnerImon : Subsystem;
  Scheduler : Subsystem }.

(** [pool.Status], its content as a text. *)
Record PoolStatus := mkPoolStatus { Pool_Content : string; Pool_UpdatedAt : time.Time }.

(** [instance.Instance]. *)
Record Instance := mkInstance {
  Inst_Config : option instance.Config;
  Inst_Monitor : option instance.Monitor;
  Inst_Status : option instance.Status }.

Definition zero_Instance : Instance := mkInstance None None None.

(** [node.Node]. *)
Record Node := mkNode {
  Instances : gmap string Instance;
  Pool : gmap string PoolStatus;
  Monitor_ : node.Monitor;
  Stats_ : node.Stats;
  Status_ : node.Status;
  Paths : list string;
  Config_ : nmon.Config;
  Daemon_ : Daemon }.

#[global] Instance eta_Heartbeat : Eta Heartbeat := fun r =>
  mkHeartbeat (Hb_UpdatedAt r) (Streams r) (LastMessages r) (LastMessage r) (Secret_Main r) (Secret_Alternate r).
#[global] Instance upd_Secret_Main : Upd Secret_Main.
Proof. derive_upd eta_Heartbeat. Defined.
#[global] Instance upd_Secret_Alternate : Upd Secret_Alternate.
Proof. derive_upd eta_Heartbeat. Defined.

#[global] Instance eta_Daemon : Eta Daemon := fun r =>
  mkDaemon (Collector r) (Daemondata r) (Dns r) (Heartbeat_ r) (Listener r) (RunnerImon r) (Scheduler r).
#[global] Instance upd_Collector : Upd Collector.
Proof. derive_upd eta_Daemon. Defined.
#[global] Instance upd_Daemondata : Upd Daemondata.
Proof. derive_upd eta_Daemon. Defined.
#[global] Instance upd_Dns : Upd Dns.
Proof. derive_upd eta_Daemon. Defined.
#[global] Instance upd_Heartbeat_ : Upd Heartbeat_.
Proof. derive_upd eta_Daemon. Defined.
#[global] Instance upd_Listener : Upd Listener.
Proof. derive_upd eta_Daemon. Defined.
#[global] Instance upd_RunnerImon : Upd RunnerImon.
Proof. derive_upd eta_Daemon. Defined.
#[global] Instance upd_Scheduler : Upd Scheduler.
Proof. derive_upd eta_Daemon. Defined.

#[global] Instance eta_Instance : Eta Instance := fun r =>
  mkInstance (Inst_Config r) (Inst_Monitor r) (Inst_Status r).
#[global] Instance upd_Inst_Config : Upd Inst_Config.
Proof. derive_upd eta_Instance. Defined.
#[global] Instance upd_Inst_Monitor : Upd Inst_Monitor.
Proof. derive_upd eta_Instance. Defined.
#[global] Instance upd_Inst_Status : Upd Inst_Status.
Proof. derive_upd eta_Instance. Defined.

#[global] Instance eta_Node : Eta Node := fun r =>
  mkNode (Instances r) (Pool r) (Monitor_ r) (Stats_ r) (Status_ r) (Paths r) (Config_ r) (Daemon_ r).
#[global] Instance upd_Instances : Upd Instances.
Proof. derive_upd eta_Node. Defined.
#[global] Instance upd_Pool : Upd Pool.
Proof. derive_upd eta_Node. Defined.
#[global] Instance upd_Monitor_ : Upd Monitor_.
Proof. derive_upd eta_Node. Defined.
#[global] Instance upd_Stats_ : Upd Stats_.
Proof. derive_upd eta_Node. Defined.
#[global] Instance upd_Status_ : Upd Status_.
Proof. derive_upd eta_Node. Defined.
#[global] Instance upd_Paths : Upd Paths.
Proof. derive_upd eta_Node. Defined.
#[global] Instance upd_Config_ : Upd Config_.
Proof. derive_upd eta_Node. Defined.
#[global] Instance upd_Daemon_ : Upd Daemon_.
Proof. derive_upd eta_Node. Defined.

Definition zero_Daemon : Daemon :=
  mkDaemon zero_Subsystem zero_Subsystem zero_Subsystem zero_Heartbeat
    zero_Subsystem zero_Subsystem zero_Subsystem.

Definition zero_NodeConfig : nmon.Config := nmon.mkConfig "" ∅ 0%Z 0%Z 0%Z "" "".

(** The value a Go map of nodes has for a missing key. *)
Definition zero_Node : Node :=
  mkNode ∅ ∅ node.zero_Monitor (node.mkStats 0 0 0) node.zero_Status [] zero_NodeConfig zero_Daemon.

(** The messages [ApplyMessage] knows of, those that change no node data as
    [Signal]s, forwarded to the peers or not. *)
Inductive Msg :=
| DaemonCollectorUpdated (n : string) (v : Subsystem)
| DaemonDataUpdated (n : string) (v : Subsystem)
| DaemonDnsUpdated (n : string) (v : Subsystem)
| DaemonHeartbeatUpdated (n : string) (v : Heartbeat)
| DaemonListenerUpdated (n : string) (v : Subsystem)
| DaemonRunnerImonUpdated (n : string) (v : Subsystem)
| DaemonSchedulerUpdated (n : string) (v : Subsystem)
| ForgetPeer (n : string)
| HeartbeatSecretUpdated (n : string) (main alternate : Z)
| NodePoolStatusDeleted (n name : string)
| NodePoolStatusUpdated (n name : string) (v : PoolStatus)
| InstanceConfigDeleted (n s : string)
| InstanceConfigUpdated (n s : string) (v : instance.Config)
| InstanceMonitorDeleted (n s : string)
| InstanceMonitorUpdated (n s : string) (v : instance.Monitor)
| InstanceStatusDeleted (n s : string)
| InstanceStatusUpdated (n s : string) (v : instance.Status)
| NodeConfigUpdated (n : string) (v : nmon.Config)
| NodeDataUpdated (n : string) (v : Node)
| NodeLabelsUpdated (n : string) (v : gmap string string)
| NodeMonitorDeleted (n : string)
| NodeMonitorUpdated (n : string) (v : node.Monitor)
| NodeOsPathsUpdated (n : string) (v : list string)
| NodeStatsUpdated (n : string) (v : node.Stats)
| NodeStatusUpdated (n : string) (v : node.Status)
| ObjectCreated (n s : string)
| HeartbeatMessageTypeUpdated (n from to : string) (nodes joinedNodes : list string) (installedGens : node.Gen)
| NodeStatusGenUpdates (n : string) (v : node.Gen)
| Signal (n kind : string) (forwarded : bool).

(** [data.Cluster.Node]. *)
Abbreviation Nodes := (gmap string Node).

(** [data.Cluster.Node[n]]. *)
Definition nodeOf (n : string) (m : Nodes) : Node := default zero_Node (m !! n).

(** The subsystems: [v := data.Cluster.Node[n]], a change, and the store. *)
Definition onSubsystem (f : Daemon -> Daemon) (n : string) (m : Nodes) : Nodes :=
  <[n := (nodeOf n m) <| Daemon_ ::= f |>]> m.

Definition onDaemonCollector (n : string) (v : Subsystem) : Nodes -> Nodes :=
  onSubsystem (fun d => d <| Collector := v |>) n.
Definition onDaemonDataUpdated (n : string) (v : Subsystem) : Nodes -> Nodes :=
  onSubsystem (fun d => d <| Daemondata := v |>) n.
Definition onDaemonDnsUpdated (n : string) (v : Subsystem) : Nodes -> Nodes :=
  onSubsystem (fun d => d <| Dns := v |>) n.
Definition onDaemonListenerUpdated (n : string) (v : Subsystem) : Nodes -> Nodes :=
  onSubsystem (fun d => d <| Listener := v |>) n.
Definition onDaemonRunnerImonUpdated (n : string) (v : Subsystem) : Nodes -> Nodes :=
  onSubsystem (fun d => d <| RunnerImon := v |>) n.
Definition onDaemonSchedulerUpdated (n : string) (v : Subsystem) : Nodes -> Nodes :=
  onSubsystem (fun d => d <| Scheduler := v |>) n.

Definition onDaemonHeartbeatUpdated (n : string) (v : Heartbeat) (m : Nodes) : Nodes :=
  match m !! n with
  | Some ndata => <[n := ndata <| Daemon_ ::= fun d => d <| Heartbeat_ := v |> |>]> m
  | None => m
  end.

Definition onHeartbeatSecretUpdated (n : string) (main alternate : Z) (m : Nodes) : Nodes :=
  match m !! n with
  | Some ndata =>
      <[n := ndata <| Daemon_ ::= fun d =>
               d <| Heartbeat_ ::= fun h => h <| Secret_Main := main |> <| Secret_Alternate := alternate |> |> |>]> m
  | None => m
  end.

Definition onForgetPeer (n : string) (m : Nodes) : Nodes := delete n m.

Definition onPoolStatusDeleted (n name : string) (m : Nodes) : Nodes :=
  match m !! n with
  | Some cnode => <[n := cnode <| Pool ::= delete name |>]> m
  | None => m
  end.

Definition onPoolStatusUpdated (n name : string) (v : PoolStatus) (m : Nodes) : Nodes :=
  <[n := (nodeOf n m) <| Pool ::= <[name := v]> |>]> m.

(** The part of an instance is set to nil when the instance has it; the entry
    stays. *)
Definition onInstanceDeleted (reset : Instance -> Instance) (n s : string) (m : Nodes) : Nodes :=
  match m !! n with
  | Some cnode =>
      match Instances cnode !! s with
      | Some inst => <[n := cnode <| Instances ::= <[s := reset inst]> |>]> m
      | None => m
      end
  | None => m
  end.

Definition onInstanceUpdated (f : Instance -> Instance) (n s : string) (m : Nodes) : Nodes :=
  match m !! n with
  | Some cnode =>
      let inst := default zero_Instance (Instances cnode !! s) in
      <[n := cnode <| Instances ::= <[s := f inst]> |>]> m
  | None => <[n := zero_Node <| Instances := {[s := f zero_Instance]} |>]> m
  end.

Definition onInstanceConfigDeleted : string -> string -> Nodes -> Nodes :=
  onInstanceDeleted (fun inst => inst <| Inst_Config := None |>).
Definition onInstanceConfigUpdated (n s : string) (v : instance.Config) : Nodes -> Nodes :=
  onInstanceUpdated (fun inst => inst <| Inst_Config := Some v |>) n s.
Definition onInstanceMonitorDeleted : string -> string -> Nodes -> Nodes :=
  onInstanceDeleted (fun inst => inst <| Inst_Monitor := None |>).
Definition onInstanceMonitorUpdated (n s : string) (v : instance.Monitor) : Nodes -> Nodes :=
  onInstanceUpdated (fun inst => inst <| Inst_Monitor := Some v |>) n s.
Definition onInstanceStatusDeleted : string -> string -> Nodes -> Nodes :=
  onInstanceDeleted (fun inst => inst <| Inst_Status := None |>).
Definition onInstanceStatusUpdated (n s : string) (v : instance.Status) : Nodes -> Nodes :=
  onInstanceUpdated (fun inst => inst <| Inst_Status := Some v |>) n s.

Definition onNodeConfigUpdated (n : string) (v : nmon.Config) (m : Nodes) : Nodes :=
  if bool_decide (Config_ (nodeOf n m) = v) then m
  else <[n := (nodeOf n m) <| Config_ := v |>]> m.

Definition onNodeDataUpdated (n : string) (v : Node) (m : Nodes) : Nodes := <[n := v]> m.

(** The monitor of a stopped daemon is kept, shutting and preserved. *)
Definition preserved (now : time.Time) : node.Monitor :=
  node.zero_Monitor <| node.State := node.MonitorStateShutdownProgress |> <| node.IsPreserved := true |>
    <| node.Monitor_UpdatedAt := now |> <| node.StateUpdatedAt := now |>.

Definition onNodeMonitorDeleted (now : time.Time) (n : string) (m : Nodes) : Nodes :=
  match m !! n with
  | Some v => <[n := v <| Monitor_ := preserved now |>]> m
  | None => m
  end.

Definition onNodeMonitorUpdated (n : string) (v : node.Monitor) (m : Nodes) : Nodes :=
  <[n := (nodeOf n m) <| Monitor_ := v |>]> m.

Definition onNodeOsPathsUpdated (n : string) (v : list string) (m : Nodes) : Nodes :=
  <[n := (nodeOf n m) <| Paths := v |>]> m.

Definition onNodeStatsUpdated (n : string) (v : node.Stats) (m : Nodes) : Nodes :=
  if bool_decide (Stats_ (nodeOf n m) = v) then m
  else <[n := (nodeOf n m) <| Stats_ := v |>]> m.

(** [gens] is [node.GenData]. *)
Definition onNodeStatusUpdated (gens : gmap string node.Gen) (n : string) (v : node.Status) (m : Nodes) : Nodes :=
  let v := match gens !! n with
           | Some gen => v <| node.Status_Gen := gen |>
           | None => v
           end in
  <[n := (nodeOf n m) <| Status_ := v |>]> m.

(** [ApplyMessage], on the nodes. *)
Definition ApplyMessage (now : time.Time) (gens : gmap string node.Gen) (c : Msg) (m : Nodes) : Nodes :=
  match c with
  | DaemonCollectorUpdated n v => onDaemonCollector n v m
  | DaemonDataUpdated n v => onDaemonDataUpdated n v m
  | DaemonDnsUpdated n v => onDaemonDnsUpdated n v m
  | DaemonHeartbeatUpdated n v => onDaemonHeartbeatUpdated n v m
  | DaemonListenerUpdated n v => onDaemonListenerUpdated n v m
  | DaemonRunnerImonUpdated n v => onDaemonRunnerImonUpdated n v m
  | DaemonSchedulerUpdated n v => onDaemonSchedulerUpdated n v m
  | ForgetPeer n => onForgetPeer n m
  | HeartbeatSecretUpdated n main alt => onHeartbeatSecretUpdated n main alt m
  | NodePoolStatusDeleted n name => onPoolStatusDeleted n name m
  | NodePoolStatusUpdated n name v => onPoolStatusUpdated n name v m
  | InstanceConfigDeleted n s => onInstanceConfigDeleted n s m
  | InstanceConfigUpdated n s v => onInstanceConfigUpdated n s v m
  | InstanceMonitorDeleted n s => onInstanceMonitorDeleted n s m
  | InstanceMonitorUpdated n s v => onInstanceMonitorUpdated n s v m
  | InstanceStatusDeleted n s => onInstanceStatusDeleted n s m
  | InstanceStatusUpdated n s v => onInstanceStatusUpdated n s v m
  | NodeConfigUpdated n v => onNodeConfigUpdated n v m
  | NodeDataUpdated n v => onNodeDataUpdated n v m
  | NodeMonitorDeleted n => onNodeMonitorDeleted now n m
  | NodeMonitorUpdated n v => onNodeMonitorUpdated n v m
  | NodeOsPathsUpdated n v => onNodeOsPathsUpdated n v m
  | NodeStatsUpdated n v => onNodeStatsUpdated n v m
  | NodeStatusUpdated n v => onNodeStatusUpdated gens n v m
  | _ => m
  end.

(** The node a message is about. *)
Definition msgNode (c : Msg) : string :=
  match c with
  | DaemonCollectorUpdated n _ | DaemonDataUpdated n _ | DaemonDnsUpdated n _ | DaemonHeartbeatUpdated n _
  | DaemonListenerUpdated n _ | DaemonRunnerImonUpdated n _ | DaemonSchedulerUpdated n _ | ForgetPeer n
  | HeartbeatSecretUpdated n _ _ | NodePoolStatusDeleted n _ | NodePoolStatusUpdated n _ _
  | InstanceConfigDeleted n _ | InstanceConfigUpdated n _ _ | InstanceMonitorDeleted n _
  | InstanceMonitorUpdated n _ _ | InstanceStatusDeleted n _ | InstanceStatusUpdated n _ _
  | NodeConfigUpdated n _ | NodeDataUpdated n _ | NodeLabelsUpdated n _ | NodeMonitorDeleted n
  | NodeMonitorUpdated n _ | NodeOsPathsUpdated n _ | NodeStatsUpdated n _ | NodeStatusUpdated n _
  | ObjectCreated n _ | HeartbeatMessageTypeUpdated n _ _ _ _ _ | NodeStatusGenUpdates n _ | Signal n _ _ => n
  end.

(** ** Two views of a node

    The data of a node on itself and on a peer differ by the generations the
    two maintain in it, and by the date of the preserved monitor of a stopped
    daemon, stamped by each clock. *)

Definition monitorView (m : node.Monitor) : node.Monitor :=
  if node.IsPreserved m
  then m <| node.Monitor_UpdatedAt := time.zero |> <| node.StateUpdatedAt := time.zero |>
  else m.

Definition view (n : Node) : Node :=
  n <| Monitor_ ::= monitorView |> <| Status_ ::= fun s => s <| node.Status_Gen := ∅ |> |>.

#[global] Instance Node_equiv : Equiv Node := fun a b => view a = view b.

#[global] Instance Node_equivalence : Equivalence (≡@{Node}).
Proof. split; repeat intro; unfold equiv, Node_equiv in *; congruence. Qed.

(** A message about a node touches no other. *)
Lemma ApplyMessage_other now gens c m n :
  msgNode c <> n -> ApplyMessage now gens c m !! n = m !! n.
Proof.
  intros Hn. destruct c; cbn in *; try done;
    unfold onDaemonCollector, onDaemonDataUpdated, onDaemonDnsUpdated, onDaemonListenerUpdated,
      onDaemonRunnerImonUpdated, onDaemonSchedulerUpdated, onSubsystem, onDaemonHeartbeatUpdated,
      onHeartbeatSecretUpdated, onForgetPeer, onPoolStatusDeleted, onPoolStatusUpdated,
      onInstanceConfigDeleted, onInstanceConfigUpdated, onInstanceMonitorDeleted, onInstanceMonitorUpdated,
      onInstanceStatusDeleted, onInstanceStatusUpdated, onInstanceDeleted, onInstanceUpdated,
      onNodeConfigUpdated, onNodeDataUpdated, onNodeMonitorDeleted, onNodeMonitorUpdated,
      onNodeOsPathsUpdated, onNodeStatsUpdated, onNodeStatusUpdated;
    repeat case_match; try done; first [apply lookup_insert_ne | apply lookup_delete_ne]; done.
Qed.

Lemma view_fields a b : a ≡ b ->
  Instances a = Instances b /\ Pool a = Pool b /\ Stats_ a = Stats_ b /\ Paths a = Paths b /\
  Config_ a = Config_ b /\ Daemon_ a = Daemon_ b /\ monitorView (Monitor_ a) = monitorView (Monitor_ b) /\
  (Status_ a) <| node.Status_Gen := ∅ |> = (Status_ b) <| node.Status_Gen := ∅ |>.
Proof.
  intros H. change (view a = view b) in H.
  repeat split; [exact (f_equal Instances H)|exact (f_equal Pool H)|exact (f_equal Stats_ H)
    |exact (f_equal Paths H)|exact (f_equal Config_ H)|exact (f_equal Daemon_ H)
    |exact (f_equal Monitor_ H)|exact (f_equal Status_ H)].
Qed.

Lemma view_intro a b :
  Instances a = Instances b -> Pool a = Pool b -> Stats_ a = Stats_ b -> Paths a = Paths b ->
  Config_ a = Config_ b -> Daemon_ a = Daemon_ b -> monitorView (Monitor_ a) = monitorView (Monitor_ b) ->
  (Status_ a) <| node.Status_Gen := ∅ |> = (Status_ b) <| node.Status_Gen := ∅ |> -> a ≡ b.
Proof.
  intros HI HP HS HO HC HD HM HT. change (view a = view b).
  change (mkNode (Instances a) (Pool a) (monitorView (Monitor_ a)) (Stats_ a)
            ((Status_ a) <| node.Status_Gen := ∅ |>) (Paths a) (Config_ a) (Daemon_ a) = view b).
  by rewrite HI, HP, HS, HO, HC, HD, HM, HT.
Qed.

(** A message does the same to two nodes with the same view, whatever the
    clocks and the generations. *)
Lemma ApplyMessage_view now1 now2 gens1 gens2 c m1 m2 s :
  m1 !! s ≡ m2 !! s -> ApplyMessage now1 gens1 c m1 !! s ≡ ApplyMessage now2 gens2 c m2 !! s.
Proof.
  intros Hm. destruct (decide (msgNode c = s)) as [<-|Hn]; [|by rewrite !ApplyMessage_other by done].
  assert (nodeOf (msgNode c) m1 ≡ nodeOf (msgNode c) m2) as Hd.
  { unfold nodeOf. by inversion Hm. }
  apply view_fields in Hd as (HI & HP & HS & HO & HC & HD & HM & HT).
  destruct c; cbn in *; try done;
    unfold onDaemonCollector, onDaemonDataUpdated, onDaemonDnsUpdated, onDaemonListenerUpdated,
      onDaemonRunnerImonUpdated, onDaemonSchedulerUpdated, onSubsystem, onForgetPeer, onPoolStatusUpdated,
      onNodeDataUpdated, onNodeMonitorUpdated, onNodeOsPathsUpdated, onNodeConfigUpdated, onNodeStatsUpdated,
      onNodeStatusUpdated, onDaemonHeartbeatUpdated, onHeartbeatSecretUpdated, onPoolStatusDeleted,
      onInstanceConfigDeleted, onInstanceConfigUpdated, onInstanceMonitorDeleted, onInstanceMonitorUpdated,
      onInstanceStatusDeleted, onInstanceStatusUpdated, onInstanceDeleted, onInstanceUpdated,
      onNodeMonitorDeleted;
    rewrite ?HC, ?HS; try (case_bool_decide; [done|]);
    rewrite ?lookup_insert_eq, ?lookup_delete_eq;
    try (apply Some_Forall2, view_intro; first [assumption | reflexivity | cbn; congruence]).
  all: unfold nodeOf in *; inversion Hm as [a b Hab Ha Hb|Ha Hb]; rewrite <- ?Ha, <- ?Hb in *; cbn in *;
    rewrite ?HI; repeat case_match; rewrite ?lookup_insert_eq, <- ?Ha, <- ?Hb; try done.
  all: apply Some_Forall2, view_intro; first [assumption | reflexivity | cbn; congruence].
Qed.

(** Only [ForgetPeer] removes a node. *)
Lemma ApplyMessage_keeps now gens c m n v :
  m !! n = Some v -> (forall p, c <> ForgetPeer p) -> is_Some (ApplyMessage now gens c m !! n).
Proof.
  intros Hm Hf. destruct (decide (msgNode c = n)) as [Hn|Hn]; [|rewrite ApplyMessage_other by done; eauto].
  destruct c; cbn in Hn; subst; cbn; try (by exists v).
  all: try (exfalso; by apply (Hf n)).
  all: unfold onDaemonCollector, onDaemonDataUpdated, onDaemonDnsUpdated, onDaemonListenerUpdated,
      onDaemonRunnerImonUpdated, onDaemonSchedulerUpdated, onSubsystem, onPoolStatusUpdated,
      onNodeDataUpdated, onNodeMonitorUpdated, onNodeOsPathsUpdated, onNodeConfigUpdated, onNodeStatsUpdated,
      onNodeStatusUpdated, onDaemonHeartbeatUpdated, onHeartbeatSecretUpdated, onPoolStatusDeleted,
      onInstanceConfigDeleted, onInstanceConfigUpdated, onInstanceMonitorDeleted, onInstanceMonitorUpdated,
      onInstanceStatusDeleted, onInstanceStatusUpdated, onInstanceDeleted, onInstanceUpdated,
      onNodeMonitorDeleted; repeat case_match; rewrite ?lookup_insert_eq;
    match goal with |- is_Some (Some ?x) => by exists x | _ => exists v; congruence end.
Qed.

End msgbus.
