(* ===== verification/Daemondata.v ===== *)
(** * daemon/daemondata: the replication of the cluster data

    Each node owns its data set: the messages of its own daemons are applied to
    it, collected in [pendingEvs], and committed at each tick as the events of a
    new generation.  Heartbeat messages carry to the peers either the events
    they miss (patch), or these and the whole data set (full), or neither
    (ping), with the generations the sender has of every node.

    [data] is the state of the goroutine that runs [data.run], its methods are
    functions on it, and what it does outside is its [trace], newest first.
    A panic is [None].  The keys of the event queues, texts of 64-bit
    generations, are numbers; no generation reaches 2^64.  Events travel as
    JSON, read back as they were written. *)

From S2P Require Import Prelude Status Naming Instance Nmon ClusterData.

Open Scope string_scope.
Import msgbus.

Module daemondata.

Abbreviation Gen := node.Gen.

(** [gen[n]]. *)
Definition genOf (n : string) (g : Gen) : N := default 0%N (g !! n).

(** [hbtype.Msg], less the ping monitor and the compatibility number. *)
Record HbMsg := mkHbMsg {
  Kind : string;
  Msg_Gen : Gen;
  UpdatedAt : time.Time;
  Events : gmap N (list Msg);
  NodeData : Node;
  Nodename : string;
  RunID : string }.

Record peerRun := mkPeerRun { run_id : string; run_updatedAt : time.Time }.

Record peerRunCandidate := mkPeerRunCandidate {
  cand_id : string;
  cand_updatedAt : time.Time;
  cand_count : Z;
  cand_seenAt : time.Time }.

Record remoteInfo := mkRemoteInfo {
  collectorUpdated : time.Time;
  daemondataUpdated : time.Time;
  dnsUpdated : time.Time;
  listenerUpdated : time.Time;
  runnerImon : time.Time;
  scheduler : time.Time;
  nmonUpdated : time.Time;
  nodeStats : node.Stats;
  nodeStatus : node.Status;
  nodeConfig : nmon.Config;
  imonUpdated : gmap string time.Time;
  instConfigUpdated : gmap string time.Time;
  instStatusUpdated : gmap string time.Time;
  poolStatusUpdated : gmap string time.Time }.

(** The package data holders: [node.ConfigData] and the like, by node, then by
    path or pool name. *)
Record Caches := mkCaches {
  ConfigData : gmap string nmon.Config;
  MonitorData : gmap string node.Monitor;
  OsPathsData : gmap string (list string);
  StatsData : gmap string node.Stats;
  StatusData : gmap string node.Status;
  GenData : gmap string Gen;
  DataCollector : gmap string Subsystem;
  DataDaemondata : gmap string Subsystem;
  DataDns : gmap string Subsystem;
  DataHeartbeat : gmap string Heartbeat;
  DataListener : gmap string Subsystem;
  DataRunnerImon : gmap string Subsystem;
  DataScheduler : gmap string Subsystem;
  InstConfigData : gmap string (gmap string instance.Config);
  InstMonitorData : gmap string (gmap string instance.Monitor);
  InstStatusData : gmap string (gmap string instance.Status);
  PoolStatusData : gmap string (gmap string PoolStatus) }.

Inductive Event :=
| Pub (c : Msg)
| Send (m : HbMsg)
| HbcacheDropPeer (n : string).

Definition Trace := list Event.

Record data := mkData {
  previousRemoteInfo : gmap string remoteInfo;
  clusterData : gmap string Node;
  configNodes : list string;
  pendingEvs : list Msg;
  eventQueue : gmap N (list Msg);
  gen : N;
  hbMessageType : string;
  localNode : string;
  clusterNodes : gset string;
  msgLocalGen : Gen;
  hbSendQ : bool;
  hbMsgPatchLength : gmap string nat;
  hbMsgType : gmap string string;
  hbGens : gmap string Gen;
  hbPatchMsgUpdated : gmap string time.Time;
  runID : string;
  peerRuns : gmap string peerRun;
  peerRunCandidates : gmap string peerRunCandidate;
  needMsg : bool;
  caches : Caches;
  trace : Trace }.

Class Env := {
  Now : Trace -> time.Time;
  clusternodes : Trace -> list string;           (** clusternode.Get() *)
  heartbeats : Trace -> string;                  (** the streams, from hbcache.Heartbeats() *)
  rangeOrder : Trace -> list string -> list string;
  rangeOrder_perm : forall tr l, rangeOrder tr l ≡ₚ l }.

#[global] Instance eta_Caches : Eta Caches := fun r =>
  mkCaches (ConfigData r) (MonitorData r) (OsPathsData r) (StatsData r) (StatusData r) (GenData r)
    (DataCollector r) (DataDaemondata r) (DataDns r) (DataHeartbeat r) (DataListener r)
    (DataRunnerImon r) (DataScheduler r) (InstConfigData r) (InstMonitorData r) (InstStatusData r)
    (PoolStatusData r).
#[global] Instance upd_Caches_ConfigData : Upd ConfigData.
Proof. derive_upd eta_Caches. Defined.
#[global] Instance upd_Caches_MonitorData : Upd MonitorData.
Proof. derive_upd eta_Caches. Defined.
#[global] Instance upd_Caches_OsPathsData : Upd OsPathsData.
Proof. derive_upd eta_Caches. Defined.
#[global] Instance upd_Caches_StatsData : Upd StatsData.
Proof. derive_upd eta_Caches. Defined.
#[global] Instance upd_Caches_StatusData : Upd StatusData.
Proof. derive_upd eta_Caches. Defined.
#[global] Instance upd_Caches_GenData : Upd GenData.
Proof. derive_upd eta_Caches. Defined.
#[global] Instance upd_Caches_DataCollector : Upd DataCollector.
Proof. derive_upd eta_Caches. Defined.
#[global] Instance upd_Caches_DataDaemondata : Upd DataDaemondata.
Proof. derive_upd eta_Caches. Defined.
#[global] Instance upd_Caches_DataDns : Upd DataDns.
Proof. derive_upd eta_Caches. Defined.
#[global] Instance upd_Caches_DataHeartbeat : Upd DataHeartbeat.
Proof. derive_upd eta_Caches. Defined.
#[global] Instance upd_Caches_DataListener : Upd DataListener.
Proof. derive_upd eta_Caches. Defined.
#[global] Instance upd_Caches_DataRunnerImon : Upd DataRunnerImon.
Proof. derive_upd eta_Caches. Defined.
#[global] Instance upd_Caches_DataScheduler : Upd DataScheduler.
Proof. derive_upd eta_Caches. Defined.
#[global] Instance upd_Caches_InstConfigData : Upd InstConfigData.
Proof. derive_upd eta_Caches. Defined.
#[global] Instance upd_Caches_InstMonitorData : Upd InstMonitorData.
Proof. derive_upd eta_Caches. Defined.
#[global] Instance upd_Caches_InstStatusData : Upd InstStatusData.
Proof. derive_upd eta_Caches. Defined.
#[global] Instance upd_Caches_PoolStatusData : Upd PoolStatusData.
Proof. derive_upd eta_Caches. Defined.

#[global] Instance eta_data : Eta data := fun r =>
  mkData (previousRemoteInfo r) (clusterData r) (configNodes r) (pendingEvs r) (eventQueue r) (gen r)
    (hbMessageType r) (localNode r) (clusterNodes r) (msgLocalGen r) (hbSendQ r) (hbMsgPatchLength
    r) (hbMsgType r) (hbGens r) (hbPatchMsgUpdated r) (runID r) (peerRuns r) (peerRunCandidates r)
    (needMsg r) (caches r) (trace r).
#[global] Instance upd_data_previousRemoteInfo : Upd previousRemoteInfo.
Proof. derive_upd eta_data. Defined.
#[global] Instance upd_data_clusterData : Upd clusterData.
Proof. derive_upd eta_data. Defined.
#[global] Instance upd_data_configNodes : Upd configNodes.
Proof. derive_upd eta_data. Defined.
#[global] Instance upd_data_pendingEvs : Upd pendingEvs.
Proof. derive_upd eta_data. Defined.
#[global] Instance upd_data_eventQueue : Upd eventQueue.
Proof. derive_upd eta_data. Defined.
#[global] Instance upd_data_gen : Upd gen.
Proof. derive_upd eta_data. Defined.
#[global] Instance upd_data_hbMessageType : Upd hbMessageType.
Proof. derive_upd eta_data. Defined.
#[global] Instance upd_data_localNode : Upd localNode.
Proof. derive_upd eta_data. Defined.
#[global] Instance upd_data_clusterNodes : Upd clusterNodes.
Proof. derive_upd eta_data. Defined.
#[global] Instance upd_data_msgLocalGen : Upd msgLocalGen.
Proof. derive_upd eta_data. Defined.
#[global] Instance upd_data_hbSendQ : Upd hbSendQ.
Proof. derive_upd eta_data. Defined.
#[global] Instance upd_data_hbMsgPatchLength : Upd hbMsgPatchLength.
Proof. derive_upd eta_data. Defined.
#[global] Instance upd_data_hbMsgType : Upd hbMsgType.
Proof. derive_upd eta_data. Defined.
#[global] Instance upd_data_hbGens : Upd hbGens.
Proof. derive_upd eta_data. Defined.
#[global] Instance upd_data_hbPatchMsgUpdated : Upd hbPatchMsgUpdated.
Proof. derive_upd eta_data. Defined.
#[global] Instance upd_data_runID : Upd runID.
Proof. derive_upd eta_data. Defined.
#[global] Instance upd_data_peerRuns : Upd peerRuns.
Proof. derive_upd eta_data. Defined.
#[global] Instance upd_data_peerRunCandidates : Upd peerRunCandidates.
Proof. derive_upd eta_data. Defined.
#[global] Instance upd_data_needMsg : Upd needMsg.
Proof. derive_upd eta_data. Defined.
#[global] Instance upd_data_caches : Upd caches.
Proof. derive_upd eta_data. Defined.
#[global] Instance upd_data_trace : Upd trace.
Proof. derive_upd eta_data. Defined.

Definition emit (e : Event) (d : data) : data := d <| trace ::= cons e |>.
Definition pub (c : Msg) (d : data) : data := emit (Pub c) d.

(** [d.hbGens[d.localNode]], which [newData] makes and nothing removes. *)
Definition localGens (d : data) : Gen := default ∅ (hbGens d !! localNode d).

(** [d.hbGens[d.localNode][peer] = g]. *)
Definition setLocalGen (peer : string) (g : N) (d : data) : data :=
  d <| hbGens ::= <[localNode d := <[peer := g]> (localGens d)]> |>.

(** The generation of a peer this node has applied. *)
Definition applied (peer : string) (d : data) : N := genOf peer (localGens d).

(** [d.clusterData.Cluster.Node[n].Status.Gen[k] = g], for a node of the data. *)
Definition setStatusGen (n k : string) (g : N) (d : data) : data :=
  d <| clusterData ::= alter (fun v => v <| Status_ ::= fun s => s <| node.Status_Gen ::= <[k := g]> |> |>) n |>.

Section methods.
Context `{E : Env}.

(** ** data_init.go *)

(** [newData], with the data of the local node, which [newNodeData] builds
    with the generation 1. *)
Definition newData (local run : string) (nodes : list string) (nodeData : Node) (caches0 : Caches) : data :=
  let nodeData := nodeData <| Status_ ::= fun s => s <| node.Status_Gen := {[local := 1%N]} |> |> in
  let caches0 := caches0 <| MonitorData ::= <[local := Monitor_ nodeData]> |>
                   <| StatusData ::= <[local := Status_ nodeData]> |>
                   <| StatsData ::= <[local := Stats_ nodeData]> |>
                   <| ConfigData ::= <[local := Config_ nodeData]> |>
                   <| GenData ::= <[local := {[local := 1%N]}]> |>
                   <| DataDaemondata ::= <[local := Daemondata (Daemon_ nodeData)]> |>
                   <| DataHeartbeat ::= <[local := Heartbeat_ (Daemon_ nodeData)]> |> in
  mkData ∅ {[local := nodeData]} nodes [] ∅ 1%N "undef" local (list_to_set nodes) ∅ false {[local := 0]}
    {[local := "undef"]} {[local := {[local := 0%N]}]} ∅ run ∅ ∅ false caches0 [].

(** ** daemon_hb.go *)

Definition lastMessage (d : data) (n : string) : HeartbeatLastMessage :=
  mkHeartbeatLastMessage n (default 0 (hbMsgPatchLength d !! n)) (default "" (hbMsgType d !! n)).

(** The status of the heartbeats, which comes back as a message of the local
    node.  The nodes out of the configuration are dropped from hbcache. *)
Definition setDaemonHeartbeat (d : data) : data :=
  let known := rangeOrder (trace d) (map_to_list (hbMsgPatchLength d)).*1 in
  let configured (n : string) := bool_decide (n ∈ configNodes d) in
  let d := foldl (fun d n => emit (HbcacheDropPeer n) d) d
             (List.filter (fun n => negb (configured n)) known) in
  let nodes := stable_sort String.ltb (List.filter configured known) in
  let v := mkHeartbeat (Now (trace d)) (heartbeats (trace d)) (map (lastMessage d) nodes)
             (lastMessage d (localNode d)) 0%Z 0%Z in
  let d := d <| caches ::= fun c => c <| DataHeartbeat ::= <[localNode d := v]> |> |> in
  pub (DaemonHeartbeatUpdated (localNode d) v) d.

Definition setHbMsgPatchLength (n : string) (length : nat) (d : data) : data :=
  d <| hbMsgPatchLength ::= <[n := length]> |>.

Definition joinedNodes (d : data) : list string :=
  rangeOrder (trace d) (map_to_list (filter (fun kv => kv.2 = "patch") (hbMsgType d))).*1.

Definition setHbMsgType (n msgType : string) (d : data) : data :=
  let previous := default "" (hbMsgType d !! n) in
  if String.eqb msgType previous then d
  else
    let d := d <| hbMsgType ::= <[n := msgType]> |> in
    pub (HeartbeatMessageTypeUpdated n previous msgType (clusternodes (trace d)) (joinedNodes d) (localGens d)) d.

(** ** apply_commit.go *)

(** The smallest generation of this node a peer says it applied, among those
    that applied one, and the current generation. *)
Definition peerMinGen (d : data) : N :=
  foldr (fun kv m =>
      if String.eqb kv.1 (localNode d) then m
      else let g := genOf (localNode d) kv.2 in
           if negb (g =? 0)%N && (g <? m)%N then g else m)
    (gen d) (map_to_list (hbGens d)).

Definition purgeAppliedPatchQueue (d : data) : data :=
  d <| eventQueue ::= filter (fun kv => (peerMinGen d < kv.1)%N) |>.

Definition commitPendingOps (d : data) : data * bool :=
  let changes := negb (bool_decide (pendingEvs d = [])) in
  let d :=
    if changes then
      let d := d <| gen ::= N.succ |> in
      let d := setLocalGen (localNode d) (gen d) d in
      setStatusGen (localNode d) (localNode d) (gen d) d
    else d in
  let d :=
    if one_of (hbMessageType d) ["patch"; "full"] then
      let d := if changes then
                 let d := d <| eventQueue ::= <[gen d := pendingEvs d]> |> in
                 d <| pendingEvs := [] |>
               else d in
      purgeAppliedPatchQueue d
    else
      let d := d <| pendingEvs := [] |> in
      d <| eventQueue := ∅ |> in
  (setLocalGen (localNode d) (gen d) d, changes).

(** ** hb_message.go *)

Definition isMember (n : string) (d : data) : bool := bool_decide (n ∈ clusterNodes d).

(** A peer known to the heartbeat that is not a node of the cluster is forgotten. *)
Definition cleanupHbGens (d : data) : data :=
  d <| hbGens ::= filter (fun kv => kv.1 = localNode d \/ kv.1 ∈ clusterNodes d) |>.

(** The peers that applied no generation of this node. *)
Definition remoteNeedFull (d : data) : bool :=
  existsb (fun kv => negb (String.eqb kv.1 (localNode d)) && (genOf (localNode d) kv.2 =? 0)%N)
    (map_to_list (hbGens d)).

Definition nextMsgType (d : data) : data * string :=
  if String.eqb (hbMessageType d) "undef" then (d, "ping")
  else if Nat.leb (size (hbGens d)) 1 then (d, "ping")
  else
    let d := cleanupHbGens d in
    (d, if remoteNeedFull d || String.eqb (hbMessageType d) "ping" then "full" else "patch").

Definition setNextMsgType (d : data) : data :=
  let '(d, messageType) := nextMsgType d in
  if String.eqb messageType (hbMessageType d) then d
  else
    let d := d <| hbMessageType := messageType |> in
    setHbMsgType (localNode d) messageType d.

(** [None] is the error on an unknown type. *)
Definition getHbMessage (d : data) : data * option HbMsg :=
  let d := setNextMsgType d in
  let msg := mkHbMsg (hbMessageType d) (localGens d) (Now (trace d)) ∅ zero_Node (localNode d) (runID d) in
  if String.eqb (hbMessageType d) "patch" then
    let msg := mkHbMsg (hbMessageType d) (localGens d) (Now (trace d)) (eventQueue d) zero_Node
                 (localNode d) (runID d) in
    (setHbMsgPatchLength (localNode d) (size (Events msg)) d, Some msg)
  else if String.eqb (hbMessageType d) "full" then
    let msg := mkHbMsg (hbMessageType d) (localGens d) (Now (trace d)) (eventQueue d)
                 (nodeOf (localNode d) (clusterData d)) (localNode d) (runID d) in
    (setHbMsgPatchLength (localNode d) 0 d, Some msg)
  else if String.eqb (hbMessageType d) "ping" then (setHbMsgPatchLength (localNode d) 0 d, Some msg)
  else (d, None).

Definition queueNewHbMsg (d : data) : data * bool :=
  let '(d, msg) := getHbMessage d in
  match msg with
  | None => (d, false)
  | Some msg =>
      let d := d <| msgLocalGen := Msg_Gen msg |> in
      (if hbSendQ d then emit (Send msg) d else d, true)
  end.

(** [opSetHBSendQ.call]: the messages have a reader, or not. *)
Definition SetHBSendQ (q : bool) (d : data) : data := d <| hbSendQ := q |>.

(** ** get_hb_msg_type.go *)

Record HbMessageType := mkHbMessageType {
  Type_ : string;
  Nodes_ : list string;
  JoinedNodes : list string;
  Gens : Gen }.

Definition GetHbMessageType (d : data) : HbMessageType :=
  mkHbMessageType (hbMessageType d) (clusternodes (trace d))
    (rangeOrder (trace d) (map_to_list (localGens d)).*1) (localGens d).

(** ** data.go: the tick *)

Definition gensEqual (a b : Gen) : bool :=
  Nat.eqb (size a) (size b) && forallb (fun kv => N.eqb (genOf kv.1 b) kv.2) (map_to_list a).

(** [refresh] says the ticker of the heartbeat status fired too. *)
Definition onTick (refresh : bool) (d : data) : data :=
  let '(d, needMessage) := commitPendingOps d in
  let lgens := default ∅ (GenData (caches d) !! localNode d) in
  let '(d, needMessage) :=
    if negb needMessage && negb (gensEqual (msgLocalGen d) lgens) then
      let d := d <| caches ::= fun c => c <| GenData ::= <[localNode d := msgLocalGen d]> |> |> in
      (pub (NodeStatusGenUpdates (localNode d) (msgLocalGen d)) d, true)
    else (d, needMessage) in
  let '(d, needMessage) := if refresh then (setDaemonHeartbeat d, true) else (d, needMessage) in
  if needMessage || needMsg d then
    let '(d, ok) := queueNewHbMsg d in
    if (ok : bool) then d <| needMsg := false |> else d
  else d.

(** ** data.go: the local messages *)

(** [localEventMustBeForwarded]. *)
Definition localEventMustBeForwarded (c : Msg) : bool :=
  match c with
  | ForgetPeer _ | NodeDataUpdated _ _ | HeartbeatMessageTypeUpdated _ _ _ _ _ _ | NodeStatusGenUpdates _ _ => false
  | Signal _ _ forwarded => forwarded
  | _ => true
  end.

Definition forwardEvent (c : Msg) (d : data) : data := d <| pendingEvs ::= fun l => (l ++ [c])%list |>.

Definition updateClusterNodes (added removed : list string) (d : data) : data :=
  d <| clusterNodes ::= fun s => (s ∪ list_to_set added) ∖ list_to_set removed |>.

(** ** node_data.go *)

(** [Set] and [Unset] of the data holders indexed by node and path. *)
Definition holderSet {A} (n s : string) (v : A) (m : gmap string (gmap string A)) : gmap string (gmap string A) :=
  <[n := <[s := v]> (default ∅ (m !! n))]> m.
Definition holderUnset {A} (n s : string) (m : gmap string (gmap string A)) : gmap string (gmap string A) :=
  alter (delete s) n m.
Definition held {A} (n : string) (m : gmap string (gmap string A)) : list string :=
  (map_to_list (default ∅ (m !! n))).*1.

(** A loop over the keys of a map, in any order. *)
Definition rangeOver (f : string -> data -> data) (l : list string) (d : data) : data :=
  foldl (fun d s => f s d) d (rangeOrder (trace d) l).

Definition unsetInstConfig (n s : string) (d : data) : data :=
  pub (InstanceConfigDeleted n s) (d <| caches ::= fun c => c <| InstConfigData ::= holderUnset n s |> |>).
Definition unsetInstStatus (n s : string) (d : data) : data :=
  pub (InstanceStatusDeleted n s) (d <| caches ::= fun c => c <| InstStatusData ::= holderUnset n s |> |>).
Definition unsetInstMonitor (n s : string) (d : data) : data :=
  pub (InstanceMonitorDeleted n s) (d <| caches ::= fun c => c <| InstMonitorData ::= holderUnset n s |> |>).
Definition unsetPoolStatus (n s : string) (d : data) : data :=
  pub (NodePoolStatusDeleted n s) (d <| caches ::= fun c => c <| PoolStatusData ::= holderUnset n s |> |>).

(** [node.DropNode] and [daemonsubsystem.DropNode]. *)
Definition dropNode (peer : string) (c : Caches) : Caches :=
  c <| ConfigData ::= delete peer |> <| MonitorData ::= delete peer |> <| OsPathsData ::= delete peer |>
    <| StatusData ::= delete peer |> <| StatsData ::= delete peer |> <| GenData ::= delete peer |>
    <| DataCollector ::= delete peer |> <| DataDaemondata ::= delete peer |> <| DataDns ::= delete peer |>
    <| DataHeartbeat ::= delete peer |> <| DataListener ::= delete peer |> <| DataRunnerImon ::= delete peer |>
    <| DataScheduler ::= delete peer |>.

(** The holders of the peer are emptied, with a publication each. *)
Definition dropPeerHolders (peer : string) (d : data) : data :=
  let d := rangeOver (unsetInstConfig peer) (held peer (InstConfigData (caches d))) d in
  let d := rangeOver (unsetInstStatus peer) (held peer (InstStatusData (caches d))) d in
  let d := rangeOver (unsetInstMonitor peer) (held peer (InstMonitorData (caches d))) d in
  let d := rangeOver (unsetPoolStatus peer) (held peer (PoolStatusData (caches d))) d in
  match MonitorData (caches d) !! peer with
  | None => d
  | Some _ =>
      let d := d <| caches ::= dropNode peer |> in
      let d := pub (NodeMonitorDeleted peer) d in
      let d := pub (DaemonCollectorUpdated peer zero_Subsystem) d in
      let d := pub (DaemonDataUpdated peer zero_Subsystem) d in
      let d := pub (DaemonDnsUpdated peer zero_Subsystem) d in
      let d := pub (DaemonHeartbeatUpdated peer zero_Heartbeat) d in
      let d := pub (DaemonListenerUpdated peer zero_Subsystem) d in
      let d := pub (DaemonRunnerImonUpdated peer zero_Subsystem) d in
      pub (DaemonSchedulerUpdated peer zero_Subsystem) d
  end.

(** What the node keeps about the messages of the peer is deleted. *)
Definition dropPeerMaps (peer : string) (d : data) : data :=
  let d := d <| hbGens ::= delete peer |> in
  let d := d <| hbGens ::= alter (delete peer) (localNode d) |> in
  let d := d <| hbPatchMsgUpdated ::= delete peer |> in
  let d := d <| hbMsgPatchLength ::= delete peer |> in
  let d := d <| hbMsgType ::= delete peer |> in
  let d := d <| previousRemoteInfo ::= delete peer |> in
  let d := d <| peerRuns ::= delete peer |> in
  d <| peerRunCandidates ::= delete peer |>.

(** [delete(d.clusterData.Cluster.Node[d.localNode].Status.Gen, peer)]. *)
Definition dropStatusGen (n peer : string) (d : data) : data :=
  d <| clusterData ::= alter (fun v => v <| Status_ ::= fun s => s <| node.Status_Gen ::= delete peer |> |>) n |>.

Definition dropPeer (peer : string) (d : data) : data :=
  let d := emit (HbcacheDropPeer peer) d in
  let d := dropPeerHolders peer d in
  let d := dropPeerMaps peer d in
  let d := dropStatusGen (localNode d) peer d in
  let d := d <| clusterData ::= delete peer |> in
  let d := setDaemonHeartbeat d in
  pub (ForgetPeer peer) d.

(** What [onSubEvent] receives from the daemons of the node. *)
Inductive Local :=
| LocalMsg (c : Msg)
| ClusterConfigUpdated (nodes added removed : list string).

Definition applyLocal (c : Msg) (d : data) : data :=
  d <| clusterData ::= ApplyMessage (Now (trace d)) (GenData (caches d)) c |>.

Definition onSubEvent (i : Local) (d : data) : data :=
  match i with
  | LocalMsg c =>
      let d := if localEventMustBeForwarded c then forwardEvent c d else d in
      applyLocal c d
  | ClusterConfigUpdated nodes added removed =>
      let d := updateClusterNodes added removed d in
      let d := foldl (fun d s => dropPeer s d) d removed in
      d <| configNodes := nodes |>
  end.

(** ** apply_patch.go *)

(** The holders [setCacheAndPublish] updates for a message of a peer. *)
Definition setCache (c : Msg) (x : Caches) : Caches :=
  match c with
  | DaemonCollectorUpdated n v => x <| DataCollector ::= <[n := v]> |>
  | DaemonDataUpdated n v => x <| DataDaemondata ::= <[n := v]> |>
  | DaemonDnsUpdated n v => x <| DataDns ::= <[n := v]> |>
  | DaemonHeartbeatUpdated n v => x <| DataHeartbeat ::= <[n := v]> |>
  | DaemonListenerUpdated n v => x <| DataListener ::= <[n := v]> |>
  | DaemonRunnerImonUpdated n v => x <| DataRunnerImon ::= <[n := v]> |>
  | DaemonSchedulerUpdated n v => x <| DataScheduler ::= <[n := v]> |>
  | InstanceConfigDeleted n s => x <| InstConfigData ::= holderUnset n s |>
  | InstanceConfigUpdated n s v => x <| InstConfigData ::= holderSet n s v |>
  | InstanceMonitorDeleted n s => x <| InstMonitorData ::= holderUnset n s |>
  | InstanceMonitorUpdated n s v => x <| InstMonitorData ::= holderSet n s v |>
  | InstanceStatusDeleted n s => x <| InstStatusData ::= holderUnset n s |>
  | InstanceStatusUpdated n s v => x <| InstStatusData ::= holderSet n s v |>
  | NodeConfigUpdated n v => x <| ConfigData ::= <[n := v]> |>
  | NodeMonitorDeleted n => x <| MonitorData ::= delete n |>
  | NodeMonitorUpdated n v => x <| MonitorData ::= <[n := v]> |>
  | NodeOsPathsUpdated n v => x <| OsPathsData ::= <[n := v]> |>
  | NodeStatsUpdated n v => x <| StatsData ::= <[n := v]> |>
  | NodeStatusUpdated n v => x <| StatusData ::= <[n := v]> |> <| GenData ::= <[n := node.Status_Gen v]> |>
  | NodePoolStatusDeleted n s => x <| PoolStatusData ::= holderUnset n s |>
  | NodePoolStatusUpdated n s v => x <| PoolStatusData ::= holderSet n s v |>
  | _ => x
  end.

(** The messages it publishes: a kind it does not know is dropped, with a log. *)
Definition isPublished (c : Msg) : bool :=
  match c with
  | ForgetPeer _ | NodeDataUpdated _ _ | HeartbeatMessageTypeUpdated _ _ _ _ _ _ | NodeStatusGenUpdates _ _ => false
  | Signal _ _ forwarded => forwarded
  | _ => true
  end.

Definition setCacheAndPublish (c : Msg) (d : data) : data :=
  let d := applyLocal c d in
  let d := d <| caches ::= setCache c |> in
  if isPublished c then pub c d else d.

Definition setNeedFull (remote : string) (d : data) : data := setLocalGen remote 0%N d.

(** The events of a generation. *)
Definition applyGen (remote : string) (g : N) (events : list Msg) (d : data) : data :=
  foldl (fun d ev => setLocalGen remote g (setCacheAndPublish ev d)) d events.

(** The loop on the sorted generations; the flag says it ran to its end. *)
Fixpoint applyGens (msg : HbMsg) (sortGen : list N) (pendingNodeGen : N) (d : data) : data * bool :=
  match sortGen with
  | [] => (d, true)
  | g :: rest =>
      if (g <=? pendingNodeGen)%N then applyGens msg rest pendingNodeGen d
      else if (pendingNodeGen + 1 <? g)%N then (setNeedFull (Nodename msg) d, false)
      else
        let d := applyGen (Nodename msg) g (default [] (Events msg !! g)) d in
        let d := d <| hbPatchMsgUpdated ::= <[Nodename msg := UpdatedAt msg]> |> in
        applyGens msg rest g d
  end.

Definition sortGen (msg : HbMsg) : list N := merge_sort N.le (map_to_list (Events msg)).*1.

(** [None] is the panic on a peer with no data. *)
Definition applyMsgEvents (msg : HbMsg) (d : data) : option data :=
  let local := localNode d in
  let remote := Nodename msg in
  if (applied remote d =? 0)%N then Some d
  else if time.Before (UpdatedAt msg) (default time.zero (hbPatchMsgUpdated d !! remote)) then Some d
  else match clusterData d !! remote with
  | None => None
  | Some _ =>
      let pendingNodeGen := applied remote d in
      if (genOf remote (Msg_Gen msg) <? pendingNodeGen)%N then Some (setNeedFull remote d)
      else if bool_decide (Events msg = ∅) && (pendingNodeGen <? genOf remote (Msg_Gen msg))%N
      then Some (setNeedFull remote d)
      else
        let '(d, ok) := applyGens msg (sortGen msg) pendingNodeGen d in
        if negb ok then Some d
        else
          let d := d <| clusterData ::= fun m => <[remote := (nodeOf remote m) <| Status_ ::= fun s =>
                      s <| node.Status_Gen := Msg_Gen msg |> |>]> m |> in
          Some (setStatusGen local remote (genOf remote (Msg_Gen msg)) d)
  end.

(** ** apply_full.go *)

Definition later (a b : time.Time) : time.Time := if time.After b a then b else a.

(** [refreshPreviousUpdated]. *)
Definition refreshPreviousUpdated (peer : string) (d : data) : remoteInfo :=
  let c := nodeOf peer (clusterData d) in
  mkRemoteInfo (Sub_UpdatedAt (Collector (Daemon_ c))) (Sub_UpdatedAt (Daemondata (Daemon_ c)))
    (Sub_UpdatedAt (Dns (Daemon_ c))) (Sub_UpdatedAt (Listener (Daemon_ c)))
    (Sub_UpdatedAt (RunnerImon (Daemon_ c))) (Sub_UpdatedAt (Scheduler (Daemon_ c)))
    (node.Monitor_UpdatedAt (Monitor_ c)) (Stats_ c) (Status_ c) (Config_ c)
    (omap (fun i => (fun m => later (instance.StateUpdatedAt m) (instance.Monitor_UpdatedAt m)) <$> Inst_Monitor i)
       (Instances c))
    (omap (fun i => instance.Config_UpdatedAt <$> Inst_Config i) (Instances c))
    (omap (fun i => (fun s => later (instance.UpdatedAt s) (instance.FrozenAt s)) <$> Inst_Status i) (Instances c))
    (Pool_UpdatedAt <$> Pool c).

(** A value of the peer is set in its holder and published. *)
Definition renew (f : Caches -> Caches) (c : Msg) (d : data) : data := pub c (d <| caches ::= f |>).

Definition pubMsgFromNodeConfigDiffForNode (peer : string) (d : data) : data :=
  match clusterData d !! peer with
  | None => d
  | Some nextNode =>
      let next := Config_ nextNode in
      let set := renew (fun c => c <| ConfigData ::= <[peer := next]> |>) (NodeConfigUpdated peer next) in
      match previousRemoteInfo d !! peer with
      | None => set (pub (NodeLabelsUpdated peer (nmon.Labels next)) d)
      | Some prev =>
          let changed := negb (bool_decide (nmon.Labels (nodeConfig prev) = nmon.Labels next)) in
          let d := if changed then pub (NodeLabelsUpdated peer (nmon.Labels next)) d else d in
          if changed || negb (bool_decide (nodeConfig prev = next)) then set d else d
      end
  end.

Definition pubMsgFromNodeStatsDiffForNode (peer : string) (d : data) : data :=
  match clusterData d !! peer with
  | None => d
  | Some nextNode =>
      let next := Stats_ nextNode in
      let set := renew (fun c => c <| StatsData ::= <[peer := next]> |>) (NodeStatsUpdated peer next) in
      match previousRemoteInfo d !! peer with
      | None => set d
      | Some prev => if bool_decide (nodeStats prev = next) then d else set d
      end
  end.

Definition pubMsgFromNodeStatusDiffForNode (peer : string) (d : data) : data :=
  match clusterData d !! peer with
  | None => d
  | Some nextNode =>
      let next := Status_ nextNode in
      let set := renew (fun c => c <| StatusData ::= <[peer := next]> |>) (NodeStatusUpdated peer next) in
      match previousRemoteInfo d !! peer with
      | None => set d
      | Some prev => if bool_decide (nodeStatus prev = next) then d else set d
      end
  end.

(** The test of the functions that compare a date with the previous one. *)
Definition isRenewed (date : remoteInfo -> time.Time) (peer : string) (current : remoteInfo) (d : data) : bool :=
  match previousRemoteInfo d !! peer with
  | None => true
  | Some prev => time.After (date current) (date prev)
  end.

Definition pubMsgFromNodeCollectorDiffForNode (peer : string) (current : remoteInfo) (d : data) : data :=
  let v := Collector (Daemon_ (nodeOf peer (clusterData d))) in
  if isRenewed collectorUpdated peer current d
  then renew (fun c => c <| DataCollector ::= <[peer := v]> |>) (DaemonCollectorUpdated peer v) d else d.

Definition pubMsgFromNodeDaemondataDiffForNode (peer : string) (current : remoteInfo) (d : data) : data :=
  let v := Daemondata (Daemon_ (nodeOf peer (clusterData d))) in
  if isRenewed daemondataUpdated peer current d
  then renew (fun c => c <| DataDaemondata ::= <[peer := v]> |>) (DaemonDataUpdated peer v) d else d.

Definition pubMsgFromNodeDnsDiffForNode (peer : string) (current : remoteInfo) (d : data) : data :=
  let v := Dns (Daemon_ (nodeOf peer (clusterData d))) in
  if isRenewed dnsUpdated peer current d
  then renew (fun c => c <| DataDns ::= <[peer := v]> |>) (DaemonDnsUpdated peer v) d else d.

Definition pubMsgFromNodeListenerDiffForNode (peer : string) (current : remoteInfo) (d : data) : data :=
  let v := Listener (Daemon_ (nodeOf peer (clusterData d))) in
  if isRenewed listenerUpdated peer current d
  then renew (fun c => c <| DataListener ::= <[peer := v]> |>) (DaemonListenerUpdated peer v) d else d.

Definition pubMsgFromNodeRunnerImonDiffForNode (peer : string) (current : remoteInfo) (d : data) : data :=
  let v := RunnerImon (Daemon_ (nodeOf peer (clusterData d))) in
  if isRenewed runnerImon peer current d
  then renew (fun c => c <| DataRunnerImon ::= <[peer := v]> |>) (DaemonRunnerImonUpdated peer v) d else d.

Definition pubMsgFromNodeSchedulerDiffForNode (peer : string) (current : remoteInfo) (d : data) : data :=
  let v := Scheduler (Daemon_ (nodeOf peer (clusterData d))) in
  if isRenewed scheduler peer current d
  then renew (fun c => c <| DataScheduler ::= <[peer := v]> |>) (DaemonSchedulerUpdated peer v) d else d.

Definition pubMsgFromNodeMonitorDiffForNode (peer : string) (current : remoteInfo) (d : data) : data :=
  let v := Monitor_ (nodeOf peer (clusterData d)) in
  if isRenewed nmonUpdated peer current d
  then renew (fun c => c <| MonitorData ::= <[peer := v]> |>) (NodeMonitorUpdated peer v) d else d.

(** [getUpdatedRemoved], on the texts of the paths; [toPath] is the keys of the
    map of the paths already parsed. *)
Definition getUpdatedRemoved (d : data) (toPath : gset string) (previous current : gmap string time.Time)
    (held : list string) : gset string * list string * list string :=
  let keys := rangeOrder (trace d) (map_to_list current).*1 in
  let parsed := List.filter (fun s => bool_decide (s ∈ toPath)
                             || bool_decide (is_Some (naming.ParsePath s))) keys in
  let updates := List.filter (fun s => negb (bool_decide (previous !! s = current !! s))) parsed in
  let removes := List.filter (fun s => negb (bool_decide (is_Some (current !! s))))
                   (rangeOrder (trace d) held) in
  (toPath ∪ list_to_set parsed ∪ list_to_set removes, updates, removes).

Definition instOf (peer s : string) (d : data) : Instance :=
  default zero_Instance (Instances (nodeOf peer (clusterData d)) !! s).

Definition renewInstConfig (previous : gmap string time.Time) (peer s : string) (d : data) : data :=
  let d := match previous !! s with Some _ => d | None => pub (ObjectCreated peer s) d end in
  match Inst_Config (instOf peer s d) with
  | Some v => renew (fun c => c <| InstConfigData ::= holderSet peer s v |>) (InstanceConfigUpdated peer s v) d
  | None => d
  end.

Definition renewInstStatus (peer s : string) (d : data) : data :=
  match Inst_Status (instOf peer s d) with
  | Some v => renew (fun c => c <| InstStatusData ::= holderSet peer s v |>) (InstanceStatusUpdated peer s v) d
  | None => d
  end.

Definition renewInstMonitor (peer s : string) (d : data) : data :=
  match Inst_Monitor (instOf peer s d) with
  | Some v => renew (fun c => c <| InstMonitorData ::= holderSet peer s v |>) (InstanceMonitorUpdated peer s v) d
  | None => d
  end.

Definition overList (f : string -> data -> data) (l : list string) (d : data) : data :=
  foldl (fun d s => f s d) d l.

(** The three passes: configurations, statuses, monitors. *)
Definition pubMsgFromNodeInstanceDiffForNode (peer : string) (current : remoteInfo) (d : data) : data :=
  let previous (f : remoteInfo -> gmap string time.Time) :=
    default ∅ (f <$> (previousRemoteInfo d !! peer)) in
  let '(toPath, updates, removes) :=
    getUpdatedRemoved d ∅ (previous instConfigUpdated) (instConfigUpdated current)
      (held peer (InstConfigData (caches d))) in
  let d := overList (renewInstConfig (previous instConfigUpdated) peer) updates d in
  let d := overList (unsetInstConfig peer) removes d in
  let '(toPath, updates, removes) :=
    getUpdatedRemoved d toPath (previous instStatusUpdated) (instStatusUpdated current)
      (held peer (InstStatusData (caches d))) in
  let d := overList (renewInstStatus peer) updates d in
  let d := overList (unsetInstStatus peer) removes d in
  let '(_, updates, removes) :=
    getUpdatedRemoved d toPath (previous imonUpdated) (imonUpdated current)
      (held peer (InstMonitorData (caches d))) in
  let d := overList (renewInstMonitor peer) updates d in
  overList (unsetInstMonitor peer) removes d.

Definition renewPool (previous : gmap string time.Time) (peer name : string) (d : data) : data :=
  match Pool (nodeOf peer (clusterData d)) !! name with
  | None => d
  | Some v =>
      let stale := match previous !! name with
                   | Some at_ => negb (time.After (Pool_UpdatedAt v) at_)
                   | None => false
                   end in
      if stale then d
      else renew (fun c => c <| PoolStatusData ::= holderSet peer name v |>) (NodePoolStatusUpdated peer name v) d
  end.

Definition dropPool (peer name : string) (d : data) : data :=
  match Pool (nodeOf peer (clusterData d)) !! name with
  | Some _ => d
  | None => unsetPoolStatus peer name d
  end.

Definition pubMsgFromNodePoolDiffForNode (peer : string) (d : data) : data :=
  let previous := default ∅ (poolStatusUpdated <$> (previousRemoteInfo d !! peer)) in
  let pools := Pool (nodeOf peer (clusterData d)) in
  let d := rangeOver (renewPool previous peer) (map_to_list pools).*1 d in
  rangeOver (dropPool peer) (held peer (PoolStatusData (caches d))) d.

Definition pubPeerDataChanges (peer : string) (d : data) : data :=
  let current := refreshPreviousUpdated peer d in
  let d := pubMsgFromNodeConfigDiffForNode peer d in
  let d := pubMsgFromNodeStatusDiffForNode peer d in
  let d := pubMsgFromNodeStatsDiffForNode peer d in
  let d := pubMsgFromNodeCollectorDiffForNode peer current d in
  let d := pubMsgFromNodeDaemondataDiffForNode peer current d in
  let d := pubMsgFromNodeDnsDiffForNode peer current d in
  let d := pubMsgFromNodeListenerDiffForNode peer current d in
  let d := pubMsgFromNodeRunnerImonDiffForNode peer current d in
  let d := pubMsgFromNodeSchedulerDiffForNode peer current d in
  let d := pubMsgFromNodeMonitorDiffForNode peer current d in
  let d := pubMsgFromNodeInstanceDiffForNode peer current d in
  let d := pubMsgFromNodePoolDiffForNode peer d in
  d <| previousRemoteInfo ::= <[peer := current]> |>.

Definition applyNodeData (msg : HbMsg) (d : data) : data :=
  let remote := Nodename msg in
  let g := genOf remote (node.Status_Gen (Status_ (NodeData msg))) in
  let d := d <| clusterData ::= <[remote := NodeData msg]> |> in
  let d := setLocalGen remote g d in
  let d := setStatusGen (localNode d) remote g d in
  let d := pub (NodeDataUpdated remote (NodeData msg)) d in
  pubPeerDataChanges remote d.

(** ** on-hb-receive-message.go *)

Definition peerRunConfirmCount : Z := 3.
Definition peerRunCandidateExpire : time.Duration := (30 * time.Second)%Z.

Definition switchPeerRun (msg : HbMsg) (d : data) : data :=
  let peer := Nodename msg in
  let d := setLocalGen peer 0%N d in
  let d := d <| hbPatchMsgUpdated ::= delete peer |> in
  let d := d <| previousRemoteInfo ::= delete peer |> in
  let d := d <| peerRunCandidates ::= delete peer |> in
  d <| peerRuns ::= <[peer := mkPeerRun (RunID msg) (UpdatedAt msg)]> |>.

(** The candidate run of the message, once counted. *)
Definition nextCandidate (now : time.Time) (msg : HbMsg) (c : option peerRunCandidate) : peerRunCandidate :=
  let fresh := mkPeerRunCandidate (RunID msg) (UpdatedAt msg) 1%Z now in
  match c with
  | None => fresh
  | Some c =>
      if negb (String.eqb (cand_id c) (RunID msg)) || (peerRunCandidateExpire <? time.Sub now (cand_seenAt c))%Z
      then fresh
      else if time.After (UpdatedAt msg) (cand_updatedAt c)
      then mkPeerRunCandidate (cand_id c) (UpdatedAt msg) (cand_count c + 1)%Z now
      else c
  end.

Definition acceptPeerRun (msg : HbMsg) (d : data) : data * bool :=
  let peer := Nodename msg in
  let setRun (d : data) := d <| peerRuns ::= <[peer := mkPeerRun (RunID msg) (UpdatedAt msg)]> |> in
  if String.eqb (RunID msg) "" then (d, true)
  else match peerRuns d !! peer with
  | None => (setRun d, true)
  | Some known =>
      if String.eqb (run_id known) (RunID msg) then
        let d := if time.After (UpdatedAt msg) (run_updatedAt known) then setRun d else d in
        (d <| peerRunCandidates ::= delete peer |>, true)
      else if time.After (UpdatedAt msg) (run_updatedAt known) then (switchPeerRun msg d, true)
      else
        let c := nextCandidate (Now (trace d)) msg (peerRunCandidates d !! peer) in
        if (peerRunConfirmCount <=? cand_count c)%Z then (switchPeerRun msg d, true)
        else (d <| peerRunCandidates ::= <[peer := c]> |>, false)
  end.

Definition setFromPeerMsg (peer msgType : string) (length : nat) (g : Gen) (d : data) : data :=
  let d := setHbMsgType peer msgType d in
  let d := setHbMsgPatchLength peer length d in
  let d := d <| hbGens ::= <[peer := g]> |> in
  let d := if (genOf (localNode d) g =? applied (localNode d) d)%N then d else d <| needMsg := true |> in
  if (genOf peer g =? applied peer d)%N then d else d <| needMsg := true |>.

Definition onReceiveHbMsg (msg : HbMsg) (d : data) : option data :=
  let peer := Nodename msg in
  let '(d, ok) := acceptPeerRun msg d in
  if negb ok then Some d
  else if String.eqb (Kind msg) "patch" then
    let d := setFromPeerMsg peer (Kind msg) (size (Events msg)) (Msg_Gen msg) d in
    d ← applyMsgEvents msg d;
    Some (d <| previousRemoteInfo ::= delete peer |>)
  else if String.eqb (Kind msg) "full" then
    let d := setFromPeerMsg peer (Kind msg) 0 (Msg_Gen msg) d in
    if (applied peer d =? genOf peer (Msg_Gen msg))%N then Some d
    else if (genOf peer (Msg_Gen msg) <=? applied peer d + N.of_nat (size (Events msg)))%N then
      d ← applyMsgEvents msg d;
      if (applied peer d =? genOf peer (Msg_Gen msg))%N then Some d
      else Some (applyNodeData msg d)
    else Some (applyNodeData msg d)
  else if String.eqb (Kind msg) "ping" then
    let d := setFromPeerMsg peer (Kind msg) 0 (Msg_Gen msg) d in
    Some (d <| previousRemoteInfo ::= delete peer |>)
  else Some d.

(** The reception in [run]: only from a node of the cluster. *)
Definition receive (msg : HbMsg) (d : data) : option data :=
  if isMember (Nodename msg) d then onReceiveHbMsg msg d else Some d.

End methods.

End daemondata.
