(* ===== verification/Replication.v ===== *)
(** * daemon/daemondata: what the replication guarantees

    A sender [s] and a receiver, any other node.  The sender's messages reach
    the receiver in any order, any number of times or never, mixed with those of
    the other nodes, across restarts of both.  [history] is the record of the
    data set of the sender at each generation of each of its runs; the
    invariants say that the replica of the receiver is always one of these. *)

From S2P Require Import Prelude Status Naming Instance Nmon ClusterData Daemondata.

Open Scope string_scope.
Import msgbus daemondata.

Module replication.

(** ** What publications leave alone *)

Record same (d u : data) : Prop := {
  same_clusterData : clusterData u = clusterData d;
  same_hbGens : hbGens u = hbGens d;
  same_peerRuns : peerRuns u = peerRuns d;
  same_localNode : localNode u = localNode d;
  same_gen : gen u = gen d;
  same_pendingEvs : pendingEvs u = pendingEvs d;
  same_eventQueue : eventQueue u = eventQueue d;
  same_runID : runID u = runID d;
  same_clusterNodes : clusterNodes u = clusterNodes d;
  same_hbMessageType : hbMessageType u = hbMessageType d;
  same_hbPatchMsgUpdated : hbPatchMsgUpdated u = hbPatchMsgUpdated d;
  same_hbSendQ : hbSendQ u = hbSendQ d;
  same_needMsg : needMsg u = needMsg d }.

#[global] Instance same_preorder : PreOrder same.
Proof. split; [done|]. intros d u v [] []. split; congruence. Qed.

Lemma same_upd d u v :
  same d u -> clusterData v = clusterData u -> hbGens v = hbGens u -> peerRuns v = peerRuns u ->
  localNode v = localNode u -> gen v = gen u -> pendingEvs v = pendingEvs u -> eventQueue v = eventQueue u ->
  runID v = runID u -> clusterNodes v = clusterNodes u -> hbMessageType v = hbMessageType u ->
  hbPatchMsgUpdated v = hbPatchMsgUpdated u -> hbSendQ v = hbSendQ u -> needMsg v = needMsg u -> same d v.
Proof. intros [] ? ? ? ? ? ? ? ? ? ? ? ? ?. split; congruence. Qed.

Lemma same_foldl {A} (f : data -> A -> data) l d u :
  (forall u x, same d u -> same d (f u x)) -> same d u -> same d (foldl f u l).
Proof. intros Hf. revert u. induction l as [|x l IH]; simpl; auto. Qed.

Ltac same_step u :=
  match goal with
  | |- same ?d _ => cut (same d u); [generalize u; let x := fresh in intros x ?; apply (same_upd _ x); done|]
  end.

Create HintDb same discriminated.
#[export] Hint Extern 0 (same ?d ?d) => reflexivity : same.
#[export] Hint Extern 1 (same _ (pub _ ?u)) => same_step u : same.
#[export] Hint Extern 1 (same _ (emit _ ?u)) => same_step u : same.
#[export] Hint Extern 1 (same _ (renew _ _ ?u)) => same_step u : same.
#[export] Hint Extern 2 (same _ (upd _ _ ?u)) => same_step u : same.
#[export] Hint Resolve same_foldl : same.

Ltac same_tac := intros; cbv zeta; repeat split_test; simplify_eq; cbn [fst snd]; eauto 20 with same.

Section same_methods.
Context `{E : Env}.

Lemma same_setHbMsgType n ty d u : same d u -> same d (setHbMsgType n ty u).
Proof. unfold setHbMsgType. same_tac. Qed.
Lemma same_setHbMsgPatchLength n l d u : same d u -> same d (setHbMsgPatchLength n l u).
Proof. unfold setHbMsgPatchLength. same_tac. Qed.
Lemma same_setDaemonHeartbeat d u : same d u -> same d (setDaemonHeartbeat u).
Proof. unfold setDaemonHeartbeat. same_tac. Qed.
#[local] Hint Resolve same_setHbMsgType same_setHbMsgPatchLength same_setDaemonHeartbeat : same.

Lemma same_unsetInstConfig n s d u : same d u -> same d (unsetInstConfig n s u).
Proof. unfold unsetInstConfig. same_tac. Qed.
Lemma same_unsetInstStatus n s d u : same d u -> same d (unsetInstStatus n s u).
Proof. unfold unsetInstStatus. same_tac. Qed.
Lemma same_unsetInstMonitor n s d u : same d u -> same d (unsetInstMonitor n s u).
Proof. unfold unsetInstMonitor. same_tac. Qed.
Lemma same_unsetPoolStatus n s d u : same d u -> same d (unsetPoolStatus n s u).
Proof. unfold unsetPoolStatus. same_tac. Qed.
#[local] Hint Resolve same_unsetInstConfig same_unsetInstStatus same_unsetInstMonitor same_unsetPoolStatus : same.

Lemma same_dropPeerHolders n d u : same d u -> same d (dropPeerHolders n u).
Proof.
  intros Hu. unfold dropPeerHolders, rangeOver. cbv zeta.
  match goal with |- context [MonitorData (caches ?v)] => assert (same d v) as Hv by same_tac; set (w := v) in *; clearbody w end.
  same_tac.
Qed.

Lemma same_pubMsgFromNodeInstanceDiffForNode peer cur d u :
  same d u -> same d (pubMsgFromNodeInstanceDiffForNode peer cur u).
Proof.
  intros Hu. unfold pubMsgFromNodeInstanceDiffForNode, overList. cbv zeta.
  assert (forall prev s v, same d v -> same d (renewInstConfig prev peer s v)) as H1.
  { unfold renewInstConfig. same_tac. }
  assert (forall s v, same d v -> same d (renewInstStatus peer s v)) as H2 by (unfold renewInstStatus; same_tac).
  assert (forall s v, same d v -> same d (renewInstMonitor peer s v)) as H3 by (unfold renewInstMonitor; same_tac).
  destruct (getUpdatedRemoved _ _ _ _ _) as [[? ?] ?]. destruct (getUpdatedRemoved _ _ _ _ _) as [[? ?] ?].
  destruct (getUpdatedRemoved _ _ _ _ _) as [[? ?] ?]. eauto 20 with same.
Qed.

Lemma same_pubMsgFromNodePoolDiffForNode peer d u :
  same d u -> same d (pubMsgFromNodePoolDiffForNode peer u).
Proof.
  intros Hu. unfold pubMsgFromNodePoolDiffForNode, rangeOver. cbv zeta.
  assert (forall prev s v, same d v -> same d (renewPool prev peer s v)) as H1 by (unfold renewPool; same_tac).
  assert (forall s v, same d v -> same d (dropPool peer s v)) as H2 by (unfold dropPool; same_tac).
  eauto 20 with same.
Qed.
#[local] Hint Resolve same_pubMsgFromNodeInstanceDiffForNode same_pubMsgFromNodePoolDiffForNode : same.

Lemma same_pubPeerDataChanges peer d u : same d u -> same d (pubPeerDataChanges peer u).
Proof.
  intros Hu. unfold pubPeerDataChanges. cbv zeta. set (cur := refreshPreviousUpdated peer u). clearbody cur.
  assert (same d (pubMsgFromNodeConfigDiffForNode peer u)) as H1
    by (unfold pubMsgFromNodeConfigDiffForNode; same_tac).
  set (u1 := pubMsgFromNodeConfigDiffForNode peer u) in *. clearbody u1.
  assert (same d (pubMsgFromNodeStatusDiffForNode peer u1)) as H2
    by (unfold pubMsgFromNodeStatusDiffForNode; same_tac).
  set (u2 := pubMsgFromNodeStatusDiffForNode peer u1) in *. clearbody u2.
  assert (same d (pubMsgFromNodeStatsDiffForNode peer u2)) as H3
    by (unfold pubMsgFromNodeStatsDiffForNode; same_tac).
  set (u3 := pubMsgFromNodeStatsDiffForNode peer u2) in *. clearbody u3.
  unfold pubMsgFromNodeCollectorDiffForNode, pubMsgFromNodeDaemondataDiffForNode,
    pubMsgFromNodeDnsDiffForNode, pubMsgFromNodeListenerDiffForNode, pubMsgFromNodeRunnerImonDiffForNode,
    pubMsgFromNodeSchedulerDiffForNode, pubMsgFromNodeMonitorDiffForNode. cbv zeta.
  repeat match goal with
  | |- context [if isRenewed ?f peer cur ?v then ?a else ?v] =>
      lazymatch v with context [isRenewed] => fail | _ => idtac end;
      let w := fresh "w" in assert (same d (if isRenewed f peer cur v then a else v)) by same_tac;
      set (w := if isRenewed f peer cur v then a else v) in *; clearbody w
  end.
  eauto with same.
Qed.

End same_methods.

(** ** Histories *)

(** The data set of the sender, by run and generation. *)
Abbreviation history := (gmap (string * N) Node).

(** The messages applied one after the other; the clock and the generations do
    not matter to the view. *)
Definition replay (m : Nodes) (l : list Msg) : Nodes :=
  foldl (fun m c => ApplyMessage time.zero ∅ c m) m l.

(** The messages [l] turn the data set [n0] of [s] into [n1]. *)
Definition turns (s : string) (n0 : Node) (l : list Msg) (n1 : Node) : Prop :=
  replay {[s := n0]} l !! s ≡ Some n1.

Lemma replay_view s l : forall m1 m2, m1 !! s ≡ m2 !! s -> replay m1 l !! s ≡ replay m2 l !! s.
Proof.
  unfold replay. induction l as [|c l IH]; simpl; intros m1 m2 Hm; [done|].
  apply IH. by apply ApplyMessage_view.
Qed.

Lemma replay_turns s n0 l n1 m : turns s n0 l n1 -> m !! s ≡ Some n0 -> replay m l !! s ≡ Some n1.
Proof.
  unfold turns. intros Ht Hm. rewrite <- Ht. apply replay_view. by rewrite lookup_singleton_eq.
Qed.

Lemma replay_app m l1 l2 : replay m (l1 ++ l2)%list = replay (replay m l1) l2.
Proof. apply foldl_app. Qed.

(** The events of each generation turn the previous data set into its own. *)
Definition events_ok (h : history) (s run : string) (evs : gmap N (list Msg)) : Prop :=
  map_Forall (fun g l => l <> [] /\ exists p n0 n1, g = N.succ p /\ h !! (run, p) = Some n0 /\
                h !! (run, g) = Some n1 /\ turns s n0 l n1) evs.

(** What a message of [s] says is so. *)
Record msg_ok (h : history) (s : string) (msg : HbMsg) : Prop := {
  ok_name : Nodename msg = s;
  ok_run : RunID msg <> "";
  ok_nonzero : genOf s (Msg_Gen msg) <> 0%N;
  ok_events : events_ok h s (RunID msg) (Events msg);
  ok_full : Kind msg = "full" ->
    genOf s (node.Status_Gen (Status_ (NodeData msg))) = genOf s (Msg_Gen msg) /\
    exists m, h !! (RunID msg, genOf s (Msg_Gen msg)) = Some m /\ NodeData msg ≡ m }.

(** The replica of [s] is its data set at generation [g] of [run]. *)
Record at_gen (h : history) (s run : string) (g : N) (d : data) : Prop := {
  at_nonzero : g <> 0%N;
  at_applied : applied s d = g;
  at_run : run_id <$> peerRuns d !! s = Some run;
  at_data : exists m, h !! (run, g) = Some m /\ clusterData d !! s ≡ Some m }.

Definition tracks (h : history) (s : string) (d : data) : Prop :=
  applied s d = 0%N \/ exists run g, at_gen h s run g d.

(** What concerns [s] is the same. *)
Record frame (s : string) (d u : data) : Prop := {
  frame_localNode : localNode u = localNode d;
  frame_applied : applied s u = applied s d;
  frame_run : run_id <$> peerRuns u !! s = run_id <$> peerRuns d !! s;
  frame_data : clusterData u !! s ≡ clusterData d !! s }.

#[global] Instance frame_preorder s : PreOrder (frame s).
Proof.
  split; [intros d; by split|]. intros d u v [? ? ? Hd] [? ? ? Hu]. split; try congruence. by rewrite Hu.
Qed.

Lemma frame_same s d u : same d u -> frame s d u.
Proof.
  intros [Hc Hh Hp Hl _ _ _ _ _ _ _ _ _]. split; [done| |by rewrite Hp|by rewrite Hc].
  unfold applied, localGens. by rewrite Hh, Hl.
Qed.

Lemma at_gen_frame h s run g d u : frame s d u -> at_gen h s run g d -> at_gen h s run g u.
Proof.
  intros [_ Ha Hr Hd] [Hn Hap Hru (m & Hm & Hc)]. split; [done|congruence|congruence|].
  exists m. split; [done|]. by rewrite Hd.
Qed.

Lemma tracks_frame h s d u : frame s d u -> tracks h s d -> tracks h s u.
Proof.
  intros Hf [H0 | (run & g & Hg)]; [left; by rewrite (frame_applied _ _ _ Hf)|right].
  eauto using at_gen_frame.
Qed.

Lemma tracks_zero h s d : applied s d = 0%N -> tracks h s d.
Proof. by left. Qed.

(** ** The generations a node has applied *)

Lemma genOf_insert p g (m : gmap string N) : genOf p (<[p := g]> m) = g.
Proof. unfold genOf. by rewrite (lookup_insert_eq m). Qed.

Lemma genOf_insert_ne p q g (m : gmap string N) : p <> q -> genOf p (<[q := g]> m) = genOf p m.
Proof. intros Hn. unfold genOf. by rewrite (lookup_insert_ne m) by done. Qed.

Lemma localNode_setLocalGen p g d : localNode (setLocalGen p g d) = localNode d.
Proof. done. Qed.

Lemma localGens_setLocalGen p g d : localGens (setLocalGen p g d) = <[p := g]> (localGens d).
Proof. unfold localGens at 1, setLocalGen. cbn. by rewrite (lookup_insert_eq (hbGens d)). Qed.

Lemma applied_setLocalGen p g d : applied p (setLocalGen p g d) = g.
Proof. unfold applied. rewrite localGens_setLocalGen. apply genOf_insert. Qed.

Lemma applied_setLocalGen_ne p q g d : p <> q -> applied p (setLocalGen q g d) = applied p d.
Proof. intros Hn. unfold applied. rewrite localGens_setLocalGen. by apply genOf_insert_ne. Qed.

Lemma frame_setLocalGen s p g d : s <> p -> frame s d (setLocalGen p g d).
Proof. intros Hn. split; [done|by apply applied_setLocalGen_ne|done|done]. Qed.

Lemma setStatusGen_view n k g d s : clusterData (setStatusGen n k g d) !! s ≡ clusterData d !! s.
Proof.
  unfold setStatusGen. cbn. destruct (decide (n = s)) as [->|Hn].
  - rewrite (lookup_alter_eq _ (clusterData d)). destruct (clusterData d !! s); constructor. by apply view_intro.
  - by rewrite (lookup_alter_ne _ (clusterData d)) by done.
Qed.

Lemma frame_setStatusGen s n k g d : frame s d (setStatusGen n k g d).
Proof. split; [done|done|done|apply setStatusGen_view]. Qed.

(** ** Reception *)

Section receiver.
Context `{E : Env}.

Lemma setCacheAndPublish_spec c d :
  let u := setCacheAndPublish c d in
  clusterData u = ApplyMessage (Now (trace d)) (GenData (caches d)) c (clusterData d) /\
  hbGens u = hbGens d /\ localNode u = localNode d /\ peerRuns u = peerRuns d.
Proof. unfold setCacheAndPublish, applyLocal. by destruct (isPublished c). Qed.

Lemma applyGen_spec remote g events s : forall d,
  let u := applyGen remote g events d in
  localNode u = localNode d /\ peerRuns u = peerRuns d /\
  (forall p, p <> remote -> applied p u = applied p d) /\
  (events <> [] -> applied remote u = g) /\
  (events = [] -> u = d) /\
  clusterData u !! s ≡ replay (clusterData d) events !! s.
Proof.
  unfold applyGen. induction events as [|c l IH]; intros d; [done|]. cbn.
  destruct (setCacheAndPublish_spec c d) as (Hc & Hh & Hl & Hp).
  set (v := setCacheAndPublish c d) in *. clearbody v.
  destruct (IH (setLocalGen remote g v)) as (I1 & I2 & I3 & I4 & I5 & I6). clear IH.
  set (u := foldl _ _ l) in *. clearbody u. split; [by rewrite I1|]. split; [by rewrite I2|].
  split; [|split; [|split; [done|]]].
  - intros p Hn. rewrite I3, applied_setLocalGen_ne by done. unfold applied, localGens. by rewrite Hh, Hl.
  - intros _. destruct l; [|by apply I4]. rewrite (I5 eq_refl). apply applied_setLocalGen.
  - rewrite I6. apply replay_view. cbn. rewrite Hc. by apply ApplyMessage_view.
Qed.

Lemma applyGens_at h s msg : events_ok h s (RunID msg) (Events msg) -> Nodename msg = s ->
  forall l pending d, (forall g, g ∈ l -> is_Some (Events msg !! g)) ->
  at_gen h s (RunID msg) pending d ->
  let '(u, ok) := applyGens msg l pending d in
  localNode u = localNode d /\ tracks h s u /\ (ok = true -> exists g, at_gen h s (RunID msg) g u).
Proof.
  intros Hev Hname. induction l as [|g l IH]; intros pending d Hl Hat; cbn [applyGens].
  { split; [done|]. split; [right|]; eauto. }
  destruct (N.leb_spec g pending) as [Hle|Hlt]; [apply IH; [set_solver|done]|].
  destruct (N.ltb_spec (pending + 1) g) as [Hlt2|Hge].
  { split; [done|]. split; [|done]. left. unfold setNeedFull. rewrite Hname. apply applied_setLocalGen. }
  assert (g = N.succ pending) as -> by lia. clear Hlt Hge.
  destruct (Hl (N.succ pending) ltac:(set_solver)) as [events He]. rewrite He. cbn [default].
  destruct (Hev _ _ He) as (Hne & p & n0 & n1 & Hp & Hn0 & Hn1 & Ht).
  assert (p = pending) as -> by lia.
  destruct (applyGen_spec (Nodename msg) (N.succ pending) events s d) as (A1 & A2 & A3 & A4 & _ & A6).
  change (default [] (Some events)) with events.
  set (v := applyGen _ _ _ _) in *. clearbody v.
  set (w := v <| hbPatchMsgUpdated ::= _ |>).
  assert (at_gen h s (RunID msg) (N.succ pending) w) as Hw.
  { destruct Hat as [Hn Hap Hru (m & Hm & Hc)]. assert (m = n0) as -> by congruence. split; [lia| | |].
    - change (applied s v = N.succ pending). rewrite <- Hname. by apply A4.
    - cbn. by rewrite A2.
    - exists n1. split; [done|]. cbn. rewrite A6. by eapply replay_turns. }
  specialize (IH (N.succ pending) w ltac:(set_solver) Hw).
  destruct (applyGens msg l (N.succ pending) w) as [u ok]. destruct IH as (H1 & H2 & H3).
  split; [|by split]. rewrite H1. exact A1.
Qed.

Lemma sortGen_dom msg g : g ∈ sortGen msg -> is_Some (Events msg !! g).
Proof.
  unfold sortGen. rewrite merge_sort_Permutation. intros ([g' l] & -> & Hin)%list_elem_of_fmap.
  apply elem_of_map_to_list in Hin. by eexists.
Qed.

Lemma at_gen_run h s run g d : at_gen h s run g d -> forall h' run' g', at_gen h' s run' g' d -> run' = run /\ g' = g.
Proof. intros [? ? ? ?] h' run' g' [? ? ? ?]. split; congruence. Qed.

Lemma applyMsgEvents_tracks h s msg d :
  msg_ok h s msg -> localNode d <> s -> run_id <$> peerRuns d !! s = Some (RunID msg) -> tracks h s d ->
  exists u, applyMsgEvents msg d = Some u /\ localNode u = localNode d /\ tracks h s u.
Proof.
  intros Hok Hloc Hrun Ht. pose proof (ok_name _ _ _ Hok) as Hname. unfold applyMsgEvents. cbv zeta. rewrite Hname.
  destruct (N.eqb_spec (applied s d) 0) as [H0|H0]; [eauto|].
  destruct (time.Before _ _); [eauto|]. destruct Ht as [|(run & g & Hat)]; [done|].
  assert (run = RunID msg) as -> by (destruct Hat as [_ _ Hr _]; congruence).
  destruct (at_data _ _ _ _ _ Hat) as (m & Hm & Hc).
  destruct (clusterData d !! s) as [n0|] eqn:Hn0; [|by inversion Hc].
  assert (exists u, Some (setNeedFull s d) = Some u /\ localNode u = localNode d /\ tracks h s u) as Hfull.
  { eexists. split; [done|]. split; [done|]. left. apply applied_setLocalGen. }
  destruct (_ <? _)%N; [done|]. destruct (_ && _); [done|].
  rewrite (at_applied _ _ _ _ _ Hat).
  pose proof (applyGens_at h s msg (ok_events _ _ _ Hok) Hname (sortGen msg) g d
                (sortGen_dom msg) Hat) as Hg.
  destruct (applyGens msg (sortGen msg) g d) as [u ok]. destruct Hg as (Hl & Htr & Hgen).
  destruct ok; cbn [negb]; [|eauto]. destruct (Hgen eq_refl) as (g' & Hg').
  eexists. split; [done|]. split; [done|]. right. exists (RunID msg), g'.
  eapply at_gen_frame; [apply frame_setStatusGen|].
  destruct Hg' as [? ? ? (m' & Hm' & Hc')]. split; [done|done|done|]. exists m'. split; [done|].
  cbn. rewrite (lookup_insert_eq (clusterData u)). unfold nodeOf.
  destruct (clusterData u !! s) as [a|]; [|by inversion Hc']. apply (inj Some) in Hc' as Hc2.
  constructor. cbn. transitivity a; [by apply view_intro|done].
Qed.

Lemma applyGens_run msg l s : forall pending d, peerRuns (applyGens msg l pending d).1 !! s = peerRuns d !! s.
Proof.
  induction l as [|g l IH]; intros pending d; [done|]. cbn [applyGens]. destruct (_ <=? _)%N; [by apply IH|].
  destruct (_ <? _)%N; [done|]. rewrite IH. cbn.
  destruct (applyGen_spec (Nodename msg) g (default [] (Events msg !! g)) s d) as (_ & -> & _). done.
Qed.

Lemma applyMsgEvents_run msg d u s : applyMsgEvents msg d = Some u -> peerRuns u !! s = peerRuns d !! s.
Proof.
  unfold applyMsgEvents. cbv zeta. intros Hu.
  pose proof (applyGens_run msg (sortGen msg) s (applied (Nodename msg) d) d) as Hr.
  destruct (applyGens _ _ _ _) as [v ok]. cbn in Hr.
  repeat case_match; simplify_eq; done.
Qed.

Lemma accept_spec h s msg d :
  Nodename msg = s -> RunID msg <> "" -> tracks h s d ->
  let '(u, ok) := acceptPeerRun msg d in
  localNode u = localNode d /\ tracks h s u /\ (ok = true -> run_id <$> peerRuns u !! s = Some (RunID msg)).
Proof.
  intros Hname Hrun Ht. unfold acceptPeerRun, switchPeerRun. cbv zeta. rewrite Hname.
  destruct (String.eqb_spec (RunID msg) ""); [done|].
  assert (forall u : data, (forall p, applied p u = applied p d) -> clusterData u = clusterData d ->
            peerRuns u !! s = peerRuns d !! s -> tracks h s u) as Hkeep.
  { intros u Ha Hc Hp. destruct Ht as [H0|(run & g & [Hn Hap Hru (m & Hm & Hd)])]; [left; by rewrite Ha|].
    right. exists run, g. split; [done|by rewrite Ha|by rewrite Hp|]. exists m. by rewrite Hc. }
  assert (forall u : data, applied s u = 0%N -> tracks h s u) as Hzero by (intros; by left).
  destruct (peerRuns d !! s) as [known|] eqn:Hk.
  2:{ split; [done|]. split; [|intros _; cbn; by rewrite (lookup_insert_eq (peerRuns d))].
      left. destruct Ht as [H0|(run & g & [Hn Hap Hru _])]; [done|]. by rewrite Hk in Hru. }
  destruct (String.eqb_spec (run_id known) (RunID msg)) as [Heq|Hne].
  - destruct (time.After _ _); (split; [done|]); (split; [|intros _; cbn]).
    + destruct Ht as [H0|(run & g & [Hn Hap Hru Hd])]; [by left|]. right. exists run, g. split; [done|done| |done].
      cbn. rewrite (lookup_insert_eq (peerRuns d)). rewrite Hk in Hru. cbn in *. congruence.
    + by rewrite (lookup_insert_eq (peerRuns d)).
    + by apply Hkeep.
    + rewrite Hk. cbn. by rewrite Heq.
  - assert (forall u, u = switchPeerRun msg d -> localNode u = localNode d /\ tracks h s u /\
              (true = true -> run_id <$> peerRuns u !! s = Some (RunID msg))) as Hsw.
    { intros u ->. unfold switchPeerRun. cbv zeta. rewrite Hname. split; [done|].
      split; [left; apply applied_setLocalGen|]. intros _. cbn. by rewrite (lookup_insert_eq (peerRuns d)). }
    unfold switchPeerRun in Hsw. cbv zeta in Hsw. rewrite Hname in Hsw.
    destruct (time.After _ _); [by apply Hsw|]. destruct (_ <=? _)%Z; [by apply Hsw|].
    split; [done|]. split; [by apply Hkeep|done].
Qed.

Lemma frame_setFromPeerMsg s p ty l g d : p <> localNode d -> frame s d (setFromPeerMsg p ty l g d).
Proof.
  intros Hp. unfold setFromPeerMsg. cbv zeta.
  set (u := setHbMsgPatchLength p l (setHbMsgType p ty d)).
  assert (same d u) as Hs by (apply same_setHbMsgPatchLength, same_setHbMsgType; reflexivity). clearbody u.
  set (v := u <| hbGens ::= <[p := g]> |>).
  assert (frame s d v) as Hv.
  { transitivity u; [by apply frame_same|]. split; [done| |done|done].
    unfold applied, localGens, v. cbn.
    rewrite (lookup_insert_ne (hbGens u)); [done|]. by rewrite (same_localNode _ _ Hs). }
  clearbody v. clear -Hv. transitivity v; [done|].
  repeat case_match; by split.
Qed.

Lemma setFromPeerMsg_localNode p ty l g d : localNode (setFromPeerMsg p ty l g d) = localNode d.
Proof. unfold setFromPeerMsg, setHbMsgType. cbv zeta. by repeat case_match. Qed.

Lemma setFromPeerMsg_run s p ty l g d : peerRuns (setFromPeerMsg p ty l g d) !! s = peerRuns d !! s.
Proof. unfold setFromPeerMsg, setHbMsgType. cbv zeta. by repeat case_match. Qed.

Lemma applyNodeData_at h s msg d :
  msg_ok h s msg -> Kind msg = "full" -> run_id <$> peerRuns d !! s = Some (RunID msg) ->
  localNode d <> s ->
  let u := applyNodeData msg d in
  localNode u = localNode d /\ at_gen h s (RunID msg) (genOf s (Msg_Gen msg)) u.
Proof.
  intros Hok Hfull Hrun Hloc. destruct (ok_full _ _ _ Hok Hfull) as (Hg & m & Hm & Heq).
  pose proof (ok_name _ _ _ Hok) as Hname. pose proof (ok_nonzero _ _ _ Hok) as Hnz.
  unfold applyNodeData. cbv zeta. rewrite Hname, Hg.
  set (d1 := d <| clusterData ::= _ |>).
  set (d2 := setLocalGen s _ d1). set (d3 := setStatusGen _ _ _ d2).
  assert (at_gen h s (RunID msg) (genOf s (Msg_Gen msg)) d3) as H3.
  { apply (at_gen_frame _ _ _ _ d2); [apply frame_setStatusGen|]. split; [done|apply applied_setLocalGen|done|].
    exists m. split; [done|]. cbn. rewrite (lookup_insert_eq (clusterData d)). by constructor. }
  assert (localNode d3 = localNode d) as Hl by done. clearbody d3.
  assert (same d3 (pubPeerDataChanges s (pub (NodeDataUpdated s (NodeData msg)) d3))) as Hs.
  { apply same_pubPeerDataChanges. eauto with same. }
  split; [by rewrite (same_localNode _ _ Hs)|]. eapply at_gen_frame; [by apply frame_same|done].
Qed.

Lemma tracks_at h s run d :
  tracks h s d -> applied s d <> 0%N -> run_id <$> peerRuns d !! s = Some run -> at_gen h s run (applied s d) d.
Proof.
  intros [?|(run' & g & Hg)] Hn Hr; [done|]. assert (run' = run) as -> by (destruct Hg; congruence).
  by rewrite (at_applied _ _ _ _ _ Hg).
Qed.

(** Once its run is accepted, before its content is read. *)
Lemma accepted_spec h s msg d d1 ty l g :
  msg_ok h s msg -> localNode d <> s -> tracks h s d -> acceptPeerRun msg d = (d1, true) ->
  let v := setFromPeerMsg s ty l g d1 in
  localNode v = localNode d /\ localNode v <> s /\ tracks h s v /\ run_id <$> peerRuns v !! s = Some (RunID msg).
Proof.
  intros Hok Hloc Ht Hacc. cbv zeta.
  pose proof (accept_spec h s msg d (ok_name _ _ _ Hok) (ok_run _ _ _ Hok) Ht) as Ha. rewrite Hacc in Ha.
  destruct Ha as (Hl1 & Ht1 & Hr1). rewrite setFromPeerMsg_localNode, setFromPeerMsg_run, Hl1.
  split; [done|]. split; [done|]. split; [|by apply Hr1].
  eapply tracks_frame; [apply frame_setFromPeerMsg; congruence|done].
Qed.

(** The full branch. *)
Lemma full_tracks h s msg d :
  msg_ok h s msg -> Kind msg = "full" -> localNode d <> s -> run_id <$> peerRuns d !! s = Some (RunID msg) ->
  tracks h s d ->
  exists u, (if (applied s d =? genOf s (Msg_Gen msg))%N then Some d
    else if (genOf s (Msg_Gen msg) <=? applied s d + N.of_nat (size (Events msg)))%N then
      d ← applyMsgEvents msg d;
      if (applied s d =? genOf s (Msg_Gen msg))%N then Some d
      else Some (applyNodeData msg d)
    else Some (applyNodeData msg d)) = Some u /\
  localNode u = localNode d /\ at_gen h s (RunID msg) (genOf s (Msg_Gen msg)) u.
Proof.
  intros Hok Hk Hloc Hrun Ht. pose proof (ok_nonzero _ _ _ Hok) as Hnz.
  assert (forall w, localNode w = localNode d -> run_id <$> peerRuns w !! s = Some (RunID msg) -> exists u,
            Some (applyNodeData msg w) = Some u /\ localNode u = localNode d /\
            at_gen h s (RunID msg) (genOf s (Msg_Gen msg)) u) as Hnode.
  { intros w Hw Hrw. destruct (applyNodeData_at h s msg w Hok Hk Hrw ltac:(congruence)) as [? ?].
    eexists. split; [done|]. split; [congruence|done]. }
  destruct (N.eqb_spec (applied s d) (genOf s (Msg_Gen msg))) as [He|_].
  { exists d. split; [done|]. split; [done|]. rewrite <- He. apply tracks_at; congruence. }
  destruct (_ <=? _)%N; [|by apply Hnode].
  destruct (applyMsgEvents_tracks h s msg d Hok Hloc Hrun Ht) as (u & Hu & Hlu & Htu).
  assert (run_id <$> peerRuns u !! s = Some (RunID msg)) as Hru by (by rewrite (applyMsgEvents_run _ _ _ _ Hu)).
  rewrite Hu. cbn [mbind option_bind].
  destruct (N.eqb_spec (applied s u) (genOf s (Msg_Gen msg))) as [He|_]; [|by apply Hnode].
  exists u. split; [done|]. split; [done|]. rewrite <- He. apply tracks_at; congruence.
Qed.

(** What a message of [s] says of [s] is applied, or the replica is marked
    to be asked again; nothing panics. *)
Lemma receive_tracks h s msg d :
  msg_ok h s msg -> localNode d <> s -> tracks h s d ->
  exists u, receive msg d = Some u /\ localNode u = localNode d /\ tracks h s u.
Proof.
  intros Hok Hloc Ht. unfold receive. destruct (isMember _ _); [|by eauto].
  pose proof (ok_name _ _ _ Hok) as Hname. unfold onReceiveHbMsg. cbv zeta.
  pose proof (accept_spec h s msg d Hname (ok_run _ _ _ Hok) Ht) as Ha.
  pose proof (fun d1 ty l g => accepted_spec h s msg d d1 ty l g Hok Hloc Ht) as Hset.
  destruct (acceptPeerRun msg d) as [d1 ok]. destruct Ha as (Hl1 & Ht1 & _).
  destruct ok; cbn [negb]; [|by eauto]. specialize (fun ty l g => Hset d1 ty l g eq_refl). rewrite Hname.
  destruct (String.eqb_spec (Kind msg) "patch") as [Hk|_].
  { destruct (Hset (Kind msg) (size (Events msg)) (Msg_Gen msg)) as (Hl2 & Hn2 & Ht2 & Hr2).
    set (v := setFromPeerMsg _ _ _ _ _) in *. clearbody v.
    destruct (applyMsgEvents_tracks h s msg v Hok Hn2 Hr2 Ht2) as (u & -> & Hlu & Htu).
    eexists. split; [reflexivity|]. split; [by rewrite <- Hl2, <- Hlu|].
    eapply tracks_frame; [|exact Htu]. by split. }
  destruct (String.eqb_spec (Kind msg) "full") as [Hk|_].
  { destruct (Hset (Kind msg) 0 (Msg_Gen msg)) as (Hl2 & Hn2 & Ht2 & Hr2).
    set (v := setFromPeerMsg _ _ _ _ _) in *. clearbody v.
    destruct (full_tracks h s msg v Hok Hk Hn2 Hr2 Ht2) as (u & Hu & Hlu & Hgu).
    exists u. split; [exact Hu|]. split; [congruence|]. right. eauto. }
  destruct (String.eqb_spec (Kind msg) "ping") as [Hk|_]; [|by eauto].
  destruct (Hset (Kind msg) 0 (Msg_Gen msg)) as (Hl2 & Hn2 & Ht2 & Hr2).
  eexists. split; [reflexivity|]. split; [done|]. eapply tracks_frame; [|exact Ht2]. by split.
Qed.

(** A full message that is accepted brings the replica up to date. *)
Lemma receive_full h s msg d :
  msg_ok h s msg -> localNode d <> s -> tracks h s d -> isMember s d = true -> Kind msg = "full" ->
  (acceptPeerRun msg d).2 = true ->
  exists u, receive msg d = Some u /\ at_gen h s (RunID msg) (genOf s (Msg_Gen msg)) u.
Proof.
  intros Hok Hloc Ht Hmem Hk Hacc. unfold receive. pose proof (ok_name _ _ _ Hok) as Hname.
  rewrite Hname, Hmem. unfold onReceiveHbMsg. cbv zeta.
  pose proof (fun d1 ty l g => accepted_spec h s msg d d1 ty l g Hok Hloc Ht) as Hset.
  destruct (acceptPeerRun msg d) as [d1 ok]. cbn in Hacc. subst ok. cbn [negb].
  specialize (fun ty l g => Hset d1 ty l g eq_refl). rewrite Hname, Hk. cbn [String.eqb Ascii.eqb Bool.eqb].
  destruct (Hset "full" 0 (Msg_Gen msg)) as (Hl2 & Hn2 & Ht2 & Hr2).
  set (v := setFromPeerMsg _ _ _ _ _) in *. clearbody v.
  destruct (full_tracks h s msg v Hok Hk Hn2 Hr2 Ht2) as (u & Hu & _ & Hgu). by exists u.
Qed.

End receiver.

(** ** What the messages of a node leave alone *)

(** The generation of its own a node writes in its data. *)
Definition ownGen (d : data) : option N :=
  (fun n => genOf (localNode d) (node.Status_Gen (Status_ n))) <$> clusterData d !! localNode d.

(** Nothing but what concerns [p] has changed. *)
Record kept (p : string) (d u : data) : Prop := {
  kept_frame s : s <> p -> frame s d u;
  kept_localNode : localNode u = localNode d;
  kept_gen : gen u = gen d;
  kept_pendingEvs : pendingEvs u = pendingEvs d;
  kept_eventQueue : eventQueue u = eventQueue d;
  kept_runID : runID u = runID d;
  kept_ownGen : ownGen u = ownGen d }.

#[global] Instance kept_preorder p : PreOrder (kept p).
Proof.
  split; [intros d; split; intros; reflexivity|].
  intros d u v [Hf ? ? ? ? ? ?] [Hg ? ? ? ? ? ?]. split; try congruence.
  intros s Hs. transitivity u; auto.
Qed.

Lemma kept_same p d u : same d u -> kept p d u.
Proof.
  intros Hs. pose proof Hs as []. split; try done; [by intros; apply frame_same|].
  unfold ownGen. by rewrite (same_clusterData _ _ Hs), (same_localNode _ _ Hs).
Qed.

(** The fields a change does not name. *)
Lemma kept_by p d u :
  clusterData u = clusterData d -> localNode u = localNode d -> gen u = gen d -> pendingEvs u = pendingEvs d ->
  eventQueue u = eventQueue d -> runID u = runID d ->
  (forall s, s <> p -> applied s u = applied s d /\ peerRuns u !! s = peerRuns d !! s) -> kept p d u.
Proof.
  intros Hc Hl ? ? ? ? Hs. split; try done; [|unfold ownGen; by rewrite Hc, Hl].
  intros s Hn. destruct (Hs s Hn) as [? Hp]. split; [done|done|by rewrite Hp|by rewrite Hc].
Qed.

Lemma kept_setLocalGen p g d : kept p d (setLocalGen p g d).
Proof. apply kept_by; try done. intros s Hs. split; [by apply applied_setLocalGen_ne|done]. Qed.

Lemma kept_setStatusGen p g d : p <> localNode d -> kept p d (setStatusGen (localNode d) p g d).
Proof.
  intros Hp. split; try done; [intros; apply frame_setStatusGen|]. unfold ownGen, setStatusGen. cbn.
  rewrite (lookup_alter_eq _ (clusterData d)). destruct (clusterData d !! localNode d); [|done]. cbn.
  by rewrite genOf_insert_ne by congruence.
Qed.

Lemma kept_clusterData p d u m :
  kept p d u -> (forall s, s <> p -> m !! s = clusterData u !! s) -> localNode d <> p ->
  kept p d (u <| clusterData := m |>).
Proof.
  intros Hk Hm Hl. transitivity u; [done|]. pose proof (kept_localNode _ _ _ Hk) as Hlu.
  split; try done; [intros s Hs; split; try done; cbn; by rewrite Hm|].
  unfold ownGen. cbn. rewrite Hm by congruence. done.
Qed.

Section others.
Context `{E : Env}.

Lemma kept_setCacheAndPublish p c d : msgNode c = p -> p <> localNode d -> kept p d (setCacheAndPublish c d).
Proof.
  intros Hc Hp. transitivity (applyLocal c d).
  - apply kept_clusterData; [reflexivity| |congruence]. intros s Hs. apply ApplyMessage_other. congruence.
  - unfold setCacheAndPublish. apply kept_same. same_tac.
Qed.

Lemma kept_applyGen p g events d :
  Forall (fun c => msgNode c = p) events -> p <> localNode d -> kept p d (applyGen p g events d).
Proof.
  unfold applyGen. intros Hev. revert d. induction Hev as [|c l Hc _ IH]; intros d Hp; [reflexivity|]. cbn.
  transitivity (setLocalGen p g (setCacheAndPublish c d)).
  - transitivity (setCacheAndPublish c d); [by apply kept_setCacheAndPublish|apply kept_setLocalGen].
  - apply IH. rewrite localNode_setLocalGen. by rewrite (kept_localNode p d) by (by apply kept_setCacheAndPublish).
Qed.

(** The events of the messages of [p] are about [p]. *)
Definition about (p : string) (evs : gmap N (list Msg)) : Prop :=
  map_Forall (fun _ l => Forall (fun c => msgNode c = p) l) evs.

Lemma kept_applyGens msg l : about (Nodename msg) (Events msg) ->
  forall pending d, Nodename msg <> localNode d -> kept (Nodename msg) d (applyGens msg l pending d).1.
Proof.
  intros Hab. induction l as [|g l IH]; intros pending d Hp; [reflexivity|]. cbn [applyGens].
  destruct (_ <=? _)%N; [by apply IH|]. destruct (_ <? _)%N; [apply kept_setLocalGen|].
  set (v := applyGen _ _ _ d).
  assert (kept (Nodename msg) d v) as Hv.
  { apply kept_applyGen; [|done]. destruct (Events msg !! g) eqn:He; [by apply (Hab g)|constructor]. }
  clearbody v. transitivity (v <| hbPatchMsgUpdated ::= <[Nodename msg := UpdatedAt msg]> |>).
  - transitivity v; [done|by apply kept_by].
  - apply IH. cbn. by rewrite (kept_localNode _ _ _ Hv).
Qed.

Lemma kept_applyMsgEvents msg d u : about (Nodename msg) (Events msg) -> Nodename msg <> localNode d ->
  applyMsgEvents msg d = Some u -> kept (Nodename msg) d u.
Proof.
  intros Hab Hp. unfold applyMsgEvents. cbv zeta.
  pose proof (kept_applyGens msg (sortGen msg) Hab (applied (Nodename msg) d) d Hp) as Hk.
  destruct (applyGens _ _ _ _) as [v ok]. cbn in Hk. intros Hu.
  repeat case_match; simplify_eq; try reflexivity; try apply kept_setLocalGen; try done.
  etransitivity; [exact Hk|]. set (w := v <| clusterData ::= _ |>).
  assert (kept (Nodename msg) v w) as Hw.
  { apply kept_clusterData; [reflexivity|intros; by apply lookup_insert_ne|].
    rewrite (kept_localNode _ _ _ Hk). congruence. }
  transitivity w; [done|]. clearbody w.
  rewrite <- (kept_localNode _ _ _ Hk), <- (kept_localNode _ _ _ Hw). apply kept_setStatusGen.
  rewrite (kept_localNode _ _ _ Hw), (kept_localNode _ _ _ Hk). done.
Qed.

Lemma kept_applyNodeData msg d : Nodename msg <> localNode d -> kept (Nodename msg) d (applyNodeData msg d).
Proof.
  intros Hp. unfold applyNodeData. cbv zeta. set (d1 := d <| clusterData ::= _ |>).
  assert (kept (Nodename msg) d d1) as H1.
  { apply kept_clusterData; [reflexivity|intros; by apply lookup_insert_ne|congruence]. }
  set (d2 := setLocalGen _ _ d1).
  assert (kept (Nodename msg) d d2) as H2 by (transitivity d1; [done|apply kept_setLocalGen]).
  assert (Nodename msg <> localNode d2) as Hp2 by exact Hp. clearbody d2.
  set (d3 := setStatusGen _ _ _ d2).
  assert (kept (Nodename msg) d2 d3) as H3 by (by apply kept_setStatusGen). clearbody d3.
  etransitivity; [exact H2|]. etransitivity; [exact H3|].
  apply kept_same, same_pubPeerDataChanges. eauto with same.
Qed.

Lemma kept_acceptPeerRun msg d : kept (Nodename msg) d (acceptPeerRun msg d).1.
Proof.
  unfold acceptPeerRun, switchPeerRun. cbv zeta.
  repeat case_match; cbn [fst]; try reflexivity; apply kept_by; try done; intros s Hs; cbn;
    rewrite ?(lookup_insert_ne (peerRuns d)) by done; try done;
    (split; [by apply (applied_setLocalGen_ne s (Nodename msg))|done]).
Qed.

Lemma kept_setFromPeerMsg p ty l g d : p <> localNode d -> kept p d (setFromPeerMsg p ty l g d).
Proof.
  intros Hp. assert (exists u, same d u /\ setFromPeerMsg p ty l g d =
    (let d := u <| hbGens ::= <[p := g]> |> in
     let d := if (genOf (localNode d) g =? applied (localNode d) d)%N then d else d <| needMsg := true |> in
     if (genOf p g =? applied p d)%N then d else d <| needMsg := true |>)) as (u & Hs & ->).
  { exists (setHbMsgPatchLength p l (setHbMsgType p ty d)).
    split; [apply same_setHbMsgPatchLength, same_setHbMsgType; reflexivity|done]. }
  transitivity u; [by apply kept_same|]. rewrite <- (same_localNode _ _ Hs) in Hp. clear Hs d.
  assert (forall s, applied s (u <| hbGens ::= <[p := g]> |>) = applied s u) as Ha.
  { intros s. unfold applied, localGens. cbn. by rewrite (lookup_insert_ne (hbGens u)). }
  cbv zeta. set (v := u <| hbGens ::= <[p := g]> |>) in *.
  assert (kept p u v) as Hv by (by apply kept_by). clearbody v.
  transitivity v; [done|]. repeat case_match; by apply kept_by.
Qed.

Lemma kept_receive msg d u : about (Nodename msg) (Events msg) -> Nodename msg <> localNode d ->
  receive msg d = Some u -> kept (Nodename msg) d u.
Proof.
  intros Hab Hp. unfold receive. destruct (isMember _ _); [|by intros [= <-]]. unfold onReceiveHbMsg. cbv zeta.
  pose proof (kept_acceptPeerRun msg d) as Ha. destruct (acceptPeerRun msg d) as [d1 ok]. cbn in Ha.
  destruct ok; cbn [negb]; [|by intros [= <-]]. rewrite <- (kept_localNode _ _ _ Ha) in Hp.
  assert (forall ty l g, kept (Nodename msg) d (setFromPeerMsg (Nodename msg) ty l g d1) /\
            Nodename msg <> localNode (setFromPeerMsg (Nodename msg) ty l g d1)) as Hset.
  { intros ty l g. split; [|by rewrite setFromPeerMsg_localNode].
    transitivity d1; [done|by apply kept_setFromPeerMsg]. }
  destruct (String.eqb (Kind msg) "patch").
  { destruct (Hset (Kind msg) (size (Events msg)) (Msg_Gen msg)) as [Hk Hl].
    set (v := setFromPeerMsg _ _ _ _ _) in *. clearbody v.
    destruct (applyMsgEvents msg v) as [w|] eqn:Hw; [|done]. intros ?%(inj Some); subst u.
    apply kept_applyMsgEvents in Hw; [|done..]. etransitivity; [exact Hk|].
    etransitivity; [exact Hw|by apply kept_by]. }
  destruct (String.eqb (Kind msg) "full").
  { destruct (Hset (Kind msg) 0 (Msg_Gen msg)) as [Hk Hl].
    set (v := setFromPeerMsg _ _ _ _ _) in *. clearbody v.
    destruct (_ =? _)%N; [by intros ?%(inj Some); subst u|].
    destruct (_ <=? _)%N.
    - destruct (applyMsgEvents msg v) as [w|] eqn:Hw; [|done]. cbn [mbind option_bind].
      apply kept_applyMsgEvents in Hw; [|done..].
      destruct (_ =? _)%N; intros ?%(inj Some); subst u; (etransitivity; [exact Hk|]); [done|].
      etransitivity; [exact Hw|]. apply kept_applyNodeData. by rewrite (kept_localNode _ _ _ Hw).
    - intros ?%(inj Some); subst u. etransitivity; [exact Hk|by apply kept_applyNodeData]. }
  destruct (String.eqb (Kind msg) "ping"); intros ?%(inj Some); subst u; [|done].
  etransitivity; [apply (Hset (Kind msg) 0 (Msg_Gen msg))|by apply kept_by].
Qed.

End others.

(** ** The peers removed from the cluster *)

Section removal.
Context `{E : Env}.

Lemma applied_delete p d u : p <> localNode d -> localNode u = localNode d ->
  hbGens u = alter (delete p) (localNode d) (delete p (hbGens d)) ->
  applied p u = 0%N /\ forall s, s <> p -> applied s u = applied s d.
Proof.
  intros Hp Hl Hh. assert (localGens u = delete p (localGens d)) as Hg.
  { unfold localGens. rewrite Hl, Hh, (lookup_alter_eq _ (delete p (hbGens d))), (lookup_delete_ne (hbGens d)) by congruence.
    destruct (hbGens d !! localNode d); [done|]. symmetry. apply (delete_empty (M := gmap string)). }
  unfold applied, genOf. rewrite Hg. split; [by rewrite (lookup_delete_eq (localGens d))|].
  intros s Hs. by rewrite (lookup_delete_ne (localGens d)).
Qed.

Lemma dropPeerMaps_spec p d : p <> localNode d ->
  localNode (dropPeerMaps p d) = localNode d /\ kept p d (dropPeerMaps p d) /\ applied p (dropPeerMaps p d) = 0%N.
Proof.
  intros Hp. set (c := dropPeerMaps p d). destruct (applied_delete p d c) as [H0 Hne]; [done..|].
  split; [done|]. split; [|done]. apply kept_by; try done.
  intros s Hn. split; [by apply Hne|]. by apply (lookup_delete_ne (peerRuns d)).
Qed.

Lemma kept_dropStatusGen p d : p <> localNode d -> kept p d (dropStatusGen (localNode d) p d).
Proof.
  intros Hp. split; try done.
  - intros s Hn. split; try done. cbn. destruct (decide (localNode d = s)) as [<-|Hne].
    + rewrite (lookup_alter_eq _ (clusterData d)). destruct (clusterData d !! localNode d); constructor.
      by apply view_intro.
    + by rewrite (lookup_alter_ne _ (clusterData d)).
  - unfold ownGen. cbn. rewrite (lookup_alter_eq _ (clusterData d)).
    destruct (clusterData d !! localNode d); [|done]. cbn. unfold genOf.
    rewrite (lookup_delete_ne (node.Status_Gen _)) by congruence. done.
Qed.

Lemma applied_same p d u : same d u -> applied p u = applied p d.
Proof. intros Hs. unfold applied, localGens. by rewrite (same_hbGens _ _ Hs), (same_localNode _ _ Hs). Qed.

Lemma kept_deleteNode p d : p <> localNode d -> kept p d (d <| clusterData ::= delete p |>).
Proof.
  intros Hp. change (kept p d (d <| clusterData := delete p (clusterData d) |>)).
  apply kept_clusterData; [reflexivity| |congruence].
  intros s Hs. by apply (lookup_delete_ne (clusterData d)).
Qed.

Lemma same_forget p d : same d (pub (ForgetPeer p) (setDaemonHeartbeat d)).
Proof. apply (same_upd _ (setDaemonHeartbeat d)); [apply same_setDaemonHeartbeat; reflexivity|done..]. Qed.

(** What follows the deletions. *)
Lemma dropPeer_tail p d : p <> localNode d ->
  let u := pub (ForgetPeer p) (setDaemonHeartbeat ((dropStatusGen (localNode d) p d) <| clusterData ::= delete p |>)) in
  kept p d u /\ applied p u = applied p d.
Proof.
  intros Hp. pose proof (kept_dropStatusGen p d Hp) as Hk.
  assert (applied p (dropStatusGen (localNode d) p d) = applied p d) as Ha by reflexivity.
  revert Hk Ha. generalize (dropStatusGen (localNode d) p d). intros c Hk <-.
  pose proof (kept_deleteNode p c ltac:(by rewrite (kept_localNode _ _ _ Hk))) as Hk2.
  assert (applied p (c <| clusterData ::= delete p |>) = applied p c) as Ha by reflexivity.
  revert Hk2 Ha. generalize (c <| clusterData ::= delete p |>). intros e Hk2 <-. cbv zeta.
  split; [|apply applied_same, same_forget].
  transitivity c; [done|]. transitivity e; [done|]. apply kept_same, same_forget.
Qed.

Lemma dropPeer_spec p d : p <> localNode d -> kept p d (dropPeer p d) /\ applied p (dropPeer p d) = 0%N.
Proof.
  intros Hp. unfold dropPeer. cbv zeta.
  assert (same d (dropPeerHolders p (emit (HbcacheDropPeer p) d))) as Hs
    by (apply same_dropPeerHolders; eauto with same).
  revert Hs. generalize (dropPeerHolders p (emit (HbcacheDropPeer p) d)). intros v Hs.
  rewrite <- (same_localNode _ _ Hs) in Hp.
  destruct (dropPeerMaps_spec p v Hp) as (Hl & Hk & Ha). revert Hl Hk Ha.
  generalize (dropPeerMaps p v). intros c Hl Hk Ha.
  destruct (dropPeer_tail p c ltac:(congruence)) as [Hk2 Ha2]. split; [|by rewrite Ha2].
  transitivity v; [by apply kept_same|]. by transitivity c.
Qed.

(** A change of the configuration of the cluster keeps the replicas of the
    nodes that stay, and marks those of the nodes removed. *)
Lemma dropPeers_spec removed : forall d, localNode d ∉ removed ->
  let u := foldl (fun d s => dropPeer s d) d removed in
  localNode u = localNode d /\ gen u = gen d /\ pendingEvs u = pendingEvs d /\ eventQueue u = eventQueue d /\
  runID u = runID d /\ ownGen u = ownGen d /\ clusterData u !! localNode d ≡ clusterData d !! localNode d /\
  forall s, applied s u = 0%N \/ frame s d u.
Proof.
  induction removed as [|p l IH]; intros d Hl; cbn [foldl].
  { repeat split; try done. intros s. right. reflexivity. }
  apply not_elem_of_cons in Hl as [Hp Hl].
  destruct (dropPeer_spec p d ltac:(congruence)) as [Hk H0]. set (v := dropPeer p d) in *. clearbody v.
  specialize (IH v ltac:(by rewrite (kept_localNode _ _ _ Hk))). cbv zeta in *.
  set (u := foldl _ _ _) in *. clearbody u. destruct IH as (I1 & I2 & I3 & I4 & I5 & I6 & I7 & I8).
  destruct Hk as [Kf Kl Kg Kp Ke Kr Ko]. rewrite Kl in I7. repeat split; try congruence.
  - rewrite I7. by apply Kf.
  - intros s. destruct (I8 s) as [?|Hf]; [by left|]. destruct (decide (s = p)) as [->|Hn].
    + left. by rewrite (frame_applied _ _ _ Hf).
    + right. transitivity v; auto.
Qed.

End removal.

(** ** The sender *)

(** The record of a tick: the data set of a new generation. *)
Definition record (h : history) (d u : data) : history :=
  if (gen u =? gen d)%N then h else <[(runID u, gen u) := nodeOf (localNode u) (clusterData u)]> h.

(** The sender: its data is that of its last generation, with the messages not
    committed yet applied; its queue holds the messages of the previous ones. *)
Record sending (h : history) (d : data) : Prop := {
  send_run : runID d <> "";
  send_gen : gen d <> 0%N;
  send_last g : is_Some (h !! (runID d, g)) -> (g <= gen d)%N;
  send_queue : events_ok h (localNode d) (runID d) (eventQueue d);
  send_about : about (localNode d) (eventQueue d);
  send_pending : Forall (fun c => msgNode c = localNode d) (pendingEvs d);
  send_data : exists m n, h !! (runID d, gen d) = Some m /\ clusterData d !! localNode d = Some n /\
                turns (localNode d) m (pendingEvs d) n /\ (pendingEvs d = [] -> ownGen d = Some (gen d)) }.

(** What the sender is about is the same. *)
Record own_same (d u : data) : Prop := {
  os_localNode : localNode u = localNode d;
  os_gen : gen u = gen d;
  os_pendingEvs : pendingEvs u = pendingEvs d;
  os_eventQueue : eventQueue u = eventQueue d;
  os_runID : runID u = runID d;
  os_ownGen : ownGen u = ownGen d;
  os_data : clusterData u !! localNode d ≡ clusterData d !! localNode d }.

Lemma own_same_kept p d u : p <> localNode d -> kept p d u -> own_same d u.
Proof. intros Hp [Hf ? ? ? ? ? ?]. split; try done. by apply Hf. Qed.

Lemma sending_own h d u : own_same d u -> sending h d -> sending h u.
Proof.
  intros [Hl Hg Hp He Hr Ho Hd] [H1 H2 H3 H4 H5 H6 (m & n & Hm & Hn & Ht & Hz)].
  split; rewrite ?Hl, ?Hg, ?Hp, ?He, ?Hr; try done. rewrite Hn in Hd.
  destruct (clusterData u !! localNode d) as [n'|]; [|by inversion Hd]. apply (inj Some) in Hd.
  exists m, n'. rewrite Ho. split; [done|]. split; [done|]. split; [|done].
  unfold turns in *. rewrite Ht. by constructor.
Qed.

Lemma events_ok_subseteq h h' s run evs : h ⊆ h' -> events_ok h s run evs -> events_ok h' s run evs.
Proof.
  intros Hh Hev g l Hgl. destruct (Hev g l Hgl) as [Hl (p & n0 & n1 & ? & ? & ? & ?)].
  split; [done|]. exists p, n0, n1. split; [done|]. split; [|split; [|done]]; by eapply lookup_weaken.
Qed.

Lemma at_gen_subseteq h h' s run g d : h ⊆ h' -> at_gen h s run g d -> at_gen h' s run g d.
Proof. intros Hh [? ? ? (m & ? & ?)]. split; try done. exists m. split; [by eapply lookup_weaken|done]. Qed.

Lemma tracks_subseteq h h' s d : h ⊆ h' -> tracks h s d -> tracks h' s d.
Proof. intros Hh [?|(run & g & ?)]; [by left|right]. eauto using at_gen_subseteq. Qed.

Lemma msg_ok_subseteq h h' s msg : h ⊆ h' -> msg_ok h s msg -> msg_ok h' s msg.
Proof.
  intros Hh [? ? ? ? Hf]. split; try done; [by eapply events_ok_subseteq|].
  intros Hk. destruct (Hf Hk) as (? & m & ? & ?). split; [done|]. exists m. split; [by eapply lookup_weaken|done].
Qed.

(** What a tick does after the commit. *)
Record ticked (d u : data) : Prop := {
  tk_clusterData : clusterData u = clusterData d;
  tk_localGens : localGens u = localGens d;
  tk_peerRuns : peerRuns u = peerRuns d;
  tk_localNode : localNode u = localNode d;
  tk_gen : gen u = gen d;
  tk_pendingEvs : pendingEvs u = pendingEvs d;
  tk_eventQueue : eventQueue u = eventQueue d;
  tk_runID : runID u = runID d }.

#[global] Instance ticked_preorder : PreOrder ticked.
Proof. split; [done|]. intros d u v [] []. split; congruence. Qed.

Lemma ticked_same d u : same d u -> ticked d u.
Proof.
  intros Hs. pose proof Hs as []. split; try done.
  unfold localGens. by rewrite (same_hbGens _ _ Hs), (same_localNode _ _ Hs).
Qed.

Lemma ticked_frame s d u : ticked d u -> frame s d u.
Proof. intros [Hc Hg Hp Hl _ _ _ _]. split; [done|unfold applied; by rewrite Hg|by rewrite Hp|by rewrite Hc]. Qed.

Lemma ticked_own d u : ticked d u -> own_same d u.
Proof. intros [Hc Hg Hp Hl ? ? ? ?]. split; try done; [unfold ownGen; by rewrite Hc, Hl|by rewrite Hc]. Qed.

(** The messages sent. *)
Definition sends (tr : Trace) : list HbMsg := omap (fun e => match e with Send m => Some m | _ => None end) tr.

(** The message says what the sender has. *)
Record says (d : data) (m : HbMsg) : Prop := {
  says_name : Nodename m = localNode d;
  says_run : RunID m = runID d;
  says_gen : Msg_Gen m = localGens d;
  says_events : Events m = ∅ \/ Events m = eventQueue d;
  says_data : Kind m = "full" -> NodeData m = nodeOf (localNode d) (clusterData d) }.

Lemma says_ticked d u m : ticked d u -> says u m -> says d m.
Proof. intros [Hc Hg _ Hl _ _ He Hr] [H1 H2 H3 H4 H5]. split; by rewrite <- ?Hl, <- ?Hr, <- ?Hg, <- ?He, <- ?Hc. Qed.

(** Nothing is sent but what the state says. *)
Definition silent (d u : data) : Prop := exists new, trace u = (new ++ trace d)%list /\ sends new = [].

#[global] Instance silent_preorder : PreOrder silent.
Proof.
  split; [by exists []|]. intros d u v (l & Hu & Hl) (k & Hv & Hk). exists (k ++ l)%list.
  split; [by rewrite Hv, Hu, app_assoc|]. unfold sends in *. by rewrite omap_app, Hl, Hk.
Qed.

Section sender.
Context `{E : Env}.

Lemma silent_pub c d u : trace u = Pub c :: trace d -> silent d u.
Proof. intros Hu. by exists [Pub c]. Qed.

Lemma setHbMsgType_silent n ty d : silent d (setHbMsgType n ty d).
Proof. unfold setHbMsgType. case_match; [reflexivity|]. by eapply silent_pub. Qed.

Lemma drops_silent l d : silent d (foldl (fun d n => emit (HbcacheDropPeer n) d) d l).
Proof.
  revert d. induction l as [|n l IH]; intros d; [reflexivity|]. cbn [foldl].
  etransitivity; [|apply IH]. by exists [HbcacheDropPeer n].
Qed.

Lemma setDaemonHeartbeat_silent d : silent d (setDaemonHeartbeat d).
Proof. unfold setDaemonHeartbeat. cbv zeta. etransitivity; [apply drops_silent|]. by eapply silent_pub. Qed.

Lemma cleanupHbGens_ticked d : ticked d (cleanupHbGens d).
Proof.
  split; try done. unfold localGens, cleanupHbGens. cbn.
  destruct (hbGens d !! localNode d) as [x|] eqn:Hx.
  - rewrite (map_lookup_filter_Some_2 _ (hbGens d) _ x); [done|done|by left].
  - rewrite (map_lookup_filter_None_2 _ (hbGens d)); [done|by left].
Qed.

Lemma nextMsgType_spec d : ticked d (nextMsgType d).1 /\ silent d (nextMsgType d).1.
Proof.
  unfold nextMsgType. repeat case_match; cbn [fst]; try (by split); (split; [apply cleanupHbGens_ticked|by exists []]).
Qed.

Lemma setNextMsgType_spec d : ticked d (setNextMsgType d) /\ silent d (setNextMsgType d).
Proof.
  unfold setNextMsgType. destruct (nextMsgType_spec d) as [Ht Hs]. destruct (nextMsgType d) as [v ty]. cbn in *.
  destruct (String.eqb _ _); [done|]. set (w := v <| hbMessageType := ty |>).
  assert (ticked v w /\ silent v w) as [Htw Hsw] by (split; [done|by exists []]). clearbody w.
  split; [transitivity v; [done|]; transitivity w; [done|]; apply ticked_same, same_setHbMsgType; reflexivity|].
  transitivity v; [done|]. transitivity w; [done|]. apply setHbMsgType_silent.
Qed.

Lemma getHbMessage_spec d :
  let '(u, o) := getHbMessage d in
  ticked d u /\ silent d u /\ forall m, o = Some m -> says u m /\ Kind m = hbMessageType u.
Proof.
  unfold getHbMessage. cbv zeta. destruct (setNextMsgType_spec d) as [Ht Hs].
  set (v := setNextMsgType d) in *. clearbody v.
  destruct (String.eqb_spec (hbMessageType v) "patch") as [E1|_];
    [|destruct (String.eqb_spec (hbMessageType v) "full") as [E2|_];
      [|destruct (String.eqb_spec (hbMessageType v) "ping") as [E3|_]]].
  4: done.
  all: split; [transitivity v; [done|by apply ticked_same, same_setHbMsgPatchLength]|].
  all: split; [transitivity v; [done|by exists []]|].
  all: intros m Hm; apply (inj Some) in Hm; subst m; split; [split; try done; first [by left|by right|idtac]|done].
  all: cbn; congruence.
Qed.

Lemma queueNewHbMsg_spec d :
  let '(u, ok) := queueNewHbMsg d in
  ticked d u /\ exists new, trace u = (new ++ trace d)%list /\ Forall (says d) (sends new).
Proof.
  unfold queueNewHbMsg. pose proof (getHbMessage_spec d) as Hg. destruct (getHbMessage d) as [v [m|]];
    destruct Hg as (Ht & (new & Hn & Hs) & Hm).
  2:{ split; [done|]. exists new. split; [done|]. by rewrite Hs. }
  destruct (Hm m eq_refl) as [Hsay _]. cbv zeta. destruct (hbSendQ _).
  - split; [transitivity v; [done|by split]|]. exists (Send m :: new)%list. cbn. split; [by rewrite Hn|].
    constructor; [by eapply says_ticked|]. fold (sends new). by rewrite Hs.
  - split; [transitivity v; [done|by split]|]. exists new. split; [done|by rewrite Hs].
Qed.

(** A tick: the commit, publications, and a message when it is needed. *)
Lemma onTick_eq refresh d : exists c need,
  same (commitPendingOps d).1 c /\ silent (commitPendingOps d).1 c /\
  onTick refresh d = if need || needMsg c
                     then let '(u, ok) := queueNewHbMsg c in if (ok : bool) then u <| needMsg := false |> else u
                     else c.
Proof.
  unfold onTick. destruct (commitPendingOps d) as [c need]. cbn [fst]. cbv zeta.
  match goal with |- context [let '(d, needMessage) := ?x in _] => assert (same c x.1 /\ silent c x.1) as [Hx1 Hs1] end.
  { destruct (_ && _); [|by split; [|exists []]]. cbn [fst]. split; [same_tac|]. by eapply silent_pub. }
  destruct (if _ && _ then _ else _) as [c1 need1]. cbn [fst] in *.
  match goal with |- context [let '(d, needMessage) := ?x in _] => assert (same c1 x.1 /\ silent c1 x.1) as [Hx2 Hs2] end.
  { destruct refresh; [|by split; [|exists []]]. cbn [fst].
    split; [apply same_setDaemonHeartbeat; reflexivity|apply setDaemonHeartbeat_silent]. }
  destruct (if refresh then _ else _) as [c2 need2]. cbn [fst] in *.
  exists c2, need2. split; [by transitivity c1|]. split; [by transitivity c1|done].
Qed.

Lemma onTick_spec refresh d :
  let c := (commitPendingOps d).1 in
  ticked c (onTick refresh d) /\
  exists new, trace (onTick refresh d) = (new ++ trace c)%list /\ Forall (says c) (sends new).
Proof.
  cbv zeta. destruct (onTick_eq refresh d) as (c2 & need & Ht & (new & Hn & Hs) & ->).
  set (c := (commitPendingOps d).1) in *. clearbody c. apply ticked_same in Ht.
  destruct (need || needMsg c2).
  2:{ split; [done|]. exists new. split; [done|by rewrite Hs]. }
  pose proof (queueNewHbMsg_spec c2) as Hq. destruct (queueNewHbMsg c2) as [u ok].
  destruct Hq as (Hu & new' & Hn' & Hf).
  assert (ticked c u /\ exists new, trace u = (new ++ trace c)%list /\ Forall (says c) (sends new)) as [Htu (w & Hw & Hfw)].
  { split; [by transitivity c2|]. exists (new' ++ new)%list. split; [by rewrite Hn', Hn, app_assoc|].
    unfold sends in *. rewrite omap_app, Hs, app_nil_r. eapply Forall_impl; [exact Hf|].
    intros m. by apply says_ticked. }
  destruct ok; [|by eauto]. split; [transitivity u; [done|by split]|]. by exists w.
Qed.

(** The commit: a new generation when messages are pending. *)
Record committed (d c : data) : Prop := {
  cm_localNode : localNode c = localNode d;
  cm_runID : runID c = runID d;
  cm_pendingEvs : pendingEvs c = [];
  cm_peerRuns : peerRuns c = peerRuns d;
  cm_frame s : s <> localNode d -> frame s d c;
  cm_applied : applied (localNode d) c = gen c;
  cm_gen : gen c = if bool_decide (pendingEvs d = []) then gen d else N.succ (gen d);
  cm_data : clusterData c = if bool_decide (pendingEvs d = []) then clusterData d
              else clusterData (setStatusGen (localNode d) (localNode d) (gen c) d);
  cm_queue g l : eventQueue c !! g = Some l ->
    eventQueue d !! g = Some l \/ (g = gen c /\ l = pendingEvs d /\ pendingEvs d <> []);
  cm_trace : trace c = trace d }.

Lemma commit_spec d : committed d (commitPendingOps d).1.
Proof.
  unfold commitPendingOps. case_bool_decide as Hp; cbn [negb].
  - set (c := if one_of _ _ then _ else _).
    assert (localNode c = localNode d /\ runID c = runID d /\ pendingEvs c = [] /\ peerRuns c = peerRuns d /\
      hbGens c = hbGens d /\ gen c = gen d /\ clusterData c = clusterData d /\ trace c = trace d /\
      forall g l, eventQueue c !! g = Some l -> eventQueue d !! g = Some l) as (Hl & Hr & Hpc & Hpr & Hh & Hg & Hc & Ht & Hq).
    { subst c. destruct (one_of _ _); split_and!; try done.
      intros g l Hgl. cbn in Hgl. by apply map_lookup_filter_Some in Hgl as [? _]. }
    clearbody c. cbn [fst].
    split; try done; cbn; rewrite ?(bool_decide_eq_true_2 _ Hp); try done.
    + intros s Hs. transitivity c; [|apply frame_setLocalGen; congruence].
      split; [done|unfold applied, localGens; by rewrite Hh, Hl|by rewrite Hpr|by rewrite Hc].
    + rewrite <- Hl. apply applied_setLocalGen.
    + intros g l Hgl. left. by apply Hq.
  - set (d1 := setStatusGen _ _ _ _).
    assert (localNode d1 = localNode d /\ runID d1 = runID d /\ peerRuns d1 = peerRuns d /\
      pendingEvs d1 = pendingEvs d /\ eventQueue d1 = eventQueue d /\ hbMessageType d1 = hbMessageType d /\
      gen d1 = N.succ (gen d) /\ trace d1 = trace d /\
      clusterData d1 = clusterData (setStatusGen (localNode d) (localNode d) (N.succ (gen d)) d) /\
      forall s, s <> localNode d -> frame s d d1) as (Hl & Hr & Hpr & Hpe & Hqe & Hty & Hg & Ht & Hc & Hf).
    { split_and!; try done. intros s Hs. split; try done.
      - change (applied s (setLocalGen (localNode d) (N.succ (gen d)) (d <| gen ::= N.succ |>)) = applied s d).
        by rewrite applied_setLocalGen_ne.
      - exact (setStatusGen_view (localNode d) (localNode d) (N.succ (gen d)) d s). }
    clearbody d1. set (c := if one_of _ _ then _ else _).
    assert (localNode c = localNode d1 /\ runID c = runID d1 /\ pendingEvs c = [] /\ peerRuns c = peerRuns d1 /\
      hbGens c = hbGens d1 /\ gen c = gen d1 /\ clusterData c = clusterData d1 /\ trace c = trace d1 /\
      forall g l, eventQueue c !! g = Some l ->
        eventQueue d1 !! g = Some l \/ (g = gen c /\ l = pendingEvs d1)) as (Hl' & Hr' & Hpc & Hpr' & Hh' & Hg' & Hc' & Ht' & Hq).
    { subst c. destruct (one_of _ _); split_and!; try done.
      intros g l Hgl. cbn in Hgl. apply map_lookup_filter_Some in Hgl as [Hgl _].
      apply (lookup_insert_Some (eventQueue d1)) in Hgl as [[<- <-]|[_ ?]]; [by right|by left]. }
    clearbody c. cbn [fst]. split; cbn; rewrite ?(bool_decide_eq_false_2 _ Hp); try congruence.
    + intros s Hs. transitivity d1; [by apply Hf|]. transitivity c; [|apply frame_setLocalGen; congruence].
      split; [done|unfold applied, localGens; by rewrite Hh', Hl'|by rewrite Hpr'|by rewrite Hc'].
    + rewrite <- Hl, <- Hl'. apply applied_setLocalGen.
    + rewrite Hc', Hc. by rewrite Hg', Hg.
    + intros g l Hgl. destruct (Hq g l Hgl) as [?|[-> ->]]; [left; congruence|right]. by rewrite Hpe.
Qed.

Lemma record_ticked h d c u : ticked c u -> record h d u = record h d c.
Proof. intros [Hc _ _ Hl Hg _ _ Hr]. unfold record. by rewrite Hc, Hl, Hg, Hr. Qed.

Lemma commit_sending h d : sending h d ->
  let c := (commitPendingOps d).1 in h ⊆ record h d c /\ sending (record h d c) c.
Proof.
  intros [S1 S2 S3 S4 S5 S6 (m & n & Hm & Hn & Ht & Hz)]. cbv zeta.
  destruct (commit_spec d) as [Cl Cr Cp Cpr Cf Ca Cg Cd Cq Ct].
  set (c := (commitPendingOps d).1) in *. clearbody c. unfold record.
  case_bool_decide as Hp; rewrite Cg in *.
  - rewrite N.eqb_refl. split; [done|].
    split; rewrite ?Cl, ?Cr, ?Cg; try done.
    + intros g l Hgl. destruct (Cq g l Hgl) as [?|(_ & _ & ?)]; [by apply S4|done].
    + intros g l Hgl. destruct (Cq g l Hgl) as [?|(_ & _ & ?)]; [by apply (S5 g)|done].
    + rewrite Cp. constructor.
    + exists m, n. rewrite Cp, Cd. rewrite Hp in Ht. split; [done|]. split; [done|]. split; [done|].
      intros _. unfold ownGen. rewrite Cl, Cd. by apply Hz.
  - rewrite (proj2 (N.eqb_neq _ _)) by lia.
    set (n' := n <| Status_ ::= fun s => s <| node.Status_Gen ::= <[localNode d := N.succ (gen d)]> |> |>).
    assert (clusterData c !! localNode d = Some n') as Hn'.
    { rewrite Cd. unfold setStatusGen. cbn. by rewrite (lookup_alter_eq _ (clusterData d)), Hn. }
    assert (nodeOf (localNode c) (clusterData c) = n') as -> by (unfold nodeOf; by rewrite Cl, Hn').
    assert (n ≡ n') as Heq by (by apply view_intro).
    assert (h !! (runID d, N.succ (gen d)) = None) as Hfresh.
    { destruct (h !! (runID d, N.succ (gen d))) eqn:E0; [|done]. specialize (S3 (N.succ (gen d)) ltac:(eauto)). lia. }
    rewrite Cr. assert (h ⊆ <[(runID d, N.succ (gen d)) := n']> h) as Hsub by (by apply insert_subseteq).
    split; [done|]. split; rewrite ?Cl, ?Cr, ?Cg, ?Cp; try done; [lia| | | |].
    + intros g Hg. destruct (decide (g = N.succ (gen d))) as [->|Hne]; [done|].
      rewrite (lookup_insert_ne h) in Hg by congruence. specialize (S3 g Hg). lia.
    + intros g l Hgl. destruct (Cq g l Hgl) as [Hq|(-> & -> & _)].
      * by apply (events_ok_subseteq _ _ _ _ _ Hsub S4).
      * split; [done|]. exists (gen d), m, n'. split; [done|]. split; [by eapply lookup_weaken|].
        split; [apply (lookup_insert_eq h)|]. unfold turns in *. rewrite Ht. by constructor.
    + intros g l Hgl. destruct (Cq g l Hgl) as [?|(_ & -> & _)]; [by apply (S5 g)|done].
    + exists n', n'. split; [apply (lookup_insert_eq h)|]. split; [done|].
      split; [unfold turns, replay; cbn; by rewrite lookup_singleton_eq|].
      intros _. unfold ownGen. rewrite Cl, Hn'. cbn. by rewrite genOf_insert.
Qed.

(** The messages of a committed state are good. *)
Lemma says_ok h c msg : sending h c -> pendingEvs c = [] -> applied (localNode c) c = gen c -> says c msg ->
  msg_ok h (localNode c) msg /\ about (localNode c) (Events msg).
Proof.
  intros [S1 S2 S3 S4 S5 S6 (m & n & Hm & Hn & Ht & Hz)] Hp Ha [Y1 Y2 Y3 Y4 Y5]. unfold applied in Ha.
  rewrite Hp in *. specialize (Hz eq_refl). split.
  2:{ destruct Y4 as [->| ->]; [apply map_Forall_empty|done]. }
  split; rewrite ?Y2, ?Y3, ?Ha; try done.
  - destruct Y4 as [->| ->]; [apply map_Forall_empty|done].
  - intros Hk. rewrite (Y5 Hk). unfold ownGen in Hz. unfold nodeOf. rewrite Hn in *. cbn in *. simplify_eq.
    split; [done|]. exists m. split; [done|]. unfold turns, replay in Ht. cbn in Ht.
    rewrite lookup_singleton_eq in Ht. by apply (inj Some) in Ht.
Qed.

(** A tick records the new data set, and sends messages that say so. *)
Lemma tick_sending refresh h d : sending h d ->
  let u := onTick refresh d in
  localNode u = localNode d /\ runID u = runID d /\
  h ⊆ record h d u /\ sending (record h d u) u /\
  (forall s, s <> localNode d -> frame s d u) /\
  exists new, trace u = (new ++ trace d)%list /\
    Forall (fun msg => msg_ok (record h d u) (localNode d) msg /\ about (localNode d) (Events msg)) (sends new).
Proof.
  intros Hs. cbv zeta. destruct (onTick_spec refresh d) as [Ht (new & Hn & Hf)].
  destruct (commit_sending h d Hs) as [Hsub Hc]. pose proof (commit_spec d) as C.
  set (c := (commitPendingOps d).1) in *. clearbody c. set (u := onTick refresh d) in *. clearbody u.
  rewrite (record_ticked h d c u Ht). pose proof Ht as [Tc Tg Tp Tl Tgen Tpe Te Tr].
  split; [by rewrite Tl, (cm_localNode _ _ C)|]. split; [by rewrite Tr, (cm_runID _ _ C)|].
  split; [done|]. split; [by eapply sending_own; [apply ticked_own|]|].
  split; [intros s Hne; transitivity c; [by apply C|by apply ticked_frame]|].
  exists new. split; [by rewrite Hn, (cm_trace _ _ C)|]. eapply Forall_impl; [exact Hf|].
  intros msg Hsay. rewrite <- (cm_localNode _ _ C).
  apply says_ok; try done; [apply C|rewrite (cm_localNode _ _ C); apply C].
Qed.

(** The messages of the daemons of the node. *)
Definition subscribed (c : Msg) : bool :=
  localEventMustBeForwarded c || match c with Signal _ _ _ => true | _ => false end.

Lemma local_sending h c d : sending h d -> subscribed c = true -> msgNode c = localNode d ->
  let u := onSubEvent (LocalMsg c) d in
  localNode u = localNode d /\ runID u = runID d /\ sending h u /\ forall s, s <> localNode d -> frame s d u.
Proof.
  intros [S1 S2 S3 S4 S5 S6 (m & n & Hm & Hn & Ht & Hz)] Hsub Hc. cbv zeta.
  assert (localEventMustBeForwarded c = false -> forall now gens x, ApplyMessage now gens c x = x) as Hsig.
  { unfold subscribed in Hsub. destruct c; cbn in *; try done. }
  unfold onSubEvent. set (v := if localEventMustBeForwarded c then forwardEvent c d else d).
  assert (clusterData v = clusterData d /\ hbGens v = hbGens d /\ localNode v = localNode d /\
    peerRuns v = peerRuns d /\ runID v = runID d /\ gen v = gen d /\ eventQueue v = eventQueue d /\
    pendingEvs v = (pendingEvs d ++ if localEventMustBeForwarded c then [c] else [])%list)
    as (Vc & Vh & Vl & Vp & Vr & Vg & Ve & Vpe).
  { subst v. destruct (localEventMustBeForwarded c); split_and!; try done. by rewrite app_nil_r. }
  clearbody v. unfold applyLocal. cbv zeta. split; [done|]. split; [done|]. split.
  - set (u := v <| clusterData ::= _ |>).
    assert (exists n', clusterData u !! localNode d = Some n' /\ turns (localNode d) m (pendingEvs v) n') as (n' & Hn' & Ht').
    { unfold u. cbn. rewrite Vc, Vpe. destruct (localEventMustBeForwarded c) eqn:Hfw.
      - pose proof (ApplyMessage_view (Now (trace v)) time.zero (GenData (caches v)) ∅ c (clusterData d)
          (replay {[localNode d := m]} (pendingEvs d)) (localNode d)) as Hv.
        rewrite Hn in Hv. unfold turns in *. rewrite replay_app.
        assert (is_Some (ApplyMessage (Now (trace v)) (GenData (caches v)) c (clusterData d) !! localNode d)) as [n' Hn'].
        { apply (ApplyMessage_keeps _ _ _ _ _ n Hn). by intros p ->. }
        exists n'. split; [done|]. cbn. rewrite Hn' in Hv. symmetry. apply Hv. by symmetry.
      - rewrite Hsig by done. rewrite app_nil_r. by exists n. }
    split; cbn; rewrite ?Vr, ?Vg, ?Vl, ?Ve, ?Vpe; try done.
    + apply Forall_app. split; [done|]. destruct (localEventMustBeForwarded c); by repeat constructor.
    + exists m, n'. rewrite <- Vpe. split; [done|]. split; [done|]. split; [done|].
      rewrite Vpe. destruct (localEventMustBeForwarded c); [by intros [? ?]%app_eq_nil|].
      rewrite app_nil_r. intros Hp. specialize (Hz Hp). unfold ownGen. unfold u. cbn. rewrite Vl, Vc, Hsig by done.
      exact Hz.
  - intros s Hs. split; cbn; try done; [unfold applied, localGens; cbn; by rewrite Vh, Vl|by rewrite Vp|].
    rewrite Vc, ApplyMessage_other by congruence. done.
Qed.

End sender.
End replication.
