(* ===== verification/DataCluster.v ===== *)
(** * daemon/daemondata: a cluster of replicas

    Nodes that start, restart, tick, change their data, their configuration or
    their peers, and a network that delivers any message sent, in any order, any
    number of times or never.  Each step has an environment of its own: clocks
    and orders of iteration are arbitrary, and change at each step.  The
    histories are what the theorems speak of: the code has none. *)

From S2P Require Import Prelude Status Naming Instance Nmon ClusterData Daemondata Replication.

Open Scope string_scope.
Import msgbus daemondata replication.

Module replicas.

(** ** The cluster *)

(** The nodes that run, the history of each node, and the messages sent, which
    stay in flight forever: each may arrive late, several times or never. *)
Record world := mkWorld {
  nodes : gmap string data;
  histories : gmap string history;
  network : list HbMsg }.

Definition historyOf (s : string) (w : world) : history := default ∅ (histories w !! s).

(** The messages the last step added to the trace. *)
Definition newSends (d u : data) : list HbMsg := sends (take (length (trace u) - length (trace d)) (trace u)).

Inductive step : world -> world -> Prop :=
| restart (E : Env) n run members nodeData caches0 w :
    run <> "" -> (forall g, historyOf n w !! (run, g) = None) ->
    let d := newData n run members nodeData caches0 in
    step w (mkWorld (<[n := d]> (nodes w))
              (<[n := <[(run, gen d) := nodeOf n (clusterData d)]> (historyOf n w)]> (histories w)) (network w))
| setHBSendQ n d q w : nodes w !! n = Some d ->
    step w (mkWorld (<[n := SetHBSendQ q d]> (nodes w)) (histories w) (network w))
| local (E : Env) n d c w : nodes w !! n = Some d -> subscribed c = true -> msgNode c = n ->
    step w (mkWorld (<[n := onSubEvent (LocalMsg c) d]> (nodes w)) (histories w) (network w))
| configure (E : Env) n d members added removed w : nodes w !! n = Some d -> n ∉ removed ->
    step w (mkWorld (<[n := onSubEvent (ClusterConfigUpdated members added removed) d]> (nodes w))
              (histories w) (network w))
| drop (E : Env) n d p w : nodes w !! n = Some d -> p <> n ->
    step w (mkWorld (<[n := dropPeer p d]> (nodes w)) (histories w) (network w))
| tick (E : Env) n d refresh w : nodes w !! n = Some d ->
    let u := onTick refresh d in
    step w (mkWorld (<[n := u]> (nodes w)) (<[n := record (historyOf n w) d u]> (histories w))
              (newSends d u ++ network w)%list)
| deliver (E : Env) n d msg u w : nodes w !! n = Some d -> msg ∈ network w -> Nodename msg <> n ->
    receive msg d = Some u ->
    step w (mkWorld (<[n := u]> (nodes w)) (histories w) (network w)).

(** No node runs at first. *)
Definition initial : world := mkWorld ∅ ∅ [].

Definition reachable : world -> Prop := rtc step initial.

(** ** The invariant *)

Record node_ok (w : world) (n : string) (d : data) : Prop := {
  nk_localNode : localNode d = n;
  nk_sending : sending (historyOf n w) d;
  nk_tracks s : s <> n -> tracks (historyOf s w) s d }.

Record world_ok (w : world) : Prop := {
  wk_nodes : map_Forall (node_ok w) (nodes w);
  wk_network : Forall (fun msg => msg_ok (historyOf (Nodename msg) w) (Nodename msg) msg /\
                          about (Nodename msg) (Events msg)) (network w) }.

(** The histories grow. *)
Definition grows (w w' : world) : Prop := forall s, historyOf s w ⊆ historyOf s w'.

Lemma grows_insert n h w ms ns :
  historyOf n w ⊆ h -> grows w (mkWorld ns (<[n := h]> (histories w)) ms).
Proof.
  intros Hh s. unfold historyOf in *. cbn. destruct (decide (n = s)) as [->|Hn].
  - by rewrite (lookup_insert_eq (histories w)).
  - by rewrite (lookup_insert_ne (histories w)).
Qed.

(** A step changes one node, and what the others know still holds. *)
Lemma world_ok_step w w' n u :
  world_ok w -> grows w w' -> nodes w' = <[n := u]> (nodes w) -> node_ok w' n u ->
  (forall m, m <> n -> historyOf m w' = historyOf m w) ->
  Forall (fun msg => msg ∈ network w \/ msg_ok (historyOf (Nodename msg) w') (Nodename msg) msg /\
                       about (Nodename msg) (Events msg)) (network w') -> world_ok w'.
Proof.
  intros [Hn Hw] Hg Hns Hu Hh Hms. split.
  - rewrite Hns. intros m d [[<- <-]|[Hne Hd]]%(lookup_insert_Some (nodes w)); [done|].
    destruct (Hn m d Hd) as [Hl Hs Ht]. split; [done|by rewrite Hh by done|].
    intros s Hsn. eapply tracks_subseteq; [apply Hg|by apply Ht].
  - eapply Forall_impl; [exact Hms|]. intros msg [Hin|?]; [|done].
    rewrite Forall_forall in Hw. destruct (Hw msg Hin) as [Hok Hab]. split; [|done].
    by eapply msg_ok_subseteq; [apply Hg|].
Qed.

Lemma network_same (P : HbMsg -> Prop) (l : list HbMsg) : Forall (fun msg => msg ∈ l \/ P msg) l.
Proof. apply Forall_forall. by left. Qed.

(** The steps that change neither the histories nor the network. *)
Lemma world_ok_quiet w n u :
  world_ok w -> node_ok w n u -> world_ok (mkWorld (<[n := u]> (nodes w)) (histories w) (network w)).
Proof.
  intros Hw Hu. apply (world_ok_step w _ n u); [done|by intros s|done|by destruct Hu; split|done|apply network_same].
Qed.

Lemma newSends_app d u new : trace u = (new ++ trace d)%list -> newSends d u = sends new.
Proof.
  intros Ht. unfold newSends. rewrite Ht, length_app.
  replace (length new + length (trace d) - length (trace d)) with (length new) by lia. by rewrite take_app_length.
Qed.

Lemma newData_sending `{E : Env} n run members nodeData caches0 h :
  run <> "" -> (forall g, h !! (run, g) = None) ->
  let d := newData n run members nodeData caches0 in
  sending (<[(run, gen d) := nodeOf n (clusterData d)]> h) d.
Proof.
  intros Hr Hh. cbv zeta. set (v := nodeData <| Status_ ::= fun s => s <| node.Status_Gen := {[n := 1%N]} |> |>).
  assert (nodeOf n (clusterData (newData n run members nodeData caches0)) = v) as ->.
  { unfold newData, nodeOf. cbn. by rewrite (lookup_singleton_eq (M := gmap string)). }
  split; try done.
  - intros g [x Hg]. change (gen (newData n run members nodeData caches0)) with 1%N in *.
    change (runID (newData n run members nodeData caches0)) with run in Hg.
    destruct (decide (g = 1%N)) as [->|Hne]; [done|].
    rewrite (lookup_insert_ne h) in Hg by congruence. by rewrite Hh in Hg.
  - exists v, v. split; [apply (lookup_insert_eq h)|].
    split; [apply (lookup_singleton_eq (M := gmap string))|].
    split; [change (({[n := v]} : Nodes) !! n ≡ Some v); by rewrite (lookup_singleton_eq (M := gmap string))|].
    intros _. unfold ownGen, newData. cbn. rewrite (lookup_singleton_eq (M := gmap string)). cbn.
    change (Some (genOf n (<[n := 1%N]> (∅ : gmap string N))) = Some 1%N). by rewrite genOf_insert.
Qed.

Lemma newData_tracks `{E : Env} n run members nodeData caches0 h s :
  s <> n -> tracks h s (newData n run members nodeData caches0).
Proof.
  intros Hs. left. unfold applied.
  assert (localGens (newData n run members nodeData caches0) = <[n := 0%N]> (∅ : gmap string N)) as ->.
  { unfold localGens, newData. cbn. by rewrite (lookup_singleton_eq (M := gmap string)). }
  by rewrite genOf_insert_ne.
Qed.

Lemma receive_ok `{E : Env} w n d msg : world_ok w -> nodes w !! n = Some d -> msg ∈ network w -> Nodename msg <> n ->
  exists u, receive msg d = Some u /\ node_ok w n u.
Proof.
  intros [Hn Hw] Hd Hin Hne. destruct (Hn n d Hd) as [Hl Hs Ht].
  rewrite Forall_forall in Hw. destruct (Hw msg Hin) as [Hok Hab].
  destruct (receive_tracks _ _ msg d Hok ltac:(congruence) (Ht _ Hne)) as (u & Hu & Hlu & Htu).
  exists u. split; [done|]. pose proof (kept_receive msg d u Hab ltac:(congruence) Hu) as Hk.
  split; [congruence| |].
  - eapply sending_own; [by eapply own_same_kept; [|exact Hk]; congruence|done].
  - intros s Hsn. destruct (decide (s = Nodename msg)) as [->|Hsm]; [done|].
    eapply tracks_frame; [by apply Hk|by apply Ht].
Qed.

Lemma step_ok w w' : world_ok w -> step w w' -> world_ok w'.
Proof.
  intros Hw Hst. destruct Hst as [E n run members nodeData caches0 w Hrun Hfresh d | n d q w Hd
    | E n d c w Hd Hsub Hc | E n d members added removed w Hd Hrem | E n d p w Hd Hp | E n d refresh w Hd u
    | E n d msg u w Hd Hin Hne Hu].
  - assert (historyOf n w ⊆ <[(run, gen d) := nodeOf n (clusterData d)]> (historyOf n w)) as Hsub
      by (by apply insert_subseteq).
    apply (world_ok_step w _ n d); try done; [by apply grows_insert| | |].
    + split; [done| |by intros; apply newData_tracks].
      unfold historyOf at 1. cbn [histories]. rewrite (lookup_insert_eq (histories w)). by apply newData_sending.
    + intros m Hm. unfold historyOf. cbn. by rewrite (lookup_insert_ne (histories w)).
    + apply network_same.
  - apply world_ok_quiet; [done|]. destruct (wk_nodes _ Hw n d Hd) as [Hl Hs Ht]. split; [done| |].
    + by apply (sending_own _ d).
    + intros s Hsn. by apply (tracks_frame _ _ d); [|apply Ht].
  - apply world_ok_quiet; [done|]. destruct (wk_nodes _ Hw n d Hd) as [Hl Hs Ht].
    destruct (local_sending _ c d Hs Hsub ltac:(congruence)) as (Hl' & Hr' & Hs' & Hf).
    split; [congruence|done|]. intros s Hsn. eapply tracks_frame; [by apply Hf; congruence|by apply Ht].
  - apply world_ok_quiet; [done|]. destruct (wk_nodes _ Hw n d Hd) as [Hl Hs Ht].
    destruct (dropPeers_spec removed (updateClusterNodes added removed d) ltac:(cbn; congruence))
      as (I1 & I2 & I3 & I4 & I5 & I6 & I7 & I8).
    unfold onSubEvent. cbv zeta. set (u := foldl _ _ _) in *. clearbody u.
    set (v := u <| configNodes := members |>).
    assert (own_same d u /\ own_same u v) as [Ho1 Ho2] by (split; by split).
    assert (localNode v = n) as Hv by (unfold v; cbn; by rewrite I1). split; [done| |].
    + apply (sending_own _ u); [done|]. by apply (sending_own _ d).
    + intros s Hsn. destruct (I8 s) as [?|Hf]; [by left|]. apply (tracks_frame _ _ d); [|by apply Ht].
      transitivity (updateClusterNodes added removed d); [by split|]. transitivity u; [done|by split].
  - apply world_ok_quiet; [done|]. destruct (wk_nodes _ Hw n d Hd) as [Hl Hs Ht].
    destruct (dropPeer_spec p d ltac:(congruence)) as [Hk H0]. split; [by rewrite (kept_localNode _ _ _ Hk)| |].
    + by eapply sending_own; [eapply own_same_kept; [|exact Hk]; congruence|].
    + intros s Hsn. destruct (decide (s = p)) as [->|Hsp]; [by left|].
      eapply tracks_frame; [by apply Hk|by apply Ht].
  - destruct (wk_nodes _ Hw n d Hd) as [Hl Hs Ht].
    destruct (tick_sending refresh (historyOf n w) d Hs) as (T1 & T2 & T3 & T4 & T5 & new & T6 & T7).
    fold u in T1, T2, T3, T4, T5, T6, T7.
    set (w' := mkWorld _ _ _).
    assert (historyOf n w' = record (historyOf n w) d u) as Hhn
      by (unfold historyOf at 1; cbn [histories w']; by rewrite (lookup_insert_eq (histories w))).
    assert (forall m, m <> n -> historyOf m w' = historyOf m w) as Hhm
      by (intros m Hm; unfold historyOf; cbn; by rewrite (lookup_insert_ne (histories w))).
    apply (world_ok_step w w' n u); try done; [by apply grows_insert| |].
    + split; [congruence|by rewrite Hhn|]. intros s Hsn. rewrite Hhm by done.
      eapply tracks_frame; [by apply T5; congruence|by apply Ht].
    + cbn [network w']. rewrite (newSends_app d u new T6). apply Forall_app. split; [|apply network_same].
      eapply Forall_impl; [exact T7|]. intros msg [Hok Hab]. right.
      rewrite (ok_name _ _ _ Hok), Hl, Hhn. by rewrite <- Hl at 2 3.
  - destruct (receive_ok w n d msg Hw Hd Hin Hne) as (u' & Hu' & Hok). rewrite Hu in Hu'.
    apply (inj Some) in Hu'. subst u'. by apply world_ok_quiet.
Qed.

Lemma reachable_ok w : reachable w -> world_ok w.
Proof.
  intros Hr. assert (world_ok initial) as H0.
  { split; [apply (map_Forall_empty (M := gmap string))|constructor]. }
  revert H0. unfold reachable in Hr. generalize dependent initial. intros x Hr. induction Hr as [|x y z Hs _ IH]; [done|].
  intros Hx. apply IH. by eapply step_ok.
Qed.

(** ** A peer that asks *)

(** The peer [r] said it has no data of the node: a full message is due. *)
Record asking (r : string) (d : data) : Prop := {
  ak_gens : exists g, hbGens d !! r = Some g /\ genOf (localNode d) g = 0%N;
  ak_peer : r <> localNode d;
  ak_member : r ∈ clusterNodes d;
  ak_type : hbMessageType d <> "undef";
  ak_sendQ : hbSendQ d = true;
  ak_need : needMsg d = true }.

Lemma asking_upd r d u :
  asking r d -> hbGens u !! r = hbGens d !! r -> localNode u = localNode d -> clusterNodes u = clusterNodes d ->
  hbMessageType u = hbMessageType d -> hbSendQ u = hbSendQ d -> needMsg u = needMsg d -> asking r u.
Proof. intros [(g0 & Hg & Hz) ? ? ? ? ?] Hh Hl Hc Ht Hq Hn. split; [exists g0|..]; rewrite ?Hh, ?Hl, ?Hc, ?Ht, ?Hq, ?Hn; done. Qed.

Lemma asking_same r d u : asking r d -> same d u -> asking r u.
Proof. intros Ha Hs. apply (asking_upd r d); [done|by rewrite (same_hbGens _ _ Hs)|apply Hs..]. Qed.

Lemma asking_setLocalGen r p g d : asking r d -> asking r (setLocalGen p g d).
Proof.
  intros Ha. apply (asking_upd r d); try done. cbn. apply (lookup_insert_ne (hbGens d)).
  pose proof (ak_peer _ _ Ha). congruence.
Qed.

Section asked.
Context `{E : Env}.

Lemma asking_setCacheAndPublish r c d : asking r d -> asking r (setCacheAndPublish c d).
Proof. intros Ha. apply (asking_upd r d); try done; unfold setCacheAndPublish; by destruct (isPublished c). Qed.

Lemma asking_applyGen r p g events d : asking r d -> asking r (applyGen p g events d).
Proof.
  unfold applyGen. revert d. induction events as [|c l IH]; intros d Ha; [done|]. cbn.
  apply IH, asking_setLocalGen, asking_setCacheAndPublish, Ha.
Qed.

Lemma asking_applyGens r msg l : forall pending d, asking r d -> asking r (applyGens msg l pending d).1.
Proof.
  induction l as [|g l IH]; intros pending d Ha; [done|]. cbn [applyGens].
  destruct (_ <=? _)%N; [by apply IH|]. destruct (_ <? _)%N; [by apply asking_setLocalGen|].
  apply IH. eapply asking_upd; [by apply (asking_applyGen r (Nodename msg) g (default [] (Events msg !! g)))|done..].
Qed.

Lemma asking_applyMsgEvents r msg d u : asking r d -> applyMsgEvents msg d = Some u -> asking r u.
Proof.
  intros Ha. unfold applyMsgEvents. cbv zeta.
  pose proof (asking_applyGens r msg (sortGen msg) (applied (Nodename msg) d) d Ha) as Hk.
  destruct (applyGens _ _ _ _) as [v ok]. cbn in Hk. intros Hu.
  repeat case_match; simplify_eq; try done; [by apply asking_setLocalGen..|]. by apply (asking_upd r v).
Qed.

Lemma asking_applyNodeData r msg d : asking r d -> asking r (applyNodeData msg d).
Proof.
  intros Ha. unfold applyNodeData. cbv zeta.
  eapply asking_same; [|apply same_pubPeerDataChanges; reflexivity].
  set (d1 := d <| clusterData ::= _ |>). assert (asking r d1) as H1 by (by apply (asking_upd r d)). clearbody d1.
  set (d2 := setLocalGen _ _ d1). assert (asking r d2) as H2 by (by apply asking_setLocalGen). clearbody d2.
  by apply (asking_upd r d2).
Qed.

Lemma asking_setFromPeerMsg r ty l g d :
  r <> localNode d -> r ∈ clusterNodes d -> hbMessageType d <> "undef" -> hbSendQ d = true ->
  genOf (localNode d) g = 0%N -> applied (localNode d) d <> 0%N -> asking r (setFromPeerMsg r ty l g d).
Proof.
  intros Hr Hm Hty Hq Hg Hn. unfold setFromPeerMsg. cbv zeta.
  set (u := setHbMsgPatchLength r l (setHbMsgType r ty d)).
  assert (same d u) as Hs by (apply same_setHbMsgPatchLength, same_setHbMsgType; reflexivity). clearbody u.
  pose proof Hs as [Sc Sh _ Sl _ _ _ _ Scn St _ Sq _].
  set (v := u <| hbGens ::= <[r := g]> |>).
  assert (localNode v = localNode d /\ applied (localNode d) v = applied (localNode d) d) as [Vl Va].
  { split; [done|]. unfold applied, localGens, v. cbn.
    rewrite (lookup_insert_ne (hbGens u)) by congruence. by rewrite Sh, Sl. }
  rewrite Vl, Hg, Va.
  assert ((0 =? applied (localNode d) d)%N = false) as -> by (apply N.eqb_neq; congruence).
  assert (asking r (v <| needMsg := true |>)) as Ha.
  { split; cbn; rewrite ?Sl, ?Scn, ?St, ?Sq; try done.
    exists g. split; [apply (lookup_insert_eq (hbGens u))|done]. }
  destruct (_ =? _)%N; [done|]. by apply (asking_upd r (v <| needMsg := true |>)).
Qed.

Lemma receive_asking msg d u :
  let r := Nodename msg in
  r <> localNode d -> isMember r d = true -> (acceptPeerRun msg d).2 = true ->
  one_of (Kind msg) ["ping"; "patch"; "full"] = true -> genOf (localNode d) (Msg_Gen msg) = 0%N ->
  hbMessageType d <> "undef" -> hbSendQ d = true -> applied (localNode d) d <> 0%N ->
  receive msg d = Some u -> asking r u.
Proof.
  cbv zeta. intros Hr Hm Hacc Hk Hg Hty Hq Hn. unfold receive. rewrite Hm. unfold onReceiveHbMsg. cbv zeta.
  pose proof (kept_acceptPeerRun msg d) as Ha.
  assert (let v := (acceptPeerRun msg d).1 in
    clusterNodes v = clusterNodes d /\ hbMessageType v = hbMessageType d /\ hbSendQ v = hbSendQ d) as (V1 & V2 & V3).
  { unfold acceptPeerRun, switchPeerRun. cbv zeta. by repeat case_match. }
  destruct (acceptPeerRun msg d) as [d1 ok]. cbn in Hacc, Ha, V1, V2, V3. subst ok. cbn [negb].
  apply bool_decide_eq_true in Hm.
  assert (forall ty l, asking (Nodename msg) (setFromPeerMsg (Nodename msg) ty l (Msg_Gen msg) d1)) as Hset.
  { intros ty l. pose proof (kept_localNode _ _ _ Ha) as Hl.
    apply asking_setFromPeerMsg; rewrite ?Hl; try congruence.
    rewrite (frame_applied _ _ _ (kept_frame _ _ _ Ha (localNode d) ltac:(congruence))). done. }
  destruct (String.eqb (Kind msg) "patch") eqn:E1.
  { destruct (applyMsgEvents _ _) as [w|] eqn:Hw; [|done]. cbn [mbind option_bind].
    intros ?%(inj Some); subst u. apply asking_applyMsgEvents with (r := Nodename msg) in Hw; [|done].
    by apply (asking_upd _ w). }
  destruct (String.eqb (Kind msg) "full") eqn:E2.
  { set (v := setFromPeerMsg _ _ _ _ _). assert (asking (Nodename msg) v) as Hv by apply Hset. clearbody v.
    destruct (_ =? _)%N; [by intros ?%(inj Some); subst u|].
    destruct (_ <=? _)%N; [|intros ?%(inj Some); subst u; by apply asking_applyNodeData].
    destruct (applyMsgEvents _ _) as [w|] eqn:Hw; [|done]. cbn [mbind option_bind].
    apply asking_applyMsgEvents with (r := Nodename msg) in Hw; [|done].
    destruct (_ =? _)%N; intros ?%(inj Some); subst u; [done|by apply asking_applyNodeData]. }
  destruct (String.eqb (Kind msg) "ping") eqn:E3.
  2:{ apply String.eqb_neq in E1, E2, E3. apply one_of_spec in Hk. set_solver. }
  intros ?%(inj Some); subst u. by eapply asking_upd; [apply (Hset (Kind msg) 0%nat)|done..].
Qed.

Lemma nextMsgType_asking r d : asking r d -> is_Some (hbGens d !! localNode d) -> (nextMsgType d).2 = "full".
Proof.
  intros [(g & Hg & Hz) Hr Hm Hty _ _] Hl. unfold nextMsgType.
  destruct (String.eqb_spec (hbMessageType d) "undef"); [done|].
  assert (Nat.leb (size (hbGens d)) 1 = false) as ->.
  { apply Nat.leb_gt. assert (size (delete r (hbGens d)) <> 0) as Hs.
    { apply map_size_non_empty_iff. intros Hd. destruct Hl as [x Hx].
      assert (delete r (hbGens d) !! localNode d = Some x) as Hx' by (by rewrite (lookup_delete_ne (hbGens d))).
      by rewrite Hd in Hx'. }
    rewrite map_size_delete_Some in Hs by eauto. lia. }
  cbn [snd]. assert (remoteNeedFull (cleanupHbGens d) = true) as ->; [|done].
  unfold remoteNeedFull. apply existsb_exists. exists (r, g). split.
  - apply list_elem_of_In, elem_of_map_to_list. cbn. apply map_lookup_filter_Some. split; [done|]. by right.
  - cbn. rewrite (proj2 (String.eqb_neq _ _)) by done. apply N.eqb_eq. exact Hz.
Qed.

Lemma setNextMsgType_asking r d : asking r d -> is_Some (hbGens d !! localNode d) ->
  hbMessageType (setNextMsgType d) = "full" /\ hbSendQ (setNextMsgType d) = true.
Proof.
  intros Ha Hl. pose proof (nextMsgType_asking r d Ha Hl) as Hn. pose proof (ak_sendQ _ _ Ha) as Hq.
  assert (hbMessageType (nextMsgType d).1 = hbMessageType d /\ hbSendQ (nextMsgType d).1 = hbSendQ d) as [H1 H2]
    by (unfold nextMsgType; by repeat case_match).
  unfold setNextMsgType. destruct (nextMsgType d) as [v ty]. cbn in Hn, H1, H2. subst ty.
  destruct (String.eqb_spec "full" (hbMessageType v)) as [He|_]; [split; congruence|].
  set (w := v <| hbMessageType := "full" |>).
  assert (same w (setHbMsgType (localNode w) "full" w)) as Hs by (apply same_setHbMsgType; reflexivity).
  change (setHbMsgType (localNode v) "full" w) with (setHbMsgType (localNode w) "full" w).
  rewrite (same_hbMessageType _ _ Hs), (same_hbSendQ _ _ Hs). split; [done|]. cbn. congruence.
Qed.

Lemma queueNewHbMsg_asking r d : asking r d -> is_Some (hbGens d !! localNode d) ->
  let '(u, ok) := queueNewHbMsg d in
  ok = true /\ exists new m, trace u = (new ++ trace d)%list /\ sends new = [m] /\ Kind m = "full" /\ says d m.
Proof.
  intros Ha Hl. destruct (setNextMsgType_asking r d Ha Hl) as [Hty Hq].
  unfold queueNewHbMsg. pose proof (getHbMessage_spec d) as Hg. unfold getHbMessage in *. cbv zeta in *.
  rewrite Hty in *. cbn [String.eqb Ascii.eqb Bool.eqb] in *.
  destruct Hg as (Ht & (new & Hn & Hs) & Hm). set (v := setHbMsgPatchLength _ _ _) in *.
  assert (hbSendQ v = true) as Hqv by exact Hq. clearbody v.
  match goal with |- context [emit (Send ?m)] => set (msg := m) in * end. destruct (Hm msg eq_refl) as [Hsay _].
  change (hbSendQ (v <| msgLocalGen := Msg_Gen msg |>)) with (hbSendQ v). rewrite Hqv. split; [done|].
  exists (Send msg :: new)%list, msg. split; [cbn; by rewrite Hn|]. split; [cbn; by fold (sends new); rewrite Hs|].
  split; [done|]. by eapply says_ticked.
Qed.

Lemma commit_asking r d : asking r d ->
  asking r (commitPendingOps d).1 /\ is_Some (hbGens (commitPendingOps d).1 !! localNode d).
Proof.
  intros Ha. pose proof (ak_peer _ _ Ha) as Hr. unfold commitPendingOps.
  match goal with |- context [hbMessageType ?v] => set (c := v) end.
  assert (asking r c /\ localNode c = localNode d) as [Hc Hlc].
  { subst c. destruct (negb _); [|done]. split; [|done].
    set (d1 := d <| gen ::= N.succ |>). assert (asking r d1) as H1 by (by apply (asking_upd r d)).
    apply (asking_upd r (setLocalGen (localNode d) (gen d1) d1)); try done. by apply asking_setLocalGen. }
  clearbody c. cbv zeta. set (e := if one_of _ _ then _ else _).
  assert (asking r e /\ localNode e = localNode d) as [He Hle].
  { subst e. destruct (one_of _ _); [destruct (negb _)|]; by split; [apply (asking_upd r c)|]. }
  clearbody e. cbn [fst]. split; [by apply asking_setLocalGen|]. cbn. rewrite Hle.
  by rewrite (lookup_insert_eq (hbGens e)).
Qed.

Lemma tick_asking r refresh d : asking r d ->
  exists m, newSends d (onTick refresh d) = [m] /\ Kind m = "full" /\ says (commitPendingOps d).1 m.
Proof.
  intros Ha. destruct (commit_asking r d Ha) as [Hc Hl]. pose proof (commit_spec d) as C.
  destruct (onTick_eq refresh d) as (c2 & need & Hs & (new & Hn & Hs0) & Heq).
  destruct (commitPendingOps d) as [c ?]. cbn [fst] in *. rewrite <- (cm_localNode _ _ C) in Hl.
  pose proof (asking_same _ _ _ Hc Hs) as Ha2. rewrite (ak_need _ _ Ha2), orb_true_r in Heq.
  pose proof (queueNewHbMsg_asking r c2 Ha2
    ltac:(by rewrite (same_hbGens _ _ Hs), (same_localNode _ _ Hs))) as Hq.
  destruct (queueNewHbMsg c2) as [u ok]. destruct Hq as (-> & new' & m & Hn' & Hs' & Hk & Hsay).
  rewrite Heq.
  exists m. split; [|split; [done|by eapply says_ticked; [apply ticked_same|]]].
  rewrite (newSends_app d _ (new' ++ new)%list).
  - unfold sends in *. by rewrite omap_app, Hs', Hs0.
  - cbn. by rewrite Hn', Hn, (cm_trace _ _ C), app_assoc.
Qed.

End asked.

(** ** What the replication guarantees *)

(** C2: in every reachable cluster, whatever the network lost, delayed, reordered or duplicated and
    whoever restarted, a node that says it has applied a generation of a peer
    holds exactly the data the peer committed as that generation of the run the
    node knows of, but for what each node writes of its own in it. *)
Theorem replica_faithful w r s d :
  reachable w -> nodes w !! r = Some d -> s <> r -> applied s d <> 0%N ->
  exists run m, run_id <$> peerRuns d !! s = Some run /\
    historyOf s w !! (run, applied s d) = Some m /\ clusterData d !! s ≡ Some m.
Proof.
  intros Hw%reachable_ok Hd Hs Hn. destruct (wk_nodes _ Hw r d Hd) as [_ _ Ht].
  destruct (Ht s Hs) as [?|(run & g & Hg)]; [done|]. exists run.
  destruct Hg as [_ -> Hr (m & Hm & Hc)]. by exists m.
Qed.

(** C21: when the last generation of a peer is the one applied and nothing is
    pending on the peer, the two nodes hold the same data of it. *)
Theorem in_sync_equal w r s dr ds :
  reachable w -> nodes w !! r = Some dr -> nodes w !! s = Some ds -> s <> r ->
  pendingEvs ds = [] -> applied s dr = gen ds -> run_id <$> peerRuns dr !! s = Some (runID ds) ->
  clusterData dr !! s ≡ clusterData ds !! s.
Proof.
  intros Hw%reachable_ok Hr Hs Hne Hp Ha Hrun.
  destruct (wk_nodes _ Hw r dr Hr) as [_ _ Ht]. destruct (wk_nodes _ Hw s ds Hs) as [Hl Hsend _].
  destruct (send_data _ _ Hsend) as (m & n & Hm & Hn & Htu & _). rewrite Hl, Hp in *.
  pose proof (tracks_at _ _ _ dr (Ht s Hne) ltac:(rewrite Ha; apply Hsend) Hrun) as Hg.
  destruct (at_data _ _ _ _ _ Hg) as (m' & Hm' & Hd). rewrite Ha in Hm'. assert (m' = m) as -> by congruence.
  rewrite Hd, Hn. unfold turns, replay in Htu. cbn in Htu. by rewrite (lookup_singleton_eq (M := gmap string)) in Htu.
Qed.

(** C31: the reception of a message never panics, whenever it arrives. *)
Theorem receive_no_panic (E : Env) w n d msg :
  reachable w -> nodes w !! n = Some d -> msg ∈ network w -> Nodename msg <> n -> is_Some (receive msg d).
Proof.
  intros Hw%reachable_ok Hd Hin Hne. destruct (receive_ok w n d msg Hw Hd Hin Hne) as (u & Hu & _). by exists u.
Qed.

(** A full message whose run is accepted brings the replica to its
    generation, whatever the state it is received in. *)
Theorem full_catches_up (E : Env) w n d msg :
  reachable w -> nodes w !! n = Some d -> msg ∈ network w -> Nodename msg <> n ->
  isMember (Nodename msg) d = true -> Kind msg = "full" -> (acceptPeerRun msg d).2 = true ->
  exists u, receive msg d = Some u /\ applied (Nodename msg) u = genOf (Nodename msg) (Msg_Gen msg) /\
    clusterData u !! Nodename msg ≡ Some (NodeData msg).
Proof.
  intros Hw%reachable_ok Hd Hin Hne Hm Hk Hacc. destruct (wk_nodes _ Hw n d Hd) as [Hl _ Ht].
  pose proof (wk_network _ Hw) as Hnet. rewrite Forall_forall in Hnet. destruct (Hnet msg Hin) as [Hok _].
  destruct (receive_full _ _ msg d Hok ltac:(congruence) (Ht _ Hne) Hm Hk Hacc) as (u & Hu & Hg).
  exists u. split; [done|]. split; [apply Hg|]. destruct (at_data _ _ _ _ _ Hg) as (m & Hm' & ->).
  destruct (ok_full _ _ _ Hok Hk) as (_ & m' & Hm2 & Heq). assert (m' = m) as -> by congruence.
  by constructor.
Qed.

(** C30: A node with a send queue, a known message type and data of its own applied, that
    receives from a peer of its cluster a ping, patch or full message of an accepted run that
    tells no generation of the node, sends at the tick that comes next one message, full, with
    the data and the generation that tick commits. *)
Theorem request_gets_full (E : Env) msg d u refresh :
  Nodename msg <> localNode d -> isMember (Nodename msg) d = true -> (acceptPeerRun msg d).2 = true ->
  one_of (Kind msg) ["ping"; "patch"; "full"] = true -> genOf (localNode d) (Msg_Gen msg) = 0%N ->
  hbMessageType d <> "undef" -> hbSendQ d = true -> applied (localNode d) d <> 0%N ->
  receive msg d = Some u ->
  let v := onTick refresh u in
  exists m, newSends u v = [m] /\ Kind m = "full" /\ Nodename m = localNode v /\ RunID m = runID v /\
    genOf (localNode v) (Msg_Gen m) = gen v /\ NodeData m = nodeOf (localNode v) (clusterData v).
Proof.
  intros Hne Hm Hacc Hk Hg Hty Hq Hn Hu. cbv zeta.
  pose proof (receive_asking msg d u Hne Hm Hacc Hk Hg Hty Hq Hn Hu) as Ha.
  destruct (tick_asking _ refresh u Ha) as (m & Hs & Hkm & Hsay). exists m. split; [done|]. split; [done|].
  destruct (onTick_spec refresh u) as [Ht _]. pose proof (commit_spec u) as C.
  set (c := (commitPendingOps u).1) in *. clearbody c. destruct Ht as [Tc _ _ Tl Tg _ _ Tr].
  destruct Hsay as [Y1 Y2 Y3 _ Y5]. rewrite Tl, Tr, Tc, Tg. split; [done|]. split; [done|]. split; [|by apply Y5].
  rewrite Y3. pose proof (cm_applied _ _ C) as H. unfold applied in H. by rewrite (cm_localNode _ _ C).
Qed.

(** The copies of one message of a previous run, delivered late, are all
    dropped, however many and whenever they arrive. *)
Theorem late_copies_dropped (envs : list Env) msg d known :
  RunID msg <> "" -> peerRuns d !! Nodename msg = Some known -> run_id known <> RunID msg ->
  time.After (UpdatedAt msg) (run_updatedAt known) = false -> peerRunCandidates d !! Nodename msg = None ->
  exists c, foldl (fun o E => d ← o; @receive E msg d) (Some d) envs = Some (d <| peerRunCandidates := c |>).
Proof.
  intros Hr Hk Hne Hlate Hc.
  assert (forall l c, (forall x, c !! Nodename msg = Some x -> cand_id x = RunID msg ->
      cand_updatedAt x = UpdatedAt msg /\ cand_count x = 1%Z) ->
    exists c', foldl (fun o E => d ← o; @receive E msg d) (Some (d <| peerRunCandidates := c |>)) l
               = Some (d <| peerRunCandidates := c' |>)) as Hind.
  2:{ destruct (Hind envs (peerRunCandidates d)) as (c' & Hc'); [intros x Hx; congruence|].
      exists c'. rewrite <- Hc'. by destruct d. }
  induction l as [|E l IH]; intros c Hinv; [by exists c|]. cbn [foldl mbind option_bind].
  assert (exists c', @receive E msg (d <| peerRunCandidates := c |>) = Some (d <| peerRunCandidates := c' |>) /\
    forall x, c' !! Nodename msg = Some x -> cand_id x = RunID msg ->
      cand_updatedAt x = UpdatedAt msg /\ cand_count x = 1%Z) as (c' & -> & Hc'); [|by apply IH].
  unfold receive. destruct (isMember _ _); [|by exists c]. unfold onReceiveHbMsg, acceptPeerRun. cbv zeta.
  rewrite (proj2 (String.eqb_neq _ _) Hr). change (peerRuns (d <| peerRunCandidates := c |>)) with (peerRuns d).
  rewrite Hk, (proj2 (String.eqb_neq _ _) Hne), Hlate.
  change (peerRunCandidates (d <| peerRunCandidates := c |>)) with c.
  set (x := nextCandidate _ msg (c !! Nodename msg)).
  assert (cand_updatedAt x = UpdatedAt msg /\ cand_count x = 1%Z) as [Hxu Hxc].
  { unfold x, nextCandidate. destruct (c !! Nodename msg) as [y|] eqn:Hy; [|done].
    destruct (String.eqb_spec (cand_id y) (RunID msg)) as [Hyr|_]; [|done]. cbn [negb orb].
    destruct (Hinv y eq_refl Hyr) as [Hyu Hyc]. destruct (_ <? _)%Z; [done|].
    rewrite Hyu. unfold time.After. rewrite Z.ltb_irrefl. done. }
  rewrite Hxc. cbn [Z.leb peerRunConfirmCount Z.compare Pos.compare Pos.compare_cont negb].
  exists (<[Nodename msg := x]> c). split; [done|]. intros y Hy. rewrite (lookup_insert_eq c) in Hy.
  apply (inj Some) in Hy. by subst y.
Qed.

(** ** Scenarios *)

Module example.

#[local] Instance E : Env := {|
  Now := fun tr => Z.of_nat (length tr);
  clusternodes := fun _ => ["a"; "b"];
  heartbeats := fun _ => "";
  rangeOrder := fun _ l => l;
  rangeOrder_perm := fun _ l => Permutation_refl l |}.

Definition caches0 : Caches := mkCaches ∅ ∅ ∅ ∅ ∅ ∅ ∅ ∅ ∅ ∅ ∅ ∅ ∅ ∅ ∅ ∅ ∅.

Inductive action :=
| Restart (n run : string)
| Connect (n : string)
| Change (n : string) (c : Msg)
| Tick (n : string)
| Deliver (n : string) (i : nat).

(** The step of an action: [Deliver n i] is of the message [i] of the network,
    newest first. *)
Definition act (a : action) (w : world) : option world :=
  match a with
  | Restart n run =>
      if negb (String.eqb run "") && bool_decide (map_Forall (fun k _ => k.1 <> run) (historyOf n w)) then
        let d := newData n run ["a"; "b"] zero_Node caches0 in
        Some (mkWorld (<[n := d]> (nodes w))
                (<[n := <[(run, gen d) := nodeOf n (clusterData d)]> (historyOf n w)]> (histories w)) (network w))
      else None
  | Connect n => d ← nodes w !! n; Some (mkWorld (<[n := SetHBSendQ true d]> (nodes w)) (histories w) (network w))
  | Change n c =>
      d ← nodes w !! n;
      if subscribed c && String.eqb (msgNode c) n
      then Some (mkWorld (<[n := onSubEvent (LocalMsg c) d]> (nodes w)) (histories w) (network w)) else None
  | Tick n =>
      d ← nodes w !! n;
      let u := onTick false d in
      Some (mkWorld (<[n := u]> (nodes w)) (<[n := record (historyOf n w) d u]> (histories w))
              (newSends d u ++ network w)%list)
  | Deliver n i =>
      d ← nodes w !! n; msg ← network w !! i;
      if String.eqb (Nodename msg) n then None else
      u ← receive msg d;
      Some (mkWorld (<[n := u]> (nodes w)) (histories w) (network w))
  end.

Lemma act_step a w w' : act a w = Some w' -> step w w'.
Proof.
  destruct a as [n run|n|n c|n|n i] ; cbn [act]; intros Ha.
  - destruct (String.eqb_spec run "") as [|Hr]; cbn [negb andb] in Ha; [done|].
    case_bool_decide as Hf; [|done]. apply (inj Some) in Ha. subst w'.
    apply (restart E n run ["a"; "b"] zero_Node caches0); [done|]. intros g. destruct (historyOf n w !! (run, g)) eqn:Hg; [|done]. by destruct (Hf _ _ Hg).
  - destruct (nodes w !! n) as [d|] eqn:Hd; [|done]. cbn [mbind option_bind] in Ha. apply (inj Some) in Ha. subst w'. exact (setHBSendQ n d true w Hd).
  - destruct (nodes w !! n) as [d|] eqn:Hd; [|done]. cbn [mbind option_bind] in Ha. destruct (subscribed c) eqn:Hs; [|done].
    destruct (String.eqb_spec (msgNode c) n); [|done]. cbn [andb] in Ha. apply (inj Some) in Ha. subst w'. by apply (local E n d).
  - destruct (nodes w !! n) as [d|] eqn:Hd; [|done]. cbn [mbind option_bind] in Ha. apply (inj Some) in Ha. subst w'. exact (tick E n d false w Hd).
  - destruct (nodes w !! n) as [d|] eqn:Hd; [|done]. cbn [mbind option_bind] in Ha.
    destruct (network w !! i) as [msg|] eqn:Hm; [|done]. cbn [mbind option_bind] in Ha.
    destruct (String.eqb_spec (Nodename msg) n); [done|].
    destruct (receive msg d) as [u|] eqn:Hu; [|done]. cbn [mbind option_bind] in Ha. apply (inj Some) in Ha. subst w'.
    apply (deliver E n d msg); try done. by eapply list_elem_of_lookup_2.
Qed.

Definition play (l : list action) : option world := foldl (fun o a => w ← o; act a w) (Some initial) l.
Definition worldOf (l : list action) : world := default initial (play l).
Definition dataOf (n : string) (l : list action) : data :=
  default (newData n "" [] zero_Node caches0) (nodes (worldOf l) !! n).

Lemma play_reachable l : reachable (worldOf l).
Proof.
  unfold worldOf. destruct (play l) as [w|] eqn:Hp; [|apply rtc_refl].
  revert w Hp. unfold play. induction l as [|a l IH] using rev_ind; intros w Hp.
  - cbn in Hp. simplify_eq. apply rtc_refl.
  - rewrite foldl_app in Hp. cbn in Hp. destruct (foldl _ _ l) as [v|]; [|done]. cbn in Hp.
    eapply rtc_r; [by apply IH|]. by eapply act_step.
Qed.

Lemma dataOf_lookup n l : bool_decide (is_Some (nodes (worldOf l) !! n)) = true ->
  nodes (worldOf l) !! n = Some (dataOf n l).
Proof. intros [d Hd]%bool_decide_eq_true. unfold dataOf. by rewrite Hd. Qed.

(** Two nodes start, [a] sends its data to [b], then a change of it; [b]
    misses nothing. *)
Definition opening : list action :=
  [Restart "a" "a1"; Restart "b" "b1"; Connect "a"; Connect "b"; Tick "b"; Tick "a"; Deliver "a" 1].
Definition joined : list action := (opening ++ [Tick "a"; Deliver "b" 0; Tick "b"; Deliver "a" 0])%list.
Definition changed : list action :=
  (joined ++ [Change "a" (NodeStatsUpdated "a" (node.mkStats 1 2 3)); Tick "a"])%list.
Definition patched : list action := (changed ++ [Deliver "b" 0])%list.

(** Opens the hypotheses that compute. *)
Ltac by_run := apply (bool_decide_eq_true_1 _); vm_compute; reflexivity.

Definition headOf (l : list action) : HbMsg :=
  default (mkHbMsg "" ∅ time.zero ∅ zero_Node "" "") (network (worldOf l) !! 0).

Lemma headOf_in l : bool_decide (network (worldOf l) = []) = false -> headOf l ∈ network (worldOf l).
Proof.
  intros Hn%bool_decide_eq_false. unfold headOf. destruct (network (worldOf l)); [done|]. cbn. left.
Qed.

Lemma replica_faithful_witness : exists run m,
  run_id <$> peerRuns (dataOf "b" patched) !! "a" = Some run /\
  historyOf "a" (worldOf patched) !! (run, applied "a" (dataOf "b" patched)) = Some m /\
  clusterData (dataOf "b" patched) !! "a" ≡ Some m.
Proof.
  apply (replica_faithful (worldOf patched) "b" "a" (dataOf "b" patched)).
  - apply play_reachable.
  - apply dataOf_lookup. by vm_compute.
  - done.
  - by_run.
Defined.

Lemma in_sync_equal_witness : Stats_ (nodeOf "a" (clusterData (dataOf "b" patched))) = node.mkStats 1 2 3 /\
  clusterData (dataOf "b" patched) !! "a" ≡ clusterData (dataOf "a" patched) !! "a".
Proof.
  split; [by vm_compute|].
  apply (in_sync_equal (worldOf patched) "b" "a" (dataOf "b" patched) (dataOf "a" patched)).
  - apply play_reachable.
  - apply dataOf_lookup. by vm_compute.
  - apply dataOf_lookup. by vm_compute.
  - done.
  - by vm_compute.
  - by vm_compute.
  - by vm_compute.
Defined.

Lemma receive_no_panic_witness : Kind (headOf changed) = "patch" /\ is_Some (receive (headOf changed) (dataOf "b" changed)).
Proof.
  split; [by vm_compute|].
  apply (receive_no_panic E (worldOf changed) "b" (dataOf "b" changed) (headOf changed)).
  - apply play_reachable.
  - apply dataOf_lookup. by vm_compute.
  - apply headOf_in. by vm_compute.
  - by_run.
Defined.

(** The first full message of [a]. *)
Definition told : list action := (opening ++ [Tick "a"])%list.

Lemma full_catches_up_witness : exists u, receive (headOf told) (dataOf "b" told) = Some u /\
  applied (Nodename (headOf told)) u = genOf (Nodename (headOf told)) (Msg_Gen (headOf told)) /\
  clusterData u !! Nodename (headOf told) ≡ Some (NodeData (headOf told)).
Proof.
  apply (full_catches_up E (worldOf told) "b" (dataOf "b" told) (headOf told)).
  - apply play_reachable.
  - apply dataOf_lookup. by vm_compute.
  - apply headOf_in. by vm_compute.
  - by_run.
  - by vm_compute.
  - by vm_compute.
  - by vm_compute.
Defined.

(** [a] before it knows of [b], and the ping of [b]. *)
Definition alone : list action :=
  [Restart "a" "a1"; Restart "b" "b1"; Connect "a"; Connect "b"; Tick "a"; Tick "b"].

Lemma request_gets_full_witness :
  let u := default (dataOf "a" alone) (receive (headOf alone) (dataOf "a" alone)) in
  let v := onTick false u in
  exists m, newSends u v = [m] /\ Kind m = "full" /\ Nodename m = localNode v /\ RunID m = runID v /\
    genOf (localNode v) (Msg_Gen m) = gen v /\ NodeData m = nodeOf (localNode v) (clusterData v).
Proof.
  intros u. apply (request_gets_full E (headOf alone) (dataOf "a" alone) u false).
  - by_run.
  - by vm_compute.
  - by vm_compute.
  - by vm_compute.
  - by vm_compute.
  - by_run.
  - by vm_compute.
  - by_run.
  - unfold u. assert (is_Some (receive (headOf alone) (dataOf "a" alone))) as [x Hx]; [|by rewrite Hx].
    destruct (receive (headOf alone) (dataOf "a" alone)) eqn:Hr; [by eexists|].
    assert (bool_decide (is_Some (receive (headOf alone) (dataOf "a" alone))) = true) as Hc by (by vm_compute).
    by rewrite Hr in Hc.
Defined.

(** A message of a run of [a] that [b] never saw, stamped before. *)
Definition stale : HbMsg := mkHbMsg "full" {["a" := 7%N]} (-5)%Z ∅ zero_Node "a" "a0".

Lemma late_copies_dropped_witness : exists c,
  foldl (fun o E => d ← o; @receive E stale d) (Some (dataOf "b" patched)) [E; E; E; E; E] =
    Some ((dataOf "b" patched) <| peerRunCandidates := c |>).
Proof.
  apply (late_copies_dropped [E; E; E; E; E] stale (dataOf "b" patched)
           (default (mkPeerRun "" time.zero) (peerRuns (dataOf "b" patched) !! "a"))).
  - done.
  - by vm_compute.
  - by_run.
  - by vm_compute.
  - by vm_compute.
Defined.

End example.
End replicas.
