(* ===== verification/Calendar.v ===== *)
(** * The calendar of the Go [time] package

    The dates of a [time.Time], in a location with no offset and no
    transitions.  A date is a day number, 0 on Monday, January 1st of year 1,
    and the time since its midnight.  The functions follow the divisions of the
    package; [civil_day] and [day_civil] show that they are inverse. *)

From S2P Require Import Prelude.

Open Scope Z_scope.

Module calendar.

Definition Day : time.Duration := (24 * time.Hour)%Z.

Lemma Day_pos : 0 < Day.
Proof. done. Qed.

(** The day number of a time, and the time since its midnight, which is
    [tm.Sub(time.Date(tm.Year(), tm.Month(), tm.Day(), 0, 0, 0, 0, tm.Location()))]. *)
Definition dayOf (t : time.Time) : Z := t / Day.
Definition clock (t : time.Time) : time.Duration := t mod Day.

Definition isLeap (year : Z) : bool :=
  (year mod 4 =? 0) && (negb (year mod 100 =? 0) || (year mod 400 =? 0)).

(** The days of a year before a month, 13 being the next year. *)
Definition daysBefore : list Z := [0; 31; 59; 90; 120; 151; 181; 212; 243; 273; 304; 334; 365].
Definition daysBeforeMonth (year month : Z) : Z :=
  nth (Z.to_nat (month - 1)) daysBefore 0 + (if isLeap year && (2 <? month) then 1 else 0).
Definition daysIn (year month : Z) : Z := daysBeforeMonth year (month + 1) - daysBeforeMonth year month.

Definition daysBeforeYear (year : Z) : Z :=
  let y := year - 1 in 365 * y + y / 4 - y / 100 + y / 400.

(** [time.Date], on the day: months and days out of their range carry over. *)
Definition dayNumber (year month day : Z) : Z :=
  let y := year + (month - 1) / 12 in
  let m := (month - 1) mod 12 + 1 in
  daysBeforeYear y + daysBeforeMonth y m + (day - 1).

Definition Date (year month day : Z) (clock : time.Duration) : time.Time := dayNumber year month day * Day + clock.

(** The year of a day and the day of the year, from 0: cycles of 400, 100, 4
    and 1 years. *)
Definition yearDay (d : Z) : Z * Z :=
  let n400 := d / 146097 in
  let d := d mod 146097 in
  let n100 := Z.min 3 (d / 36524) in
  let d := d - 36524 * n100 in
  let n4 := d / 1461 in
  let d := d mod 1461 in
  let n1 := Z.min 3 (d / 365) in
  (400 * n400 + 100 * n100 + 4 * n4 + n1 + 1, d - 365 * n1).

(** The month of a day of a year: the last one that starts before. *)
Fixpoint monthFrom (n : nat) (year yday : Z) : Z :=
  match n with
  | O => 1
  | S n' => if daysBeforeMonth year (Z.of_nat n) <=? yday then Z.of_nat n else monthFrom n' year yday
  end.

Definition civil (d : Z) : Z * Z * Z :=
  let '(year, yday) := yearDay d in
  let month := monthFrom 12 year yday in
  (year, month, yday - daysBeforeMonth year month + 1).

Definition Year (t : time.Time) : Z := (civil (dayOf t)).1.1.
Definition Month (t : time.Time) : Z := (civil (dayOf t)).1.2.
Definition DayOfMonth (t : time.Time) : Z := (civil (dayOf t)).2.
Definition YearDay (t : time.Time) : Z := (yearDay (dayOf t)).2 + 1.

(** [Weekday], 0 on sundays. *)
Definition Weekday (t : time.Time) : Z := (dayOf t + 1) mod 7.

(** [ISOWeek]: that of the thursday of the same week, a week from monday. *)
Definition ISOWeek (t : time.Time) : Z * Z :=
  let d := dayOf t in
  let '(year, yday) := yearDay (d - d mod 7 + 3) in
  (year, yday / 7 + 1).

Definition AddDate (t : time.Time) (years months days : Z) : time.Time :=
  Date (Year t + years) (Month t + months) (DayOfMonth t + days) (clock t).

(** ** The year *)

Lemma yearDay_spec d : 0 <= d ->
  let '(year, yday) := yearDay d in
  1 <= year /\ daysBeforeYear year + yday = d /\ 0 <= yday < 365 + (if isLeap year then 1 else 0).
Proof.
  intros Hd. unfold yearDay.
  set (a := d / 146097). set (r := d mod 146097).
  assert (d = 146097 * a + r /\ 0 <= r < 146097 /\ 0 <= a) as (Ha & Hr & Ha0).
  { subst a r. pose proof (Z.div_mod d 146097 ltac:(lia)). pose proof (Z.mod_pos_bound d 146097 ltac:(lia)).
    split; [lia|]. split; [lia|]. apply Z.div_pos; lia. }
  clearbody a r. set (b := Z.min 3 (r / 36524)).
  assert (0 <= b <= 3 /\ 0 <= r - 36524 * b /\ (b < 3 -> r - 36524 * b < 36524) /\
          (b = 3 -> r - 36524 * b <= 36524)) as (Hb & Hb0 & Hb1 & Hb2).
  { subst b. pose proof (Z.div_mod r 36524 ltac:(lia)). pose proof (Z.mod_pos_bound r 36524 ltac:(lia)).
    pose proof (Z.div_pos r 36524 ltac:(lia) ltac:(lia)). lia. }
  clearbody b. set (s := r - 36524 * b) in *. assert (r = 36524 * b + s) as Hrs by lia. clearbody s.
  set (c := s / 1461). set (q := s mod 1461).
  assert (s = 1461 * c + q /\ 0 <= q < 1461 /\ 0 <= c <= 24) as (Hs & Hq & Hc).
  { subst c q. pose proof (Z.div_mod s 1461 ltac:(lia)). pose proof (Z.mod_pos_bound s 1461 ltac:(lia)). lia. }
  clearbody c q. set (e := Z.min 3 (q / 365)).
  assert (0 <= e <= 3 /\ 0 <= q - 365 * e /\ (e < 3 -> q - 365 * e < 365) /\
          (e = 3 -> q - 365 * e <= 365)) as (He & He0 & He1 & He2).
  { subst e. pose proof (Z.div_mod q 365 ltac:(lia)). pose proof (Z.mod_pos_bound q 365 ltac:(lia)).
    pose proof (Z.div_pos q 365 ltac:(lia) ltac:(lia)). lia. }
  clearbody e.
  assert ((400 * a + 100 * b + 4 * c + e) / 4 = 100 * a + 25 * b + c) as D4
    by (symmetry; apply (Z.div_unique _ _ _ e); lia).
  assert ((400 * a + 100 * b + 4 * c + e) / 100 = 4 * a + b) as D100
    by (symmetry; apply (Z.div_unique _ _ _ (4 * c + e)); lia).
  assert ((400 * a + 100 * b + 4 * c + e) / 400 = a) as D400
    by (symmetry; apply (Z.div_unique _ _ _ (100 * b + 4 * c + e)); lia).
  split; [lia|]. split.
  - unfold daysBeforeYear. cbv zeta.
    replace (400 * a + 100 * b + 4 * c + e + 1 - 1) with (400 * a + 100 * b + 4 * c + e) by lia. lia.
  - split; [done|]. destruct (decide (e = 3)) as [->|]; [|destruct (isLeap _); lia].
    assert ((400 * a + 100 * b + 4 * c + 3 + 1) mod 4 = 0) as M4
      by (symmetry; apply (Z.mod_unique _ _ (100 * a + 25 * b + c + 1)); lia).
    unfold isLeap. rewrite M4. cbn [Z.eqb andb].
    destruct (decide (c = 24)) as [->|Hc24].
    + destruct (decide (b = 3)) as [->|Hb3].
      * replace (400 * a + 100 * 3 + 4 * 24 + 3 + 1) with (400 * (a + 1)) by lia.
        assert (400 * (a + 1) mod 400 = 0) as -> by (symmetry; apply (Z.mod_unique _ _ (a + 1)); lia).
        rewrite orb_true_r. lia.
      * assert (q - 365 * 3 < 365) by lia. destruct (_ || _); lia.
    + assert ((400 * a + 100 * b + 4 * c + 3 + 1) mod 100 = 4 * c + 4) as ->
        by (symmetry; apply (Z.mod_unique _ _ (4 * a + b)); lia).
      assert (((4 * c + 4) =? 0) = false) as -> by (apply Z.eqb_neq; lia). cbn [negb orb]. lia.
Qed.

Lemma daysBeforeYear_succ y : 1 <= y ->
  daysBeforeYear (y + 1) = daysBeforeYear y + 365 + (if isLeap y then 1 else 0).
Proof.
  intros Hy. unfold daysBeforeYear, isLeap. cbv zeta. replace (y + 1 - 1) with y by lia.
  assert (forall k, 0 < k -> y / k = (y - 1) / k + (if y mod k =? 0 then 1 else 0)) as Hk.
  { intros k Hk. pose proof (Z.div_mod y k ltac:(lia)). pose proof (Z.mod_pos_bound y k ltac:(lia)).
    destruct (Z.eqb_spec (y mod k) 0) as [Hz|Hz].
    - assert ((y - 1) / k = y / k - 1) as ->; [|lia]. symmetry. apply (Z.div_unique _ _ _ (k - 1)); lia.
    - assert ((y - 1) / k = y / k) as ->; [|lia]. symmetry. apply (Z.div_unique _ _ _ (y mod k - 1)); lia. }
  rewrite (Hk 4), (Hk 100), (Hk 400) by lia.
  assert (y mod 400 = 0 -> y mod 100 = 0) as H1.
  { intros H. pose proof (Z.div_mod y 400 ltac:(lia)). symmetry. apply (Z.mod_unique _ _ (4 * (y / 400))); lia. }
  assert (y mod 100 = 0 -> y mod 4 = 0) as H2.
  { intros H. pose proof (Z.div_mod y 100 ltac:(lia)). symmetry. apply (Z.mod_unique _ _ (25 * (y / 100))); lia. }
  destruct (Z.eqb_spec (y mod 4) 0), (Z.eqb_spec (y mod 100) 0), (Z.eqb_spec (y mod 400) 0); cbn; lia.
Qed.

Lemma daysBeforeYear_le y z : 1 <= y <= z -> daysBeforeYear y <= daysBeforeYear z.
Proof.
  intros [Hy Hz]. replace z with (y + Z.of_nat (Z.to_nat (z - y))) by lia.
  induction (Z.to_nat (z - y)) as [|n IH]; [by rewrite Z.add_0_r|].
  replace (y + Z.of_nat (S n)) with (y + Z.of_nat n + 1) by lia.
  rewrite daysBeforeYear_succ by lia. destruct (isLeap _); lia.
Qed.

(** The year is the only one with the day in it. *)
Lemma yearDay_unique y yday : 1 <= y -> 0 <= yday < 365 + (if isLeap y then 1 else 0) ->
  yearDay (daysBeforeYear y + yday) = (y, yday).
Proof.
  intros Hy Hd. assert (0 <= daysBeforeYear y).
  { replace 0 with (daysBeforeYear 1) by done. apply daysBeforeYear_le. lia. }
  pose proof (yearDay_spec (daysBeforeYear y + yday) ltac:(lia)) as Hs.
  destruct (yearDay _) as [y' yday']. destruct Hs as (Hy' & He & Hd').
  assert (y' = y) as ->; [|f_equal; lia].
  destruct (Z.lt_trichotomy y' y) as [Hlt|[?|Hlt]]; [|done|].
  - pose proof (daysBeforeYear_le (y' + 1) y ltac:(lia)). rewrite daysBeforeYear_succ in * by lia. lia.
  - pose proof (daysBeforeYear_le (y + 1) y' ltac:(lia)). rewrite daysBeforeYear_succ in * by lia. lia.
Qed.

(** ** The month *)

Definition valid (year month day : Z) : Prop :=
  1 <= year /\ 1 <= month <= 12 /\ 1 <= day <= daysIn year month.

Ltac each_month m :=
  let H := fresh in
  assert (m = 1 \/ m = 2 \/ m = 3 \/ m = 4 \/ m = 5 \/ m = 6 \/ m = 7 \/ m = 8 \/ m = 9 \/ m = 10 \/ m = 11 \/ m = 12)
    as H by lia; repeat destruct H as [H|H]; subst m.

Lemma daysBefore_table y : let l := if isLeap y then 1 else 0 in
  daysBeforeMonth y 1 = 0 /\ daysBeforeMonth y 2 = 31 /\ daysBeforeMonth y 3 = 59 + l /\
  daysBeforeMonth y 4 = 90 + l /\ daysBeforeMonth y 5 = 120 + l /\ daysBeforeMonth y 6 = 151 + l /\
  daysBeforeMonth y 7 = 181 + l /\ daysBeforeMonth y 8 = 212 + l /\ daysBeforeMonth y 9 = 243 + l /\
  daysBeforeMonth y 10 = 273 + l /\ daysBeforeMonth y 11 = 304 + l /\ daysBeforeMonth y 12 = 334 + l /\
  daysBeforeMonth y 13 = 365 + l.
Proof. unfold daysBeforeMonth. generalize (isLeap y). intros []; vm_compute; repeat split. Qed.

Ltac months y :=
  let T := fresh in pose proof (daysBefore_table y) as T; cbv zeta in T; destruct (isLeap y);
  destruct T as (?&?&?&?&?&?&?&?&?&?&?&?&?).

Lemma monthFrom_spec y yday : 0 <= yday < 365 + (if isLeap y then 1 else 0) ->
  let m := monthFrom 12 y yday in
  1 <= m <= 12 /\ daysBeforeMonth y m <= yday < daysBeforeMonth y (m + 1).
Proof.
  intros Hd. unfold monthFrom.
  change (Z.of_nat 12) with 12; change (Z.of_nat 11) with 11; change (Z.of_nat 10) with 10; change (Z.of_nat 9) with 9;
    change (Z.of_nat 8) with 8; change (Z.of_nat 7) with 7; change (Z.of_nat 6) with 6; change (Z.of_nat 5) with 5;
    change (Z.of_nat 4) with 4; change (Z.of_nat 3) with 3; change (Z.of_nat 2) with 2; change (Z.of_nat 1) with 1.
  months y; repeat match goal with |- context [?a <=? yday] => destruct (Z.leb_spec a yday) end;
    cbv zeta; repeat match goal with |- context [?a + 1] => let z := eval vm_compute in (a + 1) in change (a + 1) with z end;
    lia.
Qed.

Lemma monthFrom_unique y m yday : 1 <= m <= 12 -> daysBeforeMonth y m <= yday < daysBeforeMonth y (m + 1) ->
  0 <= yday < 365 + (if isLeap y then 1 else 0) -> monthFrom 12 y yday = m.
Proof.
  intros Hm Hd Hy. pose proof (monthFrom_spec y yday Hy) as [Hm' Hd'].
  set (m' := monthFrom 12 y yday) in *. clearbody m'.
  assert (forall a b, 1 <= a -> a < b -> b <= 12 -> daysBeforeMonth y (a + 1) <= daysBeforeMonth y b) as Hmono.
  { clear. intros a b Ha Hab Hb. each_month a; each_month b; try lia;
      match goal with |- context [?x + 1] => let z := eval vm_compute in (x + 1) in change (x + 1) with z end;
      months y; lia. }
  destruct (Z.lt_trichotomy m m') as [Hlt|[?|Hlt]]; [|done|].
  - specialize (Hmono m m'). lia.
  - specialize (Hmono m' m). lia.
Qed.

Lemma daysBeforeMonth_range y m : 1 <= m <= 12 ->
  0 <= daysBeforeMonth y m /\ daysBeforeMonth y (m + 1) <= 365 + (if isLeap y then 1 else 0) /\ 28 <= daysIn y m <= 31.
Proof.
  intros Hm. unfold daysIn.
  each_month m; match goal with |- context [?x + 1] => let z := eval vm_compute in (x + 1) in change (x + 1) with z end;
    months y; lia.
Qed.

Lemma dayNumber_in y m d : 1 <= m <= 12 -> dayNumber y m d = daysBeforeYear y + daysBeforeMonth y m + (d - 1).
Proof.
  intros Hm. unfold dayNumber. cbv zeta. rewrite Z.div_small, Z.mod_small by lia.
  by replace (y + 0) with y by lia; replace (m - 1 + 1) with m by lia.
Qed.

(** The date of the day of a date. *)
Lemma civil_day y m d : valid y m d -> civil (dayNumber y m d) = (y, m, d).
Proof.
  intros (Hy & Hm & Hd). pose proof (daysBeforeMonth_range y m Hm) as (H0 & H1 & _). unfold daysIn in Hd.
  rewrite dayNumber_in by done. unfold civil.
  replace (daysBeforeYear y + daysBeforeMonth y m + (d - 1))
    with (daysBeforeYear y + (daysBeforeMonth y m + (d - 1))) by lia.
  rewrite yearDay_unique by lia. rewrite (monthFrom_unique y m) by lia. f_equal. lia.
Qed.

(** The day of the date of a day. *)
Lemma day_civil d : 0 <= d -> let '(y, m, k) := civil d in valid y m k /\ dayNumber y m k = d.
Proof.
  intros Hd. unfold civil. pose proof (yearDay_spec d Hd) as Hs. destruct (yearDay d) as [y yday].
  destruct Hs as (Hy & He & Hr). pose proof (monthFrom_spec y yday Hr) as [Hm Hb].
  set (m := monthFrom 12 y yday) in *. clearbody m. split.
  - split; [done|]. split; [done|]. unfold daysIn. lia.
  - rewrite dayNumber_in by done. lia.
Qed.

(** ** Times as a day and a clock *)

Lemma time_split t : t = dayOf t * Day + clock t /\ 0 <= clock t < Day.
Proof.
  unfold dayOf, clock. pose proof Day_pos. pose proof (Z.div_mod t Day ltac:(lia)).
  pose proof (Z.mod_pos_bound t Day ltac:(lia)). lia.
Qed.

Lemma time_of n c : 0 <= c < Day -> dayOf (n * Day + c) = n /\ clock (n * Day + c) = c.
Proof.
  intros Hc. unfold dayOf, clock. rewrite Z.div_add_l, Z.div_small by lia. split; [lia|].
  rewrite Z.add_comm, Z.mod_add by lia. by apply Z.mod_small.
Qed.

Lemma dayOf_nonneg t : 0 <= t -> 0 <= dayOf t.
Proof. intros Ht. by apply Z.div_pos. Qed.

Lemma dayOf_mono t u : t <= u -> dayOf t <= dayOf u.
Proof. intros Ht. by apply Z.div_le_mono. Qed.

Lemma valid_day t : 0 <= t ->
  valid (Year t) (Month t) (DayOfMonth t) /\ dayNumber (Year t) (Month t) (DayOfMonth t) = dayOf t.
Proof.
  intros Ht. pose proof (day_civil (dayOf t) (dayOf_nonneg t Ht)) as H.
  unfold Year, Month, DayOfMonth. destruct (civil (dayOf t)) as [[y m] k]. exact H.
Qed.

(** The parts of a date. *)
Lemma Date_parts y m d c : valid y m d -> 0 <= c < Day ->
  dayOf (Date y m d c) = dayNumber y m d /\ clock (Date y m d c) = c /\
  Year (Date y m d c) = y /\ Month (Date y m d c) = m /\ DayOfMonth (Date y m d c) = d.
Proof.
  intros Hv Hc. unfold Date. destruct (time_of (dayNumber y m d) c Hc) as [H1 H2].
  unfold Year, Month, DayOfMonth. rewrite H1, H2, (civil_day y m d Hv). done.
Qed.

(** The days follow the dates. *)
Lemma dayNumber_add y m d k : dayNumber y m (d + k) = dayNumber y m d + k.
Proof. unfold dayNumber. cbv zeta. lia. Qed.

Lemma dayNumber_next_month y m : 1 <= y -> 1 <= m <= 12 -> dayNumber y (m + 1) 1 = dayNumber y m 1 + daysIn y m.
Proof.
  intros Hy Hm. destruct (decide (m = 12)) as [->|Hne].
  - unfold dayNumber at 1. change ((12 + 1 - 1) / 12) with 1. change ((12 + 1 - 1) mod 12 + 1) with 1. cbv zeta.
    rewrite dayNumber_in, daysBeforeYear_succ by lia. unfold daysIn. change (12 + 1) with 13.
    pose proof (daysBefore_table y) as T. pose proof (daysBefore_table (y + 1)) as T'. cbv zeta in T, T'. lia.
  - rewrite !dayNumber_in by lia. unfold daysIn. lia.
Qed.

Lemma dayNumber_lt y m d y' m' d' : valid y m d -> valid y' m' d' -> y < y' \/ y = y' /\ m < m' ->
  dayNumber y m d < dayNumber y' m' d'.
Proof.
  intros (Hy & Hm & Hd) (Hy' & Hm' & Hd') Hlt.
  pose proof (daysBeforeMonth_range y m Hm) as (H0 & H1 & _). unfold daysIn in Hd.
  pose proof (daysBeforeMonth_range y' m' Hm') as (H0' & H1' & _).
  rewrite !dayNumber_in by done. destruct Hlt as [Hlt|[<- Hlt]].
  - pose proof (daysBeforeYear_le (y + 1) y' ltac:(lia)). pose proof (daysBeforeYear_succ y Hy). lia.
  - assert (daysBeforeMonth y (m + 1) <= daysBeforeMonth y m'); [|lia].
    clear Hd Hd' H0 H1 H0' H1'. each_month m; each_month m'; try lia;
      match goal with |- context [?x + 1] => let z := eval vm_compute in (x + 1) in change (x + 1) with z end;
      months y; lia.
Qed.

(** Midnight of the next day, computed on the date. *)
Lemma next_midnight t : 0 <= t ->
  let u := AddDate t 0 0 1 in Date (Year u) (Month u) (DayOfMonth u) 0 = (dayOf t + 1) * Day.
Proof.
  intros Ht. destruct (valid_day t Ht) as [_ Hn]. destruct (time_split t) as [_ Hc]. cbv zeta.
  assert (dayOf (AddDate t 0 0 1) = dayOf t + 1) as Hd.
  { unfold AddDate, Date. rewrite !Z.add_0_r, dayNumber_add, Hn. by apply time_of. }
  assert (0 <= AddDate t 0 0 1) as Hu.
  { destruct (time_split (AddDate t 0 0 1)) as [E Hc']. rewrite Hd in E.
    pose proof (dayOf_nonneg t Ht). pose proof Day_pos. nia. }
  destruct (valid_day _ Hu) as [_ Hn']. unfold Date at 1. rewrite Hn', Hd. lia.
Qed.

(** The length of the month of a date. *)
Lemma last_of_month y m : 1 <= y -> 1 <= m <= 12 ->
  DayOfMonth (AddDate (Date y m 1 0) 0 1 (-1)) = daysIn y m.
Proof.
  intros Hy Hm. pose proof (daysBeforeMonth_range y m Hm) as (_ & _ & Hn).
  assert (valid y m 1) as Hv by (split; [done|]; lia). pose proof Day_pos.
  destruct (Date_parts y m 1 0 Hv ltac:(lia)) as (_ & Hc & E1 & E2 & E3).
  unfold AddDate. rewrite E1, E2, E3, Hc. change (1 + -1) with 0.
  replace (y + 0) with y by lia.
  assert (Date y (m + 1) 0 0 = Date y m (daysIn y m) 0) as ->.
  { unfold Date. change 0 with (1 + -1) at 1. rewrite dayNumber_add, dayNumber_next_month by lia.
    replace (daysIn y m) with (1 + (daysIn y m - 1)) at 2 by lia. rewrite dayNumber_add. lia. }
  apply Date_parts; [split; [done|]; lia|lia].
Qed.

Lemma Year_mono t u : 0 <= t -> t <= u -> Year t <= Year u.
Proof.
  intros Ht Hu. destruct (valid_day t Ht) as [Hv Hn]. destruct (valid_day u ltac:(lia)) as [Hv' Hn'].
  pose proof (dayOf_mono t u Hu). destruct (Z_le_gt_dec (Year t) (Year u)) as [?|Hgt]; [done|].
  pose proof (dayNumber_lt _ _ _ _ _ _ Hv' Hv ltac:(lia)). lia.
Qed.

End calendar.
