(* ===== verification/Convert.v ===== *)
(** * Texts and durations

    What the parsers of the schedules use of the Go [strings] and [json]
    packages, on ASCII texts, and the durations of src/util/converters.  An
    [int64] is an integer, wrapped where the code lets it overflow. *)

From S2P Require Import Prelude Naming.
From Stdlib Require Import Ascii.

Open Scope string_scope.

(** ** [strings] *)

Module text.

(** [unicode.IsSpace] on ASCII. *)
Definition isSpace (c : ascii) : bool :=
  let n := N_of_ascii c in ((9 <=? n) && (n <=? 13))%N || (n =? 32)%N.

Fixpoint TrimLeftSpace (s : string) : string :=
  match s with
  | String c s' => if isSpace c then TrimLeftSpace s' else s
  | "" => ""
  end.

Definition TrimSpace (s : string) : string :=
  strings.Reverse (TrimLeftSpace (strings.Reverse (TrimLeftSpace s))).

(** The words of a text, [word] being the one under way, reversed. *)
Fixpoint fields (word s : string) : list string :=
  let close := match word with "" => [] | _ => [strings.Reverse word] end in
  match s with
  | "" => close
  | String c s' => if isSpace c then (close ++ fields "" s')%list else fields (String c word) s'
  end.

Definition Fields (s : string) : list string := fields "" s.

Fixpoint Count (s : string) (sep : ascii) : nat :=
  match s with
  | "" => 0
  | String c s' => (if Ascii.eqb c sep then 1 else 0) + Count s' sep
  end.

(** [strings.Cut(s, sep)], [None] when [sep] is not in [s]. *)
Fixpoint Cut (s : string) (sep : ascii) : option (string * string) :=
  match s with
  | "" => None
  | String c s' =>
      if Ascii.eqb c sep then Some ("", s')
      else p ← Cut s' sep; Some (String c p.1, p.2)
  end.

(** What precedes and follows the last [sep]: [s[0:i]] and [s[i+1:]], [i] being
    [strings.LastIndex(s, sep)]. *)
Fixpoint CutLast (s : string) (sep : ascii) : option (string * string) :=
  match s with
  | "" => None
  | String c s' =>
      match CutLast s' sep with
      | Some p => Some (String c p.1, p.2)
      | None => if Ascii.eqb c sep then Some ("", s') else None
      end
  end.

(** [strings.CutPrefix(s, prefix)]. *)
Fixpoint CutPrefix (s prefix : string) : option string :=
  match prefix with
  | "" => Some s
  | String c prefix' =>
      match s with
      | String d s' => if Ascii.eqb c d then CutPrefix s' prefix' else None
      | "" => None
      end
  end.

(** [strings.Index(s, sub)]. *)
Fixpoint Index (s sub : string) : option nat :=
  match CutPrefix s sub with
  | Some _ => Some O
  | None => match s with "" => None | String _ s' => S <$> Index s' sub end
  end.

(** [s[1:]]. *)
Definition tail (s : string) : string := hostname.tail s.

End text.

(** ** [json.Unmarshal] into a [[]string]

    [None] is an error: the text is not a list of strings.  A null is an empty
    element, or no element at all. *)

Module json.

Fixpoint skip (s : string) : string :=
  match s with
  | String c s' => if one_of (N_of_ascii c) [9%N; 10%N; 13%N; 32%N] then skip s' else s
  | "" => ""
  end.

Definition hex (c : ascii) : option N :=
  let n := N_of_ascii c in
  if ((48 <=? n) && (n <=? 57))%N then Some (n - 48)%N
  else if ((97 <=? n) && (n <=? 102))%N then Some (n - 87)%N
  else if ((65 <=? n) && (n <=? 70))%N then Some (n - 55)%N
  else None.

(** The UTF-8 bytes of a code point under 65536. *)
Definition utf8 (n : N) : string :=
  if (n <? 128)%N then String (ascii_of_N n) ""
  else if (n <? 2048)%N then String (ascii_of_N (192 + n / 64)) (String (ascii_of_N (128 + n mod 64)) "")
  else String (ascii_of_N (224 + n / 4096))
         (String (ascii_of_N (128 + n / 64 mod 64)) (String (ascii_of_N (128 + n mod 64)) "")).

(** A string, after its opening quote. *)
Fixpoint str (s : string) : option (string * string) :=
  match s with
  | "" => None
  | String c s1 =>
      if (N_of_ascii c <? 32)%N then None
      else if (N_of_ascii c =? 34)%N then Some ("", s1)
      else if (N_of_ascii c =? 92)%N then
        match s1 with
        | "" => None
        | String e s2 =>
            let plain (x : N) := t ← str s2; Some (String (ascii_of_N x) t.1, t.2) in
            match N_of_ascii e with
            | 34%N => plain 34%N | 92%N => plain 92%N | 47%N => plain 47%N
            | 98%N => plain 8%N | 102%N => plain 12%N | 110%N => plain 10%N
            | 114%N => plain 13%N | 116%N => plain 9%N
            | 117%N =>
                match s2 with
                | String a (String b (String c (String d s3))) =>
                    match hex a, hex b, hex c, hex d with
                    | Some a, Some b, Some c, Some d =>
                        t ← str s3; Some (utf8 (((a * 16 + b) * 16 + c) * 16 + d) ++ t.1, t.2)
                    | _, _, _, _ => None
                    end
                | _ => None
                end
            | _ => None
            end
        end
      else t ← str s1; Some (String c t.1, t.2)
  end.

Definition null (s : string) : option string :=
  match s with
  | String "n" (String "u" (String "l" (String "l" s'))) => Some s'
  | _ => None
  end.

(** An element, and what follows it. *)
Definition element (s : string) : option (string * string) :=
  match skip s with
  | String c s' => if (N_of_ascii c =? 34)%N then str s' else (fun r => ("", r)) <$> null (String c s')
  | "" => None
  end.

(** The elements after a bracket or a comma; each consumes a character. *)
Fixpoint elements (fuel : nat) (s : string) : option (list string * string) :=
  match fuel with
  | O => None
  | S fuel =>
      e ← element s;
      match skip e.2 with
      | String "," s' => l ← elements fuel s'; Some (e.1 :: l.1, l.2)
      | String "]" s' => Some ([e.1], s')
      | _ => None
      end
  end.

Definition Unmarshal (s : string) : option (list string) :=
  let finish (l : list string) (rest : string) := match skip rest with "" => Some l | _ => None end in
  match skip s with
  | String "[" s' =>
      match skip s' with
      | String "]" rest => finish [] rest
      | _ => e ← elements (String.length s) s'; finish e.1 e.2
      end
  | s' => rest ← null s'; finish [] rest
  end.

End json.

(** ** util/converters *)

Module converters.

(** [int64(float64(f) * (float64(unit) / scale))], in floating point. *)
Class Float := { mulFraction : Z -> Z -> Z -> Z }.

Definition maxInt64 : Z := (2 ^ 63 - 1)%Z.

(** The leading digits; [None] is an overflow. *)
Fixpoint leadingInt (x : Z) (s : string) : option (Z * string) :=
  match s with
  | "" => Some (x, "")
  | String c s' =>
      match strconv.digit c with
      | None => Some (x, s)
      | Some d =>
          if (maxInt64 / 10 <? x)%Z then None
          else if (maxInt64 <? x * 10 + d)%Z then None
          else leadingInt (x * 10 + d) s'
      end
  end.

(** The digits after the period: their value, its scale, and the rest. *)
Fixpoint leadingFraction (x scale : Z) (overflow : bool) (s : string) : Z * Z * string :=
  match s with
  | "" => (x, scale, "")
  | String c s' =>
      match strconv.digit c with
      | None => (x, scale, s)
      | Some d =>
          if overflow then leadingFraction x scale true s'
          else if (maxInt64 / 10 <? x)%Z then leadingFraction x scale true s'
          else if (maxInt64 <? x * 10 + d)%Z then leadingFraction x scale true s'
          else leadingFraction (x * 10 + d)%Z (scale * 10)%Z false s'
      end
  end.

(** The unit: up to a period or a digit. *)
Fixpoint leadingUnit (s : string) : string * string :=
  match s with
  | "" => ("", "")
  | String c s' =>
      match strconv.digit c with
      | Some _ => ("", s)
      | None => if Ascii.eqb c "." then ("", s) else let '(u, rest) := leadingUnit s' in (String c u, rest)
      end
  end.

Definition unitMap (u : string) : option Z :=
  (if one_of u ["ns"] then Some 1
   else if one_of u ["us"; "µs"; "μs"] then Some 1000
   else if one_of u ["ms"] then Some 1000000
   else if one_of u ["s"] then Some time.Second
   else if one_of u ["m"] then Some time.Minute
   else if one_of u ["h"] then Some time.Hour
   else if one_of u ["d"] then Some (24 * time.Hour)
   else if one_of u ["w"] then Some (7 * 24 * time.Hour)
   else if one_of u ["y"] then Some (365 * 24 * time.Hour)
   else None)%Z.

Section durations.
Context `{F : Float}.

(** A number and its unit. *)
Definition parseUnit (s : string) : option (Z * string) :=
  match s with
  | "" => None
  | String c _ =>
      if negb (Ascii.eqb c ".") && bool_decide (strconv.digit c = None) then None
      else
        i ← leadingInt 0 s;
        let '(v, s1) := i in
        let pre := negb (Nat.eqb (String.length s1) (String.length s)) in
        let '(f, scale, s2, post) :=
          match s1 with
          | String "." s2 =>
              let '(f, scale, s3) := leadingFraction 0 1 false s2 in
              (f, scale, s3, negb (Nat.eqb (String.length s3) (String.length s2)))
          | _ => (0%Z, 1%Z, s1, false)
          end in
        if negb pre && negb post then None
        else
          let '(u, s3) := leadingUnit s2 in
          if String.eqb u "" then None
          else
            unit ← unitMap u;
            if (maxInt64 / unit <? v)%Z then None
            else
              let v := (v * unit + if (0 <? f)%Z then mulFraction f unit scale else 0)%Z in
              if (maxInt64 <? v)%Z || (v <? 0)%Z then None else Some (v, s3)
  end.

(** The loop: each round consumes a character. *)
Fixpoint parseUnits (fuel : nat) (d : Z) (s : string) : option Z :=
  match s with
  | "" => Some d
  | _ =>
      match fuel with
      | O => None
      | S fuel =>
          p ← parseUnit s;
          if (maxInt64 <? d + p.1)%Z then None else parseUnits fuel (d + p.1) p.2
      end
  end.

Definition ParseDuration (s : string) : option time.Duration :=
  let '(neg, s) :=
    match s with
    | String "-" s' => (true, s')
    | String "+" s' => (false, s')
    | _ => (false, s)
    end in
  if String.eqb s "0" then Some 0%Z
  else if String.eqb s "" then None
  else d ← parseUnits (String.length s) 0 s; Some (if (neg : bool) then (- d)%Z else d).

(** [TDuration.convert]: an error is [None], a nil duration is [Some None]. *)
Definition convert (s : string) : option (option time.Duration) :=
  if String.eqb s "" then Some None
  else
    let s := match strconv.Atoi s with Some _ => s ++ "s" | None => s end in
    Some <$> ParseDuration s.

Definition convertWithDefaultMinMax (s : option string) (defaultD minD maxD : time.Duration) : option time.Duration :=
  let unset := Z.min maxD (Z.max minD defaultD) in
  match s with
  | None | Some "" => Some unset
  | Some s =>
      d ← convert s;
      match d with
      | None => Some unset
      | Some d => Some (Z.max minD (Z.min maxD d))
      end
  end.

End durations.

End converters.
