(* ===== verification/Schedule.v ===== *)
(** * The scheduling expressions

    src/util/schedule/main.go: the parser of the expressions of the scheduled
    actions, [TestWithLast], which tells whether an action may run at a time,
    and [Next], which looks for the next time it may.

    The times are in a location with no offset and no transitions (Calendar), and
    compared as instants: the [==] of the code on two times also compares their
    monotonic readings.  The draw of a probabilistic range and the current time
    are those of the environment; one evaluation draws once per range and time.
    [sort.Slice] is taken stable, as it is up to 12 elements. *)

From S2P Require Import Prelude Naming.
From S2P Require Import Calendar Convert.
From Stdlib Require Import Ascii.

Open Scope string_scope.
Open Scope Z_scope.

Module schedule.

(** The value of an int64 computation. *)
Definition w64 (z : Z) : Z := (z + 2 ^ 63) mod 2 ^ 64 - 2 ^ 63.

(** An operation returns a value or [ErrInvalid], panics, or does not return. *)
Inductive result (A : Type) : Type :=
  | Ok (a : A)
  | Invalid
  | Panic
  | Hang.
#[global] Arguments Ok {A} a.
#[global] Arguments Invalid {A}.
#[global] Arguments Panic {A}.
#[global] Arguments Hang {A}.

#[global] Instance result_bind : MBind result := fun A B f r =>
  match r with Ok a => f a | Invalid => Invalid | Panic => Panic | Hang => Hang end.
#[global] Instance result_ret : MRet result := fun A => Ok.
#[global] Instance result_eq {A} `{EqDecision A} : EqDecision (result A).
Proof. solve_decision. Defined.

(** [err != nil] of a function that has no other error. *)
Definition check {A} (o : option A) : result A :=
  match o with Some a => Ok a | None => Invalid end.

(** A loop that appends what each element yields. *)
Fixpoint collect {A B} (f : A -> result (list B)) (l : list A) : result (list B) :=
  match l with
  | [] => Ok []
  | a :: l => x ← f a; y ← collect f l; Ok (x ++ y)%list
  end.

(** What the expressions get from their environment: the clock, and the draw of
    [time.Duration(float64(remaining) * rand.Float64())] for a range at a time. *)
Class Env := {
  getNow : time.Time;
  draw : time.Time -> time.Duration -> time.Duration;
  Env_float :: converters.Float;
}.
#[global] Existing Instance Env_float.

(** ** Data *)

Record timerange := {
  probabilistic : bool;
  interval : time.Duration;
  begin : time.Duration;  (** since 00:00:00 *)
  end_ : time.Duration;   (** since 00:00:00 *)
}.

Record day := { weekday : Z; monthday : Z }.

Record Schedule := {
  timeranges : list timerange;
  days : list day;
  weeks : list Z;
  months : list Z;
  raw : string;
  exclude : bool;
}.

Definition Schedules := list Schedule.

(** A nil dataset is [None]. *)
Record Expr := { raw_ : string; dataset : option Schedules }.

#[global] Instance eta_timerange : Eta timerange := fun r =>
  Build_timerange (probabilistic r) (interval r) (begin r) (end_ r).
#[global] Instance upd_probabilistic : Upd probabilistic := fun f r => Build_timerange (f (probabilistic r)) (interval r) (begin r) (end_ r).
#[global] Instance timerange_eq : EqDecision timerange.
Proof. solve_decision. Defined.
#[global] Instance day_eq : EqDecision day.
Proof. solve_decision. Defined.
#[global] Instance Schedule_eq : EqDecision Schedule.
Proof. solve_decision. Defined.

Definition Day : time.Duration := calendar.Day.

Definition AllMonths : list Z := [1; 2; 3; 4; 5; 6; 7; 8; 9; 10; 11; 12].
Definition AllWeekdays : list Z := [1; 2; 3; 4; 5; 6; 7].
Definition AllDays : list day := map (fun w => Build_day w 0) AllWeekdays.

Definition CalendarNames : list (string * Z) :=
  [("jan", 1); ("feb", 2); ("mar", 3); ("apr", 4); ("may", 5); ("jun", 6); ("jul", 7); ("aug", 8);
   ("sep", 9); ("oct", 10); ("nov", 11); ("dec", 12); ("january", 1); ("february", 2); ("march", 3);
   ("april", 4); ("june", 6); ("july", 7); ("august", 8); ("september", 9); ("october", 10);
   ("november", 11); ("december", 12); ("mon", 1); ("tue", 2); ("wed", 3); ("thu", 4); ("fri", 5);
   ("sat", 6); ("sun", 7); ("monday", 1); ("tuesday", 2); ("wednesday", 3); ("thursday", 4);
   ("friday", 5); ("saturday", 6); ("sunday", 7)].

Definition newExprData : Schedule := Build_Schedule [] [] [] [] "" false.

(** ** The parser *)

Section parser.
Context `{E : Env}.

Definition normalizeExpression (s : string) : list string :=
  if one_of s [""; "@0"] then []
  else match json.Unmarshal s with Some expressions => expressions | None => [s] end.

Definition parseTime (s : string) : result time.Duration :=
  match strings.Split s ":" with
  | [h; m; sec] =>
      h ← check (strconv.Atoi h);
      m ← check (strconv.Atoi m);
      sec ← check (strconv.Atoi sec);
      Ok (w64 (w64 (w64 (time.Hour * h) + w64 (time.Minute * m)) + w64 (time.Second * sec)))
  | [h; m] =>
      h ← check (strconv.Atoi h);
      m ← check (strconv.Atoi m);
      Ok (w64 (w64 (time.Hour * h) + w64 (time.Minute * m)))
  | _ => Invalid
  end.

(** The [parse] closure of [parseTimeranges]: the bounds of a range. *)
Definition parseBounds (s : string) : result (time.Duration * time.Duration) :=
  if one_of s [""; "*"] then Ok (0, Day - 1)
  else
    be ← match strings.Split s "-" with
         | [_] => Ok (s, s)
         | [b; e] => Ok (b, e)
         | _ => Invalid
         end;
    b ← parseTime be.1;
    e ← parseTime be.2;
    Ok (b, if b =? e then w64 (e + time.Second) else e).

Definition defaultInterval (begin end_ : time.Duration) : time.Duration :=
  if begin <? end_ then w64 (end_ - begin + 1)
  else w64 (Day - begin + end_ + 1).

Definition parseTimerange (spec : string) : result (list timerange) :=
  let tr := Build_timerange false Day 0 (Day - 1) in
  match spec with
  | "" => Ok [tr]
  | String c rest =>
      let '(tr, spec) := if Ascii.eqb c "~" then (tr <| probabilistic := true |>, rest) else (tr, spec) in
      if String.eqb spec "*" then Ok [tr]
      else
        match strings.Split spec "@" with
        | [_] =>
            be ← parseBounds spec;
            let i := defaultInterval be.1 be.2 in
            Ok [Build_timerange (if i <? time.Second + 1 then false else probabilistic tr) i be.1 be.2]
        | [bounds; duration] =>
            be ← parseBounds bounds;
            let defInterval := defaultInterval be.1 be.2 in
            let duration := match strconv.Atoi duration with Some _ => duration ++ "m" | None => duration end%string in
            d ← check (converters.convert duration);
            match d with
            | None => Panic
            | Some 0 => Ok []
            | Some i =>
                Ok [Build_timerange (if (defInterval <? time.Second + 1) || (i <? defInterval) then false else probabilistic tr)
                      i be.1 be.2]
            end
        | _ => Invalid
        end
  end.

Definition parseTimeranges (s : string) : result (list timerange) :=
  collect parseTimerange (strings.Split s ",").

Definition resolveCalendarName (s : string) : result Z :=
  match strconv.Atoi s with
  | Some i => Ok i
  | None => check (assoc String.eqb (strings.ToLower s) CalendarNames)
  end.

(** The integers of [for i := a; i <= b; i++]: none stops it at the largest. *)
Definition loop (a b : Z) : result (list Z) :=
  if (a <=? b) && (b =? converters.maxInt64) then Hang else Ok (seqZ a (b - a + 1)).

Definition parseOneCalendarExpression (spec : string) (all : list Z) : result (gset Z) :=
  if String.eqb spec "" then Ok ∅
  else
    match text.Count (text.tail spec) "-" with
    | O => i ← resolveCalendarName spec; Ok {[ i ]}
    | S O =>
        match strings.Split spec "-" with
        | l0 :: l1 :: _ =>
            b ← resolveCalendarName l0;
            e ← resolveCalendarName l1;
            if e <? b then
              x ← loop b (Z.of_nat (length all));
              y ← loop 1 e;
              Ok (list_to_set x ∪ list_to_set y)
            else x ← loop b e; Ok (list_to_set x)
        | _ => Panic
        end
    | _ => Invalid
    end.

Fixpoint merge (all : list Z) (subSpecs : list string) (m : gset Z) : result (gset Z) :=
  match subSpecs with
  | [] => Ok m
  | subSpec :: subSpecs =>
      other ← parseOneCalendarExpression subSpec all;
      merge all subSpecs (m ∪ other)
  end.

Definition parseCalendarExpression (spec : string) (all : list Z) : result (list Z) :=
  if one_of spec ["*"; ""] then Ok all
  else m ← merge all (strings.Split spec ",") ∅; Ok (merge_sort Z.le (elements m)).

Definition parseModulo (s : string) : result (Z * Z) :=
  match text.Count s "+" with
  | S O =>
      match strings.SplitN2 s "+" with
      | [l0; l1] =>
          shift ← check (strconv.Atoi l1);
          modulo ← check (strconv.Atoi l0);
          Ok (modulo, shift)
      | _ => Panic
      end
  | O => modulo ← check (strconv.Atoi s); Ok (modulo, 0)
  | _ => Invalid
  end.

Definition filterWithModulo (l : list Z) (s : string) : result (list Z) :=
  ms ← parseModulo s;
  collect (fun v =>
    if ms.1 =? 0 then Panic
    else Ok (if Z.rem (w64 (v + ms.2)) ms.1 =? 0 then [v] else [])) l.

Definition parseMonths (spec : string) : result (list Z) :=
  match strings.Split spec "%" with
  | [_] => parseCalendarExpression spec AllMonths
  | [l; modulo] => months ← parseCalendarExpression l AllMonths; filterWithModulo months modulo
  | _ => Invalid
  end.

Definition parseWeekdays (spec : string) : result (list Z) := parseCalendarExpression spec AllWeekdays.

(** The week of December 28th, the last of the year. *)
Definition lastWeek (tm : time.Time) : Z :=
  (calendar.ISOWeek (calendar.Date (calendar.Year tm) 12 28 (12 * time.Hour))).2.

Definition allWeeks (tm : time.Time) : list Z := seqZ 1 (lastWeek tm).
Definition allWeeksThisYear : list Z := allWeeks getNow.

Definition parseWeeks (spec : string) : result (list Z) := parseCalendarExpression spec allWeeksThisYear.

Definition parseMonthday (s : string) : result Z :=
  if one_of s ["first"; "1st"] then Ok 1
  else if one_of s ["second"; "2nd"] then Ok 2
  else if one_of s ["third"; "3rd"] then Ok 3
  else if one_of s ["fourth"; "4th"] then Ok 4
  else if one_of s ["fifth"; "5th"] then Ok 5
  else if one_of s ["last"] then Ok (-1)
  else i ← check (strconv.Atoi s); if i =? 0 then Invalid else Ok i.

Definition parseDay (s : string) : result (list day) :=
  dm ← match strings.Split s ":" with
       | [_] => Ok (s, 0)
       | [dayOfWeekStr; dayOfMonthStr] =>
           if String.eqb dayOfMonthStr "" then Invalid
           else m ← parseMonthday dayOfMonthStr; Ok (dayOfWeekStr, m)
       | _ => Invalid
       end;
  days ← parseWeekdays dm.1;
  Ok (map (fun d => Build_day d dm.2) days).

Definition parseDays (s : string) : result (list day) := collect parseDay (strings.Split s ",").

Definition parseExpr (s : string) : result Schedule :=
  let raw := s in
  let none := Build_Schedule [] [] [] [] raw false in
  match text.TrimSpace s with
  | "" => Ok none
  | String c rest =>
      let '(exclude, s) := if Ascii.eqb c "!" then (true, rest) else (false, String c rest) in
      if String.eqb s "" then Ok none
      else
        match text.Fields s with
        | [e0] =>
            trs ← parseTimeranges e0;
            Ok (Build_Schedule trs AllDays allWeeksThisYear AllMonths raw exclude)
        | [e0; e1] =>
            trs ← parseTimeranges e0;
            days ← parseDays e1;
            Ok (Build_Schedule trs days allWeeksThisYear AllMonths raw exclude)
        | [e0; e1; e2] =>
            trs ← parseTimeranges e0;
            days ← parseDays e1;
            weeks ← parseWeeks e2;
            Ok (Build_Schedule trs days weeks AllMonths raw exclude)
        | [e0; e1; e2; e3] =>
            trs ← parseTimeranges e0;
            days ← parseDays e1;
            weeks ← parseWeeks e2;
            months ← parseMonths e3;
            Ok (Build_Schedule trs days weeks months raw exclude)
        | _ => Invalid
        end
  end.

Definition parse (s : string) : result Schedules :=
  collect (fun expr => data ← parseExpr expr; Ok [data]) (normalizeExpression s).

(** ** The expression *)

Definition New (s : string) : Expr := Build_Expr s None.

Definition makeDataset (t : Expr) : result Expr :=
  match dataset t with
  | Some _ => Ok t
  | None => ds ← parse (raw_ t); Ok (Build_Expr (raw_ t) (Some ds))
  end.

Definition Append (t : Expr) (s : string) : result Expr :=
  makeDataset (Build_Expr (Join [raw_ t; s] " ") (dataset t)).

Definition AppendExprDataset (t : Expr) (ds : Schedules) : Expr :=
  foldl (fun t data => Build_Expr (Join [raw_ t; raw data] " ") (Some (default [] (dataset t) ++ [data])%list)) t ds.

Definition Includes (t : Schedules) : Schedules := List.filter (fun data => negb (exclude data)) t.
Definition Excludes (t : Schedules) : Schedules := List.filter exclude t.

End parser.

(** ** The constraints *)

Definition ISOWeekday (tm : time.Time) : Z :=
  let i := calendar.Weekday tm in if i =? 0 then 7 else i.

Definition monthDays (tm : time.Time) : Z :=
  calendar.DayOfMonth
    (calendar.AddDate (calendar.Date (calendar.Year tm) (calendar.Month tm) 1 0) 0 1 (-1)).

Definition contextualizeDay (maxValue : Z) (d : day) : day :=
  if monthday d =? 0 then d
  else if 0 <? monthday d then d
  else if maxValue <? w64 (- monthday d) then d
  else Build_day (weekday d) (w64 (maxValue + monthday d + 1)).

Definition contextualizeDays (t : Schedule) (tm : time.Time) : list day :=
  map (contextualizeDay (monthDays tm)) (days t).

Definition isTooSoon (tm last : time.Time) (interval : time.Duration) : bool :=
  negb (time.IsZero last) && negb (interval <=? time.Sub tm last).

(** A range against the time since midnight. *)
Definition timerange_After (tr : timerange) (tm : time.Time) : bool := calendar.clock tm <=? begin tr.

Definition TestIncludes (tr : timerange) (tm : time.Time) : bool :=
  let seconds := calendar.clock tm in
  if begin tr <=? end_ tr then (begin tr <=? seconds) && (seconds <=? end_ tr)
  else (begin tr <=? seconds) && (seconds <=? Day) || (0 <=? seconds) && (seconds <=? end_ tr).

(** The end of a range and the time since midnight, on the same origin. *)
Definition unwrap (tr : timerange) (tm : time.Time) : time.Duration * time.Duration :=
  let seconds := calendar.clock tm in
  (if end_ tr <? begin tr then w64 (end_ tr + Day) else end_ tr,
   if seconds <? begin tr then w64 (seconds + Day) else seconds).

Section tests.
Context `{E : Env}.

Definition Delay (tr : timerange) (tm : time.Time) : time.Duration :=
  if negb (probabilistic tr) then 0
  else
    let '(end_, seconds) := unwrap tr tm in
    let length := w64 (end_ - begin tr) in
    let remaining := w64 (w64 (end_ - seconds) - time.Second) in
    if remaining <? 1 then 0
    else if interval tr <? length then 0
    else draw tm remaining.

Definition Including (trs : list timerange) (tm : time.Time) : list timerange :=
  List.filter (fun tr => TestIncludes tr tm) trs.
Definition After (trs : list timerange) (tm : time.Time) : list timerange :=
  List.filter (fun tr => timerange_After tr tm) trs.
Definition SortedByIntervalAndBegin (trs : list timerange) : list timerange :=
  stable_sort (fun a b => interval a <? interval b) trs.

(** The time and interval of a range entered at [tm]. *)
Definition enter (tr : timerange) (tm : time.Time) : time.Time * time.Duration :=
  if probabilistic tr then
    let delay := Delay tr tm in (time.Add tm delay, w64 (interval tr - delay))
  else (tm, interval tr).

(** The second loop of [GetTimerange]: the ranges that begin later in the day. *)
Fixpoint later (trs : list timerange) (tm last : time.Time) : option (time.Time * time.Duration) :=
  match trs with
  | [] => None
  | tr :: trs =>
      let t := time.Add (calendar.Date (calendar.Year tm) (calendar.Month tm) (calendar.DayOfMonth tm) 0) (begin tr) in
      if isTooSoon t last (interval tr) then
        let tmi := time.Add last (interval tr) in
        if TestIncludes tr tmi then Some (tmi, interval tr) else later trs tm last
      else Some (enter tr t)
  end.

(** [None] is [ErrNotAllowed]. *)
Definition GetTimerange (t : Schedule) (tm last : time.Time) : option (time.Time * time.Duration) :=
  match SortedByIntervalAndBegin (Including (timeranges t) tm) with
  | tr :: _ =>
      if isTooSoon tm last (interval tr) then
        let tmi := time.Add last (interval tr) in
        if TestIncludes tr tmi then Some (tmi, interval tr) else None
      else Some (enter tr tm)
  | [] => later (SortedByIntervalAndBegin (After (timeranges t) tm)) tm last
  end.

Definition IsInWeeks (t : Schedule) (tm : time.Time) : bool := one_of (calendar.ISOWeek tm).2 (weeks t).
Definition IsInMonths (t : Schedule) (tm : time.Time) : bool := one_of (calendar.Month tm) (months t).

Definition isInDay (tm : time.Time) (d : day) : bool :=
  (ISOWeekday tm =? weekday d) && ((monthday d =? 0) || (calendar.DayOfMonth tm =? monthday d)).
Definition IsInDays (t : Schedule) (tm : time.Time) : bool := existsb (isInDay tm) (contextualizeDays t tm).

(** What [TestWithLast] returns: a delay, or an error. *)
Inductive verdict :=
  | Allowed (delay : time.Duration)
  | NotAllowed
  | Excluded (delay : time.Duration).

#[global] Instance verdict_eq : EqDecision verdict.
Proof. solve_decision. Defined.

Definition needActionInterval (tm last : time.Time) (delay : time.Duration) : bool :=
  if delay =? 0 then false
  else if time.IsZero last then true
  else let limit := time.Add last delay in (tm =? limit) || time.After tm limit.

(** [err == nil] of [isInTimerangeInterval]. *)
Definition isInTimerangeInterval (tr : timerange) (tm last : time.Time) : bool :=
  if interval tr =? 0 then false
  else time.IsZero last || needActionInterval tm last (interval tr).

Definition timerangeRemainingDelay (tr : timerange) (tm : time.Time) : time.Duration :=
  let '(end_, seconds) := unwrap tr tm in w64 (end_ - seconds).

Fixpoint isInTimeranges (excl : bool) (trs : list timerange) (tm last : time.Time) : option time.Duration :=
  match trs with
  | [] => None
  | tr :: trs =>
      if negb (TestIncludes tr tm) then isInTimeranges excl trs tm last
      else if excl then Some (timerangeRemainingDelay tr tm)
      else if isInTimerangeInterval tr tm last then Some (Delay tr tm)
      else isInTimeranges excl trs tm last
  end.

Definition validate (d : Schedule) (tm last : time.Time) : option time.Duration :=
  if negb (IsInMonths d tm) then None
  else if negb (IsInWeeks d tm) then None
  else if negb (IsInDays d tm) then None
  else isInTimeranges (exclude d) (timeranges d) tm last.

(** The first element of the dataset that is not refused decides. *)
Fixpoint testDataset (ds : Schedules) (tm last : time.Time) : verdict :=
  match ds with
  | [] => NotAllowed
  | d :: ds =>
      match validate d tm last with
      | None => testDataset ds tm last
      | Some delay => if exclude d then Excluded delay else Allowed delay
      end
  end.

Definition TestWithLast (t : Expr) (tm last : time.Time) : result verdict :=
  t ← makeDataset t; Ok (testDataset (default [] (dataset t)) tm last).

Definition Test (t : Expr) (tm : time.Time) : result verdict := TestWithLast t tm time.zero.

(** ** [Next] *)

Record nextOptionsT := { Time : time.Time; Last : time.Time }.

Definition NextWithLast (tm : time.Time) : nextOptionsT -> nextOptionsT := fun t => Build_nextOptionsT (Time t) tm.
Definition NextWithTime (tm : time.Time) : nextOptionsT -> nextOptionsT := fun t => Build_nextOptionsT tm (Last t).
Definition newNextOptions (opts : list (nextOptionsT -> nextOptionsT)) : nextOptionsT :=
  foldl (fun t f => f t) (Build_nextOptionsT getNow time.zero) opts.

(** The variables of [getNext] that its loops change. *)
Record search := { tm : time.Time; interval_ : time.Duration }.

(** What a round of [daily] does: it moves in the day, gives up the day, or ends
    the search. *)
Inductive step :=
  | Drift (s : search)
  | NextDay (s : search)
  | Found (next : time.Time) (interval : time.Duration).

(** What a loop of [getNext] does: it ends the search or goes on. *)
Inductive outcome :=
  | Returned (next : time.Time) (interval : time.Duration)
  | Missed (s : search).

Fixpoint over {A} (f : A -> search -> result outcome) (l : list A) (s : search) : result outcome :=
  match l with
  | [] => Ok (Missed s)
  | a :: l => r ← f a s; match r with Missed s => over f l s | Returned _ _ => Ok r end
  end.

Definition isValidDay (tm : time.Time) (days : list day) : bool :=
  existsb (fun d => (weekday d =? ISOWeekday tm) && ((monthday d =? 0) || (monthday d =? calendar.DayOfMonth tm))) days.

Definition nextDay (tm : time.Time) : time.Time :=
  let tm := calendar.AddDate tm 0 0 1 in
  calendar.Date (calendar.Year tm) (calendar.Month tm) (calendar.DayOfMonth tm) 0.

Section getNext.
Context (data : Schedule) (options : nextOptionsT) (excludes : Schedules).

Definition validateNext (tm : time.Time) : result verdict :=
  TestWithLast (AppendExprDataset (New (raw data)) excludes) tm (Last options).

Definition daily (days : list day) (s : search) : result step :=
  let giveUp tm i := Ok (NextDay (Build_search (nextDay tm) i)) in
  if negb (IsInWeeks data (tm s)) then giveUp (tm s) (interval_ s)
  else if negb (isValidDay (tm s) days) then giveUp (tm s) (interval_ s)
  else
    match GetTimerange data (tm s) (Last options) with
    | None => giveUp (tm s) 0
    | Some (t, _) =>
        match validateNext t with
        | Ok NotAllowed | Invalid => Ok (Found t 0)
        | Ok (Allowed delay) => Ok (Found t delay)
        | Ok (Excluded delay) =>
            if 0 <? delay then
              let tmi := time.Add t delay in
              if calendar.YearDay t =? calendar.YearDay tmi then Ok (Drift (Build_search tmi delay))
              else giveUp t delay
            else Ok (Found t delay)
        | Panic => Panic
        | Hang => Hang
        end
    end.

(** The rounds of a day.  Each drift reaches the end of an exclusion, at a new
    time; [dayFuel] bounds these. *)
Fixpoint drift (fuel : nat) (days : list day) (s : search) : result outcome :=
  match fuel with
  | O => Hang
  | S fuel =>
      r ← daily days s;
      match r with
      | Drift s => drift fuel days s
      | NextDay s => Ok (Missed s)
      | Found t i => Ok (Returned t i)
      end
  end.

Definition dayFuel : nat :=
  S (S (length (timeranges data)) * length (flat_map timeranges excludes)).

Definition overDay (year month monthday : Z) (s : search) : result outcome :=
  let t := calendar.Date year month monthday (calendar.clock (tm s)) in
  drift dayFuel (contextualizeDays data t) (Build_search t (interval_ s)).

Definition overMonth (year1 month1 year month : Z) (s : search) : result outcome :=
  if (year =? year1) && (month <? month1) then Ok (Missed s)
  else
    let t := if (year =? year1) && (month =? month1) then tm s else calendar.Date year month 1 0 in
    let firstDay := if (year =? year1) && (month =? month1) then calendar.DayOfMonth t else 1 in
    over (overDay year month) (seqZ firstDay (monthDays t - firstDay + 1)) (Build_search t (interval_ s)).

Definition getNext : result (time.Time * time.Duration) :=
  let year1 := calendar.Year (Time options) in
  let month1 := calendar.Month (Time options) in
  r ← over (fun year => over (overMonth year1 month1 year) (months data)) [year1; year1 + 1]
        (Build_search (Time options) 0);
  match r with
  | Returned t i => Ok (t, i)
  | Missed s => Ok (time.zero, interval_ s)
  end.

End getNext.

(** The earliest of the next times of the elements; a zero one is replaced. *)
Fixpoint nextOf (excludes includes : Schedules) (options : nextOptionsT) (acc : time.Time * time.Duration) :
    result (time.Time * time.Duration) :=
  match includes with
  | [] => Ok acc
  | data :: includes =>
      n ← getNext data options excludes;
      nextOf excludes includes options (if time.IsZero acc.1 || time.After acc.1 n.1 then n else acc)
  end.

Definition Next (t : Expr) (opts : list (nextOptionsT -> nextOptionsT)) : result (time.Time * time.Duration) :=
  let options := newNextOptions opts in
  t ← makeDataset t;
  let ds := default [] (dataset t) in
  nextOf (Excludes ds) (Includes ds) options (time.zero, 0).

End tests.

End schedule.
