(* ===== verification/ScheduleParse.v ===== *)
(** * What the parsers of the schedules yield

    The durations of src/util/converters stay in 64 bits; the schedules a text
    parses to have ascending months and weeks, and no range without interval. *)

From S2P Require Import Prelude Naming.
From S2P Require Import Calendar Convert Schedule.
From Stdlib Require Import Ascii.

Open Scope string_scope.
Open Scope Z_scope.

Import schedule.

(** ** Durations *)

Module durations.
Import converters.

Lemma digit_nonneg c d : strconv.digit c = Some d -> 0 <= d.
Proof.
  unfold strconv.digit. cbv zeta. generalize (Z.of_N (Ascii.N_of_ascii c)). intros n H.
  destruct ((48 <=? n) && (n <=? 57)) eqn:Hr; simplify_eq. reflect. lia.
Qed.

Section durations.
Context `{F : Float}.

Lemma leadingInt_spec s : forall x y r, 0 <= x <= maxInt64 -> leadingInt x s = Some (y, r) ->
  0 <= y <= maxInt64 /\ (String.length r <= String.length s)%nat.
Proof.
  induction s as [|c s IH]; intros x y r Hx H; cbn in H; [simplify_eq; done|].
  destruct (strconv.digit c) as [d|] eqn:Hd; [|simplify_eq; split; [done|simpl; lia]].
  pose proof (digit_nonneg _ _ Hd) as Hd0.
  destruct (Z.ltb_spec (maxInt64 / 10) x); [done|]. destruct (Z.ltb_spec maxInt64 (x * 10 + d)); [done|].
  apply IH in H; [simpl in *; lia|lia].
Qed.

Lemma leadingFraction_length s : forall x scale o,
  (String.length (leadingFraction x scale o s).2 <= String.length s)%nat.
Proof.
  induction s as [|c s IH]; intros x scale o; cbn; [done|]. repeat case_match; cbn; try lia; etrans; eauto.
Qed.

Lemma leadingUnit_length s :
  (String.length (leadingUnit s).1 + String.length (leadingUnit s).2 = String.length s)%nat.
Proof.
  induction s as [|c s IH]; cbn; [done|]. repeat case_match; cbn in *; try done. by rewrite <- IH.
Qed.

(** A number and its unit: a duration, and a shorter text. *)
Lemma parseUnit_spec s v r : parseUnit s = Some (v, r) ->
  0 <= v <= maxInt64 /\ (String.length r < String.length s)%nat.
Proof.
  unfold parseUnit. destruct s as [|c s0]; [done|]. set (s := String c s0).
  intros H. case_match; [done|]. destruct (leadingInt 0 s) as [[n s1]|] eqn:Hi; [|done].
  apply leadingInt_spec in Hi as [_ Hl]; [|done]. cbn [mbind option_bind] in H.
  set (fr := match s1 with String "." s2 => _ | _ => _ end) in H.
  assert (String.length fr.1.2 <= String.length s1)%nat as Hfr.
  { subst fr. destruct s1 as [|[[] [] [] [] [] [] [] []] s2]; try (cbn; lia).
    pose proof (leadingFraction_length s2 0 1 false). destruct (leadingFraction 0 1 false s2) as [[f sc] s3]. cbn in *. lia. }
  destruct fr as [[[f scale] s2] post]. cbn in Hfr. case_match; [done|].
  pose proof (leadingUnit_length s2) as Hu. destruct (leadingUnit s2) as [u s3]. cbn in Hu.
  destruct (String.eqb_spec u "") as [->|Hne]; [done|].
  destruct (unitMap u) as [unit|]; [|done]. cbn in H. destruct (_ <? n) in H; [done|].
  set (w := n * unit + _) in H. clearbody w.
  destruct (Z.ltb_spec maxInt64 w); [done|]. destruct (Z.ltb_spec w 0); [done|]. cbn in H. simplify_eq.
  split; [done|]. destruct u; [done|]. cbn in Hu. lia.
Qed.

Lemma parseUnits_spec fuel : forall d s r, 0 <= d <= maxInt64 -> parseUnits fuel d s = Some r -> 0 <= r <= maxInt64.
Proof.
  induction fuel as [|fuel IH]; intros d [|c s] r Hd H; cbn [parseUnits] in H; simplify_eq; try done.
  destruct (parseUnit (String c s)) as [[v s']|] eqn:Hp; [|done]. cbn [mbind option_bind fst snd] in H.
  apply parseUnit_spec in Hp as [Hv _]. destruct (Z.ltb_spec maxInt64 (d + v)); [done|]. eapply IH; [|done]. lia.
Qed.

(** More fuel than characters changes nothing. *)
Lemma parseUnits_fuel s : forall f g d, (String.length s <= f)%nat -> (String.length s <= g)%nat ->
  parseUnits f d s = parseUnits g d s.
Proof.
  induction s as [s IH] using (induction_ltof1 _ String.length). unfold ltof in IH.
  intros f g d Hf Hg. destruct s as [|c s]; [by destruct f, g|].
  destruct f as [|f]; [cbn in Hf; lia|]. destruct g as [|g]; [cbn in Hg; lia|].
  cbn [parseUnits]. destruct (parseUnit (String c s)) as [[v s']|] eqn:Hp; [|done].
  apply parseUnit_spec in Hp as [_ Hl]. cbn [mbind option_bind fst snd].
  destruct (maxInt64 <? d + v); [done|]. apply IH; [done| |]; cbn in *; lia.
Qed.

End durations.
End durations.

(** ** Loops and sorted lists *)

Lemma collect_Forall {A B} (f : A -> result (list B)) (P : B -> Prop) l :
  (forall a bs, a ∈ l -> f a = Ok bs -> Forall P bs) -> forall r, collect f l = Ok r -> Forall P r.
Proof.
  induction l as [|a l IH]; intros Hf r H; cbn in H; [by simplify_eq|].
  destruct (f a) as [x| | |] eqn:Ha; try done. cbn in H.
  destruct (collect f l) as [y| | |] eqn:Hl; try done. cbn in H. simplify_eq.
  apply Forall_app. split; [by eapply Hf; [left|]|]. apply IH; [|done]. intros b bs Hb. apply Hf. by right.
Qed.

(** A loop that keeps or drops each element. *)
Lemma collect_sublist {A} (f : A -> result (list A)) l :
  (forall a x, f a = Ok x -> x = [a] \/ x = []) -> forall r, collect f l = Ok r -> r `sublist_of` l.
Proof.
  intros Hf. induction l as [|a l IH]; intros r H; cbn in H; [by simplify_eq|].
  destruct (f a) as [x| | |] eqn:Ha; try done. cbn in H.
  destruct (collect f l) as [y| | |] eqn:Hl; try done. cbn in H. simplify_eq.
  destruct (Hf a x Ha) as [->| ->]; cbn; constructor; by apply IH.
Qed.

Definition ascending (l : list Z) : Prop := StronglySorted Z.lt l.

Lemma ascending_sublist l k : k `sublist_of` l -> ascending l -> ascending k.
Proof.
  unfold ascending. induction 1 as [|x k l Hs IH|x k l Hs IH]; intros H; [done| |].
  - inversion_clear H. constructor; [by apply IH|]. rewrite Forall_forall in *. intros y Hy. apply H1. eapply elem_of_sublist; done.
  - inversion_clear H. by apply IH.
Qed.

Lemma ascending_elements (m : gset Z) : ascending (merge_sort Z.le (elements m)).
Proof.
  assert (StronglySorted Z.le (merge_sort Z.le (elements m))) as Hs.
  { apply StronglySorted_merge_sort; [intros x y z; lia|intros x y; lia]. }
  assert (NoDup (merge_sort Z.le (elements m))) as Hn by (rewrite merge_sort_Permutation; apply NoDup_elements).
  revert Hs Hn. generalize (merge_sort Z.le (elements m)). intros l.
  induction 1 as [|x l Hs IH Hx]; intros Hn; [constructor|]. inversion_clear Hn as [|?? Hni Hn'].
  constructor; [by apply IH|]. apply Forall_forall. intros y Hy. eapply Forall_forall in Hx; [|done].
  assert (x <> y) by (by intros ->). lia.
Qed.

Lemma ascending_seqZ a n : ascending (seqZ a n).
Proof.
  unfold seqZ. generalize (Z.to_nat n). intros k. revert a.
  induction k as [|k IH]; intros a; [constructor|]. cbn [seq fmap list_fmap]. constructor.
  - rewrite <- fmap_S_seq, <- list_fmap_compose. specialize (IH (a + 1)). revert IH.
    erewrite list_fmap_ext; [by intros ?|]. intros i x _. cbn. lia.
  - apply Forall_forall. intros x (i & -> & Hi)%list_elem_of_fmap. apply elem_of_seq in Hi. lia.
Qed.

(** ** The calendar elements *)

Section parser.
Context `{E : Env}.

Lemma parseCalendar_ascending spec all l : ascending all -> parseCalendarExpression spec all = Ok l -> ascending l.
Proof.
  unfold parseCalendarExpression. intros Ha H. case_match; [by simplify_eq|].
  destruct (merge all (strings.Split spec ",") ∅) as [m| | |]; try done. cbn in H. simplify_eq. apply ascending_elements.
Qed.

Lemma ascending_AllMonths : ascending AllMonths.
Proof. unfold ascending, AllMonths. repeat constructor; lia. Qed.

Lemma parseMonths_ascending spec l : parseMonths spec = Ok l -> ascending l.
Proof.
  unfold parseMonths. intros H. destruct (strings.Split spec "%") as [|e [|mo [|? ?]]]; try done.
  - eapply parseCalendar_ascending; [|done]. apply ascending_AllMonths.
  - destruct (parseCalendarExpression e AllMonths) as [x| | |] eqn:Hx; try done. cbn in H.
    apply parseCalendar_ascending in Hx; [|apply ascending_AllMonths].
    unfold filterWithModulo in H. destruct (parseModulo mo) as [ms| | |]; try done. cbn in H.
    eapply ascending_sublist; [|exact Hx]. eapply collect_sublist; [|exact H].
    intros a y Hy. cbv beta in Hy. repeat case_match; simplify_eq; auto.
Qed.

Lemma parseWeeks_ascending spec l : parseWeeks spec = Ok l -> ascending l.
Proof. apply parseCalendar_ascending, ascending_seqZ. Qed.

(** ** The ranges *)

(** The sums of hours, minutes and seconds are even, in 64 bits as well. *)
Lemma w64_even z : Z.Even z -> Z.Even (w64 z).
Proof.
  intros [k ->]. unfold w64. exists ((k + 2 ^ 62) mod 2 ^ 63 - 2 ^ 62).
  replace (2 * k + 2 ^ 63) with (2 * (k + 2 ^ 62)) by lia. change (2 ^ 64) with (2 * 2 ^ 63).
  rewrite Z.mul_mod_distr_l by lia. lia.
Qed.

Lemma Even_add x y : Z.Even x -> Z.Even y -> Z.Even (x + y).
Proof. intros [a ->] [b ->]. exists (a + b). lia. Qed.

Lemma parseTime_even s t : parseTime s = Ok t -> Z.Even t.
Proof.
  assert (forall c z, Z.Even c -> Z.Even (w64 (c * z))) as Hu.
  { intros c z [k ->]. apply w64_even. exists (k * z). lia. }
  assert (Z.Even time.Hour /\ Z.Even time.Minute /\ Z.Even time.Second) as (H1 & H2 & H3).
  { split_and!; by apply Z.even_spec. }
  unfold parseTime. intros H. destruct (strings.Split s ":") as [|a [|b [|c [|? ?]]]]; try done;
    repeat match type of H with context [check ?o] => destruct o; [|done]; cbn [check mbind result_bind] in H end;
    simplify_eq; repeat first [apply Hu; done | apply w64_even, Even_add].
Qed.

Lemma w64_zero z : w64 z = 0 -> Z.Even z.
Proof.
  unfold w64. intros H. exists ((z + 2 ^ 63) / 2 ^ 64 * 2 ^ 63).
  pose proof (Z.div_mod (z + 2 ^ 63) (2 ^ 64) ltac:(lia)). lia.
Qed.

Lemma parseBounds_interval s be : parseBounds s = Ok be -> defaultInterval be.1 be.2 <> 0.
Proof.
  unfold parseBounds. intros H. case_match; [by simplify_eq|].
  match type of H with (?m ≫= _) = _ => destruct m as [se| | |] end; try done. cbn in H.
  destruct (parseTime se.1) as [b| | |] eqn:Hb; try done. cbn in H.
  destruct (parseTime se.2) as [e| | |] eqn:He; try done. cbn in H. simplify_eq. cbn [fst snd].
  apply parseTime_even in Hb, He.
  set (e' := if b =? e then w64 (e + time.Second) else e). assert (Z.Even e') as He'.
  { subst e'. destruct (b =? e); [|done]. apply w64_even, Even_add; [done|by apply Z.even_spec]. }
  clearbody e'. destruct Hb as [p ->], He' as [q ->].
  unfold defaultInterval. intros Hz. destruct (_ <? _); apply w64_zero in Hz as [r Hr]; [lia|].
  change Day with (2 * 43200000000000) in Hr. lia.
Qed.

Lemma parseTimerange_interval spec trs : parseTimerange spec = Ok trs -> Forall (fun tr => interval tr <> 0) trs.
Proof.
  unfold parseTimerange. intros H. destruct spec as [|c rest].
  { simplify_eq. by repeat constructor. }
  match type of H with (let '(_, _) := ?x in _) = _ => set (ts := x) in H end.
  assert (interval ts.1 = Day) as Hi by (subst ts; by destruct (Ascii.eqb c "~")).
  destruct ts as [tr spec]. cbn [fst] in Hi.
  destruct (String.eqb spec "*"). { simplify_eq. constructor; [by rewrite Hi|done]. }
  destruct (strings.Split spec "@") as [|b [|d [|? ?]]]; try done.
  - destruct (parseBounds spec) as [be| | |] eqn:Hb; try done. cbn in H. simplify_eq.
    constructor; [|done]. by eapply parseBounds_interval.
  - destruct (parseBounds b) as [be| | |] eqn:Hb; try done. cbn [mbind result_bind] in H.
    match type of H with context [check ?o] => destruct o as [[i|]|]; [| |done] end; cbn [check mbind result_bind] in H; [|done].
    destruct i; simplify_eq; [done|..]; constructor; done.
Qed.

Lemma parseTimeranges_interval s trs : parseTimeranges s = Ok trs -> Forall (fun tr => interval tr <> 0) trs.
Proof. intros H. eapply collect_Forall; [|exact H]. intros a bs _. apply parseTimerange_interval. Qed.

(** ** The days *)

Lemma Atoi_range s i : strconv.Atoi s = Some i -> - 2 ^ 63 <= i < 2 ^ 63.
Proof.
  assert (forall z, strconv.in_range z = Some i -> - 2 ^ 63 <= i < 2 ^ 63) as Hr.
  { unfold strconv.in_range. intros z. case_match; intros [= <-]. reflect. lia. }
  unfold strconv.Atoi. intros H. repeat case_match; try done; by eapply Hr.
Qed.

Lemma parseMonthday_range s m : parseMonthday s = Ok m -> - 2 ^ 63 <= m < 2 ^ 63.
Proof.
  unfold parseMonthday. repeat case_match; try (intros [= <-]; lia).
  destruct (strconv.Atoi s) as [i|] eqn:Hi; [|done]. cbn [check mbind result_bind].
  destruct (i =? 0); intros [= <-]. by eapply Atoi_range.
Qed.

Lemma parseDay_range s l : parseDay s = Ok l -> Forall (fun e => - 2 ^ 63 <= monthday e < 2 ^ 63) l.
Proof.
  unfold parseDay. intros H.
  assert (forall dm : string * Z, - 2 ^ 63 <= dm.2 < 2 ^ 63 ->
    (days0 ← parseWeekdays dm.1; Ok (map (fun d => Build_day d dm.2) days0)) = Ok l ->
    Forall (fun e => - 2 ^ 63 <= monthday e < 2 ^ 63) l) as Hl.
  { intros dm Hd Hl. destruct (parseWeekdays dm.1) as [ws| | |]; try done. cbn in Hl. simplify_eq.
    apply Forall_forall. intros x (w & -> & _)%list_elem_of_fmap. done. }
  destruct (strings.Split s ":") as [|a [|b [|? ?]]]; try done.
  - eapply (Hl (s, 0)); [cbn; lia|exact H].
  - destruct (String.eqb b ""); [done|]. destruct (parseMonthday b) as [m| | |] eqn:Hm; try done.
    apply parseMonthday_range in Hm. eapply (Hl (a, m)); [exact Hm|exact H].
Qed.

Lemma parseDays_range s l : parseDays s = Ok l -> Forall (fun e => - 2 ^ 63 <= monthday e < 2 ^ 63) l.
Proof. intros H. eapply collect_Forall; [|exact H]. intros a bs _. apply parseDay_range. Qed.

(** ** The schedules *)

(** A schedule the parser yields. *)
Record typed (d : Schedule) : Prop := {
  typed_months : ascending (months d);
  typed_weeks : ascending (weeks d);
  typed_monthdays : Forall (fun e => - 2 ^ 63 <= monthday e < 2 ^ 63) (days d);
  typed_intervals : Forall (fun tr => interval tr <> 0) (timeranges d);
}.

Lemma parseExpr_typed s d : parseExpr s = Ok d -> typed d /\ raw d = s.
Proof.
  unfold parseExpr. intros H.
  assert (forall b, typed (Build_Schedule [] [] [] [] s b)) as Hn by (intros b; repeat constructor).
  destruct (text.TrimSpace s) as [|c rest]; [by simplify_eq|].
  match type of H with (let '(_, _) := ?x in _) = _ => destruct x as [excl s'] end.
  destruct (String.eqb s' ""); [by simplify_eq|].
  assert (forall ts ds, parseTimeranges ts = Ok ds -> Forall (fun tr => interval tr <> 0) ds) as Ht
    by exact parseTimeranges_interval.
  pose proof parseWeeks_ascending as Hw. pose proof parseMonths_ascending as Hm.
  pose proof parseDays_range as Hd.
  assert (Forall (fun e => - 2 ^ 63 <= monthday e < 2 ^ 63) AllDays) by (repeat constructor; cbn; lia).
  pose proof ascending_AllMonths. pose proof (ascending_seqZ 1 (lastWeek getNow)).
  destruct (text.Fields s') as [|e0 [|e1 [|e2 [|e3 [|? ?]]]]]; try done;
    repeat match type of H with (?m ≫= _) = _ => let E := fresh in destruct m eqn:E; try done; cbn [mbind result_bind] in H end;
    simplify_eq; (split; [constructor; cbn; eauto|done]).
Qed.

Lemma parse_exprs s ds : parse s = Ok ds -> Forall (fun d => typed d /\ raw d ∈ normalizeExpression s) ds.
Proof.
  unfold parse. apply collect_Forall. intros e bs He H.
  destruct (parseExpr e) as [d| | |] eqn:Hd; try done. cbn in H. simplify_eq.
  apply parseExpr_typed in Hd as [? Hr]. constructor; [|done]. by rewrite Hr.
Qed.

Lemma parse_Forall s ds : parse s = Ok ds -> Forall typed ds.
Proof. intros H%parse_exprs. eapply Forall_impl; [exact H|]. by intros d [? _]. Qed.

End parser.

(** C40: The elements of an expression that parses are well formed: months and weeks without
    duplicates and in order, days of the month in 64 bits, no null interval; and the
    text of each is one of the texts of the expression. *)
Theorem parse_typed `{E : Env} s ds : parse s = Ok ds ->
  Forall (fun d => typed d /\ raw d ∈ normalizeExpression s) ds.
Proof. apply parse_exprs. Qed.
