(* ===== verification/ScheduleNext.v ===== *)
(** * The next time of a schedule

    [Next] against [TestWithLast]: the time it returns is the earliest one that
    [TestWithLast] allows, for a schedule of one range in the day. *)

From S2P Require Import Prelude Naming.
From S2P Require Import Calendar Convert Schedule ScheduleParse.

Open Scope Z_scope.

Import schedule.
Import calendar(time_split, time_of, valid_day, Date_parts, dayNumber_add, dayNumber_next_month, dayNumber_lt,
  next_midnight, last_of_month, Year_mono, dayOf_nonneg, dayOf_mono, dayOf, clock, valid, dayNumber, Date, Year, Month,
  DayOfMonth, daysIn, Day_pos).

(** ** The constraints of a day *)

Section days.
Context (data : Schedule).

Definition dayOk (t : time.Time) : bool := IsInMonths data t && IsInWeeks data t && IsInDays data t.

(** They depend on the day only. *)
Lemma dayOk_day t u : dayOf t = dayOf u -> dayOk t = dayOk u.
Proof.
  intros E. unfold dayOk, IsInMonths, IsInWeeks, IsInDays, contextualizeDays, monthDays, isInDay, ISOWeekday,
    calendar.Weekday, calendar.ISOWeek, calendar.Month, calendar.Year, calendar.DayOfMonth.
  by rewrite E.
Qed.

Lemma isValidDay_IsInDays t : isValidDay t (contextualizeDays data t) = IsInDays data t.
Proof.
  unfold isValidDay, IsInDays. induction (contextualizeDays data t) as [|d l IH]; [done|].
  cbn [existsb]. rewrite IH. f_equal. unfold isInDay. by rewrite Z.eqb_sym, (Z.eqb_sym (monthday d) (calendar.DayOfMonth t)).
Qed.

Lemma contextualizeDays_month t u : Year t = Year u -> Month t = Month u ->
  contextualizeDays data t = contextualizeDays data u.
Proof. intros Hy Hm. unfold contextualizeDays, monthDays. by rewrite Hy, Hm. Qed.

End days.

Lemma monthDays_spec t : 0 <= t -> monthDays t = daysIn (Year t) (Month t).
Proof. intros Ht. destruct (valid_day t Ht) as [(? & ? & ?) _]. by apply last_of_month. Qed.

Lemma isTooSoon_spec t last i : time.minDuration < i <= time.maxDuration ->
  isTooSoon t last i = true <-> last <> 0 /\ t < time.Add last i.
Proof.
  intros Hi. unfold isTooSoon, time.IsZero, time.zero, time.Add, time.Sub in *.
  rewrite andb_true_iff, !negb_true_iff, Z.eqb_neq, Z.leb_gt. lia.
Qed.

(** ** One range in the day *)

Section one_range.
Context `{E : Env} (data : Schedule) (tr : timerange) (now last : time.Time).

#[local] Definition options : nextOptionsT := Build_nextOptionsT now last.

Hypothesis Hranges : timeranges data = [tr].
Hypothesis Hincl : exclude data = false.
Hypothesis Hsure : probabilistic tr = false.
Hypothesis Hbegin : 0 <= begin tr.
Hypothesis Horder : begin tr <= end_ tr.
Hypothesis Hend : end_ tr < Day.
Hypothesis Hinterval : 0 < interval tr <= time.maxDuration.
Hypothesis Hnow : 0 < now.
Hypothesis Hlast : last <= now.
Hypothesis Hparse : parse (raw data) = Ok [data].

(** A time [TestWithLast] allows. *)
Definition good (t : time.Time) : Prop :=
  dayOk data t = true /\ begin tr <= clock t <= end_ tr /\ (last = 0 \/ time.Add last (interval tr) <= t).

Lemma includes_spec t : TestIncludes tr t = true <-> begin tr <= clock t <= end_ tr.
Proof.
  unfold TestIncludes. rewrite (proj2 (Z.leb_le _ _)) by done. by rewrite andb_true_iff, !Z.leb_le.
Qed.

Lemma tooSoon_spec t : isTooSoon t last (interval tr) = true <-> last <> 0 /\ t < time.Add last (interval tr).
Proof. apply isTooSoon_spec. unfold time.minDuration. lia. Qed.

Lemma fresh_spec t : isInTimerangeInterval tr t last = negb (isTooSoon t last (interval tr)).
Proof.
  apply eq_true_iff_eq. rewrite negb_true_iff, <- not_true_iff_false, tooSoon_spec.
  unfold isInTimerangeInterval, needActionInterval, time.IsZero, time.zero, time.After.
  rewrite (proj2 (Z.eqb_neq (interval tr) 0)) by lia.
  destruct (Z.eqb_spec last 0); simpl; [split; [lia|done]|].
  rewrite orb_true_iff, Z.eqb_eq, Z.ltb_lt. lia.
Qed.

Lemma validate_spec t : validate data t last = if bool_decide (good t) then Some 0 else None.
Proof.
  unfold validate. rewrite Hranges, Hincl. cbn [isInTimeranges]. rewrite fresh_spec.
  assert (Delay tr t = 0) as -> by (unfold Delay; by rewrite Hsure).
  assert (good t <-> dayOk data t = true /\ TestIncludes tr t = true /\ isTooSoon t last (interval tr) = false) as G.
  { unfold good. rewrite includes_spec, <- not_true_iff_false, tooSoon_spec. intuition lia. }
  unfold dayOk in G.
  destruct (IsInMonths data t), (IsInWeeks data t), (IsInDays data t), (TestIncludes tr t),
    (isTooSoon t last (interval tr)); simpl in *; case_bool_decide; intuition congruence.
Qed.

Lemma validateNext_good t : good t -> validateNext data options [] t = Ok (Allowed 0).
Proof.
  intros G. unfold validateNext, TestWithLast, makeDataset, New. cbn. rewrite Hparse. cbn.
  rewrite validate_spec, bool_decide_true by done. by rewrite Hincl.
Qed.

(** ** The frontier of the search *)

(** No time is allowed from now to [x]. *)
Definition frontier (x : time.Time) : Prop := forall t, good t -> now <= t -> x <= t.

(** The result of the search: the first allowed time. *)
Definition least (t : time.Time) : Prop := good t /\ now <= t /\ frontier t.

(** Linear arithmetic on days and clocks. *)
Lemma Day_val : Day = 86400000000000.
Proof. done. Qed.

Lemma split_val t : t = 86400000000000 * dayOf t + clock t /\ 0 <= clock t < 86400000000000.
Proof. destruct (time_split t) as [E1 E2]. change calendar.Day with 86400000000000 in *. lia. Qed.

(** A new run falls in the day it is looked for, or every day is allowed. *)
Hypothesis Hday : interval tr < Day - (end_ tr - begin tr) \/ (forall t, now <= t -> dayOk data t = true).

(** The end of the last interval, when it falls after a time of the range. *)
Lemma jump b : now <= b -> dayOk data b = true -> begin tr <= clock b <= end_ tr ->
  last <> 0 -> b < time.Add last (interval tr) ->
  if TestIncludes tr (time.Add last (interval tr)) then good (time.Add last (interval tr))
  else forall t, good t -> (dayOf b + 1) * Day <= t.
Proof.
  intros Hb Hok Hin Hz Hlt. rewrite Day_val in *. pose proof (split_val b) as [Eb ?].
  pose proof (includes_spec (time.Add last (interval tr))) as Hinc.
  set (u := time.Add last (interval tr)) in *. assert (u = last + interval tr) as Eu by done.
  pose proof (split_val u) as [Es ?].
  pose proof (dayOf_mono b u ltac:(lia)) as Hd.
  destruct (TestIncludes tr u) eqn:Hi.
  - apply proj1 in Hinc. specialize (Hinc eq_refl). split; [|split; [done|right; lia]].
    destruct Hday as [Hfar|Hall]; [|apply Hall; lia].
    rewrite <- Hok. apply dayOk_day. lia.
  - assert (~ begin tr <= clock u <= end_ tr) as Hout by (rewrite <- Hinc; congruence).
    intros t (Ht & Hct & [?|Hft]); [done|]. fold u in Hft. pose proof (split_val t) as [Et ?].
    pose proof (dayOf_mono u t ltac:(lia)). lia.
Qed.

Lemma GetTimerange_spec x : now <= x -> dayOk data x = true ->
  match GetTimerange data x last with
  | Some (t, _) => good t /\ x <= t /\ forall t', good t' -> x <= t' -> t <= t'
  | None => forall t', good t' -> x <= t' -> (dayOf x + 1) * Day <= t'
  end.
Proof.
  intros Hx Hok. assert (0 <= x) as Hx0 by lia.
  unfold GetTimerange, Including, After. rewrite Hranges. cbn [List.filter].
  pose proof (split_val x) as [Ex Hcx].
  destruct (TestIncludes tr x) eqn:Hi; cbn [SortedByIntervalAndBegin stable_sort stable_insert].
  - apply includes_spec in Hi. destruct (isTooSoon x last (interval tr)) eqn:Hs.
    + apply tooSoon_spec in Hs as [Hz Hlt]. pose proof (jump x Hx Hok Hi Hz Hlt) as J.
      destruct (TestIncludes tr (time.Add last (interval tr))); [|by auto].
      split; [done|]. split; [unfold time.Add in *; lia|]. by intros t' (_ & _ & [?|?]) ?.
    + rewrite <- not_true_iff_false, tooSoon_spec in Hs. unfold enter. rewrite Hsure.
      split; [|split; [lia|by auto]]. split; [done|]. split; [done|]. lia.
  - assert (~ begin tr <= clock x <= end_ tr) as Hout by (rewrite <- includes_spec; congruence).
    unfold timerange_After. destruct (Z.leb_spec (clock x) (begin tr)) as [Hb|Hb];
      cbn [SortedByIntervalAndBegin stable_sort stable_insert later].
    + assert (time.Add (Date (Year x) (Month x) (DayOfMonth x) 0) (begin tr) = dayOf x * Day + begin tr) as ->.
      { unfold time.Add, Date. rewrite (proj2 (valid_day x Hx0)). change Day with calendar.Day. lia. }
      set (b := dayOf x * Day + begin tr).
      destruct (time_of (dayOf x) (begin tr) ltac:(change calendar.Day with Day; lia)) as [Hbd Hbc].
      change calendar.Day with Day in Hbd, Hbc. fold b in Hbd, Hbc.
      assert (x < b) as Hxb by (subst b; rewrite Day_val in *; lia).
      rewrite <- (dayOk_day data b x Hbd) in Hok.
      assert (forall t', good t' -> x <= t' -> b <= t') as Hfirst.
      { intros t' (_ & Ht' & _) ?. pose proof (split_val t') as [Et ?]. pose proof (dayOf_mono x t' ltac:(lia)).
        subst b. rewrite Day_val in *. lia. }
      destruct (isTooSoon b last (interval tr)) eqn:Hs.
      * apply tooSoon_spec in Hs as [Hz Hlt].
        pose proof (jump b ltac:(lia) Hok ltac:(lia) Hz Hlt) as J. rewrite Hbd in J.
        destruct (TestIncludes tr (time.Add last (interval tr))); [|by auto].
        split; [done|]. split; [unfold time.Add in *; lia|]. by intros t' (_ & _ & [?|?]) ?.
      * rewrite <- not_true_iff_false, tooSoon_spec in Hs. unfold enter. rewrite Hsure.
        split; [|split; [lia|done]]. split; [done|]. split; [lia|]. lia.
    + intros t' (_ & Ht' & _) ?. pose proof (split_val t') as [Et ?]. pose proof (dayOf_mono x t' ltac:(lia)).
      rewrite Day_val in *. lia.
Qed.

(** A round of [daily] finds the first allowed time from its own, or none in
    the day. *)
Lemma daily_spec s : now <= tm s -> IsInMonths data (tm s) = true -> frontier (tm s) ->
  (exists t, daily data options [] (contextualizeDays data (tm s)) s = Ok (Found t 0) /\ least t) \/
  (exists i, daily data options [] (contextualizeDays data (tm s)) s =
               Ok (NextDay (Build_search ((dayOf (tm s) + 1) * Day) i)) /\
             frontier ((dayOf (tm s) + 1) * Day)).
Proof.
  intros Hx Hm Hf. set (x := tm s) in *.
  assert (nextDay x = (dayOf x + 1) * Day) as Hnd by (apply (next_midnight x); lia).
  unfold daily. fold x. rewrite isValidDay_IsInDays, Hnd.
  destruct (dayOk data x) eqn:Hok.
  - pose proof (GetTimerange_spec x Hx Hok) as HG. unfold dayOk in Hok. rewrite Hm in Hok. cbn [andb] in Hok.
    apply andb_true_iff in Hok as [-> ->]. cbn [negb options Last]. destruct (GetTimerange data x last) as [[t i]|].
    + destruct HG as (Hg & Hxt & Hl). rewrite (validateNext_good t Hg). left. exists t. split; [done|].
      split; [done|]. split; [lia|]. intros t' Ht' Hn. apply Hl; [done|]. by apply Hf.
    + right. exists 0. split; [done|]. intros t' Ht' Hn. apply HG; [done|]. by apply Hf.
  - right. exists (interval_ s). split.
    + unfold dayOk in Hok. rewrite Hm in Hok. cbn [andb] in Hok.
      destruct (IsInWeeks data x); cbn [negb andb] in *; [|done]. by rewrite Hok.
    + intros t' Ht' Hn. pose proof (Hf t' Ht' Hn) as Hxt. destruct Ht' as (Hd & _).
      pose proof (dayOf_mono _ _ Hxt). destruct (Z.eq_dec (dayOf x) (dayOf t')) as [Ed|Ed].
      { rewrite (dayOk_day data _ _ Ed) in Hok. congruence. }
      pose proof (split_val t') as [Et ?]. rewrite Day_val. lia.
Qed.

(** ** The loops *)

(** How a loop of the search ends: with the first allowed time, or past a time
    before which none is allowed. *)
Definition ends (P : search -> Prop) (r : result outcome) : Prop :=
  (exists t, r = Ok (Returned t 0) /\ least t) \/ (exists s, r = Ok (Missed s) /\ P s).

Lemma ends_mono (P Q : search -> Prop) r : (forall s, P s -> Q s) -> ends P r -> ends Q r.
Proof. intros HPQ [?|(s & ? & ?)]; [by left|right; eauto]. Qed.

Lemma over_step {A} (f : A -> search -> result outcome) a l s (P Q : search -> Prop) :
  ends P (f a s) -> (forall s', P s' -> ends Q (over f l s')) -> ends Q (over f (a :: l) s).
Proof.
  intros [(t & Hr & Hl)|(s' & Hr & HP)] HQ; cbn [over]; rewrite Hr; cbn.
  - left; eauto.
  - by apply HQ.
Qed.

Lemma overDay_spec y m d s : valid y m d -> one_of m (months data) = true ->
  now <= Date y m d (clock (tm s)) -> frontier (Date y m d (clock (tm s))) ->
  ends (fun s' => tm s' = Date y m (d + 1) 0 /\ now <= tm s' /\ frontier (tm s')) (overDay data options [] y m d s).
Proof.
  intros Hv Hm Hx Hf. unfold overDay, dayFuel. set (x := Date y m d (clock (tm s))) in *.
  destruct (Date_parts y m d (clock (tm s)) Hv (proj2 (time_split _))) as (Hd & _ & _ & HM & _). fold x in Hd, HM.
  assert ((dayOf x + 1) * Day = Date y m (d + 1) 0) as Hnext.
  { rewrite Hd. unfold Date. rewrite dayNumber_add. change Day with calendar.Day. lia. }
  cbn [drift].
  pose proof (daily_spec (Build_search x (interval_ s)) Hx) as Hds. cbn [tm] in Hds.
  destruct Hds as [(t & -> & Hl)|(i & -> & Hf')]; [unfold IsInMonths; by rewrite HM|done|left; eauto|].
  right. exists (Build_search ((dayOf x + 1) * Day) i). split; [done|]. cbn [tm] in *. rewrite Hnext in *.
  split; [done|]. split; [|done]. pose proof (split_val x). rewrite <- Hnext, Day_val. lia.
Qed.

(** The days of a month from [d], of which [n] remain. *)
Lemma overDays_spec y m n : forall d s, 1 <= y -> 1 <= m <= 12 -> 1 <= d -> d + Z.of_nat n = daysIn y m + 1 ->
  one_of m (months data) = true ->
  now <= Date y m d (clock (tm s)) -> frontier (Date y m d (clock (tm s))) ->
  ends (fun s' => frontier (Date y m (daysIn y m + 1) (clock (tm s'))))
    (over (overDay data options [] y m) (seqZ d (Z.of_nat n)) s).
Proof.
  induction n as [|n IH]; intros d s Hy Hm Hd Hn Hmon Hx Hf.
  - right. exists s. split; [done|]. replace (daysIn y m + 1) with d by lia. done.
  - rewrite seqZ_cons by lia.
    assert (valid y m d) as Hv by (split; [done|]; split; [done|]; lia).
    eapply over_step; [by apply overDay_spec|]. intros s' (Ht & Hx' & Hf').
    assert (clock (tm s') = 0) as Hc.
    { rewrite Ht. unfold Date. by apply time_of. }
    replace (Z.pred (Z.of_nat (S n))) with (Z.of_nat n) by lia. replace (Z.succ d) with (d + 1) by lia.
    destruct n as [|n].
    + right. exists s'. split; [done|]. rewrite Hc.
      replace (daysIn y m + 1) with (d + 1) by lia. by rewrite <- Ht.
    + apply (IH (d + 1) s'); try lia; try done; by rewrite Hc, <- Ht.
Qed.

(** The times of a month and of those that follow. *)
Definition from (y m : Z) (t : time.Time) : Prop := y < Year t \/ y = Year t /\ m <= Month t.

Lemma from_day y m t : 1 <= y -> 1 <= m <= 12 -> 0 <= t -> from y m t <-> dayNumber y m 1 <= dayOf t.
Proof.
  intros Hy Hm Ht. destruct (valid_day t Ht) as [Hv <-].
  pose proof (calendar.daysBeforeMonth_range y m Hm) as (_ & _ & Hn).
  assert (valid y m 1) as Hv1 by (split; [done|]; lia).
  unfold from. split.
  - intros [Hlt|[-> Hle]]; [pose proof (dayNumber_lt _ _ _ _ _ _ Hv1 Hv ltac:(lia)); lia|].
    destruct (Z.eq_dec m (Month t)) as [->|].
    + replace (DayOfMonth t) with (1 + (DayOfMonth t - 1)) by lia. rewrite dayNumber_add. destruct Hv as (_ & _ & ?). lia.
    + pose proof (dayNumber_lt _ _ _ _ _ _ Hv1 Hv ltac:(lia)). lia.
  - intros Hle. destruct (Z.lt_trichotomy y (Year t)) as [?|[?|?]]; [by left|right|].
    + split; [done|]. destruct (Z_le_gt_dec m (Month t)); [done|].
      pose proof (dayNumber_lt _ _ _ _ _ _ Hv Hv1 ltac:(lia)). lia.
    + pose proof (dayNumber_lt _ _ _ _ _ _ Hv Hv1 ltac:(lia)). lia.
Qed.

(** Past the last day of a month is past the month. *)
Lemma past_month y m t c : 1 <= y -> 1 <= m <= 12 -> 0 <= t -> 0 <= c < Day ->
  Date y m (daysIn y m + 1) c <= t -> y < Year t \/ y = Year t /\ m < Month t.
Proof.
  intros Hy Hm Ht Hc Hle. rewrite Day_val in Hc.
  assert (dayNumber y m 1 + daysIn y m <= dayOf t) as Hd.
  { pose proof (split_val t). unfold Date in Hle. replace (daysIn y m + 1) with (1 + daysIn y m) in Hle by lia.
    rewrite dayNumber_add in Hle. change calendar.Day with 86400000000000 in Hle. lia. }
  destruct (valid_day t Ht) as [Hv Hn].
  destruct (Z.eq_dec m 12) as [->|Hne].
  - left. rewrite <- dayNumber_next_month in Hd by done. change (12 + 1) with 13 in Hd.
    assert (dayNumber y 13 1 = dayNumber (y + 1) 1 1) as E1.
    { unfold dayNumber. change ((13 - 1) / 12) with 1. change ((13 - 1) mod 12) with 0.
      change ((1 - 1) / 12) with 0. change ((1 - 1) mod 12) with 0. cbv zeta. by replace (y + 1 + 0) with (y + 1) by lia. }
    rewrite E1 in Hd. apply from_day in Hd as [?|[? ?]]; lia.
  - rewrite <- dayNumber_next_month in Hd by done. apply from_day in Hd as [?|[? ?]]; lia.
Qed.

Hypothesis Hsorted : StronglySorted Z.lt (months data).
Hypothesis Hmonths : Forall (fun m => 1 <= m <= 12) (months data).


Lemma Date_of t : 0 <= t -> Date (Year t) (Month t) (DayOfMonth t) (clock t) = t.
Proof. intros Ht. unfold Date. rewrite (proj2 (valid_day t Ht)). symmetry. apply time_split. Qed.

Lemma later_month y m : 1 <= y -> 1 <= m <= 12 -> Year now < y \/ Year now = y /\ Month now < m -> now <= Date y m 1 0.
Proof.
  intros Hy Hm Hlt. destruct (Z_le_gt_dec now (Date y m 1 0)) as [?|Hgt]; [done|exfalso].
  assert (dayNumber y m 1 <= dayOf now) as Hd.
  { pose proof (split_val now). unfold Date in Hgt. change calendar.Day with 86400000000000 in Hgt. lia. }
  apply from_day in Hd as [?|[? ?]]; lia.
Qed.

Lemma from_now t : now <= t -> from (Year now) (Month now) t.
Proof.
  intros Hn. destruct (valid_day now ltac:(lia)) as [(Hy & Hm & Hd) Hdn].
  apply from_day; [done|done|lia|]. pose proof (dayOf_mono now t Hn).
  replace (DayOfMonth now) with (1 + (DayOfMonth now - 1)) in Hdn by lia. rewrite dayNumber_add in Hdn. lia.
Qed.

Definition allFrom (P : time.Time -> Prop) : Prop := forall t, good t -> now <= t -> P t.

Lemma frontier_month y m : 1 <= y -> 1 <= m <= 12 -> allFrom (from y m) -> frontier (Date y m 1 0).
Proof.
  intros Hy Hm Hf t Ht Hn. pose proof (Hf t Ht Hn) as Hfr. apply from_day in Hfr; [|done..|lia].
  pose proof (split_val t). unfold Date. change calendar.Day with 86400000000000. lia.
Qed.

(** A month after the first one, from its first day. *)
Lemma overMonth_spec y m s : 1 <= y -> m ∈ months data -> Year now < y \/ Year now = y /\ Month now < m ->
  allFrom (from y m) ->
  ends (fun _ => allFrom (fun t => y < Year t \/ y = Year t /\ m < Month t))
    (overMonth data options [] (Year now) (Month now) y m s).
Proof.
  intros Hy Hin Hlt Hf. assert (1 <= m <= 12) as Hm by (by eapply Forall_forall in Hmonths).
  pose proof (calendar.daysBeforeMonth_range y m Hm) as (_ & _ & Hn).
  assert (valid y m 1) as Hv by (split; [done|]; lia). pose proof Day_pos.
  destruct (Date_parts y m 1 0 Hv ltac:(lia)) as (_ & Hc & HY & HM & _).
  unfold overMonth. replace ((y =? Year now) && (m <? Month now)) with false by (symmetry; apply not_true_iff_false; rewrite andb_true_iff; lia).
  replace ((y =? Year now) && (m =? Month now)) with false by (symmetry; apply not_true_iff_false; rewrite andb_true_iff; lia).
  pose proof (later_month y m Hy Hm Hlt) as Hx. rewrite monthDays_spec, HY, HM by lia.
  replace (daysIn y m - 1 + 1) with (Z.of_nat (Z.to_nat (daysIn y m))) by lia.
  eapply ends_mono; [|apply overDays_spec; cbn [tm]; try rewrite Hc; try lia; [|by apply frontier_month]].
  - intros s' Hf' t Ht Hnt. apply (past_month y m t (clock (tm s'))); [lia|lia|lia|apply time_split|by apply Hf'].
  - by apply one_of_spec.
Qed.

(** The month of the first time, from its day. *)
Lemma overMonth_first s : tm s = now -> Month now ∈ months data ->
  ends (fun _ => allFrom (fun t => Year now < Year t \/ Year now = Year t /\ Month now < Month t))
    (overMonth data options [] (Year now) (Month now) (Year now) (Month now) s).
Proof.
  intros Hs Hin. destruct (valid_day now ltac:(lia)) as [(Hy & Hm & Hd) _].
  unfold overMonth. rewrite !Z.eqb_refl, Z.ltb_irrefl. cbn [andb]. rewrite Hs, monthDays_spec by lia.
  replace (daysIn (Year now) (Month now) - DayOfMonth now + 1)
    with (Z.of_nat (Z.to_nat (daysIn (Year now) (Month now) - DayOfMonth now + 1))) by lia.
  eapply ends_mono; [|apply overDays_spec; cbn [tm]; rewrite ?(Date_of now) by lia; try lia].
  - intros s' Hf' t Ht Hnt.
    apply (past_month (Year now) (Month now) t (clock (tm s'))); [lia|lia|lia|apply time_split|by apply Hf'].
  - by apply one_of_spec.
  - by intros t.
Qed.

(** What remains of a year: the months of [l]. *)
Definition remains (y : Z) (l : list Z) (t : time.Time) : Prop := y < Year t \/ y = Year t /\ Month t ∈ l.

Lemma remains_from y m l : Forall (Z.lt m) l -> allFrom (remains y (m :: l)) -> allFrom (from y m).
Proof.
  intros Hl Hf t Ht Hn. destruct (Hf t Ht Hn) as [?|[? Hin]]; [by left|]. right. split; [done|].
  apply elem_of_cons in Hin as [->|Hin]; [done|]. eapply Forall_forall in Hin; [|done]. lia.
Qed.

Lemma remains_past y m l :
  allFrom (remains y (m :: l)) -> allFrom (fun t => y < Year t \/ y = Year t /\ m < Month t) -> allFrom (remains y l).
Proof.
  intros Hr Hf t Ht Hn. destruct (Hr t Ht Hn) as [?|[? Hin]]; [by left|]. destruct (Hf t Ht Hn) as [?|[? ?]]; [by left|].
  right. split; [done|]. apply elem_of_cons in Hin as [?|?]; [lia|done].
Qed.

Lemma overMonths_spec y l : forall s, 1 <= y -> l ⊆ months data -> StronglySorted Z.lt l ->
  Forall (fun m => Year now < y \/ Year now = y /\ Month now < m) l -> allFrom (remains y l) ->
  ends (fun _ => allFrom (fun t => y < Year t)) (over (overMonth data options [] (Year now) (Month now) y) l s).
Proof.
  induction l as [|m l IH]; intros s Hy Hin Hs Hlt Hr.
  - right. exists s. split; [done|]. intros t Ht Hn. destruct (Hr t Ht Hn) as [?|[_ H%elem_of_nil]]; done.
  - inversion_clear Hs as [|?? Hs' Hm]. inversion_clear Hlt as [|?? Hm1 Hlt'].
    eapply over_step.
    + apply overMonth_spec; [done|apply Hin; left|done|]. by eapply remains_from.
    + intros s' Hp. apply IH; [done| |done|done|by eapply remains_past]. intros x Hx. apply Hin. by right.
Qed.

Lemma overFirstYear_spec l : forall s, tm s = now -> l ⊆ months data -> StronglySorted Z.lt l ->
  allFrom (remains (Year now) l) ->
  ends (fun _ => allFrom (fun t => Year now < Year t))
    (over (overMonth data options [] (Year now) (Month now) (Year now)) l s).
Proof.
  destruct (valid_day now ltac:(lia)) as [(Hy & Hmm & _) _].
  induction l as [|m l IH]; intros s Hs Hin Hso Hr.
  - right. exists s. split; [done|]. intros t Ht Hn. destruct (Hr t Ht Hn) as [?|[_ H%elem_of_nil]]; done.
  - inversion_clear Hso as [|?? Hso' Hm].
    assert (l ⊆ months data) as Hin' by (intros x Hx; apply Hin; by right).
    assert (m ∈ months data) as Hmin by (apply Hin; left).
    destruct (Z.lt_trichotomy m (Month now)) as [Hlt|[->|Hgt]].
    + eapply (over_step _ _ _ _ (fun s' => s' = s)).
      * right. exists s. split; [|done]. unfold overMonth. rewrite Z.eqb_refl. by rewrite (proj2 (Z.ltb_lt _ _)).
      * intros ? ->. apply IH; try done. eapply remains_past; [done|]. intros t Ht Hn.
        pose proof (from_now t Hn) as Hd. unfold from in Hd. lia.
    + eapply over_step; [by apply overMonth_first|]. intros s' Hp.
      apply overMonths_spec; try done; [|by eapply remains_past].
      eapply Forall_impl; [exact Hm|]. cbv beta. lia.
    + apply overMonths_spec; try done; [by constructor|]. constructor; [lia|].
      eapply Forall_impl; [exact Hm|]. cbv beta. lia.
Qed.

Lemma good_remains t : good t -> now <= t -> remains (Year now) (months data) t.
Proof.
  intros (Hd & _) Hn. unfold dayOk in Hd. reflect. pose proof (Year_mono now t ltac:(lia) Hn).
  destruct (Z.eq_dec (Year now) (Year t)) as [?|?]; [right|left; lia]. split; [done|]. by apply one_of_spec.
Qed.

(** The search ends with the first allowed time, or past the next year. *)
Lemma getNext_spec :
  (exists t, getNext data options [] = Ok (t, 0) /\ least t) \/
  (exists i, getNext data options [] = Ok (0, i) /\ allFrom (fun t => Year now + 1 < Year t)).
Proof.
  destruct (valid_day now ltac:(lia)) as [(Hy & Hmm & _) _].
  unfold getNext. cbn [Time options].
  assert (ends (fun _ => allFrom (fun t => Year now + 1 < Year t))
    (over (fun year => over (overMonth data options [] (Year now) (Month now) year) (months data))
      [Year now; Year now + 1] (Build_search now 0))) as [(t & -> & Hl)|(s & -> & Hp)].
  2: { left. eauto. }
  2: { right. eauto. }
  eapply over_step.
  - apply overFirstYear_spec; try done. exact good_remains.
  - intros s' Hp. eapply (over_step _ _ _ _ (fun _ => allFrom (fun t => Year now + 1 < Year t))).
    + apply overMonths_spec; try done; [lia|apply Forall_true; lia|].
      intros t Ht Hn. specialize (Hp t Ht Hn). cbv beta in Hp. destruct Ht as (Hd & _). unfold dayOk in Hd. reflect.
      destruct (Z.eq_dec (Year now + 1) (Year t)) as [?|?]; [right|left; lia]. split; [done|]. by apply one_of_spec.
    + intros s'' Hp'. right. eauto.
Qed.

End one_range.

(** ** [Next] and [TestWithLast] *)

Section results.
Context `{E : Env}.

(** [TestWithLast] accepts the time. *)
Definition allowedAt (s : string) (last t : time.Time) : Prop :=
  exists delay, TestWithLast (New s) t last = Ok (Allowed delay).

(** A schedule of one sure range in the day, in the months of the year. *)
Record one_in_day (data : Schedule) (tr : timerange) : Prop := {
  one_ranges : timeranges data = [tr];
  one_included : exclude data = false;
  one_sure : probabilistic tr = false;
  one_begin : 0 <= begin tr;
  one_order : begin tr <= end_ tr;
  one_end : end_ tr < Day;
  one_interval : 0 < interval tr <= time.maxDuration;
  one_months : Forall (fun m => 1 <= m <= 12) (months data);
}.

Lemma allowedAt_validate s data last t : parse s = Ok [data] -> exclude data = false ->
  allowedAt s last t <-> exists d, validate data t last = Some d.
Proof.
  intros Hp Hi. unfold allowedAt, TestWithLast, makeDataset. cbn. rewrite Hp. cbn.
  destruct (validate data t last) as [d|]; rewrite ?Hi; split; intros [? ?]; simplify_eq; eauto.
Qed.

Lemma allowedAt_good s data tr last t : parse s = Ok [data] -> one_in_day data tr ->
  allowedAt s last t <-> good data tr last t.
Proof.
  intros Hp []. rewrite allowedAt_validate by done. rewrite (validate_spec data tr last) by done.
  case_bool_decide; split; try done; [by eauto|by intros [? ?]].
Qed.


Lemma parse_months s data : parse s = Ok [data] -> StronglySorted Z.lt (months data).
Proof. intros Hp. pose proof (parse_Forall s _ Hp) as H. exact (typed_months _ (Forall_inv H)). Qed.

End results.

(** C11: On an expression of one element that is its whole text, with months in 1..12 and one
    sure range in the day that does not pass midnight, whose positive interval is shorter than
    a day less the length of the range or whose days from now on are all allowed, Next from a
    last run that is not after now returns the least time from now that TestWithLast allows,
    or zero when there is none up to the end of the next year. *)
Theorem next_least `{E : Env} s data tr now last :
  parse s = Ok [data] -> raw data = s -> one_in_day data tr -> 0 < now -> last <= now ->
  interval tr < Day - (end_ tr - begin tr) \/ (forall t, now <= t -> dayOk data t = true) ->
  exists t i, Next (New s) [NextWithTime now; NextWithLast last] = Ok (t, i) /\
    (now <= t /\ allowedAt s last t /\ (forall t', now <= t' -> allowedAt s last t' -> t <= t') \/
     t = 0 /\ forall t', now <= t' -> allowedAt s last t' -> Year now + 1 < Year t').
Proof.
  intros Hp Hraw Ho Hn Hl Hday. pose proof (parse_months s data Hp) as Hs.
  assert (forall r, getNext data (options now last) [] = Ok r ->
    Next (New s) [NextWithTime now; NextWithLast last] = Ok r) as Hnext.
  { intros [t i] Hg. unfold Next. change (newNextOptions _) with (options now last).
    unfold makeDataset, New. cbn [dataset raw_]. rewrite Hp. cbn [mbind result_bind dataset default from_option id].
    cbn [Excludes Includes List.filter]. rewrite (one_included _ _ Ho). cbn [negb nextOf]. rewrite Hg. done. }
  assert (forall t', allowedAt s last t' -> good data tr last t') as Hgood
    by (intros t'; by apply (proj1 (allowedAt_good s data tr last t' Hp Ho))).
  destruct (getNext_spec data tr now last) as [(t & Hg & (Ht & Hnt & Hleast))|(i & Hg & Hnone)];
    try (by destruct Ho); try done; [by rewrite Hraw| |].
  - exists t, 0. split; [by apply Hnext|]. left. split; [done|].
    split; [by apply (proj2 (allowedAt_good s data tr last t Hp Ho))|]. intros t' Hn' Ha. apply Hleast; auto.
  - exists 0, i. split; [by apply Hnext|]. right. split; [done|]. intros t' Hn' Ha. apply Hnone; auto.
Qed.

(** ** Examples *)

Module example.

Definition at_ (y m d h mi : Z) : time.Time := Date y m d (h * time.Hour + mi * time.Minute).

#[local] Instance float : converters.Float := {| converters.mulFraction := fun f u s => f * u / s |}.
(** The environment of an evaluation at [now], with no delay drawn. *)
#[local] Instance env : Env := {| getNow := at_ 2022 5 20 10 0; draw := fun _ _ => 0; Env_float := float |}.

Definition expr : string := "09:00-09:20 mon".
Definition data : Schedule := match parse expr with Ok [d] => d | _ => newExprData end.
Definition tr : timerange := Build_timerange false (20 * time.Minute + 1) (9 * time.Hour) (9 * time.Hour + 20 * time.Minute).

End example.

(** Once a week, from a friday: the next monday. *)
Lemma next_least_witness : let now := example.at_ 2022 5 20 10 0 in let last := example.at_ 2022 5 16 9 5 in
  let _ := example.env in
  exists t i, Next (New example.expr) [NextWithTime now; NextWithLast last] = Ok (t, i) /\
    (now <= t /\ allowedAt example.expr last t /\ (forall t', now <= t' -> allowedAt example.expr last t' -> t <= t') \/
     t = 0 /\ forall t', now <= t' -> allowedAt example.expr last t' -> Year now + 1 < Year t').
Proof.
  intros now last ?. apply (next_least example.expr example.data example.tr).
  - vm_compute. reflexivity.
  - vm_compute. reflexivity.
  - constructor; [vm_compute; reflexivity..|cbn; vm_compute; done|vm_compute; done|vm_compute; done|vm_compute; done|].
    apply (bool_decide_unpack _). vm_compute. exact I.
  - vm_compute. reflexivity.
  - apply Z.leb_le. vm_compute. reflexivity.
  - left. vm_compute. reflexivity.
Defined.
