(* ===== verification/ScheduleTest.v ===== *)
(** * What a schedule allows

    [TestWithLast] against a relation on dates: the first element of the
    expression that covers the time decides, by allowing or excluding it; and the
    search of [Next] ends whatever the exclusions. *)

From S2P Require Import Prelude Naming.
From S2P Require Import Calendar Convert Schedule ScheduleParse ScheduleNext.

Open Scope Z_scope.

Import schedule.

(** ** The elements that cover a time *)

(** A month day counts from the first of the month, or from its end. *)
Definition dayMatches (e : day) (t : time.Time) : Prop :=
  weekday e = ISOWeekday t /\
  (monthday e = 0 \/
   0 < monthday e /\ calendar.DayOfMonth t = monthday e \/
   monthday e < 0 /\ calendar.DayOfMonth t = calendar.daysIn (calendar.Year t) (calendar.Month t) + 1 + monthday e).

(** A range that ends before it begins goes past midnight. *)
Definition rangeCovers (tr : timerange) (t : time.Time) : Prop :=
  let c := calendar.clock t in
  begin tr <= c <= end_ tr \/ end_ tr < begin tr /\ (begin tr <= c \/ c <= end_ tr).

(** The last run is old enough for the interval of the range. *)
Definition rested (tr : timerange) (t last : time.Time) : Prop := last = 0 \/ last + interval tr <= t.

Definition covers (d : Schedule) (t last : time.Time) : Prop :=
  calendar.Month t ∈ months d /\ (calendar.ISOWeek t).2 ∈ weeks d /\
  (exists e, e ∈ days d /\ dayMatches e t) /\
  (exists tr, tr ∈ timeranges d /\ rangeCovers tr t /\ (exclude d = true \/ rested tr t last)).

Lemma clock_range t : 0 <= calendar.clock t < Day.
Proof. apply calendar.time_split. Qed.

Lemma TestIncludes_spec tr t : TestIncludes tr t = true <-> rangeCovers tr t.
Proof.
  unfold TestIncludes, rangeCovers. pose proof (clock_range t). cbv zeta.
  destruct (Z.leb_spec (begin tr) (end_ tr)).
  - rewrite andb_true_iff, !Z.leb_le. lia.
  - rewrite orb_true_iff, !andb_true_iff, !Z.leb_le. lia.
Qed.

Lemma isInDay_spec e t : 0 <= t -> - 2 ^ 63 <= monthday e < 2 ^ 63 ->
  isInDay t (contextualizeDay (monthDays t) e) = true <-> dayMatches e t.
Proof.
  intros Ht He. destruct (calendar.valid_day t Ht) as [(Hy & Hm & Hd) _].
  pose proof (calendar.daysBeforeMonth_range (calendar.Year t) _ Hm) as (_ & _ & Hn).
  unfold isInDay, dayMatches, contextualizeDay. rewrite monthDays_spec by done.
  set (n := calendar.daysIn _ _) in *.
  assert (forall x, - 2 ^ 63 <= x < 2 ^ 63 -> w64 x = x) as Hw.
  { intros x Hx. unfold w64. rewrite Z.mod_small; lia. }
  destruct (Z.eqb_spec (monthday e) 0) as [E0|E0]; [rewrite andb_true_iff, orb_true_iff, !Z.eqb_eq; intuition lia|].
  destruct (Z.ltb_spec 0 (monthday e)) as [E1|E1]; [rewrite andb_true_iff, orb_true_iff, !Z.eqb_eq; intuition lia|].
  destruct (Z.ltb_spec n (w64 (- monthday e))) as [E2|E2].
  - rewrite andb_true_iff, orb_true_iff, !Z.eqb_eq.
    destruct (Z.eq_dec (monthday e) (- 2 ^ 63)) as [E3|E3]; [intuition lia|]. rewrite Hw in E2 by lia. intuition lia.
  - cbn [weekday monthday]. rewrite andb_true_iff, orb_true_iff, !Z.eqb_eq, Hw by lia.
    destruct (Z.eq_dec (monthday e) (- 2 ^ 63)) as [E3|E3]; [intuition lia|].
    rewrite Hw in E2 by lia. intuition lia.
Qed.

Section tests.
Context `{E : Env}.

Lemma IsInDays_spec d t : 0 <= t -> typed d -> IsInDays d t = true <-> exists e, e ∈ days d /\ dayMatches e t.
Proof.
  intros Ht Hd. unfold IsInDays, contextualizeDays. rewrite existsb_exists. split.
  - intros (x & (e & <- & He)%in_map_iff & Hx). apply list_elem_of_In in He. exists e. split; [done|].
    apply isInDay_spec in Hx; [done|done|]. by apply (proj1 (Forall_forall _ _) (typed_monthdays _ Hd)).
  - intros (e & He & Hx). exists (contextualizeDay (monthDays t) e). split.
    + apply in_map. by apply list_elem_of_In.
    + apply isInDay_spec; [done| |done]. by apply (proj1 (Forall_forall _ _) (typed_monthdays _ Hd)).
Qed.

Lemma rested_spec tr t last : interval tr <> 0 -> isInTimerangeInterval tr t last = true <-> rested tr t last.
Proof.
  intros Hi. unfold isInTimerangeInterval, needActionInterval, rested, time.IsZero, time.zero, time.After, time.Add.
  rewrite (proj2 (Z.eqb_neq _ _) Hi). destruct (Z.eqb_spec last 0); simpl; [intuition|].
  rewrite orb_true_iff, Z.eqb_eq, Z.ltb_lt. intuition lia.
Qed.

Lemma isInTimeranges_spec excl trs t last : Forall (fun tr => interval tr <> 0) trs ->
  is_Some (isInTimeranges excl trs t last) <->
  exists tr, tr ∈ trs /\ rangeCovers tr t /\ (excl = true \/ rested tr t last).
Proof.
  induction 1 as [|tr trs Hi Htrs IH]; cbn [isInTimeranges].
  - split; [by intros [? ?]|]. by intros (? & ?%elem_of_nil & _).
  - assert ((exists tr', tr' ∈ tr :: trs /\ rangeCovers tr' t /\ (excl = true \/ rested tr' t last)) <->
            rangeCovers tr t /\ (excl = true \/ rested tr t last) \/ is_Some (isInTimeranges excl trs t last)) as ->.
    { rewrite IH. split.
      - intros (tr' & [->|?]%elem_of_cons & ?); eauto.
      - intros [?|(tr' & ? & ?)]; [exists tr; split; [by left|done]|exists tr'; split; [by right|done]]. }
    rewrite <- TestIncludes_spec, <- rested_spec by done.
    destruct (TestIncludes tr t); simpl; [|intuition congruence].
    destruct excl; [split; eauto|].
    destruct (isInTimerangeInterval tr t last); [split; eauto|]. intuition congruence.
Qed.

Lemma validate_covers d t last : 0 <= t -> typed d -> is_Some (validate d t last) <-> covers d t last.
Proof.
  intros Ht Hd. unfold validate, covers.
  rewrite <- isInTimeranges_spec, <- IsInDays_spec, <- !one_of_spec by (done || by destruct Hd).
  fold (IsInMonths d t) (IsInWeeks d t).
  destruct (IsInMonths d t), (IsInWeeks d t), (IsInDays d t); simpl;
    (split; [intros H; try by destruct H|intros (? & ? & ? & ?)]); done.
Qed.

(** The first element that covers a time. *)
Definition firstCover (ds : Schedules) (t last : time.Time) (d : Schedule) : Prop :=
  exists pre post, ds = (pre ++ d :: post)%list /\ Forall (fun x => ~ covers x t last) pre /\ covers d t last.

Lemma firstCover_cons x ds t last d :
  firstCover (x :: ds) t last d <-> covers x t last /\ x = d \/ ~ covers x t last /\ firstCover ds t last d.
Proof.
  split.
  - intros ([|y pre] & post & [= -> ->] & Hf & Hc); [by left|]. inversion_clear Hf. right. split; [done|].
    by exists pre, post.
  - intros [[Hc ->]|[Hn (pre & post & -> & Hf & Hc)]]; [by exists [], ds|]. exists (x :: pre), post. split; [done|]. split; [by constructor|done].
Qed.

Lemma testDataset_spec ds t last : 0 <= t -> Forall typed ds ->
  match testDataset ds t last with
  | NotAllowed => Forall (fun d => ~ covers d t last) ds
  | Allowed _ => exists d, firstCover ds t last d /\ exclude d = false
  | Excluded _ => exists d, firstCover ds t last d /\ exclude d = true
  end.
Proof.
  intros Ht. induction 1 as [|d ds Hd Hds IH]; cbn [testDataset]; [done|].
  pose proof (validate_covers d t last Ht Hd) as Hv. destruct (validate d t last) as [delay|].
  - assert (covers d t last) as Hc by (apply Hv; eauto).
    destruct (exclude d) eqn:He; exists d; (split; [|done]); apply firstCover_cons; by left.
  - assert (~ covers d t last) as Hc by (rewrite <- Hv; by intros [? ?]).
    destruct (testDataset ds t last); [| by constructor|]; destruct IH as (d' & ? & ?); exists d'; (split; [|done]);
      apply firstCover_cons; by right.
Qed.

End tests.

(** C34: TestWithLast returns on every expression that parses, and allows, refuses or excludes
    a time exactly as the first element that covers it says: one whose months, weeks and days
    have the time and one of whose ranges has it too, with, for an inclusion, a last run that
    is zero or older than the interval of that range. *)
Theorem test_spec `{E : Env} s ds t last : parse s = Ok ds -> 0 <= t ->
  exists v, TestWithLast (New s) t last = Ok v /\
  match v with
  | NotAllowed => Forall (fun d => ~ covers d t last) ds
  | Allowed _ => exists d, firstCover ds t last d /\ exclude d = false
  | Excluded _ => exists d, firstCover ds t last d /\ exclude d = true
  end.
Proof.
  intros Hp Ht. unfold TestWithLast, makeDataset. cbn. rewrite Hp. cbn. eexists. split; [done|].
  apply testDataset_spec; [done|]. by apply (parse_Forall s).
Qed.
