(* ===== verification/ScheduleDrift.v ===== *)
(** * The end of the search

    A round of the search of [Next] in a day moves past an exclusion, to a time
    that is the end of a range of the exclusions on one of a few days.  These are
    finite, and the times ascend, so the rounds end within [dayFuel]: [Next]
    returns, whatever the exclusions. *)

From S2P Require Import Prelude Naming.
From S2P Require Import Calendar Convert Schedule ScheduleParse ScheduleNext ScheduleTest.

Open Scope Z_scope.

Import schedule.
Import calendar(dayOf, clock, Date, dayNumber, valid, Year, Month, DayOfMonth).

(** ** Times that ascend in a finite set *)

Definition above (x : Z) (l : list Z) : nat := length (List.filter (fun p => x <? p) l).

Lemma above_le x y l : x <= y -> (above y l <= above x l)%nat.
Proof.
  intros Hxy. unfold above. induction l as [|p l IH]; cbn; [done|].
  destruct (Z.ltb_spec y p), (Z.ltb_spec x p); cbn; lia.
Qed.

Lemma above_lt x y l : x < y -> y ∈ l -> (above y l < above x l)%nat.
Proof.
  intros Hxy Hy. unfold above. induction Hy as [y l|y p l Hy IH]; cbn.
  - rewrite Z.ltb_irrefl, (proj2 (Z.ltb_lt x y) Hxy). cbn. pose proof (above_le x y l ltac:(lia)). unfold above in *. lia.
  - specialize (IH Hxy). destruct (Z.ltb_spec y p), (Z.ltb_spec x p); cbn; lia.
Qed.

Lemma above_length x l : (above x l <= length l)%nat.
Proof. unfold above. induction l as [|p l IH]; cbn; [done|]. destruct (x <? p); cbn; lia. Qed.

(** ** Regular schedules *)

(** The bounds of a range, in the day; it may go past midnight. *)
Record in_day (tr : timerange) : Prop := {
  in_begin : 0 <= begin tr < Day;
  in_end : 0 <= end_ tr < Day;
  in_interval : 0 < interval tr <= time.maxDuration;
}.

Definition regular (d : Schedule) : Prop :=
  Forall in_day (timeranges d) /\ Forall (fun m => 1 <= m <= 12) (months d) /\
  (exclude d = false -> Forall (fun tr => probabilistic tr = false) (timeranges d)).

Lemma w64_small x : - 2 ^ 63 <= x < 2 ^ 63 -> w64 x = x.
Proof. intros Hx. unfold w64. rewrite Z.mod_small; lia. Qed.

(** The end of an exclusion, from a time it covers: on the day of the time, or
    within the next. *)
Lemma remaining_spec tr t : in_day tr -> TestIncludes tr t = true ->
  let delay := timerangeRemainingDelay tr t in
  0 <= delay < Day /\ clock (t + delay) = end_ tr.
Proof.
  intros [Hb He _] Hi. apply TestIncludes_spec in Hi. unfold rangeCovers in Hi. cbv zeta in Hi.
  pose proof (split_val t) as [Et Hc]. unfold timerangeRemainingDelay, unwrap. cbv zeta.
  rewrite Day_val in *.
  assert (forall n, clock (86400000000000 * n + end_ tr) = end_ tr) as Hend.
  { intros n. rewrite Z.mul_comm. apply (calendar.time_of n (end_ tr)). change calendar.Day with 86400000000000. lia. }
  destruct (Z.ltb_spec (end_ tr) (begin tr)), (Z.ltb_spec (clock t) (begin tr));
    rewrite ?(w64_small (end_ tr + 86400000000000)), ?(w64_small (clock t + 86400000000000)) by lia;
    rewrite w64_small by lia; (split; [lia|]).
  - by match goal with |- clock ?x = _ => replace x with (86400000000000 * dayOf t + end_ tr) by lia end.
  - by match goal with |- clock ?x = _ => replace x with (86400000000000 * (dayOf t + 1) + end_ tr) by lia end.
  - lia.
  - by match goal with |- clock ?x = _ => replace x with (86400000000000 * dayOf t + end_ tr) by lia end.
Qed.

(** Times less than a day apart with the same day of the year are in one day. *)
Lemma YearDay_day t u : 0 <= t -> t <= u < t + Day -> calendar.YearDay t = calendar.YearDay u -> dayOf u = dayOf t.
Proof.
  intros Ht Hu. rewrite Day_val in Hu. pose proof (split_val t) as [Et ?]. pose proof (split_val u) as [Eu ?].
  assert (dayOf u = dayOf t \/ dayOf u = dayOf t + 1) as [->|E] by lia; [done|].
  unfold calendar.YearDay. pose proof (calendar.yearDay_spec (dayOf t) ltac:(lia)) as H1.
  pose proof (calendar.yearDay_spec (dayOf u) ltac:(lia)) as H2.
  destruct (calendar.yearDay (dayOf t)) as [y a], (calendar.yearDay (dayOf u)) as [y' a'].
  destruct H1 as (Hy & Ha & _), H2 as (Hy' & Ha' & _). cbn. intros ?.
  assert (a' = a) as -> by lia. exfalso.
  destruct (Z_le_gt_dec y' y).
  - pose proof (calendar.daysBeforeYear_le y' y ltac:(lia)). lia.
  - pose proof (calendar.daysBeforeYear_le (y + 1) y' ltac:(lia)). pose proof (calendar.daysBeforeYear_succ y Hy).
    destruct (calendar.isLeap y); lia.
Qed.

(** ** The rounds of a day *)

Section drift.
Context `{E : Env} (data : Schedule) (options : nextOptionsT) (excludes : Schedules).

Hypothesis Hdata : regular data.
Hypothesis Hincl : exclude data = false.
Hypothesis Hexcl : Forall (fun d => exclude d = true /\ regular d) excludes.
(** The text of the schedule parses again. *)
Hypothesis Hparse : exists ds, parse (raw data) = Ok ds /\ Excludes ds = [].

Lemma later_time trs x t i : 0 <= x -> Forall (fun tr => in_day tr /\ probabilistic tr = false) trs ->
  Forall (fun tr => timerange_After tr x = true) trs -> later trs x (Last options) = Some (t, i) ->
  x <= t /\ (dayOf t = dayOf x \/ exists tr, tr ∈ trs /\ t = Last options + interval tr).
Proof.
  intros Hx. induction trs as [|tr trs IH]; intros Hreg Haft H; [done|].
  apply Forall_cons in Hreg as [[[Hb He Hi] Hp] Hreg']. apply Forall_cons in Haft as [Ha Haft'].
  cbn [later] in H. unfold timerange_After in Ha. apply Z.leb_le in Ha.
  assert (time.Add (Date (Year x) (Month x) (DayOfMonth x) 0) (begin tr) = dayOf x * calendar.Day + begin tr) as Eb.
  { unfold time.Add, Date. rewrite (proj2 (calendar.valid_day x Hx)). lia. }
  rewrite Eb in H. pose proof (calendar.time_of (dayOf x) (begin tr) Hb) as [Hd _].
  pose proof (split_val x) as [Ex ?]. set (b := dayOf x * calendar.Day + begin tr) in *.
  assert (x <= b) by (subst b; change calendar.Day with 86400000000000; lia).
  destruct (isTooSoon b (Last options) (interval tr)) eqn:Hs.
  - apply isTooSoon_spec in Hs as [_ Hlt]; [|unfold time.minDuration; lia]. unfold time.Add in *.
    destruct (TestIncludes tr _).
    + simplify_eq. split; [lia|]. right. exists tr. split; [by left|done].
    + destruct (IH Hreg' Haft' H) as [? [?|(tr' & ? & ?)]]; (split; [done|]); [by left|right].
      exists tr'. split; [by right|done].
  - unfold enter in H. rewrite Hp in H. simplify_eq. split; [lia|by left].
Qed.

Lemma regular_sure : Forall (fun tr => in_day tr /\ probabilistic tr = false) (timeranges data).
Proof. destruct Hdata as (H1 & _ & H2). specialize (H2 Hincl). rewrite Forall_forall in *. eauto. Qed.

(** The time of a range is not before the time it is looked from, on its day or
    at the end of an interval. *)
Lemma GetTimerange_time x t i : 0 <= x -> GetTimerange data x (Last options) = Some (t, i) ->
  x <= t /\ (dayOf t = dayOf x \/ exists tr, tr ∈ timeranges data /\ t = Last options + interval tr).
Proof.
  intros Hx H. pose proof regular_sure as Hreg.
  assert (forall f, let l := SortedByIntervalAndBegin (List.filter f (timeranges data)) in
    (forall tr, tr ∈ l -> tr ∈ timeranges data /\ f tr = true)) as Hin.
  { intros f l tr Htr. subst l. unfold SortedByIntervalAndBegin in Htr. rewrite stable_sort_perm in Htr.
    apply list_elem_of_In, filter_In in Htr as [? ?]. split; [by apply list_elem_of_In|done]. }
  unfold GetTimerange in H. pose proof (Hin (fun tr => TestIncludes tr x)) as Hinc.
  fold (Including (timeranges data) x) in Hinc. cbv zeta in Hinc.
  destruct (SortedByIntervalAndBegin (Including _ _)) as [|tr l].
  - assert (forall tr, tr ∈ SortedByIntervalAndBegin (After (timeranges data) x) ->
      tr ∈ timeranges data /\ timerange_After tr x = true) as Haft by apply Hin.
    apply later_time in H as [? [?|(tr & Htr & ?)]]; [by auto| |done| |].
    + split; [done|]. right. exists tr. split; [by apply Haft|done].
    + apply Forall_forall. intros tr Htr. rewrite Forall_forall in Hreg. apply Hreg. by apply Haft.
    + apply Forall_forall. intros tr Htr. by apply Haft.
  - assert (tr ∈ timeranges data) as Htr by (apply Hinc; by left).
    rewrite Forall_forall in Hreg. destruct (Hreg tr Htr) as [[Hb He Hi] Hp].
    destruct (isTooSoon x (Last options) (interval tr)) eqn:Hs.
    + apply isTooSoon_spec in Hs as [_ Hlt]; [|unfold time.minDuration; lia]. unfold time.Add in *.
      destruct (TestIncludes tr _); simplify_eq. split; [lia|]. right. eauto.
    + unfold enter in H. rewrite Hp in H. simplify_eq. split; [lia|by left].
Qed.

Lemma Append_dataset s ds : dataset (AppendExprDataset (New s) ds) = match ds with [] => None | _ => Some ds end /\
  (ds = [] -> raw_ (AppendExprDataset (New s) ds) = s).
Proof.
  unfold AppendExprDataset. split; [|by intros ->].
  assert (forall l t, dataset (foldl (fun t data => Build_Expr (Join [raw_ t; raw data] " ")
    (Some (default [] (dataset t) ++ [data])%list)) t l) =
    match l with [] => dataset t | _ => Some (default [] (dataset t) ++ l)%list end) as Hl.
  { intros l. induction l as [|d l IH]; intros t; cbn; [done|]. rewrite IH. cbn.
    destruct l; [done|]. by rewrite <- (assoc_L (++)). }
  rewrite Hl. by destruct ds.
Qed.

Lemma testDataset_excluded ds t last delay : testDataset ds t last = Excluded delay ->
  exists d tr, d ∈ ds /\ exclude d = true /\ tr ∈ timeranges d /\ TestIncludes tr t = true /\
    delay = timerangeRemainingDelay tr t.
Proof.
  induction ds as [|d ds IH]; cbn; [done|]. destruct (validate d t last) as [x|] eqn:Hv.
  - destruct (exclude d) eqn:He; [|done]. intros [= <-]. exists d. unfold validate in Hv. rewrite He in Hv.
    assert (isInTimeranges true (timeranges d) t last = Some x) as Ht by (repeat case_match; congruence). clear Hv.
    induction (timeranges d) as [|tr trs IHt]; [done|]. cbn [isInTimeranges] in Ht.
    destruct (TestIncludes tr t) eqn:Hi; cbn [negb] in Ht.
    + simplify_eq. exists tr. split_and!; [by left|done|by left|done|done].
    + destruct (IHt Ht) as (tr' & ? & ? & ? & ? & ?). exists tr'. split_and!; [done|done|by right|done|done].
  - intros H. destruct (IH H) as (d' & tr & ? & ?). exists d', tr. split; [by right|done].
Qed.

Lemma validateNext_spec t : exists v, validateNext data options excludes t = Ok v /\
  forall delay, v = Excluded delay -> exists tr, tr ∈ flat_map timeranges excludes /\ in_day tr /\
    TestIncludes tr t = true /\ delay = timerangeRemainingDelay tr t.
Proof.
  unfold validateNext, TestWithLast, makeDataset. destruct (Append_dataset (raw data) excludes) as [Ed Er].
  rewrite Ed. destruct excludes as [|e l] eqn:Hex.
  - rewrite Er by done. destruct Hparse as (ds & Hp & Hn). rewrite Hp. cbn. eexists. split; [done|].
    intros delay Hd. apply testDataset_excluded in Hd as (d & tr & Hin & He & _). exfalso.
    assert (d ∈ Excludes ds) as Hd by (apply list_elem_of_In, filter_In; by rewrite <- list_elem_of_In).
    rewrite Hn in Hd. by apply elem_of_nil in Hd.
  - cbn [mbind result_bind]. rewrite Ed. eexists. split; [done|]. intros delay Hd.
    apply testDataset_excluded in Hd as (d & tr & Hin & He & Htr & Hi & ->). exists tr.
    rewrite Forall_forall in Hexcl. destruct (Hexcl d Hin) as [_ [Hr _]]. split_and!; [| |done|done].
    + apply list_elem_of_In, in_flat_map. exists d. by rewrite <- !list_elem_of_In.
    + by eapply Forall_forall in Hr.
Qed.

Lemma nextDay_nonneg t : 0 <= t -> 0 <= nextDay t.
Proof.
  intros Ht. assert (nextDay t = (dayOf t + 1) * calendar.Day) as -> by exact (calendar.next_midnight t Ht).
  pose proof (calendar.dayOf_nonneg t Ht).
  change calendar.Day with 86400000000000. lia.
Qed.

(** What a round does: a drift reaches the end of an exclusion. *)
Lemma daily_step days s : 0 <= tm s -> exists st, daily data options excludes days s = Ok st /\
  match st with
  | Drift s' => exists t tr, tm s <= t < tm s' /\ tr ∈ flat_map timeranges excludes /\
      tm s' = dayOf t * Day + end_ tr /\ dayOf (tm s') = dayOf t /\
      (dayOf t = dayOf (tm s) \/ exists tr', tr' ∈ timeranges data /\ t = Last options + interval tr')
  | NextDay s' => 0 <= tm s'
  | Found _ _ => True
  end.
Proof.
  intros Hs. pose proof (nextDay_nonneg (tm s) Hs) as Hn. unfold daily. cbv zeta.
  destruct (negb (IsInWeeks data (tm s))); [by eexists|]. destruct (negb (isValidDay (tm s) days)); [by eexists|].
  destruct (GetTimerange data (tm s) (Last options)) as [[t i]|] eqn:Hg; [|by eexists].
  apply GetTimerange_time in Hg as [Hle Hd]; [|done].
  destruct (validateNext_spec t) as (v & -> & Hv). destruct v as [d| |d]; [by eexists..|].
  destruct (Z.ltb_spec 0 d) as [Hp|]; [|by eexists].
  destruct (Z.eqb_spec (calendar.YearDay t) (calendar.YearDay (time.Add t d))) as [Hy|].
  - eexists. split; [done|]. cbn [tm]. destruct (Hv d eq_refl) as (tr & Hin & Hr & Hi & ->).
    destruct (remaining_spec tr t Hr Hi) as [Hb Hc]. exists t, tr. unfold time.Add in *.
    assert (dayOf (t + timerangeRemainingDelay tr t) = dayOf t) as Hdd by (apply YearDay_day; [lia|lia|done]).
    split; [lia|]. split; [done|]. split; [|done].
    pose proof (split_val (t + timerangeRemainingDelay tr t)). rewrite Day_val. lia.
  - eexists. split; [done|]. apply nextDay_nonneg. lia.
Qed.

(** The times the drifts of a day may reach. *)
Definition driftDays (x : time.Time) : list Z :=
  dayOf x :: map (fun tr => dayOf (Last options + interval tr)) (timeranges data).
Definition points (x : time.Time) : list Z :=
  flat_map (fun n => map (fun tr => n * Day + end_ tr) (flat_map timeranges excludes)) (driftDays x).

Lemma points_length x : length (points x) = (S (length (timeranges data)) * length (flat_map timeranges excludes))%nat.
Proof.
  unfold points, driftDays. rewrite (flat_map_constant_length (c := length (flat_map timeranges excludes))).
  - cbn. by rewrite length_map.
  - intros n _. by rewrite length_map.
Qed.

Lemma drift_ends x fuel : forall days s, 0 <= tm s -> dayOf (tm s) ∈ driftDays x ->
  (above (tm s) (points x) < fuel)%nat ->
  exists r, drift data options excludes fuel days s = Ok r /\ forall s', r = Missed s' -> 0 <= tm s'.
Proof.
  induction fuel as [|fuel IH]; intros days s Hs Hd Hf; [lia|]. cbn [drift].
  destruct (daily_step days s Hs) as (st & -> & Hst). cbn [mbind result_bind].
  destruct st as [s'|s'|t i].
  - destruct Hst as (t & tr & Ht & Hin & Etm & Hds & Hday).
    assert (dayOf t ∈ driftDays x) as Hdt.
    { destruct Hday as [->|(tr' & Htr' & ->)]; [done|]. right. apply list_elem_of_fmap. by exists tr'. }
    apply IH; [lia|by rewrite Hds|].
    assert (tm s' ∈ points x) as Hp.
    { unfold points. apply list_elem_of_In, in_flat_map. exists (dayOf t). split; [by apply list_elem_of_In|].
      rewrite Etm. apply (in_map (fun tr => dayOf t * Day + end_ tr)). by apply list_elem_of_In. }
    pose proof (above_lt (tm s) (tm s') (points x) ltac:(lia) Hp). lia.
  - eexists. split; [done|]. by intros ? [= <-].
  - eexists. split; [done|]. done.
Qed.

Lemma overDay_ends year month monthday s : 1 <= year -> 1 <= month <= 12 -> 1 <= monthday ->
  exists r, overDay data options excludes year month monthday s = Ok r /\ forall s', r = Missed s' -> 0 <= tm s'.
Proof.
  intros Hy Hm Hd. unfold overDay.
  apply (drift_ends (Date year month monthday (clock (tm s)))); cbn [tm].
  - unfold Date. rewrite calendar.dayNumber_in by done.
    pose proof (calendar.daysBeforeMonth_range year month Hm). pose proof (calendar.daysBeforeYear_le 1 year ltac:(lia)) as H1.
    change (calendar.daysBeforeYear 1) with 0 in H1. destruct (calendar.time_split (tm s)). pose proof calendar.Day_pos. nia.
  - left.
  - unfold dayFuel. pose proof (above_length (Date year month monthday (clock (tm s)))
      (points (Date year month monthday (clock (tm s))))) as Ha.
    rewrite points_length in Ha. lia.
Qed.

(** A loop whose rounds end, ends. *)
Lemma over_ends {A} (f : A -> search -> result outcome) l : forall s, 0 <= tm s ->
  (forall a s, a ∈ l -> 0 <= tm s -> exists r, f a s = Ok r /\ forall s', r = Missed s' -> 0 <= tm s') ->
  exists r, over f l s = Ok r /\ forall s', r = Missed s' -> 0 <= tm s'.
Proof.
  induction l as [|a l IH]; intros s Hs Hf; cbn [over].
  - eexists. split; [done|]. by intros ? [= <-].
  - destruct (Hf a s) as ([t i|s'] & -> & Hr); [by left|done|..]; cbn [mbind result_bind].
    + eexists. split; [done|]. done.
    + apply IH; [by apply Hr|]. intros b s0 Hb. apply Hf. by right.
Qed.

Lemma getNext_ends : 0 <= Time options -> exists r, getNext data options excludes = Ok r.
Proof.
  intros Ht. destruct (calendar.valid_day _ Ht) as [(Hy & _) _]. unfold getNext. cbv zeta.
  edestruct (over_ends (fun year => over (overMonth data options excludes (Year (Time options)) (Month (Time options)) year)
    (months data)) [Year (Time options); Year (Time options) + 1] (Build_search (Time options) 0)) as (r & -> & _); [done| |].
  - intros year s Hin Hs. assert (1 <= year) as Hyear by (apply elem_of_cons in Hin as [->|Hin%list_elem_of_singleton]; lia).
    apply over_ends; [done|]. intros month s1 Hm Hs1.
    assert (1 <= month <= 12) as Hmonth by (destruct Hdata as (_ & Hms & _); by eapply Forall_forall in Hms).
    unfold overMonth. destruct (_ && (month <? _)); [eexists; split; [done|]; by intros ? [= <-]|].
    set (b := _ && _). set (t := if b then _ else _). apply over_ends.
    + cbn. subst t b. destruct (_ && _); [done|]. unfold Date. rewrite calendar.dayNumber_in by done.
      pose proof (calendar.daysBeforeMonth_range year month Hmonth).
      pose proof (calendar.daysBeforeYear_le 1 year ltac:(lia)) as H1.
      change (calendar.daysBeforeYear 1) with 0 in H1. pose proof calendar.Day_pos. nia.
    + intros d s2 Hd _. apply overDay_ends; [done|done|].
      apply elem_of_seqZ in Hd. subst t b. destruct (_ && _); [|lia].
      destruct (calendar.valid_day _ Hs1) as [(_ & _ & ?) _]. lia.
  - cbn [mbind result_bind]. destruct r; eauto.
Qed.

End drift.

Lemma nextOf_ends `{E : Env} excludes includes options : forall acc,
  Forall (fun d => exists r, getNext d options excludes = Ok r) includes ->
  exists r, nextOf excludes includes options acc = Ok r.
Proof.
  induction includes as [|d l IH]; intros acc Hf; cbn [nextOf]; [eauto|].
  apply Forall_cons in Hf as [[r ->] Hf]. cbn [mbind result_bind]. by apply IH.
Qed.

(** C33: Next returns for the expressions whose ranges are in the day with positive intervals,
    not drawn at random but for the exclusions, whose months are in 1..12, and whose elements
    parse back to no exclusion: its loops, the drifts past the exclusions included, end within
    the fuel. *)
Theorem next_returns `{E : Env} s ds now last :
  parse s = Ok ds -> Forall regular ds ->
  Forall (fun d => exclude d = false -> exists x, parse (raw d) = Ok x /\ Excludes x = []) ds -> 0 <= now ->
  exists r, Next (New s) [NextWithTime now; NextWithLast last] = Ok r.
Proof.
  intros Hp Hr Hraw Hn. unfold Next. change (newNextOptions _) with (Build_nextOptionsT now last).
  unfold makeDataset, New. cbn [dataset raw_]. rewrite Hp. cbn [mbind result_bind dataset default from_option id].
  rewrite Forall_forall in Hr, Hraw.
  assert (forall d, d ∈ Includes ds -> d ∈ ds /\ exclude d = false) as Hi.
  { intros d Hd. apply list_elem_of_In, filter_In in Hd as [? ?%negb_true_iff]. by rewrite list_elem_of_In. }
  assert (forall d, d ∈ Excludes ds -> d ∈ ds /\ exclude d = true) as He.
  { intros d Hd. apply list_elem_of_In, filter_In in Hd as [? ?]. by rewrite list_elem_of_In. }
  apply nextOf_ends. apply Forall_forall. intros d Hd. destruct (Hi d Hd) as [Hin Hex].
  apply getNext_ends; [by apply Hr|done| |by apply Hraw|done].
  apply Forall_forall. intros e Hin'. destruct (He e Hin'). split; [done|by apply Hr].
Qed.

(** ** Examples *)

Module drift_example.
Import example.

Definition quoted (s : string) : string :=
  let q := String (Ascii.ascii_of_nat 34) EmptyString in String.append q (String.append s q).

#[local] Existing Instance env.

(** Every second month of the two first, past the exclusion of the mornings. *)
Definition expr : string := ("[" +:+ quoted "* * * jan-feb%2" +:+ ", " +:+ quoted "! 00:00-11:00" +:+ "]")%string.

Definition ds : Schedules := match parse expr with Ok ds => ds | _ => [] end.

Lemma next_expr :
  Next (New expr) [NextWithTime (at_ 2022 5 23 9 6); NextWithLast (at_ 2022 5 20 9 5)] = Ok (at_ 2023 2 1 11 0, 0).
Proof. vm_compute. reflexivity. Qed.

End drift_example.

Lemma next_returns_witness : let _ := example.env in
  exists r, Next (New drift_example.expr)
    [NextWithTime (example.at_ 2022 5 23 9 6); NextWithLast (example.at_ 2022 5 20 9 5)] = Ok r.
Proof.
  intros ?. apply (next_returns drift_example.expr drift_example.ds).
  - vm_compute. reflexivity.
  - let v := eval vm_compute in drift_example.ds in change drift_example.ds with v.
    repeat constructor; try (intros ?; discriminate); cbn; vm_compute; done.
  - let v := eval vm_compute in drift_example.ds in change drift_example.ds with v.
    repeat constructor; cbn; intros ?; [|discriminate]. eexists. split; vm_compute; reflexivity.
  - apply Z.leb_le. vm_compute. reflexivity.
Defined.

Lemma test_spec_witness : let _ := example.env in
  exists v, TestWithLast (New drift_example.expr) (example.at_ 2022 2 23 9 6) 0 = Ok v /\
  match v with
  | NotAllowed => Forall (fun d => ~ covers d (example.at_ 2022 2 23 9 6) 0) drift_example.ds
  | Allowed _ => exists d, firstCover drift_example.ds (example.at_ 2022 2 23 9 6) 0 d /\ exclude d = false
  | Excluded _ => exists d, firstCover drift_example.ds (example.at_ 2022 2 23 9 6) 0 d /\ exclude d = true
  end.
Proof.
  intros ?. apply (test_spec drift_example.expr drift_example.ds).
  - vm_compute. reflexivity.
  - apply Z.leb_le. vm_compute. reflexivity.
Defined.

Lemma parse_typed_witness : let _ := example.env in
  Forall (fun d => typed d /\ raw d ∈ normalizeExpression drift_example.expr) drift_example.ds.
Proof. intros ?. apply (parse_typed drift_example.expr). vm_compute. reflexivity. Defined.
