(* ===== verification/ScheduleExamples.v ===== *)
(** * Schedules by computation

    The evaluations of src/util/schedule/main_test.go that exercise each branch of
    the search, and the expressions on which the code departs from its comments. *)

From S2P Require Import Prelude Naming.
From S2P Require Import Calendar Convert Schedule ScheduleParse ScheduleNext ScheduleTest ScheduleDrift.

Open Scope Z_scope.

Import schedule.
Import example(at_).
Import drift_example(quoted).

#[local] Existing Instance example.float.

(** The environment at [now]. *)
#[local] Definition clockAt (now : time.Time) : Env := {| getNow := now; draw := fun _ _ => 0 |}.

Definition next (expr : string) (now last : time.Time) : result (time.Time * time.Duration) :=
  let _ := clockAt now in Next (New expr) [NextWithTime now; NextWithLast last].

Definition test (expr : string) (now last : time.Time) : result verdict :=
  let _ := clockAt now in TestWithLast (New expr) now last.

Definition both (a b : string) : string := ("[" +:+ quoted a +:+ ", " +:+ quoted b +:+ "]")%string.

(** ** TestNext *)

Lemma next_simple : next "09:00-09:20" (at_ 2015 2 27 10 0) (at_ 2015 2 27 9 5) = Ok (at_ 2015 2 28 9 0, 0).
Proof. vm_compute. reflexivity. Qed.

Lemma next_leap : next "09:00-09:20" (at_ 2020 2 28 10 0) (at_ 2020 2 27 9 5) = Ok (at_ 2020 2 29 9 0, 0).
Proof. vm_compute. reflexivity. Qed.

Lemma next_last_day : next "* *:last" (at_ 2022 5 23 9 6) (at_ 2022 5 20 9 5) = Ok (at_ 2022 5 31 0 0, 0).
Proof. vm_compute. reflexivity. Qed.

Lemma next_from_tail : next "* *:-2" (at_ 2022 5 23 9 6) (at_ 2022 5 20 9 5) = Ok (at_ 2022 5 30 0 0, 0).
Proof. vm_compute. reflexivity. Qed.

Lemma next_interval : next "09:00-10:20@31" (at_ 2015 2 27 9 6) (at_ 2015 2 27 9 5) = Ok (at_ 2015 2 27 9 36, 0).
Proof. vm_compute. reflexivity. Qed.

Lemma next_never : next "*@0 * * feb" (at_ 2015 2 27 10 0) (at_ 2015 2 27 8 0) = Ok (time.zero, 0).
Proof. vm_compute. reflexivity. Qed.

(** ** Departures *)

(** No week of the expression is the week of January 1st, the 53rd of the year before. *)
Lemma week_53_refused : test "*" (at_ 2021 1 1 9 0) 0 = Ok NotAllowed.
Proof. vm_compute. reflexivity. Qed.

(** An interval with no value is a nil duration, dereferenced. *)
Lemma empty_interval_panics : test "*@" (at_ 2021 2 1 9 0) 0 = Panic.
Proof. vm_compute. reflexivity. Qed.

Lemma zero_modulo_panics : test "* * * *%0" (at_ 2021 2 1 9 0) 0 = Panic.
Proof. vm_compute. reflexivity. Qed.

(** Out of the ranges, the one with the smallest interval wins over the closest. *)
Lemma next_not_closest :
  next "10:00-18:00@4h,20:00-21:00@1h" (at_ 2021 2 1 9 0) 0 = Ok (at_ 2021 2 1 20 0, 0) /\
  test "10:00-18:00@4h,20:00-21:00@1h" (at_ 2021 2 1 10 0) 0 = Ok (Allowed 0).
Proof. split; vm_compute; reflexivity. Qed.

(** The end of the interval of the last run is on a day that is refused. *)
Lemma next_not_allowed :
  next "09:00-11:00@1d mon" (at_ 2022 5 23 9 6) (at_ 2022 5 23 9 5) = Ok (at_ 2022 5 24 9 5, 0) /\
  test "09:00-11:00@1d mon" (at_ 2022 5 24 9 5) (at_ 2022 5 23 9 5) = Ok NotAllowed.
Proof. split; vm_compute; reflexivity. Qed.

(** The end of an exclusion is still excluded. *)
Lemma next_excluded :
  next (both "! 00:00-11:00" "*") (at_ 2022 5 23 9 0) 0 = Ok (at_ 2022 5 23 11 0, 0) /\
  test (both "! 00:00-11:00" "*") (at_ 2022 5 23 11 0) 0 = Ok (Excluded 0).
Proof. split; vm_compute; reflexivity. Qed.

(** An element that never runs hides the next time of one before it. *)
Lemma next_hidden :
  next (both "*@0 * * may" "09:00-10:00") (at_ 2022 5 23 8 0) 0 = Ok (at_ 2022 5 23 9 0, 0) /\
  next (both "09:00-10:00" "*@0 * * may") (at_ 2022 5 23 8 0) 0 = Ok (time.zero, 0).
Proof. split; vm_compute; reflexivity. Qed.

(** [Append] on an expression already parsed is ignored by the tests. *)
Lemma append_ignored : let _ := clockAt (at_ 2022 5 23 8 0) in
  (t ← makeDataset (New "09:00-10:00"); t' ← Append t "mon"; Ok (dataset t, dataset t')) =
  (t ← makeDataset (New "09:00-10:00"); Ok (dataset t, dataset t)).
Proof. vm_compute. reflexivity. Qed.
