(* ===== verification/Key.v ===== *)
(** * Configuration keys and operations

    util/key: the keys of the configuration files, "section.option@scope", and
    their text.  core/keyop: the operations on them, "key op value". *)

From S2P Require Import Prelude Naming.
From S2P Require Import Instance Convert.
From Stdlib Require Import Ascii.

Open Scope string_scope.

(** ** util/key *)

Module key.

Record T := mk { Section : string; Option : string }.

#[global] Instance T_eq : EqDecision T.
Proof. solve_decision. Defined.

Definition New (section option : string) : T :=
  if String.eqb section "" && negb (String.eqb option "") then mk "DEFAULT" option else mk section option.

Definition IsZero (t : T) : bool := String.eqb (Option t ++ Section t) "".

Definition blank (c : ascii) : bool := Ascii.eqb c " " || Ascii.eqb c "009".

(** [ParseWithDefaultSection(s, defaultSection)]: the key, and whether the text is
    valid.  [None] is a panic, on a slice whose bound is -1. *)
Definition ParseWithDefaultSection (s defaultSection : string) : option (T * bool) :=
  if String.eqb s "" || negb (strings.all_chars (fun c => negb (blank c)) s) then Some (mk "" "", false)
  else
    match strings.SplitN2 s "." with
    | [_] =>
        if strings.ContainsChar s "#" then Some (mk s "", false)
        else Some (mk defaultSection s, true)
    | [l0; l1] =>
        if one_of l0 ["env"; "data"; "labels"] then Some (mk l0 l1, true)
        else
          let '(prefix, scope) := match text.Cut s "@" with Some (p, sc) => (p, Some sc) | None => (s, None) end in
          match text.CutLast prefix "." with
          | None => None
          | Some (section, option) =>
              Some (mk section (match scope with Some sc => option ++ "@" ++ sc | None => option end), true)
          end
    | _ => Some (mk "" "", false)
    end.

Definition ParseStrict (s : string) : option (T * bool) := ParseWithDefaultSection s "DEFAULT".
Definition Parse (s : string) : option T := fst <$> ParseWithDefaultSection s "DEFAULT".

Fixpoint ParseStrings (l : list string) : option (list T) :=
  match l with
  | [] => Some []
  | s :: l =>
      kw ← Parse s;
      kws ← ParseStrings l;
      Some (if IsZero kw then kws else kw :: kws)
  end.

Definition BaseOption (t : T) : string :=
  match strings.SplitN2 (Option t) "@" with b :: _ => b | [] => "" end.

Definition Scope (t : T) : string :=
  match strings.Split (Option t) "@" with [_; scope] => scope | _ => "" end.

Definition String_ (t : T) : string :=
  if String.eqb (Section t) "DEFAULT" then Option t
  else if String.eqb (Section t) "" && String.eqb (Option t) "" then ""
  else Section t ++ "." ++ Option t.

End key.

(** ** util/ini: the quotes of a value *)

Module ini.

(** [in[1:]] holds the quote only at its end. *)
Fixpoint onlyLast (s : string) (quote : ascii) : bool :=
  match s with
  | "" => false
  | String c "" => Ascii.eqb c quote
  | String c s' => negb (Ascii.eqb c quote) && onlyLast s' quote
  end.

Definition hasSurroundedQuote (s : string) (quote : ascii) : bool :=
  match s with
  | String c rest => Ascii.eqb c quote && onlyLast rest quote
  | "" => false
  end.

Fixpoint dropLast (s : string) : string :=
  match s with
  | "" | String _ "" => ""
  | String c s' => String c (dropLast s')
  end.

Definition Unquote (s : string) : string :=
  if hasSurroundedQuote s "'" || hasSurroundedQuote s (ascii_of_nat 34) then dropLast (text.tail s) else s.

End ini.

(** ** core/keyop *)

Module keyop.

Inductive Op :=
  | Invalid | Set_ | Append | Remove | Merge | Toggle | Insert | Exist | Equal | NotEqual
  | GreaterOrEqual | LesserOrEqual | Greater | Lesser.

#[global] Instance Op_eq : EqDecision Op.
Proof. solve_decision. Defined.

Record T := mk { Key : key.T; Op_ : Op; Value : string; Index : Z }.

#[global] Instance T_eq : EqDecision T.
Proof. solve_decision. Defined.

Definition zero : T := mk (key.mk "" "") Invalid "" 0%Z.

Definition OpString (t : Op) : string :=
  match t with
  | Invalid => ""
  | Set_ | Insert | Equal => "="
  | Append => "+="
  | Remove => "-="
  | Merge => "|="
  | Toggle => "^="
  | Exist => ":"
  | NotEqual => "!="
  | GreaterOrEqual => ">="
  | LesserOrEqual => "<="
  | Greater => ">"
  | Lesser => "<"
  end.

Definition toID : list (string * Op) :=
  [("=", Set_); ("+=", Append); ("-=", Remove); ("|=", Merge); ("^=", Toggle); (":", Exist); ("!=", NotEqual);
   (">=", GreaterOrEqual); ("<=", LesserOrEqual); (">", Greater); ("<", Lesser)].

Definition ParseOp (s : string) : Op := default Set_ (assoc String.eqb s toID).

Definition Is (t op : Op) : bool := String.eqb (OpString op) (OpString t).

Definition splitOps : list string := ["+="; "-="; "|="; "^="; "!="; ">="; "<="; ">"; "<"; "="].

Definition IsZero (t : T) : bool := bool_decide (Op_ t = Invalid).

(** The operator the text is split at: the first one, the longest in
    [splitOps] order where two start. *)
Definition splitAt (s : string) : nat * string :=
  foldl (fun best op =>
    match text.Index s op with
    | Some pos => if (pos <? best.1)%nat then (pos, op) else best
    | None => best
    end) (String.length s, "") splitOps.

(** The digits of an index, and what follows its bracket. *)
Fixpoint bracketed (digits s : string) : option string :=
  match s with
  | String c s' =>
      match strconv.digit c with
      | Some _ => bracketed (digits ++ String c "") s'
      | None => if Ascii.eqb c "]" && negb (String.eqb digits "") then Some digits else None
      end
  | "" => None
  end.

(** The submatches of [(.+)\[(\d+)]], on a text of one line: the last index of the
    text that something precedes. *)
Fixpoint findIndex (s : string) : option (string * string) :=
  match s with
  | "" => None
  | String c s' =>
      match findIndex s' with
      | Some p => Some (String c p.1, p.2)
      | None =>
          match s' with
          | String "[" s'' => d ← bracketed "" s''; Some (String c "", d)
          | _ => None
          end
      end
  end.

(** [strconv.Atoi] on digits: the largest integer when they overflow. *)
Definition index (digits : string) : Z := default converters.maxInt64 (strconv.Atoi digits).

(** [None] is a panic of [key.Parse]. *)
Definition Parse (s : string) : option T :=
  let '(i, bestOp) :=
    if HasSuffix s ":" then ((String.length s - 1)%nat, ":") else splitAt s in
  if String.eqb bestOp "" then Some zero
  else
    let k := String.substring 0 i s in
    let op := ParseOp bestOp in
    let from := (i + String.length bestOp)%nat in
    let value := ini.Unquote (String.substring from (String.length s - from) s) in
    let finish (k : string) (op : Op) (idx : Z) :=
      let k := if bool_decide (op = Exist) && negb (strings.ContainsChar k ".") then k ++ "." else k in
      key ← key.Parse k;
      Some (mk key op value idx) in
    match findIndex k with
    | Some (k, digits) =>
        if bool_decide (op = Set_) then
          finish k (if String.eqb value "" then Remove else Insert) (index digits)
        else Some zero
    | None => finish k op 0%Z
    end.

Fixpoint ParseOps (kws : list string) : option (list T) :=
  match kws with
  | [] => Some []
  | kw :: kws =>
      op ← Parse kw;
      ops ← ParseOps kws;
      Some (if IsZero op then ops else op :: ops)
  end.

Fixpoint ParseList (exprs : list string) : option (list T) :=
  match exprs with
  | [] => Some []
  | expr :: exprs => t ← Parse expr; l ← ParseList exprs; Some (t :: l)
  end.

(** The text of an operation, but for the digits of an index, [itoa] being
    [fmt.Sprintf("%d")]. *)
Definition String_ (itoa : Z -> string) (t : T) : string :=
  match Op_ t with
  | Exist => key.String_ (Key t) ++ ":"
  | Insert => key.String_ (Key t) ++ "[" ++ itoa (Index t) ++ "]=" ++ Value t
  | _ => key.String_ (Key t) ++ OpString (Op_ t) ++ Value t
  end.

Definition Drop (t : list T) (k : key.T) : list T :=
  List.filter (fun kop => negb (String.eqb (key.String_ (Key kop)) (key.String_ k))) t.

End keyop.

(** ** Texts with a separator *)

Lemma Contains_app s1 s2 c : strings.ContainsChar (s1 ++ s2) c = strings.ContainsChar s1 c || strings.ContainsChar s2 c.
Proof. induction s1 as [|a s1 IH]; simpl; [done|]. by rewrite IH, orb_assoc. Qed.

Lemma all_chars_app p s1 s2 : strings.all_chars p (s1 ++ s2) = strings.all_chars p s1 && strings.all_chars p s2.
Proof. induction s1 as [|a s1 IH]; simpl; [done|]. by rewrite IH, andb_assoc. Qed.

Lemma append_assoc (a b c : string) : (a ++ b) ++ c = a ++ (b ++ c).
Proof. induction a as [|x a IH]; [done|]. change (String x ((a ++ b) ++ c) = String x (a ++ (b ++ c))). by f_equal. Qed.

Lemma SplitN2_none s sep : strings.ContainsChar s sep = false -> strings.SplitN2 s sep = [s].
Proof.
  induction s as [|a s IH]; simpl; [done|]. intros [Ha Hs]%orb_false_iff. by rewrite Ha, IH.
Qed.

(** The words around the first separator. *)
Lemma SplitN2_app a b sep : strings.ContainsChar a sep = false -> strings.SplitN2 (a ++ String sep b) sep = [a; b].
Proof.
  induction a as [|x a IH]; simpl; [by rewrite Ascii.eqb_refl|]. intros [Hx Ha]%orb_false_iff. by rewrite Hx, IH.
Qed.

(** The word before the first separator. *)
Definition first (s : string) (sep : ascii) : string :=
  match strings.SplitN2 s sep with w :: _ => w | [] => "" end.

Lemma first_word_spec s sep : strings.ContainsChar (first s sep) sep = false /\
  (s = first s sep \/ exists t, s = first s sep ++ String sep t).
Proof.
  unfold first. induction s as [|a s [Hn IH]]; simpl; [by auto|].
  destruct (Ascii.eqb_spec a sep) as [->|Ha]; [split; [done|right; by exists s]|].
  destruct (strings.SplitN2 s sep) as [|w l]; simpl in *.
  - destruct (Ascii.eqb_spec a sep); [done|]. split; [done|]. destruct IH as [->|(t & ->)]; eauto.
  - destruct (Ascii.eqb_spec a sep); [done|]. split; [done|]. destruct IH as [IH|(t & IH)]; [left; by rewrite IH|right; exists t].
    change (String a s = String a (w ++ String sep t)). by rewrite IH.
Qed.

Lemma SplitN2_first a b sep : exists t, strings.SplitN2 (a ++ String sep b) sep = [first a sep; t].
Proof.
  destruct (first_word_spec a sep) as [Hn [->|(t & Ha)]].
  - assert (first (first a sep) sep = first a sep) as ->.
    { unfold first at 1. by rewrite SplitN2_none. }
    exists b. by apply SplitN2_app.
  - exists (t ++ String sep b). rewrite Ha at 1. rewrite append_assoc. by apply SplitN2_app.
Qed.

Lemma Cut_none s sep : text.Cut s sep = None <-> strings.ContainsChar s sep = false.
Proof.
  induction s as [|a s IH]; simpl; [done|]. destruct (Ascii.eqb a sep); simpl; [done|].
  rewrite <- IH. by destruct (text.Cut s sep).
Qed.

(** The cut at the first separator. *)
Lemma Cut_app p q sep : strings.ContainsChar p sep = false -> text.Cut (p ++ String sep q) sep = Some (p, q).
Proof.
  induction p as [|a p IH]; simpl; [by rewrite Ascii.eqb_refl|]. intros [Ha Hp]%orb_false_iff. by rewrite Ha, IH.
Qed.

Lemma Cut_some s sep p q : text.Cut s sep = Some (p, q) -> s = p ++ String sep q /\ strings.ContainsChar p sep = false.
Proof.
  revert p. induction s as [|a s IH]; intros p; cbn; [done|].
  destruct (Ascii.eqb_spec a sep) as [->|Ha]; [by intros [= <- <-]|].
  destruct (text.Cut s sep) as [[p' q']|]; [|done]. cbn. intros [= <- <-]. destruct (IH p' eq_refl) as [-> Hp].
  split; [done|]. simpl. by rewrite (proj2 (Ascii.eqb_neq _ _) Ha).
Qed.

Lemma CutLast_none s sep : text.CutLast s sep = None <-> strings.ContainsChar s sep = false.
Proof.
  induction s as [|a s IH]; simpl; [done|]. destruct (text.CutLast s sep) as [p|]; simpl.
  - split; [done|]. intros [_ H]%orb_false_iff. by apply IH in H.
  - rewrite (proj1 IH eq_refl), orb_false_r. by destruct (Ascii.eqb a sep).
Qed.

(** The cut at the last separator. *)
Lemma CutLast_app a b sep : strings.ContainsChar b sep = false -> text.CutLast (a ++ String sep b) sep = Some (a, b).
Proof.
  intros Hb. induction a as [|x a IH]; simpl; [by rewrite (proj2 (CutLast_none b sep) Hb), Ascii.eqb_refl|]. by rewrite IH.
Qed.

(** ** Keys *)

Import key(blank, Parse, String_, Section, Option, ParseWithDefaultSection).

Definition clean (s : string) : bool := strings.all_chars (fun c => negb (blank c)) s.

(** The sections whose options hold any text. *)
Definition reserved : list string := ["env"; "data"; "labels"].

(** An option: no period but in its scope. *)
Definition plain (option : string) : bool :=
  match text.Cut option "@" with
  | Some (base, _) => negb (strings.ContainsChar base ".")
  | None => negb (strings.ContainsChar option ".")
  end.

(** The keys whose text is theirs. *)
Definition printable (k : key.T) : bool :=
  clean (Section k) && clean (Option k) &&
  if String.eqb (Section k) "DEFAULT" then
    negb (String.eqb (Option k) "") && negb (strings.ContainsChar (Option k) ".") && negb (strings.ContainsChar (Option k) "#")
  else if one_of (Section k) reserved then true
  else
    negb (String.eqb (Section k) "" && String.eqb (Option k) "") && negb (one_of (first (Section k) ".") reserved) &&
    negb (strings.ContainsChar (Section k) "@") && plain (Option k).

Lemma parse_default s : clean s = true -> s <> "" -> strings.ContainsChar s "." = false ->
  strings.ContainsChar s "#" = false -> Parse s = Some (key.mk "DEFAULT" s).
Proof.
  intros Hc Hs Hd Hh. unfold Parse, ParseWithDefaultSection. rewrite (proj2 (String.eqb_neq s "") Hs).
  fold (clean s). rewrite Hc. cbn [negb orb]. by rewrite SplitN2_none, Hh.
Qed.

Lemma parse_dotted section option : clean (section ++ "." ++ option) = true ->
  Parse (section ++ "." ++ option) =
  if one_of section reserved then Some (key.mk section option)
  else if one_of (first section ".") reserved then Parse (section ++ "." ++ option)
  else
    let s := section ++ "." ++ option in
    let '(prefix, scope) := match text.Cut s "@" with Some (p, sc) => (p, Some sc) | None => (s, None) end in
    match text.CutLast prefix "." with
    | None => None
    | Some (sec, opt) => Some (key.mk sec (match scope with Some sc => opt ++ "@" ++ sc | None => opt end))
    end.
Proof.
  intros Hc. destruct (one_of section reserved) eqn:Hr.
  - assert (strings.ContainsChar section "." = false) as Hd.
    { apply one_of_spec in Hr. unfold reserved in Hr. rewrite !elem_of_cons in Hr.
      destruct Hr as [->|[->|[->|Hr%elem_of_nil]]]; done. }
    unfold Parse, ParseWithDefaultSection. fold (clean (section ++ "." ++ option)). rewrite Hc.
    replace (String.eqb (section ++ "." ++ option) "") with false by (by destruct section). cbn [negb orb].
    change ("." ++ option) with (String "." option). rewrite SplitN2_app by done. fold reserved. by rewrite Hr.
  - destruct (one_of (first section ".") reserved) eqn:Hf; [done|].
    unfold Parse, ParseWithDefaultSection. fold (clean (section ++ "." ++ option)). rewrite Hc.
    replace (String.eqb (section ++ "." ++ option) "") with false by (by destruct section). cbn [negb orb].
    change ("." ++ option) with (String "." option). destruct (SplitN2_first section option ".") as [t ->].
    fold reserved. rewrite Hf. cbv zeta.
    destruct (match text.Cut _ _ with Some _ => _ | None => _ end) as [prefix scope].
    by destruct (text.CutLast prefix ".") as [[? ?]|].
Qed.

(** The text of a key parses back to the key, when the key has no blank and its text
    does not read as another one ([printable]). *)
Theorem key_roundtrip k : printable k = true -> Parse (String_ k) = Some k.
Proof.
  destruct k as [section option]. unfold printable, String_. cbn [Section Option].
  intros [[Hs Ho]%andb_true_iff Hp]%andb_true_iff. destruct (String.eqb_spec section "DEFAULT") as [->|Hd].
  { rewrite !andb_true_iff, !negb_true_iff, String.eqb_neq in Hp. destruct Hp as [[? ?] ?]. by apply parse_default. }
  assert (clean (section ++ "." ++ option) = true) as Hc.
  { unfold clean in *. by rewrite !all_chars_app, Hs, Ho. }
  pose proof (parse_dotted section option Hc) as E.
  destruct (one_of section reserved) eqn:Hr.
  { replace (String.eqb section "" && String.eqb option "") with false; [exact E|]. by destruct section. }
  rewrite !andb_true_iff, !negb_true_iff in Hp. destruct Hp as [[[Hz Hf] Ha] Hpl].
  rewrite Hz, E, Hf. cbv zeta. unfold plain in Hpl. clear E.
  destruct (text.Cut option "@") as [[base scope]|] eqn:Hcut.
  - apply Cut_some in Hcut as [-> Hb]. apply negb_true_iff in Hpl.
    change ("." ++ (base ++ String "@" scope)) with (("." ++ base) ++ String "@" scope).
    rewrite <- append_assoc, Cut_app by (by rewrite !Contains_app, Ha, Hb).
    change ("." ++ base) with (String "." base). by rewrite CutLast_app.
  - apply negb_true_iff in Hpl. rewrite (proj2 (Cut_none _ _)) by (rewrite !Contains_app, Ha; by apply Cut_none).
    change ("." ++ option) with (String "." option). by rewrite CutLast_app.
Qed.

(** The key of an option of DEFAULT scoped to a node name with a dot is parsed from its
    long text, and the text String makes of it makes Parse panic. *)
Theorem default_scope_panics option scope : clean (option ++ "@" ++ scope) = true ->
  strings.ContainsChar option "." = false -> strings.ContainsChar option "@" = false ->
  strings.ContainsChar scope "." = true ->
  let k := key.mk "DEFAULT" (option ++ "@" ++ scope) in
  Parse ("DEFAULT." ++ String_ k) = Some k /\ Parse (String_ k) = None.
Proof.
  intros Hc Hd Ha Hs k. change (String_ k) with (option ++ "@" ++ scope). split.
  - pose proof (parse_dotted "DEFAULT" (option ++ "@" ++ scope)) as E.
    change ("DEFAULT." ++ (option ++ "@" ++ scope)) with ("DEFAULT" ++ "." ++ (option ++ "@" ++ scope)).
    rewrite E by exact Hc. change (one_of "DEFAULT" reserved) with false.
    change (one_of (first "DEFAULT" ".") reserved) with false. cbv zeta.
    change ("@" ++ scope) with (String "@" scope).
    assert (strings.ContainsChar ("DEFAULT." ++ option) "@" = false) as Hn by (by rewrite Contains_app, Ha).
    rewrite <- (append_assoc "." option), <- (append_assoc "DEFAULT").
    change ("DEFAULT" ++ ("." ++ option)) with ("DEFAULT." ++ option). rewrite Cut_app by done.
    change ("DEFAULT." ++ option) with ("DEFAULT" ++ String "." option). by rewrite CutLast_app.
  - destruct (first_word_spec scope ".") as [Hn [E|(t & E)]]; [rewrite E in Hs; congruence|].
    set (p := first scope ".") in *. clearbody p. subst scope.
    unfold Parse, ParseWithDefaultSection. fold (clean (option ++ "@" ++ (p ++ String "." t))). rewrite Hc.
    replace (String.eqb (option ++ "@" ++ (p ++ String "." t)) "") with false by (by destruct option). cbn [negb orb].
    change ("@" ++ (p ++ String "." t)) with (("@" ++ p) ++ String "." t). rewrite <- append_assoc.
    rewrite SplitN2_app by (by rewrite !Contains_app, Hd). fold reserved.
    assert (one_of (option ++ "@" ++ p) reserved = false) as ->.
    { apply one_of_false. intros Hin.
      assert (strings.ContainsChar (option ++ "@" ++ p) "@" = true) as Hat by (rewrite !Contains_app; by destruct (strings.ContainsChar option "@")).
      unfold reserved in Hin. rewrite !elem_of_cons in Hin. destruct Hin as [Hi|[Hi|[Hi|Hi%elem_of_nil]]]; [rewrite Hi in Hat; done..|done]. }
    rewrite (append_assoc option). change (("@" ++ p) ++ String "." t) with (String "@" (p ++ String "." t)).
    rewrite Cut_app by done. cbv zeta. by rewrite (proj2 (CutLast_none option ".") Hd).
Qed.

Lemma key_roundtrip_witness :
  let k := key.mk "array#baie.acme.com" "api@n1.opensvc.com" in Parse (String_ k) = Some k.
Proof. apply (key_roundtrip (key.mk "array#baie.acme.com" "api@n1.opensvc.com")). vm_compute. reflexivity. Defined.

Lemma default_scope_panics_witness :
  let k := key.mk "DEFAULT" "topology@n1.opensvc.com" in
  Parse ("DEFAULT." ++ String_ k) = Some k /\ Parse (String_ k) = None.
Proof. apply (default_scope_panics "topology" "n1.opensvc.com"); vm_compute; reflexivity. Defined.

(** A value that ends with a colon is read as a test of existence. *)
Lemma colon_value : keyop.Parse "env.url=http:" = Some (keyop.mk (key.mk "env" "url=http") keyop.Exist "" 0).
Proof. vm_compute. reflexivity. Qed.
