(* ===== verification/SchedTable.v ===== *)
(** * Scheduled actions

    core/schedule: the schedule entries of an instance or a node, their tables, the
    events they run on and the pace of these runs; core/resourcereqs and the
    replication source of core/instance, which their requirements read. *)

From S2P Require Import Prelude Naming Status.
From S2P Require Import Instance.
From S2P Require Import Calendar Convert Schedule Key.
From Stdlib Require Import Ascii.

Open Scope string_scope.

(** ** core/schedule *)

Module sched.

Record Config := mkConfig {
  Action : string;
  Schedule_ : string;
  Key_ : string;
  MaxParallel : Z;
  Require_ : string;
  RequireCollector : bool;
  RequireProvisioned : bool;
  RunDir : string;
  RequireReplicationSource : bool;
  StatefileKey : string;
  On : list string;
  Pace : string;
  Log : bool }.

Record Entry := mkEntry {
  Config_ : Config;
  LastRunAt : time.Time;
  NextRunAt : time.Time;
  Node : string;
  Path_ : naming.Path }.

Definition Table := list Entry.

#[global] Instance Config_eq : EqDecision Config.
Proof. solve_decision. Defined.
#[global] Instance Entry_eq : EqDecision Entry.
Proof. solve_decision. Defined.

#[global] Instance eta_Entry : Eta Entry := fun r =>
  mkEntry (Config_ r) (LastRunAt r) (NextRunAt r) (Node r) (Path_ r).
#[global] Instance upd_LastRunAt : Upd LastRunAt.
Proof. derive_upd eta_Entry. Defined.
#[global] Instance upd_NextRunAt : Upd NextRunAt.
Proof. derive_upd eta_Entry. Defined.

Definition ConfigEqual (c other : Config) : bool :=
  String.eqb (Action c) (Action other) &&
  String.eqb (Schedule_ c) (Schedule_ other) &&
  String.eqb (Key_ c) (Key_ other) &&
  Z.eqb (MaxParallel c) (MaxParallel other) &&
  String.eqb (Require_ c) (Require_ other) &&
  Bool.eqb (RequireCollector c) (RequireCollector other) &&
  Bool.eqb (RequireProvisioned c) (RequireProvisioned other) &&
  String.eqb (RunDir c) (RunDir other) &&
  Bool.eqb (RequireReplicationSource c) (RequireReplicationSource other) &&
  String.eqb (StatefileKey c) (StatefileKey other) &&
  bool_decide (On c = On other) &&
  String.eqb (Pace c) (Pace other) &&
  Bool.eqb (Log c) (Log other).

(** *** Tables *)

Definition sameEntry (x e : Entry) : bool :=
  bool_decide (Path_ x = Path_ e) && String.eqb (Node x) (Node e) && String.eqb (Key_ (Config_ x)) (Key_ (Config_ e)).

(** The entry of the same path, node and key, replaced in place, or a new one. *)
Fixpoint MergeEntry (t : Table) (e : Entry) : Table :=
  match t with
  | [] => [e]
  | x :: t => if sameEntry x e then e :: t else x :: MergeEntry t e
  end.

(** The table without it; the code shifts the array of its argument. *)
Fixpoint DelEntry (t : Table) (e : Entry) : Table :=
  match t with
  | [] => []
  | x :: t => if sameEntry x e then t else x :: DelEntry t e
  end.

Definition MergeEntries (t : Table) (l : list Entry) : Table := foldl MergeEntry t l.
Definition AddEntries (t : Table) (l : list Entry) : Table := (t ++ l)%list.
Definition AddTable (t l : Table) : Table := (t ++ l)%list.
Definition NewTable (entries : list Entry) : Table := AddEntries [] entries.
Definition DeepCopy (t : Table) : Table := map (fun x => x) t.

(** *** The tables of the objects *)

Definition Data := gmap naming.Path Table.

Definition Set_ (c : Data) (p : naming.Path) (v : Table) : Data := <[p := v]> c.
Definition Unset (c : Data) (p : naming.Path) : Data := delete p c.
Definition GetByPath (c : Data) (p : naming.Path) : option Table := DeepCopy <$> c !! p.
Definition GetAll (c : Data) : list (naming.Path * Table) := map (fun kv => (kv.1, DeepCopy kv.2)) (map_to_list c).
Definition GetPaths (c : Data) : list naming.Path := (map_to_list c).*1.

(** *** Entries *)

Definition GetNextAt `{E : schedule.Env} (t : Entry) (tm : time.Time) : schedule.result (time.Time * time.Duration) :=
  schedule.Next (schedule.New (Schedule_ (Config_ t)))
    [schedule.NextWithLast (LastRunAt t); schedule.NextWithTime tm].

(** [None] is the panic of [key.Parse]. *)
Definition RID (t : Entry) : option string := key.Section <$> key.Parse (Key_ (Config_ t)).

(** The modification times of the files of the last runs, by object and name. *)
Definition Files := gmap (naming.Path * string) time.Time.

Definition LastRunFile (t : Entry) : naming.Path * string := (Path_ t, StatefileKey (Config_ t)).
Definition LastSuccessFile (t : Entry) : naming.Path * string := (Path_ t, StatefileKey (Config_ t) ++ ".success").

Definition SetLastRun (f : Files) (t : Entry) (tm : time.Time) : Files := <[LastRunFile t := tm]> f.
Definition SetLastSuccess (f : Files) (t : Entry) (tm : time.Time) : Files := <[LastSuccessFile t := tm]> f.
Definition GetLastRun (f : Files) (t : Entry) : time.Time := default time.zero (f !! LastRunFile t).

(** *** Events *)

Record OnFilter := mkOnFilter { Kind : string; Fields : gmap string string }.

Definition OnKinds : list string := ["FileInstalled"; "NetworkPeersUpdated"].
Definition DefaultPace : string := "@10s".

Fixpoint parseFields (l : list string) (fields : gmap string string) : option (gmap string string) :=
  match l with
  | [] => Some fields
  | e :: l =>
      kv ← text.Cut e "=";
      if String.eqb kv.1 "" then None else parseFields l (<[kv.1 := kv.2]> fields)
  end.

(** [None] is an error. *)
Definition ParseOn (s : string) : option OnFilter :=
  match strings.Split s "," with
  | kind :: l =>
      if one_of kind OnKinds then fields ← parseFields l ∅; Some (mkOnFilter kind fields) else None
  | [] => None
  end.

Fixpoint keyFields (l : list string) (fields : gmap string string) : gmap string string :=
  match l with
  | [] => fields
  | e :: l => keyFields l (match text.Cut e "=" with Some (k, v) => <[k := v]> fields | None => fields end)
  end.

(** A field the event does not have is empty. *)
Definition Match (t : OnFilter) (key : string) : bool :=
  match strings.Split key "," with
  | kind :: l =>
      String.eqb kind (Kind t) &&
      let fields := keyFields l ∅ in
      forallb (fun kv => String.eqb (default "" (fields !! kv.1)) kv.2) (map_to_list (Fields t))
  | [] => false
  end.

Record OnPace := mkOnPace { Interval : time.Duration; Max : time.Duration }.

Section pace.
Context `{F : converters.Float}.

(** The [parse] closure: the duration of a word. *)
Definition parseWord (word : string) : schedule.result time.Duration :=
  v ← schedule.check (text.CutPrefix word "@");
  let v := match strconv.Atoi v with Some _ => v ++ "m" | None => v end in
  i ← schedule.check (converters.convert v);
  match i with
  | None => schedule.Panic
  | Some d => if (d <=? 0)%Z then schedule.Invalid else schedule.Ok d
  end.

Definition ParsePace (s : string) : schedule.result OnPace :=
  let s := if String.eqb s "" then DefaultPace else s in
  match text.Fields s with
  | [w] => i ← parseWord w; schedule.Ok (mkOnPace i i)
  | [w; b; m] =>
      if String.eqb b "backoff" then
        i ← parseWord w;
        m ← parseWord m;
        if (m <? i)%Z then schedule.Invalid else schedule.Ok (mkOnPace i m)
      else schedule.Invalid
  | _ => schedule.Invalid
  end.

End pace.

End sched.

(** ** core/resourcereqs *)

Module resourcereqs.

(** The characters of [[\w#.-_]], whose [.-_] is a range: the hyphen is not one. *)
Definition isName (c : ascii) : bool :=
  let n := N_of_ascii c in
  ((97 <=? n) && (n <=? 122))%N || (n =? 35)%N || ((46 <=? n) && (n <=? 95))%N.

(** The characters of [[\w\s,]]. *)
Definition isState (c : ascii) : bool :=
  let n := N_of_ascii c in
  ((97 <=? n) && (n <=? 122))%N || ((65 <=? n) && (n <=? 90))%N || ((48 <=? n) && (n <=? 57))%N ||
  one_of n [95; 9; 10; 12; 13; 32; 44]%N.

Fixpoint span (p : ascii -> bool) (s : string) : string * string :=
  match s with
  | String c s' => if p c then let '(a, b) := span p s' in (String c a, b) else ("", s)
  | "" => ("", "")
  end.

(** The states of a match, and what follows it. *)
Definition states (s : string) : string * string :=
  match s with
  | String "(" s' =>
      let '(l, rest) := span isState s' in
      match l, rest with
      | "", _ => ("", s)
      | _, String ")" rest => (l, rest)
      | _, _ => ("", s)
      end
  | _ => ("", s)
  end.

Definition required (states : string) : list status.T :=
  if String.eqb states "" then [status.Up; status.StandbyUp]
  else map (fun s => default status.Undef (assoc String.eqb (text.TrimSpace s) status.toID)) (strings.Split states ",").

(** The matches of [([\w#.-_]+)(\([\w\s,]+\)|)], a later one of a name replacing
    an earlier one; each consumes a character. *)
Fixpoint parse (fuel : nat) (s : string) (data : gmap string (list status.T)) : gmap string (list status.T) :=
  match fuel with
  | O => data
  | S fuel =>
      match s with
      | "" => data
      | String c s' =>
          if isName c then
            let '(rid, rest) := span isName s in
            let '(l, rest) := states rest in
            parse fuel rest (<[rid := required l]> data)
          else parse fuel s' data
      end
  end.

Definition Requirements (definition : string) : gmap string (list status.T) :=
  parse (String.length definition) definition ∅.

End resourcereqs.

(** ** core/instance: the replication source *)

Module replication.

Record ReferenceStatus := mkReferenceStatus { RID : string; Status_ : status.T; Optional : bool }.

Definition IsReferenceResource (group name : string) : bool :=
  if one_of group ["ip"; "volume"; "fs"; "share"; "container"] then true
  else if String.eqb group "disk" then negb (one_of name ["drbd"; "scsireserv"])
  else false.

Definition upWithStandby (t : status.T) : status.T := if Z.eqb t status.StandbyUpWithUp then status.Up else t.

(** Whether the instance is the source, why not, and whether it was forced. *)
Definition IsReplicationSource (refs : list ReferenceStatus) (force : bool) : bool * string * bool :=
  let overall := upWithStandby (foldl (fun t r => status.Add t (Status_ r)) status.Undef refs) in
  let avail := upWithStandby
    (foldl (fun t r => if Optional r then t else status.Add t (Status_ r)) status.Undef refs) in
  let notUp := map (fun r => RID r ++ ":" ++ status.String (Status_ r))
    (List.filter (fun r => negb (Z.eqb (Status_ r) status.Up)) refs) in
  if Z.eqb avail status.Up then (true, "", false)
  else if status.Is avail [status.Undef; status.NotApplicable] && Z.eqb overall status.Up then (true, "", false)
  else if Z.eqb overall status.Undef then
    (false, "no ip, volume, fs, share, disk or container resource tells the active instance", false)
  else
    let reason := "reference resources " ++ status.String avail ++ "/" ++ status.String overall ++ ": " ++ Join notUp "," in
    if force && negb (status.Is avail [status.Down; status.NotApplicable; status.Undef]) &&
       negb (status.Is overall [status.Down; status.NotApplicable; status.Undef])
    then (true, reason, true) else (false, reason, false).

Definition less (a b : string * resource.Status) : bool := match String.compare a.1 b.1 with Lt => true | _ => false end.

(** The reference resources of a status, sorted by name. *)
Definition references (t : instance.Status) : list ReferenceStatus :=
  omap (fun kv =>
    let '(rid, r) := kv in
    if resource.IsDisabled r then None
    else
      id ← resourceid.Parse rid;
      let name := match text.Cut (resource.Type_ r) "." with Some (_, n) => n | None => "" end in
      if IsReferenceResource (resourceid.DriverGroup id) name then
        Some (mkReferenceStatus rid (resource.Status_ r) (resource.IsOptional r))
      else None) (stable_sort less (map_to_list (instance.Resources t))).

Definition ReplicationSource (t : instance.Status) : bool * string := (IsReplicationSource (references t) false).1.

End replication.
