(* ===== verification/SchedQueue.v ===== *)
(** * The queue of the planned jobs

    src/daemon/scheduler/queue.go: the jobs, known by object and key, and the heap
    that orders the ones planned by the time they are due.  The operations of the
    heap are those of the Go [container/heap] package, on the [Less], [Swap],
    [Push] and [Pop] of the code.  A job is a pointer: a number, in a store. *)

From S2P Require Import Prelude Naming.
From S2P Require Import Calendar Convert Schedule SchedTable.

Module jobs.

Record job := mkJob { entry : sched.Entry; createdAt : time.Time; index : Z }.

#[global] Instance eta_job : Eta job := fun r => mkJob (entry r) (createdAt r) (index r).
#[global] Instance upd_entry : Upd entry.
Proof. derive_upd eta_job. Defined.
#[global] Instance upd_index : Upd index.
Proof. derive_upd eta_job. Defined.

(** The jobs: the pointers by path and key, the queue, the jobs pointed to, and
    the next pointer. *)
Record jobs := mkJobs {
  byPath : gmap naming.Path (gmap string N);
  queue : list N;
  store : gmap N job;
  fresh : N }.

#[global] Instance eta_jobs : Eta jobs := fun r => mkJobs (byPath r) (queue r) (store r) (fresh r).
#[global] Instance upd_byPath : Upd byPath.
Proof. derive_upd eta_jobs. Defined.
#[global] Instance upd_queue : Upd queue.
Proof. derive_upd eta_jobs. Defined.
#[global] Instance upd_store : Upd store.
Proof. derive_upd eta_jobs. Defined.
#[global] Instance upd_fresh : Upd fresh.
Proof. derive_upd eta_jobs. Defined.

Definition newJobs : jobs := mkJobs ∅ [] ∅ 0.

(** The time the job of a pointer is due. *)
Definition due (t : jobs) (p : N) : time.Time :=
  match store t !! p with Some j => sched.NextRunAt (entry j) | None => time.zero end.

(** ** The interface of the heap *)

Definition at_ (t : jobs) (i : nat) : N := default 0%N (queue t !! i).

Definition Less (t : jobs) (i j : nat) : bool := time.Before (due t (at_ t i)) (due t (at_ t j)).

Definition setIndex (t : jobs) (p : N) (i : Z) : jobs :=
  t <| store ::= alter (fun j => j <| index := i |>) p |>.

Definition Swap (t : jobs) (i j : nat) : jobs :=
  let a := at_ t i in
  let b := at_ t j in
  let t := t <| queue := <[i := b]> (<[j := a]> (queue t)) |> in
  setIndex (setIndex t b (Z.of_nat i)) a (Z.of_nat j).

Definition QPush (t : jobs) (p : N) : jobs :=
  (setIndex t p (Z.of_nat (length (queue t)))) <| queue ::= fun q => (q ++ [p])%list |>.

Definition QPop (t : jobs) : jobs :=
  let n := (length (queue t) - 1)%nat in
  (setIndex t (at_ t n) (-1)) <| queue := take n (queue t) |>.

(** ** [container/heap] *)

(** [up(h, j)], each round halving [j]. *)
Fixpoint up (fuel : nat) (t : jobs) (j : nat) : jobs :=
  match fuel with
  | O => t
  | S fuel =>
      let i := ((j - 1) / 2)%nat in
      if (i =? j)%nat || negb (Less t j i) then t else up fuel (Swap t i j) i
  end.

(** [down(h, i0, n)], each round doubling [i]; and whether it moved. *)
Fixpoint down (fuel : nat) (t : jobs) (i n : nat) : jobs * bool :=
  match fuel with
  | O => (t, false)
  | S fuel =>
      let j1 := (2 * i + 1)%nat in
      if (n <=? j1)%nat then (t, false)
      else
        let j := if (S j1 <? n)%nat && Less t (S j1) j1 then S j1 else j1 in
        if negb (Less t j i) then (t, false) else ((down fuel (Swap t i j) j n).1, true)
  end.

Definition heapPush (t : jobs) (p : N) : jobs :=
  let t := QPush t p in
  let n := length (queue t) in up n t (n - 1).

Definition heapPop (t : jobs) : jobs :=
  let n := (length (queue t) - 1)%nat in
  QPop (down n (Swap t 0 n) 0 n).1.

Definition heapRemove (t : jobs) (i : nat) : jobs :=
  let n := (length (queue t) - 1)%nat in
  QPop (if (n =? i)%nat then t
        else let '(t, moved) := down n (Swap t i n) i n in if moved then t else up n t i).

Definition heapFix (t : jobs) (i : nat) : jobs :=
  let n := length (queue t) in
  let '(t, moved) := down n t i n in if moved then t else up n t i.

(** ** The operations of the code *)

Definition get (t : jobs) (path : naming.Path) (key : string) : option N :=
  m ← byPath t !! path; m !! key.

Definition has (t : jobs) (path : naming.Path) (key : string) : bool :=
  match get t path key with Some _ => true | None => false end.

(** The job of an entry, made when its key has none. *)
Definition pointer (t : jobs) (e : sched.Entry) (now : time.Time) : jobs * N :=
  let path := sched.Path_ e in
  let key := sched.Key_ (sched.Config_ e) in
  match get t path key with
  | Some p => (t, p)
  | None =>
      let p := fresh t in
      (t <| byPath ::= partial_alter (fun m => Some (<[key := p]> (default ∅ m))) path |>
         <| store ::= <[p := mkJob e now (-1)]> |>
         <| fresh ::= N.succ |>, p)
  end.

Definition set (t : jobs) (e : sched.Entry) (now : time.Time) : jobs :=
  let '(t, p) := pointer t e now in
  let t := t <| store ::= alter (fun j => j <| entry := e |>) p |> in
  let i := match store t !! p with Some j => index j | None => (-1)%Z end in
  if (i <? 0)%Z then heapPush t p else heapFix t (Z.to_nat i).

Definition del (t : jobs) (path : naming.Path) (key : string) : jobs :=
  match get t path key with
  | None => t
  | Some p =>
      let i := match store t !! p with Some j => index j | None => (-1)%Z end in
      let t := if (0 <=? i)%Z then heapRemove t (Z.to_nat i) else t in
      t <| byPath ::= fun b =>
             match b !! path with
             | None => b
             | Some m => let m := delete key m in if decide (m = ∅) then delete path b else <[path := m]> b
             end |>
  end.

Definition keys (t : jobs) (path : naming.Path) : list string := (map_to_list (default ∅ (byPath t !! path))).*1.

Definition delPath (t : jobs) (path : naming.Path) : jobs := foldl (fun t key => del t path key) t (keys t path).

(** No pointer to the jobs is left. *)
Definition purge (t : jobs) : jobs := t <| byPath := ∅ |> <| queue := [] |> <| store := ∅ |>.

Definition table (t : jobs) (path : naming.Path) : sched.Table :=
  omap (fun kv => entry <$> store t !! kv.2) (map_to_list (default ∅ (byPath t !! path))).

Definition first (t : jobs) : option job := p ← head (queue t); store t !! p.

(** Each round takes a job out of the queue. *)
Fixpoint popDueN (fuel : nat) (t : jobs) (now : time.Time) : jobs * list N :=
  match fuel with
  | O => (t, [])
  | S fuel =>
      match head (queue t) with
      | None => (t, [])
      | Some p =>
          if time.After (due t p) now then (t, [])
          else
            let t := heapPop t in
            let '(t', l) := popDueN fuel t now in
            (t', p :: l)
      end
  end.

Definition popDue (t : jobs) (now : time.Time) : jobs * list N := popDueN (length (queue t)) t now.

Definition len (t : jobs) : nat := foldr (fun kv n => (size kv.2 + n)%nat) 0%nat (map_to_list (byPath t)).

End jobs.
