(* ===== verification/SchedHeap.v ===== *)
(** * The order of the planned jobs

    The heap of the scheduler: each job knows its place in the queue, the soonest
    is first, and the operations on the jobs are those of a map from the keys to
    the planned entries. *)

From S2P Require Import Prelude Naming.
From S2P Require Import Calendar Convert Schedule SchedTable SchedQueue.
From Stdlib Require Import PeanoNat.

Import jobs.

(** ** Swaps *)

(** The place a job says it has. *)
Definition place (t : jobs) (p : N) : option Z := index <$> store t !! p.

(** What a job is, but for its place. *)
Definition body (t : jobs) (p : N) : option (sched.Entry * time.Time) :=
  (fun j => (entry j, createdAt j)) <$> store t !! p.

(** Each job of the queue knows its place, and the others say they have none. *)
Definition indexed (t : jobs) : Prop := forall p i, queue t !! i = Some p <-> place t p = Some (Z.of_nat i).

(** The operations of the heap move the jobs of the queue, and nothing else. *)
Record frame (t t' : jobs) : Prop := {
  frame_byPath : byPath t' = byPath t;
  frame_fresh : fresh t' = fresh t;
  frame_body : forall p, body t' p = body t p;
}.

#[global] Instance frame_preorder : PreOrder frame.
Proof.
  split; [by split|]. intros t u v [] []. split; [congruence..|]. intros p. congruence.
Qed.

Lemma due_body t t' p : body t' p = body t p -> due t' p = due t p.
Proof.
  unfold body, due. destruct (store t' !! p), (store t !! p); cbn; intros H; simplify_eq; congruence.
Qed.

Lemma setIndex_body t p i q : body (setIndex t p i) q = body t q.
Proof.
  unfold body, setIndex. cbn. destruct (decide (q = p)) as [->|].
  - rewrite lookup_alter_eq. by destruct (store t !! p).
  - by rewrite lookup_alter_ne.
Qed.

Lemma setIndex_place t p i q :
  place (setIndex t p i) q = if decide (q = p) then (fun _ => i) <$> place t p else place t q.
Proof.
  unfold place, setIndex. cbn. destruct (decide (q = p)) as [->|].
  - rewrite lookup_alter_eq. by destruct (store t !! p).
  - by rewrite lookup_alter_ne.
Qed.

Lemma at_lookup t i : (i < length (queue t))%nat -> queue t !! i = Some (at_ t i).
Proof. intros Hi. unfold at_. destruct (lookup_lt_is_Some_2 (queue t) i Hi) as [p ->]. done. Qed.

Section swap.
Context (t : jobs) (i j : nat).
Hypothesis Hi : (i < length (queue t))%nat.
Hypothesis Hj : (j < length (queue t))%nat.

Lemma Swap_frame : frame t (Swap t i j).
Proof.
  split; [done|done|]. intros p. unfold Swap. cbv zeta. by rewrite !setIndex_body.
Qed.

Lemma Swap_queue : queue (Swap t i j) = <[i := at_ t j]> (<[j := at_ t i]> (queue t)).
Proof. done. Qed.

Lemma Swap_length : length (queue (Swap t i j)) = length (queue t).
Proof. by rewrite Swap_queue, !length_insert. Qed.

Lemma Swap_lookup k : queue (Swap t i j) !! k =
  if decide (k = i) then Some (at_ t j) else if decide (k = j) then Some (at_ t i) else queue t !! k.
Proof.
  rewrite Swap_queue. destruct (decide (k = i)) as [->|Hki].
  - apply list_lookup_insert_eq. by rewrite length_insert.
  - rewrite list_lookup_insert_ne by done. destruct (decide (k = j)) as [->|]; [by apply list_lookup_insert_eq|].
    by apply list_lookup_insert_ne.
Qed.

Lemma Swap_at k : at_ (Swap t i j) k = if decide (k = i) then at_ t j else if decide (k = j) then at_ t i else at_ t k.
Proof. unfold at_ at 1. rewrite Swap_lookup. repeat case_decide; done. Qed.

Lemma Swap_perm : queue (Swap t i j) ≡ₚ queue t.
Proof.
  pose proof (at_lookup t i Hi) as Ei. pose proof (at_lookup t j Hj) as Ej.
  apply Permutation_inj. split; [by rewrite Swap_length|].
  exists (fun k => if decide (k = i) then j else if decide (k = j) then i else k). split.
  - intros x y. repeat case_decide; congruence.
  - intros k. rewrite Swap_lookup. repeat case_decide; done.
Qed.

Lemma Swap_indexed : indexed t -> indexed (Swap t i j).
Proof.
  intros Hx p k. pose proof (at_lookup t i Hi) as Ei. pose proof (at_lookup t j Hj) as Ej.
  pose proof (proj1 (Hx _ _) Ei) as Pi. pose proof (proj1 (Hx _ _) Ej) as Pj.
  rewrite Swap_lookup. unfold Swap. cbv zeta. rewrite !setIndex_place.
  change (place (t <| queue := _ |>) ?q) with (place t q).
  assert (at_ t i = at_ t j -> i = j) as Hinj by (intros E; rewrite E in Pi; simplify_eq; lia).
  destruct (decide (p = at_ t i)) as [->|Hpa].
  - assert (((fun _ => Z.of_nat j) <$> (if decide (at_ t i = at_ t j) then (fun _ => Z.of_nat i) <$> place t (at_ t j)
      else place t (at_ t i))) = Some (Z.of_nat j)) as ->.
    { case_decide; [by rewrite Pj|by rewrite Pi]. }
    destruct (decide (k = i)) as [->|].
    + split; [intros [= E]; by rewrite Hinj|intros [= E%Nat2Z.inj]; congruence].
    + destruct (decide (k = j)) as [->|]; [done|]. rewrite (Hx (at_ t i) k), Pi. split; intros [= E]; lia.
  - destruct (decide (p = at_ t j)) as [->|Hpb].
    + rewrite Pj. cbn. destruct (decide (k = i)) as [->|]; [done|].
      destruct (decide (k = j)) as [->|].
      * split; [intros [= E]; congruence|intros [= E%Nat2Z.inj]; congruence].
      * rewrite (Hx (at_ t j) k), Pj. split; intros [= E]; lia.
    + destruct (decide (k = i)) as [->|].
      * rewrite <- (Hx p i), Ei. split; congruence.
      * destruct (decide (k = j)) as [->|]; [|apply Hx]. rewrite <- (Hx p j), Ej. split; congruence.
Qed.

End swap.

(** ** The heap *)

Definition par (c : nat) : nat := ((c - 1) / 2)%nat.

Lemma par_child c i : (0 < c)%nat -> par c = i <-> c = (2 * i + 1)%nat \/ c = (2 * i + 2)%nat.
Proof.
  intros Hc. unfold par. pose proof (Nat.div_mod (c - 1) 2 ltac:(lia)).
  pose proof (Nat.mod_upper_bound (c - 1) 2 ltac:(lia)). lia.
Qed.

Lemma par_lt c : (0 < c)%nat -> (par c < c)%nat.
Proof. intros Hc. pose proof (proj1 (par_child c (par c) Hc) eq_refl). lia. Qed.

(** The time the job at a place is due. *)
Definition dueAt (t : jobs) (i : nat) : time.Time := due t (at_ t i).

Definition edge (t : jobs) (c : nat) : Prop := (dueAt t (par c) <= dueAt t c)%Z.

(** The first [n] places are ordered. *)
Definition heap (t : jobs) (n : nat) : Prop := forall c, (0 < c < n)%nat -> edge t c.

Lemma Swap_dueAt t i j k : (i < length (queue t))%nat -> (j < length (queue t))%nat ->
  dueAt (Swap t i j) k = if decide (k = i) then dueAt t j else if decide (k = j) then dueAt t i else dueAt t k.
Proof.
  intros Hi Hj. unfold dueAt. rewrite Swap_at by done.
  rewrite (due_body t (Swap t i j)) by apply (frame_body _ _ (Swap_frame t i j)). by repeat case_decide.
Qed.

Lemma Less_spec t i j : Less t i j = true <-> (dueAt t i < dueAt t j)%Z.
Proof. apply time.Before_spec. Qed.

Lemma Less_false t i j : Less t i j = false <-> (dueAt t j <= dueAt t i)%Z.
Proof. apply time.Before_false. Qed.

(** What the moves of the heap keep: the jobs, their places, and the places from
    [n]. *)
Record moved (n : nat) (t t' : jobs) : Prop := {
  moved_frame : frame t t';
  moved_perm : queue t' ≡ₚ queue t;
  moved_indexed : indexed t';
  moved_after : forall k, (n <= k)%nat -> queue t' !! k = queue t !! k;
}.

Lemma moved_refl n t : indexed t -> moved n t t.
Proof. by split. Qed.

Lemma moved_compose n t u v : moved n t u -> moved n u v -> moved n t v.
Proof.
  intros [? ? ? H] [? ? ? H']. split; [by etrans|by etrans|done|]. intros k Hk. by rewrite H', H.
Qed.

Lemma moved_length n t t' : moved n t t' -> length (queue t') = length (queue t).
Proof. intros [_ Hp _ _]. by rewrite Hp. Qed.

Lemma moved_Swap n t i j : (i < n)%nat -> (j < n)%nat -> (n <= length (queue t))%nat -> indexed t ->
  moved n t (Swap t i j).
Proof.
  intros Hi Hj Hn Hx. split; [apply Swap_frame|apply Swap_perm; lia|apply Swap_indexed; [lia|lia|done]|].
  intros k Hk. rewrite Swap_lookup by lia. by repeat case_decide; [lia|lia|].
Qed.

(** [up]: only the place [j] may be before its parent. *)
Lemma up_spec n fuel : forall t j, (j < n)%nat -> (n <= length (queue t))%nat -> (j <= fuel)%nat -> indexed t ->
  (forall c, (0 < c < n)%nat -> c <> j -> edge t c) ->
  (0 < j -> forall c, (0 < c < n)%nat -> par c = j -> (dueAt t (par j) <= dueAt t c)%Z)%nat ->
  heap (up fuel t j) n /\ moved n t (up fuel t j).
Proof.
  induction fuel as [|fuel IH]; intros t j Hj Hn Hf Hx He Hg.
  - assert (j = 0)%nat as -> by lia. cbn [up]. split; [|by apply moved_refl]. intros c Hc. apply He; lia.
  - cbn [up]. fold (par j). destruct (Nat.eqb_spec (par j) j) as [Hpj|Hpj]; cbn [orb].
    { assert (j = 0)%nat as -> by (destruct j; [done|pose proof (par_lt (S j)); lia]).
      split; [|by apply moved_refl]. intros c Hc. apply He; lia. }
    assert (0 < j)%nat as Hj0 by (destruct j; [done|lia]). pose proof (par_lt j Hj0) as Hlt.
    destruct (Less t j (par j)) eqn:Hl; cbn [negb].
    + apply Less_spec in Hl. set (i := par j) in *.
      pose proof (moved_Swap n t i j ltac:(lia) Hj Hn Hx) as Hm.
      destruct (IH (Swap t i j) i) as [Hh Hm']; [lia|by rewrite Swap_length|lia|apply Hm| | |].
      * intros c Hc Hci. unfold edge. rewrite !Swap_dueAt by lia.
        destruct (decide (c = i)) as [|_]; [done|].
        destruct (decide (c = j)) as [->|Hcj].
        { fold i. destruct (decide (i = i)) as [_|]; [lia|done]. }
        pose proof (He c Hc Hcj) as Hec. unfold edge in Hec.
        destruct (decide (par c = i)) as [E|E]; [rewrite E in Hec; lia|].
        destruct (decide (par c = j)) as [E'|E']; [|done]. by apply Hg.
      * intros Hi0 c Hc Hpc. rewrite !Swap_dueAt by lia.
        pose proof (par_lt i Hi0). pose proof (par_lt c ltac:(lia)).
        destruct (decide (par i = i)); [lia|]. destruct (decide (par i = j)); [lia|].
        assert (edge t i) as Hei by (apply He; lia). unfold edge in Hei.
        destruct (decide (c = i)); [lia|]. destruct (decide (c = j)); [done|].
        pose proof (He c Hc ltac:(done)) as Hec. unfold edge in Hec. rewrite Hpc in Hec. lia.
      * split; [done|]. by eapply moved_compose.
    + apply Less_false in Hl. split; [|by apply moved_refl]. intros c Hc.
      destruct (decide (c = j)) as [->|]; [done|]. by apply He.
Qed.

(** [down]: only the children of the place [i] may be before it, and the place
    itself before its parent. *)
Lemma down_spec n fuel : forall t i, (n <= length (queue t))%nat -> (n <= i + fuel)%nat -> indexed t ->
  (forall c, (0 < c < n)%nat -> par c <> i -> c <> i -> edge t c) ->
  (0 < i -> forall c, (0 < c < n)%nat -> par c = i -> (dueAt t (par i) <= dueAt t c)%Z)%nat ->
  let r := down fuel t i n in
  moved n t r.1 /\
  if r.2 then heap r.1 n else r.1 = t /\ forall c, (0 < c < n)%nat -> c <> i -> edge t c.
Proof.
  induction fuel as [|fuel IH]; intros t i Hn Hf Hx He Hg; cbv zeta; cbn [down].
  - split; [by apply moved_refl|]. split; [done|]. intros c Hc Hci. apply He; [done| |done].
    intros E. pose proof (par_lt c). lia.
  - set (j1 := (2 * i + 1)%nat). destruct (Nat.leb_spec n j1) as [Hle|Hle].
    { split; [by apply moved_refl|]. split; [done|]. intros c Hc Hci. apply He; [done| |done].
      intros E. apply par_child in E; [|lia]. lia. }
    set (j := if (S j1 <? n)%nat && Less t (S j1) j1 then S j1 else j1).
    assert ((j < n)%nat /\ (0 < j)%nat /\ par j = i /\ forall c, (0 < c < n)%nat -> par c = i -> (dueAt t j <= dueAt t c)%Z)
      as (Hjn & Hj0 & Hpj & Hmin).
    { assert (forall c, (0 < c)%nat -> par c = i <-> c = j1 \/ c = S j1) as Hch
        by (intros c Hc; rewrite par_child by done; subst j1; lia).
      subst j. destruct (Nat.ltb_spec (S j1) n); cbn [andb]; [destruct (Less t (S j1) j1) eqn:Hl|].
      - apply Less_spec in Hl. split; [done|]. split; [lia|]. split; [apply Hch; lia|].
        intros c Hc [->| ->]%Hch; lia.
      - apply Less_false in Hl. split; [done|]. split; [lia|]. split; [apply Hch; lia|].
        intros c Hc [->| ->]%Hch; lia.
      - split; [done|]. split; [lia|]. split; [apply Hch; lia|]. intros c Hc [->| ->]%Hch; lia. }
    clearbody j. pose proof (par_lt j Hj0) as Hij. rewrite Hpj in Hij.
    destruct (Less t j i) eqn:Hl; cbn [negb].
    2: { apply Less_false in Hl. split; [by apply moved_refl|]. split; [done|]. intros c Hc Hci.
         destruct (decide (par c = i)) as [E|E]; [|by apply He]. unfold edge. rewrite E. specialize (Hmin c Hc E). lia. }
    apply Less_spec in Hl. pose proof (moved_Swap n t i j ltac:(lia) Hjn Hn Hx) as Hm.
    assert (forall k, dueAt (Swap t i j) k = if decide (k = i) then dueAt t j else if decide (k = j) then dueAt t i else dueAt t k)
      as Hd by (intros k; apply Swap_dueAt; lia).
    destruct (IH (Swap t i j) j) as [Hm' Hr]; [by rewrite Swap_length|lia|apply Hm| | |].
    + intros c Hc Hpc Hcj. unfold edge. rewrite !Hd. destruct (decide (par c = j)); [done|].
      destruct (decide (c = i)) as [->|Hci].
      * pose proof (par_lt i ltac:(lia)). destruct (decide (par i = i)); [lia|]. apply Hg; [lia|lia|done].
      * destruct (decide (c = j)); [done|]. destruct (decide (par c = i)) as [E|E]; [by apply Hmin|by apply He].
    + intros _ c Hc Hpc. rewrite !Hd, Hpj. pose proof (par_lt c ltac:(lia)).
      destruct (decide (i = i)); [|done]. destruct (decide (c = i)); [lia|]. destruct (decide (c = j)); [lia|].
      assert (edge t c) as Hec by (apply He; lia). unfold edge in Hec. by rewrite Hpc in Hec.
    + cbn [fst snd]. split; [by eapply moved_compose|]. destruct (down fuel (Swap t i j) j n) as [t' []]; [done|].
      cbn [fst snd] in *. destruct Hr as [-> Hr]. intros c Hc. destruct (decide (c = j)) as [->|]; [|by apply Hr].
      unfold edge. rewrite !Hd, Hpj. destruct (decide (i = i)); [|done]. destruct (decide (j = i)); [lia|].
      destruct (decide (j = j)); [lia|done].
Qed.

(** The first place is the soonest. *)
Lemma heap_first t n c : heap t n -> (c < n)%nat -> (dueAt t 0 <= dueAt t c)%Z.
Proof.
  intros Hh. induction c as [c IH] using lt_wf_ind. intros Hc. destruct (decide (c = 0)%nat) as [->|]; [done|].
  pose proof (par_lt c ltac:(lia)). specialize (IH (par c) ltac:(lia) ltac:(lia)).
  pose proof (Hh c ltac:(lia)) as He. unfold edge in He. lia.
Qed.

(** ** The operations of the heap *)

(** The queue is ordered, and its jobs know their places. *)
Record ordered (t : jobs) : Prop := {
  ordered_indexed : indexed t;
  ordered_heap : heap t (length (queue t));
}.

Lemma setIndex_frame t p i : frame t (setIndex t p i).
Proof. split; [done|done|]. intros q. apply setIndex_body. Qed.

Lemma place_queue t t' p : store t' = store t -> place t' p = place t p.
Proof. unfold place. by intros ->. Qed.

Lemma dueAt_eq t t' i : (forall p, body t' p = body t p) -> queue t' !! i = queue t !! i -> dueAt t' i = dueAt t i.
Proof. intros Hb Hq. unfold dueAt, at_. rewrite Hq. by apply due_body. Qed.

Lemma heap_eq t t' n : (forall p, body t' p = body t p) -> (forall i, (i < n)%nat -> queue t' !! i = queue t !! i) ->
  heap t n -> heap t' n.
Proof.
  intros Hb Hq Hh c Hc. unfold edge. pose proof (par_lt c ltac:(lia)).
  rewrite !(dueAt_eq t t') by (done || apply Hq; lia). by apply Hh.
Qed.

(** The job taken out is the one at the last place. *)
Lemma QPop_spec t n : indexed t -> length (queue t) = S n -> heap t n ->
  ordered (QPop t) /\ frame t (QPop t) /\ queue t = (queue (QPop t) ++ [at_ t n])%list /\
  place (QPop t) (at_ t n) = Some (-1)%Z.
Proof.
  intros Hx Hn Hh. unfold QPop. rewrite Hn. replace (S n - 1)%nat with n by lia. set (p := at_ t n).
  assert (queue t !! n = Some p) as Hp by (apply at_lookup; lia).
  assert (queue t = (take n (queue t) ++ [p])%list) as Hq.
  { rewrite <- (take_drop n (queue t)) at 1. f_equal. by rewrite (drop_S _ _ _ Hp), drop_ge by lia. }
  set (u := setIndex t p (-1)).
  assert (length (take n (queue t)) = n) as Hl by (rewrite length_take; lia).
  assert (forall q, place (u <| queue := take n (queue t) |>) q = place u q) as Hpl by (intros; by apply place_queue).
  split; [split|split; [|split]].
  - intros q k. cbn [queue]. change (queue (u <| queue := take n (queue t) |>)) with (take n (queue t)).
    rewrite Hpl. unfold u. rewrite setIndex_place.
    destruct (decide (q = p)) as [->|Hqp].
    + rewrite (proj1 (Hx p n) Hp). cbn. split; [|intros [= E]; lia].
      intros Hk%lookup_take_Some. destruct Hk as [Hk Hkn]. apply Hx in Hk. rewrite (proj1 (Hx p n) Hp) in Hk. simplify_eq. lia.
    + rewrite <- (Hx q k), lookup_take_Some. split; [by intros [? ?]|]. intros Hk. split; [done|].
      pose proof (lookup_lt_Some _ _ _ Hk). destruct (decide (k = n)) as [->|]; [congruence|lia].
  - change (queue (u <| queue := take n (queue t) |>)) with (take n (queue t)). rewrite Hl.
    apply (heap_eq t); [intros q; apply (setIndex_body t p (-1))| |done].
    intros i Hi. change (queue (u <| queue := take n (queue t) |>)) with (take n (queue t)). by rewrite lookup_take_lt.
  - split; [done|done|]. intros q. apply (setIndex_body t p (-1)).
  - exact Hq.
  - rewrite Hpl. unfold u. rewrite setIndex_place, decide_True by done. by rewrite (proj1 (Hx p n) Hp).
Qed.

Lemma moved_ordered t t' : heap t' (length (queue t)) -> moved (length (queue t)) t t' -> ordered t'.
Proof. intros Hh Hm. split; [apply Hm|]. by rewrite (moved_length _ _ _ Hm). Qed.

Lemma heapPush_spec t p z : ordered t -> place t p = Some z -> (z < 0)%Z ->
  ordered (heapPush t p) /\ frame t (heapPush t p) /\ queue (heapPush t p) ≡ₚ p :: queue t.
Proof.
  intros [Hx Hh] Hp Hz. unfold heapPush. set (u := QPush t p).
  assert (queue u = (queue t ++ [p])%list) as Hq by done.
  assert (length (queue u) = S (length (queue t))) as Hl by (rewrite Hq, length_app; cbn; lia).
  assert (frame t u) as Hf by (split; [done|done|]; intros q; apply setIndex_body).
  assert (indexed u) as Hxu.
  { intros q k. assert (place u q = place (setIndex t p (Z.of_nat (length (queue t)))) q) as -> by done.
    rewrite Hq, setIndex_place.
    assert (forall i, queue t !! i <> Some p) as Hout.
    { intros i Hi. apply Hx in Hi. rewrite Hp in Hi. simplify_eq. lia. }
    destruct (decide (q = p)) as [->|Hqp].
    - rewrite Hp. cbn. rewrite lookup_app_Some. split.
      + intros [Hk|[Hk Hk']]; [by apply Hout in Hk|]. apply list_lookup_singleton_Some in Hk' as [? _]. f_equal. lia.
      + intros [= E]. right. split; [lia|]. by replace (k - length (queue t))%nat with O by lia.
    - rewrite <- (Hx q k), lookup_app_Some. split; [|by left].
      intros [?|[_ Hk]]; [done|]. apply list_lookup_singleton_Some in Hk as [_ ?]. congruence. }
  rewrite Hl. replace (S (length (queue t)) - 1)%nat with (length (queue t)) by lia.
  destruct (up_spec (S (length (queue t))) (S (length (queue t))) u (length (queue t))) as [Hh' Hm]; [lia|lia|lia|done| | |].
  - intros c Hc Hcn. assert (heap u (length (queue t))) as Hu; [|apply Hu; lia].
    apply (heap_eq t); [apply Hf| |done]. intros i Hi. rewrite Hq. by rewrite lookup_app_l.
  - intros _ c Hc Hpc. apply par_child in Hpc; lia.
  - split; [apply (moved_ordered u); by rewrite Hl|]. split; [etrans; [exact Hf|apply Hm]|].
    rewrite (moved_perm _ _ _ Hm), Hq. symmetry. apply Permutation_cons_append.
Qed.

(** The order of a queue but for a place. *)
Definition orderedBut (t : jobs) (n i : nat) : Prop :=
  (forall c, (0 < c < n)%nat -> par c <> i -> c <> i -> edge t c) /\
  (0 < i -> forall c, (0 < c < n)%nat -> par c = i -> (dueAt t (par i) <= dueAt t c)%Z)%nat.

Lemma sift_spec t n i : (n <= length (queue t))%nat -> (i < n)%nat -> indexed t -> orderedBut t n i ->
  let t' := let '(t, moved) := down n t i n in if moved then t else up n t i in
  heap t' n /\ moved n t t'.
Proof.
  intros Hn Hi Hx [He Hg]. pose proof (down_spec n n t i Hn ltac:(lia) Hx He Hg) as H. cbv zeta in *.
  destruct (down n t i n) as [u m]. cbn [fst snd] in H. destruct H as [Hm Hr]. destruct m; [done|].
  destruct Hr as [-> Hr]. by apply up_spec; try lia.
Qed.

Lemma heapFix_spec t i : (i < length (queue t))%nat -> indexed t -> orderedBut t (length (queue t)) i ->
  ordered (heapFix t i) /\ frame t (heapFix t i) /\ queue (heapFix t i) ≡ₚ queue t.
Proof.
  intros Hi Hx Hb. destruct (sift_spec t (length (queue t)) i ltac:(lia) Hi Hx Hb) as [Hh Hm].
  unfold heapFix. cbv zeta in *. split; [by eapply moved_ordered|]. split; apply Hm.
Qed.

Lemma heapRemove_spec t i p : ordered t -> queue t !! i = Some p ->
  ordered (heapRemove t i) /\ frame t (heapRemove t i) /\ queue t ≡ₚ p :: queue (heapRemove t i) /\
  place (heapRemove t i) p = Some (-1)%Z.
Proof.
  intros [Hx Hh] Hp. pose proof (lookup_lt_Some _ _ _ Hp) as Hi. unfold heapRemove.
  set (n := (length (queue t) - 1)%nat). assert (length (queue t) = S n) as Hl by lia.
  assert (forall u, frame t u -> queue u ≡ₚ queue t -> indexed u -> heap u n -> queue u !! n = Some p ->
    ordered (QPop u) /\ frame t (QPop u) /\ queue t ≡ₚ p :: queue (QPop u) /\ place (QPop u) p = Some (-1)%Z) as Hpop.
  { intros u Hf Hperm Hxu Hu Hn. assert (length (queue u) = S n) as Hlu by (by rewrite Hperm).
    assert (at_ u n = p) as Ha by (unfold at_; by rewrite Hn).
    destruct (QPop_spec u n Hxu Hlu Hu) as (Ho & Hfu & Hq & Hpl). rewrite Ha in *.
    split; [done|]. split; [by etrans|]. split; [|done]. rewrite <- Hperm, Hq at 1. symmetry. apply Permutation_cons_append. }
  destruct (Nat.eqb_spec n i) as [->|Hni].
  - apply Hpop; [done|done|done| |done]. intros c Hc. apply Hh. lia.
  - pose proof (moved_Swap (S n) t i n ltac:(lia) ltac:(lia) ltac:(lia) Hx) as Hs. set (s := Swap t i n) in *.
    assert (forall k, dueAt s k = if decide (k = i) then dueAt t n else if decide (k = n) then dueAt t i else dueAt t k)
      as Hd by (intros k; apply Swap_dueAt; lia).
    destruct (sift_spec s n i) as [Hh' Hm]; [rewrite (moved_length _ _ _ Hs); lia|lia|apply Hs| |].
    { split.
      - intros c Hc Hpc Hci. unfold edge. rewrite !Hd. pose proof (par_lt c ltac:(lia)).
        repeat (case_decide; [lia|]). apply Hh. lia.
      - intros Hi0 c Hc Hpc. rewrite !Hd. pose proof (par_lt c ltac:(lia)). pose proof (par_lt i Hi0).
        repeat (case_decide; [lia|]). pose proof (Hh c ltac:(lia)) as He1. pose proof (Hh i ltac:(lia)) as He2.
        unfold edge in He1, He2. rewrite Hpc in He1. lia. }
    cbv zeta in *. apply Hpop; [| | |done|].
    + etrans; [apply Hs|apply Hm].
    + rewrite (moved_perm _ _ _ Hm). apply Hs.
    + apply Hm.
    + rewrite (moved_after _ _ _ Hm) by lia. unfold s. rewrite Swap_lookup by lia.
      rewrite decide_False, decide_True by done. f_equal. unfold at_. by rewrite Hp.
Qed.

Lemma heapPop_spec t p : ordered t -> head (queue t) = Some p ->
  ordered (heapPop t) /\ frame t (heapPop t) /\ queue t ≡ₚ p :: queue (heapPop t) /\ place (heapPop t) p = Some (-1)%Z.
Proof.
  intros Ho Hp. assert (queue t !! O = Some p) as H0 by (destruct (queue t); [done|exact Hp]).
  destruct (decide (length (queue t) = 1)%nat) as [Hl|Hl].
  - (* one job: the pop and the removal are the same *)
    assert (heapPop t = QPop (Swap t 0 0)) as -> by (unfold heapPop; rewrite Hl; done).
    destruct Ho as [Hx Hh]. pose proof (moved_Swap 1 t 0 0 ltac:(lia) ltac:(lia) ltac:(lia) Hx) as Hs.
    assert (at_ (Swap t 0 0) 0 = p) as Ha by (rewrite Swap_at by lia; cbn; unfold at_; by rewrite H0).
    destruct (QPop_spec (Swap t 0 0) 0) as (Ho' & Hf & Hq & Hpl); [apply Hs|by rewrite (moved_length _ _ _ Hs)|intros c Hc; lia|].
    rewrite Ha in *. split; [done|]. split; [etrans; [apply Hs|done]|]. split; [|done].
    rewrite <- (moved_perm _ _ _ Hs), Hq at 1. symmetry. apply Permutation_cons_append.
  - destruct (heapRemove_spec t 0 p Ho H0) as (H1 & H2 & H3 & H4).
    assert (heapPop t = heapRemove t 0) as ->; [|done].
    pose proof (lookup_lt_Some _ _ _ H0). unfold heapPop, heapRemove. set (n := (length (queue t) - 1)%nat).
    replace (n =? 0)%nat with false by (symmetry; apply Nat.eqb_neq; lia).
    destruct (down n (Swap t 0 n) 0 n) as [u m] eqn:Hd. cbn [fst]. destruct m; [done|].
    f_equal. destruct n; done.
Qed.

(** ** The jobs *)

Definition entryOf (t : jobs) (p : N) : option sched.Entry := fst <$> body t p.

Definition pathOf (e : sched.Entry) : naming.Path := sched.Path_ e.
Definition keyOf (e : sched.Entry) : string := sched.Key_ (sched.Config_ e).

(** What holds of the jobs between two operations: the queue is ordered, a pointer
    known by a path and a key is to a job of an entry of theirs, the jobs of the
    queue are known, and new pointers are new. *)
Record wf (t : jobs) : Prop := {
  wf_ordered : ordered t;
  wf_keys : forall path key p, get t path key = Some p ->
    exists e, entryOf t p = Some e /\ pathOf e = path /\ keyOf e = key;
  wf_known : forall p, p ∈ queue t -> exists path key, get t path key = Some p;
  wf_fresh : forall p, is_Some (store t !! p) -> (p < fresh t)%N;
}.

(** The entry a key is planned with: the jobs as a map. *)
Definition planned (t : jobs) (path : naming.Path) (key : string) : option sched.Entry :=
  p ← get t path key; if decide (p ∈ queue t) then entryOf t p else None.

(** The entry of a job, planned or not. *)
Definition known (t : jobs) (path : naming.Path) (key : string) : option sched.Entry := p ← get t path key; entryOf t p.

Lemma planned_spec t path key e :
  planned t path key = Some e <-> exists p, get t path key = Some p /\ p ∈ queue t /\ entryOf t p = Some e.
Proof.
  unfold planned. destruct (get t path key) as [p|]; cbn.
  - case_decide; [split; [by exists p|by intros (? & [= <-] & _ & ?)]|split; [done|by intros (? & [= <-] & ? & _)]].
  - split; [done|by intros (? & ? & _)].
Qed.

Lemma frame_get t t' path key : frame t t' -> get t' path key = get t path key.
Proof. intros Hf. unfold get. by rewrite (frame_byPath _ _ Hf). Qed.

Lemma frame_entryOf t t' p : frame t t' -> entryOf t' p = entryOf t p.
Proof. intros Hf. unfold entryOf. by rewrite (frame_body _ _ Hf). Qed.

Lemma frame_store t t' p : frame t t' -> is_Some (store t' !! p) <-> is_Some (store t !! p).
Proof.
  intros Hf. pose proof (frame_body _ _ Hf p) as Hb. unfold body in Hb.
  destruct (store t' !! p), (store t !! p); cbn in Hb; simplify_eq; split; intros [? ?]; simplify_eq; eauto.
Qed.

(** The operations of the heap keep the jobs, but for their places. *)
Lemma wf_frame t t' : wf t -> frame t t' -> ordered t' -> (forall p, p ∈ queue t' -> exists path key, get t path key = Some p) ->
  wf t'.
Proof.
  intros [_ Hk _ Hn] Hf Ho Hq. split; [done| | |].
  - intros path key p Hp. rewrite (frame_get _ _ _ _ Hf) in Hp. rewrite (frame_entryOf _ _ _ Hf). by apply Hk.
  - intros p Hp. destruct (Hq p Hp) as (path & key & ?). exists path, key. by rewrite (frame_get _ _ _ _ Hf).
  - intros p Hp. rewrite (frame_fresh _ _ Hf). apply Hn. by apply (frame_store t t').
Qed.

(** A pointer is known by one path and key. *)
Lemma get_inj t path key path' key' p : wf t ->
  get t path key = Some p -> get t path' key' = Some p -> path' = path /\ key' = key.
Proof.
  intros Hw H1 H2. destruct (wf_keys _ Hw _ _ _ H1) as (e & He & ? & ?).
  destruct (wf_keys _ Hw _ _ _ H2) as (e' & He' & ? & ?). rewrite He in He'. simplify_eq. by subst.
Qed.

Lemma newJobs_wf : wf newJobs.
Proof.
  split; [split| | |].
  - intros p i. unfold newJobs, place. cbn. rewrite lookup_empty. cbn. by rewrite lookup_nil.
  - intros c Hc. cbn in Hc. lia.
  - intros path key p H. unfold get, newJobs in H. cbn in H. by rewrite lookup_empty in H.
  - by intros p ?%elem_of_nil.
  - intros p. cbn. rewrite lookup_empty. by intros [? ?].
Qed.

Lemma purge_wf t : wf (purge t).
Proof.
  split; [split| | |].
  - intros p i. unfold purge, place. cbn. rewrite lookup_empty. cbn. by rewrite lookup_nil.
  - intros c Hc. cbn in Hc. lia.
  - intros path key p H. unfold get, purge in H. cbn in H. by rewrite lookup_empty in H.
  - by intros p ?%elem_of_nil.
  - intros p. cbn. rewrite lookup_empty. by intros [? ?].
Qed.

Lemma purge_planned t path key : planned (purge t) path key = None.
Proof. unfold planned, get, purge. cbn. by rewrite lookup_empty. Qed.

(** *** [set] *)

Lemma pointer_spec t e now : wf t -> let '(t', p) := pointer t e now in
  ordered t' /\ queue t' = queue t /\ get t' (pathOf e) (keyOf e) = Some p /\ is_Some (store t' !! p) /\
  (forall z, place t' p = Some z -> (z < 0)%Z -> p ∉ queue t) /\
  (forall q, q <> p -> body t' q = body t q) /\
  (forall path key, (path, key) <> (pathOf e, keyOf e) ->
     get t' path key = get t path key /\ get t' path key <> Some p) /\
  (get t (pathOf e) (keyOf e) = Some p \/ get t (pathOf e) (keyOf e) = None /\ p ∉ queue t) /\
  (forall q, is_Some (store t' !! q) -> (q < fresh t')%N).
Proof.
  intros Hw. pose proof Hw as [[Hx Hh] Hk Hq Hn]. unfold pointer. fold (pathOf e) (keyOf e).
  assert (forall p z, place t p = Some z -> (z < 0)%Z -> p ∉ queue t) as Hout.
  { intros p z Hp Hz [i Hi]%list_elem_of_lookup. apply Hx in Hi. rewrite Hp in Hi. simplify_eq. lia. }
  destruct (get t (pathOf e) (keyOf e)) as [p|] eqn:Hg.
  - split_and!; try done; [|by apply Hout| |by left].
    + destruct (Hk _ _ _ Hg) as (e' & He & _). unfold entryOf, body in He. destruct (store t !! p); [eauto|done].
    + intros path key Hne. split; [done|]. intros Hp. destruct (get_inj t _ _ _ _ p Hw Hg Hp) as [-> ->]. done.
  - set (p := fresh t). assert (store t !! p = None) as Hp.
    { destruct (store t !! p) eqn:E; [|done]. pose proof (Hn p ltac:(eauto)). subst p. lia. }
    assert (p ∉ queue t) as Hpq.
    { intros [i Hi]%list_elem_of_lookup. apply Hx in Hi. unfold place in Hi. by rewrite Hp in Hi. }
    cbv zeta. set (t' := _ <| fresh ::= _ |>).
    assert (forall q, store t' !! q = if decide (q = p) then Some (mkJob e now (-1)) else store t !! q) as Hs.
    { intros q. change (store t') with (<[p := mkJob e now (-1)]> (store t)).
      case_decide; [subst q; apply lookup_insert_eq|by apply lookup_insert_ne]. }
    assert (forall q, q <> p -> body t' q = body t q) as Hb.
    { intros q Hqp. unfold body. by rewrite Hs, decide_False. }
    assert (forall q, place t' q = if decide (q = p) then Some (-1)%Z else place t q) as Hpl.
    { intros q. unfold place. rewrite Hs. by case_decide. }
    assert (forall path key, get t' path key = if decide ((path, key) = (pathOf e, keyOf e)) then Some p else get t path key) as Hgt.
    { intros path key. unfold get.
      change (byPath t') with (partial_alter (fun m => Some (<[keyOf e := p]> (default ∅ m))) (pathOf e) (byPath t)).
      destruct (decide (path = pathOf e)) as [->|Hpath].
      - rewrite lookup_partial_alter_eq. cbn. destruct (decide (key = keyOf e)) as [->|Hkey].
        + rewrite lookup_insert_eq, decide_True by done. done.
        + rewrite lookup_insert_ne by done. rewrite decide_False by congruence.
          destruct (byPath t !! pathOf e); [done|]. cbn. by rewrite lookup_empty.
      - rewrite lookup_partial_alter_ne by done. by rewrite decide_False by congruence. }
    split_and!.
    + split.
      * intros q i. change (queue t') with (queue t). rewrite Hpl. case_decide as Hqp.
        -- subst q. split; [intros Hi; exfalso; apply Hpq; by eapply list_elem_of_lookup_2|intros [= E]; lia].
        -- apply Hx.
      * change (queue t') with (queue t). intros c Hc. pose proof (par_lt c ltac:(lia)). unfold edge.
        assert (forall i, (i < length (queue t))%nat -> dueAt t' i = dueAt t i) as Hd.
        { intros i Hi. unfold dueAt, at_. change (queue t') with (queue t).
          destruct (lookup_lt_is_Some_2 _ _ Hi) as [q Hq']. rewrite Hq'. cbn. apply due_body, Hb.
          intros ->. apply Hpq. by eapply list_elem_of_lookup_2. }
        rewrite !Hd by lia. by apply Hh.
    + done.
    + by rewrite Hgt, decide_True.
    + rewrite Hs, decide_True by done. eauto.
    + intros z Hz _. done.
    + done.
    + intros path key Hne. rewrite Hgt, decide_False by done. split; [done|]. intros Hp'.
      destruct (Hk _ _ _ Hp') as (e' & He & _). unfold entryOf, body in He. by rewrite Hp in He.
    + by right.
    + intros q. rewrite Hs. change (fresh t') with (N.succ (fresh t)). case_decide; [subst q p; lia|].
      intros Hq'. specialize (Hn q Hq'). lia.
Qed.

(** The entry of a job is replaced; only its place may be out of order. *)
Lemma update_spec t p e : ordered t -> is_Some (store t !! p) ->
  let u := t <| store ::= alter (fun j => j <| entry := e |>) p |> in
  indexed u /\ (forall q, place u q = place t q) /\ entryOf u p = Some e /\
  (forall q, q <> p -> body u q = body t q) /\
  (p ∉ queue t -> ordered u) /\ (forall i, queue t !! i = Some p -> orderedBut u (length (queue u)) i) /\
  (forall q, is_Some (store u !! q) <-> is_Some (store t !! q)).
Proof.
  intros [Hx Hh] [j Hj] u.
  assert (forall q, store u !! q = if decide (q = p) then Some (j <| entry := e |>) else store t !! q) as Hs.
  { intros q. change (store u) with (alter (fun j => j <| entry := e |>) p (store t)).
    case_decide; [subst q; by rewrite lookup_alter_eq, Hj|by apply lookup_alter_ne]. }
  assert (forall q, place u q = place t q) as Hpl.
  { intros q. unfold place. rewrite Hs. case_decide; [subst q; by rewrite Hj|done]. }
  assert (forall q, q <> p -> body u q = body t q) as Hb.
  { intros q Hq. unfold body. by rewrite Hs, decide_False. }
  assert (indexed u) as Hxu by (intros q i; rewrite Hpl; apply Hx).
  assert (forall i, (i < length (queue t))%nat -> queue t !! i <> Some p -> dueAt u i = dueAt t i) as Hd.
  { intros i Hi Hip. unfold dueAt, at_. change (queue u) with (queue t).
    destruct (lookup_lt_is_Some_2 _ _ Hi) as [q Hq]. rewrite Hq in *. cbn. apply due_body, Hb. congruence. }
  split; [done|]. split; [done|]. split; [unfold entryOf, body; by rewrite Hs, decide_True|]. split; [done|]. split_and!.
  - intros Hp. split; [done|]. change (queue u) with (queue t). intros c Hc. pose proof (par_lt c ltac:(lia)). unfold edge.
    rewrite !Hd by (lia || (intros ?%list_elem_of_lookup_2; done)). by apply Hh.
  - intros i Hi. change (queue u) with (queue t).
    assert (forall k, k <> i -> queue t !! k <> Some p) as Hk.
    { intros k Hk Hkp. apply Hx in Hi, Hkp. rewrite Hi in Hkp. injection Hkp as E. lia. }
    split.
    + intros c Hc Hpc Hci. pose proof (par_lt c ltac:(lia)). unfold edge.
      rewrite !Hd by (lia || by apply Hk). by apply Hh.
    + intros Hi0 c Hc Hpc. pose proof (par_lt c ltac:(lia)). pose proof (par_lt i ltac:(lia)).
      pose proof (lookup_lt_Some _ _ _ Hi). rewrite !Hd by (lia || (apply Hk; lia)).
      pose proof (Hh c ltac:(lia)) as E1. pose proof (Hh i ltac:(lia)) as E2. unfold edge in E1, E2. rewrite Hpc in E1. lia.
  - intros q. rewrite Hs. case_decide; [subst q; rewrite Hj; by split; eauto|done].
Qed.

(** The place of a job in the queue: a new one, or a new time for the job of a place. *)
Lemma sink_spec u p : indexed u -> is_Some (store u !! p) ->
  (forall z, place u p = Some z -> (z < 0)%Z -> p ∉ queue u) -> (p ∉ queue u -> ordered u) ->
  (forall i, queue u !! i = Some p -> orderedBut u (length (queue u)) i) ->
  let i := match store u !! p with Some j => index j | None => (-1)%Z end in
  let t' := if (i <? 0)%Z then heapPush u p else heapFix u (Z.to_nat i) in
  ordered t' /\ frame u t' /\ forall q, q ∈ queue t' <-> q = p \/ q ∈ queue u.
Proof.
  intros Hx [j Hj] Hneg Hout Hin. cbv zeta. rewrite Hj.
  assert (place u p = Some (index j)) as Hpj by (unfold place; by rewrite Hj).
  destruct (Z.ltb_spec (index j) 0) as [Hlt|Hpos].
  - destruct (heapPush_spec u p (index j)) as (? & ? & Hperm); [apply Hout; by eapply Hneg|done|done|].
    split; [done|]. split; [done|]. intros q. by rewrite Hperm, elem_of_cons.
  - assert (queue u !! Z.to_nat (index j) = Some p) as Hi by (apply Hx; rewrite Hpj; f_equal; lia).
    destruct (heapFix_spec u (Z.to_nat (index j))) as (? & ? & Hperm); [by eapply lookup_lt_Some|done|by apply Hin|].
    split; [done|]. split; [done|]. intros q. rewrite Hperm. split; [by right|].
    intros [->|?]; [by eapply list_elem_of_lookup_2|done].
Qed.

(** Planning an entry: its key is planned with it, the others as they were. *)
Lemma set_spec t e now : wf t ->
  wf (set t e now) /\
  (forall path key, planned (set t e now) path key =
    if decide ((path, key) = (pathOf e, keyOf e)) then Some e else planned t path key) /\
  (forall path key, known (set t e now) path key =
    if decide ((path, key) = (pathOf e, keyOf e)) then Some e else known t path key) /\
  (forall path key, (path, key) <> (pathOf e, keyOf e) -> get (set t e now) path key = get t path key).
Proof.
  intros Hw. unfold set. pose proof (pointer_spec t e now Hw) as H. destruct (pointer t e now) as [t1 p].
  destruct H as (Ho & Hq & Hg & Hs & Hneg & Hb & Hgets & Hold & Hn).
  destruct (update_spec t1 p e Ho Hs) as (Hx & Hpl & He & Hbu & Hout & Hin & Hst).
  set (u := t1 <| store ::= alter (fun j => j <| entry := e |>) p |>) in *. cbv zeta.
  assert (queue u = queue t) as Hqu by exact Hq.
  destruct (sink_spec u p Hx (proj2 (Hst p) Hs)) as (Ho' & Hf & Hmem);
    [intros z Hz; rewrite Hqu; apply Hneg; by rewrite <- Hpl|rewrite Hqu, <- Hq; exact Hout|exact Hin|]. cbv zeta in *.
  set (t' := if (_ <? 0)%Z then _ else _) in *. clearbody t'. rewrite Hqu in Hmem.
  assert (forall path key, get t' path key = get t1 path key) as Hg' by (intros; apply (frame_get u t' path key Hf)).
  assert (entryOf t' p = Some e) as He' by (by rewrite (frame_entryOf u t' p Hf)).
  assert (forall q, q <> p -> entryOf t' q = entryOf t q) as Hee.
  { intros q Hqp. rewrite (frame_entryOf u t' q Hf). unfold entryOf. by rewrite Hbu, Hb. }
  split; [|split; [|split; [|intros path key Hne; rewrite Hg'; by apply Hgets]]].
  - split; [done| | |].
    + intros path key q Hp. rewrite Hg' in Hp. destruct (decide ((path, key) = (pathOf e, keyOf e))) as [[= -> ->]|Hne].
      * rewrite Hg in Hp. simplify_eq. by exists e.
      * destruct (Hgets path key Hne) as [Hsame Hnp]. rewrite Hp in Hnp. rewrite Hee by congruence.
        rewrite Hsame in Hp. by apply (wf_keys _ Hw).
    + intros q Hqm. apply Hmem in Hqm. destruct (decide (q = p)) as [->|Hne]; [exists (pathOf e), (keyOf e); by rewrite Hg'|].
      destruct Hqm as [?|Hqm]; [done|]. destruct (wf_known _ Hw q Hqm) as (path & key & Hk). exists path, key.
      rewrite Hg'. destruct (decide ((path, key) = (pathOf e, keyOf e))) as [[= -> ->]|Hne'];
        [destruct Hold as [Hold|[Hold _]]; congruence|by rewrite (proj1 (Hgets path key Hne'))].
    + intros q Hq'. rewrite (frame_fresh _ _ Hf). apply Hn. by apply Hst, (frame_store u t' q Hf).
  - intros path key. apply option_eq. intros e'. rewrite planned_spec. case_decide as Hd.
    + injection Hd as -> ->. rewrite Hg', Hg. split; [intros (q & [= <-] & _ & Hq'); congruence|].
      intros [= <-]. exists p. split; [done|]. split; [|done]. apply Hmem. by left.
    + rewrite planned_spec. destruct (Hgets path key Hd) as [Hsame Hnp]. rewrite Hg', Hsame.
      split; intros (q & Hgq & Hqm & Heq); exists q; (split; [done|]);
        assert (q <> p) as Hqp by congruence; rewrite Hee in * by done; (split; [|done]).
      * apply Hmem in Hqm as [?|?]; done.
      * apply Hmem. by right.
  - intros path key. unfold known. case_decide as Hd; [injection Hd as -> ->; by rewrite Hg', Hg|].
    destruct (Hgets path key Hd) as [Hsame Hnp]. rewrite Hg', Hsame.
    destruct (get t path key) as [q|] eqn:Hgq; [|done]. cbn. apply Hee. congruence.
Qed.

(** *** [del] and [popDue] *)

(** A job leaves the queue, where it is in it. *)
Lemma leave_spec t p : ordered t -> is_Some (store t !! p) ->
  let i := match store t !! p with Some j => index j | None => (-1)%Z end in
  let u := if (0 <=? i)%Z then heapRemove t (Z.to_nat i) else t in
  ordered u /\ frame t u /\ forall q, q ∈ queue u <-> q ∈ queue t /\ q <> p.
Proof.
  intros Hw [j Hj]. cbv zeta. rewrite Hj. assert (place t p = Some (index j)) as Hpj by (unfold place; by rewrite Hj).
  destruct (Z.leb_spec 0 (index j)) as [Hpos|Hneg].
  - assert (queue t !! Z.to_nat (index j) = Some p) as Hi by (apply (ordered_indexed _ Hw); rewrite Hpj; f_equal; lia).
    destruct (heapRemove_spec t _ p Hw Hi) as (Ho & Hf & Hperm & Hpl). split; [done|]. split; [done|].
    intros q. rewrite Hperm, elem_of_cons. split; [|by intros [[?|?] ?]].
    intros Hqm. split; [by right|]. intros ->. apply list_elem_of_lookup in Hqm as [i Hqm].
    apply (ordered_indexed _ Ho) in Hqm. rewrite Hpl in Hqm. simplify_eq. lia.
  - split; [done|]. split; [done|]. intros q. split; [|by intros [? _]]. intros Hqm. split; [done|]. intros ->.
    apply list_elem_of_lookup in Hqm as [i Hqm]. apply (ordered_indexed _ Hw) in Hqm. rewrite Hpj in Hqm. injection Hqm as E. lia.
Qed.

(** The pointer of a key is forgotten. *)
Lemma forget_get u path key path' key' :
  get (u <| byPath ::= fun b =>
             match b !! path with
             | None => b
             | Some m => let m := delete key m in if decide (m = ∅) then delete path b else <[path := m]> b
             end |>) path' key' =
  if decide ((path', key') = (path, key)) then None else get u path' key'.
Proof.
  unfold get. cbn. destruct (byPath u !! path) as [m|] eqn:Hm.
  2: { case_decide as Hd; [|done]. injection Hd as -> ->. by rewrite Hm. }
  destruct (decide (path' = path)) as [->|Hne].
  - rewrite Hm. cbn. destruct (decide (key' = key)) as [->|Hnk].
    + rewrite (decide_True (P := (path, key) = (path, key))) by done.
      case_decide; [by rewrite lookup_delete_eq|]. rewrite lookup_insert_eq. cbn. by rewrite lookup_delete_eq.
    + rewrite (decide_False (P := (path, key') = (path, key))) by congruence.
      rewrite <- (lookup_delete_ne m key key') by done. case_decide as Hd.
      * rewrite lookup_delete_eq, Hd. by rewrite lookup_empty.
      * by rewrite lookup_insert_eq.
  - rewrite (decide_False (P := (path', key') = (path, key))) by congruence.
    case_decide; [by rewrite lookup_delete_ne|by rewrite lookup_insert_ne].
Qed.

(** Unplanning a key: it has no job, the others are as they were. *)
Lemma del_spec t path key : wf t ->
  wf (del t path key) /\
  (forall path' key', planned (del t path key) path' key' =
     if decide ((path', key') = (path, key)) then None else planned t path' key') /\
  (forall path' key', known (del t path key) path' key' =
     if decide ((path', key') = (path, key)) then None else known t path' key') /\
  (forall path' key', (path', key') <> (path, key) -> get (del t path key) path' key' = get t path' key').
Proof.
  intros Hw. pose proof Hw as [Hxh Hk Hq Hn]. unfold del. destruct (get t path key) as [p|] eqn:Hg.
  2: { split; [done|]. split; [|split; [|done]]; intros path' key'; (case_decide as Hd; [|done]); injection Hd as -> ->;
       unfold planned, known; by rewrite Hg. }
  destruct (Hk _ _ _ Hg) as (e & He & _ & _). assert (is_Some (store t !! p)) as Hj.
  { unfold entryOf, body in He. by destruct (store t !! p). }
  destruct (leave_spec t p Hxh Hj) as (Ho & Hf & Hmem). cbv zeta in *. set (u := if (0 <=? _)%Z then _ else t) in *. clearbody u.
  set (v := u <| byPath ::= _ |>).
  assert (forall path' key', get v path' key' = if decide ((path', key') = (path, key)) then None else get t path' key') as Hgv.
  { intros path' key'. unfold v. rewrite forget_get. by rewrite (frame_get _ _ _ _ Hf). }
  assert (forall q, entryOf v q = entryOf t q) as Hev by (intros q; apply (frame_entryOf t u q Hf)).
  assert (ordered v) as Hov by (destruct Ho as [Hi Hhe]; split; [exact Hi|exact Hhe]).
  split; [|split; [|split; [|intros path' key' Hne; by rewrite Hgv, decide_False]]].
  - split; [done| | |].
    + intros path' key' q Hq'. rewrite Hgv in Hq'. case_decide; [done|]. rewrite Hev. by apply Hk.
    + intros q Hqm. apply Hmem in Hqm as [Hqm Hqp]. destruct (Hq q Hqm) as (path' & key' & Hgq). exists path', key'.
      rewrite Hgv. case_decide as Hd; [|done]. injection Hd as -> ->. congruence.
    + intros q Hq'. change (fresh v) with (fresh u). rewrite (frame_fresh _ _ Hf). apply Hn. by apply (frame_store t u q Hf).
  - intros path' key'. unfold planned. rewrite Hgv. case_decide as Hd; [done|].
    destruct (get t path' key') as [q|] eqn:Hgq; [|done]. cbn. rewrite Hev.
    assert (q <> p) as Hqp by (intros ->; destruct (get_inj t _ _ _ _ p Hw Hg Hgq); congruence).
    change (queue v) with (queue u). repeat case_decide; try done; exfalso; rewrite Hmem in *; naive_solver.
  - intros path' key'. unfold known. rewrite Hgv. case_decide as Hd; [done|]. destruct (get t path' key') as [q|]; [apply Hev|done].
Qed.

Lemma known_get t path key : wf t -> is_Some (known t path key) <-> is_Some (get t path key).
Proof.
  intros Hw. unfold known. destruct (get t path key) as [p|] eqn:Hg; [|by split; intros []]. cbn.
  destruct (wf_keys _ Hw _ _ _ Hg) as (e & He & _). rewrite He. by split; eauto.
Qed.

Lemma known_key t path key e : wf t -> known t path key = Some e -> pathOf e = path /\ keyOf e = key.
Proof.
  intros Hw. unfold known. destruct (get t path key) as [p|] eqn:Hg; [|done]. cbn.
  intros He. destruct (wf_keys _ Hw _ _ _ Hg) as (e' & He' & ? & ?). rewrite He in He'. by simplify_eq.
Qed.

Lemma planned_known t path key e : planned t path key = Some e -> known t path key = Some e.
Proof. unfold planned, known. destruct (get t path key); [|done]. cbn. by case_decide. Qed.

Lemma elem_of_keys t path key : key ∈ keys t path <-> is_Some (get t path key).
Proof.
  unfold keys, get. rewrite list_elem_of_fmap. destruct (byPath t !! path) as [m|]; cbn.
  - split; [intros ([k p] & -> & Hin); apply elem_of_map_to_list in Hin; by exists p|].
    intros [p Hp]. exists (key, p). split; [done|]. by apply elem_of_map_to_list.
  - rewrite map_to_list_empty. split; [intros (? & _ & H); by apply elem_of_nil in H|by intros []].
Qed.

Lemma delKeys_spec path l : forall t, wf t -> let t' := foldl (fun t key => del t path key) t l in
  wf t' /\ forall path' key', known t' path' key' =
    if decide (path' = path /\ key' ∈ l) then None else known t path' key'.
Proof.
  induction l as [|k l IH]; intros t Hw; cbn; [split; [done|]; intros path' key'; by case_decide as Hd; [destruct Hd as [_ ?%elem_of_nil]|]|].
  destruct (del_spec t path k Hw) as (Hw' & _ & Hk & _). destruct (IH _ Hw') as [Hw'' Hk']. split; [done|].
  intros path' key'. rewrite Hk', Hk. repeat case_decide; try done; set_solver.
Qed.

Lemma delPath_spec t path : wf t ->
  wf (delPath t path) /\ forall path' key', known (delPath t path) path' key' = if decide (path' = path) then None else known t path' key'.
Proof.
  intros Hw. unfold delPath. destruct (delKeys_spec path (keys t path) t Hw) as [Hw' Hk]. split; [done|].
  intros path' key'. rewrite Hk. case_decide as Hd; case_decide as Hp; try done; [by destruct Hd|]. subst path'.
  destruct (known t path key') as [e|] eqn:He; [|done]. exfalso. apply Hd. split; [done|]. apply elem_of_keys, known_get; [done|by exists e].
Qed.

(** The first job is the soonest of the ones planned. *)
Lemma first_soonest t j path key e : wf t -> first t = Some j -> planned t path key = Some e ->
  (sched.NextRunAt (entry j) <= sched.NextRunAt e)%Z.
Proof.
  intros [[Hx Hh] _ _ _] Hf Hp. unfold first in Hf. apply planned_spec in Hp as (p' & _ & Hin & He).
  apply list_elem_of_lookup in Hin as [i Hi].
  pose proof (heap_first t _ i Hh (lookup_lt_Some _ _ _ Hi)) as Hle. unfold dueAt, at_ in Hle. rewrite Hi in Hle.
  destruct (queue t) as [|p q]; [done|]. cbn in Hf, Hle. unfold due in Hle. rewrite Hf in Hle.
  unfold entryOf, body in He. destruct (store t !! p') as [j'|]; [|done]. cbn in He. simplify_eq. exact Hle.
Qed.

Lemma first_none t path key : wf t -> head (queue t) = None -> planned t path key = None.
Proof.
  intros Hw Hq. destruct (queue t) eqn:E; [|done]. unfold planned. rewrite E.
  destruct (get t path key); [|done]. cbn. by rewrite decide_False by apply not_elem_of_nil.
Qed.

(** The jobs taken out: the ones due, the soonest first. *)
Lemma popDueN_spec fuel now : forall t, wf t -> (length (queue t) <= fuel)%nat ->
  let '(t', l) := popDueN fuel t now in
  wf t' /\ frame t t' /\ queue t ≡ₚ l ++ queue t' /\
  (forall p, p ∈ l -> (due t p <= now)%Z) /\ (forall p, p ∈ queue t' -> (now < due t p)%Z) /\
  StronglySorted (fun p q => (due t p <= due t q)%Z) l.
Proof.
  induction fuel as [|fuel IH]; intros t Hw Hl; cbn [popDueN].
  - destruct (queue t) as [|p q] eqn:Hq; [|cbn in Hl; lia].
    split_and!; [done|done|done|by intros ? ?%elem_of_nil|by intros ? ?%elem_of_nil|constructor].
  - destruct (head (queue t)) as [p|] eqn:Hp.
    2: { destruct (queue t) as [|p q] eqn:Hq; [|done].
      split_and!; [done|done|done|by intros ? ?%elem_of_nil|by intros ? ?%elem_of_nil|constructor]. }
    assert (forall q, q ∈ queue t -> (due t p <= due t q)%Z) as Hmin.
    { intros q [i Hi]%list_elem_of_lookup. destruct Hw as [[_ Hh] _ _ _].
      pose proof (heap_first t _ i Hh (lookup_lt_Some _ _ _ Hi)) as Hle. unfold dueAt, at_ in Hle.
      rewrite Hi in Hle. destruct (queue t); [done|]. cbn in Hp. by simplify_eq. }
    destruct (time.After (due t p) now) eqn:Ha.
    + apply time.After_spec in Ha. split_and!; [done|done|done|by intros ? ?%elem_of_nil| |constructor].
      intros q Hq. specialize (Hmin q Hq). lia.
    + apply time.After_false in Ha. destruct (heapPop_spec t p (wf_ordered _ Hw) Hp) as (Ho & Hf & Hperm & _).
      assert (wf (heapPop t)) as Hw'.
      { apply (wf_frame t); [done|done|done|]. intros q Hq. apply (wf_known _ Hw). rewrite Hperm. by right. }
      assert (length (queue t) = S (length (queue (heapPop t)))) as Hlen by (by rewrite Hperm).
      specialize (IH (heapPop t) Hw' ltac:(lia)). destruct (popDueN fuel (heapPop t) now) as [t' l].
      destruct IH as (Hw'' & Hf' & Hq' & Hdl & Hdq & Hsort).
      assert (forall q, due (heapPop t) q = due t q) as Hd by (intros q; apply due_body, Hf).
      split; [done|]. split; [by etrans|]. split; [by rewrite Hperm, Hq'|]. split; [|split].
      * intros q [->|Hin]%elem_of_cons; [lia|]. rewrite <- Hd. by apply Hdl.
      * intros q Hin. rewrite <- Hd. by apply Hdq.
      * constructor.
        -- clear -Hsort Hd. induction Hsort as [|a l Hs IHs Ha]; constructor; [done|].
           eapply Forall_impl; [exact Ha|]. intros b Hb. cbv beta in *. by rewrite !Hd in Hb.
        -- apply Forall_forall. intros q Hin. apply Hmin. rewrite Hperm, Hq'. right. apply elem_of_app. by left.
Qed.

(** C32: The queue of the jobs is a map from the keys to the planned entries.  Planning an
    entry sets its key and no other, unplanning a key removes it and no other, and
    popDue takes out exactly the entries due, the soonest first; each operation keeps
    the heap ordered and the places the jobs know. *)
Theorem jobs_refine t : wf t ->
  (forall e now, wf (set t e now) /\ forall path key, planned (set t e now) path key =
     if decide ((path, key) = (pathOf e, keyOf e)) then Some e else planned t path key) /\
  (forall path key, wf (del t path key) /\ forall path' key', planned (del t path key) path' key' =
     if decide ((path', key') = (path, key)) then None else planned t path' key') /\
  (forall now, let '(t', l) := popDue t now in
     wf t' /\ StronglySorted (fun p q => (due t p <= due t q)%Z) l /\
     (forall path key e, planned t' path key = Some e <-> planned t path key = Some e /\ (now < sched.NextRunAt e)%Z) /\
     (forall path key p, get t path key = Some p -> p ∈ l <-> exists e, planned t path key = Some e /\ (sched.NextRunAt e <= now)%Z)).
Proof.
  intros Hw. split; [intros e now; destruct (set_spec t e now Hw) as (? & ? & _); done|]. split.
  { intros path key. destruct (del_spec t path key Hw) as (? & ? & _). done. }
  intros now. unfold popDue. pose proof (popDueN_spec (length (queue t)) now t Hw ltac:(lia)) as H.
  destruct (popDueN _ t now) as [t' l]. destruct H as (Hw' & Hf & Hq & Hl & Hq' & Hs). split; [done|]. split; [done|].
  assert (forall p e, entryOf t p = Some e -> due t p = sched.NextRunAt e) as Hdue.
  { intros p e He. unfold entryOf, body in He. unfold due. destruct (store t !! p); [|done]. cbn in He. by simplify_eq. }
  assert (forall p, p ∈ queue t <-> p ∈ l \/ p ∈ queue t') as Hin by (intros p; by rewrite Hq, elem_of_app).
  split.
  - intros path key e. rewrite !planned_spec. split.
    + intros (p & Hg & Hp & He). rewrite (frame_get _ _ _ _ Hf) in Hg. rewrite (frame_entryOf _ _ _ Hf) in He.
      rewrite <- (Hdue p e He). split; [|by apply Hq']. exists p. split; [done|]. split; [|done]. apply Hin. by right.
    + intros [(p & Hg & Hp & He) Hlt]. exists p. rewrite (frame_get _ _ _ _ Hf), (frame_entryOf _ _ _ Hf).
      split; [done|]. split; [|done]. apply Hin in Hp as [Hp|?]; [|done]. apply Hl in Hp. rewrite (Hdue p e He) in Hp. lia.
  - intros path key p Hg. split.
    + intros Hp. destruct (wf_keys _ Hw _ _ _ Hg) as (e & He & _). exists e. rewrite planned_spec. split.
      * exists p. split; [done|]. split; [|done]. apply Hin. by left.
      * rewrite <- (Hdue p e He). by apply Hl.
    + intros (e & Hp & Hle). apply planned_spec in Hp as (p' & Hg' & Hp & He). rewrite Hg in Hg'. simplify_eq.
      apply Hin in Hp as [?|Hp]; [done|]. apply Hq' in Hp. rewrite (Hdue p' e He) in Hp. lia.
Qed.

(** An entry due at 5. *)
Definition example_entry : sched.Entry :=
  sched.mkEntry (sched.mkConfig "checks" "@10m" "checks.schedule" 1 "" false false "" false "" [] "" false) 0 5 "n1" (naming.mkPath "" "" "").

Lemma jobs_refine_witness :
  let t := set newJobs example_entry 0 in
  planned t (naming.mkPath "" "" "") "checks.schedule" = Some example_entry /\
  (forall e now, wf (set t e now) /\ forall path key, planned (set t e now) path key =
     if decide ((path, key) = (pathOf e, keyOf e)) then Some e else planned t path key) /\
  (forall path key, wf (del t path key) /\ forall path' key', planned (del t path key) path' key' =
     if decide ((path', key') = (path, key)) then None else planned t path' key') /\
  (forall now, let '(t', l) := popDue t now in
     wf t' /\ StronglySorted (fun p q => (due t p <= due t q)%Z) l /\
     (forall path key e, planned t' path key = Some e <-> planned t path key = Some e /\ (now < sched.NextRunAt e)%Z) /\
     (forall path key p, get t path key = Some p -> p ∈ l <-> exists e, planned t path key = Some e /\ (sched.NextRunAt e <= now)%Z)).
Proof. split; [vm_compute; reflexivity|]. apply (jobs_refine (set newJobs example_entry 0)). apply set_spec, newJobs_wf. Defined.
