(* ===== verification/Scheduler.v ===== *)
(** * daemon/scheduler

    The loop that plans the scheduled actions of the node and of its instances,
    takes the ones that are due, and runs the ones events ask for:
    src/daemon/scheduler/main.go and trigger.go.

    The state is the [T] struct, with the files of the last runs and the tables
    the daemon exposes.  A handler gets what it reads of the other components, the
    clock included; an environment [Env] evaluates the schedules.  A run in the
    background is listed until it ends ([endRun]). *)

From S2P Require Import Prelude Naming Status.
From S2P Require Import Instance.
From S2P Require Import Calendar Convert Schedule Key SchedTable SchedQueue.

Open Scope string_scope.

Import schedule(result, Ok, Invalid, Panic, Hang).

(** ** Triggers *)

Module trigger.

Record trigger := mkTrigger {
  spec : string;
  pace : sched.OnPace;
  interval : time.Duration;
  on : list string;
  lastRunAt : time.Time;
  dueAt : time.Time }.

#[global] Instance eta_trigger : Eta trigger := fun r =>
  mkTrigger (spec r) (pace r) (interval r) (on r) (lastRunAt r) (dueAt r).
#[global] Instance upd_interval : Upd interval.
Proof. derive_upd eta_trigger. Defined.
#[global] Instance upd_lastRunAt : Upd lastRunAt.
Proof. derive_upd eta_trigger. Defined.
#[global] Instance upd_dueAt : Upd dueAt.
Proof. derive_upd eta_trigger. Defined.

Definition newTrigger `{F : converters.Float} (spec : string) (on : list string) : result trigger :=
  pace ← sched.ParsePace spec;
  Ok (mkTrigger spec pace (sched.Interval pace) on time.zero time.zero).

Definition isFor (g : trigger) (e : sched.Entry) : bool :=
  String.eqb (spec g) (sched.Pace (sched.Config_ e)) && bool_decide (on g = sched.On (sched.Config_ e)).

(** The intervals passed without an event halve the interval. *)
Fixpoint ease (fuel : nat) (g : trigger) (quiet : time.Duration) : trigger :=
  match fuel with
  | O => g
  | S fuel =>
      if ((sched.Interval (pace g) <? interval g) && (interval g <=? quiet))%Z then
        ease fuel (g <| interval := Z.max (Z.quot (interval g) 2) (sched.Interval (pace g)) |>) (quiet - interval g)%Z
      else g
  end.

(** An interval is halved 64 times at most. *)
Definition onEvent (g : trigger) (now : time.Time) : trigger * bool :=
  if negb (time.IsZero (dueAt g)) then (g, false)
  else if time.IsZero (lastRunAt g) then (g, true)
  else
    let next := time.Add (lastRunAt g) (interval g) in
    if time.Before now next then (g <| dueAt := next |>, false)
    else (ease 64 g (time.Sub now next), true).

Definition ran (g : trigger) (now : time.Time) (late : bool) : trigger :=
  let g := g <| lastRunAt := now |> <| dueAt := time.zero |> in
  if late then g <| interval := Z.min (schedule.w64 (interval g * 2)) (sched.Max (pace g)) |> else g.

End trigger.

(** ** The commands of the entries *)

Module command.

Definition NodeActions : list string :=
  ["checks"; "compliance_auto"; "pusharray"; "pushasset"; "pushdisks"; "pushpkg"; "pushstats"; "pushswitch"; "sysreport"].

Definition PlaceholderActions : list string := ["pushbackup"].

Definition ObjectActions : list string := ["compliance_auto"; "info"; "resource_monitor"; "run"; "status"; "update"].

(** The arguments of the om command; [Panic] is that of [key.Parse]. *)
Definition CmdArgs (e : sched.Entry) : result (list string) :=
  let action := sched.Action (sched.Config_ e) in
  if one_of action PlaceholderActions then Invalid
  else
    let head :=
      if one_of action NodeActions && (naming.IsZero (sched.Path_ e) || negb (one_of action ObjectActions))
      then "node" else naming.Path_String (sched.Path_ e) in
    let withRID (l : list string) := match sched.RID e with Some rid => Ok (head :: l ++ [rid])%list | None => Panic end in
    if one_of action ["status"] then Ok [head; "instance"; "status"; "-r"]
    else if one_of action ["resource_monitor"] then Ok [head; "instance"; "status"; "-m"]
    else if one_of action ["info"] then Ok [head; "instance"; "info"; "--refresh"]
    else if one_of action ["run"] then withRID ["instance"; "run"; "--rid"]
    else if one_of action ["update"] then withRID ["instance"; "update"; "--rid"]
    else if one_of action ["pushasset"] then Ok [head; "push"; "asset"]
    else if one_of action ["pusharray"] then withRID ["push"; "array"]
    else if one_of action ["pushswitch"] then withRID ["push"; "switch"]
    else if one_of action ["pushdisks"] then Ok [head; "push"; "disk"]
    else if one_of action ["pushpkg"] then Ok [head; "push"; "pkg"]
    else if one_of action ["pushstats"] then Ok [head; "push"; "stats"]
    else if one_of action ["checks"] then Ok [head; "checks"]
    else if one_of action ["compliance_auto"] then Ok [head; "compliance"; "auto"]
    else if one_of action ["sysreport"] then Ok [head; "sysreport"]
    else Invalid.

(** The actions of the lists, and no other, have a command. *)
Lemma CmdArgs_known e : CmdArgs e = Invalid <-> sched.Action (sched.Config_ e) ∉ (NodeActions ++ ObjectActions)%list.
Proof.
  unfold CmdArgs. cbv zeta. generalize (sched.Action (sched.Config_ e)). intros action. split.
  - intros H Hin. assert (one_of action PlaceholderActions = false) as Ho.
    { assert (forallb (fun a => negb (one_of a PlaceholderActions)) (NodeActions ++ ObjectActions)%list = true) as Hp by reflexivity.
      rewrite forallb_forall in Hp. apply negb_true_iff, Hp. by apply list_elem_of_In. }
    rewrite Ho in H. clear Ho.
    repeat match type of H with context [if one_of action [?a] then _ else _] =>
      let Ha := fresh "Ha" in destruct (one_of action [a]) eqn:Ha; [first [discriminate H|by destruct (sched.RID e)]|] end.
    clear H. repeat (apply elem_of_cons in Hin as [->|Hin]; [discriminate|]). by apply elem_of_nil in Hin.
  - intros Hnin. destruct (one_of action PlaceholderActions); [done|].
    repeat match goal with |- context [if one_of action [?a] then _ else _] =>
      let H := fresh in destruct (one_of action [a]) eqn:H;
        [exfalso; apply one_of_spec, list_elem_of_singleton in H; apply Hnin; rewrite H; by apply one_of_spec|clear H] end.
    done.
Qed.

End command.

(** ** The scheduler *)

Module scheduler.

Export trigger(trigger).

Definition pathKeyMap (V : Type) := gmap naming.Path (gmap string V).

Definition pkGet {V} (t : pathKeyMap V) (path : naming.Path) (key : string) : option V := m ← t !! path; m !! key.

Definition pkSet {V} (t : pathKeyMap V) (path : naming.Path) (key : string) (v : V) : pathKeyMap V :=
  <[path := <[key := v]> (default ∅ (t !! path))]> t.

Definition pkUnset {V} (t : pathKeyMap V) (path : naming.Path) (key : string) : pathKeyMap V :=
  match t !! path with
  | None => t
  | Some m => let m := delete key m in if Nat.eqb (size m) 0 then delete path t else <[path := m]> t
  end.

Definition pkUnsetPath {V} (t : pathKeyMap V) (path : naming.Path) : pathKeyMap V := delete path t.

(** The [Schedules] of the loop; [Del] keeps an empty map. *)
Definition Schedules := pathKeyMap sched.Entry.
Definition Del (t : Schedules) (path : naming.Path) (key : string) : Schedules := alter (delete key) path t.
Definition Add (t : Schedules) (path : naming.Path) (e : sched.Entry) : Schedules :=
  pkSet t path (sched.Key_ (sched.Config_ e)) e.

(** [None] is a nil table, of a path with no entry. *)
Definition TableOf (t : Schedules) (path : naming.Path) : option sched.Table :=
  match (map_to_list (default ∅ (t !! path : option (gmap string sched.Entry)))).*2 with
  | [] => None
  | l => Some l
  end.

Record T := mkT {
  localhost : string;
  jobs_ : jobs.jobs;
  enabled : bool;
  provisioned_ : gmap naming.Path bool;
  failover : gmap naming.Path bool;
  notSource : gmap naming.Path string;
  localStatus : gmap naming.Path instance.Status;
  schedules : Schedules;
  isCollectorJoinable : bool;
  active : Z;
  maxRunning : Z;
  statusMaxRunning : Z;
  lastRunOnAllPeers : pathKeyMap time.Time;
  reqSatisfied : pathKeyMap (option string);
  triggers : pathKeyMap trigger;
  tables : sched.Data;
  files : sched.Files;
  lastRunOn : gmap (naming.Path * string) (time.Time * string);
  running : list (sched.Entry * time.Time) }.

#[global] Instance eta_T : Eta T := fun r =>
  mkT (localhost r) (jobs_ r) (enabled r) (provisioned_ r) (failover r) (notSource r) (localStatus r) (schedules r)
    (isCollectorJoinable r) (active r) (maxRunning r) (statusMaxRunning r) (lastRunOnAllPeers r) (reqSatisfied r)
    (triggers r) (tables r) (files r) (lastRunOn r) (running r).
#[global] Instance upd_jobs_ : Upd jobs_.
Proof. derive_upd eta_T. Defined.
#[global] Instance upd_enabled : Upd enabled.
Proof. derive_upd eta_T. Defined.
#[global] Instance upd_provisioned_ : Upd provisioned_.
Proof. derive_upd eta_T. Defined.
#[global] Instance upd_failover : Upd failover.
Proof. derive_upd eta_T. Defined.
#[global] Instance upd_notSource : Upd notSource.
Proof. derive_upd eta_T. Defined.
#[global] Instance upd_localStatus : Upd localStatus.
Proof. derive_upd eta_T. Defined.
#[global] Instance upd_schedules : Upd schedules.
Proof. derive_upd eta_T. Defined.
#[global] Instance upd_isCollectorJoinable : Upd isCollectorJoinable.
Proof. derive_upd eta_T. Defined.
#[global] Instance upd_active : Upd active.
Proof. derive_upd eta_T. Defined.
#[global] Instance upd_maxRunning : Upd maxRunning.
Proof. derive_upd eta_T. Defined.
#[global] Instance upd_statusMaxRunning : Upd statusMaxRunning.
Proof. derive_upd eta_T. Defined.
#[global] Instance upd_lastRunOnAllPeers : Upd lastRunOnAllPeers.
Proof. derive_upd eta_T. Defined.
#[global] Instance upd_reqSatisfied : Upd reqSatisfied.
Proof. derive_upd eta_T. Defined.
#[global] Instance upd_triggers : Upd triggers.
Proof. derive_upd eta_T. Defined.
#[global] Instance upd_tables : Upd tables.
Proof. derive_upd eta_T. Defined.
#[global] Instance upd_files : Upd files.
Proof. derive_upd eta_T. Defined.
#[global] Instance upd_lastRunOn : Upd lastRunOn.
Proof. derive_upd eta_T. Defined.
#[global] Instance upd_running : Upd running.
Proof. derive_upd eta_T. Defined.

(** What a handler reads of the other components: the monitors and the schedules
    of the local instances and of the node, the paths of the local instances, the
    runs a run directory lists ([None] is an error), the paths with a var
    directory, and the times in the status of the peers. *)
Record World := mkWorld {
  now : time.Time;
  monitor : naming.Path -> option instance.Monitor;
  nodeMonitor : option node.Monitor;
  instanceSchedules : naming.Path -> option (list sched.Config);
  nodeSchedules : option (list sched.Config);
  localPaths : list naming.Path;
  runCount : string -> option Z;
  hasVarDir : naming.Path -> bool;
  parseTime : string -> option time.Time }.

Definition maxSleep : time.Duration := time.Minute.
Definition lateTolerance : time.Duration := (10 * time.Second)%Z.
Definition holdRetryDelay : time.Duration := time.Second.

Definition incompatibleNodeMonitorStatus : list node.MonitorState :=
  [node.MonitorStateInit; node.MonitorStateMaintenance; node.MonitorStateRejoin; node.MonitorStateShutdownProgress;
   node.MonitorStateUpgrade].

Definition pathZero (p : naming.Path) : bool := naming.IsZero p.

Definition New (localhost : string) : T :=
  mkT localhost jobs.newJobs false ∅ ∅ ∅ ∅ ∅ false 0 5 5 ∅ ∅ ∅ ∅ ∅ ∅ [].

(** ** The reasons not to run *)

Definition isFailover (t : T) (path : naming.Path) : bool := default false (failover t !! path).
Definition isProvisioned (t : T) (path : naming.Path) : bool := default false (provisioned_ t !! path).

Definition peerInstanceLastRun (t : T) (e : sched.Entry) : time.Time :=
  let c := sched.Config_ e in
  if pathZero (sched.Path_ e) then time.zero
  else if negb (isFailover t (sched.Path_ e)) then time.zero
  else if String.eqb (sched.Require_ c) "" then time.zero
  else if bool_decide (is_Some (text.Index (sched.Require_ c) "down")) then time.zero
  else if bool_decide (is_Some (text.Index (sched.Require_ c) "warn")) then time.zero
  else default time.zero (pkGet (lastRunOnAllPeers t) (sched.Path_ e) (sched.Key_ c)).

(** [None] is the empty reason. *)
Definition blockReason (t : T) (e : sched.Entry) : option string :=
  let c := sched.Config_ e in
  let path := sched.Path_ e in
  if sched.RequireCollector c && negb (isCollectorJoinable t) then Some "collector not joinable"
  else if pathZero path then None
  else
    let source :=
      if sched.RequireReplicationSource c then
        match notSource t !! path with
        | None => Some "replication source not yet evaluated"
        | Some "" => None
        | Some reason => Some ("not the replication source: " ++ reason)
        end
      else None in
    let provision :=
      if sched.RequireProvisioned c then
        match provisioned_ t !! path with
        | None => Some "instance provisioned state is still unknown"
        | Some false => Some "instance not provisioned"
        | Some true => None
        end
      else None in
    let require :=
      if String.eqb (sched.Require_ c) "" then None
      else
        match pkGet (reqSatisfied t) path (sched.Key_ c) with
        | None => Some ("require " ++ sched.Require_ c ++ " not yet evaluated")
        | Some satisfied => satisfied
        end in
    match source with
    | Some r => Some r
    | None => match provision with Some r => Some r | None => require end
    end.

Definition holdReason (w : World) (e : sched.Entry) : option string :=
  let c := sched.Config_ e in
  if pathZero (sched.Path_ e) || String.eqb (sched.Require_ c) "" && negb (sched.RequireProvisioned c) then None
  else
    match monitor w (sched.Path_ e) with
    | None => None
    | Some mon =>
        if instance.IsDoing (instance.State mon) then Some ("instance " ++ instance.MonitorState_String (instance.State mon))
        else None
    end.

Definition skipReason (w : World) (t : T) (e : sched.Entry) : option string :=
  match blockReason t e with
  | Some reason => Some reason
  | None =>
      if pathZero (sched.Path_ e) || negb (sched.RequireReplicationSource (sched.Config_ e)) then None
      else
        let orchestration :=
          match monitor w (sched.Path_ e) with
          | Some mon =>
              if one_of (instance.GlobalExpect mon) [instance.MonitorGlobalExpectNone; instance.MonitorGlobalExpectInit] then None
              else Some ("orchestration " ++ instance.MonitorGlobalExpect_String (instance.GlobalExpect mon) ++ " in progress")
          | None => None
          end in
        match orchestration, nodeMonitor w with
        | Some r, _ => Some r
        | None, Some mon =>
            if bool_decide (node.LocalExpect mon = node.MonitorLocalExpectDrained) then Some "node draining" else None
        | None, None => None
        end
  end.

(** [true] when [maxRunning] jobs run. *)
Definition full (t : T) : bool := (maxRunning t <=? active t)%Z.

(** [None] is an error; no run directory is -1. *)
Definition runningCount (w : World) (e : sched.Entry) : option Z :=
  if String.eqb (sched.RunDir (sched.Config_ e)) "" then Some (-1)%Z else runCount w (sched.RunDir (sched.Config_ e)).

(** ** Planning and running *)

Section handlers.
Context `{E : schedule.Env} (w : World).

Definition updateExposedSchedules (t : T) (path : naming.Path) : T :=
  match TableOf (schedules t) path with
  | None => t
  | Some table => t <| tables ::= fun d => sched.Set_ d path (sched.MergeEntries table (jobs.table (jobs_ t) path)) |>
  end.

Definition planJob (t : T) (e : sched.Entry) (now : time.Time) : result T :=
  let e := if time.IsZero (sched.LastRunAt e) then e <| sched.LastRunAt := sched.GetLastRun (files t) e |> else e in
  let tm := peerInstanceLastRun t e in
  let e := if time.Before (sched.LastRunAt e) tm then e <| sched.LastRunAt := tm |> else e in
  let unplan := t <| jobs_ ::= fun j => jobs.del j (sched.Path_ e) (sched.Key_ (sched.Config_ e)) |> in
  match sched.GetNextAt e now with
  | Panic => Panic
  | Hang => Hang
  | Invalid => Ok unplan
  | Ok (next, _) =>
      if time.IsZero next then Ok unplan
      else
        let last := sched.LastRunAt e in
        let next := if negb (time.IsZero last) && negb (time.After next last) then time.Add last time.Second else next in
        let next := if time.Before next now then now else next in
        Ok (t <| jobs_ ::= fun j => jobs.set j (e <| sched.NextRunAt := next |>) now |>)
  end.

Definition run (t : T) (e : sched.Entry) (last : time.Time) : T :=
  t <| files ::= fun f => sched.SetLastRun f e last |> <| active ::= fun n => (n + 1)%Z |>
    <| running ::= fun l => (l ++ [(e, last)])%list |>.

(** The end of the [n]th run in the background. *)
Definition endRun (t : T) (n : nat) (success : bool) : T :=
  match running t !! n with
  | None => t
  | Some (e, last) =>
      t <| running ::= fun l => delete n l |> <| active ::= fun n => (n - 1)%Z |>
        <| files ::= fun f => if success then sched.SetLastSuccess f e last else f |>
  end.

Definition holdJob (t : T) (due e : sched.Entry) (now : time.Time) : T :=
  let e := e <| sched.LastRunAt := sched.LastRunAt due |> <| sched.NextRunAt := time.Add now holdRetryDelay |> in
  updateExposedSchedules (t <| jobs_ ::= fun j => jobs.set j e now |>) (sched.Path_ e).

(** The last part of [onJobDue]: the job of an entry, due as [due], runs unless
    something says to skip this run. *)
Definition runDue (t : T) (due e : sched.Entry) (now : time.Time) : result T :=
  let last := sched.NextRunAt due in
  let last := if (lateTolerance <? time.Sub now last)%Z then now else last in
  let e := e <| sched.LastRunAt := last |> in
  t ← planJob t e now;
  let t := updateExposedSchedules t (sched.Path_ e) in
  match skipReason w t e, runningCount w e with
  | Some _, _ => Ok t
  | None, None => Ok t
  | None, Some n =>
      if (sched.MaxParallel (sched.Config_ e) <=? n)%Z then Ok t
      else
        let t := t <| lastRunOnAllPeers ::= fun m => pkSet m (sched.Path_ e) (sched.Key_ (sched.Config_ e)) last |> in
        Ok (run t e last)
  end.

Definition onJobDue (t : T) (due : sched.Entry) (now : time.Time) : result T :=
  let path := sched.Path_ due in
  let key := sched.Key_ (sched.Config_ due) in
  match pkGet (schedules t) path key with
  | None => Ok (t <| jobs_ ::= fun j => jobs.del j path key |>)
  | Some e =>
      let tm := peerInstanceLastRun t e in
      if time.Before (sched.LastRunAt due) tm then
        t ← planJob t (e <| sched.LastRunAt := tm |>) now;
        Ok (updateExposedSchedules t (sched.Path_ e))
      else
        match holdReason w e with
        | Some _ => Ok (holdJob t due e now)
        | None => if full t then Ok (holdJob t due e now) else runDue t due e now
        end
  end.

(** ** Events *)

Definition setTrigger (t : T) (path : naming.Path) (key : string) (g : trigger) : T :=
  t <| triggers ::= fun m => pkSet m path key g |>.

Definition matchOn (e : sched.Entry) (key : string) : bool :=
  existsb (fun s => match sched.ParseOn s with Some f => sched.Match f key | None => false end) (sched.On (sched.Config_ e)).

(** [Invalid] is an error of the pace. *)
Definition getTrigger (t : T) (e : sched.Entry) : result (T * trigger) :=
  let path := sched.Path_ e in
  let key := sched.Key_ (sched.Config_ e) in
  let make :=
    g ← trigger.newTrigger (sched.Pace (sched.Config_ e)) (sched.On (sched.Config_ e));
    let last := sched.LastRunAt e in
    let tm := sched.GetLastRun (files t) e in
    let g := g <| trigger.lastRunAt := if time.After tm last then tm else last |> in
    Ok (setTrigger t path key g, g) in
  match pkGet (triggers t) path key with
  | Some g => if trigger.isFor g e then Ok (t, g) else make
  | None => make
  end.

Definition recordEventRun (t : T) (path : naming.Path) (e : sched.Entry) (now : time.Time) : result T :=
  let e := e <| sched.LastRunAt := now |> in
  let key := sched.Key_ (sched.Config_ e) in
  let t := t <| schedules ::= fun s => Add s path e |> in
  t ← match j ← jobs.get (jobs_ t) path key; jobs.store (jobs_ t) !! j with
      | Some j => planJob t ((jobs.entry j) <| sched.LastRunAt := now |>) now
      | None => Ok t
      end;
  let t := t <| lastRunOnAllPeers ::= fun m => pkSet m path key now |> in
  Ok (updateExposedSchedules t path).

(** [g] is the trigger of the entry. *)
Definition runTrigger (t : T) (path : naming.Path) (e : sched.Entry) (g : trigger) (now : time.Time) (late : bool) : result T :=
  let key := sched.Key_ (sched.Config_ e) in
  let put g := setTrigger t path key g in
  match blockReason t e with
  | Some _ => Ok (put (trigger.ran g now late))
  | None =>
      match holdReason w e with
      | Some _ => Ok (put (g <| trigger.dueAt := time.Add now holdRetryDelay |>))
      | None =>
          if full t then Ok (put (g <| trigger.dueAt := time.Add now holdRetryDelay |>))
          else
            match runningCount w e with
            | None => Ok (put (trigger.ran g now late))
            | Some n =>
                if (sched.MaxParallel (sched.Config_ e) <=? n)%Z then
                  Ok (put (g <| trigger.dueAt := time.Add now (trigger.interval g) |>))
                else
                  t ← recordEventRun (put (trigger.ran g now late)) path e now;
                  Ok (run t e now)
            end
      end
  end.

(** A loop over handlers. *)
Fixpoint each {A} (f : T -> A -> result T) (t : T) (l : list A) : result T :=
  match l with
  | [] => Ok t
  | a :: l => t ← f t a; each f t l
  end.

Definition entries (s : Schedules) : list sched.Entry :=
  List.concat (map (fun kv => (map_to_list kv.2).*2) (map_to_list s)).

(** The entry of a local instance on an event of key [key]. *)
Definition onEventEntry (key : string) (only : naming.Path) (t : T) (e : sched.Entry) : result T :=
  let path := sched.Path_ e in
  if negb (pathZero only) && negb (bool_decide (path = only)) then Ok t
  else if negb (matchOn e key) then Ok t
  else
    match getTrigger t e with
    | Panic => Panic
    | Hang => Hang
    | Invalid => Ok t
    | Ok (t, g) =>
        let '(g, now_) := trigger.onEvent g (now w) in
        let t := setTrigger t path (sched.Key_ (sched.Config_ e)) g in
        if now_ then runTrigger t path e g (now w) false else Ok t
    end.

Definition onEvent (t : T) (key : string) (only : naming.Path) : result T :=
  if negb (enabled t) then Ok t else each (onEventEntry key only) t (entries (schedules t)).

Definition onNetworkPeersUpdated (t : T) (key : string) : result T := onEvent t key (naming.mkPath "" "" "").
Definition onFileInstalled (t : T) (key : string) (path : naming.Path) : result T := onEvent t key path.

Definition onTriggerDue (now : time.Time) (t : T) (pk : naming.Path * string) : result T :=
  let '(path, key) := pk in
  match pkGet (triggers t) path key with
  | None => Ok t
  | Some g =>
      if time.IsZero (trigger.dueAt g) || time.After (trigger.dueAt g) now then Ok t
      else
        match pkGet (schedules t) path key with
        | None => Ok (t <| triggers ::= fun m => pkUnset m path key |>)
        | Some e =>
            if bool_decide (sched.On (sched.Config_ e) = []) then Ok (t <| triggers ::= fun m => pkUnset m path key |>)
            else runTrigger t path e g now true
        end
  end.

Definition pathKeys {V} (m : pathKeyMap V) : list (naming.Path * string) :=
  List.concat (map (fun kv => map (fun k => (kv.1, k)) (map_to_list kv.2).*1) (map_to_list m)).

Definition onTriggersDue (t : T) (now : time.Time) : result T := each (onTriggerDue now) t (pathKeys (triggers t)).

Definition nextTriggerAt (t : T) : option time.Time :=
  let next := foldl (fun next g =>
    if time.IsZero (trigger.dueAt g) then next
    else if time.IsZero next || time.Before (trigger.dueAt g) next then trigger.dueAt g else next) time.zero
    (List.concat (map (fun kv => (map_to_list kv.2).*2) (map_to_list (triggers t)))) in
  if time.IsZero next then None else Some next.

(** The jobs are read from the queue as they are taken: a pointer may be planned
    again, not replaced. *)
Definition onTick (t : T) : result T :=
  let now := now w in
  let '(q, l) := jobs.popDue (jobs_ t) now in
  let t := t <| jobs_ := q |> in
  t ← each (fun t p => match jobs.store (jobs_ t) !! p with
                       | Some j => onJobDue t (jobs.entry j) now
                       | None => Ok t
                       end) t l;
  onTriggersDue t now.

(** [None]: the loop waits for an event. *)
Definition nextWake (t : T) (now : time.Time) : option time.Duration :=
  let next := nextTriggerAt t in
  let next :=
    match jobs.first (jobs_ t) with
    | None => next
    | Some j =>
        let at_ := sched.NextRunAt (jobs.entry j) in
        match next with
        | Some n => if time.Before at_ n then Some at_ else Some n
        | None => Some at_
        end
    end in
  (fun next => Z.max 0 (Z.min (time.Sub next now) maxSleep)) <$> next.

(** ** What the loop follows *)

(** Why the requirement of a job is not met, [None] when it is. *)
Definition checkRequire (require : string) (st : instance.Status) : option string :=
  head (omap (fun kv =>
    let '(rid, l) := kv in
    match instance.Resources st !! rid with
    | None => Some ("resource " ++ rid ++ " not found in the instance status data")
    | Some r =>
        if status.Has l (resource.Status_ r) then None
        else Some ("resource " ++ rid ++ " status is " ++ status.String (resource.Status_ r) ++ ", required " ++ status.LString l)
    end) (map_to_list (resourcereqs.Requirements require))).

(** The state, and whether the requirement changed. *)
Definition updateReqSatisfied (t : T) (path : naming.Path) (e : sched.Entry) (st : instance.Status) : T * bool :=
  let key := sched.Key_ (sched.Config_ e) in
  let satisfied := checkRequire (sched.Require_ (sched.Config_ e)) st in
  let current := pkGet (reqSatisfied t) path key in
  (t <| reqSatisfied ::= fun m => pkSet m path key satisfied |>,
   match satisfied, current with
   | _, None => true
   | Some _, Some c => bool_decide (c = None)
   | None, Some c => bool_decide (c <> None)
   end).

Definition updateNotSource (t : T) (path : naming.Path) (st : instance.Status) : T * bool :=
  let '(isSource, reason) := replication.ReplicationSource st in
  let reason := if (isSource : bool) then "" else reason in
  (t <| notSource ::= <[path := reason]> |>,
   match notSource t !! path with
   | None => true
   | Some was => negb (Bool.eqb (String.eqb was "") (String.eqb reason ""))
   end).

Definition updateProvisioned (t : T) (path : naming.Path) (state : provisioned.T) : T * bool :=
  let isProvisioned := provisioned.IsOneOf state [provisioned.PTrue; provisioned.NotApplicable] in
  (t <| provisioned_ ::= <[path := isProvisioned]> |>,
   match provisioned_ t !! path with None => true | Some was => negb (Bool.eqb isProvisioned was) end).

Definition updateFailover (t : T) (path : naming.Path) (state : topology.T) : T * bool :=
  let isFailover := bool_decide (state = topology.Failover) in
  (t <| failover ::= <[path := isFailover]> |>,
   match failover t !! path with None => true | Some was => negb (Bool.eqb isFailover was) end).

(** What a new entry reads of the last status of the instance. *)
Definition evaluate (t : T) (path : naming.Path) (e : sched.Entry) : T :=
  let config := sched.Config_ e in
  match localStatus t !! path with
  | Some st =>
      if pathZero path then t
      else
        let t :=
          if bool_decide (notSource t !! path = None) && sched.RequireReplicationSource config
          then (updateNotSource t path st).1 else t in
        if bool_decide (pkGet (reqSatisfied t) path (sched.Key_ config) = None) && negb (String.eqb (sched.Require_ config) "")
        then (updateReqSatisfied t path e st).1 else t
  | None => t
  end.

(** The plan of an entry of the configuration. *)
Definition scheduleEntry (path : naming.Path) (now : time.Time) (t : T) (config : sched.Config) : result T :=
  let key := sched.Key_ config in
  let e := sched.mkEntry config time.zero time.zero (localhost t) path in
  let prev := pkGet (schedules t) path key in
  let e :=
    match prev with
    | Some prev => e <| sched.LastRunAt := sched.LastRunAt prev |>
    | None => if bool_decide (sched.On config = []) then e else e <| sched.LastRunAt := sched.GetLastRun (files t) e |>
    end in
  let t := t <| schedules ::= fun s => Add s path e |> in
  let job := p ← jobs.get (jobs_ t) path key; jobs.store (jobs_ t) !! p in
  let t := evaluate t path e in
  let unschedule :=
    match job with Some _ => t <| jobs_ ::= fun j => jobs.del j path key |> | None => t end in
  if one_of (sched.Schedule_ config) [""; "@0"] then Ok unschedule
  else
    match blockReason t e with
    | Some _ => Ok unschedule
    | None =>
        match job, prev with
        | None, _ => planJob t e now
        | Some j, Some prev =>
            if String.eqb (sched.Schedule_ (sched.Config_ prev)) (sched.Schedule_ config) then Ok t
            else planJob t (e <| sched.LastRunAt := sched.LastRunAt (jobs.entry j) |>) now
        | Some _, None => Ok t
        end
    end.

(** The jobs of the entries no longer in the configuration. *)
Definition dropJobs (seen : string -> bool) (path : naming.Path) (t : T) : T :=
  foldl (fun t key => if seen key then t else t <| jobs_ ::= fun j => jobs.del j path key |>) t (jobs.keys (jobs_ t) path).

(** The triggers of the entries that do not run on events, or on others. *)
Definition dropTriggers (path : naming.Path) (t : T) : T :=
  foldl (fun t kv =>
    let '(key, g) := kv in
    let keep :=
      match pkGet (schedules t) path key with
      | Some e => negb (bool_decide (sched.On (sched.Config_ e) = [])) && trigger.isFor g e
      | None => false
      end in
    if keep then t else t <| triggers ::= fun m => pkUnset m path key |>) t
    (map_to_list (default ∅ (triggers t !! path))).

Definition scheduleEntries (t : T) (path : naming.Path) (configs : list sched.Config) : result T :=
  let seen key := existsb (fun c => String.eqb (sched.Key_ c) key) configs in
  t ← each (scheduleEntry path (now w)) t configs;
  let t := dropJobs seen path t in
  let t := t <| schedules ::= alter (fun m => filter (fun kv => seen kv.1 = true) m) path |> in
  Ok (updateExposedSchedules (dropTriggers path t) path).

Definition scheduleObject (t : T) (path : naming.Path) : result T :=
  if negb (enabled t) then Ok t
  else match instanceSchedules w path with Some l => scheduleEntries t path l | None => Ok t end.

Definition scheduleNode (t : T) : result T :=
  if negb (enabled t) then Ok t
  else match nodeSchedules w with Some l => scheduleEntries t (naming.mkPath "" "" "") l | None => Ok t end.

Definition scheduleAll (t : T) : result T := t ← each scheduleObject t (localPaths w); scheduleNode t.

Definition unschedule (t : T) (path : naming.Path) : T :=
  t <| reqSatisfied ::= fun m => pkUnsetPath m path |> <| notSource ::= delete path |> <| localStatus ::= delete path |>
    <| schedules ::= delete path |> <| jobs_ ::= fun j => jobs.delPath j path |>
    <| triggers ::= fun m => pkUnsetPath m path |> <| tables ::= fun d => sched.Unset d path |>.

(** ** The events of the loop *)

Definition isNodeStateCompatible (state : node.MonitorState) : bool := negb (one_of state incompatibleNodeMonitorStatus).

Definition toggleEnabled (t : T) (state : node.MonitorState) : result T :=
  let compatible := isNodeStateCompatible state in
  if negb compatible && enabled t then Ok (t <| jobs_ ::= jobs.purge |> <| triggers := ∅ |> <| enabled := false |>)
  else if compatible && negb (enabled t) then scheduleAll (t <| enabled := true |>)
  else Ok t.

Definition onNodeConfigUpdated (t : T) (maxParallel : Z) : result T :=
  let t := if (0 <? maxParallel)%Z then t <| maxRunning := maxParallel |> <| statusMaxRunning := maxParallel |> else t in
  if enabled t then scheduleNode t else Ok t.

Definition onDaemonCollectorUpdated (t : T) (state : string) : result T :=
  let previous := isCollectorJoinable t in
  if one_of state ["speaker"; "speaker-candidate"] then
    let t := t <| isCollectorJoinable := true |> in if previous then Ok t else scheduleAll t
  else
    let t := t <| isCollectorJoinable := false |> in if previous then scheduleAll t else Ok t.

Definition onObjectStatusDeleted (t : T) (path : naming.Path) : T :=
  t <| lastRunOnAllPeers ::= fun m => pkUnsetPath m path |> <| reqSatisfied ::= fun m => pkUnsetPath m path |>
    <| provisioned_ ::= delete path |> <| failover ::= delete path |> <| notSource ::= delete path |>
    <| localStatus ::= delete path |>.

Definition onLocalInstanceStatusUpdated (t : T) (path : naming.Path) (st : instance.Status) : T * bool :=
  let t := t <| localStatus ::= <[path := st]> |> in
  let '(t, changed) := updateNotSource t path st in
  let '(t, changed) :=
    if bool_decide (instance.Provisioned st = provisioned.Undef) then
      if bool_decide (is_Some (provisioned_ t !! path)) then (t <| provisioned_ ::= delete path |>, true) else (t, changed)
    else let '(t, c) := updateProvisioned t path (instance.Provisioned st) in (t, changed || c) in
  match schedules t !! path with
  | None => (t, changed)
  | Some m =>
      let t := t <| lastRunOnAllPeers ::= fun m => pkSet m path "status_schedule" (instance.UpdatedAt st) |> in
      foldl (fun tc e =>
        if String.eqb (sched.Require_ (sched.Config_ e)) "" then tc
        else let '(t, c) := updateReqSatisfied tc.1 path e st in (t, tc.2 || c)) (t, changed) (map_to_list m).*2
  end.

Definition ridScheduleKey (rid : string) : string := rid ++ ".schedule".

(** The file of the last run of a resource on a peer, written unless it is newer. *)
Definition updateLastRunOnFile (t : T) (path : naming.Path) (rid nodename : string) (tm : time.Time) : T :=
  let write := t <| lastRunOn ::= <[(path, rid) := (tm, nodename)]> |> in
  match lastRunOn t !! (path, rid) with
  | None => if hasVarDir w path then write else t
  | Some (lastTm, _) => if negb (time.IsZero lastTm) && time.After lastTm tm then t else write
  end.

Definition onPeerResource (path : naming.Path) (peer : string) (t : T) (kv : string * resource.Status) : T :=
  let '(rid, r) := kv in
  match resourceid.Parse rid with
  | None => t
  | Some id =>
      if negb (one_of (resourceid.DriverGroup id) ["task"; "sync"]) then t
      else
        let key := ridScheduleKey rid in
        let t :=
          match pkGet (lastRunOnAllPeers t) path key, lastRunOn t !! (path, rid) with
          | None, Some (tm, _) => t <| lastRunOnAllPeers ::= fun m => pkSet m path key tm |>
          | _, _ => t
          end in
        match v ← resource.Info r !! "last_run_at"; parseTime w v with
        | None => t
        | Some tm =>
            let t := updateLastRunOnFile t path rid peer tm in
            match pkGet (lastRunOnAllPeers t) path key with
            | Some latest => if time.After tm latest then t <| lastRunOnAllPeers ::= fun m => pkSet m path key tm |> else t
            | None => t <| lastRunOnAllPeers ::= fun m => pkSet m path key tm |>
            end
        end
  end.

Definition onPeerInstanceStatusUpdated (t : T) (path : naming.Path) (peer : string) (st : instance.Status) : T :=
  match schedules t !! path with
  | None => t
  | Some _ => foldl (onPeerResource path peer) t (map_to_list (instance.Resources st))
  end.

(** The event an object status comes from: an instance status, or an instance
    configuration and whether it is one of an actor. *)
Inductive source :=
  | InstanceStatusUpdated (path : naming.Path) (nodename : string) (st : instance.Status)
  | InstanceConfigUpdated (path : naming.Path) (nodename : string) (actor : bool)
  | OtherSource.

Definition onInstanceStatusUpdated (t : T) (path : naming.Path) (nodename : string) (st : instance.Status) : T * bool :=
  if String.eqb nodename (localhost t) then onLocalInstanceStatusUpdated t path st
  else (onPeerInstanceStatusUpdated t path nodename st, false).

Definition onInstanceConfigUpdated (t : T) (nodename : string) (actor : bool) : bool :=
  actor && String.eqb nodename (localhost t) && enabled t.

(** [topology] is that of the actor status, [None] when it has none. *)
Definition onObjectStatusUpdated (t : T) (path : naming.Path) (topology : option topology.T) (src : source) : result T :=
  match topology with
  | None => Ok t
  | Some topology =>
      let '(t, changed) :=
        match src with
        | InstanceStatusUpdated p n st => onInstanceStatusUpdated t p n st
        | InstanceConfigUpdated _ n actor => (t, onInstanceConfigUpdated t n actor)
        | OtherSource => (t, false)
        end in
      let '(t, c) := updateFailover t path topology in
      if changed || c then scheduleObject t path else Ok t
  end.

Inductive event :=
  | EvInstanceStatusDeleted (path : naming.Path)
  | EvNodeMonitorUpdated (state : node.MonitorState)
  | EvNodeConfigUpdated (maxParallel : Z)
  | EvObjectStatusUpdated (path : naming.Path) (topology : option topology.T) (src : source)
  | EvObjectStatusDeleted (path : naming.Path)
  | EvDaemonCollectorUpdated (state : string)
  | EvNetworkPeersUpdated (key : string)
  | EvFileInstalled (key : string) (path : naming.Path)
  | EvTick
  | EvRunEnded (n : nat) (success : bool).

(** A round of the loop, or the end of a run in the background. *)
Definition handle (t : T) (ev : event) : result T :=
  match ev with
  | EvInstanceStatusDeleted path => Ok (unschedule t path)
  | EvNodeMonitorUpdated state => toggleEnabled t state
  | EvNodeConfigUpdated maxParallel => onNodeConfigUpdated t maxParallel
  | EvObjectStatusUpdated path topology src => onObjectStatusUpdated t path topology src
  | EvObjectStatusDeleted path => Ok (onObjectStatusDeleted t path)
  | EvDaemonCollectorUpdated state => onDaemonCollectorUpdated t state
  | EvNetworkPeersUpdated key => onNetworkPeersUpdated t key
  | EvFileInstalled key path => onFileInstalled t key path
  | EvTick => onTick t
  | EvRunEnded n success => Ok (endRun t n success)
  end.

(** The start of the loop: the state of the node, and its configuration. *)
Definition start (t : T) (maxParallel : option Z) : result T :=
  t ← match nodeMonitor w with Some mon => toggleEnabled t (node.State mon) | None => Ok t end;
  Ok (match maxParallel with
      | Some n => if (0 <? n)%Z then t <| maxRunning := n |> <| statusMaxRunning := n |> else t
      | None => t
      end).

End handlers.

End scheduler.
