(* ===== verification/SchedulerExample.v ===== *)
(** * A scheduler by computation

    A node that checks its file systems every ten minutes, and pushes its assets
    when the peers of its network change: the states the other files evaluate. *)

From S2P Require Import Prelude Naming Status.
From S2P Require Import Instance.
From S2P Require Import Calendar Convert Schedule Key SchedTable SchedQueue.
From S2P Require Import ScheduleNext Scheduler.

Open Scope string_scope.

Import schedule(result, Ok, Invalid, Panic, Hang).
Import scheduler.

Module sched_example.
Import ScheduleNext.example(at_).

#[export] Existing Instance ScheduleNext.example.env.

Definition job (action expr key : string) (on : list string) : sched.Config :=
  sched.mkConfig action expr key 1 "" false false "" false ("last_" ++ action) on "@10m" false.

Definition configs : list sched.Config :=
  [job "checks" "@10m" "checks.schedule" []; job "pushasset" "" "asset.schedule" ["NetworkPeersUpdated"]].

(** The node, at a time of the morning. *)
Definition world (h mi : Z) : World := {|
  now := at_ 2022 5 20 h mi;
  monitor := fun _ => None;
  nodeMonitor := None;
  instanceSchedules := fun _ => None;
  nodeSchedules := Some configs;
  localPaths := [];
  runCount := fun _ => Some 0%Z;
  hasVarDir := fun _ => true;
  parseTime := fun _ => None |}.

Definition unwrap (r : result T) : T := match r with Ok t => t | _ => New "" end.

Lemma unwrap_ok r : (match r with Ok _ => true | _ => false end) = true -> r = Ok (unwrap r).
Proof. by destruct r. Qed.

Definition root : naming.Path := naming.mkPath "" "" "".

Definition fresh : T := New "n1".
Definition enabled : T := unwrap (handle (world 10 0) fresh (EvNodeMonitorUpdated node.MonitorStateIdle)).
Definition ticked : T := unwrap (handle (world 10 0) enabled EvTick).
Definition notified : T := unwrap (handle (world 10 1) ticked (EvNetworkPeersUpdated "NetworkPeersUpdated")).

Lemma enabled_step : handle (world 10 0) fresh (EvNodeMonitorUpdated node.MonitorStateIdle) = Ok enabled.
Proof. apply unwrap_ok. vm_compute. reflexivity. Qed.

Lemma ticked_step : handle (world 10 0) enabled EvTick = Ok ticked.
Proof. apply unwrap_ok. vm_compute. reflexivity. Qed.

Lemma notified_step : handle (world 10 1) ticked (EvNetworkPeersUpdated "NetworkPeersUpdated") = Ok notified.
Proof. apply unwrap_ok. vm_compute. reflexivity. Qed.

(** The configuration without its entries: the table exposed keeps them. *)
Definition emptied : World := {|
  now := at_ 2022 5 20 10 2;
  monitor := fun _ => None;
  nodeMonitor := None;
  instanceSchedules := fun _ => None;
  nodeSchedules := Some [];
  localPaths := [];
  runCount := fun _ => Some 0%Z;
  hasVarDir := fun _ => true;
  parseTime := fun _ => None |}.

Lemma exposed_stale :
  match handle emptied notified (EvNodeConfigUpdated 0) with
  | Ok t => bool_decide (entries (schedules t) = []) && bool_decide (tables t = tables notified) && negb (bool_decide (tables t = ∅))
  | _ => false
  end = true.
Proof. vm_compute. reflexivity. Qed.

End sched_example.
