(* ===== verification/SchedulerLogic.v ===== *)
(** * The runs of the scheduler

    Which runs the loop starts: only allowed ones, and not more than the node runs
    at once; the pace of the runs events ask for; and the jobs it keeps planned. *)

From S2P Require Import Prelude Naming Status.
From S2P Require Import Instance.
From S2P Require Import Calendar Convert Schedule Key SchedTable SchedQueue SchedHeap Scheduler SchedulerExample.

Import schedule(result, Ok, Invalid, Panic, Hang).
Import scheduler.

(** ** Handlers that start no run *)

(** What the guards of a run read is unchanged, and no run starts or ends. *)
Record idle (t t' : T) : Prop := {
  idle_collector : isCollectorJoinable t' = isCollectorJoinable t;
  idle_source : notSource t' = notSource t;
  idle_provisioned : provisioned_ t' = provisioned_ t;
  idle_require : reqSatisfied t' = reqSatisfied t;
  idle_max : maxRunning t' = maxRunning t;
  idle_running : running t' = running t;
  idle_active : active t' = active t;
}.

#[global] Instance idle_preorder : PreOrder idle.
Proof. split; [by split|]. intros t u v [] []. split; congruence. Qed.

Lemma idle_jobs t f : idle t (t <| jobs_ ::= f |>).
Proof. by split. Qed.

Lemma idle_exposed t path : idle t (updateExposedSchedules t path).
Proof. unfold updateExposedSchedules. by destruct (TableOf _ _). Qed.

Lemma idle_setTrigger t path key g : idle t (setTrigger t path key g).
Proof. by split. Qed.

#[local] Hint Resolve idle_jobs idle_exposed idle_setTrigger : core.

(** Each handler of a loop is in a preorder: so is the loop. *)
Lemma each_preorder {A} (R : T -> T -> Prop) `{!PreOrder R} (f : T -> A -> result T) :
  (forall t a t', f t a = Ok t' -> R t t') -> forall l t t', each f t l = Ok t' -> R t t'.
Proof.
  intros Hf l. induction l as [|a l IH]; intros t t' H; cbn in H; [by simplify_eq|].
  destruct (f t a) as [u| | |] eqn:Ha; try done. cbn in H. etrans; [by eapply Hf|by eapply IH].
Qed.

Section runs.
Context `{E : schedule.Env} (w : World).

Lemma planJob_jobs t e now t' : planJob t e now = Ok t' -> exists j, t' = t <| jobs_ := j |>.
Proof.
  unfold planJob. cbv zeta. destruct (sched.GetNextAt _ _) as [[next i]| | |]; try done.
  - destruct (time.IsZero next); intros [= <-]; by eexists.
  - intros [= <-]. by eexists.
Qed.

Lemma idle_planJob t e now t' : planJob t e now = Ok t' -> idle t t'.
Proof. intros H. destruct (planJob_jobs _ _ _ _ H) as [j ->]. by split. Qed.

(** ** The runs started *)

(** A run the state allows. *)
Definition allowed (t : T) (r : sched.Entry * time.Time) : Prop :=
  blockReason t r.1 = None /\ holdReason w r.1 = None /\
  exists n, runningCount w r.1 = Some n /\ (n < sched.MaxParallel (sched.Config_ r.1))%Z.

(** The runs that start are allowed, and start while the node runs fewer than its
    maximum. *)
Record starts (t t' : T) : Prop := {
  starts_collector : isCollectorJoinable t' = isCollectorJoinable t;
  starts_source : notSource t' = notSource t;
  starts_provisioned : provisioned_ t' = provisioned_ t;
  starts_require : reqSatisfied t' = reqSatisfied t;
  starts_max : maxRunning t' = maxRunning t;
  starts_runs : exists news, running t' = (running t ++ news)%list /\
    active t' = (active t + Z.of_nat (length news))%Z /\ Forall (allowed t) news /\
    (news <> [] -> active t' <= maxRunning t)%Z;
}.

Lemma blockReason_eq t t' e : isCollectorJoinable t' = isCollectorJoinable t -> notSource t' = notSource t ->
  provisioned_ t' = provisioned_ t -> reqSatisfied t' = reqSatisfied t -> blockReason t' e = blockReason t e.
Proof. intros H1 H2 H3 H4. unfold blockReason. by rewrite H1, H2, H3, H4. Qed.

Lemma idle_starts t t' : idle t t' -> starts t t'.
Proof.
  intros []. split; try done. exists []. rewrite app_nil_r. split_and!; [done|cbn; lia|constructor|done].
Qed.

#[local] Instance starts_preorder : PreOrder starts.
Proof.
  split; [intros t; by apply idle_starts|]. intros t u v Htu Huv. destruct Htu as [? ? ? ? ? (n1 & R1 & A1 & F1 & B1)].
  destruct Huv as [? ? ? ? M2 (n2 & R2 & A2 & F2 & B2)].
  split; [congruence..|]. exists (n1 ++ n2)%list. split; [by rewrite R2, R1, app_assoc|].
  split; [rewrite A2, A1, length_app; lia|]. split.
  - apply Forall_app. split; [done|]. eapply Forall_impl; [exact F2|]. intros r (H1 & H2 & H3). split; [|done].
    rewrite <- H1. symmetry. by apply blockReason_eq.
  - intros Hne. destruct n2 as [|r n2]; [|rewrite <- starts_max0; by apply B2].
    rewrite app_nil_r in Hne. cbn in A2. specialize (B1 Hne). lia.
Qed.

(** A run starts. *)
Lemma run_starts t e last : blockReason t e = None -> holdReason w e = None ->
  (exists n, runningCount w e = Some n /\ (n < sched.MaxParallel (sched.Config_ e))%Z) -> (active t < maxRunning t)%Z ->
  starts t (run t e last).
Proof.
  intros H1 H2 H3 H4. split; try done. exists [(e, last)]. split; [done|]. split; [done|].
  split; [by repeat constructor|]. intros _. change (active (run t e last)) with (active t + 1)%Z. lia.
Qed.

Lemma starts_trans_idle t u v : idle t u -> starts u v -> starts t v.
Proof. intros H ?. etrans; [by apply idle_starts|done]. Qed.

(** A job due. *)
Lemma onJobDue_starts t due now t' : onJobDue w t due now = Ok t' -> starts t t'.
Proof.
  unfold onJobDue. cbv zeta. destruct (pkGet (schedules t) _ _) as [e|]; [|intros [= <-]; by apply idle_starts].
  destruct (time.Before _ _).
  { destruct (planJob t _ now) as [u| | |] eqn:Hp; try done. cbn. intros [= <-]. apply idle_starts.
    etrans; [by eapply idle_planJob|done]. }
  assert (idle t (holdJob t due e now)) as Hhold by (unfold holdJob; etrans; [|apply idle_exposed]; done).
  destruct (holdReason w e) as [r|] eqn:Hh; [intros [= <-]; by apply idle_starts|].
  destruct (full t) eqn:Hfull; [intros [= <-]; by apply idle_starts|]. unfold full in Hfull. apply Z.leb_gt in Hfull.
  unfold runDue. cbv zeta. set (last := if (_ <? _)%Z then now else _). set (e' := e <| sched.LastRunAt := last |>).
  destruct (planJob t e' now) as [u| | |] eqn:Hp; try done. cbn [mbind schedule.result_bind].
  apply idle_planJob in Hp. assert (idle t (updateExposedSchedules u (sched.Path_ e'))) as Hi by (etrans; [done|apply idle_exposed]).
  set (v := updateExposedSchedules u _) in *. clearbody v. clear Hp u.
  destruct (skipReason w v e') as [r|] eqn:Hs; [intros [= <-]; by apply idle_starts|].
  destruct (runningCount w e') as [n|] eqn:Hc; [|intros [= <-]; by apply idle_starts].
  destruct (Z.leb_spec (sched.MaxParallel (sched.Config_ e')) n); intros [= <-]; [by apply idle_starts|].
  eapply starts_trans_idle; [etrans; [exact Hi|]|apply run_starts].
  - by split.
  - unfold skipReason in Hs. cbn. destruct (blockReason v e') eqn:Hb; [done|]. rewrite <- Hb. by apply blockReason_eq.
  - exact Hh.
  - eauto.
  - cbn. rewrite (idle_active _ _ Hi), (idle_max _ _ Hi). done.
Qed.

Lemma recordEventRun_idle t path e now t' : recordEventRun t path e now = Ok t' -> idle t t'.
Proof.
  unfold recordEventRun. cbv zeta. set (u := t <| schedules ::= _ |>). assert (idle t u) as Hu by done. clearbody u.
  destruct (match (_ ≫= _) with Some j => _ | None => _ end) as [v| | |] eqn:Hv; try done. cbn. intros [= <-].
  assert (idle u v) as Hv' by (destruct (_ ≫= _) as [j|]; [by eapply idle_planJob|by simplify_eq]).
  etrans; [exact Hu|]. etrans; [exact Hv'|]. etrans; [|apply idle_exposed]. done.
Qed.

(** A run events ask for. *)
Lemma runTrigger_starts t path e g now late t' : runTrigger w t path e g now late = Ok t' -> starts t t'.
Proof.
  unfold runTrigger. cbv zeta. destruct (blockReason t e) eqn:Hb; [intros [= <-]; by apply idle_starts|].
  destruct (holdReason w e) eqn:Hh; [intros [= <-]; by apply idle_starts|].
  destruct (full t) eqn:Hfull; [intros [= <-]; by apply idle_starts|]. unfold full in Hfull. apply Z.leb_gt in Hfull.
  destruct (runningCount w e) as [n|] eqn:Hc; [|intros [= <-]; by apply idle_starts].
  destruct (Z.leb_spec (sched.MaxParallel (sched.Config_ e)) n); [intros [= <-]; by apply idle_starts|].
  destruct (recordEventRun _ path e now) as [u| | |] eqn:Hu; try done. cbn. intros [= <-].
  apply recordEventRun_idle in Hu.
  assert (idle t u) as Hi by (etrans; [|exact Hu]; done).
  eapply starts_trans_idle; [exact Hi|apply run_starts].
  - rewrite <- Hb. by apply blockReason_eq; apply Hi.
  - done.
  - eauto.
  - rewrite (idle_active _ _ Hi), (idle_max _ _ Hi). done.
Qed.

Lemma getTrigger_idle t e u g : getTrigger t e = Ok (u, g) -> idle t u.
Proof.
  unfold getTrigger. cbv zeta.
  assert (forall r, (g0 ← trigger.newTrigger (sched.Pace (sched.Config_ e)) (sched.On (sched.Config_ e)); r g0) = Ok (u, g) ->
    (forall g0, r g0 = Ok (u, g) -> idle t u) -> idle t u) as Hm.
  { intros r H Hr. destruct (trigger.newTrigger _ _); try done. by eapply Hr. }
  destruct (pkGet (triggers t) _ _) as [g0|].
  - destruct (trigger.isFor g0 e); [intros [= <- <-]; done|]. intros H. eapply Hm; [exact H|]. intros g1 [= <- _]. done.
  - intros H. eapply Hm; [exact H|]. intros g1 [= <- _]. done.
Qed.

Lemma onEventEntry_starts key only t e t' : onEventEntry w key only t e = Ok t' -> starts t t'.
Proof.
  unfold onEventEntry. cbv zeta. destruct (_ && _); [intros [= <-]; done|].
  destruct (negb _); [intros [= <-]; done|].
  destruct (getTrigger t e) as [[u g]| | |] eqn:Hg; try done; [|intros [= <-]; done].
  apply getTrigger_idle in Hg. destruct (trigger.onEvent g (now w)) as [g' []].
  - intros H. apply runTrigger_starts in H. eapply starts_trans_idle; [|exact H]. etrans; [exact Hg|done].
  - intros [= <-]. apply idle_starts. etrans; [exact Hg|done].
Qed.

Lemma onTriggerDue_starts now t pk t' : onTriggerDue w now t pk = Ok t' -> starts t t'.
Proof.
  unfold onTriggerDue. destruct pk as [path key]. destruct (pkGet (triggers t) path key) as [g|]; [|intros [= <-]; done].
  destruct (_ || _); [intros [= <-]; done|]. destruct (pkGet (schedules t) path key) as [e|];
    [|intros [= <-]; by apply idle_starts].
  case_bool_decide; [intros [= <-]; by apply idle_starts|]. apply runTrigger_starts.
Qed.

Lemma onTick_starts t t' : onTick w t = Ok t' -> starts t t'.
Proof.
  unfold onTick. destruct (jobs.popDue (jobs_ t) (now w)) as [q l]. set (u := t <| jobs_ := q |>).
  assert (idle t u) as Hu by done. clearbody u.
  destruct (each _ u l) as [v| | |] eqn:Hv; try done. cbn. intros H.
  eapply starts_trans_idle; [exact Hu|]. transitivity v.
  - revert Hv. apply each_preorder; [apply _|]. intros t1 p t2.
    destruct (jobs.store (jobs_ t1) !! p); [apply onJobDue_starts|intros [= <-]; done].
  - revert H. unfold onTriggersDue. apply each_preorder; [apply _|apply onTriggerDue_starts].
Qed.

Lemma onEvent_starts t key only t' : onEvent w t key only = Ok t' -> starts t t'.
Proof.
  unfold onEvent. destruct (negb (enabled t)); [intros [= <-]; done|].
  apply each_preorder; [apply _|apply onEventEntry_starts].
Qed.

End runs.

(** ** The runs of a round *)

(** No run starts or ends. *)
Record quiet (t t' : T) : Prop := {
  quiet_running : running t' = running t;
  quiet_active : active t' = active t;
}.

#[global] Instance quiet_preorder : PreOrder quiet.
Proof. split; [by split|]. intros t u v [] []. split; congruence. Qed.

Lemma idle_quiet t t' : idle t t' -> quiet t t'.
Proof. intros []. by split. Qed.

Ltac chain := etrans; [eassumption|by split].

(** A loop keeps what its body keeps. *)
Lemma foldl_invariant {A B} (P : B -> Prop) (f : B -> A -> B) : (forall b a, P b -> P (f b a)) -> forall l b, P b -> P (foldl f b l).
Proof. intros Hf l. induction l as [|a l IH]; intros b Hb; cbn; [done|]. by apply IH, Hf. Qed.

Section scheduling.
Context `{E : schedule.Env} (w : World).

Lemma updateNotSource_quiet t path st : quiet t (updateNotSource t path st).1.
Proof. unfold updateNotSource. destruct (replication.ReplicationSource st). by split. Qed.

Lemma evaluate_quiet t path e : quiet t (evaluate t path e).
Proof.
  unfold evaluate. destruct (localStatus t !! path) as [st|]; [|done]. destruct (pathZero path); [done|].
  set (u := if _ && sched.RequireReplicationSource _ then _ else t).
  assert (quiet t u) as Hu by (unfold u; destruct (_ && _); [apply updateNotSource_quiet|done]).
  clearbody u. destruct (_ && _); [etrans; [exact Hu|by split]|done].
Qed.

Lemma scheduleEntry_quiet path now t config t' : scheduleEntry path now t config = Ok t' -> quiet t t'.
Proof.
  unfold scheduleEntry. cbv zeta.
  set (e := match pkGet (schedules t) path _ with Some _ => _ | None => _ end). clearbody e.
  set (job := (_ ≫= _)). clearbody job. set (prev := pkGet (schedules t) path _). clearbody prev.
  set (u := evaluate _ path e). assert (quiet t u) as Hu by (etrans; [|apply evaluate_quiet]; by split).
  clearbody u. assert (quiet t (match job with Some _ => u <| jobs_ ::= fun j => jobs.del j path (sched.Key_ config) |> | None => u end)) as Hd
    by (etrans; [exact Hu|]; by destruct job).
  destruct (one_of _ _); [by intros [= <-]|]. destruct (blockReason u e); [by intros [= <-]|].
  destruct job as [j|]; [destruct prev as [prev|]; [destruct (String.eqb _ _)|]|].
  2,4: intros H; etrans; [exact Hu|]; by eapply idle_quiet, idle_planJob.
  all: by intros [= <-].
Qed.

Lemma dropJobs_quiet seen path t : quiet t (dropJobs seen path t).
Proof.
  unfold dropJobs. apply (foldl_invariant (quiet t)); [|done]. intros u key Hu. destruct (seen key); [done|chain].
Qed.

Lemma dropTriggers_quiet path t : quiet t (dropTriggers path t).
Proof.
  unfold dropTriggers. apply (foldl_invariant (quiet t)); [|done]. intros u [key g] Hu.
  destruct (match pkGet _ _ _ with Some _ => _ | None => _ end); [done|chain].
Qed.

Lemma scheduleEntries_quiet t path configs t' : scheduleEntries w t path configs = Ok t' -> quiet t t'.
Proof.
  unfold scheduleEntries. cbv zeta. destruct (each _ t configs) as [u| | |] eqn:Hu; try done. cbn. intros [= <-].
  assert (quiet t u) as Hq by (revert Hu; apply each_preorder; [apply _|apply scheduleEntry_quiet]).
  etrans; [exact Hq|]. etrans; [|apply idle_quiet, idle_exposed]. etrans; [|apply dropTriggers_quiet].
  etrans; [apply dropJobs_quiet|]. by split.
Qed.

Lemma scheduleObject_quiet t path t' : scheduleObject w t path = Ok t' -> quiet t t'.
Proof.
  unfold scheduleObject. destruct (negb _); [by intros [= <-]|].
  destruct (instanceSchedules w path); [apply scheduleEntries_quiet|by intros [= <-]].
Qed.

Lemma scheduleNode_quiet t t' : scheduleNode w t = Ok t' -> quiet t t'.
Proof.
  unfold scheduleNode. destruct (negb _); [by intros [= <-]|].
  destruct (nodeSchedules w); [apply scheduleEntries_quiet|by intros [= <-]].
Qed.

Lemma scheduleAll_quiet t t' : scheduleAll w t = Ok t' -> quiet t t'.
Proof.
  unfold scheduleAll. destruct (each _ t _) as [u| | |] eqn:Hu; try done. cbn. intros H. transitivity u.
  - revert Hu. apply each_preorder; [apply _|apply scheduleObject_quiet].
  - by apply scheduleNode_quiet.
Qed.

Lemma toggleEnabled_quiet t state t' : toggleEnabled w t state = Ok t' -> quiet t t'.
Proof.
  unfold toggleEnabled. cbv zeta. destruct (_ && _); [by intros [= <-]|]. destruct (_ && _); [|by intros [= <-]].
  intros H%scheduleAll_quiet. by etrans; [|exact H].
Qed.

Lemma onLocalInstanceStatusUpdated_quiet t path st : quiet t (onLocalInstanceStatusUpdated t path st).1.
Proof.
  unfold onLocalInstanceStatusUpdated. set (u := t <| localStatus ::= _ |>). assert (quiet t u) as Hu by done. clearbody u.
  pose proof (updateNotSource_quiet u path st) as Hn. destruct (updateNotSource u path st) as [v changed]. cbn in Hn.
  assert (quiet t v) as Hv by (by etrans).
  assert (exists x c, (if bool_decide (instance.Provisioned st = provisioned.Undef) then
      if bool_decide (is_Some (provisioned_ v !! path)) then (v <| provisioned_ ::= delete path |>, true) else (v, changed)
    else let '(t, c) := updateProvisioned v path (instance.Provisioned st) in (t, changed || c)) = (x, c) /\ quiet t x) as (x & c & -> & Hx).
  { case_bool_decide; [case_bool_decide|]; eexists _, _; (split; [reflexivity|]); done || chain. }
  clear Hu Hn Hv u v changed. destruct (schedules x !! path) as [m|]; [|done].
  apply (foldl_invariant (fun tc => quiet t tc.1)); [|cbn; chain].
  intros [v b] e Hv. cbn in *. destruct (String.eqb _ _); [done|chain].
Qed.

Lemma onPeerResource_quiet path peer t kv : quiet t (onPeerResource w path peer t kv).
Proof.
  unfold onPeerResource, updateLastRunOnFile. destruct kv as [rid r]. destruct (resourceid.Parse rid) as [id|]; [|done].
  destruct (negb _); [done|].
  set (u := match pkGet _ _ _ with Some _ => _ | None => _ end).
  assert (quiet t u) as Hu by (unfold u; destruct (pkGet _ _ _); [done|]; destruct (lastRunOn t !! _) as [[]|]; by split).
  clearbody u. destruct (_ ≫= _) as [tm|]; [|done].
  set (v := match lastRunOn u !! _ with Some _ => _ | None => _ end).
  assert (quiet t v) as Hv by (unfold v; destruct (lastRunOn u !! _) as [[lastTm n]|]; [destruct (_ && _)|destruct (hasVarDir _ _)]; [done|chain|chain|done]).
  clearbody v. destruct (pkGet _ _ _) as [latest|]; [destruct (time.After _ _)|]; done || chain.
Qed.

Lemma onInstanceStatusUpdated_quiet t path nodename st : quiet t (onInstanceStatusUpdated w t path nodename st).1.
Proof.
  unfold onInstanceStatusUpdated. destruct (String.eqb _ _); [apply onLocalInstanceStatusUpdated_quiet|]. cbn.
  unfold onPeerInstanceStatusUpdated. destruct (schedules t !! path); [|done].
  apply (foldl_invariant (quiet t)); [|done]. intros u kv Hu. etrans; [exact Hu|apply onPeerResource_quiet].
Qed.

Lemma onObjectStatusUpdated_quiet t path topology src t' : onObjectStatusUpdated w t path topology src = Ok t' -> quiet t t'.
Proof.
  unfold onObjectStatusUpdated. destruct topology as [top|]; [|by intros [= <-]].
  assert (quiet t match src with
        | InstanceStatusUpdated p n st => onInstanceStatusUpdated w t p n st
        | InstanceConfigUpdated _ n actor => (t, onInstanceConfigUpdated t n actor)
        | OtherSource => (t, false)
        end.1) as Hu by (destruct src; [apply onInstanceStatusUpdated_quiet|done|done]).
  destruct (match src with InstanceStatusUpdated _ _ _ => _ | _ => _ end) as [u changed]. cbn in Hu.
  unfold updateFailover. destruct (_ || _).
  - intros H%scheduleObject_quiet. etrans; [exact Hu|]. by etrans; [|exact H].
  - intros [= <-]. chain.
Qed.

End scheduling.

(** The runs the node counts are the ones that have not ended. *)
Definition counted (t : T) : Prop := active t = Z.of_nat (length (running t)).

Lemma quiet_counted t t' : quiet t t' -> counted t -> counted t'.
Proof. intros [H1 H2]. unfold counted. by rewrite H1, H2. Qed.

Lemma endRun_counted t n success : counted t -> counted (endRun t n success).
Proof.
  unfold counted, endRun. intros Hc. destruct (running t !! n) as [[e last]|] eqn:Hn; [|done]. cbn.
  rewrite length_delete by done. pose proof (lookup_lt_Some _ _ _ Hn). lia.
Qed.

(** The rounds that start runs, and the others. *)
Lemma handle_runs `{E : schedule.Env} w t ev t' : handle w t ev = Ok t' ->
  match ev with
  | EvRunEnded n success => t' = endRun t n success
  | EvTick | EvNetworkPeersUpdated _ | EvFileInstalled _ _ => starts w t t'
  | _ => quiet t t'
  end.
Proof.
  destruct ev; cbn [handle].
  - by intros [= <-].
  - apply toggleEnabled_quiet.
  - unfold onNodeConfigUpdated. cbv zeta. set (u := if (_ <? _)%Z then _ else t).
    assert (quiet t u) as Hu by (unfold u; by destruct (_ <? _)%Z). destruct (enabled u); [|by intros [= <-]].
    intros H%scheduleNode_quiet. by etrans.
  - apply onObjectStatusUpdated_quiet.
  - by intros [= <-].
  - unfold onDaemonCollectorUpdated. cbv zeta.
    destruct (one_of _ _), (isCollectorJoinable t); intros H; try (by simplify_eq);
      apply scheduleAll_quiet in H; by etrans; [|exact H].
  - apply onEvent_starts.
  - apply onEvent_starts.
  - apply onTick_starts.
  - by intros [= <-].
Qed.

(** C12: Whatever the event and what the handlers read, the runs a round starts are of
    entries that nothing blocks or holds back and that run fewer times than their
    maximum in parallel, the node then running its maximum of jobs at most; the end of
    a run removes it and nothing else, and the count of the runs is that of the list. *)
Theorem runs_are_allowed `{E : schedule.Env} w t ev t' : handle w t ev = Ok t' -> counted t ->
  counted t' /\
  match ev with
  | EvRunEnded n _ => running t' = delete n (running t)
  | _ => exists news, running t' = (running t ++ news)%list /\ Forall (allowed w t') news /\
      (news <> [] -> active t' <= maxRunning t')%Z
  end.
Proof.
  intros H Hc. apply handle_runs in H.
  assert (quiet t t' -> counted t' /\ exists news, running t' = (running t ++ news)%list /\ Forall (allowed w t') news /\
      (news <> [] -> active t' <= maxRunning t')%Z) as Hquiet.
  { intros Hq. split; [by eapply quiet_counted|]. exists []. rewrite app_nil_r. split; [apply Hq|]. by split; [constructor|]. }
  assert (starts w t t' -> counted t' /\ exists news, running t' = (running t ++ news)%list /\ Forall (allowed w t') news /\
      (news <> [] -> active t' <= maxRunning t')%Z) as Hstarts.
  { intros [H1 H2 H3 H4 Hm (news & Hr & Ha & Hn & Hb)]. unfold counted in *. rewrite Hr, Ha, length_app.
    split; [lia|]. exists news. split; [done|]. split; [|intros Hne; specialize (Hb Hne); lia].
    eapply Forall_impl; [exact Hn|]. intros r (Hbl & Hrest). split; [|done]. rewrite <- Hbl. by apply blockReason_eq. }
  destruct ev; try (by apply Hquiet); try (by apply Hstarts).
  subst t'. split; [by apply endRun_counted|]. unfold endRun. destruct (running t !! n) as [[e last]|] eqn:Hn; [done|].
  symmetry. apply list_eq. intros i. apply lookup_ge_None in Hn. clear -Hn. revert i.
  induction (running t) as [|a l IH] in n, Hn |- *; intros i; destruct n as [|n]; cbn in *; try done; [lia|].
  destruct i as [|i]; [done|]. cbn. apply IH. lia.
Qed.

Lemma runs_are_allowed_witness :
  running sched_example.ticked <> [] /\ counted sched_example.ticked /\
  exists news, running sched_example.ticked = (running sched_example.enabled ++ news)%list /\
    Forall (allowed (sched_example.world 10 0) sched_example.ticked) news /\
    (news <> [] -> active sched_example.ticked <= maxRunning sched_example.ticked)%Z.
Proof.
  split; [by vm_compute|].
  apply (runs_are_allowed (E := ScheduleNext.example.env) (sched_example.world 10 0) sched_example.enabled EvTick sched_example.ticked).
  - apply sched_example.ticked_step.
  - vm_compute. reflexivity.
Defined.
