(* ===== verification/SchedulerInvariant.v ===== *)
(** * The state of the scheduler

    What holds of the state of the loop between two rounds, whatever the events and
    what the handlers read: the jobs are in order, each is the one of an entry of
    the configuration and follows its expression, the triggers are those of entries
    that run on events, and nothing is planned while the scheduler is disabled. *)

From S2P Require Import Prelude Naming Status.
From S2P Require Import Instance.
From S2P Require Import Calendar Convert Schedule Key SchedTable SchedQueue SchedHeap Scheduler SchedulerExample SchedulerLogic.

Import schedule(result, Ok, Invalid, Panic, Hang).
Import scheduler.

(** ** The maps by path and key *)

Section pathKeyMap.
Context {V : Type}.
Implicit Types (m : pathKeyMap V) (path : naming.Path) (key : string) (v : V).

Lemma pkGet_set m path key v path' key' :
  pkGet (pkSet m path key v) path' key' = if decide ((path', key') = (path, key)) then Some v else pkGet m path' key'.
Proof.
  unfold pkGet, pkSet, pathKeyMap in *. destruct (decide (path' = path)) as [->|Hne].
  - rewrite lookup_insert_eq. cbn. destruct (decide (key' = key)) as [->|Hk].
    + by rewrite lookup_insert_eq, decide_True.
    + rewrite lookup_insert_ne by done. rewrite decide_False by congruence.
      destruct (m !! path); [done|]. cbn. by rewrite lookup_empty.
  - rewrite lookup_insert_ne by done. by rewrite decide_False by congruence.
Qed.

Lemma pkGet_unset m path key path' key' :
  pkGet (pkUnset m path key) path' key' = if decide ((path', key') = (path, key)) then None else pkGet m path' key'.
Proof.
  unfold pkGet, pkUnset, pathKeyMap in *. destruct (m !! path) as [mk|] eqn:Hm.
  2: { case_decide as Hd; [|done]. injection Hd as -> ->. by rewrite Hm. }
  destruct (decide (path' = path)) as [->|Hne].
  - rewrite Hm. cbn. assert (forall mk' : gmap string V, mk' = delete key mk -> mk' !! key' =
      if decide ((path, key') = (path, key)) then None else mk !! key') as Hd.
    { intros mk' ->. case_decide as Hd; [injection Hd as ->; by rewrite lookup_delete_eq|].
      by rewrite lookup_delete_ne by congruence. }
    destruct (Nat.eqb_spec (size (delete key mk)) 0) as [Hs|Hs].
    + rewrite lookup_delete_eq. rewrite <- (Hd _ eq_refl). apply map_size_empty_inv in Hs. rewrite Hs. by rewrite lookup_empty.
    + rewrite lookup_insert_eq. cbn. by apply Hd.
  - rewrite (decide_False (P := (path', key') = (path, key))) by congruence.
    destruct (Nat.eqb _ _); [by rewrite lookup_delete_ne|by rewrite lookup_insert_ne].
Qed.

Lemma pkGet_empty path key v : pkGet (∅ : gmap naming.Path (gmap string V)) path key <> Some v.
Proof. unfold pkGet, pathKeyMap in *. by rewrite lookup_empty. Qed.

Lemma pkGet_unsetPath m path path' key' :
  pkGet (delete path m) path' key' = if decide (path' = path) then None else pkGet m path' key'.
Proof.
  unfold pkGet, pathKeyMap in *. case_decide; [subst; by rewrite lookup_delete_eq|by rewrite lookup_delete_ne].
Qed.

Lemma pkGet_entries m path key v : pkGet m path key = Some v <->
  exists mk, m !! path = Some mk /\ mk !! key = Some v.
Proof. unfold pkGet, pathKeyMap in *. destruct (m !! path); cbn; naive_solver. Qed.

Lemma elem_of_pathKeys m path key : (path, key) ∈ pathKeys m <-> is_Some (pkGet m path key).
Proof.
  unfold pathKeys, pathKeyMap in *. rewrite list_elem_of_In, in_concat. split.
  - intros (l & (kv & <- & Hkv)%in_map_iff & Hin). apply in_map_iff in Hin as (k & Hk & Hin). simplify_eq.
    apply list_elem_of_In in Hkv, Hin. destruct kv as [path mk]. apply elem_of_map_to_list in Hkv. cbn in *.
    apply list_elem_of_fmap in Hin as ([k' v] & -> & Hin). apply elem_of_map_to_list in Hin.
    exists v. apply pkGet_entries. by exists mk.
  - intros [v (mk & Hp & Hk)%pkGet_entries]. eexists. split.
    + apply in_map_iff. exists (path, mk). split; [done|]. rewrite <- list_elem_of_In. by apply elem_of_map_to_list.
    + apply in_map_iff. exists key. split; [done|]. rewrite <- list_elem_of_In. apply list_elem_of_fmap.
      exists (key, v). split; [done|]. by apply elem_of_map_to_list.
Qed.

Lemma elem_of_values m v :
  v ∈ List.concat (map (fun kv => (map_to_list kv.2).*2) (map_to_list (m : gmap naming.Path (gmap string V)))) <->
  exists path key, pkGet m path key = Some v.
Proof.
  unfold pathKeyMap in *. rewrite list_elem_of_In, in_concat. split.
  - intros (l & (kv & <- & Hkv)%in_map_iff & Hin). apply list_elem_of_In in Hkv, Hin. destruct kv as [path mk].
    apply elem_of_map_to_list in Hkv. apply list_elem_of_fmap in Hin as ([k v'] & -> & Hin). apply elem_of_map_to_list in Hin.
    exists path, k. apply pkGet_entries. by exists mk.
  - intros (path & key & (mk & Hp & Hk)%pkGet_entries). eexists. split.
    + apply in_map_iff. exists (path, mk). split; [done|]. rewrite <- list_elem_of_In. by apply elem_of_map_to_list.
    + rewrite <- list_elem_of_In. apply list_elem_of_fmap. exists (key, v). split; [done|]. by apply elem_of_map_to_list.
Qed.

End pathKeyMap.

Lemma elem_of_entries (s : Schedules) e : e ∈ entries s <-> exists path key, pkGet s path key = Some e.
Proof. apply elem_of_values. Qed.

(** ** Planning *)

(** The key of an entry. *)
Definition idOf (e : sched.Entry) : naming.Path * string := (sched.Path_ e, sched.Key_ (sched.Config_ e)).

(** The expression of an entry has no next time after a last run. *)
Definition over `{E : schedule.Env} (e : sched.Entry) (now last : time.Time) : Prop :=
  sched.GetNextAt (e <| sched.LastRunAt := last |>) now = Invalid \/
  exists d, sched.GetNextAt (e <| sched.LastRunAt := last |>) now = Ok (time.zero, d).

(** The last run an entry is planned from: its own, or the one of its file when it has none, or a
    later one of the peers. *)
Definition plannedLast (t : T) (e : sched.Entry) : time.Time :=
  let last := if time.IsZero (sched.LastRunAt e) then sched.GetLastRun (files t) e else sched.LastRunAt e in
  if time.Before last (peerInstanceLastRun t e) then peerInstanceLastRun t e else last.

Section state.
Context `{E : schedule.Env}.

Lemma over_schedule e e' now last : sched.Schedule_ (sched.Config_ e) = sched.Schedule_ (sched.Config_ e') ->
  over e now last -> over e' now last.
Proof. unfold over, sched.GetNextAt. cbn. by intros ->. Qed.

(** The job an entry is planned with: of the same entry, and not before now; none
    if the expression has no next time. *)
Lemma planJob_spec t e now t' : wf (jobs_ t) -> planJob t e now = Ok t' ->
  exists j r, t' = t <| jobs_ := j |> /\ wf j /\
    (forall path key, planned j path key = if decide ((path, key) = idOf e) then r else planned (jobs_ t) path key) /\
    (forall path key, known j path key = if decide ((path, key) = idOf e) then r else known (jobs_ t) path key) /\
    (forall path key, (path, key) <> idOf e -> jobs.get j path key = jobs.get (jobs_ t) path key) /\
    match r with
    | Some e' => sched.Config_ e' = sched.Config_ e /\ sched.Path_ e' = sched.Path_ e /\ (now <= sched.NextRunAt e')%Z
    | None => over e now (plannedLast t e)
    end.
Proof.
  intros Hw. unfold planJob. cbv zeta.
  set (e1 := if time.IsZero (sched.LastRunAt e) then _ else e).
  set (e2 := if time.Before (sched.LastRunAt e1) _ then _ else e1).
  set (last := plannedLast t e).
  assert (e2 = e <| sched.LastRunAt := last |>) as He2.
  { unfold last, plannedLast, e2, e1, peerInstanceLastRun. destruct e. cbn.
    destruct (time.IsZero _); cbn; by destruct (time.Before _ _). }
  clearbody e2. clear e1. subst e2. set (e2 := e <| sched.LastRunAt := last |>).
  assert (forall t', Ok (t <| jobs_ ::= fun j => jobs.del j (sched.Path_ e2) (sched.Key_ (sched.Config_ e2)) |>) = Ok t' -> over e now last ->
    exists j r, t' = t <| jobs_ := j |> /\ wf j /\
    (forall path key, planned j path key = if decide ((path, key) = idOf e) then r else planned (jobs_ t) path key) /\
    (forall path key, known j path key = if decide ((path, key) = idOf e) then r else known (jobs_ t) path key) /\
    (forall path key, (path, key) <> idOf e -> jobs.get j path key = jobs.get (jobs_ t) path key) /\
    match r with
    | Some e' => sched.Config_ e' = sched.Config_ e /\ sched.Path_ e' = sched.Path_ e /\ (now <= sched.NextRunAt e')%Z
    | None => over e now (plannedLast t e)
    end) as Hdel.
  { intros u [= <-] Ho. destruct (del_spec (jobs_ t) (sched.Path_ e2) (sched.Key_ (sched.Config_ e2)) Hw) as (? & ? & ? & ?).
    eexists _, None. by split_and!. }
  destruct (sched.GetNextAt e2 now) as [[next d]| | |] eqn:Hn; try done; [|intros H; apply Hdel; [done|]; by left].
  destruct (time.IsZero next) eqn:Hz; [intros H; apply Hdel; [done|]; apply time.IsZero_spec in Hz as ->; right; by exists d|].
  clear Hdel. set (next' := if negb _ && _ then _ else next). set (next'' := if time.Before next' now then now else next').
  assert (now <= next'')%Z as Hle.
  { unfold next''. destruct (time.Before next' now) eqn:Hb; [done|]. by apply time.Before_false in Hb. }
  clearbody next''. intros [= <-].
  destruct (set_spec (jobs_ t) (e2 <| sched.NextRunAt := next'' |>) now Hw) as (? & ? & ? & ?).
  eexists _, (Some (e2 <| sched.NextRunAt := next'' |>)). by split_and!.
Qed.

(** ** The invariant *)

(** The part the configuration handlers keep all along. *)
Record core (t : T) : Prop := {
  core_jobs : wf (jobs_ t);
  core_entries : forall path key e, pkGet (schedules t) path key = Some e -> idOf e = (path, key);
  core_known : forall path key j, known (jobs_ t) path key = Some j ->
    exists e, pkGet (schedules t) path key = Some e /\
      sched.Schedule_ (sched.Config_ j) = sched.Schedule_ (sched.Config_ e);
}.

(** A trigger is one of an entry that runs on events. *)
Definition held (t : T) (path : naming.Path) (key : string) (g : trigger) : Prop :=
  exists e, pkGet (schedules t) path key = Some e /\ sched.On (sched.Config_ e) <> [] /\ trigger.isFor g e = true.

Record inv (t : T) : Prop := {
  inv_core : core t;
  inv_triggers : forall path key g, pkGet (triggers t) path key = Some g -> held t path key g;
  inv_enabled : enabled t = false -> (forall path key, known (jobs_ t) path key = None) /\ triggers t = ∅;
  inv_counted : counted t;
  inv_max : (0 < maxRunning t)%Z;
}.

(** [core] reads the jobs and the schedules only. *)
Lemma core_eq t t' : jobs_ t' = jobs_ t -> schedules t' = schedules t -> core t -> core t'.
Proof. intros Hj Hs [H1 H2 H3]. split; rewrite ?Hj, ?Hs; done. Qed.

(** An entry that is the one of the configuration, but for its last run. *)
Definition scheduled (t : T) (e : sched.Entry) : Prop :=
  exists e0, pkGet (schedules t) (sched.Path_ e) (sched.Key_ (sched.Config_ e)) = Some e0 /\ sched.Config_ e0 = sched.Config_ e.

(** A job planned for an expression of the configuration. *)
Lemma planJob_core t e now t' : core t -> planJob t e now = Ok t' ->
  (exists e0, pkGet (schedules t) (sched.Path_ e) (sched.Key_ (sched.Config_ e)) = Some e0 /\
    sched.Schedule_ (sched.Config_ e) = sched.Schedule_ (sched.Config_ e0)) -> core t'.
Proof.
  intros [Hw He Hk] H (e0 & He0 & Hs). apply planJob_spec in H as (j & r & -> & Hw' & _ & Hkn & _ & Hr); [|done].
  split; cbn; [done|done|]. intros path key j' Hj. rewrite Hkn in Hj. case_decide as Hd; [|by apply Hk].
  injection Hd as -> ->. subst r. exists e0. split; [done|]. destruct Hr as (-> & _). done.
Qed.

Lemma del_core t path key : core t -> core (t <| jobs_ ::= fun j => jobs.del j path key |>).
Proof.
  intros [Hw He Hk]. destruct (del_spec (jobs_ t) path key Hw) as (Hw' & _ & Hkn & _). split; cbn; [done|done|].
  intros path' key' j Hj. rewrite Hkn in Hj. case_decide; [done|]. by apply Hk.
Qed.

End state.

(** ** The rounds of the jobs and of the events *)

Definition triggersHeld (t : T) : Prop := forall path key g, pkGet (triggers t) path key = Some g -> held t path key g.

Definition inv0 (t : T) : Prop := core t /\ triggersHeld t.

(** Neither the configuration nor the triggers change. *)
Record still (t t' : T) : Prop := {
  still_schedules : schedules t' = schedules t;
  still_triggers : triggers t' = triggers t;
  still_enabled : enabled t' = enabled t;
  still_max : maxRunning t' = maxRunning t;
}.

#[global] Instance still_preorder : PreOrder still.
Proof. split; [by split|]. intros t u v [] []. split; congruence. Qed.

Lemma still_exposed t path : still t (updateExposedSchedules t path).
Proof. unfold updateExposedSchedules. by destruct (TableOf _ _). Qed.

Lemma core_exposed t path : core t -> core (updateExposedSchedules t path).
Proof. apply core_eq; unfold updateExposedSchedules; by destruct (TableOf _ _). Qed.

Lemma still_held t t' : still t t' -> triggersHeld t -> triggersHeld t'.
Proof. intros [Hs Ht _ _] H path key g Hg. rewrite Ht in Hg. destruct (H _ _ _ Hg) as (e & ?). exists e. by rewrite Hs. Qed.

(** A loop keeps what each of its rounds keeps. *)
Lemma each_invariant {A} (P : T -> Prop) (f : T -> A -> result T) l : forall t t',
  (forall t a t', a ∈ l -> P t -> f t a = Ok t' -> P t') -> P t -> each f t l = Ok t' -> P t'.
Proof.
  induction l as [|a l IH]; intros t t' Hf Hp H; cbn in H; [by simplify_eq|].
  destruct (f t a) as [u| | |] eqn:Ha; try done. apply (IH u); [|by eapply Hf; [left|..]|done].
  intros t1 b t2 Hb. apply Hf. by right.
Qed.

Section rounds.
Context `{E : schedule.Env} (w : World).

Lemma still_planJob t e now t' : planJob t e now = Ok t' -> still t t'.
Proof. intros [j ->]%planJob_jobs. by split. Qed.

Lemma entry_scheduled t path key e : core t -> pkGet (schedules t) path key = Some e ->
  exists e0, pkGet (schedules t) (sched.Path_ e) (sched.Key_ (sched.Config_ e)) = Some e0 /\
    sched.Schedule_ (sched.Config_ e) = sched.Schedule_ (sched.Config_ e0).
Proof. intros Hc He. pose proof (core_entries _ Hc _ _ _ He) as [= -> ->]. by exists e. Qed.

(** A job is planned again for its entry. *)
Lemma set_core t path key e e' now : core t -> pkGet (schedules t) path key = Some e ->
  idOf e' = idOf e -> sched.Config_ e' = sched.Config_ e -> core (t <| jobs_ ::= fun j => jobs.set j e' now |>).
Proof.
  intros Hc He Hi Hcfg. pose proof (core_entries _ Hc _ _ _ He) as Hid. destruct Hc as [Hw Hen Hk].
  destruct (set_spec (jobs_ t) e' now Hw) as (Hw' & _ & Hkn & _). split; cbn; [done|done|].
  intros path' key' j Hj. rewrite Hkn in Hj. change (pathOf e', SchedHeap.keyOf e') with (idOf e') in Hj. rewrite Hi, Hid in Hj.
  case_decide as Hd; [|by apply Hk]. injection Hd as -> ->. simplify_eq. exists e. by rewrite Hcfg.
Qed.

Lemma runDue_core t due path key e now t' : core t -> pkGet (schedules t) path key = Some e ->
  runDue w t due e now = Ok t' -> core t' /\ still t t'.
Proof.
  intros Hc He. unfold runDue. cbv zeta. set (last := if (_ <? _)%Z then now else _).
  destruct (planJob t _ now) as [u| | |] eqn:Hp; try done. cbn.
  assert (core u) as Hu by (eapply planJob_core; [exact Hc|exact Hp|exact (entry_scheduled t path key e Hc He)]).
  apply still_planJob in Hp. pose proof (core_exposed u (sched.Path_ e) Hu) as Hv.
  assert (still t (updateExposedSchedules u (sched.Path_ e))) as Hs by (etrans; [exact Hp|apply still_exposed]).
  set (v := updateExposedSchedules u _) in *. clearbody v.
  destruct (skipReason _ _ _); [intros [= <-]; done|]. destruct (runningCount _ _) as [n|]; [|intros [= <-]; done].
  destruct (_ <=? n)%Z; intros [= <-]; [done|]. split; [by apply (core_eq v)|]. etrans; [exact Hs|by split].
Qed.

Lemma onJobDue_core t due now t' : core t -> onJobDue w t due now = Ok t' -> core t' /\ still t t'.
Proof.
  intros Hc. unfold onJobDue. cbv zeta. destruct (pkGet (schedules t) _ _) as [e|] eqn:He.
  2: { intros [= <-]. split; [by apply del_core|by split]. }
  assert (core (holdJob t due e now) /\ still t (holdJob t due e now)) as Hh.
  { unfold holdJob. split; [|etrans; [|apply still_exposed]; by split]. apply core_exposed. eapply (set_core t); [exact Hc|exact He|done|done]. }
  destruct (time.Before _ _).
  - destruct (planJob t _ now) as [u| | |] eqn:Hp; try done. cbn. intros [= <-]. split.
    + apply core_exposed. eapply planJob_core; [exact Hc|exact Hp|exact (entry_scheduled t _ _ e Hc He)].
    + etrans; [by eapply still_planJob|apply still_exposed].
  - destruct (holdReason w e); [by intros [= <-]|]. destruct (full t); [by intros [= <-]|]. by eapply runDue_core.
Qed.

(** The entries stay those of the configuration. *)
Record keeps (t t' : T) : Prop := {
  keeps_scheduled : forall e, scheduled t e -> scheduled t' e;
  keeps_enabled : enabled t' = enabled t;
  keeps_max : maxRunning t' = maxRunning t;
}.

#[local] Instance keeps_preorder : PreOrder keeps.
Proof. split; [by split|]. intros t u v [] []. split; [naive_solver|congruence..]. Qed.

Lemma still_keeps t t' : still t t' -> keeps t t'.
Proof. intros [Hs Ht He Hm]. split; [|done|done]. intros e. unfold scheduled. by rewrite Hs. Qed.

Lemma isFor_eq g g' e : trigger.spec g' = trigger.spec g -> trigger.on g' = trigger.on g -> trigger.isFor g' e = trigger.isFor g e.
Proof. unfold trigger.isFor. by intros -> ->. Qed.

Lemma isFor_config g e e' : sched.Config_ e' = sched.Config_ e -> trigger.isFor g e' = trigger.isFor g e.
Proof. unfold trigger.isFor. by intros ->. Qed.

Lemma ease_same fuel : forall g quiet, trigger.spec (trigger.ease fuel g quiet) = trigger.spec g /\
  trigger.on (trigger.ease fuel g quiet) = trigger.on g /\ trigger.pace (trigger.ease fuel g quiet) = trigger.pace g /\
  trigger.lastRunAt (trigger.ease fuel g quiet) = trigger.lastRunAt g /\ trigger.dueAt (trigger.ease fuel g quiet) = trigger.dueAt g.
Proof.
  induction fuel as [|fuel IH]; intros g quiet; cbn [trigger.ease]; [done|]. destruct (_ && _); [|done].
  set (g1 := g <| trigger.interval := _ |>). destruct (IH g1 (quiet - trigger.interval g)%Z) as (-> & -> & -> & -> & ->). done.
Qed.

Lemma onEvent_same g now e : trigger.isFor (trigger.onEvent g now).1 e = trigger.isFor g e.
Proof.
  unfold trigger.onEvent. cbv zeta. destruct (negb _); [done|]. destruct (time.IsZero _); [done|].
  destruct (time.Before _ _); [done|]. apply isFor_eq; apply ease_same.
Qed.

(** The trigger of an entry on events. *)
Lemma setTrigger_inv0 t e g : inv0 t -> scheduled t e -> sched.On (sched.Config_ e) <> [] -> trigger.isFor g e = true ->
  inv0 (setTrigger t (sched.Path_ e) (sched.Key_ (sched.Config_ e)) g) /\ keeps t (setTrigger t (sched.Path_ e) (sched.Key_ (sched.Config_ e)) g).
Proof.
  intros [Hc Hh] (e0 & He0 & Hcfg) Hon Hfor. split; [|by split]. split; [by apply (core_eq t)|].
  intros path key g' Hg. cbn in Hg. rewrite pkGet_set in Hg. case_decide as Hd; [|by apply Hh].
  injection Hd as -> ->. simplify_eq. exists e0. split; [done|]. rewrite Hcfg. split; [done|]. by rewrite (isFor_config _ e).
Qed.

Lemma unset_inv0 t path key : inv0 t -> inv0 (t <| triggers ::= fun m => pkUnset m path key |>).
Proof.
  intros [Hc Hh]. split; [by apply (core_eq t)|]. intros path' key' g Hg. cbn in Hg. rewrite pkGet_unset in Hg.
  case_decide; [done|]. by apply Hh.
Qed.

Lemma getTrigger_inv0 t e u g : inv0 t -> scheduled t e -> sched.On (sched.Config_ e) <> [] -> getTrigger t e = Ok (u, g) ->
  inv0 u /\ keeps t u /\ trigger.isFor g e = true.
Proof.
  intros Hi Hs Hon. unfold getTrigger. cbv zeta.
  assert (forall last, (g0 ← trigger.newTrigger (sched.Pace (sched.Config_ e)) (sched.On (sched.Config_ e));
    Ok (setTrigger t (sched.Path_ e) (sched.Key_ (sched.Config_ e)) (g0 <| trigger.lastRunAt := last |>), g0 <| trigger.lastRunAt := last |>)) = Ok (u, g) ->
    inv0 u /\ keeps t u /\ trigger.isFor g e = true) as Hmake.
  { intros last. unfold trigger.newTrigger. destruct (sched.ParsePace _) as [p| | |]; try done. cbn. intros [= <- <-].
    match goal with |- inv0 (setTrigger _ _ _ ?x) /\ _ => assert (trigger.isFor x e = true) as Hfor end.
    { unfold trigger.isFor. cbn. by rewrite String.eqb_refl, bool_decide_eq_true_2. }
    destruct (setTrigger_inv0 t e _ Hi Hs Hon Hfor). done. }
  destruct (pkGet (triggers t) _ _) as [g0|]; [|apply Hmake].
  destruct (trigger.isFor g0 e) eqn:Hfor; [by intros [= <- <-]|apply Hmake].
Qed.

(** The last run of an entry changes in the configuration. *)
Lemma Add_inv0 t e now : inv0 t -> scheduled t e ->
  let u := t <| schedules ::= fun s => Add s (sched.Path_ e) (e <| sched.LastRunAt := now |>) |> in inv0 u /\ keeps t u.
Proof.
  intros [[Hw He Hk] Hh] (e0 & He0 & Hcfg) u.
  assert (forall path key, pkGet (schedules u) path key =
    if decide ((path, key) = idOf e) then Some (e <| sched.LastRunAt := now |>) else pkGet (schedules t) path key) as Hg by (intros; apply pkGet_set).
  assert (forall path key e1, pkGet (schedules t) path key = Some e1 -> exists e2, pkGet (schedules u) path key = Some e2 /\
    sched.Config_ e2 = sched.Config_ e1) as Hfw.
  { intros path key e1 H1. rewrite Hg. case_decide as Hd; [|by exists e1]. injection Hd as -> ->.
    eexists. split; [done|]. rewrite He0 in H1. by simplify_eq. }
  split; [split; [split|]|split; [|done|done]].
  - exact Hw.
  - intros path key e1. rewrite Hg. case_decide as Hd; [|apply He]. rewrite Hd. by intros [= <-].
  - intros path key j Hj. destruct (Hk path key j Hj) as (e1 & H1 & Hs). destruct (Hfw _ _ _ H1) as (e2 & H2 & Hc2). exists e2.
    by rewrite Hc2.
  - intros path key g Hgt. destruct (Hh path key g Hgt) as (e1 & H1 & Hon & Hfor). destruct (Hfw _ _ _ H1) as (e2 & H2 & Hc2).
    exists e2. split; [done|]. rewrite Hc2. split; [done|]. by rewrite (isFor_config _ e1).
  - intros e1 (e1' & H1 & Hc1). destruct (Hfw _ _ _ H1) as (e2 & H2 & Hc2). exists e2. split; [done|]. congruence.
Qed.

Lemma still_inv0 t t' : core t' -> still t t' -> inv0 t -> inv0 t' /\ keeps t t'.
Proof. intros Hc Hs [_ Hh]. split; [split; [done|by eapply still_held]|by apply still_keeps]. Qed.

Lemma recordEventRun_inv0 t e now t' : inv0 t -> scheduled t e ->
  recordEventRun t (sched.Path_ e) e now = Ok t' -> inv0 t' /\ keeps t t'.
Proof.
  intros Hi Hs. unfold recordEventRun. cbv zeta.
  destruct (Add_inv0 t e now Hi Hs) as [Hu Hk]. set (u := t <| schedules ::= _ |>) in *. clearbody u.
  destruct (match (_ ≫= _) with Some j => _ | None => _ end) as [v| | |] eqn:Hv; try done. cbn. intros [= <-].
  assert (core v /\ still u v) as [Hcv Hsv].
  { destruct (jobs.get (jobs_ u) _ _) as [p|] eqn:Hp; cbn in Hv; [|by simplify_eq; split; [apply Hu|]].
    destruct (wf_keys _ (core_jobs _ (proj1 Hu)) _ _ _ Hp) as (j & Hj & Hpj & Hkj).
    unfold entryOf, body in Hj. destruct (jobs.store (jobs_ u) !! p) as [jb|] eqn:Hjb; [|done]. cbn in Hj, Hv. simplify_eq.
    split; [|by eapply still_planJob]. eapply planJob_core; [apply Hu|exact Hv|]. unfold pathOf, SchedHeap.keyOf in *.
    change (exists e0, pkGet (schedules u) (sched.Path_ (jobs.entry jb)) (sched.Key_ (sched.Config_ (jobs.entry jb))) = Some e0 /\
      sched.Schedule_ (sched.Config_ (jobs.entry jb)) = sched.Schedule_ (sched.Config_ e0)).
    apply (core_known _ (proj1 Hu)). unfold known. rewrite Hpj, Hkj.
    rewrite Hp. cbn. unfold entryOf, body. by rewrite Hjb. }
  set (v' := v <| lastRunOnAllPeers ::= _ |>).
  assert (core v' /\ still u v') as [Hcv' Hsv'] by (split; [by apply (core_eq v)|etrans; [exact Hsv|by split]]).
  destruct (still_inv0 u (updateExposedSchedules v' (sched.Path_ e))) as [? ?];
    [by apply core_exposed|etrans; [exact Hsv'|apply still_exposed]|done|]. split; [done|]. by etrans.
Qed.

Lemma runTrigger_inv0 t e g now late t' : inv0 t -> scheduled t e -> sched.On (sched.Config_ e) <> [] -> trigger.isFor g e = true ->
  runTrigger w t (sched.Path_ e) e g now late = Ok t' -> inv0 t' /\ keeps t t'.
Proof.
  intros Hi Hs Hon Hfor. unfold runTrigger. cbv zeta.
  assert (forall g' u, trigger.spec g' = trigger.spec g -> trigger.on g' = trigger.on g ->
    Ok (setTrigger t (sched.Path_ e) (sched.Key_ (sched.Config_ e)) g') = Ok u -> inv0 u /\ keeps t u) as Hput.
  { intros g' u H1 H2 [= <-]. apply setTrigger_inv0; [done|done|done|]. by rewrite (isFor_eq g). }
  assert (trigger.spec (trigger.ran g now late) = trigger.spec g /\ trigger.on (trigger.ran g now late) = trigger.on g) as [R1 R2]
    by (unfold trigger.ran; by destruct late).
  destruct (blockReason t e); [by apply Hput|]. destruct (holdReason w e); [by apply Hput|].
  destruct (full t); [by apply Hput|]. destruct (runningCount w e) as [n|]; [|by apply Hput].
  destruct (_ <=? n)%Z; [by apply Hput|]. destruct (Hput (trigger.ran g now late) _ R1 R2 eq_refl) as [Hu Hk].
  destruct (recordEventRun _ _ e now) as [v| | |] eqn:Hv; try done. cbn. intros [= <-].
  apply recordEventRun_inv0 in Hv as [[Hcv Hhv] Hkv]; [|done|by apply Hk].
  split; [split; [by apply (core_eq v)|done]|]. etrans; [exact Hk|]. etrans; [exact Hkv|by split].
Qed.

Lemma onEventEntry_inv0 key only t e t' : inv0 t -> scheduled t e -> onEventEntry w key only t e = Ok t' -> inv0 t' /\ keeps t t'.
Proof.
  intros Hi Hs. unfold onEventEntry. cbv zeta. destruct (_ && _); [by intros [= <-]|].
  destruct (matchOn e key) eqn:Hm; cbn [negb]; [|by intros [= <-]].
  assert (sched.On (sched.Config_ e) <> []) as Hon by (intros Hon; unfold matchOn in Hm; by rewrite Hon in Hm).
  destruct (getTrigger t e) as [[u g]| | |] eqn:Hg; try done; [|by intros [= <-]].
  apply getTrigger_inv0 in Hg as (Hu & Hk & Hfor); [|done|done|done].
  pose proof (onEvent_same g (now w) e) as Hsame. destruct (trigger.onEvent g (now w)) as [g' run]. cbn in Hsame. rewrite Hfor in Hsame.
  destruct (setTrigger_inv0 u e g' Hu (keeps_scheduled _ _ Hk e Hs) Hon Hsame) as [Hv Hkv].
  assert (keeps t (setTrigger u (sched.Path_ e) (sched.Key_ (sched.Config_ e)) g')) as Hk' by (by etrans).
  destruct run; [|by intros [= <-]]. intros H. apply runTrigger_inv0 in H as [? ?]; [|done|by apply Hk'|done|done].
  split; [done|]. by etrans.
Qed.

Lemma onTriggerDue_inv0 now t pk t' : inv0 t -> onTriggerDue w now t pk = Ok t' -> inv0 t' /\ keeps t t'.
Proof.
  intros Hi. unfold onTriggerDue. destruct pk as [path key]. destruct (pkGet (triggers t) path key) as [g|] eqn:Hg; [|by intros [= <-]].
  destruct (_ || _); [by intros [= <-]|].
  assert (inv0 (t <| triggers ::= fun m => pkUnset m path key |>) /\ keeps t (t <| triggers ::= fun m => pkUnset m path key |>)) as Hun
    by (split; [by apply unset_inv0|by split]).
  destruct (pkGet (schedules t) path key) as [e|] eqn:He; [|by intros [= <-]].
  case_bool_decide as Hon; [by intros [= <-]|]. destruct (proj2 Hi _ _ _ Hg) as (e0 & He0 & _ & Hfor). rewrite He in He0. injection He0 as <-.
  pose proof (core_entries _ (proj1 Hi) _ _ _ He) as [= <- <-]. intros H.
  apply runTrigger_inv0 in H; [done|done|by exists e|done|done].
Qed.

Lemma onEvent_inv0 t key only t' : inv0 t -> onEvent w t key only = Ok t' -> inv0 t' /\ keeps t t'.
Proof.
  intros Hi. unfold onEvent. destruct (negb (enabled t)); [by intros [= <-]|]. intros H.
  apply (each_invariant (fun u => inv0 u /\ keeps t u)) in H; [done| |by split].
  intros u e v Hin [Hu Hk] Hv. apply elem_of_entries in Hin as (path & k & He).
  pose proof (core_entries _ (proj1 Hi) _ _ _ He) as [= <- <-].
  destruct (onEventEntry_inv0 key only u e v Hu) as [? ?]; [apply Hk; by exists e|done|]. split; [done|by etrans].
Qed.

Lemma each_onJobDue_core l t t' :
  each (fun t p => match jobs.store (jobs_ t) !! p with
                       | Some j => onJobDue w t (jobs.entry j) (now w)
                       | None => Ok t
                       end) t l = Ok t' -> core t -> core t' /\ still t t'.
Proof.
  intros H Hc. apply (each_invariant (fun u => core u /\ still t u)) in H; [done| |by split].
  intros u p v _ [Hu Hs]. destruct (jobs.store (jobs_ u) !! p); [|by intros [= <-]].
  intros [? ?]%onJobDue_core; [|done]. split; [done|by etrans].
Qed.

(** The jobs due leave the queue, and stay known. *)
Lemma popDue_known t now : wf t -> let '(q, l) := jobs.popDue t now in
  wf q /\ forall path key, known q path key = known t path key.
Proof.
  intros Hw. unfold jobs.popDue. pose proof (popDueN_spec (length (jobs.queue t)) now t Hw ltac:(lia)) as H.
  destruct (jobs.popDueN _ t now) as [q l]. destruct H as (Hw' & Hf & _). split; [done|]. intros path key. unfold known.
  rewrite (frame_get _ _ _ _ Hf). destruct (jobs.get t path key); [|done]. apply (frame_entryOf _ _ _ Hf).
Qed.

Lemma popDue_core t q l : core t -> jobs.popDue (jobs_ t) (now w) = (q, l) -> core (t <| jobs_ := q |>).
Proof.
  intros [Hw He Hk] Hp. pose proof (popDue_known (jobs_ t) (now w) Hw) as H. rewrite Hp in H. destruct H as [Hw' Hkn].
  split; cbn; [done|done|]. intros path key j Hj. rewrite Hkn in Hj. by apply Hk.
Qed.

Lemma onTick_inv0 t t' : inv0 t -> onTick w t = Ok t' -> inv0 t' /\ keeps t t'.
Proof.
  intros Hi. unfold onTick. cbv zeta. destruct (jobs.popDue (jobs_ t) (now w)) as [q l] eqn:Hp.
  assert (core (t <| jobs_ := q |>)) as Hcu by (eapply popDue_core; [apply Hi|done]).
  destruct (each _ _ l) as [v| | |] eqn:Hv; try done. cbn. apply each_onJobDue_core in Hv as [Hcv Hsv]; [|done].
  destruct (still_inv0 t v Hcv) as [Hiv Hkv]; [by etrans; [|exact Hsv]|done|].
  intros H. apply (each_invariant (fun u => inv0 u /\ keeps t u)) in H; [done| |done].
  intros u pk x _ [Hu Hk] Hx%onTriggerDue_inv0; [|done]. split; [apply Hx|by etrans; [|apply Hx]].
Qed.

End rounds.

(** ** The rounds of the configuration *)

(** Only what the loop follows of the other components changes. *)
Record aside (t t' : T) : Prop := {
  aside_still : still t t';
  aside_jobs : jobs_ t' = jobs_ t;
}.

#[global] Instance aside_preorder : PreOrder aside.
Proof. split; [by split|]. intros t u v [] []. split; [by etrans|congruence]. Qed.

Lemma updateNotSource_aside t path st : aside t (updateNotSource t path st).1.
Proof. unfold updateNotSource. destruct (replication.ReplicationSource st). by repeat split. Qed.

(** What the plan of an entry of the configuration does. *)
Record replans (path : naming.Path) (config : sched.Config) (t t' : T) : Prop := {
  replans_core : core t';
  replans_triggers : triggers t' = triggers t;
  replans_enabled : enabled t' = enabled t;
  replans_max : maxRunning t' = maxRunning t;
  replans_entry : exists e, pkGet (schedules t') path (sched.Key_ config) = Some e /\ sched.Config_ e = config;
  replans_others : forall path' key', (path', key') <> (path, sched.Key_ config) ->
    pkGet (schedules t') path' key' = pkGet (schedules t) path' key';
}.

Section configuration.
Context `{E : schedule.Env} (w : World).

(** The end of the plan: [u] has the new entry, and the old jobs. *)
Lemma replan_core t u path e : core t -> jobs_ u = jobs_ t -> idOf e = (path, sched.Key_ (sched.Config_ e)) ->
  (forall path' key', pkGet (schedules u) path' key' =
    if decide ((path', key') = idOf e) then Some e else pkGet (schedules t) path' key') ->
  (forall j, wf j ->
     (forall path' key', (path', key') <> idOf e -> known j path' key' = known (jobs_ t) path' key') ->
     (forall e', known j path (sched.Key_ (sched.Config_ e)) = Some e' -> sched.Schedule_ (sched.Config_ e') = sched.Schedule_ (sched.Config_ e)) ->
     core (u <| jobs_ := j |>)).
Proof.
  intros [Hw He Hk] Hj Hid Hs j Hwj Hothers Hkey. split; cbn.
  - done.
  - intros path' key' e'. rewrite Hs. case_decide as Hd; [intros [= <-]; by rewrite Hd|apply He].
  - intros path' key' j' Hj'. rewrite Hs. case_decide as Hd.
    + exists e. split; [done|]. rewrite Hid in Hd. injection Hd as -> ->. by apply Hkey.
    + rewrite Hothers in Hj' by done. by apply Hk.
Qed.

Lemma evaluate_aside t path e : aside t (evaluate t path e).
Proof.
  unfold evaluate. destruct (localStatus t !! path) as [st|]; [|done]. destruct (pathZero path); [done|].
  set (u := if _ && sched.RequireReplicationSource _ then _ else t).
  assert (aside t u) as Hu by (unfold u; destruct (_ && _); [apply updateNotSource_aside|done]).
  clearbody u. destruct (_ && _); [etrans; [exact Hu|by repeat split]|done].
Qed.

Lemma scheduleEntry_replans path now t config t' : core t -> scheduleEntry path now t config = Ok t' -> replans path config t t'.
Proof.
  intros Hc. unfold scheduleEntry. cbv zeta.
  set (e := match pkGet (schedules t) path _ with Some _ => _ | None => _ end).
  assert (idOf e = (path, sched.Key_ config) /\ sched.Config_ e = config) as [Hid Hcfg]
    by (unfold e; destruct (pkGet _ _ _); [done|]; by case_bool_decide).
  clearbody e. subst config. set (u0 := t <| schedules ::= fun s => Add s path e |>).
  destruct (evaluate_aside u0 path e) as [[Hs Ht He Hm] Hj]. set (u := evaluate u0 path e) in *. clearbody u.
  assert (forall path' key', pkGet (schedules u) path' key' =
    if decide ((path', key') = idOf e) then Some e else pkGet (schedules t) path' key') as Hg.
  { intros path' key'. rewrite Hs, Hid. apply pkGet_set. }
  change (triggers u = triggers t) in Ht. change (enabled u = enabled t) in He. change (maxRunning u = maxRunning t) in Hm.
  change (jobs_ u = jobs_ t) in Hj.
  clear Hs. change (jobs_ u0) with (jobs_ t).
  assert (forall j, wf j ->
     (forall path' key', (path', key') <> idOf e -> known j path' key' = known (jobs_ t) path' key') ->
     (forall e', known j path (sched.Key_ (sched.Config_ e)) = Some e' -> sched.Schedule_ (sched.Config_ e') = sched.Schedule_ (sched.Config_ e)) ->
     replans path (sched.Config_ e) t (u <| jobs_ := j |>)) as Hrep.
  { intros j Hwj Ho Hkey. split; [by eapply replan_core|cbn; congruence|cbn; congruence|cbn; congruence| |].
    - exists e. split; [|done]. cbn. by rewrite Hg, Hid, decide_True.
    - intros path' key' Hne. cbn. rewrite Hg, Hid. by rewrite decide_False. }
  assert (forall v, v = u <| jobs_ := jobs_ v |> -> wf (jobs_ v) ->
    (forall path' key', (path', key') <> idOf e -> known (jobs_ v) path' key' = known (jobs_ t) path' key') ->
    (forall e', known (jobs_ v) path (sched.Key_ (sched.Config_ e)) = Some e' -> sched.Schedule_ (sched.Config_ e') = sched.Schedule_ (sched.Config_ e)) ->
    replans path (sched.Config_ e) t v) as Hrep' by (intros v -> ? ? ?; by apply Hrep).
  assert (u = u <| jobs_ := jobs_ u |>) as Hself by (by destruct u).
  pose proof (core_jobs _ Hc) as Hw. injection Hid as Hpath. 
  set (job := (_ ≫= _)).
  assert (known (jobs_ t) path (sched.Key_ (sched.Config_ e)) = jobs.entry <$> job) as Hjob.
  { unfold job, known. destruct (jobs.get _ _ _) as [p|] eqn:Hp; [|done]. cbn. unfold entryOf, body. by destruct (jobs.store _ !! p). }
  clearbody job.
  assert (replans path (sched.Config_ e) t
    match job with Some _ => u <| jobs_ ::= fun j => jobs.del j path (sched.Key_ (sched.Config_ e)) |> | None => u end) as Hun.
  { destruct job as [jb|].
    - destruct (del_spec (jobs_ u) path (sched.Key_ (sched.Config_ e)) ltac:(by rewrite Hj)) as (Hwd & _ & Hkd & _).
      apply Hrep'; [done|done| |].
      + intros path' key' Hne. cbn. rewrite Hkd, Hj, decide_False; [done|]. by rewrite <- Hpath.
      + intros e'. cbn. by rewrite Hkd, decide_True.
    - apply Hrep'; [done|by rewrite Hj|by rewrite Hj|]. intros e'. rewrite Hj, Hjob. done. }
  assert (forall last, planJob u (e <| sched.LastRunAt := last |>) now = Ok t' -> replans path (sched.Config_ e) t t') as Hplan.
  { intros last H. apply planJob_spec in H as (j & r & -> & Hwj & _ & Hkn & _ & Hr); [|by rewrite Hj].
    apply Hrep'; [done|done| |]; cbn.
    - intros path' key' Hne. by rewrite Hkn, Hj, decide_False.
    - intros e'. rewrite Hkn. change (idOf (e <| sched.LastRunAt := last |>)) with (idOf e).
      rewrite decide_True by (unfold idOf; congruence). intros ->. by destruct Hr as (-> & _). }
  destruct (one_of _ _); [intros [= <-]; exact Hun|]. destruct (blockReason u e); [intros [= <-]; exact Hun|].
  destruct job as [jb|]; [|by intros H; apply (Hplan (sched.LastRunAt e)); destruct e].
  destruct (pkGet (schedules t) path _) as [prev|] eqn:Hprev.
  - destruct (String.eqb_spec (sched.Schedule_ (sched.Config_ prev)) (sched.Schedule_ (sched.Config_ e))) as [Heq|_]; [|apply Hplan].
    intros [= <-]. apply Hrep'; [done|by rewrite Hj|by rewrite Hj|]. intros e'. rewrite Hj, <- Heq. intros He'.
    destruct (core_known _ Hc _ _ _ He') as (e1 & He1 & ->). rewrite Hprev in He1. by injection He1 as ->.
  - destruct (core_known _ Hc _ _ _ Hjob) as (e1 & He1 & _). congruence.
Qed.

(** What the end of a plan drops. *)
Lemma dropJobs_spec seen path t : core t -> let t' := dropJobs seen path t in
  core t' /\ still t t' /\ forall key, is_Some (known (jobs_ t') path key) -> seen key = true.
Proof.
  intros Hc. cbv zeta.
  assert (forall key, is_Some (known (jobs_ t) path key) -> key ∈ jobs.keys (jobs_ t) path \/ seen key = true) as Hkeys
    by (intros key Hk; left; by rewrite elem_of_keys, <- known_get by apply Hc).
  unfold dropJobs. revert Hc Hkeys. generalize (jobs.keys (jobs_ t) path). intros l. revert t.
  induction l as [|k l IH]; intros t Hc Hk; cbn.
  - split; [done|]. split; [done|]. intros key H. by destruct (Hk key H) as [?%elem_of_nil|].
  - destruct (seen k) eqn:Hs.
    + apply IH; [done|]. intros key H. destruct (Hk key H) as [[->|?]%elem_of_cons|]; auto.
    + destruct (IH (t <| jobs_ ::= fun j => jobs.del j path k |>)) as (H1 & H2 & H3); [by apply del_core| |].
      * intros key H. cbn in H. destruct (del_spec (jobs_ t) path k (core_jobs _ Hc)) as (_ & _ & Hd & _). rewrite Hd in H.
        case_decide as Hne; [by destruct H|]. destruct (Hk key H) as [[->|?]%elem_of_cons|]; [done|auto..].
      * split; [done|]. split; [by etrans; [|exact H2]|done].
Qed.

(** The entries left are those of the configuration. *)
Lemma filter_get (s : Schedules) seen path path' key :
  pkGet (alter (fun m : gmap string sched.Entry => filter (fun kv => seen kv.1 = true) m) path s) path' key =
  if decide (path' = path /\ seen key = false) then None else pkGet s path' key.
Proof.
  unfold pkGet, Schedules, pathKeyMap in *. destruct (decide (path' = path)) as [->|Hne].
  - rewrite lookup_alter_eq. destruct (s !! path) as [m|]; cbn; [|by case_decide].
    destruct (seen key) eqn:Hs.
    + rewrite decide_False by (by intros []). destruct (m !! key) eqn:Hm.
      * by apply map_lookup_filter_Some.
      * apply map_lookup_filter_None. by left.
    + rewrite decide_True by done. apply map_lookup_filter_None. right. intros x _. cbn. congruence.
  - rewrite lookup_alter_ne by done. by rewrite decide_False by (by intros []).
Qed.

Lemma dropTriggers_spec path t : let t' := dropTriggers path t in
  jobs_ t' = jobs_ t /\ schedules t' = schedules t /\ enabled t' = enabled t /\ maxRunning t' = maxRunning t /\
  (forall path' key g, pkGet (triggers t') path' key = Some g -> pkGet (triggers t) path' key = Some g) /\
  (forall key g, pkGet (triggers t') path key = Some g -> held t path key g).
Proof.
  cbv zeta. assert (forall key g, pkGet (triggers t) path key = Some g ->
    (key, g) ∈ map_to_list (default ∅ (triggers t !! path)) \/ held t path key g) as Hall.
  { intros key g (m & Hm & Hg)%pkGet_entries. left. unfold pathKeyMap in *. rewrite Hm. by apply elem_of_map_to_list. }
  unfold dropTriggers. revert Hall. generalize (map_to_list (default ∅ (triggers t !! path))). intros l. revert t.
  induction l as [|[k x] l IH]; intros t Hall; cbn.
  - split_and!; try done. intros key g Hg. by destruct (Hall key g Hg) as [?%elem_of_nil|].
  - set (keep := match pkGet (schedules t) path k with Some _ => _ | None => _ end).
    assert (keep = true -> held t path k x) as Hkeep.
    { unfold keep, held. destruct (pkGet (schedules t) path k) as [e|]; [|done]. rewrite andb_true_iff, negb_true_iff.
      intros [Hon Hfor]. exists e. split; [done|]. split; [|done]. by apply bool_decide_eq_false in Hon. }
    destruct keep.
    + apply IH. intros key g Hg. destruct (Hall key g Hg) as [[[= -> ->]|?]%elem_of_cons|]; auto.
    + destruct (IH (t <| triggers ::= fun m => pkUnset m path k |>)) as (H1 & H2 & H3 & H4 & H5 & H6).
      * intros key g Hg. cbn in Hg. rewrite pkGet_unset in Hg. case_decide as Hne; [done|].
        destruct (Hall key g Hg) as [[[= -> ->]|?]%elem_of_cons|?]; [done|by left|by right].
      * split_and!; try done. intros path' key g Hg. apply H5 in Hg. cbn in Hg. rewrite pkGet_unset in Hg. by case_decide.
Qed.

Lemma scheduleEntries_inv0 t path configs t' : inv0 t -> scheduleEntries w t path configs = Ok t' ->
  inv0 t' /\ enabled t' = enabled t /\ maxRunning t' = maxRunning t.
Proof.
  intros [Hc Hh]. unfold scheduleEntries. cbv zeta. destruct (each _ t configs) as [u| | |] eqn:Hu; try done. cbn [mbind schedule.result_bind].
  apply (each_invariant (fun u => core u /\ triggers u = triggers t /\ enabled u = enabled t /\ maxRunning u = maxRunning t /\
    forall path' key, path' <> path -> pkGet (schedules u) path' key = pkGet (schedules t) path' key)) in Hu; [|clear u Hu|by split_and!].
  2: { intros u c v _ (H1 & H2 & H3 & H4 & H5) Hv%scheduleEntry_replans; [|done]. destruct Hv as [V1 V2 V3 V4 _ V5].
    split_and!; [done|congruence..|]. intros path' key Hne. rewrite V5 by congruence. by apply H5. }
  destruct Hu as (H1 & H2 & H3 & H4 & H5). set (seen := fun key => existsb (fun c => String.eqb (sched.Key_ c) key) configs).
  destruct (dropJobs_spec seen path u H1) as (D1 & [D2 D3 D4 D5] & D6). set (v := dropJobs seen path u) in *. clearbody v.
  set (x := v <| schedules ::= _ |>).
  assert (forall path' key, pkGet (schedules x) path' key = if decide (path' = path /\ seen key = false) then None else pkGet (schedules v) path' key) as Hx
    by (intros; apply (filter_get (schedules v) seen)).
  assert (core x) as Hcx.
  { destruct D1 as [W1 W2 W3]. split.
    - exact W1.
    - intros path' key e. rewrite Hx. case_decide; [done|apply W2].
    - intros path' key j Hj. destruct (W3 path' key j Hj) as (e & He & Hs). exists e. split; [|done]. rewrite Hx.
      rewrite decide_False; [done|]. intros [-> Hseen]. rewrite D6 in Hseen; [done|by exists j]. }
  intros [= <-]. destruct (dropTriggers_spec path x) as (T1 & T2 & T3 & T4 & T5 & T6). set (y := dropTriggers path x) in *. clearbody y.
  destruct (still_exposed y path) as [X1 X2 X3 X4]. split; [split|rewrite X3, X4, T3, T4; split; [change (enabled v = enabled t)|change (maxRunning v = maxRunning t)]; congruence].
  - by apply core_exposed, (core_eq x).
  - eapply still_held; [apply still_exposed|]. intros path' key g Hg. destruct (decide (path' = path)) as [->|Hne].
    + destruct (T6 key g Hg) as (e & ?). exists e. by rewrite T2.
    + apply T5 in Hg. change (triggers x) with (triggers v) in Hg. rewrite D3, H2 in Hg. destruct (Hh _ _ _ Hg) as (e & He & Hr).
      exists e. split; [|done]. rewrite T2, Hx, decide_False by (by intros []). rewrite D2. by rewrite H5.
Qed.


Lemma inv_inv0 t : inv t -> inv0 t.
Proof. intros [Hc Hh _ _ _]. by split. Qed.

Lemma inv_awake t t' : inv t -> inv0 t' -> enabled t' = true -> maxRunning t' = maxRunning t -> counted t' -> inv t'.
Proof. intros Hi [Hc Hh] He Hm Hq. split; [done|done|congruence|done|]. rewrite Hm. apply Hi. Qed.

(** Only what the loop follows of the other components changes. *)
Lemma inv_aside t t' : aside t t' -> quiet t t' -> inv t -> inv t'.
Proof.
  intros [Hs Hj] Hq [Hc Hh He Hn Hm]. split.
  - apply (core_eq t); [done|apply Hs|done].
  - by apply (still_held t).
  - intros Hd. rewrite Hj, (still_triggers _ _ Hs). apply He. by rewrite <- (still_enabled _ _ Hs).
  - by eapply quiet_counted.
  - by rewrite (still_max _ _ Hs).
Qed.

Lemma scheduleEntries_inv t path configs t' : inv t -> enabled t = true -> scheduleEntries w t path configs = Ok t' ->
  inv t' /\ enabled t' = true.
Proof.
  intros Hi He H. pose proof (scheduleEntries_quiet _ _ _ _ _ H) as Hq.
  apply scheduleEntries_inv0 in H as (H0 & H1 & H2); [|by apply inv_inv0]. rewrite He in H1.
  split; [|done]. eapply inv_awake; [exact Hi|done..|]. by eapply quiet_counted; [|apply Hi].
Qed.

Lemma scheduleObject_inv t path t' : inv t -> scheduleObject w t path = Ok t' -> inv t' /\ enabled t' = enabled t.
Proof.
  intros Hi. unfold scheduleObject. destruct (enabled t) eqn:He; cbn [negb]; [|by intros [= <-]].
  destruct (instanceSchedules w path); [|by intros [= <-]]. by apply scheduleEntries_inv.
Qed.

Lemma scheduleNode_inv t t' : inv t -> scheduleNode w t = Ok t' -> inv t'.
Proof.
  intros Hi. unfold scheduleNode. destruct (enabled t) eqn:He; cbn [negb]; [|by intros [= <-]].
  destruct (nodeSchedules w); [|by intros [= <-]]. intros H. by eapply scheduleEntries_inv.
Qed.

Lemma scheduleAll_inv t t' : inv t -> scheduleAll w t = Ok t' -> inv t'.
Proof.
  intros Hi. unfold scheduleAll. destruct (each _ t _) as [u| | |] eqn:Hu; try done. cbn. apply scheduleNode_inv.
  apply (each_invariant inv) in Hu; [done| |done]. intros v path x _ Hv Hx. by eapply scheduleObject_inv.
Qed.

Lemma toggleEnabled_inv t state t' : inv t -> toggleEnabled w t state = Ok t' -> inv t'.
Proof.
  intros Hi. unfold toggleEnabled. cbv zeta. destruct (isNodeStateCompatible state); cbn [negb andb].
  - destruct (enabled t) eqn:He; cbn; [by intros [= <-]|]. apply scheduleAll_inv.
    apply (inv_awake t); [done| |done|done|apply Hi]. destruct Hi as [Hc Hh _ _ _]. split; [by apply (core_eq t)|exact Hh].
  - destruct (enabled t) eqn:He; [|by intros [= <-]]. intros [= <-]. destruct Hi as [[Hw Hen Hk] Hh _ Hn Hm]. split; [split| | |done|done].
    + apply purge_wf.
    + done.
    + intros path key j Hj. unfold known, jobs.get in Hj. cbn in Hj. by rewrite lookup_empty in Hj.
    + intros path key g Hg. by destruct (pkGet_empty path key g Hg).
    + intros _. split; [|done]. intros path key. unfold known, jobs.get. cbn. by rewrite lookup_empty.
Qed.

Lemma onLocalInstanceStatusUpdated_aside t path st : aside t (onLocalInstanceStatusUpdated t path st).1.
Proof.
  unfold onLocalInstanceStatusUpdated. set (u := t <| localStatus ::= _ |>). assert (aside t u) as Hu by (by repeat split). clearbody u.
  pose proof (updateNotSource_aside u path st) as Hn. destruct (updateNotSource u path st) as [v changed]. cbn in Hn.
  assert (aside t v) as Hv by (by etrans).
  assert (exists x c, (if bool_decide (instance.Provisioned st = provisioned.Undef) then
      if bool_decide (is_Some (provisioned_ v !! path)) then (v <| provisioned_ ::= delete path |>, true) else (v, changed)
    else let '(t, c) := updateProvisioned v path (instance.Provisioned st) in (t, changed || c)) = (x, c) /\ aside t x) as (x & c & -> & Hx).
  { case_bool_decide; [case_bool_decide|]; eexists _, _; (split; [reflexivity|]); first [done|etrans; [exact Hv|by repeat split]]. }
  clear Hu Hn Hv u v changed. destruct (schedules x !! path) as [m|]; [|done].
  apply (foldl_invariant (fun tc => aside t tc.1)); [|etrans; [exact Hx|by repeat split]].
  intros [v b] e Hv. cbn in *. destruct (String.eqb _ _); [done|etrans; [exact Hv|by repeat split]].
Qed.

Lemma onPeerResource_aside path peer t kv : aside t (onPeerResource w path peer t kv).
Proof.
  unfold onPeerResource, updateLastRunOnFile. destruct kv as [rid r]. destruct (resourceid.Parse rid) as [id|]; [|done].
  destruct (negb _); [done|].
  set (u := match pkGet _ _ _ with Some _ => _ | None => _ end).
  assert (aside t u) as Hu by (unfold u; destruct (pkGet _ _ _); [done|]; destruct (lastRunOn t !! _) as [[]|]; by repeat split).
  clearbody u. destruct (_ ≫= _) as [tm|]; [|done].
  set (v := match lastRunOn u !! _ with Some _ => _ | None => _ end).
  assert (aside u v) as Hv by (unfold v; destruct (lastRunOn u !! _) as [[lastTm n]|]; [destruct (_ && _)|destruct (hasVarDir _ _)]; by repeat split).
  clearbody v. etrans; [exact Hu|]. etrans; [exact Hv|]. destruct (pkGet _ _ _) as [latest|]; [destruct (time.After _ _)|]; by repeat split.
Qed.

Lemma onInstanceStatusUpdated_aside t path nodename st : aside t (onInstanceStatusUpdated w t path nodename st).1.
Proof.
  unfold onInstanceStatusUpdated. destruct (String.eqb _ _); [apply onLocalInstanceStatusUpdated_aside|]. cbn.
  unfold onPeerInstanceStatusUpdated. destruct (schedules t !! path); [|done].
  apply (foldl_invariant (aside t)); [|done]. intros u kv Hu. etrans; [exact Hu|apply onPeerResource_aside].
Qed.

Lemma onObjectStatusUpdated_inv t path topology src t' : inv t -> onObjectStatusUpdated w t path topology src = Ok t' -> inv t'.
Proof.
  intros Hi. unfold onObjectStatusUpdated. destruct topology as [top|]; [|by intros [= <-]].
  set (r := match src with InstanceStatusUpdated _ _ _ => _ | _ => _ end).
  assert (inv r.1) as Hr.
  { unfold r. destruct src as [p n st| |]; [|done|done].
    eapply inv_aside; [apply onInstanceStatusUpdated_aside|apply onInstanceStatusUpdated_quiet|done]. }
  clearbody r. destruct r as [u changed]. cbn in Hr. unfold updateFailover.
  assert (inv (u <| failover ::= <[path := bool_decide (top = topology.Failover)]> |>)) as Hu by (apply (inv_aside u); [by repeat split|by split|done]).
  destruct (_ || _); [|by intros [= <-]]. intros H. by eapply scheduleObject_inv.
Qed.

Lemma unschedule_inv t path : inv t -> inv (unschedule t path).
Proof.
  intros [[Hw Hen Hk] Hh He Hn Hm]. destruct (delPath_spec (jobs_ t) path Hw) as [Hw' Hkn].
  assert (forall path' key, pkGet (schedules (unschedule t path)) path' key = if decide (path' = path) then None else pkGet (schedules t) path' key) as Hs
    by (intros; apply pkGet_unsetPath).
  assert (forall path' key, pkGet (triggers (unschedule t path)) path' key = if decide (path' = path) then None else pkGet (triggers t) path' key) as Ht
    by (intros; apply pkGet_unsetPath).
  split; [split| | |done|done].
  - exact Hw'.
  - intros path' key e. rewrite Hs. case_decide; [done|apply Hen].
  - intros path' key j. change (jobs_ (unschedule t path)) with (jobs.delPath (jobs_ t) path). rewrite Hkn, Hs. case_decide; [done|apply Hk].
  - intros path' key g. unfold held. rewrite Ht, Hs. case_decide; [done|apply Hh].
  - intros Hd. destruct (He Hd) as [Hnone Htr]. split.
    + intros path' key. change (jobs_ (unschedule t path)) with (jobs.delPath (jobs_ t) path). rewrite Hkn. by case_decide.
    + cbn. rewrite Htr. exact (delete_empty (M := gmap naming.Path) (A := gmap string trigger) path).
Qed.

(** A disabled scheduler has nothing to run. *)
Lemma onTick_disabled t t' : inv t -> enabled t = false -> onTick w t = Ok t' -> t' = t.
Proof.
  intros Hi He. destruct (inv_enabled _ Hi He) as [Hk Ht]. unfold onTick. cbv zeta.
  assert (jobs.queue (jobs_ t) = []) as Hq.
  { destruct (jobs.queue (jobs_ t)) as [|p q] eqn:Hq; [done|]. exfalso.
    destruct (wf_known _ (core_jobs _ (inv_core _ Hi)) p) as (path & key & Hg); [rewrite Hq; by left|].
    assert (is_Some (known (jobs_ t) path key)) as [e Hke] by (apply known_get; [apply Hi|by exists p]). congruence. }
  unfold jobs.popDue. rewrite Hq. cbn. unfold onTriggersDue. cbn. rewrite Ht. cbn. intros [= <-]. by destruct t.
Qed.

Lemma handle_inv t ev t' : inv t -> handle w t ev = Ok t' -> inv t'.
Proof.
  intros Hi H. assert (counted t -> enabled t = true -> inv0 t' /\ keeps t t' -> starts w t t' -> inv t') as Hstarts.
  { intros Hc He [H0 Hk] [_ _ _ _ _ (news & Hr & Ha & _)]. apply (inv_awake t); [done|done|by rewrite (keeps_enabled _ _ Hk)|apply Hk|].
    unfold counted in *. rewrite Hr, Ha, length_app. lia. }
  pose proof (handle_runs _ _ _ _ H) as Hrun.
  pose proof (inv_inv0 _ Hi) as Hi0.
  destruct ev; cbn [handle] in H.
  - simplify_eq. by apply unschedule_inv.
  - by eapply toggleEnabled_inv.
  - unfold onNodeConfigUpdated in H. cbv zeta in H. set (u := if (0 <? maxParallel)%Z then _ else t) in *.
    assert (inv u) as Hu.
    { unfold u. destruct (Z.ltb_spec 0 maxParallel); [|done]. destruct Hi as [Hc Hh He Hn Hm].
      split; [by apply (core_eq t)|exact Hh|exact He|exact Hn|done]. }
    destruct (enabled u); [by eapply scheduleNode_inv|by simplify_eq].
  - by eapply onObjectStatusUpdated_inv.
  - simplify_eq. apply (inv_aside t); [by repeat split|by split|done].
  - unfold onDaemonCollectorUpdated in H. cbv zeta in H.
    assert (forall b, inv (t <| isCollectorJoinable := b |>)) as Hb by (intros b; apply (inv_aside t); [by repeat split|by split|done]).
    destruct (one_of _ _), (isCollectorJoinable t); first [injection H as <-; apply Hb|eapply scheduleAll_inv; [apply Hb|exact H]].
  - destruct (enabled t) eqn:He; [apply Hstarts; [apply Hi|done|by eapply onEvent_inv0|done]|].
    unfold onNetworkPeersUpdated, onEvent in H. rewrite He in H. by injection H as <-.
  - destruct (enabled t) eqn:He; [apply Hstarts; [apply Hi|done|by eapply onEvent_inv0|done]|].
    unfold onFileInstalled, onEvent in H. rewrite He in H. by injection H as <-.
  - destruct (enabled t) eqn:He; [apply Hstarts; [apply Hi|done|by eapply onTick_inv0|done]|].
    by apply onTick_disabled in H as ->.
  - simplify_eq. unfold endRun. destruct (running t !! n) as [[e last]|] eqn:Hn; [|done].
    pose proof (endRun_counted t n success (inv_counted _ Hi)) as Hc. unfold endRun in Hc. rewrite Hn in Hc.
    destruct Hi as [Hc' Hh He _ Hm]. split; [by apply (core_eq t)|exact Hh|exact He|exact Hc|done].
Qed.

Lemma start_inv t maxParallel t' : inv t -> start w t maxParallel = Ok t' -> inv t'.
Proof.
  intros Hi. unfold start.
  destruct (match nodeMonitor w with Some _ => _ | None => _ end) as [u| | |] eqn:Hu; try done. cbn. intros [= <-].
  assert (inv u) as Hiu by (destruct (nodeMonitor w); [by eapply toggleEnabled_inv|by simplify_eq]).
  destruct maxParallel as [n|]; [|done]. destruct (Z.ltb_spec 0 n); [|done]. destruct Hiu as [Hc Hh He Hn Hm].
  split; [by apply (core_eq u)|exact Hh|exact He|exact Hn|done].
Qed.

End configuration.

(** The states of the loop, whatever the handlers read at each round. *)
Inductive reach `{E : schedule.Env} (localhost : string) : T -> Prop :=
  | reach_start w maxParallel t : start w (New localhost) maxParallel = Ok t -> reach localhost t
  | reach_handle w ev t t' : reach localhost t -> handle w t ev = Ok t' -> reach localhost t'.

Lemma New_inv localhost : inv (New localhost).
Proof.
  split; [split| | |done|done].
  - apply newJobs_wf.
  - intros path key e He. by destruct (pkGet_empty path key e He).
  - intros path key j Hj. unfold known, jobs.get in Hj. cbn in Hj. by rewrite lookup_empty in Hj.
  - intros path key g Hg. by destruct (pkGet_empty path key g Hg).
  - intros _. split; [|done]. intros path key. unfold known, jobs.get. cbn. by rewrite lookup_empty.
Qed.

(** C4: In every state the loop reaches, whatever the handlers read, the queue is in order;
    each job is the one of an entry of the configuration, with the same expression;
    each trigger is the one of an entry that runs on its events at its pace; and while
    the scheduler is disabled there is no job and no trigger. *)
Theorem scheduler_invariant `{E : schedule.Env} localhost t : reach localhost t -> inv t.
Proof.
  induction 1 as [w maxParallel t H|w ev t t' _ IH H].
  - eapply start_inv; [apply New_inv|exact H].
  - by eapply handle_inv.
Qed.

Lemma scheduler_invariant_witness : running sched_example.notified <> [] /\ inv sched_example.notified.
Proof.
  split; [by vm_compute|]. apply (scheduler_invariant (E := ScheduleNext.example.env) "n1" sched_example.notified).
  eapply reach_handle; [|apply sched_example.notified_step]. eapply reach_handle; [|apply sched_example.ticked_step].
  eapply reach_handle; [|apply sched_example.enabled_step].
  apply (reach_start (E := ScheduleNext.example.env) _ (sched_example.world 10 0) None). reflexivity.
Defined.
