(* ===== verification/SchedulerLive.v ===== *)
(** * The jobs and the events of the scheduler in time

    A round of the clock loses no job: each is planned again, unless its expression
    has no next time.  The loop wakes up in time for what is planned, and the runs
    events ask for are apart by the interval of their pace. *)

From S2P Require Import Prelude Naming Status.
From S2P Require Import Instance.
From S2P Require Import Calendar Convert Schedule Key SchedTable SchedQueue SchedHeap Scheduler SchedulerExample SchedulerLogic.
From S2P Require Import SchedulerInvariant.

Import schedule(result, Ok, Invalid, Panic, Hang).
Import scheduler.

(** ** No job is lost *)

(** A run a job can have had last, in a round that starts from [t0]: one that is not after
    [now], or the one the peers had told before the round. *)
Definition lastOf (t0 : T) (now : time.Time) (path : naming.Path) (key : string) (last : time.Time) : Prop :=
  (last <= now)%Z \/ pkGet (lastRunOnAllPeers t0) path key = Some last.

(** The runs of the peers of a key. *)
Definition peersOk (t0 : T) (now : time.Time) (t : T) (path : naming.Path) (key : string) : Prop :=
  forall last, pkGet (lastRunOnAllPeers t) path key = Some last -> lastOf t0 now path key last.

(** The job of a key is planned, not before [now], or its expression has no next time after its
    last run. *)
Definition live `{E : schedule.Env} (t0 : T) (now : time.Time) (t : T) (path : naming.Path) (key : string) : Prop :=
  (exists e, pkGet (schedules t) path key = Some e /\
    ((exists e', planned (jobs_ t) path key = Some e' /\ now <= sched.NextRunAt e')%Z \/
     exists last, lastOf t0 now path key last /\ over e now last)) /\
  peersOk t0 now t path key.

(** The jobs of the keys but one, and what the peers told of them, are as they were. *)
Definition others (t t' : T) (id : naming.Path * string) : Prop :=
  forall path key, (path, key) <> id ->
    planned (jobs_ t') path key = planned (jobs_ t) path key /\ known (jobs_ t') path key = known (jobs_ t) path key /\
    jobs.get (jobs_ t') path key = jobs.get (jobs_ t) path key /\
    pkGet (lastRunOnAllPeers t') path key = pkGet (lastRunOnAllPeers t) path key.

Section live.
Context `{E : schedule.Env} (w : World) (t0 : T).

Lemma live_eq now t t' path key : pkGet (schedules t') path key = pkGet (schedules t) path key ->
  planned (jobs_ t') path key = planned (jobs_ t) path key ->
  pkGet (lastRunOnAllPeers t') path key = pkGet (lastRunOnAllPeers t) path key -> live t0 now t path key -> live t0 now t' path key.
Proof. intros Hs Hp Hl [(e & He & Hor) Hpe]. split; [exists e; by rewrite Hs, Hp|]. intros last. rewrite Hl. apply Hpe. Qed.

Lemma others_eq t t' u id : others t t' id -> jobs_ u = jobs_ t' -> lastRunOnAllPeers u = lastRunOnAllPeers t' -> others t u id.
Proof. intros H Hj Hl path key Hne. rewrite Hj, Hl. by apply H. Qed.

(** The last run an entry is planned from, when it is given one it can have had. *)
Lemma plannedLast_of t e last now : (0 <= now)%Z -> last <> time.zero ->
  lastOf t0 now (sched.Path_ e) (sched.Key_ (sched.Config_ e)) last ->
  peersOk t0 now t (sched.Path_ e) (sched.Key_ (sched.Config_ e)) ->
  lastOf t0 now (sched.Path_ e) (sched.Key_ (sched.Config_ e)) (plannedLast t (e <| sched.LastRunAt := last |>)).
Proof.
  intros Hn Hz Hl Hp. unfold plannedLast.
  change (sched.LastRunAt (e <| sched.LastRunAt := last |>)) with last.
  change (peerInstanceLastRun t (e <| sched.LastRunAt := last |>)) with (peerInstanceLastRun t e).
  destruct (time.IsZero last) eqn:E0; [by apply time.IsZero_spec in E0|].
  destruct (time.Before _ _); [|done]. unfold peerInstanceLastRun. repeat case_match; try (by left).
  destruct (pkGet (lastRunOnAllPeers t) _ _) eqn:Ep; [by apply Hp|by left].
Qed.

(** What the plan of an entry does to its key, and to the others. *)
Lemma planJob_live t e e0 now t' : wf (jobs_ t) -> planJob t e now = Ok t' ->
  pkGet (schedules t) (sched.Path_ e) (sched.Key_ (sched.Config_ e)) = Some e0 ->
  sched.Schedule_ (sched.Config_ e) = sched.Schedule_ (sched.Config_ e0) ->
  (lastOf t0 now (sched.Path_ e) (sched.Key_ (sched.Config_ e)) (plannedLast t e) ->
    peersOk t0 now t (sched.Path_ e) (sched.Key_ (sched.Config_ e)) ->
    live t0 now t' (sched.Path_ e) (sched.Key_ (sched.Config_ e))) /\ others t t' (idOf e).
Proof.
  intros Hw H He0 Hs. apply planJob_spec in H as (j & r & -> & Hwj & Hp & Hk & Hg & Hr); [|done]. split; [intros Hl Hpe; split|].
  - exists e0. split; [done|]. cbn. rewrite Hp, decide_True by done. destruct r as [e'|]; [left|right].
    + exists e'. split; [done|]. by destruct Hr as (_ & _ & ?).
    + exists (plannedLast t e). split; [done|]. by eapply over_schedule.
  - exact Hpe.
  - intros path key Hne. cbn. rewrite Hp, Hk, !decide_False by done. split_and!; [done|done|by apply Hg|done].
Qed.

Lemma exposed_jobs t path : jobs_ (updateExposedSchedules t path) = jobs_ t.
Proof. unfold updateExposedSchedules. by destruct (TableOf _ _). Qed.

Lemma exposed_peers t path : lastRunOnAllPeers (updateExposedSchedules t path) = lastRunOnAllPeers t.
Proof. unfold updateExposedSchedules. by destruct (TableOf _ _). Qed.

(** The run of a job that is due, or that was late. *)
Lemma runDue_live t due e now t' : wf (jobs_ t) -> (lateTolerance < now)%Z -> (sched.NextRunAt due <= now)%Z ->
  pkGet (schedules t) (sched.Path_ e) (sched.Key_ (sched.Config_ e)) = Some e ->
  runDue w t due e now = Ok t' ->
  (peersOk t0 now t (sched.Path_ e) (sched.Key_ (sched.Config_ e)) ->
    live t0 now t' (sched.Path_ e) (sched.Key_ (sched.Config_ e))) /\ others t t' (idOf e).
Proof.
  intros Hw Hnow Hdue He H. unfold runDue in H. cbv zeta in H. set (last := if (lateTolerance <? time.Sub now (sched.NextRunAt due))%Z then now else sched.NextRunAt due) in *.
  assert ((last <= now)%Z /\ last <> time.zero) as [Hle Hnz].
  { unfold last, time.Sub, lateTolerance, time.Second, time.zero, time.minDuration, time.maxDuration in *. destruct (Z.ltb_spec (10 * 1000000000)%Z (Z.max (- 2 ^ 63) (Z.min (2 ^ 63 - 1) (now - sched.NextRunAt due)))%Z); lia. }
  destruct (planJob t _ now) as [u| | |] eqn:Hp; try done. cbn in H.
  destruct (planJob_live t _ e now u Hw Hp He eq_refl) as [Hlu Hou]. cbn in Hlu, Hou.
  pose proof (still_planJob _ _ _ _ Hp) as Hsu.
  set (v := updateExposedSchedules u (sched.Path_ e)) in *.
  assert ((peersOk t0 now t (sched.Path_ e) (sched.Key_ (sched.Config_ e)) -> live t0 now v (sched.Path_ e) (sched.Key_ (sched.Config_ e))) /\ others t v (idOf e)) as [Hlv Hov].
  { split.
    - intros Hpe. cut (live t0 now u (sched.Path_ e) (sched.Key_ (sched.Config_ e))); [|apply Hlu; [|exact Hpe]; apply plannedLast_of; [unfold lateTolerance, time.Second in *; lia|done|by left|exact Hpe]].
      apply live_eq; [by unfold v; rewrite (still_schedules _ _ (still_exposed _ _))|by unfold v; rewrite exposed_jobs|by unfold v; rewrite exposed_peers].
    - eapply others_eq; [exact Hou|apply exposed_jobs|apply exposed_peers]. }
  clearbody v. destruct (skipReason _ _ _); [injection H as <-; by split|].
  destruct (runningCount _ _) as [n|]; [|injection H as <-; by split]. destruct (_ <=? n)%Z; injection H as <-; [by split|]. split.
  - intros Hpe. destruct (Hlv Hpe) as [Hl Hpv]. split; [exact Hl|]. intros l Hg.
    change (pkGet (pkSet (lastRunOnAllPeers v) (sched.Path_ e) (sched.Key_ (sched.Config_ e)) last) (sched.Path_ e) (sched.Key_ (sched.Config_ e)) = Some l) in Hg.
    rewrite pkGet_set, decide_True in Hg by done. injection Hg as <-. by left.
  - intros path key Hne. destruct (Hov path key Hne) as (H1 & H2 & H3 & H4). split_and!; [exact H1|exact H2|exact H3|].
    change (pkGet (pkSet (lastRunOnAllPeers v) (sched.Path_ e) (sched.Key_ (sched.Config_ e)) last) path key = pkGet (lastRunOnAllPeers t) path key).
    rewrite pkGet_set, decide_False; [exact H4|exact Hne].
Qed.

(** A job due is live again, and the others are as they were. *)
Lemma onJobDue_live t due e now t' : core t -> (lateTolerance < now)%Z ->
  (sched.NextRunAt due <= now)%Z ->
  pkGet (schedules t) (sched.Path_ due) (sched.Key_ (sched.Config_ due)) = Some e -> onJobDue w t due now = Ok t' ->
  ((time.zero <= sched.LastRunAt due)%Z -> peersOk t0 now t (sched.Path_ due) (sched.Key_ (sched.Config_ due)) ->
    live t0 now t' (sched.Path_ due) (sched.Key_ (sched.Config_ due))) /\ others t t' (idOf due).
Proof.
  intros Hc Hnow Hdue He H. pose proof (core_entries _ Hc _ _ _ He) as Hid. unfold onJobDue in H. cbv zeta in H. rewrite He in H.
  injection Hid as Hp Hk. rewrite <- Hp, <- Hk in *. assert (idOf due = idOf e) as Hide by (unfold idOf; congruence). rewrite Hide.
  assert (0 <= now)%Z as Hn0 by (unfold lateTolerance, time.Second in *; lia).
  assert (Ok (holdJob t due e now) = Ok t' -> (peersOk t0 now t (sched.Path_ e) (sched.Key_ (sched.Config_ e)) ->
    live t0 now t' (sched.Path_ e) (sched.Key_ (sched.Config_ e))) /\ others t t' (idOf e)) as Hhold.
  { intros [= <-]. unfold holdJob in *. cbv zeta in *. set (e1 := (_ <| sched.NextRunAt := _ |>)) in *.
    destruct (set_spec (jobs_ t) e1 now (core_jobs _ Hc)) as (_ & Hpl & Hkn & Hg).
    change (pathOf e1, SchedHeap.keyOf e1) with (idOf e) in *. split; [intros Hpe; split|].
    - exists e. rewrite (still_schedules _ _ (still_exposed _ _)), exposed_jobs. split; [exact He|]. left. exists e1. cbn.
      rewrite Hpl, decide_True by done. split; [done|]. cbn. unfold time.Add, holdRetryDelay, time.Second. lia.
    - intros last. rewrite exposed_peers. apply Hpe.
    - intros path key Hne. rewrite exposed_jobs, exposed_peers. cbn. rewrite Hpl, Hkn, !decide_False by done.
      split_and!; [done|done|by apply Hg|done]. }
  destruct (time.Before _ _) eqn:Hb.
  - apply time.Before_spec in Hb. set (tm := peerInstanceLastRun t e) in *.
    destruct (planJob t _ now) as [u| | |] eqn:Hpu; try done. injection H as <-.
    destruct (planJob_live t (e <| sched.LastRunAt := tm |>) e now u (core_jobs _ Hc) Hpu He eq_refl) as [Hl Ho].
    split; [|eapply others_eq; [exact Ho|apply exposed_jobs|apply exposed_peers]]. intros Hlast Hpe.
    assert (lastOf t0 now (sched.Path_ e) (sched.Key_ (sched.Config_ e)) tm) as Htm.
    { unfold tm, peerInstanceLastRun. repeat case_match; try (by left).
      destruct (pkGet (lastRunOnAllPeers t) _ _) eqn:Ep; [by apply Hpe|by left]. }
    cut (live t0 now u (sched.Path_ e) (sched.Key_ (sched.Config_ e))); [|exact (Hl (plannedLast_of t e tm now Hn0 ltac:(unfold time.Time in *; lia) Htm Hpe) Hpe)].
    apply live_eq; [by rewrite (still_schedules _ _ (still_exposed _ _))|by rewrite exposed_jobs|by rewrite exposed_peers].
  - destruct (holdReason w e); [destruct (Hhold H) as [H1 H2]; split; [intros _; exact H1|exact H2]|].
    destruct (full t); [destruct (Hhold H) as [H1 H2]; split; [intros _; exact H1|exact H2]|].
    destruct (runDue_live t due e now t' (core_jobs _ Hc) Hnow Hdue He H) as [H1 H2]. split; [intros _; exact H1|exact H2].
Qed.

(** The jobs of a round: the ones left are still to run, the ones passed are live. *)
Lemma jobs_live path key now l : (lateTolerance < now)%Z -> forall u t', core u -> NoDup l ->
  (forall p, p ∈ l -> exists path' key' e, jobs.get (jobs_ u) path' key' = Some p /\ known (jobs_ u) path' key' = Some e /\
    (sched.NextRunAt e <= now)%Z) ->
  (live t0 now u path key /\ forall p, p ∈ l -> jobs.get (jobs_ u) path key <> Some p) \/
    (exists p e, p ∈ l /\ jobs.get (jobs_ u) path key = Some p /\ known (jobs_ u) path key = Some e /\
      (time.zero <= sched.LastRunAt e)%Z /\ peersOk t0 now u path key) ->
  each (fun t p => match jobs.store (jobs_ t) !! p with
                   | Some j => onJobDue w t (jobs.entry j) now
                   | None => Ok t
                   end) u l = Ok t' -> live t0 now t' path key.
Proof.
  intros Hnow. induction l as [|p l IH]; intros u t' Hc Hnd Hin Hor H; cbn in H.
  { simplify_eq. destruct Hor as [[? _]|(p & e & ?%elem_of_nil & _)]; done. }
  apply NoDup_cons in Hnd as [Hp Hnd]. destruct (Hin p) as (path' & key' & e & Hg & Hkn & Hdue); [by left|].
  destruct (wf_keys _ (core_jobs _ Hc) _ _ _ Hg) as (e1 & He & Hpe & Hke).
  assert (known (jobs_ u) path' key' = Some e1) as Hkn1 by (unfold known; by rewrite Hg). rewrite Hkn in Hkn1. injection Hkn1 as <-.
  destruct (core_known _ Hc _ _ _ Hkn) as (e0 & He0 & _).
  unfold entryOf, body in He. destruct (jobs.store (jobs_ u) !! p) as [j|] eqn:Hj; [|done]. cbn in He. injection He as He.
  destruct (onJobDue w u (jobs.entry j) now) as [v| | |] eqn:Hv; try done. cbn in H.
  destruct (onJobDue_core w u _ now v Hc Hv) as [Hcv Hst]. unfold pathOf, SchedHeap.keyOf in *. rewrite He in *.
  destruct (onJobDue_live u e e0 now v Hc Hnow Hdue) as [Hl Ho]; [by rewrite Hpe, Hke|done|]. unfold idOf in Ho. rewrite Hpe, Hke in *.
  assert (forall path'' key'' q, q ∈ l -> jobs.get (jobs_ u) path'' key'' = Some q -> (path'', key'') <> (path', key')) as Hne
    by (intros path'' key'' q Hq Hgq [= -> ->]; congruence).
  assert (forall q, q ∈ l -> exists p1 k1 e2, (p1, k1) <> (path', key') /\ jobs.get (jobs_ v) p1 k1 = Some q /\
    known (jobs_ v) p1 k1 = Some e2 /\ (sched.NextRunAt e2 <= now)%Z) as Hinv.
  { intros q Hq. destruct (Hin q) as (p1 & k1 & e2 & H1 & H2 & H3); [by right|]. assert ((p1, k1) <> (path', key')) as Hk by (by eapply Hne).
    destruct (Ho p1 k1 Hk) as (_ & Hk2 & Hgv & _). exists p1, k1, e2. by rewrite Hgv, Hk2. }
  apply (IH v t' Hcv Hnd); [intros q Hq; destruct (Hinv q Hq) as (p1 & k1 & e2 & _ & ?); by exists p1, k1, e2| |done].
  assert (live t0 now v path' key' -> live t0 now v path' key' /\ forall q, q ∈ l -> jobs.get (jobs_ v) path' key' <> Some q) as Hself.
  { intros Hlv. split; [done|]. intros q Hq Hgq. destruct (Hinv q Hq) as (p1 & k1 & e2 & Hk & Hg1 & _).
    destruct (get_inj _ _ _ _ _ _ (core_jobs _ Hcv) Hgq Hg1) as [-> ->]. done. }
  destruct Hor as [[Hlive Hnot]|(q & e2 & [->|Hq]%elem_of_cons & Hgq & H2 & H3 & H4)].
  - destruct (decide ((path, key) = (path', key'))) as [[= -> ->]|Hk]; [by destruct (Hnot p); [left|]|].
    left. destruct (Ho path key Hk) as (H1 & _ & Hgv & H4). split; [|intros q Hq; rewrite Hgv; apply Hnot; by right].
    revert Hlive. apply live_eq; [by rewrite (still_schedules _ _ Hst)|done|done].
  - left. destruct (get_inj _ _ _ _ _ _ (core_jobs _ Hc) Hg Hgq) as [-> ->]. rewrite Hkn in H2. injection H2 as ->. apply Hself. by apply Hl.
  - right. destruct (Ho path key) as (_ & Hk & Hgv & Hpv); [by eapply Hne|]. exists q, e2. rewrite Hgv, Hk. split_and!; [done|done|done|done|].
    intros last. rewrite Hpv. apply H4.
Qed.

Lemma recordEventRun_live t e now path key t' : inv0 t -> scheduled t e -> (0 < now)%Z ->
  recordEventRun t (sched.Path_ e) e now = Ok t' -> live t0 now t path key -> live t0 now t' path key.
Proof.
  intros Hi Hs Hn H [(e1 & He1 & Hor) Hpe]. unfold recordEventRun in H. cbv zeta in H.
  destruct (Add_inv0 t e now Hi Hs) as [Hu _]. set (u := t <| schedules ::= _ |>) in *.
  assert (live t0 now u path key) as Hl.
  { split; [|exact Hpe]. destruct Hs as (e0 & He0 & Hcfg). exists (if decide ((path, key) = idOf e) then e <| sched.LastRunAt := now |> else e1).
    split; [change (schedules u) with (pkSet (schedules t) (sched.Path_ e) (sched.Key_ (sched.Config_ e)) (e <| sched.LastRunAt := now |>));
      rewrite pkGet_set; unfold idOf; by case_decide|].
    destruct Hor as [?|(last & Hla & Ho)]; [by left|right]. exists last. split; [done|]. case_decide as Hd; [|done].
    injection Hd as -> ->. rewrite He0 in He1. simplify_eq. revert Ho. apply over_schedule. cbn. by rewrite Hcfg. }
  clear He1 Hor Hpe e1. clearbody u.
  destruct (match (_ ≫= _) with Some j => _ | None => _ end) as [v| | |] eqn:Hv; try done. cbn in H. injection H as <-.
  assert (live t0 now v path key) as Hlv.
  { destruct (jobs.get (jobs_ u) _ _) as [p|] eqn:Hp; cbn in Hv; [|by simplify_eq].
    destruct (wf_keys _ (core_jobs _ (proj1 Hu)) _ _ _ Hp) as (j & Hj & Hpj & Hkj).
    assert (known (jobs_ u) (pathOf j) (SchedHeap.keyOf j) = Some j) as Hk by (unfold known; by rewrite Hpj, Hkj, Hp).
    destruct (core_known _ (proj1 Hu) _ _ _ Hk) as (e2 & He2 & Hs2).
    unfold entryOf, body in Hj. destruct (jobs.store (jobs_ u) !! p) as [jb|] eqn:Hjb; [|done]. cbn in Hj, Hv. injection Hj as <-.
    destruct (planJob_live u ((jobs.entry jb) <| sched.LastRunAt := now |>) e2 now v (core_jobs _ (proj1 Hu)) Hv He2 Hs2) as [H1 H2].
    destruct (decide ((path, key) = idOf (jobs.entry jb))) as [Hd|Hd].
    - injection Hd as -> ->. destruct Hl as [_ Hpe]. apply H1; [|exact Hpe].
      refine (plannedLast_of u (jobs.entry jb) now now (Z.lt_le_incl _ _ Hn) _ (or_introl (Z.le_refl now)) Hpe). unfold time.zero, time.Time in *. lia.
    - destruct (H2 path key Hd) as (H3 & _ & _ & H4). revert Hl. apply live_eq; [|done|done].
      by rewrite (still_schedules _ _ (still_planJob _ _ _ _ Hv)). }
  destruct Hlv as [Hlv Hpv]. set (v1 := v <| lastRunOnAllPeers ::= _ |>).
  assert (live t0 now v1 path key) as Hlv1.
  { split; [exact Hlv|]. intros l Hg.
    change (pkGet (pkSet (lastRunOnAllPeers v) (sched.Path_ e) (sched.Key_ (sched.Config_ e)) now) path key = Some l) in Hg.
    rewrite pkGet_set in Hg. case_decide; [injection Hg as <-; by left|by apply Hpv]. }
  revert Hlv1. apply live_eq; [by rewrite (still_schedules _ _ (still_exposed _ _))|by rewrite exposed_jobs|by rewrite exposed_peers].
Qed.

Lemma onTriggerDue_live now t pk path key t' : inv0 t -> (0 < now)%Z -> onTriggerDue w now t pk = Ok t' ->
  live t0 now t path key -> live t0 now t' path key.
Proof.
  intros Hi Hn H Hl. unfold onTriggerDue in H. destruct pk as [p k]. destruct (pkGet (triggers t) p k) as [g|] eqn:Hg; [|by simplify_eq].
  destruct (_ || _); [by simplify_eq|].
  destruct (pkGet (schedules t) p k) as [e|] eqn:He; [|by injection H as <-].
  case_bool_decide as Hon; [by injection H as <-|]. destruct (proj2 Hi _ _ _ Hg) as (e0 & He0 & _ & Hfor). rewrite He in He0. injection He0 as <-.
  pose proof (core_entries _ (proj1 Hi) _ _ _ He) as [= <- <-].
  unfold runTrigger in H. cbv zeta in H. destruct (blockReason t e); [by injection H as <-|]. destruct (holdReason w e); [by injection H as <-|].
  destruct (full t); [by injection H as <-|]. destruct (runningCount w e) as [n|]; [|by injection H as <-].
  destruct (_ <=? n)%Z; [by injection H as <-|].
  destruct (setTrigger_inv0 t e (trigger.ran g now true) Hi) as [Hu Hk]; [by exists e|done|by rewrite (isFor_eq g)|].
  destruct (recordEventRun _ _ e now) as [v| | |] eqn:Hv; try done. cbn in H. injection H as <-.
  apply recordEventRun_live with (path := path) (key := key) in Hv; [exact Hv|done|apply Hk; by exists e|done|exact Hl].
Qed.

End live.

(** C15: A tick loses no job: each planned job is planned again, not before the time of the
    tick, unless its expression is invalid or has no next time after a last run the job can
    have had: one not after the time of the tick, or the one the peers had told before it. The
    tick is more than ten seconds after the zero time, and the last run of the job not before
    it. *)
Theorem due_never_lost `{E : schedule.Env} w t t' path key e : inv t -> (lateTolerance < now w)%Z -> onTick w t = Ok t' ->
  planned (jobs_ t) path key = Some e -> (time.zero <= sched.LastRunAt e)%Z ->
  exists e0, pkGet (schedules t') path key = Some e0 /\
    ((exists e', planned (jobs_ t') path key = Some e' /\ now w <= sched.NextRunAt e')%Z \/
     exists last, ((last <= now w)%Z \/ pkGet (lastRunOnAllPeers t) path key = Some last) /\
       (sched.GetNextAt (e0 <| sched.LastRunAt := last |>) (now w) = Invalid \/
        exists d, sched.GetNextAt (e0 <| sched.LastRunAt := last |>) (now w) = Ok (time.zero, d))).
Proof.
  intros Hi Hnow H Hp Hlast. cut (live t (now w) t' path key); [by intros [? _]|]. pose proof (inv_core _ Hi) as Hc. unfold onTick in H. cbv zeta in H.
  pose proof (popDueN_spec (length (jobs.queue (jobs_ t))) (now w) (jobs_ t) (core_jobs _ Hc) ltac:(lia)) as Hpop.
  destruct (jobs.popDue (jobs_ t) (now w)) as [q l] eqn:Hq. unfold jobs.popDue in Hq. rewrite Hq in Hpop.
  destruct Hpop as (Hwq & Hf & Hperm & Hdue & Hlate & _).
  assert (core (t <| jobs_ := q |>)) as Hcu by (eapply popDue_core; [done|exact Hq]).
  destruct (each _ (t <| jobs_ := q |>) l) as [v| | |] eqn:Hv; try done. cbn in H.
  assert (NoDup (l ++ jobs.queue q)) as Hnd.
  { rewrite <- Hperm. apply NoDup_alt. intros i j x H1 H2.
    apply (ordered_indexed _ (wf_ordered _ (core_jobs _ Hc))) in H1, H2. rewrite H1 in H2. injection H2 as H2. lia. }
  apply NoDup_app in Hnd as (Hndl & Hdisj & _).
  assert (forall p path' key' e', jobs.get (jobs_ t) path' key' = Some p -> entryOf (jobs_ t) p = Some e' -> known q path' key' = Some e') as Hkn.
  { intros p path' key' e' Hg He. unfold known. rewrite (frame_get _ _ _ _ Hf), Hg. cbn. by rewrite (frame_entryOf _ _ _ Hf). }
  assert (forall p e', entryOf (jobs_ t) p = Some e' -> jobs.due (jobs_ t) p = sched.NextRunAt e') as Hat.
  { intros p e' He. unfold jobs.due. unfold entryOf, body in He. destruct (jobs.store (jobs_ t) !! p); [|done]. cbn in He. by injection He as <-. }
  assert (live t (now w) v path key) as Hl.
  { apply planned_spec in Hp as (p & Hg & Hin & He).
    apply (jobs_live w t path key (now w) l Hnow (t <| jobs_ := q |>) v); [done|done| | |done].
    - intros p' Hp'. destruct (wf_known _ (core_jobs _ Hc) p') as (path' & key' & Hk'); [rewrite Hperm; apply elem_of_app; by left|].
      destruct (wf_keys _ (core_jobs _ Hc) _ _ _ Hk') as (e' & He' & _). exists path', key', e'. split_and!.
      + change (jobs.get q path' key' = Some p'). by rewrite (frame_get _ _ _ _ Hf).
      + by apply (Hkn p').
      + rewrite <- (Hat p') by done. by apply Hdue.
    - rewrite Hperm in Hin. apply elem_of_app in Hin as [Hin|Hin]; [right|left].
      + exists p, e. split_and!; [done|by rewrite <- Hg; apply (frame_get _ _ _ _ Hf)|by apply (Hkn p)|done|intros last ?; by right].
      + split; [|intros p' Hp' Hg'; change (jobs.get q path key = Some p') in Hg'; rewrite (frame_get _ _ _ _ Hf), Hg in Hg'; injection Hg' as ->; by eapply Hdisj].
        split; [|intros last ?; by right]. destruct (core_known _ Hcu path key e) as (e0 & He0 & _); [by apply (Hkn p)|].
        exists e0. split; [done|]. left. exists e. split.
        * cbn. apply planned_spec. exists p. rewrite (frame_get _ _ _ _ Hf). split; [done|]. split; [done|]. by rewrite (frame_entryOf _ _ _ Hf).
        * specialize (Hlate p Hin). rewrite (Hat p e) in Hlate by done. lia. }
  apply each_onJobDue_core in Hv as [Hcv Hsv]; [|done].
  assert (inv0 v) as Hiv by (apply (still_inv0 t v Hcv); [by etrans; [|exact Hsv]|by apply inv_inv0]).
  apply (each_invariant (fun u => inv0 u /\ live t (now w) u path key)) in H; [apply H| |done].
  intros u pk x _ [Hu Hlu] Hx. split; [by eapply onTriggerDue_inv0|]. eapply onTriggerDue_live; [exact Hu| |exact Hx|exact Hlu].
  unfold lateTolerance, time.Second in *. lia.
Qed.

Lemma due_never_lost_witness : exists e,
  planned (jobs_ sched_example.enabled) sched_example.root "checks.schedule" = Some e /\
  exists e0, pkGet (schedules sched_example.ticked) sched_example.root "checks.schedule" = Some e0 /\
    ((exists e', planned (jobs_ sched_example.ticked) sched_example.root "checks.schedule" = Some e' /\
        now (sched_example.world 10 0) <= sched.NextRunAt e')%Z \/
     exists last, ((last <= now (sched_example.world 10 0))%Z \/
         pkGet (lastRunOnAllPeers sched_example.enabled) sched_example.root "checks.schedule" = Some last) /\
       (sched.GetNextAt (E := ScheduleNext.example.env) (e0 <| sched.LastRunAt := last |>) (now (sched_example.world 10 0)) = Invalid \/
        exists d, sched.GetNextAt (E := ScheduleNext.example.env) (e0 <| sched.LastRunAt := last |>) (now (sched_example.world 10 0)) = Ok (time.zero, d))).
Proof.
  eexists. split; [vm_compute; reflexivity|].
  eapply (due_never_lost (E := ScheduleNext.example.env) (sched_example.world 10 0) sched_example.enabled).
  - eapply handle_inv; [apply New_inv|apply sched_example.enabled_step].
  - vm_compute. reflexivity.
  - apply sched_example.ticked_step.
  - vm_compute. reflexivity.
  - vm_compute. discriminate.
Defined.

(** ** The loop wakes up in time *)

Lemma nextTrigger_fold l : forall n,
  let r := foldl (fun next g =>
    if time.IsZero (trigger.dueAt g) then next
    else if time.IsZero next || time.Before (trigger.dueAt g) next then trigger.dueAt g else next) n l in
  (n <> time.zero -> r <> time.zero /\ r <= n)%Z /\
  (forall g, g ∈ l -> trigger.dueAt g <> time.zero -> r <> time.zero /\ r <= trigger.dueAt g)%Z /\
  (r = n \/ exists g, g ∈ l /\ trigger.dueAt g = r).
Proof.
  induction l as [|g l IH]; intros n; cbn; [split_and!; [done|by intros ? ?%elem_of_nil|by left]|].
  set (n' := if time.IsZero (trigger.dueAt g) then _ else _).
  assert ((n <> time.zero -> n' <> time.zero /\ n' <= n)%Z /\ (trigger.dueAt g <> time.zero -> n' <> time.zero /\ n' <= trigger.dueAt g)%Z /\
    (n' = n \/ trigger.dueAt g = n')) as (H1 & H2 & H3).
  { unfold n'. destruct (time.IsZero (trigger.dueAt g)) eqn:Hz; [apply time.IsZero_spec in Hz; rewrite Hz; split_and!; [done|done|by left]|].
    assert (trigger.dueAt g <> time.zero) by (intros Hd%time.IsZero_spec; congruence).
    destruct (time.IsZero n) eqn:Hn; cbn [orb]; [apply time.IsZero_spec in Hn; split_and!; [done|by split|by right]|].
    destruct (time.Before (trigger.dueAt g) n) eqn:Hb; [apply time.Before_spec in Hb|apply time.Before_false in Hb].
    - split_and!; [split; [done|lia]|by split|by right].
    - split_and!; [done|split; [intros Hd%time.IsZero_spec; congruence|lia]|by left]. }
  destruct (IH n') as (I1 & I2 & I3). set (r := foldl _ n' l) in *. split; [|split].
  - intros Hn. destruct (H1 Hn) as [Hn' Hle]. destruct (I1 Hn') as [? ?]. split; [done|lia].
  - intros g' [->|Hin]%elem_of_cons Hd; [|by apply I2]. destruct (H2 Hd) as [Hn' Hle]. destruct (I1 Hn') as [? ?]. split; [done|lia].
  - destruct I3 as [->|(g' & Hin & Hg')]; [|right; exists g'; split; [by right|done]].
    destruct H3 as [->|Hg]; [by left|right]. exists g. split; [by left|done].
Qed.

(** The soonest of the triggers with a run due. *)
Lemma nextTriggerAt_spec t :
  match nextTriggerAt t with
  | Some n => (exists path key g, pkGet (triggers t) path key = Some g /\ trigger.dueAt g = n /\ n <> time.zero) /\
      forall path key g, pkGet (triggers t) path key = Some g -> trigger.dueAt g <> time.zero -> (n <= trigger.dueAt g)%Z
  | None => forall path key g, pkGet (triggers t) path key = Some g -> trigger.dueAt g = time.zero
  end.
Proof.
  unfold nextTriggerAt. cbv zeta.
  pose proof (nextTrigger_fold (List.concat (map (fun kv => (map_to_list kv.2).*2) (map_to_list (triggers t)))) time.zero) as (_ & Hle & Hin).
  set (r := foldl _ _ _) in *. cbv zeta in *.
  assert (forall g, g ∈ List.concat (map (fun kv : naming.Path * gmap string trigger => (map_to_list kv.2).*2) (map_to_list (triggers t))) <->
    exists path key, pkGet (triggers t) path key = Some g) as Hel by apply elem_of_values.
  destruct (time.IsZero r) eqn:Hz.
  - apply time.IsZero_spec in Hz. intros path key g Hg. destruct (decide (trigger.dueAt g = time.zero)) as [|Hd]; [done|].
    destruct (Hle g) as [? _]; [apply Hel; eauto|done|done].
  - assert (r <> time.zero) as Hr by (intros Hd%time.IsZero_spec; congruence). destruct Hin as [|(g & Hg & Hd)]; [done|].
    apply Hel in Hg as (path & key & Hg). split; [by exists path, key, g|]. intros path' key' g' Hg' Hd'. apply Hle; [apply Hel; eauto|done].
Qed.

(** The first job of the queue is planned. *)
Lemma first_planned j : forall t, wf t -> jobs.first t = Some j ->
  exists path key, planned t path key = Some (jobs.entry j).
Proof.
  intros t Hw. unfold jobs.first. destruct (jobs.queue t) as [|p q] eqn:Hq; [done|]. cbn. intros Hj.
  destruct (wf_known _ Hw p) as (path & key & Hg); [rewrite Hq; by left|]. exists path, key. apply planned_spec. exists p.
  split; [done|]. split; [rewrite Hq; by left|]. unfold entryOf, body. by rewrite Hj.
Qed.

Lemma first_planned_none t path key : wf t -> jobs.first t = None -> planned t path key = None.
Proof.
  intros Hw Hf. apply first_none; [done|]. unfold jobs.first in Hf. destruct (jobs.queue t) as [|p q] eqn:Hq; [done|]. exfalso. cbn in Hf.
  destruct (wf_known _ Hw p) as (path' & key' & Hg); [rewrite Hq; by left|].
  destruct (wf_keys _ Hw _ _ _ Hg) as (e & He & _). unfold entryOf, body in He. by rewrite Hf in He.
Qed.

(** What the loop waits for: a planned job, or the end of the interval of a trigger. *)
Definition awaited (t : T) (at_ : time.Time) : Prop :=
  (exists path key e, planned (jobs_ t) path key = Some e /\ sched.NextRunAt e = at_) \/
  (exists path key g, pkGet (triggers t) path key = Some g /\ trigger.dueAt g = at_ /\ at_ <> time.zero).

(** C37: In every state of the scheduler invariant, so in every reachable one, the sleep before
    the next tick is at most a minute and does not pass the time a job is planned or a trigger
    is due, unless it is past already; a sleep shorter than a minute ends when one is due; and
    the loop waits for an event alone only when no job is planned and no trigger is due. *)
Theorem wake_in_time t now : inv t ->
  match nextWake t now with
  | Some d => (0 <= d <= maxSleep)%Z /\ (forall at_, awaited t at_ -> now + d <= Z.max now at_)%Z /\
      (d < maxSleep -> exists at_, awaited t at_ /\ at_ <= now + d)%Z
  | None => forall at_, ~ awaited t at_
  end.
Proof.
  intros Hi. pose proof (core_jobs _ (inv_core _ Hi)) as Hw. unfold nextWake. cbv zeta.
  pose proof (nextTriggerAt_spec t) as Ht.
  assert (forall n, awaited t n -> (forall at_, awaited t at_ -> n <= at_)%Z ->
    let d := Z.max 0 (Z.min (time.Sub n now) maxSleep) in
    (0 <= d <= maxSleep)%Z /\ (forall at_, awaited t at_ -> now + d <= Z.max now at_)%Z /\
      (d < maxSleep -> exists at_, awaited t at_ /\ at_ <= now + d)%Z) as Hd.
  { intros n Hn Hmin d. assert (0 < maxSleep <= time.maxDuration)%Z as Hms by (unfold maxSleep, time.Minute, time.Second, time.maxDuration; lia).
    subst d. unfold time.Sub. assert (time.minDuration < 0)%Z by done. split; [lia|]. split.
    - intros at_ Ha. specialize (Hmin at_ Ha). lia.
    - intros Hlt. exists n. split; [done|lia]. }
  destruct (jobs.first (jobs_ t)) as [j|] eqn:Hf.
  - destruct (first_planned j _ Hw Hf) as (path & key & Hp).
    assert (forall path' key' e, planned (jobs_ t) path' key' = Some e -> sched.NextRunAt (jobs.entry j) <= sched.NextRunAt e)%Z as Hfirst
      by (intros path' key' e He; by eapply first_soonest).
    destruct (nextTriggerAt t) as [n|] eqn:Hn.
    + destruct Ht as ((path' & key' & g & Hg) & Hle). destruct (time.Before _ n) eqn:Hb; [apply time.Before_spec in Hb|apply time.Before_false in Hb];
        cbn; apply Hd; [left; eauto| |right; eauto|].
      * intros at_ [(p1 & k1 & e & He & <-)|(p1 & k1 & g1 & Hg1 & <- & Hz)]; [by eapply Hfirst|]. specialize (Hle _ _ _ Hg1 Hz). lia.
      * intros at_ [(p1 & k1 & e & He & <-)|(p1 & k1 & g1 & Hg1 & <- & Hz)]; [specialize (Hfirst _ _ _ He); lia|by eapply Hle].
    + cbn. apply Hd; [left; eauto|]. intros at_ [(p1 & k1 & e & He & <-)|(p1 & k1 & g1 & Hg1 & <- & Hz)]; [by eapply Hfirst|].
      by specialize (Ht _ _ _ Hg1).
  - assert (forall path key, planned (jobs_ t) path key = None) as Hnone by (intros; by apply first_planned_none).
    destruct (nextTriggerAt t) as [n|] eqn:Hn; cbn.
    + destruct Ht as ((path' & key' & g & Hg) & Hle). apply Hd; [right; eauto|].
      intros at_ [(p1 & k1 & e & He & <-)|(p1 & k1 & g1 & Hg1 & <- & Hz)]; [by rewrite Hnone in He|by eapply Hle].
    + intros at_ [(p1 & k1 & e & He & <-)|(p1 & k1 & g1 & Hg1 & <- & Hz)]; [by rewrite Hnone in He|by specialize (Ht _ _ _ Hg1)].
Qed.

Lemma wake_in_time_witness :
  nextWake sched_example.notified (now (sched_example.world 10 1)) = Some time.Minute /\
  match nextWake sched_example.notified (now (sched_example.world 10 1)) with
  | Some d => (0 <= d <= maxSleep)%Z /\ (forall at_, awaited sched_example.notified at_ -> now (sched_example.world 10 1) + d <= Z.max (now (sched_example.world 10 1)) at_)%Z /\
      (d < maxSleep -> exists at_, awaited sched_example.notified at_ /\ at_ <= now (sched_example.world 10 1) + d)%Z
  | None => forall at_, ~ awaited sched_example.notified at_
  end.
Proof.
  split; [vm_compute; reflexivity|]. apply (wake_in_time sched_example.notified (now (sched_example.world 10 1))).
  eapply handle_inv; [|apply sched_example.notified_step]. eapply handle_inv; [|apply sched_example.ticked_step].
  eapply handle_inv; [apply New_inv|apply sched_example.enabled_step].
Defined.

(** ** The pace of the runs events ask for *)

Lemma ParsePace_spec `{F : converters.Float} s p : sched.ParsePace s = Ok p -> (0 < sched.Interval p <= sched.Max p)%Z.
Proof.
  assert (forall word d, sched.parseWord word = Ok d -> 0 < d)%Z as Hword.
  { intros word d. unfold sched.parseWord. destruct (text.CutPrefix word "@") as [v|]; cbn; [|done].
    destruct (converters.convert _) as [[u|]|]; cbn; try done. destruct (Z.leb_spec u 0); [done|]. by intros [= <-]. }
  unfold sched.ParsePace. cbv zeta. destruct (text.Fields _) as [|a [|b [|m [|? ?]]]]; try done.
  - destruct (sched.parseWord a) as [i| | |] eqn:Hi; try done. cbn. intros [= <-]. cbn. specialize (Hword _ _ Hi). lia.
  - destruct (String.eqb b "backoff"); [|done]. destruct (sched.parseWord a) as [i| | |] eqn:Hi; try done. cbn.
    destruct (sched.parseWord m) as [x| | |] eqn:Hx; try done. cbn. destruct (Z.ltb_spec x i); [done|]. intros [= <-]. cbn.
    specialize (Hword _ _ Hi). lia.
Qed.

(** A trigger whose interval is in the bounds of its pace, and whose run due is not
    too early; the double of the bound is in an int64. *)
Record timely (g : trigger) : Prop := {
  timely_interval : (0 < sched.Interval (trigger.pace g) <= trigger.interval g)%Z;
  timely_max : (trigger.interval g <= sched.Max (trigger.pace g))%Z;
  timely_fits : (2 * sched.Max (trigger.pace g) <= time.maxDuration)%Z;
  timely_due : trigger.dueAt g <> time.zero -> trigger.lastRunAt g <> time.zero ->
    (trigger.lastRunAt g + sched.Interval (trigger.pace g) <= trigger.dueAt g)%Z;
}.

(** An interval of the pace has passed since the last run. *)
Definition ripe (g : trigger) (now : time.Time) : Prop :=
  trigger.lastRunAt g <> time.zero -> (trigger.lastRunAt g + sched.Interval (trigger.pace g) <= now)%Z.

Definition allTimely (t : T) : Prop := forall path key g, pkGet (triggers t) path key = Some g -> timely g.

(** The paces of an entry whose double is in an int64. *)
Definition modest `{E : schedule.Env} (e : sched.Entry) : Prop := forall p,
  sched.ParsePace (sched.Pace (sched.Config_ e)) = Ok p -> (2 * sched.Max p <= time.maxDuration)%Z.

Lemma ease_interval fuel : forall g quiet, (0 < sched.Interval (trigger.pace g) <= trigger.interval g)%Z ->
  (sched.Interval (trigger.pace g) <= trigger.interval (trigger.ease fuel g quiet) <= trigger.interval g)%Z.
Proof.
  induction fuel as [|fuel IH]; intros g quiet Hg; cbn [trigger.ease]; [lia|]. destruct (_ && _) eqn:Hc; [|lia].
  apply andb_true_iff in Hc as [Hc _]. apply Z.ltb_lt in Hc.
  set (g1 := g <| trigger.interval := _ |>). assert (trigger.interval g1 <= trigger.interval g)%Z as Hle.
  { change (trigger.interval g1) with (Z.max (Z.quot (trigger.interval g) 2) (sched.Interval (trigger.pace g))).
    rewrite Z.quot_div_nonneg by lia. pose proof (Z.div_mod (trigger.interval g) 2 ltac:(lia)).
    pose proof (Z.mod_pos_bound (trigger.interval g) 2 ltac:(lia)). lia. }
  assert (sched.Interval (trigger.pace g1) <= trigger.interval g1)%Z as Hge by (cbn; lia).
  specialize (IH g1 (quiet - trigger.interval g)%Z). change (trigger.pace g1) with (trigger.pace g) in *. lia.
Qed.

(** The fuel of [ease]: an interval of [n] bits is halved [n] times at most. *)
Lemma ease_fuel n : forall g quiet k, (0 < sched.Interval (trigger.pace g))%Z -> (trigger.interval g < 2 ^ Z.of_nat n)%Z ->
  trigger.ease (n + k) g quiet = trigger.ease n g quiet.
Proof.
  induction n as [|n IH]; intros g quiet k Hp Hg.
  - destruct k as [|k]; [done|]. cbn [Nat.add trigger.ease]. destruct (_ && _) eqn:Hc; [|done].
    apply andb_true_iff in Hc as [Hc _]. apply Z.ltb_lt in Hc. cbn in Hg. lia.
  - cbn [Nat.add trigger.ease]. destruct (_ && _) eqn:Hc; [|done]. apply andb_true_iff in Hc as [Hc _]. apply Z.ltb_lt in Hc.
    destruct (decide (sched.Interval (trigger.pace g) < 2 ^ Z.of_nat n)%Z) as [Hi|Hi].
    + apply IH; [done|]. cbn. rewrite Nat2Z.inj_succ, Z.pow_succ_r in Hg by lia. rewrite Z.quot_div_nonneg by lia.
      pose proof (Z.div_lt_upper_bound (trigger.interval g) 2 (2 ^ Z.of_nat n) ltac:(lia) ltac:(lia)). lia.
    + rewrite Nat2Z.inj_succ, Z.pow_succ_r in Hg by lia.
      set (g1 := g <| trigger.interval := _ |>). assert (trigger.interval g1 = sched.Interval (trigger.pace g1)) as Heq.
      { cbn. rewrite Z.quot_div_nonneg by lia. pose proof (Z.div_lt_upper_bound (trigger.interval g) 2 (2 ^ Z.of_nat n) ltac:(lia) ltac:(lia)). lia. }
      assert (forall fuel q, trigger.ease fuel g1 q = g1) as Hstop.
      { intros [|fuel] q; [done|]. cbn [trigger.ease]. by rewrite Heq, Z.ltb_irrefl. }
      by rewrite !Hstop.
Qed.

(** An event on a timely trigger runs its entry only when it is ripe. *)
Lemma onEvent_timely g now : timely g -> let '(g', run) := trigger.onEvent g now in
  timely g' /\ trigger.pace g' = trigger.pace g /\ trigger.lastRunAt g' = trigger.lastRunAt g /\ (run = true -> ripe g' now).
Proof.
  intros [Hi Hm Hf Hd]. unfold trigger.onEvent. destruct (time.IsZero (trigger.dueAt g)) eqn:Hz; cbn [negb]; [|done].
  apply time.IsZero_spec in Hz. destruct (time.IsZero (trigger.lastRunAt g)) eqn:Hl.
  { apply time.IsZero_spec in Hl. split_and!; [done|done|done|]. intros _ ?. done. }
  cbv zeta. destruct (time.Before now _) eqn:Hb.
  - apply time.Before_spec in Hb. split_and!; [split; cbn; [done|done|done|]|done|done|done]. intros _ _. unfold time.Add. lia.
  - apply time.Before_false in Hb. unfold time.Add in *. set (q := time.Sub _ _).
    destruct (ease_same 64 g q) as (E1 & E2 & E3 & E4 & E5). pose proof (ease_interval 64 g q Hi) as He.
    split_and!; [split; rewrite ?E3, ?E4, ?E5; [lia|lia|done|done]|done|done|]. intros _ _. rewrite E3, E4. lia.
Qed.

Lemma ran_timely g now late : timely g -> timely (trigger.ran g now late) /\
  trigger.lastRunAt (trigger.ran g now late) = now /\
  trigger.interval (trigger.ran g now late) =
    (if late then Z.min (2 * trigger.interval g) (sched.Max (trigger.pace g)) else trigger.interval g).
Proof.
  intros [Hi Hm Hf Hd]. unfold trigger.ran. assert (time.maxDuration = 2 ^ 63 - 1)%Z as Hmax by done.
  assert (schedule.w64 (trigger.interval g * 2) = 2 * trigger.interval g)%Z as Hw.
  { unfold schedule.w64. rewrite Z.mod_small; lia. }
  destruct late; cbn; [rewrite Hw|]; (split; [|done]); split; cbn; try done; rewrite ?Hw; lia.
Qed.

Lemma put_timely t path key g : allTimely t -> timely g -> allTimely (setTrigger t path key g).
Proof. intros Ht Hg path' key' g' H. cbn in H. rewrite pkGet_set in H. case_decide; [by simplify_eq|by eapply Ht]. Qed.

(** The run of a trigger due for an event: of the entry, at [now], when it is ripe,
    the trigger then having run at [now], an interval longer when late. *)
Definition eventRun (t t' : T) (path : naming.Path) (e : sched.Entry) (g : trigger) (now : time.Time) (late : bool) : Prop :=
  ripe g now /\ running t' = (running t ++ [(e, now)])%list /\
  exists g', pkGet (triggers t') path (sched.Key_ (sched.Config_ e)) = Some g' /\ trigger.lastRunAt g' = now /\
    trigger.interval g' = (if late then Z.min (2 * trigger.interval g) (sched.Max (trigger.pace g)) else trigger.interval g).

Section pace.
Context `{E : schedule.Env} (w : World).

Lemma recordEventRun_triggers t path e now t' : recordEventRun t path e now = Ok t' -> triggers t' = triggers t.
Proof.
  unfold recordEventRun. cbv zeta. set (u := t <| schedules ::= _ |>). change (triggers t) with (triggers u). clearbody u.
  destruct (match (_ ≫= _) with Some j => _ | None => _ end) as [v| | |] eqn:Hv; try done. cbn. intros [= <-].
  assert (triggers v = triggers u) as Hvu by (destruct (_ ≫= _); [by apply (still_planJob _ _ _ _ Hv)|by simplify_eq]).
  rewrite (still_triggers _ _ (still_exposed _ _)). exact Hvu.
Qed.

Lemma runTrigger_timely t path e g now late t' : allTimely t -> timely g -> ripe g now -> (now <> time.zero) ->
  runTrigger w t path e g now late = Ok t' -> allTimely t' /\ (running t' = running t \/ eventRun t t' path e g now late).
Proof.
  intros Ht Hg Hr Hnow. unfold runTrigger. cbv zeta. destruct (ran_timely g now late Hg) as (Hran & Hlast & Hint).
  assert (forall d, (0 <= d)%Z -> timely (g <| trigger.dueAt := time.Add now d |>)) as Hpost.
  { intros d Hd. destruct Hg as [Hi Hm Hf _]. split; cbn; [done|done|done|]. intros _ Hl. specialize (Hr Hl). unfold time.Add. lia. }
  assert (forall g' u, timely g' -> Ok (setTrigger t path (sched.Key_ (sched.Config_ e)) g') = Ok u ->
    allTimely u /\ (running u = running t \/ eventRun t u path e g now late)) as Hput.
  { intros g' u Hg' [= <-]. split; [by apply put_timely|by left]. }
  destruct (blockReason t e); [by apply Hput|]. destruct (holdReason w e); [by apply Hput, Hpost|].
  destruct (full t); [by apply Hput, Hpost|]. destruct (runningCount w e) as [n|]; [|by apply Hput].
  destruct (_ <=? n)%Z; [apply Hput, Hpost; destruct Hg as [[? ?] _ _ _]; lia|].
  destruct (recordEventRun _ path e now) as [v| | |] eqn:Hv; try done. cbn. intros [= <-].
  pose proof (recordEventRun_triggers _ _ _ _ _ Hv) as Htr. apply recordEventRun_idle in Hv.
  assert (allTimely (setTrigger t path (sched.Key_ (sched.Config_ e)) (trigger.ran g now late))) as Hp by (by apply put_timely).
  split; [intros path' key' g' Hg'; apply (Hp path' key'); by rewrite <- Htr|]. right. split; [done|]. split.
  - cbn. rewrite (idle_running _ _ Hv). done.
  - exists (trigger.ran g now late). cbn. rewrite Htr. cbn. by rewrite pkGet_set, decide_True.
Qed.

Lemma getTrigger_timely t e u g : allTimely t -> modest e -> getTrigger t e = Ok (u, g) -> allTimely u /\ timely g /\ running u = running t.
Proof.
  intros Ht Hm. unfold getTrigger. cbv zeta.
  assert (forall last, (g0 ← trigger.newTrigger (sched.Pace (sched.Config_ e)) (sched.On (sched.Config_ e));
    Ok (setTrigger t (sched.Path_ e) (sched.Key_ (sched.Config_ e)) (g0 <| trigger.lastRunAt := last |>), g0 <| trigger.lastRunAt := last |>)) = Ok (u, g) ->
    allTimely u /\ timely g /\ running u = running t) as Hmake.
  { intros last. unfold trigger.newTrigger. destruct (sched.ParsePace _) as [p| | |] eqn:Hp; try done. cbn. intros [= <- <-].
    pose proof (ParsePace_spec _ _ Hp) as Hpp. specialize (Hm p Hp).
    match goal with |- _ /\ timely ?x /\ _ => assert (timely x) as Hg by (by split; cbn; try done; lia) end.
    split; [by apply put_timely|done]. }
  destruct (pkGet (triggers t) _ _) as [g0|] eqn:Hg; [|apply Hmake].
  destruct (trigger.isFor g0 e); [intros [= <- <-]; split; [done|]; split; [by eapply Ht|done]|apply Hmake].
Qed.

End pace.

(** A run that events ask for starts, at the event or when it is due, only when the
    interval of the pace has passed since the last run of the trigger; the trigger then
    ran at that time, and a late run doubles the interval up to the bound of the pace.
    Every trigger keeps its interval within the pace, and no run due too early. *)
Theorem event_runs_paced `{E : schedule.Env} w t : allTimely t -> now w <> time.zero ->
  (forall key only e t', modest e -> onEventEntry w key only t e = Ok t' -> allTimely t' /\
     (running t' = running t \/
      exists u g g', getTrigger t e = Ok (u, g) /\ trigger.onEvent g (now w) = (g', true) /\
        eventRun t t' (sched.Path_ e) e g' (now w) false)) /\
  (forall path key t', onTriggerDue w (now w) t (path, key) = Ok t' -> allTimely t' /\
     (running t' = running t \/
      exists e g, pkGet (schedules t) path key = Some e /\ pkGet (triggers t) path key = Some g /\ (trigger.dueAt g <= now w)%Z /\
        eventRun t t' path e g (now w) true)).
Proof.
  intros Ht Hnow. split.
  - intros key only e t' Hm. unfold onEventEntry. cbv zeta. destruct (_ && _); [intros [= <-]; split; [done|by left]|].
    destruct (negb _); [intros [= <-]; split; [done|by left]|].
    destruct (getTrigger t e) as [[u g]| | |] eqn:Hg; try done; [|intros [= <-]; split; [done|by left]].
    destruct (getTrigger_timely t e u g Ht Hm Hg) as (Hu & Hgt & Hrun).
    pose proof (onEvent_timely g (now w) Hgt) as Hon. destruct (trigger.onEvent g (now w)) as [g' r] eqn:Her.
    destruct Hon as (Hg' & _ & _ & Hripe). pose proof (put_timely u (sched.Path_ e) (sched.Key_ (sched.Config_ e)) g' Hu Hg') as Hset.
    destruct r; [|intros [= <-]; split; [done|left; exact Hrun]]. intros H.
    apply runTrigger_timely in H as [H1 H2]; [|done|done|by apply Hripe|done]. split; [done|].
    destruct H2 as [H2|(H3 & H4 & H5)]; [left; rewrite H2; exact Hrun|right]. exists u, g, g'. split; [done|]. split; [done|].
    split; [done|]. split; [|done]. rewrite H4. cbn. by rewrite Hrun.
  - intros path key t'. unfold onTriggerDue. destruct (pkGet (triggers t) path key) as [g|] eqn:Hg; [|intros [= <-]; split; [done|by left]].
    destruct (time.IsZero _ || _) eqn:Hd; [intros [= <-]; split; [done|by left]|]. apply orb_false_iff in Hd as [Hz Hd].
    apply time.After_false in Hd.
    assert (allTimely (t <| triggers ::= fun m => pkUnset m path key |>)) as Hun.
    { intros path' key' g' H. cbn in H. rewrite pkGet_unset in H. case_decide; [done|by eapply Ht]. }
    destruct (pkGet (schedules t) path key) as [e|] eqn:He; [|intros [= <-]; split; [done|by left]].
    case_bool_decide; [intros [= <-]; split; [done|by left]|]. intros Hr. pose proof (Ht _ _ _ Hg) as Hgt.
    apply runTrigger_timely in Hr as [H1 H2]; [|done|done| |done].
    + split; [done|]. destruct H2 as [?|?]; [by left|right; by exists e, g].
    + intros Hl. assert (trigger.dueAt g <> time.zero) as Hdz by (intros Hx%time.IsZero_spec; congruence).
      pose proof (timely_due _ Hgt Hdz Hl). lia.
Qed.

Lemma event_runs_paced_witness :
  running sched_example.notified <> running sched_example.ticked /\
  forall key only e t', modest (E := ScheduleNext.example.env) e ->
    onEventEntry (E := ScheduleNext.example.env) (sched_example.world 10 1) key only sched_example.ticked e = Ok t' -> allTimely t' /\
     (running t' = running sched_example.ticked \/
      exists u g g', getTrigger (E := ScheduleNext.example.env) sched_example.ticked e = Ok (u, g) /\
        trigger.onEvent g (now (sched_example.world 10 1)) = (g', true) /\
        eventRun sched_example.ticked t' (sched.Path_ e) e g' (now (sched_example.world 10 1)) false).
Proof.
  split; [by vm_compute|].
  apply (event_runs_paced (E := ScheduleNext.example.env) (sched_example.world 10 1) sched_example.ticked); [|by vm_compute].
  assert (triggers sched_example.ticked = ∅) as Ht by (vm_compute; reflexivity).
  intros path key g Hg. rewrite Ht in Hg. by destruct (pkGet_empty path key g Hg).
Defined.

(** The double of a long interval is not in an int64: the next interval is negative. *)
Lemma backoff_overflows : let _ := ScheduleNext.example.env in
  match trigger.newTrigger "@150y backoff @200y" [] with
  | Ok g => (trigger.interval (trigger.ran g 1 true) < 0)%Z
  | _ => False
  end.
Proof. vm_compute. reflexivity. Qed.
