(* ===== verification/HbCtrl.v ===== *)
(** * daemon/hb/hbctrl: the controller of the heartbeats

    The controller is a goroutine that keeps the status of the heartbeat streams
    and, for each peer, the number of its receiving streams that beat: it tells the
    daemon that a node is alive or stale.  Each stream has a watcher per peer, a
    goroutine with three tickers that decides when the peer beats on it.

    [handle] is the body of the loop of the controller, a function of its state, of
    a command and of the time, to [None] where the code panics; [Watch] and the
    functions on it are the loop of a watcher.  [Sys] puts them together: the
    commands of the drivers, the channels the watchers send to, the goroutines that
    deliver the beats, time; [act] is one step of it. *)

From S2P Require Import Prelude.
From S2P Require Import Instance.

Open Scope string_scope.

Module hbctrl.

(** ** The data: daemon/daemonsubsystem *)

Record Alert := mkAlert { Message : string; Severity : string }.

(** [HeartbeatStreamPeerStatus]. *)
Record PeerStatus := mkPeerStatus {
  Desc : string; IsBeating : bool; ChangedAt : time.Time; LastBeatingAt : time.Time }.

#[global] Instance eta_PeerStatus : Eta PeerStatus := fun r =>
  mkPeerStatus (Desc r) (IsBeating r) (ChangedAt r) (LastBeatingAt r).
#[global] Instance upd_IsBeating : Upd IsBeating. Proof. derive_upd eta_PeerStatus. Defined.
#[global] Instance upd_ChangedAt : Upd ChangedAt. Proof. derive_upd eta_PeerStatus. Defined.
#[global] Instance upd_LastBeatingAt : Upd LastBeatingAt. Proof. derive_upd eta_PeerStatus. Defined.

(** [HeartbeatStream], with the fields of its [Status] the controller sets. *)
Record Stream := mkStream {
  ID : string; State : string; ConfiguredAt : time.Time; CreatedAt : time.Time;
  Type_ : string; Peers : gmap string PeerStatus; Alerts : list Alert }.

#[global] Instance eta_Stream : Eta Stream := fun r =>
  mkStream (ID r) (State r) (ConfiguredAt r) (CreatedAt r) (Type_ r) (Peers r) (Alerts r).
#[global] Instance upd_State : Upd State. Proof. derive_upd eta_Stream. Defined.
#[global] Instance upd_Peers : Upd Peers. Proof. derive_upd eta_Stream. Defined.
#[global] Instance upd_Alerts : Upd Alerts. Proof. derive_upd eta_Stream. Defined.

(** ** The state of the controller

    The cancel function and the beating channel of a watcher are the number of
    the watcher. *)

Record RemoteBeating := mkRemoteBeating {
  txCount : Z; rxCount : Z; txBeating : Z; rxBeating : Z;
  cancel : gmap string nat; beatingChan : gmap string nat }.

#[global] Instance eta_RemoteBeating : Eta RemoteBeating := fun r =>
  mkRemoteBeating (txCount r) (rxCount r) (txBeating r) (rxBeating r) (cancel r) (beatingChan r).
#[global] Instance upd_txCount : Upd txCount. Proof. derive_upd eta_RemoteBeating. Defined.
#[global] Instance upd_rxCount : Upd rxCount. Proof. derive_upd eta_RemoteBeating. Defined.
#[global] Instance upd_rxBeating : Upd rxBeating. Proof. derive_upd eta_RemoteBeating. Defined.
#[global] Instance upd_cancel : Upd cancel. Proof. derive_upd eta_RemoteBeating. Defined.
#[global] Instance upd_beatingChan : Upd beatingChan. Proof. derive_upd eta_RemoteBeating. Defined.

(** The variables of [run], and the number of the next watcher. *)
Record C := mkC {
  changed : bool; events : gmap string Z; remotes : gmap string RemoteBeating;
  heartbeat : gmap string Stream; fresh : nat }.

#[global] Instance eta_C : Eta C := fun r =>
  mkC (changed r) (events r) (remotes r) (heartbeat r) (fresh r).
#[global] Instance upd_changed : Upd changed. Proof. derive_upd eta_C. Defined.
#[global] Instance upd_events : Upd events. Proof. derive_upd eta_C. Defined.
#[global] Instance upd_remotes : Upd remotes. Proof. derive_upd eta_C. Defined.
#[global] Instance upd_heartbeat : Upd heartbeat. Proof. derive_upd eta_C. Defined.
#[global] Instance upd_fresh : Upd fresh. Proof. derive_upd eta_C. Defined.

Definition New : C := mkC false ∅ ∅ ∅ 0.

Inductive Cmd :=
| CmdRegister (id type : string)
| CmdUnregister (id : string)
| CmdSetState (id state : string)
| CmdEvent (name nodename hbID : string)
| CmdGetEventStats
| CmdSetAlert (hbID : string) (alert : list Alert)
| CmdSetPeerSuccess (nodename hbID : string) (success : bool)
| CmdSetPeerStatus (nodename hbID : string) (status : PeerStatus)
| CmdAddWatcher (hbID nodename desc : string) (timeout : time.Duration)
| CmdDelWatcher (hbID nodename : string)
| GetPeerStatus (hbID : string).

(** What the controller does outside of its state: publications, goroutines
    started, functions called, answers. *)
Inductive Effect :=
| HeartbeatStale (nodename hbID : string) (at_ : time.Time)
| HeartbeatAlive (nodename hbID : string) (at_ : time.Time)
| NodeAlive (node : string)
| NodeStale (node : string)
| SendBeat (chan : nat) (success : bool)
| PeerWatch (chan : nat) (hbID nodename desc : string) (timeout : time.Duration)
| CallCancel (chan : nat)
| AnswerEvents (m : gmap string Z)
| AnswerPeers (m : gmap string PeerStatus)
| SetHeartbeats (l : list Stream) (changed : bool).

Definition evStale := "hb_stale".
Definition evBeating := "hb_beating".

Definition isRx (hbID : string) : bool := HasSuffix hbID ".rx".

(** ** The commands *)

(** The tick: the copy of the streams, in the order of their ids. *)
Definition tick (t : C) : C * list Effect :=
  let l := map snd (stable_sort (fun a b => String.ltb (fst a) (fst b)) (map_to_list (heartbeat t))) in
  (t <| changed := false |>, [SetHeartbeats l (changed t)]).

Definition register (now : time.Time) (id type : string) (t : C) : C :=
  let s := mkStream id "running" now now type ∅ [] in
  t <| heartbeat ::= <[id := s]> |> <| changed := true |>.

(** A peer of a stream that goes away is no longer beating on it. *)
Definition forgetBeat (remotes : gmap string RemoteBeating) (peer : string * PeerStatus) :
    gmap string RemoteBeating :=
  if IsBeating (snd peer) then
    match remotes !! fst peer with
    | Some remote => <[fst peer := remote <| rxBeating ::= Z.pred |>]> remotes
    | None => remotes
    end
  else remotes.

Definition unregister (id : string) (t : C) : C :=
  let t :=
    match heartbeat t !! id with
    | Some s =>
        let t := if isRx id then t <| remotes ::= fun m => foldl forgetBeat m (map_to_list (Peers s)) |> else t in
        t <| heartbeat ::= delete id |>
    | None => t
    end in
  t <| changed := true |>.

(** The remote of an event of a receiving stream, and the publications. *)
Definition countBeat (name nodename : string) (remote : RemoteBeating) : option (RemoteBeating * list Effect) :=
  r ← (if String.eqb name evBeating then
         Some (remote <| rxBeating ::= Z.succ |>, if Z.eqb (rxBeating remote) 0 then [NodeAlive nodename] else [])
       else if String.eqb name evStale then
         if Z.eqb (rxBeating remote) 0 then None else Some (remote <| rxBeating ::= Z.pred |>, [])
       else Some (remote, []));
  let '(remote, pubs) := r in
  Some (remote, (pubs ++ if Z.eqb (rxBeating remote) 0 then [NodeStale nodename] else [])%list).

Definition event (now : time.Time) (name nodename hbID : string) (t : C) : option (C * list Effect) :=
  let t := t <| events ::= fun m => match m !! name with
                                    | Some count => <[name := Z.succ count]> m
                                    | None => <[name := 1%Z]> m
                                    end |> in
  let t := t <| changed := true |> in
  let pub := if String.eqb name evStale then HeartbeatStale nodename hbID now else HeartbeatAlive nodename hbID now in
  match remotes t !! nodename with
  | Some remote =>
      if isRx hbID then
        r ← countBeat name nodename remote;
        Some (t <| remotes ::= <[nodename := fst r]> |>, pub :: snd r)
      else Some (t, [pub])
  | None => Some (t, [pub])
  end.

Definition setPeerStatus (nodename hbID : string) (status : PeerStatus) (t : C) : C :=
  match heartbeat t !! hbID with
  | Some s => t <| heartbeat ::= <[hbID := s <| Peers ::= <[nodename := status]> |>]> |>
  | None => t
  end.

Definition newRemote : RemoteBeating := mkRemoteBeating 0 0 0 0 ∅ ∅.

(** The watcher is started when the stream has none for the peer and is
    registered. *)
Definition addWatcher (now : time.Time) (hbID nodename desc : string) (timeout : time.Duration) (t : C) :
    C * list Effect :=
  let remote := default newRemote (remotes t !! nodename) in
  match cancel remote !! hbID with
  | Some _ => (t, [])
  | None =>
      match heartbeat t !! hbID with
      | None => (t, [])
      | Some s =>
          let t := t <| heartbeat ::= <[hbID := s <| Peers ::= <[nodename := mkPeerStatus desc false now time.zero]> |>]> |> in
          let remote := remote <| cancel ::= <[hbID := fresh t]> |> <| beatingChan ::= <[hbID := fresh t]> |> in
          let remote := if isRx hbID then remote <| rxCount ::= Z.succ |> else remote <| txCount ::= Z.succ |> in
          (t <| remotes ::= <[nodename := remote]> |> <| fresh ::= S |>,
           [PeerWatch (fresh t) hbID nodename desc timeout])
      end
  end.

Definition delWatcher (hbID nodename : string) (t : C) : C * list Effect :=
  let t :=
    match heartbeat t !! hbID with
    | Some s => t <| heartbeat ::= <[hbID := s <| Peers ::= delete nodename |>]> |>
    | None => t
    end in
  match remotes t !! nodename with
  | None => (t, [])
  | Some remote =>
      match cancel remote !! hbID with
      | None => (t, [])
      | Some chan =>
          let remote := remote <| cancel ::= delete hbID |> in
          let remote := if isRx hbID then remote <| rxCount ::= Z.pred |> else remote <| txCount ::= Z.pred |> in
          (if Z.eqb (rxCount remote + txCount remote) 0 then t <| remotes ::= delete nodename |>
           else t <| remotes ::= <[nodename := remote]> |>,
           [CallCancel chan])
      end
  end.

(** The body of the loop of [run]. *)
Definition handle (now : time.Time) (c : Cmd) (t : C) : option (C * list Effect) :=
  match c with
  | CmdRegister id type => Some (register now id type t, [])
  | CmdUnregister id => Some (unregister id t, [])
  | CmdSetState id state =>
      Some (match heartbeat t !! id with
            | Some s => t <| heartbeat ::= <[id := s <| State := state |>]> |>
            | None => t
            end, [])
  | CmdEvent name nodename hbID => event now name nodename hbID t
  | CmdGetEventStats => Some (t, [AnswerEvents (events t)])
  | CmdSetAlert hbID alert =>
      Some (match heartbeat t !! hbID with
            | Some s => t <| heartbeat ::= <[hbID := s <| Alerts := alert |>]> |>
            | None => t
            end, [])
  | CmdSetPeerSuccess nodename hbID success =>
      Some (t, match remotes t !! nodename with
               | Some remote => match beatingChan remote !! hbID with Some chan => [SendBeat chan success] | None => [] end
               | None => []
               end)
  | CmdSetPeerStatus nodename hbID status => Some (setPeerStatus nodename hbID status t, [])
  | CmdAddWatcher hbID nodename desc timeout => Some (addWatcher now hbID nodename desc timeout t)
  | CmdDelWatcher hbID nodename => Some (delWatcher hbID nodename t)
  | GetPeerStatus hbID =>
      Some (t, [AnswerPeers (match heartbeat t !! hbID with Some s => Peers s | None => ∅ end)])
  end.

(** ** The watchers *)

Definition pubDelay : time.Duration := 200000000%Z.

(** daemonenv.HeartbeatStatusRefreshMaximumInterval. *)
Definition HeartbeatStatusRefreshMaximumInterval : time.Duration := (60 * time.Second)%Z.

(** Where a watcher is: at its select, or sending to the controller the event or
    the status it publishes, or the status of a tick. *)
Inductive Point := Selecting | SendingEvent | SendingStatus | SendingTick.

#[global] Instance Point_eq : EqDecision Point.
Proof. solve_decision. Defined.

(** A ticker is the time it fires next, [None] when it is stopped.  The tickers
    of the changes and of the silence stop when they fire. *)
Record Watch := mkWatch {
  HbID : string; nodename : string; timeout : time.Duration;
  peer : PeerStatus; changes : bool; beatingOnLastPub : bool;
  pubTicker : option time.Time; setPeerStatusTicker : time.Time; staleTicker : option time.Time;
  point : Point }.

#[global] Instance eta_Watch : Eta Watch := fun r =>
  mkWatch (HbID r) (nodename r) (timeout r) (peer r) (changes r) (beatingOnLastPub r)
    (pubTicker r) (setPeerStatusTicker r) (staleTicker r) (point r).
#[global] Instance upd_peer : Upd peer. Proof. derive_upd eta_Watch. Defined.
#[global] Instance upd_changes : Upd changes. Proof. derive_upd eta_Watch. Defined.
#[global] Instance upd_beatingOnLastPub : Upd beatingOnLastPub. Proof. derive_upd eta_Watch. Defined.
#[global] Instance upd_pubTicker : Upd pubTicker. Proof. derive_upd eta_Watch. Defined.
#[global] Instance upd_setPeerStatusTicker : Upd setPeerStatusTicker. Proof. derive_upd eta_Watch. Defined.
#[global] Instance upd_staleTicker : Upd staleTicker. Proof. derive_upd eta_Watch. Defined.
#[global] Instance upd_point : Upd point. Proof. derive_upd eta_Watch. Defined.

(** The start of [peerWatch]; [time.NewTicker] panics on a timeout that is not
    positive. *)
Definition peerWatch (now : time.Time) (hbID nodename desc : string) (timeout : time.Duration) : option Watch :=
  if Z.leb timeout 0 then None
  else Some (mkWatch hbID nodename timeout (mkPeerStatus desc false now time.zero) false false
               None (time.Add now HeartbeatStatusRefreshMaximumInterval) None Selecting).

Definition setBeating (now : time.Time) (v : bool) (w : Watch) : Watch :=
  w <| peer ::= fun p => (p <| IsBeating := v |>) <| ChangedAt := now |> |>
    <| changes := true |> <| pubTicker := Some (time.Add now pubDelay) |>.

Definition beat (now : time.Time) (w : Watch) : Watch :=
  w <| staleTicker := Some (time.Add now (timeout w)) |> <| peer ::= fun p => p <| LastBeatingAt := now |> |>.

(** The case of [beatingC]. *)
Definition onBeating (now : time.Time) (beating : bool) (w : Watch) : Watch :=
  match beating, IsBeating (peer w) with
  | true, true => beat now w
  | true, false => beat now (setBeating now true w)
  | false, true => (setBeating now false w) <| staleTicker := None |>
  | false, false => w
  end.

(** The case of [pubTicker], up to its first send. *)
Definition onPubTick (w : Watch) : Watch :=
  let w := w <| pubTicker := None |> in
  if changes w then
    let w := w <| changes := false |> in
    if Bool.eqb (beatingOnLastPub w) (IsBeating (peer w)) then w else w <| point := SendingEvent |>
  else w.

(** The case of [staleTicker]. *)
Definition onStaleTick (now : time.Time) (w : Watch) : Watch :=
  let w := if IsBeating (peer w) then setBeating now false w else w in
  w <| staleTicker := None |>.

(** The case of [setPeerStatusTicker], up to its send; the ticker skips the
    ticks missed. *)
Definition onStatusTick (now : time.Time) (w : Watch) : Watch :=
  let p := HeartbeatStatusRefreshMaximumInterval in
  let at_ := setPeerStatusTicker w in
  w <| setPeerStatusTicker := (at_ + p * (1 + (now - at_) / p))%Z |> <| point := SendingTick |>.

(** What a watcher sends, and what it does next. *)
Definition offer (w : Watch) : option Cmd :=
  match point w with
  | Selecting => None
  | SendingEvent => Some (CmdEvent (if IsBeating (peer w) then evBeating else evStale) (nodename w) (HbID w))
  | SendingStatus | SendingTick => Some (CmdSetPeerStatus (nodename w) (HbID w) (peer w))
  end.

Definition sent (now : time.Time) (w : Watch) : Watch :=
  match point w with
  | Selecting => w
  | SendingEvent => w <| point := SendingStatus |>
  | SendingStatus =>
      w <| beatingOnLastPub := IsBeating (peer w) |>
        <| setPeerStatusTicker := time.Add now HeartbeatStatusRefreshMaximumInterval |> <| point := Selecting |>
  | SendingTick => w <| point := Selecting |>
  end.

(** ** The system *)

(** The controller, the watchers, the beats their goroutines deliver, the watchers
    whose context is done, the time, and what the controller published.  A panic,
    of the controller or of a watcher, ends the daemon. *)
Record Sys := mkSys {
  ctrl : C; watchers : gmap nat Watch; beats : list (nat * bool); cancelled : gset nat;
  now : time.Time; published : list Effect; panicked : bool }.

#[global] Instance eta_Sys : Eta Sys := fun r =>
  mkSys (ctrl r) (watchers r) (beats r) (cancelled r) (now r) (published r) (panicked r).
#[global] Instance upd_ctrl : Upd ctrl. Proof. derive_upd eta_Sys. Defined.
#[global] Instance upd_watchers : Upd watchers. Proof. derive_upd eta_Sys. Defined.
#[global] Instance upd_beats : Upd beats. Proof. derive_upd eta_Sys. Defined.
#[global] Instance upd_cancelled : Upd cancelled. Proof. derive_upd eta_Sys. Defined.
#[global] Instance upd_now : Upd now. Proof. derive_upd eta_Sys. Defined.
#[global] Instance upd_published : Upd published. Proof. derive_upd eta_Sys. Defined.
#[global] Instance upd_panicked : Upd panicked. Proof. derive_upd eta_Sys. Defined.

Definition Start (at_ : time.Time) : Sys := mkSys New ∅ [] ∅ at_ [] false.

(** An effect of the controller on the rest of the system. *)
Definition perform (s : Sys) (e : Effect) : Sys :=
  match e with
  | SendBeat chan success => s <| beats ::= cons (chan, success) |>
  | PeerWatch chan hbID nodename desc timeout =>
      match peerWatch (now s) hbID nodename desc timeout with
      | Some w => s <| watchers ::= <[chan := w]> |>
      | None => s <| panicked := true |>
      end
  | CallCancel chan => s <| cancelled ::= fun x => {[chan]} ∪ x |>
  | _ => s <| published ::= fun l => (l ++ [e])%list |>
  end.

(** The controller handles a command. *)
Definition serve (c : Cmd) (s : Sys) : Sys :=
  match handle (now s) c (ctrl s) with
  | Some (t, l) => foldl perform (s <| ctrl := t |>) l
  | None => s <| panicked := true |>
  end.

Inductive Action :=
| Drive (c : Cmd)             (** a command of the daemon or of a driver *)
| Send (chan : nat)           (** a watcher sends to the controller *)
| Deliver (chan : nat) (success : bool) (** a beat is delivered to its watcher *)
| PubTick (chan : nat) | StaleTick (chan : nat) | StatusTick (chan : nat)
| CancelCtx (chan : nat)      (** the driver cancels the context of a watcher *)
| Return (chan : nat)         (** a watcher whose context is done returns *)
| Tick                        (** the ticker of the controller *)
| Wait (d : time.Duration).   (** time passes *)

(** The commands that come from outside of the controller. *)
Definition external (c : Cmd) : bool :=
  match c with CmdEvent _ _ _ | CmdSetPeerStatus _ _ _ => false | _ => true end.

(** A watcher at its select. *)
Definition selecting (s : Sys) (chan : nat) : option Watch :=
  w ← watchers s !! chan; if decide (point w = Selecting) then Some w else None.

Definition fires (s : Sys) (t : option time.Time) : bool :=
  match t with Some at_ => Z.leb at_ (now s) | None => false end.

Definition setWatch (chan : nat) (w : Watch) (s : Sys) : Sys := s <| watchers ::= <[chan := w]> |>.

(** The beats without one copy of a pending one, [None] when it is not pending. *)
Fixpoint takeBeat (b : nat * bool) (l : list (nat * bool)) : option (list (nat * bool)) :=
  match l with
  | [] => None
  | x :: l => if decide (x = b) then Some l else cons x <$> takeBeat b l
  end.

(** One step, [None] when it is not enabled. *)
Definition act (a : Action) (s : Sys) : option Sys :=
  if panicked s then None else
  match a with
  | Drive c => if external c then Some (serve c s) else None
  | Send chan =>
      w ← watchers s !! chan; c ← offer w;
      Some (serve c (setWatch chan (sent (now s) w) s))
  | Deliver chan success =>
      w ← selecting s chan; l ← takeBeat (chan, success) (beats s);
      Some (setWatch chan (onBeating (now s) success w) (s <| beats := l |>))
  | PubTick chan =>
      w ← selecting s chan; if fires s (pubTicker w) then Some (setWatch chan (onPubTick w) s) else None
  | StaleTick chan =>
      w ← selecting s chan; if fires s (staleTicker w) then Some (setWatch chan (onStaleTick (now s) w) s) else None
  | StatusTick chan =>
      w ← selecting s chan;
      if fires s (Some (setPeerStatusTicker w)) then Some (setWatch chan (onStatusTick (now s) w) s) else None
  | CancelCtx chan => Some (s <| cancelled ::= fun x => {[chan]} ∪ x |>)
  | Return chan =>
      _ ← selecting s chan;
      if decide (chan ∈ cancelled s) then Some (s <| watchers ::= delete chan |>) else None
  | Tick => let '(t, l) := tick (ctrl s) in Some (foldl perform (s <| ctrl := t |>) l)
  | Wait d => if Z.ltb d 0 then None else Some (s <| now ::= fun t => time.Add t d |>)
  end.

Fixpoint acts (l : list Action) (s : Sys) : option Sys :=
  match l with [] => Some s | a :: l => s' ← act a s; acts l s' end.

End hbctrl.
