(* ===== verification/HbCtrlLogic.v ===== *)
(** * The controller of the heartbeats: what it counts

    In the runs where a stream is stopped only when its watchers are settled, the
    number of receiving streams of a node that beat is the one the controller
    keeps, and what it publishes of the node follows it. *)

From S2P Require Import Prelude.
From S2P Require Import Instance HbCtrl.

Open Scope string_scope.

Module hbCount.
Import hbctrl.

(** ** Counting in a map *)

Definition b2n (b : bool) : nat := if b then 1 else 0.

Definition countIf {V} (f : string -> V -> bool) (m : gmap string V) : nat :=
  size (filter (fun kv => f (fst kv) (snd kv) = true) m).

Section countIf.
Context {V : Type}.
Implicit Types (f g : string -> V -> bool) (m : gmap string V).

Lemma countIf_insert f m k v : m !! k = None -> countIf f (<[k := v]> m) = (b2n (f k v) + countIf f m)%nat.
Proof.
  intros Hk. unfold countIf. destruct (f k v) eqn:Hf.
  - rewrite map_filter_insert_True by done. rewrite map_size_insert_None; [done|].
    rewrite map_lookup_filter_None. by left.
  - rewrite map_filter_insert_False by (cbn; congruence). by rewrite delete_id.
Qed.

Lemma countIf_delete f m k v : m !! k = Some v -> (b2n (f k v) + countIf f (delete k m))%nat = countIf f m.
Proof.
  intros Hk. rewrite <- countIf_insert by apply lookup_delete_eq. by rewrite insert_delete_id.
Qed.

Lemma countIf_ext f g m : (forall k v, m !! k = Some v -> f k v = g k v) -> countIf f m = countIf g m.
Proof.
  intros H. unfold countIf. f_equal. apply map_filter_ext. intros k v Hk. cbn. by rewrite (H k v Hk).
Qed.

(** The count when the predicate changes at one key. *)
Lemma countIf_change f g m k v : m !! k = Some v ->
  (forall k' v', k' <> k -> m !! k' = Some v' -> f k' v' = g k' v') ->
  (b2n (f k v) + countIf g m)%nat = (b2n (g k v) + countIf f m)%nat.
Proof.
  intros Hk H. rewrite <- (countIf_delete f m k v Hk), <- (countIf_delete g m k v Hk).
  rewrite (countIf_ext f g (delete k m)); [lia|].
  intros k' v' [Hne Hk']%lookup_delete_Some. by apply H.
Qed.

Lemma countIf_false f m : (forall k v, m !! k = Some v -> f k v = false) -> countIf f m = 0%nat.
Proof.
  intros H. unfold countIf. apply map_size_empty_iff, map_empty. intros k.
  apply map_lookup_filter_None. right. intros v Hk. cbn. by rewrite (H k v Hk).
Qed.

Lemma countIf_pos f m k v : m !! k = Some v -> f k v = true -> (0 < countIf f m)%nat.
Proof. intros Hk Hf. rewrite <- (countIf_delete f m k v Hk), Hf. cbn. lia. Qed.

Lemma countIf_exists f m : (0 < countIf f m)%nat -> exists k v, m !! k = Some v /\ f k v = true.
Proof.
  intros Hp. destruct (decide (filter (fun kv => f (fst kv) (snd kv) = true) m = ∅)) as [He|Hne].
  - unfold countIf in Hp. rewrite He, map_size_empty in Hp. lia.
  - apply map_choose in Hne as (k & v & Hk%map_lookup_filter_Some). exists k, v. naive_solver.
Qed.

End countIf.

(** ** What is published of a node *)

(** The events of a node, in the order of their publication: alive or stale. *)
Definition nodeEvent (n : string) (e : Effect) : option bool :=
  match e with
  | NodeAlive n' => if String.eqb n' n then Some true else None
  | NodeStale n' => if String.eqb n' n then Some false else None
  | _ => None
  end.

Definition nodeEvents (n : string) (l : list Effect) : list bool := omap (nodeEvent n) l.

(** The last event of a list that alternates, from [prev]; [None] when two that
    follow are the same. *)
Fixpoint alternate (prev : bool) (l : list bool) : option bool :=
  match l with
  | [] => Some prev
  | b :: l => if Bool.eqb b prev then None else alternate b l
  end.

Lemma alternate_app prev l b : alternate prev l = Some b -> forall l', alternate prev (l ++ l')%list = alternate b l'.
Proof.
  revert prev. induction l as [|x l IH]; intros prev; cbn; [by intros [= ->]|].
  destruct (Bool.eqb x prev); [done|]. apply IH.
Qed.

(** The last event of a list, stale when there is none. *)
Definition verdict (l : list bool) : bool := List.last l false.

Lemma last_default (l : list bool) b b' : l <> [] -> List.last l b = List.last l b'.
Proof. induction l as [|x [|y l] IH]; [done..|]. intros _. cbn in *. by apply IH. Qed.

Lemma alternate_last prev l b : alternate prev l = Some b -> List.last l prev = b.
Proof.
  revert prev. induction l as [|x l IH]; intros prev; cbn; [by intros [= ->]|].
  destruct (Bool.eqb x prev); [done|]. intros H. specialize (IH _ H). destruct l; [done|]. by rewrite <- (last_default _ x prev).
Qed.

Lemma verdict_app l l' : l' <> [] -> verdict (l ++ l')%list = verdict l'.
Proof.
  unfold verdict. intros Hl. induction l as [|x l IH]; [done|]. cbn. destruct (l ++ l')%list eqn:E; [|by rewrite IH].
  apply app_eq_nil in E as [_ ->]. done.
Qed.

Lemma nodeEvents_app n l l' : nodeEvents n (l ++ l')%list = (nodeEvents n l ++ nodeEvents n l')%list.
Proof. apply omap_app. Qed.

Lemma nodeEvents_alive n l : nodeEvents n (l ++ [NodeAlive n])%list = (nodeEvents n l ++ [true])%list.
Proof. rewrite nodeEvents_app. f_equal. unfold nodeEvents. cbn. by rewrite String.eqb_refl. Qed.

Lemma nodeEvents_stale n l : nodeEvents n (l ++ [NodeStale n])%list = (nodeEvents n l ++ [false])%list.
Proof. rewrite nodeEvents_app. f_equal. unfold nodeEvents. cbn. by rewrite String.eqb_refl. Qed.

(** ** The receiving streams that beat *)

(** What the controller last heard of a watcher. *)
Definition lastPub (w : Watch) : bool :=
  match point w with SendingStatus => IsBeating (peer w) | _ => beatingOnLastPub w end.

(** Whether a stream of a node is counted; [x] is a stream being stopped. *)
Definition counted (ws : gmap nat Watch) (x : option string) (hb : string) (chan : nat) : bool :=
  isRx hb && negb (bool_decide (x = Some hb)) &&
    match ws !! chan with Some w => lastPub w | None => false end.

Definition beatingOf (ws : gmap nat Watch) (x : option string) (r : RemoteBeating) : nat :=
  countIf (counted ws x) (cancel r).

Definition beating (s : Sys) (n : string) : nat :=
  match remotes (ctrl s) !! n with Some r => beatingOf (watchers s) None r | None => 0 end.

(** The number of receiving streams of [n] that beat, as the controller knows it. *)
Definition rxBeatingOf (s : Sys) (n : string) : Z :=
  match remotes (ctrl s) !! n with Some r => rxBeating r | None => 0%Z end.

Definition watch_ok (w : Watch) : Prop :=
  point w = SendingEvent -> beatingOnLastPub w <> IsBeating (peer w).

(** The publications of a node follow the count: exactly, or, when streams that
    beat were stopped, for the nodes alive. *)
Definition told (restarts : bool) (l : list bool) (count : nat) : Prop :=
  if restarts then (0 < count)%nat -> verdict l = true
  else alternate false l = Some (negb (Nat.eqb count 0)).

Record Inv (restarts : bool) (x : option string) (s : Sys) : Prop := {
  inv_run : panicked s = false;
  inv_watch : forall n r hb i, remotes (ctrl s) !! n = Some r -> cancel r !! hb = Some i ->
    exists w, watchers s !! i = Some w /\ HbID w = hb /\ nodename w = n;
  inv_known : forall i w, watchers s !! i = Some w ->
    exists r, remotes (ctrl s) !! nodename w = Some r /\ cancel r !! HbID w = Some i;
  inv_fresh : forall i w, watchers s !! i = Some w -> (i < fresh (ctrl s))%nat;
  inv_ok : forall i w, watchers s !! i = Some w -> watch_ok w;
  inv_count : forall n r, remotes (ctrl s) !! n = Some r -> rxBeating r = Z.of_nat (beatingOf (watchers s) x r);
  inv_size : forall n r, remotes (ctrl s) !! n = Some r -> (rxCount r + txCount r)%Z = Z.of_nat (size (cancel r));
  inv_peers : forall hb st n ps, heartbeat (ctrl s) !! hb = Some st -> Peers st !! n = Some ps ->
    exists r i, remotes (ctrl s) !! n = Some r /\ cancel r !! hb = Some i;
  inv_cancelled : forall i, i ∈ cancelled s -> watchers s !! i = None /\ (i < fresh (ctrl s))%nat;
  inv_told : forall n, told restarts (nodeEvents n (published s))
    (match remotes (ctrl s) !! n with Some r => beatingOf (watchers s) x r | None => 0 end) }.

Section steps.
Context (restarts : bool) (x : option string).

(** A change of the state that none of the counts sees. *)
Lemma Inv_same s s' : panicked s' = panicked s -> watchers s' = watchers s -> cancelled s' = cancelled s ->
  remotes (ctrl s') = remotes (ctrl s) -> fresh (ctrl s') = fresh (ctrl s) ->
  (forall n, nodeEvents n (published s') = nodeEvents n (published s)) ->
  (forall hb st n ps, heartbeat (ctrl s') !! hb = Some st -> Peers st !! n = Some ps ->
     (exists st' ps', heartbeat (ctrl s) !! hb = Some st' /\ Peers st' !! n = Some ps') \/
     exists r i, remotes (ctrl s) !! n = Some r /\ cancel r !! hb = Some i) ->
  Inv restarts x s -> Inv restarts x s'.
Proof.
  intros Hp Hw Hc Hr Hf He Hpeers I. constructor; rewrite ?Hp, ?Hw, ?Hc, ?Hr, ?Hf; try apply I.
  - intros hb st n ps Hst Hps. destruct (Hpeers hb st n ps Hst Hps) as [(st' & ps' & H1 & H2)|H]; [|done].
    by eapply (inv_peers _ _ _ I).
  - intros n. rewrite He. apply I.
Qed.

Lemma counted_insert ws i w w' hb j : ws !! i = Some w -> lastPub w' = lastPub w ->
  counted (<[i := w']> ws) x hb j = counted ws x hb j.
Proof.
  intros Hi Hl. unfold counted. f_equal. destruct (decide (i = j)) as [->|Hne].
  - by rewrite lookup_insert_eq, Hi, Hl.
  - by rewrite lookup_insert_ne.
Qed.

(** A step of a watcher the controller has not heard of. *)
Lemma setWatch_inv s i w w' : watchers s !! i = Some w -> HbID w' = HbID w -> nodename w' = nodename w ->
  lastPub w' = lastPub w -> watch_ok w' -> Inv restarts x s -> Inv restarts x (setWatch i w' s).
Proof.
  intros Hi Hh Hn Hl Hok I.
  assert (forall r, beatingOf (<[i := w']> (watchers s)) x r = beatingOf (watchers s) x r) as Hb.
  { intros r. apply countIf_ext. intros hb j _. by eapply counted_insert. }
  constructor; cbn; try apply I.
  - intros n r hb j Hr Hj. destruct (inv_watch _ _ _ I n r hb j Hr Hj) as (v & Hv & H1 & H2).
    destruct (decide (i = j)) as [->|Hne]; [|exists v; by rewrite lookup_insert_ne].
    exists w'. rewrite lookup_insert_eq. rewrite Hi in Hv. injection Hv as <-. by rewrite Hh, Hn.
  - intros j v [[<- <-]|[Hne Hv]]%lookup_insert_Some; [rewrite Hh, Hn; by apply I|by apply I].
  - intros j v [[<- <-]|[Hne Hv]]%lookup_insert_Some; [by eapply I|by eapply I].
  - intros j v [[<- <-]|[Hne Hv]]%lookup_insert_Some; [done|by eapply I].
  - intros n r Hr. rewrite Hb. by eapply (inv_count _ _ _ I).
  - intros j Hj. destruct (inv_cancelled _ _ _ I j Hj) as [H1 H2]. split; [|done].
    rewrite lookup_insert_ne; [done|]. intros ->. congruence.
  - intros n. pose proof (inv_told _ _ _ I n) as Ht. destruct (remotes (ctrl s) !! n); [by rewrite Hb|done].
Qed.

(** ** The event of a watcher *)

Lemma setWatch_counted s i w w' n r : watchers s !! i = Some w -> Inv restarts x s -> HbID w' = HbID w -> nodename w' = nodename w ->
  remotes (ctrl s) !! n = Some r ->
  if decide (n = nodename w)
  then (b2n (counted (watchers s) x (HbID w) i) + beatingOf (<[i := w']> (watchers s)) x r =
        b2n (counted (<[i := w']> (watchers s)) x (HbID w) i) + beatingOf (watchers s) x r)%nat
  else beatingOf (<[i := w']> (watchers s)) x r = beatingOf (watchers s) x r.
Proof.
  intros Hi I Hh Hn Hr.
  assert (forall hb j, cancel r !! hb = Some j -> (hb <> HbID w \/ n <> nodename w) ->
    counted (<[i := w']> (watchers s)) x hb j = counted (watchers s) x hb j) as Hc.
  { intros hb j Hj Hne. unfold counted. f_equal. rewrite lookup_insert_ne; [done|]. intros <-.
    destruct (inv_watch _ _ _ I n r hb i Hr Hj) as (v & Hv & H1 & H2). rewrite Hi in Hv. injection Hv as <-. naive_solver. }
  case_decide as Hd.
  - subst n. destruct (inv_known _ _ _ I i w Hi) as (r' & Hr' & Hci). rewrite Hr in Hr'. injection Hr' as <-.
    apply countIf_change; [done|]. intros hb j Hne Hj. symmetry. apply Hc; [done|by left].
  - apply countIf_ext. intros hb j Hj. apply Hc; [done|by right].
Qed.

Lemma told_same l c : told restarts l c -> forall c', (c' = 0 <-> c = 0)%nat -> told restarts l c'.
Proof.
  unfold told. intros H c' Hc. destruct restarts; [intros; apply H; lia|].
  assert (Nat.eqb c' 0 = Nat.eqb c 0) as -> by (apply Bool.eq_iff_eq_true; rewrite !Nat.eqb_eq; lia). done.
Qed.

Lemma told_alive l c : told restarts l 0 -> told restarts (l ++ [true])%list (S c).
Proof.
  unfold told. destruct restarts; intros H; [intros _; by rewrite verdict_app|].
  by rewrite (alternate_app _ _ _ H).
Qed.

Lemma told_stale l c : told restarts l (S c) -> told restarts (l ++ [false])%list 0.
Proof.
  unfold told. destruct restarts; intros H; [intros; lia|]. by rewrite (alternate_app _ _ _ H).
Qed.

Lemma nodeEvents_pub n l e : nodeEvent n e = None -> nodeEvents n (l ++ [e])%list = nodeEvents n l.
Proof. intros H. rewrite nodeEvents_app. cbn. rewrite H. apply app_nil_r. Qed.

(** The count of a node and what is told of it, on the event of one of its
    receiving streams. *)
Lemma countBeat_spec name n r l c : (name = evBeating \/ name = evStale /\ 0 < c)%nat ->
  rxBeating r = Z.of_nat c -> told restarts (nodeEvents n l) c ->
  exists r' pubs, countBeat name n r = Some (r', pubs) /\
    rxBeating r' = Z.of_nat (if String.eqb name evBeating then S c else pred c) /\
    cancel r' = cancel r /\ rxCount r' = rxCount r /\ txCount r' = txCount r /\ beatingChan r' = beatingChan r /\
    told restarts (nodeEvents n (l ++ pubs)) (if String.eqb name evBeating then S c else pred c) /\
    (forall n', n' <> n -> omap (nodeEvent n') pubs = []) /\
    Forall (fun e => exists n', e = NodeAlive n' \/ e = NodeStale n') pubs.
Proof.
  intros Hname Hr Ht. unfold countBeat. destruct (String.eqb_spec name evBeating) as [->|Hne].
  - cbn [mbind option_bind]. rewrite Hr. destruct c as [|c]; cbn -[Z.of_nat nodeEvents told].
    + rewrite Hr. change (Z.of_nat 0) with 0%Z. eexists _, _. split; [done|]. cbn -[nodeEvents told].
      split_and!; try (done || lia).
      * rewrite nodeEvents_alive. by apply told_alive.
      * intros n' Hn. destruct (String.eqb_spec n n'); [congruence|done].
      * repeat constructor. by eauto.
    + rewrite Hr. destruct (Z.eqb_spec (Z.succ (Z.of_nat (S c))) 0); [lia|].
      eexists _, _. split; [done|]. cbn -[Z.of_nat nodeEvents told]. split_and!; try (done || lia).
      rewrite app_nil_r. eapply told_same; [exact Ht|lia].
  - destruct Hname as [?|[-> Hc]]; [done|]. rewrite String.eqb_refl, Hr. destruct c as [|c]; [lia|].
    destruct (Z.eqb_spec (Z.of_nat (S c)) 0); [lia|]. cbn -[Z.of_nat nodeEvents told]. rewrite Hr.
    destruct (Z.eqb_spec (Z.pred (Z.of_nat (S c))) 0) as [H0|H0]; (eexists _, _; split; [done|]); cbn -[Z.of_nat nodeEvents told]; split_and!; try (done || lia).
    + assert (c = 0)%nat as -> by lia. rewrite nodeEvents_stale. by eapply told_stale.
    + intros n' Hn. destruct (String.eqb_spec n n'); [congruence|done].
    + repeat constructor. by eauto.
    + rewrite app_nil_r. eapply told_same; [exact Ht|lia].
Qed.

End steps.

End hbCount.
Module hbServe.
Import hbctrl hbCount.

Section serve.
Context (restarts : bool).

Definition isPub (e : Effect) : Prop :=
  match e with SendBeat _ _ | PeerWatch _ _ _ _ _ | CallCancel _ => False | _ => True end.

Lemma perform_pubs l s : Forall isPub l -> foldl perform s l = s <| published ::= fun p => (p ++ l)%list |>.
Proof.
  revert s. induction l as [|e l IH]; intros s H; cbn.
  - destruct s. unfold upd, upd_published. cbn. by rewrite app_nil_r.
  - inversion_clear H as [|?? He Hl]. rewrite IH by done. destruct e; try done; unfold perform, upd, upd_published; cbn; by rewrite <- app_assoc.
Qed.

Lemma counted_none ws hb i w : ws !! i = Some w -> counted ws None hb i = isRx hb && lastPub w.
Proof. intros Hi. unfold counted. rewrite Hi, bool_decide_eq_false_2 by done. by destruct (isRx hb). Qed.

(** The publications of an event, and the state it leaves: the count of the node
    follows its watcher. *)
Lemma event_spec s i w : watchers s !! i = Some w -> point w = SendingEvent -> Inv restarts None s ->
  let w' := w <| point := SendingStatus |> in
  let name := if IsBeating (peer w) then evBeating else evStale in
  exists t r r' pubs, event (now s) name (nodename w) (HbID w) (ctrl s) = Some (t, pubs) /\
    remotes (ctrl s) !! nodename w = Some r /\ remotes t = <[nodename w := r']> (remotes (ctrl s)) /\
    heartbeat t = heartbeat (ctrl s) /\ fresh t = fresh (ctrl s) /\
    rxBeating r' = Z.of_nat (beatingOf (<[i := w']> (watchers s)) None r') /\
    cancel r' = cancel r /\ (rxCount r' + txCount r' = rxCount r + txCount r)%Z /\
    told restarts (nodeEvents (nodename w) (published s ++ pubs)) (beatingOf (<[i := w']> (watchers s)) None r') /\
    (forall n', n' <> nodename w -> omap (nodeEvent n') pubs = []) /\ Forall isPub pubs.
Proof.
  intros Hi Hp I w' name.
  destruct (inv_known _ _ _ I i w Hi) as (r & Hr & Hc).
  pose proof (inv_ok _ _ _ I i w Hi Hp) as Hok. pose proof (inv_count _ _ _ I _ _ Hr) as Hcount.
  pose proof (inv_told _ _ _ I (nodename w)) as Ht. rewrite Hr in Ht.
  pose proof (setWatch_counted restarts None s i w w' _ r Hi I eq_refl eq_refl Hr) as Hset.
  rewrite decide_True in Hset by done. rewrite (counted_none _ _ _ _ Hi) in Hset.
  rewrite (counted_none (<[i := w']> _) _ _ w') in Hset by apply lookup_insert_eq.
  assert (lastPub w = beatingOnLastPub w) as Hl by (unfold lastPub; by rewrite Hp). rewrite Hl in Hset.
  change (lastPub w') with (IsBeating (peer w)) in Hset.
  unfold event. cbn [remotes upd upd_events upd_changed]. change (remotes (_ <| changed := true |>)) with (remotes (ctrl s)).
  rewrite Hr. set (hbEvent := if String.eqb name evStale then _ else _).
  assert (forall n, nodeEvent n hbEvent = None) as Hev by (intros n; subst hbEvent; by destruct (String.eqb name evStale)).
  assert (isPub hbEvent) as Hpub by (subst hbEvent; by destruct (String.eqb name evStale)).
  destruct (isRx (HbID w)) eqn:Hrx; cbn [andb] in Hset.
  - destruct (countBeat_spec restarts name (nodename w) r (published s ++ [hbEvent])%list (beatingOf (watchers s) None r))
      as (r' & pubs & Hcb & H1 & H2 & H3 & H4 & _ & H6 & H7 & H8); [|done|by rewrite nodeEvents_pub by apply Hev|].
    { subst name. destruct (IsBeating (peer w)) eqn:Hb; [by left|right]. split; [done|].
      eapply (countIf_pos _ _ (HbID w) i); [congruence|]. rewrite (counted_none _ _ _ _ Hi), Hl, Hrx. by destruct (beatingOnLastPub w). }
    rewrite Hcb. cbn [mbind option_bind fst snd].
    assert (beatingOf (<[i := w']> (watchers s)) None r' =
      if String.eqb name evBeating then S (beatingOf (watchers s) None r) else pred (beatingOf (watchers s) None r)) as Hc'.
    { replace (beatingOf _ None r') with (beatingOf (<[i := w']> (watchers s)) None r) by (unfold beatingOf; by rewrite H2).
      subst name. destruct (IsBeating (peer w)), (beatingOnLastPub w); try done; cbn in Hset |- *; lia. }
    eexists _, r, r', _. split; [done|]. rewrite Hc'. rewrite <- app_assoc in H6. split_and!; try done.
    + lia.
    + intros n' Hn'. cbn. rewrite (Hev n'). by apply H7.
    + constructor; [by apply Hpub|]. eapply Forall_impl; [exact H8|]. by intros e (n' & [-> | ->]).
  - eexists _, r, r, [hbEvent]. split; [done|]. rewrite insert_id by done.
    assert (beatingOf (<[i := w']> (watchers s)) None r = beatingOf (watchers s) None r) as -> by (cbn in Hset; lia).
    split_and!; try done.
    + by rewrite nodeEvents_pub by apply Hev.
    + intros n' _. cbn. by rewrite (Hev n').
    + constructor; [apply Hpub|constructor].
Qed.

Lemma sendEvent_inv s i w : watchers s !! i = Some w -> point w = SendingEvent -> Inv restarts None s ->
  Inv restarts None (serve (CmdEvent (if IsBeating (peer w) then evBeating else evStale) (nodename w) (HbID w))
    (setWatch i (w <| point := SendingStatus |>) s)).
Proof.
  intros Hi Hp I. destruct (event_spec s i w Hi Hp I) as (t & r & r' & pubs & Hev & Hr & Hrem & Hhb & Hfr & Hcount & Hc & Hsz & Ht & Ho & Hpubs).
  unfold serve, setWatch, handle. change (now (_ <| watchers ::= _ |>)) with (now s). change (ctrl (_ <| watchers ::= _ |>)) with (ctrl s).
  rewrite Hev, perform_pubs by done. set (w' := w <| point := SendingStatus |>) in *.
  assert (forall n, n <> nodename w -> forall q, remotes (ctrl s) !! n = Some q ->
    beatingOf (<[i := w']> (watchers s)) None q = beatingOf (watchers s) None q) as Hother.
  { intros n Hn q Hq. pose proof (setWatch_counted restarts None s i w w' n q Hi I eq_refl eq_refl Hq) as H. by rewrite decide_False in H. }
  constructor; cbn -[nodeEvents told]; rewrite ?Hrem, ?Hhb, ?Hfr.
  - apply I.
  - intros n q hb j [[<- <-]|[Hne Hq]]%lookup_insert_Some Hj.
    + rewrite Hc in Hj. destruct (inv_watch _ _ _ I _ r hb j Hr Hj) as (v & Hv & H1 & H2).
      destruct (decide (i = j)) as [<-|Hne]; [exists w'|exists v; by rewrite lookup_insert_ne].
      rewrite lookup_insert_eq. rewrite Hi in Hv. by injection Hv as <-.
    + destruct (inv_watch _ _ _ I _ q hb j Hq Hj) as (v & Hv & H1 & H2).
      destruct (decide (i = j)) as [<-|Hne']; [exists w'|exists v; by rewrite lookup_insert_ne].
      rewrite lookup_insert_eq. rewrite Hi in Hv. by injection Hv as <-.
  - intros j v Hv. assert (exists q, remotes (ctrl s) !! nodename v = Some q /\ cancel q !! HbID v = Some j) as (q & Hq & Hj).
    { apply lookup_insert_Some in Hv as [[<- <-]|[_ Hv]]; [exact (inv_known _ _ _ I i w Hi)|by apply (inv_known _ _ _ I)]. }
    destruct (decide (nodename v = nodename w)) as [E|Hne]; [|exists q; by rewrite lookup_insert_ne].
    exists r'. rewrite E, lookup_insert_eq, Hc. rewrite E, Hr in Hq. by injection Hq as <-.
  - intros j v [[<- <-]|[_ Hv]]%lookup_insert_Some; [exact (inv_fresh _ _ _ I i w Hi)|exact (inv_fresh _ _ _ I j v Hv)].
  - intros j v [[<- <-]|[_ Hv]]%lookup_insert_Some; [done|exact (inv_ok _ _ _ I j v Hv)].
  - intros n q [[<- <-]|[Hne Hq]]%lookup_insert_Some; [done|]. rewrite (Hother n ltac:(congruence) q Hq). exact (inv_count _ _ _ I n q Hq).
  - intros n q [[<- <-]|[Hne Hq]]%lookup_insert_Some; [|exact (inv_size _ _ _ I n q Hq)].
    rewrite Hsz, Hc. exact (inv_size _ _ _ I _ r Hr).
  - intros hb st n ps Hst Hps. destruct (inv_peers _ _ _ I hb st n ps Hst Hps) as (q & j & Hq & Hj).
    destruct (decide (n = nodename w)) as [->|Hne]; [|exists q, j; by rewrite lookup_insert_ne].
    exists r', j. rewrite lookup_insert_eq, Hc. rewrite Hr in Hq. by injection Hq as <-.
  - intros j Hj. destruct (inv_cancelled _ _ _ I j Hj) as [H1 H2]. split; [|done].
    rewrite lookup_insert_ne; [done|]. intros ->. congruence.
  - intros n. destruct (decide (n = nodename w)) as [->|Hne]; [by rewrite lookup_insert_eq|].
    rewrite lookup_insert_ne by done. rewrite nodeEvents_app.
    replace (nodeEvents n pubs) with (@nil bool) by (symmetry; by apply Ho). rewrite app_nil_r.
    pose proof (inv_told _ _ _ I n) as Hn. destruct (remotes (ctrl s) !! n) as [q|] eqn:Hq; [by rewrite (Hother n Hne q Hq)|done].
Qed.

(** ** A watcher is added *)

Lemma addWatcher_inv s hb n desc d : (0 < d)%Z -> Inv restarts None s ->
  Inv restarts None (serve (CmdAddWatcher hb n desc d) s).
Proof.
  intros Hd I. unfold serve, handle, addWatcher.
  assert (Inv restarts None (s <| ctrl := ctrl s |>)) as Is by (by destruct s).
  destruct (cancel _ !! hb) eqn:Hc; [exact Is|]. destruct (heartbeat (ctrl s) !! hb) as [st|] eqn:Hst; [|exact Is].
  cbv zeta. set (r := default newRemote (remotes (ctrl s) !! n)) in *.
  cbn [foldl perform]. unfold peerWatch. destruct (Z.leb_spec d 0) as [Hle|_]; [lia|].
  set (i := fresh (ctrl s)). set (w := mkWatch hb n d _ _ _ _ _ _ _).
  set (r1 := if isRx hb then _ else _).
  assert (cancel r1 = <[hb := i]> (cancel r)) as Hc1 by (subst r1; by destruct (isRx hb)).
  assert (rxBeating r1 = rxBeating r) as Hb1 by (subst r1; by destruct (isRx hb)).
  assert (rxCount r1 + txCount r1 = Z.succ (rxCount r + txCount r))%Z as Hs1.
  { subst r1. destruct (isRx hb); unfold upd, upd_rxCount, upd_txCount; cbn; lia. }
  assert (watchers s !! i = None) as Hi.
  { destruct (watchers s !! i) as [v|] eqn:Hv; [|done]. pose proof (inv_fresh _ _ _ I i v Hv). lia. }
  assert (forall j v, watchers s !! j = Some v -> i <> j) as Hnew by (intros j v Hv ->; congruence).
  assert (forall hb' j, counted (<[i := w]> (watchers s)) None hb' j = counted (watchers s) None hb' j) as Hcnt.
  { intros hb' j. unfold counted. f_equal. destruct (decide (i = j)) as [<-|Hne]; [|by rewrite lookup_insert_ne].
    by rewrite lookup_insert_eq, Hi. }
  assert (forall q, beatingOf (<[i := w]> (watchers s)) None q = beatingOf (watchers s) None q) as Hb.
  { intros q. apply countIf_ext. intros. apply Hcnt. }
  assert (beatingOf (watchers s) None r1 = beatingOf (watchers s) None r) as Hbr.
  { unfold beatingOf. rewrite Hc1, countIf_insert by done. unfold counted at 1. rewrite Hi. by destruct (isRx hb). }
  assert (forall k q, remotes (ctrl s) !! k = Some q -> k = n -> q = r) as Hr.
  { intros k q Hq ->. subst r. by rewrite Hq. }
  constructor; cbn -[nodeEvents told].
  - apply I.
  - intros k q hb' j [[<- <-]|[Hne Hq]]%lookup_insert_Some Hj.
    + rewrite Hc1 in Hj. apply lookup_insert_Some in Hj as [[<- <-]|[Hne Hj]]; [exists w; by rewrite lookup_insert_eq|].
      subst r. destruct (remotes (ctrl s) !! n) as [q|] eqn:Hq; [|done]. cbn in Hj.
      destruct (inv_watch _ _ _ I n q hb' j Hq Hj) as (v & Hv & H1 & H2). exists v. by rewrite lookup_insert_ne by (by eapply Hnew).
    + destruct (inv_watch _ _ _ I k q hb' j Hq Hj) as (v & Hv & H1 & H2). exists v. by rewrite lookup_insert_ne by (by eapply Hnew).
  - intros j v [[<- <-]|[Hne Hv]]%lookup_insert_Some; [exists r1; by rewrite lookup_insert_eq, Hc1, lookup_insert_eq|].
    destruct (inv_known _ _ _ I j v Hv) as (q & Hq & Hj). destruct (decide (n = nodename v)) as [E|Hne']; [|exists q; by rewrite lookup_insert_ne].
    exists r1. rewrite <- E, lookup_insert_eq, Hc1. split; [done|]. rewrite (Hr _ _ Hq) in Hj by done.
    rewrite lookup_insert_ne; [done|]. intros ->. congruence.
  - intros j v [[<- <-]|[Hne Hv]]%lookup_insert_Some; [lia|]. pose proof (inv_fresh _ _ _ I j v Hv). lia.
  - intros j v [[<- <-]|[Hne Hv]]%lookup_insert_Some; [done|exact (inv_ok _ _ _ I j v Hv)].
  - intros k q [[<- <-]|[Hne Hq]]%lookup_insert_Some; rewrite Hb; [|exact (inv_count _ _ _ I k q Hq)].
    rewrite Hb1, Hbr. subst r. destruct (remotes (ctrl s) !! n) as [q|] eqn:Hq; [exact (inv_count _ _ _ I n q Hq)|done].
  - intros k q [[<- <-]|[Hne Hq]]%lookup_insert_Some; [|exact (inv_size _ _ _ I k q Hq)].
    rewrite Hs1, Hc1, map_size_insert_None by done. subst r.
    destruct (remotes (ctrl s) !! n) as [q|] eqn:Hq; [cbn; rewrite (inv_size _ _ _ I n q Hq); lia|done].
  - intros hb' st' k ps [[<- <-]|[Hne Hst']]%lookup_insert_Some Hps.
    + cbn in Hps. apply lookup_insert_Some in Hps as [[<- _]|[Hne Hps]].
      * exists r1, i. by rewrite lookup_insert_eq, Hc1, lookup_insert_eq.
      * destruct (inv_peers _ _ _ I hb st k ps Hst Hps) as (q & j & Hq & Hj). exists q, j. by rewrite lookup_insert_ne.
    + destruct (inv_peers _ _ _ I hb' st' k ps Hst' Hps) as (q & j & Hq & Hj).
      destruct (decide (n = k)) as [->|Hne']; [|exists q, j; by rewrite lookup_insert_ne].
      exists r1, j. rewrite lookup_insert_eq, Hc1, lookup_insert_ne by done. by rewrite (Hr _ _ Hq) in Hj.
  - intros j Hj. destruct (inv_cancelled _ _ _ I j Hj) as [H1 H2]. split; [|lia]. rewrite lookup_insert_ne; [done|]. lia.
  - intros k. pose proof (inv_told _ _ _ I k) as Hk. destruct (decide (n = k)) as [->|Hne].
    + rewrite lookup_insert_eq, Hb, Hbr. subst r. by destruct (remotes (ctrl s) !! k).
    + rewrite lookup_insert_ne by done. by destruct (remotes (ctrl s) !! k); rewrite ?Hb.
Qed.

(** ** The calm runs *)

(** The actions but the stop of a stream; a watcher has a timeout. *)
Definition calm (a : Action) : bool :=
  match a with
  | Drive (CmdUnregister _) | Drive (CmdDelWatcher _ _) | CancelCtx _ => false
  | Drive (CmdAddWatcher _ _ _ d) => Z.ltb 0 d
  | _ => true
  end.

Lemma selecting_spec s i w : selecting s i = Some w -> watchers s !! i = Some w /\ point w = Selecting.
Proof. unfold selecting. destruct (watchers s !! i) as [v|]; [|done]. cbn. case_decide; [|done]. by intros [= <-]. Qed.

(** A step of a watcher at its select, that does not publish. *)
Lemma select_inv s i w w' : selecting s i = Some w -> HbID w' = HbID w -> nodename w' = nodename w ->
  beatingOnLastPub w' = beatingOnLastPub w -> point w' <> SendingStatus -> watch_ok w' ->
  Inv restarts None s -> Inv restarts None (setWatch i w' s).
Proof.
  intros [Hi Hp]%selecting_spec Hh Hn Hb Hp' Hok I. eapply (setWatch_inv restarts None s i w w'); try done.
  unfold lastPub. rewrite Hp, Hb. by destruct (point w').
Qed.

Lemma serve_driver s c : external c = true -> calm (Drive c) = true -> Inv restarts None s -> Inv restarts None (serve c s).
Proof.
  intros Hx Hc I. destruct c; try done; unfold serve, handle; cbn [foldl perform].
  - eapply (Inv_same restarts None s); try done. cbn. intros hb st n ps [[<- <-]|[Hne Hst]]%lookup_insert_Some; [done|]. left. by exists st, ps.
  - destruct (heartbeat (ctrl s) !! id) as [s0|] eqn:Hs; eapply (Inv_same restarts None s); try done; cbn.
    + intros hb st n ps [[<- <-]|[Hne Hst]]%lookup_insert_Some; left; [by exists s0, ps|by exists st, ps].
    + intros. left. by eexists _, _.
  - eapply (Inv_same restarts None s); try done; [|intros; left; by eexists _, _].
    intros n. by apply (nodeEvents_pub n (published s)).
  - destruct (heartbeat (ctrl s) !! hbID) as [s0|] eqn:Hs; eapply (Inv_same restarts None s); try done; cbn.
    + intros hb st n ps [[<- <-]|[Hne Hst]]%lookup_insert_Some; left; [by exists s0, ps|by exists st, ps].
    + intros. left. by eexists _, _.
  - destruct (remotes (ctrl s) !! _) as [r|]; [destruct (beatingChan r !! hbID)|];
      (eapply (Inv_same restarts None s); try done; intros; left; by eexists _, _).
  - apply addWatcher_inv; [|done]. cbn in Hc. lia.
  - eapply (Inv_same restarts None s); try done; [|intros; left; by eexists _, _].
    intros n. by apply (nodeEvents_pub n (published s)).
Qed.


Lemma setPeerStatus_inv s i w : watchers s !! i = Some w -> Inv restarts None s ->
  Inv restarts None (serve (CmdSetPeerStatus (nodename w) (HbID w) (peer w)) s).
Proof.
  intros Hi I. destruct (inv_known _ _ _ I i w Hi) as (r & Hr & Hc).
  unfold serve, handle, setPeerStatus. cbn [foldl].
  destruct (heartbeat (ctrl s) !! HbID w) as [s0|] eqn:Hs; eapply (Inv_same restarts None s); try done; cbn.
  - intros hb st n ps [[<- <-]|[Hne Hst]]%lookup_insert_Some Hps; [|left; by exists st, ps].
    cbn in Hps. apply lookup_insert_Some in Hps as [[<- _]|[_ Hps]]; [right; by exists r, i|left; by exists s0, ps].
  - intros. left. by eexists _, _.
Qed.

Lemma send_inv s i w c : watchers s !! i = Some w -> offer w = Some c -> Inv restarts None s ->
  Inv restarts None (serve c (setWatch i (sent (now s) w) s)).
Proof.
  intros Hi Ho I. unfold offer in Ho. unfold sent. destruct (point w) eqn:Hp; [done|injection Ho as <-..].
  - by apply sendEvent_inv.
  - set (w' := _ <| point := Selecting |>). apply (setPeerStatus_inv _ i w'); [by apply lookup_insert_eq|].
    eapply (setWatch_inv restarts None s i w w'); try done. unfold lastPub. by rewrite Hp.
  - set (w' := _ <| point := Selecting |>). apply (setPeerStatus_inv _ i w'); [by apply lookup_insert_eq|].
    eapply (setWatch_inv restarts None s i w w'); try done. unfold lastPub. by rewrite Hp.
Qed.

Lemma onBeating_fields t b w : HbID (onBeating t b w) = HbID w /\ nodename (onBeating t b w) = nodename w /\
  beatingOnLastPub (onBeating t b w) = beatingOnLastPub w /\ point (onBeating t b w) = point w.
Proof. unfold onBeating. by destruct b, (IsBeating (peer w)). Qed.

Lemma act_inv a s s' : calm a = true -> act a s = Some s' -> Inv restarts None s -> Inv restarts None s'.
Proof.
  intros Hc Ha I. unfold act in Ha. destruct (panicked s); [done|]. destruct a as [c|i|i b|i|i|i|i|i| |d].
  - destruct (external c) eqn:Hx; [|done]. injection Ha as <-. by apply serve_driver.
  - destruct (watchers s !! i) as [w|] eqn:Hi; [|done]. cbn in Ha. destruct (offer w) as [c|] eqn:Ho; [|done].
    injection Ha as <-. by apply send_inv.
  - destruct (selecting s i) as [w|] eqn:Hi; [|done]. cbn in Ha. destruct (takeBeat _ _) as [l|]; [|done]. injection Ha as <-.
    destruct (onBeating_fields (now s) b w) as (H1 & H2 & H3 & H4). pose proof (selecting_spec _ _ _ Hi) as [_ Hp].
    eapply select_inv; try done; [by rewrite H4, Hp|unfold watch_ok; by rewrite H4, Hp|].
    eapply (Inv_same restarts None s); try done. intros. left. by eexists _, _.
  - destruct (selecting s i) as [w|] eqn:Hi; [|done]. cbn in Ha. destruct (fires _ _); [|done]. injection Ha as <-.
    pose proof (selecting_spec _ _ _ Hi) as [_ Hp]. unfold onPubTick. cbv zeta.
    destruct (changes _); [destruct (Bool.eqb _ _) eqn:He|]; (eapply select_inv; try done; unfold watch_ok; cbn; rewrite ?Hp; try done).
    intros _. apply eqb_false_iff in He. exact He.
  - destruct (selecting s i) as [w|] eqn:Hi; [|done]. cbn in Ha. destruct (fires _ _); [|done]. injection Ha as <-.
    pose proof (selecting_spec _ _ _ Hi) as [_ Hp]. unfold onStaleTick.
    destruct (IsBeating (peer w)); (eapply select_inv; try done; unfold watch_ok; cbn; by rewrite ?Hp).
  - destruct (selecting s i) as [w|] eqn:Hi; [|done]. cbn -[fires] in Ha. destruct (fires _ _); [|done]. injection Ha as <-.
    eapply select_inv; try done.
  - done.
  - destruct (selecting s i) as [w|] eqn:Hi; [|done]. cbn in Ha. case_decide as Hin; [|done].
    pose proof (selecting_spec _ _ _ Hi) as [Hw _]. destruct (inv_cancelled _ _ _ I i Hin). congruence.
  - unfold tick in Ha. cbn in Ha. injection Ha as <-. eapply (Inv_same restarts None s); try done; [|intros; left; by eexists _, _].
    intros n. by apply (nodeEvents_pub n (published s)).
  - destruct (d <? 0)%Z; [done|]. injection Ha as <-. eapply (Inv_same restarts None s); try done. intros. left. by eexists _, _.
Qed.


(** ** The stop of a stream *)

(** Whether the status the controller has of a peer on a stream beats. *)
Definition cached (s : Sys) (id n : string) : bool :=
  match heartbeat (ctrl s) !! id with
  | Some st => match Peers st !! n with Some ps => IsBeating ps | None => false end
  | None => false
  end.

(** [stopHb], then the deletion of the watchers by the driver, and their return. *)
Definition stopActions (id : string) (l : list (string * nat)) : list Action :=
  Drive (CmdUnregister id) :: flat_map (fun p => [Drive (CmdDelWatcher id (fst p)); Return (snd p)]) l.

(** The watchers of a stream are at their select, with nothing to publish, and
    the status the controller has of each is the last one told.  With no restart
    of a stream that beats, none of them beats. *)
Record settled (id : string) (l : list (string * nat)) (s : Sys) : Prop := {
  settled_nodup : NoDup (map fst l);
  settled_watchers : forall n i, (n, i) ∈ l <-> exists r, remotes (ctrl s) !! n = Some r /\ cancel r !! id = Some i;
  settled_select : forall n i w, (n, i) ∈ l -> watchers s !! i = Some w -> point w = Selecting;
  settled_cached : forall n i w, (n, i) ∈ l -> watchers s !! i = Some w -> isRx id = true ->
    cached s id n = beatingOnLastPub w /\ (restarts = false -> beatingOnLastPub w = false) }.

Lemma foldl_forgetBeat l : NoDup (map fst l) -> forall (m : gmap string RemoteBeating) n,
  foldl forgetBeat m l !! n =
  (fun r => match (list_to_map l : gmap string PeerStatus) !! n with
            | Some ps => if IsBeating ps then r <| rxBeating ::= Z.pred |> else r
            | None => r
            end) <$> m !! n.
Proof.
  induction l as [|[k ps] l IH]; intros Hnd m n; cbn; [by destruct (m !! n)|].
  inversion_clear Hnd as [|?? Hk Hnd']. rewrite IH by done. unfold forgetBeat. cbn.
  destruct (decide (k = n)) as [->|Hne].
  - rewrite lookup_insert_eq. rewrite not_elem_of_list_to_map_1 by done.
    destruct (IsBeating ps); [|done]. destruct (m !! n) eqn:Hm; [by rewrite lookup_insert_eq|by rewrite Hm].
  - rewrite lookup_insert_ne by done. f_equal. destruct (IsBeating ps); [|done].
    destruct (m !! k); [by rewrite lookup_insert_ne|done].
Qed.

(** The remotes once a stream is forgotten. *)
Lemma unregister_remotes s id n :
  remotes (unregister id (ctrl s)) !! n =
  (fun r => if isRx id && cached s id n then r <| rxBeating ::= Z.pred |> else r) <$> remotes (ctrl s) !! n.
Proof.
  unfold unregister, cached. destruct (heartbeat (ctrl s) !! id) as [st|]; cbn.
  - destruct (isRx id); cbn; [|by destruct (remotes (ctrl s) !! n)].
    rewrite foldl_forgetBeat by apply NoDup_fst_map_to_list. rewrite list_to_map_to_list.
    by destruct (Peers st !! n).
  - rewrite andb_false_r. by destruct (remotes (ctrl s) !! n).
Qed.

Lemma counted_stop ws id hb i : hb <> id -> counted ws (Some id) hb i = counted ws None hb i.
Proof. intros H. unfold counted. by rewrite (bool_decide_eq_false_2 (Some id = Some hb)) by congruence. Qed.

Lemma counted_stopped ws id i : counted ws (Some id) id i = false.
Proof. unfold counted. rewrite bool_decide_eq_true_2 by done. by rewrite andb_false_r. Qed.

Lemma stop_count id l s n r : settled id l s -> Inv restarts None s -> remotes (ctrl s) !! n = Some r ->
  (b2n (isRx id && cached s id n) + beatingOf (watchers s) (Some id) r = beatingOf (watchers s) None r)%nat /\
  (restarts = false -> isRx id && cached s id n = false).
Proof.
  intros Hs I Hr. destruct (cancel r !! id) as [i|] eqn:Hc.
  - destruct (inv_watch _ _ _ I n r id i Hr Hc) as (w & Hw & _).
    assert ((n, i) ∈ l) as Hin by (apply (settled_watchers _ _ _ Hs); by exists r).
    pose proof (settled_select _ _ _ Hs n i w Hin Hw) as Hp.
    assert (counted (watchers s) None id i = isRx id && cached s id n) as Hcount.
    { rewrite (counted_none _ _ _ _ Hw). unfold lastPub. rewrite Hp. destruct (isRx id) eqn:Hrx; [|done].
      by destruct (settled_cached _ _ _ Hs n i w Hin Hw Hrx) as [-> _]. }
    split.
    + rewrite <- Hcount. unfold beatingOf.
      pose proof (countIf_change (counted (watchers s) None) (counted (watchers s) (Some id)) (cancel r) id i Hc) as H.
      rewrite counted_stopped in H. cbn in H. apply H. intros hb j Hne _. symmetry. by apply counted_stop.
    + intros Hf. destruct (isRx id) eqn:Hrx; [|done]. destruct (settled_cached _ _ _ Hs n i w Hin Hw Hrx) as [-> Hb]. cbn. auto.
  - assert (cached s id n = false) as ->.
    { unfold cached. destruct (heartbeat (ctrl s) !! id) as [st|] eqn:Hst; [|done]. destruct (Peers st !! n) as [ps|] eqn:Hps; [|done].
      destruct (inv_peers _ _ _ I id st n ps Hst Hps) as (q & j & Hq & Hj). congruence. }
    rewrite andb_false_r. split; [|done]. apply countIf_ext. intros hb j Hj. apply counted_stop. congruence.
Qed.

Lemma told_fewer lst c c' : told restarts lst c -> (c' <= c)%nat -> (restarts = false -> c' = c) -> told restarts lst c'.
Proof. unfold told. destruct restarts; intros H Hle He; [intros; apply H; lia|]. by rewrite He. Qed.

Lemma unregister_inv id l s : settled id l s -> Inv restarts None s ->
  Inv restarts (Some id) (s <| ctrl := unregister id (ctrl s) |>).
Proof.
  intros Hs I.
  assert (fresh (unregister id (ctrl s)) = fresh (ctrl s)) as Hf.
  { unfold unregister. destruct (heartbeat (ctrl s) !! id); [|done]. by destruct (isRx id). }
  assert (heartbeat (unregister id (ctrl s)) = delete id (heartbeat (ctrl s))) as Hh.
  { unfold unregister. destruct (heartbeat (ctrl s) !! id) eqn:E; [by destruct (isRx id)|]. cbn. by rewrite delete_id. }
  assert (forall n r', remotes (unregister id (ctrl s)) !! n = Some r' -> exists r, remotes (ctrl s) !! n = Some r /\
    cancel r' = cancel r /\ rxCount r' = rxCount r /\ txCount r' = txCount r /\
    rxBeating r' = (rxBeating r - Z.of_nat (b2n (isRx id && cached s id n)))%Z) as Hr.
  { intros n r'. rewrite unregister_remotes. destruct (remotes (ctrl s) !! n) as [r|]; [|done]. cbn. intros [= <-]. exists r. split; [done|].
    destruct (isRx id && cached s id n); cbn; split_and!; try done; unfold upd, upd_rxBeating; cbn; lia. }
  assert (forall n r, remotes (ctrl s) !! n = Some r -> exists r', remotes (unregister id (ctrl s)) !! n = Some r' /\ cancel r' = cancel r) as Hr'.
  { intros n r Hn. rewrite unregister_remotes, Hn. cbn. eexists. split; [done|]. by destruct (_ && _). }
  constructor; cbn -[nodeEvents told unregister]; rewrite ?Hf, ?Hh; try apply I.
  - intros n r' hb i Hn Hi. destruct (Hr n r' Hn) as (r & Hrn & Hc & _). rewrite Hc in Hi. exact (inv_watch _ _ _ I n r hb i Hrn Hi).
  - intros i w Hw. destruct (inv_known _ _ _ I i w Hw) as (r & Hrn & Hc). destruct (Hr' _ _ Hrn) as (r' & H1 & H2).
    exists r'. by rewrite H2.
  - intros n r' Hn. destruct (Hr n r' Hn) as (r & Hrn & Hc & _ & _ & ->). destruct (stop_count id l s n r Hs I Hrn) as [Hcount _].
    rewrite (inv_count _ _ _ I n r Hrn). unfold beatingOf in *. rewrite Hc. lia.
  - intros n r' Hn. destruct (Hr n r' Hn) as (r & Hrn & -> & -> & -> & _). exact (inv_size _ _ _ I n r Hrn).
  - intros hb st n ps [_ Hst]%lookup_delete_Some Hps. destruct (inv_peers _ _ _ I hb st n ps Hst Hps) as (r & i & Hrn & Hi).
    destruct (Hr' _ _ Hrn) as (r' & H1 & H2). exists r', i. by rewrite H2.
  - intros n. pose proof (inv_told _ _ _ I n) as Ht. destruct (remotes (ctrl s) !! n) as [r|] eqn:Hrn.
    + destruct (Hr' _ _ Hrn) as (r' & -> & H2). destruct (stop_count id l s n r Hs I Hrn) as [Hcount Hoff].
      replace (beatingOf (watchers s) (Some id) r') with (beatingOf (watchers s) (Some id) r) by (unfold beatingOf; by rewrite H2).
      eapply told_fewer; [exact Ht|lia|]. intros Hf0. rewrite (Hoff Hf0) in Hcount. cbn in Hcount. lia.
    + rewrite unregister_remotes, Hrn. exact Ht.
Qed.


Lemma act_drive s c s' : act (Drive c) s = Some s' -> s' = serve c s.
Proof. unfold act. destruct (panicked s); [done|]. destruct (external c); [|done]. by intros [= <-]. Qed.

Lemma act_return s i s' : act (Return i) s = Some s' -> s' = s <| watchers ::= delete i |>.
Proof.
  unfold act. destruct (panicked s); [done|]. destruct (selecting s i); [|done]. cbn. case_decide; [|done]. by intros [= <-].
Qed.

(** A watcher of the stream is deleted, and returns. *)
Lemma delWatcher_inv id n i s s' r : remotes (ctrl s) !! n = Some r -> cancel r !! id = Some i ->
  heartbeat (ctrl s) !! id = None ->
  acts [Drive (CmdDelWatcher id n); Return i] s = Some s' -> Inv restarts (Some id) s ->
  Inv restarts (Some id) s' /\ heartbeat (ctrl s') !! id = None /\
  (forall k q, remotes (ctrl s') !! k = Some q -> exists q0, remotes (ctrl s) !! k = Some q0 /\
     cancel q = if decide (k = n) then delete id (cancel q0) else cancel q0) /\
  (forall k q0 j, remotes (ctrl s) !! k = Some q0 -> k <> n -> cancel q0 !! id = Some j ->
     exists q, remotes (ctrl s') !! k = Some q /\ cancel q !! id = Some j).
Proof.
  intros Hr Hc Hh Ha I. destruct (inv_watch _ _ _ I n r id i Hr Hc) as (w & Hw & Hwid & Hwn).
  cbn [acts] in Ha. destruct (act (Drive _) s) as [s1|] eqn:Hd; [|done]. apply act_drive in Hd as ->.
  cbn [mbind option_bind] in Ha. destruct (act (Return i) _) as [s1|] eqn:Hret; [|done]. apply act_return in Hret as ->.
  injection Ha as Ha. unfold serve, handle, delWatcher in Ha. rewrite Hh, Hr, Hc in Ha.
  set (r1 := r <| cancel ::= delete id |>) in Ha. set (r' := if isRx id then _ else _) in Ha.
  assert (cancel r' = delete id (cancel r)) as Hc' by (subst r'; by destruct (isRx id)).
  assert (rxBeating r' = rxBeating r) as Hb' by (subst r'; by destruct (isRx id)).
  assert (rxCount r' + txCount r' = Z.of_nat (size (delete id (cancel r))))%Z as Hs'.
  { rewrite map_size_delete_Some by (by exists i). pose proof (inv_size _ _ _ I n r Hr) as Hs.
    assert (size (cancel r) <> 0)%nat by (apply map_size_non_empty_iff; intros E; by rewrite E in Hc).
    assert (rxCount r' + txCount r' = Z.pred (rxCount r + txCount r))%Z as ->; [|lia].
    subst r' r1. destruct (isRx id); unfold upd, upd_rxCount, upd_txCount, upd_cancel; cbn; lia. }
  set (m := if Z.eqb (rxCount r' + txCount r') 0 then delete n (remotes (ctrl s)) else <[n := r']> (remotes (ctrl s))).
  assert (s' = mkSys ((ctrl s) <| remotes := m |>) (delete i (watchers s)) (beats s) ({[i]} ∪ cancelled s) (now s) (published s) false) as ->.
  { rewrite <- Ha, <- (inv_run _ _ _ I). subst m. by destruct (Z.eqb _ 0). }
  clear Ha.
  assert (forall k q, m !! k = Some q -> exists q0, remotes (ctrl s) !! k = Some q0 /\ rxBeating q = rxBeating q0 /\
    cancel q = if decide (k = n) then delete id (cancel q0) else cancel q0) as Hm.
  { intros k q. subst m. destruct (Z.eqb _ 0).
    - intros [Hne Hq]%lookup_delete_Some. exists q. by rewrite decide_False.
    - intros [[<- <-]|[Hne Hq]]%lookup_insert_Some; [exists r; by rewrite decide_True|exists q; by rewrite decide_False]. }
  assert (forall k q0 hb j, remotes (ctrl s) !! k = Some q0 -> cancel q0 !! hb = Some j -> k <> n \/ hb <> id ->
    exists q, m !! k = Some q /\ cancel q !! hb = Some j) as Hm'.
  { intros k q0 hb j Hq Hj Hor. subst m. destruct (decide (k = n)) as [->|Hne].
    - rewrite Hr in Hq. injection Hq as <-. assert (delete id (cancel r) !! hb = Some j) as Hj' by (rewrite lookup_delete_ne; naive_solver).
      destruct (Z.eqb_spec (rxCount r' + txCount r') 0) as [E|E].
      + exfalso. rewrite Hs' in E. assert (size (delete id (cancel r)) = 0)%nat as E' by lia. apply map_size_empty_inv in E'. by rewrite E' in Hj'.
      + exists r'. by rewrite lookup_insert_eq, Hc'.
    - exists q0. destruct (Z.eqb _ 0); [by rewrite lookup_delete_ne|by rewrite lookup_insert_ne]. }
  assert (forall k q0 hb j, remotes (ctrl s) !! k = Some q0 -> cancel q0 !! hb = Some j -> j = i -> k = n /\ hb = id) as Hi.
  { intros k q0 hb j Hq Hj ->. destruct (inv_watch _ _ _ I k q0 hb i Hq Hj) as (v & Hv & <- & <-). rewrite Hw in Hv. by injection Hv as <-. }
  assert (forall k q, m !! k = Some q -> exists q0, remotes (ctrl s) !! k = Some q0 /\ rxBeating q = rxBeating q0 /\
    beatingOf (delete i (watchers s)) (Some id) q = beatingOf (watchers s) (Some id) q0) as Hbeat.
  { intros k q Hq. destruct (Hm k q Hq) as (q0 & Hq0 & Hb0 & Hcq). exists q0. split_and!; try done.
    transitivity (countIf (counted (watchers s) (Some id)) (cancel q)).
    - apply countIf_ext. intros hb j Hj. unfold counted. f_equal. destruct (decide (i = j)) as [<-|Hne]; [|by rewrite lookup_delete_ne].
      exfalso. destruct (decide (k = n)) as [->|Hne]; rewrite Hcq in Hj.
      + apply lookup_delete_Some in Hj as [Hne Hj]. by destruct (Hi _ _ _ _ Hq0 Hj eq_refl).
      + by destruct (Hi _ _ _ _ Hq0 Hj eq_refl).
    - rewrite Hcq. case_decide; [|done]. subst k. rewrite Hr in Hq0. injection Hq0 as <-.
      unfold beatingOf. rewrite <- (countIf_delete (counted (watchers s) (Some id)) (cancel r) id i Hc), counted_stopped. done. }
  split_and!; [| |intros k q Hq; destruct (Hm k q Hq) as (q0 & ? & _ & ?); by exists q0|intros k q0 j ? ? ?; apply (Hm' k q0 id j); auto].
  2: done.
  constructor; cbn -[nodeEvents told].
  - done.
  - intros k q hb j Hq Hj. destruct (Hm k q Hq) as (q0 & Hq0 & _ & Hcq).
    assert (cancel q0 !! hb = Some j /\ (k <> n \/ hb <> id)) as [Hj0 Hor].
    { rewrite Hcq in Hj. case_decide; [|by auto]. apply lookup_delete_Some in Hj as [? ?]. auto. }
    destruct (inv_watch _ _ _ I k q0 hb j Hq0 Hj0) as (v & Hv & H1 & H2). exists v. rewrite lookup_delete_ne; [done|].
    intros E. symmetry in E. destruct (Hi _ _ _ _ Hq0 Hj0 E). naive_solver.
  - intros j v [Hne Hv]%lookup_delete_Some. destruct (inv_known _ _ _ I j v Hv) as (q0 & Hq0 & Hj).
    apply (Hm' _ q0 _ j); [done..|]. destruct (decide (nodename v = n)) as [E1|]; [|by left]. right. intros E2.
    rewrite E1, Hr in Hq0. injection Hq0 as <-. rewrite E2, Hc in Hj. congruence.
  - intros j v [_ Hv]%lookup_delete_Some. exact (inv_fresh _ _ _ I j v Hv).
  - intros j v [_ Hv]%lookup_delete_Some. exact (inv_ok _ _ _ I j v Hv).
  - intros k q Hq. destruct (Hbeat k q Hq) as (q0 & Hq0 & -> & ->). exact (inv_count _ _ _ I k q0 Hq0).
  - intros k q Hq. subst m. destruct (Z.eqb _ 0).
    + apply lookup_delete_Some in Hq as [_ Hq]. exact (inv_size _ _ _ I k q Hq).
    + apply lookup_insert_Some in Hq as [[<- <-]|[_ Hq]]; [by rewrite Hs', Hc'|exact (inv_size _ _ _ I k q Hq)].
  - intros hb st k ps Hst Hps. destruct (inv_peers _ _ _ I hb st k ps Hst Hps) as (q0 & j & Hq0 & Hj).
    assert (hb <> id) as Hne by congruence. destruct (Hm' k q0 hb j Hq0 Hj (or_intror Hne)) as (q & H1 & H2). by exists q, j.
  - intros j [->%elem_of_singleton|Hj]%elem_of_union.
    + split; [apply lookup_delete_eq|]. exact (inv_fresh _ _ _ I i w Hw).
    + destruct (inv_cancelled _ _ _ I j Hj) as [H1 H2]. split; [|done]. apply lookup_delete_None. by right.
  - intros k. pose proof (inv_told _ _ _ I k) as Hk. destruct (m !! k) as [q|] eqn:Hq.
    + destruct (Hbeat k q Hq) as (q0 & Hq0 & _ & ->). by rewrite Hq0 in Hk.
    + destruct (remotes (ctrl s) !! k) as [q0|] eqn:Hq0; [|done].
      replace (beatingOf (watchers s) (Some id) q0) with 0%nat in Hk; [done|]. symmetry. apply countIf_false.
      intros hb j Hj. destruct (decide (hb = id)) as [->|Hne]; [apply counted_stopped|].
      destruct (Hm' k q0 hb j Hq0 Hj (or_intror Hne)) as (q & H1 & _). congruence.
Qed.


Lemma acts_app l1 l2 s : acts (l1 ++ l2) s = acts l1 s ≫= acts l2.
Proof. revert s. induction l1 as [|a l1 IH]; intros s; [done|]. cbn [acts app]. destruct (act a s); [apply IH|done]. Qed.

Lemma delWatchers_inv id l s s' : NoDup (map fst l) ->
  (forall n i, (n, i) ∈ l <-> exists r, remotes (ctrl s) !! n = Some r /\ cancel r !! id = Some i) ->
  heartbeat (ctrl s) !! id = None ->
  acts (flat_map (fun p => [Drive (CmdDelWatcher id (fst p)); Return (snd p)]) l) s = Some s' ->
  Inv restarts (Some id) s ->
  Inv restarts (Some id) s' /\ forall n r, remotes (ctrl s') !! n = Some r -> cancel r !! id = None.
Proof.
  revert s. induction l as [|[n i] l IH]; intros s Hnd Hl Hh Ha I.
  - injection Ha as <-. split; [done|]. intros n r Hr. destruct (cancel r !! id) as [i|] eqn:Hi; [|done].
    assert ((n, i) ∈ []) as Hin by (apply Hl; by exists r). inversion Hin.
  - cbn [flat_map fst snd] in Ha. rewrite acts_app in Ha.
    destruct (acts [Drive (CmdDelWatcher id n); Return i] s) as [s1|] eqn:H1; [|done]. cbn [mbind option_bind] in Ha.
    destruct (proj1 (Hl n i)) as (r & Hr & Hi); [by left|].
    destruct (delWatcher_inv id n i s s1 r Hr Hi Hh H1 I) as (I1 & Hh1 & Hm & Hm').
    inversion_clear Hnd as [|?? Hn Hnd']. apply (IH s1); try done. intros k j. split.
    + intros Hin. assert (k <> n) as Hne.
      { intros ->. apply Hn. apply list_elem_of_fmap. by exists (n, j). }
      destruct (proj1 (Hl k j)) as (q0 & Hq0 & Hj); [by right|]. by apply (Hm' k q0 j).
    + intros (q & Hq & Hj). destruct (Hm k q Hq) as (q0 & Hq0 & Hcq). rewrite Hcq in Hj.
      case_decide as E; [by apply lookup_delete_Some in Hj as [? _]|].
      assert ((k, j) ∈ (n, i) :: l) as Hin by (apply Hl; by exists q0).
      apply elem_of_cons in Hin as [[= -> ->]|Hin]; [done|done].
Qed.

Lemma stopped_inv id s : (forall n r, remotes (ctrl s) !! n = Some r -> cancel r !! id = None) ->
  Inv restarts (Some id) s -> Inv restarts None s.
Proof.
  intros Hn I.
  assert (forall n r, remotes (ctrl s) !! n = Some r -> beatingOf (watchers s) (Some id) r = beatingOf (watchers s) None r) as Hb.
  { intros n r Hr. apply countIf_ext. intros hb i Hi. apply counted_stop. intros ->. by rewrite (Hn n r Hr) in Hi. }
  constructor; try apply I.
  - intros n r Hr. rewrite <- (Hb n r Hr). exact (inv_count _ _ _ I n r Hr).
  - intros n. pose proof (inv_told _ _ _ I n) as H. destruct (remotes (ctrl s) !! n) as [r|] eqn:Hr; [by rewrite <- (Hb n r Hr)|done].
Qed.

Lemma stop_inv id l s s' : settled id l s -> acts (stopActions id l) s = Some s' -> Inv restarts None s -> Inv restarts None s'.
Proof.
  intros Hs Ha I. unfold stopActions in Ha. cbn [acts] in Ha. destruct (act _ s) as [s1|] eqn:H1; [|done]. cbn [mbind option_bind] in Ha.
  apply act_drive in H1 as ->. unfold serve, handle in Ha. cbn [foldl] in Ha.
  pose proof (unregister_inv id l s Hs I) as I1. set (s1 := s <| ctrl := unregister id (ctrl s) |>) in *.
  destruct (delWatchers_inv id l s1 s') as [I2 Hn]; try done.
  - apply Hs.
  - intros n i. rewrite (settled_watchers _ _ _ Hs). change (ctrl s1) with (unregister id (ctrl s)). split.
    + intros (r & Hr & Hi). rewrite unregister_remotes, Hr. eexists. split; [done|]. by destruct (_ && _).
    + intros (r & Hr & Hi). rewrite unregister_remotes in Hr. destruct (remotes (ctrl s) !! n) as [q|]; [|done].
      injection Hr as <-. exists q. split; [done|]. by destruct (_ && _).
  - change (ctrl s1) with (unregister id (ctrl s)). unfold unregister.
    destruct (heartbeat (ctrl s) !! id) eqn:E; cbn; [apply lookup_delete_eq|done].
  - by apply (stopped_inv id).
Qed.

Lemma Start_inv t : Inv restarts None (Start t).
Proof.
  constructor; cbn; try done.
  intros n. rewrite lookup_empty. unfold told. destruct restarts; [intros; lia|done].
Qed.

(** The steps of a run: the calm ones, and the stops of the streams that are
    settled. *)
Inductive steady (s s' : Sys) : Prop :=
| steady_act a : calm a = true -> act a s = Some s' -> steady s s'
| steady_stop id l : settled id l s -> acts (stopActions id l) s = Some s' -> steady s s'.

Lemma steady_inv t s : rtc steady (Start t) s -> Inv restarts None s.
Proof.
  assert (forall s0, Inv restarts None s0 -> rtc steady s0 s -> Inv restarts None s) as H.
  { intros s0 I Hr. induction Hr as [|s0 s1 s2 Hst _ IH]; [done|]. apply IH. destruct Hst as [a Hc Ha|id l Hs Ha]; [by eapply act_inv|by eapply stop_inv]. }
  apply H, Start_inv.
Qed.

End serve.
End hbServe.
