(* ===== verification/HbCtrlSafety.v ===== *)
(** * The controller of the heartbeats: the nodes alive and stale

    What the daemon publishes of a node is what its receiving streams say, in the
    time their timeouts allow, as long as no stream is stopped while it has
    something to say; and two runs where one is. *)

From S2P Require Import Prelude.
From S2P Require Import Instance HbCtrl HbCtrlLogic.

Open Scope string_scope.

Module hbSafety.
Import hbctrl hbCount hbServe.

(** ** Time

    The state of a watcher: its tickers follow what it knows of its peer, and none
is late.  When the drivers report beats only, as they do, a peer is found silent
    past its timeout. *)
Record timely (honest : bool) (t : time.Time) (w : Watch) : Prop := {
  timely_timeout : (0 < timeout w)%Z;
  timely_stale : staleTicker w =
    if IsBeating (peer w) then Some (time.Add (LastBeatingAt (peer w)) (timeout w)) else None;
  timely_pub : pubTicker w =
    if changes w then Some (time.Add (ChangedAt (peer w)) pubDelay) else None;
  timely_changes : IsBeating (peer w) <> beatingOnLastPub w ->
    changes w = true \/ point w = SendingEvent \/ point w = SendingStatus;
  timely_changed : IsBeating (peer w) = false -> beatingOnLastPub w = true ->
    (ChangedAt (peer w) <= LastBeatingAt (peer w) + timeout w)%Z;
  timely_now : forall at_, staleTicker w = Some at_ \/ pubTicker w = Some at_ -> (t <= at_)%Z;
  timely_event : point w = SendingEvent -> (t <= ChangedAt (peer w) + pubDelay)%Z;
  timely_heard : honest = true -> IsBeating (peer w) = false ->
    LastBeatingAt (peer w) = time.zero \/ (LastBeatingAt (peer w) + timeout w <= t)%Z }.

(** Time passes up to the next ticker, and when no watcher has something to
    send. *)
Definition prompt (s : Sys) (d : time.Duration) : Prop :=
  forall i w, watchers s !! i = Some w -> point w = Selecting /\
    forall at_, staleTicker w = Some at_ \/ pubTicker w = Some at_ -> (now s + d <= at_)%Z.

(** The report of a beat, not of its loss. *)
Definition beatOnly (a : Action) : Prop := forall i b, a = Deliver i b -> b = true.

Inductive timed (honest : bool) (s s' : Sys) : Prop :=
| timed_act a : calm a = true -> act a s = Some s' -> (forall d, a = Wait d -> prompt s d) ->
    (honest = true -> beatOnly a) -> timed honest s s'
| timed_stop id l : settled false id l s -> acts (stopActions id l) s = Some s' -> timed honest s s'.

Lemma timed_steady honest s s' : timed honest s s' -> steady false s s'.
Proof. intros [a H1 H2 _ _|id l H1 H2]; [by eapply steady_act|by eapply steady_stop]. Qed.

Section timely.
Context (honest : bool).

(** A command leaves the watchers as they are, and may start one or have one
    cancelled. *)
Lemma perform_watchers l s : now (foldl perform s l) = now s /\
  forall i w, watchers (foldl perform s l) !! i = Some w -> watchers s !! i = Some w \/
    exists hb n desc d, peerWatch (now s) hb n desc d = Some w.
Proof.
  revert s. induction l as [|e l IH]; intros s; [by auto|]. cbn [foldl].
  destruct (IH (perform s e)) as [Hn Hw]. destruct e; try exact (conj Hn Hw).
  unfold perform in *. destruct (peerWatch _ _ _ _ _) as [v|] eqn:Hv; [|exact (conj Hn Hw)].
  split; [exact Hn|]. intros i w Hi. destruct (Hw i w Hi) as [H|H]; [|by right].
  cbn in H. apply lookup_insert_Some in H as [[_ <-]|[_ H]]; [right; by eauto|by left].
Qed.

Lemma serve_watchers c s : now (serve c s) = now s /\
  forall i w, watchers (serve c s) !! i = Some w -> watchers s !! i = Some w \/
    exists hb n desc d, peerWatch (now s) hb n desc d = Some w.
Proof.
  unfold serve. destruct (handle _ _ _) as [[t l]|]; [|by auto].
  destruct (perform_watchers l (s <| ctrl := t |>)) as [H1 H2]. split; [exact H1|exact H2].
Qed.

Lemma peerWatch_timely t hb n desc d w : peerWatch t hb n desc d = Some w -> timely honest t w.
Proof.
  unfold peerWatch. destruct (Z.leb_spec d 0); [done|]. intros [= <-]. constructor; cbn; try done. 1: by intros at_ [?|?]. by left.
Qed.

Lemma pubDelay_pos : (0 < pubDelay)%Z.
Proof. done. Qed.

Lemma onBeating_timely t b w : (honest = true -> b = true) -> point w = Selecting -> timely honest t w -> timely honest t (onBeating t b w).
Proof.
  intros Hhon Hp T. pose proof (timely_timeout _ _ _ T). pose proof pubDelay_pos. pose proof (timely_stale _ _ _ T) as Hst.
  pose proof (fun at_ => timely_now _ _ _ T at_) as Hn.
  unfold onBeating. destruct b, (IsBeating (peer w)) eqn:Hb; [| | |done].
  - constructor; cbn; rewrite ?Hb; try apply T; try done; [intros Hne; apply (timely_changes _ _ _ T); congruence|].
    intros at_ [[= <-]|H1]; [unfold time.Add; lia|]. apply Hn. by right.
  - constructor; cbn; try apply T; try done; [by auto| |by rewrite Hp].
    intros at_ [[= <-]|[= <-]]; unfold time.Add; lia.
  - constructor; cbn; try apply T; try done; [by auto| | |by rewrite Hp|].
    + intros _ _. specialize (Hn _ (or_introl Hst)). unfold time.Add in Hn. lia.
    + intros at_ [?|[= <-]]; [done|]. unfold time.Add. lia.
    + intros Hh. by specialize (Hhon Hh).
Qed.

Lemma onPubTick_timely s w : point w = Selecting -> fires s (pubTicker w) = true ->
  timely honest (now s) w -> timely honest (now s) (onPubTick w).
Proof.
  intros Hp Hf T. pose proof (timely_pub _ _ _ T) as Hpub. pose proof (timely_now _ _ _ T) as Hn.
  unfold onPubTick. cbv zeta. change (changes (w <| pubTicker := None |>)) with (changes w).
  destruct (changes w) eqn:Hc.
  - specialize (Hn _ (or_intror Hpub)). unfold time.Add in Hn.
    destruct (Bool.eqb _ _) eqn:He; constructor; cbn; rewrite ?Hp; try apply T; try done.
    + intros Hne. exfalso. apply Hne. symmetry. by apply eqb_prop.
    + intros at_ [H|H]; [|done]. apply (timely_now _ _ _ T). by left.
    + auto.
    + intros at_ [H|H]; [|done]. apply (timely_now _ _ _ T). by left.
  - rewrite Hpub in Hf. done.
Qed.

Lemma onStaleTick_timely s w : point w = Selecting -> fires s (staleTicker w) = true ->
  timely honest (now s) w -> timely honest (now s) (onStaleTick (now s) w).
Proof.
  intros Hp Hf T. pose proof (timely_stale _ _ _ T) as Hst. pose proof (timely_now _ _ _ T) as Hn. pose proof pubDelay_pos.
  unfold onStaleTick. destruct (IsBeating (peer w)) eqn:Hb; [|by rewrite Hst in Hf].
  specialize (Hn _ (or_introl Hst)). unfold time.Add in Hn.
  constructor; cbn; rewrite ?Hp; try apply T; try done; [by auto| |].
  - intros at_ [?|[= <-]]; [done|]. unfold time.Add. lia.
  - intros _ _. right. rewrite Hst in Hf. unfold fires, time.Add in Hf. lia.
Qed.

Lemma timely_point t w p : point w <> SendingStatus -> p <> SendingEvent -> point w <> SendingEvent ->
  timely honest t w -> timely honest t (w <| point := p |>).
Proof.
  intros H1 H2 H3 T. constructor; cbn; try apply T; [|done].
  intros Hne. destruct (timely_changes _ _ _ T Hne) as [?|[?|?]]; [by left|done|done].
Qed.

Lemma timely_status t at_ w : timely honest t w -> timely honest t (w <| setPeerStatusTicker := at_ |>).
Proof. intros T. constructor; cbn; apply T. Qed.

Lemma sent_timely t w : timely honest t w -> timely honest t (sent t w).
Proof.
  intros T. unfold sent. destruct (point w) eqn:Hp; [done| | |].
  - constructor; cbn; try apply T; [|done]. by auto.
  - constructor; cbn; try apply T; try done. congruence.
  - apply timely_point; rewrite ?Hp; done.
Qed.

Lemma timely_later t t' w : (t <= t')%Z -> point w = Selecting ->
  (forall at_, staleTicker w = Some at_ \/ pubTicker w = Some at_ -> (t' <= at_)%Z) -> timely honest t w -> timely honest t' w.
Proof.
  intros Ht Hp Hn T. constructor; try apply T; [done|by rewrite Hp|].
  intros Hh Hb. destruct (timely_heard _ _ _ T Hh Hb); [by left|right; lia].
Qed.

Definition all_timely (s : Sys) : Prop := forall i w, watchers s !! i = Some w -> timely honest (now s) w.

Lemma setWatch_timely i w s : timely honest (now s) w -> all_timely s -> all_timely (setWatch i w s).
Proof. intros Hw Ha j v Hj. cbn in Hj. apply lookup_insert_Some in Hj as [[<- <-]|[_ Hv]]; [done|by apply (Ha j)]. Qed.

Lemma serve_timely c s : all_timely s -> all_timely (serve c s).
Proof.
  intros Ha. destruct (serve_watchers c s) as [Hn Hw]. intros i w Hi. rewrite Hn.
  destruct (Hw i w Hi) as [H|(hb & n & desc & d & H)]; [by apply (Ha i)|by eapply peerWatch_timely].
Qed.

Lemma act_timely a s s' : act a s = Some s' -> (forall d, a = Wait d -> prompt s d) -> (honest = true -> beatOnly a) ->
  all_timely s -> all_timely s'.
Proof.
  intros Ha Hwait Hhon T. unfold act in Ha. destruct (panicked s); [done|]. destruct a as [c|i|i b|i|i|i|i|i| |d].
  - destruct (external c); [|done]. injection Ha as <-. by apply serve_timely.
  - destruct (watchers s !! i) as [w|] eqn:Hi; [|done]. cbn in Ha. destruct (offer w) as [c|]; [|done]. injection Ha as <-.
    apply serve_timely, setWatch_timely; [|done]. apply sent_timely. by apply (T i).
  - destruct (selecting s i) as [w|] eqn:Hi; [|done]. cbn in Ha. destruct (takeBeat _ _) as [l|]; [|done]. injection Ha as <-.
    apply selecting_spec in Hi as [Hi Hp]. apply setWatch_timely; [|exact T]. apply onBeating_timely; [intros Hh; by apply (Hhon Hh i)|done|by apply (T i)].
  - destruct (selecting s i) as [w|] eqn:Hi; [|done]. cbn in Ha. destruct (fires _ _) eqn:Hf; [|done]. injection Ha as <-.
    apply selecting_spec in Hi as [Hi Hp]. apply setWatch_timely; [|exact T]. apply onPubTick_timely; [done..|by apply (T i)].
  - destruct (selecting s i) as [w|] eqn:Hi; [|done]. cbn in Ha. destruct (fires _ _) eqn:Hf; [|done]. injection Ha as <-.
    apply selecting_spec in Hi as [Hi Hp]. apply setWatch_timely; [|exact T]. apply onStaleTick_timely; [done..|by apply (T i)].
  - destruct (selecting s i) as [w|] eqn:Hi; [|done]. cbn -[fires] in Ha. destruct (fires _ _); [|done]. injection Ha as <-.
    apply selecting_spec in Hi as [Hi Hp]. apply setWatch_timely; [|exact T].
    unfold onStatusTick. cbv zeta. apply timely_point; cbn; rewrite ?Hp; [done..|]. apply timely_status. by apply (T i).
  - by injection Ha as <-.
  - destruct (selecting s i) as [v|]; [|done]. cbn in Ha. case_decide; [|done]. injection Ha as <-.
    intros j w Hj. cbn in Hj. apply lookup_delete_Some in Hj as [_ Hj]. by apply (T j).
  - cbn in Ha. by injection Ha as <-.
  - destruct (Z.ltb_spec d 0); [done|]. injection Ha as <-. intros i w Hi. destruct (Hwait d eq_refl i w Hi) as [Hp Hn].
    apply (timely_later (now s)); [cbn; unfold time.Add; lia|done|exact Hn|by apply (T i)].
Qed.

(** A step of the controller or of the stop of a stream. *)
Definition still (a : Action) : bool := match a with Wait _ | Deliver _ _ => false | _ => true end.

Lemma acts_timely l s s' : Forall (fun a => still a = true) l -> acts l s = Some s' -> all_timely s -> all_timely s'.
Proof.
  revert s. induction l as [|a l IH]; intros s Hl Ha T; [by injection Ha as <-|].
  inversion_clear Hl as [|?? Hw Hl']. cbn [acts] in Ha. destruct (act a s) as [s1|] eqn:H1; [|done].
  eapply IH; [done|exact Ha|]. eapply act_timely; [exact H1| | |done]; [by intros d ->|by intros _ i b ->].
Qed.

Lemma timed_all t s : rtc (timed honest) (Start t) s -> all_timely s.
Proof.
  assert (forall s0, all_timely s0 -> rtc (timed honest) s0 s -> all_timely s) as H.
  { intros s0 T Hr. induction Hr as [|s0 s1 s2 Hst _ IH]; [done|]. apply IH.
    destruct Hst as [a _ Ha Hw Hh|id l _ Ha]; [by eapply act_timely|]. eapply acts_timely; [|exact Ha|done].
    constructor; [done|]. apply Forall_forall. intros a Hin%list_elem_of_In.
    by apply in_flat_map in Hin as (p & _ & [<-|[<-|[]]]). }
  apply H. intros i w Hi. cbn in Hi. by rewrite lookup_empty in Hi.
Qed.

(** A stream counted beating had a beat in the time its timeout allows. *)
Lemma lastPub_timely t w : timely honest t w -> lastPub w = true -> (t <= LastBeatingAt (peer w) + timeout w + pubDelay)%Z.
Proof.
  intros T Hl. pose proof pubDelay_pos. pose proof (timely_stale _ _ _ T) as Hst. pose proof (timely_now _ _ _ T) as Hn.
  unfold lastPub in Hl. destruct (IsBeating (peer w)) eqn:Hb.
  - specialize (Hn _ (or_introl Hst)). unfold time.Add in Hn. lia.
  - assert (beatingOnLastPub w = true /\ point w <> SendingStatus) as [Hlast Hp] by (destruct (point w); naive_solver).
    pose proof (timely_changed _ _ _ T Hb Hlast) as Hc.
    destruct (timely_changes _ _ _ T) as [Hch|[He|?]]; [congruence| | |done].
    + pose proof (timely_pub _ _ _ T) as Hpub. rewrite Hch in Hpub. specialize (Hn _ (or_intror Hpub)). unfold time.Add in Hn. lia.
    + pose proof (timely_event _ _ _ T He). lia.
Qed.

End timely.

Lemma timed_steadies honest t s : rtc (timed honest) (Start t) s -> rtc (steady false) (Start t) s.
Proof. apply rtc_subrel. intros ? ?. apply timed_steady. Qed.

(** The streams counted for a node, and those of its watchers. *)
Lemma beating_spec restarts s n : Inv restarts None s ->
  (0 < beating s n)%nat <->
  exists i w, watchers s !! i = Some w /\ nodename w = n /\ isRx (HbID w) = true /\ lastPub w = true.
Proof.
  intros I. unfold beating. split.
  - destruct (remotes (ctrl s) !! n) as [r|] eqn:Hr; [|lia]. intros (hb & i & Hi & Hc)%countIf_exists.
    destruct (inv_watch _ _ _ I n r hb i Hr Hi) as (w & Hw & <- & <-). rewrite (counted_none _ _ _ _ Hw) in Hc.
    apply andb_true_iff in Hc as [? ?]. by exists i, w.
  - intros (i & w & Hw & <- & Hrx & Hl). destruct (inv_known _ _ _ I i w Hw) as (r & -> & Hi).
    eapply countIf_pos; [exact Hi|]. by rewrite (counted_none _ _ _ _ Hw), Hrx, Hl.
Qed.

Lemma verdict_told s n : Inv false None s -> verdict (nodeEvents n (published s)) = negb (Nat.eqb (beating s n) 0).
Proof.
  intros I. pose proof (inv_told _ _ _ I n) as Ht. apply alternate_last in Ht. exact Ht.
Qed.

End hbSafety.

Import hbctrl hbCount hbServe hbSafety.

(** C8: As long as the streams are stopped only when they beat for no peer and are
    settled, the daemon does not panic, the controller counts the receiving streams
    that beat for a node, and what it publishes of the node alternates, alive first,
    up to alive when one of them beats and stale when none does. *)
Theorem alive_told t s n : rtc (steady false) (Start t) s ->
  panicked s = false /\ rxBeatingOf s n = Z.of_nat (beating s n) /\
  alternate false (nodeEvents n (published s)) = Some (negb (Nat.eqb (beating s n) 0)).
Proof.
  intros Hr. pose proof (steady_inv _ _ _ Hr) as I. split; [apply I|]. split; [|exact (inv_told _ _ _ I n)].
  unfold rxBeatingOf, beating. destruct (remotes (ctrl s) !! n) as [r|] eqn:Hn; [exact (inv_count _ _ _ I n r Hn)|done].
Qed.

(** When the streams that beat are stopped too, once settled, the daemon does
    not panic and the last a node with a stream that beats was said is alive. *)
Theorem restarts_safe t s n : rtc (steady true) (Start t) s ->
  panicked s = false /\ rxBeatingOf s n = Z.of_nat (beating s n) /\
  ((0 < beating s n)%nat -> verdict (nodeEvents n (published s)) = true).
Proof.
  intros Hr. pose proof (steady_inv _ _ _ Hr) as I. split; [apply I|]. split; [|exact (inv_told _ _ _ I n)].
  unfold rxBeatingOf, beating. destruct (remotes (ctrl s) !! n) as [r|] eqn:Hn; [exact (inv_count _ _ _ I n r Hn)|done].
Qed.

(** C26: In the runs where time passes only while every watcher waits at its select and no
    further than its next tick, the timeouts are positive, and streams are stopped only when
    settled and not beating, a node silent on all its receiving streams for their timeouts and
    the delay of the publications is said stale, or was never said alive. Stops of streams
    that beat break it (restart_misses_death, restart_hides_stale). *)
Theorem silence_told t s n : rtc (timed false) (Start t) s ->
  (forall i w, watchers s !! i = Some w -> nodename w = n -> isRx (HbID w) = true ->
     LastBeatingAt (peer w) + timeout w + pubDelay < now s)%Z ->
  verdict (nodeEvents n (published s)) = false.
Proof.
  intros Hr Hs. pose proof (steady_inv _ _ _ (timed_steadies _ _ _ Hr)) as I. pose proof (timed_all _ _ _ Hr) as T.
  rewrite (verdict_told _ _ I). destruct (Nat.eqb_spec (beating s n) 0) as [|Hne]; [done|exfalso].
  destruct (proj1 (beating_spec false s n I)) as (i & w & Hw & Hn & Hrx & Hl); [lia|].
  pose proof (lastPub_timely _ _ _ (T i w Hw) Hl). specialize (Hs i w Hw Hn Hrx). lia.
Qed.

(** A node that beat on a receiving stream in its timeout is said alive, once the
    watcher of the stream has published what it knows. *)
Theorem beat_told t s n i w : rtc (timed true) (Start t) s -> watchers s !! i = Some w -> nodename w = n ->
  isRx (HbID w) = true -> point w = Selecting -> changes w = false ->
  LastBeatingAt (peer w) <> time.zero -> (now s < LastBeatingAt (peer w) + timeout w)%Z ->
  verdict (nodeEvents n (published s)) = true.
Proof.
  intros Hr Hw Hn Hrx Hp Hc Hz Hlt. pose proof (steady_inv _ _ _ (timed_steadies _ _ _ Hr)) as I.
  pose proof (timed_all _ _ _ Hr i w Hw) as T. rewrite (verdict_told _ _ I).
  assert (0 < beating s n)%nat as Hb; [|by destruct (Nat.eqb_spec (beating s n) 0); [lia|]].
  apply (beating_spec false s n I). exists i, w. split_and!; try done. unfold lastPub. rewrite Hp.
  destruct (IsBeating (peer w)) eqn:Hbeat.
  - destruct (beatingOnLastPub w) eqn:Hl; [done|]. destruct (timely_changes _ _ _ T) as [?|[?|?]]; congruence.
  - destruct (timely_heard _ _ _ T eq_refl Hbeat); [done|lia].
Qed.
