(* ===== verification/HbCtrlExample.v ===== *)
(** * The controller of the heartbeats: runs

    Two nodes and a heartbeat, from its start to the death of the peer, the runs
    the theorems are instantiated on, and the runs where the daemon panics or does
    not tell the death of a peer. *)

From S2P Require Import Prelude.
From S2P Require Import Instance HbCtrl HbCtrlLogic HbCtrlSafety.

Open Scope string_scope.

Module hbExample.
Import hbctrl hbCount hbServe hbSafety.

(** ** Runs, by computation *)

Lemma acts_steady restarts l s s' : forallb calm l = true -> acts l s = Some s' -> rtc (steady restarts) s s'.
Proof.
  revert s. induction l as [|a l IH]; intros s Hl Ha; [injection Ha as <-; apply rtc_refl|].
  apply andb_true_iff in Hl as [Hc Hl]. cbn [acts] in Ha. destruct (act a s) as [s1|] eqn:H1; [|done].
  eapply rtc_l; [by eapply steady_act|by apply IH].
Qed.

(** The watchers of a stream, by peer. *)
Definition watchersOf (id : string) (s : Sys) : list (string * nat) :=
  omap (fun kv => i ← cancel (snd kv) !! id; Some (fst kv, i)) (map_to_list (remotes (ctrl s))).

Definition settledb (restarts : bool) (id : string) (s : Sys) : bool :=
  forallb (fun p => match watchers s !! snd p with
    | Some w => bool_decide (point w = Selecting) && Bool.eqb (cached s id (fst p)) (beatingOnLastPub w) &&
                (restarts || negb (beatingOnLastPub w))
    | None => true
    end) (watchersOf id s).

Lemma settledb_spec restarts id s : settledb restarts id s = true -> settled restarts id (watchersOf id s) s.
Proof.
  intros Hb.
  assert (forall n i w, (n, i) ∈ watchersOf id s -> watchers s !! i = Some w -> point w = Selecting /\
    cached s id n = beatingOnLastPub w /\ (restarts = false -> beatingOnLastPub w = false)) as H.
  { intros n i w Hin%list_elem_of_In Hw. apply (proj1 (forallb_forall _ _) Hb) in Hin. cbn in Hin. rewrite Hw in Hin. reflect.
    split_and!; [done|by apply eqb_prop|]. intros ->. by destruct (beatingOnLastPub w). }
  split.
  - unfold watchersOf.
    pose proof (NoDup_fst_map_to_list (remotes (ctrl s))) as Hnd.
    induction (map_to_list (remotes (ctrl s))) as [|[k r] l IH]; [constructor|]. inversion_clear Hnd as [|?? Hk Hl]. cbn.
    destruct (cancel r !! id); cbn; [|by apply IH]. constructor; [|by apply IH].
    intros (p & E & Hin)%list_elem_of_fmap. apply Hk. apply list_elem_of_omap in Hin as ([k' r'] & Hin & Hp). cbn in Hp.
    destruct (cancel r' !! id); [|done]. injection Hp as <-. cbn in E. subst k'. apply list_elem_of_fmap. by exists (k, r').
  - intros n i. unfold watchersOf. rewrite list_elem_of_omap. split.
    + intros ([k r] & Hin & Hp). cbn in Hp. destruct (cancel r !! id) eqn:E; [|done]. injection Hp as -> ->.
      exists r. by rewrite <- elem_of_map_to_list.
    + intros (r & Hr & Hi). exists (n, r). rewrite elem_of_map_to_list. cbn. by rewrite Hi.
  - intros n i w Hin Hw. by apply (H n i w).
  - intros n i w Hin Hw _. by apply (H n i w).
Qed.

Definition later (t : time.Time) (o : option time.Time) : bool :=
  match o with Some at_ => Z.leb t at_ | None => true end.

Definition promptb (s : Sys) (d : time.Duration) : bool :=
  forallb (fun kv => bool_decide (point (snd kv) = Selecting) &&
    later (time.Add (now s) d) (staleTicker (snd kv)) && later (time.Add (now s) d) (pubTicker (snd kv))) (map_to_list (watchers s)).

Definition timedb (a : Action) (s : Sys) : bool :=
  calm a && match a with Wait d => promptb s d | Deliver _ b => b | _ => true end.

Fixpoint timedActs (l : list Action) (s : Sys) : option Sys :=
  match l with [] => Some s | a :: l => if timedb a s then s' ← act a s; timedActs l s' else None end.

Lemma timedActs_spec honest l s s' : timedActs l s = Some s' -> rtc (timed honest) s s'.
Proof.
  revert s. induction l as [|a l IH]; intros s Ha; [injection Ha as <-; apply rtc_refl|].
  cbn [timedActs] in Ha. destruct (timedb a s) eqn:Hb; [|done]. destruct (act a s) as [s1|] eqn:H1; [|done].
  apply andb_true_iff in Hb as [Hc Hb]. eapply rtc_l; [eapply timed_act; [done|exact H1| |]|by apply IH].
  - intros d ->. intros i w Hw%elem_of_map_to_list%list_elem_of_In. apply (proj1 (forallb_forall _ _) Hb) in Hw. cbn in Hw. reflect.
    split; [done|]. intros at_ [E|E]; rewrite E in *; unfold later in *; by apply Z.leb_le.
  - by intros _ i b ->.
Qed.

(** The receiving streams of a node are silent. *)
Definition silentb (n : string) (s : Sys) : bool :=
  forallb (fun kv => negb (String.eqb (nodename (snd kv)) n && isRx (HbID (snd kv))) ||
    Z.ltb (LastBeatingAt (peer (snd kv)) + timeout (snd kv) + pubDelay)%Z (now s)) (map_to_list (watchers s)).

Lemma silentb_spec n s : silentb n s = true -> forall i w, watchers s !! i = Some w -> nodename w = n ->
  isRx (HbID w) = true -> (LastBeatingAt (peer w) + timeout w + pubDelay < now s)%Z.
Proof.
  intros Hb i w Hw%elem_of_map_to_list%list_elem_of_In <- Hrx. apply (proj1 (forallb_forall _ _) Hb) in Hw. cbn in Hw.
  rewrite String.eqb_refl, Hrx in Hw. by apply Z.ltb_lt.
Qed.

(** ** A heartbeat *)

Definition start : time.Time := 1000000000000%Z.
Definition timeout5 : time.Duration := (5 * time.Second)%Z.

(** The streams of hb#1 start. *)
Definition streams : list Action :=
  [Drive (CmdRegister "hb#1.tx" "unicast"); Drive (CmdAddWatcher "hb#1.tx" "n2" "" timeout5);
   Drive (CmdRegister "hb#1.rx" "unicast"); Drive (CmdAddWatcher "hb#1.rx" "n2" "" timeout5)].

(** A watcher of hb#1.rx hears of the peer, and publishes it. *)
Definition heard (chan : nat) : list Action :=
  [Drive (CmdSetPeerSuccess "n2" "hb#1.rx" true); Deliver chan true; Wait pubDelay; PubTick chan; Send chan; Send chan].

(** It hears nothing for its timeout. *)
Definition lost (chan : nat) : list Action := [Wait (timeout5 - pubDelay)%Z; StaleTick chan; Wait pubDelay; PubTick chan].

Definition told : list Action := [Send 1; Send 1].

Definition state (l : list Action) : Sys := default (Start start) (acts l (Start start)).

Definition alive : Sys := state (streams ++ heard 1).
Definition dead : Sys := state (streams ++ heard 1 ++ lost 1 ++ told ++ [Wait time.Second]).

Lemma alive_told_witness :
  panicked alive = false /\ rxBeatingOf alive "n2" = Z.of_nat (beating alive "n2") /\
  alternate false (nodeEvents "n2" (published alive)) = Some (negb (Nat.eqb (beating alive "n2") 0)).
Proof.
  apply (alive_told start). apply (acts_steady _ (streams ++ heard 1)); vm_compute; reflexivity.
Defined.

Lemma silence_told_witness : verdict (nodeEvents "n2" (published dead)) = false.
Proof.
  apply (silence_told start); [|apply silentb_spec; vm_compute; reflexivity].
  apply (timedActs_spec _ (streams ++ heard 1 ++ lost 1 ++ told ++ [Wait time.Second])). vm_compute. reflexivity.
Defined.

Definition heardOnce : Watch := default (mkWatch "" "" 0%Z (mkPeerStatus "" false 0%Z 0%Z) false false None 0%Z None Selecting) (watchers alive !! 1%nat).

Lemma beat_told_witness : verdict (nodeEvents "n2" (published alive)) = true.
Proof.
  apply (beat_told start alive "n2" 1 heardOnce); try (vm_compute; reflexivity); [|vm_compute; discriminate].
  apply (timedActs_spec _ (streams ++ heard 1)). vm_compute. reflexivity.
Defined.

(** The configuration of hb#1 changes: its receiver is stopped, settled, and
    started again. *)
Definition restarted : Sys :=
  default alive (acts (stopActions "hb#1.rx" (watchersOf "hb#1.rx" alive) ++
    [Drive (CmdRegister "hb#1.rx" "unicast"); Drive (CmdAddWatcher "hb#1.rx" "n2" "" timeout5)] ++ heard 2) alive).

Lemma restarts_safe_witness :
  panicked restarted = false /\ rxBeatingOf restarted "n2" = Z.of_nat (beating restarted "n2") /\
  ((0 < beating restarted "n2")%nat -> verdict (nodeEvents "n2" (published restarted)) = true).
Proof.
  apply (restarts_safe start).
  transitivity alive; [apply (acts_steady _ (streams ++ heard 1)); vm_compute; reflexivity|].
  eapply rtc_l; [eapply (steady_stop _ _ _ "hb#1.rx"); [apply settledb_spec; vm_compute; reflexivity|vm_compute; reflexivity]|].
  eapply (acts_steady _ ([Drive (CmdRegister "hb#1.rx" "unicast"); Drive (CmdAddWatcher "hb#1.rx" "n2" "" timeout5)] ++ heard 2)); vm_compute; reflexivity.
Defined.

(** ** What goes wrong *)

(** The receiver is restarted on demand ([daemonCtlStop], [daemonCtlStart]): its
    watcher is deleted with no [CmdUnregister], and the beat it counted is never
    taken back.  The peer dies, its stream is told stale, the node never is. *)
Definition onDemand : list Action :=
  [Drive (CmdDelWatcher "hb#1.rx" "n2"); Return 1; Drive (CmdSetState "hb#1.rx" "stopped");
   Drive (CmdRegister "hb#1.rx" "unicast"); Drive (CmdAddWatcher "hb#1.rx" "n2" "" timeout5)].

Theorem restart_hides_stale :
  let s := state (streams ++ heard 1 ++ onDemand ++ heard 2 ++ lost 2 ++ [Send 2; Send 2; Wait time.Hour]) in
  panicked s = false /\ silentb "n2" s = true /\ beating s "n2" = 0%nat /\ rxBeatingOf s "n2" = 1%Z /\
  verdict (nodeEvents "n2" (published s)) = true.
Proof. vm_compute. by split_and!. Qed.

(** The peer dies as the configuration of its stream changes: [CmdUnregister] takes
    back the beat the watcher then reports lost. *)
Theorem unregister_race_panics :
  panicked (state (streams ++ heard 1 ++ lost 1 ++ [Drive (CmdUnregister "hb#1.rx"); Send 1])) = true.
Proof. vm_compute. reflexivity. Qed.

(** The peer dies while its stream restarts: it is never told stale. *)
Theorem restart_misses_death :
  let s := state (streams ++ heard 1 ++ [Drive (CmdUnregister "hb#1.rx"); Drive (CmdDelWatcher "hb#1.rx" "n2"); Return 1;
    Drive (CmdRegister "hb#1.rx" "unicast"); Drive (CmdAddWatcher "hb#1.rx" "n2" "" timeout5); Wait time.Hour]) in
  panicked s = false /\ silentb "n2" s = true /\ rxBeatingOf s "n2" = 0%Z /\
  verdict (nodeEvents "n2" (published s)) = true.
Proof. vm_compute. by split_and!. Qed.

(** A beat the controller hears of after the watcher of its stream is deleted waits
    for ever. *)
Theorem deleted_watcher_leaks :
  let s := state (streams ++ heard 1 ++ [Drive (CmdDelWatcher "hb#1.rx" "n2"); Return 1;
    Drive (CmdSetPeerSuccess "n2" "hb#1.rx" true)]) in
  beats s = [(1%nat, true)] /\ watchers s !! 1%nat = None.
Proof. vm_compute. by split_and!. Qed.

End hbExample.
