(* ===== verification/HbMain.v ===== *)
(** * daemon/hb: the heartbeats of the node

    The manager of the heartbeats starts, stops and restarts their transmitters and
    receivers from the configuration of the cluster, and on demand.

    [T] is the manager (main.go).  A method is a function of the manager to the
    manager and an error; what it does outside is an [Event] of [trace], newest
    first, and what it learns there an answer of [Env]: whether a driver starts or
    stops, what is configured, in which order Go iterates over a map. *)

From S2P Require Import Prelude.
From S2P Require Import Instance HbCtrl.

Open Scope string_scope.

(** ** The manager *)

Module hb.

(** A transmitter or a receiver, and the signature of the configuration it is
    made from. *)
Record Driver := mkDriver { ID : string; Conf : string }.

#[global] Instance Driver_eq : EqDecision Driver.
Proof. solve_decision. Defined.

(** A configured heartbeat ([hbcfg.Confer]). *)
Record Confer := mkConfer {
  Name : string; Type_ : string; Signature : string; Tx : option Driver; Rx : option Driver }.

Inductive Event :=
| Ctrl (c : hbctrl.Cmd)           (** a command to the controller *)
| DriverStart (d : Driver)        (** it started *)
| DriverStop (d : Driver)         (** it is asked to stop *)
| RegisterTx (id : string) | UnregisterTx (id : string).

Record T := mkT {
  txs : gmap string Driver; rxs : gmap string Driver;
  ridSignature : gmap string string; retryErr : gmap string string; trace : list Event }.

#[global] Instance eta_T : Eta T := fun r => mkT (txs r) (rxs r) (ridSignature r) (retryErr r) (trace r).
#[global] Instance upd_txs : Upd txs. Proof. derive_upd eta_T. Defined.
#[global] Instance upd_rxs : Upd rxs. Proof. derive_upd eta_T. Defined.
#[global] Instance upd_ridSignature : Upd ridSignature. Proof. derive_upd eta_T. Defined.
#[global] Instance upd_retryErr : Upd retryErr. Proof. derive_upd eta_T. Defined.
#[global] Instance upd_trace : Upd trace. Proof. derive_upd eta_T. Defined.

Definition New : T := mkT ∅ ∅ ∅ ∅ [].

(** [configured] is [getHbConfigured]; [order] the order of an iteration over the
    keys of a map. *)
Class Env := {
  startErr : list Event -> Driver -> option string;
  stopErr : list Event -> Driver -> option string;
  stopping : list Event -> bool;                    (** msgToTxCtx is done *)
  configured : list Event -> string + gmap string Confer;
  order : list Event -> list string -> list string;
  order_perm : forall tr l, order tr l ≡ₚ l }.

Section manager.
Context `{E : Env}.

Definition emit (e : Event) (t : T) : T := t <| trace ::= cons e |>.

(** [errors.Join]. *)
Definition join (e1 e2 : option string) : option string :=
  match e1, e2 with
  | None, e => e
  | e, None => e
  | Some a, Some b => Some (a ++ String (Ascii.ascii_of_nat 10) b)
  end.

(** [stopHb], of a transmitter or of a receiver. *)
Definition stopHb (isTx : bool) (d : Driver) (t : T) : T * option string :=
  let t := if isTx && negb (stopping (trace t)) then emit (UnregisterTx (ID d)) t else t in
  let t := emit (Ctrl (hbctrl.CmdUnregister (ID d))) t in
  let t := emit (DriverStop d) t in
  (t, stopErr (trace t) d).

Definition startHbTx (c : Confer) (t : T) : T * option string :=
  match Tx c with
  | None => (t, Some ("nil tx for " ++ Name c))
  | Some tx =>
      let t := emit (Ctrl (hbctrl.CmdRegister (ID tx) (Type_ c))) t in
      match startErr (trace t) tx with
      | Some err => (emit (Ctrl (hbctrl.CmdSetState (ID tx) "failed")) t, Some err)
      | None =>
          let t := emit (DriverStart tx) t in
          if stopping (trace t) then (emit (DriverStop tx) t, Some (ID tx ++ ": the heartbeats are stopping"))
          else ((emit (RegisterTx (ID tx)) t) <| txs ::= <[Name c := tx]> |>, None)
      end
  end.

Definition startHbRx (c : Confer) (t : T) : T * option string :=
  match Rx c with
  | None => (t, Some ("nil rx for " ++ Name c))
  | Some rx =>
      let t := emit (Ctrl (hbctrl.CmdRegister (ID rx) (Type_ c))) t in
      match startErr (trace t) rx with
      | Some err => (emit (Ctrl (hbctrl.CmdSetState (ID rx) "failed")) t, Some err)
      | None => ((emit (DriverStart rx) t) <| rxs ::= <[Name c := rx]> |>, None)
      end
  end.

Definition startHb (c : Confer) (t : T) : T * option string :=
  let '(t, e1) := startHbTx c t in
  let '(t, e2) := startHbRx c t in
  (t, join ((fun e => "start " ++ Name c ++ ".tx failed: " ++ e) <$> e1)
           ((fun e => "start " ++ Name c ++ ".rx failed: " ++ e) <$> e2)).

Definition knownRids (t : T) : list string :=
  stable_sort String.ltb (elements (dom (ridSignature t) ∪ dom (txs t) ∪ dom (rxs t))).

Definition isRunningRid (t : T) (rid : string) : bool :=
  match txs t !! rid, rxs t !! rid with None, None => false | _, _ => true end.

Definition stopHbRid (rid : string) (t : T) : T * option string :=
  let '(t, f1) :=
    match txs t !! rid with
    | Some tx => let '(t, err) := stopHb true tx t in
                 match err with Some _ => (t, ["tx"]) | None => (t <| txs ::= delete rid |>, []) end
    | None => (t, [])
    end in
  let '(t, f2) :=
    match rxs t !! rid with
    | Some rx => let '(t, err) := stopHb false rx t in
                 match err with Some _ => (t, ["rx"]) | None => (t <| rxs ::= delete rid |>, []) end
    | None => (t, [])
    end in
  match (f1 ++ f2)%list with
  | [] => (t, None)
  | failures => (t, Some ("stop hb rid " ++ rid ++ " error for " ++ Join failures ", "))
  end.

(** An iteration of Go over a map, [f] getting the key and the value. *)
Definition range {A B} (m : gmap string A) (f : T * B -> string -> A -> T * B) (tb : T * B) : T * B :=
  foldl (fun tb k => match m !! k with Some v => f tb k v | None => tb end) tb
    (order (trace (fst tb)) (map fst (map_to_list m))).

(** The heartbeats whose configuration went away are stopped. *)
Definition stopDeleted (signatures : gmap string string) (te : T * option string) (rid : string) :
    T * option string :=
  let '(t, errs) := te in
  match signatures !! rid with
  | Some _ => te
  | None =>
      let '(t, err) := stopHbRid rid t in
      match err with
      | None => (t <| ridSignature ::= delete rid |>, errs)
      | Some _ => (t, join errs err)
      end
  end.

(** The ones whose configuration changed are stopped... *)
Definition stopChanged (tes : T * (option string * gmap string string)) (rid newSig : string) :
    T * (option string * gmap string string) :=
  let '(t, (errs, stopped)) := tes in
  match ridSignature t !! rid with
  | None => tes
  | Some sig =>
      if String.eqb sig newSig then tes
      else
        let '(t, err) := stopHbRid rid t in
        match err with
        | Some _ => (t, (join errs err, stopped))
        | None => (t, (errs, <[rid := newSig]> stopped))
        end
  end.

(** ... and started again; *)
Definition startStopped (confers : gmap string Confer) (te : T * option string) (rid newSig : string) :
    T * option string :=
  let '(t, errs) := te in
  match confers !! rid with
  | None => te
  | Some c =>
      let '(t, err) := startHb c t in
      match err with
      | Some _ => (t <| ridSignature ::= delete rid |>, join errs err)
      | None => (t <| ridSignature ::= <[rid := newSig]> |>, errs)
      end
  end.

(** the ones not recorded are started. *)
Definition startNew (confers : gmap string Confer) (te : T * option string) (rid newSig : string) :
    T * option string :=
  let '(t, errs) := te in
  match ridSignature t !! rid, confers !! rid with
  | None, Some c =>
      let '(t, err) := if isRunningRid t rid then stopHbRid rid t else (t, None) in
      match err with
      | Some _ => (t, join errs err)
      | None =>
          let '(t, err) := startHb c t in
          match err with
          | Some _ => (t, join errs err)
          | None => (t <| ridSignature ::= <[rid := newSig]> |>, errs)
          end
      end
  | _, _ => (t <| ridSignature ::= <[rid := newSig]> |>, errs)
  end.

Definition rescanHb (t : T) : T * option string :=
  match configured (trace t) with
  | inl err => (t, Some err)
  | inr confers =>
      let signatures := Signature <$> confers in
      let '(t, errs) := foldl (stopDeleted signatures) (t, None) (knownRids t) in
      let '(t, (errs, stopped)) := range signatures stopChanged (t, (errs, ∅)) in
      let te := range stopped (startStopped confers) (t, errs) in
      range signatures (startNew confers) te
  end.

(** One heartbeat of [retryFailedHb]. *)
Definition retryOne (tu : T * unit) (rid : string) (c : Confer) : T * unit :=
  let '(t, _) := tu in
  match ridSignature t !! rid with
  | Some _ => (t <| retryErr ::= delete rid |>, tt)
  | None =>
      let '(t, err) :=
        match txs t !! rid, rxs t !! rid with
        | Some _, Some _ => (t, None)
        | None, None => (t, None)
        | _, _ => stopHbRid rid t
        end in
      match err, txs t !! rid, rxs t !! rid with
      | Some _, _, _ => (t, tt)
      | None, Some _, Some _ => (t <| ridSignature ::= <[rid := Signature c]> |> <| retryErr ::= delete rid |>, tt)
      | None, _, _ =>
          let '(t, err) := startHb c t in
          match err with
          | Some msg => (t <| retryErr ::= <[rid := msg]> |>, tt)
          | None => (t <| ridSignature ::= <[rid := Signature c]> |> <| retryErr ::= delete rid |>, tt)
          end
      end
  end.

Definition retryFailedHb (t : T) : T :=
  match configured (trace t) with
  | inl _ => t
  | inr confers => fst (range confers retryOne (t, tt))
  end.

(** ** The commands of the janitor *)

Definition TrimSuffix (s suffix : string) : string :=
  if HasSuffix s suffix then String.substring 0 (String.length s - String.length suffix) s else s.

(** [getHbConfiguredComponent]: the heartbeats have one section each. *)
Definition getHbConfiguredComponent (t : T) (rid : string) : option Confer :=
  match configured (trace t) with inr confers => confers !! rid | inl _ => None end.

Definition daemonCtlStart (hbID : string) (t : T) : T :=
  if HasSuffix hbID ".rx" then
    match getHbConfiguredComponent t (TrimSuffix hbID ".rx") with Some c => fst (startHbRx c t) | None => t end
  else if HasSuffix hbID ".tx" then
    match getHbConfiguredComponent t (TrimSuffix hbID ".tx") with Some c => fst (startHbTx c t) | None => t end
  else t.

(** The driver is stopped, with no [CmdUnregister], and forgotten. *)
Definition ctlStop (isTx : bool) (hbID : string) (d : Driver) (t : T) : T :=
  let t := if isTx && negb (stopping (trace t)) then emit (UnregisterTx hbID) t else t in
  let t := emit (DriverStop d) t in
  match stopErr (trace t) d with
  | Some _ => t
  | None => emit (Ctrl (hbctrl.CmdSetState (ID d) "stopped")) t
  end.

Definition daemonCtlStop (hbID : string) (t : T) : T :=
  if HasSuffix hbID ".rx" then
    let rid := TrimSuffix hbID ".rx" in
    match rxs t !! rid with Some d => (ctlStop false hbID d t) <| rxs ::= delete rid |> | None => t end
  else if HasSuffix hbID ".tx" then
    let rid := TrimSuffix hbID ".tx" in
    match txs t !! rid with Some d => (ctlStop true hbID d t) <| txs ::= delete rid |> | None => t end
  else t.

(** [strings.HasPrefix(hbID, "hb#")]. *)
Definition isHb (hbID : string) : bool := String.eqb (String.substring 0 3 hbID) "hb#".

(** The case of [msgbus.DaemonCtl]. *)
Definition onDaemonCtl (hbID action : string) (t : T) : T :=
  if negb (isHb hbID) then t
  else if String.eqb action "stop" then daemonCtlStop hbID t
  else if String.eqb action "start" then
    if HasSuffix hbID ".tx" then
      match txs t !! TrimSuffix hbID ".tx" with Some _ => t | None => daemonCtlStart hbID t end
    else if HasSuffix hbID ".rx" then
      match rxs t !! TrimSuffix hbID ".rx" with Some _ => t | None => daemonCtlStart hbID t end
    else t
  else if String.eqb action "restart" then daemonCtlStart hbID (daemonCtlStop hbID t)
  else t.

Inductive Msg := DaemonCtl (component action : string) | ClusterConfigUpdated | RetryTick.

(** The loop of the janitor, after its first rescan. *)
Definition janitorMsg (m : Msg) (t : T) : T :=
  match m with
  | DaemonCtl component action => onDaemonCtl component action t
  | ClusterConfigUpdated => fst (rescanHb t)
  | RetryTick => retryFailedHb t
  end.

Definition janitor (l : list Msg) (t : T) : T := foldl (fun t m => janitorMsg m t) (fst (rescanHb t)) l.

(** The drivers [Stop] stops, and the ones whose stop failed. *)
Definition Stop (t : T) : T * list string :=
  let stopAll isTx m tf :=
    range m (fun tf _ d =>
      let '(t, failed) := tf in
      let '(t, err) := stopHb isTx d t in
      (t, match err with Some _ => (failed ++ [ID d])%list | None => failed end)) tf in
  stopAll false (rxs t) (stopAll true (txs t) (t, [])).

End manager.

End hb.
