(* ===== verification/HbMainLogic.v ===== *)
(** * daemon/hb: the heartbeats follow their configuration

    The drivers stop when they are asked to, as those of the repository do; they
    may not start.  The manager never runs two transmitters or two receivers of a
    heartbeat at once, the heartbeats it records run the configuration recorded, and
    those are the ones configured once they start. *)

From S2P Require Import Prelude.
From S2P Require Import Instance HbCtrl HbMain.

Open Scope string_scope.

Module hbLogic.
Import hb.

(** What the manager knows of a heartbeat. *)
Record Known := mkKnown { runs_tx : option Driver; runs_rx : option Driver; recorded : option string }.

Definition known (t : T) (rid : string) : Known := mkKnown (txs t !! rid) (rxs t !! rid) (ridSignature t !! rid).

(** Another heartbeat is as it was. *)
Definition local (rid : string) (t t' : T) : Prop := forall rid', rid' <> rid -> known t' rid' = known t rid'.

Lemma local_refl rid t : local rid t t.
Proof. by intros ? _. Qed.

Lemma local_trans rid t1 t2 t3 : local rid t1 t2 -> local rid t2 t3 -> local rid t1 t3.
Proof. intros H1 H2 r Hr. by rewrite H2, H1. Qed.

#[local] Hint Resolve local_refl : core.

Section logic.
Context `{E : Env}.

Hypothesis stops : forall tr d, stopErr tr d = None.

(** ** Stops and starts *)

Lemma stopHb_spec isTx d t : exists t', stopHb isTx d t = (t', None) /\
  txs t' = txs t /\ rxs t' = rxs t /\ ridSignature t' = ridSignature t.
Proof. unfold stopHb. cbv zeta. rewrite stops. eexists. split; [done|]. by destruct (isTx && negb (stopping (trace t))). Qed.

Lemma stopHbRid_spec rid t : exists t', stopHbRid rid t = (t', None) /\ local rid t t' /\
  known t' rid = mkKnown None None (recorded (known t rid)).
Proof.
  unfold stopHbRid.
  assert (exists u, (match txs t !! rid with
    | Some tx => let '(t0, err) := stopHb true tx t in
                 match err with Some _ => (t0, ["tx"]) | None => (t0 <| txs ::= delete rid |>, []) end
    | None => (t, []) end) = (u, []) /\ txs u = delete rid (txs t) /\ rxs u = rxs t /\ ridSignature u = ridSignature t) as (u & -> & H1 & H2 & H3).
  { destruct (txs t !! rid) as [d|] eqn:Hd; [|exists t; by rewrite delete_id].
    destruct (stopHb_spec true d t) as (v & -> & H1 & H2 & H3). eexists. split; [done|]. by rewrite <- H1. }
  assert (exists v, (match rxs u !! rid with
    | Some rx => let '(t0, err) := stopHb false rx u in
                 match err with Some _ => (t0, ["rx"]) | None => (t0 <| rxs ::= delete rid |>, []) end
    | None => (u, []) end) = (v, []) /\ txs v = txs u /\ rxs v = delete rid (rxs u) /\ ridSignature v = ridSignature u) as (v & -> & H4 & H5 & H6).
  { destruct (rxs u !! rid) as [d|] eqn:Hd; [|exists u; by rewrite delete_id].
    destruct (stopHb_spec false d u) as (v & -> & H4 & H5 & H6). eexists. split; [done|]. by rewrite <- H5. }
  exists v. unfold known. rewrite H4, H5, H6, H1, H2, H3. split_and!; [done| |by rewrite !lookup_delete_eq].
  intros r Hne. unfold known. by rewrite H4, H5, H6, H1, H2, H3, !lookup_delete_ne by done.
Qed.

(** A start: both drivers run, or one may, and an error is returned. *)
Definition started (c : Confer) (k k' : Known) (err : option string) : Prop :=
  recorded k' = recorded k /\
  (runs_tx k' = Tx c \/ runs_tx k' = runs_tx k) /\ (runs_rx k' = Rx c \/ runs_rx k' = runs_rx k) /\
  (err = None -> runs_tx k' = Tx c /\ runs_rx k' = Rx c /\ Tx c <> None /\ Rx c <> None) /\
  (err <> None -> runs_tx k' = runs_tx k \/ runs_rx k' = runs_rx k).

Definition willStart : Prop := (forall tr d, startErr tr d = None) /\ forall tr, stopping tr = false.

Lemma startHbTx_spec c t : let '(t', err) := startHbTx c t in
  local (Name c) t t' /\ runs_rx (known t' (Name c)) = runs_rx (known t (Name c)) /\
  recorded (known t' (Name c)) = recorded (known t (Name c)) /\
  (runs_tx (known t' (Name c)) = Tx c \/ runs_tx (known t' (Name c)) = runs_tx (known t (Name c))) /\
  (err = None -> runs_tx (known t' (Name c)) = Tx c /\ Tx c <> None) /\
  (err <> None -> runs_tx (known t' (Name c)) = runs_tx (known t (Name c))) /\
  (willStart -> Tx c <> None -> err = None).
Proof.
  unfold startHbTx. destruct (Tx c) as [d|]; [|split_and!; auto; done].
  cbv zeta. destruct (startErr _ d) eqn:Hs; [split_and!; try done; auto; intros [H _]; by rewrite H in Hs|].
  destruct (stopping _) eqn:Hst; [split_and!; try done; auto; intros [_ H]; by rewrite H in Hst|].
  unfold known. cbn. split_and!; try done; try (rewrite lookup_insert_eq; by auto).
  intros r Hne. unfold known. cbn. by rewrite lookup_insert_ne.
Qed.

Lemma startHbRx_spec c t : let '(t', err) := startHbRx c t in
  local (Name c) t t' /\ runs_tx (known t' (Name c)) = runs_tx (known t (Name c)) /\
  recorded (known t' (Name c)) = recorded (known t (Name c)) /\
  (runs_rx (known t' (Name c)) = Rx c \/ runs_rx (known t' (Name c)) = runs_rx (known t (Name c))) /\
  (err = None -> runs_rx (known t' (Name c)) = Rx c /\ Rx c <> None) /\
  (err <> None -> runs_rx (known t' (Name c)) = runs_rx (known t (Name c))) /\
  (willStart -> Rx c <> None -> err = None).
Proof.
  unfold startHbRx. destruct (Rx c) as [d|]; [|split_and!; auto; done].
  cbv zeta. destruct (startErr _ d) eqn:Hs; [split_and!; try done; auto; intros [H _]; by rewrite H in Hs|].
  unfold known. cbn. split_and!; try done; try (rewrite lookup_insert_eq; by auto).
  intros r Hne. unfold known. cbn. by rewrite lookup_insert_ne.
Qed.

Lemma join_none e1 e2 : join e1 e2 = None <-> e1 = None /\ e2 = None.
Proof. destruct e1, e2; naive_solver. Qed.

Lemma startHb_spec c t : let '(t', err) := startHb c t in
  local (Name c) t t' /\ started c (known t (Name c)) (known t' (Name c)) err /\
  (willStart -> Tx c <> None -> Rx c <> None -> err = None).
Proof.
  unfold startHb. pose proof (startHbTx_spec c t) as H1. destruct (startHbTx c t) as [u e1].
  pose proof (startHbRx_spec c u) as H2. destruct (startHbRx c u) as [v e2].
  destruct H1 as (L1 & R1 & S1 & T1 & N1 & F1 & W1), H2 as (L2 & R2 & S2 & T2 & N2 & F2 & W2).
  split; [by eapply local_trans|]. split.
  - split; [congruence|]. split; [rewrite R2; tauto|]. split; [rewrite <- R1; tauto|]. split.
    2:{ intros He. rewrite R2. destruct e1; [left; by apply F1|]. right. rewrite F2; [done|]. intros ->. by apply He. }
    intros [He1 He2]%join_none. rewrite R2. destruct e1, e2; try done. specialize (N1 eq_refl). specialize (N2 eq_refl). tauto.
  - intros Hw Ht Hr. by rewrite (W1 Hw Ht), (W2 Hw Hr).
Qed.


(** ** Iterations *)

Section range.
Context {A B X : Type} (m : gmap string A) (f : T * B -> string -> A -> T * B).
Context (view : string -> T * B -> X) (I : T * B -> Prop) (R : string -> A -> X -> X -> Prop).
Context (tb0 : T * B).

Hypothesis step : forall tb k v, I tb -> m !! k = Some v -> view k tb = view k tb0 ->
  I (f tb k v) /\ (forall r, r <> k -> view r (f tb k v) = view r tb) /\ R k v (view k tb) (view k (f tb k v)).

Lemma foldl_range ks : NoDup ks -> forall tb, I tb -> (forall k, k ∈ ks -> view k tb = view k tb0) ->
  let tb' := foldl (fun tb k => match m !! k with Some v => f tb k v | None => tb end) tb ks in
  I tb' /\ forall k, match m !! k with
    | Some v => if decide (k ∈ ks) then R k v (view k tb0) (view k tb') else view k tb' = view k tb
    | None => view k tb' = view k tb
    end.
Proof.
  induction 1 as [|k ks Hk Hnd IH]; intros tb HI Heq.
  { split; [done|]. intros k. destruct (m !! k); [|done]. by rewrite decide_False by apply not_elem_of_nil. }
  cbn. assert (forall r, r ∈ ks -> r <> k) as Hne by (intros r Hr ->; done).
  destruct (m !! k) as [v|] eqn:Hv.
  - destruct (step tb k v HI Hv (Heq k ltac:(by left))) as (HI' & Ho & HR).
    destruct (IH (f tb k v) HI') as [HI2 H2].
    { intros r Hr. rewrite Ho by (by apply Hne). apply Heq. by right. }
    split; [done|]. intros r. specialize (H2 r). destruct (decide (r = k)) as [->|Hrk].
    + rewrite Hv in *. rewrite decide_False in H2 by done. rewrite decide_True by (by left).
      rewrite H2. rewrite <- (Heq k) by (by left). exact HR.
    + destruct (m !! r) as [u|]; [|by rewrite H2, Ho]. destruct (decide (r ∈ ks)) as [Hr|Hr].
      * by rewrite decide_True by (by right).
      * rewrite decide_False by (by intros [?|?]%elem_of_cons). by rewrite H2, Ho.
  - destruct (IH tb HI) as [HI2 H2]; [intros r Hr; apply Heq; by right|]. split; [done|].
    intros r. specialize (H2 r). destruct (m !! r) as [u|] eqn:Hu; [|done].
    destruct (decide (r ∈ ks)) as [Hr|Hr]; [by rewrite decide_True by (by right)|].
    rewrite decide_False; [done|]. intros [->|?]%elem_of_cons; [congruence|done].
Qed.

(** Whatever the order, each key is visited once, from what was known of it. *)
Lemma range_spec : I tb0 -> I (range m f tb0) /\ forall k,
  match m !! k with
  | Some v => R k v (view k tb0) (view k (range m f tb0))
  | None => view k (range m f tb0) = view k tb0
  end.
Proof.
  intros HI. unfold range. set (ks := order _ _).
  assert (ks ≡ₚ (map_to_list m).*1) as Hp by apply order_perm.
  assert (NoDup ks) as Hnd by (rewrite Hp; apply NoDup_fst_map_to_list).
  destruct (foldl_range ks Hnd tb0 HI (fun _ _ => eq_refl)) as [H1 H2]. split; [done|].
  intros k. specialize (H2 k). destruct (m !! k) as [v|] eqn:Hv; [|done].
  rewrite decide_True in H2; [done|]. rewrite Hp. apply list_elem_of_fmap. exists (k, v). by rewrite elem_of_map_to_list.
Qed.

End range.

(** ** The drivers that run

    [balance] is the number of drivers of an id started and not asked to stop. *)
Fixpoint balance (id : string) (tr : list Event) : Z :=
  match tr with
  | [] => 0
  | e :: tr =>
      match e with
      | DriverStart d => if String.eqb (ID d) id then balance id tr + 1 else balance id tr
      | DriverStop d => if String.eqb (ID d) id then balance id tr - 1 else balance id tr
      | _ => balance id tr
      end
  end%Z.

(** At each time of a trace, one driver of the id runs or none. *)
Definition single (id : string) (tr : list Event) : Prop :=
  forall l1 l2, tr = (l1 ++ l2)%list -> (0 <= balance id l2 <= 1)%Z.

Definition running (live : string -> bool) (tr : list Event) : Prop :=
  forall id, balance id tr = Z.b2z (live id) /\ single id tr.

Lemma single_cons id e tr : single id tr -> (0 <= balance id (e :: tr) <= 1)%Z -> single id (e :: tr).
Proof. intros Hs Hb [|x l1] l2 Ht; [by cbn in Ht; subst l2|]. injection Ht as _ Ht. by apply (Hs l1). Qed.

Lemma running_start live d tr : live (ID d) = false -> running live tr ->
  running (fun id => live id || String.eqb (ID d) id) (DriverStart d :: tr).
Proof.
  intros Hl Hr id. destruct (Hr id) as [Hb Hs]. assert (balance id (DriverStart d :: tr) = Z.b2z (live id || String.eqb (ID d) id)) as Hbal.
  { cbn. destruct (String.eqb_spec (ID d) id) as [<-|]; [by rewrite Hb, Hl|by rewrite orb_false_r]. }
  split; [done|]. apply single_cons; [done|]. rewrite Hbal. by destruct (_ || _).
Qed.

Lemma running_stop live d tr : live (ID d) = true -> running live tr ->
  running (fun id => live id && negb (String.eqb (ID d) id)) (DriverStop d :: tr).
Proof.
  intros Hl Hr id. destruct (Hr id) as [Hb Hs]. assert (balance id (DriverStop d :: tr) = Z.b2z (live id && negb (String.eqb (ID d) id))) as Hbal.
  { cbn. destruct (String.eqb_spec (ID d) id) as [<-|]; [by rewrite Hb, Hl|by rewrite andb_true_r]. }
  split; [done|]. apply single_cons; [done|]. rewrite Hbal. by destruct (_ && _).
Qed.

Lemma running_ext live live' tr : (forall id, live id = live' id) -> running live tr -> running live' tr.
Proof. intros He Hr id. rewrite <- He. apply Hr. Qed.

Definition neutral (e : Event) : Prop := match e with DriverStart _ | DriverStop _ => False | _ => True end.

Lemma running_skip live e tr : neutral e -> running live tr -> running live (e :: tr).
Proof.
  intros He Hr id. destruct (Hr id) as [Hb Hs]. assert (balance id (e :: tr) = balance id tr) as Hbal by (by destruct e).
  split; [by rewrite Hbal|]. apply single_cons; [done|]. rewrite Hbal, Hb. by destruct (live id).
Qed.

Lemma length_append (a b : string) : String.length (a ++ b) = (String.length a + String.length b)%nat.
Proof. induction a as [|x a IH]; [done|]. change (S (String.length (a ++ b)) = S (String.length a) + String.length b)%nat. by rewrite IH. Qed.

Lemma append_inj_l (a b s s' : string) : String.length s = String.length s' -> a ++ s = b ++ s' -> a = b /\ s = s'.
Proof.
  intros Hl. revert b. induction a as [|x a IH]; intros b H; destruct b as [|y b].
  - by split.
  - apply (f_equal String.length) in H. rewrite !length_append in H. cbn in H. lia.
  - apply (f_equal String.length) in H. rewrite !length_append in H. cbn in H. lia.
  - injection H as -> H. destruct (IH b H) as [-> ->]. done.
Qed.

Record linked (live : string -> bool) (t : T) : Prop := {
  linked_tx : forall rid, live (rid ++ ".tx") = bool_decide (is_Some (txs t !! rid));
  linked_rx : forall rid, live (rid ++ ".rx") = bool_decide (is_Some (rxs t !! rid));
  linked_tx_id : forall rid d, txs t !! rid = Some d -> ID d = rid ++ ".tx";
  linked_rx_id : forall rid d, rxs t !! rid = Some d -> ID d = rid ++ ".rx" }.

(** The drivers that run are the ones the manager knows. *)
Definition Bal (t : T) : Prop := exists live, running live (trace t) /\ linked live t.

Lemma Bal_emit e t : neutral e -> Bal t -> Bal (emit e t).
Proof. intros He (live & Hr & Hl). exists live. split; [by apply running_skip|]. by destruct Hl; split. Qed.

(** The same drivers and trace. *)
Lemma Bal_same t t' : txs t' = txs t -> rxs t' = rxs t -> trace t' = trace t -> Bal t -> Bal t'.
Proof. intros H1 H2 H3 (live & Hr & Hl). exists live. rewrite H3. split; [done|]. destruct Hl. split; by rewrite ?H1, ?H2. Qed.

Lemma id_tx_rx a b : a ++ ".tx" <> b ++ ".rx".
Proof. intros H. by apply append_inj_l in H as [_ ?]. Qed.

Lemma eqb_id a b s : String.eqb (a ++ s) (b ++ s) = bool_decide (a = b).
Proof.
  destruct (String.eqb_spec (a ++ s) (b ++ s)) as [H|H].
  - apply append_inj_l in H as [-> _]; [|done]. by rewrite bool_decide_eq_true_2.
  - rewrite bool_decide_eq_false_2; [done|]. by intros ->.
Qed.

Lemma eqb_tx_rx a b : String.eqb (a ++ ".tx") (b ++ ".rx") = false.
Proof. apply String.eqb_neq, id_tx_rx. Qed.

Lemma eqb_rx_tx a b : String.eqb (a ++ ".rx") (b ++ ".tx") = false.
Proof. apply String.eqb_neq. intros H. by eapply id_tx_rx. Qed.

Lemma is_Some_insert {V} (m : gmap string V) k v r :
  bool_decide (is_Some (<[k := v]> m !! r)) = bool_decide (is_Some (m !! r)) || bool_decide (k = r).
Proof.
  apply Bool.eq_iff_eq_true. rewrite orb_true_iff, !bool_decide_eq_true, lookup_insert_is_Some'. tauto.
Qed.

Lemma is_Some_delete {V} (m : gmap string V) k r :
  bool_decide (is_Some (delete k m !! r)) = bool_decide (is_Some (m !! r)) && negb (bool_decide (k = r)).
Proof.
  apply Bool.eq_iff_eq_true. rewrite andb_true_iff, negb_true_iff, bool_decide_eq_false, !bool_decide_eq_true, lookup_delete_is_Some. tauto.
Qed.

Lemma Bal_startTx rid d t : txs t !! rid = None -> ID d = rid ++ ".tx" -> Bal t ->
  Bal ((emit (DriverStart d) t) <| txs ::= <[rid := d]> |>).
Proof.
  intros Hn Hd (live & Hr & Hl). eexists. split.
  - apply (running_start live d (trace t)); [|done]. by rewrite Hd, (linked_tx _ _ Hl), Hn.
  - rewrite Hd. split; cbn; intros r.
    + by rewrite (linked_tx _ _ Hl), eqb_id, is_Some_insert.
    + by rewrite (linked_rx _ _ Hl), eqb_tx_rx, orb_false_r.
    + intros d' [[<- <-]|[_ H]]%lookup_insert_Some; [done|by apply (linked_tx_id _ _ Hl)].
    + apply (linked_rx_id _ _ Hl).
Qed.

Lemma Bal_startRx rid d t : rxs t !! rid = None -> ID d = rid ++ ".rx" -> Bal t ->
  Bal ((emit (DriverStart d) t) <| rxs ::= <[rid := d]> |>).
Proof.
  intros Hn Hd (live & Hr & Hl). eexists. split.
  - apply (running_start live d (trace t)); [|done]. by rewrite Hd, (linked_rx _ _ Hl), Hn.
  - rewrite Hd. split; cbn; intros r.
    + by rewrite (linked_tx _ _ Hl), eqb_rx_tx, orb_false_r.
    + by rewrite (linked_rx _ _ Hl), eqb_id, is_Some_insert.
    + apply (linked_tx_id _ _ Hl).
    + intros d' [[<- <-]|[_ H]]%lookup_insert_Some; [done|by apply (linked_rx_id _ _ Hl)].
Qed.

Lemma Bal_stopTx rid d t : txs t !! rid = Some d -> Bal t -> Bal ((emit (DriverStop d) t) <| txs ::= delete rid |>).
Proof.
  intros Hd (live & Hr & Hl). pose proof (linked_tx_id _ _ Hl _ _ Hd) as Hid. eexists. split.
  - apply (running_stop live d (trace t)); [|done]. by rewrite Hid, (linked_tx _ _ Hl), Hd.
  - rewrite Hid. split; cbn; intros r.
    + by rewrite (linked_tx _ _ Hl), eqb_id, is_Some_delete.
    + by rewrite (linked_rx _ _ Hl), eqb_tx_rx, andb_true_r.
    + intros d' [_ H]%lookup_delete_Some. by apply (linked_tx_id _ _ Hl).
    + apply (linked_rx_id _ _ Hl).
Qed.

Lemma Bal_stopRx rid d t : rxs t !! rid = Some d -> Bal t -> Bal ((emit (DriverStop d) t) <| rxs ::= delete rid |>).
Proof.
  intros Hd (live & Hr & Hl). pose proof (linked_rx_id _ _ Hl _ _ Hd) as Hid. eexists. split.
  - apply (running_stop live d (trace t)); [|done]. by rewrite Hid, (linked_rx _ _ Hl), Hd.
  - rewrite Hid. split; cbn; intros r.
    + by rewrite (linked_tx _ _ Hl), eqb_rx_tx, andb_true_r.
    + by rewrite (linked_rx _ _ Hl), eqb_id, is_Some_delete.
    + apply (linked_tx_id _ _ Hl).
    + intros d' [_ H]%lookup_delete_Some. by apply (linked_rx_id _ _ Hl).
Qed.

(** A driver that starts as the daemon stops is stopped. *)
Lemma Bal_startStop rid d t : txs t !! rid = None -> ID d = rid ++ ".tx" -> Bal t ->
  Bal (emit (DriverStop d) (emit (DriverStart d) t)).
Proof.
  intros Hn Hd Hb. pose proof (Bal_stopTx rid d _ (lookup_insert_eq (txs t) rid d) (Bal_startTx rid d t Hn Hd Hb)) as H.
  eapply Bal_same; [| | |exact H]; [|done..]. cbn. by rewrite delete_insert_id.
Qed.

(** ** The methods *)

(** The heartbeats configured: their drivers are of their names and of their
    configuration. *)
Record proper (rid : string) (c : Confer) : Prop := {
  proper_name : Name c = rid;
  proper_tx : forall d, Tx c = Some d -> ID d = rid ++ ".tx" /\ Conf d = Signature c;
  proper_rx : forall d, Rx c = Some d -> ID d = rid ++ ".rx" /\ Conf d = Signature c }.

Lemma startHbTx_bal rid c t : proper rid c -> txs t !! rid = None -> Bal t -> Bal (fst (startHbTx c t)).
Proof.
  intros Hc Hn Hb. unfold startHbTx. destruct (Tx c) as [d|] eqn:Hd; [|done]. cbv zeta.
  destruct (proper_tx _ _ Hc d Hd) as [Hid _]. set (u := emit _ t). assert (Bal u) as Hu by by apply Bal_emit.
  destruct (startErr _ d); [by apply Bal_emit|]. destruct (stopping _); [by eapply (Bal_startStop rid)|].
  cbn [fst]. rewrite (proper_name _ _ Hc). pose proof (Bal_startTx rid d u Hn Hid Hu) as H.
  apply (Bal_emit (RegisterTx (ID d))) in H; [|done]. eapply Bal_same; [| | |exact H]; done.
Qed.

Lemma startHbRx_bal rid c t : proper rid c -> rxs t !! rid = None -> Bal t -> Bal (fst (startHbRx c t)).
Proof.
  intros Hc Hn Hb. unfold startHbRx. destruct (Rx c) as [d|] eqn:Hd; [|done]. cbv zeta.
  destruct (proper_rx _ _ Hc d Hd) as [Hid _]. set (u := emit _ t). assert (Bal u) as Hu by by apply Bal_emit.
  destruct (startErr _ d); [by apply Bal_emit|].
  cbn [fst]. rewrite (proper_name _ _ Hc). by apply Bal_startRx.
Qed.

Lemma startHb_bal rid c t : proper rid c -> txs t !! rid = None -> rxs t !! rid = None -> Bal t -> Bal (fst (startHb c t)).
Proof.
  intros Hc Ht Hr Hb. unfold startHb. pose proof (startHbTx_bal rid c t Hc Ht Hb) as H1.
  pose proof (startHbTx_spec c t) as H2. destruct (startHbTx c t) as [u e1]. destruct H2 as (_ & H2 & _).
  rewrite (proper_name _ _ Hc) in H2. cbn in H2. rewrite Hr in H2.
  pose proof (startHbRx_bal rid c u Hc H2 H1) as H3. by destruct (startHbRx c u).
Qed.

Lemma stopHb_trace isTx d t : exists t0, fst (stopHb isTx d t) = emit (DriverStop d) t0 /\ (Bal t -> Bal t0) /\
  txs t0 = txs t /\ rxs t0 = rxs t.
Proof.
  unfold stopHb. cbv zeta. eexists. split; [done|]. destruct (isTx && _); split_and!; try done; intros; by repeat apply Bal_emit.
Qed.

Lemma stopHbRid_bal rid t : Bal t -> Bal (fst (stopHbRid rid t)).
Proof.
  intros Hb. unfold stopHbRid.
  assert (exists u, (match txs t !! rid with
    | Some tx => let '(t0, err) := stopHb true tx t in
                 match err with Some _ => (t0, ["tx"]) | None => (t0 <| txs ::= delete rid |>, []) end
    | None => (t, []) end) = (u, []) /\ Bal u) as (u & -> & Hu).
  { destruct (txs t !! rid) as [d|] eqn:Hd; [|by exists t]. destruct (stopHb_trace true d t) as (t0 & Ht & H0 & H1 & H2).
    destruct (stopHb_spec true d t) as (v & Hv & _). rewrite Hv in *. cbn in Ht. subst v. eexists. split; [done|].
    apply Bal_stopTx; [by rewrite H1|by apply H0]. }
  destruct (rxs u !! rid) as [d|] eqn:Hd; [|done]. destruct (stopHb_trace false d u) as (t0 & Ht & H0 & H1 & H2).
  destruct (stopHb_spec false d u) as (v & Hv & _). rewrite Hv in *. cbn in Ht. subst v. cbn.
  apply Bal_stopRx; [by rewrite H2|by apply H0].
Qed.

(** ** The rescan *)

Definition nothing : Known := mkKnown None None None.

Lemma known_record t rid v r : known (t <| ridSignature ::= <[rid := v]> |>) r =
  if decide (r = rid) then mkKnown (txs t !! rid) (rxs t !! rid) (Some v) else known t r.
Proof.
  unfold known. cbn. case_decide as H; [subst r; by rewrite lookup_insert_eq|by rewrite lookup_insert_ne by congruence].
Qed.

Lemma known_unrecord t rid r : known (t <| ridSignature ::= delete rid |>) r =
  if decide (r = rid) then mkKnown (txs t !! rid) (rxs t !! rid) None else known t r.
Proof.
  unfold known. cbn. case_decide as H; [subst r; by rewrite lookup_delete_eq|by rewrite lookup_delete_ne by congruence].
Qed.

Lemma stopDeleted_spec signatures l : forall t errs, Bal t ->
  let t' := fst (foldl (stopDeleted signatures) (t, errs) l) in
  Bal t' /\ forall rid, known t' rid =
    if decide (rid ∈ l /\ signatures !! rid = None) then nothing else known t rid.
Proof.
  induction l as [|k l IH]; intros t errs Hb; cbn -[decide].
  { split; [done|]. intros rid. rewrite decide_False; [done|]. by intros [?%not_elem_of_nil _]. }
  destruct (signatures !! k) as [sig|] eqn:Hk.
  - destruct (IH t errs Hb) as [H1 H2]. split; [done|]. intros rid. rewrite H2. apply decide_ext. rewrite elem_of_cons. naive_solver.
  - destruct (stopHbRid_spec k t) as (u & Hu & Hl & Hkn). rewrite Hu. pose proof (stopHbRid_bal k t Hb) as Hbu. rewrite Hu in Hbu.
    set (v := u <| ridSignature ::= delete k |>). assert (Bal v) as Hv by (by eapply Bal_same; [..|exact Hbu]).
    assert (forall r, known v r = if decide (r = k) then nothing else known t r) as Hkv.
    { intros r. subst v. rewrite known_unrecord. case_decide as Hr; [|by rewrite Hl].
      unfold known in Hkn. injection Hkn as -> -> _. done. }
    destruct (IH v errs Hv) as [H1 H2]. split; [done|]. intros rid. rewrite H2, Hkv.
    destruct (decide (rid = k)) as [->|Hne].
    + rewrite (decide_True (P := k ∈ k :: l /\ _)) by (split; [by left|done]). by destruct (decide _).
    + apply decide_ext. rewrite elem_of_cons. naive_solver.
Qed.

Lemma knownRids_spec t rid : rid ∉ knownRids t -> known t rid = nothing.
Proof.
  unfold knownRids. rewrite stable_sort_perm, elem_of_elements, !elem_of_union, !elem_of_dom. intros H. unfold known, nothing.
  assert (forall {V} (o : option V), ~ is_Some o -> o = None) as Hn by (intros V [v|] Ho; [by destruct Ho|done]).
  by rewrite !(Hn _ (_ !! rid)) by tauto.
Qed.

(** What a rescan leaves of a heartbeat, once it starts it from [c]. *)
Definition startedFrom (c : Confer) (sig : string) (k' : Known) : Prop :=
  (recorded k' = Some sig /\ runs_tx k' = Tx c /\ runs_rx k' = Rx c /\ Tx c <> None /\ Rx c <> None) \/
  (recorded k' = None /\ (runs_tx k' = None \/ runs_rx k' = None) /\ ~ (willStart /\ Tx c <> None /\ Rx c <> None)).

Section rescan.
Context (confers : gmap string Confer).
Hypothesis Hproper : map_Forall proper confers.

Lemma stopChanged_spec t errs : Bal t ->
  let r := range (Signature <$> confers) stopChanged (t, (errs, ∅)) in
  Bal (fst r) /\ forall k, match (Signature <$> confers) !! k with
    | Some sig =>
        if decide (recorded (known t k) = None \/ recorded (known t k) = Some sig)
        then known (fst r) k = known t k /\ snd (snd r) !! k = None
        else known (fst r) k = mkKnown None None (recorded (known t k)) /\ snd (snd r) !! k = Some sig
    | None => known (fst r) k = known t k /\ snd (snd r) !! k = None
    end.
Proof.
  intros Hb.
  destruct (range_spec (Signature <$> confers) stopChanged (fun k (tb : T * (option string * gmap string string)) => (known (fst tb) k, snd (snd tb) !! k))
    (fun tb => Bal (fst tb)) (fun k sig x x' =>
      if decide (recorded (fst x) = None \/ recorded (fst x) = Some sig) then x' = x
      else x' = (mkKnown None None (recorded (fst x)), Some sig)) (t, (errs, ∅))) as [H1 H2]; [|done|].
  - intros [u [e st]] k sig Hu Hk _. cbn [fst snd]. unfold stopChanged.
    change (recorded (known u k)) with (ridSignature u !! k).
    destruct (ridSignature u !! k) as [s0|] eqn:Hs; [|by rewrite decide_True by (by left)].
    destruct (String.eqb_spec s0 sig) as [->|Hne]; [by rewrite decide_True by (by right)|].
    destruct (stopHbRid_spec k u) as (v & Hv & Hl & Hkn). pose proof (stopHbRid_bal k u Hu) as Hbv. rewrite Hv in *.
    cbn [fst snd]. split_and!; [done| |].
    + intros r Hr. by rewrite Hl, lookup_insert_ne.
    + rewrite decide_False by (intros [?|?]; congruence). rewrite Hkn, lookup_insert_eq. cbn. by rewrite Hs.
  - split; [done|]. intros k. specialize (H2 k). cbn [fst snd] in H2. rewrite lookup_empty in H2.
    destruct ((Signature <$> confers) !! k); [case_decide|]; by apply pair_equal_spec in H2 as [-> ->].
Qed.

(** One start, recorded or not. *)
Lemma startOne rid c sig t : proper rid c -> Bal t -> txs t !! rid = None -> rxs t !! rid = None ->
  forall t' err, startHb c t = (t', err) ->
  Bal t' /\ local rid t t' /\
  (err = None -> startedFrom c sig (mkKnown (txs t' !! rid) (rxs t' !! rid) (Some sig))) /\
  (err <> None -> startedFrom c sig (mkKnown (txs t' !! rid) (rxs t' !! rid) None)) /\
  recorded (known t' rid) = recorded (known t rid).
Proof.
  intros Hc Hb Ht Hr t' err Hs. pose proof (startHb_bal rid c t Hc Ht Hr Hb) as Hb'. pose proof (startHb_spec c t) as Hsp.
  rewrite Hs in *. rewrite (proper_name _ _ Hc) in Hsp. destruct Hsp as (Hl & (Hrec & _ & _ & Hn & Hf) & Hw).
  cbn in Hf. rewrite Ht, Hr in Hf.
  split_and!; [done|done| | |done].
  - intros He. left. destruct (Hn He) as (? & ? & ? & ?). done.
  - intros He. right. split; [done|]. split; [by apply Hf|]. intros (Hws & H1 & H2). by apply He, Hw.
Qed.

Lemma startStopped_spec stopped t errs : Bal t ->
  (forall k sig, stopped !! k = Some sig -> runs_tx (known t k) = None /\ runs_rx (known t k) = None /\ (Signature <$> confers) !! k = Some sig) ->
  let r := range stopped (startStopped confers) (t, errs) in
  Bal (fst r) /\ forall k, match stopped !! k with
    | Some sig => exists c, confers !! k = Some c /\ startedFrom c sig (known (fst r) k)
    | None => known (fst r) k = known t k
    end.
Proof.
  intros Hb Hst.
  destruct (range_spec stopped (startStopped confers) (fun k (tb : T * option string) => known (fst tb) k)
    (fun tb => Bal (fst tb)) (fun k sig x x' => exists c, confers !! k = Some c /\ startedFrom c sig x') (t, errs)) as [H1 H2]; [|done|done].
  intros [u e] k sig Hu Hk Heq. cbn [fst] in *. destruct (Hst k sig Hk) as (Ht & Hr & Hsig). rewrite <- Heq in Ht, Hr.
  rewrite lookup_fmap in Hsig. unfold startStopped. destruct (confers !! k) as [c|] eqn:Hc; [|done].
  destruct (startHb c u) as [v err] eqn:Hs.
  destruct (startOne k c sig u (Hproper k c Hc) Hu Ht Hr v err Hs) as (Hbv & Hl & Hok & Hko & _).
  destruct err as [err|]; cbn [fst].
  - split_and!; [by eapply Bal_same; [..|exact Hbv]| |].
    + intros r Hne. rewrite known_unrecord, decide_False by done. by apply Hl.
    + exists c. split; [done|]. rewrite known_unrecord, decide_True by done. by apply Hko.
  - split_and!; [by eapply Bal_same; [..|exact Hbv]| |].
    + intros r Hne. rewrite known_record, decide_False by done. by apply Hl.
    + exists c. split; [done|]. rewrite known_record, decide_True by done. by apply Hok.
Qed.

Lemma startNew_spec t errs : Bal t ->
  let r := range (Signature <$> confers) (startNew confers) (t, errs) in
  Bal (fst r) /\ forall k, match confers !! k with
    | Some c =>
        match recorded (known t k) with
        | Some _ => known (fst r) k = mkKnown (runs_tx (known t k)) (runs_rx (known t k)) (Some (Signature c))
        | None => startedFrom c (Signature c) (known (fst r) k)
        end
    | None => known (fst r) k = known t k
    end.
Proof.
  intros Hb.
  destruct (range_spec (Signature <$> confers) (startNew confers) (fun k (tb : T * option string) => known (fst tb) k)
    (fun tb => Bal (fst tb)) (fun k sig x x' => forall c, confers !! k = Some c -> sig = Signature c ->
      match recorded x with
      | Some _ => x' = mkKnown (runs_tx x) (runs_rx x) (Some sig)
      | None => startedFrom c sig x'
      end) (t, errs)) as [H1 H2]; [|done|].
  - intros [u e] k sig Hu Hk _. rewrite lookup_fmap in Hk. destruct (confers !! k) as [c|] eqn:Hc; [|done]. injection Hk as <-.
    cbn [fst]. unfold startNew. rewrite Hc. change (recorded (known u k)) with (ridSignature u !! k).
    destruct (ridSignature u !! k) as [s0|] eqn:Hs.
    { cbn [fst]. split_and!; [by eapply Bal_same; [..|exact Hu]| |].
      - intros r Hne. by rewrite known_record, decide_False by done.
      - intros c' _ _. by rewrite known_record, decide_True by done. }
    assert (exists v, (if isRunningRid u k then stopHbRid k u else (u, None)) = (v, None) /\ Bal v /\ local k u v /\
      known v k = nothing) as (v & -> & Hbv & Hlv & Hkv).
    { unfold isRunningRid. pose proof (stopHbRid_bal k u Hu) as Hbs. destruct (stopHbRid_spec k u) as (v & Hv & Hl & Hkn). rewrite Hv in *.
      unfold known, nothing in *. cbn in Hkn. rewrite Hs in Hkn.
      destruct (txs u !! k) eqn:H1; [by exists v|]. destruct (rxs u !! k) eqn:H2; [by exists v|]. exists u. by rewrite H1, H2, Hs. }
    injection Hkv as Hv1 Hv2 Hv3. destruct (startHb c v) as [w err] eqn:Hst.
    destruct (startOne k c (Signature c) v (Hproper k c Hc) Hbv Hv1 Hv2 w err Hst) as (Hbw & Hl & Hok & Hko & Hrec).
    destruct err as [err|]; cbn [fst].
    + split_and!; [done|intros r Hne; by rewrite Hl, Hlv|]. intros c' [= <-] _.
      assert (ridSignature w !! k = None) as Hw by (cbn in Hrec; congruence).
      specialize (Hko ltac:(done)). unfold known. by rewrite Hw.
    + split_and!; [by eapply Bal_same; [..|exact Hbw]| |].
      * intros r Hne. rewrite known_record, decide_False by done. by rewrite Hl, Hlv.
      * intros c' [= <-] _. rewrite known_record, decide_True by done. by apply Hok.
  - split; [done|]. intros k. specialize (H2 k). rewrite lookup_fmap in H2. destruct (confers !! k) as [c|]; [|done].
    by apply (H2 c).
Qed.

End rescan.

(** A heartbeat after a rescan: not configured, it is unknown; recorded with this
    configuration before, it is as it was; otherwise it was started from it. *)
Definition rescanned (oc : option Confer) (k k' : Known) : Prop :=
  match oc with
  | None => k' = nothing
  | Some c => if decide (recorded k = Some (Signature c)) then k' = k else startedFrom c (Signature c) k'
  end.

Lemma rescanHb_spec confers t : map_Forall proper confers -> configured (trace t) = inr confers -> Bal t ->
  Bal (fst (rescanHb t)) /\ forall k, rescanned (confers !! k) (known t k) (known (fst (rescanHb t)) k).
Proof.
  intros Hp Hc Hb. unfold rescanHb. rewrite Hc. cbv zeta.
  pose proof (stopDeleted_spec (Signature <$> confers) (knownRids t) t None Hb) as H1.
  destruct (foldl _ _ (knownRids t)) as [t1 e1]. destruct H1 as [B1 K1].
  pose proof (stopChanged_spec confers t1 e1 B1) as H2.
  destruct (range _ stopChanged _) as [t2 [e2 stopped]]. destruct H2 as [B2 K2]. cbn [fst snd] in *.
  pose proof (startStopped_spec confers Hp stopped t2 e2 B2) as H3.
  destruct H3 as [B3 K3].
  { intros k sig Hst. specialize (K2 k). destruct ((Signature <$> confers) !! k) as [s0|]; [case_decide|].
    - destruct K2 as [_ K2]. congruence.
    - destruct K2 as [-> K2]. cbn. split_and!; [done|done|congruence].
    - destruct K2 as [_ K2]. congruence. }
  set (te := range stopped _ _) in *. destruct te as [t3 e3]. cbn [fst] in *.
  pose proof (startNew_spec confers Hp t3 e3 B3) as [B4 K4]. split; [done|].
  assert (forall k, known t1 k = if decide ((Signature <$> confers) !! k = None) then nothing else known t k) as K1'.
  { intros k. rewrite K1. destruct (decide ((Signature <$> confers) !! k = None)) as [Hn|Hn].
    - destruct (decide (k ∈ knownRids t)) as [Hin|Hin]; [by rewrite decide_True|].
      rewrite decide_False by tauto. by apply knownRids_spec.
    - rewrite decide_False; [done|tauto]. }
  intros k. specialize (K1' k). specialize (K2 k). specialize (K3 k). specialize (K4 k). rewrite lookup_fmap in *.
  unfold rescanned. destruct (confers !! k) as [c|] eqn:Hk; cbn [fmap option_fmap option_map] in *.
  - rewrite decide_False in K1' by done. rewrite K1' in K2.
    destruct (decide (recorded (known t k) = Some (Signature c))) as [Hr|Hr].
    + rewrite decide_True in K2 by (by right). destruct K2 as [K2 S2]. rewrite S2 in K3. rewrite K3, K2, Hr in K4.
      rewrite K4. destruct (known t k). cbn in *. by subst.
    + destruct (recorded (known t k)) as [s0|] eqn:Hrec.
      * rewrite decide_False in K2 by (intros [?|?]; congruence). destruct K2 as [K2 S2]. rewrite S2 in K3. destruct K3 as (c' & [= <-] & K3).
        destruct K3 as [K3|K3].
        -- pose proof K3 as (Hr3 & _). rewrite Hr3 in K4. rewrite K4. left. destruct (known t3 k). cbn in *. tauto.
        -- pose proof K3 as (Hr3 & _). by rewrite Hr3 in K4.
      * rewrite decide_True in K2 by (by left). destruct K2 as [K2 S2]. rewrite S2 in K3. by rewrite K3, K2, Hrec in K4.
  - rewrite decide_True in K1' by done. destruct K2 as [K2 S2]. rewrite S2 in K3. by rewrite K4, K3, K2, K1'.
Qed.

(** ** The retries *)

Lemma retryOne_spec t rid c : proper rid c -> Bal t ->
  Bal (fst (retryOne (t, tt) rid c)) /\ local rid t (fst (retryOne (t, tt) rid c)) /\
  match recorded (known t rid) with
  | Some _ => known (fst (retryOne (t, tt) rid c)) rid = known t rid
  | None =>
      known (fst (retryOne (t, tt) rid c)) rid =
        mkKnown (runs_tx (known t rid)) (runs_rx (known t rid)) (Some (Signature c)) /\
        runs_tx (known t rid) <> None /\ runs_rx (known t rid) <> None \/
      startedFrom c (Signature c) (known (fst (retryOne (t, tt) rid c)) rid)
  end.
Proof.
  intros Hc Hb. unfold retryOne. change (recorded (known t rid)) with (ridSignature t !! rid).
  destruct (ridSignature t !! rid) as [sig|] eqn:Hs; [cbn [fst]; split_and!; [by eapply Bal_same; [..|exact Hb]|done|done]|].
  change (runs_tx (known t rid)) with (txs t !! rid). change (runs_rx (known t rid)) with (rxs t !! rid).
  assert (forall v, Bal v -> local rid t v -> known v rid = nothing ->
    let r := (match startHb c v with
              | (w, Some msg) => (w <| retryErr ::= <[rid := msg]> |>, tt)
              | (w, None) => (w <| ridSignature ::= <[rid := Signature c]> |> <| retryErr ::= delete rid |>, tt)
              end) in
    Bal (fst r) /\ local rid t (fst r) /\ startedFrom c (Signature c) (known (fst r) rid)) as Hstart.
  { intros v Hbv Hlv Hkv. injection Hkv as H1 H2 H3. destruct (startHb c v) as [w err] eqn:Hst.
    destruct (startOne rid c (Signature c) v Hc Hbv H1 H2 w err Hst) as (Hbw & Hl & Hok & Hko & Hrec).
    destruct err as [err|]; cbn [fst].
    - split_and!; [by eapply Bal_same; [..|exact Hbw]|intros r Hne; by rewrite <- Hlv, <- Hl by done|].
      assert (ridSignature w !! rid = None) as Hw by (cbn in Hrec; congruence).
      specialize (Hko ltac:(done)). unfold known. cbn. by rewrite Hw.
    - split_and!; [by eapply Bal_same; [..|exact Hbw]| |].
      + intros r Hne. rewrite <- Hlv, <- Hl by done. unfold known. cbn. by rewrite lookup_insert_ne.
      + unfold known. cbn. rewrite lookup_insert_eq. by apply Hok. }
  destruct (stopHbRid_spec rid t) as (v & Hv & Hl & Hkn). pose proof (stopHbRid_bal rid t Hb) as Hbs. rewrite Hv in *. cbn [fst] in Hbs.
  unfold known in Hkn at 2. cbn in Hkn. rewrite Hs in Hkn.
  destruct (txs t !! rid) as [dt|] eqn:Ht, (rxs t !! rid) as [dr|] eqn:Hr.
  - rewrite Ht, Hr. cbn [fst]. split_and!; [by eapply Bal_same; [..|exact Hb]| |left; split_and!; [|done|done]].
    + intros r Hne. unfold known. cbn. by rewrite lookup_insert_ne.
    + unfold known. cbn. by rewrite lookup_insert_eq, Ht, Hr.
  - pose proof Hkn as Hkn'. injection Hkn' as H1 H2 _. rewrite H1, ?H2. destruct (Hstart v Hbs Hl Hkn) as (? & ? & ?). auto.
  - pose proof Hkn as Hkn'. injection Hkn' as H1 H2 _. rewrite H1, ?H2. destruct (Hstart v Hbs Hl Hkn) as (? & ? & ?). auto.
  - rewrite Ht, ?Hr. destruct (Hstart t Hb (local_refl _ _)) as (? & ? & ?); [unfold known; by rewrite Ht, Hr, Hs|auto].
Qed.

Lemma retryFailedHb_spec t : (forall confers, configured (trace t) = inr confers -> map_Forall proper confers) -> Bal t ->
  Bal (retryFailedHb t) /\
  match configured (trace t) with
  | inl _ => retryFailedHb t = t
  | inr confers => forall k, match confers !! k with
      | None => known (retryFailedHb t) k = known t k
      | Some c =>
          match recorded (known t k) with
          | Some _ => known (retryFailedHb t) k = known t k
          | None => known (retryFailedHb t) k = mkKnown (runs_tx (known t k)) (runs_rx (known t k)) (Some (Signature c)) /\
                    runs_tx (known t k) <> None /\ runs_rx (known t k) <> None \/
                    startedFrom c (Signature c) (known (retryFailedHb t) k)
          end
      end
  end.
Proof.
  intros Hp Hb. unfold retryFailedHb. destruct (configured (trace t)) as [err|confers]; [done|]. specialize (Hp _ eq_refl).
  destruct (range_spec confers retryOne (fun k (tb : T * unit) => known (fst tb) k) (fun tb => Bal (fst tb))
    (fun k c x x' => match recorded x with
       | Some _ => x' = x
       | None => x' = mkKnown (runs_tx x) (runs_rx x) (Some (Signature c)) /\ runs_tx x <> None /\ runs_rx x <> None \/
                 startedFrom c (Signature c) x'
       end) (t, tt)) as [H1 H2]; [|done|done].
  intros [u []] k c Hu Hk _. cbn [fst]. destruct (retryOne_spec u k c (Hp k c Hk) Hu) as (H1 & H2 & H3). done.
Qed.

End logic.

End hbLogic.
