(* ===== verification/HbMainSafety.v ===== *)
(** * daemon/hb: what the janitor keeps true

    Over any messages, changes of the configuration and failed starts: one
    transmitter and one receiver of a heartbeat at a time; and, when none is started
    or stopped on demand, a heartbeat recorded runs what is recorded, and what is
    configured is what runs. *)

From S2P Require Import Prelude.
From S2P Require Import Instance HbCtrl HbMain HbMainLogic.

Open Scope string_scope.

Module hbJanitor.
Import hb hbLogic.

(** ** The messages on demand *)

Lemma substring_all s : String.substring 0 (String.length s) s = s.
Proof. induction s as [|c s IH]; [done|]. cbn. by rewrite IH. Qed.

Lemma HasSuffix_spec s x : HasSuffix s x = true -> exists a, s = a ++ x /\ TrimSuffix s x = a.
Proof.
  unfold TrimSuffix. intros H. rewrite H. unfold HasSuffix in H. apply andb_true_iff in H as [Hl Hs%String.eqb_eq].
  apply Nat.leb_le in Hl. exists (String.substring 0 (String.length s - String.length x) s). split; [|done].
  rewrite <- Hs at 2. clear Hs. revert Hl. generalize (String.length x) as k. intros k Hl.
  assert (forall n, (n <= String.length s)%nat ->
    s = String.substring 0 n s ++ String.substring n (String.length s - n) s) as Hsub.
  { clear. induction s as [|c s IH]; intros [|n] Hn; try done.
    - cbn. by rewrite substring_all.
    - cbn in Hn |- *. change (String c s = String c (String.substring 0 n s ++ String.substring n (String.length s - n) s)).
      f_equal. apply IH. lia. }
  rewrite (Hsub (String.length s - k)%nat) at 1 by lia. do 2 f_equal. lia.
Qed.

Section janitor.
Context `{E : Env}.

Hypothesis stops : forall tr d, stopErr tr d = None.
Hypothesis confs : forall tr confers, configured tr = inr confers -> map_Forall proper confers.

Lemma component_proper t rid c : getHbConfiguredComponent t rid = Some c -> proper rid c.
Proof. unfold getHbConfiguredComponent. destruct (configured (trace t)) as [|m] eqn:Hc; [done|]. by apply (confs _ _ Hc). Qed.

Lemma suffix_other s : HasSuffix s ".tx" = true -> HasSuffix s ".rx" = false.
Proof.
  intros H. destruct (HasSuffix s ".rx") eqn:Hr; [|done].
  apply HasSuffix_spec in H as (a & -> & _). apply HasSuffix_spec in Hr as (b & Hr & _). by apply id_tx_rx in Hr.
Qed.

Lemma daemonCtlStart_bal hbID t : Bal t ->
  (HasSuffix hbID ".tx" = true -> txs t !! TrimSuffix hbID ".tx" = None) ->
  (HasSuffix hbID ".rx" = true -> rxs t !! TrimSuffix hbID ".rx" = None) -> Bal (daemonCtlStart hbID t).
Proof.
  intros Hb Ht Hr. unfold daemonCtlStart. destruct (HasSuffix hbID ".rx").
  - destruct (getHbConfiguredComponent _ _) as [c|] eqn:Hc; [|done]. apply (startHbRx_bal (TrimSuffix hbID ".rx")); auto. by eapply component_proper.
  - destruct (HasSuffix hbID ".tx"); [|done].
    destruct (getHbConfiguredComponent _ _) as [c|] eqn:Hc; [|done]. apply (startHbTx_bal (TrimSuffix hbID ".tx")); auto. by eapply component_proper.
Qed.

Lemma ctlStop_bal isTx hbID d t : exists t0, (Bal t -> Bal t0) /\ txs t0 = txs t /\ rxs t0 = rxs t /\
  ctlStop isTx hbID d t = emit (Ctrl (hbctrl.CmdSetState (ID d) "stopped")) (emit (DriverStop d) t0).
Proof.
  unfold ctlStop. cbv zeta. rewrite stops. eexists. split; [|split; [|split; [|done]]]; destruct (isTx && _); try done.
  intros H. by apply Bal_emit.
Qed.

Lemma daemonCtlStop_bal hbID t : Bal t -> Bal (daemonCtlStop hbID t) /\
  (HasSuffix hbID ".tx" = true -> txs (daemonCtlStop hbID t) !! TrimSuffix hbID ".tx" = None) /\
  (HasSuffix hbID ".rx" = true -> rxs (daemonCtlStop hbID t) !! TrimSuffix hbID ".rx" = None).
Proof.
  intros Hb. unfold daemonCtlStop. cbv zeta. destruct (HasSuffix hbID ".rx") eqn:Hr.
  - assert (HasSuffix hbID ".tx" = false) as -> by (destruct (HasSuffix hbID ".tx") eqn:H; [apply suffix_other in H; congruence|done]).
    destruct (rxs t !! TrimSuffix hbID ".rx") as [d|] eqn:Hd; [|done].
    destruct (ctlStop_bal false hbID d t) as (t0 & H0 & H1 & H2 & ->). split; [|split; [done|intros _; apply lookup_delete_eq]].
    rewrite <- H2 in Hd. pose proof (Bal_stopRx _ d t0 Hd (H0 Hb)) as H.
    apply (Bal_emit (Ctrl (hbctrl.CmdSetState (ID d) "stopped"))) in H; [|done]. by eapply Bal_same; [..|exact H].
  - destruct (HasSuffix hbID ".tx"); [|done].
    destruct (txs t !! TrimSuffix hbID ".tx") as [d|] eqn:Hd; [|done].
    destruct (ctlStop_bal true hbID d t) as (t0 & H0 & H1 & H2 & ->). split; [|split; [intros _; apply lookup_delete_eq|done]].
    rewrite <- H1 in Hd. pose proof (Bal_stopTx _ d t0 Hd (H0 Hb)) as H.
    apply (Bal_emit (Ctrl (hbctrl.CmdSetState (ID d) "stopped"))) in H; [|done]. by eapply Bal_same; [..|exact H].
Qed.

Lemma rescanHb_bal t : Bal t -> Bal (fst (rescanHb t)).
Proof.
  intros Hb. destruct (configured (trace t)) as [err|confers] eqn:Hc; [by unfold rescanHb; rewrite Hc|].
  by apply (rescanHb_spec stops confers t (confs _ _ Hc) Hc Hb).
Qed.

Lemma janitorMsg_bal m t : Bal t -> Bal (janitorMsg m t).
Proof.
  intros Hb. destruct m as [hbID action| |]; cbn.
  - unfold onDaemonCtl. destruct (negb (isHb hbID)); [done|]. destruct (String.eqb action "stop"); [by apply daemonCtlStop_bal|].
    destruct (String.eqb action "start").
    + destruct (HasSuffix hbID ".tx") eqn:Ht.
      * destruct (txs t !! _) eqn:Hd; [done|]. apply daemonCtlStart_bal; [done..|]. intros Hr. rewrite suffix_other in Hr; done.
      * destruct (HasSuffix hbID ".rx") eqn:Hr; [|done]. destruct (rxs t !! _) eqn:Hd; [done|]. apply daemonCtlStart_bal; [done| |done]. congruence.
    + destruct (String.eqb action "restart"); [|done]. destruct (daemonCtlStop_bal hbID t Hb) as (H1 & H2 & H3). by apply daemonCtlStart_bal.
  - by apply rescanHb_bal.
  - apply (retryFailedHb_spec stops); [by apply confs|done].
Qed.

Lemma New_bal : Bal New.
Proof.
  exists (fun _ => false). split.
  - intros id. split; [done|]. intros l1 l2 Hl. cbn in Hl. symmetry in Hl. apply app_eq_nil in Hl as [_ ->]. done.
  - split; cbn; intros rid; by rewrite ?lookup_empty.
Qed.

Lemma janitor_bal l : Bal (janitor l New).
Proof.
  unfold janitor. pose proof (rescanHb_bal _ New_bal) as H. revert H. generalize (fst (rescanHb New)) as t.
  induction l as [|m l IH]; intros t Hb; [done|]. cbn. by apply IH, janitorMsg_bal.
Qed.

(** ** Without the messages on demand *)

(** A heartbeat recorded runs the configuration recorded; one that is not runs half
    at most. *)
Definition sound (k : Known) : Prop :=
  match recorded k with
  | Some sig => exists dt dr, runs_tx k = Some dt /\ runs_rx k = Some dr /\ Conf dt = sig /\ Conf dr = sig
  | None => runs_tx k = None \/ runs_rx k = None
  end.

Lemma startedFrom_sound rid c k : proper rid c -> startedFrom c (Signature c) k -> sound k.
Proof.
  unfold sound. intros Hc [(-> & Ht & Hr & H1 & H2)|(-> & H & _)]; [|done].
  rewrite Ht, Hr. destruct (Tx c) as [dt|] eqn:Hdt; [|done]. destruct (Rx c) as [dr|] eqn:Hdr; [|done].
  exists dt, dr. destruct (proper_tx _ _ Hc dt Hdt), (proper_rx _ _ Hc dr Hdr). done.
Qed.

Definition onDemand (m : Msg) : bool := match m with DaemonCtl _ _ => true | _ => false end.

Definition Sound (t : T) : Prop := Bal t /\ forall rid, sound (known t rid).

Lemma rescanHb_sound t : Sound t -> Sound (fst (rescanHb t)).
Proof.
  intros [Hb Hs]. split; [by apply rescanHb_bal|]. intros rid.
  destruct (configured (trace t)) as [err|confers] eqn:Hc; [unfold rescanHb; rewrite Hc; apply Hs|].
  destruct (rescanHb_spec stops confers t (confs _ _ Hc) Hc Hb) as [_ H]. specialize (H rid).
  unfold rescanned in H. destruct (confers !! rid) as [c|] eqn:Hr; [|rewrite H; by left].
  case_decide; [rewrite H; apply Hs|]. eapply startedFrom_sound; [by apply (confs _ _ Hc)|done].
Qed.

Lemma retryFailedHb_sound t : Sound t -> Sound (retryFailedHb t).
Proof.
  intros [Hb Hs]. destruct (retryFailedHb_spec stops t) as [H1 H2]; [by apply confs|done|]. split; [done|]. intros rid.
  destruct (configured (trace t)) as [err|confers] eqn:Hc; [rewrite H2; apply Hs|]. specialize (H2 rid).
  destruct (confers !! rid) as [c|] eqn:Hr; [|rewrite H2; apply Hs].
  pose proof (Hs rid) as Hk. destruct (recorded (known t rid)) eqn:Hrec; [by rewrite H2|].
  unfold sound in Hk. rewrite Hrec in Hk. destruct H2 as [(_ & ? & ?)|H2]; [by destruct Hk|].
  eapply startedFrom_sound; [by apply (confs _ _ Hc)|done].
Qed.

Lemma janitor_sound l : forallb (fun m => negb (onDemand m)) l = true -> Sound (janitor l New).
Proof.
  intros Hl. unfold janitor.
  assert (Sound (fst (rescanHb New))) as H.
  { apply rescanHb_sound. split; [apply New_bal|]. intros rid. unfold sound, known. cbn. rewrite !lookup_empty. by left. }
  revert H. generalize (fst (rescanHb New)) as t. induction l as [|m l IH]; intros t Ht; [done|].
  apply andb_true_iff in Hl as [Hm Hl]. cbn. apply IH; [done|]. destruct m; [done| |]; [by apply rescanHb_sound|by apply retryFailedHb_sound].
Qed.

End janitor.

End hbJanitor.

Import hb hbLogic hbJanitor.

(** C19: Over any messages of the janitor, restarts on demand included, whatever the
    starts that fail, at no time two transmitters or two receivers of one heartbeat
    run, and the ones that run are the ones the manager knows. *)
Theorem one_driver `{E : Env} l rid :
  (forall tr d, stopErr tr d = None) ->
  (forall tr confers, configured tr = inr confers -> map_Forall proper confers) ->
  let t := janitor l New in
  single (rid ++ ".tx") (trace t) /\ single (rid ++ ".rx") (trace t) /\
  balance (rid ++ ".tx") (trace t) = Z.b2z (bool_decide (is_Some (txs t !! rid))) /\
  balance (rid ++ ".rx") (trace t) = Z.b2z (bool_decide (is_Some (rxs t !! rid))).
Proof.
  intros Hs Hc t. destruct (janitor_bal Hs Hc l) as (live & Hr & Hl). fold t in Hr, Hl.
  destruct (Hr (rid ++ ".tx")) as [H1 H2], (Hr (rid ++ ".rx")) as [H3 H4].
  by rewrite H1, H3, (linked_tx _ _ Hl), (linked_rx _ _ Hl).
Qed.

(** C35: When no message is an on demand start, stop or restart, the stops never fail and the
    drivers carry the ids and the signature of their heartbeat, a heartbeat recorded by the
    manager runs a transmitter and a receiver of the configuration recorded, whatever the
    starts that failed. *)
Theorem recorded_runs `{E : Env} l rid sig :
  (forall tr d, stopErr tr d = None) ->
  (forall tr confers, configured tr = inr confers -> map_Forall proper confers) ->
  forallb (fun m => negb (onDemand m)) l = true ->
  ridSignature (janitor l New) !! rid = Some sig ->
  exists dt dr, txs (janitor l New) !! rid = Some dt /\ rxs (janitor l New) !! rid = Some dr /\ Conf dt = sig /\ Conf dr = sig.
Proof.
  intros Hs Hc Hl Hr. destruct (janitor_sound Hs Hc l Hl) as [_ H]. specialize (H rid). unfold sound in H.
  change (recorded (known (janitor l New) rid)) with (ridSignature (janitor l New) !! rid) in H. by rewrite Hr in H.
Qed.

(** Whatever the drivers that run, once the manager handled a change of the
    configuration what is not configured does not run, and what is recorded is what is
    configured; all of it when the drivers start, at once or when it retries. *)
Theorem follows_config `{E : Env} t confers rid :
  (forall tr d, stopErr tr d = None) ->
  (forall tr c, configured tr = inr c -> map_Forall proper c) ->
  Bal t -> configured (trace t) = inr confers ->
  let t' := janitorMsg ClusterConfigUpdated t in
  match confers !! rid with
  | None => txs t' !! rid = None /\ rxs t' !! rid = None /\ ridSignature t' !! rid = None
  | Some c =>
      (ridSignature t' !! rid = None \/ ridSignature t' !! rid = Some (Signature c)) /\
      (willStart -> Tx c <> None -> Rx c <> None ->
         ridSignature t' !! rid = Some (Signature c) /\ exists sig, ridSignature (janitorMsg RetryTick t) !! rid = Some sig)
  end.
Proof.
  intros Hs Hc Hb Hconf t'.
  destruct (rescanHb_spec Hs confers _ (Hc _ _ Hconf) Hconf Hb) as [_ H]. specialize (H rid).
  change (fst (rescanHb t)) with t' in H. unfold rescanned in H.
  destruct (retryFailedHb_spec Hs t) as [_ H3]; [by apply Hc|done|]. rewrite Hconf in H3. specialize (H3 rid).
  destruct (confers !! rid) as [c|] eqn:Hr; [|unfold known, nothing in H; injection H as -> -> ->; done].
  change (ridSignature t' !! rid) with (recorded (known t' rid)). split.
  - case_decide as Hd; [rewrite H, Hd; by right|]. destruct H as [(-> & _)|(-> & _)]; [by right|by left].
  - intros Hw H1 H2. split.
    + case_decide as Hd; [by rewrite H, Hd|]. destruct H as [(-> & _)|(-> & _ & Hn)]; [done|tauto].
    + change (exists sig, recorded (known (retryFailedHb t) rid) = Some sig).
      destruct (recorded (known t rid)) as [sig|] eqn:Hk; [exists sig; by rewrite H3, Hk|]. exists (Signature c).
      destruct H3 as [(-> & _)|[(-> & _)|(_ & _ & Hn)]]; [done|done|tauto].
Qed.

(** ** Runs *)

Module hbMainExample.

Definition driver (rid kind sig : string) : Driver := mkDriver (rid ++ kind) sig.

Definition confer (rid sig : string) : Confer :=
  mkConfer rid "unicast" sig (Some (driver rid ".tx" sig)) (Some (driver rid ".rx" sig)).

Lemma confer_proper rid sig : proper rid (confer rid sig).
Proof. by split; [done|intros d [= <-]..]. Qed.

Definition two : gmap string Confer := {["hb#1" := confer "hb#1" "a"; "hb#2" := confer "hb#2" "b"]}.

Lemma two_proper : map_Forall proper two.
Proof.
  apply map_Forall_insert_2; [apply confer_proper|]. apply map_Forall_insert_2; [apply confer_proper|]. apply map_Forall_empty.
Qed.

(** The receiver of hb#2 does not start at first. *)
#[local] Instance flaky : Env := {|
  startErr := fun tr d => if String.eqb (ID d) "hb#2.rx" && (length tr <? 12)%nat then Some "no disk" else None;
  stopErr := fun _ _ => None; stopping := fun _ => false; configured := fun _ => inr two;
  order := fun _ l => l; order_perm := fun _ l => Permutation_refl l |}.

Definition messages : list Msg := [ClusterConfigUpdated; DaemonCtl "hb#1.tx" "restart"; RetryTick; RetryTick].

Lemma one_driver_witness :
  let t := janitor messages New in
  single ("hb#2" ++ ".tx") (trace t) /\ single ("hb#2" ++ ".rx") (trace t) /\
  balance ("hb#2" ++ ".tx") (trace t) = Z.b2z (bool_decide (is_Some (txs t !! "hb#2"))) /\
  balance ("hb#2" ++ ".rx") (trace t) = Z.b2z (bool_decide (is_Some (rxs t !! "hb#2"))).
Proof.
  apply (one_driver (E := flaky) messages "hb#2"); [done|]. intros tr c [= <-]. apply two_proper.
Defined.

Definition retries : list Msg := [ClusterConfigUpdated; RetryTick; RetryTick].

Lemma recorded_runs_witness : exists dt dr,
  txs (janitor retries New) !! "hb#2" = Some dt /\ rxs (janitor retries New) !! "hb#2" = Some dr /\ Conf dt = "b" /\ Conf dr = "b".
Proof.
  apply (recorded_runs (E := flaky) retries "hb#2" "b"); [done| |done|vm_compute; reflexivity].
  intros tr c [= <-]. apply two_proper.
Defined.

#[local] Instance fine : Env := {|
  startErr := fun _ _ => None; stopErr := fun _ _ => None; stopping := fun _ => false;
  configured := fun _ => inr two; order := fun _ l => l; order_perm := fun _ l => Permutation_refl l |}.

Lemma follows_config_witness :
  let t := janitorMsg (E := fine) ClusterConfigUpdated New in
  (ridSignature t !! "hb#1" = None \/ ridSignature t !! "hb#1" = Some "a") /\
  (willStart (E := fine) -> Tx (confer "hb#1" "a") <> None -> Rx (confer "hb#1" "a") <> None ->
   ridSignature t !! "hb#1" = Some "a" /\ exists sig, ridSignature (janitorMsg (E := fine) RetryTick New) !! "hb#1" = Some sig).
Proof.
  apply (follows_config (E := fine) New two "hb#1"); [done| |apply New_bal|done]. intros tr c [= <-]. apply two_proper.
Defined.

(** The start of hb#1 fails, both its drivers are then started on demand, and its
    configuration changes: the retry records the new configuration for drivers of the
    former, and the rescan finds nothing to do. *)
#[local] Instance changing : Env := {|
  startErr := fun tr _ => if (length tr <? 4)%nat then Some "no disk" else None;
  stopErr := fun _ _ => None; stopping := fun _ => false;
  configured := fun tr => inr {["hb#1" := confer "hb#1" (if (length tr <? 9)%nat then "a" else "b")]};
  order := fun _ l => l; order_perm := fun _ l => Permutation_refl l |}.

Theorem retry_records_unstarted :
  let t := janitor (E := changing) [DaemonCtl "hb#1.tx" "start"; DaemonCtl "hb#1.rx" "start"; RetryTick; ClusterConfigUpdated] New in
  configured (Env := changing) (trace t) = inr {["hb#1" := confer "hb#1" "b"]} /\
  ridSignature t !! "hb#1" = Some "b" /\ Conf <$> txs t !! "hb#1" = Some "a" /\ Conf <$> rxs t !! "hb#1" = Some "a".
Proof. vm_compute. by split_and!. Qed.

End hbMainExample.
