(* ===== verification/Rbac.v ===== *)
(** * daemon/rbac: roles and grants

    A grant is a role, or a role on a namespace ("admin:ns1").  A user has a list of
    grants; the handlers of the API look for the ones they accept, a user who asks
    for a token chooses what it grants of what it holds, and an administrator who
    writes a user gives it what it holds.

    [rbac] is src/daemon/rbac; [api] the checks of the handlers and the choice of the
    grants of a token (src/daemon/daemonapi lib_rbac.go, lib_auth.go).  A role and a
    grant are their texts, as in the code.  [MapOrder] is the order in which Go
    iterates over the keys of a map. *)

From S2P Require Import Prelude.
From S2P Require Import Naming.
From S2P Require Import Convert Key.
From Stdlib Require Import Ascii.

Open Scope string_scope.

(** The order of an iteration over the keys of a map. *)
Class MapOrder := { map_order : list string -> list string; map_order_perm : forall l, map_order l ≡ₚ l }.

Module rbac.

Definition Role := string.
Definition Grant := string.
Definition Grants := list Grant.

Definition RoleUndef : Role := "".
Definition RoleRoot : Role := "root".
Definition RoleAdmin : Role := "admin".
Definition RoleOperator : Role := "operator".
Definition RolePrioritizer : Role := "prioritizer".
Definition RoleGuest : Role := "guest".
Definition RoleSquatter : Role := "squatter".
Definition RoleBlacklistAdmin : Role := "blacklistadmin".
Definition RoleHeartbeat : Role := "heartbeat".
Definition RoleJoin : Role := "join".
Definition RoleLeave : Role := "leave".

(** The keys of [roleMap]; the value of each is the role of the same text. *)
Definition roleMap : list Role :=
  [RoleUndef; RoleRoot; RoleAdmin; RoleOperator; RolePrioritizer; RoleGuest; RoleSquatter;
   RoleBlacklistAdmin; RoleHeartbeat; RoleJoin; RoleLeave].

Definition ParseRole (s : string) : Role := if one_of s roleMap then s else RoleUndef.

Definition sep : ascii := ":".

Definition NewGrant (role : Role) (scope : string) : Grant :=
  if String.eqb scope "" then role else role ++ String sep scope.

Definition GrantRoot : Grant := NewGrant "root" "".
Definition GrantSquatter : Grant := NewGrant "squatter" "".
Definition GrantHeartbeat : Grant := NewGrant "heartbeat" "".
Definition GrantBlacklistAdmin : Grant := NewGrant "blacklistadmin" "".
Definition GrantJoin : Grant := NewGrant "join" "".
Definition GrantLeave : Grant := NewGrant "leave" "".
Definition GrantPrioritizer : Grant := NewGrant "prioritizer" "".

(** [Grant.Split]; [Grant.Role] and [Grant.Scope] are its parts. *)
Definition Split (g : Grant) : string * string := default (g, "") (text.Cut g sep).
Definition RoleOf (g : Grant) : Role := fst (Split g).
Definition Scope (g : Grant) : string := snd (Split g).

Definition SplitGrant (g : Grant) : Role * string :=
  match strings.SplitN2 g sep with
  | [r; ns] => (ParseRole r, ns)
  | r :: _ => (ParseRole r, "")
  | [] => (ParseRole "", "")
  end.

(** [matchGrants], and [HasGrant]. *)
Definition HasGrant (t : Grants) (grants : list Grant) : bool :=
  existsb (fun userGrant => existsb (String.eqb userGrant) grants) t.

(** [matchRoles], and [HasRole]. *)
Definition HasRole (t : Grants) (roles : list Role) : bool :=
  existsb (fun g => existsb (String.eqb (RoleOf g)) roles) t.

Definition WithRole (t : Grants) (roles : list Role) : Grants := filter (fun g => one_of (RoleOf g) roles) t.

(** [match], and [Has]. *)
Definition Has (t : Grants) (role : Role) (scope : string) : bool := HasGrant t [NewGrant role scope].

Definition HasRoleOn (t : Grants) (scope : string) (roles : list Role) : bool := existsb (fun role => Has t role scope) roles.

Definition AssertRoleOn (t : Grants) (scope : string) (roles : list Role) : bool :=
  if String.eqb scope "" then HasRoleOn t scope roles else HasRoleOn t "" roles || HasRoleOn t scope roles.

Definition IsScopedRole (role : Role) : bool := one_of role [RoleAdmin; RoleOperator; RoleGuest].

(** [Covers]: these grants hold [g]. *)
Definition Covers (t : Grants) (g : Grant) : bool :=
  if HasRole t [RoleRoot] then true
  else
    let '(role, scope) := SplitGrant g in
    if HasGrant t [g] then true
    else if negb (String.eqb scope "") && IsScopedRole role then HasGrant t [NewGrant role ""]
    else false.

Definition Uncovered (t : Grants) (l : list Grant) : Grants := filter (fun g => negb (Covers t g)) l.

Section order.
Context `{MapOrder}.

(** The namespaces of the grants of some roles, of all of them when there are none. *)
Definition Namespaces (t : Grants) (roles : list Role) : list string :=
  let namespace (g : Grant) :=
    let '(role, ns) := SplitGrant g in
    if String.eqb ns "" then None
    else if bool_decide (roles = []) || one_of role roles then Some ns else None in
  map_order (elements (list_to_set (omap namespace t) : gset string)).

Definition filterRole (t : Grants) (role : Role) : Grants :=
  let grant := NewGrant role "" in
  let onNamespaces roles := map (NewGrant role) (Namespaces t roles) in
  if HasRole t [RoleRoot] then [grant]
  else if String.eqb role RoleGuest then
    if HasRoleOn t "" [RoleOperator; RoleAdmin; RoleGuest] then [grant]
    else onNamespaces [RoleAdmin; RoleOperator; RoleGuest]
  else if String.eqb role RoleOperator then
    if HasRoleOn t "" [RoleAdmin; RoleOperator] then [grant]
    else onNamespaces [RoleAdmin; RoleOperator]
  else if String.eqb role RoleAdmin then
    if HasRoleOn t "" [RoleAdmin] then [grant] else onNamespaces [RoleAdmin]
  else if HasGrant t [grant] then [grant] else [].

Definition filterGrant (t : Grants) (grant : Grant) : Grants :=
  let role := RoleOf grant in
  let scope := Scope grant in
  if HasRole t [RoleRoot] then [grant]
  else if HasGrant t [grant] then [grant]
  else if String.eqb role RoleGuest && HasRoleOn t scope [RoleOperator; RoleAdmin] then [grant]
  else if String.eqb role RoleGuest && HasRoleOn t "" [RoleOperator; RoleAdmin] then [grant]
  else if String.eqb role RoleOperator && HasRoleOn t scope [RoleAdmin] then [grant]
  else if String.eqb role RoleOperator && HasRoleOn t "" [RoleAdmin] then [grant]
  else if String.eqb role RoleAdmin && HasRoleOn t "" [RoleAdmin] then [grant]
  else [].

Definition filterScope (t : Grants) (scope : string) : Grants :=
  if HasRole t [RoleRoot] then [NewGrant RoleAdmin scope]
  else if Has t RoleAdmin scope || Has t RoleAdmin "" then [NewGrant RoleAdmin scope]
  else if Has t RoleOperator scope || Has t RoleOperator "" then [NewGrant RoleOperator scope]
  else if Has t RoleGuest scope || Has t RoleGuest "" then [NewGrant RoleGuest scope]
  else [].

Definition FilterGrantStrings (allowed : list string) (roles : list Role) (scope : string) : Grants :=
  match roles, String.eqb scope "" with
  | [], true => allowed
  | _ :: _, false => flat_map (fun role => filterGrant allowed (NewGrant role scope)) roles
  | _ :: _, true => flat_map (filterRole allowed) roles
  | [], false => filterScope allowed scope
  end.

End order.

End rbac.

(** ** The handlers of the API *)

Module api.
Import rbac.

(** What a handler asks of the user. *)
Inductive Check :=
| Guest (namespace : string)
| Operator (namespace : string)
| Admin (namespace : string)
| NamespaceConfigWriter
| Root
| ClusterConfigReader                  (** [configReadAccess], of the cluster *)
| SecretReader (namespace : string)    (** [configReadAccess], not redacted *)
| Relay | RelayWriter                  (** the messages of the relay heartbeats *)
| AnyUser | Joiner | Leaver | RootRole. (** the checks by role *)

(** The grants a check accepts ([assertGrant]), and the roles ([assertRole]). *)
Definition accepted (c : Check) : list Grant * list Role :=
  match c with
  | Guest ns => ([NewGrant RoleGuest ns; NewGrant RoleOperator ns; NewGrant RoleAdmin ns; NewGrant RoleGuest "";
                  NewGrant RoleOperator ""; NewGrant RoleAdmin ""; GrantJoin; GrantRoot], [])
  | Operator ns => ([NewGrant RoleOperator ns; NewGrant RoleAdmin ns; NewGrant RoleOperator ""; NewGrant RoleAdmin ""; GrantRoot], [])
  | Admin ns => ([NewGrant RoleAdmin ns; NewGrant RoleAdmin ""; GrantRoot], [])
  | NamespaceConfigWriter => ([GrantSquatter; GrantRoot], [])
  | Root => ([GrantRoot], [])
  | ClusterConfigReader => ([GrantRoot; GrantJoin], [])
  | SecretReader ns => ([NewGrant RoleAdmin ns; NewGrant RoleAdmin ""; GrantRoot; GrantJoin], [])
  | Relay => ([GrantHeartbeat; GrantRoot], [])
  | RelayWriter => ([GrantHeartbeat], [])
  | AnyUser => ([], [RoleGuest; RoleOperator; RoleAdmin; RoleRoot; RoleJoin; RoleLeave])
  | Joiner => ([], [RoleRoot; RoleJoin])
  | Leaver => ([], [RoleRoot; RoleLeave])
  | RootRole => ([], [RoleRoot])
  end.

Definition passes (t : Grants) (c : Check) : bool := HasGrant t (fst (accepted c)) || HasRole t (snd (accepted c)).

(** [hasRoleGuestOn], [hasRoleOperatorOn], [hasRoleAdminOn]. *)
Definition hasRoleGuestOn (t : Grants) (namespace : string) : bool := AssertRoleOn t namespace [RoleGuest; RoleOperator; RoleAdmin].
Definition hasRoleOperatorOn (t : Grants) (namespace : string) : bool := AssertRoleOn t namespace [RoleOperator; RoleAdmin].
Definition hasRoleAdminOn (t : Grants) (namespace : string) : bool := AssertRoleOn t namespace [RoleAdmin].

Definition validateRole (r : option (list string)) : bool :=
  match r with None => true | Some l => forallb (fun r => negb (String.eqb (ParseRole r) RoleUndef)) l end.

(** [filterGrant], the grants of a token: [None] is an error. *)
Definition filterGrant `{MapOrder} (allowed : list string) (rolePtr : option (list string)) (scopePtr : option string) :
    option (list string) :=
  if negb (validateRole rolePtr) then None
  else
    let roles := filter (fun role => negb (String.eqb role RoleUndef)) (map ParseRole (default [] rolePtr)) in
    Some (FilterGrantStrings allowed roles (default "" scopePtr)).

(** [createAccessToken], up to the claims: the grants of the token, [None] when it
    is refused. *)
Definition accessTokenGrants `{MapOrder} (grants : list string) (rolePtr : option (list string)) (scopePtr : option string) :
    option (list string) :=
  l ← filterGrant grants rolePtr scopePtr; if bool_decide (l = []) then None else Some l.

End api.

(** ** What a grant gives *)

Module rbacLogic.
Import rbac api.

Lemma HasGrant_spec t l : HasGrant t l = true <-> exists g, g ∈ t /\ g ∈ l.
Proof.
  unfold HasGrant. rewrite existsb_exists. split.
  - intros (g & Hg & (x & Hx & Heq)%existsb_exists). apply String.eqb_eq in Heq as <-.
    exists g. by rewrite !list_elem_of_In.
  - intros (g & Hg & Hl). exists g. split; [by apply list_elem_of_In|]. apply existsb_exists. exists g.
    by rewrite String.eqb_refl, <- list_elem_of_In.
Qed.

Lemma HasRole_spec t l : HasRole t l = true <-> exists g, g ∈ t /\ RoleOf g ∈ l.
Proof.
  unfold HasRole. rewrite existsb_exists. split.
  - intros (g & Hg & (x & Hx & Heq)%existsb_exists). apply String.eqb_eq in Heq. exists g. rewrite Heq, !list_elem_of_In. done.
  - intros (g & Hg & Hl). exists g. split; [by apply list_elem_of_In|]. apply existsb_exists. exists (RoleOf g).
    by rewrite String.eqb_refl, <- list_elem_of_In.
Qed.

Lemma HasGrant_one t g : HasGrant t [g] = true <-> g ∈ t.
Proof. rewrite HasGrant_spec. set_solver. Qed.

Lemma HasRoleOn_spec t scope roles : HasRoleOn t scope roles = true <-> exists role, role ∈ roles /\ NewGrant role scope ∈ t.
Proof.
  unfold HasRoleOn, Has. rewrite existsb_exists. setoid_rewrite HasGrant_one. setoid_rewrite list_elem_of_In. done.
Qed.

(** A role with no separator. *)
Definition plain (role : Role) : bool := negb (strings.ContainsChar role sep).

Lemma roles_plain role : role ∈ roleMap -> plain role = true.
Proof. revert role. apply enum1. repeat constructor. Qed.

Lemma Split_NewGrant role ns : plain role = true -> Split (NewGrant role ns) = (role, ns).
Proof.
  intros Hr%negb_true_iff. unfold Split, NewGrant. destruct (String.eqb_spec ns "") as [->|].
  - by rewrite (proj2 (Cut_none _ _) Hr).
  - by rewrite (Cut_app _ _ _ Hr).
Qed.

Lemma RoleOf_NewGrant role ns : plain role = true -> RoleOf (NewGrant role ns) = role.
Proof. intros H. unfold RoleOf. by rewrite Split_NewGrant. Qed.

Lemma Scope_NewGrant role ns : plain role = true -> Scope (NewGrant role ns) = ns.
Proof. intros H. unfold Scope. by rewrite Split_NewGrant. Qed.

Lemma SplitGrant_Split g : SplitGrant g = (ParseRole (RoleOf g), Scope g).
Proof.
  unfold SplitGrant, RoleOf, Scope, Split. destruct (text.Cut g sep) as [[p q]|] eqn:Hc.
  - apply Cut_some in Hc as [-> Hp]. by rewrite (SplitN2_app _ _ _ Hp).
  - by rewrite (SplitN2_none _ _ (proj1 (Cut_none _ _) Hc)).
Qed.

Lemma NewGrant_eqb r ns r' ns' : plain r = true -> plain r' = true ->
  String.eqb (NewGrant r ns) (NewGrant r' ns') = String.eqb r r' && String.eqb ns ns'.
Proof.
  intros H H'. destruct (String.eqb_spec (NewGrant r ns) (NewGrant r' ns')) as [E|E].
  - apply (f_equal Split) in E. rewrite !Split_NewGrant in E by done. injection E as -> ->. by rewrite !String.eqb_refl.
  - destruct (String.eqb_spec r r') as [->|]; [|done]. by destruct (String.eqb_spec ns ns') as [->|].
Qed.

Definition scopedRoles : list Role := [RoleAdmin; RoleOperator; RoleGuest].

Lemma ParseRole_scoped s : ParseRole s ∈ scopedRoles -> ParseRole s = s /\ ParseRole s <> RoleUndef.
Proof.
  intros Hin. assert (ParseRole s <> RoleUndef) as Hu.
  { revert Hin. generalize (ParseRole s). apply enum1. repeat constructor; done. }
  split; [|done]. unfold ParseRole in *. by case_match.
Qed.

(** A scoped grant is its role and its scope. *)
Lemma NewGrant_Split g : ParseRole (RoleOf g) <> RoleUndef -> Scope g <> "" -> g = NewGrant (RoleOf g) (Scope g).
Proof.
  unfold RoleOf, Scope, Split. intros _. destruct (text.Cut g sep) as [[p q]|] eqn:Hc; [|done]. cbn. intros Hq.
  apply Cut_some in Hc as [-> _]. unfold NewGrant. by destruct (String.eqb_spec q "").
Qed.

(** ** What a list of grants gives *)

(** What one grant passes. *)
Definition power (g : Grant) (c : Check) : bool := passes [g] c.

Lemma passes_iff t c : passes t c = true <-> exists g, g ∈ t /\ (g ∈ fst (accepted c) \/ RoleOf g ∈ snd (accepted c)).
Proof. unfold passes. rewrite orb_true_iff, HasGrant_spec, HasRole_spec. naive_solver. Qed.

Lemma passes_spec t c : passes t c = true <-> exists g, g ∈ t /\ power g c = true.
Proof. unfold power. setoid_rewrite passes_iff. set_solver. Qed.

(** No grant of root on a namespace. *)
Definition strict (t : Grants) : Prop := Forall (fun g => RoleOf g = RoleRoot -> g = GrantRoot) t.

Lemma strict_root t : strict t -> HasRole t [RoleRoot] = true -> GrantRoot ∈ t.
Proof.
  intros Hs (g & Hg & Hr)%HasRole_spec. apply list_elem_of_singleton in Hr.
  by rewrite <- (proj1 (Forall_forall _ _) Hs g Hg Hr).
Qed.

(** The grants [t] give no less than the grant [g]. *)
Definition gives (t : Grants) (g : Grant) : Prop :=
  GrantRoot ∈ t \/ forall c, power g c = true -> passes t c = true.

Lemma gives_own t g : g ∈ t -> gives t g.
Proof. intros Hg. right. intros c Hc. apply passes_spec. eauto. Qed.

Lemma gives_root t g : strict t -> HasRole t [RoleRoot] = true -> gives t g.
Proof. intros Hs Hr. left. by apply strict_root. Qed.

(** The roles on a namespace, the weakest first. *)
Definition above (role : Role) : list Role :=
  if String.eqb role RoleGuest then [RoleGuest; RoleOperator; RoleAdmin]
  else if String.eqb role RoleOperator then [RoleOperator; RoleAdmin]
  else if String.eqb role RoleAdmin then [RoleAdmin] else [].

Definition aboves : list (Role * Role) :=
  [(RoleGuest, RoleGuest); (RoleGuest, RoleOperator); (RoleGuest, RoleAdmin);
   (RoleOperator, RoleOperator); (RoleOperator, RoleAdmin); (RoleAdmin, RoleAdmin)].

Lemma above_cases role role' : role' ∈ above role -> (role, role') ∈ aboves.
Proof.
  unfold above. destruct (String.eqb_spec role RoleGuest) as [->|]; [set_solver|].
  destruct (String.eqb_spec role RoleOperator) as [->|]; [set_solver|].
  destruct (String.eqb_spec role RoleAdmin) as [->|]; set_solver.
Qed.

Lemma above_refl role : role ∈ scopedRoles -> role ∈ above role.
Proof. revert role. apply enum1. unfold scopedRoles. repeat constructor; cbn; set_solver. Qed.

Lemma power_above role role' ns ns' c : role' ∈ above role -> ns' = ns \/ ns' = "" ->
  power (NewGrant role ns) c = true -> power (NewGrant role' ns') c = true.
Proof.
  intros Hr%above_cases Hns. revert role role' Hr.
  cut (Forall (fun p => power (NewGrant p.1 ns) c = true -> power (NewGrant p.2 ns') c = true) aboves).
  { intros H r r' Hin. by apply (proj1 (Forall_forall _ _) H (r, r')). }
  unfold power, passes, HasGrant, HasRole, aboves. repeat apply Forall_cons_2; [..|by apply Forall_nil_2];
    cbn [existsb fst snd]; rewrite !RoleOf_NewGrant by done; destruct c; cbn [accepted fst snd existsb];
    unfold GrantRoot, GrantJoin, GrantSquatter, GrantHeartbeat; rewrite ?NewGrant_eqb by done; rewrite ?orb_false_r;
    destruct Hns as [->| ->]; cbn; rewrite ?orb_true_r, ?String.eqb_refl; cbn; try done;
    repeat (case_match; cbn); done.
Qed.

Lemma gives_above t role role' ns ns' : role' ∈ above role -> ns' = ns \/ ns' = "" -> NewGrant role' ns' ∈ t ->
  gives t (NewGrant role ns).
Proof. intros Hr Hns Ht. right. intros c Hc. apply passes_spec. eauto using power_above. Qed.

(** The same from [HasRoleOn]. *)
Lemma gives_on t role roles ns ns' : roles ⊆ above role -> ns' = ns \/ ns' = "" -> HasRoleOn t ns' roles = true ->
  gives t (NewGrant role ns).
Proof. intros Hr Hns (role' & H1 & H2)%HasRoleOn_spec. eapply gives_above; [by apply Hr|exact Hns|done]. Qed.

Section order.
Context `{MapOrder}.

Lemma Namespaces_spec t roles ns : roles ⊆ scopedRoles -> roles <> [] ->
  ns ∈ Namespaces t roles -> exists role, role ∈ roles /\ NewGrant role ns ∈ t.
Proof.
  intros Hsub Hne. unfold Namespaces. rewrite map_order_perm, elem_of_elements, elem_of_list_to_set, list_elem_of_omap.
  intros (g & Hg & Hns). rewrite SplitGrant_Split in Hns. destruct (String.eqb_spec (Scope g) "") as [|Hs]; [done|].
  rewrite (bool_decide_eq_false_2 _ Hne) in Hns. cbn in Hns. destruct (one_of (ParseRole (RoleOf g)) roles) eqn:Ho; [|done].
  injection Hns as <-. apply one_of_spec in Ho. exists (RoleOf g).
  destruct (ParseRole_scoped (RoleOf g)) as [He Hu]; [by apply Hsub|].
  split; [by rewrite <- He|]. by rewrite <- NewGrant_Split.
Qed.

Lemma filterRole_gives t role g : strict t -> g ∈ filterRole t role -> gives t g.
Proof.
  intros Hs. unfold filterRole. destruct (HasRole t [RoleRoot]) eqn:Hroot; [intros _; by apply gives_root|].
  assert (forall roles roles', roles ⊆ above role -> roles' ⊆ above role -> roles' ⊆ scopedRoles -> roles' <> [] ->
    g ∈ (if HasRoleOn t "" roles then [NewGrant role ""] else map (NewGrant role) (Namespaces t roles')) -> gives t g) as Hcase.
  { intros roles roles' Ha Ha' Hr Hne. destruct (HasRoleOn t "" roles) eqn:Hon.
    - intros Hl%list_elem_of_singleton. rewrite Hl. apply (gives_on t role roles "" ""); [done|by left|done].
    - intros (ns & -> & (role' & H1 & H2)%Namespaces_spec)%list_elem_of_fmap; [|done..].
      eapply gives_above; [by apply Ha'|by left|done]. }
  destruct (String.eqb_spec role RoleGuest) as [->|]; [apply Hcase; [set_solver..|done]|].
  destruct (String.eqb_spec role RoleOperator) as [->|]; [apply Hcase; [set_solver..|done]|].
  destruct (String.eqb_spec role RoleAdmin) as [->|]; [apply Hcase; [set_solver..|done]|].
  destruct (HasGrant t [NewGrant role ""]) eqn:Hg; [|set_solver].
  intros ->%list_elem_of_singleton. by apply gives_own, HasGrant_one.
Qed.

Lemma filterGrant_gives t role scope g : strict t -> plain role = true ->
  g ∈ rbac.filterGrant t (NewGrant role scope) -> gives t g.
Proof.
  intros Hs Hp. unfold rbac.filterGrant. rewrite RoleOf_NewGrant, Scope_NewGrant by done.
  destruct (HasRole t [RoleRoot]) eqn:Hroot; [intros _; by apply gives_root|].
  destruct (HasGrant t [NewGrant role scope]) eqn:Hg.
  { intros ->%list_elem_of_singleton. by apply gives_own, HasGrant_one. }
  repeat (case_match eqn:Hc; [apply andb_true_iff in Hc as [->%String.eqb_eq Hon]; intros ->%list_elem_of_singleton;
    eapply gives_on; [|..|exact Hon]; [set_solver|tauto]|clear Hc]).
  set_solver.
Qed.

Lemma filterScope_gives t scope g : strict t -> g ∈ filterScope t scope -> gives t g.
Proof.
  intros Hs. unfold filterScope, Has. destruct (HasRole t [RoleRoot]) eqn:Hroot; [intros _; by apply gives_root|].
  repeat (case_match eqn:Hc; [intros ->%list_elem_of_singleton; apply orb_true_iff in Hc as [Hc|Hc]; apply HasGrant_one in Hc;
    (eapply gives_above; [|..|exact Hc]; [set_solver|tauto])|clear Hc]).
  set_solver.
Qed.

Lemma FilterGrantStrings_gives t roles scope g : strict t -> Forall (fun role => plain role = true) roles ->
  g ∈ FilterGrantStrings t roles scope -> gives t g.
Proof.
  intros Hs Hr. unfold FilterGrantStrings. destruct roles as [|role roles], (String.eqb scope "").
  - by apply gives_own.
  - by apply filterScope_gives.
  - intros (r & Hin%list_elem_of_In & Hg%list_elem_of_In)%list_elem_of_In%in_flat_map. by eapply filterRole_gives.
  - intros (r & Hin%list_elem_of_In & Hg%list_elem_of_In)%list_elem_of_In%in_flat_map.
    eapply filterGrant_gives; [done| |done]. by apply (proj1 (Forall_forall _ _) Hr).
Qed.

End order.

(** ** Grants given to another *)

Lemma Covers_gives t g : strict t -> Covers t g = true -> gives t g.
Proof.
  intros Hs. unfold Covers. destruct (HasRole t [RoleRoot]) eqn:Hroot; [intros _; by apply gives_root|].
  rewrite SplitGrant_Split. destruct (HasGrant t [g]) eqn:Hg; [intros _; by apply gives_own, HasGrant_one|].
  destruct (String.eqb_spec (Scope g) "") as [|Hne]; [done|]. cbn [negb andb]. destruct (IsScopedRole (ParseRole (RoleOf g))) eqn:Hsc; [|done].
  apply one_of_spec in Hsc. intros Ht%HasGrant_one.
  destruct (ParseRole_scoped (RoleOf g)) as [He Hu]; [done|].
  rewrite (NewGrant_Split g Hu Hne). rewrite He in *. eapply gives_above; [|by right|exact Ht]. by apply above_refl.
Qed.

End rbacLogic.

Import rbac api rbacLogic.

(** C18: When its user has no grant of root on a namespace, a token grants nothing the user
    does not hold, whatever the roles and the scope asked for: what it passes its user passes,
    or its user is root. With root:ns1 a token of root is given, a finding
    (scoped_root_token). *)
Theorem token_escalates_nothing `{MapOrder} grants roles scope l c :
  strict grants -> accessTokenGrants grants roles scope = Some l -> passes l c = true ->
  GrantRoot ∈ grants \/ passes grants c = true.
Proof.
  intros Hs. unfold accessTokenGrants, api.filterGrant. destruct (negb (validateRole roles)); [done|].
  cbn. case_bool_decide; [done|]. intros [= <-] (g & Hg & Hc)%passes_spec.
  eapply FilterGrantStrings_gives in Hg as [?|Hgive]; [by left|right; by apply Hgive|done|].
  apply Forall_forall. intros role [_ Hin]%list_elem_of_filter. apply roles_plain.
  apply list_elem_of_fmap in Hin as (s & -> & _). unfold ParseRole. case_match eqn:Ho; [by apply one_of_spec in Ho|set_solver].
Qed.

(** ** Tokens *)

Module rbacExample.

#[local] Instance sorted : MapOrder := {| map_order := fun l => l; map_order_perm := fun l => Permutation_refl l |}.

(** The table of the comment of [FilterGrantStrings]. *)
Definition filtered (allowed : string) (roles : list string) (scope : string) : Grants :=
  FilterGrantStrings (strings.Split allowed ",") roles scope.

Definition several := "admin:ns1,admin:ns2,guest:ns3".

Example table :
  filtered "root" [] "" = ["root"] /\ filtered "admin" [] "" = ["admin"] /\
  filtered several [] "" = ["admin:ns1"; "admin:ns2"; "guest:ns3"] /\
  filtered "root" ["admin"] "ns2" = ["admin:ns2"] /\ filtered "admin" ["admin"] "ns2" = ["admin:ns2"] /\
  filtered "admin" ["guest"] "ns2" = ["guest:ns2"] /\ filtered several ["admin"] "ns2" = ["admin:ns2"] /\
  filtered several ["admin"] "ns3" = [] /\ filtered several ["guest"] "ns2" = ["guest:ns2"] /\
  filtered "root" ["root"] "" = ["root"] /\ filtered "root" ["admin"] "" = ["admin"] /\ filtered "admin" ["root"] "" = [] /\
  filtered "admin" ["admin"] "" = ["admin"] /\ filtered "admin" ["guest"] "" = ["guest"] /\
  filtered several ["root"] "" = [] /\ filtered several ["admin"] "" ≡ₚ ["admin:ns1"; "admin:ns2"] /\
  filtered "root" [] "ns1" = ["admin:ns1"] /\ filtered "guest" [] "ns1" = ["guest:ns1"] /\
  filtered several [] "ns1" = ["admin:ns1"] /\ filtered several [] "ns3" = ["guest:ns3"].
Proof. repeat (split; [by apply (bool_decide_unpack _); vm_compute|]). by apply (bool_decide_unpack _); vm_compute. Qed.

(** The last row on the roles with no scope, a guest of ns3 in the comment, is a
    guest of the namespaces it administers too. *)
Theorem guest_everywhere : filtered several ["guest"] "" ≡ₚ ["guest:ns1"; "guest:ns2"; "guest:ns3"].
Proof. by apply (bool_decide_unpack _); vm_compute. Qed.

Lemma token_escalates_nothing_witness :
  GrantRoot ∈ ["guest:ns1"; "operator"] \/ passes ["guest:ns1"; "operator"] (Guest "ns2") = true.
Proof.
  apply (token_escalates_nothing ["guest:ns1"; "operator"] (Some ["guest"]) (Some "ns2") ["guest:ns2"]);
    [|vm_compute; reflexivity|vm_compute; reflexivity].
  repeat (apply Forall_cons_2; [by vm_compute|]). apply Forall_nil_2.
Defined.

(** A grant of root on a namespace passes no check for the root grant, and is
    the root role: a token for it is root. *)
Theorem scoped_root_token :
  accessTokenGrants ["root:ns1"] (Some ["root"]) None = Some ["root"] /\
  passes ["root:ns1"] Root = false /\ passes ["root"] Root = true.
Proof. vm_compute. by split_and!. Qed.

(** An operator of every namespace is refused a token for one. *)
Theorem operator_refused :
  accessTokenGrants ["operator"] (Some ["operator"]) (Some "ns1") = None /\
  Covers ["operator"] "operator:ns1" = true /\ hasRoleOperatorOn ["operator"] "ns1" = true /\
  accessTokenGrants ["operator"] None (Some "ns1") = Some ["operator:ns1"].
Proof. vm_compute. by split_and!. Qed.

End rbacExample.
