(* ===== verification/RbacPolicy.v ===== *)
(** * core/keyoprbac: the policy of the keywords

    Which keywords of the configuration of an object a user that is not root may
    set, and to which values: a table of rules by driver group and by keyword.  The
    API enforces it on the configurations users write (RbacConfig.v), and the
    documentation of the keywords explains it.

    A [Denies] is a function of the value and of the options set in the section,
    as in the code.  [Datarecv] is what the policy asks of the grammar of the
    installed data (src/core/datarecv), which is not modelled. *)

From S2P Require Import Prelude.
From S2P Require Import Naming Instance.
From S2P Require Import Convert Key.
From S2P Require Import Rbac.
From Stdlib Require Import Ascii.

Open Scope string_scope.

Class Datarecv := {
  TextHasLocalSource : string -> bool;
  TextHasSpecialMode : string -> bool;
  ModeHasSpecialBits : string -> bool }.

Module keyoprbac.
Import rbac.

(** ** Values *)

Definition HasPrefix (s prefix : string) : bool := match text.CutPrefix s prefix with Some _ => true | None => false end.
Definition Contains (s sub : string) : bool := match text.Index s sub with Some _ => true | None => false end.
Definition ContainsAny (s chars : string) : bool := negb (strings.all_chars (fun c => negb (strings.ContainsChar chars c)) s).

(** The words before and after the first [sep], and whether it is there. *)
Definition Cut (s : string) (sep : ascii) : string * string * bool :=
  match text.Cut s sep with Some (a, b) => (a, b, true) | None => (s, "", false) end.

(** [path.Clean], of a rooted path. *)
Fixpoint cleanDirs (l : list string) (kept : list string) : list string :=
  match l with
  | [] => rev kept
  | d :: l =>
      if String.eqb d "" || String.eqb d "." then cleanDirs l kept
      else if String.eqb d ".." then cleanDirs l (List.tl kept)
      else cleanDirs l (d :: kept)
  end.

Definition Clean (rooted : string) : string := "/" ++ Join (cleanDirs (strings.Split rooted "/") []) "/".

Definition isVolumeHead (s : string) : bool :=
  let s := text.TrimSpace s in
  let '(ref, rel, ok) := Cut s ":" in
  if ok then
    let '(group, index, ok) := Cut ref "#" in
    if negb ok || negb (String.eqb group "volume") || String.eqb index "" || ContainsAny index "/:" then false
    else HasPrefix rel "/" && String.eqb (Clean rel) "/"
  else
    let '(name, rel, _) := Cut s "/" in
    if negb (hostname.IsValid name) then false else String.eqb (Clean ("/" ++ rel)) "/".

Definition nfsOpts : list string :=
  ["rw"; "ro"; "sync"; "async"; "wdelay"; "no_wdelay"; "subtree_check"; "no_subtree_check"; "secure"; "hide";
   "root_squash"; "all_squash"; "no_all_squash"].

(** [strconv.ParseUint(s, 10, 32)]. *)
Definition ParseUint (s : string) : option Z :=
  if String.eqb s "" then None
  else n ← strconv.digits 0 s; if (n <? 2 ^ 32)%Z then Some n else None.

Definition isNFSOptAllowed (opt : string) : bool :=
  let '(name, value, hasValue) := Cut opt "=" in
  if String.eqb name "sec" then hasValue && negb (String.eqb value "")
  else if String.eqb name "anonuid" || String.eqb name "anongid" then
    hasValue && match ParseUint value with Some id => negb (Z.eqb id 0) | None => false end
  else negb hasValue && one_of name nfsOpts.

Definition deniesNFSOpts (value : string) : bool :=
  let entries := text.Fields value in
  if bool_decide (entries = []) then true
  else
    existsb (fun entry =>
      let '(client, opts, ok) := Cut entry "(" in
      if negb ok || String.eqb client "" || HasPrefix client "-" || negb (HasSuffix opts ")") then true
      else existsb (fun opt => negb (isNFSOptAllowed opt))
             (strings.Split (String.substring 0 (String.length opts - 1) opts) ",")) entries.

Definition isKeyReference (s : string) : bool :=
  let words := text.Fields s in
  (4 <=? length words)%nat &&
  match words with w0 :: _ :: w2 :: _ => String.eqb w0 "from" && String.eqb w2 "key" | _ => false end.

(** [strconv.ParseBool]. *)
Definition ParseBool (s : string) : option bool :=
  if one_of s ["1"; "t"; "T"; "TRUE"; "true"; "True"] then Some true
  else if one_of s ["0"; "f"; "F"; "FALSE"; "false"; "False"] then Some false
  else None.

Definition isTrue (s : string) : bool :=
  let s := text.TrimSpace s in
  if String.eqb s "" then false else match ParseBool s with None => true | Some v => v end.

Definition isNoName (s : string) : bool := String.eqb s "." || String.eqb s ".." || ContainsAny s "/\".

Definition hasHostPathMount (value : string) : bool :=
  existsb (fun e => HasPrefix e "/" || Contains e "/../" || HasPrefix e "../" || HasSuffix e "../") (text.Fields value).

Definition allValuesAllowed (value : string) (allowed : list string) : bool :=
  let fields := text.Fields value in
  if bool_decide (fields = []) then false else forallb (fun field => one_of field allowed) fields.

(** ** Rules *)

(** The options set in the section of the keyword. *)
Definition Section := string -> bool.

Record Rule := mkRule {
  Grant_ : Grant; Reason : string; Values : list string; Denies : option (string -> Section -> bool); MayUnset : bool }.

Record Group := mkGroup {
  KindRules : list (naming.Kind * list (string * Rule));
  Rules : list (string * Rule);
  Default : option Rule;
  KindDefaults : list (naming.Kind * Rule) }.

(** The zero rule; a rule with a reason, with values, with a check. *)
Definition free : Rule := mkRule "" "" [] None false.
Definition rule (g : Grant) (reason : string) : Rule := mkRule g reason [] None false.
Definition ruleValues (reason : string) (values : list string) : Rule := mkRule GrantRoot reason values None false.
Definition valueOnly (f : string -> bool) : string -> Section -> bool := fun value _ => f value.
Definition ruleDenies (reason : string) (f : string -> Section -> bool) : Rule := mkRule GrantRoot reason [] (Some f) false.

Definition reasonRoot := "requires the root grant".
Definition reasonGroup := "this driver group requires the root grant".
Definition reasonTrigger := "triggers require the root grant".
Definition reasonVolDefault := "a volume keyword other than size requires the root grant".
Definition reasonVolResource := "a resource of a volume requires the root grant".
Definition reasonSquatter := "requires the squatter grant".

Definition containerTypes : list string := ["oci"; "docker"; "podman"].
Definition taskTypes : list string := containerTypes ++ ["acme"].

Definition containerNameRule : Rule :=
  rule GrantRoot "a container name of the user's choosing requires the root grant: the default name is the object's own".
Definition containerImageRule : Rule :=
  ruleDenies "an image starting with a '-' requires the root grant" (valueOnly (fun s => HasPrefix s "-")).
Definition rootRule : Rule := rule GrantRoot reasonRoot.
Definition volDefaultRule : Rule := rule GrantRoot reasonVolDefault.
Definition volResourceRule : Rule := rule GrantRoot reasonVolResource.
Definition squatterRule : Rule := rule GrantSquatter reasonSquatter.

Definition hostPathMountRule : Rule :=
  ruleDenies "host path mounts in container require the root grant" (valueOnly hasHostPathMount).
Definition devicesRule : Rule :=
  ruleDenies "host devices in container require the root grant" (valueOnly (fun s => negb (String.eqb (text.TrimSpace s) ""))).
Definition privilegedRule : Rule :=
  ruleDenies "a privileged container requires the root grant" (valueOnly isTrue).
Definition hostNetnsRule : Rule :=
  ruleDenies "the host network namespace requires the root grant" (valueOnly (fun s => String.eqb (text.TrimSpace s) "host")).

Definition deniesIPType (value : string) (section : Section) : bool :=
  if String.eqb value "cni" then false
  else if String.eqb value "netns" then negb (section "network") || section "name"
  else if String.eqb value "host" then negb (section "network") || section "name" || section "dev" || section "netmask"
  else true.

(** The keywords of the containers and of the tasks. *)
Definition containerKeywords : list (string * Rule) :=
  [("volume_mounts", hostPathMountRule); ("devices", devicesRule); ("privileged", privilegedRule); ("netns", hostNetnsRule)].

Definition pgKeywords : list string :=
  ["pg_cpus"; "pg_mems"; "pg_cpu_shares"; "pg_cpu_quota"; "pg_cpu_burst"; "pg_mem_oom_control"; "pg_mem_limit";
   "pg_mem_high"; "pg_vmem_limit"; "pg_mem_swappiness"; "pg_blkio_weight"; "pg_pids_max"].

Section policy.
Context `{Datarecv}.

(** [rules], group by group. *)
Definition acmeGroup : Group := mkGroup []
    [("directory", free); ("renew_before", free);
     ("webroot", rule GrantRoot "a host path the challenge token is written in requires the root grant")]
    (Some rootRule) [].

Definition storeGroup : Group := mkGroup []
    [("type", ruleValues reasonRoot ["tar"]);
     ("url", ruleDenies "a store url other than sftp://, a directory of the node, requires the root grant"
               (valueOnly (fun value => negb (HasPrefix value "sftp://"))));
     ("host_key", free);
     ("ssh_private_key", ruleDenies "an ssh private key not written from <sec> key <key> requires the root grant"
                           (valueOnly (fun value => negb (isKeyReference value))));
     ("keep", free)]
    (Some rootRule) [].

Definition syncGroup : Group := mkGroup []
    [("type", ruleValues reasonRoot ["store"]);
     ("store", ruleDenies "a store of the cluster configuration, named bare, requires the root grant: name a store of a sec, from <sec> store#<name>"
                 (valueOnly (fun value => negb (HasPrefix (text.TrimSpace value) "from "))));
     ("exclude", free); ("include_refs", free); ("keep", free); ("log", free); ("max_delay", free);
     ("rids", free); ("schedule", free)]
    (Some rootRule) [].

Definition taskGroup : Group := mkGroup []
    ([("type", ruleValues reasonRoot taskTypes); ("run_args", rootRule); ("name", containerNameRule);
      ("image", containerImageRule); ("dns", rootRule); ("dns_search", rootRule)] ++ containerKeywords)
    None [].

Definition containerGroup : Group := mkGroup []
    ([("type", ruleValues reasonRoot containerTypes); ("run_args", rootRule); ("name", containerNameRule);
      ("image", containerImageRule); ("uxgrant", rootRule); ("dns", rootRule); ("dns_search", rootRule)] ++ containerKeywords)
    None [].

Definition volumeGroup : Group := mkGroup
    [(naming.KindVol, [("install", volResourceRule)])]
    [("install", ruleDenies "a server-local source uri, or a setuid or setgid mode, requires the root grant"
                   (valueOnly (fun s => TextHasLocalSource s || TextHasSpecialMode s)));
     ("perm", ruleDenies "a setuid or setgid mode requires the root grant" (valueOnly ModeHasSpecialBits));
     ("dirperm", ruleDenies "a setuid or setgid mode requires the root grant" (valueOnly ModeHasSpecialBits))]
    None [(naming.KindVol, volResourceRule)].

Definition fsGroup : Group := mkGroup
    [(naming.KindVol, [("type", volResourceRule)])]
    [("type", ruleValues reasonRoot ["flag"])]
    (Some rootRule) [(naming.KindVol, volResourceRule)].

Definition shareGroup : Group := mkGroup
    [(naming.KindVol, [("type", volResourceRule); ("path", volResourceRule); ("opts", volResourceRule)])]
    [("type", ruleValues reasonRoot ["nfs"]);
     ("path", ruleDenies "a path other than the mount point of a volume, written <vol name> or volume#<n>:/, requires the root grant"
                (valueOnly (fun s => negb (isVolumeHead s))));
     ("opts", ruleDenies ("an export option other than " ++ Join nfsOpts ", " ++
                          ", sec, anonuid and anongid, or an anonuid or anongid of 0, requires the root grant")
                (valueOnly deniesNFSOpts))]
    (Some rootRule) [(naming.KindVol, volResourceRule)].

Definition ipGroup : Group := mkGroup []
    [("type", ruleDenies ("requires the root grant, except for a cni address, " ++
                          "for a netns address om draws from a cluster network, " ++
                          "and for a host address om draws from a lan network, on the interface and with the netmask the network says")
                deniesIPType);
     ("network", ruleDenies "a network named by a path requires the root grant" (valueOnly isNoName));
     ("addr", mkRule GrantRoot "an address of the user's choosing requires the root grant: om writes the address it draws from the network" [] None true);
     ("netns", hostNetnsRule); ("nsdev", free); ("expose", free); ("dns_name_suffix", free); ("wait_dns", free)]
    (Some rootRule) [].

Definition defaultGroup : Group := mkGroup
    [(naming.KindNscfg, map (fun k => (k, squatterRule)) (pgKeywords ++ ["rootless_users"; "rootless_groups"])%list);
     (naming.KindVol, [("size", free)])]
    [("priority", rule GrantPrioritizer "requires the prioritizer grant");
     ("monitor_action", ruleValues reasonRoot ["switch"; "freezestop"; "none"]);
     ("pre_monitor_action", rootRule);
     ("restore_from", mkRule GrantRoot reasonRoot [] None true)]
    None [(naming.KindVol, volDefaultRule)].

Definition claimGroup : Group := mkGroup [] [] (Some squatterRule) [].

Definition envGroup : Group := mkGroup [] [] None [].

Definition labelsGroup : Group := mkGroup [] [] None [].

Definition rules : list (string * Group) :=
  [("acme", acmeGroup); ("store", storeGroup); ("sync", syncGroup); ("task", taskGroup); ("container", containerGroup); ("volume", volumeGroup); ("fs", fsGroup);
   ("share", shareGroup); ("ip", ipGroup); ("DEFAULT", defaultGroup); ("claim", claimGroup); ("env", envGroup); ("labels", labelsGroup)].

Definition commonKeywords : list string :=
  (["comment"; "disable"; "encap"; "monitor"; "no_preempt_abort"; "optional"] ++ pgKeywords ++
   ["prkey"; "provision"; "provision_requires"; "restart"; "restart_delay"; "run_requires"; "scsireserv"; "shared"; "standby";
    "start_requires"; "stat_timeout"; "stop_requires"; "subset"; "sync_drp_requires"; "sync_nodes_requires"; "sync_requires";
    "sync_update_requires"; "tags"; "unprovision"; "unprovision_requires"; "update_requires"])%list.

Definition triggers : list string :=
  ["blocking_post_provision"; "blocking_post_run"; "blocking_post_start"; "blocking_post_stop"; "blocking_post_unprovision";
   "blocking_pre_provision"; "blocking_pre_run"; "blocking_pre_start"; "blocking_pre_stop"; "blocking_pre_unprovision";
   "post_provision"; "post_run"; "post_start"; "post_stop"; "post_unprovision";
   "pre_provision"; "pre_run"; "pre_start"; "pre_stop"; "pre_unprovision"].

Definition normalize (section opt : string) : string * string := ((Cut section "#").1.1, (Cut opt "@").1.1).

(** [None] is no rule. *)
Definition Lookup (kind : naming.Kind) (section opt : string) : option Rule :=
  let '(group, opt) := normalize section opt in
  let named (r : Rule) := if String.eqb (Grant_ r) "" then None else Some r in
  if one_of opt triggers then Some (rule GrantRoot reasonTrigger)
  else
    match assoc String.eqb group rules with
    | None => Some (rule GrantRoot reasonGroup)
    | Some groupPolicy =>
        match (kindRules ← assoc String.eqb kind (KindRules groupPolicy); assoc String.eqb opt kindRules) with
        | Some r => named r
        | None =>
            match assoc String.eqb opt (Rules groupPolicy) with
            | Some r => named r
            | None =>
                if one_of opt commonKeywords then None
                else
                  match assoc String.eqb kind (KindDefaults groupPolicy) with
                  | Some r => Some r
                  | None => Default groupPolicy
                  end
            end
        end
    end.

(** The reason of a refusal, [None] when there is none. *)
Definition Denied (grants : Grants) (kind : naming.Kind) (section opt value : string) (set : option Section) :
    option string :=
  match Lookup kind section opt with
  | None => None
  | Some r =>
      let opened :=
        match Denies r with
        | Some denies => match set with Some set => negb (denies value set) | None => false end
        | None => negb (bool_decide (Values r = [])) && allValuesAllowed value (Values r)
        end in
      if opened then None else if HasGrant grants [Grant_ r] then None else Some (Reason r)
  end.

Definition DeniedByDriver (grants : Grants) (kind : naming.Kind) (section opt typ : string) (set : option Section) :
    option string :=
  let opt := (Cut opt "@").1.1 in
  if String.eqb typ "" || String.eqb opt "type" || one_of opt commonKeywords then None
  else (fun err => "a keyword of a section running the " ++ typ ++ " driver: " ++ err) <$> Denied grants kind section "type" typ set.

Definition DeniedUnset (grants : Grants) (kind : naming.Kind) (section opt value : string) (set : option Section) :
    option string :=
  match Lookup kind section opt with
  | Some r => if MayUnset r then None else Denied grants kind section opt value set
  | None => Denied grants kind section opt value set
  end.

(** [strings.ToUpper(s[:1]) + s[1:]]. *)
Definition upper (c : ascii) : ascii :=
  let n := N_of_ascii c in if ((97 <=? n) && (n <=? 122))%N then ascii_of_N (n - 32) else c.

Definition Doc (kind : naming.Kind) (section opt : string) : string :=
  match Lookup kind section opt with
  | None => ""
  | Some r =>
      match Reason r with
      | "" => ""
      | String c s =>
          String (upper c) s ++
          (match Denies r with
           | None => if bool_decide (Values r = []) then "" else ", except for the values " ++ Join (Values r) ", "
           | Some _ => ""
           end) ++ "."
      end
  end.

End policy.

End keyoprbac.

(** ** The rules of the table *)

Module policyLogic.
Import rbac keyoprbac.

Lemma forallb_assoc {V} (p : V -> bool) k (l : list (string * V)) v :
  forallb (fun kv => p kv.2) l = true -> assoc String.eqb k l = Some v -> p v = true.
Proof.
  induction l as [|[k' v'] l IH]; cbn; [done|]. intros [Hp Hl]%andb_true_iff.
  destruct (String.eqb k k'); [by intros [= <-]|by apply IH].
Qed.

(** A rule that needs a grant says why. *)
Definition told (r : Rule) : bool := negb (String.eqb (Grant_ r) "") && negb (String.eqb (Reason r) "").
Definition entry (r : Rule) : bool := String.eqb (Grant_ r) "" || told r.

Definition toldGroup (g : Group) : bool :=
  forallb (fun kr => forallb (fun kr => entry kr.2) kr.2) (KindRules g) && forallb (fun kr => entry kr.2) (Rules g) &&
  forallb (fun kr => told kr.2) (KindDefaults g) && match Default g with Some r => told r | None => true end.

Section policy.
Context `{Datarecv}.

Lemma rules_told : forallb (fun kg => toldGroup kg.2) rules = true.
Proof. vm_compute. reflexivity. Qed.

Lemma named_told r0 r : entry r0 = true -> (if String.eqb (Grant_ r0) "" then None else Some r0) = Some r -> told r = true.
Proof. unfold entry. destruct (String.eqb _ _); [done|]. by intros ? [= <-]. Qed.

Lemma group_told g kind opt r : toldGroup g = true ->
  match assoc String.eqb opt (Rules g) with
  | Some r => if String.eqb (Grant_ r) "" then None else Some r
  | None =>
      if one_of opt commonKeywords then None
      else match assoc String.eqb kind (KindDefaults g) with Some r => Some r | None => Default g end
  end = Some r -> told r = true.
Proof.
  unfold toldGroup. rewrite !andb_true_iff. intros [[[_ H2] H3] H4].
  destruct (assoc String.eqb opt (Rules g)) as [r0|] eqn:Hr; [by apply named_told, (forallb_assoc _ _ _ _ H2 Hr)|].
  destruct (one_of opt commonKeywords); [done|].
  destruct (assoc String.eqb kind (KindDefaults g)) as [r0|] eqn:Hd; [intros [= <-]; by apply (forallb_assoc _ _ _ _ H3 Hd)|].
  intros HD. by rewrite HD in H4.
Qed.

Lemma Lookup_told kind section opt r : Lookup kind section opt = Some r -> told r = true.
Proof.
  unfold Lookup. destruct (normalize section opt) as [group option]. destruct (one_of option triggers); [by intros [= <-]|].
  destruct (assoc String.eqb group rules) as [g|] eqn:Hg; [|by intros [= <-]].
  pose proof (forallb_assoc _ _ _ _ rules_told Hg) as Ht.
  destruct (assoc String.eqb kind (KindRules g)) as [kr|] eqn:Hk; cbn; [|by apply group_told].
  destruct (assoc String.eqb option kr) as [r0|] eqn:Ho; [|by apply group_told].
  apply named_told. unfold toldGroup in Ht. rewrite !andb_true_iff in Ht. destruct Ht as [[[H1 _] _] _].
  by apply (forallb_assoc _ _ _ _ (forallb_assoc _ _ _ _ H1 Hk) Ho).
Qed.

End policy.

End policyLogic.

Import rbac keyoprbac policyLogic.

(** The documentation of a keyword is silent exactly when the policy has no rule for it. *)
Lemma doc_silent `{Datarecv} kind section opt : Doc kind section opt = "" <-> Lookup kind section opt = None.
Proof.
  unfold Doc. destruct (Lookup kind section opt) as [r|] eqn:Hl; [|done].
  apply Lookup_told in Hl. unfold told in Hl. apply andb_true_iff in Hl as [_ Hr%negb_true_iff].
  by destruct (Reason r).
Qed.
