(* ===== verification/RbacConfig.v ===== *)
(** * daemon/daemonapi: the writes of the configurations

    What a user may write in the configuration of an object (lib_rbac.go): a write
    answers for what it changes, keyword by keyword, with the policy of RbacPolicy.v;
    for the drivers its sections run; for the grants it gives, when the object is a
    user; for the networks and the accounts of the node it names
    (core/rootless).

    A configuration is what the code asks of it ([xconfig.T]): any evaluation of the
    references and of the scopes.  The networks, the accounts of the system and what
    the namespaces allow are answers of [Node].  An error is a value; its text is not
    modelled. *)

From S2P Require Import Prelude.
From S2P Require Import Naming Instance.
From S2P Require Import Convert Key.
From S2P Require Import Rbac RbacPolicy.
From Stdlib Require Import Ascii.

Open Scope string_scope.

Module xconfig.

(** [EvalAs] is the text of the value for a node, [None] an error. *)
Record T := mkT {
  SectionStrings : list string;
  Keys : string -> list string;
  HasKey : key.T -> bool;
  Get : key.T -> string;
  EvalAs : key.T -> string -> option string;
  EvalNoConv : key.T -> option string;
  GetStrings : key.T -> list string }.

Definition GetStringAs (t : T) (k : key.T) (nodename : string) : string := default "" (EvalAs t k nodename).

End xconfig.

Module network.

(** [ClusterWide] is false on the networks that do not tell. *)
Record Networker := mkNetworker { Type_ : string; ClusterWide : bool }.

End network.

(** ** core/rootless *)

Module rootless.

Record Allowed := mkAllowed { Namespace : string; Users : list string; Groups : list string }.

(** The user is its uid and its gid. *)
Class Accounts := { lookupUser : string -> option (string * string); lookupGroup : string -> option string }.

Section accounts.
Context `{Accounts}.

Definition ids (a : Allowed) : list string * list string :=
  let '(uids, gids) :=
    foldl (fun l s =>
      match lookupUser s with
      | Some (uid, gid) =>
          if String.eqb uid "0" then l
          else ((l.1 ++ [uid])%list, if String.eqb gid "0" then l.2 else (l.2 ++ [gid])%list)
      | None => l
      end) ([], []) (Users a) in
  (uids, foldl (fun l s => match lookupGroup s with
                           | Some gid => if String.eqb gid "0" then l else (l ++ [gid])%list
                           | None => l
                           end) gids (Groups a)).

Definition isRootGroup (s : string) : bool :=
  String.eqb s "0" || String.eqb s "root" ||
  match lookupGroup s with Some gid => String.eqb gid "0" | None => false end.

Inductive error := IsRootGroup | NotListed | IsRoot | UnknownGroup | UserNotAllowed | GroupNotAllowed.

Definition Check (a : Allowed) (userName groupName : string) : option error :=
  if String.eqb userName "" then None
  else
    match lookupUser userName with
    | None =>
        if isRootGroup groupName then Some IsRootGroup
        else if one_of userName (Users a) && (String.eqb groupName "" || one_of groupName (Groups a)) then None
        else Some NotListed
    | Some (uid, gid) =>
        if String.eqb uid "0" then Some IsRoot
        else
          match (if String.eqb groupName "" then Some gid else lookupGroup groupName) with
          | None => Some UnknownGroup
          | Some gid =>
              if String.eqb gid "0" then Some IsRootGroup
              else
                let '(uids, gids) := ids a in
                if negb (one_of uid uids) then Some UserNotAllowed
                else if negb (one_of gid gids) then Some GroupNotAllowed
                else None
          end
    end.

End accounts.

End rootless.

(** ** core/driver *)

Module driver.

(** [DefaultDriver[NewGroup(group)]]. *)
Definition DefaultDriver (group : string) : string :=
  default "" (assoc String.eqb group
    [("app", "forking"); ("container", "oci"); ("ip", "host"); ("task", "host"); ("volume", ""); ("sync", "rsync")]).

End driver.

(** ** The check of a write *)

Module daemonapi.
Import rbac xconfig.

(** [configured] is what the namespaces allow, [None] when it can not be read. *)
Class Node := {
  hostname : string;
  lookupNetwork : string -> string + option network.Networker;
  accounts :: rootless.Accounts;
  configured : string -> option rootless.Allowed }.

Inductive error :=
| DeniedKey (op : keyop.T) (nodename reason : string)
| DeniedDriverOf (k : key.T) (nodename reason : string)
| DeniedUnset (k : key.T) (reason : string)
| DeniedFallback (section driver nodename reason : string)
| DeniedSectionName (section : string)
| DeniedGrants (l : Grants) | DeniedCN | DeniedUXUser
| DeniedNamedAddress (section nodename : string) | DeniedNoNetwork (section nodename name : string)
| DeniedNetwork (section nodename name type : string) | FailedNetwork (section name err : string)
| DeniedAccount (section user nodename : string) (err : rootless.error) | FailedAccounts (namespace : string).

(** The first error of a loop. *)
Fixpoint firstError {A} (f : A -> option error) (l : list A) : option error :=
  match l with [] => None | x :: l => match f x with Some err => Some err | None => firstError f l end end.

(** An error, or what follows. *)
Definition orElse (e e' : option error) : option error := match e with Some err => Some err | None => e' end.

Section checks.
Context `{D : Datarecv} `{N : Node}.

Definition evaluatedOrWrittenAs (cfg : T) (k : key.T) (nodename : string) : string :=
  match EvalAs cfg k nodename with None => Get cfg k | Some v => v end.

Definition evaluatedOrWritten (cfg : T) (k : key.T) : string := evaluatedOrWrittenAs cfg k hostname.

(** The configurations are in the order of the arguments, the ones that are not nil. *)
Definition rbacScopes (cfgs : list T) : list string :=
  let set : gset string := {[hostname]} ∪ list_to_set (flat_map (fun cfg => GetStrings cfg (key.New "DEFAULT" "nodes")) cfgs) in
  stable_sort String.ltb (elements set).

Definition sectionSetter (keys : list string) : keyoprbac.Section :=
  fun opt => one_of opt (map (fun opt => (keyoprbac.Cut opt "@").1.1) keys).

Definition followsObjectSize (kind : naming.Kind) (from : option T) (to : T) (k : key.T) : bool :=
  let ref := "{DEFAULT.size}" in
  if negb (String.eqb kind naming.KindVol) || negb (String.eqb (key.Option k) "size") || String.eqb (key.Section k) "DEFAULT" then false
  else match from with Some from => String.eqb (Get from k) ref && String.eqb (Get to k) ref | None => false end.

(** The node a keyword changed on, [None] when it did not. *)
Fixpoint changedAmong (from to : T) (k : key.T) (nodes : list string) : option string :=
  match nodes with
  | [] => None
  | nodename :: nodes =>
      match EvalAs from k nodename, EvalAs to k nodename with
      | Some a, Some b => if String.eqb a b then changedAmong from to k nodes else Some nodename
      | _, _ => Some nodename
      end
  end.

Definition keyChangedOn (from : option T) (to : T) (k : key.T) (scopes : list string) : option string :=
  match from with
  | None => Some hostname
  | Some from =>
      if negb (HasKey from k) then Some hostname
      else if negb (String.eqb (Get from k) (Get to k)) then Some hostname
      else changedAmong from to k (hostname :: scopes)
  end.

Definition keyopRbacOn (grants : Grants) (kind : naming.Kind) (op : keyop.T) (set : keyoprbac.Section) (nodename : string) :
    option error :=
  let k := keyop.Key op in
  DeniedKey op nodename <$> keyoprbac.Denied grants kind (key.Section k) (key.Option k) (keyop.Value op) (Some set).

Definition driverRbacOn (grants : Grants) (kind : naming.Kind) (cfg : T) (k : key.T) (set : keyoprbac.Section) (nodename : string) :
    option error :=
  let typ := GetStringAs cfg (key.New (key.Section k) "type") nodename in
  let typ := if String.eqb typ "" then driver.DefaultDriver (keyoprbac.Cut (key.Section k) "#").1.1 else typ in
  DeniedDriverOf k nodename <$> keyoprbac.DeniedByDriver grants kind (key.Section k) (key.Option k) typ (Some set).

Definition keyUnsetRbac (grants : Grants) (kind : naming.Kind) (k : key.T) (value : string) (set : keyoprbac.Section) :
    option error :=
  DeniedUnset k <$> keyoprbac.DeniedUnset grants kind (key.Section k) (key.Option k) value (Some set).

Definition sectionDriverRbac (grants : Grants) (kind : naming.Kind) (from : option T) (to : T) (section : string)
    (set : keyoprbac.Section) (scopes : list string) : option error :=
  let name := driver.DefaultDriver (keyoprbac.Cut section "#").1.1 in
  if String.eqb name "" then None
  else
    let k := key.New section "type" in
    firstError (fun nodename =>
      if negb (String.eqb (GetStringAs to k nodename) "") then None
      else if match from with
              | Some from => bool_decide (Keys from section <> []) && String.eqb (GetStringAs from k nodename) ""
              | None => false
              end then None
      else DeniedFallback section name nodename <$> keyoprbac.Denied grants kind section "type" name (Some set)) scopes.

(** The body of the loop of [configRbacChanges] on the keywords written. *)
Definition keySetRbac (grants : Grants) (kind : naming.Kind) (from : option T) (to : T) (scopes : list string)
    (section : string) (set : keyoprbac.Section) (opt : string) : option error :=
  let k := key.New section opt in
  match keyChangedOn from to k scopes with
  | None => None
  | Some nodename =>
      if followsObjectSize kind from to k then None
      else
        let kop := keyop.mk k keyop.Set_ (evaluatedOrWrittenAs to k nodename) 0 in
        orElse (keyopRbacOn grants kind kop set nodename) (driverRbacOn grants kind to k set nodename)
  end.

(** The one on the keywords taken away. *)
Definition keyGoneRbac (grants : Grants) (kind : naming.Kind) (from to : T) (section : string) (set : keyoprbac.Section)
    (opt : string) : option error :=
  let k := key.New section opt in
  if HasKey to k then None
  else orElse (keyUnsetRbac grants kind k (evaluatedOrWritten from k) set) (driverRbacOn grants kind from k set "").

Definition configRbacChanges (grants : Grants) (kind : naming.Kind) (from : option T) (to : T) : option error :=
  let scopes := rbacScopes (match from with Some from => [from; to] | None => [to] end) in
  orElse
    (firstError (fun section =>
       let set := sectionSetter (Keys to section) in
       orElse (firstError (keySetRbac grants kind from to scopes section set) (Keys to section))
              (sectionDriverRbac grants kind from to section set scopes)) (SectionStrings to))
    (match from with
     | None => None
     | Some from =>
         firstError (fun section =>
           firstError (keyGoneRbac grants kind from to section (sectionSetter (Keys from section))) (Keys from section))
           (SectionStrings from)
     end).

Definition sectionNameRbac (cfg : T) : option error :=
  firstError (fun section =>
    if keyoprbac.HasPrefix section "subset#" then None
    else if resourceid.CheckName section then None else Some (DeniedSectionName section)) (SectionStrings cfg).

Definition usrRbac (grants : Grants) (p : naming.Path) (from : option T) (to : T) : option error :=
  if negb (String.eqb (naming.Kind_ p) naming.KindUsr) then None
  else
    let grantKey := key.New "DEFAULT" "grant" in
    let cnKey := key.New "DEFAULT" "cn" in
    let uxuserKey := key.New "DEFAULT" "uxuser" in
    let held := match from with Some from => GetStrings from grantKey | None => [] end in
    let heldCN := match from with Some from => default "" (EvalNoConv from cnKey) | None => naming.Name p end in
    let added := filter (fun s => negb (one_of s held)) (GetStrings to grantKey) in
    let l := Uncovered grants added in
    let heldUX := match from with Some from => Join (GetStrings from uxuserKey) " " | None => "" end in
    if bool_decide (l <> []) then Some (DeniedGrants l)
    else if negb (String.eqb (default "" (EvalNoConv to cnKey)) heldCN) then Some DeniedCN
    else if negb (String.eqb (Join (GetStrings to uxuserKey) " ") heldUX) then Some DeniedUXUser
    else None.

(** [typeOf] of [hostIPRbac]. *)
Definition typeOf (cfg : T) (section nodename : string) : string :=
  let s := evaluatedOrWrittenAs cfg (key.New section "type") nodename in
  if String.eqb s "" then driver.DefaultDriver "ip" else s.

Definition hostIPOn (from : option T) (to : T) (section nodename : string) : option error :=
  let kn := key.New section "network" in
  if negb (String.eqb (typeOf to section nodename) "host") then None
  else
    let name := evaluatedOrWrittenAs to kn nodename in
    if match from with
       | Some from => bool_decide (Keys from section <> []) && String.eqb (typeOf from section nodename) "host" &&
                      String.eqb (evaluatedOrWrittenAs from kn nodename) name
       | None => false
       end then None
    else if String.eqb name "" then None
    else if negb (String.eqb (evaluatedOrWrittenAs to (key.New section "name") nodename) "") then
      Some (DeniedNamedAddress section nodename)
    else
      match lookupNetwork name with
      | inl err => Some (FailedNetwork section name err)
      | inr None => Some (DeniedNoNetwork section nodename name)
      | inr (Some nw) =>
          if network.ClusterWide nw then None else Some (DeniedNetwork section nodename name (network.Type_ nw))
      end.

Definition hostIPRbac (from : option T) (to : T) : option error :=
  let scopes := rbacScopes (match from with Some from => [from; to] | None => [to] end) in
  firstError (fun section =>
    if String.eqb (keyoprbac.Cut section "#").1.1 "ip" then firstError (hostIPOn from to section) scopes else None)
    (SectionStrings to).

Definition rootlessOn (p : naming.Path) (from : option T) (to : T) (section nodename : string) : option error :=
  let ku := key.New section "rootless_user" in
  let kg := key.New section "rootless_group" in
  let u := evaluatedOrWrittenAs to ku nodename in
  let g := evaluatedOrWrittenAs to kg nodename in
  if String.eqb u "" then None
  else if match from with
          | Some from => bool_decide (Keys from section <> []) && String.eqb (evaluatedOrWrittenAs from ku nodename) u &&
                         String.eqb (evaluatedOrWrittenAs from kg nodename) g
          | None => false
          end then None
  else
    match configured (naming.Namespace p) with
    | None => Some (FailedAccounts (naming.Namespace p))
    | Some allowed => DeniedAccount section u nodename <$> rootless.Check allowed u g
    end.

Definition rootlessRbac (p : naming.Path) (from : option T) (to : T) : option error :=
  let scopes := rbacScopes (match from with Some from => [from; to] | None => [to] end) in
  firstError (fun section =>
    let group := (keyoprbac.Cut section "#").1.1 in
    if String.eqb group "container" || String.eqb group "task" then firstError (rootlessOn p from to section) scopes else None)
    (SectionStrings to).

(** [configRbac]; [from] is [currentConfig], [cfg] the configuration of the body. *)
Definition configRbac (grants : Grants) (p : naming.Path) (from : option T) (cfg : T) : option error :=
  if HasGrant grants [GrantRoot] then None
  else
    orElse (sectionNameRbac cfg)
      (orElse (configRbacChanges grants (naming.Kind_ p) from cfg)
         (orElse (usrRbac grants p from cfg) (orElse (hostIPRbac from cfg) (rootlessRbac p from cfg)))).

(** [assertUsrKeyWrite], whether the write is allowed. *)
Definition assertUsrKeyWrite (grants : Grants) (p : naming.Path) (cfg : option T) : bool :=
  if negb (String.eqb (naming.Kind_ p) naming.KindUsr) then true
  else if HasGrant grants [GrantRoot] then true
  else match cfg with
       | None => false
       | Some cfg => bool_decide (Uncovered grants (GetStrings cfg (key.New "DEFAULT" "grant")) = [])
       end.

End checks.

End daemonapi.

(** ** What an accepted write changes *)

Module configLogic.
Import rbac xconfig daemonapi.

Lemma firstError_none {A} (f : A -> option error) l : firstError f l = None <-> forall x, x ∈ l -> f x = None.
Proof.
  induction l as [|x l IH]; cbn; [set_solver|]. destruct (f x) eqn:Hx.
  - split; [done|]. intros H. rewrite H in Hx by left. done.
  - rewrite IH. set_solver.
Qed.

Lemma orElse_none e e' : orElse e e' = None <-> e = None /\ e' = None.
Proof. destruct e; cbn; naive_solver. Qed.

Section checks.
Context `{D : Datarecv} `{N : Node}.

(** The configurations have the keyword, written the same, and its value is the same
    on some nodes. *)
Definition sameOn (from to : T) (k : key.T) (nodes : list string) : Prop :=
  HasKey from k = true /\ Get from k = Get to k /\
  forall n, n ∈ nodes -> exists v, EvalAs from k n = Some v /\ EvalAs to k n = Some v.

Lemma changedAmong_spec from to k nodes : match changedAmong from to k nodes with
  | None => forall n, n ∈ nodes -> exists v, EvalAs from k n = Some v /\ EvalAs to k n = Some v
  | Some n => n ∈ nodes
  end.
Proof.
  induction nodes as [|n nodes IH]; cbn; [set_solver|].
  destruct (EvalAs from k n) as [a|] eqn:Ha, (EvalAs to k n) as [b|] eqn:Hb; [|left..].
  destruct (String.eqb_spec a b) as [->|]; [|left].
  destruct (changedAmong from to k nodes); [by right|]. intros n' [->|Hn]%elem_of_cons; [by exists b|by apply IH].
Qed.

(** A keyword that did not change is the same on every node; one that changed on
    another node is the same on this one. *)
Lemma keyChangedOn_spec from to k scopes : match keyChangedOn from to k scopes with
  | None => exists f, from = Some f /\ sameOn f to k (hostname :: scopes)
  | Some n => n = hostname \/ exists f, from = Some f /\ sameOn f to k [hostname] /\ n ∈ scopes
  end.
Proof.
  unfold keyChangedOn. destruct from as [f|]; [|by left]. destruct (HasKey f k) eqn:Hk; [|by left]. cbn [negb].
  destruct (String.eqb_spec (Get f k) (Get to k)) as [Hg|]; [|by left]. cbn [negb changedAmong].
  destruct (EvalAs f k hostname) as [a|] eqn:Ha, (EvalAs to k hostname) as [b|] eqn:Hb; [|by left..].
  destruct (String.eqb_spec a b) as [->|]; [|by left].
  assert (sameOn f to k [hostname]) as Hs by (split_and!; [done..|]; intros n ->%list_elem_of_singleton; by exists b).
  pose proof (changedAmong_spec f to k scopes) as Hc. destruct (changedAmong f to k scopes) as [n|].
  - right. by exists f.
  - exists f. split; [done|]. split_and!; [done..|]. intros n [->|Hn]%elem_of_cons; [by exists b|by apply Hc].
Qed.

Lemma accepted_changes grants p from to : HasGrant grants [GrantRoot] = false -> configRbac grants p from to = None ->
  configRbacChanges grants (naming.Kind_ p) from to = None /\ usrRbac grants p from to = None.
Proof. unfold configRbac. intros ->. rewrite !orElse_none. tauto. Qed.

Definition scopesOf (from : option T) (to : T) : list string :=
  rbacScopes (match from with Some from => [from; to] | None => [to] end).

(** The check of a keyword of an accepted write. *)
Lemma accepted_key grants kind from to section opt : configRbacChanges grants kind from to = None ->
  section ∈ SectionStrings to -> opt ∈ Keys to section ->
  keySetRbac grants kind from to (scopesOf from to) section (sectionSetter (Keys to section)) opt = None.
Proof.
  intros [H1 _]%orElse_none Hs Ho. apply (proj1 (firstError_none _ _) H1), orElse_none in Hs as [Hk _].
  by apply (proj1 (firstError_none _ _) Hk).
Qed.

Lemma accepted_gone grants kind f to section opt : configRbacChanges grants kind (Some f) to = None ->
  section ∈ SectionStrings f -> opt ∈ Keys f section ->
  keyGoneRbac grants kind f to section (sectionSetter (Keys f section)) opt = None.
Proof.
  intros [_ H2]%orElse_none Hs Ho. apply (proj1 (firstError_none _ _) H2) in Hs. by apply (proj1 (firstError_none _ _) Hs).
Qed.

(** A rule on no value refuses every value. *)
Lemma Denied_always grants kind section opt r value set : keyoprbac.Lookup kind section opt = Some r ->
  keyoprbac.Denies r = None -> keyoprbac.Values r = [] -> HasGrant grants [keyoprbac.Grant_ r] = false ->
  keyoprbac.Denied grants kind section opt value set = Some (keyoprbac.Reason r).
Proof. unfold keyoprbac.Denied. by intros -> -> -> ->. Qed.

End checks.

End configLogic.

Import rbac api rbacLogic xconfig daemonapi configLogic.

(** C10: A write accepted from a user that holds neither root nor the grant of a keyword
    refused whatever its value, as a trigger, leaves it as it was: the same text, and the same
    value on the local node and the nodes of the object. The exceptions are the size of a
    resource of a volume that stays written {DEFAULT.size}, which follows the size of the
    volume, and the removal of a keyword whose rule says it may be unset. *)
Theorem root_keywords_frozen `{D : Datarecv} `{N : Node} grants p from to section opt r :
  let k := key.New section opt in
  HasGrant grants [GrantRoot] = false ->
  keyoprbac.Lookup (naming.Kind_ p) (key.Section k) (key.Option k) = Some r ->
  keyoprbac.Denies r = None -> keyoprbac.Values r = [] -> HasGrant grants [keyoprbac.Grant_ r] = false ->
  configRbac grants p from to = None ->
  (section ∈ SectionStrings to -> opt ∈ Keys to section ->
     followsObjectSize (naming.Kind_ p) from to k = true \/
     exists f, from = Some f /\ sameOn f to k (hostname :: scopesOf from to)) /\
  (forall f, from = Some f -> section ∈ SectionStrings f -> opt ∈ Keys f section -> keyoprbac.MayUnset r = false ->
     HasKey to k = true).
Proof.
  intros k Hroot Hl Hd Hv Hg [Hc _]%accepted_changes; [|done]. split.
  - intros Hs Ho. pose proof (accepted_key _ _ _ _ _ _ Hc Hs Ho) as Hk. unfold keySetRbac in Hk.
    pose proof (keyChangedOn_spec from to k (scopesOf from to)) as Hch. fold k in Hk.
    destruct (keyChangedOn from to k (scopesOf from to)) as [n|]; [|by right].
    destruct (followsObjectSize _ _ _ _); [by left|exfalso]. apply orElse_none in Hk as [Hk _].
    unfold keyopRbacOn in Hk. cbn [keyop.Key] in Hk. by rewrite (Denied_always _ _ _ _ _ _ _ Hl Hd Hv Hg) in Hk.
  - intros f -> Hs Ho Hu. pose proof (accepted_gone _ _ _ _ _ _ Hc Hs Ho) as Hk. unfold keyGoneRbac in Hk. fold k in Hk.
    destruct (HasKey to k); [done|exfalso]. apply orElse_none in Hk as [Hk _]. unfold keyUnsetRbac, keyoprbac.DeniedUnset in Hk.
    by rewrite Hl, Hu, (Denied_always _ _ _ _ _ _ _ Hl Hd Hv Hg) in Hk.
Qed.

(** C29: On the node that checks it, the value of a keyword after a write accepted from a user
    without root is the one it had, or one the policy lets the writer set, or, of a resource
    of a volume, a size that stays written {DEFAULT.size} and follows the size of the volume.
    *)
Theorem values_allowed_here `{D : Datarecv} `{N : Node} grants p from to section opt :
  let k := key.New section opt in
  HasGrant grants [GrantRoot] = false -> configRbac grants p from to = None ->
  section ∈ SectionStrings to -> opt ∈ Keys to section ->
  (exists f, from = Some f /\ sameOn f to k [hostname]) \/ followsObjectSize (naming.Kind_ p) from to k = true \/
  keyoprbac.Denied grants (naming.Kind_ p) (key.Section k) (key.Option k) (evaluatedOrWrittenAs to k hostname)
    (Some (sectionSetter (Keys to section))) = None.
Proof.
  intros k Hroot [Hc _]%accepted_changes Hs Ho; [|done]. pose proof (accepted_key _ _ _ _ _ _ Hc Hs Ho) as Hk.
  unfold keySetRbac in Hk. fold k in Hk. pose proof (keyChangedOn_spec from to k (scopesOf from to)) as Hch.
  destruct (keyChangedOn from to k (scopesOf from to)) as [n|].
  - destruct Hch as [->|(f & -> & Hsame & _)]; [|left; by exists f].
    destruct (followsObjectSize _ _ _ _); [by right; left|right; right]. apply orElse_none in Hk as [Hk _].
    unfold keyopRbacOn in Hk. cbn [keyop.Key keyop.Value] in Hk. by destruct (keyoprbac.Denied _ _ _ _ _ _).
  - left. destruct Hch as (f & -> & H1 & H2 & H3). exists f. split; [done|]. split; [done|]. split; [done|]. intros n ->%list_elem_of_singleton. apply H3. left.
Qed.

(** C9: On the node that checks it, an accepted write of a user object by a writer without
    root, and with no grant of root on a namespace, gives the user nothing its writer does not
    hold: what the user passes on this node after it, it passed there before or its writer
    passes. Peers may evaluate the grants otherwise (peer_grants_root). *)
Theorem users_escalate_nothing `{D : Datarecv} `{N : Node} grants p from to c :
  HasGrant grants [GrantRoot] = false -> strict grants -> naming.Kind_ p = naming.KindUsr ->
  configRbac grants p from to = None ->
  let granted cfg := GetStrings cfg (key.New "DEFAULT" "grant") in
  passes (granted to) c = true ->
  passes grants c = true \/ exists f, from = Some f /\ passes (granted f) c = true.
Proof.
  intros Hroot Hs Hk [_ Hu]%accepted_changes granted Hp; [|done]. unfold usrRbac in Hu. rewrite Hk in Hu. cbn [negb] in Hu.
  change (String.eqb naming.KindUsr naming.KindUsr) with true in Hu. cbn [negb] in Hu. case_bool_decide as Hl; [done|]. clear Hu.
  apply passes_spec in Hp as (g & Hg & Hp).
  set (held := match from with Some from => granted from | None => [] end) in *.
  destruct (decide (g ∈ held)) as [Hh|Hh].
  - right. unfold held in Hh. destruct from as [f|]; [|set_solver]. exists f. split; [done|]. apply passes_spec. eauto.
  - left. destruct (Covers_gives grants g Hs) as [Hr|Hgive].
    + destruct (Covers grants g) eqn:Hc; [done|exfalso]. apply (not_elem_of_nil g). rewrite <- Hl.
      unfold Uncovered. apply list_elem_of_filter. split; [by rewrite Hc|]. apply list_elem_of_filter. split; [|done].
      apply negb_prop_intro. intros Ho. apply Is_true_true, one_of_spec in Ho. done.
    + apply HasGrant_one in Hr. congruence.
    + by apply Hgive.
Qed.

(** ** Writes *)

Module configExample.

(** A configuration with no reference: the value of a keyword for a node is the one
    of the node, or the one of no node ([descope]). *)
Definition Sections := list (string * list (string * string)).

Definition sectionMap (l : Sections) (section : string) : list (string * string) := default [] (assoc String.eqb section l).

Definition descope (l : Sections) (k : key.T) (impersonate : string) : string :=
  let s := sectionMap l (key.Section k) in
  let o := key.BaseOption k in
  match assoc String.eqb (o ++ "@" ++ impersonate) s with
  | Some v => v
  | None => default "" (assoc String.eqb o s)
  end.

#[local] Instance datarecv : Datarecv := {|
  TextHasLocalSource := fun _ => false; TextHasSpecialMode := fun _ => false; ModeHasSpecialBits := fun _ => false |}.

#[local] Instance none : rootless.Accounts := {| rootless.lookupUser := fun _ => None; rootless.lookupGroup := fun _ => None |}.

#[local] Instance n1 : Node := {|
  hostname := "n1"; lookupNetwork := fun _ => inr None; accounts := none;
  configured := fun ns => Some (rootless.mkAllowed ns [] []) |}.

Definition config (l : Sections) : xconfig.T := {|
  SectionStrings := map fst l;
  Keys := fun section => map fst (sectionMap l section);
  HasKey := fun k => bool_decide (is_Some (assoc String.eqb (key.Option k) (sectionMap l (key.Section k))));
  Get := fun k => default "" (assoc String.eqb (key.Option k) (sectionMap l (key.Section k)));
  EvalAs := fun k n => Some (descope l k n);
  EvalNoConv := fun k => Some (descope l k "n1");
  GetStrings := fun k => text.Fields (descope l k "n1") |}.

Definition sectionMapOf (t : xconfig.T) (section : string) : list (string * string) :=
  map (fun o => (o, Get t (key.New section o))) (Keys t section).

Definition svc : naming.Path := naming.mkPath "svc1" "ns1" naming.KindSvc.
Definition usr : naming.Path := naming.mkPath "bob" "system" naming.KindUsr.

Definition container (image : string) : xconfig.T := config
  [("DEFAULT", [("nodes", "n1 n2")]);
   ("container#0", [("type", "oci"); ("image", image); ("pre_start", "/bin/check")])].

Lemma root_keywords_frozen_witness :
  let k := key.New "container#0" "pre_start" in
  ("container#0" ∈ SectionStrings (container "b") -> "pre_start" ∈ Keys (container "b") "container#0" ->
     followsObjectSize naming.KindSvc (Some (container "a")) (container "b") k = true \/
     exists f, Some (container "a") = Some f /\ sameOn f (container "b") k (hostname :: scopesOf (Some (container "a")) (container "b"))) /\
  (forall f, Some (container "a") = Some f -> "container#0" ∈ SectionStrings f -> "pre_start" ∈ Keys f "container#0" ->
     keyoprbac.MayUnset (keyoprbac.rule GrantRoot keyoprbac.reasonTrigger) = false -> HasKey (container "b") k = true).
Proof.
  apply (root_keywords_frozen ["admin:ns1"] svc (Some (container "a")) (container "b") "container#0" "pre_start"
    (keyoprbac.rule GrantRoot keyoprbac.reasonTrigger)); vm_compute; reflexivity.
Defined.

Lemma values_allowed_here_witness :
  let k := key.New "container#0" "image" in
  (exists f, Some (container "a") = Some f /\ sameOn f (container "b") k [hostname]) \/
  followsObjectSize naming.KindSvc (Some (container "a")) (container "b") k = true \/
  keyoprbac.Denied ["admin:ns1"] naming.KindSvc "container#0" "image" (evaluatedOrWrittenAs (container "b") k hostname)
    (Some (sectionSetter (Keys (container "b") "container#0"))) = None.
Proof.
  apply (values_allowed_here ["admin:ns1"] svc (Some (container "a")) (container "b") "container#0" "image");
    [vm_compute; reflexivity..| |].
  - cbn. right. left.
  - cbn. right. left.
Defined.

Definition bob (grants : string) : xconfig.T := config [("DEFAULT", [("cn", "bob"); ("grant", grants)])].

Lemma users_escalate_nothing_witness :
  passes ["admin:system"; "guest"] (Guest "ns2") = true \/
  exists f, Some (bob "guest:ns1") = Some f /\ passes (GetStrings f (key.New "DEFAULT" "grant")) (Guest "ns2") = true.
Proof.
  apply (users_escalate_nothing ["admin:system"; "guest"] usr (Some (bob "guest:ns1")) (bob "guest:ns1 guest:ns2") (Guest "ns2"));
    [vm_compute; reflexivity| |reflexivity|vm_compute; reflexivity|vm_compute; reflexivity].
  repeat (apply Forall_cons_2; [by vm_compute|]). apply Forall_nil_2.
Defined.

(** A keyword that is new is judged on the node of the check only: a new task whose
    type is a container but on n2 is accepted on n1, and runs its command on n2, which
    the policy refuses the writer.  Added to a task that exists, the same keyword is
    refused. *)
Definition task (peer : list (string * string)) : xconfig.T := config
  [("DEFAULT", [("nodes", "n1 n2")]);
   ("task#1", ([("type", "oci")] ++ peer ++ [("image", "busybox"); ("command", "/bin/sh -c id")])%list)].

Theorem peer_escapes_policy :
  let to := task [("type@n2", "host")] in
  configRbac ["admin:ns1"] svc None to = None /\ configRbac ["admin:ns1"] svc (Some (container "a")) (config
    [("DEFAULT", [("nodes", "n1 n2")]); ("container#0", sectionMapOf (container "a") "container#0");
     ("task#1", sectionMapOf to "task#1")]) = None /\
  is_Some (configRbac ["admin:ns1"] svc (Some (task [])) to) /\ GetStringAs to (key.New "task#1" "type") "n2" = "host" /\
  keyoprbac.Denied ["admin:ns1"] naming.KindSvc "task#1" "type" "host" (Some (sectionSetter (Keys to "task#1"))) =
    Some keyoprbac.reasonRoot.
Proof. vm_compute. split_and!; eauto. Qed.

(** On n2 the same write is refused. *)
Theorem peer_refuses :
  is_Some (configRbac (N := {| hostname := "n2"; lookupNetwork := fun _ => inr None; accounts := none; configured := fun _ => None |})
    ["admin:ns1"] svc None (task [("type@n2", "host")])).
Proof. vm_compute. eauto. Qed.

(** The same for a container that is privileged on n2 alone. *)
Theorem peer_privileged :
  let to := config [("DEFAULT", [("nodes", "n1 n2")]); ("container#0", [("image", "busybox"); ("privileged@n2", "true")])] in
  configRbac ["admin:ns1"] svc None to = None /\
  keyoprbac.isTrue (evaluatedOrWrittenAs to (key.New "container#0" "privileged") "n2") = true.
Proof. vm_compute. by split_and!. Qed.

(** The grants of a user are judged as this node evaluates them: an administrator of
    the namespace of the users makes one root on another node. *)
Theorem peer_grants_root :
  let to := [("DEFAULT", [("cn", "bob"); ("grant", "guest"); ("grant@n2", "root")])] in
  configRbac ["admin:system"] usr (Some (bob "guest")) (config to) = None /\
  descope to (key.New "DEFAULT" "grant") "n2" = "root" /\ Covers ["admin:system"] "root" = false.
Proof. vm_compute. by split_and!. Qed.

End configExample.
