(* ===== verification/Ini.v ===== *)
(** * util/ini: the configuration files

    The reader and the writer of the configuration files.  A document is a list of
    nodes, a section header or a key each, with the bytes it was read from: an element
    nobody changed is written back as it was, the others are encoded in a form that is
    read back first.

    [inidoc] is parse.go, file.go and write.go.  A Go [[]byte] or [string] is the list
    of its bytes; an offset in the document is a natural number.  The parser is what it
    has left to read and its position; an error is a value.  The pointers of the code
    are names: a section is found by its name, a key by the names of its section and of
    itself, a node by what it is. *)

From S2P Require Import Prelude.
From S2P Require Import Instance Key.
From stdpp Require Import pretty.
From Stdlib Require Import Ascii.

Open Scope string_scope.

Module inidoc.

Notation bytes := (list ascii).

Definition lit (s : string) : bytes := String.list_ascii_of_string s.

(** ** Bytes *)

Definition newline : ascii := "010".
Definition dquote : ascii := "034".
Definition backslash : ascii := "\".

Definition oneOf (c : ascii) (l : string) : bool := one_of c (lit l).

(** [bytes.HasPrefix], [strings.Index], [strings.LastIndex], [strings.IndexAny]. *)
Fixpoint HasPrefix (l prefix : bytes) : bool :=
  match prefix, l with
  | [], _ => true
  | c :: prefix, d :: l => Ascii.eqb c d && HasPrefix l prefix
  | _ :: _, [] => false
  end.

Fixpoint Index (l sub : bytes) : option nat :=
  if HasPrefix l sub then Some 0 else match l with [] => None | _ :: l => S <$> Index l sub end.

Fixpoint LastIndex (l sub : bytes) : option nat :=
  match l with
  | [] => if HasPrefix l sub then Some 0 else None
  | _ :: l' =>
      match LastIndex l' sub with
      | Some i => Some (S i)
      | None => if HasPrefix l sub then Some 0 else None
      end
  end.

Fixpoint IndexAny (l chars : bytes) : option nat :=
  match l with [] => None | c :: l => if one_of c chars then Some 0 else S <$> IndexAny l chars end.

(** The runes [unicode.IsSpace] accepts, in UTF-8. *)
Definition isSpace1 (a : ascii) : bool := let n := N_of_ascii a in ((9 <=? n) && (n <=? 13))%N || (n =? 32)%N.
Definition isSpace2 (a b : ascii) : bool := (Ascii.eqb a "194") && (Ascii.eqb b "133" || Ascii.eqb b "160").
Definition isSpace3 (a b c : ascii) : bool :=
  let n := N_of_ascii c in
  if Ascii.eqb a "225" then Ascii.eqb b "154" && Ascii.eqb c "128"
  else if Ascii.eqb a "226" then
    (Ascii.eqb b "128" && (((128 <=? n) && (n <=? 138))%N || (n =? 168)%N || (n =? 169)%N || (n =? 175)%N)) ||
    (Ascii.eqb b "129" && Ascii.eqb c "159")
  else Ascii.eqb a "227" && Ascii.eqb b "128" && Ascii.eqb c "128".

Fixpoint trimLeftSpace (l : bytes) : bytes :=
  match l with
  | a :: l1 =>
      if isSpace1 a then trimLeftSpace l1
      else match l1 with
           | b :: l2 =>
               if isSpace2 a b then trimLeftSpace l2
               else match l2 with
                    | c :: l3 => if isSpace3 a b c then trimLeftSpace l3 else l
                    | [] => l
                    end
           | [] => l
           end
  | [] => []
  end.

(** The same from the end, on a reversed list. *)
Fixpoint trimRevSpace (l : bytes) : bytes :=
  match l with
  | c :: l1 =>
      if isSpace1 c then trimRevSpace l1
      else match l1 with
           | b :: l2 =>
               if isSpace2 b c then trimRevSpace l2
               else match l2 with
                    | a :: l3 => if isSpace3 a b c then trimRevSpace l3 else l
                    | [] => l
                    end
           | [] => l
           end
  | [] => []
  end.

Definition trimRightSpace (l : bytes) : bytes := rev (trimRevSpace (rev l)).
Definition trimRightSpaceLen (l : bytes) : nat := length (trimRightSpace l).
Definition TrimSpace (l : bytes) : bytes := trimRightSpace (trimLeftSpace l).

(** [l[a:b]]. *)
Definition slice (l : bytes) (a b : nat) : bytes := take (b - a) (drop a l).

Definition lastByte (l : bytes) : option ascii := last l.
Definition endsWithLineBreak (l : bytes) : bool := match lastByte l with Some c => Ascii.eqb c newline | None => false end.

(** ** Options and documents *)

Record Options := mkOptions {
  Loose : bool; AllowPythonMultilineValues : bool; SpaceBeforeInlineComment : bool; IgnoreInlineComment : bool; IgnoreContinuation : bool;
  KeyValueDelimiters : bytes; ChildSectionDelimiter : bytes; DefaultSectionName : bytes }.

Record Format := mkFormat {
  KeyValueDelimiter : bytes; LineBreak : bytes; DefaultHeader : bool; BlankLineBeforeSection : bool }.

(** The values an option or a format is given when it has none. *)
Definition withDefaults (o : Options) : Options :=
  mkOptions (Loose o) (AllowPythonMultilineValues o) (SpaceBeforeInlineComment o) (IgnoreInlineComment o)
    (IgnoreContinuation o)
    (if bool_decide (KeyValueDelimiters o = []) then lit "=:" else KeyValueDelimiters o)
    (if bool_decide (ChildSectionDelimiter o = []) then lit "." else ChildSectionDelimiter o)
    (if bool_decide (DefaultSectionName o = []) then lit "DEFAULT" else DefaultSectionName o).

Definition Format_withDefaults (f : Format) : Format :=
  mkFormat
    (if bool_decide (KeyValueDelimiter f = []) then lit " = " else KeyValueDelimiter f)
    (if bool_decide (LineBreak f = []) then [newline] else LineBreak f)
    (DefaultHeader f) (BlankLineBeforeSection f).

(** [autoIncrement]: the key was written "-". *)
Record Key := mkKey { name : bytes; value : bytes; autoIncrement : bool }.

Record Section := mkSection { sectionName : bytes; keys : list Key }.

Inductive Ref := SectionRef (s : bytes) | KeyRef (s k : bytes).

#[global] Instance Ref_eq : EqDecision Ref.
Proof. solve_decision. Defined.

Record node := mkNode {
  trivia : bytes; body : option bytes; ref : Ref; valueStart : nat; valueEnd : nat; valueSpan : bool }.

(** What a document is read from: a path, or its bytes. *)
Inductive source := Path (path : bytes) | Data (data : bytes).

Record File := mkFile {
  Format_ : Format; opts : Options; bom : bytes; nodes : list node; sections : list Section; sources : list source;
  epilogue : bytes }.

#[global] Instance eta_Section : Eta Section := fun r => mkSection (sectionName r) (keys r).
#[global] Instance upd_keys : Upd keys. Proof. derive_upd eta_Section. Defined.
#[global] Instance eta_Key : Eta Key := fun r => mkKey (name r) (value r) (autoIncrement r).
#[global] Instance upd_value : Upd value. Proof. derive_upd eta_Key. Defined.
#[global] Instance eta_File : Eta File := fun r =>
  mkFile (Format_ r) (opts r) (bom r) (nodes r) (sections r) (sources r) (epilogue r).
#[global] Instance eta_node : Eta node := fun r =>
  mkNode (trivia r) (body r) (ref r) (valueStart r) (valueEnd r) (valueSpan r).
#[global] Instance upd_body : Upd body. Proof. derive_upd eta_node. Defined.
#[global] Instance upd_valueSpan : Upd valueSpan. Proof. derive_upd eta_node. Defined.
#[global] Instance upd_bom : Upd bom. Proof. derive_upd eta_File. Defined.
#[global] Instance upd_nodes : Upd nodes. Proof. derive_upd eta_File. Defined.
#[global] Instance upd_sections : Upd sections. Proof. derive_upd eta_File. Defined.
#[global] Instance upd_epilogue : Upd epilogue. Proof. derive_upd eta_File. Defined.

Inductive error :=
| UTF16 | UnclosedHeader (line : nat) | EmptySectionName (line : nat) | EmptyKeyName (line : nat)
| MissingKeyQuote (line : nat) | NoDelimiter (line : nat) | MissingQuote (line : nat)
| NoQuoting (s k : bytes) | UTF16Document | ReadError (path : bytes) | NoSection | EmptyName.

Definition bomUTF8 : bytes := ["239"; "187"; "191"]%char.
Definition bomUTF16BE : bytes := ["254"; "255"]%char.
Definition bomUTF16LE : bytes := ["255"; "254"]%char.

(** ** The parser *)

Record parser := mkParser { rest : bytes; pos : nat }.

Definition eof (p : parser) : bool := match rest p with [] => true | _ => false end.

Fixpoint line (l : bytes) : bytes * bytes :=
  match l with
  | [] => ([], [])
  | c :: l => if Ascii.eqb c newline then ([c], l) else let '(a, r) := line l in (c :: a, r)
  end.

Definition readLine (p : parser) : bytes * parser :=
  let '(l, r) := line (rest p) in (l, mkParser r (pos p + length l)).

(** [data[p.pos:q.pos]], [q] being further in the document than [p]. *)
Definition between (p q : parser) : bytes := take (length (rest p) - length (rest q)) (rest p).

Definition isContinuationIndent (c : ascii) : bool := Ascii.eqb c " " || Ascii.eqb c "009" || Ascii.eqb c "012".

Definition startsIndented (l : bytes) : bool := match l with c :: _ => isContinuationIndent c | [] => false end.

Definition lineNumber (data : bytes) (offset : nat) : nat :=
  1 + length (filter (fun c => c = newline) (take offset data)).

(** The name and the offset of the value in the line. *)
Definition readKeyName (delimiters l : bytes) : (nat -> error) + bytes * nat :=
  let quote :=
    match l with
    | c :: _ =>
        if Ascii.eqb c dquote then
          if (6 <? length l)%nat && HasPrefix l [dquote; dquote; dquote] then [dquote; dquote; dquote] else [dquote]
        else if Ascii.eqb c "`" then ["`"%char] else []
    | [] => []
    end in
  let startIdx := length quote in
  if bool_decide (quote <> []) then
    match Index (drop startIdx l) quote with
    | None => inl MissingKeyQuote
    | Some i =>
        let at_ := i + startIdx in
        match IndexAny (drop (at_ + startIdx) l) delimiters with
        | None => inl NoDelimiter
        | Some i => inr (TrimSpace (slice l startIdx at_), at_ + i + startIdx + 1)
        end
    end
  else
    match IndexAny l delimiters with
    | None => inl NoDelimiter
    | Some 0 => inl EmptyKeyName
    | Some endIdx => inr (TrimSpace (take endIdx l), endIdx + 1)
    end.

Definition hasSurroundedQuote (l : bytes) (quote : ascii) : bool := ini.hasSurroundedQuote (String.string_of_list_ascii l) quote.

(** A value, where it is in the document, and whether that can be substituted. *)
Record Value := mkValue { text : bytes; from : nat; upto : nat; span : bool }.

(** The loops read a line at each round: the bytes left are enough rounds. *)
Fixpoint readContinuedValue (fuel : nat) (val : bytes) (valueStart valueEnd : nat) (p : parser) : Value * parser :=
  match fuel with
  | O => (mkValue val valueStart valueEnd true, p)
  | S fuel =>
      if eof p then (mkValue val valueStart valueEnd true, p)
      else
        let '(l, q) := readLine p in
        if negb (startsIndented l) then (mkValue val valueStart valueEnd true, p)
        else
          let content := if endsWithLineBreak l then removelast l else l in
          readContinuedValue fuel (val ++ newline :: content)%list valueStart (pos p + length content) q
  end.

Fixpoint readQuotedLines (fuel : nat) (val quote : bytes) (valueStart : nat) (p : parser) : option (Value * parser) :=
  match fuel with
  | O => None
  | S fuel =>
      if eof p then None
      else
        let '(next, q) := readLine p in
        match LastIndex next quote with
        | Some i => Some (mkValue (val ++ take i next)%list valueStart (pos p + i) true, q)
        | None => readQuotedLines fuel (val ++ next)%list quote valueStart q
        end
  end.

Definition readQuotedMultilines (l quote : bytes) (valueStart : nat) (p : parser) : option (Value * parser) :=
  readQuotedLines (S (length (rest p))) (drop (length quote) l) quote valueStart p.

Fixpoint readContinuationLines (fuel : nat) (val : bytes) (p : parser) : bytes * parser :=
  match fuel with
  | O => (val, p)
  | S fuel =>
      if eof p then (val, p)
      else
        let '(l, q) := readLine p in
        let next := TrimSpace l in
        if bool_decide (next = []) then (val, q)
        else
          let val := (val ++ next)%list in
          if bool_decide (lastByte val = Some backslash) then readContinuationLines fuel (removelast val) q else (val, q)
  end.

(** Where an inline comment starts in a value. *)
Definition commentIndex (o : Options) (seg : bytes) : option nat :=
  if SpaceBeforeInlineComment o then
    match Index seg (lit " #") with Some i => Some i | None => Index seg (lit " ;") end
  else IndexAny seg (lit "#;").

(** The end of the value in its line. *)
Definition valueLen (o : Options) (l : bytes) (hi : nat) : nat :=
  if IgnoreInlineComment o then hi
  else match commentIndex o (take hi l) with Some i => trimRightSpaceLen (take i l) | None => hi end.

(** The spaces and the tabs that head a line. *)
Fixpoint blanks (l : bytes) : nat :=
  match l with c :: l => if Ascii.eqb c " " || Ascii.eqb c "009" then S (blanks l) else 0 | [] => 0 end.

(** [None]: a quote is missing. *)
Definition readValue (o : Options) (base : nat) (l : bytes) (p : parser) : option (Value * parser) :=
  let trimmed := trimLeftSpace l in
  let start := base + length l - length trimmed in
  let fuel := length (rest p) in
  match trimmed with
  | [] =>
      let anchor := blanks l in
      let start := base + anchor in
      if AllowPythonMultilineValues o && endsWithLineBreak l then Some (readContinuedValue fuel [] start start p)
      else Some (mkValue [] start start true, p)
  | c :: _ =>
      let quote :=
        if (3 <? length trimmed)%nat && HasPrefix trimmed [dquote; dquote; dquote] then [dquote; dquote; dquote]
        else if Ascii.eqb c "`" then ["`"%char] else [] in
      if bool_decide (quote <> []) then
        let startIdx := length quote in
        match LastIndex (drop startIdx trimmed) quote with
        | None => readQuotedMultilines trimmed quote (start + startIdx) p
        | Some i =>
            Some (mkValue (slice trimmed startIdx (i + startIdx)) (start + startIdx) (start + startIdx + i) true, p)
        end
      else
        let hi := trimRightSpaceLen trimmed in
        if negb (IgnoreContinuation o) && bool_decide (lastByte (take hi trimmed) = Some backslash) then
          let '(val, q) := readContinuationLines fuel (take (hi - 1) trimmed) p in
          Some (mkValue val start (pos q) false, q)
        else
          let hi := valueLen o trimmed hi in
          let seg := take hi trimmed in
          if hasSurroundedQuote seg "'" || hasSurroundedQuote seg dquote then
            Some (mkValue (slice seg 1 (hi - 1)) (start + 1) (start + hi - 1) true, p)
          else if AllowPythonMultilineValues o && endsWithLineBreak trimmed then
            Some (readContinuedValue fuel seg start (start + hi) p)
          else Some (mkValue seg start (start + hi) true, p)
  end.

(** ** The document *)

Definition newFile (o : Options) : File :=
  mkFile (Format_withDefaults (mkFormat [] [] true true)) (withDefaults o) [] [] [] [] [].

(** [f.index[name]], [s.index[name]]. *)
Definition section (f : File) (s : bytes) : option Section := find (fun sec => bool_decide (sectionName sec = s)) (sections f).
Definition keyOf (s : Section) (k : bytes) : option Key := find (fun key => bool_decide (name key = k)) (keys s).

Definition HasSection (f : File) (s : bytes) : bool := bool_decide (is_Some (section f s)).
Definition SectionStrings (f : File) : list bytes := sectionName <$> sections f.
Definition KeysHash (s : Section) : list (bytes * bytes) := (fun k => (name k, value k)) <$> keys s.

Definition onSection (s : bytes) (g : Section -> Section) (f : File) : File :=
  f <| sections ::= fmap (fun sec => if bool_decide (sectionName sec = s) then g sec else sec) |>.

Definition onKey (s k : bytes) (g : Key -> Key) (f : File) : File :=
  onSection s (fun sec => sec <| keys ::= fmap (fun key => if bool_decide (name key = k) then g key else key) |>) f.

Definition onNode (r : Ref) (g : node -> node) (f : File) : File :=
  f <| nodes ::= fmap (fun n => if bool_decide (ref n = r) then g n else n) |>.

Definition forceSection (s : bytes) (f : File) : File :=
  match section f s with Some _ => f | None => f <| sections ::= fun l => (l ++ [mkSection s []])%list |> end.

Definition appendNode (n : node) (f : File) : File := f <| nodes ::= fun l => (l ++ [n])%list |>.

Definition sectionOf (n : node) : bytes := match ref n with SectionRef s => s | KeyRef s _ => s end.

(** After the last node of the section, at the head when it has none. *)
Fixpoint insertAfter (s : bytes) (n : node) (l : list node) : option (list node) :=
  match l with
  | [] => None
  | cur :: l =>
      match insertAfter s n l with
      | Some l => Some (cur :: l)
      | None => if bool_decide (sectionOf cur = s) then Some (cur :: n :: l) else None
      end
  end.

Definition insertNodeAfterSection (s : bytes) (n : node) (f : File) : File :=
  f <| nodes ::= fun l => match insertAfter s n l with Some l => l | None => n :: l end |>.

Definition removeNode (r : Ref) (f : File) : File := f <| nodes ::= filter (fun n => ref n <> r) |>.

(** ** The parsing loop *)

Record loop := mkLoop { reader : parser; triviaAt : parser; current : bytes; autoIncrementAt : nat; file : File }.

Definition itoa (n : nat) : bytes := lit (pretty n).

(** A key line, its value read: [q] is where the line starts, [r] the first byte after the value. *)
Definition addKey (lp : loop) (k : bytes) (auto : bool) (v : Value) (q r : parser) : loop :=
  let s := current lp in
  let f := file lp in
  let next := if auto then S (autoIncrementAt lp) else autoIncrementAt lp in
  let n := mkNode (between (triviaAt lp) q) (Some (between q r)) (KeyRef s k)
             (from v - pos q) (upto v - pos q) (span v) in
  match section f s ≫= fun sec => keyOf sec k with
  | Some _ =>
      mkLoop r r s next
        (onNode (KeyRef s k) (fun old => mkNode (trivia old) (body n) (ref old) (valueStart n) (valueEnd n) (valueSpan n))
          (onKey s k (fun key => key <| value := text v |>) f))
  | None =>
      mkLoop r r s next
        (appendNode n (onSection s (fun sec => sec <| keys ::= fun l => (l ++ [mkKey k (text v) auto])%list |>) f))
  end.

(** A round of the loop. *)
Definition parseLine (data : bytes) (lp : loop) : error + loop :=
  let f := file lp in
  let p := reader lp in
  let '(l, q) := readLine p in
  let trimmed := trimLeftSpace l in
  let indent := length l - length trimmed in
  let here := lineNumber data (pos p) in
  match trimmed with
  | [] => inr (mkLoop q (triviaAt lp) (current lp) (autoIncrementAt lp) f)
  | c :: _ =>
      if oneOf c "#;" then inr (mkLoop q (triviaAt lp) (current lp) (autoIncrementAt lp) f)
      else if Ascii.eqb c "[" then
        match LastIndex trimmed (lit "]") with
        | None => inl (UnclosedHeader here)
        | Some closeIdx =>
            let s := slice trimmed 1 closeIdx in
            if bool_decide (s = []) then inl (EmptySectionName here)
            else
              let n := mkNode (between (triviaAt lp) p) (Some (between p q)) (SectionRef s) 0 0 false in
              inr (mkLoop q q s 1 (appendNode n (forceSection s f)))
        end
      else
        match readKeyName (KeyValueDelimiters (opts f)) trimmed with
        | inl err => inl (err here)
        | inr (k, off) =>
            if bool_decide (k = []) then inl (EmptyKeyName here)
            else
              let auto := bool_decide (k = lit "-") in
              let k := if auto then ("#"%char :: itoa (autoIncrementAt lp))%list else k in
              match readValue (opts f) (pos p + indent + off) (drop off trimmed) q with
              | None => inl (MissingQuote here)
              | Some (v, r) => inr (addKey lp k auto v p r)
              end
        end
  end.

(** A round reads a line at least: the bytes of the document are enough rounds. *)
Fixpoint parseLoop (fuel : nat) (data : bytes) (lp : loop) : error + loop :=
  match fuel with
  | O => inr lp
  | S fuel =>
      if eof (reader lp) then inr lp
      else match parseLine data lp with inl e => inl e | inr lp => parseLoop fuel data lp end
  end.

Definition parse (data : bytes) (f : File) : error + File :=
  let start (p : parser) (f : File) :=
    let s := DefaultSectionName (opts f) in
    match parseLoop (length data) data (mkLoop p p s 1 (forceSection s f)) with
    | inl e => inl e
    | inr lp => inr ((file lp) <| epilogue := rest (triviaAt lp) |>)
    end in
  if HasPrefix data bomUTF8 then start (mkParser (drop 3 data) 3) (f <| bom := bomUTF8 |>)
  else if HasPrefix data bomUTF16BE || HasPrefix data bomUTF16LE then inl UTF16
  else start (mkParser data 0) f.

(** What reading a file gives. *)
Inductive content := Content (data : bytes) | NotExist | Unreadable.

Section loading.

Variable ReadFile : bytes -> content.

Fixpoint loadSources (l : list source) (f : File) : error + File :=
  match l with
  | [] => inr f
  | Data data :: l => match parse data f with inl e => inl e | inr f => loadSources l f end
  | Path path :: l =>
      match ReadFile path with
      | Content data => match parse data f with inl e => inl e | inr f => loadSources l f end
      | NotExist => if Loose (opts f) then loadSources l f else inl (ReadError path)
      | Unreadable => inl (ReadError path)
      end
  end.

Definition load (f : File) : error + File :=
  loadSources (sources f)
    (forceSection (DefaultSectionName (opts f))
      (mkFile (Format_ f) (opts f) [] [] [] (sources f) [])).

Definition Load (o : Options) (l : list source) : error + File :=
  let f := newFile o in
  load (mkFile (Format_ f) (opts f) (bom f) (nodes f) (sections f) l (epilogue f)).

Definition Reload (f : File) : error + File := load f.

End loading.

(** A document given by its bytes needs no file. *)
Definition LoadBytes (o : Options) (data : bytes) : error + File := Load (fun _ => NotExist) o [Data data].

(** ** Sections and keys *)

Definition MaterializeDefaultSection (f : File) : File :=
  let s := DefaultSectionName (opts f) in
  let f := forceSection s f in
  if existsb (fun n => bool_decide (ref n = SectionRef s)) (nodes f) then f
  else f <| nodes ::= cons (mkNode [] None (SectionRef s) 0 0 false) |>.

Definition Empty (o : Options) : File := MaterializeDefaultSection (newFile o).

Definition NewSection (s : bytes) (f : File) : error + File :=
  if bool_decide (s = []) then inl EmptyName
  else match section f s with
       | Some _ => inr f
       | None => inr (appendNode (mkNode [] None (SectionRef s) 0 0 false) (forceSection s f))
       end.

Definition DeleteSection (s : bytes) (f : File) : File :=
  match section f s with
  | None => f
  | Some _ =>
      f <| nodes ::= filter (fun n => sectionOf n <> s) |>
        <| sections ::= filter (fun sec => sectionName sec <> s) |>
  end.

(** The key of the section, or of the nearest of its parents that has it, with the name of
    the section that has it.  A parent is named by what precedes the last delimiter. *)
Fixpoint getKey (fuel : nat) (f : File) (s k : bytes) : option (bytes * Key) :=
  match fuel with
  | O => None
  | S fuel =>
      match section f s ≫= fun sec => keyOf sec k with
      | Some key => Some (s, key)
      | None =>
          match LastIndex s (ChildSectionDelimiter (opts f)) with
          | None => None
          | Some i => getKey fuel f (take i s) k
          end
      end
  end.

(** A round drops a byte of the name at least. *)
Definition GetKey (f : File) (s k : bytes) : option (bytes * Key) := getKey (S (length s)) f s k.

Definition HasKey (f : File) (s k : bytes) : bool := bool_decide (is_Some (GetKey f s k)).

Definition SetValue (s k v : bytes) (f : File) : File :=
  onNode (KeyRef s k) (fun n => n <| body := None |> <| valueSpan := false |>)
    (onKey s k (fun key => key <| value := v |>) f).

Definition NewKey (s k v : bytes) (f : File) : error + File :=
  if bool_decide (k = []) then inl EmptyName
  else match section f s with
       | None => inl NoSection
       | Some sec =>
           match keyOf sec k with
           | Some _ => inr (SetValue s k v f)
           | None =>
               inr (insertNodeAfterSection s (mkNode [] None (KeyRef s k) 0 0 false)
                     (onSection s (fun sec => sec <| keys ::= fun l => (l ++ [mkKey k v false])%list |>) f))
           end
       end.

Definition DeleteKey (s k : bytes) (f : File) : File :=
  match section f s ≫= fun sec => keyOf sec k with
  | None => f
  | Some _ =>
      removeNode (KeyRef s k) (onSection s (fun sec => sec <| keys ::= filter (fun key => name key <> k) |>) f)
  end.

(** ** Encoding *)

Definition probeLimit : nat := 4096.

(** The complete lines of a part that a value would be continued by, after [out]: [inl] when
    nothing more is to be read. *)
Fixpoint leadingPart (fuel : nat) (out part : bytes) : bytes + bytes :=
  match fuel, part with
  | O, _ | _, [] => inr out
  | S fuel, c :: _ =>
      if negb (isContinuationIndent c) then inl out
      else
        let '(l, rest) := line part in
        let out := (out ++ l)%list in
        if (probeLimit <? length out)%nat then inl (take probeLimit out) else leadingPart fuel out rest
  end.

Fixpoint leadingParts (out : bytes) (parts : list bytes) : bytes :=
  match parts with
  | [] => out
  | part :: parts =>
      match leadingPart (length part) out part with inl out => out | inr out => leadingParts out parts end
  end.

Definition leadingContinuationLines (parts : list bytes) : bytes := leadingParts [] parts.

Definition probeSectionName : bytes := "000"%char :: lit "ini-probe".

Definition parsesToKey (o : Options) (body probe k v : bytes) : bool :=
  let doc := ("["%char :: probeSectionName ++ ["]"%char; newline] ++ body ++ probe)%list in
  match LoadBytes o doc with
  | inl _ => false
  | inr f =>
      match section f probeSectionName with
      | None => false
      | Some _ =>
          match GetKey f probeSectionName k with Some (_, key) => bool_decide (value key = v) | None => false end
      end
  end.

Definition Contains (l sub : bytes) : bool := bool_decide (is_Some (Index l sub)).

Definition triple : bytes := [dquote; dquote; dquote].

Definition quoteCandidates (s : bytes) : list bytes :=
  ([s] ++
   (if Contains s [dquote] then [] else [[dquote] ++ s ++ [dquote]]) ++
   (if Contains s (lit "`") then [] else [lit "`" ++ s ++ lit "`"]) ++
   (if Contains s triple then [] else [triple ++ s ++ triple]))%list.

Definition keyLines (fm : Format) (names values : list bytes) : list bytes :=
  flat_map (fun n => map (fun v => n ++ KeyValueDelimiter fm ++ v ++ LineBreak fm)%list values) names.

Definition encodeKeyLine (o : Options) (fm : Format) (k : Key) (probe : bytes) : option bytes :=
  let '(n, names) := if autoIncrement k then (lit "#1", [lit "-"]) else (name k, quoteCandidates (name k)) in
  find (fun body => parsesToKey o body probe n (value k)) (keyLines fm names (quoteCandidates (value k))).

Definition keepsMeaning (f : File) (body probe : bytes) (key : Key) : bool :=
  bool_decide (probe = []) || parsesToKey (opts f) body probe (name key) (value key).

(** The body of a node, when it can be written as it was read. *)
Definition written (n : node) (lastWritten : bool) : option bytes :=
  match body n with
  | Some b => if endsWithLineBreak b || lastWritten then Some b else None
  | None => None
  end.

Definition renderNode (f : File) (n : node) (lastWritten : bool) (probe : bytes) : error + bytes :=
  match ref n with
  | SectionRef s =>
      match written n lastWritten with
      | Some b => inr b
      | None =>
          if bool_decide (s = DefaultSectionName (opts f)) && negb (DefaultHeader (Format_ f)) then inr []
          else inr ("["%char :: s ++ "]"%char :: LineBreak (Format_ f))%list
      end
  | KeyRef s k =>
      match section f s ≫= fun sec => keyOf sec k with
      | None => inr []
      | Some key =>
          let encoded :=
            match encodeKeyLine (opts f) (Format_ f) key probe with Some b => inr b | None => inl (NoQuoting s k) end in
          match written n lastWritten with
          | Some b => if keepsMeaning f b probe key then inr b else encoded
          | None => encoded
          end
      end
  end.

(** The bodies of the nodes, from the last, and what they start with that a value would be
    continued by. *)
Fixpoint renderNodes (f : File) (l : list node) : error + list bytes * bytes :=
  match l with
  | [] => inr ([], leadingContinuationLines [epilogue f])
  | n :: l =>
      match renderNodes f l with
      | inl e => inl e
      | inr (bodies, probe) =>
          match renderNode f n (bool_decide (l = []) && bool_decide (epilogue f = [])) probe with
          | inl e => inl e
          | inr b => inr (b :: bodies, leadingContinuationLines [trivia n; b; probe])
          end
      end
  end.

Definition endsWithBlankLine (l : bytes) : bool :=
  endsWithLineBreak l &&
  (let l := removelast l in
   let l := match LastIndex l [newline] with Some i => drop (i + 1) l | None => l end in
   bool_decide (TrimSpace l = [])).

Definition separatesSection (f : File) (n : node) (b written : bytes) : bool :=
  BlankLineBeforeSection (Format_ f) &&
  (match ref n with SectionRef _ => true | KeyRef _ _ => false end) && bool_decide (body n = None) &&
  bool_decide (b <> []) && bool_decide (written <> []) && negb (endsWithBlankLine written).

Fixpoint writeNodes (f : File) (written : bytes) (l : list node) (bodies : list bytes) : bytes :=
  match l, bodies with
  | n :: l, b :: bodies =>
      let sep := if separatesSection f n b written then LineBreak (Format_ f) else [] in
      writeNodes f (written ++ sep ++ trivia n ++ b)%list l bodies
  | _, _ => written
  end.

Definition Bytes (f : File) : error + bytes :=
  match renderNodes f (nodes f) with
  | inl e => inl e
  | inr (bodies, _) =>
      let out := (bom f ++ writeNodes f [] (nodes f) bodies ++ epilogue f)%list in
      if HasPrefix out bomUTF16BE || HasPrefix out bomUTF16LE then inl UTF16Document else inr out
  end.

(** [String]: nothing when the document can not be encoded. *)
Definition String_ (f : File) : bytes := match Bytes f with inl _ => [] | inr out => out end.

Definition nodeOf (r : Ref) (f : File) : option node := find (fun n => bool_decide (ref n = r)) (nodes f).

(** The value is put where it was read, when that is read as the key with the value: whether
    the formatting is kept. *)
Definition SetValueKeepFormat (s k v : bytes) (f : File) : bool * File :=
  match nodeOf (KeyRef s k) f with
  | None => (false, f)
  | Some n =>
      match body n with
      | Some b =>
          let b' := (take (valueStart n) b ++ v ++ drop (valueEnd n) b)%list in
          if valueSpan n && parsesToKey (opts f) b' [] k v then
            (true, onNode (KeyRef s k) (fun n =>
                     mkNode (trivia n) (Some b') (ref n) (valueStart n) (valueStart n + length v) (valueSpan n))
                     (onKey s k (fun key => key <| value := v |>) f))
          else (false, SetValue s k v f)
      | None => (false, SetValue s k v f)
      end
  end.

End inidoc.
