(* ===== verification/IniBytes.v ===== *)
(** * util/ini: what is read at a place

    The logic of [Ini]: the bytes and their lines, what a line is read as whatever its
    position, and what of the following lines that depends on. *)

From S2P Require Import Prelude.
From S2P Require Import Ini.
From Stdlib Require Import Ascii.

Open Scope string_scope.

Module iniread.

Import inidoc.

(** ** Lines *)

Lemma line_split l : let '(a, r) := line l in l = (a ++ r)%list.
Proof. induction l as [|c l IH]; [done|]. simpl. destruct (Ascii.eqb c newline); [done|]. destruct (line l). simpl. by rewrite <- IH. Qed.

Lemma line_nl a r : newline ∉ a -> line (a ++ newline :: r)%list = ((a ++ [newline])%list, r).
Proof.
  induction a as [|c a IH]; intros Ha; simpl; [done|].
  apply not_elem_of_cons in Ha as [Hc Ha]. destruct (Ascii.eqb_spec c newline) as [->|]; [done|].
  by rewrite IH.
Qed.

Lemma line_end a : newline ∉ a -> line a = (a, []).
Proof.
  induction a as [|c a IH]; intros Ha; simpl; [done|].
  apply not_elem_of_cons in Ha as [Hc Ha]. destruct (Ascii.eqb_spec c newline) as [->|]; [done|].
  by rewrite IH.
Qed.

(** A text is its last line, or a line and a text. *)
Lemma line_cases l : (newline ∉ l) \/ exists a r, l = (a ++ newline :: r)%list /\ newline ∉ a.
Proof.
  induction l as [|c l IH]; [left; apply not_elem_of_nil|].
  destruct (decide (c = newline)) as [->|Hc].
  - right. exists [], l. split; [done|apply not_elem_of_nil].
  - destruct IH as [IH|(a & r & -> & Ha)].
    + left. apply not_elem_of_cons. done.
    + right. exists (c :: a), r. split; [done|]. apply not_elem_of_cons. done.
Qed.

Fixpoint splitLines (l : bytes) : list bytes :=
  match l with
  | [] => [[]]
  | c :: l =>
      if Ascii.eqb c newline then [] :: splitLines l
      else match splitLines l with a :: ls => (c :: a) :: ls | [] => [[c]] end
  end.

Lemma splitLines_end a : newline ∉ a -> splitLines a = [a].
Proof.
  induction a as [|c a IH]; intros Ha; simpl; [done|].
  apply not_elem_of_cons in Ha as [Hc Ha]. destruct (Ascii.eqb_spec c newline) as [->|]; [done|]. by rewrite IH.
Qed.

Lemma splitLines_nl a r : newline ∉ a -> splitLines (a ++ newline :: r)%list = a :: splitLines r.
Proof.
  induction a as [|c a IH]; intros Ha; simpl; [done|].
  apply not_elem_of_cons in Ha as [Hc Ha]. destruct (Ascii.eqb_spec c newline) as [->|]; [done|]. by rewrite IH.
Qed.


(** Induction on the lines. *)
Lemma text_ind (P : list ascii -> Prop) :
  (forall a, newline ∉ a -> P a) -> (forall a r, newline ∉ a -> P r -> P (a ++ newline :: r)%list) -> forall l : list ascii, P l.
Proof.
  intros H1 H2 l. remember (length l) as n eqn:E. revert l E.
  induction n as [n IH] using Wf_nat.lt_wf_ind. intros l ->.
  destruct (line_cases l) as [Ha|(a & r & -> & Ha)]; [by apply H1|].
  apply H2; [done|]. eapply IH; [|done]. rewrite length_app. simpl. lia.
Qed.

Lemma splitLines_nl_app a b : splitLines (a ++ newline :: b)%list = (splitLines a ++ splitLines b)%list.
Proof.
  induction a as [a Ha|a r Ha IH] using text_ind.
  - by rewrite splitLines_nl, (splitLines_end a).
  - rewrite <- app_assoc. simpl. rewrite (splitLines_nl a (r ++ _)), IH, splitLines_nl by done. done.
Qed.

Lemma splitLines_pre c a ls x : newline ∉ c -> splitLines a = x :: ls -> splitLines (c ++ a)%list = (c ++ x)%list :: ls.
Proof.
  intros Hc E. induction c as [|d c IH]; [done|]. simpl.
  apply not_elem_of_cons in Hc as [Hd Hc]. destruct (Ascii.eqb_spec d newline) as [->|]; [done|]. by rewrite IH.
Qed.

Lemma splitLines_cons l : exists x ls, splitLines l = x :: ls /\ newline ∉ x.
Proof.
  destruct (line_cases l) as [Ha|(a & r & -> & Ha)].
  - exists l, []. by rewrite splitLines_end.
  - exists a, (splitLines r). by rewrite splitLines_nl.
Qed.

Lemma splitLines_no_nl l x : x ∈ splitLines l -> newline ∉ x.
Proof.
  induction l as [a Ha|a r Ha IH] using text_ind.
  - rewrite splitLines_end by done. intros ->%list_elem_of_singleton. done.
  - rewrite splitLines_nl by done. intros [->|H]%elem_of_cons; [done|by apply IH].
Qed.

(** A text after its first lines. *)
Fixpoint dropLines (n : nat) (l : bytes) : bytes := match n with O => l | S n => dropLines n (line l).2 end.

Lemma dropLines_nl n a r : newline ∉ a -> dropLines (S n) (a ++ newline :: r)%list = dropLines n r.
Proof. intros Ha. simpl. by rewrite line_nl. Qed.

Lemma dropLines_nil n : dropLines n [] = [].
Proof. by induction n. Qed.

Lemma dropLines_add n m l : dropLines (n + m) l = dropLines m (dropLines n l).
Proof. revert l. induction n; intros l; simpl; [done|]. apply IHn. Qed.

Lemma splitLines_drop n l : dropLines n l <> [] -> splitLines (dropLines n l) = drop n (splitLines l).
Proof.
  revert l. induction n as [|n IH]; intros l Hn; [done|].
  destruct (line_cases l) as [Ha|(a & r & -> & Ha)].
  - simpl in Hn. rewrite line_end in Hn by done. simpl in Hn. by rewrite dropLines_nil in Hn.
  - rewrite dropLines_nl in Hn |- * by done. rewrite splitLines_nl by done. by apply IH.
Qed.

(** The lines of a text that ends with a line break, then what follows. *)
Lemma dropLines_app l r : dropLines (length (splitLines l)) (l ++ newline :: r)%list = r.
Proof.
  induction l as [a Ha|a l Ha IH] using text_ind.
  - rewrite splitLines_end by done. simpl length. by rewrite dropLines_nl.
  - rewrite splitLines_nl by done. simpl length. rewrite <- app_assoc. simpl app. by rewrite dropLines_nl.
Qed.

(** ** Occurrences *)

Definition occurs (sub l : bytes) : Prop := exists a b, l = (a ++ sub ++ b)%list.

Lemma HasPrefix_spec l p : HasPrefix l p = true <-> exists r, l = (p ++ r)%list.
Proof.
  revert l. induction p as [|c p IH]; intros l.
  { split; [by exists l|]. by destruct l. }
  destruct l as [|d l]; simpl.
  { split; [done|]. intros [r Hr]. done. }
  rewrite andb_true_iff, IH, Ascii.eqb_eq. split.
  - intros [-> [r ->]]. by exists r.
  - intros [r [= -> ->]]. split; [done|by exists r].
Qed.

Lemma LastIndex_none l sub : LastIndex l sub = None -> ~ occurs sub l.
Proof.
  induction l as [|c l IH]; cbn [LastIndex Index].
  - destruct (HasPrefix [] sub) eqn:E; [done|]. intros _ (a & b & H).
    destruct a; [|done]. assert (HasPrefix [] sub = true) as Hp; [|congruence]. apply HasPrefix_spec. by exists b.
  - destruct (LastIndex l sub) eqn:E; [done|]. destruct (HasPrefix (c :: l) sub) eqn:Ep; [done|].
    intros _ (a & b & H). destruct a as [|x a].
    + assert (HasPrefix (c :: l) sub = true); [|congruence]. apply HasPrefix_spec. by exists b.
    + injection H as -> ->. apply IH; [done|]. by exists a, b.
Qed.

Lemma LastIndex_not_occurs l sub : ~ occurs sub l -> LastIndex l sub = None.
Proof.
  induction l as [|c l IH]; cbn [LastIndex]; intros H.
  - destruct (HasPrefix [] sub) eqn:E; [|done]. apply HasPrefix_spec in E as [r E]. destruct H. by exists [], r.
  - rewrite IH by (intros (a & b & ->); apply H; by exists (c :: a), b).
    destruct (HasPrefix (c :: l) sub) eqn:E; [|done]. apply HasPrefix_spec in E as [r E]. destruct H. by exists [], r.
Qed.

Lemma LastIndex_some l sub i : LastIndex l sub = Some i -> exists a b, l = (a ++ sub ++ b)%list /\ length a = i.
Proof.
  revert i. induction l as [|c l IH]; cbn [LastIndex]; intros i H.
  - destruct (HasPrefix [] sub) eqn:E; [|done]. apply HasPrefix_spec in E as [r E]. injection H as <-. by exists [], r.
  - destruct (LastIndex l sub) as [j|] eqn:E.
    + injection H as <-. destruct (IH j eq_refl) as (a & b & -> & <-). by exists (c :: a), b.
    + destruct (HasPrefix (c :: l) sub) eqn:E2; [|done]. injection H as <-.
      apply HasPrefix_spec in E2 as [r E2]. by exists [], r.
Qed.

Lemma Index_none l sub : Index l sub = None <-> ~ occurs sub l.
Proof.
  induction l as [|c l IH]; cbn [LastIndex Index].
  - destruct (HasPrefix [] sub) eqn:E; split; intros H; try done.
    + apply HasPrefix_spec in E as [r E]. destruct H. by exists [], r.
    + intros (a & b & Hab). destruct a; [|done].
      assert (HasPrefix [] sub = true); [|congruence]. apply HasPrefix_spec. by exists b.
  - destruct (HasPrefix (c :: l) sub) eqn:E; split; try done.
    + apply HasPrefix_spec in E as [r E]. intros H. destruct H. by exists [], r.
    + rewrite fmap_None, IH. intros H (a & b & Hab). destruct a as [|x a].
      * assert (HasPrefix (c :: l) sub = true); [|congruence]. apply HasPrefix_spec. by exists b.
      * injection Hab as -> ->. apply H. by exists a, b.
    + rewrite fmap_None, IH. intros H (a & b & ->). apply H. by exists (c :: a), b.
Qed.

(** What precedes an occurrence has the others. *)
Lemma LastIndex_app v x sub : LastIndex x sub = Some 0 -> LastIndex (v ++ x)%list sub = Some (length v).
Proof. intros H. induction v as [|c v IH]; [done|]. simpl. by rewrite IH. Qed.

Lemma IndexAny_app a c r cs : (forall x, x ∈ a -> x ∉ cs) -> c ∈ cs -> IndexAny (a ++ c :: r)%list cs = Some (length a).
Proof.
  intros Ha Hc. induction a as [|x a IH]; simpl.
  - assert (one_of c cs = true) as -> by (by apply one_of_spec). done.
  - assert (one_of x cs = false) as ->. { apply one_of_false, Ha. apply elem_of_cons. by left. }
    rewrite IH; [done|]. intros y Hy. apply Ha. apply elem_of_cons. by right.
Qed.

Lemma IndexAny_some (l : list ascii) cs i : IndexAny l cs = Some i -> exists c, l !! i = Some c /\ c ∈ cs.
Proof.
  revert i. induction l as [|x l IH]; intros i H; [done|]. simpl in H.
  destruct (one_of x cs) eqn:E.
  - injection H as <-. exists x. split; [done|]. by apply one_of_spec.
  - destruct (IndexAny l cs) as [j|]; [|done]. injection H as <-. simpl. by apply IH.
Qed.

(** ** Space *)

(** A byte that is neither a space nor in a longer one. *)
Definition solid (c : ascii) : bool := negb (isSpace1 c) && ((N_of_ascii c <? 128)%N || (228 <=? N_of_ascii c)%N).

Lemma solid_spec c : solid c = true -> isSpace1 c = false /\ (N_of_ascii c < 128 \/ 228 <= N_of_ascii c)%N.
Proof. unfold solid. rewrite andb_true_iff, orb_true_iff, negb_true_iff, N.ltb_lt, N.leb_le. done. Qed.

Lemma solid_eqb c k : solid c = true -> (128 <=? N_of_ascii k)%N && (N_of_ascii k <? 228)%N = true -> Ascii.eqb c k = false.
Proof.
  intros [_ Hc]%solid_spec. rewrite andb_true_iff, N.leb_le, N.ltb_lt. intros Hk.
  apply Ascii.eqb_neq. intros ->. lia.
Qed.

Lemma solid_space1 c : solid c = true -> isSpace1 c = false.
Proof. by intros [? _]%solid_spec. Qed.

Lemma solid_space2 c x : solid c = true -> isSpace2 c x = false /\ isSpace2 x c = false.
Proof.
  intros H. unfold isSpace2. rewrite !(solid_eqb c) by done. by rewrite !andb_false_r.
Qed.

Lemma solid_space3 c x y : solid c = true -> isSpace3 c x y = false /\ isSpace3 x c y = false /\ isSpace3 x y c = false.
Proof.
  intros H. unfold isSpace3. rewrite !(solid_eqb c) by done. apply solid_spec in H as [_ H].
  assert (((128 <=? N_of_ascii c) && (N_of_ascii c <=? 138))%N = false) as ->.
  { apply not_true_iff_false. rewrite andb_true_iff, N.leb_le, N.leb_le. lia. }
  assert ((N_of_ascii c =? 168)%N = false /\ (N_of_ascii c =? 169)%N = false /\ (N_of_ascii c =? 175)%N = false) as (-> & -> & ->).
  { rewrite !N.eqb_neq. lia. }
  simpl. rewrite ?andb_false_r. destruct (Ascii.eqb x "225"), (Ascii.eqb x "226"); done.
Qed.

(** The space in front of a solid character. *)
Lemma trimLeft_app a c b : solid c = true -> trimLeftSpace (a ++ c :: b)%list = (trimLeftSpace a ++ c :: b)%list.
Proof.
  intros Hc. remember (length a) as n eqn:E. revert a E.
  induction n as [n IH] using Wf_nat.lt_wf_ind. intros a ->.
  pose proof (solid_space1 c Hc) as H1. pose proof (fun x => solid_space2 c x Hc) as H2.
  pose proof (fun x y => solid_space3 c x y Hc) as H3.
  destruct a as [|x a]; simpl.
  { rewrite H1. destruct b as [|y b]; [done|]. rewrite (proj1 (H2 y)). destruct b as [|z b]; [done|].
    by rewrite (proj1 (H3 y z)). }
  destruct (isSpace1 x). { apply (IH (length a)); simpl; lia || done. }
  destruct a as [|y a]; simpl.
  { rewrite (proj2 (H2 x)). destruct b as [|z b]; [done|]. by rewrite (proj1 (proj2 (H3 x z))). }
  destruct (isSpace2 x y). { apply (IH (length a)); simpl; lia || done. }
  destruct a as [|z a]; simpl.
  { by rewrite (proj2 (proj2 (H3 x y))). }
  destruct (isSpace3 x y z); [|done]. apply (IH (length a)); simpl; lia || done.
Qed.

Lemma trimRev_app a c b : solid c = true -> trimRevSpace (a ++ c :: b)%list = (trimRevSpace a ++ c :: b)%list.
Proof.
  intros Hc. remember (length a) as n eqn:E. revert a E.
  induction n as [n IH] using Wf_nat.lt_wf_ind. intros a ->.
  pose proof (solid_space1 c Hc) as H1. pose proof (fun x => solid_space2 c x Hc) as H2.
  pose proof (fun x y => solid_space3 c x y Hc) as H3.
  destruct a as [|x a]; simpl.
  { rewrite H1. destruct b as [|y b]; [done|]. rewrite (proj2 (H2 y)). destruct b as [|z b]; [done|].
    by rewrite (proj2 (proj2 (H3 z y))). }
  destruct (isSpace1 x). { apply (IH (length a)); simpl; lia || done. }
  destruct a as [|y a]; simpl.
  { rewrite (proj1 (H2 x)). destruct b as [|z b]; [done|]. by rewrite (proj1 (proj2 (H3 z x))). }
  destruct (isSpace2 y x). { apply (IH (length a)); simpl; lia || done. }
  destruct a as [|z a]; simpl.
  { by rewrite (proj1 (H3 y x)). }
  destruct (isSpace3 z y x); [|done]. apply (IH (length a)); simpl; lia || done.
Qed.

Lemma trimRight_app a c b : solid c = true -> trimRightSpace (a ++ c :: b)%list = (a ++ c :: trimRightSpace b)%list.
Proof.
  intros Hc. unfold trimRightSpace. rewrite rev_app_distr. simpl rev. rewrite <- app_assoc. simpl app.
  rewrite trimRev_app by done. rewrite rev_app_distr. simpl rev. by rewrite rev_involutive, <- app_assoc.
Qed.

(** What trimming leaves is an end, or a start, of the text. *)
Lemma trimLeft_suffix l : exists w, l = (w ++ trimLeftSpace l)%list.
Proof.
  remember (length l) as n eqn:E. revert l E. induction n as [n IH] using Wf_nat.lt_wf_ind. intros l ->.
  destruct l as [|x l]; simpl; [by exists []|].
  destruct (isSpace1 x). { destruct (IH (length l) ltac:(simpl; lia) l eq_refl) as [w Hw]. exists (x :: w). simpl. by f_equal. }
  destruct l as [|y l]; [by exists []|].
  destruct (isSpace2 x y). { destruct (IH (length l) ltac:(simpl; lia) l eq_refl) as [w Hw]. exists (x :: y :: w). simpl. by do 2 f_equal. }
  destruct l as [|z l]; [by exists []|].
  destruct (isSpace3 x y z); [|by exists []].
  destruct (IH (length l) ltac:(simpl; lia) l eq_refl) as [w Hw]. exists (x :: y :: z :: w). simpl. by do 3 f_equal.
Qed.

Lemma trimRev_suffix l : exists w, l = (w ++ trimRevSpace l)%list.
Proof.
  remember (length l) as n eqn:E. revert l E. induction n as [n IH] using Wf_nat.lt_wf_ind. intros l ->.
  destruct l as [|x l]; simpl; [by exists []|].
  destruct (isSpace1 x). { destruct (IH (length l) ltac:(simpl; lia) l eq_refl) as [w Hw]. exists (x :: w). simpl. by f_equal. }
  destruct l as [|y l]; [by exists []|].
  destruct (isSpace2 y x). { destruct (IH (length l) ltac:(simpl; lia) l eq_refl) as [w Hw]. exists (x :: y :: w). simpl. by do 2 f_equal. }
  destruct l as [|z l]; [by exists []|].
  destruct (isSpace3 z y x); [|by exists []].
  destruct (IH (length l) ltac:(simpl; lia) l eq_refl) as [w Hw]. exists (x :: y :: z :: w). simpl. by do 3 f_equal.
Qed.

Lemma trimRight_prefix l : exists w, l = (trimRightSpace l ++ w)%list.
Proof.
  destruct (trimRev_suffix (rev l)) as [w Hw]. exists (rev w). unfold trimRightSpace.
  rewrite <- rev_app_distr, <- Hw. by rewrite rev_involutive.
Qed.

Lemma take_trimRight l : take (trimRightSpaceLen l) l = trimRightSpace l.
Proof.
  unfold trimRightSpaceLen. destruct (trimRight_prefix l) as [w Hw]. rewrite Hw at 2. by rewrite take_app_length.
Qed.

Lemma trimLeft_space l : trimLeftSpace (" "%char :: l) = trimLeftSpace l.
Proof. done. Qed.

Lemma trimLeft_nl l : trimLeftSpace (newline :: l) = trimLeftSpace l.
Proof. done. Qed.

Lemma trimLeft_solid c l : solid c = true -> trimLeftSpace (c :: l) = c :: l.
Proof. intros H. apply (trimLeft_app [] c l H). Qed.

End iniread.
