(* ===== verification/IniRead.v ===== *)
(** * util/ini: what is read at a place

    The logic of [Ini]: what the lines at a place are read as, whatever its position, and
    what of the following lines that depends on. *)

From S2P Require Import Prelude.
From S2P Require Import Ini.
From S2P Require Import IniBytes.
From Stdlib Require Import Ascii.

Open Scope string_scope.

Module inivalue.

Import inidoc iniread.

(** ** The value of a key line *)

(** The value is in the line, or goes on with the indented lines, with the lines up to a
    quote, with the lines joined by backslashes. *)
Inductive form := InLine (v : bytes) | Continues (seg : bytes) | Quoted (quote x : bytes) | Joined (x : bytes).

Definition quote_head (trimmed : bytes) (c : ascii) : bytes :=
  if (3 <? length trimmed)%nat && HasPrefix trimmed [dquote; dquote; dquote] then [dquote; dquote; dquote]
  else if Ascii.eqb c "`" then ["`"%char] else [].

Definition quoteOf (trimmed : bytes) : bytes :=
  match trimmed with c :: _ => quote_head trimmed c | [] => [] end.

Definition bare (o : Options) (trimmed : bytes) : form :=
  let hi := trimRightSpaceLen trimmed in
  if negb (IgnoreContinuation o) && bool_decide (lastByte (take hi trimmed) = Some backslash) then Joined (take (hi - 1) trimmed)
  else
    let hi := valueLen o trimmed hi in
    let seg := take hi trimmed in
    if hasSurroundedQuote seg "'" || hasSurroundedQuote seg dquote then InLine (slice seg 1 (hi - 1))
    else if AllowPythonMultilineValues o && endsWithLineBreak trimmed then Continues seg else InLine seg.

Definition classify (o : Options) (lv : bytes) : form :=
  let trimmed := trimLeftSpace lv in
  match trimmed with
  | [] => if AllowPythonMultilineValues o && endsWithLineBreak lv then Continues [] else InLine []
  | _ =>
      let quote := quoteOf trimmed in
      if bool_decide (quote <> []) then
        match LastIndex (drop (length quote) trimmed) quote with
        | None => Quoted quote (drop (length quote) trimmed)
        | Some i => InLine (take i (drop (length quote) trimmed))
        end
      else bare o trimmed
  end.

Definition contentOf (ln : bytes) : bytes := if endsWithLineBreak ln then removelast ln else ln.

Inductive Continued : bytes -> bytes -> bytes -> Prop :=
| C_stop r : startsIndented r = false -> Continued r [] r
| C_more r ln q t r' :
    line r = (ln, q) -> startsIndented r = true -> Continued q t r' -> Continued r (newline :: contentOf ln ++ t)%list r'.

Inductive Closing (quote : bytes) : bytes -> bytes -> bytes -> Prop :=
| Cl_here r ln q i : r <> [] -> line r = (ln, q) -> LastIndex ln quote = Some i -> Closing quote r (take i ln) q
| Cl_more r ln q t r' :
    r <> [] -> line r = (ln, q) -> LastIndex ln quote = None -> Closing quote q t r' -> Closing quote r (ln ++ t)%list r'.

Inductive Joining : bytes -> bytes -> bytes -> bytes -> Prop :=
| J_eof val : Joining val [] val []
| J_blank val r ln q : r <> [] -> line r = (ln, q) -> TrimSpace ln = [] -> Joining val r val q
| J_last val r ln q :
    r <> [] -> line r = (ln, q) -> TrimSpace ln <> [] -> lastByte (val ++ TrimSpace ln)%list <> Some backslash ->
    Joining val r (val ++ TrimSpace ln)%list q
| J_more val r ln q v r' :
    r <> [] -> line r = (ln, q) -> TrimSpace ln <> [] -> lastByte (val ++ TrimSpace ln)%list = Some backslash ->
    Joining (removelast (val ++ TrimSpace ln)%list) q v r' -> Joining val r v r'.

(** From what is left of the key line and what follows it: the value, and what is left. *)
Definition ReadsValue (o : Options) (lv r v r' : bytes) : Prop :=
  match classify o lv with
  | InLine x => v = x /\ r' = r
  | Continues seg => exists t, v = (seg ++ t)%list /\ Continued r t r'
  | Quoted quote x => exists t, v = (x ++ t)%list /\ Closing quote r t r'
  | Joined x => Joining x r v r'
  end.

Lemma line_shorter r ln q : line r = (ln, q) -> r <> [] -> length q < length r.
Proof.
  intros E Hr. pose proof (line_split r) as H. rewrite E in H. subst r. rewrite length_app.
  destruct ln; [|simpl; lia]. simpl in *. destruct q as [|c q]; [done|]. simpl in E.
  destruct (Ascii.eqb c newline); [done|]. destruct (line q). done.
Qed.

Lemma startsIndented_line r ln q : line r = (ln, q) -> startsIndented ln = startsIndented r.
Proof.
  intros E. destruct r as [|c r]; [by injection E as <- <-|]. simpl in E.
  destruct (Ascii.eqb c newline); [by injection E as <- <-|]. destruct (line r). by injection E as <- <-.
Qed.

Lemma readContinuedValue_spec fuel val s e p : (length (rest p) <= fuel)%nat ->
  exists t v q, readContinuedValue fuel val s e p = (v, q) /\ text v = (val ++ t)%list /\ Continued (rest p) t (rest q).
Proof.
  revert val e p. induction fuel as [|fuel IH]; intros val e p Hf; simpl.
  - exists [], (mkValue val s e true), p. split_and!; [done|by rewrite app_nil_r|].
    destruct (rest p); simpl in Hf; [|lia]. by constructor.
  - unfold eof. destruct (rest p) as [|c r] eqn:Er.
    { exists [], (mkValue val s e true), p. rewrite Er. split_and!; [done|by rewrite app_nil_r|by constructor]. }
    unfold readLine. rewrite Er. destruct (line (c :: r)) as [ln q] eqn:El.
    rewrite (startsIndented_line _ _ _ El). destruct (startsIndented (c :: r)) eqn:Es; simpl.
    + pose proof (line_shorter _ _ _ El ltac:(done)) as Hl.
      destruct (IH (val ++ newline :: contentOf ln)%list (pos p + length (contentOf ln)) (mkParser q (pos p + length ln)))
        as (t & v & q' & E1 & E2 & E3); [simpl in *; lia|].
      exists (newline :: contentOf ln ++ t)%list, v, q'. split_and!; [exact E1| |by econstructor].
      rewrite E2, <- app_assoc. done.
    + exists [], (mkValue val s e true), p. rewrite Er. split_and!; [done|by rewrite app_nil_r|by constructor].
Qed.

Lemma readQuotedLines_spec fuel val quote s p : (length (rest p) < fuel)%nat ->
  match readQuotedLines fuel val quote s p with
  | Some (v, q) => exists t, text v = (val ++ t)%list /\ Closing quote (rest p) t (rest q)
  | None => forall t r', ~ Closing quote (rest p) t r'
  end.
Proof.
  revert val p. induction fuel as [|fuel IH]; intros val p Hf; [lia|]. simpl. unfold eof.
  destruct (rest p) as [|c r] eqn:Er. { intros t r' H. by inversion H. }
  unfold readLine. rewrite Er. destruct (line (c :: r)) as [ln q] eqn:El.
  destruct (LastIndex ln quote) as [i|] eqn:Ei.
  - exists (take i ln). split; [done|]. by econstructor.
  - pose proof (line_shorter _ _ _ El ltac:(done)) as Hl.
    specialize (IH (val ++ ln)%list (mkParser q (pos p + length ln)) ltac:(simpl in *; lia)).
    destruct (readQuotedLines _ _ _ _ _) as [[v q']|].
    + destruct IH as (t & Ht & Hc). exists (ln ++ t)%list. split; [by rewrite Ht, app_assoc|]. by econstructor.
    + intros t r' H. inversion H as [? ? ? ? ? El2|? ? ? ? ? ? El2]; subst; rewrite El in El2; simplify_eq. by eapply IH.
Qed.

Lemma readContinuationLines_spec fuel val p : (length (rest p) <= fuel)%nat ->
  exists v q, readContinuationLines fuel val p = (v, q) /\ Joining val (rest p) v (rest q).
Proof.
  revert val p. induction fuel as [|fuel IH]; intros val p Hf; simpl.
  - exists val, p. split; [done|]. destruct (rest p); simpl in Hf; [constructor|lia].
  - unfold eof. destruct (rest p) as [|c r] eqn:Er. { exists val, p. rewrite Er. split; [done|constructor]. }
    unfold readLine. rewrite Er. destruct (line (c :: r)) as [ln q] eqn:El.
    pose proof (line_shorter _ _ _ El ltac:(done)) as Hl.
    case_bool_decide as Hb; [by eexists _, _; split; [done|]; eapply J_blank|].
    case_bool_decide as Hs; [|by eexists _, _; split; [done|]; eapply J_last].
    destruct (IH (removelast (val ++ TrimSpace ln)%list) (mkParser q (pos p + length ln))) as (v & q' & E1 & E2); [simpl in *; lia|].
    eexists _, _. split; [exact E1|]. by eapply J_more.
Qed.

Lemma Continued_det r t1 r1 t2 r2 : Continued r t1 r1 -> Continued r t2 r2 -> t1 = t2 /\ r1 = r2.
Proof.
  intros H. revert t2 r2. induction H; intros t2 r2 H2; inversion H2; simplify_eq; try congruence; [done|].
  destruct (IHContinued t0 r2) as [-> ->]; [congruence|]. rewrite H in *. by simplify_eq.
Qed.

Lemma Closing_det quote r t1 r1 t2 r2 : Closing quote r t1 r1 -> Closing quote r t2 r2 -> t1 = t2 /\ r1 = r2.
Proof.
  intros H. revert t2 r2. induction H; intros t2 r2 H3; inversion H3; simplify_eq; try congruence.
  - rewrite H0 in *. by simplify_eq.
  - rewrite H0 in *. simplify_eq. by destruct (IHClosing t0 r2) as [-> ->].
Qed.

Lemma Joining_det val r t1 r1 t2 r2 : Joining val r t1 r1 -> Joining val r t2 r2 -> t1 = t2 /\ r1 = r2.
Proof.
  intros H. revert t2 r2. induction H; intros t2 r2 HH; inversion HH; simplify_eq; try done; try congruence.
  all: try (rewrite H0 in *; by simplify_eq).
  rewrite H0 in *. simplify_eq. by apply IHJoining.
Qed.

(** [readValue] reads the value, and every value is read. *)
Lemma readValue_spec o base lv p :
  match readValue o base lv p with
  | Some (v, q) => ReadsValue o lv (rest p) (text v) (rest q)
  | None => forall v r', ~ ReadsValue o lv (rest p) v r'
  end.
Proof.
  unfold readValue, ReadsValue, classify.
  remember (trimLeftSpace lv) as trimmed eqn:Etr. destruct trimmed as [|c tl] eqn:Et.
  { destruct (_ && _).
    - destruct (readContinuedValue_spec (length (rest p)) [] (base + blanks lv) (base + blanks lv) p) as (t & v & q & -> & E2 & E3); [lia|].
      by exists t.
    - done. }
  rewrite <- Et in *. cbv zeta. cbn iota.
  change (if (3 <? length trimmed)%nat && HasPrefix trimmed [dquote; dquote; dquote] then [dquote; dquote; dquote]
          else if Ascii.eqb c "`" then ["`"%char] else []) with (quote_head trimmed c).
  replace (quote_head trimmed c) with (quoteOf trimmed) by (unfold quoteOf, quote_head; by rewrite Et).
  destruct (decide (quoteOf trimmed <> [])) as [Hq|Hq]; [rewrite !(bool_decide_true _ Hq)|rewrite !(bool_decide_false _ Hq)]; cbn iota.
  - destruct (LastIndex (drop (length (quoteOf trimmed)) trimmed) (quoteOf trimmed)) as [i|].
    + cbn [text]. split; [|done]. unfold slice. f_equal. lia.
    + unfold readQuotedMultilines.
      pose proof (readQuotedLines_spec (S (length (rest p))) (drop (length (quoteOf trimmed)) trimmed) (quoteOf trimmed)
        (base + length lv - length trimmed + length (quoteOf trimmed)) p ltac:(lia)) as H.
      destruct (readQuotedLines _ _ _ _ _) as [[v q]|]; [done|].
      intros v r' (t & -> & Hc). by eapply H.
  - unfold bare. destruct (negb _ && _).
    + destruct (readContinuationLines_spec (length (rest p)) (take (trimRightSpaceLen trimmed - 1) trimmed) p) as (v & q & -> & Hj); [lia|done].
    + destruct (_ || _); [done|]. destruct (_ && endsWithLineBreak trimmed); [|done].
      destruct (readContinuedValue_spec (length (rest p)) (take (valueLen o trimmed (trimRightSpaceLen trimmed)) trimmed)
        (base + length lv - length trimmed)
        (base + length lv - length trimmed + valueLen o trimmed (trimRightSpaceLen trimmed)) p) as (t & v & q & -> & E2 & E3); [lia|].
      by exists t.
Qed.

Lemma ReadsValue_det o lv r v1 r1 v2 r2 : ReadsValue o lv r v1 r1 -> ReadsValue o lv r v2 r2 -> v1 = v2 /\ r1 = r2.
Proof.
  unfold ReadsValue. destruct (classify o lv).
  - by intros [-> ->] [-> ->].
  - intros (t1 & -> & H1) (t2 & -> & H2). by destruct (Continued_det _ _ _ _ _ H1 H2) as [-> ->].
  - intros (t1 & -> & H1) (t2 & -> & H2). by destruct (Closing_det _ _ _ _ _ _ H1 H2) as [-> ->].
  - apply Joining_det.
Qed.

Lemma readValue_complete o base lv p v r' : ReadsValue o lv (rest p) v r' ->
  exists vv q, readValue o base lv p = Some (vv, q) /\ text vv = v /\ rest q = r'.
Proof.
  intros H. pose proof (readValue_spec o base lv p) as Hs. destruct (readValue o base lv p) as [[vv q]|].
  - destruct (ReadsValue_det _ _ _ _ _ _ _ Hs H) as [<- <-]. by exists vv, q.
  - by apply Hs in H.
Qed.

(** ** What a line is read as *)

Inductive lineForm := Trivia | HeaderLine (s : bytes) | KeyLine (k lv : bytes) | BadLine.

Definition lineOf (o : Options) (ln : bytes) : lineForm :=
  let trimmed := trimLeftSpace ln in
  match trimmed with
  | [] => Trivia
  | c :: _ =>
      if oneOf c "#;" then Trivia
      else if Ascii.eqb c "[" then
        match LastIndex trimmed (lit "]") with
        | None => BadLine
        | Some i => if bool_decide (slice trimmed 1 i = []) then BadLine else HeaderLine (slice trimmed 1 i)
        end
      else
        match readKeyName (KeyValueDelimiters o) trimmed with
        | inl _ => BadLine
        | inr (k, off) => if bool_decide (k = []) then BadLine else KeyLine k (drop off trimmed)
        end
  end.

Inductive item := Blank | Header (s : bytes) | Entry (k v : bytes).

#[global] Instance item_eq : EqDecision item.
Proof. solve_decision. Defined.

(** An item at a place, and what follows it. *)
Inductive Reads (o : Options) : bytes -> item -> bytes -> Prop :=
| R_blank l ln r : l <> [] -> line l = (ln, r) -> lineOf o ln = Trivia -> Reads o l Blank r
| R_header l ln r s : l <> [] -> line l = (ln, r) -> lineOf o ln = HeaderLine s -> Reads o l (Header s) r
| R_entry l ln q k lv v r :
    l <> [] -> line l = (ln, q) -> lineOf o ln = KeyLine k lv -> ReadsValue o lv q v r -> Reads o l (Entry k v) r.

Lemma Reads_det o l i1 r1 i2 r2 : Reads o l i1 r1 -> Reads o l i2 r2 -> i1 = i2 /\ r1 = r2.
Proof.
  intros H1 H2. destruct H1 as [l ln r Hl E1 E2|l ln r s Hl E1 E2|l ln q k lv v r Hl E1 E2 E3];
    inversion H2 as [? ln' ? ? E1' E2'|? ln' ? ? ? E1' E2'|? ln' q' ? ? ? ? ? E1' E2' E3']; subst;
    rewrite E1 in E1'; injection E1' as <- <-; rewrite E2 in E2'; simplify_eq; try done.
  by destruct (ReadsValue_det _ _ _ _ _ _ _ E3 E3') as [-> ->].
Qed.

End inivalue.
