(* ===== verification/IniLocal.v ===== *)
(** * util/ini: what a value depends on

    What the reading of an element depends on: the lines it takes, and whether the next one
    is indented. *)

From S2P Require Import Prelude.
From S2P Require Import Ini.
From S2P Require Import IniBytes.
From S2P Require Import IniRead.
From Stdlib Require Import Ascii.

Open Scope string_scope.

Module inilocal.

Import inidoc iniread inivalue.

(** ** A line *)

(** With its line break; with or without. *)
Definition terminated (x : bytes) : Prop := exists b, x = (b ++ [newline])%list /\ newline ∉ b.
Definition oneLine (x : bytes) : Prop := newline ∉ x \/ terminated x.

Lemma oneLine_before w x y z : oneLine w -> w = (x ++ y ++ z)%list -> z <> [] -> newline ∉ y.
Proof.
  intros [H|(b & -> & H)] E Hz.
  - intros Hy. apply H. rewrite E. set_solver.
  - destruct (exists_last Hz) as (z' & c & ->). rewrite !app_assoc in E.
    apply app_inj_tail in E as [-> _]. intros Hy. apply H. set_solver.
Qed.

Lemma oneLine_suffix w x y : oneLine w -> w = (x ++ y)%list -> oneLine y.
Proof.
  intros [H|(b & -> & H)] E.
  - left. intros Hy. apply H. rewrite E. set_solver.
  - destruct y as [|c y]; [left; apply not_elem_of_nil|].
    destruct (exists_last (l := c :: y) ltac:(done)) as (z & d & Hd). rewrite Hd, app_assoc in E.
    apply app_inj_tail in E as [-> <-]. right. exists z. split; [done|]. intros Hy. apply H. set_solver.
Qed.

Lemma terminated_suffix w x y : terminated w -> w = (x ++ y)%list -> y <> [] -> terminated y.
Proof.
  intros (b & -> & H) E Hy. destruct (exists_last Hy) as (z & d & ->). rewrite app_assoc in E.
  apply app_inj_tail in E as [-> <-]. exists z. split; [done|]. intros Hz. apply H. set_solver.
Qed.

Lemma terminated_ends x : terminated x -> endsWithLineBreak x = true.
Proof. intros (b & -> & _). unfold endsWithLineBreak, lastByte. by rewrite last_snoc. Qed.

Lemma ends_terminated x : oneLine x -> endsWithLineBreak x = true -> terminated x.
Proof.
  intros [H|H] E; [|done]. unfold endsWithLineBreak, lastByte in E.
  destruct (last x) as [c|] eqn:El; [|done]. apply Ascii.eqb_eq in E as ->.
  apply last_Some in El as [y ->]. destruct H. set_solver.
Qed.

Lemma line_terminated l ln r : line l = (ln, r) -> l = (ln ++ r)%list /\ oneLine ln /\ (r <> [] -> terminated ln).
Proof.
  intros E. destruct (line_cases l) as [H|(a & q & -> & H)].
  - rewrite line_end in E by done. injection E as <- <-. rewrite app_nil_r. split_and!; [done|by left|done].
  - rewrite line_nl in E by done. injection E as <- <-. rewrite <- app_assoc.
    split_and!; [done|right; by eexists|by eexists].
Qed.

Lemma line_app ln r : terminated ln -> line (ln ++ r)%list = (ln, r).
Proof. intros (b & -> & H). rewrite <- app_assoc. simpl. by rewrite line_nl. Qed.

Lemma contentOf_terminated b : contentOf (b ++ [newline])%list = b.
Proof. unfold contentOf. unfold endsWithLineBreak, lastByte. rewrite last_snoc. simpl. by rewrite removelast_last. Qed.

(** ** The parts of a key line *)

Lemma readKeyName_off cs (t : list ascii) k off : readKeyName cs t = inr (k, off) ->
  exists x c, t = (x ++ c :: drop off t)%list /\ c ∈ cs.
Proof.
  assert (forall i, (exists c, t !! i = Some c /\ c ∈ cs) -> exists x c, t = (x ++ c :: drop (i + 1) t)%list /\ c ∈ cs) as Hi.
  { intros i (c & Hc & Hcs). exists (take i t), c. split; [|done].
    rewrite Nat.add_1_r. symmetry. by apply take_drop_middle. }
  unfold readKeyName. destruct (bool_decide _).
  - destruct (Index _ _) as [i|]; [|done]. destruct (IndexAny _ _) as [j|] eqn:Ej; [|done].
    intros [= <- <-]. apply IndexAny_some in Ej as (c & Hc & Hcs). rewrite lookup_drop in Hc.
    match type of Hc with t !! ?n = _ => specialize (Hi n ltac:(eauto)) end.
    destruct Hi as (x & d & Hx & Hd). exists x, d. split; [|done]. rewrite Hx at 1. do 2 f_equal. f_equal. lia.
  - destruct (IndexAny _ _) as [j|] eqn:Ej; [|done]. apply IndexAny_some in Ej. destruct j; [done|].
    intros [= <- <-]. by apply (Hi (S j)).
Qed.

Lemma lineOf_key o ln k lv : KeyValueDelimiters o = lit "=:" -> lineOf o ln = KeyLine k lv -> oneLine ln ->
  (exists w, ln = (w ++ lv)%list) /\ oneLine lv /\ (terminated ln -> terminated lv) /\ k <> [].
Proof.
  intros Ho. unfold lineOf. destruct (trimLeftSpace ln) as [|c t] eqn:Et; [done|].
  destruct (oneOf c _); [done|]. destruct (Ascii.eqb c "["). { destruct (LastIndex _ _); [|done]. by case_bool_decide. }
  destruct (readKeyName _ _) as [e|[k' off]] eqn:Er; [done|]. case_bool_decide as Hk; [done|].
  intros [= -> <-] Hln. destruct (trimLeft_suffix ln) as [w Hw]. rewrite Et in Hw.
  rewrite Ho in Er. apply readKeyName_off in Er as (x & d & Hx & Hd). rewrite Hx, app_assoc in Hw.
  assert (ln = ((w ++ x) ++ [d]) ++ drop off (c :: t))%list as Hw' by (by rewrite <- app_assoc).
  split_and!.
  - eexists. exact Hw'.
  - by eapply oneLine_suffix.
  - intros Ht. eapply terminated_suffix; [done|exact Hw'|]. intros Hn. rewrite Hn, app_nil_r in Hw'.
    destruct Ht as (b & -> & _). apply app_inj_tail in Hw' as [_ <-].
    revert Hd. vm_compute. intros H. repeat (apply elem_of_cons in H as [H|H]; [done|]). by apply elem_of_nil in H.
  - done.
Qed.

(** ** The forms of a value *)

Lemma trimRight_oneLine l : oneLine l -> newline ∉ trimRightSpace l.
Proof.
  intros [H|(b & -> & H)].
  - destruct (trimRight_prefix l) as [w Hw]. intros Hn. apply H. rewrite Hw. set_solver.
  - assert (trimRightSpace (b ++ [newline])%list = trimRightSpace b) as ->.
    { unfold trimRightSpace. by rewrite rev_app_distr. }
    destruct (trimRight_prefix b) as [w Hw]. intros Hn. apply H. rewrite Hw. set_solver.
Qed.

Lemma take_le_trimRight n l : (n <= trimRightSpaceLen l)%nat -> exists w, trimRightSpace l = (take n l ++ w)%list.
Proof.
  intros Hn. rewrite <- (take_drop n (trimRightSpace l)). exists (drop n (trimRightSpace l)). f_equal.
  destruct (trimRight_prefix l) as [w Hw]. rewrite Hw at 2. rewrite take_app_le; [done|]. exact Hn.
Qed.

Lemma trimRightSpaceLen_le l : (trimRightSpaceLen l <= length l)%nat.
Proof. unfold trimRightSpaceLen. destruct (trimRight_prefix l) as [w Hw]. rewrite Hw at 2. rewrite length_app. lia. Qed.

Lemma valueLen_le o l hi : (valueLen o l hi <= hi)%nat.
Proof.
  unfold valueLen. destruct (IgnoreInlineComment o); [done|]. destruct (commentIndex _ _) as [i|] eqn:E; [|done].
  etrans; [apply trimRightSpaceLen_le|]. rewrite length_take.
  assert (i <= hi)%nat; [|lia]. unfold commentIndex in E.
  assert (forall sub, Index (take hi l) sub = Some i -> i <= hi)%nat as H1.
  { intros sub H. assert (i <= length (take hi l))%nat; [|rewrite length_take in *; lia].
    clear E. revert i H. generalize (take hi l). intros m. induction m as [|c m IH]; cbn [Index]; intros i H.
    - destruct (HasPrefix [] sub); [injection H as <-; lia|done].
    - destruct (HasPrefix (c :: m) sub); [injection H as <-; simpl; lia|].
      destruct (Index m sub) as [j|]; [|done]. injection H as <-. simpl. specialize (IH j eq_refl). lia. }
  destruct (SpaceBeforeInlineComment o).
  - destruct (Index (take hi l) (lit " #")) eqn:E1; [injection E as ->|]; eauto.
  - apply IndexAny_some in E as (c & Hc & _). apply lookup_lt_Some in Hc. rewrite length_take in Hc. lia.
Qed.

(** What each form says of the line. *)
Definition formOk (lv : bytes) (f : form) : Prop :=
  match f with
  | InLine v => newline ∉ v
  | Continues seg => (newline ∉ seg) /\ terminated lv
  | Quoted q x =>
      (q = lit "`" \/ q = triple) /\ ~ occurs q x /\ oneLine x /\ (terminated lv -> terminated x)
  | Joined x =>
      (newline ∉ x) /\ exists w, trimLeftSpace lv = (x ++ backslash :: w)%list /\ trimRightSpace w = []
  end.

Lemma quote_head_cases t c : quote_head t c = [] \/ quote_head t c = lit "`" \/ quote_head t c = triple.
Proof. unfold quote_head. destruct (_ && _); [by right; right|]. destruct (Ascii.eqb c "`"); [by right; left|by left]. Qed.

Lemma quote_head_prefix t c : HasPrefix (c :: t) (quote_head (c :: t) c) = true.
Proof.
  unfold quote_head. destruct (_ && _) eqn:E; [by apply andb_true_iff in E as [_ E]|].
  destruct (Ascii.eqb_spec c "`") as [->|]; [|done]. apply HasPrefix_spec. by exists t.
Qed.

Lemma bare_ok o lv : oneLine lv -> trimLeftSpace lv <> [] -> formOk lv (bare o (trimLeftSpace lv)).
Proof.
  intros Hlv Hne. destruct (trimLeft_suffix lv) as [s Hs]. set (t := trimLeftSpace lv) in *.
  assert (oneLine t) as Ht by (by eapply oneLine_suffix).
  unfold bare. set (hi := trimRightSpaceLen t).
  destruct (negb _ && bool_decide (lastByte (take hi t) = Some backslash)) eqn:E.
  - apply andb_true_iff in E as [_ E]. apply bool_decide_eq_true in E.
    unfold hi in E. rewrite take_trimRight in E. unfold lastByte in E. apply last_Some in E as [x Hx].
    destruct (trimRight_prefix t) as [w Hw]. rewrite Hx, <- app_assoc in Hw. simpl in Hw.
    assert (take (hi - 1) t = x) as ->.
    { unfold hi, trimRightSpaceLen. rewrite Hx, length_app. simpl. replace (length x + 1 - 1)%nat with (length x) by lia.
      rewrite Hw. by rewrite take_app_length. }
    split.
    + intros Hn. apply (trimRight_oneLine t Ht). rewrite Hx. set_solver.
    + exists w. split; [done|]. rewrite Hw, trimRight_app in Hx by done.
      apply app_inv_head in Hx. by injection Hx.
  - set (m := valueLen o t hi). assert (m <= hi)%nat as Hm by apply valueLen_le.
    assert (newline ∉ take m t) as Hseg.
    { destruct (take_le_trimRight m t Hm) as [w Hw]. intros Hn. apply (trimRight_oneLine t Ht). rewrite Hw. set_solver. }
    destruct (_ || _).
    + unfold slice. intros Hn. apply Hseg. apply elem_of_take in Hn as (i & Hi & _). rewrite lookup_drop in Hi.
      by eapply list_elem_of_lookup_2.
    + destruct (AllowPythonMultilineValues o && endsWithLineBreak t) eqn:Ea; [|done].
      apply andb_true_iff in Ea as [_ Ea]. split; [done|].
      apply ends_terminated; [done|]. unfold endsWithLineBreak, lastByte in *. rewrite Hs.
      by destruct (exists_last Hne) as (z & d & Hz); fold t in Hz; rewrite Hz, app_assoc, !last_snoc in *.
Qed.

Lemma classify_ok o lv : oneLine lv -> formOk lv (classify o lv).
Proof.
  intros Hlv. unfold classify. destruct (trimLeft_suffix lv) as [s Hs].
  destruct (trimLeftSpace lv) as [|c t] eqn:Et.
  { destruct (_ && _) eqn:E; [|apply not_elem_of_nil]. apply andb_true_iff in E as [_ E].
    split; [apply not_elem_of_nil|]. by apply ends_terminated. }
  rewrite <- Et in Hs |- *. case_bool_decide as Hq.
  2: { apply bare_ok; [done|]. by rewrite Et. }
  assert (quoteOf (trimLeftSpace lv) = quote_head (c :: t) c) as Eq by (by rewrite Et).
  rewrite Eq in *. destruct (quote_head_cases (c :: t) c) as [E|Hcase]; [done|].
  set (q := quote_head (c :: t) c) in *.
  pose proof (quote_head_prefix t c) as Hp. fold q in Hp. apply HasPrefix_spec in Hp as [x Hx].
  assert (drop (length q) (trimLeftSpace lv) = x) as -> by (rewrite Et, Hx; by rewrite drop_app_length).
  rewrite Et, Hx, app_assoc in Hs.
  destruct (LastIndex x q) as [i|] eqn:Ei.
  - apply LastIndex_some in Ei as (a & b & -> & <-). rewrite take_app_length.
    eapply oneLine_before; [exact Hlv|exact Hs|]. by destruct q.
  - split_and!; [done|by apply LastIndex_none|by eapply oneLine_suffix|].
    intros Ht. eapply terminated_suffix; [exact Ht|exact Hs|]. intros ->. rewrite app_nil_r in *.
    destruct Ht as (b & Hb & _). rewrite Hb in Hs. destruct Hcase as [Hcase|Hcase]; rewrite Hcase in Hs.
    + by apply app_inj_tail in Hs as [_ Hs].
    + change triple with ([dquote; dquote] ++ [dquote])%list in Hs. rewrite app_assoc in Hs. by apply app_inj_tail in Hs as [_ Hs].
Qed.

(** ** Complete lines *)

Definition closed (b : bytes) : Prop := b = [] \/ exists x, b = (x ++ [newline])%list.

Lemma closed_line b : closed b -> b <> [] ->
  exists ln b', b = (ln ++ b')%list /\ closed b' /\ terminated ln /\ forall r, line (b ++ r)%list = (ln, (b' ++ r)%list).
Proof.
  intros [->|[x ->]] Hb; [done|]. clear Hb. destruct (line_cases x) as [H|(a & y & -> & H)].
  - exists (x ++ [newline])%list, []. rewrite app_nil_r. split_and!; [done|by left|by exists x|].
    intros r. rewrite <- app_assoc. simpl. by rewrite line_nl.
  - exists (a ++ [newline])%list, (y ++ [newline])%list. rewrite <- !app_assoc. simpl.
    split_and!; [done|right; by exists y|by exists a|]. intros r. rewrite <- !app_assoc. simpl. rewrite line_nl by done. by rewrite <- app_assoc.
Qed.

Lemma startsIndented_app b r X : b <> [] -> startsIndented (b ++ r)%list = startsIndented (b ++ X)%list.
Proof. by destruct b. Qed.

Lemma Closing_shorter quote r t r' : Closing quote r t r' -> length r' < length r.
Proof. induction 1 as [? ? ? ? ? H|? ? ? ? ? ? H]; apply line_shorter in H; [done|done| |done]; lia. Qed.

Lemma Continued_shorter r t r' : Continued r t r' -> length r' <= length r.
Proof.
  induction 1 as [|r ln q t r' H Hs]; [done|]. apply line_shorter in H; [lia|]. by intros ->.
Qed.

Lemma Joining_shorter val r v r' : Joining val r v r' -> (r = [] /\ r' = [] /\ v = val) \/ length r' < length r.
Proof.
  induction 1 as [|? ? ? ? ? H|? ? ? ? ? H|? ? ? ? ? ? ? H]; [by left|..]; right; apply line_shorter in H; try done.
  destruct IHJoining as [(_ & -> & _)|]; simpl in *; lia.
Qed.

Lemma Closing_local quote b t r : Closing quote (b ++ r)%list t r -> closed b -> forall X, Closing quote (b ++ X)%list t X.
Proof.
  intros H. remember (b ++ r)%list as l eqn:E. revert b E.
  induction H as [l ln q i Hl El Ei|l ln q t r' Hl El Ei H IH]; intros b -> Hb X.
  - destruct (decide (b = [])) as [->|Hne].
    { apply line_shorter in El; [|done]. simpl in El. lia. }
    destruct (closed_line b Hb Hne) as (ln' & b' & Eb & Hb' & _ & Hline).
    rewrite Hline in El. injection El as -> El. assert (b' = []) as ->.
    { apply (f_equal length) in El. rewrite length_app in El. destruct b'; [done|simpl in El; lia]. }
    apply (Cl_here _ _ ln X i); [|by rewrite Hline|done]. intros Hn. by apply app_eq_nil in Hn as [-> _].
  - destruct (decide (b = [])) as [->|Hne].
    { apply line_shorter in El; [|done]. apply Closing_shorter in H. simpl in El. lia. }
    destruct (closed_line b Hb Hne) as (ln' & b' & Eb & Hb' & _ & Hline).
    rewrite Hline in El. injection El as -> <-.
    apply (Cl_more _ _ ln (b' ++ X)%list t X); [|by rewrite Hline|done|by apply IH]. intros Hn. by apply app_eq_nil in Hn as [-> _].
Qed.

Lemma Continued_total r : exists t r', Continued r t r'.
Proof.
  destruct (readContinuedValue_spec (length r) [] 0 0 (mkParser r 0)) as (t & v & q & _ & _ & H); [done|]. by exists t, (rest q).
Qed.

Lemma Continued_indented r t r' : startsIndented r = true -> Continued r t r' -> t <> [].
Proof. intros Hr H. inversion H; subst; [congruence|done]. Qed.

Lemma Continued_dropLines r t r' : Continued r t r' -> exists j, r' = dropLines j r.
Proof.
  induction 1 as [|r ln q t r' E _ _ [j ->]]; [by exists 0|]. exists (S j). simpl. by rewrite E.
Qed.

Lemma Continued_local b t r : Continued (b ++ r)%list t r -> closed b ->
  (forall X, startsIndented X = false -> Continued (b ++ X)%list t X) /\
  (forall X, startsIndented X = true -> exists t' r', t' <> [] /\ Continued (b ++ X)%list (t ++ t')%list r' /\ exists j, r' = dropLines j X).
Proof.
  intros H. remember (b ++ r)%list as l eqn:E. revert b E.
  induction H as [l Hs|l ln q t r' El Hs H IH]; intros b Eb Hb.
  - assert (b = []) as ->. { apply (f_equal length) in Eb. rewrite length_app in Eb. destruct b; [done|simpl in Eb; lia]. }
    split; [intros X HX; by apply C_stop|]. intros X HX. destruct (Continued_total X) as (t & r' & Ht).
    exists t, r'. split_and!; [by eapply Continued_indented|done|by eapply Continued_dropLines].
  - subst l. destruct (decide (b = [])) as [->|Hne].
    { apply line_shorter in El; [|by intros Hn; simpl in Hn; rewrite Hn in Hs]. apply Continued_shorter in H. simpl in El. lia. }
    destruct (closed_line b Hb Hne) as (ln' & b' & Eb & Hb' & _ & Hline).
    rewrite Hline in El. injection El as -> <-. destruct (IH b' eq_refl Hb') as [IH1 IH2]. split.
    + intros X HX. eapply C_more; [by rewrite Hline| |by apply IH1]. by rewrite (startsIndented_app b X r').
    + intros X HX. destruct (IH2 X HX) as (t' & r2 & Ht & Hc & Hj). exists t', r2. split; [done|]. split; [|done].
      rewrite app_comm_cons, <- app_assoc. eapply C_more; [by rewrite Hline| |done]. by rewrite (startsIndented_app b X r').
Qed.

(** The text ends with a backslash, space aside. *)
Definition pending (b : bytes) : Prop := lastByte (trimRightSpace b) = Some backslash.

Lemma last_app_ne (x y : list ascii) : y <> [] -> last (x ++ y)%list = last y.
Proof. intros Hy. destruct (exists_last Hy) as (z & c & ->). by rewrite app_assoc, !last_snoc. Qed.

Lemma pending_app u ln : lastByte (TrimSpace ln) = Some backslash -> pending (u ++ ln)%list.
Proof.
  unfold TrimSpace, pending, lastByte. intros H. apply last_Some in H as [y Hy].
  destruct (trimLeft_suffix ln) as [s Hs]. set (t := trimLeftSpace ln) in *.
  destruct (trimRight_prefix t) as [w Hw]. rewrite Hy, <- app_assoc in Hw. simpl in Hw.
  rewrite Hw, trimRight_app in Hy by done. apply app_inv_head in Hy. injection Hy as Hy.
  rewrite Hs, Hw, !app_assoc, trimRight_app, Hy by done. by rewrite last_snoc.
Qed.

Lemma Joining_local x b v r u : Joining x (b ++ r)%list v r -> closed b -> pending u ->
  (r <> [] \/ ~ pending (u ++ b)%list) -> forall X, Joining x (b ++ X)%list v X.
Proof.
  intros H. remember (b ++ r)%list as l eqn:E. revert b u E.
  induction H as [x|x l ln q Hl El Et|x l ln q Hl El Et Elast|x l ln q v r' Hl El Et Elast H IH]; intros b u Eb Hb Hu Hp X.
  - symmetry in Eb. apply app_eq_nil in Eb as [-> _]. rewrite app_nil_r in Hp. by destruct Hp.
  - subst l. destruct (decide (b = [])) as [->|Hne].
    { apply line_shorter in El; [|done]. simpl in El. lia. }
    destruct (closed_line b Hb Hne) as (ln' & b' & Eb & Hb' & _ & Hline).
    rewrite Hline in El. injection El as -> El. assert (b' = []) as ->.
    { apply (f_equal length) in El. rewrite length_app in El. destruct b'; [done|simpl in El; lia]. }
    eapply J_blank; [|by rewrite Hline|done]. intros Hn. by apply app_eq_nil in Hn as [-> _].
  - subst l. destruct (decide (b = [])) as [->|Hne].
    { apply line_shorter in El; [|done]. simpl in El. lia. }
    destruct (closed_line b Hb Hne) as (ln' & b' & Eb & Hb' & _ & Hline).
    rewrite Hline in El. injection El as -> El. assert (b' = []) as ->.
    { apply (f_equal length) in El. rewrite length_app in El. destruct b'; [done|simpl in El; lia]. }
    eapply J_last; [|by rewrite Hline|done|done]. intros Hn. by apply app_eq_nil in Hn as [-> _].
  - subst l. destruct (decide (b = [])) as [->|Hne].
    { apply line_shorter in El; [|done]. apply Joining_shorter in H as [(_ & -> & _)|H]; simpl in *; lia. }
    destruct (closed_line b Hb Hne) as (ln' & b' & Eb & Hb' & _ & Hline).
    rewrite Hline in El. injection El as -> <-.
    eapply J_more; [|by rewrite Hline|done|done|].
    + intros Hn. by apply app_eq_nil in Hn as [-> _].
    + apply (IH b' (u ++ ln)%list); [done|done| |].
      * apply pending_app. rewrite <- Elast. unfold lastByte. by rewrite last_app_ne.
      * destruct Hp as [Hp|Hp]; [by left|]. right. by rewrite <- app_assoc, <- Eb.
Qed.

(** ** An entry *)

(** A body is read as the entry, whatever follows it that is not indented; what is indented
    does not matter, or makes another value. *)
Definition good (o : Options) (b k v : bytes) : Prop :=
  (forall X, startsIndented X = false -> Reads o (b ++ X)%list (Entry k v) X) /\
  ((forall X, Reads o (b ++ X)%list (Entry k v) X) \/
   (forall X, startsIndented X = true -> exists v' r, v' <> v /\ Reads o (b ++ X)%list (Entry k v') r /\ exists j, r = dropLines j X)).

(** The value of the key line at the head of a text goes on after a backslash. *)
Definition joins (o : Options) (b : bytes) : Prop :=
  exists k lv x, lineOf o (line b).1 = KeyLine k lv /\ classify o lv = Joined x.

Lemma Reads_local o b k v r : KeyValueDelimiters o = lit "=:" ->
  Reads o (b ++ r)%list (Entry k v) r -> closed b -> b <> [] -> (joins o b -> r <> [] \/ ~ pending b) -> good o b k v.
Proof.
  intros Ho H Hb Hne Hj. destruct (closed_line b Hb Hne) as (ln & b' & Eb & Hb' & Hln & Hline).
  inversion H as [| |l ln' q k' lv v' r' Hl El Ef Hv]; subst k' v' r' l. rewrite Hline in El. injection El as <- <-.
  assert (forall v r X, ReadsValue o lv (b' ++ X)%list v r -> Reads o (b ++ X)%list (Entry k v) r) as Hre.
  { intros v0 r0 X Hv0. eapply R_entry; [|by rewrite Hline|exact Ef|exact Hv0]. intros Hn. by apply app_eq_nil in Hn as [-> _]. }
  destruct (lineOf_key o ln k lv Ho Ef ltac:(by right)) as ([w Hw] & Hone & _ & _).
  unfold good. pose proof (classify_ok o lv Hone) as Hok. unfold ReadsValue in Hv, Hre.
  destruct (classify o lv) as [x|seg|quote x|x] eqn:Ec.
  - destruct Hv as [-> Hv]. assert (b' = []) as ->.
    { apply (f_equal length) in Hv. rewrite length_app in Hv. destruct b'; [done|simpl in Hv; lia]. }
    split; [|left]; intros X; [intros _|]; by apply Hre.
  - destruct Hv as (t & -> & Hc). destruct (Continued_local _ _ _ Hc Hb') as [H1 H2]. split; [|right].
    + intros X HX. apply Hre. exists t. split; [done|by apply H1].
    + intros X HX. destruct (H2 X HX) as (t' & r' & Ht' & Hc' & Hj'). exists (seg ++ t ++ t')%list, r'. split_and!; [| |done].
      * intros Hn. rewrite app_assoc in Hn. apply (f_equal length) in Hn. rewrite (length_app _ t') in Hn. destruct t'; [done|simpl in Hn; lia].
      * apply Hre. by exists (t ++ t')%list.
  - destruct Hv as (t & -> & Hc). split; [|left]; intros X; [intros _|]; apply Hre; exists t; (split; [done|by eapply Closing_local]).
  - assert (forall X, Joining x (b' ++ X)%list v X) as HJ.
    { destruct Hok as (_ & w' & Ew & Ew'). apply (Joining_local x b' v r ln Hv Hb').
      - rewrite Hw. destruct (trimLeft_suffix lv) as [s Hs]. rewrite Hs, Ew, !app_assoc. unfold pending, lastByte.
        rewrite trimRight_app, Ew', last_snoc by done. done.
      - rewrite <- Eb. apply Hj. exists k, lv, x. split; [|done]. specialize (Hline []). rewrite !app_nil_r in Hline. by rewrite Hline. }
    split; [|left]; intros X; [intros _|]; apply Hre; apply HJ.
Qed.

End inilocal.
