(* ===== verification/IniDoc.v ===== *)
(** * util/ini: what a document is read as

    A document is read as the items of its lines, one after the other; what loading it
    gives is what these items say. *)

From S2P Require Import Prelude.
From S2P Require Import Ini.
From S2P Require Import IniBytes.
From S2P Require Import IniRead.
From S2P Require Import IniLocal.
From Stdlib Require Import Ascii.

Open Scope string_scope.

Module inidocument.

Import inidoc iniread inivalue inilocal.

(** ** What the items say *)

Inductive Items (o : Options) : bytes -> list item -> Prop :=
| I_nil : Items o [] []
| I_cons l it r its : Reads o l it r -> Items o r its -> Items o l (it :: its).

Definition findSection (secs : list Section) (s : bytes) : option Section :=
  find (fun sec => bool_decide (sectionName sec = s)) secs.

Definition onSections (s : bytes) (g : Section -> Section) (secs : list Section) : list Section :=
  (fun sec => if bool_decide (sectionName sec = s) then g sec else sec) <$> secs.

Definition force (s : bytes) (secs : list Section) : list Section :=
  match findSection secs s with Some _ => secs | None => (secs ++ [mkSection s []])%list end.

Definition define (s k v : bytes) (auto : bool) (secs : list Section) : list Section :=
  match findSection secs s ≫= fun sec => keyOf sec k with
  | Some _ => onSections s (fun sec => sec <| keys ::= fmap (fun key => if bool_decide (name key = k) then key <| value := v |> else key) |>) secs
  | None => onSections s (fun sec => sec <| keys ::= fun l => (l ++ [mkKey k v auto])%list |>) secs
  end.

(** The sections so far, the current one, the number of the next unnamed key. *)
Definition state := (list Section * bytes * nat)%type.

Definition isAuto (k : bytes) : bool := bool_decide (k = lit "-").
Definition numbered (n : nat) (k : bytes) : bytes := if isAuto k then ("#"%char :: itoa n)%list else k.

Definition absorb (st : state) (it : item) : state :=
  let '(secs, cur, n) := st in
  match it with
  | Blank => st
  | Header s => (force s secs, s, 1)
  | Entry k v => (define cur (numbered n k) v (isAuto k) secs, cur, if isAuto k then S n else n)
  end.

Definition stateOf (lp : loop) : state := (sections (file lp), current lp, autoIncrementAt lp).

(** What the element [b] makes of the nodes. *)
Definition addNode (st : state) (it : item) (tr b : bytes) (l l' : list node) : Prop :=
  let '(secs, cur, n) := st in
  match it with
  | Blank => l' = l
  | Header s => l' = (l ++ [mkNode tr (Some b) (SectionRef s) 0 0 false])%list
  | Entry k _ =>
      let k := numbered n k in
      exists vs ve sp,
        match findSection secs cur ≫= fun sec => keyOf sec k with
        | Some _ =>
            l' = (fun nd => if bool_decide (ref nd = KeyRef cur k)
                            then mkNode (trivia nd) (Some b) (ref nd) vs ve sp else nd) <$> l
        | None => l' = (l ++ [mkNode tr (Some b) (KeyRef cur k) vs ve sp])%list
        end
  end.

Lemma between_app p q b : rest p = (b ++ rest q)%list -> between p q = b.
Proof. intros H. unfold between. rewrite H, length_app. replace (_ - _)%nat with (length b) by lia. apply take_app_length. Qed.

Lemma Reads_suffix o l it r : Reads o l it r -> exists b, l = (b ++ r)%list.
Proof.
  assert (forall l ln r, line l = (ln, r) -> l = (ln ++ r)%list) as Hl by (intros ??? E; pose proof (line_split l0) as H; by rewrite E in H).
  intros [? ln ? _ E _|? ln ? ? _ E _|l0 ln q k lv v r0 _ E _ Hv]; [by exists ln; apply Hl..|].
  apply Hl in E as ->. cut (exists b, q = (b ++ r0)%list). { intros [b ->]. exists (ln ++ b)%list. by rewrite app_assoc. }
  unfold ReadsValue in Hv. destruct (classify o lv) as [x|seg|quote x|x].
  - destruct Hv as [_ ->]. by exists [].
  - destruct Hv as (t & _ & H). clear -H Hl. induction H as [|? ? ? ? ? E _ _ [b ->]]; [by exists []|].
    apply Hl in E as ->. exists (ln ++ b)%list. by rewrite app_assoc.
  - destruct Hv as (t & _ & H). clear -H Hl. induction H as [? ? ? ? _ E _|? ? ? ? ? _ E _ _ [b ->]]; apply Hl in E as ->; [by eexists|].
    exists (ln ++ b)%list. by rewrite app_assoc.
  - clear -Hv Hl. induction Hv as [|? ? ? ? _ E _|? ? ? ? _ E _ _|? ? ? ? ? ? _ E _ _ _ [b ->]]; [by exists []|..]; apply Hl in E as ->; try by eexists.
    exists (ln ++ b)%list. by rewrite app_assoc.
Qed.

(** ** A round of the loop *)

Lemma addKey_reader lp k auto v q r : reader (addKey lp k auto v q r) = r.
Proof. unfold addKey. by destruct (_ ≫= _). Qed.

Lemma parseLine_sound data lp lp' : rest (reader lp) <> [] -> parseLine data lp = inr lp' ->
  exists it b,
    rest (reader lp) = (b ++ rest (reader lp'))%list /\
    Reads (opts (file lp)) (rest (reader lp)) it (rest (reader lp')) /\
    stateOf lp' = absorb (stateOf lp) it /\
    addNode (stateOf lp) it (between (triviaAt lp) (reader lp)) b (nodes (file lp)) (nodes (file lp')) /\
    triviaAt lp' = match it with Blank => triviaAt lp | _ => reader lp' end /\
    (opts (file lp'), Format_ (file lp'), bom (file lp')) = (opts (file lp), Format_ (file lp), bom (file lp)).
Proof.
  intros Hne. unfold parseLine, readLine. destruct (line (rest (reader lp))) as [ln q] eqn:El.
  pose proof (line_split (rest (reader lp))) as Hsp. rewrite El in Hsp.
  pose proof (R_blank (opts (file lp)) _ ln q Hne El) as HB.
  pose proof (fun s => R_header (opts (file lp)) _ ln q s Hne El) as HH.
  pose proof (fun k lv v r => R_entry (opts (file lp)) _ ln q k lv v r Hne El) as HE.
  unfold lineOf in HB, HH, HE. destruct (trimLeftSpace ln) as [|c t] eqn:Et.
  { intros [= <-]. exists Blank, ln. split_and!; try done. by apply HB. }
  destruct (oneOf c "#;"). { intros [= <-]. exists Blank, ln. split_and!; try done. by apply HB. }
  destruct (Ascii.eqb c "[").
  - destruct (LastIndex _ _) as [i|]; [|done]. case_bool_decide as Hs; [done|]. intros [= <-].
    exists (Header (slice (c :: t) 1 i)), ln. split_and!; try done.
    + by apply HH.
    + unfold stateOf, absorb, appendNode, forceSection, force, section, findSection. simpl. by destruct (find _ _).
    + unfold stateOf, addNode, appendNode, forceSection, section. cbn [nodes file].
      rewrite (between_app (reader lp) _ ln) by done. destruct (find _ _); done.
    + unfold forceSection, section. simpl. by destruct (find _ _).
  - destruct (readKeyName _ _) as [e|[k off]]; [done|]. case_bool_decide as Hk; [done|].
    destruct (readValue _ _ _ _) as [[v r]|] eqn:Ev; [|done].
    pose proof (readValue_spec (opts (file lp)) (pos (reader lp) + (length ln - length (c :: t)) + off) (drop off (c :: t)) (mkParser q (pos (reader lp) + length ln))) as Hv.
    rewrite Ev in Hv. simpl in Hv.
    intros [= <-]. specialize (HE k (drop off (c :: t)) (text v) (rest r) eq_refl Hv).
    destruct (Reads_suffix _ _ _ _ HE) as [b Hb].
    exists (Entry k (text v)), b. rewrite addKey_reader. split_and!; [done|done|..]; unfold addKey; cbv zeta;
      fold (isAuto k); fold (numbered (autoIncrementAt lp) k).
    + unfold stateOf, absorb, define. change (findSection (sections (file lp))) with (section (file lp)).
      by destruct (section (file lp) (current lp) ≫= _).
    + unfold stateOf, addNode. exists (from v - pos (reader lp))%nat, (upto v - pos (reader lp))%nat, (span v).
      change (findSection (sections (file lp))) with (section (file lp)).
      rewrite (between_app (reader lp) r b) by done.
      by destruct (section (file lp) (current lp) ≫= _).
    + by destruct (section (file lp) (current lp) ≫= _).
    + by destruct (section (file lp) (current lp) ≫= _).
Qed.

Lemma parseLine_complete data lp it r : Reads (opts (file lp)) (rest (reader lp)) it r -> exists lp', parseLine data lp = inr lp'.
Proof.
  intros H. unfold parseLine, readLine. remember (rest (reader lp)) as l eqn:Er.
  destruct H as [l ln r Hl E Ef|l ln r s Hl E Ef|l ln q k lv v r Hl E Ef Hv]; rewrite E; unfold lineOf in Ef;
    destruct (trimLeftSpace ln) as [|c t]; try (by eexists); destruct (oneOf c "#;"); try (by eexists);
    destruct (Ascii.eqb c "["); try (destruct (LastIndex _ _); [|done]; case_bool_decide; [done|by eexists]);
    destruct (readKeyName _ _) as [e|[k' off]]; try done; case_bool_decide; try done.
  injection Ef as -> <-.
  destruct (readValue_complete (opts (file lp)) (pos (reader lp) + (length ln - length (c :: t)) + off) (drop off (c :: t))
    (mkParser q (pos (reader lp) + length ln)) v r Hv) as (vv & q' & -> & _). by eexists.
Qed.

Lemma Reads_shorter o l it r : Reads o l it r -> length r < length l.
Proof.
  intros H. assert (l <> []) as Hl by (by destruct H).
  destruct H as [? ln ? _ E _|? ln ? ? _ E _|l0 ln q k lv v r0 _ E _ Hv]; [by eapply line_shorter..|].
  apply line_shorter in E; [|done]. cut (length r0 <= length q)%nat; [lia|].
  unfold ReadsValue in Hv. destruct (classify o lv).
  - by destruct Hv as [_ ->].
  - destruct Hv as (t & _ & H). by eapply Continued_shorter.
  - destruct Hv as (t & _ & H). apply Closing_shorter in H. lia.
  - apply Joining_shorter in Hv as [(-> & -> & _)|]; simpl; lia.
Qed.

(** ** The loop *)

Lemma parseLoop_ind data (P : loop -> Prop) fuel lp lp' :
  (forall lp lp', P lp -> rest (reader lp) <> [] -> parseLine data lp = inr lp' -> P lp') ->
  parseLoop fuel data lp = inr lp' -> P lp -> P lp'.
Proof.
  intros Hstep. revert lp. induction fuel as [|fuel IH]; intros lp; simpl; [by intros [= <-]|].
  unfold eof. destruct (rest (reader lp)) as [|c l] eqn:Er; [by intros [= <-]|].
  destruct (parseLine data lp) as [e|lp1] eqn:Ep; [done|]. intros H HP. apply (IH lp1); [done|].
  eapply Hstep; [exact HP| |exact Ep]. by rewrite Er.
Qed.

Lemma parseLoop_sound data fuel lp lp' : (length (rest (reader lp)) <= fuel)%nat -> parseLoop fuel data lp = inr lp' ->
  exists its, Items (opts (file lp)) (rest (reader lp)) its /\ stateOf lp' = foldl absorb (stateOf lp) its /\
    rest (reader lp') = [].
Proof.
  revert lp. induction fuel as [|fuel IH]; intros lp Hf; simpl.
  { intros [= <-]. exists []. destruct (rest (reader lp)); simpl in Hf; [|lia]. split_and!; [constructor|done|done]. }
  unfold eof. destruct (rest (reader lp)) as [|c l] eqn:Er.
  { intros [= <-]. exists []. split_and!; [constructor|done|done]. }
  destruct (parseLine data lp) as [e|lp1] eqn:Ep; [done|]. intros H.
  destruct (parseLine_sound data lp lp1) as (it & b & Hb & HR & Hst & _ & _ & Ho); [by rewrite Er|done|].
  injection Ho as Ho _ _. rewrite Er in HR. pose proof (Reads_shorter _ _ _ _ HR) as Hl.
  destruct (IH lp1) as (its & HI & Hst' & He); [simpl in *; lia|done|]. rewrite Ho in HI.
  exists (it :: its). split_and!; [by econstructor| |done]. cbn [foldl]. by rewrite <- Hst.
Qed.

Lemma parseLoop_complete data fuel lp its : Items (opts (file lp)) (rest (reader lp)) its ->
  exists lp', parseLoop fuel data lp = inr lp'.
Proof.
  revert lp its. induction fuel as [|fuel IH]; intros lp its HI; simpl; [by eexists|].
  unfold eof. destruct (rest (reader lp)) as [|c l] eqn:Er; [by eexists|].
  inversion HI as [|? it r its' HR HI']; subst. rewrite <- Er in HR.
  destruct (parseLine_complete data lp it r HR) as [lp1 E]. rewrite E.
  destruct (parseLine_sound data lp lp1) as (it2 & b & _ & HR2 & _ & _ & _ & Ho); [by rewrite Er|done|].
  destruct (Reads_det _ _ _ _ _ _ HR HR2) as [-> ->]. injection Ho as Ho _ _.
  apply (IH lp1 its'). by rewrite Ho.
Qed.

(** ** A document *)

Definition textOf (b : bytes) : bytes := if HasPrefix b bomUTF8 then drop 3 b else b.

Definition initial (o : Options) : state := ([mkSection (DefaultSectionName o) []], DefaultSectionName o, 1).

Definition startLoop (o : Options) (b : bytes) : loop :=
  let s := DefaultSectionName o in
  let p := if HasPrefix b bomUTF8 then mkParser (drop 3 b) 3 else mkParser b 0 in
  mkLoop p p s 1
    (mkFile (Format_ (newFile o)) o (if HasPrefix b bomUTF8 then bomUTF8 else []) [] [mkSection s []] [Data b] []).

Lemma withDefaults_idem o : withDefaults (withDefaults o) = withDefaults o.
Proof. destruct o as [? ? ? ? ? [|] [|] [|]]; reflexivity. Qed.

Lemma LoadBytes_loop o b :
  LoadBytes o b =
    if negb (HasPrefix b bomUTF8) && (HasPrefix b bomUTF16BE || HasPrefix b bomUTF16LE) then inl UTF16
    else match parseLoop (length b) b (startLoop (withDefaults o) b) with
         | inl e => inl e
         | inr lp => inr ((file lp) <| epilogue := rest (triviaAt lp) |>)
         end.
Proof.
  unfold LoadBytes, Load, newFile. cbv zeta. cbn [Format_ opts bom nodes sections epilogue].
  generalize (withDefaults o) as O. intros O.
  unfold load, loadSources, startLoop, parse, newFile. cbn [Format_ opts bom nodes sections sources epilogue].
  assert (forall s fm bm, forceSection s (mkFile fm O bm [] [mkSection s []] [Data b] []) = mkFile fm O bm [] [mkSection s []] [Data b] []) as H1.
  { intros s fm bm. unfold forceSection, section. simpl. by rewrite bool_decide_true. }
  change (forceSection (DefaultSectionName O) (mkFile (Format_withDefaults (mkFormat [] [] true true)) O [] [] [] [Data b] []))
    with (mkFile (Format_withDefaults (mkFormat [] [] true true)) O [] [] [mkSection (DefaultSectionName O) []] [Data b] []).
  cbn [opts]. unfold upd, upd_bom. cbn [Format_ opts bom nodes sections sources epilogue]. rewrite !H1.
  destruct (HasPrefix b bomUTF8); cbn [negb andb].
  { by destruct (parseLoop _ _ _). }
  destruct (_ || _); [done|]. by destruct (parseLoop _ _ _).
Qed.

Lemma Load_sound o b f : LoadBytes o b = inr f ->
  exists its, Items (withDefaults o) (textOf b) its /\ sections f = (foldl absorb (initial (withDefaults o)) its).1.1.
Proof.
  rewrite LoadBytes_loop. destruct (_ && _); [done|].
  destruct (parseLoop _ _ _) as [e|lp] eqn:E; [done|]. intros [= <-].
  assert (rest (reader (startLoop (withDefaults o) b)) = textOf b) as Ht.
  { unfold startLoop, textOf. by destruct (HasPrefix b bomUTF8). }
  apply parseLoop_sound in E as (its & HI & Hst & _).
  - exists its. rewrite Ht in HI. split; [done|]. unfold stateOf in Hst. cbn.
    change (stateOf (startLoop (withDefaults o) b)) with (initial (withDefaults o)) in Hst.
    apply (f_equal (fun st => st.1.1)) in Hst. exact Hst.
  - rewrite Ht. unfold textOf. destruct (HasPrefix b bomUTF8); [rewrite length_drop; lia|done].
Qed.

Lemma Load_complete o b its : HasPrefix b bomUTF16BE = false -> HasPrefix b bomUTF16LE = false ->
  Items (withDefaults o) (textOf b) its -> exists f, LoadBytes o b = inr f.
Proof.
  intros H1 H2 HI. rewrite LoadBytes_loop, H1, H2, andb_false_r.
  assert (rest (reader (startLoop (withDefaults o) b)) = textOf b) as Ht.
  { unfold startLoop, textOf. by destruct (HasPrefix b bomUTF8). }
  destruct (parseLoop_complete b (length b) (startLoop (withDefaults o) b) its) as [lp ->]; [by rewrite Ht|]. by eexists.
Qed.

End inidocument.
