(* ===== verification/IniLines.v ===== *)
(** * util/ini: the lines of a value

    The lines of a value are the lines of its text: what a value that is read where another
    is written can be. *)

From S2P Require Import Prelude.
From S2P Require Import Ini.
From S2P Require Import IniBytes.
From S2P Require Import IniRead.
From S2P Require Import IniLocal.
From S2P Require Import IniDoc.
From Stdlib Require Import Ascii.

Open Scope string_scope.

Module inilines.

Import inidoc iniread inivalue inilocal inidocument.

(** ** Blank and comment lines *)

Definition dull (x : bytes) : bool := match trimLeftSpace x with [] => true | c :: _ => oneOf c "#;" end.

Lemma trimLeft_snoc_nl a :
  trimLeftSpace (a ++ [newline])%list = match trimLeftSpace a with [] => [] | t => (t ++ [newline])%list end.
Proof.
  remember (length a) as n eqn:E. revert a E. induction n as [n IH] using Wf_nat.lt_wf_ind. intros a ->.
  destruct a as [|x a]; [done|]. simpl. destruct (isSpace1 x). { apply (IH (length a)); simpl; lia || done. }
  destruct a as [|y a]; simpl.
  { assert (isSpace2 x newline = false) as -> by (unfold isSpace2; by rewrite andb_false_r). done. }
  destruct (isSpace2 x y). { apply (IH (length a)); simpl; lia || done. }
  destruct a as [|z a]; simpl.
  { assert (isSpace3 x y newline = false) as ->; [|done]. unfold isSpace3. simpl. rewrite !andb_false_r.
    by destruct (Ascii.eqb x "225"), (Ascii.eqb x "226"). }
  destruct (isSpace3 x y z); [|done]. apply (IH (length a)); simpl; lia || done.
Qed.

Lemma dull_nl x : dull (x ++ [newline])%list = dull x.
Proof. unfold dull. rewrite trimLeft_snoc_nl. by destruct (trimLeftSpace x). Qed.

Lemma dull_lineOf o x : dull x = true -> lineOf o x = Trivia.
Proof. unfold dull, lineOf. destruct (trimLeftSpace x); [done|]. by intros ->. Qed.

(** A line cut at a quote. *)
Lemma dull_cut w c z : solid c = true -> dull (w ++ c :: z)%list = true -> dull w = true.
Proof. intros Hc. unfold dull. rewrite trimLeft_app by done. by destruct (trimLeftSpace w). Qed.

Definition dullText (l : bytes) : Prop := Forall (fun x => dull x = true) (splitLines l).

Lemma line_of_split l x ls : splitLines l = x :: ls ->
  (line l = (x, []) /\ ls = []) \/ (line l = ((x ++ [newline])%list, (line l).2) /\ ls = splitLines (line l).2).
Proof.
  intros E. destruct (line_cases l) as [H|(a & r & -> & H)].
  - rewrite splitLines_end in E by done. injection E as <- <-. left. by rewrite line_end.
  - rewrite splitLines_nl in E by done. injection E as <- <-. right. by rewrite line_nl.
Qed.

Lemma Reads_dull o l x ls it r : splitLines l = x :: ls -> dull x = true -> Reads o l it r -> it = Blank.
Proof.
  intros E Hd H. destruct (line_of_split l x ls E) as [[El _]|[El _]].
  - pose proof (dull_lineOf o x Hd) as Hf.
    destruct H as [|? ln ? ? ? E1 E2|? ln ? ? ? ? ? ? E1 E2]; [done|..]; rewrite El in E1; injection E1 as <- <-; congruence.
  - rewrite <- dull_nl in Hd. pose proof (dull_lineOf o _ Hd) as Hf.
    destruct H as [|? ln ? ? ? E1 E2|? ln ? ? ? ? ? ? E1 E2]; [done|..]; rewrite El in E1; injection E1 as <- <-; congruence.
Qed.

Lemma dullText_dropLines n l : dullText l -> dullText (dropLines n l).
Proof.
  intros H. destruct (decide (dropLines n l = [])) as [->|Hn].
  - unfold dullText. simpl. by repeat constructor.
  - unfold dullText. rewrite splitLines_drop by done. by apply Forall_drop.
Qed.

(** Blank and comment lines are read as no element. *)
Lemma dullText_items o l : dullText l -> exists its, Items o l its /\ Forall (fun it => it = Blank) its.
Proof.
  induction l as [a Ha|a r Ha IH] using text_ind; intros Hd.
  - destruct (decide (a = [])) as [->|Hne]; [by exists []; split; [constructor|]|].
    exists [Blank]. split; [|by repeat constructor]. eapply I_cons; [|constructor].
    apply (R_blank o a a []); [done|by apply line_end|]. apply dull_lineOf.
    unfold dullText in Hd. rewrite splitLines_end in Hd by done. by inversion Hd.
  - unfold dullText in Hd. rewrite splitLines_nl in Hd by done. inversion Hd as [|? ? Hx Hr]; subst.
    destruct (IH Hr) as (its & HI & Hb). exists (Blank :: its). split; [|by constructor].
    eapply I_cons; [|exact HI]. eapply R_blank; [|by apply line_nl|].
    + by destruct a.
    + apply dull_lineOf. by rewrite dull_nl.
Qed.

(** ** Whole lines are read *)

Lemma line_dropLines l ln r : line l = (ln, r) -> r = dropLines 1 l.
Proof. intros E. simpl. by rewrite E. Qed.

Lemma Reads_dropLines o l it r : Reads o l it r -> exists j, r = dropLines (S j) l.
Proof.
  intros [? ln ? _ E _|? ln ? ? _ E _|l0 ln q k lv v r0 _ E _ Hv]; [by exists 0; eapply line_dropLines..|].
  cut (exists j, r0 = dropLines j q). { intros [j ->]. exists j. simpl. by rewrite E. }
  unfold ReadsValue in Hv. destruct (classify o lv).
  - destruct Hv as [_ ->]. by exists 0.
  - destruct Hv as (t & _ & H). by eapply Continued_dropLines.
  - destruct Hv as (t & _ & H). clear -H. induction H as [? ? ? ? _ E|? ? ? ? ? _ E _ _ [j ->]].
    + exists 1. by eapply line_dropLines.
    + exists (S j). simpl. by rewrite E.
  - clear -Hv. induction Hv as [|? ? ? ? _ E|? ? ? ? _ E|? ? ? ? ? ? _ E _ _ _ [j ->]]; [by exists 0|by exists 1; eapply line_dropLines..|].
    exists (S j). simpl. by rewrite E.
Qed.

(** Every item is read where a line starts. *)
Lemma Items_at o l its it : Items o l its -> it ∈ its -> exists j r, Reads o (dropLines j l) it r.
Proof.
  induction 1 as [|l it' r its HR HI IH]; intros H; [by apply elem_of_nil in H|].
  apply elem_of_cons in H as [->|H]; [by exists 0, r|].
  destruct (IH H) as (j & r' & Hr). destruct (Reads_dropLines _ _ _ _ HR) as [i ->].
  exists (S i + j), r'. by rewrite dropLines_add.
Qed.

(** ** The lines of a value *)

(** The lines [ws] are the first of the text, the last one perhaps cut at a quote. *)
Inductive Matches : list bytes -> list bytes -> Prop :=
| M_nil ls : Matches [] ls
| M_cut w c z ls : solid c = true -> Matches [w] ((w ++ c :: z)%list :: ls)
| M_cons w ws ls : Matches ws ls -> Matches (w :: ws) (w :: ls).

Lemma Continued_lines r t r' seg : Continued r t r' -> newline ∉ seg ->
  exists ws, splitLines (seg ++ t)%list = seg :: ws /\ Matches ws (splitLines r) /\ r' = dropLines (length ws) r.
Proof.
  intros H. revert seg. induction H as [r _|r ln q t r' El Hs H IH]; intros seg Hseg.
  - exists []. rewrite app_nil_r, splitLines_end by done. split_and!; [done|constructor|done].
  - destruct (line_terminated _ _ _ El) as (Er & Hone & Hq).
    assert (newline ∉ contentOf ln) as Hc.
    { destruct Hone as [Hone|(b & -> & Hb)]; [|by rewrite contentOf_terminated]. unfold contentOf. by destruct (endsWithLineBreak ln) eqn:E; [|done];
        destruct (ends_terminated ln ltac:(by left) E) as (b & -> & _); rewrite removelast_last; set_solver. }
    destruct (IH (contentOf ln) Hc) as (ws & E & HM & Hr). exists (contentOf ln :: ws).
    rewrite splitLines_nl, E by done. split_and!; [done| |simpl; by rewrite El].
    destruct (splitLines_cons r) as (x & ls & Ex & Hx). rewrite Ex.
    destruct (line_of_split r x ls Ex) as [[El2 ->]|[El2 ->]]; rewrite El in El2.
    + injection El2 as -> ->. assert (ws = []) as ->.
      { inversion H; subst; [|done]. rewrite app_nil_r, splitLines_end in E by done. by injection E. }
      assert (contentOf x = x) as ->; [|by repeat constructor].
      unfold contentOf. destruct (endsWithLineBreak x) eqn:Ee; [|done].
      destruct (ends_terminated x ltac:(by left) Ee) as (b & -> & _). set_solver.
    + injection El2 as ->. rewrite contentOf_terminated, El. by constructor.
Qed.

Lemma Closing_lines quote c z r t r' : quote = c :: z -> solid c = true -> Closing quote r t r' ->
  Matches (splitLines t) (splitLines r) /\ r' = dropLines (length (splitLines t)) r.
Proof.
  intros Hq Hc H. induction H as [r ln q i Hr El Ei|r ln q t r' Hr El Ei H IH];
    destruct (line_terminated _ _ _ El) as (Er & Hone & Hqq).
  - apply LastIndex_some in Ei as (a & b & Eln & <-).
    assert (newline ∉ a) as Ha.
    { eapply (oneLine_before ln [] a (quote ++ b)%list); [done|done|by rewrite Hq]. }
    rewrite Eln, take_app_length, (splitLines_end a) by done. split; [|simpl; by rewrite El].
    rewrite Er, Eln, Hq. rewrite <- app_assoc. simpl app.
    destruct (splitLines_cons (z ++ b ++ q)%list) as (x & ls & Ex & _).
    assert (splitLines (c :: (z ++ b) ++ q)%list = (c :: x) :: ls) as E2.
    { simpl. destruct (Ascii.eqb_spec c newline) as [->|]; [done|]. by rewrite <- app_assoc, Ex. }
    rewrite (splitLines_pre a _ _ _ Ha E2). by constructor.
  - assert (q <> []) as Hne by (by destruct H). destruct (Hqq Hne) as (b & -> & Hb).
    rewrite <- app_assoc. simpl app. rewrite Er, <- app_assoc. simpl app. rewrite !splitLines_nl by done. simpl length.
    destruct IH as [IH1 IH2]. split; [by constructor|]. by rewrite dropLines_nl.
Qed.

Lemma quote_head_char q : q = lit "`" \/ q = triple -> exists c z, q = c :: z /\ solid c = true.
Proof. intros [->| ->]; eexists _, _; done. Qed.

Definition joinsOn (o : Options) (l : bytes) (v : bytes) : Prop := joins o l /\ newline ∉ v.

Lemma Reads_lines o l k v r L0 ls : KeyValueDelimiters o = lit "=:" -> Reads o l (Entry k v) r -> splitLines l = L0 :: ls ->
  exists w0 ws, splitLines v = w0 :: ws /\ Matches ws ls /\ (joinsOn o l v \/ ~ joins o l /\ r = dropLines (S (length ws)) l).
Proof.
  intros Ho H Els. inversion H as [| |l' ln q k' lv v' r' Hl El Ef Hv]; subst.
  destruct (line_terminated _ _ _ El) as (Er & Hone & Hq).
  destruct (lineOf_key o ln k lv Ho Ef Hone) as ([w Hw] & Hlv & Hterm & _).
  pose proof (classify_ok o lv Hlv) as Hok. unfold ReadsValue in Hv. cbn [dropLines]. rewrite El. cbn [snd].
  assert (terminated ln -> ls = splitLines q) as Hls.
  { intros (b & -> & Hb). rewrite Er, <- app_assoc in Els. simpl in Els. rewrite splitLines_nl in Els by done. by injection Els. }
  assert ((forall x, classify o lv <> Joined x) -> ~ joins o l) as Hnj.
  { intros Hn (k' & lv' & x & Hf & Hx). rewrite El in Hf. simpl in Hf. rewrite Ef in Hf. injection Hf as <- <-. by apply (Hn x). }
  destruct (classify o lv) as [x|seg|quote x|x] eqn:Ec; simpl in Hok.
  - destruct Hv as [-> ->]. exists x, []. rewrite splitLines_end by done. split_and!; [done|constructor|by right; split; [apply Hnj|]].
  - destruct Hv as (t & -> & Hc). destruct Hok as [Hseg Hlvt].
    destruct (Continued_lines _ _ _ _ Hc Hseg) as (ws & E & HM & ->). exists seg, ws.
    assert (terminated ln) as Ht.
    { destruct Hone as [Hone|Hone]; [|done]. destruct Hlvt as (b & -> & _). destruct Hone. rewrite Hw. set_solver. }
    rewrite (Hls Ht). split_and!; [done|done|by right; split; [apply Hnj|]].
  - destruct Hv as (t & -> & Hc). destruct Hok as (Hcase & _ & _ & Hx).
    assert (q <> []) as Hne by (by destruct Hc). destruct (Hx (Hterm (Hq Hne))) as (b & -> & Hb).
    destruct (quote_head_char quote Hcase) as (c & z & Eq & Hs).
    destruct (Closing_lines quote c z q t r Eq Hs Hc) as [HM ->].
    exists b, (splitLines t). rewrite <- app_assoc. simpl app. rewrite splitLines_nl, (Hls (Hq Hne)) by done.
    split_and!; [done|done|by right; split; [apply Hnj|]].
  - assert (newline ∉ v) as Hv'.
    { destruct Hok as [Hx _]. clear -Hv Hx.
      assert (forall l1 l2 l3, line l2 = (l1, l3) -> newline ∉ TrimSpace l1) as Ht.
      { intros l1 l2 l3 E. unfold TrimSpace. apply trimRight_oneLine. destruct (trimLeft_suffix l1) as [s Hs].
        eapply oneLine_suffix; [|exact Hs]. by apply line_terminated in E as (_ & ? & _). }
      induction Hv as [|? ? ? ? _ E|? ? ? ? _ E|x1 r1 ln1 q1 v1 r2 _ E _ _ _ IH]; [done|done|specialize (Ht _ _ _ E); set_solver|].
      apply IH. specialize (Ht _ _ _ E). intros Hn. assert (newline ∈ (x1 ++ TrimSpace ln1)%list); [|set_solver].
      destruct (decide ((x1 ++ TrimSpace ln1)%list = [])) as [Hz|Hz]; [by rewrite Hz in Hn; apply elem_of_nil in Hn|].
      rewrite (app_removelast_last newline Hz). set_solver. }
    exists v, []. rewrite splitLines_end by done. split_and!; [done|constructor|]. left. split; [|done].
    exists k, lv, x. by rewrite El.
Qed.

End inilines.
