(* ===== verification/IniEncode.v ===== *)
(** * util/ini: what an encoded key line is read as

    A key line is written in the first form that is read back: whatever follows it then, it
    is read as the key and its value, and its lines are. *)

From S2P Require Import Prelude.
From S2P Require Import Ini.
From S2P Require Import IniBytes.
From S2P Require Import IniRead.
From S2P Require Import IniLocal.
From S2P Require Import IniDoc.
From S2P Require Import IniLines.
From Stdlib Require Import Ascii.

Open Scope string_scope.

Module iniencode.

Import inidoc iniread inivalue inilocal inidocument inilines.

(** ** The check of a candidate *)

Definition isNumber (k : bytes) : bool := match k with c :: _ => Ascii.eqb c "#" | [] => false end.

Definition holds (secs : list Section) (s k v : bytes) : Prop :=
  exists sec key, findSection secs s = Some sec /\ keyOf sec k = Some key /\ value key = v.

Lemma find_app_some {A} (p : A -> bool) l l' x : find p l = Some x -> find p (l ++ l')%list = Some x.
Proof. induction l as [|y l IH]; simpl; [done|]. by destruct (p y). Qed.

Lemma find_app_none {A} (p : A -> bool) l l' : find p l = None -> find p (l ++ l')%list = find p l'.
Proof. induction l as [|y l IH]; simpl; [done|]. by destruct (p y). Qed.

Lemma findSection_name secs s sec : findSection secs s = Some sec -> sectionName sec = s.
Proof. intros H. apply find_some in H as [_ H]. by apply bool_decide_eq_true in H. Qed.

Lemma keyOf_name sec k key : keyOf sec k = Some key -> name key = k.
Proof. intros H. apply find_some in H as [_ H]. by apply bool_decide_eq_true in H. Qed.

Lemma findSection_on s g secs s' : (forall sec, sectionName (g sec) = sectionName sec) ->
  findSection (onSections s g secs) s' = (if bool_decide (s' = s) then g else id) <$> findSection secs s'.
Proof.
  intros Hg. unfold findSection, onSections. induction secs as [|sec secs IH]; [by destruct (bool_decide _)|]. simpl.
  destruct (decide (sectionName sec = s)) as [E|E].
  - rewrite (bool_decide_true (sectionName sec = s)) by done. rewrite Hg.
    destruct (decide (sectionName sec = s')) as [E'|E'].
    + rewrite !bool_decide_true by congruence. done.
    + rewrite (bool_decide_false (sectionName sec = s')) by done. exact IH.
  - rewrite (bool_decide_false (sectionName sec = s)) by done.
    destruct (decide (sectionName sec = s')) as [E'|E'].
    + rewrite (bool_decide_true (sectionName sec = s')), (bool_decide_false (s' = s)) by congruence. done.
    + rewrite (bool_decide_false (sectionName sec = s')) by done. exact IH.
Qed.

Lemma findSection_force secs s s' :
  findSection (force s secs) s' = match findSection secs s' with Some sec => Some sec | None => if bool_decide (s' = s) then Some (mkSection s []) else None end.
Proof.
  unfold force. destruct (findSection secs s) as [sec|] eqn:E.
  - destruct (findSection secs s') eqn:E'; [done|]. case_bool_decide; [congruence|done].
  - unfold findSection in *. destruct (find (λ sec0, bool_decide (sectionName sec0 = s')) secs) eqn:E'.
    + by apply find_app_some.
    + rewrite find_app_none by done. simpl. destruct (decide (s = s')) as [->|Hn]; [by rewrite !bool_decide_true|].
      by rewrite !bool_decide_false.
Qed.

(** The keys of a section once one is defined. *)
Definition defineIn (k v : bytes) (auto : bool) (sec : Section) : Section :=
  match keyOf sec k with
  | Some _ => sec <| keys ::= fmap (fun key => if bool_decide (name key = k) then key <| value := v |> else key) |>
  | None => sec <| keys ::= fun l => (l ++ [mkKey k v auto])%list |>
  end.

Lemma findSection_define secs s k v auto s' :
  findSection (define s k v auto secs) s' = (if bool_decide (s' = s) then defineIn k v auto else id) <$> findSection secs s'.
Proof.
  unfold define, defineIn. destruct (findSection secs s) as [sec|] eqn:Es; simpl.
  - destruct (keyOf sec k) eqn:Ek; rewrite findSection_on by done; case_bool_decide as Hs; [subst s'|done|subst s'|done];
      rewrite Es; simpl; by rewrite Ek.
  - rewrite findSection_on by done. case_bool_decide as Hs; [subst s'|done]. by rewrite Es.
Qed.

Lemma keyOf_map g sec k : (forall key, name (g key) = name key) -> keyOf (sec <| keys ::= fmap g |>) k = g <$> keyOf sec k.
Proof.
  intros Hg. unfold keyOf. simpl. induction (keys sec) as [|key l IH]; [done|]. simpl. rewrite Hg.
  by case_bool_decide.
Qed.

Lemma keyOf_defineIn k v auto sec k' key : keyOf (defineIn k v auto sec) k' = Some key ->
  (k' = k /\ value key = v) \/ (k' <> k /\ keyOf sec k' = Some key).
Proof.
  unfold defineIn. destruct (keyOf sec k) as [key0|] eqn:Ek.
  - rewrite keyOf_map by (intros key'; by case_bool_decide). destruct (keyOf sec k') as [key1|] eqn:Ek'; [|done].
    simpl. intros [= <-]. pose proof (keyOf_name _ _ _ Ek'). case_bool_decide; [left|right]; split; congruence || done.
  - unfold keyOf at 1. simpl. unfold keyOf in Ek |- *.
    destruct (find (λ key0, bool_decide (name key0 = k')) (keys sec)) as [key1|] eqn:E'.
    + rewrite (find_app_some _ _ _ _ E'). intros [= <-]. right. split; [|done]. intros ->. congruence.
    + rewrite find_app_none by done. simpl. case_bool_decide; [|done]. intros [= <-]. by left.
Qed.

Lemma keyOf_defineIn_self k v auto sec : exists key, keyOf (defineIn k v auto sec) k = Some key /\ value key = v.
Proof.
  unfold defineIn. destruct (keyOf sec k) as [key0|] eqn:Ek.
  - rewrite keyOf_map by (intros key'; by case_bool_decide). rewrite Ek. simpl. eexists. split; [done|].
    rewrite bool_decide_true; [done|]. by eapply keyOf_name.
  - unfold keyOf. simpl. rewrite find_app_none by done. simpl. rewrite bool_decide_true by done. by eexists.
Qed.

(** A value comes from an entry. *)
Lemma absorb_holds st it s k v : isNumber k = false -> holds (absorb st it).1.1 s k v -> holds st.1.1 s k v \/ it = Entry k v.
Proof.
  intros Hk. destruct st as [[secs cur] n]. destruct it as [|s'|k' v']; [by left|..]; cbn [absorb fst].
  - intros (sec & key & Hs & Hkey & Hv). rewrite findSection_force in Hs. left. exists sec, key.
    destruct (findSection secs s); [done|]. case_bool_decide; [|done]. injection Hs as <-. done.
  - intros (sec & key & Hs & Hkey & Hv). rewrite findSection_define in Hs.
    destruct (findSection secs s) as [sec0|] eqn:Es; [|done]. injection Hs as <-. case_bool_decide as Hc.
    + apply keyOf_defineIn in Hkey as [[-> Hv']|[_ Hkey]]; [right|left; by exists sec0, key].
      subst v v'. unfold numbered in Hk |- *. destruct (isAuto k'); [by simpl in Hk|done].
    + left. by exists sec0, key.
Qed.

Lemma foldl_holds its st s k v : isNumber k = false -> holds (foldl absorb st its).1.1 s k v ->
  holds st.1.1 s k v \/ Entry k v ∈ its.
Proof.
  intros Hk. revert st. induction its as [|it its IH]; intros st; [by left|]. cbn [foldl]. intros H.
  apply IH in H as [H|H]; [|right; by right]. apply absorb_holds in H as [H|H]; [by left|right; rewrite H; by left|done].
Qed.

Lemma getKey_holds fuel f s k s' key : getKey fuel f s k = Some (s', key) -> holds (sections f) s' k (value key).
Proof.
  revert s. induction fuel as [|fuel IH]; intros s; simpl; [done|].
  destruct (section f s ≫= _) as [key0|] eqn:E.
  - intros [= <- <-]. destruct (section f s) as [sec|] eqn:Es; [|done]. by exists sec, key0.
  - destruct (LastIndex _ _); [apply IH|done].
Qed.

Section checking.

Variable o : Options.
Hypothesis Ho : withDefaults o = o.

Definition probeDoc (body probe : bytes) : bytes :=
  ("["%char :: probeSectionName ++ ["]"%char; newline] ++ body ++ probe)%list.

Lemma probe_header body probe : Reads o (probeDoc body probe) (Header probeSectionName) (body ++ probe)%list.
Proof.
  apply (R_header o _ ("["%char :: probeSectionName ++ ["]"%char; newline])%list (body ++ probe)%list probeSectionName); done.
Qed.

Lemma parsesToKey_sound body probe k v : isNumber k = false -> parsesToKey o body probe k v = true ->
  exists its, Items o (body ++ probe)%list its /\ Entry k v ∈ its.
Proof.
  intros Hk. unfold parsesToKey. fold (probeDoc body probe).
  destruct (LoadBytes o (probeDoc body probe)) as [e|f] eqn:El; [done|]. apply Load_sound in El as (its & HI & Hs).
  rewrite Ho in *. change (textOf (probeDoc body probe)) with (probeDoc body probe) in HI.
  inversion HI as [|? it r its' HR HI']; subst.
  destruct (Reads_det _ _ _ _ _ _ HR (probe_header body probe)) as [-> ->].
  destruct (section f probeSectionName); [|done].
  destruct (GetKey f probeSectionName k) as [[s' key]|] eqn:Eg; [|done].
  intros Hv. apply bool_decide_eq_true in Hv. apply getKey_holds in Eg. rewrite Hv, Hs in Eg. cbn [foldl] in Eg.
  apply foldl_holds in Eg as [Eg|Eg]; [|by exists its'|done].
  apply absorb_holds in Eg as [Eg|Eg]; [|done|done]. destruct Eg as (sec & ? & Hsec & Hkey & _).
  simpl in Hsec. case_bool_decide; [|done]. by injection Hsec as <-.
Qed.

Lemma foldl_blanks its st : Forall (fun it => it = Blank) its -> foldl absorb st its = st.
Proof. induction 1 as [|it its -> _ IH]; [done|]. cbn [foldl]. by destruct st as [[? ?] ?]. Qed.

Lemma parsesToKey_intro body probe k v : isAuto k = false -> Reads o (body ++ probe)%list (Entry k v) probe -> dullText probe ->
  parsesToKey o body probe k v = true.
Proof.
  intros Hk HR Hd. unfold parsesToKey. fold (probeDoc body probe).
  destruct (dullText_items o probe Hd) as (its & HI & Hb).
  assert (Items o (probeDoc body probe) (Header probeSectionName :: Entry k v :: its)) as HI'.
  { eapply I_cons; [apply probe_header|]. by eapply I_cons. }
  destruct (Load_complete o (probeDoc body probe) (Header probeSectionName :: Entry k v :: its)) as [f Hf];
    [done|done|by rewrite Ho|]. rewrite Hf.
  apply Load_sound in Hf as (its' & HI2 & Hs). rewrite Ho in *.
  assert (its' = Header probeSectionName :: Entry k v :: its) as ->.
  { clear -HI2 HI'. change (textOf (probeDoc body probe)) with (probeDoc body probe) in HI2.
    revert HI2 HI'. generalize (probeDoc body probe) its' (Header probeSectionName :: Entry k v :: its).
    intros l its1 its2 H1. revert its2. induction H1 as [|l it r its1 HR _ IH]; intros its2 H2; inversion H2; subst.
    - done.
    - by inversion H.
    - by inversion HR.
    - destruct (Reads_det _ _ _ _ _ _ HR H) as [-> ->]. f_equal. by apply IH. }
  cbn [foldl] in Hs. rewrite foldl_blanks in Hs by done. unfold initial, absorb in Hs. cbn [fst] in Hs.
  unfold numbered in Hs. rewrite Hk in Hs.
  assert (exists sec, findSection (force probeSectionName [mkSection (DefaultSectionName o) []]) probeSectionName = Some sec) as [sec Hsec].
  { rewrite findSection_force. destruct (findSection _ _); [by eexists|]. rewrite bool_decide_true by done. by eexists. }
  destruct (keyOf_defineIn_self k v false sec) as (key & Hkey & Hv).
  assert (section f probeSectionName = Some (defineIn k v false sec)) as Hsf.
  { change (section f probeSectionName) with (findSection (sections f) probeSectionName). rewrite Hs, findSection_define, Hsec.
    by rewrite bool_decide_true. }
  rewrite Hsf. unfold GetKey. cbn [getKey]. rewrite Hsf. cbn [mbind option_bind]. rewrite Hkey. by apply bool_decide_eq_true.
Qed.

End checking.

End iniencode.
