(* ===== verification/IniQuote.v ===== *)
(** * util/ini: the forms of a key line

    Each form a key line can be written in, and what it is read as.  In the quoted forms the
    value is what is between the quotes.  In the bare one and between double quotes it may
    be read otherwise, and this is why the line is checked: if the value is read anywhere,
    it is read in the line written for it, whole. *)

From S2P Require Import Prelude.
From S2P Require Import Ini.
From S2P Require Import IniBytes.
From S2P Require Import IniRead.
From S2P Require Import IniLocal.
From S2P Require Import IniDoc.
From S2P Require Import IniLines.
From S2P Require Import IniEncode.
From Stdlib Require Import Ascii.

Open Scope string_scope.

Module iniquote.

Import inidoc iniread inivalue inilocal inidocument inilines iniencode.

(** ** Plain names *)

Definition plainChar (c : ascii) : bool :=
  negb (isSpace1 c) && (N_of_ascii c <? 128)%N && negb (one_of c (dquote :: lit "=:`")).

(** An ASCII name without space, quote nor delimiter, that is not "-" and does not start as a
    comment or a header does. *)
Definition plainName (n : bytes) : bool :=
  forallb plainChar n &&
  match n with c :: _ => negb (oneOf c "#;[") | [] => false end && negb (isAuto n).

Lemma plainName_spec n : plainName n = true ->
  exists c n', n = c :: n' /\ forallb plainChar (c :: n') = true /\ oneOf c "#;[" = false /\ isAuto n = false.
Proof.
  unfold plainName. intros [[H1 H2]%andb_true_iff H3]%andb_true_iff. destruct n as [|c n]; [done|].
  exists c, n. split_and!; [done|done|by apply negb_true_iff|by apply negb_true_iff].
Qed.

Lemma plainChar_spec c : plainChar c = true -> solid c = true /\ c <> dquote /\ c <> "`"%char /\ c ∉ lit "=:".
Proof.
  unfold plainChar. intros [[H1 H0]%andb_true_iff H2]%andb_true_iff. apply negb_true_iff, one_of_false in H2.
  split. { unfold solid. by rewrite H1, H0. }
  rewrite not_elem_of_cons in H2. destruct H2 as [H2 H3]. split; [done|]. change (lit "=:`") with (lit "=:" ++ ["`"%char])%list in H3.
  rewrite elem_of_app in H3. split; [|tauto]. intros ->. apply H3. right. by left.
Qed.

Lemma plain_forall n c : forallb plainChar n = true -> c ∈ n -> plainChar c = true.
Proof. intros H Hc. rewrite forallb_forall in H. apply H. by apply list_elem_of_In. Qed.

Lemma solid_not_nl c : solid c = true -> c <> newline.
Proof. by intros H ->. Qed.

Lemma plain_no_nl n : forallb plainChar n = true -> newline ∉ n.
Proof. intros H Hn. apply plain_forall in Hn; [|done]. by apply plainChar_spec in Hn as (Hs & _). Qed.

Lemma plain_trim n : forallb plainChar n = true -> n <> [] -> TrimSpace n = n /\ TrimSpace (n ++ [" "%char])%list = n.
Proof.
  intros H Hne. unfold TrimSpace. destruct n as [|c n]; [done|]. clear Hne.
  assert (solid c = true) as Hc. { destruct (plainChar_spec c); [|done]. eapply plain_forall; [exact H|by left]. }
  assert (forall z, (forall x, x ∈ z -> isSpace1 x = true) -> trimRightSpace ((c :: n) ++ z)%list = c :: n) as Hz.
  { intros z Hz. destruct (exists_last (l := c :: n) ltac:(done)) as (y & d & Hd). rewrite Hd.
    assert (solid d = true) as Hsd.
    { destruct (plainChar_spec d); [|done]. eapply plain_forall; [exact H|]. rewrite Hd. set_solver. }
    rewrite <- app_assoc. simpl. rewrite trimRight_app by done. do 2 f_equal.
    unfold trimRightSpace. assert (forall x, x ∈ rev z -> isSpace1 x = true) as Hr.
    { intros x Hx. apply Hz. by rewrite list_elem_of_In, <- in_rev, <- list_elem_of_In in Hx. }
    clear -Hr. induction (rev z) as [|x r IH]; [done|]. simpl. rewrite (Hr x) by by left. apply IH. intros y Hy. apply Hr. by right. }
  split.
  - rewrite trimLeft_solid by done. pose proof (Hz []) as H0. rewrite app_nil_r in H0. apply H0. intros x Hx. by apply elem_of_nil in Hx.
  - cbn [app]. rewrite trimLeft_solid by done. apply (Hz [" "%char]). intros x ->%list_elem_of_singleton. done.
Qed.

(** The forms of a plain name. *)
Definition nameForms (n : bytes) : list bytes := [n; [dquote] ++ n ++ [dquote]; lit "`" ++ n ++ lit "`"; triple ++ n ++ triple]%list.

Lemma quoteCandidates_in s x : x ∈ quoteCandidates s ->
  x = s \/ (x = [dquote] ++ s ++ [dquote] /\ ~ occurs [dquote] s)%list \/
  (x = lit "`" ++ s ++ lit "`" /\ ~ occurs (lit "`") s)%list \/ (x = triple ++ s ++ triple /\ ~ occurs triple s)%list.
Proof.
  unfold quoteCandidates, Contains. intros Hx.
  assert (forall sub (y : bytes), x ∈ (if bool_decide (is_Some (Index s sub)) then [] else [y]) -> x = y /\ ~ occurs sub s) as Hif.
  { intros sub y Hy. case_bool_decide as Hb; [by apply elem_of_nil in Hy|]. apply list_elem_of_singleton in Hy. split; [done|].
    apply Index_none. by apply eq_None_not_Some. }
  apply elem_of_app in Hx as [Hx|Hx]; [left; by apply list_elem_of_singleton|right].
  apply elem_of_app in Hx as [Hx|Hx]; [left; by apply Hif|right].
  apply elem_of_app in Hx as [Hx|Hx]; [left|right]; by apply Hif.
Qed.

Lemma quoteCandidates_forms n e : e ∈ quoteCandidates n -> e ∈ nameForms n.
Proof. intros [->|[[-> _]|[[-> _]|[-> _]]]]%quoteCandidates_in; unfold nameForms; set_solver. Qed.

(** The separator of a key line. *)
Definition delim : bytes := lit " = ".

Lemma Index_first l sub : HasPrefix l sub = true -> Index l sub = Some 0.
Proof. destruct l; cbn [Index]; by intros ->. Qed.

Lemma Index_plain n c z r : forallb plainChar n = true -> plainChar c = false -> Index (n ++ c :: z ++ r)%list (c :: z) = Some (length n).
Proof.
  intros Hn Hc. induction n as [|d n IH].
  - apply Index_first. apply HasPrefix_spec. by exists r.
  - simpl in Hn. apply andb_true_iff in Hn as [Hd Hn]. cbn [app Index].
    assert (HasPrefix (d :: n ++ c :: z ++ r)%list (c :: z) = false) as ->.
    { simpl. destruct (Ascii.eqb_spec c d) as [->|]; [congruence|done]. }
    by rewrite IH.
Qed.

Lemma readKeyName_quoted n q Y : forallb plainChar n = true -> n <> [] -> q = [dquote] \/ q = lit "`" \/ q = triple ->
  readKeyName (lit "=:") ((q ++ n ++ q) ++ delim ++ Y)%list = inr (n, length (q ++ n ++ q) + 2).
Proof.
  intros Hn Hne Hq. unfold readKeyName.
  assert (exists c z, q = c :: z /\ plainChar c = false) as (c0 & z0 & Eq & Hpc) by (by destruct Hq as [->|[->| ->]]; eexists _, _).
  remember ((q ++ n ++ q) ++ delim ++ Y)%list as l eqn:El.
  assert (match l with c :: _ => if Ascii.eqb c dquote then if (6 <? length l)%nat && HasPrefix l [dquote; dquote; dquote] then [dquote; dquote; dquote] else [dquote]
          else if Ascii.eqb c "`" then ["`"%char] else [] | [] => [] end = q) as Hquote.
  { destruct n as [|c n]; [done|]. simpl in Hn. apply andb_true_iff in Hn as [Hc _]. apply plainChar_spec in Hc as (_ & Hc & _).
    destruct l as [|d l]; [by destruct Hq as [->|[->| ->]]|]. destruct Hq as [->|[->| ->]]; injection El as -> El.
    - assert (HasPrefix (dquote :: l) [dquote; dquote; dquote] = false) as ->; [|by rewrite andb_false_r].
      rewrite El. cbn [HasPrefix app]. rewrite Ascii.eqb_refl. destruct (Ascii.eqb_spec dquote c); [congruence|done].
    - done.
    - assert ((6 <? length (dquote :: l))%nat = true) as ->.
      { apply Nat.ltb_lt. rewrite El. cbn [length app]. repeat (rewrite length_app || cbn [length app]). lia. }
      rewrite El. done. }
  rewrite Hquote. rewrite bool_decide_true by by rewrite Eq.
  assert (drop (length q) l = n ++ q ++ delim ++ Y)%list as ->.
  { rewrite El, <- !app_assoc. apply drop_app_length. }
  assert (Index (n ++ q ++ delim ++ Y)%list q = Some (length n)) as -> by (rewrite Eq; by apply Index_plain).
  assert (drop (length n + length q + length q) l = delim ++ Y)%list as ->.
  { rewrite El. replace (length n + length q + length q) with (length (q ++ n ++ q)%list) by (rewrite !length_app; lia).
    by rewrite drop_app_length. }
  assert (IndexAny (delim ++ Y)%list (lit "=:") = Some 1) as -> by done.
  assert (slice l (length q) (length n + length q) = n) as ->.
  { unfold slice. rewrite El, <- !app_assoc, drop_app_length. replace (_ - _) with (length n) by lia. by rewrite take_app_length. }
  destruct (plain_trim n Hn Hne) as [-> _]. do 2 f_equal. rewrite !length_app. lia.
Qed.

Lemma readKeyName_bare n Y : forallb plainChar n = true -> n <> [] ->
  readKeyName (lit "=:") (n ++ delim ++ Y)%list = inr (n, length n + 2).
Proof.
  intros Hn Hne. unfold readKeyName. destruct n as [|c n]; [done|].
  assert (plainChar c = true) as Hc by (eapply plain_forall; [exact Hn|by left]).
  destruct (plainChar_spec c Hc) as (_ & H1 & H2 & _). cbn [app]. cbn iota.
  destruct (Ascii.eqb_spec c dquote); [done|]. destruct (Ascii.eqb_spec c "`"); [done|].
  rewrite bool_decide_false by tauto.
  assert (IndexAny (c :: n ++ delim ++ Y)%list (lit "=:") = Some (S (length (c :: n)))) as ->.
  { change (c :: n ++ delim ++ Y)%list with ((c :: n) ++ ([" "%char] ++ "="%char :: " "%char :: Y))%list. rewrite app_assoc.
    rewrite IndexAny_app.
    - rewrite length_app. simpl. f_equal. lia.
    - intros x. rewrite elem_of_app, list_elem_of_singleton. intros [Hx| ->]; [|by vm_compute; set_solver || (intros Hq; repeat (apply elem_of_cons in Hq as [Hq|Hq]; [done|]); by apply elem_of_nil in Hq)].
      by apply (plain_forall _ _ Hn), plainChar_spec in Hx as (_ & _ & _ & ?).
    - by left. }
  cbn iota. destruct (plain_trim (c :: n) Hn Hne) as [_ Ht].
  assert (take (S (length (c :: n))) (c :: n ++ delim ++ Y) = (c :: n) ++ [" "%char])%list as ->.
  { change (c :: n ++ delim ++ Y)%list with ((c :: n) ++ ([" "%char] ++ "="%char :: " "%char :: Y))%list. rewrite app_assoc.
    replace (S (length (c :: n))) with (length ((c :: n) ++ [" "%char])%list) by (rewrite length_app; simpl; lia).
    by rewrite take_app_length. }
  rewrite Ht. do 2 f_equal. lia.
Qed.

(** A line that starts with a form of the name and the separator is the key line of the name. *)
Lemma lineOf_form o n e Y : KeyValueDelimiters o = lit "=:" -> plainName n = true -> e ∈ nameForms n ->
  lineOf o (e ++ delim ++ Y)%list = KeyLine n (" "%char :: Y).
Proof.
  intros Ho Hn He. destruct (plainName_spec n Hn) as (c & n' & En & Hall & Hc & _). rewrite <- En in Hall.
  assert (n <> []) as Hne by (by rewrite En).
  assert (exists d e', e = d :: e' /\ solid d = true /\ oneOf d "#;" = false /\ Ascii.eqb d "[" = false) as (d & e' & Ee & Hd & Hd1 & Hd2).
  { unfold nameForms in He. repeat (apply elem_of_cons in He as [->|He]); [|eexists _, _; done..|by apply elem_of_nil in He].
    exists c, n'. split; [done|]. assert (plainChar c = true) as Hpc by (eapply plain_forall; [exact Hall|rewrite En; by left]).
    split; [by destruct (plainChar_spec c Hpc)|]. unfold oneOf in *. apply one_of_false in Hc.
    change (lit "#;[") with (lit "#;" ++ ["["%char])%list in Hc. rewrite elem_of_app, list_elem_of_singleton in Hc. split.
    - apply one_of_false. tauto.
    - apply Ascii.eqb_neq. tauto. }
  assert (readKeyName (KeyValueDelimiters o) (e ++ delim ++ Y)%list = inr (n, length e + 2)) as Hr.
  { rewrite Ho. unfold nameForms in He. repeat (apply elem_of_cons in He as [->|He]); [..|by apply elem_of_nil in He].
    - by apply readKeyName_bare.
    - apply readKeyName_quoted; tauto.
    - apply readKeyName_quoted; tauto.
    - apply readKeyName_quoted; tauto. }
  assert (drop (length e + 2) (e ++ delim ++ Y)%list = " "%char :: Y) as Hdrop.
  { rewrite drop_app_ge by lia. by replace (length e + 2 - length e) with 2 by lia. }
  unfold lineOf. rewrite Ee in *. cbn [app] in *. rewrite trimLeft_solid, Hd1, Hd2, Hr, Hdrop by done.
  by rewrite bool_decide_false.
Qed.

End iniquote.
