(* ===== verification/IniExact.v ===== *)
(** * util/ini: a key line is read whole

    Whatever form is chosen for a key line, it is read as its key and its value, whatever
    follows it that was considered. *)

From S2P Require Import Prelude.
From S2P Require Import Ini.
From S2P Require Import IniBytes.
From S2P Require Import IniRead.
From S2P Require Import IniLocal.
From S2P Require Import IniDoc.
From S2P Require Import IniLines.
From S2P Require Import IniEncode.
From S2P Require Import IniQuote.
From Stdlib Require Import Ascii.

Open Scope string_scope.

Module iniexact.

Import inidoc iniread inivalue inilocal inidocument inilines iniencode iniquote.

(** ** Between backticks, or three double quotes *)

Definition wide (q : bytes) : Prop := q = lit "`" \/ q = triple.

Lemma wide_no_nl q : wide q -> newline ∉ q.
Proof. intros [->| ->]; vm_compute; intros H; repeat (apply elem_of_cons in H as [H|H]; [done|]); by apply elem_of_nil in H. Qed.

Lemma not_occurs_split q a b : ~ occurs q (a ++ b)%list -> ~ occurs q a /\ ~ occurs q b.
Proof.
  intros H. split; intros (x & y & ->); apply H.
  - exists x, (y ++ b)%list. by rewrite <- !app_assoc.
  - exists (a ++ x)%list, y. by rewrite <- !app_assoc.
Qed.

Lemma LastIndex_end q v : wide q -> LastIndex (v ++ q ++ [newline])%list q = Some (length v).
Proof. intros Hq. apply LastIndex_app. by destruct Hq as [->| ->]. Qed.

Lemma Closing_intro q t X : wide q -> ~ occurs q t -> Closing q (t ++ q ++ newline :: X)%list t X.
Proof.
  intros Hq. pose proof (wide_no_nl q Hq) as Hnl.
  induction t as [a Ha|a r Ha IH] using text_ind; intros H.
  - rewrite <- (take_app_length a (q ++ [newline])%list) at 2.
    apply (Cl_here _ _ (a ++ q ++ [newline])%list X (length a)).
    + intros Hn. apply app_eq_nil in Hn as [_ Hn]. apply app_eq_nil in Hn as [_ Hn]. done.
    + rewrite !app_assoc. change (newline :: X) with ([newline] ++ X)%list. simpl. rewrite line_nl; [done|set_solver].
    + by apply LastIndex_end.
  - replace (a ++ newline :: r)%list with ((a ++ [newline]) ++ r)%list in * by (by rewrite <- app_assoc).
    apply not_occurs_split in H as [H1 H2].
    apply (Cl_more _ _ (a ++ [newline])%list (r ++ q ++ newline :: X)%list).
    + by destruct a.
    + rewrite <- !app_assoc. simpl. by rewrite line_nl.
    + by apply LastIndex_not_occurs.
    + by apply IH.
Qed.

Lemma quoteOf_wide q Z : wide q -> Z <> [] -> quoteOf (q ++ Z)%list = q.
Proof.
  intros [->| ->] HZ.
  - unfold quoteOf, quote_head. cbn [app lit String.list_ascii_of_string].
    change (HasPrefix ("`"%char :: Z) [dquote; dquote; dquote]) with false. by rewrite andb_false_r.
  - by destruct Z.
Qed.

Lemma classify_wide o q Z : wide q -> Z <> [] ->
  classify o (" "%char :: q ++ Z)%list =
    match LastIndex Z q with None => Quoted q Z | Some i => InLine (take i Z) end.
Proof.
  intros Hq HZ. unfold classify. rewrite trimLeft_space.
  assert (trimLeftSpace (q ++ Z)%list = q ++ Z)%list as -> by (destruct Hq as [->| ->]; by apply trimLeft_solid).
  assert (exists c t, (q ++ Z = c :: t)%list) as (c & t & E) by (destruct Hq as [->| ->]; by eexists _, _).
  rewrite E, <- E, quoteOf_wide, drop_app_length by done. rewrite bool_decide_true by (by destruct Hq as [->| ->]). done.
Qed.

Lemma app_not_nil {A} (l : list A) x r : (l ++ x :: r)%list <> [].
Proof. by destruct l. Qed.

Lemma wide_exact o n e q v X : KeyValueDelimiters o = lit "=:" -> plainName n = true -> e ∈ nameForms n -> wide q -> ~ occurs q v ->
  Reads o ((e ++ delim ++ q ++ v ++ q ++ [newline]) ++ X)%list (Entry n v) X.
Proof.
  intros Ho Hn He Hq Hv. pose proof (wide_no_nl q Hq) as Hnl.
  assert (newline ∉ e) as Hen.
  { destruct (plainName_spec n Hn) as (c & n' & En & Hall & _). rewrite <- En in Hall. apply plain_no_nl in Hall.
    unfold nameForms in He. repeat (apply elem_of_cons in He as [->|He]); [done|set_solver|set_solver| |by apply elem_of_nil in He].
    unfold triple. set_solver. }
  assert (newline ∉ delim) as Hdn by (vm_compute; intros H; repeat (apply elem_of_cons in H as [H|H]; [done|]); by apply elem_of_nil in H).
  destruct (line_cases v) as [Hvn|(a & t & -> & Ha)].
  - eapply (R_entry o _ (e ++ delim ++ q ++ v ++ q ++ [newline])%list X n (" "%char :: q ++ v ++ q ++ [newline])%list v X).
    + by destruct e.
    + assert (terminated (e ++ delim ++ q ++ v ++ q ++ [newline])%list) as Ht.
      { exists (e ++ delim ++ q ++ v ++ q)%list. rewrite <- !app_assoc. split; [done|]. rewrite !elem_of_app. tauto. }
      by apply line_app.
    + by apply lineOf_form.
    + unfold ReadsValue. rewrite classify_wide by (done || (destruct v; [|done]; by destruct Hq as [->| ->])).
      rewrite LastIndex_end by done. by rewrite take_app_length.
  - apply not_occurs_split in Hv as Hv'. destruct Hv' as [Hva _].
    change (newline :: t) with ([newline] ++ t)%list in Hv. rewrite app_assoc in Hv. apply not_occurs_split in Hv as [Hv1 Hv2].
    apply (R_entry o _ (e ++ delim ++ q ++ a ++ [newline])%list (t ++ q ++ newline :: X)%list n (" "%char :: q ++ a ++ [newline])%list).
    + by destruct e.
    + assert (terminated (e ++ delim ++ q ++ a ++ [newline])%list) as Ht.
      { exists (e ++ delim ++ q ++ a)%list. rewrite <- !app_assoc. split; [done|]. rewrite !elem_of_app. tauto. }
      etrans; [|exact (line_app _ (t ++ q ++ newline :: X)%list Ht)]. f_equal. rewrite <- !app_assoc. done.
    + by apply lineOf_form.
    + unfold ReadsValue. rewrite classify_wide by (done || by destruct a).
      rewrite (LastIndex_not_occurs _ _ Hv1). exists t. split; [by rewrite <- app_assoc|]. by apply Closing_intro.
Qed.

(** ** Echoes

    Lines that are the ones that follow them, further in a text whose end is blank and
    comment lines, are blank and comment lines. *)

Lemma Matches_lookup (ws ls : list (list ascii)) i w : Matches ws ls -> ws !! i = Some w ->
  exists L, ls !! i = Some L /\ (L = w \/ (S i = length ws /\ exists c z, solid c = true /\ L = (w ++ c :: z)%list)).
Proof.
  intros H. revert i. induction H as [ls|w0 c z ls Hc|w0 ws ls H IH]; intros i Hi; [done|..].
  - destruct i; [|done]. injection Hi as ->. eexists. split; [done|]. right. split; [done|]. by eexists _, _.
  - destruct i as [|i]; [injection Hi as ->; eexists; split; [done|by left]|].
    destruct (IH i Hi) as (L & HL & Hc). exists L. split; [done|]. destruct Hc as [->|[Hl Hc]]; [by left|right; split; [simpl; lia|done]].
Qed.

Lemma echo (A : list (list ascii)) x s (P : list (list ascii)) j : (1 <= j)%nat ->
  Matches (A ++ [x])%list (drop j (A ++ (x ++ s)%list :: P)%list) ->
  (forall p, p ∈ P -> dull p = true) -> (s = [] \/ forall w, w ∈ A -> w <> (x ++ s)%list) ->
  forall w, w ∈ (A ++ [x])%list -> dull w = true.
Proof.
  intros Hj HM HP Hs. set (T := (A ++ (x ++ s)%list :: P)%list) in *.
  assert (forall i w, (A ++ [x])%list !! i = Some w -> dull w = true) as Hall.
  { intros i. remember (length A - i) as d eqn:Ed. revert i Ed. induction d as [d IH] using Wf_nat.lt_wf_ind. intros i -> w Hw.
    destruct (Matches_lookup _ _ _ _ HM Hw) as (L & HL & Hc). rewrite lookup_drop in HL.
    pose proof (lookup_lt_Some _ _ _ Hw) as Hi. rewrite length_app in Hi, Hc. simpl in Hi, Hc.
    destruct (decide (j + i <= length A)%nat) as [Hle|Hgt].
    - destruct Hc as [<-|[Hc _]]; [|lia]. unfold T in HL.
      destruct (decide (j + i = length A)) as [Heq|Hne].
      + rewrite Heq, list_lookup_middle in HL by done. injection HL as <-.
        assert ((A ++ [x])%list !! length A = Some x) as Hx by (by apply list_lookup_middle).
        destruct Hs as [->|Hs]; [rewrite app_nil_r; by apply (IH (length A - length A) ltac:(lia) (length A))|].
        rewrite lookup_app_l in Hw by lia. by apply list_elem_of_lookup_2, Hs in Hw.
      + rewrite lookup_app_l in HL by lia. apply (IH (length A - (j + i)) ltac:(lia) (j + i)); [done|].
        by rewrite lookup_app_l by lia.
    - assert (L ∈ P) as HLP.
      { unfold T in HL. rewrite lookup_app_r in HL by lia. destruct (j + i - length A) as [|m] eqn:Em; [lia|]. by eapply list_elem_of_lookup_2. }
      destruct Hc as [->|(_ & c & z & Hsol & ->)]; [by apply HP|]. by apply (dull_cut w c z), HP. }
  intros w Hw. apply list_elem_of_lookup_1 in Hw as [i Hi]. by eapply Hall.
Qed.

(** ** Bare, or between double quotes *)

Lemma splitLines_last v : exists A x, splitLines v = (A ++ [x])%list.
Proof.
  destruct (splitLines_cons v) as (a & ls & E & _). destruct (exists_last (l := splitLines v)) as (A & x & ->); [by rewrite E|]. by eexists _, _.
Qed.

Lemma splitLines_snoc v s A x : newline ∉ s -> splitLines v = (A ++ [x])%list -> splitLines (v ++ s)%list = (A ++ [(x ++ s)%list])%list.
Proof.
  intros Hs. revert A. induction v as [a Ha|a r Ha IH] using text_ind; intros A E.
  - rewrite splitLines_end in E by done. destruct A as [|y A]; [|destruct A; discriminate].
    injection E as <-. rewrite splitLines_end; [done|set_solver].
  - rewrite splitLines_nl in E by done. rewrite <- app_assoc. simpl. rewrite splitLines_nl by done.
    destruct A as [|y A].
    + destruct (splitLines_cons r) as (? & ? & Er & _). rewrite Er in E. discriminate.
    + injection E as <- E. by rewrite (IH A E).
Qed.

(** What is joined to a value is nothing, or starts as a comment does. *)
Lemma Joining_dull x l u r : Joining x l u r -> dullText l ->
  u = x \/ exists c y, oneOf c "#;" = true /\ u = (x ++ c :: y)%list.
Proof.
  intros H. induction H as [x|x l ln q Hl El Et|x l ln q Hl El Et Elast|x l ln q v r' Hl El Et Elast H IH]; intros Hd; try by left.
  all: assert (dull ln = true) as Hln by
    (destruct (splitLines_cons l) as (a & ls & Es & _); unfold dullText in Hd; rewrite Es in Hd; inversion Hd; subst;
     destruct (line_of_split l a ls Es) as [[E2 _]|[E2 _]]; rewrite El in E2; injection E2 as ->; [|rewrite dull_nl]; done).
  all: assert (exists c y, oneOf c "#;" = true /\ TrimSpace ln = c :: y) as (c & y & Hc & Hy) by
    (unfold dull, TrimSpace in *; destruct (trimLeftSpace ln) as [|c t]; [done|]; exists c, (trimRightSpace t); split; [done|];
     apply (trimRight_app [] c t); apply one_of_spec in Hln; revert Hln; unfold lit; simpl; rewrite !elem_of_cons, elem_of_nil;
     by intros [->|[->|[]]]).
  - right. exists c, y. by rewrite Hy.
  - assert (dullText q) as Hq.
    { assert (q = dropLines 1 l) as -> by (by eapply line_dropLines). by apply dullText_dropLines. }
    rewrite Hy in *. unfold lastByte in Elast. rewrite last_app_ne in Elast by done.
    destruct y as [|d y].
    { injection Elast as ->. done. }
    assert (removelast (x ++ c :: d :: y) = x ++ c :: removelast (d :: y))%list as E.
    { rewrite (removelast_app x) by done. done. }
    rewrite E in IH. destruct (IH Hq) as [->|(c' & y' & Hc' & ->)]; right; exists c.
    + by eexists.
    + exists (removelast (d :: y) ++ c' :: y')%list. by rewrite <- app_assoc.
Qed.

Lemma trimLeft_idem l : trimLeftSpace (trimLeftSpace l) = trimLeftSpace l.
Proof.
  remember (length l) as n eqn:E. revert l E. induction n as [n IH] using Wf_nat.lt_wf_ind. intros l ->.
  destruct l as [|x l]; [done|]. cbn [trimLeftSpace]. destruct (isSpace1 x) eqn:E1; [apply (IH (length l)); simpl; lia || done|].
  destruct l as [|y l]; [cbn; by rewrite E1|].
  destruct (isSpace2 x y) eqn:E2; [apply (IH (length l)); simpl; lia || done|].
  destruct l as [|z l]; [cbn; by rewrite E1, E2|].
  destruct (isSpace3 x y z) eqn:E3; [apply (IH (length l)); simpl; lia || done|]. cbn. by rewrite E1, E2, E3.
Qed.

(** The text of a key line: the value, after [p], with a quote on both sides or none. *)
Section narrow.

Variables (o : Options) (n e s v probe : bytes).
Hypothesis Ho : KeyValueDelimiters o = lit "=:".
Hypothesis Hn : plainName n = true.
Hypothesis He : e ∈ nameForms n.
Hypothesis Hs : s = [] \/ s = [dquote] /\ ~ occurs [dquote] v.
Hypothesis Hd : dullText probe.

Let p : bytes := (e ++ delim ++ s)%list.
Let body : bytes := (e ++ delim ++ (s ++ v ++ s) ++ [newline])%list.

Lemma form_no_nl : newline ∉ e.
Proof.
  destruct (plainName_spec n Hn) as (c & n' & En & Hall & _). rewrite <- En in Hall. apply plain_no_nl in Hall.
  unfold nameForms in He. repeat (apply elem_of_cons in He as [->|He]); [done|set_solver|set_solver| |by apply elem_of_nil in He].
  unfold triple. set_solver.
Qed.

Lemma narrow_no_nl : (newline ∉ s) /\ (newline ∉ p).
Proof.
  assert (newline ∉ s) as H by (by destruct Hs as [->|[-> _]]; vm_compute; intros H; repeat (apply elem_of_cons in H as [H|H]; [done|]); apply elem_of_nil in H).
  split; [done|]. unfold p. pose proof form_no_nl.
  assert (newline ∉ delim) by (vm_compute; intros Hx; repeat (apply elem_of_cons in Hx as [Hx|Hx]; [done|]); by apply elem_of_nil in Hx).
  rewrite !elem_of_app. tauto.
Qed.

(** The lines of the text. *)
Lemma narrow_lines A x a ls : splitLines v = (A ++ [x])%list -> splitLines v = a :: ls ->
  exists L0, splitLines (body ++ probe)%list =
    L0 :: match A with [] => splitLines probe | _ :: A => A ++ (x ++ s)%list :: splitLines probe end.
Proof.
  intros EA Ea. destruct narrow_no_nl as [H1 H2].
  assert (body ++ probe = (p ++ (v ++ s)) ++ newline :: probe)%list as ->.
  { unfold body, p. by rewrite <- !app_assoc. }
  rewrite splitLines_nl_app. pose proof (splitLines_snoc v s A x H1 EA) as E.
  destruct A as [|y A].
  - rewrite (splitLines_pre p _ [] (x ++ s)%list H2 E). by eexists.
  - cbn [app] in E. rewrite (splitLines_pre p _ _ _ H2 E). eexists. cbn [app]. f_equal. by rewrite <- app_assoc.
Qed.

Lemma dull_quoted_line x l ls it r k u : dull x = true -> splitLines l = (x ++ s)%list :: ls -> Reads o l it r -> it <> Entry k u.
Proof.
  intros Hx El HR ->. destruct Hs as [->|[-> _]].
  { rewrite app_nil_r in El. by pose proof (Reads_dull o l x ls _ r El Hx HR). }
  unfold dull in Hx. destruct (trimLeftSpace x) as [|c t] eqn:Et.
  - assert (forall e, (e = [] \/ e = [newline]) -> lineOf o ((x ++ [dquote]) ++ e)%list = BadLine) as Hb.
    { intros e0 He0. unfold lineOf. rewrite <- app_assoc. simpl. rewrite trimLeft_app, Et, Ho by done. simpl.
      by destruct He0 as [->| ->]. }
    destruct (line_of_split l _ ls El) as [[E2 _]|[E2 _]]; inversion HR as [| |? ln ? ? ? ? ? _ E1 E3]; subst;
      rewrite E2 in E1; injection E1 as <- _.
    + specialize (Hb [] ltac:(by left)). rewrite app_nil_r in Hb. congruence.
    + specialize (Hb [newline] ltac:(by right)). congruence.
  - assert (dull (x ++ [dquote])%list = true) as Hx'.
    { unfold dull. rewrite trimLeft_app, Et by done. done. }
    by pose proof (Reads_dull o l _ ls _ r El Hx' HR).
Qed.

Lemma splitLines_chars (w : list ascii) (c : ascii) : forall u, w ∈ splitLines u -> c ∈ w -> c ∈ u.
Proof.
  intros u. induction u as [a Ha|a r Ha IH] using text_ind.
  - rewrite splitLines_end by done. by intros ->%list_elem_of_singleton.
  - rewrite splitLines_nl by done. intros [->|H]%elem_of_cons Hc; rewrite elem_of_app, elem_of_cons; [by left|right; right; by apply IH].
Qed.

(** The value is read at the head of the text only. *)
Lemma narrow_first j r : Reads o (dropLines j (body ++ probe)%list) (Entry n v) r -> j = 0.
Proof.
  intros HR. destruct j as [|j]; [done|exfalso].
  set (l := dropLines (S j) (body ++ probe)%list) in *.
  assert (l <> []) as Hl by (by inversion HR).
  destruct (splitLines_last v) as (A & x & EA). destruct (splitLines_cons v) as (a & vs & Ea & _).
  destruct (narrow_lines A x a vs EA Ea) as [L0 EL].
  set (T := match A with [] => splitLines probe | _ :: A => (A ++ (x ++ s)%list :: splitLines probe)%list end) in *.
  assert (splitLines l = drop j T) as Esl by (unfold l; rewrite splitLines_drop, EL by done; done).
  destruct (splitLines_cons l) as (z & ls & Ez & _).
  assert (T !! j = Some z /\ ls = drop (S j) T) as [Hz Hls].
  { rewrite Ez in Esl. split.
    - rewrite <- (Nat.add_0_r j), <- (lookup_drop T), <- Esl. done.
    - rewrite <- Nat.add_1_r, <- drop_drop, <- Esl; done. }
  assert (dull z = true -> False) as Hdz.
  { intros Hdull. by pose proof (Reads_dull o l z ls _ r Ez Hdull HR). }
  assert (forall q, q ∈ splitLines probe -> dull q = true) as HP by (apply Forall_forall; exact Hd).
  destruct A as [|y A].
  { apply Hdz, HP. by eapply list_elem_of_lookup_2. }
  destruct (Reads_lines o l n v r z ls Ho HR Ez) as (w0 & ws & Ew & HM & _).
  rewrite EA in Ew. injection Ew as <- <-. rewrite Hls in HM.
  assert (forall w, w ∈ (A ++ [x])%list -> dull w = true) as Hall.
  { apply (echo A x s (splitLines probe) (S j)); [lia|exact HM|exact HP|].
    destruct Hs as [->|[-> Hno]]; [by left|right]. intros w Hw ->. apply Hno.
    assert (dquote ∈ v) as Hin.
    { apply (splitLines_chars (x ++ [dquote])%list); [rewrite EA; set_solver|set_solver]. }
    apply list_elem_of_split in Hin as (v1 & v2 & ->). by exists v1, v2. }
  unfold T in Hz. destruct (lt_eq_lt_dec j (length A)) as [[Hj|Hj]|Hj].
  - rewrite lookup_app_l in Hz by done. apply Hdz, Hall. apply list_elem_of_lookup_2 in Hz. set_solver.
  - rewrite Hj, list_lookup_middle in Hz by done. injection Hz as <-.
    apply (dull_quoted_line x l ls (Entry n v) r n v); [apply Hall; set_solver|done|done|done].
  - rewrite lookup_app_r in Hz by lia. destruct (j - length A) as [|i] eqn:Ei; [lia|]. apply Hdz, HP.
    by eapply list_elem_of_lookup_2.
Qed.

Lemma narrow_line a vs : splitLines v = a :: vs -> line body = ((p ++ a ++ (if bool_decide (vs = []) then s else []) ++ [newline])%list, (line body).2).
Proof.
  intros Ea. destruct narrow_no_nl as [H1 H2].
  assert (body = p ++ v ++ s ++ [newline])%list as -> by (unfold body, p; by rewrite <- !app_assoc).
  destruct (line_cases v) as [Hv|(b & r & Hv & Hb)].
  - rewrite splitLines_end in Ea by done. injection Ea as <- <-. rewrite bool_decide_true by done.
    assert (terminated (p ++ v ++ s ++ [newline])%list) as Ht.
    { exists (p ++ v ++ s)%list. rewrite <- !app_assoc. split; [done|]. rewrite !elem_of_app. tauto. }
    pose proof (line_app _ [] Ht) as E. rewrite app_nil_r in E. by rewrite E.
  - rewrite Hv, splitLines_nl in Ea by done. injection Ea as <- <-.
    rewrite bool_decide_false by (destruct (splitLines_cons r) as (? & ? & -> & _); done).
    assert (terminated (p ++ b ++ [newline])%list) as Ht.
    { exists (p ++ b)%list. rewrite <- !app_assoc. split; [done|]. rewrite !elem_of_app. tauto. }
    pose proof (line_app _ (r ++ s ++ [newline])%list Ht) as E.
    rewrite Hv. assert (p ++ (b ++ newline :: r) ++ s ++ [newline] = (p ++ b ++ [newline]) ++ r ++ s ++ [newline])%list as ->
      by (rewrite <- !app_assoc; done).
    by rewrite E.
Qed.

(** It is not read by joining the line to the next ones. *)
Lemma narrow_not_joined r : newline ∉ v -> Reads o (body ++ probe)%list (Entry n v) r -> ~ joins o (body ++ probe)%list.
Proof.
  intros Hv HR (k & lv & x & Hf & Hc). destruct narrow_no_nl as [H1 H2].
  assert (terminated body) as Ht.
  { exists (p ++ v ++ s)%list. unfold body, p. rewrite <- !app_assoc. split; [done|]. unfold p in H2. rewrite !elem_of_app in *. tauto. }
  inversion HR as [| |? ln q k' lv' v' r' _ El Ef Hval]; subst. rewrite line_app in El by done. injection El as <- <-.
  rewrite line_app in Hf by done. cbn [fst] in Hf. rewrite Ef in Hf. injection Hf as <- ->.
  unfold body in Ef. rewrite (lineOf_form o n e _ Ho Hn He) in Ef. injection Ef as <-.
  set (lv := " "%char :: ((s ++ v ++ s) ++ [newline])%list) in *.
  assert (oneLine lv) as Hlv.
  { right. exists (" "%char :: s ++ v ++ s)%list. split; [done|]. rewrite elem_of_cons, !elem_of_app. intros [|]; [done|tauto]. }
  pose proof (classify_ok o lv Hlv) as Hok. unfold ReadsValue in Hval. rewrite Hc in Hok, Hval.
  destruct Hok as (_ & w & Ew & Hw). unfold lv in Ew. rewrite trimLeft_space in Ew.
  destruct Hs as [->|[-> _]].
  - rewrite app_nil_r in Ew. cbn [app] in Ew. rewrite trimLeft_snoc_nl in Ew.
    assert (trimLeftSpace x = x) as Hx.
    { pose proof (trimLeft_idem (v ++ [newline])%list) as Hi. rewrite trimLeft_snoc_nl, Ew in Hi.
      rewrite trimLeft_app in Hi by done. by apply app_inv_tail in Hi. }
    assert (trimLeftSpace v ++ [newline] = x ++ backslash :: w)%list as Ev by (destruct (trimLeftSpace v); [by destruct x|done]).
    destruct (Joining_dull _ _ _ _ Hval Hd) as [->|(c & y & Hcc & ->)].
    + rewrite Hx in Ev. by apply app_inv_head in Ev.
    + assert (solid c = true /\ c <> backslash) as [Hsol Hcb].
      { apply one_of_spec in Hcc. revert Hcc. unfold lit. simpl. rewrite !elem_of_cons, elem_of_nil. by intros [->|[->|[]]]. }
      rewrite trimLeft_app, Hx, <- app_assoc in Ev by done. apply app_inv_head in Ev. by injection Ev.
  - apply (f_equal trimRightSpace) in Ew. rewrite trimRight_app, Hw in Ew by done.
    assert (trimLeftSpace (([dquote] ++ v ++ [dquote]) ++ [newline]) = (dquote :: v) ++ dquote :: [newline])%list as E.
    { cbn [app]. rewrite trimLeft_solid by done. by rewrite <- app_assoc. }
    rewrite E, trimRight_app in Ew by done. change (trimRightSpace [newline]) with (@nil ascii) in Ew.
    by apply app_inj_tail in Ew as [_ Ew].
Qed.

Hypothesis Hw : withDefaults o = o.

Lemma plain_not_number : isNumber n = false /\ isAuto n = false.
Proof.
  destruct (plainName_spec n Hn) as (c & n' & -> & _ & Hc & Ha). split; [|done]. simpl.
  apply Ascii.eqb_neq. intros ->. by vm_compute in Hc.
Qed.

Lemma narrow_exact : parsesToKey o body probe n v = true ->
  Reads o (body ++ probe)%list (Entry n v) probe /\ ~ joins o (body ++ probe)%list.
Proof.
  intros H. destruct plain_not_number as [Hnum _].
  destruct (parsesToKey_sound o Hw body probe n v Hnum H) as (its & HI & Hin).
  destruct (Items_at o _ _ _ HI Hin) as (j & r & HR). pose proof (narrow_first j r HR) as ->. cbn [dropLines] in HR.
  destruct (splitLines_cons (body ++ probe)%list) as (L0 & ls & EL & _).
  destruct (Reads_lines o _ n v r L0 ls Ho HR EL) as (w0 & ws & Ew & _ & [[Hj Hv]|[Hj ->]]).
  { by destruct (narrow_not_joined r Hv HR). }
  split; [|done]. destruct narrow_no_nl as [H1 H2].
  assert (body ++ probe = (p ++ (v ++ s)) ++ newline :: probe)%list as E by (unfold body, p; by rewrite <- !app_assoc).
  assert (S (length ws) = length (splitLines (p ++ (v ++ s))%list)) as El.
  { destruct (splitLines_last v) as (A & x & EA). pose proof (splitLines_snoc v s A x H1 EA) as Es.
    destruct (splitLines (v ++ s)%list) as [|a vs] eqn:Evs; [by destruct A|].
    rewrite (splitLines_pre p _ vs a H2 Evs). simpl. f_equal.
    apply (f_equal length) in Es, EA. rewrite Ew in EA. simpl in *. rewrite !length_app in *. simpl in *. lia. }
  rewrite El, E, dropLines_app in HR. by rewrite E.
Qed.

End narrow.

(** ** A key line and what follows it *)

(** The text is read as the key and the value before what follows, which may start as
    [probe] does. *)
Definition fits (o : Options) (b k v probe : bytes) : Prop :=
  forall X, (probe = [] -> startsIndented X = false) -> Reads o (b ++ X)%list (Entry k v) X.

Lemma good_fits o b k v probe : good o b k v -> Reads o (b ++ probe)%list (Entry k v) probe ->
  (probe <> [] -> startsIndented probe = true) -> fits o b k v probe.
Proof.
  intros [H1 H2] HR Hp X HX. destruct (startsIndented X) eqn:EX; [|by apply H1].
  destruct H2 as [H2|H2]; [by apply H2|]. assert (probe <> []) as Hne by (intros ->; by specialize (HX eq_refl)).
  destruct (H2 probe (Hp Hne)) as (v' & r & Hv & HR' & _). destruct (Reads_det _ _ _ _ _ _ HR HR') as [[= <-] _]. done.
Qed.

Lemma dullText_no_entry o l its k v : dullText l -> Items o l its -> Entry k v ∉ its.
Proof.
  intros Hd HI Hin. destruct (Items_at o _ _ _ HI Hin) as (j & r & HR).
  pose proof (dullText_dropLines j l Hd) as Hdj. destruct (splitLines_cons (dropLines j l)) as (x & ls & E & _).
  unfold dullText in Hdj. rewrite E in Hdj. inversion Hdj; subst. by pose proof (Reads_dull _ _ _ _ _ _ E H1 HR).
Qed.

(** What was read and keeps its meaning is read again. *)
Lemma kept_fits o b k v probe : withDefaults o = o -> isNumber k = false -> good o b k v -> dullText probe ->
  (probe <> [] -> startsIndented probe = true) -> probe = [] \/ parsesToKey o b probe k v = true -> fits o b k v probe.
Proof.
  intros Ho Hk [H1 H2] Hd Hp Hkeep X HX. destruct (startsIndented X) eqn:EX; [|by apply H1].
  destruct H2 as [H2|H2]; [by apply H2|]. assert (probe <> []) as Hne by (intros ->; by specialize (HX eq_refl)).
  destruct Hkeep as [->|Hkeep]; [done|]. exfalso.
  destruct (H2 probe (Hp Hne)) as (v' & r & Hv & HR & j & ->).
  destruct (parsesToKey_sound o Ho b probe k v Hk Hkeep) as (its & HI & Hin).
  inversion HI as [|? it r its' HR' HI']; subst; [by apply elem_of_nil in Hin|].
  destruct (Reads_det _ _ _ _ _ _ HR HR') as [<- <-]. apply elem_of_cons in Hin as [Hin|Hin]; [congruence|].
  by apply (dullText_no_entry o _ its' k v (dullText_dropLines j probe Hd) HI').
Qed.

Definition stdFormat : Format := mkFormat delim [newline] true true.

Lemma keyLines_in fm names values b : b ∈ keyLines fm names values ->
  exists e w, e ∈ names /\ w ∈ values /\ b = (e ++ KeyValueDelimiter fm ++ w ++ LineBreak fm)%list.
Proof.
  unfold keyLines. rewrite list_elem_of_In, in_flat_map. intros (e & He & Hb). apply in_map_iff in Hb as (w & <- & Hw).
  exists e, w. by rewrite !list_elem_of_In.
Qed.

(** What a candidate that passes the check is read as. *)
Lemma candidate_reads o n e w v probe : KeyValueDelimiters o = lit "=:" -> withDefaults o = o -> plainName n = true ->
  e ∈ nameForms n -> w ∈ quoteCandidates v -> dullText probe -> parsesToKey o (e ++ delim ++ w ++ [newline])%list probe n v = true ->
  Reads o ((e ++ delim ++ w ++ [newline]) ++ probe)%list (Entry n v) probe /\ good o (e ++ delim ++ w ++ [newline])%list n v.
Proof.
  intros Ho Hw Hn He Hv Hd Hp. set (b := (e ++ delim ++ w ++ [newline])%list) in *.
  assert (b <> []) as Hne by (unfold b; by destruct e).
  assert (closed b) as Hb by (right; exists (e ++ delim ++ w)%list; unfold b; by rewrite <- !app_assoc).
  assert (forall s, (s = [] \/ s = [dquote] /\ ~ occurs [dquote] v) -> w = (s ++ v ++ s)%list ->
    Reads o (b ++ probe)%list (Entry n v) probe /\ good o b n v) as Hnarrow.
  { intros s Hs ->. destruct (narrow_exact o n e s v probe Ho Hn He Hs Hd Hw Hp) as [HR Hj]. split; [exact HR|].
    apply (Reads_local o b n v probe); [done|exact HR|done|done|].
    intros (k & lv & x & Hf & Hc). destruct Hj. exists k, lv, x. split; [|done].
    destruct (closed_line b Hb Hne) as (ln & b' & _ & _ & _ & Hline). fold b. rewrite Hline.
    specialize (Hline []). rewrite !app_nil_r in Hline. rewrite Hline in Hf. exact Hf. }
  assert (forall q, wide q -> ~ occurs q v -> w = (q ++ v ++ q)%list -> Reads o (b ++ probe)%list (Entry n v) probe /\ good o b n v) as Hwide.
  { intros q Hq Hno ->.
    assert (forall X, Reads o (b ++ X)%list (Entry n v) X) as HX.
    { intros X. unfold b. pose proof (wide_exact o n e q v X Ho Hn He Hq Hno) as HX. rewrite <- !app_assoc in HX |- *. exact HX. }
    split; [done|]. split; [by intros|by left]. }
  destruct (quoteCandidates_in v w Hv) as [->|[[-> Hq]|[[-> Hq]|[-> Hq]]]].
  - apply (Hnarrow []); [by left|]. by rewrite app_nil_r.
  - apply (Hnarrow [dquote]); [by right|done].
  - apply (Hwide (lit "`")); [by left|done|done].
  - apply (Hwide triple); [by right|done|done].
Qed.

Lemma form_starts n e r : plainName n = true -> e ∈ nameForms n -> e <> [] /\ startsIndented (e ++ r)%list = false.
Proof.
  intros Hn He. destruct (plainName_spec n Hn) as (c & n' & En & Hall & Hc & _).
  unfold nameForms in He. repeat (apply elem_of_cons in He as [->|He]); [|done..|by apply elem_of_nil in He].
  rewrite En. split; [done|]. simpl. simpl in Hall. apply andb_true_iff in Hall as [Hpc _].
  apply plainChar_spec in Hpc as (Hs & _). unfold isContinuationIndent.
  rewrite !orb_false_iff, !Ascii.eqb_neq. split_and!; by intros ->.
Qed.

(** [encodeKeyLine] writes a line that is read as the key. *)
Lemma encode_fits o key probe b : KeyValueDelimiters o = lit "=:" -> withDefaults o = o ->
  plainName (name key) = true -> autoIncrement key = false -> dullText probe -> (probe <> [] -> startsIndented probe = true) ->
  encodeKeyLine o stdFormat key probe = Some b ->
  fits o b (name key) (value key) probe /\ startsIndented b = false /\ exists x, b = (x ++ [newline])%list.
Proof.
  intros Ho Hw Hn Ha Hd Hp. unfold encodeKeyLine. rewrite Ha. intros H. apply find_some in H as [Hin Hok].
  apply list_elem_of_In, keyLines_in in Hin as (e & w & He & Hv & ->). cbn [KeyValueDelimiter LineBreak stdFormat] in *.
  apply quoteCandidates_forms in He. destruct (candidate_reads o (name key) e w (value key) probe Ho Hw Hn He Hv Hd Hok) as [HR Hg].
  split_and!.
  - by apply good_fits.
  - by apply (form_starts (name key)).
  - exists (e ++ delim ++ w)%list. by rewrite <- !app_assoc.
Qed.

(** Every value without a backtick, or without three double quotes, can be written. *)
Definition quotable (v : bytes) : bool := negb (Contains v (lit "`")) || negb (Contains v triple).

Lemma encode_some o key probe : KeyValueDelimiters o = lit "=:" -> withDefaults o = o ->
  plainName (name key) = true -> autoIncrement key = false -> dullText probe -> quotable (value key) = true ->
  exists b, encodeKeyLine o stdFormat key probe = Some b.
Proof.
  intros Ho Hw Hn Ha Hd Hq. unfold encodeKeyLine. rewrite Ha.
  destruct (find _ _) as [b|] eqn:Ef; [by exists b|exfalso].
  assert (exists q, wide q /\ ~ occurs q (value key) /\ (q ++ value key ++ q)%list ∈ quoteCandidates (value key)) as (q & Hwq & Hno & Hin).
  { unfold quotable in Hq. apply orb_true_iff in Hq as [Hq|Hq]; apply negb_true_iff in Hq;
      [exists (lit "`")|exists triple]; (split; [unfold wide; tauto|]); (split; [
        unfold Contains in Hq; apply bool_decide_eq_false, eq_None_not_Some in Hq; by apply Index_none|]);
      unfold quoteCandidates; rewrite Hq; set_solver. }
  pose proof (find_none _ _ Ef (name key ++ delim ++ (q ++ value key ++ q) ++ [newline])%list) as Hf.
  assert (parsesToKey o (name key ++ delim ++ (q ++ value key ++ q) ++ [newline])%list probe (name key) (value key) = true) as Hp.
  { apply parsesToKey_intro; [done| |pose proof (wide_exact o (name key) (name key) q (value key) probe Ho Hn ltac:(unfold nameForms; by left) Hwq Hno) as HR;
      rewrite <- !app_assoc in HR |- *; exact HR|done].
    by destruct (plainName_spec _ Hn) as (? & ? & _ & _ & _ & ?). }
  cbv beta in Hf. rewrite Hp in Hf. discriminate Hf. apply in_flat_map. exists (name key). split; [by left|].
  apply in_map_iff. exists (q ++ value key ++ q)%list. split; [done|]. by apply list_elem_of_In.
Qed.

End iniexact.
