(* ===== verification/IniShape.v ===== *)
(** * util/ini: the order of a document

    The sections and their keys are the ones the nodes say, in the order they say it.  What
    the items of a written document say is then what the document holds. *)

From S2P Require Import Prelude.
From S2P Require Import Ini.
From S2P Require Import IniRead.
From S2P Require Import IniDoc.
From S2P Require Import IniEncode.
From Stdlib Require Import Ascii.

Open Scope string_scope.

Module inishape.

Import inidoc inivalue inidocument iniencode.

(** The names of the sections and of their keys. *)
Definition shape := list (bytes * list bytes).

Definition shape_of (secs : list Section) : shape := (fun sec => (sectionName sec, name <$> keys sec)) <$> secs.

Definition addSection (s : bytes) (sh : shape) : shape :=
  if bool_decide (s ∈ sh.*1) then sh else (sh ++ [(s, [])])%list.

Definition addName (k : bytes) (ks : list bytes) : list bytes := if bool_decide (k ∈ ks) then ks else (ks ++ [k])%list.

Definition atSection (s : bytes) (g : list bytes -> list bytes) (sh : shape) : shape :=
  (fun e => if bool_decide (e.1 = s) then (e.1, g e.2) else e) <$> sh.

Definition step (sh : shape) (r : Ref) : shape :=
  match r with SectionRef s => addSection s sh | KeyRef s k => atSection s (addName k) sh end.

(** What the nodes say, [d] being the default section. *)
Definition shapeOf (d : bytes) (refs : list Ref) : shape := foldl step [(d, [])] refs.

(** Every key is in the section of the last header before it. *)
Fixpoint placed (cur : bytes) (refs : list Ref) : bool :=
  match refs with
  | [] => true
  | SectionRef s :: refs => placed s refs
  | KeyRef s _ :: refs => bool_decide (s = cur) && placed cur refs
  end.

Definition after (cur : bytes) (refs : list Ref) : bytes :=
  foldl (fun cur r => match r with SectionRef s => s | KeyRef _ _ => cur end) cur refs.

Definition refSection (r : Ref) : bytes := match r with SectionRef s => s | KeyRef s _ => s end.

(** ** Names are there once *)

Definition distinct (sh : shape) : Prop := NoDup sh.*1 /\ Forall (fun e => NoDup e.2) sh.

Lemma atSection_names s g sh : (atSection s g sh).*1 = sh.*1.
Proof. unfold atSection. rewrite <- list_fmap_compose. apply list_fmap_ext. intros i [x ks] _. simpl. by case_bool_decide. Qed.

Lemma step_distinct sh r : distinct sh -> distinct (step sh r).
Proof.
  intros [H1 H2]. destruct r as [s|s k]; simpl.
  - unfold addSection. case_bool_decide as Hs; [done|]. split.
    + rewrite fmap_app. apply NoDup_app. split_and!; [done| |apply NoDup_singleton]. intros x Hx ->%list_elem_of_singleton. done.
    + apply Forall_app. split; [done|]. repeat constructor.
  - split; [by rewrite atSection_names|]. unfold atSection. rewrite Forall_fmap. eapply Forall_impl; [exact H2|].
    intros [x ks] Hk. simpl. case_bool_decide; [|done]. simpl. unfold addName. case_bool_decide as Hin; [done|].
    apply NoDup_app. split_and!; [done| |apply NoDup_singleton]. intros y Hy ->%list_elem_of_singleton. done.
Qed.

Lemma shapeOf_distinct d refs : distinct (shapeOf d refs).
Proof.
  unfold shapeOf. assert (distinct [(d, [])]) as H by (split; [apply NoDup_singleton|repeat constructor]).
  revert H. generalize [(d, @nil bytes)]. induction refs as [|r refs IH]; intros sh H; [done|]. apply IH. by apply step_distinct.
Qed.

Lemma step_names sh r s : s ∈ sh.*1 -> s ∈ (step sh r).*1.
Proof.
  destruct r as [s'|s' k]; simpl; [|by rewrite atSection_names]. unfold addSection. case_bool_decide; [done|].
  rewrite fmap_app. set_solver.
Qed.

Lemma foldl_names refs sh s : s ∈ sh.*1 -> s ∈ (foldl step sh refs).*1.
Proof. revert sh. induction refs as [|r refs IH]; intros sh H; [done|]. apply IH. by apply step_names. Qed.

Lemma shapeOf_default d refs : d ∈ (shapeOf d refs).*1.
Proof. apply foldl_names. simpl. by left. Qed.

Lemma shapeOf_app d refs refs' : shapeOf d (refs ++ refs')%list = foldl step (shapeOf d refs) refs'.
Proof. apply foldl_app. Qed.

Lemma shapeOf_snoc d refs r : shapeOf d (refs ++ [r])%list = step (shapeOf d refs) r.
Proof. by rewrite shapeOf_app. Qed.

(** The keys of the nodes are in the shape. *)
Definition hasName (sh : shape) (s k : bytes) : Prop := exists ks, (s, ks) ∈ sh /\ k ∈ ks.

Lemma step_hasName sh r s k : hasName sh s k -> hasName (step sh r) s k.
Proof.
  intros (ks & H1 & H2). destruct r as [s'|s' k']; simpl.
  - unfold addSection. case_bool_decide; [by exists ks|]. exists ks. split; [set_solver|done].
  - destruct (decide (s = s')) as [->|Hs].
    + exists (addName k' ks). split.
      * unfold atSection. apply list_elem_of_fmap. exists (s', ks). simpl. by rewrite bool_decide_true.
      * unfold addName. case_bool_decide; [done|]. set_solver.
    + exists ks. split; [|done]. unfold atSection. apply list_elem_of_fmap. exists (s, ks). simpl. by rewrite bool_decide_false.
Qed.

Lemma foldl_hasName refs sh s k : hasName sh s k -> hasName (foldl step sh refs) s k.
Proof. revert sh. induction refs as [|r refs IH]; intros sh H; [done|]. apply IH. by apply step_hasName. Qed.

Lemma placed_hasName refs cur sh s k : cur ∈ sh.*1 -> placed cur refs = true -> KeyRef s k ∈ refs -> hasName (foldl step sh refs) s k.
Proof.
  revert cur sh. induction refs as [|r refs IH]; intros cur sh Hcur Hp Hin; [by apply elem_of_nil in Hin|].
  apply elem_of_cons in Hin as [<-|Hin].
  - simpl in Hp. apply andb_true_iff in Hp as [Hs Hp]. apply bool_decide_eq_true in Hs as ->. cbn [foldl].
    apply foldl_hasName. apply list_elem_of_fmap in Hcur as ([x ks] & -> & Hx). simpl.
    exists (addName k ks). split.
    + unfold atSection. apply list_elem_of_fmap. exists (x, ks). simpl. by rewrite bool_decide_true.
    + unfold addName. case_bool_decide; [done|]. set_solver.
  - cbn [foldl]. destruct r as [s'|s' k']; simpl in Hp.
    + apply (IH s'); [|done|done]. simpl. unfold addSection. case_bool_decide; [done|]. rewrite fmap_app. set_solver.
    + apply andb_true_iff in Hp as [_ Hp]. apply (IH cur); [by apply step_names|done|done].
Qed.

(** ** Changes to the nodes *)

Ltac at_section x s :=
  destruct (decide (x = s)) as [?|?];
    [repeat (rewrite (bool_decide_true (x = s)) by done; simpl)|by repeat (rewrite (bool_decide_false (x = s)) by done; simpl)].

Lemma atSection_comm s s' g g' sh : s <> s' -> atSection s g (atSection s' g' sh) = atSection s' g' (atSection s g sh).
Proof.
  intros Hs. unfold atSection. rewrite <- !list_fmap_compose. apply list_fmap_ext. intros i [x ks] _. simpl.
  repeat (case_bool_decide; simpl); subst; done.
Qed.

Lemma atSection_add s g s' sh : s <> s' -> atSection s g (addSection s' sh) = addSection s' (atSection s g sh).
Proof.
  intros Hs. unfold addSection. rewrite atSection_names. case_bool_decide; [done|].
  unfold atSection. rewrite fmap_app. simpl. by rewrite bool_decide_false.
Qed.

Lemma atSection_addSection s g sh : s ∈ sh.*1 -> atSection s g (addSection s sh) = addSection s (atSection s g sh).
Proof. intros H. unfold addSection. rewrite atSection_names. by rewrite !bool_decide_true. Qed.

Lemma foldl_atSection s g refs sh : Forall (fun r => refSection r <> s) refs ->
  foldl step (atSection s g sh) refs = atSection s g (foldl step sh refs).
Proof.
  revert sh. induction refs as [|r refs IH]; intros sh H; [done|]. inversion H; subst. cbn [foldl].
  rewrite <- IH by done. f_equal. destruct r as [s'|s' k']; simpl in *.
  - symmetry. by apply atSection_add.
  - by apply atSection_comm.
Qed.

(** A key after the last node of its section. *)
Lemma shapeOf_insert d A B s k : Forall (fun r => refSection r <> s) B ->
  shapeOf d (A ++ KeyRef s k :: B)%list = atSection s (addName k) (shapeOf d (A ++ B)%list).
Proof. intros H. rewrite !shapeOf_app. cbn [foldl step]. by apply foldl_atSection. Qed.

Definition dropName (k : bytes) (ks : list bytes) : list bytes := filter (fun x => x <> k) ks.

Lemma shapeOf_delKey d refs s k :
  shapeOf d (filter (fun r => r <> KeyRef s k) refs) = atSection s (dropName k) (shapeOf d refs).
Proof.
  unfold shapeOf. assert ([(d, [])] = atSection s (dropName k) [(d, @nil bytes)]) as E0.
  { unfold atSection. simpl. by case_bool_decide. }
  rewrite E0 at 1. generalize [(d, @nil bytes)]. induction refs as [|r refs IH]; intros sh; [done|]. cbn [foldl].
  rewrite <- IH. destruct (decide (r = KeyRef s k)) as [->|Hr].
  - rewrite filter_cons_False by tauto. f_equal. simpl. unfold atSection. rewrite <- list_fmap_compose. apply list_fmap_ext.
    intros i [x ks] _. simpl. at_section x s. f_equal.
    unfold addName, dropName. case_bool_decide; [done|]. rewrite filter_app, filter_cons_False by tauto. by rewrite filter_nil, app_nil_r.
  - rewrite filter_cons_True by done. cbn [foldl]. f_equal. destruct r as [s'|s' k']; simpl.
    + destruct (decide (s = s')) as [<-|Hs]; [|symmetry; by apply atSection_add].
      unfold addSection. rewrite atSection_names. case_bool_decide; [done|]. unfold atSection. rewrite fmap_app. simpl.
      by rewrite bool_decide_true.
    + destruct (decide (s = s')) as [<-|Hs]; [|by apply atSection_comm].
      unfold atSection. rewrite <- !list_fmap_compose. apply list_fmap_ext. intros i [x ks] _. simpl.
      at_section x s. f_equal.
      assert (k' <> k) as Hk by congruence. unfold addName, dropName.
      destruct (decide (k' ∈ ks)) as [Hin|Hin].
      * rewrite !bool_decide_true; [done|done|]. apply list_elem_of_filter. done.
      * rewrite !bool_decide_false; [|done|intros [_ ?]%list_elem_of_filter; done].
        by rewrite filter_app, filter_cons_True, filter_nil by done.
Qed.

Lemma filter_names (s : bytes) (sh : shape) x : x ∈ (filter (fun e => e.1 <> s) sh).*1 <-> x ∈ sh.*1 /\ x <> s.
Proof.
  rewrite !list_elem_of_fmap. split.
  - intros (e & -> & [H1 H2]%list_elem_of_filter). split; [by exists e|done].
  - intros [(e & -> & H1) H2]. exists e. split; [done|]. by apply list_elem_of_filter.
Qed.

Lemma shapeOf_delSection d refs s : s <> d ->
  shapeOf d (filter (fun r => refSection r <> s) refs) = filter (fun e => e.1 <> s) (shapeOf d refs).
Proof.
  intros Hd. unfold shapeOf. assert ([(d, [])] = filter (fun e : bytes * list bytes => e.1 <> s) [(d, @nil bytes)]) as E0 by (by rewrite filter_cons_True).
  rewrite E0 at 1. generalize [(d, @nil bytes)]. induction refs as [|r refs IH]; intros sh; [done|]. cbn [foldl].
  rewrite <- IH. destruct (decide (refSection r = s)) as [Hr|Hr].
  - rewrite filter_cons_False by tauto. f_equal. destruct r as [s'|s' k]; simpl in Hr |- *; subst s'.
    + unfold addSection. case_bool_decide; [done|]. rewrite filter_app, filter_cons_False, filter_nil, app_nil_r by (simpl; tauto). done.
    + unfold atSection. induction sh as [|[x ks] sh IHs]; [done|]. simpl. destruct (decide (x = s)) as [->|Hx].
      * rewrite !filter_cons_False by (rewrite ?bool_decide_true by done; simpl; tauto). exact IHs.
      * rewrite bool_decide_false by done. rewrite !filter_cons_True by done. by f_equal.
  - rewrite filter_cons_True by done. cbn [foldl]. f_equal. destruct r as [s'|s' k]; simpl in Hr |- *.
    + unfold addSection. destruct (decide (s' ∈ sh.*1)) as [Hin|Hin].
      * rewrite !bool_decide_true; [done|done|]. by apply filter_names.
      * rewrite !bool_decide_false; [|done|intros [? _]%filter_names; done].
        by rewrite filter_app, filter_cons_True, filter_nil by done.
    + unfold atSection. induction sh as [|[x ks] sh IHs]; [done|]. cbn [fmap list_fmap]. destruct (decide (x = s)) as [->|Hx].
      * rewrite !filter_cons_False by (simpl; rewrite ?(bool_decide_false (s = s')) by congruence; simpl; tauto). exact IHs.
      * rewrite !filter_cons_True by (try case_bool_decide; done). cbn [fmap list_fmap]. by f_equal.
Qed.

(** ** Places *)

Lemma placed_app cur A B : placed cur (A ++ B)%list = placed cur A && placed (after cur A) B.
Proof.
  revert cur. induction A as [|r A IH]; intros cur; [done|]. simpl. destruct r as [s|s k]; [apply IH|]. by rewrite IH, andb_assoc.
Qed.

Lemma placed_delKey cur refs s k : placed cur refs = true -> placed cur (filter (fun r => r <> KeyRef s k) refs) = true.
Proof.
  revert cur. induction refs as [|r refs IH]; intros cur H; [done|]. destruct (decide (r = KeyRef s k)) as [->|Hr].
  - rewrite filter_cons_False by tauto. simpl in H. apply andb_true_iff in H as [_ H]. by apply IH.
  - rewrite filter_cons_True by done. destruct r as [s'|s' k']; simpl in *; [by apply IH|].
    apply andb_true_iff in H as [-> H]. by apply IH.
Qed.

Lemma placed_delSection cur cur' refs s : placed cur refs = true -> (cur = cur' \/ cur = s) ->
  placed cur' (filter (fun r => refSection r <> s) refs) = true.
Proof.
  revert cur cur'. induction refs as [|r refs IH]; intros cur cur' H Hc; [done|]. destruct (decide (refSection r = s)) as [Hr|Hr].
  - rewrite filter_cons_False by tauto. destruct r as [s'|s' k]; simpl in H, Hr.
    + apply (IH s'); [done|by right].
    + apply andb_true_iff in H as [_ H]. by apply (IH cur).
  - rewrite filter_cons_True by done. destruct r as [s'|s' k]; simpl in *.
    + apply (IH s'); [done|by left].
    + apply andb_true_iff in H as [Hs H]. apply bool_decide_eq_true in Hs. destruct Hc as [<-|Hc]; [|congruence].
      rewrite bool_decide_true by done. simpl. apply (IH cur); [done|by left].
Qed.

(** ** What the items of the nodes say *)

Definition decorate (val : bytes -> bytes -> bytes) (sh : shape) : list Section :=
  (fun e => mkSection e.1 ((fun k => mkKey k (val e.1 k) false) <$> e.2)) <$> sh.

Definition itemOf (val : bytes -> bytes -> bytes) (r : Ref) : item :=
  match r with SectionRef s => Header s | KeyRef s k => Entry k (val s k) end.

Lemma findSection_decorate val sh s : findSection (decorate val sh) s = None <-> s ∉ sh.*1.
Proof.
  unfold findSection, decorate. induction sh as [|[x ks] sh IH]; [split; [by intros _ ?%elem_of_nil|done]|]. simpl.
  case_bool_decide as Hx; [subst x; split; [done|intros []; by left]|]. rewrite IH, not_elem_of_cons. naive_solver.
Qed.

Lemma force_decorate val s sh : force s (decorate val sh) = decorate val (addSection s sh).
Proof.
  unfold force, addSection. destruct (findSection (decorate val sh) s) as [sec|] eqn:E.
  - rewrite bool_decide_true; [done|]. destruct (decide (s ∈ sh.*1)) as [|Hn]; [done|]. apply (findSection_decorate val) in Hn. congruence.
  - apply findSection_decorate in E. rewrite bool_decide_false by done. unfold decorate. by rewrite fmap_app.
Qed.

Lemma findSection_decorate_some val sh s sec : findSection (decorate val sh) s = Some sec ->
  exists ks, (s, ks) ∈ sh /\ sec = mkSection s ((fun k => mkKey k (val s k) false) <$> ks).
Proof.
  unfold findSection, decorate. induction sh as [|[x ks] sh IH]; [done|]. simpl. case_bool_decide as Hx.
  - intros [= <-]. exists ks. subst x. split; [by left|done].
  - intros H. destruct (IH H) as (ks' & H1 & H2). exists ks'. split; [by right|done].
Qed.

Lemma keyOf_decorate val s ks k : keyOf (mkSection s ((fun k => mkKey k (val s k) false) <$> ks)) k =
  if bool_decide (k ∈ ks) then Some (mkKey k (val s k) false) else None.
Proof.
  unfold keyOf. simpl. induction ks as [|x ks IH]; [by rewrite bool_decide_false by apply not_elem_of_nil|]. simpl.
  destruct (decide (x = k)) as [->|Hx].
  { rewrite !bool_decide_true by (done || by left). done. }
  rewrite (bool_decide_false (x = k)) by done. etrans; [exact IH|].
  destruct (decide (k ∈ ks)); [rewrite !bool_decide_true; [done|by right|done]|].
  rewrite !bool_decide_false; [done| |done]. rewrite elem_of_cons. naive_solver.
Qed.

Lemma define_decorate val s k sh : distinct sh -> define s k (val s k) false (decorate val sh) = decorate val (atSection s (addName k) sh).
Proof.
  intros [Hnd _]. unfold define. destruct (findSection (decorate val sh) s) as [sec|] eqn:E; cbn [mbind option_bind].
  - apply findSection_decorate_some in E as (ks & Hin & ->). rewrite keyOf_decorate.
    assert (forall ks', (s, ks') ∈ sh -> ks' = ks) as Huniq.
    { intros ks' Hin'. clear -Hnd Hin Hin'. induction sh as [|[x kx] sh IH]; [by apply elem_of_nil in Hin|].
      simpl in Hnd. apply NoDup_cons in Hnd as [Hx Hnd].
      apply elem_of_cons in Hin, Hin'. destruct Hin as [E|Hin], Hin' as [E'|Hin'].
      - congruence.
      - destruct Hx. apply list_elem_of_fmap. exists (s, ks'). split; [by injection E|done].
      - destruct Hx. apply list_elem_of_fmap. exists (s, ks). split; [by injection E'|done].
      - by apply IH. }
    destruct (decide (k ∈ ks)) as [Hk|Hk].
    + rewrite bool_decide_true by done. unfold onSections, decorate, atSection. rewrite <- !list_fmap_compose. apply list_fmap_ext.
      intros i [x kx] Hi. simpl. case_bool_decide as Hx; [|done]. subst x. apply list_elem_of_lookup_2, Huniq in Hi as ->.
      simpl. unfold addName. rewrite bool_decide_true by done. unfold upd, upd_keys. simpl. f_equal.
      rewrite <- list_fmap_compose. apply list_fmap_ext. intros j y _. simpl. by case_bool_decide; subst.
    + rewrite bool_decide_false by done. unfold onSections, decorate, atSection. rewrite <- !list_fmap_compose. apply list_fmap_ext.
      intros i [x kx] Hi. simpl. case_bool_decide as Hx; [|done]. subst x. apply list_elem_of_lookup_2, Huniq in Hi as ->.
      simpl. unfold addName. rewrite bool_decide_false by done. unfold upd, upd_keys. simpl. by rewrite fmap_app.
  - apply findSection_decorate in E. unfold onSections, decorate, atSection. rewrite <- !list_fmap_compose. apply list_fmap_ext.
    intros i [x kx] Hi. simpl. rewrite !bool_decide_false; [done|..]; intros ->; apply E, list_elem_of_fmap;
      exists (s, kx); (split; [done|]; by eapply list_elem_of_lookup_2).
Qed.

(** The items of placed nodes say the shape of the nodes, and the values. *)
Lemma absorb_decorate val refs sh cur n : distinct sh -> placed cur refs = true ->
  (forall s k, KeyRef s k ∈ refs -> isAuto k = false) ->
  (foldl absorb (decorate val sh, cur, n) (itemOf val <$> refs)).1.1 = decorate val (foldl step sh refs).
Proof.
  revert sh cur n. induction refs as [|r refs IH]; intros sh cur n Hsh Hp Ha; [done|].
  cbn [fmap list_fmap foldl]. destruct r as [s|s k]; cbn [itemOf absorb].
  - rewrite force_decorate. apply IH; [by apply (step_distinct sh (SectionRef s))|done|]. intros s' k Hin. apply (Ha s' k). by right.
  - simpl in Hp. apply andb_true_iff in Hp as [Hs Hp]. apply bool_decide_eq_true in Hs as ->.
    assert (isAuto k = false) as Hk by (apply (Ha cur k); by left). unfold numbered. rewrite Hk, define_decorate by done.
    apply IH; [by apply (step_distinct sh (KeyRef cur k))|done|]. intros s' k' Hin. apply (Ha s' k'). by right.
Qed.

(** The sections are their shape and their values. *)
Definition valueIn (secs : list Section) (s k : bytes) : option bytes := value <$> (findSection secs s ≫= fun sec => keyOf sec k).

Lemma sections_decorate secs val : distinct (shape_of secs) ->
  (forall s k v, valueIn secs s k = Some v -> val s k = v) ->
  Forall (fun sec => Forall (fun key => autoIncrement key = false) (keys sec)) secs -> secs = decorate val (shape_of secs).
Proof.
  intros [Hn Hk] Hv Ha. unfold decorate, shape_of. rewrite <- list_fmap_compose. rewrite <- (list_fmap_id secs) at 1.
  apply list_fmap_ext. intros i sec Hi. destruct sec as [s ks]. simpl. unfold id. f_equal.
  rewrite <- list_fmap_compose. rewrite <- (list_fmap_id ks) at 1. apply list_fmap_ext. intros j [k v a] Hj. simpl. unfold id.
  assert (a = false) as ->.
  { rewrite Forall_lookup in Ha. specialize (Ha i _ Hi). rewrite Forall_lookup in Ha. by specialize (Ha j _ Hj). }
  f_equal. symmetry. apply Hv. unfold valueIn.
  assert (findSection secs s = Some (mkSection s ks)) as ->.
  { clear -Hn Hi. unfold findSection, shape_of in *. revert i Hi. induction secs as [|x secs IH]; intros i Hi; [done|].
    simpl in Hn. apply NoDup_cons in Hn as [Hx Hn]. destruct i as [|i].
    - injection Hi as ->. simpl. by rewrite bool_decide_true.
    - simpl in Hi |- *. rewrite bool_decide_false; [by apply (IH Hn i)|]. intros Hs. apply Hx.
      rewrite <- list_fmap_compose. apply list_elem_of_fmap. exists (mkSection s ks). split; [done|]. by eapply list_elem_of_lookup_2. }
  simpl. assert (keyOf (mkSection s ks) k = Some (mkKey k v false)) as ->; [|done].
  assert (NoDup (name <$> ks)) as Hnd.
  { unfold shape_of in Hk. rewrite Forall_fmap, Forall_lookup in Hk. by specialize (Hk i _ Hi). }
  clear -Hnd Hj. unfold keyOf. simpl. revert j Hj. induction ks as [|x ks IH]; intros j Hj; [done|].
  simpl in Hnd. apply NoDup_cons in Hnd as [Hx Hnd]. destruct j as [|j].
  - injection Hj as ->. simpl. by rewrite bool_decide_true.
  - simpl in Hj |- *. rewrite bool_decide_false; [by apply (IH Hnd j)|]. intros Hs. apply Hx.
    apply list_elem_of_fmap. exists (mkKey k v false). split; [done|]. by eapply list_elem_of_lookup_2.
Qed.

End inishape.
