(* ===== verification/IniLoad.v ===== *)
(** * util/ini: a loaded document

    What holds of a document once it is loaded: every element is read again from its bytes,
    the nodes are where their sections are. *)

From S2P Require Import Prelude.
From S2P Require Import Ini.
From S2P Require Import IniBytes.
From S2P Require Import IniRead.
From S2P Require Import IniLocal.
From S2P Require Import IniDoc.
From S2P Require Import IniLines.
From S2P Require Import IniEncode.
From S2P Require Import IniQuote.
From S2P Require Import IniExact.
From S2P Require Import IniShape.
From Stdlib Require Import Ascii.

Open Scope string_scope.

Module iniload.

Import inidoc iniread inivalue inilocal inidocument inilines iniencode iniquote iniexact inishape.

(** ** Sections *)

Lemma findSection_names secs s : is_Some (findSection secs s) <-> s ∈ (shape_of secs).*1.
Proof.
  unfold shape_of. rewrite <- list_fmap_compose. induction secs as [|sec secs IH]; [split; [by intros [? ?]|by intros ?%elem_of_nil]|].
  simpl. rewrite elem_of_cons. destruct (decide (sectionName sec = s)) as [E|E].
  - rewrite bool_decide_true by done. split; [by left|by eexists].
  - rewrite bool_decide_false by done. rewrite <- IH. split; [by right|by intros [|]].
Qed.

Lemma shape_force s secs : shape_of (force s secs) = addSection s (shape_of secs).
Proof.
  unfold force, addSection. destruct (findSection secs s) as [sec|] eqn:E.
  - rewrite bool_decide_true; [done|]. apply findSection_names. by eexists.
  - rewrite bool_decide_false; [|intros H; apply findSection_names in H as [? H]; congruence]. unfold shape_of. by rewrite fmap_app.
Qed.

Lemma keyOf_in sec k : is_Some (keyOf sec k) <-> k ∈ name <$> keys sec.
Proof.
  unfold keyOf. induction (keys sec) as [|key l IH]; [split; [by intros [? ?]|by intros ?%elem_of_nil]|].
  simpl. rewrite elem_of_cons. destruct (decide (name key = k)) as [E|E].
  - rewrite bool_decide_true by done. split; [by left|by eexists].
  - rewrite bool_decide_false by done. rewrite <- IH. split; [by right|by intros [|]].
Qed.

(** Only one section has the name. *)
Lemma distinct_section secs s sec sec' : distinct (shape_of secs) -> findSection secs s = Some sec -> sec' ∈ secs ->
  sectionName sec' = s -> sec' = sec.
Proof.
  intros [H _]. unfold shape_of in H. rewrite <- list_fmap_compose in H. induction secs as [|x secs IH]; [done|].
  simpl in *. apply NoDup_cons in H as [Hx H]. destruct (decide (sectionName x = s)) as [E|E].
  - rewrite bool_decide_true by done. intros [= <-] [->|Hin]%elem_of_cons Hs; [done|]. destruct Hx.
    apply list_elem_of_fmap. exists sec'. simpl. by rewrite Hs.
  - rewrite bool_decide_false by done. intros Hf [->|Hin]%elem_of_cons Hs; [done|]. by apply IH.
Qed.

Lemma shape_define s k v a secs : distinct (shape_of secs) ->
  shape_of (define s k v a secs) = atSection s (addName k) (shape_of secs).
Proof.
  intros Hd. unfold define, shape_of, atSection.
  destruct (findSection secs s) as [sec|] eqn:E; cbn [mbind option_bind].
  - destruct (keyOf sec k) as [key|] eqn:Ek; unfold onSections; rewrite <- !list_fmap_compose; apply list_fmap_ext;
      intros i sec' Hi%list_elem_of_lookup_2; simpl; case_bool_decide as Hs; try done;
      rewrite (distinct_section secs s sec sec' Hd E Hi Hs); simpl; f_equal; unfold addName.
    + rewrite bool_decide_true by (apply keyOf_in; by eexists).
      rewrite <- list_fmap_compose. apply list_fmap_ext. intros j key' _. simpl. by case_bool_decide.
    + rewrite bool_decide_false by (intros Hk; apply keyOf_in in Hk as [? Hk]; congruence). by rewrite fmap_app.
  - unfold onSections. rewrite <- !list_fmap_compose. apply list_fmap_ext. intros i sec' Hi%list_elem_of_lookup_2. simpl.
    rewrite !bool_decide_false; [done|..]; intros Hs; assert (s ∈ (shape_of secs).*1) as Hin;
      try (apply findSection_names in Hin as [? Hin]; congruence);
      unfold shape_of; rewrite <- list_fmap_compose; apply list_elem_of_fmap; by exists sec'.
Qed.

Lemma valueIn_force s secs s' k : valueIn (force s secs) s' k = valueIn secs s' k.
Proof.
  unfold valueIn. rewrite findSection_force. destruct (findSection secs s'); [done|]. by case_bool_decide.
Qed.

Lemma valueIn_define s k v a secs s' k' w : valueIn (define s k v a secs) s' k' = Some w ->
  (s' = s /\ k' = k /\ w = v) \/ ((s', k') <> (s, k) /\ valueIn secs s' k' = Some w).
Proof.
  unfold valueIn. rewrite findSection_define. destruct (findSection secs s') as [sec|]; [|done].
  cbn [fmap option_fmap option_map mbind option_bind]. case_bool_decide as Hs.
  - destruct (keyOf (defineIn k v a sec) k') as [key|] eqn:E; [|done]. intros [= <-].
    apply keyOf_defineIn in E as [[-> Hv]|[Hk E]]; [by left|right]. rewrite E. split; [congruence|done].
  - intros H. right. split; [congruence|done].
Qed.

(** ** Lines *)

Lemma dull_lineOf_inv o x : lineOf o x = Trivia -> dull x = true.
Proof.
  unfold lineOf, dull. destruct (trimLeftSpace x) as [|c t]; [done|]. destruct (oneOf c "#;"); [done|].
  destruct (Ascii.eqb c "["). { destruct (LastIndex _ _); [|done]. by case_bool_decide. }
  destruct (readKeyName _ _) as [|[? ?]]; [done|]. by case_bool_decide.
Qed.

Lemma dullText_line ln : oneLine ln -> dull ln = true -> dullText ln.
Proof.
  intros [H|(b & -> & H)] Hd; unfold dullText.
  - rewrite splitLines_end by done. by repeat constructor.
  - rewrite splitLines_nl by done. rewrite dull_nl in Hd. by repeat constructor.
Qed.

Lemma dullText_app t l : closed t -> dullText t -> dullText l -> dullText (t ++ l)%list.
Proof.
  intros [->|[x ->]] Ht Hl; [done|]. unfold dullText in *. rewrite <- app_assoc. simpl. rewrite splitLines_nl_app in *.
  apply Forall_app in Ht as [Ht _]. by apply Forall_app.
Qed.

Lemma closed_app t l : closed t -> closed l -> closed (t ++ l)%list.
Proof.
  intros Ht [->|[x ->]]; [by rewrite app_nil_r|]. right. exists (t ++ x)%list. by rewrite app_assoc.
Qed.

Lemma terminated_closed ln : terminated ln -> closed ln.
Proof. intros (b & -> & _). right. by exists b. Qed.

Lemma dropLines_closed j l b r : r = dropLines (S j) l -> l = (b ++ r)%list -> r <> [] -> closed b.
Proof.
  revert l b. induction j as [|j IH]; intros l b Hr Hl Hne.
  - simpl in Hr. destruct (line l) as [ln q] eqn:E. simpl in Hr. subst q.
    destruct (line_terminated _ _ _ E) as (El & _ & Ht). rewrite Hl in El. apply app_inv_tail in El as ->. by apply terminated_closed, Ht.
  - destruct (line l) as [ln q] eqn:E. destruct (line_terminated _ _ _ E) as (El & _ & Ht).
    assert (r = dropLines (S j) q) as Hr' by (rewrite Hr; simpl; by rewrite E).
    assert (exists b', q = (b' ++ r)%list) as [b' Hb'].
    { rewrite Hr'. generalize (S j). clear. intros n. revert q. induction n as [|n IH]; intros q; [by exists []|].
      simpl. destruct (line q) as [ln r] eqn:E. apply line_terminated in E as (-> & _). simpl.
      destruct (IH r) as [b' Hb]. exists (ln ++ b')%list. rewrite <- app_assoc. by rewrite <- Hb. }
    assert (b = ln ++ b')%list as ->.
    { rewrite El, Hb', app_assoc in Hl. by apply app_inv_tail in Hl. }
    apply closed_app; [|by apply (IH q)]. apply terminated_closed, Ht. rewrite Hb'. intros Hn. by apply app_eq_nil in Hn as [_ ->].
Qed.

Lemma ends_closed b : b <> [] -> (endsWithLineBreak b = true <-> closed b).
Proof.
  intros Hb. unfold endsWithLineBreak, lastByte. split.
  - destruct (last b) as [c|] eqn:E; [|done]. intros ->%Ascii.eqb_eq. apply last_Some in E. by right.
  - intros [->|[x ->]]; [done|]. by rewrite last_snoc.
Qed.

Lemma pending_suffix u b : pending b -> pending (u ++ b)%list.
Proof.
  unfold pending, lastByte. intros H. apply last_Some in H as [y Hy].
  destruct (trimRight_prefix b) as [w Hw]. rewrite Hy, <- app_assoc in Hw. simpl in Hw.
  rewrite Hw, trimRight_app in Hy by done. apply app_inv_head in Hy. injection Hy as Hy.
  rewrite Hw, app_assoc, trimRight_app, Hy by done. by rewrite last_snoc.
Qed.

Lemma lineOf_header o ln s : oneLine ln -> lineOf o ln = HeaderLine s -> s <> [] /\ newline ∉ s.
Proof.
  intros Hln. unfold lineOf. destruct (trimLeftSpace ln) as [|c t] eqn:Et; [done|]. destruct (oneOf c "#;"); [done|].
  destruct (Ascii.eqb c "[").
  - destruct (LastIndex (c :: t) (lit "]")) as [i|] eqn:Ei; [|done]. case_bool_decide as Hs; [done|]. intros [= <-]. split; [done|].
    apply LastIndex_some in Ei as (a & b & E & <-). destruct (trimLeft_suffix ln) as [w Hw]. rewrite Et, E in Hw.
    assert (newline ∉ a) as Ha by (eapply (oneLine_before ln w a); [done|exact Hw|done]).
    intros Hn. apply Ha. unfold slice in Hn. rewrite E in Hn. apply elem_of_take in Hn as (j & Hj & Hlt).
    rewrite lookup_drop in Hj. rewrite lookup_app_l in Hj by lia. by eapply list_elem_of_lookup_2.
  - destruct (readKeyName _ _) as [|[? ?]]; [done|]. by case_bool_decide.
Qed.

(** ** The loop *)

(** What is read of a node's bytes, whatever follows them; a body without a line break is
    at the end. *)
Definition bodyOk (o : Options) (secs : list Section) (r : Ref) (b : bytes) : Prop :=
  b <> [] /\
  match r with
  | SectionRef s =>
      if endsWithLineBreak b then forall X, Reads o (b ++ X)%list (Header s) X else Reads o b (Header s) []
  | KeyRef s k =>
      isNumber k = false -> forall v, valueIn secs s k = Some v ->
        if endsWithLineBreak b then good o b k v else Reads o b (Entry k v) []
  end.

Definition nodeOk (o : Options) (secs : list Section) (n : node) : Prop :=
  closed (trivia n) /\ dullText (trivia n) /\ match body n with Some b => bodyOk o secs (ref n) b | None => True end.

Definition secOk (sec : Section) : Prop :=
  (newline ∉ sectionName sec) /\ sectionName sec <> [] /\
  Forall (fun key => autoIncrement key = true -> isNumber (name key) = true) (keys sec).

Definition refs (f : File) : list Ref := ref <$> nodes f.

Record Looped (o : Options) (text : bytes) (lp : loop) : Prop := {
  lp_opts : opts (file lp) = o;
  lp_shape : shape_of (sections (file lp)) = shapeOf (DefaultSectionName o) (refs (file lp));
  lp_placed : placed (DefaultSectionName o) (refs (file lp)) = true;
  lp_after : after (DefaultSectionName o) (refs (file lp)) = current lp;
  lp_current : current lp ∈ (shape_of (sections (file lp))).*1;
  lp_sections : Forall secOk (sections (file lp));
  lp_nodes : Forall (nodeOk o (sections (file lp))) (nodes (file lp));
  lp_trivia : exists tr, rest (triviaAt lp) = (tr ++ rest (reader lp))%list /\ dullText tr /\ (closed tr \/ rest (reader lp) = []);
  lp_text : exists u, text = (u ++ rest (reader lp))%list }.

Lemma nodeOk_force o secs s n : nodeOk o secs n -> nodeOk o (force s secs) n.
Proof.
  intros (H1 & H2 & H3). split_and!; [done|done|]. destruct (body n) as [b|]; [|done]. destruct H3 as [Hb H3]. split; [done|].
  destruct (ref n); [done|]. intros Hk v. rewrite valueIn_force. by apply H3.
Qed.

Lemma bodyOk_define o secs s k v a r b : r <> KeyRef s k -> bodyOk o secs r b -> bodyOk o (define s k v a secs) r b.
Proof.
  intros Hr [Hb H]. split; [done|]. destruct r as [s'|s' k']; [done|]. intros Hk w Hw.
  apply valueIn_define in Hw as [(-> & -> & _)|[_ Hw]]; [done|]. by apply H.
Qed.

Lemma nodeOk_define o secs s k v a n : ref n <> KeyRef s k -> nodeOk o secs n -> nodeOk o (define s k v a secs) n.
Proof.
  intros Hr (H1 & H2 & H3). split_and!; [done|done|]. destruct (body n); [|done]. by apply bodyOk_define.
Qed.

(** The body of an item that was read. *)
Lemma header_bodyOk o secs l b s r : l = (b ++ r)%list -> Reads o l (Header s) r -> bodyOk o secs (SectionRef s) b.
Proof.
  intros Hl HR. inversion HR as [|? ln ? ? Hne El Ef|]; subst. destruct (line_terminated _ _ _ El) as (E & Hone & _).
  apply app_inv_tail in E as ->. assert (ln <> []) as Hln by (intros ->; by destruct r).
  split; [done|]. destruct (endsWithLineBreak ln) eqn:Ee.
  - intros X. eapply R_header; [by destruct ln|apply line_app; by apply ends_terminated|done].
  - assert (r = []) as ->.
    { destruct (decide (r = [])) as [|Hr]; [done|]. apply line_terminated in El as (_ & _ & Ht). by rewrite (terminated_ends _ (Ht Hr)) in Ee. }
    by rewrite app_nil_r in HR.
Qed.

Lemma entry_bodyOk o l b k v r u : KeyValueDelimiters o = lit "=:" -> l = (b ++ r)%list -> Reads o l (Entry k v) r -> ~ pending (u ++ l)%list ->
  b <> [] /\ if endsWithLineBreak b then good o b k v else Reads o b (Entry k v) [].
Proof.
  intros Ho Hl HR Hp. pose proof (Reads_shorter _ _ _ _ HR) as Hlen.
  assert (b <> []) as Hb by (intros ->; subst l; simpl in Hlen; lia). split; [done|].
  destruct (Reads_dropLines _ _ _ _ HR) as [j Hj]. destruct (endsWithLineBreak b) eqn:Ee.
  - apply ends_closed in Ee; [|done]. subst l. apply (Reads_local o b k v r); [done|done|done|done|].
    intros _. destruct (decide (r = [])) as [->|Hr]; [right|by left]. rewrite app_nil_r in Hp. intros Hn. by apply Hp, pending_suffix.
  - assert (r = []) as ->.
    { destruct (decide (r = [])) as [|Hr]; [done|]. pose proof (dropLines_closed j l b r Hj Hl Hr) as Hc. apply ends_closed in Hc; [|done]. congruence. }
    subst l. by rewrite app_nil_r in HR.
Qed.

Lemma after_snoc cur rs r : after cur (rs ++ [r])%list = match r with SectionRef s => s | KeyRef _ _ => after cur rs end.
Proof. unfold after. rewrite foldl_app. by destruct r. Qed.

Lemma secOk_force s secs : s <> [] -> newline ∉ s -> Forall secOk secs -> Forall secOk (force s secs).
Proof.
  intros H1 H2 H. unfold force. destruct (findSection secs s); [done|]. apply Forall_app. split; [done|].
  constructor; [|constructor]. split_and!; [done|done|constructor].
Qed.

Lemma secOk_define s k v a secs : (a = true -> isNumber k = true) -> Forall secOk secs -> Forall secOk (define s k v a secs).
Proof.
  intros Ha H. unfold define. destruct (findSection secs s ≫= _); unfold onSections; apply Forall_fmap; eapply Forall_impl; [exact H| |exact H|];
    intros sec (H1 & H2 & H3); simpl; case_bool_decide; simpl; split_and!; try done; simpl.
  - apply Forall_fmap. eapply Forall_impl; [exact H3|]. intros key Hk. simpl. by case_bool_decide.
  - apply Forall_app. split; [done|]. by repeat constructor.
Qed.

Lemma numbered_number n k : isAuto k = true -> isNumber (numbered n k) = true.
Proof. unfold numbered. by intros ->. Qed.

Lemma numbered_plain n k : isNumber (numbered n k) = false -> numbered n k = k.
Proof. unfold numbered. by destruct (isAuto k). Qed.

Lemma addName_present s k secs sec : distinct (shape_of secs) -> findSection secs s = Some sec -> is_Some (keyOf sec k) ->
  atSection s (addName k) (shape_of secs) = shape_of secs.
Proof.
  intros Hd Hf Hk. unfold atSection, shape_of. rewrite <- list_fmap_compose. apply list_fmap_ext.
  intros i sec' Hi%list_elem_of_lookup_2. simpl. case_bool_decide as Hs; [|done].
  rewrite (distinct_section secs s sec sec' Hd Hf Hi Hs). unfold addName. rewrite bool_decide_true; [done|]. by apply keyOf_in.
Qed.

Lemma Looped_step o text data lp lp' : KeyValueDelimiters o = lit "=:" -> ~ pending text -> Looped o text lp ->
  rest (reader lp) <> [] -> parseLine data lp = inr lp' -> Looped o text lp'.
Proof.
  intros Ho Hp [Hopts Hshape Hplaced Hafter Hcur Hsecs Hnodes (tr & Htr & Hdull & Hclosed) (u & Hu)] Hne Hline.
  destruct (parseLine_sound data lp lp' Hne Hline) as (it & b & Hb & HR & Hst & Hadd & Htrivia & Ho'). injection Ho' as Ho' _ _.
  rewrite Hopts in *. assert (closed tr) as Hc by tauto. rewrite (between_app _ _ _ Htr) in Hadd.
  assert (distinct (shape_of (sections (file lp)))) as Hdist by (rewrite Hshape; apply shapeOf_distinct).
  assert (exists u', text = (u' ++ rest (reader lp'))%list) as Hu' by (exists (u ++ b)%list; by rewrite Hu, Hb, app_assoc).
  unfold stateOf in Hst, Hadd. destruct it as [|s|k v]; cbn [absorb addNode] in Hst, Hadd; injection Hst as Hs1 Hs2 _.
  - assert (refs (file lp') = refs (file lp)) as Hrefs by (unfold refs; by rewrite Hadd).
    split; rewrite ?Hrefs, ?Hs1, ?Hs2, ?Hadd; try done.
    inversion HR as [? ln ? _ El Ef| |]; subst. destruct (line_terminated _ _ _ El) as (E & Hone & Ht).
    exists (tr ++ ln)%list. rewrite Htrivia, Htr, E, app_assoc. split_and!; [done| |].
    + apply dullText_app; [done|done|]. apply dullText_line; [done|by apply (dull_lineOf_inv (opts (file lp)))].
    + destruct (decide (rest (reader lp') = [])) as [|Hr]; [by right|left]. apply closed_app; [done|]. by apply terminated_closed, Ht.
  - assert (refs (file lp') = (refs (file lp) ++ [SectionRef s])%list) as Hrefs by (unfold refs; by rewrite Hadd, fmap_app).
    assert (s <> [] /\ newline ∉ s) as [Hs Hsn].
    { inversion HR as [|? ln ? ? _ El Ef|]; subst. apply line_terminated in El as (_ & Hone & _). by eapply lineOf_header. }
    split; rewrite ?Hrefs, ?Hs1, ?Hs2, ?Hadd; try done.
    + by rewrite shape_force, shapeOf_snoc, Hshape.
    + by rewrite placed_app, Hplaced.
    + by rewrite after_snoc.
    + rewrite shape_force. unfold addSection. case_bool_decide; [done|]. rewrite fmap_app. set_solver.
    + by apply secOk_force.
    + apply Forall_app. split; [eapply Forall_impl; [exact Hnodes|intros n; by apply nodeOk_force]|].
      constructor; [|constructor]. split_and!; [done|done|]. simpl. by eapply header_bodyOk.
    + exists []. rewrite Htrivia. split_and!; [done| |by left; left]. unfold dullText. by repeat constructor.
  - set (k' := numbered (autoIncrementAt lp) k) in *. destruct Hadd as (vs & ve & sp & Hadd).
    assert (Forall (nodeOk o (sections (file lp'))) (nodes (file lp')) /\
      shape_of (sections (file lp')) = shapeOf (DefaultSectionName o) (refs (file lp')) /\
      placed (DefaultSectionName o) (refs (file lp')) = true /\ after (DefaultSectionName o) (refs (file lp')) = current lp) as (HA & HB & HC & HD).
    { assert (forall r, r = KeyRef (current lp) k' -> bodyOk o (sections (file lp')) r b) as Hbody.
      { intros r ->. destruct (entry_bodyOk o _ b k v _ u Ho Hb HR) as [Hbne Hgood]; [by rewrite <- Hu|].
        split; [done|]. intros Hk w Hw. rewrite Hs1 in Hw. apply valueIn_define in Hw as [(_ & _ & ->)|[Hw _]]; [|done].
        unfold k' in Hk |- *. by rewrite (numbered_plain _ _ Hk). }
      destruct (findSection (sections (file lp)) (current lp)) as [sec|] eqn:Esec.
      2:{ exfalso. apply findSection_names in Hcur as [? Hcur]. congruence. }
      cbn [mbind option_bind] in Hadd. destruct (keyOf sec k') as [key|] eqn:Ekey.
      - assert (refs (file lp') = refs (file lp)) as Hrefs.
        { unfold refs. rewrite Hadd, <- list_fmap_compose. apply list_fmap_ext. intros i n _. simpl. by case_bool_decide. }
        rewrite Hrefs. split_and!; [|rewrite Hs1, shape_define, <- Hshape by done; eapply addName_present; [done|done|by eexists]|done|done].
        rewrite Hadd. apply Forall_fmap. eapply Forall_impl; [exact Hnodes|]. intros n Hn. simpl. case_bool_decide as Hr.
        + destruct Hn as (Hn1 & Hn2 & _). split_and!; [done|done|]. simpl. by apply Hbody.
        + rewrite Hs1. by apply nodeOk_define.
      - assert (refs (file lp') = (refs (file lp) ++ [KeyRef (current lp) k'])%list) as Hrefs by (unfold refs; by rewrite Hadd, fmap_app).
        rewrite Hrefs. split_and!.
        + rewrite Hadd. apply Forall_app. split.
          * rewrite Forall_forall in Hnodes |- *. intros n Hn. specialize (Hnodes n Hn). rewrite Hs1.
            apply nodeOk_define; [|done]. intros Hr.
            assert (hasName (shape_of (sections (file lp))) (current lp) k') as (ks & Hks & Hin).
            { rewrite Hshape. unfold shapeOf. apply (placed_hasName (refs (file lp)) (DefaultSectionName o)); [simpl; by left|done|].
              unfold refs. apply list_elem_of_fmap. by exists n. }
            unfold shape_of in Hks. apply list_elem_of_fmap in Hks as (sec' & [= Hsn ->] & Hsec').
            rewrite (distinct_section _ _ sec sec' Hdist Esec Hsec') in Hin by done.
            apply keyOf_in in Hin as [? Hin]. congruence.
          * constructor; [|constructor]. split_and!; [done|done|]. simpl. by apply Hbody.
        + by rewrite Hs1, shape_define, shapeOf_snoc, Hshape.
        + rewrite placed_app, Hplaced, Hafter. simpl. by rewrite bool_decide_true.
        + by rewrite after_snoc. }
    split; rewrite ?Hs2; try done.
    + rewrite Hs1, shape_define, atSection_names by done. done.
    + rewrite Hs1. apply secOk_define; [|done]. apply numbered_number.
    + exists []. rewrite Htrivia. split_and!; [done| |by left; left]. unfold dullText. by repeat constructor.
Qed.

(** ** The document *)

(** The configuration files of the agent: names without space nor quote, no element that is
    indented, less comments than what is looked at, and a source that does not end with a
    backslash. *)
Definition plainKeys (f : File) : bool := forallb (fun sec => forallb (fun key => plainName (name key)) (keys sec)) (sections f).

Definition flush (n : node) : bool := match body n with Some b => negb (startsIndented b) | None => true end.

Definition short (b : bytes) : bool := (length b <=? probeLimit)%nat.

Definition tidy (f : File) : bool :=
  plainKeys f && forallb (fun n => flush n && short (trivia n)) (nodes f) && short (epilogue f).

Definition endsPlain (b : bytes) : bool := negb (bool_decide (lastByte (trimRightSpace b) = Some backslash)).

(** What holds of a document that can be written. *)
Record Inv (o : Options) (f : File) : Prop := {
  inv_opts : opts f = o;
  inv_format : Format_ f = stdFormat;
  inv_bom : bom f = [] \/ bom f = bomUTF8;
  inv_shape : shape_of (sections f) = shapeOf (DefaultSectionName o) (refs f);
  inv_placed : placed (DefaultSectionName o) (refs f) = true;
  inv_sections : Forall (fun sec => (newline ∉ sectionName sec) /\ sectionName sec <> [] /\
    Forall (fun key => plainName (name key) = true /\ autoIncrement key = false) (keys sec)) (sections f);
  inv_nodes : Forall (fun n => nodeOk o (sections f) n /\ flush n = true /\ short (trivia n) = true) (nodes f);
  inv_epilogue : dullText (epilogue f) /\ short (epilogue f) = true }.

Lemma plainName_number n : plainName n = true -> isNumber n = false /\ isAuto n = false.
Proof.
  intros H. destruct (plainName_spec n H) as (c & n' & -> & _ & Hc & Ha). split; [|done]. simpl.
  apply Ascii.eqb_neq. intros ->. by vm_compute in Hc.
Qed.

Lemma startLoop_Looped o b : newline ∉ DefaultSectionName o -> DefaultSectionName o <> [] ->
  Looped o (textOf b) (startLoop o b).
Proof.
  intros H1 H2. unfold startLoop. split; simpl; try done.
  - by left.
  - constructor; [|constructor]. split_and!; [done|done|constructor].
  - exists []. split_and!; [done| |by left; left]. unfold dullText. by repeat constructor.
  - exists []. unfold textOf. by destruct (HasPrefix b bomUTF8).
Qed.

Lemma withDefaults_default o : withDefaults o = o -> DefaultSectionName o <> [].
Proof. intros <- . unfold withDefaults. simpl. by case_bool_decide. Qed.

(** A loaded document. *)
Lemma Load_Inv o b f : withDefaults o = o -> KeyValueDelimiters o = lit "=:" -> newline ∉ DefaultSectionName o ->
  LoadBytes o b = inr f -> endsPlain (textOf b) = true -> tidy f = true -> Inv o f.
Proof.
  intros Hw Ho Hd HL Hp Ht. rewrite LoadBytes_loop, Hw in HL. destruct (_ && _); [done|].
  destruct (parseLoop (length b) b (startLoop o b)) as [e|lp] eqn:Ep; [done|]. injection HL as HL.
  assert (~ pending (textOf b)) as Hpend by (unfold endsPlain in Hp; apply negb_true_iff, bool_decide_eq_false in Hp; exact Hp).
  pose proof (startLoop_Looped o b Hd (withDefaults_default o Hw)) as H0.
  assert (Looped o (textOf b) lp /\ Format_ (file lp) = stdFormat /\ (bom (file lp) = [] \/ bom (file lp) = bomUTF8)) as (HLp & Hfm & Hbom).
  { revert Ep. generalize (length b) as fuel. intros fuel Ep.
    refine (parseLoop_ind b (fun lp => Looped o (textOf b) lp /\ Format_ (file lp) = stdFormat /\ (bom (file lp) = [] \/ bom (file lp) = bomUTF8))
      fuel (startLoop o b) lp _ Ep _).
    - intros lp1 lp2 (HL1 & HF & HB) Hne Hline. split; [by eapply Looped_step|].
      destruct (parseLine_sound b lp1 lp2 Hne Hline) as (_ & _ & _ & _ & _ & _ & _ & Heq). injection Heq as _ -> ->. done.
    - split_and!; [done|done|]. unfold startLoop. simpl. destruct (HasPrefix b bomUTF8); [by right|by left]. }
  assert (rest (reader lp) = []) as Hend.
  { apply parseLoop_sound in Ep as (_ & _ & _ & ?); [done|]. unfold startLoop. simpl.
    destruct (HasPrefix b bomUTF8); simpl; [rewrite length_drop; lia|done]. }
  destruct HLp as [Lo Lsh Lpl Laf Lcu Lse Lno (tr & Ltr & Ldu & _) _].
  unfold tidy in Ht. apply andb_true_iff in Ht as [Ht Hshort]. apply andb_true_iff in Ht as [Hkeys Hnodes].
  subst f. cbn in Hkeys, Hnodes, Hshort. split; try done.
  - rewrite Forall_forall in Lse |- *. intros sec Hsec. destruct (Lse sec Hsec) as (H1 & H2 & H3). split_and!; [done|done|].
    rewrite Forall_forall in H3 |- *. intros key Hkey. unfold plainKeys in Hkeys. rewrite forallb_forall in Hkeys.
    specialize (Hkeys sec ltac:(by apply list_elem_of_In)). rewrite forallb_forall in Hkeys.
    specialize (Hkeys key ltac:(by apply list_elem_of_In)). split; [done|].
    destruct (autoIncrement key) eqn:Ea; [|done]. apply H3 in Ea; [|done]. by destruct (plainName_number _ Hkeys); congruence.
  - rewrite Forall_forall in Lno |- *. intros n Hn. split; [by apply Lno|]. rewrite forallb_forall in Hnodes.
    specialize (Hnodes n ltac:(by apply list_elem_of_In)). by apply andb_true_iff in Hnodes.
  - split; [|done]. cbn. rewrite Ltr, Hend, app_nil_r. done.
Qed.

End iniload.
