(* ===== verification/IniEdit.v ===== *)
(** * util/ini: the changes to a document

    The changes keep what writing a document needs. *)

From S2P Require Import Prelude.
From S2P Require Import Ini.
From S2P Require Import IniBytes.
From S2P Require Import IniRead.
From S2P Require Import IniLocal.
From S2P Require Import IniDoc.
From S2P Require Import IniLines.
From S2P Require Import IniEncode.
From S2P Require Import IniQuote.
From S2P Require Import IniExact.
From S2P Require Import IniShape.
From S2P Require Import IniLoad.
From Stdlib Require Import Ascii.

Open Scope string_scope.

Module iniedit.

Import inidoc iniread inivalue inilocal inidocument inilines iniencode iniquote iniexact inishape iniload.

(** ** Sections and values *)

Definition keyedOk (sec : Section) : Prop :=
  (newline ∉ sectionName sec) /\ sectionName sec <> [] /\
  Forall (fun key => plainName (name key) = true /\ autoIncrement key = false) (keys sec).

Lemma shape_on s g h secs : (forall sec, sectionName (g sec) = sectionName sec) -> (forall sec, name <$> keys (g sec) = h (name <$> keys sec)) ->
  shape_of (onSections s g secs) = atSection s h (shape_of secs).
Proof.
  intros H1 H2. unfold shape_of, onSections, atSection. rewrite <- !list_fmap_compose. apply list_fmap_ext.
  intros i sec _. simpl. case_bool_decide; [|done]. by rewrite H1, H2.
Qed.

Lemma atSection_id s sh : atSection s (fun ks => ks) sh = sh.
Proof. unfold atSection. rewrite <- (list_fmap_id sh) at 2. apply list_fmap_ext. intros i [x ks] _. simpl. by case_bool_decide. Qed.

Lemma valueIn_on s k g secs s' k' : (forall sec, sectionName (g sec) = sectionName sec) ->
  (forall sec, k' <> k -> keyOf (g sec) k' = keyOf sec k') -> (s', k') <> (s, k) ->
  valueIn (onSections s g secs) s' k' = valueIn secs s' k'.
Proof.
  intros H1 H2 Hne. unfold valueIn. rewrite findSection_on by done. destruct (findSection secs s') as [sec|]; [|done].
  cbn [fmap option_fmap option_map mbind option_bind]. case_bool_decide as Hs; [|done]. rewrite H2; [done|congruence].
Qed.

Lemma bodyOk_values o secs secs' r b : (forall s k, r = KeyRef s k -> valueIn secs' s k = valueIn secs s k) ->
  bodyOk o secs r b -> bodyOk o secs' r b.
Proof. intros Hv [Hb H]. split; [done|]. destruct r as [s|s k]; [done|]. rewrite (Hv s k eq_refl). done. Qed.

Lemma nodeOk_values o secs secs' n : (forall s k, ref n = KeyRef s k -> valueIn secs' s k = valueIn secs s k) ->
  nodeOk o secs n -> nodeOk o secs' n.
Proof.
  intros Hv (H1 & H2 & H3). split_and!; [done|done|]. destruct (body n); [|done]. by eapply bodyOk_values.
Qed.

Definition newNode (r : Ref) : node := mkNode [] None r 0 0 false.

Lemma newNode_ok o secs r : nodeOk o secs (newNode r) /\ flush (newNode r) = true /\ short (trivia (newNode r)) = true.
Proof. split_and!; [|done|done]. split_and!; [by left|by repeat constructor|done]. Qed.

Section edits.

Variable o : Options.
Hypothesis Hw : withDefaults o = o.

Let d : bytes := DefaultSectionName o.

Lemma keyedOk_on s g secs : (forall sec, sectionName (g sec) = sectionName sec) ->
  (forall sec, Forall (fun key => plainName (name key) = true /\ autoIncrement key = false) (keys sec) ->
    Forall (fun key => plainName (name key) = true /\ autoIncrement key = false) (keys (g sec))) ->
  Forall keyedOk secs -> Forall keyedOk (onSections s g secs).
Proof.
  intros H1 H2 H. unfold onSections. apply Forall_fmap. eapply Forall_impl; [exact H|]. intros sec (Ha & Hb & Hc).
  simpl. case_bool_decide; [|done]. split_and!; [by rewrite H1|by rewrite H1|by apply H2].
Qed.

Lemma SetValue_Inv f s k v : Inv o f -> Inv o (SetValue s k v f).
Proof.
  intros [H1 H2 H3 H4 H5 H6 H7 H8].
  set (g := fun sec : Section => sec <| keys ::= fmap (fun key => if bool_decide (name key = k) then key <| value := v |> else key) |>).
  assert (sections (SetValue s k v f) = onSections s g (sections f)) as Es by done.
  assert (refs (SetValue s k v f) = refs f) as Er.
  { unfold refs. cbn. rewrite <- list_fmap_compose. apply list_fmap_ext. intros i n _. simpl. by case_bool_decide. }
  split; rewrite ?Es, ?Er; try done.
  - rewrite (shape_on s g (fun ks => ks)); [by rewrite atSection_id|done|].
    intros sec. simpl. rewrite <- list_fmap_compose. apply list_fmap_ext. intros i key _. simpl. by case_bool_decide.
  - apply keyedOk_on; [done| |exact H6]. intros sec Hs. simpl. apply Forall_fmap. eapply Forall_impl; [exact Hs|].
    intros key Hk. simpl. by case_bool_decide.
  - cbn. apply Forall_fmap. eapply Forall_impl; [exact H7|]. intros n (Hn & Hf & Hsh). simpl. case_bool_decide as Hr.
    + destruct Hn as (Ha & Hb & _). split_and!; [|done|done]. split_and!; done.
    + split_and!; [|done|done]. eapply nodeOk_values; [|exact Hn]. intros s' k' Hr'. apply (valueIn_on s k); [done| |congruence].
      intros sec Hk. unfold g. rewrite keyOf_map by (intros key; by case_bool_decide).
      destruct (keyOf sec k') as [key|] eqn:E; [|done]. simpl. rewrite bool_decide_false; [done|]. apply keyOf_name in E. congruence.
Qed.

(** A place after the last node of a section. *)
Lemma insertAfter_spec s n l : 
  match insertAfter s n l with
  | Some l' => exists A x B, l = (A ++ x :: B)%list /\ l' = (A ++ x :: n :: B)%list /\ sectionOf x = s /\
                 Forall (fun y => sectionOf y <> s) B
  | None => Forall (fun y => sectionOf y <> s) l
  end.
Proof.
  induction l as [|y l IH]; simpl; [done|]. destruct (insertAfter s n l) as [l'|].
  - destruct IH as (A & x & B & -> & -> & Hx & HB). by exists (y :: A), x, B.
  - case_bool_decide as Hy; [by exists [], y, l|]. by constructor.
Qed.

Lemma sectionOf_ref n : sectionOf n = refSection (ref n).
Proof. unfold sectionOf, refSection. by destruct (ref n). Qed.

Lemma refs_no_section l s : Forall (fun y => sectionOf y <> s) l -> Forall (fun r => refSection r <> s) (ref <$> l).
Proof. intros H. apply Forall_fmap. eapply Forall_impl; [exact H|]. intros n. simpl. by rewrite sectionOf_ref. Qed.

Lemma after_section cur A r : placed cur (A ++ [r])%list = true -> after cur (A ++ [r])%list = refSection r.
Proof.
  rewrite placed_app, after_snoc. destruct r as [s|s k]; [done|]. simpl. rewrite andb_true_r. intros [_ H]%andb_true_iff.
  by apply bool_decide_eq_true in H.
Qed.

(** A section that is no node's is the default one. *)
Lemma no_header_default rs s : s ∈ (shapeOf d rs).*1 -> Forall (fun r => refSection r <> s) rs -> s = d.
Proof.
  unfold shapeOf. assert (s ∈ ([(d, @nil bytes)]).*1 -> s = d) as H0 by (simpl; by intros ->%list_elem_of_singleton).
  revert H0. generalize [(d, @nil bytes)]. induction rs as [|r rs IH]; intros sh H0 Hin H; [by apply H0|].
  inversion H; subst. apply (IH (step sh r)); [|done|done]. destruct r as [s'|s' k']; simpl in *; [|by rewrite atSection_names].
  unfold addSection. case_bool_decide; [done|]. rewrite fmap_app, elem_of_app. simpl. intros [|Hs]; [by apply H0|].
  apply list_elem_of_singleton in Hs. congruence.
Qed.

Lemma NewKey_Inv f s k v f' : Inv o f -> plainName k = true -> NewKey s k v f = inr f' -> Inv o f'.
Proof.
  intros HI Hk. unfold NewKey. case_bool_decide; [done|]. destruct (section f s) as [sec|] eqn:Es; [|done].
  destruct (keyOf sec k) as [key|] eqn:Ek; intros [= <-]; [by apply SetValue_Inv|].
  destruct HI as [H1 H2 H3 H4 H5 H6 H7 H8].
  set (g := fun sec : Section => sec <| keys ::= fun l => (l ++ [mkKey k v false])%list |>).
  set (n := mkNode [] None (KeyRef s k) 0 0 false).
  set (f1 := insertNodeAfterSection s n (onSection s g f)).
  assert (sections f1 = onSections s g (sections f)) as Esec by done.
  assert (distinct (shape_of (sections f))) as Hdist by (rewrite H4; apply shapeOf_distinct).
  assert (shape_of (sections f1) = atSection s (addName k) (shape_of (sections f))) as Hsh.
  { rewrite Esec. unfold shape_of, onSections, atSection. rewrite <- !list_fmap_compose. apply list_fmap_ext.
    intros i sec' Hi%list_elem_of_lookup_2. simpl. case_bool_decide as Hs; [|done]. simpl. f_equal.
    rewrite (distinct_section _ s sec sec' Hdist Es Hi Hs). unfold addName.
    rewrite bool_decide_false by (intros Hin; apply keyOf_in in Hin as [? Hin]; congruence). by rewrite fmap_app. }
  assert (s ∈ (shapeOf d (refs f)).*1) as Hin by (fold d in H4; rewrite <- H4; apply findSection_names; by eexists).
  assert (exists A B, refs f = (A ++ B)%list /\ refs f1 = (A ++ KeyRef s k :: B)%list /\ after d A = s /\
    Forall (fun r => refSection r <> s) B /\ (nodes f1 = n :: nodes f \/ exists A' B', nodes f = (A' ++ B')%list /\ nodes f1 = (A' ++ n :: B')%list)) as (A & B & EA & EB & Haft & HB & Hnodes).
  { pose proof (insertAfter_spec s n (nodes f)) as Hins. unfold f1, insertNodeAfterSection, refs. cbn.
    destruct (insertAfter s n (nodes f)) as [l'|] eqn:El.
    - destruct Hins as (A & x & B & EA & -> & Hx & HB). exists (ref <$> (A ++ [x])%list), (ref <$> B).
      rewrite EA. split_and!.
      + rewrite <- fmap_app, <- app_assoc. done.
      + rewrite !fmap_app. simpl. by rewrite <- app_assoc.
      + rewrite fmap_app. cbn [fmap list_fmap]. rewrite after_section; [by rewrite <- sectionOf_ref|].
        fold d in H5. unfold refs in H5. rewrite EA, (cons_middle x A B), app_assoc, fmap_app, placed_app in H5. apply andb_true_iff in H5 as [H5 _].
        by rewrite fmap_app in H5.
      + by apply refs_no_section.
      + right. exists (A ++ [x])%list, B. rewrite <- !app_assoc. done.
    - exists [], (ref <$> nodes f). split_and!; [done|done| |by apply refs_no_section|by left].
      symmetry. apply (no_header_default (refs f)); [done|]. by apply refs_no_section. }
  split; try done.
  - fold d. rewrite Hsh, EB, shapeOf_insert by done. rewrite <- EA. by rewrite H4.
  - fold d. rewrite EB, placed_app. fold d in H5. rewrite EA, placed_app in H5. apply andb_true_iff in H5 as [HA HB'].
    rewrite HA. simpl. rewrite Haft in HB' |- *. by rewrite bool_decide_true.
  - rewrite Esec. apply keyedOk_on; [done| |exact H6]. intros sec' Hs. simpl. apply Forall_app. split; [done|]. by repeat constructor.
  - assert (Forall (fun n => nodeOk o (sections f1) n /\ flush n = true /\ short (trivia n) = true) (nodes f)) as HN.
    { rewrite Forall_forall in H7 |- *. intros m Hm. destruct (H7 m Hm) as (Ha & Hb). split; [|done].
      eapply nodeOk_values; [|exact Ha]. intros s' k' Hr'. rewrite Esec.
      assert ((s', k') <> (s, k)) as Hne.
      { intros [= -> ->]. assert (hasName (shape_of (sections f)) s k) as (ks & Hks & Hkin).
        { rewrite H4. apply (placed_hasName (refs f) d); [simpl; by left|done|]. unfold refs. apply list_elem_of_fmap. by exists m. }
        unfold shape_of in Hks. apply list_elem_of_fmap in Hks as (sec' & [= Hsn ->] & Hsec').
        rewrite (distinct_section _ _ sec sec' Hdist Es Hsec') in Hkin by done. apply keyOf_in in Hkin as [? Hkin]. congruence. }
      apply (valueIn_on s k); [done| |done].
      intros sec' Hk'. unfold g, keyOf. simpl. destruct (find (λ key0, bool_decide (name key0 = k')) (keys sec')) as [key0|] eqn:E.
      - by apply find_app_some.
      - rewrite find_app_none by done. simpl. by rewrite bool_decide_false. }
    pose proof (newNode_ok o (sections f1) (KeyRef s k)) as Hn.
    destruct Hnodes as [->|(A' & B' & EA' & ->)]; [by constructor|]. rewrite EA' in HN. apply Forall_app in HN as [HN1 HN2].
    apply Forall_app. split; [done|]. by constructor.
Qed.

Lemma refs_filter (P : Ref -> Prop) `{!forall r, Decision (P r)} f :
  ref <$> filter (fun n => P (ref n)) (nodes f) = filter P (refs f).
Proof.
  unfold refs. induction (nodes f) as [|n l IH]; [done|]. cbn [fmap list_fmap]. destruct (decide (P (ref n))).
  - rewrite !filter_cons_True by done. cbn [fmap list_fmap]. by rewrite <- IH.
  - rewrite !filter_cons_False by done. exact IH.
Qed.

Lemma DeleteKey_Inv f s k : Inv o f -> Inv o (DeleteKey s k f).
Proof.
  intros HI. unfold DeleteKey. destruct (section f s ≫= _); [|done]. destruct HI as [H1 H2 H3 H4 H5 H6 H7 H8].
  set (g := fun sec : Section => sec <| keys ::= filter (fun key => name key <> k) |>).
  set (f1 := removeNode (KeyRef s k) (onSection s g f)).
  assert (sections f1 = onSections s g (sections f)) as Esec by done.
  assert (refs f1 = filter (fun r => r <> KeyRef s k) (refs f)) as Er by exact (refs_filter (fun r => r <> KeyRef s k) f).
  split; try done.
  - fold d. rewrite Er, shapeOf_delKey. rewrite Esec, (shape_on s g (dropName k)); [by rewrite H4|done|].
    intros sec. unfold g, dropName. simpl. induction (keys sec) as [|key l IH]; [done|]. cbn [fmap list_fmap]. destruct (decide (name key = k)).
    + rewrite !filter_cons_False by tauto. exact IH.
    + rewrite !filter_cons_True by done. cbn [fmap list_fmap]. by rewrite <- IH.
  - fold d. rewrite Er. by apply placed_delKey.
  - rewrite Esec. apply keyedOk_on; [done| |exact H6]. intros sec Hs. simpl. rewrite Forall_forall in Hs |- *.
    intros key [_ Hk]%list_elem_of_filter. by apply Hs.
  - rewrite Forall_forall in H7 |- *. intros n Hn. apply list_elem_of_filter in Hn as [Hr Hn]. destruct (H7 n Hn) as [Ha Hb]. split; [|done].
    eapply nodeOk_values; [|exact Ha]. intros s' k' Hr'. rewrite Esec. apply (valueIn_on s k); [done| |congruence].
    intros sec Hk. unfold g, keyOf. simpl. induction (keys sec) as [|key l IH]; [done|]. destruct (decide (name key = k)) as [He|He].
    + rewrite filter_cons_False by tauto. simpl. rewrite bool_decide_false by congruence. exact IH.
    + rewrite filter_cons_True by done. simpl. case_bool_decide; [done|exact IH].
Qed.

Lemma NewSection_Inv f s f' : Inv o f -> newline ∉ s -> NewSection s f = inr f' -> Inv o f'.
Proof.
  intros HI Hs. unfold NewSection. case_bool_decide as Hne; [done|]. destruct (section f s) as [sec|] eqn:Es; intros [= <-]; [done|].
  destruct HI as [H1 H2 H3 H4 H5 H6 H7 H8].
  set (f1 := appendNode _ _).
  assert (sections f1 = force s (sections f)) as Esec.
  { unfold f1, appendNode, forceSection. rewrite Es. unfold force. by change (findSection (sections f) s) with (section f s); rewrite Es. }
  assert (nodes f1 = (nodes f ++ [newNode (SectionRef s)])%list) as En by (unfold f1, appendNode, forceSection; by rewrite Es).
  assert (refs f1 = (refs f ++ [SectionRef s])%list) as Er by (unfold refs; by rewrite En, fmap_app).
  assert (opts f1 = opts f /\ Format_ f1 = Format_ f /\ bom f1 = bom f /\ epilogue f1 = epilogue f) as (E1 & E2 & E3 & E4)
    by (unfold f1, appendNode, forceSection; by rewrite Es).
  split; rewrite ?E1, ?E2, ?E3, ?E4; try done.
  - by rewrite Esec, shape_force, Er, shapeOf_snoc, H4.
  - by rewrite Er, placed_app, H5.
  - rewrite Esec. unfold force. destruct (findSection _ _); [done|]. apply Forall_app. split; [done|]. by repeat constructor.
  - rewrite En, Esec. apply Forall_app. split; [|constructor; [apply newNode_ok|constructor]].
    eapply Forall_impl; [exact H7|]. intros n [Ha Hb]. split; [by apply nodeOk_force|done].
Qed.

Lemma shape_filter s secs :
  shape_of (filter (fun sec => sectionName sec <> s) secs) = filter (fun e => e.1 <> s) (shape_of secs).
Proof.
  unfold shape_of. induction secs as [|sec l IH]; [done|]. destruct (decide (sectionName sec = s)) as [He|He].
  - rewrite filter_cons_False by tauto. etrans; [exact IH|]. symmetry. apply (filter_cons_False (fun e : bytes * list bytes => e.1 <> s)); simpl; tauto.
  - rewrite filter_cons_True by done. cbn [fmap list_fmap]. rewrite IH. symmetry. by apply (filter_cons_True (fun e : bytes * list bytes => e.1 <> s)).
Qed.

Lemma findSection_filter s s' secs : s' <> s -> findSection (filter (fun sec => sectionName sec <> s) secs) s' = findSection secs s'.
Proof.
  intros Hs. unfold findSection. induction secs as [|sec l IH]; [done|]. destruct (decide (sectionName sec = s)) as [He|He].
  - rewrite filter_cons_False by tauto. simpl. rewrite bool_decide_false by congruence. exact IH.
  - rewrite filter_cons_True by done. simpl. case_bool_decide; [done|exact IH].
Qed.

Lemma DeleteSection_Inv f s : Inv o f -> s <> d -> Inv o (DeleteSection s f).
Proof.
  intros HI Hs. unfold DeleteSection. destruct (section f s); [|done]. destruct HI as [H1 H2 H3 H4 H5 H6 H7 H8].
  set (f1 := _ <| sections ::= _ |>).
  assert (refs f1 = filter (fun r => refSection r <> s) (refs f)) as Er.
  { etrans; [|exact (refs_filter (fun r => refSection r <> s) f)]. unfold refs. cbn. f_equal. }
  assert (sections f1 = filter (fun sec => sectionName sec <> s) (sections f)) as Esec by done.
  split; try done.
  - fold d. rewrite Er, shapeOf_delSection by done. fold d in H4. rewrite <- H4, Esec. apply shape_filter.
  - fold d. rewrite Er. apply (placed_delSection d d); [done|by left].
  - rewrite Esec. rewrite Forall_forall in H6 |- *. intros sec [_ Hsec]%list_elem_of_filter. by apply H6.
  - rewrite Forall_forall in H7 |- *. intros n Hn. apply list_elem_of_filter in Hn as [Hr Hn]. destruct (H7 n Hn) as [Ha Hb]. split; [|done].
    eapply nodeOk_values; [|exact Ha]. intros s' k' Hr'. rewrite Esec. unfold valueIn. f_equal. f_equal.
    rewrite sectionOf_ref, Hr' in Hr. by apply findSection_filter.
Qed.

Lemma addSection_default : addSection d [(d, [])] = [(d, @nil bytes)].
Proof. unfold addSection. rewrite bool_decide_true; [done|]. apply list_elem_of_fmap. exists (d, []). split; [done|by left]. Qed.

Lemma Materialize_Inv f : Inv o f -> Inv o (MaterializeDefaultSection f).
Proof.
  intros HI. destruct HI as [H1 H2 H3 H4 H5 H6 H7 H8]. unfold MaterializeDefaultSection. rewrite H1. fold d.
  assert (forceSection d f = f) as ->.
  { unfold forceSection. assert (d ∈ (shape_of (sections f)).*1) as Hd by (rewrite H4; apply shapeOf_default).
    apply findSection_names in Hd as [sec Hd]. change (section f d) with (findSection (sections f) d). by rewrite Hd. }
  destruct (existsb _ _); [done|]. set (f1 := f <| nodes ::= _ |>).
  assert (refs f1 = SectionRef d :: refs f) as Er by done.
  split; try done.
  - rewrite Er. fold d. unfold shapeOf. cbn [foldl step]. rewrite addSection_default. exact H4.
  - cbn. constructor; [apply newNode_ok|done].
Qed.

Lemma Empty_Inv : newline ∉ d -> Inv o (Empty o).
Proof.
  intros Hd.
  assert (Empty o = mkFile stdFormat o [] [newNode (SectionRef d)] [mkSection d []] [] []) as -> by (unfold Empty, newFile; by rewrite Hw).
  split; try done.
  - by left.
  - symmetry. exact addSection_default.
  - repeat constructor; [done|]. by apply withDefaults_default.
  - constructor; [apply newNode_ok|constructor].
  - split; [by repeat constructor|done].
Qed.

End edits.

(** ** The changes *)

Inductive edit :=
| Set_ (s k v : bytes) | New (s k v : bytes) | Delete (s k : bytes) | NewSec (s : bytes) | DeleteSec (s : bytes) | Materialize.

Definition apply (e : edit) (f : File) : error + File :=
  match e with
  | Set_ s k v => inr (SetValue s k v f)
  | New s k v => NewKey s k v f
  | Delete s k => inr (DeleteKey s k f)
  | NewSec s => NewSection s f
  | DeleteSec s => inr (DeleteSection s f)
  | Materialize => inr (MaterializeDefaultSection f)
  end.

(** Keys with a plain name, sections whose name is in a line, the default section is kept. *)
Definition okEdit (o : Options) (e : edit) : bool :=
  match e with
  | New _ k _ => plainName k
  | NewSec s => negb (one_of newline s)
  | DeleteSec s => negb (bool_decide (s = DefaultSectionName o))
  | _ => true
  end.

(** The documents the agent edits: loaded or created, then changed. *)
Inductive Edited (o : Options) : File -> Prop :=
| Ed_load b f : LoadBytes o b = inr f -> endsPlain (textOf b) = true -> tidy f = true -> Edited o f
| Ed_empty : Edited o (Empty o)
| Ed_edit e f f' : Edited o f -> okEdit o e = true -> apply e f = inr f' -> Edited o f'.

(** The options as the agent gives them, their defaults aside. *)
Definition standard (o : Options) : Prop :=
  withDefaults o = o /\ KeyValueDelimiters o = lit "=:" /\ newline ∉ DefaultSectionName o.

Lemma Edited_Inv o f : standard o -> Edited o f -> Inv o f.
Proof.
  intros (Hw & Ho & Hd). induction 1 as [b f HL Hp Ht| |e f f' _ IH He Ha].
  - by apply (Load_Inv o b).
  - by apply Empty_Inv.
  - destruct e as [s k v|s k v|s k|s|s|]; simpl in *.
    + injection Ha as <-. by apply SetValue_Inv.
    + by eapply NewKey_Inv.
    + injection Ha as <-. by apply DeleteKey_Inv.
    + eapply NewSection_Inv; [exact IH| |exact Ha]. apply negb_true_iff, one_of_false in He. done.
    + injection Ha as <-. apply DeleteSection_Inv; [done|]. apply negb_true_iff, bool_decide_eq_false in He. done.
    + injection Ha as <-. by apply Materialize_Inv.
Qed.

End iniedit.
