(* ===== verification/IniWrite.v ===== *)
(** * util/ini: the writing

    What is written of the nodes, from the last one to the first, is read as the nodes. *)

From S2P Require Import Prelude.
From S2P Require Import Ini.
From S2P Require Import IniBytes.
From S2P Require Import IniRead.
From S2P Require Import IniLocal.
From S2P Require Import IniDoc.
From S2P Require Import IniLines.
From S2P Require Import IniEncode.
From S2P Require Import IniQuote.
From S2P Require Import IniExact.
From S2P Require Import IniShape.
From S2P Require Import IniLoad.
From S2P Require Import IniEdit.
From Stdlib Require Import Ascii.

Open Scope string_scope.

Module iniwrite.

Import inidoc iniread inivalue inilocal inidocument inilines iniencode iniquote iniexact inishape iniload iniedit.

(** ** What a value could swallow *)

Lemma leadingPart_spec fuel out part : (length part <= fuel)%nat -> (length out + length part <= probeLimit)%nat ->
  exists q r, part = (q ++ r)%list /\ (r = [] \/ startsIndented r = false) /\
    leadingPart fuel out part = (if bool_decide (r = []) then inr (out ++ q) else inl (out ++ q))%list /\
    (q <> [] -> startsIndented part = true) /\ (startsIndented part = true -> q <> []) /\ (r <> [] -> closed q).
Proof.
  revert out part. induction fuel as [|fuel IH]; intros out part Hf Hl.
  { destruct part; [|simpl in Hf; lia]. exists [], []. simpl. rewrite app_nil_r. split_and!; try done. by left. }
  destruct part as [|c part]. { exists [], []. simpl. rewrite app_nil_r. split_and!; try done. by left. }
  cbn [leadingPart]. destruct (isContinuationIndent c) eqn:Ec; cbn [negb].
  - destruct (line (c :: part)) as [l rest] eqn:El. pose proof (line_shorter _ _ _ El ltac:(done)) as Hs.
    destruct (line_terminated _ _ _ El) as (E & _ & Ht).
    assert (length (c :: part) = length l + length rest) as Hlen by (rewrite E; apply length_app).
    assert ((probeLimit <? length (out ++ l))%nat = false) as -> by (apply Nat.ltb_ge; rewrite length_app; lia).
    destruct (IH (out ++ l)%list rest) as (q & r & Eq & Hr & HL & Hq1 & Hq2 & Hq3); [simpl in *; lia|rewrite length_app; lia|].
    exists (l ++ q)%list, r. rewrite HL. split_and!.
    + by rewrite E, Eq, app_assoc.
    + done.
    + by rewrite !app_assoc.
    + done.
    + intros _ Hn. apply app_eq_nil in Hn as [-> _]. simpl in *. lia.
    + intros Hne. apply closed_app; [|by apply Hq3]. apply terminated_closed, Ht. intros Hn. rewrite Hn in Eq.
      symmetry in Eq. by apply app_eq_nil in Eq as [_ ?].
  - exists [], (c :: part). rewrite app_nil_r. split_and!; try done; [by right|by simpl; rewrite Ec|by left].
Qed.

Lemma dullText_prefix q r : closed q -> dullText (q ++ r)%list -> dullText q.
Proof.
  intros [->|[x ->]] H; [by repeat constructor|]. unfold dullText in *. rewrite <- app_assoc in H. simpl in H.
  rewrite splitLines_nl_app in *. apply Forall_app in H as [H _]. apply Forall_app. split; [done|]. by repeat constructor.
Qed.

(** [p] is what a value before the text [X] could swallow. *)
Definition covers (p X : bytes) : Prop :=
  dullText p /\ (p <> [] -> startsIndented p = true) /\ (p = [] -> startsIndented X = false).

Lemma startsIndented_app_l q r : q <> [] -> startsIndented (q ++ r)%list = startsIndented q.
Proof. by destruct q. Qed.

Lemma leading_node t b p X : closed t -> dullText t -> short t = true -> b <> [] -> startsIndented b = false ->
  covers (leadingContinuationLines [t; b; p]) (t ++ b ++ X)%list.
Proof.
  intros Hc Hd Hs Hb Hi. apply Nat.leb_le in Hs.
  destruct (leadingPart_spec (length t) [] t) as (q & r & Et & Hr & HL & H1 & H2 & H3); [done|done|].
  assert (leadingContinuationLines [t; b; p] = q) as ->.
  { unfold leadingContinuationLines. cbn [leadingParts]. rewrite HL. case_bool_decide; [|done].
    destruct b as [|c b]; [done|]. cbn [leadingPart length]. simpl in Hi. by rewrite Hi. }
  split_and!.
  - destruct (decide (r = [])) as [->|Hne]; [by rewrite app_nil_r in Et; subst t|]. apply (dullText_prefix q r); [by apply H3|by rewrite <- Et].
  - intros Hq. specialize (H1 Hq). rewrite Et in H1. by rewrite startsIndented_app_l in H1.
  - intros Hq. destruct (decide (t = [])) as [->|Ht].
    + simpl. by rewrite startsIndented_app_l.
    + rewrite startsIndented_app_l by done. apply not_true_iff_false. intros H. by apply H2 in H.
Qed.

Lemma leading_epilogue e : dullText e -> short e = true -> covers (leadingContinuationLines [e]) e.
Proof.
  intros Hd Hs. apply Nat.leb_le in Hs.
  destruct (leadingPart_spec (length e) [] e) as (q & r & Et & Hr & HL & H1 & H2 & H3); [done|done|].
  assert (leadingContinuationLines [e] = q) as ->.
  { unfold leadingContinuationLines. cbn [leadingParts]. rewrite HL. by case_bool_decide. }
  split_and!.
  - destruct (decide (r = [])) as [->|Hne]; [by rewrite app_nil_r in Et; subst e|]. apply (dullText_prefix q r); [by apply H3|by rewrite <- Et].
  - intros Hq. specialize (H1 Hq). rewrite Et in H1. by rewrite startsIndented_app_l in H1.
  - intros Hq. apply not_true_iff_false. intros H. by apply H2 in H.
Qed.

Lemma Items_blank_app o t r its : closed t -> dullText t -> Items o r its ->
  exists bl, Forall (fun it => it = Blank) bl /\ Items o (t ++ r)%list (bl ++ its)%list.
Proof.
  intros [->|[x ->]] Hd HI; [by exists []|]. revert Hd. induction x as [a Ha|a x Ha IH] using text_ind; intros Hd.
  - exists [Blank]. split; [by repeat constructor|]. rewrite <- app_assoc. simpl. eapply I_cons; [|exact HI].
    eapply R_blank; [by destruct a|by apply line_nl|]. apply dull_lineOf. rewrite dull_nl. unfold dullText in Hd.
    rewrite splitLines_nl in Hd by done. by inversion Hd.
  - unfold dullText in Hd. rewrite <- app_assoc in Hd. simpl in Hd. rewrite splitLines_nl in Hd by done.
    inversion Hd as [|? ? Hx Hr]; subst. destruct (IH Hr) as (bl & Hbl & HI'). exists (Blank :: bl). split; [by constructor|].
    rewrite <- !app_assoc. simpl. eapply I_cons; [|rewrite <- app_assoc in HI'; exact HI'].
    eapply R_blank; [by destruct a|apply line_nl; done|]. apply dull_lineOf. by rewrite dull_nl.
Qed.

(** ** A node *)

Definition val (f : File) (s k : bytes) : bytes := default [] (valueIn (sections f) s k).

Definition quotables (f : File) : bool := forallb (fun sec => forallb (fun key => quotable (value key)) (keys sec)) (sections f).

Section writing.

Variables (o : Options) (f : File).
Hypothesis Hstd : standard o.
Hypothesis HI : Inv o f.

Lemma header_reads s X : s <> [] -> newline ∉ s -> Reads o (("["%char :: s ++ "]"%char :: [newline]) ++ X)%list (Header s) X.
Proof.
  intros Hs Hn. set (ln := ("["%char :: s ++ "]"%char :: [newline])%list).
  assert (terminated ln) as Ht.
  { exists ("["%char :: s ++ ["]"%char])%list. unfold ln. cbn [app]. rewrite <- app_assoc. split; [done|].
    rewrite elem_of_cons, elem_of_app, list_elem_of_singleton. intros [|[|]]; done. }
  apply (R_header o _ ln X s); [done|by apply line_app|]. unfold lineOf, ln. rewrite trimLeft_solid by done.
  assert (LastIndex ("["%char :: s ++ "]"%char :: [newline])%list (lit "]") = Some (S (length s))) as E.
  { apply (LastIndex_app ("["%char :: s) ("]"%char :: [newline])). done. }
  cbn [oneOf]. change (oneOf "[" "#;") with false. change (Ascii.eqb "[" "[") with true. cbv iota. rewrite E.
  assert (slice ("["%char :: s ++ "]"%char :: [newline])%list 1 (S (length s)) = s) as ->.
  { unfold slice. cbn [drop]. replace (S (length s) - 1) with (length s) by lia. apply take_app_length. }
  by rewrite bool_decide_false.
Qed.

(** The key of a key node, the section of a header. *)
Lemma node_key n s k : n ∈ nodes f -> ref n = KeyRef s k -> exists sec key,
  section f s = Some sec /\ sec ∈ sections f /\ keyOf sec k = Some key /\ key ∈ keys sec /\ name key = k /\ plainName k = true /\ autoIncrement key = false /\
  valueIn (sections f) s k = Some (value key).
Proof.
  intros Hn Hr. destruct HI as [_ _ _ H4 H5 H6 _ _].
  assert (KeyRef s k ∈ refs f) as Hin by (unfold refs; apply list_elem_of_fmap; by exists n).
  assert (hasName (shape_of (sections f)) s k) as (ks & Hks & Hk).
  { rewrite H4. apply (placed_hasName (refs f) (DefaultSectionName o)); [simpl; by left|done|done]. }
  assert (distinct (shape_of (sections f))) as Hdist by (rewrite H4; apply shapeOf_distinct).
  unfold shape_of in Hks. apply list_elem_of_fmap in Hks as (sec & [= Hs ->] & Hsec).
  assert (is_Some (findSection (sections f) s)) as [sec' Hf].
  { apply findSection_names. unfold shape_of. rewrite <- list_fmap_compose. apply list_elem_of_fmap. by exists sec. }
  pose proof (distinct_section _ s sec' sec Hdist Hf Hsec (eq_sym Hs)) as ->.
  apply keyOf_in in Hk as [key Hkey]. exists sec', key. pose proof (keyOf_name _ _ _ Hkey) as Hname.
  rewrite Forall_forall in H6. destruct (H6 sec' Hsec) as (_ & _ & Hall). rewrite Forall_forall in Hall.
  assert (key ∈ keys sec') as Hkin by (apply list_elem_of_In; by apply find_some in Hkey as [? _]).
  destruct (Hall key Hkin) as [Hp Ha]. split_and!; try done; [by rewrite <- Hname|].
  unfold valueIn. rewrite Hf. cbn [mbind option_bind]. by rewrite Hkey.
Qed.

Lemma node_header n s : n ∈ nodes f -> ref n = SectionRef s -> s <> [] /\ newline ∉ s.
Proof.
  intros Hn Hr. destruct HI as [_ _ _ H4 H5 H6 _ _].
  assert (s ∈ (shape_of (sections f)).*1) as Hs.
  { rewrite H4. unfold shapeOf. assert (SectionRef s ∈ refs f) as Hin by (unfold refs; apply list_elem_of_fmap; by exists n).
    clear -Hin. generalize [(DefaultSectionName o, @nil bytes)]. induction (refs f) as [|r rs IH]; intros sh; [by apply elem_of_nil in Hin|].
    cbn [foldl]. apply elem_of_cons in Hin as [<-|Hin]; [|by apply IH]. apply foldl_names. simpl. unfold addSection.
    case_bool_decide; [done|]. rewrite fmap_app. set_solver. }
  unfold shape_of in Hs. rewrite <- list_fmap_compose in Hs. apply list_elem_of_fmap in Hs as (sec & -> & Hsec).
  rewrite Forall_forall in H6. by destruct (H6 sec Hsec) as (H1 & H2 & _).
Qed.

(** A node is written as what is read as it, unless its value has every quote. *)
Lemma renderNode_spec n lw probe X : n ∈ nodes f -> covers probe X -> (lw = true -> X = []) ->
  match renderNode f n lw probe with
  | inr b => b <> [] /\ startsIndented b = false /\ Reads o (b ++ X)%list (itemOf (val f) (ref n)) X /\ (lw = false -> closed b)
  | inl _ => quotables f = false
  end.
Proof.
  intros Hn (Hd & Hp & HX) Hlw. destruct Hstd as (Hw & Ho & _). pose proof HI as [H1 H2 _ _ _ _ H7 _].
  rewrite Forall_forall in H7. destruct (H7 n Hn) as ((_ & _ & Hbody) & Hflush & _). unfold renderNode.
  assert (forall b, written n lw = Some b -> body n = Some b /\ (endsWithLineBreak b = true \/ lw = true) /\ startsIndented b = false) as Hwr.
  { unfold written. intros b. unfold flush in Hflush. destruct (body n) as [b0|]; [|done]. destruct (_ || _) eqn:E; [|done]. intros [= ->].
    apply orb_true_iff in E. split_and!; [done|done|by apply negb_true_iff]. }
  assert (forall b, b <> [] -> (endsWithLineBreak b = true \/ lw = true) -> lw = false -> closed b) as Hcl.
  { intros b Hb [He| ->] Hf; [by apply ends_closed|done]. }
  destruct (ref n) as [s|s k] eqn:Er; cbn [itemOf].
  - destruct (written n lw) as [b|] eqn:Ew.
    + destruct (Hwr b eq_refl) as (Eb & He & Hi). rewrite Eb in Hbody. destruct Hbody as [Hbne HR]. split_and!; [done|done| |by apply Hcl].
      destruct (endsWithLineBreak b) eqn:Ee; [by apply HR|]. destruct He as [|Hlt]; [done|]. rewrite (Hlw Hlt), app_nil_r. exact HR.
    + rewrite H2. cbn [DefaultHeader stdFormat negb LineBreak]. rewrite andb_false_r.
      destruct (node_header n s Hn Er) as [Hs1 Hs2]. split_and!; [done|done|by apply header_reads|].
      intros _. right. exists ("["%char :: s ++ ["]"%char])%list. cbn [app]. by rewrite <- app_assoc.
  - destruct (node_key n s k Hn Er) as (sec & key & Hs & Hsec & Hk & Hkin & Hname & Hplain & Hauto & Hval).
    rewrite Hs. cbn [mbind option_bind]. rewrite Hk, H1, H2.
    assert (val f s k = value key) as -> by (unfold val; by rewrite Hval).
    destruct (plainName_number k Hplain) as [Hnum _].
    assert (match (match encodeKeyLine o stdFormat key probe with Some b => inr b | None => inl (NoQuoting s k) end) with
      | inr b => b <> [] /\ startsIndented b = false /\ Reads o (b ++ X)%list (Entry k (value key)) X /\ (lw = false -> closed b)
      | inl _ => quotables f = false end) as Henc.
    { destruct (encodeKeyLine o stdFormat key probe) as [b|] eqn:Ee.
      - rewrite <- Hname in Hplain. destruct (encode_fits o key probe b Ho Hw Hplain Hauto Hd Hp Ee) as (Hfit & Hi & x & Hx).
        rewrite Hname in Hfit. split_and!; [rewrite Hx; by destruct x|done|by apply Hfit|intros _; right; by exists x].
      - apply not_true_iff_false. intros Hq. unfold quotables in Hq. rewrite forallb_forall in Hq.
        specialize (Hq sec ltac:(by apply list_elem_of_In)). rewrite forallb_forall in Hq. specialize (Hq key ltac:(by apply list_elem_of_In)).
        rewrite <- Hname in Hplain. destruct (encode_some o key probe Ho Hw Hplain Hauto Hd Hq) as [b Hb]. congruence. }
    destruct (written n lw) as [b|] eqn:Ew; [|exact Henc].
    destruct (keepsMeaning f b probe key) eqn:Ek; [|exact Henc].
    destruct (Hwr b eq_refl) as (Eb & He & Hi). rewrite Eb in Hbody. destruct Hbody as [Hbne HR]. split_and!; [done|done| |by apply Hcl].
    specialize (HR Hnum (value key) Hval). destruct (endsWithLineBreak b) eqn:Ee.
    + apply (kept_fits o b k (value key) probe Hw Hnum HR Hd Hp); [|done].
      unfold keepsMeaning in Ek. apply orb_true_iff in Ek as [Ek|Ek]; [left; by apply bool_decide_eq_true in Ek|right].
      by rewrite H1, Hname in Ek.
    + destruct He as [|Hlt]; [done|]. rewrite (Hlw Hlt), app_nil_r. exact HR.
Qed.

(** ** The nodes *)

(** The items that are not blank. *)
Definition entries (its : list item) : list item := filter (fun it => it <> Blank) its.

Lemma entries_blank bl : Forall (fun it => it = Blank) bl -> entries bl = [].
Proof. induction 1 as [|it bl -> _ IH]; [done|]. unfold entries. rewrite filter_cons_False by tauto. exact IH. Qed.

Lemma entries_app a b : entries (a ++ b) = (entries a ++ entries b)%list.
Proof. apply filter_app. Qed.

Lemma renderNodes_spec l : (forall n, n ∈ l -> n ∈ nodes f) ->
  match renderNodes f l with
  | inr (bodies, probe) =>
      forall w, exists T, writeNodes f w l bodies = (w ++ T)%list /\ covers probe (T ++ epilogue f)%list /\
        (l = [] -> T = []) /\
        exists its, Items o (T ++ epilogue f)%list its /\ entries its = itemOf (val f) <$> (ref <$> l)
  | inl _ => quotables f = false
  end.
Proof.
  pose proof HI as [_ H2 _ _ _ _ H7 [Hed Hes]]. induction l as [|n l IH]; intros Hl; cbn [renderNodes].
  { intros w. exists []. cbn [writeNodes]. rewrite app_nil_r. split_and!; [done|by apply leading_epilogue|done|].
    destruct (dullText_items o (epilogue f) Hed) as (its & HIt & Hb). exists its. split; [done|by apply entries_blank]. }
  specialize (IH (fun m Hm => Hl m (list_elem_of_further _ _ _ Hm))).
  destruct (renderNodes f l) as [e|[bodies probe]]; [done|].
  set (lw := bool_decide (l = []) && bool_decide (epilogue f = [])).
  pose proof (Hl n ltac:(by left)) as Hn.
  destruct (IH []) as (T0 & _ & Hcov0 & HT0 & _).
  assert (forall X, covers probe X -> (lw = true -> X = []) ->
    match renderNode f n lw probe with
    | inr b => b <> [] /\ startsIndented b = false /\ Reads o (b ++ X)%list (itemOf (val f) (ref n)) X /\ (lw = false -> closed b)
    | inl _ => quotables f = false end) as Hren by (intros X HX Hlw; by apply renderNode_spec).
  assert (forall T, (l = [] -> T = []) -> lw = true -> (T ++ epilogue f)%list = []) as Hlwt.
  { intros T HT [E1%bool_decide_eq_true E2%bool_decide_eq_true]%andb_true_iff. by rewrite (HT E1), E2. }
  destruct (renderNode f n lw probe) as [e|b]; [by apply (Hren (T0 ++ epilogue f)%list); [done|apply Hlwt]|].
  intros w. set (sep := if separatesSection f n b w then LineBreak (Format_ f) else []).
  assert (sep = [] \/ sep = [newline]) as Hsep.
  { unfold sep. rewrite H2. destruct (separatesSection _ _ _ _); [by right|by left]. }
  destruct (IH (w ++ sep ++ trivia n ++ b)%list) as (T & HwT & Hcov & HT & its & HIts & Hent).
  destruct (Hren (T ++ epilogue f)%list Hcov (Hlwt T HT)) as (Hb & Hbi & HR & _).
  rewrite Forall_forall in H7. destruct (H7 n Hn) as ((Hc & Hd & _) & _ & Hsh).
  exists (sep ++ trivia n ++ b ++ T)%list. cbn [writeNodes]. fold sep. rewrite HwT, <- !app_assoc. split_and!; [done| |done|].
  - pose proof (leading_node (trivia n) b probe (T ++ epilogue f)%list Hc Hd Hsh Hb Hbi) as (Ha & Hb' & Hc').
    split_and!; [done|done|]. intros Hq. by destruct Hsep as [->| ->]; [apply Hc'|].
  - assert (closed (sep ++ trivia n)%list) as Hc1 by (apply closed_app; [destruct Hsep as [->| ->]; [by left|right; by exists []]|done]).
    assert (dullText (sep ++ trivia n)%list) as Hd1.
    { apply dullText_app; [destruct Hsep as [->| ->]; [by left|right; by exists []]| |done]. destruct Hsep as [->| ->]; by repeat constructor. }
    destruct (Items_blank_app o _ (b ++ T ++ epilogue f)%list (itemOf (val f) (ref n) :: its) Hc1 Hd1) as (bl & Hbl & HIb); [by eapply I_cons|].
    exists (bl ++ itemOf (val f) (ref n) :: its)%list. rewrite <- app_assoc in HIb. split; [done|].
    rewrite entries_app, (entries_blank bl Hbl). unfold entries at 1. rewrite filter_cons_True by (by destruct (ref n)).
    cbn [app fmap list_fmap]. f_equal. exact Hent.
Qed.

(** ** The document *)

(** A text that does not start as a plain name or a space does is no element's. *)
Lemma high_head c W it r : KeyValueDelimiters o = lit "=:" -> (228 <=? N_of_ascii c)%N = true -> Reads o (c :: W) it r ->
  exists k v, it = Entry k v /\ plainName k = false.
Proof.
  intros Ho Hc HR.
  assert (solid c = true) as Hs.
  { unfold solid. rewrite Hc, orb_true_r, andb_true_r. apply negb_true_iff. apply N.leb_le in Hc. unfold isSpace1.
    apply not_true_iff_false. rewrite orb_true_iff, andb_true_iff, !N.leb_le, N.eqb_eq. lia. }
  assert (forall d, (N_of_ascii d <? 228)%N = true -> Ascii.eqb c d = false) as Hne.
  { intros d Hd. apply Ascii.eqb_neq. intros ->. apply N.ltb_lt in Hd. apply N.leb_le in Hc. lia. }
  assert (exists ln, (line (c :: W)).1 = c :: ln) as [ln Eln].
  { simpl. rewrite (Hne newline) by done. destruct (line W). by eexists. }
  assert (lineOf o (c :: ln) = BadLine \/ exists k lv, lineOf o (c :: ln) = KeyLine k lv /\ plainName k = false) as Hf.
  { unfold lineOf. rewrite trimLeft_solid by done.
    assert (oneOf c "#;" = false) as ->.
    { apply one_of_false. intros Hin. unfold lit in Hin. simpl in Hin. rewrite !elem_of_cons, elem_of_nil in Hin.
      destruct Hin as [->|[->|[]]]; by vm_compute in Hc. }
    rewrite (Hne "["%char) by done. unfold readKeyName. rewrite (Hne dquote), (Hne "`"%char) by done.
    rewrite bool_decide_false by tauto.
    destruct (IndexAny (c :: ln) (KeyValueDelimiters o)) as [[|m]|]; [by left| |by left].
    assert (TrimSpace (take (S m) (c :: ln)) = c :: trimRightSpace (take m ln)) as ->.
    { unfold TrimSpace. cbn [take]. rewrite trimLeft_solid by done. apply (trimRight_app [] c _ Hs). }
    rewrite bool_decide_false by done. right. eexists _, _. split; [done|].
    unfold plainName. cbn [forallb]. unfold plainChar at 1. apply N.leb_le in Hc.
    assert ((N_of_ascii c <? 128)%N = false) as -> by (apply N.ltb_ge; lia). by rewrite andb_false_r. }
  inversion HR as [? ln' ? _ El Ef|? ln' ? ? _ El Ef|? ln' ? k lv v ? _ El Ef _]; subst; rewrite El in Eln; cbn [fst] in Eln; subst ln';
    destruct Hf as [Hf|(k' & lv' & Hf & Hk)]; rewrite Ef in Hf; try done.
  injection Hf as <- <-. by exists k, v.
Qed.

Lemma entries_absorb its st : foldl absorb st its = foldl absorb st (entries its).
Proof.
  revert st. induction its as [|it its IH]; intros st; [done|]. unfold entries. destruct (decide (it = Blank)) as [->|Hit].
  - rewrite filter_cons_False by tauto. cbn [foldl]. destruct st as [[? ?] ?]. apply IH.
  - rewrite filter_cons_True by done. cbn [foldl]. apply IH.
Qed.

Lemma Items_det l its its' : Items o l its -> Items o l its' -> its = its'.
Proof.
  intros H1. revert its'. induction H1 as [|l it r its HR _ IH]; intros its' H2; inversion H2 as [|? ? ? ? HR']; subst; try done; try by inversion HR || inversion HR'.
  destruct (Reads_det _ _ _ _ _ _ HR HR') as [-> ->]. f_equal. by apply IH.
Qed.

Lemma sections_of_items its : entries its = itemOf (val f) <$> refs f -> (foldl absorb (initial o) its).1.1 = sections f.
Proof.
  intros He. rewrite entries_absorb, He. pose proof HI as [_ _ _ H4 H5 H6 _ _].
  change (initial o) with (decorate (val f) [(DefaultSectionName o, [])], DefaultSectionName o, 1).
  rewrite absorb_decorate; [|apply (shapeOf_distinct (DefaultSectionName o) [])|done|].
  - change (foldl step [(DefaultSectionName o, [])] (refs f)) with (shapeOf (DefaultSectionName o) (refs f)). rewrite <- H4.
    symmetry. apply sections_decorate.
    + rewrite H4. apply shapeOf_distinct.
    + intros s k v Hv. unfold val. by rewrite Hv.
    + eapply Forall_impl; [exact H6|]. intros sec (_ & _ & H). eapply Forall_impl; [exact H|]. by intros key [_ ?].
  - intros s k Hin. unfold refs in Hin. apply list_elem_of_fmap in Hin as (n & Hr & Hn).
    destruct (node_key n s k Hn (eq_sym Hr)) as (_ & _ & _ & _ & _ & _ & _ & Hp & _). by destruct (plainName_number k Hp).
Qed.

Lemma Bytes_spec :
  match Bytes f with
  | inr b => exists f', LoadBytes o b = inr f' /\ sections f' = sections f
  | inl _ => quotables f = false
  end.
Proof.
  pose proof (renderNodes_spec (nodes f) (fun n Hn => Hn)) as Hr. unfold Bytes.
  destruct (renderNodes f (nodes f)) as [e|[bodies probe]]; [done|].
  destruct (Hr []) as (T & -> & _ & _ & its & HIts & Hent). cbn [app]. set (W := (T ++ epilogue f)%list) in *.
  pose proof HI as [_ _ H3 _ _ _ _ _]. destruct Hstd as (Hw & Ho & _).
  assert (forall c W', W = c :: W' -> (228 <=? N_of_ascii c)%N = false) as Hhead.
  { intros c W' E. destruct (228 <=? N_of_ascii c)%N eqn:Ec; [exfalso|done]. rewrite E in HIts.
    inversion HIts as [|? it r its' HR _]; subst. destruct (high_head c W' it r Ho Ec HR) as (k & v & -> & Hk).
    unfold entries in Hent. rewrite filter_cons_True in Hent by done.
    assert (Entry k v ∈ itemOf (val f) <$> (ref <$> nodes f)) as Hin by (rewrite <- Hent; by left).
    apply list_elem_of_fmap in Hin as (r0 & Hr0 & Hin). apply list_elem_of_fmap in Hin as (n & -> & Hn).
    destruct (ref n) as [|s k'] eqn:Er; [done|]. injection Hr0 as -> _.
    destruct (node_key n s k' Hn Er) as (_ & _ & _ & _ & _ & _ & _ & Hp & _). congruence. }
  assert (HasPrefix W bomUTF8 = false /\ HasPrefix W bomUTF16BE = false /\ HasPrefix W bomUTF16LE = false) as (B1 & B2 & B3).
  { destruct W as [|c W'] eqn:EW; [done|]. specialize (Hhead c W' eq_refl).
    split_and!; apply not_true_iff_false; intros H; apply HasPrefix_spec in H as [r [= -> _]]; by vm_compute in Hhead. }
  set (out := (bom f ++ W)%list).
  assert (textOf out = W /\ HasPrefix out bomUTF16BE = false /\ HasPrefix out bomUTF16LE = false) as (E1 & E2 & E3).
  { unfold out, textOf. destruct H3 as [->| ->]; [cbn [app]; by rewrite B1|]. split_and!; [|done|done].
    assert (HasPrefix (bomUTF8 ++ W) bomUTF8 = true) as -> by (apply HasPrefix_spec; by exists W). done. }
  rewrite E2, E3. cbn [orb].
  destruct (Load_complete o out its E2 E3) as [f' Hf']; [by rewrite Hw, E1|]. exists f'. split; [done|].
  destruct (Load_sound o out f' Hf') as (its' & HI' & ->). rewrite Hw, E1 in HI'. rewrite Hw.
  rewrite (Items_det _ _ _ HI' HIts). by apply sections_of_items.
Qed.

End writing.

End iniwrite.
