(* ===== verification/IniSource.v ===== *)
(** * util/ini: a document nobody changed

    A document whose keys are defined once is its nodes, one after the other, and is written
    back as it was read. *)

From S2P Require Import Prelude.
From S2P Require Import Ini.
From S2P Require Import IniBytes.
From S2P Require Import IniRead.
From S2P Require Import IniLocal.
From S2P Require Import IniDoc.
From S2P Require Import IniLines.
From S2P Require Import IniEncode.
From S2P Require Import IniQuote.
From S2P Require Import IniExact.
From S2P Require Import IniShape.
From S2P Require Import IniLoad.
From S2P Require Import IniEdit.
From S2P Require Import IniWrite.
From Stdlib Require Import Ascii.

Open Scope string_scope.

Module inisource.

Import inidoc iniread inivalue inilocal inidocument inilines iniencode iniquote iniexact inishape iniload iniedit iniwrite.

(** Every element that is read adds a node: no key is defined again. *)
Fixpoint onceLoop (fuel : nat) (data : bytes) (lp : loop) : bool :=
  match fuel with
  | O => true
  | S fuel =>
      if eof (reader lp) then true
      else match parseLine data lp with
           | inl _ => false
           | inr lp' =>
               ((length (rest (triviaAt lp')) =? length (rest (triviaAt lp)))%nat || (length (nodes (file lp)) <? length (nodes (file lp')))%nat) &&
               onceLoop fuel data lp'
           end
  end.

Definition definedOnce (o : Options) (b : bytes) : bool := onceLoop (length b) b (startLoop o b).

(** The bytes of the nodes. *)
Definition textOfNode (n : node) : bytes := (trivia n ++ default [] (body n))%list.
Definition textOfNodes (l : list node) : bytes := concat (textOfNode <$> l).

Lemma textOfNodes_app a b : textOfNodes (a ++ b) = (textOfNodes a ++ textOfNodes b)%list.
Proof. unfold textOfNodes. by rewrite fmap_app, concat_app. Qed.

(** A node is read from its bytes, before the bytes of the others. *)
Definition readBefore (o : Options) (secs : list Section) (n : node) (X : bytes) : Prop :=
  exists b it, body n = Some b /\ b <> [] /\ Reads o (b ++ X)%list it X /\
    match ref n with
    | SectionRef s => it = Header s
    | KeyRef s k => exists k0 v, it = Entry k0 v /\ (isNumber k = false -> k0 = k) /\ valueIn secs s k = Some v
    end.

Record Sourced (o : Options) (text : bytes) (lp : loop) : Prop := {
  so_looped : Looped o text lp;
  so_text : text = (textOfNodes (nodes (file lp)) ++ rest (triviaAt lp))%list;
  so_reads : forall A n B, nodes (file lp) = (A ++ n :: B)%list ->
    readBefore o (sections (file lp)) n (textOfNodes B ++ rest (triviaAt lp))%list }.

Lemma readBefore_values o secs secs' n X : (forall s k v, ref n = KeyRef s k -> valueIn secs s k = Some v -> valueIn secs' s k = Some v) ->
  readBefore o secs n X -> readBefore o secs' n X.
Proof.
  intros Hv (b & it & Hb & Hne & HR & Hit). exists b, it. split_and!; try done. destruct (ref n) as [s|s k]; [done|].
  destruct Hit as (k0 & v & -> & Hk & Hval). exists k0, v. split_and!; try done. by apply Hv.
Qed.

Lemma valueIn_define_self s k v a secs sec : findSection secs s = Some sec -> valueIn (define s k v a secs) s k = Some v.
Proof.
  intros Hf. unfold valueIn. rewrite findSection_define, Hf. cbn [fmap option_fmap option_map mbind option_bind].
  rewrite bool_decide_true by done. destruct (keyOf_defineIn_self k v a sec) as (key & -> & Hv). simpl. by rewrite Hv.
Qed.

Lemma valueIn_define_other s k v a secs s' k' w : findSection secs s ≫= (fun sec => keyOf sec k) = None ->
  valueIn secs s' k' = Some w -> valueIn (define s k v a secs) s' k' = Some w.
Proof.
  unfold valueIn. rewrite findSection_define. intros Hn. destruct (findSection secs s') as [sec|] eqn:Es; [|done].
  cbn [fmap option_fmap option_map mbind option_bind]. case_bool_decide as Hs; [|done]. subst s'. rewrite Es in Hn. cbn [mbind option_bind] in Hn.
  destruct (keyOf sec k') as [key|] eqn:Ek; [|done]. intros [= <-]. unfold defineIn. rewrite Hn.
  assert (keyOf (sec <| keys ::= fun l => (l ++ [mkKey k v a])%list |>) k' = Some key) as ->; [|done].
  unfold keyOf in *. simpl. by apply find_app_some.
Qed.

(** A node more. *)
Lemma Sourced_snoc o text lp lp' tr b it n : Sourced o text lp -> Looped o text lp' ->
  rest (triviaAt lp) = (tr ++ b ++ rest (triviaAt lp'))%list ->
  nodes (file lp') = (nodes (file lp) ++ [n])%list -> trivia n = tr -> body n = Some b -> b <> [] ->
  Reads o (b ++ rest (triviaAt lp'))%list it (rest (triviaAt lp')) ->
  match ref n with
  | SectionRef s => it = Header s
  | KeyRef s k => exists k0 v, it = Entry k0 v /\ (isNumber k = false -> k0 = k) /\ valueIn (sections (file lp')) s k = Some v
  end ->
  (forall s k v, valueIn (sections (file lp)) s k = Some v -> valueIn (sections (file lp')) s k = Some v) ->
  Sourced o text lp'.
Proof.
  intros [_ Ht Hr] HL Htr Hn Hntr Hnb Hne HR Hit Hv.
  assert (textOfNodes [n] = (tr ++ b)%list) as En by (unfold textOfNodes, textOfNode; simpl; by rewrite Hntr, Hnb, app_nil_r).
  split; [done| |].
  - rewrite Ht, Hn, Htr, textOfNodes_app, En, <- !app_assoc. done.
  - intros A m B E. rewrite Hn in E. destruct (decide (B = [])) as [->|HB].
    + apply app_inj_tail in E as [<- <-]. cbn [textOfNodes fmap list_fmap concat app]. by exists b, it.
    + destruct (exists_last HB) as (B' & x & ->). rewrite app_comm_cons, app_assoc in E. apply app_inj_tail in E as [E <-].
      rewrite textOfNodes_app, En, <- !app_assoc, <- Htr. eapply readBefore_values; [|by apply (Hr A m B')]. intros s k v _. apply Hv.
Qed.

Lemma Sourced_step o text data lp lp' : KeyValueDelimiters o = lit "=:" -> ~ pending text -> Sourced o text lp ->
  rest (reader lp) <> [] -> parseLine data lp = inr lp' ->
  (length (rest (triviaAt lp')) =? length (rest (triviaAt lp)))%nat || (length (nodes (file lp)) <? length (nodes (file lp')))%nat = true ->
  Sourced o text lp'.
Proof.
  intros Ho Hp HS Hne Hline Hone. pose proof HS as [HL Ht Hr]. pose proof (Looped_step o text data lp lp' Ho Hp HL Hne Hline) as HL'.
  destruct HL as [Hopts Hshape _ _ Hcur _ _ (tr & Htr & _ & _) _].
  destruct (parseLine_sound data lp lp' Hne Hline) as (it & b & Hb & HR & Hst & Hadd & Htrivia & _).
  rewrite Hopts in HR. rewrite (between_app _ _ _ Htr) in Hadd. unfold stateOf in Hst, Hadd.
  pose proof (Reads_shorter _ _ _ _ HR) as Hlen.
  assert (b <> []) as Hbne by (intros ->; rewrite Hb in Hlen; simpl in Hlen; lia).
  destruct it as [|s|k v]; cbn [absorb addNode] in Hst, Hadd; injection Hst as Hs1 Hs2 _.
  - split; [done|by rewrite Hadd, Htrivia|]. rewrite Hadd, Htrivia, Hs1. exact Hr.
  - rewrite <- Htrivia in Hb, HR. rewrite Hb in HR.
    apply (Sourced_snoc o text lp lp' tr b (Header s) (mkNode tr (Some b) (SectionRef s) 0 0 false)); try done.
    + by rewrite Htr, Hb.
    + intros s' k' v' Hv'. rewrite Hs1, valueIn_force. done.
  - destruct Hadd as (vs & ve & sp & Hadd). set (k' := numbered (autoIncrementAt lp) k) in *.
    destruct (findSection (sections (file lp)) (current lp)) as [sec|] eqn:Esec.
    2:{ exfalso. apply findSection_names in Hcur as [? Hcur]. congruence. }
    cbn [mbind option_bind] in Hadd. destruct (keyOf sec k') as [key|] eqn:Ekey.
    + exfalso. apply orb_true_iff in Hone as [Hone|Hone].
      * apply Nat.eqb_eq in Hone. rewrite Htrivia, Htr, Hb, !length_app in Hone. destruct b; [done|simpl in Hone; lia].
      * apply Nat.ltb_lt in Hone. rewrite Hadd, length_fmap in Hone. lia.
    + rewrite <- Htrivia in Hb, HR. rewrite Hb in HR.
      apply (Sourced_snoc o text lp lp' tr b (Entry k v) (mkNode tr (Some b) (KeyRef (current lp) k') vs ve sp)); try done.
      * by rewrite Htr, Hb.
      * cbn [ref]. exists k, v. split_and!; [done|intros Hk; unfold k' in *; by rewrite (numbered_plain _ _ Hk)|].
        rewrite Hs1. by eapply valueIn_define_self.
      * intros s0 k0 v0 Hv0. rewrite Hs1. apply valueIn_define_other; [|done]. rewrite Esec. cbn [mbind option_bind]. exact Ekey.
Qed.

Lemma onceLoop_Sourced o text data fuel lp lp' : KeyValueDelimiters o = lit "=:" -> ~ pending text -> (length (rest (reader lp)) <= fuel)%nat ->
  Sourced o text lp -> onceLoop fuel data lp = true -> parseLoop fuel data lp = inr lp' -> Sourced o text lp'.
Proof.
  intros Ho Hp. revert lp. induction fuel as [|fuel IH]; intros lp Hf HS; simpl; [by intros _ [= <-]|].
  unfold eof. destruct (rest (reader lp)) as [|c l] eqn:Er; [by intros _ [= <-]|].
  destruct (parseLine data lp) as [e|lp1] eqn:El; [done|]. intros [H1 H2]%andb_true_iff H3.
  assert (rest (reader lp) <> []) as Hne by by rewrite Er.
  apply (IH lp1); [|by eapply Sourced_step|done|done].
  destruct (parseLine_sound data lp lp1 Hne El) as (it & b & _ & HR & _). apply Reads_shorter in HR. rewrite Er in HR. simpl in *. lia.
Qed.

(** ** The writing *)

Section identity.

Variables (o : Options) (f : File) (text : bytes).
Hypothesis Hstd : standard o.
Hypothesis HI : Inv o f.
Hypothesis Hreads : forall A n B, nodes f = (A ++ n :: B)%list -> readBefore o (sections f) n (textOfNodes B ++ epilogue f)%list.

Lemma renderNodes_identity A l : nodes f = (A ++ l)%list ->
  exists probe, renderNodes f l = inr ((fun n => default [] (body n)) <$> l, probe) /\
    covers probe (textOfNodes l ++ epilogue f)%list /\ (probe <> [] -> startsIndented (textOfNodes l ++ epilogue f)%list = true).
Proof.
  destruct Hstd as (Hw & Ho & _). pose proof HI as [H1 _ _ _ _ _ H7 [Hed Hes]].
  revert A. induction l as [|n l IH]; intros A EA; cbn [renderNodes].
  { eexists. split; [done|]. split; [by apply leading_epilogue|]. cbn [textOfNodes fmap list_fmap concat app].
    intros Hq. destruct (startsIndented (epilogue f)) eqn:E; [done|]. destruct Hq.
    unfold leadingContinuationLines. cbn [leadingParts]. destruct (epilogue f) as [|c e]; [done|]. cbn [leadingPart length].
    simpl in E. by rewrite E. }
  assert (nodes f = (A ++ [n]) ++ l)%list as EA' by (by rewrite <- app_assoc).
  destruct (IH _ EA') as (probe & -> & (Hd & Hp & HX) & Hind).
  assert (n ∈ nodes f) as Hn by (rewrite EA; set_solver).
  rewrite Forall_forall in H7. destruct (H7 n Hn) as ((Hc & Hdt & Hbody) & Hflush & Hsh).
  destruct (Hreads A n l EA) as (b & it & Eb & Hbne & HR & Hit). set (X := (textOfNodes l ++ epilogue f)%list) in *.
  unfold flush in Hflush. rewrite Eb in Hflush, Hbody. apply negb_true_iff in Hflush. destruct Hbody as [_ Hbody].
  assert (endsWithLineBreak b = true \/ (l = [] /\ epilogue f = [])) as Hends.
  { destruct (decide (X = [])) as [HXe|HXe].
    - right. unfold X in HXe. apply app_eq_nil in HXe as [Hl He]. split; [|done]. destruct l as [|m l]; [done|exfalso].
      destruct (Hreads (A ++ [n])%list m l EA') as (bm & _ & Ebm & Hbm & _).
      unfold textOfNodes in Hl. cbn [fmap list_fmap concat] in Hl. apply app_eq_nil in Hl as [Hl _]. unfold textOfNode in Hl.
      rewrite Ebm in Hl. by apply app_eq_nil in Hl as [_ ?].
    - left. apply ends_closed; [done|]. destruct (Reads_dropLines _ _ _ _ HR) as [j Hj]. by apply (dropLines_closed j (b ++ X)%list b X). }
  assert (renderNode f n (bool_decide (l = []) && bool_decide (epilogue f = [])) probe = inr b) as ->.
  { unfold renderNode.
    assert (written n (bool_decide (l = []) && bool_decide (epilogue f = [])) = Some b) as ->.
    { unfold written. rewrite Eb. destruct Hends as [->|[Hl0 He0]]; [done|].
      rewrite (bool_decide_true _ Hl0), (bool_decide_true _ He0). by rewrite orb_true_r. }
    destruct (ref n) as [s|s k] eqn:Er; [done|].
    destruct (node_key o f HI n s k Hn Er) as (sec & key & Hs & _ & Hk & _ & Hname & Hplain & _ & Hval).
    rewrite Hs. cbn [mbind option_bind]. rewrite Hk.
    assert (keepsMeaning f b probe key = true) as ->; [|done].
    unfold keepsMeaning. destruct (decide (probe = [])) as [->|Hprobe]; [done|]. apply orb_true_iff. right.
    destruct (plainName_number k Hplain) as [Hnum Hauto].
    destruct Hit as (k0 & v & -> & Hk0 & Hv). rewrite (Hk0 Hnum) in HR. rewrite Hv in Hval. injection Hval as ->.
    rewrite H1, Hname. apply parsesToKey_intro; [done|done| |done].
    specialize (Hbody Hnum _ Hv). destruct (endsWithLineBreak b) eqn:Ee.
    - destruct Hbody as [_ [Hall|Hall]]; [by apply Hall|]. destruct (Hall X (Hind Hprobe)) as (v' & r & Hv' & HR' & _).
      destruct (Reads_det _ _ _ _ _ _ HR HR') as [[= Hvv] _]. congruence.
    - destruct Hends as [|[Hl0 He0]]; [done|]. unfold X in Hind. rewrite Hl0, He0 in Hind. by specialize (Hind Hprobe). }
  eexists. split; [cbn [fmap list_fmap]; by rewrite Eb|].
  assert (textOfNodes (n :: l) ++ epilogue f = trivia n ++ b ++ X)%list as Etext.
  { unfold X, textOfNodes. cbn [fmap list_fmap concat]. unfold textOfNode at 1. rewrite Eb, <- !app_assoc. done. }
  rewrite Etext. split; [by apply leading_node|].
  intros Hq. destruct (startsIndented (trivia n ++ b ++ X)%list) eqn:Es; [done|]. destruct Hq.
  unfold leadingContinuationLines. cbn [leadingParts]. destruct (trivia n) as [|c t]; cbn [app startsIndented] in Es.
  - cbn [leadingPart length]. destruct b as [|c b]; [done|]. cbn [leadingPart length]. simpl in Es. by rewrite Es.
  - cbn [leadingPart length]. by rewrite Es.
Qed.

Lemma writeNodes_identity l w : (forall n, n ∈ l -> body n <> None) ->
  writeNodes f w l ((fun n => default [] (body n)) <$> l) = (w ++ textOfNodes l)%list.
Proof.
  revert w. induction l as [|n l IH]; intros w Hl; cbn [writeNodes fmap list_fmap].
  { unfold textOfNodes. cbn. by rewrite app_nil_r. }
  rewrite IH by (intros m Hm; apply Hl; by right).
  assert (separatesSection f n (default [] (body n)) w = false) as ->.
  { unfold separatesSection. rewrite (bool_decide_false (body n = None)) by (apply Hl; by left). by rewrite !andb_false_r. }
  unfold textOfNodes. cbn [fmap list_fmap concat]. unfold textOfNode at 2. by rewrite <- !app_assoc.
Qed.

End identity.

Lemma textOf_bom o b f : standard o -> LoadBytes o b = inr f -> bom f = [] /\ textOf b = b \/ bom f = bomUTF8 /\ b = (bomUTF8 ++ textOf b)%list.
Proof.
  intros (Hw & _) HL. rewrite LoadBytes_loop, Hw in HL. destruct (_ && _); [done|].
  destruct (parseLoop (length b) b (startLoop o b)) as [e|lp] eqn:Ep; [done|]. injection HL as <-. cbn.
  assert (bom (file lp) = bom (file (startLoop o b))) as ->.
  { eapply (parseLoop_ind b (fun lp => bom (file lp) = bom (file (startLoop o b)))); [|exact Ep|done].
    intros lp1 lp2 H Hne Hl. destruct (parseLine_sound b lp1 lp2 Hne Hl) as (_ & _ & _ & _ & _ & _ & _ & Heq). injection Heq as _ _ ->. done. }
  unfold startLoop, textOf. destruct (HasPrefix b bomUTF8) eqn:Eb; simpl; [right|by left].
  apply HasPrefix_spec in Eb as [r ->]. done.
Qed.

Lemma identity o b f : standard o -> LoadBytes o b = inr f -> endsPlain (textOf b) = true -> tidy f = true -> definedOnce o b = true ->
  Bytes f = inr b.
Proof.
  intros Hstd HL Hp Ht Hone. pose proof Hstd as (Hw & Ho & Hd). pose proof (Load_Inv o b f Hw Ho Hd HL Hp Ht) as HI.
  assert (~ pending (textOf b)) as Hpend by (unfold endsPlain in Hp; by apply negb_true_iff, bool_decide_eq_false in Hp).
  pose proof (textOf_bom o b f Hstd HL) as Hbom.
  assert (HasPrefix b bomUTF16BE || HasPrefix b bomUTF16LE = false) as H16.
  { rewrite LoadBytes_loop in HL. destruct (HasPrefix b bomUTF8) eqn:E8; cbn [negb andb] in HL.
    - apply HasPrefix_spec in E8 as [r ->]. done.
    - by destruct (_ || _). }
  assert (textOf b = (textOfNodes (nodes f) ++ epilogue f)%list /\
    forall A n B, nodes f = (A ++ n :: B)%list -> readBefore o (sections f) n (textOfNodes B ++ epilogue f)%list) as [Htext Hreads].
  { rewrite LoadBytes_loop, Hw in HL. destruct (_ && _); [done|].
    destruct (parseLoop (length b) b (startLoop o b)) as [e|lp] eqn:Ep; [done|]. injection HL as <-.
    assert (Sourced o (textOf b) lp) as [_ H2 H3].
    { eapply (onceLoop_Sourced o (textOf b) b (length b) (startLoop o b)); try done.
      - unfold startLoop. simpl. destruct (HasPrefix b bomUTF8); simpl; [rewrite length_drop; lia|done].
      - split; [apply startLoop_Looped; [done|by apply withDefaults_default]| |].
        + unfold startLoop, textOf. simpl. by destruct (HasPrefix b bomUTF8).
        + intros A n B E. by destruct A. }
    split; [exact H2|exact H3]. }
  unfold Bytes. destruct (renderNodes_identity o f Hstd HI Hreads [] (nodes f) eq_refl) as (probe & -> & _).
  rewrite writeNodes_identity.
  2:{ intros n Hn. apply list_elem_of_split in Hn as (A & B & E). destruct (Hreads A n B E) as (bn & _ & -> & _). done. }
  cbn [app]. rewrite <- Htext. assert (bom f ++ textOf b = b)%list as -> by (destruct Hbom as [[-> ->]|[-> Hb]]; [done|by symmetry]).
  by rewrite H16.
Qed.

End inisource.
