(* ===== verification/IniSafety.v ===== *)
(** * util/ini: what is written

    The properties of the documents: what nobody changed is written as it was read, what was
    changed is read back as it was changed, and every value without all the quotes can be
    written.  Then what happens outside of what these say. *)

From S2P Require Import Prelude.
From S2P Require Import Ini.
From S2P Require Import IniRead.
From S2P Require Import IniDoc.
From S2P Require Import IniExact.
From S2P Require Import IniLoad.
From S2P Require Import IniEdit.
From S2P Require Import IniWrite.
From S2P Require Import IniSource.
From Stdlib Require Import Ascii.

Open Scope string_scope.

Module inisafety.

Import inidoc inidocument iniexact iniload iniedit iniwrite inisource.

(** C13: A document created empty, or loaded from a text that, blanks aside, does not end with
    a backslash and that is tidy (plain key names, elements at the first column, comments and
    blanks between them within the 4096 bytes of the lookahead), then changed by new keys of
    plain names, new sections whose name is in a line, and changes that keep the default
    section, with the standard options, is, when it is written, written as a text that is read
    back as its sections, keys and values, in order, whatever the values. The last backslash
    matters: backslash_swallows. *)
Theorem edits_read_back o f b : standard o -> Edited o f -> Bytes f = inr b ->
  exists f', LoadBytes o b = inr f' /\ sections f' = sections f.
Proof.
  intros Hstd HE Hb. pose proof (Bytes_spec o f Hstd (Edited_Inv o f Hstd HE)) as H. by rewrite Hb in H.
Qed.

(** C20: A document created or loaded, then changed, in the same conditions (a text that does
    not end with a backslash, a tidy document, plain new keys, standard options) is written
    whenever each of its values is without a backtick, or without three double quotes in a
    row. A document that is not tidy may be refused: legal_not_written. *)
Theorem edits_written o f : standard o -> Edited o f -> quotables f = true -> exists b, Bytes f = inr b.
Proof.
  intros Hstd HE Hq. pose proof (Bytes_spec o f Hstd (Edited_Inv o f Hstd HE)) as H.
  destruct (Bytes f) as [e|b]; [congruence|by exists b].
Qed.

(** C14: A document nobody changed, tidy, loaded with the standard options from a text that
    does not end with a backslash, blanks aside, and whose keys are defined once, is written
    as it was read, byte for byte. A document that is not tidy may be refused:
    legal_not_written. *)
Theorem unmodified_identical o b f : standard o -> LoadBytes o b = inr f -> endsPlain (textOf b) = true -> tidy f = true ->
  definedOnce o b = true -> Bytes f = inr b.
Proof. apply identity. Qed.

End inisafety.

(** ** Documents *)

Module iniExample.

Import inidoc inidocument iniexact iniload iniedit iniwrite inisource inisafety.

(** The options of the configurations of the objects. *)
Definition loadOptions : Options := withDefaults (mkOptions true true true false false [] [] []).

Lemma loadOptions_standard : standard loadOptions.
Proof. split_and!; [done|done|]. vm_compute. intros H. repeat (apply elem_of_cons in H as [H|H]; [done|]). by apply elem_of_nil in H. Qed.

Definition nl : string := String newline "".
Definition dq : string := String dquote "".

(** A configuration, with a comment, a value on two lines, and a value that an indented
    comment follows. *)
Definition source : bytes := lit (
  "# the app" ++ nl ++ "[DEFAULT]" ++ nl ++ "id = 12 ; set once" ++ nl ++ "nodes = n1" ++ nl ++ "  n2" ++ nl ++ nl ++
  "[fs#1]" ++ nl ++ "dev = `/dev/x`" ++ nl ++ "   # the mount point" ++ nl ++ "mnt : /srv" ++ nl).

Definition orFail (r : error + File) : File := match r with inr f => f | inl _ => newFile loadOptions end.

Definition loaded : File := orFail (LoadBytes loadOptions source).

(** The value that was quoted is changed for one that is not, and a key is added whose value
    has every line of a section. *)
Definition changed : File :=
  orFail (NewKey (lit "fs#1") (lit "opt") (lit ("a" ++ nl ++ "[fs#2]" ++ nl ++ "dev = b"))
    (SetValue (lit "fs#1") (lit "dev") (lit "/dev/y") loaded)).

Definition written_ : bytes := match Bytes changed with inr b => b | inl _ => [] end.

Lemma loaded_edited : Edited loadOptions loaded.
Proof. apply (Ed_load loadOptions source); vm_compute; reflexivity. Qed.

Lemma changed_edited : Edited loadOptions changed.
Proof.
  apply (Ed_edit loadOptions (New (lit "fs#1") (lit "opt") (lit ("a" ++ nl ++ "[fs#2]" ++ nl ++ "dev = b")))
    (SetValue (lit "fs#1") (lit "dev") (lit "/dev/y") loaded)); [|vm_compute; reflexivity|vm_compute; reflexivity].
  apply (Ed_edit loadOptions (Set_ (lit "fs#1") (lit "dev") (lit "/dev/y")) loaded); [|reflexivity|reflexivity].
  apply loaded_edited.
Qed.

Lemma edits_read_back_witness : exists f', LoadBytes loadOptions written_ = inr f' /\ sections f' = sections changed.
Proof.
  apply (edits_read_back loadOptions changed written_ loadOptions_standard changed_edited). vm_compute. reflexivity.
Defined.

Lemma edits_written_witness : exists b, Bytes changed = inr b.
Proof. apply (edits_written loadOptions changed loadOptions_standard changed_edited). vm_compute. reflexivity. Defined.

Lemma unmodified_identical_witness : Bytes loaded = inr source.
Proof. apply (unmodified_identical loadOptions source loaded loadOptions_standard); vm_compute; reflexivity. Defined.

(** What is written of the changed document. *)
Example changed_text : written_ = lit (
  "# the app" ++ nl ++ "[DEFAULT]" ++ nl ++ "id = 12 ; set once" ++ nl ++ "nodes = n1" ++ nl ++ "  n2" ++ nl ++ nl ++
  "[fs#1]" ++ nl ++ "dev = " ++ dq ++ "/dev/y" ++ dq ++ nl ++ "   # the mount point" ++ nl ++ "mnt : /srv" ++ nl ++
  "opt = `a" ++ nl ++ "[fs#2]" ++ nl ++ "dev = b`" ++ nl).
Proof. vm_compute. reflexivity. Qed.

(** ** Outside *)

Definition contentsOf (f : File) : list (string * list (string * string)) :=
  (fun sec => (String.string_of_list_ascii (sectionName sec),
     (fun key => (String.string_of_list_ascii (name key), String.string_of_list_ascii (value key))) <$> keys sec)) <$> sections f.

Definition reread (f : File) : option (list (string * list (string * string))) :=
  match Bytes f with inr b => match LoadBytes loadOptions b with inr f' => Some (contentsOf f') | inl _ => None end | inl _ => None end.

Definition load_ (s : string) : File := orFail (LoadBytes loadOptions (lit s)).

(** A document that ends with a backslash takes the key that is added to it for the rest of
    its last value. *)
Lemma backslash_swallows :
  reread (orFail (NewKey (lit "DEFAULT") (lit "b") (lit "1") (load_ ("k = a\" ++ nl)))) = Some [("DEFAULT", [("k", "ab = 1")])].
Proof. vm_compute. reflexivity. Qed.

(** A key that nobody touched, whose value is quoted, before an indented key whose quoted
    value is on several lines: the document can not be written. *)
Lemma legal_not_written :
  contentsOf (load_ ("a = `x`" ++ nl ++ " b = `y" ++ nl ++ "z`" ++ nl)) = [("DEFAULT", [("a", "x"); ("b", "y" ++ nl ++ "z")])] /\
  Bytes (load_ ("a = `x`" ++ nl ++ " b = `y" ++ nl ++ "z`" ++ nl)) = inl (NoQuoting (lit "DEFAULT") (lit "a")).
Proof. split; vm_compute; reflexivity. Qed.

(** The name of a section is not checked: the document that is written is refused when it is
    read. *)
Lemma section_breaks :
  match Bytes (orFail (NewSection (lit ("a" ++ nl ++ "b")) (load_ ("k = 1" ++ nl)))) with
  | inr b => LoadBytes loadOptions b = inl (UnclosedHeader 3)
  | inl _ => False
  end.
Proof. vm_compute. reflexivity. Qed.

(** A key that is defined again is not written back where it was, and the comment before it
    is lost. *)
Lemma redefined_differs :
  Bytes (load_ ("k = 1" ++ nl ++ "# why two" ++ nl ++ "k = 2" ++ nl)) = inr (lit ("k = 2" ++ nl)).
Proof. vm_compute. reflexivity. Qed.

End iniExample.
