(* ===== verification/Pubsub.v ===== *)
(** * util/pubsub: the message bus of the daemon

    The components of the daemon publish messages on a bus, and subscribe to the ones
    whose type and labels they ask for.  The bus is a goroutine that handles the commands
    of its callers one at a time; a subscription has a queue the bus pushes to, a channel
    its owner reads, and a goroutine that moves the messages from the one to the other.

    [Labels], the filters and their keys, [subscriptionMap], the thresholds of the queues
    are functions.  [Sys] is the bus, the subscriptions, the goroutines they start, and
    what the callers did; [act] is one step of it, as long as a goroutine runs without
    waiting for another one.  An identifier of a subscription is a number, the address of
    a message too.  The iteration orders of the maps are arguments of the steps.

    Left out: the names of the subscriptions, the metrics and the logs; the answers to the
    callers, who wait for them; the channels of no capacity, or of more than 2^32 messages. *)

From S2P Require Import Prelude.
From S2P Require Import Instance.

Open Scope string_scope.

Module pubsub.

(** ** Labels *)

Notation Labels := (gmap string string).
Definition Label : Type := string * string.

Definition newLabels (l : list Label) : Labels := foldl (fun m label => <[label.1 := label.2]> m) ∅ l.

Fixpoint pairs (l : list string) : list Label :=
  match l with k :: v :: l => (k, v) :: pairs l | _ => [] end.

Definition NewLabels (l : list string) : Labels := newLabels (pairs l).

(** A message: the address it is published by, its type, its labels, nil at first. *)
Record Messager := mkMessager { address : nat; typeOf : string; msgLabels : option Labels }.

Definition GetLabels (p : Messager) : Labels := default ∅ (msgLabels p).

Definition AddLabels (l : list Label) (p : Messager) : Messager :=
  match l with
  | [] => p
  | _ => mkMessager (address p) (typeOf p) (Some (foldl (fun m e => <[e.1 := e.2]> m) (default ∅ (msgLabels p)) l))
  end.

Definition sortStrings (l : list string) : list string := stable_sort String.ltb l.

Definition names (t : Labels) : list string := sortStrings (map fst (map_to_list t)).

Definition labelText (t : Labels) (key : string) : string := "{" ++ key ++ "=" ++ default "" (t !! key) ++ "}".

Definition concat (l : list string) : string := foldr String.append "" l.

Definition Key (t : Labels) : string := concat (map (labelText t) (names t)).

(** The loop of [helper]: the combinations that start with [current] and one of [elements]. *)
Fixpoint helper (elements current : list string) : list (list string) :=
  match elements with
  | [] => []
  | e :: elements => ((current ++ [e]) :: helper elements (current ++ [e]) ++ helper elements current)%list
  end.

Definition combinations (elements : list string) : list (list string) := helper elements [].

Definition Keys (t : Labels) : gset string :=
  {[""]} ∪ list_to_set (map (fun comb => concat (map (labelText t) comb)) (combinations (names t))).

(** Two texts of a pair, made by ["%#v"], are equal when the pairs are. *)
Definition Is (t labels : Labels) : bool :=
  let m1 : gset Label := list_to_set (map_to_list t) in
  let m2 : gset Label := list_to_set (map_to_list labels) in
  if bool_decide (m1 ⊆ m2) then bool_decide (m2 ∖ m1 ⊆ m1) else false.

(** ** Filters *)

Record filter := mkFilter { labels : Labels; dataType : string }.

#[global] Instance filter_eq : EqDecision filter.
Proof. solve_decision. Defined.

Definition fmtKey (dataType : string) (labels : Labels) : string := dataType ++ ":" ++ Key labels.

Definition FilterFmt (kind : string) (labels : list Label) : string := fmtKey kind (newLabels labels).

Definition key (t : filter) : string := fmtKey (dataType t) (labels t).

(** The filter of [AddFilter(v, labels...)], [""] standing for the type of nil. *)
Definition newFilter (dataType : string) (l : list Label) : filter := mkFilter (newLabels l) dataType.

(** The keys of the filters of a subscription. *)
Definition filtersKeys (l : list filter) : list string :=
  match l with [] => [":"] | _ => sortStrings (map key l) end.

Record cmdPub := mkCmdPub { pubLabels : Labels; pubType : string; data : nat; pubKeys : list string }.

Definition pubKeysForDatatype (dataType : string) (keys : list string) : list string :=
  match keys with
  | [] => [dataType ++ ":"; ":"]
  | _ => flat_map (fun key => [dataType ++ ":" ++ key; ":" ++ key]) keys
  end.

(** [order] is the order the keys of the labels are listed in. *)
Definition cmdPubFactory (v : Messager) (l : list Label) (order : list string) : cmdPub :=
  let v := AddLabels l v in
  mkCmdPub (GetLabels v) (typeOf v) (address v) (pubKeysForDatatype (typeOf v) order).

(** An order of the elements of a set. *)
Definition isOrder {A} `{Countable A} (l : list A) (s : gset A) : bool := bool_decide (NoDup l /\ list_to_set l = s).

(** ** The index of the subscriptions *)

Notation subscriptionMap := (gmap string (gset nat)).

Definition Del (id : nat) (keys : list string) (subM : subscriptionMap) : subscriptionMap :=
  foldl (fun subM key => match subM !! key with Some m => <[key := m ∖ {[id]}]> subM | None => subM end) subM keys.

Definition Add (id : nat) (keys : list string) (subM : subscriptionMap) : subscriptionMap :=
  foldl (fun subM key =>
    match subM !! key with Some m => <[key := {[id]} ∪ m]> subM | None => <[key := {[id]}]> subM end) subM keys.

(** ** Subscriptions *)

Definition u64 (n : Z) : Z := Z.modulo n (2 ^ 64).
Definition u32 (n : Z) : Z := Z.modulo n (2 ^ 32).

(** Where the goroutine of a subscription is: not started; at its select; with a message it
    has taken, not yet uncounted; about to tell it; pushing it; telling it is pushed, once
    more after a push that failed; draining its queue; returned. *)
Inductive Point :=
| Absent | Selecting | Taken (i : nat) | Notifying (i : nat) | Pushing (i : nat) | Ending (failed : bool) | Draining | Returned.

#[global] Instance Point_eq : EqDecision Point.
Proof. solve_decision. Defined.

(** [cancelled]: the cancel function was called.  [sent] and [received] are the messages the bus
    pushed and the owner read, from the start. *)
Record Subscription := mkSubscription {
  filters : list filter; q : list nat; C : list nat; timeout : time.Duration;
  queuedMin : Z; queuedMax : Z; queuedSize : Z; queued : Z;
  point : Point; cancelled : bool; sent : list nat; received : list nat }.

#[global] Instance eta_Subscription : Eta Subscription := fun r =>
  mkSubscription (filters r) (q r) (C r) (timeout r) (queuedMin r) (queuedMax r) (queuedSize r) (queued r)
    (point r) (cancelled r) (sent r) (received r).
#[global] Instance upd_filters : Upd filters. Proof. derive_upd eta_Subscription. Defined.
#[global] Instance upd_q : Upd q. Proof. derive_upd eta_Subscription. Defined.
#[global] Instance upd_C : Upd C. Proof. derive_upd eta_Subscription. Defined.
#[global] Instance upd_queuedMax : Upd queuedMax. Proof. derive_upd eta_Subscription. Defined.
#[global] Instance upd_queued : Upd queued. Proof. derive_upd eta_Subscription. Defined.
#[global] Instance upd_point : Upd point. Proof. derive_upd eta_Subscription. Defined.
#[global] Instance upd_cancelled : Upd cancelled. Proof. derive_upd eta_Subscription. Defined.
#[global] Instance upd_sent : Upd sent. Proof. derive_upd eta_Subscription. Defined.
#[global] Instance upd_received : Upd received. Proof. derive_upd eta_Subscription. Defined.

Definition newSubscription (timeout : time.Duration) (queueSize : Z) : Subscription :=
  mkSubscription [] [] [] timeout (queueSize / 32) (queueSize / 32) queueSize 0 Absent false [] [].

Definition isFull (sub : Subscription) (ch : list nat) : bool := Z.leb (queuedSize sub) (Z.of_nat (length ch)).

Inductive Level := Debug | Info | Warn.

(** The threshold of a queue that reached a length, and the level it is reported at. *)
Definition threshold (sub : Subscription) (queueLen : Z) : option (Z * Level) :=
  if (queuedMax sub <? queueLen)%Z then
    let inc := (queuedSize sub / 4)%Z in
    let max := u64 (queuedMax sub + inc) in
    let left := u64 (queuedSize sub - max) in
    Some (max, if (left <? inc)%Z then Warn else if (left <? queuedSize sub / 2)%Z then Info else Debug)
  else if ((queuedMin sub <? queueLen) && (queueLen <? queuedMax sub / 4))%Z then
    let max := (queuedMax sub / 8)%Z in
    let left := u64 (queuedSize sub - max) in
    Some (max, if (left <? queuedSize sub / 2)%Z then Info else Debug)
  else None.

(** ** The bus *)

(** What a publication is followed by: the answer to its publisher, or the next buffered one. *)
Inductive Next := Answer | Flush.

(** Where the goroutine of the bus is: waiting for a command; in [doPublication], before a key,
    before a subscription of a key, at the push to its queue; at the push to the buffer; in the
    loop that empties the buffer; returned. *)
Inductive Work :=
| Idle
| Routing (c : cmdPub) (keys : list string) (next : Next)
| Visiting (c : cmdPub) (keys : list string) (ids : list nat) (next : Next)
| Sending (c : cmdPub) (keys : list string) (ids : list nat) (id : nat) (queueLen : Z) (next : Next)
| Buffering (c : cmdPub)
| Flushing
| Gone.

(** The goroutines started: a publication of a new message, the end of a subscription, the check
    of a queue that was full. *)
Inductive Spawned :=
| SpawnPub (typeOf : string) (l : list Label)
| SpawnUnsub (id : nat)
| SpawnCheck (id : nat).

(** The commands that were handled, in order: what the specification is about. *)
Inductive Handled := HAdd (id : nat) (f : filter) | HDel (id : nat) | HPub (c : cmdPub).

Record Sys := mkSys {
  (** the bus *)
  subs : gset nat; subMap : subscriptionMap; done : bool; panicOnFullQueueGraceTime : time.Duration;
  bufferedPublicationCount : Z; bufferedPublicationMax : Z; bufferedPublicationC : list cmdPub;
  bufferedPublicationEnabled : bool; work : Work;
  (** the subscriptions, the identifier of the next one *)
  heap : gmap nat Subscription; fresh : nat;
  (** the goroutines started, the subscriptions [Drain] was called on *)
  spawned : list Spawned; drains : gset nat;
  (** the watch of the notifications *)
  pending : gset nat; watching : bool;
  panicked : bool;
  (** the publications the bus took, the commands it handled *)
  accepted : list cmdPub; handled : list Handled }.

#[global] Instance eta_Sys : Eta Sys := fun r =>
  mkSys (subs r) (subMap r) (done r) (panicOnFullQueueGraceTime r)
    (bufferedPublicationCount r) (bufferedPublicationMax r) (bufferedPublicationC r) (bufferedPublicationEnabled r) (work r)
    (heap r) (fresh r) (spawned r) (drains r) (pending r) (watching r) (panicked r) (accepted r) (handled r).
#[global] Instance upd_subs : Upd subs. Proof. derive_upd eta_Sys. Defined.
#[global] Instance upd_subMap : Upd subMap. Proof. derive_upd eta_Sys. Defined.
#[global] Instance upd_done : Upd done. Proof. derive_upd eta_Sys. Defined.
#[global] Instance upd_bufferedPublicationCount : Upd bufferedPublicationCount. Proof. derive_upd eta_Sys. Defined.
#[global] Instance upd_bufferedPublicationMax : Upd bufferedPublicationMax. Proof. derive_upd eta_Sys. Defined.
#[global] Instance upd_bufferedPublicationC : Upd bufferedPublicationC. Proof. derive_upd eta_Sys. Defined.
#[global] Instance upd_bufferedPublicationEnabled : Upd bufferedPublicationEnabled. Proof. derive_upd eta_Sys. Defined.
#[global] Instance upd_work : Upd work. Proof. derive_upd eta_Sys. Defined.
#[global] Instance upd_heap : Upd heap. Proof. derive_upd eta_Sys. Defined.
#[global] Instance upd_fresh : Upd fresh. Proof. derive_upd eta_Sys. Defined.
#[global] Instance upd_spawned : Upd spawned. Proof. derive_upd eta_Sys. Defined.
#[global] Instance upd_drains : Upd drains. Proof. derive_upd eta_Sys. Defined.
#[global] Instance upd_pending : Upd pending. Proof. derive_upd eta_Sys. Defined.
#[global] Instance upd_watching : Upd watching. Proof. derive_upd eta_Sys. Defined.
#[global] Instance upd_panicked : Upd panicked. Proof. derive_upd eta_Sys. Defined.
#[global] Instance upd_accepted : Upd accepted. Proof. derive_upd eta_Sys. Defined.
#[global] Instance upd_handled : Upd handled. Proof. derive_upd eta_Sys. Defined.

(** [NewBus], [SetPanicOnFullQueue], [Start]. *)
Definition Start (grace : time.Duration) : Sys :=
  mkSys ∅ ∅ false grace 0 0 [] false Idle ∅ 0 [] ∅ ∅ true false [] [].

Definition onSub (id : nat) (f : Subscription -> Subscription) (s : Sys) : Sys := s <| heap ::= alter f id |>.

Definition spawn (x : Spawned) (s : Sys) : Sys := s <| spawned ::= fun l => (l ++ [x])%list |>.

Definition SubscriptionQueueThreshold : string := "*pubsub.SubscriptionQueueThreshold".
Definition SubscriptionError : string := "*pubsub.SubscriptionError".

Definition levelText (l : Level) : string := match l with Debug => "debug" | Info => "info" | Warn => "warn" end.

(** *** The handlers *)

Definition onSubCmd (timeout : time.Duration) (queueSize : Z) (s : Sys) : Sys :=
  let id := fresh s in
  s <| fresh := S id |> <| heap ::= <[id := newSubscription timeout queueSize]> |> <| subs ::= fun x => {[id]} ∪ x |>.

(** The index follows the filters: the key of the subscriptions with no filter goes, theirs come. *)
Definition reindex (id : nat) (l : list filter) (s : Sys) : Sys :=
  onSub id (fun sub => sub <| filters := l |>) s <| subMap ::= fun m => Add id (filtersKeys l) (Del id [":"] m) |>.

Definition onSubAddFilter (id : nat) (f : filter) (s : Sys) : Sys :=
  match heap s !! id with
  | Some sub => if decide (id ∈ subs s) then reindex id (filters sub ++ [f]) s <| handled ::= fun l => (l ++ [HAdd id f])%list |> else s
  | None => s
  end.

Definition onSubDelFilter (id : nat) (c : filter) (s : Sys) : Sys :=
  match heap s !! id with
  | Some sub =>
      if decide (id ∈ subs s) then
        let kept := base.filter (fun f => ~ (dataType f = dataType c /\ Is (labels f) (labels c) = true)) (filters sub) in
        reindex id kept s <| handled ::= fun l => (l ++ [HDel id])%list |>
      else s
  | None => s
  end.

(** The cancel function of a subscription that was not started is nil. *)
Definition onUnsubCmd (id : nat) (s : Sys) : Sys :=
  match heap s !! id with
  | Some sub =>
      if decide (id ∈ subs s) then
        if decide (point sub = Absent) then s <| panicked := true |>
        else
          onSub id (fun sub => sub <| cancelled := true |>) s
            <| subs ::= fun x => x ∖ {[id]} |> <| subMap ::= Del id (filtersKeys (filters sub)) |>
      else s
  | None => s
  end.

Definition enablePublicationBuffering (capacity : Z) (s : Sys) : Sys :=
  if bufferedPublicationEnabled s then s
  else s <| bufferedPublicationEnabled := true |> <| bufferedPublicationMax := capacity |> <| bufferedPublicationC := [] |>.

Definition disablePublicationBuffering (s : Sys) : Sys :=
  if bufferedPublicationEnabled s then s <| work := Flushing |> else s.

Definition doPublication (c : cmdPub) (next : Next) (s : Sys) : Sys :=
  s <| work := Routing c (pubKeys c) next |> <| handled ::= fun l => (l ++ [HPub c])%list |>.

(** [onPubCmd]. *)
Definition onPubCmd (c : cmdPub) (s : Sys) : Sys :=
  let s := s <| accepted ::= fun l => (l ++ [c])%list |> in
  if bufferedPublicationEnabled s then s <| work := Buffering c |> else doPublication c Answer s.

(** *** The steps of the bus *)

(** The push of [doBufferedPublication], and what follows it. *)
Definition bufferStep (c : cmdPub) (s : Sys) : option Sys :=
  if (Z.of_nat (length (bufferedPublicationC s)) <? bufferedPublicationMax s)%Z then
    let s := s <| bufferedPublicationC ::= fun l => (l ++ [c])%list |>
               <| bufferedPublicationCount ::= fun n => u32 (n + 1) |> <| work := Idle |> in
    Some (if (bufferedPublicationMax s <=? bufferedPublicationCount s)%Z then disablePublicationBuffering s else s)
  else None.

(** A round of the loop of [disablePublicationBuffering]. *)
Definition flushStep (s : Sys) : option Sys :=
  match bufferedPublicationC s with
  | [] => None
  | c :: l =>
      Some (doPublication c Flush
              (s <| bufferedPublicationC := l |> <| bufferedPublicationCount ::= fun n => u32 (n - 1) |>))
  end.

(** The end of the loop, when the buffer is empty or the bus is done. *)
Definition flushEnd (s : Sys) : option Sys :=
  if done s || bool_decide (bufferedPublicationC s = []) then
    Some (s <| bufferedPublicationEnabled := false |> <| bufferedPublicationC := [] |> <| work := Idle |>)
  else None.

(** The subscriptions of a key, in an order. *)
Definition routeStep (ids : list nat) (s : Sys) : option Sys :=
  match work s with
  | Routing c [] next => Some (s <| work := match next with Answer => Idle | Flush => Flushing end |>)
  | Routing c (k :: keys) next =>
      match subMap s !! k with
      | Some m => if isOrder ids m then Some (s <| work := Visiting c keys ids next |>) else None
      | None => Some (s <| work := Routing c keys next |>)
      end
  | _ => None
  end.

(** The next subscription of a key: a dead one is skipped. *)
Definition visitStep (s : Sys) : option Sys :=
  match work s with
  | Visiting c keys [] next => Some (s <| work := Routing c keys next |>)
  | Visiting c keys (id :: ids) next =>
      if decide (id ∈ subs s) then
        sub ← heap s !! id;
        let n := u64 (queued sub + 1) in
        Some (onSub id (fun sub => sub <| queued := n |>) s <| work := Sending c keys ids id n next |>)
      else Some (s <| work := Visiting c keys ids next |>)
  | _ => None
  end.

(** The check of a queue that is full, once the grace time is over. *)
Definition fullCheck (id : nat) (sub : Subscription) (queueLen : Z) (s : Sys) : Sys :=
  if ((queuedSize sub <=? queueLen) && (timeout sub =? 0) && (0 <? panicOnFullQueueGraceTime s))%Z
  then spawn (SpawnCheck id) s else s.

(** What follows a push: this check, and the threshold of the queue. *)
Definition afterPush (id : nat) (sub : Subscription) (queueLen : Z) (s : Sys) : Sys :=
  let s := fullCheck id sub queueLen s in
  match threshold sub queueLen with
  | Some (max, level) =>
      spawn (SpawnPub SubscriptionQueueThreshold [("counter", ""); ("level", levelText level)])
        (onSub id (fun sub => sub <| queuedMax := max |>) s)
  | None => s
  end.

(** The push to a queue. *)
Definition sendStep (s : Sys) : option Sys :=
  match work s with
  | Sending c keys ids id queueLen next =>
      sub ← heap s !! id;
      if isFull sub (q sub) then None
      else
        Some (afterPush id sub queueLen
                (onSub id (fun sub => sub <| q ::= fun l => (l ++ [data c])%list |> <| sent ::= fun l => (l ++ [data c])%list |>) s
                   <| work := Visiting c keys ids next |>))
  | _ => None
  end.

(** *** The goroutine of a subscription *)

Definition ctxDone (sub : Subscription) (s : Sys) : bool := cancelled sub || done s.

Definition moveTo (p : Point) (sub : Subscription) : Subscription := sub <| point := p |>.

(** A message is taken from the queue. *)
Definition take1 (sub : Subscription) : option Subscription :=
  match point sub, q sub with
  | Selecting, i :: l => Some (sub <| q := l |> <| point := Taken i |>)
  | _, _ => None
  end.

(** It is uncounted. *)
Definition count1 (sub : Subscription) : option Subscription :=
  match point sub with
  | Taken i => Some (sub <| queued ::= fun n => u64 (n - 1) |> <| point := Notifying i |>)
  | _ => None
  end.

(** It is pushed to the channel of the owner. *)
Definition push1 (sub : Subscription) : option Subscription :=
  match point sub with
  | Pushing i => if isFull sub (C sub) then None else Some (sub <| C ::= fun l => (l ++ [i])%list |> <| point := Ending false |>)
  | _ => None
  end.

(** The push exceeds the timeout. *)
Definition timeOut1 (sub : Subscription) : option Subscription :=
  match point sub with
  | Pushing i => if decide (timeout sub = 0%Z) then None else Some (sub <| cancelled := true |> <| point := Ending true |>)
  | _ => None
  end.

(** A message of the queue is dropped by [drain]. *)
Definition drain1 (sub : Subscription) : option Subscription :=
  match point sub, q sub with
  | Draining, _ :: l => Some (sub <| q := l |> <| queued ::= fun n => u64 (n - 1) |>)
  | _, _ => None
  end.

(** The owner reads a message. *)
Definition receive1 (sub : Subscription) : option Subscription :=
  match C sub with i :: l => Some (sub <| C := l |> <| received ::= fun r => (r ++ [i])%list |>) | [] => None end.

(** [Drain] drops one. *)
Definition discard1 (sub : Subscription) : option Subscription :=
  match C sub with _ :: l => Some (sub <| C := l |>) | [] => None end.

(** A step of a subscription alone. *)
Definition alone (id : nat) (f : Subscription -> option Subscription) (s : Sys) : option Sys :=
  sub ← heap s !! id; sub' ← f sub; Some (s <| heap ::= <[id := sub']> |>).

(** ** The system *)

Inductive Action :=
(** the callers *)
| Sub (timeout : time.Duration) (queueSize : Z)
| AddFilter (id : nat) (dataType : string) (l : list Label)
| DelFilter (id : nat) (dataType : string) (l : list Label)
| StartSub (id : nat)
| StartDone (id : nat)
| Stop (id : nat)
| Pub (v : Messager) (l : list Label) (order : list string)
| EnableBufferPublication (capacity : Z)
| DisableBufferPublication
| StopBus
(** the owner of a subscription *)
| Receive (id : nat) | CallDrain (id : nat) | Discard (id : nat)
(** the bus *)
| Buffer | FlushOne | FlushEnd | Route (ids : list nat) | Visit | Send | Return
(** the goroutine of a subscription *)
| Take (id : nat) | Count (id : nat) | Begin (id : nat) | Push (id : nat) | TimeOut (id : nat) | End (id : nat)
| SubDone (id : nat) | Drop (id : nat) | DrainEnd (id : nat)
(** the goroutines started *)
| RunPub (n : nat) (address : nat) (order : list string) | RunUnsub (n : nat) | RunCheck (n : nat)
(** the watch of the notifications *)
| WatchTick (exceeded : list nat) | WatchEnd.

Definition isIdle (s : Sys) : bool := match work s with Idle => true | _ => false end.

(** The bus takes a command, when it is at its select. *)
Definition serve (f : Sys -> Sys) (s : Sys) : option Sys := if isIdle s then Some (f s) else None.

Definition publish (v : Messager) (l : list Label) (order : list string) (s : Sys) : option Sys :=
  let c := cmdPubFactory v l order in
  if isOrder order (Keys (pubLabels c)) then serve (onPubCmd c) s else None.

(** [Start] of a subscription: one that has no filter asks for every message, and goes on. *)
Definition startSub (id : nat) (s : Sys) : option Sys :=
  sub ← heap s !! id;
  match point sub, filters sub with
  | Absent, [] => serve (onSubAddFilter id (newFilter "" [])) s
  | Absent, _ => Some (onSub id (moveTo Selecting) s)
  | _, _ => None
  end.

(** A bus that is done takes no filter, and the subscription starts with none. *)
Definition startDone (id : nat) (s : Sys) : option Sys :=
  sub ← heap s !! id;
  if done s && bool_decide (point sub = Absent) then Some (onSub id (moveTo Selecting) s) else None.

(** The notification of a message begins. *)
Definition begin (id : nat) (s : Sys) : option Sys :=
  sub ← heap s !! id;
  match point sub with
  | Notifying i => if watching s then Some (onSub id (moveTo (Pushing i)) s <| pending ::= fun x => {[id]} ∪ x |>) else None
  | _ => None
  end.

(** The push of a message exceeds the timeout: its subscription tells it and stops. *)
Definition timeOut (id : nat) (s : Sys) : option Sys :=
  s ← alone id timeOut1 s;
  Some (spawn (SpawnUnsub id) (spawn (SpawnPub SubscriptionError []) s)
          <| drains ::= fun x => {[id]} ∪ x |>).

(** The notification ends, twice when the push failed; or the bus is done. *)
Definition end_ (id : nat) (s : Sys) : option Sys :=
  sub ← heap s !! id;
  match point sub with
  | Ending failed =>
      if watching s then Some (onSub id (moveTo (if failed then Ending false else Selecting)) s <| pending ::= fun x => x ∖ {[id]} |>)
      else None
  | _ => None
  end.

(** The goroutine finds its context, or the one of the bus, done: it returns, after [drain]. *)
Definition subDone (id : nat) (s : Sys) : option Sys :=
  sub ← heap s !! id;
  match point sub with
  | Selecting | Notifying _ => if ctxDone sub s then Some (onSub id (moveTo Draining) s) else None
  | Ending _ => if done s then Some (onSub id (moveTo Draining) s) else None
  | _ => None
  end.

Definition drainEnd (id : nat) (s : Sys) : option Sys :=
  sub ← heap s !! id;
  if decide (point sub = Draining) then Some (onSub id (fun sub => sub <| point := Returned |> <| cancelled := true |>) s) else None.

(** A goroutine that was started, taken out of the list. *)
Definition spawnedAt (n : nat) (s : Sys) : option (Spawned * Sys) :=
  x ← spawned s !! n; Some (x, s <| spawned ::= fun l => (take n l ++ drop (S n) l)%list |>).

(** The check of a queue that was full. *)
Definition check (id : nat) (s : Sys) : Sys :=
  match heap s !! id with
  | Some sub => if (queuedSize sub <=? queued sub)%Z then s <| panicked := true |> else s
  | None => s
  end.

(** A tick of the watch: [exceeded] are the notifications that last, and a subscription that is
    no more is nil. *)
Definition watchTick (exceeded : list nat) (s : Sys) : option Sys :=
  if watching s && forallb (fun id => bool_decide (id ∈ pending s)) exceeded then
    Some (if forallb (fun id => bool_decide (id ∈ subs s)) exceeded then s else s <| panicked := true |>)
  else None.

(** One step, [None] when it is not enabled.  A panic ends the daemon. *)
Definition act (a : Action) (s : Sys) : option Sys :=
  if panicked s then None else
  match a with
  | Sub timeout queueSize =>
      if ((0 <? queueSize) && (queueSize <? 2 ^ 32))%Z then serve (onSubCmd timeout queueSize) s else None
  | AddFilter id dataType l => serve (onSubAddFilter id (newFilter dataType l)) s
  | DelFilter id dataType l => serve (onSubDelFilter id (newFilter dataType l)) s
  | StartSub id => startSub id s
  | StartDone id => startDone id s
  | Stop id => Some (spawn (SpawnUnsub id) s <| drains ::= fun x => {[id]} ∪ x |>)
  | Pub v l order => publish v l order s
  | EnableBufferPublication capacity => serve (enablePublicationBuffering (u32 capacity)) s
  | DisableBufferPublication => serve disablePublicationBuffering s
  | StopBus => Some (s <| done := true |>)
  | Receive id => alone id receive1 s
  | CallDrain id => Some (s <| drains ::= fun x => {[id]} ∪ x |>)
  | Discard id => if decide (id ∈ drains s) then alone id discard1 s else None
  | Buffer => match work s with Buffering c => bufferStep c s | _ => None end
  | FlushOne => match work s with Flushing => flushStep s | _ => None end
  | FlushEnd => match work s with Flushing => flushEnd s | _ => None end
  | Route ids => routeStep ids s
  | Visit => visitStep s
  | Send => sendStep s
  | Return => if isIdle s && done s then Some (s <| work := Gone |>) else None
  | Take id => alone id take1 s
  | Count id => alone id count1 s
  | Begin id => begin id s
  | Push id => alone id push1 s
  | TimeOut id => timeOut id s
  | End id => end_ id s
  | SubDone id => subDone id s
  | Drop id => alone id drain1 s
  | DrainEnd id => drainEnd id s
  | RunPub n address order =>
      '(x, s) ← spawnedAt n s; match x with SpawnPub t l => publish (mkMessager address t None) l order s | _ => None end
  | RunUnsub n => '(x, s) ← spawnedAt n s; match x with SpawnUnsub id => serve (onUnsubCmd id) s | _ => None end
  | RunCheck n => '(x, s) ← spawnedAt n s; match x with SpawnCheck id => Some (check id s) | _ => None end
  | WatchTick exceeded => watchTick exceeded s
  | WatchEnd => match work s with Gone => Some (s <| watching := false |>) | _ => None end
  end.

Fixpoint acts (l : list Action) (s : Sys) : option Sys :=
  match l with [] => Some s | a :: l => s' ← act a s; acts l s' end.

Definition Reachable (s : Sys) : Prop := exists grace l, acts l (Start grace) = Some s.

End pubsub.
