(* ===== verification/PubsubKeys.v ===== *)
(** * util/pubsub: the keys of the filters

    The keys a message is published under are those of the sets of labels it carries, and
    the key of a filter tells the filter, when the names and the values are plain: a message
    is routed by a filter exactly when it has its type and its labels. *)

From S2P Require Import Prelude.
From S2P Require Import Instance.
From S2P Require Import Pubsub.
From Stdlib Require Import Ascii.

Open Scope string_scope.

Module pubsubkeys.

Import pubsub.

(** ** Sorted names *)

Lemma ltb_le x y : String.ltb y x = false <-> String.le x y.
Proof.
  unfold String.le, String.leb, String.ltb. rewrite (String.compare_antisym x y).
  destruct (String.compare y x); simpl; split; intros H; try done.
Qed.

Lemma sortStrings_perm l : sortStrings l ≡ₚ l.
Proof. apply stable_sort_perm. Qed.

Lemma sortStrings_sorted l : StronglySorted String.le (sortStrings l).
Proof.
  assert (Hs : ordered String.ltb (sortStrings l)).
  { apply stable_sort_ordered.
    - intros x y z. rewrite !ltb_le. by intros; etrans.
    - intros x y Hxy. destruct (String.ltb y x) eqn:E; [|done]. exfalso.
      unfold String.ltb in *. rewrite String.compare_antisym in E. by destruct (String.compare x y). }
  unfold ordered in Hs. induction Hs as [|x l' Hs IH Hx]; constructor; [done|].
  eapply Forall_impl; [exact Hx|]. intros y. apply ltb_le.
Qed.

Lemma sorted_unique l1 l2 : StronglySorted String.le l1 -> StronglySorted String.le l2 -> l1 ≡ₚ l2 -> l1 = l2.
Proof. apply (StronglySorted_unique String.le). Qed.

Lemma filter_sorted (P : string -> Prop) `{!forall x, Decision (P x)} l :
  StronglySorted String.le l -> StronglySorted String.le (base.filter P l).
Proof.
  induction 1 as [|x l Hs IH Hx]; [constructor|]. rewrite filter_cons. case_decide; [|done].
  constructor; [done|]. rewrite Forall_forall in *. intros y Hy. apply list_elem_of_filter in Hy as [_ Hy]. auto.
Qed.

Lemma sublist_sorted l1 l2 : l1 `sublist_of` l2 -> StronglySorted String.le l2 -> StronglySorted String.le l1.
Proof.
  induction 1 as [|x l1 l2 Hl IH|x l1 l2 Hl IH]; [constructor| |]; intros Hs; inversion Hs as [|?? Hs2 Hx]; subst; [|auto].
  constructor; [auto|]. rewrite Forall_forall in *. intros y Hy. apply Hx. eapply elem_of_sublist; eauto.
Qed.

(** ** The labels of a map *)

Lemma names_elem t k : k ∈ names t <-> is_Some (t !! k).
Proof.
  unfold names. rewrite sortStrings_perm, list_elem_of_fmap. split.
  - intros ([k' v] & -> & H). apply elem_of_map_to_list in H. by eexists.
  - intros [v H]. exists (k, v). split; [done|]. by apply elem_of_map_to_list.
Qed.

Lemma names_nodup t : NoDup (names t).
Proof. unfold names. rewrite sortStrings_perm. apply NoDup_fst_map_to_list. Qed.

Lemma names_sorted t : StronglySorted String.le (names t).
Proof. apply sortStrings_sorted. Qed.

(** A sorted list without duplicates that has the names of a map is the list of its names. *)
Lemma names_unique t l : StronglySorted String.le l -> NoDup l -> (forall k, k ∈ l <-> is_Some (t !! k)) -> names t = l.
Proof.
  intros Hs Hn Hl. apply sorted_unique; [apply names_sorted|done|].
  apply NoDup_Permutation; [apply names_nodup|done|]. intros k. by rewrite names_elem.
Qed.

Lemma names_sublist (u t : gmap string string) : u ⊆ t -> names u `sublist_of` names t.
Proof.
  intros Hu. replace (names u) with (base.filter (.∈ names u) (names t)).
  - apply sublist_filter.
  - symmetry. apply names_unique.
    + apply filter_sorted, names_sorted.
    + apply NoDup_filter, names_nodup.
    + intros k. rewrite list_elem_of_filter, !names_elem. split; [by intros [? _]|].
      intros [v Hv]. split; [by eexists|]. exists v. by eapply lookup_weaken.
Qed.

(** The labels of a map whose name is in a list. *)
Definition restrict (l : list string) (t : Labels) : Labels := base.filter (fun label => label.1 ∈ l) t.

Lemma restrict_lookup l t k : restrict l t !! k = if decide (k ∈ l) then t !! k else None.
Proof.
  unfold restrict. case_decide as H.
  - destruct (t !! k) as [v|] eqn:E.
    + by apply map_lookup_filter_Some.
    + apply map_lookup_filter_None. by left.
  - apply map_lookup_filter_None. right. intros v _. done.
Qed.

Lemma names_restrict l t : l `sublist_of` names t -> names (restrict l t) = l.
Proof.
  intros Hl. apply names_unique.
  - eapply sublist_sorted; [done|apply names_sorted].
  - eapply sublist_NoDup; [apply names_nodup|done].
  - intros k. rewrite restrict_lookup. case_decide as H; [|by split; [|intros [? [=]]]].
    split; [|done]. intros _. apply names_elem. eapply elem_of_sublist; eauto.
Qed.

(** ** The combinations *)

Lemma helper_elem es cur l : l ∈ helper es cur <-> exists c, c <> [] /\ c `sublist_of` es /\ l = (cur ++ c)%list.
Proof.
  revert cur. induction es as [|e es IH]; intros cur; simpl.
  - split; [by intros ?%elem_of_nil|]. intros (c & Hc & Hs & _). by apply sublist_nil_r in Hs.
  - rewrite elem_of_cons, elem_of_app, !IH. split.
    + intros [->|[(c & Hc & Hs & ->)|(c & Hc & Hs & ->)]].
      * exists [e]. split_and!; [done| |done]. apply sublist_skip, sublist_nil_l.
      * exists (e :: c). split_and!; [done|by apply sublist_skip|by rewrite <- app_assoc].
      * exists c. split_and!; [done|by apply sublist_cons|done].
    + intros (c & Hc & Hs & ->). apply sublist_cons_r in Hs as [Hs|(c' & -> & Hs)].
      * right. right. by exists c.
      * destruct c' as [|e' c']; [by left|]. right. left. exists (e' :: c'). split_and!; [done|done|by rewrite <- app_assoc].
Qed.

Lemma labelText_eq (t u : gmap string string) l : (forall k, k ∈ l -> t !! k = u !! k) -> map (labelText t) l = map (labelText u) l.
Proof. intros H. apply map_ext_in. intros k Hk. unfold labelText. by rewrite H; [|apply list_elem_of_In]. Qed.

(** The keys of the labels of a message are those of the sets of labels it has. *)
Lemma Keys_spec t x : x ∈ Keys t <-> exists u : Labels, u ⊆ t /\ x = Key u.
Proof.
  unfold Keys. rewrite elem_of_union, elem_of_singleton, elem_of_list_to_set, list_elem_of_fmap. split.
  - intros [->|(c & -> & Hc)].
    + exists ∅. split; [apply map_empty_subseteq|done].
    + apply helper_elem in Hc as (c' & _ & Hs & ->). simpl. exists (restrict c' t). split; [apply map_filter_subseteq|].
      unfold Key. rewrite names_restrict by done. f_equal. apply labelText_eq. intros k Hk.
      rewrite restrict_lookup. by rewrite decide_True.
  - intros (u & Hu & ->). destruct (decide (names u = [])) as [E|E].
    + left. unfold Key. by rewrite E.
    + right. exists (names u). split.
      * unfold Key. f_equal. apply labelText_eq. intros k [v Hk]%names_elem. rewrite Hk. symmetry. by eapply lookup_weaken.
      * apply helper_elem. exists (names u). split_and!; [done|by apply names_sublist|done].
Qed.

(** ** Plain names and values *)

Fixpoint without (c : ascii) (s : string) : bool :=
  match s with EmptyString => true | String d s => negb (Ascii.eqb d c) && without c s end.

(** The names have no ["="], the values no ["}"]. *)
Definition plainLabels (t : Labels) : Prop := map_Forall (fun k v => without "=" k = true /\ without "}" v = true) t.

#[global] Instance plainLabels_dec t : Decision (plainLabels t).
Proof. unfold plainLabels. apply _. Defined.

Definition plainFilter (f : filter) : Prop := plainLabels (labels f) /\ without ":" (dataType f) = true.

Definition plainPub (c : cmdPub) : Prop := plainLabels (pubLabels c) /\ without ":" (pubType c) = true /\ pubType c <> "".

#[global] Instance plainFilter_dec f : Decision (plainFilter f).
Proof. unfold plainFilter. apply _. Defined.

#[global] Instance plainPub_dec c : Decision (plainPub c).
Proof. unfold plainPub. apply _. Defined.

Lemma without_split c a b r r' : without c a = true -> without c b = true ->
  a ++ String c r = b ++ String c r' -> a = b /\ r = r'.
Proof.
  revert b. induction a as [|x a IH]; intros [|y b] Ha Hb H; simpl in *.
  - by injection H.
  - injection H as <- _. by rewrite Ascii.eqb_refl in Hb.
  - injection H as -> _. by rewrite Ascii.eqb_refl in Ha.
  - injection H as <- H. apply andb_prop in Ha as [_ Ha]. apply andb_prop in Hb as [_ Hb].
    destruct (IH b Ha Hb H) as [-> ->]. done.
Qed.

Lemma text_app_assoc (a b c : string) : (a ++ b) ++ c = a ++ (b ++ c).
Proof. induction a as [|x a IH]; [done|]. exact (f_equal (String x) IH). Qed.

Lemma labelText_app t k r :
  labelText t k ++ r = String "{" (k ++ String "=" (default "" (t !! k) ++ String "}" r)).
Proof.
  unfold labelText. rewrite !text_app_assoc. exact (f_equal (fun x => "{" ++ k ++ "=" ++ default "" (t !! k) ++ x) (eq_refl ("}" ++ r))).
Qed.

(** A key tells the names and the values it was made from. *)
Lemma concat_inj (t u : gmap string string) l l' : plainLabels t -> plainLabels u ->
  (forall k, k ∈ l -> is_Some (t !! k)) -> (forall k, k ∈ l' -> is_Some (u !! k)) ->
  concat (map (labelText t) l) = concat (map (labelText u) l') -> l = l' /\ (forall k, k ∈ l -> t !! k = u !! k).
Proof.
  intros Ht Hu. revert l'. induction l as [|k l IH]; intros [|k' l'] Hl Hl' H; cbn [map concat foldr] in H; try (by rewrite labelText_app in H).
  - split; [done|]. by intros k ?%elem_of_nil.
  - rewrite !labelText_app in H. injection H as H.
    destruct (Hl k (list_elem_of_here _ _)) as [v Hv]. destruct (Hl' k' (list_elem_of_here _ _)) as [v' Hv'].
    rewrite Hv, Hv' in H. cbn [default from_option id] in H.
    destruct (Ht _ _ Hv) as [Hk Hv1]. destruct (Hu _ _ Hv') as [Hk' Hv1'].
    apply without_split in H as [<- H]; [|done..]. apply without_split in H as [<- H]; [|done..].
    destruct (IH l') as [<- Heq]; [intros; apply Hl; by right|intros; apply Hl'; by right|done|].
    split; [done|]. intros k' [->|Hk'']%elem_of_cons; [by rewrite Hv, Hv'|auto].
Qed.

Lemma Key_inj t u : plainLabels t -> plainLabels u -> Key t = Key u -> t = u.
Proof.
  intros Ht Hu H. unfold Key in H. apply concat_inj in H as [Hn He]; [|done|done|by intros k ?%names_elem..].
  apply map_eq. intros k. destruct (decide (k ∈ names t)) as [Hk|Hk]; [auto|].
  assert (Hku : k ∉ names u) by congruence. rewrite names_elem, <- eq_None_not_Some in Hk, Hku. congruence.
Qed.

Lemma fmtKey_inj d d' t u : without ":" d = true -> without ":" d' = true -> plainLabels t -> plainLabels u ->
  fmtKey d t = fmtKey d' u -> d = d' /\ t = u.
Proof.
  intros Hd Hd' Ht Hu H. unfold fmtKey in H. simpl in H. apply without_split in H as [-> H]; [|done..].
  split; [done|by apply Key_inj].
Qed.

Lemma key_inj f g : plainFilter f -> plainFilter g -> key f = key g -> f = g.
Proof.
  intros [Hf Hf'] [Hg Hg'] H. destruct f, g. apply fmtKey_inj in H as [? ?]; simpl in *; [|done..]. by subst.
Qed.

(** ** Routing *)

(** What a filter asks for: a type, or any; and labels. *)
Definition matches (f : filter) (c : cmdPub) : Prop := (dataType f = "" \/ dataType f = pubType c) /\ labels f ⊆ pubLabels c.

#[global] Instance matches_dec f c : Decision (matches f c).
Proof. unfold matches. apply _. Defined.

(** A publication made by [cmdPubFactory], with the keys of its labels in an order. *)
Definition keyed (c : cmdPub) : Prop :=
  exists order, isOrder order (Keys (pubLabels c)) = true /\ pubKeys c = pubKeysForDatatype (pubType c) order.

Lemma factory_keyed v l order : isOrder order (Keys (pubLabels (cmdPubFactory v l order))) = true ->
  keyed (cmdPubFactory v l order).
Proof. intros H. by exists order. Qed.

Lemma pubKeys_elem c x : keyed c ->
  x ∈ pubKeys c <-> exists u, u ⊆ pubLabels c /\ (x = fmtKey (pubType c) u \/ x = fmtKey "" u).
Proof.
  intros (order & Ho & ->). apply bool_decide_eq_true in Ho as [_ Ho].
  assert (Hk : forall y, y ∈ order <-> exists u : Labels, u ⊆ pubLabels c /\ y = Key u).
  { intros y. rewrite <- Keys_spec, <- Ho, elem_of_list_to_set. done. }
  assert (He : exists y, y ∈ order) by (exists ""; apply Hk; exists ∅; split; [apply map_empty_subseteq|done]).
  destruct order as [|y order]; [by destruct He as [? ?%elem_of_nil]|].
  unfold pubKeysForDatatype. rewrite list_elem_of_In, in_flat_map. unfold fmtKey. split.
  - intros (z & Hz & Hx). apply list_elem_of_In, Hk in Hz as (u & Hu & ->). exists u. split; [done|].
    destruct Hx as [<-|[<-|[]]]; [by left|by right].
  - intros (u & Hu & Hx). exists (Key u). split; [apply list_elem_of_In, Hk; by exists u|].
    destruct Hx as [->| ->]; simpl; auto.
Qed.

Lemma plain_sub (u t : Labels) : u ⊆ t -> plainLabels t -> plainLabels u.
Proof. intros Hu Ht k v Hk. apply (Ht k v). by eapply lookup_weaken. Qed.

Lemma matches_key f c : keyed c -> matches f c -> key f ∈ pubKeys c.
Proof. intros Hc [[E|E] Hl]; apply pubKeys_elem; try done; exists (labels f); unfold key; rewrite E; auto. Qed.

(** The key of a plain filter is among those of the messages it matches, and of no others. *)
Lemma key_matches f c : keyed c -> plainFilter f -> plainPub c -> key f ∈ pubKeys c <-> matches f c.
Proof.
  intros Hc [Hf Hf'] (Hp & Hp' & _). split; [|by apply matches_key].
  intros (u & Hu & Hk)%pubKeys_elem; [|done].
  assert (Hpu : plainLabels u) by (eapply plain_sub; eauto).
  destruct Hk as [Hk|Hk]; apply fmtKey_inj in Hk as [E <-]; try done; split; auto.
Qed.

Lemma flat_map_nodup {A B} (f : A -> list B) l : NoDup l -> (forall x, NoDup (f x)) ->
  (forall x y z, z ∈ f x -> z ∈ f y -> x = y) -> NoDup (flat_map f l).
Proof.
  intros Hl Hf Hd. induction Hl as [|x l Hx Hl IH]; simpl; [constructor|]. apply NoDup_app. split_and!; [done| |done].
  intros z Hz Hz'. rewrite list_elem_of_In in Hz'. apply in_flat_map in Hz' as (y & Hy & Hz').
  apply Hx. rewrite (Hd x y z Hz); [by apply list_elem_of_In|by apply list_elem_of_In].
Qed.

Lemma pubKeys_nodup c : keyed c -> plainPub c -> NoDup (pubKeys c).
Proof.
  intros (order & Ho & ->) (_ & Hw & Hne). apply bool_decide_eq_true in Ho as [Hn _].
  assert (Hd : forall d d' y z, without ":" d = true -> without ":" d' = true -> d ++ ":" ++ y = d' ++ ":" ++ z -> d = d' /\ y = z).
  { intros d d' y z ?? H. simpl in H. by apply without_split in H. }
  destruct order as [|y order].
  - simpl. apply NoDup_cons. split; [|apply NoDup_singleton]. intros H%list_elem_of_singleton.
    apply (Hd (pubType c) "" "" "") in H as [? _]; done.
  - unfold pubKeysForDatatype. apply flat_map_nodup; [done| |].
    + intros x. apply NoDup_cons. split; [|apply NoDup_singleton]. intros H%list_elem_of_singleton.
      apply (Hd (pubType c) "" x x) in H as [? _]; done.
    + intros x x' z. rewrite !elem_of_cons. intros Hx Hx'.
      assert (Hz : exists d, (d = pubType c \/ d = "") /\ z = d ++ ":" ++ x) by (destruct Hx as [->|[->|?%elem_of_nil]]; [eauto| |done]; exists ""; auto).
      assert (Hz' : exists d, (d = pubType c \/ d = "") /\ z = d ++ ":" ++ x') by (destruct Hx' as [->|[->|?%elem_of_nil]]; [eauto| |done]; exists ""; auto).
      destruct Hz as (d & Hdd & ->). destruct Hz' as (d' & Hdd' & H).
      apply Hd in H as [_ H]; [done|destruct Hdd; by subst|destruct Hdd'; by subst].
Qed.

(** ** Equality of labels *)

Lemma Is_spec t u : Is t u = true <-> t = u.
Proof.
  assert (Hin : forall (m : Labels) e, e ∈ (list_to_set (map_to_list m) : gset Label) <-> m !! e.1 = Some e.2).
  { intros m [k v]. rewrite elem_of_list_to_set, elem_of_map_to_list. done. }
  unfold Is. case_bool_decide as H.
  - rewrite bool_decide_eq_true. split; [|intros ->; rewrite difference_diag_L; apply empty_subseteq].
    intros H'. apply map_eq. intros k. apply option_eq. intros v.
    rewrite <- (Hin t (k, v)), <- (Hin u (k, v)). split; [apply H|]. intros Hx.
    destruct (decide ((k, v) ∈ (list_to_set (map_to_list t) : gset Label))) as [?|Hn]; [done|].
    apply H'. by apply elem_of_difference.
  - split; [done|]. intros ->. by destruct H.
Qed.

End pubsubkeys.
