(* ===== verification/PubsubLogic.v ===== *)
(** * util/pubsub: the steps of the bus

    [Step] is [act] with its conditions read off: what a step of a subscription, of the bus
    or of a caller changes.  [Local] is a step of a subscription that leaves the bus alone;
    [Aside] changes nothing of the bus nor of the subscriptions. *)

From S2P Require Import Prelude.
From S2P Require Import Instance.
From S2P Require Import Pubsub.
From S2P Require Import PubsubKeys.

Open Scope string_scope.

Module pubsublogic.

Import pubsub pubsubkeys.

(** A step of the goroutine, or of the owner, of a subscription. *)
Inductive Local (s : Sys) (id : nat) (sub : Subscription) : Subscription -> Prop :=
| l_start : point sub = Absent -> Local s id sub (moveTo Selecting sub)
| l_take sub' : take1 sub = Some sub' -> Local s id sub sub'
| l_count sub' : count1 sub = Some sub' -> Local s id sub sub'
| l_begin i : point sub = Notifying i -> Local s id sub (moveTo (Pushing i) sub)
| l_push sub' : push1 sub = Some sub' -> Local s id sub sub'
| l_timeout sub' : timeOut1 sub = Some sub' -> Local s id sub sub'
| l_end b : point sub = Ending b -> Local s id sub (moveTo (if b then Ending false else Selecting) sub)
| l_done : (point sub = Selecting \/ (exists i, point sub = Notifying i) \/ exists b, point sub = Ending b) -> ctxDone sub s = true ->
    Local s id sub (moveTo Draining sub)
| l_drop sub' : drain1 sub = Some sub' -> Local s id sub sub'
| l_drained : point sub = Draining -> Local s id sub (sub <| point := Returned |> <| cancelled := true |>)
| l_receive sub' : receive1 sub = Some sub' -> Local s id sub sub'
| l_discard sub' : id ∈ drains s -> discard1 sub = Some sub' -> Local s id sub sub'.

(** The bus, its buffer, its index, its subscriptions and what it handled. *)
Definition bus (s : Sys) :=
  (subs s, subMap s, panicOnFullQueueGraceTime s,
   (bufferedPublicationCount s, bufferedPublicationMax s, bufferedPublicationC s, bufferedPublicationEnabled s),
   work s, fresh s, accepted s, handled s).

Record SameBus (s s' : Sys) : Prop := {
  e_subs : subs s' = subs s; e_subMap : subMap s' = subMap s;
  e_grace : panicOnFullQueueGraceTime s' = panicOnFullQueueGraceTime s;
  e_count : bufferedPublicationCount s' = bufferedPublicationCount s;
  e_max : bufferedPublicationMax s' = bufferedPublicationMax s;
  e_buffer : bufferedPublicationC s' = bufferedPublicationC s;
  e_enabled : bufferedPublicationEnabled s' = bufferedPublicationEnabled s;
  e_work : work s' = work s; e_fresh : fresh s' = fresh s; e_accepted : accepted s' = accepted s; e_handled : handled s' = handled s }.

Lemma bus_same s s' : bus s' = bus s -> SameBus s s'.
Proof. unfold bus. intros [=]. by split. Qed.

Definition checks (s : Sys) (id : nat) : Prop := SpawnCheck id ∈ spawned s.

(** Nothing of the bus nor of the subscriptions changes, and the checks of the queues stay. *)
Record Aside (s s' : Sys) : Prop := {
  a_bus : bus s' = bus s;
  a_heap : heap s' = heap s;
  a_done : done s = true -> done s' = true;
  a_drains : drains s ⊆ drains s';
  a_panicked : panicked s = true -> panicked s' = true;
  a_checks : forall id, checks s id -> checks s' id }.

(** Of a step of a subscription, [s1] is the state but for the subscription. *)
Inductive Step (s : Sys) : Sys -> Prop :=
| s_aside s' : Aside s s' -> Step s s'
| s_local id sub sub' s1 : heap s !! id = Some sub -> Local s id sub sub' -> Aside s s1 ->
    Step s (s1 <| heap := <[id := sub']> (heap s) |>)
| s_sub t n : (0 < n < 2 ^ 32)%Z -> work s = Idle -> Step s (onSubCmd t n s)
| s_add id f : work s = Idle -> Step s (onSubAddFilter id f s)
| s_del id c : work s = Idle -> Step s (onSubDelFilter id c s)
| s_unsub id : work s = Idle -> Step s (onUnsubCmd id s)
| s_pub c : keyed c -> work s = Idle -> Step s (onPubCmd c s)
| s_enable n : work s = Idle -> Step s (enablePublicationBuffering (u32 n) s)
| s_disable : work s = Idle -> Step s (disablePublicationBuffering s)
| s_buffer c s' : work s = Buffering c -> bufferStep c s = Some s' -> Step s s'
| s_flush s' : work s = Flushing -> flushStep s = Some s' -> Step s s'
| s_flushed s' : work s = Flushing -> flushEnd s = Some s' -> Step s s'
| s_route ids s' : routeStep ids s = Some s' -> Step s s'
| s_visit s' : visitStep s = Some s' -> Step s s'
| s_send s' : sendStep s = Some s' -> Step s s'
| s_gone : work s = Idle -> Step s (s <| work := Gone |>)
| s_check id s1 : bus s1 = bus s -> heap s1 = heap s -> done s1 = done s -> drains s1 = drains s ->
    panicked s1 = panicked s ->
    (forall id', id' <> id -> checks s id' -> checks s1 id') -> Step s (check id s1).

Lemma Aside_refl s : Aside s s.
Proof. by split. Qed.

Hint Resolve Aside_refl : core.

(** The goroutine taken out of the list. *)
Lemma spawnedAt_spec n s x s1 : spawnedAt n s = Some (x, s1) ->
  bus s1 = bus s /\ heap s1 = heap s /\ done s1 = done s /\ drains s1 = drains s /\ panicked s1 = panicked s /\
  (forall y, y <> x -> y ∈ spawned s -> y ∈ spawned s1).
Proof.
  unfold spawnedAt. destruct (spawned s !! n) as [y|] eqn:E; [|done]. intros [= <- <-]. split_and!; try done.
  intros z Hz Hin. simpl. rewrite <- (take_drop_middle _ _ _ E) in Hin.
  rewrite elem_of_app, elem_of_cons in Hin. rewrite elem_of_app. naive_solver.
Qed.

Lemma spawnedAt_aside n s x s1 : spawnedAt n s = Some (x, s1) -> (forall id, x <> SpawnCheck id) -> Aside s s1.
Proof.
  intros H Hx. apply spawnedAt_spec in H as (H1 & H2 & H3 & H4 & H5 & H6).
  split; [done|done|by rewrite H3|by rewrite H4|by rewrite H5|]. intros id. apply H6. intros E. by apply (Hx id).
Qed.

Lemma idle s : isIdle s = true -> work s = Idle.
Proof. unfold isIdle. by destruct (work s). Qed.

Lemma serve_idle f s s' : serve f s = Some s' -> work s = Idle /\ s' = f s.
Proof. unfold serve. destruct (isIdle s) eqn:E; [|done]. intros [= <-]. split; [by apply idle|done]. Qed.

Lemma onSub_insert id f s sub : heap s !! id = Some sub -> onSub id f s = s <| heap := <[id := f sub]> (heap s) |>.
Proof.
  intros H. assert (E : alter f id (heap s) = <[id := f sub]> (heap s)).
  { apply map_eq. intros j. destruct (decide (j = id)) as [->|Hj].
    - by rewrite lookup_alter_eq, lookup_insert_eq, H.
    - by rewrite lookup_alter_ne, lookup_insert_ne by done. }
  unfold onSub, upd, upd_heap. by rewrite E.
Qed.

Lemma alone_local id f s s' : (forall sub sub', f sub = Some sub' -> Local s id sub sub') -> alone id f s = Some s' -> Step s s'.
Proof.
  intros Hf. unfold alone. destruct (heap s !! id) as [sub|] eqn:E; [|done]. simpl.
  destruct (f sub) as [sub'|] eqn:Ef; [|done]. intros [= <-].
  apply (s_local s id sub sub' s); auto.
Qed.

Lemma publish_step v l order s s' : publish v l order s = Some s' -> Step s s'.
Proof.
  unfold publish. destruct (isOrder _ _) eqn:E; [|done]. intros [Hw ->]%serve_idle.
  apply s_pub; [by apply factory_keyed|done].
Qed.

Lemma startSub_step id s s' : startSub id s = Some s' -> Step s s'.
Proof.
  unfold startSub. destruct (heap s !! id) as [sub|] eqn:E; [|done]. simpl.
  destruct (point sub) eqn:Ep; try done. destruct (filters sub).
  - intros [Hw ->]%serve_idle. by apply s_add.
  - intros [= <-]. erewrite onSub_insert by done. eapply s_local; [done|by apply l_start|done].
Qed.

Lemma startDone_step id s s' : startDone id s = Some s' -> Step s s'.
Proof.
  unfold startDone. destruct (heap s !! id) as [sub|] eqn:E; [|done]. simpl. destruct (done s); [|done].
  case_bool_decide; [|done]. intros [= <-]. erewrite onSub_insert by done. eapply s_local; [done|by apply l_start|done].
Qed.

Lemma begin_step id s s' : begin id s = Some s' -> Step s s'.
Proof.
  unfold begin. destruct (heap s !! id) as [sub|] eqn:E; [|done]. simpl.
  destruct (point sub) eqn:Ep; try done. destruct (watching s); [|done]. intros [= <-]. erewrite onSub_insert by done.
  apply (s_local s id sub _ (s <| pending ::= fun x => {[id]} ∪ x |>)); [done|by apply l_begin|by split].
Qed.

Lemma end_step id s s' : end_ id s = Some s' -> Step s s'.
Proof.
  unfold end_. destruct (heap s !! id) as [sub|] eqn:E; [|done]. simpl.
  destruct (point sub) eqn:Ep; try done. destruct (watching s); [|done]. intros [= <-]. erewrite onSub_insert by done.
  apply (s_local s id sub _ (s <| pending ::= fun x => x ∖ {[id]} |>)); [done|by apply l_end|by split].
Qed.

Lemma timeOut_step id s s' : timeOut id s = Some s' -> Step s s'.
Proof.
  unfold timeOut, alone. destruct (heap s !! id) as [sub|] eqn:E; [|done]. simpl.
  destruct (timeOut1 sub) as [sub'|] eqn:Ef; [|done]. simpl. intros [= <-].
  set (s1 := spawn (SpawnUnsub id) (spawn (SpawnPub SubscriptionError []) s) <| drains ::= fun x => {[id]} ∪ x |>).
  match goal with |- Step s ?x => change x with (s1 <| heap := <[id := sub']> (heap s) |>) end.
  apply (s_local s id sub sub' s1); [done|by apply l_timeout|]. subst s1.
  split; [done|done|done| |done|]; simpl; [set_solver|]. intros id'. unfold checks. simpl. rewrite !elem_of_app. auto.
Qed.

Lemma subDone_step id s s' : subDone id s = Some s' -> Step s s'.
Proof.
  unfold subDone. destruct (heap s !! id) as [sub|] eqn:E; [|done]. simpl.
  assert (Hd : done s = true -> ctxDone sub s = true) by (unfold ctxDone; intros ->; by destruct (cancelled sub)).
  destruct (point sub) eqn:Ep; try done;
    case_match; try done; intros [= <-]; (erewrite onSub_insert by done);
    (eapply s_local; [done|apply l_done; [rewrite Ep; eauto|auto]|done]).
Qed.

Lemma drainEnd_step id s s' : drainEnd id s = Some s' -> Step s s'.
Proof.
  unfold drainEnd. destruct (heap s !! id) as [sub|] eqn:E; [|done]. simpl. case_decide; [|done]. intros [= <-].
  erewrite onSub_insert by done. eapply s_local; [done|by apply l_drained|done].
Qed.

Hint Constructors Local : core.

Lemma rtc_aside s s1 s' : Aside s s1 -> Step s1 s' -> rtc Step s s'.
Proof. intros H1 H2. eapply rtc_l; [by apply s_aside|]. by apply rtc_once. Qed.

Lemma act_steps a s s' : act a s = Some s' -> rtc Step s s'.
Proof.
  unfold act. destruct (panicked s) eqn:Hp; [done|].
  assert (Ho : forall P : Prop, Step s s' -> rtc Step s s') by (intros; by apply rtc_once).
  destruct a; intros H; try (apply rtc_once; first
    [ eapply alone_local in H; [done|eauto; fail] | by eapply publish_step | by eapply startSub_step | by eapply startDone_step | by eapply begin_step
    | by eapply end_step | by eapply timeOut_step | by eapply subDone_step | by eapply drainEnd_step
    | by eapply s_route | by eapply s_visit | by eapply s_send ]).
  - destruct (_ && _)%Z eqn:E; [|done]. apply serve_idle in H as [Hw ->]. apply rtc_once, s_sub; [|done].
    apply andb_prop in E as [E1%Z.ltb_lt E2%Z.ltb_lt]. lia.
  - apply serve_idle in H as [Hw ->]. by apply rtc_once, s_add.
  - apply serve_idle in H as [Hw ->]. by apply rtc_once, s_del.
  - injection H as <-. apply rtc_once, s_aside. split; [done|done|done|simpl; set_solver|done|].
    intros id'. unfold checks. simpl. rewrite elem_of_app. auto.
  - apply serve_idle in H as [Hw ->]. by apply rtc_once, s_enable.
  - apply serve_idle in H as [Hw ->]. by apply rtc_once, s_disable.
  - injection H as <-. by apply rtc_once, s_aside.
  - injection H as <-. apply rtc_once, s_aside. split; [done|done|done|simpl; set_solver|done|done].
  - case_decide; [|done]. eapply alone_local in H; [by apply rtc_once|eauto].
  - destruct (work s) eqn:Ew; try done. apply rtc_once. by eapply s_buffer.
  - destruct (work s) eqn:Ew; try done. apply rtc_once. by eapply s_flush.
  - destruct (work s) eqn:Ew; try done. apply rtc_once. by eapply s_flushed.
  - destruct (isIdle s && done s) eqn:E; [|done]. injection H as <-. apply andb_prop in E as [E _].
    by apply rtc_once, s_gone, idle.
  - destruct (spawnedAt n s) as [[x s1]|] eqn:E; [|done]. simpl in H. destruct x; try done.
    eapply rtc_aside; [by eapply spawnedAt_aside|by eapply publish_step].
  - destruct (spawnedAt n s) as [[x s1]|] eqn:E; [|done]. simpl in H. destruct x; try done.
    apply serve_idle in H as [Hw ->]. eapply rtc_aside; [by eapply spawnedAt_aside|by apply s_unsub].
  - destruct (spawnedAt n s) as [[x s1]|] eqn:E; [|done]. simpl in H. destruct x as [| |id]; try done. injection H as <-.
    apply spawnedAt_spec in E as (H1 & H2 & H3 & H4 & H5 & H6). apply rtc_once, s_check; try done.
    intros id' Hid. apply H6. congruence.
  - unfold watchTick in H. destruct (_ && _); [|done]. apply rtc_once, s_aside. destruct (forallb _ _); injection H as <-; by split.
  - destruct (work s); try done. injection H as <-. by apply rtc_once, s_aside.
Qed.

(** An invariant of the steps holds of every state. *)
Lemma bus_acts_app l l' s : acts (l ++ l') s = acts l s ≫= acts l'.
Proof. revert s. induction l as [|a l IH]; intros s; simpl; [done|]. destruct (act a s); simpl; [apply IH|done]. Qed.

Lemma reach_ind (P : Sys -> Prop) : (forall g, P (Start g)) -> (forall s s', P s -> Step s s' -> P s') ->
  forall s, Reachable s -> P s.
Proof.
  intros H0 HS s (g & l & H).
  assert (Hr : forall x y, rtc Step x y -> P x -> P y) by (induction 1; eauto).
  revert s H. induction l as [|a l IH] using rev_ind; intros s H.
  - simpl in H. injection H as <-. apply H0.
  - rewrite bus_acts_app in H. destruct (acts l (Start g)) as [s1|] eqn:E; [|done]. simpl in H.
    destruct (act a s1) as [s2|] eqn:Ea; [|done]. injection H as <-. apply act_steps in Ea.
    by eapply Hr; [|apply IH].
Qed.

End pubsublogic.
