(* ===== verification/PubsubRoutes.v ===== *)
(** * util/pubsub: what a subscription is sent

    The index says which subscriptions the keys of a publication lead to.  For a
    subscription none of whose filters was removed, it is the keys of its filters, and what
    the bus pushed to it, with what it is about to push, is what [deliver] computes from
    the commands the bus handled: each publication, once per key of the subscription. *)

From S2P Require Import Prelude.
From S2P Require Import Instance.
From S2P Require Import Pubsub.
From S2P Require Import PubsubKeys.
From S2P Require Import PubsubLogic.

Open Scope string_scope.

Module pubsubroutes.

Import pubsub pubsubkeys pubsublogic.

(** ** The index *)

#[local] Arguments Add : simpl never.
#[local] Arguments Del : simpl never.
#[local] Arguments filtersKeys : simpl never.

Definition routes (m : subscriptionMap) (k : string) : gset nat := default ∅ (m !! k).

Lemma routes_insert m k k' x : routes (<[k := x]> m) k' = if decide (k' = k) then x else routes m k'.
Proof. unfold routes. case_decide as H; [by subst; rewrite lookup_insert_eq|by rewrite lookup_insert_ne]. Qed.

Lemma routes_lookup m k x : m !! k = Some x -> routes m k = x.
Proof. unfold routes. by intros ->. Qed.

Lemma Add_routes id keys m k id' :
  id' ∈ routes (Add id keys m) k <-> (id' = id /\ k ∈ keys) \/ id' ∈ routes m k.
Proof.
  unfold Add. revert m. induction keys as [|k0 keys IH]; intros m; simpl; [set_solver|]. rewrite IH, elem_of_cons.
  destruct (m !! k0) as [x|] eqn:E; rewrite routes_insert; case_decide as H; subst; try set_solver;
    unfold routes; rewrite E; set_solver.
Qed.

Lemma Del_routes id keys m k id' :
  id' ∈ routes (Del id keys m) k <-> ~ (id' = id /\ k ∈ keys) /\ id' ∈ routes m k.
Proof.
  unfold Del. revert m. induction keys as [|k0 keys IH]; intros m; simpl; [set_solver|]. rewrite IH, elem_of_cons.
  destruct (m !! k0) as [x|] eqn:E; [|destruct (decide (k = k0)) as [->|]; [unfold routes; rewrite E; set_solver|set_solver]].
  rewrite routes_insert. case_decide as H; subst; [unfold routes; rewrite E|]; set_solver.
Qed.

Lemma filtersKeys_elem l k : l <> [] -> k ∈ filtersKeys l <-> k ∈ map key l.
Proof. intros Hl. destruct l as [|f l]; [done|]. unfold filtersKeys. by rewrite sortStrings_perm. Qed.

(** ** The specification *)

(** The filters added to a subscription. *)
Fixpoint added (id : nat) (h : list Handled) : list filter :=
  match h with
  | [] => []
  | HAdd id' f :: h => if decide (id' = id) then f :: added id h else added id h
  | _ :: h => added id h
  end.

(** What is delivered to a subscription that has some filters, by the commands the bus handles
    then: [hits] is how many times a publication is. *)
Fixpoint deliver (hits : list filter -> cmdPub -> nat) (id : nat) (fs : list filter) (h : list Handled) : list nat :=
  match h with
  | [] => []
  | HAdd id' f :: h => deliver hits id (if decide (id' = id) then fs ++ [f] else fs) h
  | HDel _ :: h => deliver hits id fs h
  | HPub c :: h => replicate (hits fs c) (data c) ++ deliver hits id fs h
  end.

Lemma added_app id h h' : added id (h ++ h') = (added id h ++ added id h')%list.
Proof. induction h as [|[id' f| |c] h IH]; simpl; try done. case_decide; simpl; by rewrite IH. Qed.

Lemma deliver_app hits id fs h h' :
  deliver hits id fs (h ++ h') = (deliver hits id fs h ++ deliver hits id (fs ++ added id h) h')%list.
Proof.
  revert fs. induction h as [|[id' f| |c] h IH]; intros fs; simpl; rewrite ?app_nil_r; try done.
  - rewrite IH. case_decide; [|done]. by rewrite <- app_assoc.
  - by rewrite IH, app_assoc.
Qed.

Lemma added_none id h : (forall f, HAdd id f ∉ h) -> added id h = [].
Proof.
  induction h as [|[id' f| |c] h IH]; simpl; intros H; try (apply IH; intros g Hg; apply (H g); by right); [done|].
  case_decide as E; [|apply IH; intros g Hg; apply (H g); by right]. subst. exfalso. apply (H f). by left.
Qed.

Lemma deliver_none hits id h : (forall c, hits [] c = 0%nat) -> (forall f, HAdd id f ∉ h) -> deliver hits id [] h = [].
Proof.
  intros H0. induction h as [|[id' f| |c] h IH]; simpl; intros H; rewrite ?H0; simpl;
    try (apply IH; intros g Hg; apply (H g); by right); [done|].
  rewrite decide_False; [apply IH; intros g Hg; apply (H g); by right|]. intros ->. apply (H f). by left.
Qed.

(** The keys of a publication that are those of filters. *)
Definition keyHits (fs : list filter) (c : cmdPub) : nat := length (base.filter (fun k => k ∈ map key fs) (pubKeys c)).

Lemma keyHits_nil c : keyHits [] c = 0%nat.
Proof. unfold keyHits. simpl. induction (pubKeys c) as [|k l IH]; [done|]. rewrite filter_cons, decide_False by set_solver. done. Qed.

(** ** What is about to be pushed *)

Definition occurs (id : nat) (ids : list nat) : nat := length (base.filter (fun x => x = id) ids).

Definition leads (id : nat) (m : subscriptionMap) (keys : list string) : nat := length (base.filter (fun k => id ∈ routes m k) keys).

Definition todo (id : nat) (s : Sys) : list nat :=
  match work s with
  | Routing c keys _ => replicate (leads id (subMap s) keys) (data c)
  | Visiting c keys ids _ => replicate (occurs id ids + leads id (subMap s) keys) (data c)
  | Sending c keys ids id' _ _ => replicate (occurs id (id' :: ids) + leads id (subMap s) keys) (data c)
  | _ => []
  end.

Lemma todo_same id s s' : work s' = work s -> subMap s' = subMap s -> todo id s' = todo id s.
Proof. unfold todo. by intros -> ->. Qed.

Lemma occurs_order id ids m : isOrder ids m = true -> occurs id ids = if decide (id ∈ m) then 1%nat else 0%nat.
Proof.
  intros [Hn Hm]%bool_decide_eq_true. subst m. unfold occurs. induction Hn as [|x l Hx Hn IH]; simpl; [by rewrite decide_False by set_solver|].
  rewrite filter_cons. destruct (decide (x = id)) as [->|E].
  - simpl. rewrite IH, decide_False, decide_True by set_solver. done.
  - rewrite IH. apply decide_ext. set_solver.
Qed.

(** ** The invariant *)

Record Routes (s : Sys) : Prop := {
  r_heap : forall id, is_Some (heap s !! id) <-> (id < fresh s)%nat;
  r_subs : forall id, id ∈ subs s -> (id < fresh s)%nat;
  r_index : forall k id, id ∈ routes (subMap s) k -> (id < fresh s)%nat;
  r_added : forall id f, HAdd id f ∈ handled s -> (id < fresh s)%nat;
  (** the filters, and the keys that lead to a subscription *)
  r_filters : forall id sub, heap s !! id = Some sub -> id ∈ subs s -> HDel id ∉ handled s ->
    filters sub = added id (handled s) /\ (forall k, id ∈ routes (subMap s) k <-> k ∈ map key (filters sub));
  r_sent : forall id sub, heap s !! id = Some sub -> id ∈ subs s -> HDel id ∉ handled s ->
    (sent sub ++ todo id s)%list = deliver keyHits id [] (handled s) }.

Lemma Routes_init g : Routes (Start g).
Proof.
  split; simpl.
  - intros id. rewrite lookup_empty. split; [by intros [? ?]|lia].
  - set_solver.
  - intros k id. unfold routes. rewrite lookup_empty. simpl. set_solver.
  - set_solver.
  - intros id sub. by rewrite lookup_empty.
  - intros id sub. by rewrite lookup_empty.
Qed.

(** What is kept of a subscription. *)
Definition kept (sub : Subscription) := (filters sub, sent sub).

Lemma Local_kept s id sub sub' : Local s id sub sub' -> kept sub' = kept sub.
Proof.
  destruct 1; unfold take1, count1, push1, timeOut1, drain1, receive1, discard1 in *; repeat case_match; by simplify_eq.
Qed.

(** A step that changes neither the index, nor the filters, nor what is to be pushed. *)
Lemma Routes_same s s' : Routes s -> subs s' = subs s -> subMap s' = subMap s -> fresh s' = fresh s -> handled s' = handled s ->
  (forall id, id ∈ subs s -> todo id s' = todo id s) ->
  (forall id, kept <$> heap s' !! id = kept <$> heap s !! id) -> Routes s'.
Proof.
  intros [H1 H2 H3 H4 H5 H6] E1 E2 E3 E4 Ht Hh.
  assert (Hg : forall id sub', heap s' !! id = Some sub' -> exists sub, heap s !! id = Some sub /\ kept sub' = kept sub).
  { intros id sub' H. specialize (Hh id). rewrite H in Hh. destruct (heap s !! id) as [sub|]; [|done].
    exists sub. split; [done|]. exact (Some_inj _ _ Hh). }
  split; rewrite ?E1, ?E2, ?E3, ?E4; try done.
  - intros id. rewrite <- H1, <- !(fmap_is_Some kept). by rewrite Hh.
  - intros id sub' (sub & H & [= -> _])%Hg. by apply H5.
  - intros id sub' (sub & H & [= _ ->])%Hg Hs. rewrite Ht by done. by apply H6.
Qed.

Lemma kept_insert s id sub sub' id' : heap s !! id = Some sub -> kept sub' = kept sub ->
  kept <$> <[id := sub']> (heap s) !! id' = kept <$> heap s !! id'.
Proof.
  intros H E. destruct (decide (id' = id)) as [->|Hi]; [by rewrite lookup_insert_eq, H; simpl; rewrite E|by rewrite lookup_insert_ne].
Qed.

(** A publication is about to be pushed as many times as its keys lead to a subscription. *)
Lemma Routes_publish c next s : Routes s -> (forall id, todo id s = []) -> Routes (doPublication c next s).
Proof.
  intros [H1 H2 H3 H4 H5 H6] Ht. split; simpl; try done.
  - intros id f. rewrite elem_of_app, list_elem_of_singleton. intros [H|H]; [by eapply H4|done].
  - intros id sub Hh Hs Hd. rewrite added_app. simpl. rewrite app_nil_r. apply H5; [done|done|]. set_solver.
  - intros id sub Hh Hs Hd. assert (Hd' : HDel id ∉ handled s) by set_solver.
    rewrite deliver_app, <- (H6 id sub), Ht, app_nil_r by done. simpl. rewrite app_nil_r. f_equal.
    destruct (H5 id sub Hh Hs Hd') as [Hf Hk]. unfold todo. simpl. f_equal. unfold leads, keyHits. f_equal.
    apply list_filter_iff. intros k. by rewrite Hk, Hf.
Qed.

Lemma todo_idle id s : work s = Idle -> todo id s = [].
Proof. unfold todo. by intros ->. Qed.

Lemma Routes_sub t n s : Routes s -> work s = Idle -> Routes (onSubCmd t n s).
Proof.
  intros [H1 H2 H3 H4 H5 H6] Hw.
  assert (Hnew : forall id sub, <[fresh s := newSubscription t n]> (heap s) !! id = Some sub ->
    (id = fresh s /\ sub = newSubscription t n) \/ (id <> fresh s /\ heap s !! id = Some sub)).
  { intros id sub [[<- <-]|[Hi H]]%lookup_insert_Some; [by left|right]. done. }
  assert (Ha : forall f, HAdd (fresh s) f ∉ handled s) by (intros f Hf; apply H4 in Hf; lia).
  split; simpl.
  - intros id. destruct (decide (id = fresh s)) as [->|Hi]; [rewrite lookup_insert_eq; split; [lia|by eexists]|].
    rewrite lookup_insert_ne, H1 by done. lia.
  - intros id [->%elem_of_singleton|H%H2]%elem_of_union; lia.
  - intros k id H. apply H3 in H. lia.
  - intros id f H. apply H4 in H. lia.
  - intros id sub [[-> ->]|[Hi H]]%Hnew Hs Hd.
    + rewrite added_none by done. split; [done|]. intros k. simpl. split; [intros H%H3; lia|by intros ?%elem_of_nil].
    + apply H5; [done|set_solver|done].
  - intros id sub [[-> ->]|[Hi H]]%Hnew Hs Hd; unfold todo; simpl; rewrite Hw.
    + rewrite deliver_none; [done|apply keyHits_nil|done].
    + rewrite <- (H6 id sub) by (done || set_solver). unfold todo. by rewrite Hw.
Qed.

(** A change of the filters of a subscription leaves the others. *)
Lemma Routes_reindex id sub l s h : Routes s -> work s = Idle -> heap s !! id = Some sub -> l <> [] \/ h = HDel id ->
  (forall c, h <> HPub c) -> (forall id' f, h = HAdd id' f -> id' = id /\ l = (filters sub ++ [f])%list) ->
  (forall id', h = HDel id' -> id' = id) ->
  Routes (reindex id l s <| handled ::= fun hs => (hs ++ [h])%list |>).
Proof.
  intros [H1 H2 H3 H4 H5 H6] Hw Hh Hl Hp Ha Hd. assert (Hid : (id < fresh s)%nat) by (apply H1; by eexists).
  assert (Hother : forall id' k, id' <> id ->
    id' ∈ routes (Add id (filtersKeys l) (Del id [":"] (subMap s))) k <-> id' ∈ routes (subMap s) k).
  { intros id' k Hi. rewrite Add_routes, Del_routes. naive_solver. }
  assert (Hadd : forall id', id' <> id -> added id' (handled s ++ [h]) = added id' (handled s)).
  { intros id' Hi. rewrite added_app. destruct h as [id0 f|id0|c]; simpl; [|by rewrite app_nil_r|by rewrite app_nil_r].
    destruct (Ha id0 f eq_refl) as [-> _]. rewrite decide_False by done. by rewrite app_nil_r. }
  assert (Hdel : forall id' (fs : list filter), deliver keyHits id' [] (handled s ++ [h]) = deliver keyHits id' [] (handled s)).
  { intros id' _. rewrite deliver_app. destruct h as [id0 f|id0|c]; simpl; [by rewrite app_nil_r..|by destruct (Hp c)]. }
  assert (Hn : forall id', HDel id' ∉ (handled s ++ [h])%list -> (HDel id' ∉ handled s) /\ h <> HDel id') by set_solver.
  split; simpl.
  - intros id'. rewrite lookup_alter_is_Some. apply H1.
  - done.
  - intros k id' [[-> _]|[_ H]%Del_routes]%Add_routes; [done|by apply H3 in H].
  - intros id' f [H|H]%elem_of_app; [by eapply H4|]. apply list_elem_of_singleton in H. destruct (Ha id' f (eq_sym H)) as [-> _]. done.
  - intros id' sub' Hh' Hs' [Hd1 Hd2]%Hn. destruct (decide (id' = id)) as [->|Hi].
    + rewrite lookup_alter_eq, Hh in Hh'. injection Hh' as <-. destruct (H5 id sub Hh Hs' Hd1) as [Hf Hk].
      destruct h as [id0 f|id0|c]; [|by destruct Hd2; rewrite (Hd id0)|by destruct (Hp c)].
      destruct (Ha id0 f eq_refl) as [-> ->]. rewrite added_app. simpl. rewrite decide_True by done. split; [by rewrite Hf|].
      intros k. rewrite Add_routes, Del_routes, Hk, filtersKeys_elem by (by destruct (filters sub)).
      rewrite map_app, elem_of_app. naive_solver.
    + rewrite lookup_alter_ne in Hh' by done. rewrite Hadd by done.
      destruct (H5 id' sub' Hh' Hs' Hd1) as [Hf Hk]. split; [done|]. intros k. by rewrite Hother.
  - intros id' sub' Hh' Hs' [Hd1 Hd2]%Hn. rewrite Hdel by exact []. unfold todo. simpl. rewrite Hw.
    destruct (decide (id' = id)) as [->|Hi].
    + rewrite lookup_alter_eq, Hh in Hh'. injection Hh' as <-. simpl. rewrite <- (H6 id sub) by done. unfold todo. by rewrite Hw.
    + rewrite lookup_alter_ne in Hh' by done. rewrite <- (H6 id' sub') by done. unfold todo. by rewrite Hw.
Qed.

Lemma Routes_unsub id s : Routes s -> work s = Idle -> Routes (onUnsubCmd id s).
Proof.
  intros HR Hw. unfold onUnsubCmd. destruct (heap s !! id) as [sub|] eqn:Hh; [|done].
  case_decide; [|done]. case_decide; [by apply (Routes_same s)|].
  destruct HR as [H1 H2 H3 H4 H5 H6]. split; simpl.
  - intros id'. rewrite lookup_alter_is_Some. apply H1.
  - intros id' Hi. apply H2. set_solver.
  - intros k id' [_ Hi]%Del_routes. by apply H3 in Hi.
  - done.
  - intros id' sub' Hh' Hs' Hd. assert (Hi : id' <> id) by set_solver. rewrite lookup_alter_ne in Hh' by done.
    destruct (H5 id' sub') as [Hf Hk]; [done|set_solver|done|]. split; [done|]. intros k. rewrite Del_routes, Hk. naive_solver.
  - intros id' sub' Hh' Hs' Hd. assert (Hi : id' <> id) by set_solver. rewrite lookup_alter_ne in Hh' by done.
    rewrite <- (H6 id' sub') by (done || set_solver). unfold todo. simpl. by rewrite Hw.
Qed.

(** ** The pushes *)

Lemma occurs_cons id x ids : occurs id (x :: ids) = ((if decide (x = id) then 1 else 0) + occurs id ids)%nat.
Proof. unfold occurs. rewrite filter_cons. by case_decide. Qed.

Lemma leads_cons id m k keys : leads id m (k :: keys) = ((if decide (id ∈ routes m k) then 1 else 0) + leads id m keys)%nat.
Proof. unfold leads. rewrite filter_cons. by case_decide. Qed.

Lemma kept_alter s id f id' : (forall sub, kept (f sub) = kept sub) ->
  kept <$> alter f id (heap s) !! id' = kept <$> heap s !! id'.
Proof.
  intros Hf. destruct (decide (id' = id)) as [->|Hi]; [|by rewrite lookup_alter_ne].
  rewrite lookup_alter_eq. destruct (heap s !! id); simpl; [by rewrite Hf|done].
Qed.

Lemma Routes_route ids s s' : Routes s -> routeStep ids s = Some s' -> Routes s'.
Proof.
  intros HR H. unfold routeStep in H. destruct (work s) as [|c keys next| | | | |] eqn:Hw; try done.
  destruct keys as [|k keys].
  - injection H as <-. apply (Routes_same s); try done. intros id _. unfold todo. rewrite Hw. simpl. by destruct next.
  - destruct (subMap s !! k) as [m|] eqn:Em.
    + destruct (isOrder ids m) eqn:Eo; [|done]. injection H as <-. apply (Routes_same s); try done.
      intros id _. unfold todo. rewrite Hw. simpl. rewrite leads_cons, (occurs_order id ids m Eo), (routes_lookup _ _ _ Em). done.
    + injection H as <-. apply (Routes_same s); try done. intros id _. unfold todo. rewrite Hw. simpl.
      rewrite leads_cons, decide_False; [done|]. unfold routes. rewrite Em. simpl. set_solver.
Qed.

Lemma Routes_visit s s' : Routes s -> visitStep s = Some s' -> Routes s'.
Proof.
  intros HR H. unfold visitStep in H. destruct (work s) as [| |c keys ids next| | | |] eqn:Hw; try done.
  destruct ids as [|id0 ids].
  - injection H as <-. apply (Routes_same s); try done. intros id _. unfold todo. by rewrite Hw.
  - case_decide as Hs.
    + destruct (heap s !! id0) as [sub|] eqn:Hh; [|done]. simpl in H. injection H as <-.
      apply (Routes_same s); try done.
      * intros id _. unfold todo. by rewrite Hw.
      * intros id. simpl. by apply (kept_alter s).
    + injection H as <-. apply (Routes_same s); try done. intros id Hid. unfold todo. rewrite Hw. simpl.
      rewrite occurs_cons, decide_False by (intros ->; done). done.
Qed.

(** What follows a push changes no filter and sends nothing. *)
Lemma afterPush_bus id sub n s : bus (afterPush id sub n s) = bus s /\ done (afterPush id sub n s) = done s /\
  drains (afterPush id sub n s) = drains s.
Proof. unfold afterPush, fullCheck. destruct (threshold sub n) as [[max level]|]; simpl; by case_match. Qed.

Lemma fullCheck_heap id sub n s : heap (fullCheck id sub n s) = heap s.
Proof. unfold fullCheck. by case_match. Qed.

Lemma afterPush_heap id sub n s id' : exists max,
  heap (afterPush id sub n s) !! id' = (fun sub : Subscription => sub <| queuedMax ::= max |>) <$> heap s !! id'.
Proof.
  assert (Hid : forall x : option Subscription, x = (fun sub : Subscription => sub <| queuedMax ::= fun n => n |>) <$> x) by (by intros [[]|]).
  unfold afterPush. destruct (threshold sub n) as [[max level]|].
  - simpl. rewrite fullCheck_heap. destruct (decide (id' = id)) as [->|Hi].
    + exists (fun _ => max). by rewrite lookup_alter_eq.
    + exists (fun n => n). rewrite lookup_alter_ne by done. apply Hid.
  - exists (fun n => n). rewrite fullCheck_heap. apply Hid.
Qed.

Lemma Routes_send s s' : Routes s -> sendStep s = Some s' -> Routes s'.
Proof.
  intros HR H. unfold sendStep in H. destruct (work s) as [| | |c keys ids id0 n next| | |] eqn:Hw; try done.
  destruct (heap s !! id0) as [sub|] eqn:Hh; [|done]. simpl in H. destruct (isFull _ _); [done|]. injection H as <-.
  set (s1 := onSub _ _ _ <| work := _ |>).
  assert (HR1 : Routes s1).
  { destruct HR as [H1 H2 H3 H4 H5 H6].
    assert (Hg : forall id sub', heap s1 !! id = Some sub' -> exists sub, heap s !! id = Some sub /\ filters sub' = filters sub /\
      sent sub' = (sent sub ++ if decide (id0 = id) then [data c] else [])%list).
    { intros id sub' H. subst s1. simpl in H. case_decide as E.
      - subst. rewrite lookup_alter_eq, Hh in H. injection H as <-. by exists sub.
      - rewrite lookup_alter_ne in H by done. exists sub'. by rewrite app_nil_r. }
    split; try done.
    - intros id. subst s1. simpl. rewrite lookup_alter_is_Some. apply H1.
    - intros id sub' (sub1 & E & Ef & _)%Hg Hs Hd. rewrite Ef. by apply H5.
    - intros id sub' (sub1 & E & _ & ->)%Hg Hs Hd. change (handled s1) with (handled s). rewrite <- (H6 id sub1 E Hs Hd).
      unfold todo. subst s1. simpl. rewrite Hw, occurs_cons, <- app_assoc. f_equal. by case_decide. }
  destruct (afterPush_bus id0 sub n s1) as (Eb & _ & _). apply bus_same in Eb as [].
  apply (Routes_same s1); try done.
  - intros id _. by apply todo_same.
  - intros id. destruct (afterPush_heap id0 sub n s1 id) as [max ->]. by destruct (heap s1 !! id).
Qed.

Lemma Routes_step s s' : Routes s -> Step s s' -> Routes s'.
Proof.
  intros HR H. destruct H as [s' [Hb Hh _ _ _ _]|id sub sub' s1 Hs Hl [Hb Hh _ _ _ _]|t n _ Hw|id f Hw|id c Hw|id Hw|c _ Hw|n Hw|Hw
    |c s' Hw H|s' Hw H|s' Hw H|ids s' H|s' H|s' H|Hw|id s1 Hb Hh _ _ _ _].
  - apply bus_same in Hb as []. apply (Routes_same s); try congruence.
    intros id _. by apply todo_same.
  - apply bus_same in Hb as []. apply (Routes_same s); simpl; try congruence.
    + intros id' _. by apply todo_same.
    + intros id'. by apply (kept_insert s id sub); [|eapply Local_kept].
  - by apply Routes_sub.
  - unfold onSubAddFilter. destruct (heap s !! id) as [sub|] eqn:Hh; [|done]. case_decide; [|done].
    eapply Routes_reindex; try done; [left; by destruct (filters sub)|naive_solver].
  - unfold onSubDelFilter. destruct (heap s !! id) as [sub|] eqn:Hh; [|done]. case_decide; [|done].
    eapply Routes_reindex; try done; [by right|naive_solver].
  - by apply Routes_unsub.
  - unfold onPubCmd. simpl. case_match.
    + apply (Routes_same s); try done. intros id _. unfold todo. by rewrite Hw.
    + apply Routes_publish; [|intros id; unfold todo; simpl; by rewrite Hw]. by apply (Routes_same s).
  - unfold enablePublicationBuffering. case_match; [done|]. by apply (Routes_same s).
  - unfold disablePublicationBuffering. case_match; [|done]. apply (Routes_same s); try done. intros id _. unfold todo. by rewrite Hw.
  - unfold bufferStep in H. case_match; [|done]. injection H as <-. unfold disablePublicationBuffering.
    apply (Routes_same s); repeat case_match; try done; intros id _; unfold todo; simpl; by rewrite Hw.
  - unfold flushStep in H. destruct (bufferedPublicationC s) as [|c l]; [done|]. injection H as <-.
    apply Routes_publish; [|intros id; unfold todo; simpl; by rewrite Hw]. by apply (Routes_same s).
  - unfold flushEnd in H. case_match; [|done]. injection H as <-. apply (Routes_same s); try done.
    intros id _. unfold todo. by rewrite Hw.
  - by eapply Routes_route.
  - by eapply Routes_visit.
  - by eapply Routes_send.
  - apply (Routes_same s); try done. intros id _. unfold todo. by rewrite Hw.
  - assert (E : bus (check id s1) = bus s1 /\ heap (check id s1) = heap s1).
    { unfold check. destruct (heap s1 !! id); [|done]. by case_match. }
    destruct E as [E Eh]. rewrite Hb in E. apply bus_same in E as []. apply (Routes_same s); try congruence.
    intros id' _. apply todo_same; congruence.
Qed.

Lemma Reachable_Routes s : Reachable s -> Routes s.
Proof. apply reach_ind; [apply Routes_init|apply Routes_step]. Qed.

End pubsubroutes.
