(* ===== verification/PubsubStages.v ===== *)
(** * util/pubsub: the queues and the buffer

    [Stage] is about one subscription: its messages leave its queue, its goroutine and its
    channel in the order the bus pushed them; the counter of its queue is its length, but
    for the message its goroutine has just taken and the one the bus is pushing; a full
    queue is about to be checked.  [Buffered] is about the buffer of the publications. *)

From S2P Require Import Prelude.
From S2P Require Import Instance.
From S2P Require Import Pubsub.
From S2P Require Import PubsubKeys.
From S2P Require Import PubsubLogic.
From S2P Require Import PubsubRoutes.

Open Scope string_scope.

Module pubsubstages.

Import pubsub pubsubkeys pubsublogic pubsubroutes.

(** ** The subscriptions *)

(** The message the goroutine of a subscription holds. *)
Definition hand (sub : Subscription) : list nat :=
  match point sub with Taken i | Notifying i | Pushing i => [i] | _ => [] end.

Definition inTransit (sub : Subscription) : list nat := (C sub ++ hand sub ++ q sub)%list.

(** A message taken and not yet uncounted. *)
Definition taken (sub : Subscription) : Z := match point sub with Taken _ => 1 | _ => 0 end.

(** The length the queue of a subscription was found to have, while the bus pushes to it. *)
Definition pushing (s : Sys) (id : nat) : option Z :=
  match work s with Sending _ _ _ id' n _ => if decide (id' = id) then Some n else None | _ => None end.

Definition counted (s : Sys) (id : nat) : Z := match pushing s id with Some _ => 1 | None => 0 end.

Definition stopped (sub : Subscription) : bool := cancelled sub || match point sub with Draining | Returned => true | _ => false end.

Record Stage (s : Sys) (id : nat) (sub : Subscription) : Prop := {
  g_order : (received sub ++ inTransit sub)%list `sublist_of` sent sub;
  g_running : timeout sub = 0%Z -> id ∈ subs s -> done s = false -> stopped sub = false;
  g_lossless : timeout sub = 0%Z -> id ∈ subs s -> done s = false -> id ∉ drains s ->
    (received sub ++ inTransit sub)%list = sent sub;
  g_size : (0 < queuedSize sub < 2 ^ 32)%Z /\ (Z.of_nat (length (q sub)) <= queuedSize sub)%Z;
  g_queued : queued sub = (Z.of_nat (length (q sub)) + taken sub + counted s id)%Z;
  g_pushing : forall n, pushing s id = Some n -> (Z.of_nat (length (q sub)) < n)%Z;
  g_watched : timeout sub = 0%Z -> (0 < panicOnFullQueueGraceTime s)%Z -> isFull sub (q sub) = true ->
    checks s id \/ panicked s = true }.

Definition Stages (s : Sys) : Prop := forall id sub, heap s !! id = Some sub -> Stage s id sub.

Lemma Stage_mono s s' id sub : Stage s id sub -> (id ∈ subs s' -> id ∈ subs s) -> (id ∈ drains s -> id ∈ drains s') ->
  (done s = true -> done s' = true) -> pushing s' id = pushing s id ->
  panicOnFullQueueGraceTime s' = panicOnFullQueueGraceTime s -> (checks s id -> checks s' id) ->
  (panicked s = true -> panicked s' = true) -> Stage s' id sub.
Proof.
  intros [H1 H2 H3 H4 H5 H6 H7] Hs Hd Hn Hp Hg Hc Hk. split; try done.
  - intros ? ? ?. apply H2; [done|auto|]. destruct (done s); [|done]. by rewrite Hn in *.
  - intros ? ? ? ?. apply H3; [done|auto| |auto]. destruct (done s); [|done]. by rewrite Hn in *.
  - unfold counted. by rewrite Hp.
  - by rewrite Hp.
  - rewrite Hg. intros. destruct H7 as [?|?]; auto.
Qed.

(** What a subscription was sent and its owner can read. *)
Definition flow (sub : Subscription) : list nat := (received sub ++ inTransit sub)%list.

Ltac local_cases H :=
  destruct H; unfold take1, count1, push1, timeOut1, drain1, receive1, discard1 in *; repeat case_match; simplify_eq.

(** It keeps its order, and loses a message only on a timeout, once stopped, or by a drain. *)
Lemma Local_flow s id sub sub' : Local s id sub sub' ->
  flow sub' `sublist_of` flow sub /\
  (flow sub' = flow sub \/ timeout sub <> 0%Z \/ done s = true \/ stopped sub = true \/ id ∈ drains s).
Proof.
  assert (Hdrop : forall (a b c d : list nat), (a ++ b ++ d)%list `sublist_of` (a ++ b ++ c ++ d)%list).
  { intros a b c d. apply sublist_app; [done|]. apply sublist_app; [done|]. by apply sublist_inserts_l. }
  assert (Hsame : forall x y : list nat, x = y -> x `sublist_of` y) by (by intros x y ->).
  intros H. local_cases H; unfold flow, inTransit, hand, stopped, ctxDone in *; destruct sub; simpl in *; simplify_eq/=;
    rewrite ?app_nil_r, <- ?app_assoc; simpl; rewrite ?app_nil_r, <- ?app_assoc.
  all: try (split; [apply Hsame; reflexivity|by left]).
  all: repeat match goal with H : _ \/ _ |- _ => destruct H | H : exists _, _ |- _ => destruct H end; subst; simpl.
  all: try (split; [apply Hsame; reflexivity|by left]).
  all: split; [first [apply (Hdrop _ _ [_])|by apply sublist_app, sublist_cons]|].
  - by right; left.
  - apply orb_prop in H0 as [->| ->]; [|tauto]. right; right; right; by left.
  - right; right; right; left. apply orb_true_r.
  - tauto.
Qed.

Lemma Local_stopped s id sub sub' : Local s id sub sub' ->
  stopped sub' = true -> stopped sub = true \/ timeout sub <> 0%Z \/ done s = true.
Proof.
  intros H. local_cases H; unfold stopped, ctxDone in *; destruct sub; simpl in *; simplify_eq/=; try (by left); try tauto.
  all: rewrite ?orb_true_r, ?orb_false_r in *; repeat match goal with H : _ || _ = true |- _ => apply orb_prop in H as [H|H] end; subst; simpl; auto.
Qed.

(** What does not change. *)
Lemma Local_fixed s id sub sub' : Local s id sub sub' ->
  timeout sub' = timeout sub /\ queuedSize sub' = queuedSize sub /\ (length (q sub') <= length (q sub))%nat.
Proof. intros H. local_cases H; simpl; repeat match goal with H : q _ = _ |- _ => rewrite H end; simpl; auto with lia. Qed.

Lemma Local_queued s id sub sub' c : Local s id sub sub' -> (0 <= c < 2)%Z ->
  (Z.of_nat (length (q sub)) < 2 ^ 32)%Z ->
  queued sub = (Z.of_nat (length (q sub)) + taken sub + c)%Z -> queued sub' = (Z.of_nat (length (q sub')) + taken sub' + c)%Z.
Proof.
  intros H Hc Hq. local_cases H; unfold taken; destruct sub; simpl in *; simplify_eq/=; intros ->; try lia.
  all: unfold u64; rewrite ?Z.mod_small by lia; try lia.
  destruct H as [->|[[i ->]|[b ->]]]; lia.
Qed.

(** A step of a subscription keeps what holds of it. *)
Lemma Stage_local s id sub sub' : Stage s id sub -> Local s id sub sub' -> Stage s id sub'.
Proof.
  intros [H1 H2 H3 [H4 H4'] H5 H6 H7] HL. destruct (Local_fixed _ _ _ _ HL) as (Et & Es & El).
  destruct (Local_flow _ _ _ _ HL) as [Hf Hl]. assert (Hk := f_equal snd (Local_kept _ _ _ _ HL)). simpl in Hk. split.
  - rewrite Hk. by etrans.
  - rewrite Et. intros Ht Hs Hd. destruct (stopped sub') eqn:E; [|done].
    destruct (Local_stopped _ _ _ _ HL E) as [H|[H|H]]; [by rewrite H2 in H|done|congruence].
  - rewrite Et, Hk. intros Ht Hs Hd Hn. destruct Hl as [Hl|[Hl|[Hl|[Hl|Hl]]]]; [|done|congruence| |done].
    + etrans; [exact Hl|]. by apply H3.
    + by rewrite H2 in Hl.
  - rewrite Es. split; [done|lia].
  - eapply Local_queued; [done| |lia|done]. unfold counted. destruct (pushing s id); lia.
  - intros n Hn. apply H6 in Hn. lia.
  - rewrite Et. intros Ht Hg Hfu. apply H7; [done|done|]. unfold isFull in *. rewrite Es in Hfu. apply Z.leb_le in Hfu.
    apply Z.leb_le. lia.
Qed.

Lemma Stage_max f s id sub : Stage s id sub -> Stage s id (sub <| queuedMax ::= f |>).
Proof. intros []. by split. Qed.

(** ** The steps *)

(** A step that leaves the subscriptions as they are. *)
Lemma Stages_same s s' : Stages s -> heap s' = heap s -> subs s' ⊆ subs s -> drains s ⊆ drains s' ->
  (done s = true -> done s' = true) -> (forall id, pushing s' id = pushing s id) ->
  panicOnFullQueueGraceTime s' = panicOnFullQueueGraceTime s -> (forall id, checks s id -> checks s' id) ->
  (panicked s = true -> panicked s' = true) -> Stages s'.
Proof. intros HS Eh. intros. intros id sub. rewrite Eh. intros Hh. eapply Stage_mono; eauto. Qed.

Lemma Stages_work w s : Stages s -> (forall id, pushing s id = None) ->
  match w with Sending _ _ _ _ _ _ => False | _ => True end -> Stages (s <| work := w |>).
Proof. intros HS Hp Hw. apply (Stages_same s); try done. intros id. rewrite Hp. unfold pushing. simpl. by destruct w. Qed.

Lemma pushing_none s id : match work s with Sending _ _ _ _ _ _ => False | _ => True end -> pushing s id = None.
Proof. unfold pushing. by destruct (work s). Qed.

Lemma Stages_init g : Stages (Start g).
Proof. intros id sub. simpl. by rewrite lookup_empty. Qed.

Lemma Stages_sub t n s : (0 < n < 2 ^ 32)%Z -> Stages s -> Routes s -> work s = Idle -> Stages (onSubCmd t n s).
Proof.
  intros Hn HS HR Hw id sub. simpl. intros [[<- <-]|[Hi H]]%lookup_insert_Some.
  - split; simpl; try done; unfold counted, pushing, isFull, stopped; simpl; rewrite ?Hw; try done.
    + split; [done|lia].
    + intros _ _ H. apply Z.leb_le in H. lia.
  - eapply Stage_mono; [by apply HS|simpl; set_solver|done|done|by unfold pushing; simpl; rewrite Hw|done|done|done].
Qed.

(** A change of the filters. *)
Lemma Stages_reindex id l h s : Stages s -> Stages (reindex id l s <| handled ::= h |>).
Proof.
  intros HS id' sub' H. simpl in H.
  assert (E : exists sub, heap s !! id' = Some sub /\ (sub' = sub \/ sub' = sub <| filters := l |>)).
  { destruct (decide (id' = id)) as [->|Hi]; [|rewrite lookup_alter_ne in H by done; eauto].
    rewrite lookup_alter_eq in H. destruct (heap s !! id) as [sub|]; [|done]. injection H as <-. eauto. }
  destruct E as (sub & Hh & [->| ->]); destruct (HS id' sub Hh); by split.
Qed.

Lemma Stages_unsub id s : Stages s -> work s = Idle -> Stages (onUnsubCmd id s).
Proof.
  intros HS Hw. unfold onUnsubCmd. destruct (heap s !! id) as [sub|] eqn:Hh; [|done].
  case_decide; [|done]. case_decide; [by apply (Stages_same s)|].
  intros id' sub' H'. simpl in H'. destruct (decide (id' = id)) as [->|Hi].
  - rewrite lookup_alter_eq, Hh in H'. injection H' as <-. destruct (HS id sub Hh). split; try done; simpl; set_solver.
  - rewrite lookup_alter_ne in H' by done. eapply Stage_mono; [by apply HS|simpl; set_solver|done..].
Qed.

Lemma Stages_route ids s s' : Stages s -> routeStep ids s = Some s' -> Stages s'.
Proof.
  intros HS H. unfold routeStep in H. destruct (work s) as [|c keys next| | | | |] eqn:Hw; try done.
  assert (Hp : forall id, pushing s id = None) by (intros id; unfold pushing; by rewrite Hw).
  repeat case_match; simplify_eq; by apply Stages_work.
Qed.

Lemma Stages_visit s s' : Stages s -> visitStep s = Some s' -> Stages s'.
Proof.
  intros HS H. unfold visitStep in H. destruct (work s) as [| |c keys ids next| | | |] eqn:Hw; try done.
  assert (Hp : forall id, pushing s id = None) by (intros id; unfold pushing; by rewrite Hw).
  destruct ids as [|id0 ids]; [injection H as <-; by apply Stages_work|].
  case_decide as Hs; [|injection H as <-; by apply Stages_work].
  destruct (heap s !! id0) as [sub|] eqn:Hh; [|done]. simpl in H. injection H as <-.
  intros id sub' H'. simpl in H'. destruct (decide (id = id0)) as [->|Hi].
  - rewrite lookup_alter_eq, Hh in H'. injection H' as <-. destruct (HS id0 sub Hh) as [H1 H2 H3 [H4 H4'] H5 H6 H7].
    unfold counted in H5. rewrite Hp in H5. assert (Ht : (0 <= taken sub < 2)%Z) by (unfold taken; destruct (point sub); lia).
    assert (E : u64 (queued sub + 1) = (queued sub + 1)%Z) by (unfold u64; apply Z.mod_small; lia).
    split; simpl; try done; unfold counted, pushing; simpl; rewrite ?decide_True by done; rewrite E.
    + unfold taken in *. simpl. lia.
    + intros n [= <-]. lia.
  - rewrite lookup_alter_ne in H' by done. eapply Stage_mono; [by apply HS|done..| |done|done|done].
    rewrite Hp. unfold pushing. simpl. by rewrite decide_False by congruence.
Qed.

(** What follows a push keeps the checks, and adds one when the queue was found full. *)
Lemma afterPush_checks id sub n s id' : checks s id' -> checks (afterPush id sub n s) id'.
Proof.
  unfold afterPush, fullCheck, checks. intros H.
  assert (H' : SpawnCheck id' ∈ spawned (fullCheck id sub n s)).
  { unfold fullCheck. case_match; [|done]. simpl. rewrite elem_of_app. by left. }
  destruct (threshold sub n) as [[max level]|]; [|exact H']. simpl. rewrite elem_of_app. by left.
Qed.

Lemma afterPush_check id sub n s : (queuedSize sub <= n)%Z -> timeout sub = 0%Z -> (0 < panicOnFullQueueGraceTime s)%Z ->
  checks (afterPush id sub n s) id.
Proof.
  intros H1 H2 H3. assert (H' : SpawnCheck id ∈ spawned (fullCheck id sub n s)).
  { unfold fullCheck. rewrite (proj2 (Z.leb_le _ _) H1), H2, (proj2 (Z.ltb_lt _ _) H3). simpl. rewrite elem_of_app. right. by left. }
  unfold afterPush, checks. destruct (threshold sub n) as [[max level]|]; [|exact H']. simpl. rewrite elem_of_app. by left.
Qed.

Lemma afterPush_panicked id sub n s : panicked (afterPush id sub n s) = panicked s.
Proof. unfold afterPush, fullCheck. destruct (threshold sub n) as [[max level]|]; simpl; by case_match. Qed.

Lemma pushed_flow i (sub : Subscription) (sub' := sub <| q ::= fun l => (l ++ [i])%list |> <| sent ::= fun l => (l ++ [i])%list |>) :
  (received sub' ++ inTransit sub')%list = ((received sub ++ inTransit sub) ++ [i])%list.
Proof. unfold inTransit, hand, sub'. destruct sub. simpl. by rewrite <- !app_assoc. Qed.

Lemma Stages_send s s' : Stages s -> sendStep s = Some s' -> Stages s'.
Proof.
  intros HS H. unfold sendStep in H. destruct (work s) as [| | |c keys ids id0 n next| | |] eqn:Hw; try done.
  destruct (heap s !! id0) as [sub|] eqn:Hh; [|done]. simpl in H. destruct (isFull _ _) eqn:Hfull; [done|]. injection H as <-.
  set (s1 := onSub _ _ _ <| work := _ |>).
  destruct (afterPush_bus id0 sub n s1) as (Eb & Ed & Er). apply bus_same in Eb as [Es _ Eg _ _ _ _ Ew _ _ _].
  assert (Hc : forall id, checks s id -> checks (afterPush id0 sub n s1) id) by (intros id H; apply afterPush_checks, H).
  assert (Hpan : panicked (afterPush id0 sub n s1) = panicked s) by exact (afterPush_panicked id0 sub n s1).
  assert (Hchk := afterPush_check id0 sub n s1).
  intros id sub' H'. destruct (afterPush_heap id0 sub n s1 id) as [max E]. rewrite E in H'.
  assert (Hpn : forall id, pushing (afterPush id0 sub n s1) id = None) by (intros id1; apply pushing_none; by rewrite Ew).
  set (s2 := afterPush id0 sub n s1) in *. clearbody s2. clear E.
  destruct (heap s1 !! id) as [sub1|] eqn:Hh1; [|done]. injection H' as <-. apply Stage_max. unfold s1 in Hh1. simpl in Hh1.
  change (subs s1) with (subs s) in Es. change (done s1) with (done s) in Ed. change (drains s1) with (drains s) in Er.
  change (panicOnFullQueueGraceTime s1) with (panicOnFullQueueGraceTime s) in Eg, Hchk.
  destruct (decide (id = id0)) as [->|Hi].
  - rewrite lookup_alter_eq, Hh in Hh1. injection Hh1 as <-. destruct (HS id0 sub Hh) as [H1 H2 H3 [H4 H4'] H5 H6 H7].
    assert (Hp : pushing s id0 = Some n) by (unfold pushing; rewrite Hw; by rewrite decide_True).
    unfold counted in H5. rewrite Hp in H5. specialize (H6 n Hp).
    unfold isFull in Hfull. apply Z.leb_gt in Hfull.
    pose proof (pushed_flow (data c) sub) as Hflow. cbv zeta in Hflow.
    split; rewrite ?Hflow; simpl; rewrite ?length_app; simpl; unfold counted; rewrite ?Hpn, ?Es, ?Ed, ?Er, ?Eg; try done.
    + by apply sublist_app.
    + intros Ht Hs Hd Hn. by rewrite <- (H3 Ht Hs Hd Hn).
    + split; [done|lia].
    + unfold taken in *. simpl. lia.
    + intros Ht Hg Hfu. left. apply Hchk; [|done|done]. unfold isFull in Hfu. simpl in Hfu. rewrite length_app in Hfu. simpl in Hfu.
      apply Z.leb_le in Hfu. lia.
  - rewrite lookup_alter_ne in Hh1 by done. eapply Stage_mono; [by apply HS|by rewrite Es|by rewrite Er|by rewrite Ed| |done|by apply Hc|by rewrite Hpan].
    rewrite Hpn. unfold pushing. rewrite Hw. by rewrite decide_False by congruence.
Qed.

Lemma Stages_publication c next s : Stages s -> (forall id, pushing s id = None) -> Stages (doPublication c next s).
Proof. intros HS Hp. apply (Stages_same s); try done; intros id; by rewrite Hp. Qed.

Lemma Stages_check id s s1 : Stages s -> bus s1 = bus s -> heap s1 = heap s -> done s1 = done s -> drains s1 = drains s ->
  panicked s1 = panicked s -> (forall id', id' <> id -> checks s id' -> checks s1 id') -> Stages (check id s1).
Proof.
  intros HS Hb Hh Hd Hr Hp Hc.
  assert (E : bus (check id s1) = bus s1 /\ heap (check id s1) = heap s1 /\ done (check id s1) = done s1 /\ drains (check id s1) = drains s1 /\
    (panicked s1 = true -> panicked (check id s1) = true) /\ spawned (check id s1) = spawned s1).
  { unfold check. destruct (heap s1 !! id); [|done]. by case_match. }
  destruct E as (E1 & E2 & E3 & E4 & E5 & E6). intros id' sub H'. rewrite E2, Hh in H'.
  rewrite Hb in E1. apply bus_same in E1 as [Es _ Eg _ _ _ _ Ew _ _ _].
  assert (Hpp : pushing (check id s1) id' = pushing s id') by (unfold pushing; by rewrite Ew).
  destruct (decide (id' = id)) as [->|Hi].
  - destruct (HS id sub H') as [H1 H2 H3 H4 H5 H6 H7]. split; rewrite ?Es, ?Eg, ?E3, ?Hd, ?E4, ?Hr; try done.
    + unfold counted. by rewrite Hpp.
    + by rewrite Hpp.
    + intros Ht Hg Hf. right. unfold check. rewrite Hh, H'.
      destruct H4 as [H4 _]. assert (queuedSize sub <= queued sub)%Z as Hle.
      { unfold isFull in Hf. apply Z.leb_le in Hf. rewrite H5. unfold taken, counted. destruct (point sub), (pushing s id); lia. }
      by rewrite (proj2 (Z.leb_le _ _) Hle).
  - eapply Stage_mono; [by apply HS|by rewrite Es|by rewrite E4, Hr|by rewrite E3, Hd|done|done| |rewrite <- Hp; exact E5].
    intros H. unfold checks. rewrite E6. by apply Hc.
Qed.

Lemma Stages_step s s' : Routes s -> Stages s -> Step s s' -> Stages s'.
Proof.
  intros HR HS H. destruct H as [s' [Hb Hh Hd Hr Hp Hc]|id sub sub' s1 Hs Hl [Hb Hh Hd Hr Hp Hc]|t n Hn Hw|id f Hw|id c Hw|id Hw|c _ Hw|n Hw|Hw
    |c s' Hw H|s' Hw H|s' Hw H|ids s' H|s' H|s' H|Hw|id s1 Hb Hh Hd Hr Hp Hc].
  - apply bus_same in Hb as []. apply (Stages_same s); try done; [by rewrite e_subs0|].
    intros id. unfold pushing. by rewrite e_work0.
  - apply bus_same in Hb as [Es _ Eg _ _ _ _ Ew _ _ _]. intros id' sub1 H1. simpl in H1.
    assert (Hst : forall sub, Stage s id' sub -> Stage (s1 <| heap := <[id:=sub']> (heap s) |>) id' sub).
    { intros sub2 H2. eapply Stage_mono; [done|simpl; by rewrite Es|by apply Hr|done| |done|apply Hc|done].
      unfold pushing. simpl. by rewrite Ew. }
    apply Hst. apply lookup_insert_Some in H1 as [[<- <-]|[Hi H1]]; [by eapply Stage_local; [apply HS|]|by apply HS].
  - by apply Stages_sub.
  - unfold onSubAddFilter. destruct (heap s !! id); [|done]. case_decide; [|done]. by apply Stages_reindex.
  - unfold onSubDelFilter. destruct (heap s !! id); [|done]. case_decide; [|done]. by apply Stages_reindex.
  - by apply Stages_unsub.
  - assert (Hp : forall id, pushing s id = None) by (intros id; apply pushing_none; by rewrite Hw).
    unfold onPubCmd. simpl. case_match; [|apply Stages_publication; [|done]]; by apply (Stages_same s).
  - unfold enablePublicationBuffering. case_match; [done|]. by apply (Stages_same s).
  - assert (Hp : forall id, pushing s id = None) by (intros id; apply pushing_none; by rewrite Hw).
    unfold disablePublicationBuffering. case_match; [|done]. by apply Stages_work.
  - assert (Hp : forall id, pushing s id = None) by (intros id; apply pushing_none; by rewrite Hw).
    unfold bufferStep in H. case_match; [|done]. injection H as <-. unfold disablePublicationBuffering.
    apply (Stages_same s); repeat case_match; done.
  - assert (Hp : forall id, pushing s id = None) by (intros id; apply pushing_none; by rewrite Hw).
    unfold flushStep in H. destruct (bufferedPublicationC s) as [|c l]; [done|]. injection H as <-.
    apply Stages_publication; [|done]. by apply (Stages_same s).
  - assert (Hp : forall id, pushing s id = None) by (intros id; apply pushing_none; by rewrite Hw).
    unfold flushEnd in H. case_match; [|done]. injection H as <-. by apply (Stages_same s).
  - by eapply Stages_route.
  - by eapply Stages_visit.
  - by eapply Stages_send.
  - assert (Hp : forall id, pushing s id = None) by (intros id; apply pushing_none; by rewrite Hw). by apply Stages_work.
  - by eapply Stages_check.
Qed.

Lemma Reachable_Stages s : Reachable s -> Stages s.
Proof.
  intros H. apply (reach_ind (fun s => Routes s /\ Stages s)) in H; [apply H|intros g; split; [apply Routes_init|apply Stages_init]|].
  intros s1 s2 [HR HS] Hst. split; [by eapply Routes_step|by eapply Stages_step].
Qed.

End pubsubstages.
