(* ===== verification/PubsubSafety.v ===== *)
(** * util/pubsub: what is delivered, and what the queues hold

    [Buffered] is about the buffer of the publications: it is emptied in the order it was
    filled.  The properties of the bus follow, for every interleaving of the publishers, the
    bus, the goroutines of the subscriptions and their owners; then runs of the bus, and what
    happens outside of the conditions of the properties. *)

From S2P Require Import Prelude.
From S2P Require Import Instance.
From S2P Require Import Pubsub.
From S2P Require Import PubsubKeys.
From S2P Require Import PubsubLogic.
From S2P Require Import PubsubRoutes.
From S2P Require Import PubsubStages.

Open Scope string_scope.

Module pubsubsafety.

Import pubsub pubsubkeys pubsublogic pubsubroutes pubsubstages.

(** ** The buffer *)














(** ** What is delivered *)






(** The queue of a subscription is no longer than its size, and its counter is its length, but for
    the message its goroutine has just taken and the one the bus pushes; a full queue with no
    timeout is checked, when the bus panics on these. *)
Theorem queues_bounded s id sub : Reachable s -> heap s !! id = Some sub ->
  (Z.of_nat (length (q sub)) <= queuedSize sub < 2 ^ 32)%Z /\
  (Z.of_nat (length (q sub)) <= queued sub <= Z.of_nat (length (q sub)) + 2)%Z /\
  (timeout sub = 0%Z -> (0 < panicOnFullQueueGraceTime s)%Z -> isFull sub (q sub) = true ->
   SpawnCheck id ∈ spawned s \/ panicked s = true).
Proof.
  intros HR Hh. destruct (Reachable_Stages s HR id sub Hh) as [_ _ _ [H1 H2] H3 _ H4]. split; [lia|]. split; [|done].
  rewrite H3. unfold taken, counted. destruct (point sub), (pushing s id); lia.
Qed.

End pubsubsafety.

(** ** Runs of the bus *)

Module pubsubExample.

Import pubsub pubsubkeys pubsublogic pubsubroutes pubsubstages pubsubsafety.

(** What the goroutine of the bus does next. *)
Definition busNext (s : Sys) : option Action :=
  match work s with
  | Idle | Gone => None
  | Routing c keys _ => Some (Route (match keys with k :: _ => elements (routes (subMap s) k) | [] => [] end))
  | Visiting _ _ _ _ => Some Visit
  | Sending _ _ _ _ _ _ => Some Send
  | Buffering _ => Some Buffer
  | Flushing => Some (match bufferedPublicationC s with [] => FlushEnd | _ => FlushOne end)
  end.

Fixpoint settle (fuel : nat) (s : Sys) : Sys :=
  match fuel with
  | O => s
  | S fuel => match busNext s ≫= fun a => act a s with Some s' => settle fuel s' | None => s end
  end.

(** The actions, after each of which the bus handles its command. *)
Fixpoint run (l : list Action) (s : Sys) : option Sys :=
  match l with [] => Some s | a :: l => s' ← act a s; run l (settle 100 s') end.

Lemma Reachable_act a s s' : Reachable s -> act a s = Some s' -> Reachable s'.
Proof. intros (g & l & H) Ha. exists g, (l ++ [a])%list. rewrite bus_acts_app, H. simpl. by rewrite Ha. Qed.

Lemma Reachable_settle fuel s : Reachable s -> Reachable (settle fuel s).
Proof.
  revert s. induction fuel as [|fuel IH]; intros s H; simpl; [done|].
  destruct (busNext s) as [a|]; simpl; [|done]. destruct (act a s) as [s'|] eqn:E; [|done]. apply IH. by eapply Reachable_act.
Qed.

Lemma Reachable_run l s s' : Reachable s -> run l s = Some s' -> Reachable s'.
Proof.
  revert s. induction l as [|a l IH]; intros s H Hr; cbn [run] in Hr; [by injection Hr as <-|].
  destruct (act a s) as [s1|] eqn:E; [|done]. cbn [mbind option_bind] in Hr. apply (IH _ (Reachable_settle _ _ (Reachable_act _ _ _ H E)) Hr).
Qed.

Definition state (l : list Action) : Sys := default (Start 0%Z) (run l (Start time.Minute)).

Lemma state_reachable l : Reachable (state l).
Proof.
  unfold state. destruct (run l (Start time.Minute)) as [s|] eqn:E; simpl; [|by exists 0%Z, []].
  eapply Reachable_run; [|exact E]. by exists time.Minute, [].
Qed.

Definition statusUpdated : string := "*msgbus.ObjectStatusUpdated".
Definition monitorUpdated : string := "*msgbus.NodeMonitorUpdated".

(** A publication, its keys in the order of a map. *)
Definition pub (address : nat) (typeOf : string) (l : list Label) : Action :=
  Pub (mkMessager address typeOf None) l (elements (Keys (newLabels l))).

(** The rounds of the goroutine of a subscription on a message, and the read of its owner. *)
Definition pump (id : nat) : list Action := [Take id; Count id; Begin id; Push id; End id; Receive id].

(** What the owner of a subscription can read, once it is pushed. *)
Definition readable (id : nat) (s : Sys) : list nat :=
  match heap s !! id with Some sub => (received sub ++ inTransit sub)%list | None => [] end.

Definition path (p : string) : Label := ("path", p).
Definition node (n : string) : Label := ("node", n).

(** A subscription to the statuses of an object, and to all that happens on a node. *)
Definition subscribed : list Action :=
  [Sub 0%Z 64%Z; AddFilter 0 statusUpdated [path "svc1"]; AddFilter 0 "" [node "n1"]; StartSub 0].

Definition delivered : Sys := state (subscribed ++
  [EnableBufferPublication 8%Z; pub 1 statusUpdated [path "svc1"; node "n2"]; pub 2 monitorUpdated [node "n1"]; DisableBufferPublication;
   pub 3 statusUpdated [path "svc2"; node "n2"]; pub 4 statusUpdated [path "svc1"; node "n1"]] ++ pump 0 ++ pump 0).




Lemma queues_bounded_witness : exists sub, heap delivered !! 0%nat = Some sub /\
  (Z.of_nat (length (q sub)) <= queuedSize sub < 2 ^ 32)%Z /\
  (Z.of_nat (length (q sub)) <= queued sub <= Z.of_nat (length (q sub)) + 2)%Z /\
  (timeout sub = 0%Z -> (0 < panicOnFullQueueGraceTime delivered)%Z -> isFull sub (q sub) = true ->
   SpawnCheck 0 ∈ spawned delivered \/ panicked delivered = true).
Proof.
  destruct (heap delivered !! 0%nat) as [sub|] eqn:Hh; [|by vm_compute in Hh]. exists sub. split; [done|].
  apply (queues_bounded delivered 0 sub); [apply state_reachable|done].
Defined.

(** ** Outside of the conditions *)

(** A filter deleted leaves its key in the index: its messages are still delivered. *)
Theorem deleted_filter_routes :
  readable 0 (state (subscribed ++ [DelFilter 0 "" [node "n1"]; pub 2 monitorUpdated [node "n1"]])) = [2%nat].
Proof. vm_compute. reflexivity. Qed.

(** A subscription started with no filter asks for every message; the filters added after do
    not take this back. *)
Theorem started_listens_all :
  readable 0 (state [Sub 0%Z 64%Z; StartSub 0; StartSub 0; AddFilter 0 statusUpdated []; pub 2 monitorUpdated []]) = [2%nat].
Proof. vm_compute. reflexivity. Qed.

(** The stop of a subscription that was not started calls a nil cancel function. *)
Theorem unstarted_stop_panics : panicked (state [Sub 0%Z 64%Z; Stop 0; RunUnsub 0]) = true.
Proof. vm_compute. reflexivity. Qed.

(** The watch reads the name of a subscription that is no more, while its message is pushed. *)
Theorem watch_panics :
  panicked (state (subscribed ++ [pub 2 monitorUpdated [node "n1"]; Take 0; Count 0; Begin 0; Stop 0; RunUnsub 0; WatchTick [0%nat]])) = true.
Proof. vm_compute. reflexivity. Qed.

(** A buffer of no capacity blocks the bus at its first publication. *)
Theorem zero_buffer_blocks :
  let s := state [EnableBufferPublication 0%Z; pub 1 statusUpdated []] in
  match work s with Buffering c => bufferStep c s = None | _ => False end.
Proof. vm_compute. reflexivity. Qed.

(** The last threshold of a queue is above its size: what is left wraps, and the queue that is
    nearly full is reported at the level of debug. *)
Theorem nearly_full_is_debug :
  threshold ((newSubscription 0%Z 4000%Z) <| queuedMax := 3125%Z |>) 3126%Z = Some (4125%Z, Debug).
Proof. vm_compute. reflexivity. Qed.

End pubsubExample.
